(* ===== verification/_CoqProject ===== *)
-Q . S2P
Prelude.v
CLib.v
TcpSocket.v
RingBuffer.v
SockUtil.v
NetUri.v
Timer.v
Coroutine.v
EasyNet.v
NetMgr.v
Tables.v
CtrlCmd.v
RpcMsg.v
EasyRpc.v
Framework.v
Launch.v
MsgLoop.v
CallPath.v
Sample.v
Reactor.v
Servers.v
Lifecycle.v
Connector.v
ConnectorStart.v
ConnectorLoop.v
ClientApi.v
ClientProgram.v
ServerApi.v
Json.v
