(* ===== verification/Prelude.v ===== *)
(** * rapidapp: a verification library

    rapidapp is a framework for network servers in C++ on top of libevent.  A program
    links the framework, implements [RapidApp], and is called when clients connect,
    send or leave, when back ends answer and on every tick; it calls back through
    [IFrameWork].  The repository also holds a server built on it, the connector, which
    stands between clients and back ends, a library for its clients and one for the servers
    behind it.

    ** The parts and how they interact

    The framework ([AppFrameWork]) owns two tables of connections, one of the clients
    it accepted (front ends) and one of the servers it connected to (back ends), the
    timers, the coroutine scheduler and the table of services.  libevent reports bytes
    and events of a connection; the framework finds the connection in its table, cuts
    the bytes into messages and hands them to the application, to a service, or to the
    call that waits for them.  A call to a remote service runs in a coroutine that yields
    until the answer arrives, so a handler that makes a call is suspended in the middle
    of the framework's own loop.  The connector is an application without calls: it
    drives a handshake per client and passes data on.  A process of the framework goes from
    the command line through [Init] and [MainLoop] to [CleanUp]; it shares the files and
    the locks of the machine with other processes, which the options --stop, --restart and
    --reload signal.

    ** Files, sources and correspondence

    - [Prelude] (this file): memory faults, the state monad [M] and [outcome], machine
      integers, bytes and memory, sequences of transitions.
    - [CLib]: the functions of the C library the sources use ([strstr], [strspn],
      [atoi], [htons], decimal printing), executable.
    - [TcpSocket]: utils/tcp_socket.c.  The kernel and the resolver are the record
      [Kernel]; the system calls made are the state.
    - [RingBuffer], [SockUtil]: utils/tsocket_util.h and .cpp.
    - [NetUri]: utils/rap_net_uri.c.
    - [Timer]: framework/rapidapp_easy_timer.*, rapidapp_timer_mgr.*.
    - [Coroutine]: coroutine/mc_coroutine.*: a machine whose saved contexts are
      continuations.  [code] is the code that uses the scheduler, and the type of every
      handler of the framework that may run a callback or a call.
    - [EasyNet]: framework/rapidapp_easy_net.*: connections, bufferevents and contexts in
      one heap; libevent and the allocator are the class [NetEnv].
    - [NetMgr]: framework/rapidapp_net_mgr.*: the table over the hash table's order
      ([HashOrder]).
    - [Tables]: no new code; how the two tables of the framework share the heap, and what
      the methods of [NetMgr] on one of them leave of that.
    - [CtrlCmd]: framework/rapidapp_ctrl_cmd_keyword.* and the control channel of
      framework/rapidapp_framework_imp.cpp.
    - [RpcMsg]: framework/rapidapp_message_reflection.*, rapidapp_rpc_mgr.*, rpc.proto;
      protobuf is the class [Protobuf].
    - [EasyRpc]: framework/rapidapp_easy_rpc.*; its [World] is the memory of a whole
      program.
    - [Framework]: framework/rapidapp_framework_imp.* and rapidapp_interface.h: the
      [IFrameWork] methods, [Tick] and the events.
    - [Launch]: the command line, start-up, main loop and shutdown of
      framework/rapidapp_framework_imp.cpp and framework/rapidapp_core.cpp; the system is
      the class [System].
    - [MsgLoop]: [OnFrontEndMsg], [OnFrontEndRpcMsg] and [OnBackEndMsg] of
      framework/rapidapp_framework_imp.cpp.
    - [CallPath]: no new code; the theorems of [EasyRpc] and [MsgLoop] put together for two
      processes that call each other.
    - [Sample]: sample/server_demo, sample/client_demo and tools/echosvr, as applications
      of the framework; the classes of sample.proto are [SampleProto].
    - [Reactor]: the functions libevent calls (framework/rapidapp_framework_imp.h), the
      events it reports as steps, the whole state of the framework between them, and the
      contract [tame] with the application.
    - [Servers]: no new code; the servers of the repository in the loop of [Reactor].
    - [Lifecycle]: no new code; [Launch] and [Reactor] put together: what the system must
      answer for a server to start, how its loop ends, and what is left when it is gone.
    - [Connector]: server/connector/connector_session.*, connector_app.*, client.proto and
      server.proto.
    - [ConnectorStart]: no new code; [OnInit] of the connector in the framework of [Reactor].
    - [ConnectorLoop]: no new code; the callbacks of the connector in the loop of [Reactor].
    - [ClientApi]: server/connector/client_api/connector_client_api_imp.*: the client's end
      of the handshake, over [SockUtil], and its thread.
    - [ClientProgram]: the outer classes of connector_client_api.*, the test client
      client_api/client_main.cpp with its two threads, and the class for cocos2d.
    - [ServerApi]: server/connector/server_api/* with the server of the repository, which
      answers every client with its own data.
    - [Json]: utils/rapidjson_util.*; rapidjson's parser is the class [JsonParser].

    A method is a definition with the name of the method, where several classes share
    one with the class or an abbreviation in front ([EasyNet_Send], [Session_Init]).
    [this] is an address or, for objects that have no aliases, the state itself; members
    keep their names.  A comment before a definition names the lines it translates.
    Logging is left out, except where the log line uses a pointer ([log_net], [log_uri]):
    that use may fault.  [assert] is on, as in the build without options, in which
    [_DEBUG] is defined.

    The classes are the interfaces to code outside the sources: [Kernel], [NetEnv],
    [HashOrder], [Protobuf], [RpcEnv], [IRpcService], [FrameEnv], [ConnectorProto],
    [System], [JsonParser], [SampleProto], [ConfigFile]; [IConnListener], [IConnSender],
    [IProtocolEventListener] and [IWorkerThreadListener] are those to the users of the two libraries.  A
    class holds answers only; what is relied on is a class of laws of its own
    ([NetEnvOk], [HashOrderOk], [ProtobufOk], [ConnectorProtoWidth], ...: fresh addresses, a
    parser that inverts its serializer, fields of their width), and each has an instance.  The answers may depend on how many were
    given before, so any sequence of successes and failures is covered.  [HashRoom] says up to
    how many elements a hash table does not rehash.  [RapidApp] is the
    interface to the application; [demo_app] and [connector_callbacks] are instances.

    ** What the theorems show

    - The whole framework: [reactor_safe] (over all histories of connects, bytes, ends and
      frames, with an application that keeps to the contract [tame], the tables and the
      heap stay consistent, every callback returns, and each connection's messages are
      handed over once and in order), [echo_clients] (the echo server, for all
      clients at once); [echo_tame] and [demo_tame] say that the echo server and the demo server
      keep to the contract.
      What is taken for granted about the servers behind the back ends is the class [Peers]:
      nothing ([anyone]), or for the connector that they stay connected and never end a session
      ([servers]).
    - Byte streams: [frontend_stream] (the messages a client sent come out of the
      framework's loop whole and in order, however the stream is cut), [send_frame]
      (what is queued is such a stream), [stream_integrity] (the same for the ring buffers)
      and [socket_ops_safe] (no access outside them, but by a push of 2^31 bytes or more), [echo_stream] (a client of
      the echo server gets its own stream back); [short_frame],
      [oversized_frame] and [destroyed_in_handler] show where the loop breaks.
    - Calls: [remote_calls] (calls from one process to another end with the value of the
      service), [requests_served] and [answers_dispatched] (its two halves, for any
      cutting of the streams and any order of the answers), [rpc_call], [rpc_reply],
      [rpc_stray_reply] (an answer resumes exactly the call it belongs to, in any order; an
      answer nobody waits for resumes none), [ping_pong] (the demo client and server),
      [closure_answer] for the server, [rpc_message_roundtrip] for the messages.
    - Coroutines: [coroutine_safe] (no fault, and the table stays right, for any
      program whose coroutines do not resume others, while there are numbers left for new
      ones), [resume_segment], [nested_resume] and [numbers_run_out] (why the two
      restrictions are needed).
    - Connections: [ids_never_stale] (a connection that is gone is never found again by
      its ids, in no later history before the numbers wrap around), [walk_through], [remove_handler],
      [rehash_then_walk]; [frontend_limits], [send_to_backend], [backend_event],
      [create_backend_no_context] for the framework's use of them.
    - Timers: [timer_order] (the vector stays in order, and which one call faults), [add_timer], [remove_timer], [next_timer], [tick_timers].
    - Connector: [session_refinement] (the callbacks refine [up_step] and [down_step],
      which say what a session promises, and end it exactly where they promise nothing),
      [data_after_start] (safety over all sequences of messages), [connector_start] (the back
      ends of the configuration join the tables and, in its order, the set the sessions choose
      from), [connector_clients] (over all histories of a running connector the record of what
      was opened, came and was written accounts for every session: it is where its own messages
      and those the servers really sent have brought it, and the back ends get the messages in
      turn;
      [connector_tame] is its contract with the framework, for the build with [_DEBUG]),
      [client_only_handshake],
      [freed_session_written], [round_robin].
    - Client and server library: [handshake_agreement] (a client that is updated becomes
      ready, with the identification the connector holds), [client_states] (its invariant),
      [data_in_order] (all data sent arrive once and in order), [receive_data],
      [lost_number], [message_ignored], [short_package] (messages the client skips);
      [facade_sessions] (a session behind the outer class is a session of the inner one, and
      is never freed), [second_session_untold], [client_threads] and [hellos_arrive] (the test
      client, for any order of the turns of its threads), [recv_stale];
      [echo_session] (client, connector and server together), [demo_answers].
    - Start-up and shutdown: [echo_process] (the echo server from its command line through
      any history of clients to an exit with an empty heap), [server_start] (the start
      succeeds exactly when every answer of the system that matters is good, and then the
      framework is ready for its loop), [stop_ends_loop] (behind a stop signal the next frame
      ends the loop), [early_stop_lost], [CleanUp_frees], [cmdline_settings],
      [stop_reaches_server] (a server and the process that stops it find each other),
      [restart_stops_only], [resources_released] (what every path of a launch gives back, and the
      one descriptor it may leave open).
    - JSON: [json_writer_exact] (by what the text that is written falls short of the text of the
      tree), [json_roundtrip],
      [int_text], [reader_positions].
    - Parsers: [uri_parse], [uri_socket_type], [uri_socket_addr],
      [tcpsocket_open_proto], [tcpsocket_connect_outcome], [ctrl_command],
      [second_argument_truncated].

    ** Conditions

    The code fails where it fails; the theorems say where it does not, and findings of their own
    show the rest.  The histories of [Reactor] ([history], [possible]) leave out three things that
    break the framework: a message whose length field is 1, 2 or 3 ([short_frame]), an element
    that makes the table of the connections rehash ([room]; [rehash_then_walk]), and more
    connections than an [int] can number ([ids_never_stale]).  Every other stream of bytes, cut in
    any way, is in them.  [writes_succeed] says that what is written to a connection is queued;
    the theorems on whole conversations need it, since a lost message is not sent again.
    Coroutines are given numbers that an [int] holds ([numbers_left]).  A callback that makes a
    call while an answer is dispatched is out ([nested_resume]); the theorems on calls ask for
    callbacks without calls.  What a process holds ([held]) counts the messages and
    the responses of services on its heap, so that a leak of either shows.
    In [Launch] the descriptors of the control sockets are counted apart from the bufferevents
    that close them.

    ** Bounds and fuel

    Loops over data are structural recursion.  Fuel is used in few places.  [frame_loop]
    gets one round more than there are bytes, and every round consumes at least one, so
    it never runs out ([frontend_stream] is stated for this amount).  The
    binary search of [Timer] gets one round more than the vector is long and halves it in
    each; [remove_loop] gets two more and advances in each: their lemmas show that the
    search returns, and that the loop ends, or faults where it leaves the vector.  Twenty
    digits ([udec]) hold any 64-bit integer; [walk_loop] has the 1024 rounds of the
    source.  [timer_loop] of [Tick] has a parameter, and [tick_timers] holds for each value
    of it; in [Reactor] there is no timer, and one round is enough.  [update_loop] of [ClientApi] is given what happens on each of its turns, and
    [update_loop_ends] says that it ends when it is told to stop.  The dispatch loop of
    [Launch] is a parameter of [MainLoop]; [Lifecycle] puts the histories of [Reactor] that
    end with a break ([dispatches]) in its place.  The machine of [Coroutine] is a step function; [runs] asks for a number of
    steps that reaches the end.

    Integers have the width of the source, with the wrap-around written out ([u32], [i32],
    [u64]); sizes are [size_t] of 64 bits, hosts are little-endian.

    ** What is not modelled

    - [InitLogging] and what gflags and glog do with their settings.
    - The main functions of the servers, which call [Run] and return 0; the copies in sdk/,
      which are those files again; the third-party code; framework/rapidapp_easy_action.* and
      rapidapp_event.h, which hold declarations without code.
    - Two threads in the middle of calls on the same object: a turn of [ClientProgram] is a
      whole call, although no lock makes it one.
    - The contents of log lines. *)
From Stdlib Require Import ZArith Lia String Ascii.
From stdpp Require Import base list gmap strings fin_maps.

Local Open Scope Z_scope.

(** ** Faults and the state monad

    Memory errors, failed assertions and calls through null pointers do not
    return: they are values of [fault].  A stateful C++ method is a function of
    type [M S A], which returns a result with the new state or faults. *)

Inductive fault : Set :=
  | AssertFailed      (** [assert] does not hold *)
  | NullDeref         (** a member is used through a null pointer *)
  | UseAfterFree      (** memory is read or written after [delete]/[free] *)
  | OutOfBounds       (** an access outside an array, buffer or vector *)
  | Diverges.         (** the loop does not end within the fuel *)

#[export] Instance fault_eq_dec : EqDecision fault.
Proof. solve_decision. Defined.

Inductive outcome (A : Type) : Type :=
  | Ok (a : A)
  | Fault (f : fault).
Arguments Ok {A} a.
Arguments Fault {A} f.

#[export] Instance outcome_eq_dec {A} `{EqDecision A} : EqDecision (outcome A).
Proof. solve_decision. Defined.

#[export] Instance outcome_ret : MRet outcome := @Ok.
#[export] Instance outcome_bind : MBind outcome := fun A B k m =>
  match m with Ok a => k a | Fault f => Fault f end.

Definition M (S A : Type) : Type := S -> outcome (A * S).

#[export] Instance M_ret {S} : MRet (M S) := fun A a s => Ok (a, s).
#[export] Instance M_bind {S} : MBind (M S) := fun A B k m s =>
  match m s with
  | Ok (a, s') => k a s'
  | Fault f => Fault f
  end.

Definition get {S} : M S S := fun s => Ok (s, s).
Definition put {S} (s : S) : M S unit := fun _ => Ok (tt, s).
Definition gets {S A} (f : S -> A) : M S A := fun s => Ok (f s, s).
Definition modify {S} (f : S -> S) : M S unit := fun s => Ok (tt, f s).
Definition fail {S A} (f : fault) : M S A := fun _ => Fault f.

(** [assert(b)] *)
Definition assertb {S} (b : bool) : M S unit :=
  if b then mret tt else fail AssertFailed.

(** A pointer that is about to be dereferenced. *)
Definition nonnull {S A} (p : option A) : M S A :=
  match p with Some a => mret a | None => fail NullDeref end.

Lemma bind_Ok {S A B} (m : M S A) (k : A -> M S B) s b s' :
  (m ≫= k) s = Ok (b, s') <-> exists a s1, m s = Ok (a, s1) /\ k a s1 = Ok (b, s').
Proof.
  unfold mbind, M_bind. destruct (m s) as [[a s1]|f]; split.
  - eauto.
  - intros (a' & s1' & [= <- <-] & H). exact H.
  - discriminate.
  - intros (a' & s1' & H & _). discriminate.
Qed.

Lemma bind_Fault {S A B} (m : M S A) (k : A -> M S B) s f :
  (m ≫= k) s = Fault f <->
  m s = Fault f \/ exists a s1, m s = Ok (a, s1) /\ k a s1 = Fault f.
Proof.
  unfold mbind, M_bind. destruct (m s) as [[a s1]|f0]; split.
  - intros H. right. eauto.
  - intros [H|(a' & s1' & [= <- <-] & H)]; [discriminate|exact H].
  - intros [= ->]. auto.
  - intros [[= ->]|(a' & s1' & H & _)]; [reflexivity|discriminate].
Qed.

Lemma bind_step {S A B} (m : M S A) (k : A -> M S B) s a s1 :
  m s = Ok (a, s1) -> (m ≫= k) s = k a s1.
Proof. intros H. unfold mbind, M_bind. by rewrite H. Qed.

(** [inv_run H] takes a successful run of a sequence of calls apart. *)
Ltac inv_run1 H :=
  lazymatch type of H with
  | (_ ≫= _) _ = Ok (_, _) =>
      let a := fresh "a" in let s := fresh "s" in
      let H1 := fresh "Hrun" in
      apply bind_Ok in H as (a & s & H1 & H); inv_run1 H1; inv_run1 H
  | mret _ _ = Ok (_, _) => injection H as H; subst
  | get _ = Ok (_, _) => injection H as H; subst
  | put _ _ = Ok (_, _) => injection H as H; subst
  | gets _ _ = Ok (_, _) => injection H as H; subst
  | modify _ _ = Ok (_, _) => injection H as H; subst
  | fail _ _ = Ok (_, _) => discriminate H
  | _ => idtac
  end.
Ltac inv_run H := inv_run1 H.

(** ** Machine integers *)

Definition u8 (z : Z) : Z := z mod 256.
Definition u16 (z : Z) : Z := z mod 65536.
Definition u32 (z : Z) : Z := z mod 4294967296.
Definition u64 (z : Z) : Z := z mod 18446744073709551616.
Definition i32 (z : Z) : Z := (z + 2147483648) mod 4294967296 - 2147483648.
Definition i64 (z : Z) : Z :=
  (z + 9223372036854775808) mod 18446744073709551616 - 9223372036854775808.

(** Linear arithmetic with the wrap-around written out. *)
Ltac int_lia :=
  unfold u8, u16, u32, u64, i32, i64 in *; Z.div_mod_to_equations; lia.

Lemma u8_range z : 0 <= u8 z < 256.                   Proof. int_lia. Qed.
Lemma u16_range z : 0 <= u16 z < 65536.               Proof. int_lia. Qed.
Lemma u32_range z : 0 <= u32 z < 4294967296.          Proof. int_lia. Qed.
Lemma u64_range z : 0 <= u64 z < 18446744073709551616. Proof. int_lia. Qed.
Lemma i32_range z : -2147483648 <= i32 z < 2147483648. Proof. int_lia. Qed.

Lemma u16_id z : 0 <= z < 65536 -> u16 z = z.
Proof. apply Z.mod_small. Qed.
Lemma u32_id z : 0 <= z < 4294967296 -> u32 z = z.
Proof. apply Z.mod_small. Qed.
Lemma u64_id z : 0 <= z < 18446744073709551616 -> u64 z = z.
Proof. apply Z.mod_small. Qed.
Lemma i32_id z : -2147483648 <= z < 2147483648 -> i32 z = z.
Proof. intros. unfold i32. rewrite Z.mod_small; lia. Qed.
Lemma i64_id z :
  -9223372036854775808 <= z < 9223372036854775808 -> i64 z = z.
Proof. intros. unfold i64. rewrite Z.mod_small; lia. Qed.

Create HintDb rapid.
Create Rewrite HintDb rapid.
#[export] Hint Resolve u8_range u16_range u32_range u64_range i32_range : rapid.
#[export] Hint Rewrite u32_id u64_id i32_id i64_id using lia : rapid.

(** ** Bytes

    A buffer is a list of bytes, a byte a [Z] in [0, 256). *)

Abbreviation bytes := (list Z).

Definition is_byte (b : Z) : Prop := 0 <= b < 256.
Definition is_bytes (l : bytes) : Prop := Forall is_byte l.

Definition blen (l : bytes) : Z := Z.of_nat (length l).

(** The memory of a 32-bit integer on the little-endian hosts the program is
    built for, and the value read back from four bytes of memory. *)
Definition store32 (w : Z) : bytes :=
  [w mod 256; w / 256 mod 256; w / 65536 mod 256; w / 16777216 mod 256].
Definition load32 (l : bytes) : Z :=
  match l with
  | b0 :: b1 :: b2 :: b3 :: _ => b0 + 256 * b1 + 65536 * b2 + 16777216 * b3
  | _ => 0
  end.

(** [htonl] and [ntohl]: the byte swap of a 32-bit word. *)
Definition bswap32 (w : Z) : Z :=
  w mod 256 * 16777216 + w / 256 mod 256 * 65536
  + w / 65536 mod 256 * 256 + w / 16777216 mod 256.
Definition htonl (w : Z) : Z := bswap32 (u32 w).
Definition ntohl (w : Z) : Z := bswap32 (u32 w).

Lemma store32_length w : length (store32 w) = 4%nat.
Proof. reflexivity. Qed.
Lemma store32_bytes w : is_bytes (store32 w).
Proof. repeat constructor; unfold is_byte; Z.div_mod_to_equations; lia. Qed.
#[export] Hint Resolve store32_bytes : rapid.

Lemma load32_store32 w rest : 0 <= w < 4294967296 -> load32 (store32 w ++ rest) = w.
Proof. intros. unfold load32, store32; simpl. Z.div_mod_to_equations; lia. Qed.

Lemma bswap32_involutive w : 0 <= w < 4294967296 -> bswap32 (bswap32 w) = w.
Proof.
  intros Hw. unfold bswap32.
  set (b0 := w mod 256). set (b1 := w / 256 mod 256).
  set (b2 := w / 65536 mod 256). set (b3 := w / 16777216 mod 256).
  assert (0 <= b0 < 256 /\ 0 <= b1 < 256 /\ 0 <= b2 < 256 /\ 0 <= b3 < 256)
    by (subst b0 b1 b2 b3; Z.div_mod_to_equations; lia).
  assert (Hsum : w = b0 + 256 * b1 + 65536 * b2 + 16777216 * b3)
    by (subst b0 b1 b2 b3; Z.div_mod_to_equations; lia).
  clearbody b0 b1 b2 b3. subst w. Z.div_mod_to_equations; lia.
Qed.

Lemma bswap32_range w : 0 <= bswap32 w < 4294967296.
Proof. unfold bswap32. Z.div_mod_to_equations; lia. Qed.

(** What [ntohl] reads back from the memory [htonl] was stored to. *)
Lemma ntohl_htonl w rest :
  0 <= w < 4294967296 -> ntohl (load32 (store32 (htonl w) ++ rest)) = w.
Proof.
  intros Hw. unfold htonl, ntohl. pose proof (bswap32_range w).
  rewrite (u32_id w) by lia. rewrite load32_store32 by lia.
  rewrite u32_id by lia. by apply bswap32_involutive.
Qed.

Lemma load32_app l rest : (4 <= length l)%nat -> load32 (l ++ rest) = load32 l.
Proof.
  destruct l as [|? [|? [|? [|? ?]]]]; simpl; intros; try lia; reflexivity.
Qed.

(** ** Memory

    [mem_read buf off n] is the slice of [n] bytes at [off]; [mem_write] stores a
    slice.  Both fault outside the buffer. *)

Definition slice (l : bytes) (off n : Z) : bytes :=
  take (Z.to_nat n) (drop (Z.to_nat off) l).

Definition mem_read (buf : bytes) (off n : Z) : outcome bytes :=
  if bool_decide (0 <= off /\ 0 <= n /\ off + n <= blen buf)
  then Ok (slice buf off n) else Fault OutOfBounds.

Definition splice (buf : bytes) (off : Z) (data : bytes) : bytes :=
  take (Z.to_nat off) buf ++ data ++ drop (Z.to_nat off + length data) buf.

Definition mem_write (buf : bytes) (off : Z) (data : bytes) : outcome bytes :=
  if bool_decide (0 <= off /\ off + blen data <= blen buf)
  then Ok (splice buf off data) else Fault OutOfBounds.

Lemma splice_length buf off data :
  0 <= off -> off + blen data <= blen buf -> length (splice buf off data) = length buf.
Proof.
  unfold splice, blen. intros. rewrite !length_app, length_take, length_drop. lia.
Qed.

(** Writing behind a slice that ends where the write begins extends it. *)
Lemma slice_splice buf b e data :
  0 <= b <= e -> e + blen data <= blen buf ->
  slice (splice buf e data) b (e + blen data - b) = slice buf b (e - b) ++ data.
Proof.
  unfold slice, splice, blen. intros Hb He.
  rewrite drop_app_le by (rewrite length_take; lia).
  rewrite skipn_firstn_comm.
  assert (Hl : length (take (Z.to_nat e - Z.to_nat b) (drop (Z.to_nat b) buf))
               = (Z.to_nat e - Z.to_nat b)%nat)
    by (rewrite length_take, length_drop; lia).
  rewrite take_app_ge by lia. rewrite Hl.
  replace (Z.to_nat (e - b)) with (Z.to_nat e - Z.to_nat b)%nat by lia.
  f_equal. rewrite take_app_le by lia. apply take_ge. lia.
Qed.

Lemma slice_length buf off n :
  0 <= off -> 0 <= n -> off + n <= blen buf -> blen (slice buf off n) = n.
Proof. unfold slice, blen. intros. rewrite length_take, length_drop. lia. Qed.

Lemma slice_nil buf off : slice buf off 0 = [].
Proof. done. Qed.

Lemma slice_split buf off n k :
  0 <= off -> 0 <= k <= n ->
  slice buf off n = slice buf off k ++ slice buf (off + k) (n - k).
Proof.
  unfold slice. intros.
  replace (Z.to_nat (off + k)) with (Z.to_nat off + Z.to_nat k)%nat by lia.
  rewrite <- drop_drop.
  replace (Z.to_nat n) with (Z.to_nat k + Z.to_nat (n - k))%nat by lia.
  by rewrite <- take_take_drop.
Qed.

Lemma is_bytes_app l1 l2 : is_bytes (l1 ++ l2) <-> is_bytes l1 /\ is_bytes l2.
Proof. apply Forall_app. Qed.

(** ** Sequences of transitions *)

Inductive star {A : Type} (R : A -> A -> Prop) : A -> A -> Prop :=
  | star_refl a : star R a a
  | star_step a b c : R a b -> star R b c -> star R a c.

Lemma star_one {A} (R : A -> A -> Prop) a b : R a b -> star R a b.
Proof. eauto using star. Qed.

Lemma star_trans {A} (R : A -> A -> Prop) a b c : star R a b -> star R b c -> star R a c.
Proof. induction 1; eauto using star. Qed.

(** Rule induction for an invariant of the reachable states. *)
Lemma star_invariant {A} (R : A -> A -> Prop) (P : A -> Prop) :
  (forall a b, P a -> R a b -> P b) ->
  forall a b, star R a b -> P a -> P b.
Proof. intros HR a b. induction 1; eauto. Qed.

#[export] Hint Constructors star : rapid.

(** A text constant of the source as bytes. *)
Definition bytes_of_string (s : string) : bytes :=
  List.map (fun c => Z.of_N (N_of_ascii c)) (list_ascii_of_string s).

(** A computation without state in a stateful method. *)
Definition lift {S A} (o : outcome A) : M S A := fun s =>
  match o with Ok a => Ok (a, s) | Fault f => Fault f end.

Lemma lift_Ok {S A} (o : outcome A) (s : S) a s' :
  lift o s = Ok (a, s') <-> o = Ok a /\ s' = s.
Proof.
  unfold lift. destruct o; split; try done.
  - by intros [= -> ->].
  - by intros [[= ->] ->].
  - by intros [? _].
Qed.

(** ** What a method leaves alone *)

Definition preserves {S A X} (f : S -> X) (m : M S A) : Prop :=
  forall s a s', m s = Ok (a, s') -> f s' = f s.

Section Preserves.
Context {S X : Type} (f : S -> X).

Lemma preserves_ret {A} (a : A) : preserves f (mret a).
Proof using. by intros s x s' [= _ <-]. Qed.
Lemma preserves_bind {A B} (m : M S A) (k : A -> M S B) :
  preserves f m -> (forall a, preserves f (k a)) -> preserves f (m ≫= k).
Proof using.
  intros Hm Hk s b s' H. apply bind_Ok in H as (a & s1 & H1 & H2).
  rewrite (Hk _ _ _ _ H2). exact (Hm _ _ _ H1).
Qed.
Lemma preserves_get : preserves f get.
Proof using. by intros s x s' [= _ <-]. Qed.
Lemma preserves_gets {A} (g : S -> A) : preserves f (gets g).
Proof using. by intros s x s' [= _ <-]. Qed.
Lemma preserves_fail {A} (e : fault) : preserves f (fail (A := A) e).
Proof using. by intros s x s'. Qed.
Lemma preserves_lift {A} (o : outcome A) : preserves f (lift o).
Proof using. intros s x s' [_ ->]%lift_Ok. done. Qed.
Lemma preserves_nonnull {A} (o : option A) : preserves f (nonnull o).
Proof using. intros s x s' H. destruct o; [by injection H as _ <-|done]. Qed.
Lemma preserves_assertb b : preserves f (assertb b).
Proof using. destruct b; [apply preserves_ret|apply preserves_fail]. Qed.
Lemma preserves_modify g : (forall s, f (g s) = f s) -> preserves f (modify g).
Proof using. intros Hg s x s' [= _ <-]. apply Hg. Qed.
End Preserves.

Create HintDb preserves.
#[export] Hint Resolve preserves_ret preserves_get preserves_gets preserves_fail preserves_lift
  preserves_nonnull preserves_assertb : preserves.

(** Takes a method apart; what is left are its calls. *)
Ltac preserve :=
  repeat (cbn zeta; lazymatch goal with
  | |- preserves _ (_ ≫= _) => apply preserves_bind; [|intros ?]
  | |- preserves _ (if ?b then _ else _) => destruct b
  | |- preserves _ (match ?p with _ => _ end) => destruct p
  | |- preserves _ (modify _) => apply preserves_modify; done
  | |- preserves _ _ => solve [eauto with preserves]
  end).

(** ** Lists *)

Lemma filter_all {A} (P : A -> Prop) `{!forall x, Decision (P x)} (l : list A) :
  Forall P l -> filter P l = l.
Proof.
  induction 1 as [|x l Hx Hl IH]; [done|]. rewrite filter_cons_True by done. by f_equal.
Qed.

Lemma filter_none {A} (P : A -> Prop) `{!forall x, Decision (P x)} (l : list A) :
  Forall (fun x => ~ P x) l -> filter P l = [].
Proof. induction 1 as [|x l Hx Hl IH]; [done|]. by rewrite filter_cons_False. Qed.
