(* ===== verification/CLib.v ===== *)
(** * C library functions the sources use

    A C string is the list of its bytes before the terminating NUL.  A pointer
    into a string is an offset.  [inet_aton], [inet_addr] and [gethostbyname] are
    not here: they are parameters of the components that call them. *)
From Stdlib Require Import ZArith Lia String Ascii.
From stdpp Require Import base list.
From S2P Require Import Prelude.
Local Open Scope Z_scope.

(** A C string holds no NUL. *)
Definition cstring (s : bytes) : Prop := Forall (fun c => is_byte c /\ c <> 0) s.

Definition strlen (s : bytes) : Z := blen s.

Fixpoint strchr (s : bytes) (c : Z) : option nat :=
  match s with
  | [] => None
  | x :: r => if x =? c then Some 0%nat else S <$> strchr r c
  end.

(** [p] at the start of [s]. *)
Fixpoint is_prefix (p s : bytes) : bool :=
  match p, s with
  | [], _ => true
  | a :: p', b :: s' => (a =? b) && is_prefix p' s'
  | _ :: _, [] => false
  end.

Fixpoint strstr (s pat : bytes) : option nat :=
  if is_prefix pat s then Some 0%nat
  else match s with
       | [] => None
       | _ :: r => S <$> strstr r pat
       end.

(** The length of the initial segment of [s] with bytes of [set] only. *)
Fixpoint strspn (s set : bytes) : Z :=
  match s with
  | [] => 0
  | x :: r => if existsb (Z.eqb x) set then 1 + strspn r set else 0
  end.

(** [strncmp(a, b, n) == 0]: the comparison stops at the terminator. *)
Definition strncmp0 (a b : bytes) (n : nat) : bool :=
  bool_decide (take n (a ++ [0]) = take n (b ++ [0])).

Definition strcmp0 (a b : bytes) : bool := bool_decide (a = b).

Definition isspace (c : Z) : bool := (c =? 32) || ((9 <=? c) && (c <=? 13)).
Definition isdigit (c : Z) : bool := (48 <=? c) && (c <=? 57).

Fixpoint skip_spaces (s : bytes) : bytes :=
  match s with
  | c :: r => if isspace c then skip_spaces r else s
  | [] => []
  end.

Fixpoint digits (s : bytes) (acc : Z) : Z :=
  match s with
  | c :: r => if isdigit c then digits r (10 * acc + (c - 48)) else acc
  | [] => acc
  end.

(** [strtol(s, NULL, 10)], clamped to the range of a 64-bit [long]. *)
Definition strtol10 (s : bytes) : Z :=
  let v := match skip_spaces s with
           | [] => 0
           | c :: r => if c =? 45 then - digits r 0
                       else if c =? 43 then digits r 0 else digits (c :: r) 0
           end in
  Z.max (-9223372036854775808) (Z.min v 9223372036854775807).

(** [atoi(s)] is [(int)strtol(s, NULL, 10)]. *)
Definition atoi (s : bytes) : Z := i32 (strtol10 s).

(** [htons]: the byte swap of a 16-bit word. *)
Definition htons (w : Z) : Z := u16 w mod 256 * 256 + u16 w / 256.

(** [%d] of [printf]; 20 digits are enough for a 64-bit integer. *)
Fixpoint udec (fuel : nat) (n : Z) (acc : bytes) : bytes :=
  match fuel with
  | O => acc
  | S f =>
      let acc' := (48 + n mod 10) :: acc in
      if n / 10 =? 0 then acc' else udec f (n / 10) acc'
  end.
Definition dec (z : Z) : bytes :=
  if z <? 0 then 45 :: udec 20 (- z) [] else udec 20 z [].

(** ** Lemmas *)

Lemma strchr_Some s c n :
  strchr s c = Some n <->
  exists l r, s = l ++ c :: r /\ length l = n /\ Forall (fun x => x <> c) l.
Proof.
  revert n. induction s as [|x s IH]; intros n; simpl.
  - split; [discriminate|]. intros ([|? ?] & r & [=] & _).
  - destruct (Z.eqb_spec x c) as [->|Hne]; split.
    + intros [= <-]. exists [], s. by repeat split; auto.
    + intros (l & r & Hs & <- & HF). destruct l as [|y l]; [done|].
      simplify_eq/=. by inversion HF.
    + rewrite fmap_Some. intros (m & Hm & ->).
      apply IH in Hm as (l & r & -> & <- & HF).
      exists (x :: l), r. repeat split; auto.
    + intros (l & r & Hs & <- & HF). destruct l as [|y l]; simplify_eq/=.
      inversion HF; subst. apply fmap_Some.
      exists (length l). split; [|done]. apply IH. eauto 10.
Qed.

Lemma strchr_None s c : strchr s c = None <-> Forall (fun x => x <> c) s.
Proof.
  induction s as [|x s IH]; simpl; [split; auto|].
  destruct (Z.eqb_spec x c) as [->|Hne].
  - split; [done|]. by inversion 1.
  - rewrite fmap_None, IH. split; [by constructor|by inversion 1].
Qed.

Lemma strchr_app l r c :
  Forall (fun x => x <> c) l -> strchr (l ++ c :: r) c = Some (length l).
Proof. intros H. apply strchr_Some. eauto. Qed.

Lemma is_prefix_spec p s : is_prefix p s = true <-> exists r, s = p ++ r.
Proof.
  revert s. induction p as [|a p IH]; intros s; simpl; [split; eauto|].
  destruct s as [|b s].
  - split; [done|]. by intros (r & [=]).
  - rewrite andb_true_iff, Z.eqb_eq, IH. split.
    + intros (-> & r & ->). by eexists.
    + intros (r & [= -> ->]). eauto.
Qed.

(** [strstr] finds the first occurrence. *)
Lemma strstr_Some s pat n :
  strstr s pat = Some n -> exists l r, s = l ++ pat ++ r /\ length l = n.
Proof.
  revert n. induction s as [|x s IH]; intros n; cbn [strstr].
  - destruct (is_prefix pat []) eqn:E; [|done]. intros [= <-].
    apply is_prefix_spec in E as (r & ->). by exists [], r.
  - destruct (is_prefix pat (x :: s)) eqn:E.
    + intros [= <-]. apply is_prefix_spec in E as (r & ->). by exists [], r.
    + rewrite fmap_Some. intros (m & Hm & ->).
      apply IH in Hm as (l & r & -> & <-). by exists (x :: l), r.
Qed.

Lemma strspn_le s set : 0 <= strspn s set <= strlen s.
Proof.
  unfold strlen, blen. induction s as [|x s IH]; simpl; [lia|].
  destruct (existsb _ _); lia.
Qed.

(** [strspn(s, set) == strlen(s)] tests that every byte is in [set]. *)
Lemma strspn_all s set :
  strspn s set = strlen s <-> Forall (fun x => existsb (Z.eqb x) set = true) s.
Proof.
  unfold strlen, blen. induction s as [|x s IH]; simpl; [split; auto|].
  pose proof (strspn_le s set) as Hle. unfold strlen, blen in Hle.
  destruct (existsb _ _) eqn:E.
  - rewrite Forall_cons, <- IH. split; [intros; split; [done|lia]|]. intros [_ ?]. lia.
  - split; [lia|]. inversion 1. congruence.
Qed.

Lemma atoi_range s : -2147483648 <= atoi s < 2147483648.
Proof. apply i32_range. Qed.

Lemma htons_range w : 0 <= htons w < 65536.
Proof. unfold htons. pose proof (u16_range w). Z.div_mod_to_equations; lia. Qed.

Lemma htons_htons w : htons (htons w) = u16 w.
Proof.
  unfold htons at 1. rewrite (u16_id (htons w)) by apply htons_range.
  unfold htons. pose proof (u16_range w). Z.div_mod_to_equations; lia.
Qed.
#[export] Hint Resolve atoi_range htons_range : rapid.

Lemma isdigit_mod n : isdigit (48 + n mod 10) = true.
Proof. unfold isdigit. apply andb_true_iff. Z.div_mod_to_equations; lia. Qed.

Lemma digits_udec f n acc :
  0 <= n < 10 ^ Z.of_nat f -> (0 < f)%nat -> digits (udec f n acc) 0 = digits acc n.
Proof.
  revert n acc. induction f as [|f IH]; intros n acc Hn Hf; [lia|].
  assert (Hd : digits ((48 + n mod 10) :: acc) (n / 10) = digits acc n).
  { cbn [digits]. rewrite isdigit_mod. f_equal. Z.div_mod_to_equations; lia. }
  cbn [udec]. destruct (Z.eqb_spec (n / 10) 0) as [E|E]; [by rewrite <- E|].
  rewrite Nat2Z.inj_succ, Z.pow_succ_r in Hn by lia.
  destruct f as [|f].
  - exfalso. simpl in Hn. Z.div_mod_to_equations; lia.
  - rewrite IH; [done| |lia]. Z.div_mod_to_equations; lia.
Qed.

Lemma udec_head f n acc :
  (0 < f)%nat -> exists c r, udec f n acc = c :: r /\ isdigit c = true.
Proof.
  revert n acc. induction f as [|f IH]; intros n acc Hf; [lia|]. cbn [udec].
  destruct (n / 10 =? 0); [eauto using isdigit_mod|].
  destruct f as [|f]; [simpl; eauto using isdigit_mod|]. apply IH. lia.
Qed.

Lemma udec_app f n acc r : udec f n (acc ++ r) = udec f n acc ++ r.
Proof.
  revert n acc. induction f as [|f IH]; intros n acc; [done|]. cbn [udec].
  destruct (n / 10 =? 0); [done|]. apply (IH _ (_ :: acc)).
Qed.

(** A number below 10^k has at most [k] digits. *)
Lemma length_udec k f n acc :
  0 <= n < 10 ^ Z.of_nat (S k) -> (S k <= f)%nat ->
  (length (udec f n acc) <= S k + length acc)%nat.
Proof.
  revert f n acc. induction k as [|k IH]; intros f n acc Hn Hf;
    (destruct f as [|f]; [lia|]); cbn [udec]; destruct (Z.eqb_spec (n / 10) 0) as [E|E];
    try (cbn; lia).
  - exfalso. change (10 ^ Z.of_nat 1) with 10 in Hn. Z.div_mod_to_equations; lia.
  - etransitivity; [apply IH|cbn [length]; lia]; [|lia].
    rewrite (Nat2Z.inj_succ (S k)), Z.pow_succ_r in Hn by lia. Z.div_mod_to_equations; lia.
Qed.

Lemma dec_digits k z : 0 <= z < 10 ^ Z.of_nat (S k) -> (k < 20)%nat -> blen (dec z) <= Z.of_nat (S k).
Proof.
  intros Hz Hk. unfold dec, blen. destruct (Z.ltb_spec z 0); [lia|].
  pose proof (length_udec k 20 z [] Hz ltac:(lia)). cbn [length] in *. lia.
Qed.

Lemma dec_length z : 0 <= z < 100000 -> blen (dec z) <= 5.
Proof. intros Hz. by apply (dec_digits 4); [|lia]. Qed.

Definition nondigit_start (s : bytes) : Prop :=
  match s with c :: _ => isdigit c = false | [] => True end.

Lemma digits_stop s n : nondigit_start s -> digits s n = n.
Proof. destruct s as [|c s]; [done|]. simpl. by intros ->. Qed.

(** Reading back a printed decimal, whatever follows its last digit. *)
Lemma strtol10_dec z rest :
  -2147483648 <= z < 2147483648 -> nondigit_start rest -> strtol10 (dec z ++ rest) = z.
Proof.
  intros Hz Hr. unfold strtol10, dec.
  assert (Hpow : 10 ^ Z.of_nat 20 = 100000000000000000000) by reflexivity.
  destruct (Z.ltb_spec z 0) as [Hneg|Hpos].
  - rewrite <- app_comm_cons. cbn [skip_spaces]. change (isspace 45) with false.
    cbn [Z.eqb Pos.eqb]. rewrite <- udec_app, digits_udec by lia.
    rewrite digits_stop by done. lia.
  - destruct (udec_head 20 z []) as (c & r & E & Hc); [lia|].
    assert (Hd : digits (udec 20 z [] ++ rest) 0 = z).
    { rewrite <- udec_app, digits_udec by lia. by apply digits_stop. }
    rewrite E, <- app_comm_cons in *.
    unfold isdigit in Hc. apply andb_true_iff in Hc as [Hc1 Hc2].
    cbn [skip_spaces]. replace (isspace c) with false.
    2: { unfold isspace. symmetry. apply orb_false_iff. rewrite andb_false_iff. lia. }
    destruct (Z.eqb_spec c 45); [lia|]. destruct (Z.eqb_spec c 43); [lia|].
    rewrite Hd. lia.
Qed.

Lemma atoi_dec z rest :
  -2147483648 <= z < 2147483648 -> nondigit_start rest -> atoi (dec z ++ rest) = z.
Proof. intros Hz Hr. unfold atoi. rewrite strtol10_dec by done. by apply i32_id. Qed.
