(* ===== verification/TcpSocket.v ===== *)
(** * TCP sockets: utils/tcp_socket.c, utils/tcp_socket.h

    The functions run on the POSIX branches of the source ([_LINUX], which the
    build does not define, would add the epoll fallbacks).  The kernel and the
    resolver answer each call: their answers are the [Kernel] record, and the
    calls made are recorded in order as the state of the monad. *)
From Stdlib Require Import ZArith Lia String.
From stdpp Require Import base list.
From S2P Require Import Prelude CLib.
Local Open Scope Z_scope.

(** ** Data *)

(** [errno] values the sources tell apart. *)
Inductive errno : Set := EISCONN | EINPROGRESS | EALREADY | EWOULDBLOCK | EOTHER.

#[export] Instance errno_eq_dec : EqDecision errno.
Proof. solve_decision. Defined.

(** The answer of [send]/[recv]: a count (and the bytes read) or an error. *)
Inductive io_answer (A : Type) : Type := IoOk (a : A) | IoErr (e : errno).
Arguments IoOk {A} a.
Arguments IoErr {A} e.

Record sockaddr_in : Set := {
  sin_family : Z;
  sin_port : Z;     (** network byte order *)
  sin_addr : Z
}.
Definition AF_INET : Z := 2.

(** [TSOCKETPAIR], src/utils/tcp_socket.c:20-23 *)
Record TSOCKETPAIR : Set := { stSockAdd : sockaddr_in; wPort : Z }.

(** Return codes, src/utils/tcp_socket.h:48-56 *)
Definition TCP_SOCKET_EARGUMENT : Z := -1.
Definition TCP_SOCKET_EXCEPTION : Z := -2.
Definition TCP_SOCKET_EAGAIN : Z := -3.
Definition TCP_SOCKET_ECLOSED : Z := -4.
Definition TCP_SOCKET_NO_ERR : Z := 0.
Definition TCP_SOCKET_TIMEOUT : Z := 1.
Definition TCP_SOCKET_INPROGRESS : Z := 2.

Definition FD_SETSIZE : Z := 1024.
Definition O_NONBLOCK : Z := 2048.
Definition O_ASYNC : Z := 8192.

(** What the kernel and the resolver answer during one call. *)
Record Kernel : Type := {
  k_socket : Z;                        (** [socket]: a descriptor or -1 *)
  k_connect : option errno;            (** [connect]: 0 or an [errno] *)
  k_select : Z;                        (** [select] *)
  k_so_error : Z;                      (** [getsockopt(SO_ERROR)] *)
  k_getfl : Z;                         (** [fcntl(F_GETFL)] *)
  k_setopt : Z;                        (** [setsockopt] *)
  k_send : io_answer Z;                (** [send]: bytes taken *)
  k_recv : io_answer bytes;            (** [recv]: bytes read, none at end of stream *)
  k_gethostbyname : bytes -> option Z;
  k_inet_aton : bytes -> option Z
}.

(** A kernel that answers every call with success, for the witnesses. *)
Definition quiet_kernel : Kernel :=
  {| k_socket := 5; k_connect := None; k_select := 1; k_so_error := 0;
     k_getfl := 0; k_setopt := 0; k_send := IoOk 0; k_recv := IoOk [];
     k_gethostbyname := fun _ => None;
     k_inet_aton := fun h => if bool_decide (h = bytes_of_string "127.0.0.1")
                             then Some 16777343 else None |}.

Inductive syscall : Type :=
  | SysSocket
  | SysConnect (fd : Z) (sin : sockaddr_in)
  | SysSelect (fd : Z) (tv_sec tv_usec : Z)
  | SysGetSoError (fd : Z)
  | SysSetFl (fd flags : Z)
  | SysSndTimeo (fd tv_sec tv_usec : Z)
  | SysSetBuf (fd : Z) (rcv : bool) (size : Z)
  | SysNoDelay (fd : Z)
  | SysSend (fd len : Z)
  | SysRecv (fd len : Z)
  | SysClose (fd : Z)
  | SysIgnorePipe.

Definition call (c : syscall) : M (list syscall) unit := modify (fun t => t ++ [c]).

(** [MS_TO_TV], src/utils/tcp_socket.c:14-18 *)
Definition MS_TO_TV (ms : Z) : Z * Z := (Z.quot ms 1000, Z.rem ms 1000 * 1000).

(** ** URIs *)

Definition TCP_SOCKET_PORT_SEP : Z := 58.    (* ':' *)
Definition TCP_SOCKET_ADDR_LEN : Z := 128.
Definition TCP_SOCKET_ADDR_SEP : bytes := bytes_of_string "://".
Definition TCP_SOCKET_PROTO_TCP : bytes := bytes_of_string "tcp".
Definition TCP_SOCKET_STR_NUMBER : bytes := bytes_of_string "1234567890.".

(** [tcpsocket_is_number], src/utils/tcp_socket.c:111-121 *)
Definition tcpsocket_is_number (a_pszHost : bytes) : bool :=
  let iSize := strspn a_pszHost TCP_SOCKET_STR_NUMBER in
  iSize =? strlen a_pszHost.

Section WithKernel.
Context (K : Kernel).

(** [tcpsocket_str2inet], src/utils/tcp_socket.c:123-177

    [None] is the return value -1.  [szHost] is an array of 128 bytes: the host
    is copied into it with its terminator. *)
Definition tcpsocket_str2inet (a_pszAddr : bytes) : outcome (option TSOCKETPAIR) :=
  let pair_of (host : bytes) (port : Z) : outcome (option TSOCKETPAIR) :=
    szHost ← mem_write (replicate (Z.to_nat TCP_SOCKET_ADDR_LEN) 0) 0 (host ++ [0]);
    let sa addr := {| stSockAdd := {| sin_family := AF_INET; sin_port := htons port;
                                      sin_addr := addr |};
                      wPort := port |} in
    let szHost := take (length host) szHost in
    if tcpsocket_is_number szHost then
      match k_inet_aton K szHost with
      | None => mret None
      | Some addr => mret (Some (sa addr))
      end
    else
      match k_gethostbyname K szHost with
      | None => mret None
      | Some addr => mret (Some (sa addr))
      end in
  match strchr a_pszAddr TCP_SOCKET_PORT_SEP with
  | Some pszPort =>
      if Z.of_nat pszPort >=? TCP_SOCKET_ADDR_LEN then mret None
      else pair_of (take pszPort a_pszAddr) (u16 (atoi (drop (S pszPort) a_pszAddr)))
  | None =>
      if strlen a_pszAddr >=? TCP_SOCKET_ADDR_LEN then mret None
      else pair_of a_pszAddr 0
  end.

(** The part of a URI behind "://", the whole URI without it. *)
Definition uri_address (a_pszUri : bytes) : bytes :=
  match strstr a_pszUri TCP_SOCKET_ADDR_SEP with
  | None => a_pszUri
  | Some n => drop (n + length TCP_SOCKET_ADDR_SEP) a_pszUri
  end.

(** [tcpsocket_str2sockin], src/utils/tcp_socket.c:179-203 *)
Definition tcpsocket_str2sockin (a_pszUri : option bytes) : outcome (option sockaddr_in) :=
  match a_pszUri with
  | None => mret None
  | Some uri =>
      pair ← tcpsocket_str2inet (uri_address uri);
      mret (option_map stSockAdd pair)
  end.

(** ** Socket options *)

(** [tcpsocket_ignore_pipe], src/utils/tcp_socket.c:682-695 *)
Definition tcpsocket_ignore_pipe : M (list syscall) unit := call SysIgnorePipe.

(** [tcpsocket_set_sendbuff], src/utils/tcp_socket.c:247-255 *)
Definition tcpsocket_set_sendbuff (a_iSock a_iSize : Z) : M (list syscall) Z :=
  if a_iSock <? 0 then mret (-1)
  else _ ← call (SysSetBuf a_iSock false a_iSize); mret (k_setopt K).

(** [tcpsocket_set_recvbuff], src/utils/tcp_socket.c:257-265 *)
Definition tcpsocket_set_recvbuff (a_iSock a_iSize : Z) : M (list syscall) Z :=
  if a_iSock <? 0 then mret (-1)
  else _ ← call (SysSetBuf a_iSock true a_iSize); mret (k_setopt K).

(** [tcpsocket_set_nodelay], src/utils/tcp_socket.c:267-277 *)
Definition tcpsocket_set_nodelay (a_iSock : Z) : M (list syscall) Z :=
  if a_iSock <? 0 then mret (-1)
  else _ ← call (SysNoDelay a_iSock); mret (k_setopt K).

(** [tcpsocket_set_nonblock], src/utils/tcp_socket.c:279-295 *)
Definition tcpsocket_set_nonblock (a_iSock : Z) (a_iIsNonblocking : bool)
  : M (list syscall) Z :=
  let iFlags := k_getfl K in
  let iFlags := if a_iIsNonblocking
                then Z.lor iFlags (Z.lor O_NONBLOCK O_ASYNC)
                else Z.land iFlags (Z.lnot (Z.lor O_NONBLOCK O_ASYNC)) in
  _ ← call (SysSetFl a_iSock iFlags); mret (k_setopt K).

(** ** Connecting *)

(** [tcpsocket_open], src/utils/tcp_socket.c:297-315 *)
Definition tcpsocket_open (a_pszUri : option bytes) : M (list syscall) Z :=
  let refused :=
    match a_pszUri with
    | None => false
    | Some uri =>
        match strstr uri TCP_SOCKET_ADDR_SEP with
        | None => false
        | Some iLen =>
            negb (strncmp0 uri TCP_SOCKET_PROTO_TCP iLen)
            || negb (strlen TCP_SOCKET_PROTO_TCP =? Z.of_nat iLen)
        end
    end in
  if refused then mret (-1) else _ ← call SysSocket; mret (k_socket K).

(** [tcpsocket_socket_connect], src/utils/tcp_socket.c:325-341 *)
Definition tcpsocket_socket_connect (a_iSock : Z) (a_pstAddr : sockaddr_in)
  : M (list syscall) Z :=
  _ ← call (SysConnect a_iSock a_pstAddr);
  match k_connect K with
  | None => mret 0
  | Some EISCONN => mret 0
  | Some EINPROGRESS | Some EALREADY => mret TCP_SOCKET_INPROGRESS
  | Some _ => mret (-1)
  end.

(** [tcpsocket_check_connect], src/utils/tcp_socket.c:344-378 *)
Definition tcpsocket_check_connect (a_iSock a_iTimeout : Z) : M (list syscall) Z :=
  if a_iTimeout <? 0 then mret (-1)
  else if a_iSock <? FD_SETSIZE then
    let '(sec, usec) := MS_TO_TV a_iTimeout in
    _ ← call (SysSelect a_iSock sec usec);
    if k_select K <? 0 then mret (-1)
    else if k_select K =? 0 then mret TCP_SOCKET_TIMEOUT
    else
      _ ← call (SysGetSoError a_iSock);
      if k_so_error K =? 0 then mret 0 else mret (-1)
  else mret 0.

(** [tcpsocket_check_connect_nonblock], src/utils/tcp_socket.c:205-221 *)
Definition tcpsocket_check_connect_nonblock (a_iSock : Z) (a_pstSin : option sockaddr_in)
  (a_iTimeout : Z) : M (list syscall) Z :=
  match a_pstSin with
  | None => mret (-1)
  | Some sin =>
      if (a_iSock <? 0) || (a_iTimeout <? 0) then mret (-1)
      else
        _ ← tcpsocket_set_nonblock a_iSock true;
        iRet ← tcpsocket_socket_connect a_iSock sin;
        if iRet <? 0 then mret iRet else tcpsocket_check_connect a_iSock a_iTimeout
  end.

(** [tcpsocket_check_connect_block], src/utils/tcp_socket.c:223-245 *)
Definition tcpsocket_check_connect_block (a_iSock : Z) (a_pstSin : option sockaddr_in)
  (a_iTimeout : Z) : M (list syscall) Z :=
  match a_pstSin with
  | None => mret (-1)
  | Some sin =>
      if (a_iSock <? 0) || (a_iTimeout <? 0) then mret (-1)
      else
        let '(sec, usec) := MS_TO_TV a_iTimeout in
        _ ← call (SysSndTimeo a_iSock sec usec);
        iRet ← tcpsocket_socket_connect a_iSock sin;
        if negb (iRet =? 0) then mret iRet
        else _ ← tcpsocket_set_nonblock a_iSock true; mret 0
  end.

(** [tcpsocket_connect], src/utils/tcp_socket.c:412-459 *)
Definition tcpsocket_connect (a_pszUri : option bytes) (a_iTimeout : Z)
  : M (list syscall) Z :=
  match a_pszUri with
  | None => mret (-1)
  | Some uri =>
      iSock ← tcpsocket_open (Some uri);
      if iSock <? 0 then mret iSock
      else
        pair ← lift (tcpsocket_str2inet (uri_address uri));
        match pair with
        | None => mret (-1)
        | Some stSockPair =>
            iRet ← (if iSock <? FD_SETSIZE
                    then tcpsocket_check_connect_nonblock iSock
                           (Some (stSockAdd stSockPair)) a_iTimeout
                    else tcpsocket_check_connect_block iSock
                           (Some (stSockAdd stSockPair)) a_iTimeout);
            if negb (iRet =? 0) then mret (-1) else mret iSock
        end
  end.

(** [tcpsocket_connect_nonblock], src/utils/tcp_socket.c:462-531

    The argument is the global [g_iConnectBlockingTimeout]. *)
Definition tcpsocket_connect_nonblock (g_iConnectBlockingTimeout : Z)
  (a_pszUri : option bytes) : M (list syscall) Z :=
  match a_pszUri with
  | None => mret (-1)
  | Some uri =>
      iSock ← tcpsocket_open (Some uri);
      if iSock <? 0 then mret iSock
      else
        pair ← lift (tcpsocket_str2inet (uri_address uri));
        match pair with
        | None => mret (-1)
        | Some stSockPair =>
            if iSock <? FD_SETSIZE then
              _ ← tcpsocket_set_nonblock iSock true;
              iRet ← tcpsocket_socket_connect iSock (stSockAdd stSockPair);
              if iRet <? 0 then mret iRet else mret iSock
            else
              let '(sec, usec) := MS_TO_TV g_iConnectBlockingTimeout in
              _ ← call (SysSndTimeo iSock sec usec);
              iRet ← tcpsocket_socket_connect iSock (stSockAdd stSockPair);
              if negb (iRet =? 0) then mret (-1)
              else _ ← tcpsocket_set_nonblock iSock true; mret iSock
        end
  end.

(** [tcpsocket_close], src/utils/tcp_socket.c:533-540 *)
Definition tcpsocket_close (a_iSock : Z) : M (list syscall) unit :=
  call (SysClose a_iSock).

(** ** Data *)

(** [tcpsocket_recv], src/utils/tcp_socket.c:542-612

    The result is the return value and the bytes stored to the buffer. *)
Definition tcpsocket_recv (a_iSock : Z) (buff_null : bool) (a_iLen a_iTimeout : Z)
  : M (list syscall) (Z * bytes) :=
  if (a_iSock <? 0) || buff_null || (a_iLen <=? 0)
  then mret (TCP_SOCKET_EARGUMENT, [])
  else
    broken ← (if (0 <? a_iTimeout) && (a_iSock <? FD_SETSIZE) then
                let '(sec, usec) := MS_TO_TV a_iTimeout in
                _ ← call (SysSelect a_iSock sec usec);
                mret (k_select K <? 0)
              else mret false);
    if (broken : bool) then mret (TCP_SOCKET_EXCEPTION, [])
    else
      _ ← call (SysRecv a_iSock a_iLen);
      match k_recv K with
      | IoErr EWOULDBLOCK => mret (TCP_SOCKET_EAGAIN, [])
      | IoErr _ => mret (TCP_SOCKET_EXCEPTION, [])
      | IoOk [] => mret (TCP_SOCKET_ECLOSED, [])
      | IoOk data => mret (blen data, data)
      end.

(** [tcpsocket_send], src/utils/tcp_socket.c:615-676 *)
Definition tcpsocket_send (a_iSock a_iLen a_iTimeout : Z) : M (list syscall) Z :=
  ready ← (if (0 <? a_iTimeout) && (a_iSock <? FD_SETSIZE) then
             let '(sec, usec) := MS_TO_TV a_iTimeout in
             _ ← call (SysSelect a_iSock sec usec);
             mret (if k_select K <? 0 then Some (-1)
                   else if k_select K =? 0 then Some 0 else None)
           else mret None);
  match ready with
  | Some ret => mret ret
  | None =>
      _ ← call (SysSend a_iSock a_iLen);
      match k_send K with
      | IoErr EWOULDBLOCK => mret 0
      | IoErr _ => mret (-2)
      | IoOk n => if n =? 0 then mret (-3) else mret n
      end
  end.
End WithKernel.

(** [g_iConnectBlockingTimeout], src/utils/tcp_socket.c:105-105 *)
Definition g_iConnectBlockingTimeout_init : Z := 3000.

(** [tcpsocket_set_connect_block_timeout], src/utils/tcp_socket.c:317-323 *)
Definition tcpsocket_set_connect_block_timeout (g a_iTimeout : Z) : Z :=
  if a_iTimeout <? 0 then g else a_iTimeout.

(** ** URIs: lemmas *)

Section UriFacts.
Context (K : Kernel).

(** [szHost] is never overrun, whatever the address. *)
Lemma tcpsocket_str2inet_safe addr : exists r, tcpsocket_str2inet K addr = Ok r.
Proof.
  assert (Hw : forall h : bytes, (length h < 128)%nat ->
    mem_write (replicate (Z.to_nat TCP_SOCKET_ADDR_LEN) 0) 0 (h ++ [0])
    = Ok (splice (replicate 128 0) 0 (h ++ [0]))).
  { intros h Hh. change (Z.to_nat TCP_SOCKET_ADDR_LEN) with 128%nat.
    unfold mem_write. rewrite bool_decide_eq_true_2; [done|].
    unfold blen. rewrite length_app, length_replicate. simpl. lia. }
  unfold tcpsocket_str2inet. destruct (strchr addr TCP_SOCKET_PORT_SEP) as [n|] eqn:E.
  - unfold TCP_SOCKET_ADDR_LEN at 1. destruct (Z.geb_spec (Z.of_nat n) 128); [by eexists|].
    rewrite Hw by (rewrite length_take; lia). cbn [mbind outcome_bind].
    repeat case_match; by eexists.
  - unfold TCP_SOCKET_ADDR_LEN at 1, strlen, blen.
    destruct (Z.geb_spec (Z.of_nat (length addr)) 128); [by eexists|].
    rewrite Hw by lia. cbn [mbind outcome_bind].
    repeat case_match; by eexists.
Qed.

Lemma tcpsocket_str2sockin_safe uri :
  exists r, tcpsocket_str2sockin K (Some uri) = Ok r.
Proof using.
  unfold tcpsocket_str2sockin. destruct (tcpsocket_str2inet_safe (uri_address uri)) as [r ->].
  by eexists.
Qed.

Definition resolve (host : bytes) : option Z :=
  if tcpsocket_is_number host then k_inet_aton K host else k_gethostbyname K host.

Lemma host_copy host :
  (length host < 128)%nat ->
  take (length host) (splice (replicate 128 0) 0 (host ++ [0])) = host.
Proof.
  intros. unfold splice. rewrite <- app_assoc. simpl.
  by rewrite take_app_le, take_ge by lia.
Qed.

Lemma tcpsocket_str2inet_port host rest :
  (length host < 128)%nat -> Forall (fun c => c <> TCP_SOCKET_PORT_SEP) host ->
  tcpsocket_str2inet K (host ++ TCP_SOCKET_PORT_SEP :: rest)
  = Ok ((fun a => {| stSockAdd := {| sin_family := AF_INET;
                                     sin_port := htons (u16 (atoi rest)); sin_addr := a |};
                     wPort := u16 (atoi rest) |}) <$> resolve host).
Proof.
  intros Hl Hc. unfold tcpsocket_str2inet. rewrite strchr_app by done.
  unfold TCP_SOCKET_ADDR_LEN. destruct (Z.geb_spec (Z.of_nat (length host)) 128); [lia|].
  rewrite take_app_le, take_ge by lia.
  replace (drop (S (length host)) (host ++ TCP_SOCKET_PORT_SEP :: rest)) with rest.
  2: { rewrite drop_app_ge by lia.
       by replace (S (length host) - length host)%nat with 1%nat by lia. }
  unfold mem_write. rewrite bool_decide_eq_true_2.
  2: { unfold blen. rewrite length_app, length_replicate. simpl. lia. }
  cbn [mbind outcome_bind]. change (Z.to_nat 128) with 128%nat.
  rewrite host_copy by done. unfold resolve.
  by destruct (tcpsocket_is_number host), (k_inet_aton K host), (k_gethostbyname K host).
Qed.
End UriFacts.

(** ** Connecting: lemmas *)

Section ConnectFacts.
Context (K : Kernel).

(** What a call adds to the record of system calls. *)
Definition runs {A} (m : M (list syscall) A) (a : A) (cs : list syscall) : Prop :=
  forall t, m t = Ok (a, t ++ cs).

Lemma runs_bind {A B} (m : M (list syscall) A) (k : A -> M (list syscall) B) a b cs1 cs2 :
  runs m a cs1 -> runs (k a) b cs2 -> runs (m ≫= k) b (cs1 ++ cs2).
Proof.
  intros H1 H2 t. rewrite (bind_step _ _ _ _ _ (H1 t)), (H2 _). by rewrite app_assoc.
Qed.

Lemma runs_ret {A} (a : A) : runs (mret a) a [].
Proof. intros t. by rewrite app_nil_r. Qed.

Lemma runs_lift {A} (o : outcome A) a : o = Ok a -> runs (lift o) a [].
Proof. intros -> t. by rewrite app_nil_r. Qed.

Lemma runs_call c : runs (call c) tt [c].
Proof. done. Qed.

Definition connect_code : Z :=
  match k_connect K with
  | None | Some EISCONN => 0
  | Some EINPROGRESS | Some EALREADY => TCP_SOCKET_INPROGRESS
  | Some _ => -1
  end.

Lemma runs_socket_connect fd sa :
  runs (tcpsocket_socket_connect K fd sa) connect_code [SysConnect fd sa].
Proof.
  unfold connect_code. intros t. unfold tcpsocket_socket_connect, mbind, M_bind.
  cbn. by destruct (k_connect K) as [[]|].
Qed.

(** [tcpsocket_check_connect] reports success exactly on a writable socket
    without a pending error. *)
Lemma runs_check_connect fd timeout :
  0 <= timeout -> fd < FD_SETSIZE ->
  exists cs, Forall (fun c => c <> SysClose fd) cs /\
  runs (tcpsocket_check_connect K fd timeout)
    (if k_select K <? 0 then -1
     else if k_select K =? 0 then TCP_SOCKET_TIMEOUT
     else if k_so_error K =? 0 then 0 else -1) cs.
Proof.
  intros Ht Hfd.
  exists (let '(sec, usec) := MS_TO_TV timeout in
          SysSelect fd sec usec ::
          (if k_select K <? 0 then [] else if k_select K =? 0 then [] else [SysGetSoError fd])).
  split; [simpl; repeat case_match; by repeat constructor|].
  intros t. unfold tcpsocket_check_connect.
  destruct (Z.ltb_spec timeout 0); [lia|]. destruct (Z.ltb_spec fd FD_SETSIZE); [|lia].
  simpl. unfold mbind, M_bind. simpl.
  destruct (k_select K <? 0); [done|]. destruct (k_select K =? 0); [done|].
  simpl. rewrite <- app_assoc. by destruct (k_so_error K =? 0).
Qed.
End ConnectFacts.

(** ** Properties *)

(** A URI "tcp://host:port" with any trailing part that does not
    start with a digit (such as "?rpc") parses to the address the resolver gives
    for exactly [host], with exactly [port] in network order, for every port of
    the 16-bit range and every host shorter than the 128-byte buffer. *)
Theorem uri_parse K host port rest :
  (length host < 128)%nat -> Forall (fun c => c <> TCP_SOCKET_PORT_SEP) host ->
  0 <= port < 65536 -> nondigit_start rest ->
  tcpsocket_str2sockin K
    (Some (TCP_SOCKET_PROTO_TCP ++ TCP_SOCKET_ADDR_SEP ++ host
           ++ TCP_SOCKET_PORT_SEP :: dec port ++ rest))
  = Ok ((fun a => {| sin_family := AF_INET; sin_port := htons port; sin_addr := a |})
          <$> resolve K host).
Proof.
  intros Hl Hc Hp Hr. unfold tcpsocket_str2sockin.
  change (uri_address (TCP_SOCKET_PROTO_TCP ++ TCP_SOCKET_ADDR_SEP ++ host
           ++ TCP_SOCKET_PORT_SEP :: dec port ++ rest))
    with (host ++ TCP_SOCKET_PORT_SEP :: dec port ++ rest).
  rewrite tcpsocket_str2inet_port by done. rewrite atoi_dec by (done || lia).
  rewrite u16_id by lia. cbn. by destruct (resolve K host).
Qed.

Lemma uri_parse_witness :
  tcpsocket_str2sockin quiet_kernel (Some (bytes_of_string "tcp://127.0.0.1:8888?rpc"))
  = Ok (Some {| sin_family := AF_INET; sin_port := htons 8888; sin_addr := 16777343 |}).
Proof.
  assert (H := uri_parse quiet_kernel (bytes_of_string "127.0.0.1") 8888 (bytes_of_string "?rpc")).
  change (resolve quiet_kernel (bytes_of_string "127.0.0.1")) with (Some 16777343) in H.
  apply H; [vm_compute; lia | vm_compute; repeat constructor; discriminate | lia | reflexivity].
Defined.

(** For a URI with a scheme, [tcpsocket_open] opens a
    socket exactly when the scheme is "tcp" and returns -1 without a system call
    otherwise. *)
Theorem tcpsocket_open_proto K proto rest t :
  Forall (fun c => c <> 58) proto ->
  tcpsocket_open K (Some (proto ++ TCP_SOCKET_ADDR_SEP ++ rest)) t
  = if bool_decide (proto = TCP_SOCKET_PROTO_TCP)
    then Ok (k_socket K, t ++ [SysSocket]) else Ok (-1, t).
Proof.
  intros Hp. unfold tcpsocket_open.
  assert (E : strstr (proto ++ TCP_SOCKET_ADDR_SEP ++ rest) TCP_SOCKET_ADDR_SEP
              = Some (length proto)).
  { clear -Hp. induction Hp as [|c p Hc Hp IH]; [done|].
    rewrite <- app_comm_cons. cbn [strstr]. rewrite IH.
    change TCP_SOCKET_ADDR_SEP with [58; 47; 47]. cbn [is_prefix].
    destruct (Z.eqb_spec 58 c); [congruence|done]. }
  rewrite E. unfold strncmp0.
  rewrite <- app_assoc, take_app_le, take_ge by lia.
  change (strlen TCP_SOCKET_PROTO_TCP) with 3.
  destruct (decide (proto = TCP_SOCKET_PROTO_TCP)) as [->|H1]; [done|].
  rewrite (bool_decide_eq_false_2 (proto = TCP_SOCKET_PROTO_TCP)) by done.
  destruct (Z.eqb_spec 3 (Z.of_nat (length proto))) as [E3|E3]; [|by rewrite orb_true_r].
  rewrite bool_decide_eq_false_2; [done|]. intros H. apply H1. rewrite H.
  by replace (length proto) with 3%nat by lia.
Qed.

Lemma tcpsocket_open_proto_witness :
  tcpsocket_open quiet_kernel (Some (bytes_of_string "udp://127.0.0.1:80")) [] = Ok (-1, []).
Proof.
  apply (tcpsocket_open_proto quiet_kernel (bytes_of_string "udp") (bytes_of_string "127.0.0.1:80") []).
  vm_compute. repeat constructor; discriminate.
Defined.

(** The URI names no protocol, or TCP. *)
Definition opens (uri : bytes) : Prop :=
  forall n, strstr uri TCP_SOCKET_ADDR_SEP = Some n -> take n uri = TCP_SOCKET_PROTO_TCP.
#[global] Instance opens_dec uri : Decision (opens uri).
Proof.
  unfold opens. destruct (strstr uri TCP_SOCKET_ADDR_SEP) as [n|]; [|by left].
  destruct (decide (take n uri = TCP_SOCKET_PROTO_TCP)) as [He|He]; [left|right].
  - by intros ? [= <-].
  - intros H. by apply He, H.
Defined.

(** Its address can be resolved. *)
Definition names_peer (K : Kernel) (uri : bytes) : Prop :=
  exists pair, tcpsocket_str2inet K (uri_address uri) = Ok (Some pair).
#[global] Instance names_peer_dec K uri : Decision (names_peer K uri).
Proof.
  unfold names_peer. destruct (tcpsocket_str2inet K (uri_address uri)) as [[pair|]|f].
  - left. by exists pair.
  - right. by intros [? [=]].
  - right. by intros [? [=]].
Defined.

Lemma runs_open K uri :
  opens uri /\ runs (tcpsocket_open K (Some uri)) (k_socket K) [SysSocket] \/
  ~ opens uri /\ runs (tcpsocket_open K (Some uri)) (-1) [].
Proof.
  unfold tcpsocket_open, opens. destruct (strstr uri TCP_SOCKET_ADDR_SEP) as [n|] eqn:E.
  2: { left. by split. }
  apply strstr_Some in E as (a & b & -> & <-). unfold strncmp0.
  rewrite <- !app_assoc, take_app_length. change (strlen TCP_SOCKET_PROTO_TCP) with 3.
  destruct (decide (a = TCP_SOCKET_PROTO_TCP)) as [->|Ha].
  - left. split; [|done]. intros n [= <-]. done.
  - right. split; [intros H; apply Ha; rewrite <- (H _ eq_refl); symmetry; apply take_app_length|].
    rewrite (proj2 (orb_true_iff _ _)); [apply runs_ret|].
    destruct (Z.eqb_spec 3 (Z.of_nat (length a))) as [E3|E3]; [left|by right].
    rewrite bool_decide_eq_false_2; [done|]. intros H. apply Ha. rewrite H.
    by replace (length a) with 3%nat by lia.
Qed.

Lemma runs_nonblock K fd b :
  exists cs, Forall (fun c => c <> SysClose fd) cs /\
             runs (tcpsocket_set_nonblock K fd b) (k_setopt K) cs.
Proof.
  exists [SysSetFl fd (if b then Z.lor (k_getfl K) (Z.lor O_NONBLOCK O_ASYNC)
                       else Z.land (k_getfl K) (Z.lnot (Z.lor O_NONBLOCK O_ASYNC)))].
  split; [by repeat constructor|]. by intros t.
Qed.

(** The outcome of the two ways [tcpsocket_connect] waits for the handshake. *)
Definition connect_wait (K : Kernel) (fd timeout : Z) : Z :=
  if timeout <? 0 then -1
  else if fd <? FD_SETSIZE then
    if connect_code K <? 0 then connect_code K
    else if k_select K <? 0 then -1
    else if k_select K =? 0 then TCP_SOCKET_TIMEOUT
    else if k_so_error K =? 0 then 0 else -1
  else connect_code K.

Lemma runs_wait K fd sa timeout :
  0 <= fd ->
  exists cs, Forall (fun c => c <> SysClose fd) cs /\
  runs (if fd <? FD_SETSIZE
        then tcpsocket_check_connect_nonblock K fd (Some sa) timeout
        else tcpsocket_check_connect_block K fd (Some sa) timeout)
       (connect_wait K fd timeout) cs.
Proof.
  intros Hfd. unfold connect_wait, tcpsocket_check_connect_nonblock,
    tcpsocket_check_connect_block.
  destruct (Z.ltb_spec fd 0); [lia|]. rewrite orb_false_l.
  destruct (Z.ltb_spec timeout 0) as [Ht|Ht];
    [exists []; split; [done|]; destruct (fd <? FD_SETSIZE); apply runs_ret|].
  destruct (runs_nonblock K fd true) as (cs1 & Hc1 & H1).
  destruct (Z.ltb_spec fd FD_SETSIZE) as [Hs|Hs].
  - destruct (runs_check_connect K fd timeout) as (cs3 & Hc3 & H3); [done..|].
    destruct (connect_code K <? 0) eqn:E.
    + exists (cs1 ++ [SysConnect fd sa] ++ []). split; [rewrite !Forall_app; by repeat constructor|].
      eapply runs_bind, runs_bind; [done|apply runs_socket_connect|]. rewrite E. apply runs_ret.
    + exists (cs1 ++ [SysConnect fd sa] ++ cs3).
      split; [rewrite !Forall_app; split_and!; auto; by repeat constructor|].
      eapply runs_bind, runs_bind; [done|apply runs_socket_connect|]. by rewrite E.
  - destruct (MS_TO_TV timeout) as [sec usec].
    destruct (connect_code K =? 0) eqn:E.
    + exists ([SysSndTimeo fd sec usec] ++ [SysConnect fd sa] ++ cs1 ++ []).
      split; [rewrite !Forall_app; split_and!; auto; by repeat constructor|].
      eapply runs_bind, runs_bind; [apply runs_call|apply runs_socket_connect|]. rewrite E.
      simpl negb. cbn iota. apply Z.eqb_eq in E as ->. eapply runs_bind; [done|apply runs_ret].
    + exists ([SysSndTimeo fd sec usec] ++ [SysConnect fd sa] ++ []).
      split; [rewrite !Forall_app; split_and!; auto; by repeat constructor|].
      eapply runs_bind, runs_bind; [apply runs_call|apply runs_socket_connect|]. rewrite E.
      apply runs_ret.
Qed.

Lemma runs_connect K uri timeout :
  exists r cs, runs (tcpsocket_connect K (Some uri) timeout) r cs /\
    Forall (fun c => c <> SysClose (k_socket K)) cs /\
    if bool_decide (opens uri /\ 0 <= k_socket K /\ names_peer K uri /\
                    connect_wait K (k_socket K) timeout = 0)
    then r = k_socket K else r < 0.
Proof.
  unfold tcpsocket_connect. destruct (runs_open K uri) as [[Hu Ho]|[Hu Ho]].
  2: { exists (-1), []. split; [|split; [done|rewrite bool_decide_eq_false_2; [lia|tauto]]].
       by apply (runs_bind _ _ _ _ [] [] Ho), runs_ret. }
  destruct (Z.ltb_spec (k_socket K) 0) as [Hn|Hn].
  { exists (k_socket K), ([SysSocket] ++ []).
    split; [|split; [by repeat constructor|rewrite bool_decide_eq_false_2; lia]].
    eapply runs_bind; [done|]. destruct (Z.ltb_spec (k_socket K) 0); [|lia]. apply runs_ret. }
  destruct (tcpsocket_str2inet_safe K (uri_address uri)) as [p Hp].
  destruct p as [pair|].
  2: { exists (-1), ([SysSocket] ++ [] ++ []).
       split; [|split; [by repeat constructor|rewrite bool_decide_eq_false_2; [lia|]]].
       2: { intros (_ & _ & [pair Hq] & _). congruence. }
       eapply runs_bind; [done|]. destruct (Z.ltb_spec (k_socket K) 0); [lia|].
       eapply runs_bind; [by apply runs_lift|apply runs_ret]. }
  destruct (runs_wait K (k_socket K) (stSockAdd pair) timeout) as (cs & Hcs & Hw); [done|].
  exists (if connect_wait K (k_socket K) timeout =? 0 then k_socket K else -1),
    ([SysSocket] ++ [] ++ cs ++ []).
  split; [|split; [rewrite !Forall_app; by repeat constructor|]].
  - eapply runs_bind; [done|]. destruct (Z.ltb_spec (k_socket K) 0); [lia|].
    eapply runs_bind; [by apply runs_lift|].
    eapply runs_bind; [exact Hw|].
    destruct (connect_wait K (k_socket K) timeout =? 0); apply runs_ret.
  - destruct (Z.eqb_spec (connect_wait K (k_socket K) timeout) 0);
      [rewrite bool_decide_eq_true_2|rewrite bool_decide_eq_false_2]; [done| |lia|tauto].
    repeat split; [done..|by exists pair|done].
Qed.

(** The handshake of the socket [fd] has ended: below FD_SETSIZE [connect] has not refused, [select]
    reports the socket writable and no error is pending; above, where [select] cannot be used,
    [connect] itself has answered that the socket is connected. *)
Definition connects (K : Kernel) (fd timeout : Z) : Prop :=
  0 <= timeout /\
  if fd <? FD_SETSIZE
  then (k_connect K = None \/ k_connect K = Some EISCONN \/
        k_connect K = Some EINPROGRESS \/ k_connect K = Some EALREADY) /\
       0 < k_select K /\ k_so_error K = 0
  else k_connect K = None \/ k_connect K = Some EISCONN.

Lemma connect_wait_connects K fd timeout : connect_wait K fd timeout = 0 <-> connects K fd timeout.
Proof.
  unfold connect_wait, connects, connect_code, TCP_SOCKET_TIMEOUT, TCP_SOCKET_INPROGRESS.
  destruct (Z.ltb_spec timeout 0); [split; lia|].
  assert (Hsel : (if k_select K <? 0 then -1 else if k_select K =? 0 then 1
                  else if k_so_error K =? 0 then 0 else -1) = 0
                 <-> 0 < k_select K /\ k_so_error K = 0) by (repeat case_match; lia).
  destruct (fd <? FD_SETSIZE), (k_connect K) as [[]|]; cbn; rewrite ?Hsel; intuition (done || lia).
Qed.

(** C36: [tcpsocket_connect_outcome]. [tcpsocket_connect] always returns, with the descriptor
    [socket] gave or a negative number.  It is the descriptor exactly when the URI names TCP, or
    no protocol, and a peer that can be resolved, and the handshake has ended within the
    timeout: for a descriptor below FD_SETSIZE [select] reported the socket writable and
    SO_ERROR is 0, for one above [connect] itself succeeded - still in progress is a failure
    there.  On no path does it close the socket it opened, so every failure behind [socket]
    leaks the descriptor. *)
Theorem tcpsocket_connect_outcome K uri timeout t :
  exists r cs,
    tcpsocket_connect K (Some uri) timeout t = Ok (r, t ++ cs) /\
    Forall (fun c => c <> SysClose (k_socket K)) cs /\
    (r < 0 \/ r = k_socket K) /\
    (0 <= r <-> opens uri /\ 0 <= k_socket K /\ names_peer K uri /\
       connects K (k_socket K) timeout).
Proof.
  destruct (runs_connect K uri timeout) as (r & cs & Hr & Hcs & Hres). exists r, cs. split; [apply Hr|split; [done|]].
  rewrite <- connect_wait_connects. case_bool_decide as Hd.
  - split; [by right|]. subst r. split; [done|]. by intros (_ & ? & _).
  - split; [by left|]. split; [lia|]. done.
Qed.
