(* ===== verification/RingBuffer.v ===== *)
(** * The byte buffer of a socket: [RingBuffer] of utils/tsocket_util.h

    A buffer is a block of [buff_size] bytes with two offsets.  The bytes between
    [begin] and [end] are the data: the buffer is a queue of bytes that is pushed
    at [end], popped at [begin] and moved back to offset 0 by [Recycle_ATOMIC].
    The build does not define TSOCKET_UTIL_ATOMIC, so the lock counters are not
    part of the struct. *)
From Stdlib Require Import ZArith Lia.
From stdpp Require Import base list.
From S2P Require Import Prelude.
Local Open Scope Z_scope.

(** A pointer to a block of bytes. *)
Inductive mem : Type := Null | Live (m : bytes) | Freed.

(** The block behind a pointer; an empty access through a null pointer reads
    nothing. *)
Definition deref (p : mem) : outcome bytes :=
  match p with
  | Null => Ok []
  | Live m => Ok m
  | Freed => Fault UseAfterFree
  end.

(** [RingBuffer], src/utils/tsocket_util.h:38-42 *)
Record RingBuffer : Type := {
  buff_size : Z;
  buff : mem;
  rb_begin : Z;
  rb_end : Z
}.

(** [RingBuffer::RingBuffer], src/utils/tsocket_util.h:49-60 *)
Definition RingBuffer_new : RingBuffer :=
  {| buff_size := 0; buff := Null; rb_begin := 0; rb_end := 0 |}.

(** [RingBuffer::Malloc], src/utils/tsocket_util.h:64-67

    [calloc_ok] is whether the allocation succeeds. *)
Definition Malloc (calloc_ok : bool) (size : Z) (r : RingBuffer) : bool * RingBuffer :=
  (calloc_ok,
   {| buff_size := buff_size r;
      buff := if calloc_ok then Live (replicate (Z.to_nat size) 0) else Null;
      rb_begin := rb_begin r; rb_end := rb_end r |}).

(** [RingBuffer::Free], src/utils/tsocket_util.h:69-74 *)
Definition Free (r : RingBuffer) : outcome RingBuffer :=
  if 0 <? buff_size r then
    match buff r with
    | Null => Ok r
    | Freed => Fault UseAfterFree
    | Live _ => Ok {| buff_size := 0; buff := Freed;
                      rb_begin := rb_begin r; rb_end := rb_end r |}
    end
  else Ok r.

(** [RingBuffer::Avaiable], src/utils/tsocket_util.h:78-78 *)
Definition Avaiable (r : RingBuffer) : Z := i32 (u64 (buff_size r - rb_end r)).

(** [RingBuffer::Datalen], src/utils/tsocket_util.h:79-79 *)
Definition Datalen (r : RingBuffer) : Z := i32 (u64 (rb_end r - rb_begin r)).

(** [RingBuffer::Recycle_ATOMIC], src/utils/tsocket_util.h:84-104 *)
Definition Recycle_ATOMIC (r : RingBuffer) : outcome RingBuffer :=
  if 0 <? rb_begin r then
    moved ← (if rb_begin r <? rb_end r then
               m ← deref (buff r);
               data ← mem_read m (rb_begin r) (rb_end r - rb_begin r);
               m' ← mem_write m 0 data;
               mret (Live m')
             else mret (buff r) : outcome mem);
    mret {| buff_size := buff_size r; buff := moved;
            rb_begin := 0; rb_end := u64 (rb_end r - rb_begin r) |}
  else mret r.

Definition set_offsets (b e : Z) (r : RingBuffer) : RingBuffer :=
  {| buff_size := buff_size r; buff := buff r; rb_begin := b; rb_end := e |}.
Definition set_buff (m : bytes) (r : RingBuffer) : RingBuffer :=
  {| buff_size := buff_size r; buff := Live m; rb_begin := rb_begin r; rb_end := rb_end r |}.

(** [memcpy(Ptr() + end, data, len); end += len] *)
Definition rb_append (data : bytes) (r : RingBuffer) : outcome RingBuffer :=
  m ← deref (buff r);
  m' ← mem_write m (rb_end r) data;
  mret (set_offsets (rb_begin r) (u64 (rb_end r + blen data)) (set_buff m' r)).

(** [begin += len] *)
Definition rb_drop (len : Z) (r : RingBuffer) : RingBuffer :=
  set_offsets (u64 (rb_begin r + len)) (rb_end r) r.

(** ** The invariant and the queue of bytes *)

Record rb_ok (r : RingBuffer) : Prop := {
  rb_live : exists m, buff r = Live m /\ blen m = buff_size r;
  rb_order : 0 <= rb_begin r <= rb_end r;
  rb_fits : rb_end r <= buff_size r;
  rb_int : buff_size r < 2147483648
}.

(** The data: the bytes between the offsets. *)
Definition contents (r : RingBuffer) : bytes :=
  match buff r with
  | Live m => slice m (rb_begin r) (rb_end r - rb_begin r)
  | _ => []
  end.

Lemma Avaiable_ok r : rb_ok r -> Avaiable r = buff_size r - rb_end r.
Proof. intros [_ ? ? ?]. unfold Avaiable. rewrite u64_id, i32_id; lia. Qed.

Lemma Datalen_ok r : rb_ok r -> Datalen r = rb_end r - rb_begin r.
Proof. intros [_ ? ? ?]. unfold Datalen. rewrite u64_id, i32_id; lia. Qed.

Lemma contents_length r : rb_ok r -> blen (contents r) = rb_end r - rb_begin r.
Proof.
  intros [(m & Hm & Hl) ? ? ?]. unfold contents. rewrite Hm.
  apply slice_length; lia.
Qed.

Lemma Datalen_contents r : rb_ok r -> Datalen r = blen (contents r).
Proof. intros. by rewrite Datalen_ok, contents_length. Qed.
#[export] Hint Rewrite Avaiable_ok Datalen_ok contents_length using done : rapid.

Lemma rb_read r :
  rb_ok r ->
  exists m, buff r = Live m /\
            mem_read m (rb_begin r) (rb_end r - rb_begin r) = Ok (contents r).
Proof.
  intros [(m & Hm & Hl) ? ? ?]. exists m. split; [done|].
  unfold mem_read, contents. rewrite Hm, bool_decide_eq_true_2; [done|lia].
Qed.

Lemma rb_read_prefix r k :
  rb_ok r -> 0 <= k <= blen (contents r) ->
  exists m, buff r = Live m /\
            mem_read m (rb_begin r) k = Ok (take (Z.to_nat k) (contents r)).
Proof.
  intros Hr Hk. rewrite contents_length in Hk by done.
  destruct Hr as [(m & Hm & Hl) ? ? ?]. exists m. split; [done|].
  unfold mem_read. rewrite bool_decide_eq_true_2 by lia. f_equal.
  unfold contents, slice. rewrite Hm, take_take. f_equal. lia.
Qed.

(** A fresh buffer is empty. *)
Lemma Malloc_ok size :
  0 <= size < 2147483648 ->
  let r := (Malloc true size RingBuffer_new).2 in
  let r' := {| buff_size := size; buff := buff r; rb_begin := 0; rb_end := 0 |} in
  rb_ok r' /\ contents r' = [].
Proof.
  intros Hs. simpl. split; [|done]. constructor; simpl; try lia.
  eexists. split; [done|]. unfold blen. rewrite length_replicate. lia.
Qed.

(** Appending pushes to the queue, and succeeds exactly when the bytes fit
    behind [end]. *)
Lemma rb_append_ok r data :
  rb_ok r -> blen data <= Avaiable r ->
  exists r', rb_append data r = Ok r' /\ rb_ok r' /\
             contents r' = contents r ++ data /\
             rb_begin r' = rb_begin r /\ rb_end r' = rb_end r + blen data /\
             buff_size r' = buff_size r.
Proof.
  intros Hr Hd. rewrite Avaiable_ok in Hd by done. destruct Hr as [(m & Hm & Hl) Ho Hf Hi].
  unfold rb_append. rewrite Hm. cbn [deref mbind outcome_bind]. unfold mem_write.
  rewrite bool_decide_eq_true_2 by lia. cbn [mbind outcome_bind].
  rewrite u64_id by (unfold blen in *; lia).
  eexists. split; [done|]. split; [|split; [|done]].
  - constructor; simpl; try lia.
    + eexists. split; [done|]. unfold blen in *. rewrite splice_length; unfold blen; lia.
    + unfold blen in *. lia.
  - unfold contents. simpl. rewrite Hm.
    rewrite <- (slice_splice m (rb_begin r) (rb_end r) data) by lia. done.
Qed.

Lemma rb_append_oob r data :
  rb_ok r -> Avaiable r < blen data -> rb_append data r = Fault OutOfBounds.
Proof.
  intros Hr Hd. rewrite Avaiable_ok in Hd by done. destruct Hr as [(m & Hm & Hl) Ho Hf Hi].
  unfold rb_append. rewrite Hm. cbn [deref mbind outcome_bind]. unfold mem_write.
  rewrite bool_decide_eq_false_2; [done|lia].
Qed.

(** Advancing [begin] pops from the queue. *)
Lemma rb_drop_ok r n :
  rb_ok r -> 0 <= n <= blen (contents r) ->
  rb_ok (rb_drop n r) /\ contents (rb_drop n r) = drop (Z.to_nat n) (contents r).
Proof.
  intros Hr Hn. rewrite contents_length in Hn by done.
  pose proof Hr as [(m & Hm & Hl) Ho Hf Hi]. unfold rb_drop.
  rewrite u64_id by lia. split.
  - constructor; simpl; try lia. eauto.
  - unfold contents. simpl. rewrite Hm.
    rewrite (slice_split m (rb_begin r) (rb_end r - rb_begin r) n) by lia.
    assert (Hlen : length (slice m (rb_begin r) n) = Z.to_nat n).
    { pose proof (slice_length m (rb_begin r) n) as H. unfold blen in *. lia. }
    rewrite drop_app_ge, Hlen, Nat.sub_diag, drop_0 by lia. f_equal; lia.
Qed.

Lemma slice_of_splice_front (m data : bytes) :
  (length data <= length m)%nat -> slice (splice m 0 data) 0 (blen data) = data.
Proof.
  intros. unfold slice, splice, blen. simpl. rewrite drop_0, Nat2Z.id.
  by rewrite take_app_le, take_ge by lia.
Qed.

(** Recycling keeps the queue and frees the space before it. *)
Lemma Recycle_ok r :
  rb_ok r ->
  exists r', Recycle_ATOMIC r = Ok r' /\ rb_ok r' /\ contents r' = contents r /\
             rb_begin r' = 0 /\ rb_end r' = blen (contents r) /\
             buff_size r' = buff_size r.
Proof.
  intros Hr. pose proof (contents_length r Hr) as Hlen.
  destruct (rb_read r Hr) as (m & Hm & Hrd). pose proof Hr as [(m' & Hm' & Hl) Ho Hf Hi].
  rewrite Hm in Hm'. injection Hm' as <-. unfold Recycle_ATOMIC.
  destruct (Z.ltb_spec 0 (rb_begin r)) as [Hb|Hb].
  2: { exists r. split_and!; try done; lia. }
  destruct (Z.ltb_spec (rb_begin r) (rb_end r)) as [Hbe|Hbe].
  - rewrite Hm. cbn [deref mbind outcome_bind]. rewrite Hrd. cbn [mbind outcome_bind].
    assert (Hc : (length (contents r) <= length m)%nat) by (unfold blen in *; lia).
    unfold mem_write. rewrite bool_decide_eq_true_2 by (unfold blen in *; lia).
    cbn [mbind outcome_bind mret outcome_ret]. rewrite u64_id by lia.
    eexists. split; [done|]. split_and!; simpl rb_begin; simpl rb_end; simpl buff_size; try done.
    + constructor; simpl; try lia. eexists. split; [done|].
      unfold blen in *. rewrite splice_length; unfold blen; lia.
    + unfold contents at 1. simpl.
      replace (rb_end r - rb_begin r - 0) with (blen (contents r)) by lia.
      by apply slice_of_splice_front.
  - cbn [mbind outcome_bind mret outcome_ret]. rewrite u64_id by lia.
    eexists. split; [done|]. split_and!; simpl rb_begin; simpl rb_end; simpl buff_size; try done.
    + constructor; simpl; try lia. eauto.
    + unfold contents in *. simpl. rewrite Hm.
      replace (rb_end r - rb_begin r) with 0 by lia. by rewrite !slice_nil.
Qed.
