(* ===== verification/SockUtil.v ===== *)
(** * The buffered socket: [TcpSocketUtil] of utils/tsocket_util.h and .cpp

    A non-blocking socket with a send and a receive [RingBuffer] and a package
    parser.  The state of a method is the object together with the kernel's side
    of the connection: the bytes the kernel took and the bytes it delivered. *)
From Stdlib Require Import ZArith Lia.
From stdpp Require Import base list.
From S2P Require Import Prelude CLib TcpSocket RingBuffer.
Local Open Scope Z_scope.

(** ** Data *)

(** [NET_STATE], src/utils/tsocket_util.h:9-17 *)
Inductive NET_STATE : Set :=
  | NET_INITED | NET_CONNECTING | NET_CONNECTED | NET_SEND_FAILED
  | NET_RECV_FAILED | NET_PEER_CLOSED | NET_ASSERT_FAIL.

#[export] Instance NET_STATE_eq_dec : EqDecision NET_STATE.
Proof. solve_decision. Defined.

(** Return codes, src/utils/tsocket_util.h:19-35 *)
Definition NORMAL : Z := 0.
Definition INVLD_ARGUMENT : Z := -1.
Definition MALLOC_FAILED : Z := -3.
Definition SEND_BUFF_FULL : Z := -50.
Definition CONNECT_FAILED : Z := -101.
Definition NOT_CONNECTED : Z := -102.
Definition SEND_FAILED : Z := -201.
Definition SEND_UNCOMPLETED : Z := -202.
Definition RECV_FAILED : Z := -301.
Definition PEER_CLOSED : Z := -302.
Definition ASSERT_FAILED : Z := -1000.

(** [ITcpPkgParser], src/utils/tsocket_util.h:109-116

    The length of the package at the start of the bytes received so far. *)
Class ITcpPkgParser : Type := GetPkgLen : bytes -> Z.

(** What the socket needs of a parser: once it announces a package, bytes that
    arrive later do not change the announced length. *)
Class PkgParserStable (P : ITcpPkgParser) : Prop := {
  pkg_len_int l : -2147483648 <= GetPkgLen l < 2147483648;
  pkg_len_stable l more :
    0 < GetPkgLen l <= blen l -> GetPkgLen (l ++ more) = GetPkgLen l
}.

(** [TcpSocketUtil], src/utils/tsocket_util.h:191-203 *)
Record TcpSocketUtil : Type := {
  socket_state_ : NET_STATE;
  url_ : bytes;
  fd_ : Z;
  last_request_timestamp_ : Z;
  last_response_timestamp_ : Z;
  tcp_pkg_parser_imp_ : bool;       (** the pointer is not null *)
  send_buf_ : RingBuffer;
  recv_buf_ : RingBuffer
}.

(** [TcpSocketUtil::TcpSocketUtil], src/utils/tsocket_util.cpp:5-9 *)
Definition TcpSocketUtil_new : TcpSocketUtil :=
  {| socket_state_ := NET_INITED; url_ := []; fd_ := -1; last_request_timestamp_ := 0;
     last_response_timestamp_ := 0; tcp_pkg_parser_imp_ := false;
     send_buf_ := RingBuffer_new; recv_buf_ := RingBuffer_new |}.

Definition set_socket_state (s : NET_STATE) (u : TcpSocketUtil) : TcpSocketUtil :=
  {| socket_state_ := s; url_ := url_ u; fd_ := fd_ u;
     last_request_timestamp_ := last_request_timestamp_ u;
     last_response_timestamp_ := last_response_timestamp_ u;
     tcp_pkg_parser_imp_ := tcp_pkg_parser_imp_ u;
     send_buf_ := send_buf_ u; recv_buf_ := recv_buf_ u |}.
Definition set_url (s : bytes) (u : TcpSocketUtil) : TcpSocketUtil :=
  {| socket_state_ := socket_state_ u; url_ := s; fd_ := fd_ u;
     last_request_timestamp_ := last_request_timestamp_ u;
     last_response_timestamp_ := last_response_timestamp_ u;
     tcp_pkg_parser_imp_ := tcp_pkg_parser_imp_ u;
     send_buf_ := send_buf_ u; recv_buf_ := recv_buf_ u |}.
Definition set_fd (f : Z) (u : TcpSocketUtil) : TcpSocketUtil :=
  {| socket_state_ := socket_state_ u; url_ := url_ u; fd_ := f;
     last_request_timestamp_ := last_request_timestamp_ u;
     last_response_timestamp_ := last_response_timestamp_ u;
     tcp_pkg_parser_imp_ := tcp_pkg_parser_imp_ u;
     send_buf_ := send_buf_ u; recv_buf_ := recv_buf_ u |}.
Definition set_times (req resp : Z) (u : TcpSocketUtil) : TcpSocketUtil :=
  {| socket_state_ := socket_state_ u; url_ := url_ u; fd_ := fd_ u;
     last_request_timestamp_ := req; last_response_timestamp_ := resp;
     tcp_pkg_parser_imp_ := tcp_pkg_parser_imp_ u;
     send_buf_ := send_buf_ u; recv_buf_ := recv_buf_ u |}.
Definition set_parser (b : bool) (u : TcpSocketUtil) : TcpSocketUtil :=
  {| socket_state_ := socket_state_ u; url_ := url_ u; fd_ := fd_ u;
     last_request_timestamp_ := last_request_timestamp_ u;
     last_response_timestamp_ := last_response_timestamp_ u;
     tcp_pkg_parser_imp_ := b; send_buf_ := send_buf_ u; recv_buf_ := recv_buf_ u |}.
Definition set_send_buf (r : RingBuffer) (u : TcpSocketUtil) : TcpSocketUtil :=
  {| socket_state_ := socket_state_ u; url_ := url_ u; fd_ := fd_ u;
     last_request_timestamp_ := last_request_timestamp_ u;
     last_response_timestamp_ := last_response_timestamp_ u;
     tcp_pkg_parser_imp_ := tcp_pkg_parser_imp_ u;
     send_buf_ := r; recv_buf_ := recv_buf_ u |}.
Definition set_recv_buf (r : RingBuffer) (u : TcpSocketUtil) : TcpSocketUtil :=
  {| socket_state_ := socket_state_ u; url_ := url_ u; fd_ := fd_ u;
     last_request_timestamp_ := last_request_timestamp_ u;
     last_response_timestamp_ := last_response_timestamp_ u;
     tcp_pkg_parser_imp_ := tcp_pkg_parser_imp_ u;
     send_buf_ := send_buf_ u; recv_buf_ := r |}.

(** The object and the kernel's side: the system calls made, the bytes taken
    from the program and the bytes handed to it. *)
Record Net : Type := {
  util : TcpSocketUtil;
  sys : list syscall;
  wire_out : bytes;
  wire_in : bytes
}.
Definition on_util (f : TcpSocketUtil -> TcpSocketUtil) (n : Net) : Net :=
  {| util := f (util n); sys := sys n; wire_out := wire_out n; wire_in := wire_in n |}.
Definition add_out (d : bytes) (n : Net) : Net :=
  {| util := util n; sys := sys n; wire_out := wire_out n ++ d; wire_in := wire_in n |}.
Definition add_in (d : bytes) (n : Net) : Net :=
  {| util := util n; sys := sys n; wire_out := wire_out n; wire_in := wire_in n ++ d |}.

Definition upd (f : TcpSocketUtil -> TcpSocketUtil) : M Net unit := modify (on_util f).
Definition syscalls {A} (m : M (list syscall) A) : M Net A := fun n =>
  '(a, t) ← m (sys n);
  Ok (a, {| util := util n; sys := t; wire_out := wire_out n; wire_in := wire_in n |}).

(** ** Life cycle *)

(** [TcpSocketUtil::Init], src/utils/tsocket_util.cpp:16-44

    The booleans are whether the parser is null and whether the two
    allocations succeed. *)
Definition Init (parser_null ok1 ok2 : bool) (size : Z) : M Net Z :=
  if parser_null || (size =? 0) then mret INVLD_ARGUMENT
  else
    _ ← upd (set_parser true);
    u ← gets util;
    let '(b1, r1) := Malloc ok1 size (send_buf_ u) in
    _ ← upd (set_send_buf r1);
    if (b1 : bool) then
      _ ← upd (set_send_buf {| buff_size := size; buff := buff r1;
                               rb_begin := rb_begin r1; rb_end := rb_end r1 |});
      let '(b2, r2) := Malloc ok2 size (recv_buf_ u) in
      _ ← upd (set_recv_buf r2);
      if (b2 : bool) then
        _ ← upd (set_recv_buf {| buff_size := size; buff := buff r2;
                                 rb_begin := rb_begin r2; rb_end := rb_end r2 |});
        mret NORMAL
      else
        u' ← gets util;
        s ← lift (Free (send_buf_ u'));
        _ ← upd (set_send_buf s);
        mret MALLOC_FAILED
    else mret MALLOC_FAILED.

(** [TcpSocketUtil::Reset], src/utils/tsocket_util.cpp:54-63 *)
Definition Reset (u : TcpSocketUtil) : TcpSocketUtil :=
  set_socket_state NET_INITED
    (set_recv_buf (set_offsets 0 0 (recv_buf_ u))
      (set_send_buf (set_offsets 0 0 (send_buf_ u)) (set_times 0 0 u))).

(** [TcpSocketUtil::Close], src/utils/tsocket_util.cpp:125-135 *)
Definition Close : M Net unit :=
  u ← gets util;
  _ ← (if 0 <=? fd_ u
       then _ ← syscalls (tcpsocket_close (fd_ u)); upd (set_fd (-1))
       else mret tt);
  _ ← upd (set_socket_state NET_INITED);
  upd Reset.

(** [TcpSocketUtil::Fini], src/utils/tsocket_util.cpp:46-52 *)
Definition Fini : M Net unit :=
  u ← gets util;
  r ← lift (Free (recv_buf_ u));
  _ ← upd (set_recv_buf r);
  s ← lift (Free (send_buf_ u));
  _ ← upd (set_send_buf s);
  Close.

Section WithKernel.
Context (K : Kernel) (g_timeout now : Z).

(** [TcpSocketUtil::ConnectNonBlock], src/utils/tsocket_util.cpp:65-79 *)
Definition ConnectNonBlock (url : bytes) : M Net Z :=
  fd ← syscalls (tcpsocket_connect_nonblock K g_timeout (Some url));
  _ ← upd (set_fd fd);
  if fd <? 0 then mret CONNECT_FAILED
  else
    u ← gets util;
    _ ← syscalls (tcpsocket_set_recvbuff K fd (i32 (u64 (buff_size (recv_buf_ u) * 2))));
    _ ← syscalls (tcpsocket_set_sendbuff K fd (i32 (u64 (buff_size (send_buf_ u) * 2))));
    _ ← upd (set_socket_state NET_CONNECTING);
    _ ← upd (set_url url);
    mret NORMAL.

(** [TcpSocketUtil::CheckNonBlock], src/utils/tsocket_util.cpp:81-102 *)
Definition CheckNonBlock : M Net Z :=
  u ← gets util;
  if fd_ u <? 0 then
    _ ← upd (set_socket_state NET_ASSERT_FAIL); mret ASSERT_FAILED
  else
    ret ← syscalls (tcpsocket_check_connect K (fd_ u) 0);
    if ret =? 0 then _ ← upd (set_socket_state NET_CONNECTED); mret NORMAL
    else if ret <? 0 then _ ← Close; mret CONNECT_FAILED
    else mret NORMAL.

(** [TcpSocketUtil::Connect], src/utils/tsocket_util.cpp:104-123 *)
Definition Connect (url : option bytes) (timeout : Z) : M Net Z :=
  match url with
  | None => mret INVLD_ARGUMENT
  | Some uri =>
      fd ← syscalls (tcpsocket_connect K (Some uri) (i32 timeout));
      _ ← upd (set_fd fd);
      if fd <? 0 then mret CONNECT_FAILED
      else
        u ← gets util;
        _ ← syscalls (tcpsocket_set_recvbuff K fd (i32 (u64 (buff_size (recv_buf_ u) * 2))));
        _ ← syscalls (tcpsocket_set_sendbuff K fd (i32 (u64 (buff_size (send_buf_ u) * 2))));
        _ ← upd (set_socket_state NET_CONNECTED);
        _ ← upd (set_url uri);
        mret NORMAL
  end.

(** ** Sending *)

(** [send_buf_.begin += len; send_buf_.Recycle_ATOMIC()] *)
Definition consume_sent (len : Z) : M Net unit :=
  u ← gets util;
  s ← lift (Recycle_ATOMIC (rb_drop len (send_buf_ u)));
  upd (set_send_buf s).

(** [TcpSocketUtil::Send], src/utils/tsocket_util.cpp:137-205

    The kernel reads the data of the buffer and takes the first [k_send]
    bytes of it. *)
Definition Send : M Net Z :=
  u ← gets util;
  match socket_state_ u with
  | NET_ASSERT_FAIL => mret ASSERT_FAILED
  | NET_SEND_FAILED => mret NORMAL
  | NET_INITED | NET_CONNECTING => mret NOT_CONNECTED
  | NET_CONNECTED | NET_RECV_FAILED | NET_PEER_CLOSED =>
      let dl := Datalen (send_buf_ u) in
      if dl <? 0 then
        _ ← upd (set_socket_state NET_ASSERT_FAIL); mret ASSERT_FAILED
      else if dl =? 0 then mret NORMAL
      else
        m ← lift (deref (buff (send_buf_ u)));
        data ← lift (mem_read m (rb_begin (send_buf_ u)) dl);
        match k_send K with
        | IoErr EWOULDBLOCK => mret SEND_UNCOMPLETED
        | IoErr _ => _ ← upd (set_socket_state NET_SEND_FAILED); mret SEND_FAILED
        | IoOk len =>
            _ ← modify (add_out (take (Z.to_nat len) data));
            if (len =? 0) && negb (len =? dl) then mret NORMAL
            else if len <? dl then _ ← consume_sent len; mret SEND_UNCOMPLETED
            else _ ← consume_sent len; mret NORMAL
        end
  end.

(** [TcpSocketUtil::PushToSendQ], src/utils/tsocket_util.cpp:282-307 *)
Definition PushToSendQ (buf : bytes) : M Net Z :=
  u ← gets util;
  if Avaiable (send_buf_ u) <? i32 (blen buf) then mret SEND_BUFF_FULL
  else
    s ← lift (rb_append buf (send_buf_ u));
    _ ← upd (set_send_buf s);
    _ ← upd (fun u => set_times now (last_response_timestamp_ u) u);
    mret NORMAL.

(** An [iovec] entry that is copied: its base is not null and its length is
    not 0. *)
Definition iov_data (v : option bytes) : bytes :=
  match v with None => [] | Some d => d end.

(** The body of the copying loop. *)
Definition push_iov (r : outcome RingBuffer) (v : option bytes) : outcome RingBuffer :=
  r ← r;
  match iov_data v with
  | [] => mret r
  | d => rb_append d r
  end.

(** [TcpSocketUtil::PushvToSendQ], src/utils/tsocket_util.cpp:309-358

    A null base is [None]; [iov] itself is null for [None]. *)
Definition PushvToSendQ (iov : option (list (option bytes))) : M Net Z :=
  match iov with
  | None | Some [] => mret INVLD_ARGUMENT
  | Some iov =>
      u ← gets util;
      let total_len := fold_left (fun t v => u64 (t + blen (iov_data v))) iov 0 in
      if Avaiable (send_buf_ u) <? i32 total_len then mret SEND_BUFF_FULL
      else
        s ← lift (fold_left push_iov iov (Ok (send_buf_ u)));
        _ ← upd (set_send_buf s);
        _ ← upd (fun u => set_times now (last_response_timestamp_ u) u);
        mret NORMAL
  end.

(** ** Receiving *)

(** The call of [recv] and what follows it, tsocket_util.cpp lines 245-279. *)
Definition recv_into : M Net Z :=
  match k_recv K with
  | IoErr EWOULDBLOCK => mret NORMAL
  | IoErr _ => _ ← upd (set_socket_state NET_RECV_FAILED); mret RECV_FAILED
  | IoOk [] => _ ← upd (set_socket_state NET_PEER_CLOSED); mret PEER_CLOSED
  | IoOk data =>
      u ← gets util;
      r ← lift (rb_append data (recv_buf_ u));
      _ ← upd (set_recv_buf r);
      _ ← modify (add_in data);
      mret NORMAL
  end.

(** [TcpSocketUtil::Recv], src/utils/tsocket_util.cpp:207-280 *)
Definition Recv : M Net Z :=
  u ← gets util;
  match socket_state_ u with
  | NET_ASSERT_FAIL => mret ASSERT_FAILED
  | NET_RECV_FAILED | NET_PEER_CLOSED => mret NORMAL
  | NET_INITED | NET_CONNECTING => mret NOT_CONNECTED
  | NET_CONNECTED | NET_SEND_FAILED =>
      if Avaiable (recv_buf_ u) <? 0 then
        _ ← upd (set_socket_state NET_ASSERT_FAIL); mret ASSERT_FAILED
      else
        full ← (if Avaiable (recv_buf_ u) =? 0 then
                  r ← lift (Recycle_ATOMIC (recv_buf_ u));
                  _ ← upd (set_recv_buf r);
                  mret (Avaiable r =? 0)
                else mret false);
        if (full : bool) then mret NORMAL
        else
          recv_into
  end.

Context {P : ITcpPkgParser}.

(** The length the parser announces for the data received. *)
Definition recv_pkg_len (u : TcpSocketUtil) : outcome Z :=
  m ← deref (buff (recv_buf_ u));
  d ← mem_read m (rb_begin (recv_buf_ u)) (Datalen (recv_buf_ u));
  mret (GetPkgLen d).

(** [TcpSocketUtil::HasNewPkg], src/utils/tsocket_util.cpp:360-377 *)
Definition HasNewPkg : M Net bool :=
  u ← gets util;
  if negb (tcp_pkg_parser_imp_ u) then
    _ ← upd (set_socket_state NET_ASSERT_FAIL); mret false
  else
    len ← lift (recv_pkg_len u);
    mret ((0 <? len) && (len <=? Datalen (recv_buf_ u))).

(** [TcpSocketUtil::PeekFromRecvQ], src/utils/tsocket_util.cpp:379-405

    The out parameters are the package bytes, [None] for a null pointer. *)
Definition PeekFromRecvQ (out_null : bool) : M Net (Z * option bytes) :=
  u ← gets util;
  if negb (tcp_pkg_parser_imp_ u) then
    _ ← upd (set_socket_state NET_ASSERT_FAIL); mret (ASSERT_FAILED, None)
  else if out_null then mret (INVLD_ARGUMENT, None)
  else
    len ← lift (recv_pkg_len u);
    if (0 <? len) && (len <=? Datalen (recv_buf_ u)) then
      m ← lift (deref (buff (recv_buf_ u)));
      pkg ← lift (mem_read m (rb_begin (recv_buf_ u)) len);
      _ ← upd (fun u => set_times (last_request_timestamp_ u) now u);
      mret (NORMAL, Some pkg)
    else mret (NORMAL, None).

(** [TcpSocketUtil::PopFromRecvQ], src/utils/tsocket_util.cpp:407-425 *)
Definition PopFromRecvQ : M Net Z :=
  u ← gets util;
  if negb (tcp_pkg_parser_imp_ u) then
    _ ← upd (set_socket_state NET_ASSERT_FAIL); mret ASSERT_FAILED
  else
    len ← lift (recv_pkg_len u);
    if (len <=? 0) || (Datalen (recv_buf_ u) <? len) then
      r ← lift (Recycle_ATOMIC (recv_buf_ u));
      _ ← upd (set_recv_buf r);
      mret NORMAL
    else
      _ ← upd (set_recv_buf (rb_drop len (recv_buf_ u)));
      mret NORMAL.
End WithKernel.

(** ** Lemmas *)

(** The buffers are well formed, and the send buffer holds its data at offset 0:
    [Send] recycles whenever it consumes. *)
Record sock_ok (u : TcpSocketUtil) : Prop := {
  sock_send : rb_ok (send_buf_ u);
  sock_recv : rb_ok (recv_buf_ u);
  sock_send_begin : rb_begin (send_buf_ u) = 0;
  sock_parser : tcp_pkg_parser_imp_ u = true
}.

(** Every byte accepted for sending, in order: what the kernel took and what is
    still buffered; and every byte not yet popped by the reader. *)
Definition sent_stream (n : Net) : bytes := wire_out n ++ contents (send_buf_ (util n)).
Definition unread (n : Net) : bytes := contents (recv_buf_ (util n)).

(** The kernel takes at most the bytes offered, and delivers at most the bytes
    asked for. *)
Definition recv_room (u : TcpSocketUtil) : Z :=
  if Avaiable (recv_buf_ u) =? 0
  then buff_size (recv_buf_ u) - blen (contents (recv_buf_ u))
  else Avaiable (recv_buf_ u).
Definition send_fits (K : Kernel) (u : TcpSocketUtil) : Prop :=
  match k_send K with IoOk len => 0 <= len <= Datalen (send_buf_ u) | IoErr _ => True end.
Definition recv_fits (K : Kernel) (u : TcpSocketUtil) : Prop :=
  match k_recv K with IoOk d => blen d <= recv_room u | IoErr _ => True end.

(** Symbolic execution of the monadic code. *)
Ltac exec :=
  cbv beta iota delta [mbind M_bind mret M_ret gets get modify upd lift fst snd];
  cbn [util sys wire_out wire_in on_util add_out add_in socket_state_ send_buf_ recv_buf_
       tcp_pkg_parser_imp_ set_socket_state set_send_buf set_recv_buf].

Lemma consume_sent_ok n len :
  sock_ok (util n) -> 0 <= len <= blen (contents (send_buf_ (util n))) ->
  exists n', consume_sent len n = Ok (tt, n') /\ sock_ok (util n') /\
    contents (send_buf_ (util n')) = drop (Z.to_nat len) (contents (send_buf_ (util n))) /\
    recv_buf_ (util n') = recv_buf_ (util n) /\
    wire_out n' = wire_out n /\ wire_in n' = wire_in n.
Proof.
  intros [Hs Hr Hb Hp] Hl.
  destruct (rb_drop_ok _ _ Hs Hl) as [Hd Hdc].
  destruct (Recycle_ok _ Hd) as (r & E & Hr' & Hc & Hb' & _ & _).
  unfold consume_sent. exec. rewrite E. exec.
  eexists. split; [done|]. cbn. split_and!; try done; by rewrite Hc.
Qed.

Lemma Send_ok K n :
  sock_ok (util n) -> send_fits K (util n) ->
  exists r n', Send K n = Ok (r, n') /\ sock_ok (util n') /\
    sent_stream n' = sent_stream n /\ unread n' = unread n /\ wire_in n' = wire_in n.
Proof.
  intros Hok Hfit. pose proof Hok as [Hs Hr Hb Hp]. unfold Send. exec.
  pose proof (Datalen_contents _ Hs) as Hdl.
  destruct (socket_state_ (util n)) eqn:Est;
    try (eexists _, _; (split; [done|]); by split_and!).
  all: destruct (Z.ltb_spec (Datalen (send_buf_ (util n))) 0); [unfold blen in *; lia|];
    destruct (Z.eqb_spec (Datalen (send_buf_ (util n))) 0) as [E0|E0];
    [eexists _, _; (split; [done|]); by split_and!|];
    destruct (rb_read _ Hs) as (m & Hm & Hrd);
    rewrite Hm; cbn [deref]; rewrite Datalen_ok by done; rewrite Hrd;
    unfold send_fits in Hfit; destruct (k_send K) as [len|e];
    [|destruct e; eexists _, _; (split; [done|]); split_and!; try done; by constructor].
  all: rewrite <- Datalen_ok by done;
    destruct (consume_sent_ok
        (add_out (take (Z.to_nat len) (contents (send_buf_ (util n)))) n) len)
      as (n' & E & Hok' & Hc & Hrc & Hwo & Hwi); [done|cbn; lia|];
    destruct (Z.eqb_spec len 0) as [->|Hl0];
    [destruct (Z.eqb_spec 0 (Datalen (send_buf_ (util n)))); [lia|];
     eexists _, _; (split; [done|]); split_and!; try done; unfold sent_stream; cbn;
     by rewrite take_0, app_nil_r|].
  all: cbn [andb];
    assert (Hstream : sent_stream n' = sent_stream n)
      by (unfold sent_stream; rewrite Hwo, Hc; cbn; by rewrite <- app_assoc, take_drop);
    assert (Hunread : unread n' = unread n) by (unfold unread; by rewrite Hrc);
    destruct (len <? Datalen (send_buf_ (util n))); rewrite E;
    eexists _, _; (split; [done|]); by split_and!.
Qed.

Lemma int_blen_fits (data : bytes) a :
  blen data < 2147483648 -> (a <? i32 (blen data)) = false -> blen data <= a.
Proof. intros Hd. unfold blen in *. rewrite i32_id by lia. intros ?%Z.ltb_ge. lia. Qed.

(** [PushToSendQ] accepts all of the bytes or none. *)
Lemma PushToSendQ_ok now n buf :
  sock_ok (util n) -> blen buf < 2147483648 ->
  exists r n', PushToSendQ now buf n = Ok (r, n') /\ sock_ok (util n') /\
    unread n' = unread n /\ wire_in n' = wire_in n /\ wire_out n' = wire_out n /\
    socket_state_ (util n') = socket_state_ (util n) /\
    (r = NORMAL /\ contents (send_buf_ (util n')) = contents (send_buf_ (util n)) ++ buf /\
       blen buf <= Avaiable (send_buf_ (util n))
     \/ r = SEND_BUFF_FULL /\ n' = n /\ Avaiable (send_buf_ (util n)) < blen buf).
Proof.
  intros Hok Hlen. pose proof Hok as [Hs Hr Hb Hp]. unfold PushToSendQ. exec.
  destruct (_ <? _) eqn:E.
  - eexists _, _. split; [done|]. split_and!; try done. right. split_and!; try done.
    apply Z.ltb_lt in E. unfold blen in *. rewrite i32_id in E by lia. lia.
  - apply int_blen_fits in E; [|done].
    destruct (rb_append_ok _ _ Hs E) as (r & Ha & Hr' & Hc & Hbe & _ & _).
    rewrite Ha. exec. eexists _, _. split; [done|]. cbn.
    split_and!; try done; [constructor; cbn; congruence || done|by left].
Qed.

Lemma fold_append iov r :
  rb_ok r -> blen (concat (map iov_data iov)) <= Avaiable r ->
  exists r', fold_left push_iov iov (Ok r) = Ok r' /\ rb_ok r' /\
    contents r' = contents r ++ concat (map iov_data iov) /\ rb_begin r' = rb_begin r.
Proof.
  revert r. induction iov as [|v iov IH]; intros r Hr Hl.
  - exists r. cbn. by rewrite app_nil_r.
  - cbn [fold_left map concat] in *. unfold blen in Hl. rewrite length_app in Hl.
    assert (Hv : exists r1, push_iov (Ok r) v = Ok r1 /\ rb_ok r1 /\
       contents r1 = contents r ++ iov_data v /\ rb_begin r1 = rb_begin r /\
       Avaiable r1 = Avaiable r - blen (iov_data v)).
    { unfold push_iov. cbn [mbind outcome_bind].
      destruct (iov_data v) as [|b d] eqn:Ev.
      - exists r. rewrite app_nil_r. unfold blen. simpl. split_and!; try done. lia.
      - destruct (rb_append_ok r (b :: d)) as (r1 & E & ? & ? & ? & ? & ?);
          [done|unfold blen; lia|].
        exists r1. split_and!; try done. rewrite !Avaiable_ok by done. lia. }
    destruct Hv as (r1 & E & Hr1 & Hc1 & Hb1 & Ha1).
    rewrite E.
    destruct (IH r1) as (r' & E' & Hr' & Hc' & Hb'); [done|unfold blen in *; lia|].
    exists r'. split_and!; try done; [|congruence].
    by rewrite Hc', Hc1, app_assoc.
Qed.

Lemma fold_size iov r r' :
  fold_left push_iov iov (Ok r) = Ok r' -> buff_size r' = buff_size r.
Proof.
  revert r. induction iov as [|v iov IH]; intros r E; [by injection E as ->|].
  cbn [fold_left] in E. destruct (push_iov (Ok r) v) as [r1|f] eqn:E1.
  - rewrite (IH r1 E). unfold push_iov in E1. cbn [mbind outcome_bind] in E1.
    destruct (iov_data v) as [|b d]; [by injection E1 as ->|].
    unfold rb_append in E1. destruct (deref (buff r)); [|done]. cbn [mbind outcome_bind] in E1.
    destruct (mem_write _ _ _); [|done]. by injection E1 as <-.
  - exfalso. clear -E. induction iov; done.
Qed.

Lemma fold_total iov t :
  0 <= t -> t + blen (concat (map iov_data iov)) < 2147483648 ->
  fold_left (fun t v => u64 (t + blen (iov_data v))) iov t
  = t + blen (concat (map iov_data iov)).
Proof.
  revert t. induction iov as [|v iov IH]; intros t Ht Hl; cbn in *.
  - unfold blen in *. simpl in *. lia.
  - unfold blen in *. rewrite length_app in *. rewrite u64_id by lia.
    rewrite IH; lia.
Qed.

(** [PushvToSendQ] is [PushToSendQ] of the concatenation. *)
Lemma PushvToSendQ_PushToSendQ now n iov :
  sock_ok (util n) -> iov <> [] -> blen (concat (map iov_data iov)) < 2147483648 ->
  exists r n1 n2,
    PushvToSendQ now (Some iov) n = Ok (r, n1) /\
    PushToSendQ now (concat (map iov_data iov)) n = Ok (r, n2) /\
    sock_ok (util n1) /\ sent_stream n1 = sent_stream n2 /\ unread n1 = unread n2 /\
    wire_out n1 = wire_out n2 /\ wire_in n1 = wire_in n2 /\
    socket_state_ (util n1) = socket_state_ (util n2).
Proof.
  intros Hok Hne Hlen. pose proof Hok as [Hs Hr Hb Hp].
  destruct iov as [|v iov]; [done|]. unfold PushvToSendQ, PushToSendQ. exec.
  rewrite fold_total by (unfold blen in *; lia).
  rewrite Z.add_0_l. destruct (_ <? _) eqn:E.
  - eexists _, _, _. by split_and!.
  - apply int_blen_fits in E; [|done].
    destruct (fold_append (v :: iov) (send_buf_ (util n)) Hs E) as (r & E1 & Hr1 & Hc1 & Hb1).
    destruct (rb_append_ok _ _ Hs E) as (r2 & E2 & Hr2 & Hc2 & _).
    rewrite E1, E2. exec. eexists _, _, _. split; [done|]. split; [done|].
    unfold sent_stream, unread. cbn.
    split_and!; try done; [constructor; cbn; congruence || done|by rewrite Hc1, Hc2].
Qed.

(** ** Pushes of any length

    The length of the data is compared as an [int]: from 2^31 bytes on it can pass the check. *)
Definition escapes (u : TcpSocketUtil) (data : bytes) : Prop :=
  i32 (blen data) <= Avaiable (send_buf_ u) < blen data.
#[export] Instance escapes_dec u data : Decision (escapes u data).
Proof. unfold escapes. apply _. Defined.

Lemma escapes_long u data : escapes u data -> 2147483648 <= blen data.
Proof.
  intros [H1 H2]. destruct (Z.le_gt_cases 2147483648 (blen data)); [done|].
  unfold blen in *. rewrite i32_id in H1 by lia. lia.
Qed.

Lemma room_int u : sock_ok u -> 0 <= Avaiable (send_buf_ u) < 2147483648.
Proof. intros [Hs _ _ _]. rewrite Avaiable_ok by done. destruct Hs. lia. Qed.

Lemma PushToSendQ_any now n buf :
  sock_ok (util n) ->
  if decide (escapes (util n) buf) then PushToSendQ now buf n = Fault OutOfBounds
  else exists r n', PushToSendQ now buf n = Ok (r, n') /\ sock_ok (util n').
Proof.
  intros Hok. pose proof (room_int _ Hok). case_decide as He.
  - destruct He as [He1 He2]. unfold PushToSendQ. exec.
    destruct (Z.ltb_spec (Avaiable (send_buf_ (util n))) (i32 (blen buf))); [lia|].
    by rewrite rb_append_oob by (done || apply Hok).
  - destruct (Z.lt_ge_cases (blen buf) 2147483648).
    { destruct (PushToSendQ_ok now n buf) as (r & n' & ? & ? & _); eauto. }
    unfold PushToSendQ, escapes in *. exec.
    destruct (Z.ltb_spec (Avaiable (send_buf_ (util n))) (i32 (blen buf))); [by do 2 eexists|lia].
Qed.

Lemma fold_fault iov f : fold_left push_iov iov (Fault f) = Fault f.
Proof. by induction iov. Qed.

(** Entries that do not fit in together are written until one goes past the end. *)
Lemma fold_append_oob iov r :
  rb_ok r -> Avaiable r < blen (concat (map iov_data iov)) ->
  fold_left push_iov iov (Ok r) = Fault OutOfBounds.
Proof.
  revert r. induction iov as [|v iov IH]; intros r Hr Hl.
  { rewrite Avaiable_ok in Hl by done. destruct Hr. change (blen (concat _)) with 0 in Hl. lia. }
  cbn [fold_left map concat] in *. unfold blen in Hl. rewrite length_app in Hl.
  unfold push_iov at 2. cbn [mbind outcome_bind].
  destruct (iov_data v) as [|b d] eqn:Ev; [apply IH; [done|unfold blen; cbn in Hl; lia]|].
  destruct (Z.le_gt_cases (blen (b :: d)) (Avaiable r)) as [Hd|Hd].
  - destruct (rb_append_ok r (b :: d) Hr Hd) as (r1 & -> & Hr1 & _ & _ & He & Hs).
    apply IH; [done|]. rewrite !Avaiable_ok in * by done. unfold blen in *. lia.
  - rewrite (rb_append_oob r (b :: d) Hr Hd). apply fold_fault.
Qed.

Lemma fold_total_wraps iov t :
  fold_left (fun t v => u64 (t + blen (iov_data v))) iov (u64 t)
  = u64 (t + blen (concat (map iov_data iov))).
Proof.
  revert t. induction iov as [|v iov IH]; intros t; cbn [fold_left map concat].
  - f_equal. unfold blen. cbn. lia.
  - replace (u64 (u64 t + blen (iov_data v))) with (u64 (t + blen (iov_data v)))
      by (unfold u64; by rewrite Zplus_mod_idemp_l).
    rewrite IH. f_equal. unfold blen. rewrite length_app. lia.
Qed.

Lemma i32_u64 z : i32 (u64 z) = i32 z.
Proof.
  unfold i32, u64. f_equal.
  rewrite (Z.mod_eq z 18446744073709551616) by lia.
  replace (z - 18446744073709551616 * (z / 18446744073709551616) + 2147483648)
    with (z + 2147483648 + (- (4294967296 * (z / 18446744073709551616))) * 4294967296) by lia.
  by rewrite Z.mod_add by lia.
Qed.

Lemma PushvToSendQ_any now n iov :
  sock_ok (util n) ->
  if decide (escapes (util n) (concat (map iov_data iov)))
  then PushvToSendQ now (Some iov) n = Fault OutOfBounds
  else exists r n', PushvToSendQ now (Some iov) n = Ok (r, n') /\ sock_ok (util n').
Proof.
  intros Hok. pose proof (room_int _ Hok).
  destruct (decide (iov = [])) as [->|Hne].
  { case_decide as He; [|by do 2 eexists]. apply escapes_long in He. by cbn in He. }
  assert (Htot : i32 (fold_left (fun t v => u64 (t + blen (iov_data v))) iov 0)
                 = i32 (blen (concat (map iov_data iov)))).
  { change 0 with (u64 0). by rewrite fold_total_wraps, i32_u64. }
  case_decide as He.
  - destruct He as [He1 He2]. unfold PushvToSendQ. destruct iov as [|v iov]; [done|]. exec.
    rewrite Htot.
    destruct (Z.ltb_spec (Avaiable (send_buf_ (util n))) (i32 (blen (concat (map iov_data (v :: iov))))));
      [lia|].
    by rewrite fold_append_oob by (done || apply Hok).
  - destruct (Z.lt_ge_cases (blen (concat (map iov_data iov))) 2147483648).
    { destruct (PushvToSendQ_PushToSendQ now n iov) as (r & n1 & n2 & ? & _ & ? & _); eauto. }
    unfold PushvToSendQ, escapes in *. destruct iov as [|v iov]; [done|]. exec. rewrite Htot.
    destruct (Z.ltb_spec (Avaiable (send_buf_ (util n))) (i32 (blen (concat (map iov_data (v :: iov))))));
      [by do 2 eexists|lia].
Qed.

Lemma room_after_recycle r :
  rb_ok r -> Avaiable r = buff_size r - blen (contents r) - rb_begin r.
Proof. intros. rewrite Avaiable_ok, contents_length by done. lia. Qed.

Lemma recv_into_ok K n :
  sock_ok (util n) ->
  (forall d, k_recv K = IoOk d -> blen d <= Avaiable (recv_buf_ (util n))) ->
  exists r n' data, recv_into K n = Ok (r, n') /\ sock_ok (util n') /\
    sent_stream n' = sent_stream n /\ wire_out n' = wire_out n /\
    unread n' = unread n ++ data /\ wire_in n' = wire_in n ++ data.
Proof.
  intros [Hs Hr Hb Hp] Hfit. unfold recv_into. exec.
  destruct (k_recv K) as [[|b data]|e].
  - eexists _, _, []. split; [done|]. rewrite !app_nil_r. by split_and!.
  - destruct (rb_append_ok (recv_buf_ (util n)) (b :: data)) as (r2 & E2 & Hr2 & Hc2 & _);
      [done|by apply Hfit|]. rewrite E2.
    eexists _, _, (b :: data). split; [done|]. by split_and!.
  - destruct e; eexists _, _, []; (split; [done|]); rewrite !app_nil_r; by split_and!.
Qed.

Lemma Recv_ok K n :
  sock_ok (util n) -> recv_fits K (util n) ->
  exists r n' data, Recv K n = Ok (r, n') /\ sock_ok (util n') /\
    sent_stream n' = sent_stream n /\ wire_out n' = wire_out n /\
    unread n' = unread n ++ data /\ wire_in n' = wire_in n ++ data.
Proof.
  intros Hok Hfit. pose proof Hok as [Hs Hr Hb Hp]. unfold Recv. exec.
  pose proof (Avaiable_ok _ Hr) as Hav. pose proof (rb_fits _ Hr).
  destruct (socket_state_ (util n)) eqn:Est;
    try (eexists _, _, []; rewrite !app_nil_r; (split; [done|]); by split_and!).
  all: destruct (Z.ltb_spec (Avaiable (recv_buf_ (util n))) 0); [lia|];
    unfold recv_fits, recv_room in Hfit;
    destruct (Z.eqb_spec (Avaiable (recv_buf_ (util n))) 0) as [E0|E0];
    [|apply recv_into_ok; [done|]; intros d Hd; by rewrite Hd in Hfit].
  all: destruct (Recycle_ok _ Hr) as (r & E & Hr' & Hc & Hb' & He & Hsz);
    rewrite E; exec; destruct (Z.eqb_spec (Avaiable r) 0);
    [eexists _, _, []; (split; [done|]); rewrite !app_nil_r; unfold unread; by split_and!|].
  all: rewrite <- Hc in Hfit;
    destruct (recv_into_ok K (on_util (set_recv_buf r) n)) as (r3 & n' & d & Hn' & Hok' & H1 & H2 & H3 & H4);
    [by constructor|intros d Hd; rewrite Hd in Hfit; cbn; rewrite room_after_recycle by done; lia|];
    exists r3, n', d; (split; [exact Hn'|]); (split_and!; try done);
    unfold unread in *; cbn in *; by rewrite H3, Hc.
Qed.

(** The kernel delivers bytes that fit in behind the data. *)
Lemma Recv_data K n d :
  sock_ok (util n) -> socket_state_ (util n) = NET_CONNECTED ->
  k_recv K = IoOk d -> d <> [] -> blen d <= Avaiable (recv_buf_ (util n)) ->
  exists n', Recv K n = Ok (NORMAL, n') /\ sock_ok (util n') /\ unread n' = unread n ++ d /\
    send_buf_ (util n') = send_buf_ (util n) /\ wire_out n' = wire_out n /\
    socket_state_ (util n') = NET_CONNECTED /\
    Avaiable (recv_buf_ (util n')) = Avaiable (recv_buf_ (util n)) - blen d.
Proof.
  intros [Hs Hr Hb Hp] Hst Hk Hne Hd.
  destruct (rb_append_ok (recv_buf_ (util n)) d Hr Hd) as (r & E & Hr' & Hc & _ & He & Hsz).
  assert (Hpos : 0 < blen d) by (destruct d; [done|unfold blen; cbn; lia]).
  unfold Recv. exec. rewrite Hst.
  destruct (Z.ltb_spec (Avaiable (recv_buf_ (util n))) 0); [lia|].
  destruct (Z.eqb_spec (Avaiable (recv_buf_ (util n))) 0); [lia|].
  unfold recv_into. exec. rewrite Hk. destruct d as [|d0 d]; [done|]. rewrite E.
  eexists. split; [done|]. cbn. split_and!; try done.
  rewrite !Avaiable_ok by done. rewrite Hsz, He. lia.
Qed.

(** The kernel takes all there is. *)
Lemma Send_all K n d :
  sock_ok (util n) -> socket_state_ (util n) = NET_CONNECTED -> contents (send_buf_ (util n)) = d ->
  0 < blen d -> k_send K = IoOk (blen d) ->
  exists n', Send K n = Ok (NORMAL, n') /\ sock_ok (util n') /\
    socket_state_ (util n') = NET_CONNECTED /\ contents (send_buf_ (util n')) = [] /\
    recv_buf_ (util n') = recv_buf_ (util n) /\ wire_out n' = wire_out n ++ d /\
    buff_size (send_buf_ (util n')) = buff_size (send_buf_ (util n)).
Proof.
  intros [Hs Hr Hb Hp] Hst Hc Hpos Hk.
  assert (Hdl : Datalen (send_buf_ (util n)) = blen d) by (by rewrite Datalen_contents, Hc by done).
  destruct (rb_drop_ok (send_buf_ (util n)) (blen d) Hs) as [Hd Hdc]; [rewrite Hc; lia|].
  destruct (Recycle_ok _ Hd) as (r & E & Hr' & Hc' & Hb' & _ & Hsz').
  rewrite Hc in Hdc. unfold blen at 2 in Hdc. rewrite Nat2Z.id, drop_all in Hdc.
  destruct (rb_read _ Hs) as (m & Hm & Hrd). rewrite <- Datalen_ok, Hdl, Hc in Hrd by done.
  unfold Send. exec. rewrite Hst, Hdl.
  destruct (Z.ltb_spec (blen d) 0); [lia|]. destruct (Z.eqb_spec (blen d) 0) as [?|E0]; [lia|].
  rewrite Hm. cbn [deref]. rewrite Hrd, Hk. rewrite (proj2 (Z.eqb_neq _ _) E0).
  cbn [andb]. rewrite Z.ltb_irrefl. unfold consume_sent. exec. rewrite E.
  eexists. split; [done|]. cbn. rewrite Hc', Hdc. split_and!; try done; try by constructor.
  unfold blen. by rewrite Nat2Z.id, take_ge.
Qed.

(** A push into an empty send buffer that the kernel takes as a whole. *)
Lemma Push_Send_all K now n iov :
  let d := concat (map iov_data iov) in
  sock_ok (util n) -> socket_state_ (util n) = NET_CONNECTED -> contents (send_buf_ (util n)) = [] ->
  iov <> [] -> 0 < blen d -> blen d <= buff_size (send_buf_ (util n)) ->
  k_send K = IoOk (blen d) ->
  exists n1 n', PushvToSendQ now (Some iov) n = Ok (NORMAL, n1) /\ Send K n1 = Ok (NORMAL, n') /\
    sock_ok (util n') /\ socket_state_ (util n') = NET_CONNECTED /\
    contents (send_buf_ (util n')) = [] /\ recv_buf_ (util n') = recv_buf_ (util n) /\
    wire_out n' = wire_out n ++ d /\
    buff_size (send_buf_ (util n')) = buff_size (send_buf_ (util n)).
Proof.
  intros d Hok Hst Hc Hne Hpos Hsz Hk. pose proof Hok as [Hs Hr Hb Hp].
  pose proof (rb_int _ Hs) as Hint. pose proof (contents_length _ Hs) as Hlen.
  assert (Hav : Avaiable (send_buf_ (util n)) = buff_size (send_buf_ (util n))).
  { rewrite Avaiable_ok by done. rewrite Hc in Hlen. change (blen []) with 0 in Hlen. lia. }
  destruct (fold_append iov (send_buf_ (util n)) Hs) as (r & E1 & Hr1 & Hc1 & Hb1); [fold d; lia|].
  pose proof (fold_size iov _ r E1) as Hsz1. rewrite Hc in Hc1. cbn [app] in Hc1. fold d in Hc1.
  set (n1 := on_util (fun u => set_times now (last_response_timestamp_ u) u)
               (on_util (set_send_buf r) n)).
  destruct (Send_all K n1 d) as (n' & Es & H1 & H2 & H3 & H4 & H5 & H6); try done.
  { constructor; cbn; congruence || done. }
  exists n1, n'. split; [|split; [done|]]; [|split_and!; try done; by rewrite H6].
  unfold PushvToSendQ. destruct iov as [|v iov]; [done|]. exec.
  rewrite fold_total by (fold d; lia). fold d. rewrite Z.add_0_l, i32_id by lia.
  destruct (Z.ltb_spec (Avaiable (send_buf_ (util n))) (blen d)); [lia|]. by rewrite E1.
Qed.

(** A push that does not fit in changes nothing. *)
Lemma Push_full now n iov :
  let d := concat (map iov_data iov) in
  sock_ok (util n) -> iov <> [] -> blen d < 2147483648 -> Avaiable (send_buf_ (util n)) < blen d ->
  PushvToSendQ now (Some iov) n = Ok (SEND_BUFF_FULL, n).
Proof.
  intros d Hok Hne Hlen Hfull. unfold PushvToSendQ. destruct iov as [|v iov]; [done|]. exec.
  rewrite fold_total by (fold d; lia). fold d. rewrite Z.add_0_l, i32_id by (unfold blen in *; lia).
  destruct (Z.ltb_spec (Avaiable (send_buf_ (util n))) (blen d)); [done|lia].
Qed.

Section PackageLemmas.
Context {P : ITcpPkgParser}.

(** The package at the front of the data received, when it is complete. *)
Definition front_pkg (u : TcpSocketUtil) : option bytes :=
  let d := contents (recv_buf_ u) in
  let len := GetPkgLen d in
  if (0 <? len) && (len <=? blen d) then Some (take (Z.to_nat len) d) else None.

Lemma recv_pkg_len_ok u :
  sock_ok u -> recv_pkg_len u = Ok (GetPkgLen (contents (recv_buf_ u))).
Proof.
  intros [_ Hr _ _]. unfold recv_pkg_len. destruct (rb_read _ Hr) as (m & Hm & Hrd).
  rewrite Hm. cbn [deref mbind outcome_bind]. by rewrite Datalen_ok, Hrd by done.
Qed.

Lemma HasNewPkg_ok n :
  sock_ok (util n) ->
  HasNewPkg n = Ok (bool_decide (is_Some (front_pkg (util n))), n).
Proof.
  intros Hok. pose proof Hok as [Hs Hr Hb Hp]. unfold HasNewPkg. exec.
  rewrite Hp, recv_pkg_len_ok by done. cbn [negb]. rewrite Datalen_contents by done.
  unfold front_pkg. destruct (_ && _); [rewrite bool_decide_eq_true_2; eauto|].
  by rewrite bool_decide_eq_false_2 by (intros [? [=]]).
Qed.

Lemma PeekFromRecvQ_ok now n :
  sock_ok (util n) ->
  exists n', PeekFromRecvQ now false n = Ok ((NORMAL, front_pkg (util n)), n') /\
    sock_ok (util n') /\ recv_buf_ (util n') = recv_buf_ (util n) /\
    sent_stream n' = sent_stream n /\ wire_in n' = wire_in n /\ wire_out n' = wire_out n /\
    socket_state_ (util n') = socket_state_ (util n).
Proof.
  intros Hok. pose proof Hok as [Hs Hr Hb Hp]. unfold PeekFromRecvQ. exec.
  rewrite Hp, recv_pkg_len_ok by done. cbn [negb]. rewrite Datalen_contents by done.
  unfold front_pkg.
  destruct (_ && _) eqn:E; [|eexists; (split; [done|]); by split_and!].
  apply andb_true_iff in E as [E1%Z.ltb_lt E2%Z.leb_le].
  destruct (rb_read_prefix _ _ Hr (conj (Z.lt_le_incl _ _ E1) E2)) as (m & Hm & Hrd).
  rewrite Hm. cbn [deref]. rewrite Hrd. eexists. split; [done|].
  cbn. split_and!; try done; by constructor.
Qed.

Lemma PopFromRecvQ_ok n :
  sock_ok (util n) ->
  exists n', PopFromRecvQ n = Ok (NORMAL, n') /\ sock_ok (util n') /\
    default [] (front_pkg (util n)) ++ unread n' = unread n /\
    sent_stream n' = sent_stream n /\ wire_in n' = wire_in n /\ wire_out n' = wire_out n /\
    socket_state_ (util n') = socket_state_ (util n).
Proof.
  intros Hok. pose proof Hok as [Hs Hr Hb Hp]. unfold PopFromRecvQ. exec.
  rewrite Hp, recv_pkg_len_ok by done. cbn [negb]. rewrite Datalen_contents by done.
  unfold front_pkg, unread.
  set (d := contents (recv_buf_ (util n))). set (len := GetPkgLen d).
  destruct (Z.leb_spec len 0) as [E1|E1]; [|destruct (Z.ltb_spec (blen d) len) as [E2|E2]];
    cbn [orb].
  1, 2: destruct (Recycle_ok _ Hr) as (r & E & Hr' & Hc & _); rewrite E; eexists;
    (split; [done|]); cbn; rewrite Hc; fold d;
    (destruct (Z.ltb_spec 0 len), (Z.leb_spec len (blen d)); try lia);
    (split_and!; try done); by constructor.
  destruct (rb_drop_ok (recv_buf_ (util n)) len Hr) as [Hd Hdc]; [fold d; lia|].
  eexists. split; [done|]. cbn. rewrite Hdc. fold d.
  destruct (Z.ltb_spec 0 len), (Z.leb_spec len (blen d)); try lia.
  split_and!; try done. apply take_drop.
Qed.
(** The two package reads, on a package that is complete. *)
Lemma Peek_run now n pkg :
  sock_ok (util n) -> front_pkg (util n) = Some pkg ->
  PeekFromRecvQ now false n
  = Ok ((NORMAL, Some pkg), on_util (fun u => set_times (last_request_timestamp_ u) now u) n).
Proof.
  intros Hok Hf. pose proof Hok as [Hs Hr Hb Hp]. unfold PeekFromRecvQ. exec.
  rewrite Hp, recv_pkg_len_ok by done. cbn [negb]. rewrite Datalen_contents by done.
  unfold front_pkg in Hf. destruct (_ && _) eqn:E; [|done]. injection Hf as <-.
  apply andb_true_iff in E as [E1%Z.ltb_lt E2%Z.leb_le].
  destruct (rb_read_prefix _ _ Hr (conj (Z.lt_le_incl _ _ E1) E2)) as (m & Hm & Hrd).
  rewrite Hm. cbn [deref]. by rewrite Hrd.
Qed.

Lemma Pop_run n pkg :
  sock_ok (util n) -> front_pkg (util n) = Some pkg ->
  PopFromRecvQ n
  = Ok (NORMAL, on_util (set_recv_buf (rb_drop (blen pkg) (recv_buf_ (util n)))) n).
Proof.
  intros Hok Hf. pose proof Hok as [Hs Hr Hb Hp]. unfold PopFromRecvQ. exec.
  rewrite Hp, recv_pkg_len_ok by done. cbn [negb]. rewrite Datalen_contents by done.
  unfold front_pkg in Hf. set (d := contents (recv_buf_ (util n))) in *.
  destruct (Z.ltb_spec 0 (GetPkgLen d)), (Z.leb_spec (GetPkgLen d) (blen d)); try done.
  injection Hf as <-. destruct (Z.leb_spec (GetPkgLen d) 0); [lia|].
  destruct (Z.ltb_spec (blen d) (GetPkgLen d)); [lia|]. cbn [orb].
  replace (blen (take (Z.to_nat (GetPkgLen d)) d)) with (GetPkgLen d); [done|].
  unfold blen in *. rewrite length_take. lia.
Qed.

(** No package: nothing changes. *)
Lemma front_pkg_spec u pkg :
  front_pkg u = Some pkg ->
  blen pkg = GetPkgLen (contents (recv_buf_ u)) /\ 0 < blen pkg /\
  exists r, contents (recv_buf_ u) = pkg ++ r.
Proof.
  unfold front_pkg. set (d := contents (recv_buf_ u)).
  destruct (Z.ltb_spec 0 (GetPkgLen d)), (Z.leb_spec (GetPkgLen d) (blen d)); try done.
  intros [= <-]. assert (Hl : blen (take (Z.to_nat (GetPkgLen d)) d) = GetPkgLen d)
    by (unfold blen in *; rewrite length_take; lia).
  rewrite Hl. split_and!; [done|done|]. exists (drop (Z.to_nat (GetPkgLen d)) d).
  by rewrite take_drop.
Qed.
End PackageLemmas.

(** ** Properties *)

(** The operations a session performs on its socket, with the bytes accepted for
    sending and the packages popped. *)
Inductive net_step {P : ITcpPkgParser} : Net -> bytes -> bytes -> Net -> Prop :=
  | step_push now buf n r n' :
      blen buf < 2147483648 -> PushToSendQ now buf n = Ok (r, n') ->
      net_step n (if r =? NORMAL then buf else []) [] n'
  | step_pushv now iov n r n' :
      iov <> [] -> blen (concat (map iov_data iov)) < 2147483648 ->
      PushvToSendQ now (Some iov) n = Ok (r, n') ->
      net_step n (if r =? NORMAL then concat (map iov_data iov) else []) [] n'
  | step_send K n r n' :
      send_fits K (util n) -> Send K n = Ok (r, n') -> net_step n [] [] n'
  | step_recv K n r n' :
      recv_fits K (util n) -> Recv K n = Ok (r, n') -> net_step n [] [] n'
  | step_peek_pop now pkg n r1 n1 r2 n2 :
      PeekFromRecvQ now false n = Ok ((r1, pkg), n1) -> PopFromRecvQ n1 = Ok (r2, n2) ->
      net_step n [] (default [] pkg) n2.

Inductive net_steps {P : ITcpPkgParser} : Net -> bytes -> bytes -> Net -> Prop :=
  | steps_nil n : net_steps n [] [] n
  | steps_cons n ps qs n1 ps' qs' n2 :
      net_step n ps qs n1 -> net_steps n1 ps' qs' n2 ->
      net_steps n (ps ++ ps') (qs ++ qs') n2.

Lemma net_step_streams {P : ITcpPkgParser} n ps qs n' :
  net_step n ps qs n' -> sock_ok (util n) ->
  sock_ok (util n') /\ sent_stream n' = sent_stream n ++ ps /\
  exists arrived, wire_in n' = wire_in n ++ arrived /\ unread n ++ arrived = qs ++ unread n'.
Proof.
  destruct 1 as [now buf n r n' Hl E|now iov n r n' Hne Hl E|K n r n' Hf E|K n r n' Hf E
                |now pkg n r1 n1 r2 n2 E1 E2]; intros Hok.
  - destruct (PushToSendQ_ok now n buf) as (r0 & n0 & E0 & Hok0 & Hu & Hwi & Hwo & _ & Hr);
      [done..|]. rewrite E in E0. injection E0 as <- <-. unfold sent_stream. rewrite Hwo.
    split; [done|]. split; [|exists []; rewrite !app_nil_r; simpl; by split].
    destruct Hr as [(-> & Hc & _)|(-> & -> & _)]; simpl;
      [by rewrite Hc, app_assoc|by rewrite app_nil_r].
  - destruct (PushvToSendQ_PushToSendQ now n iov) as
      (r0 & n0 & n2 & E0 & E2 & Hok0 & Hss & Hu0 & Hwo0 & Hwi0 & _); [done..|].
    rewrite E in E0. injection E0 as <- <-.
    destruct (PushToSendQ_ok now n (concat (map iov_data iov)))
      as (r1 & n1 & E1 & Hok1 & Hu & Hwi & Hwo & _ & Hr); [done..|].
    rewrite E2 in E1. injection E1 as <- <-.
    split; [done|]. split; [|exists []; rewrite !app_nil_r; simpl; split; congruence].
    rewrite Hss. unfold sent_stream. rewrite Hwo.
    destruct Hr as [(-> & Hc & _)|(-> & -> & _)]; simpl;
      [by rewrite Hc, app_assoc|by rewrite app_nil_r].
  - destruct (Send_ok K n) as (r0 & n0 & E0 & Hok0 & Hss & Hu & Hwi); [done..|].
    rewrite E in E0. injection E0 as <- <-. rewrite app_nil_r.
    split; [done|]. split; [done|]. exists []. rewrite !app_nil_r. simpl. done.
  - destruct (Recv_ok K n) as (r0 & n0 & d & E0 & Hok0 & Hss & Hwo & Hu & Hwi); [done..|].
    rewrite E in E0. injection E0 as <- <-. rewrite app_nil_r.
    split; [done|]. split; [done|]. by exists d.
  - destruct (PeekFromRecvQ_ok now n) as (n0 & E0 & Hok0 & Hrb & Hss & Hwi & Hwo & _); [done|].
    rewrite E1 in E0. injection E0 as ? ? ?; subst r1 pkg n0.
    destruct (PopFromRecvQ_ok n1) as (n0 & E0 & Hok2 & Hpop & Hss2 & Hwi2 & Hwo2 & _); [done|].
    rewrite E2 in E0. injection E0 as ? ?; subst r2 n0. rewrite app_nil_r.
    split; [done|]. split; [congruence|]. exists []. rewrite !app_nil_r.
    split; [congruence|]. unfold unread, front_pkg in *. rewrite Hrb in Hpop. by rewrite Hpop.
Qed.

(** C17: [stream_integrity]. Over any sequence of pushes, scattered pushes, sends,
    receives and package reads, with a kernel that takes and delivers bytes as it
    pleases within the sizes asked for, the send side is a byte-exact queue: what
    the kernel took followed by what is still buffered is what was there before
    followed by exactly the accepted bytes, in order.  The receive side is one
    too: the unread bytes and the bytes that arrived are the packages popped
    followed by the bytes still unread.  The buffers stay well formed. *)
Theorem stream_integrity {P : ITcpPkgParser} n ps qs n' :
  net_steps n ps qs n' -> sock_ok (util n) ->
  sock_ok (util n') /\ sent_stream n' = sent_stream n ++ ps /\
  exists arrived, wire_in n' = wire_in n ++ arrived /\ unread n ++ arrived = qs ++ unread n'.
Proof.
  induction 1 as [n|n ps qs n1 ps' qs' n2 H1 H2 IH]; intros Hok.
  - split; [done|]. rewrite app_nil_r. split; [done|]. exists []. by rewrite !app_nil_r.
  - destruct (net_step_streams _ _ _ _ H1 Hok) as (Hok1 & Hs1 & a1 & Hw1 & Hu1).
    destruct (IH Hok1) as (Hok2 & Hs2 & a2 & Hw2 & Hu2).
    split; [done|]. split; [by rewrite Hs2, Hs1, app_assoc|].
    exists (a1 ++ a2). split; [by rewrite Hw2, Hw1, app_assoc|].
    by rewrite app_assoc, Hu1, <- !app_assoc, Hu2.
Qed.

(** A connected socket with empty 16-byte buffers, a parser that reads a length
    byte, and a kernel that takes two bytes and delivers three. *)
Definition demo_parser : ITcpPkgParser := fun l => match l with b :: _ => i32 b | [] => 0 end.
Definition demo_buf : RingBuffer :=
  {| buff_size := 16; buff := Live (replicate 16 0); rb_begin := 0; rb_end := 0 |}.
Definition demo_net : Net :=
  {| util := {| socket_state_ := NET_CONNECTED; url_ := []; fd_ := 3;
                last_request_timestamp_ := 0; last_response_timestamp_ := 0;
                tcp_pkg_parser_imp_ := true; send_buf_ := demo_buf; recv_buf_ := demo_buf |};
     sys := []; wire_out := []; wire_in := [] |}.
Definition demo_kernel : Kernel :=
  {| k_socket := 3; k_connect := None; k_select := 1; k_so_error := 0; k_getfl := 0;
     k_setopt := 0; k_send := IoOk 2; k_recv := IoOk [2; 7; 9];
     k_gethostbyname := fun _ => None; k_inet_aton := fun _ => None |}.

Lemma demo_buf_ok : rb_ok demo_buf.
Proof. constructor; simpl; try lia. by eexists. Qed.
Lemma demo_net_ok : sock_ok (util demo_net).
Proof. constructor; try apply demo_buf_ok; done. Qed.

Definition after {A} (m : M Net A) (n : Net) : Net :=
  match m n with Ok (_, n') => n' | Fault _ => n end.
Definition demo1 : Net := after (PushToSendQ 0 [1; 2; 3]) demo_net.
Definition demo2 : Net := after (Send demo_kernel) demo1.
Definition demo3 : Net := after (Recv demo_kernel) demo2.
Definition demo4 : Net := after (@PeekFromRecvQ 0 demo_parser false) demo3.
Definition demo5 : Net := after (@PopFromRecvQ demo_parser) demo4.

Lemma demo_steps : @net_steps demo_parser demo_net [1; 2; 3] [2; 7] demo5.
Proof.
  apply (steps_cons _ [1; 2; 3] [] demo1 [] [2; 7]).
  { apply (step_push 0 [1; 2; 3] _ NORMAL); [done|vm_compute; reflexivity]. }
  apply (steps_cons _ [] [] demo2 [] [2; 7]).
  { apply (step_send demo_kernel demo1 SEND_UNCOMPLETED);
      [vm_compute; split; discriminate|vm_compute; reflexivity]. }
  apply (steps_cons _ [] [] demo3 [] [2; 7]).
  { apply (step_recv demo_kernel demo2 NORMAL);
      [vm_compute; discriminate|vm_compute; reflexivity]. }
  apply (steps_cons _ [] [2; 7] demo5 [] []); [|apply steps_nil].
  apply (step_peek_pop 0 (Some [2; 7]) demo3 NORMAL demo4 NORMAL); vm_compute; reflexivity.
Qed.

Lemma stream_integrity_witness :
  sock_ok (util demo5) /\ sent_stream demo5 = [1; 2; 3] /\ wire_out demo5 = [1; 2]
  /\ unread demo5 = [9].
Proof.
  destruct (stream_integrity _ _ _ _ demo_steps demo_net_ok) as (Hok & Hs & _).
  split; [exact Hok|]. split; [exact Hs|]. vm_compute. split; reflexivity.
Defined.

(** C26: [socket_ops_safe]. From well-formed buffers, whatever the kernel answers within the
    sizes it was given, every send, receive and package read returns and stays inside the
    buffers, and so does a push of less than 2^31 bytes.  A push of more writes behind the end
    of the send buffer exactly when the length, cut to an [int], passes the check although the
    data does not fit; otherwise it returns as well. *)
Theorem socket_ops_safe {P : ITcpPkgParser} K now n buf iov :
  sock_ok (util n) -> send_fits K (util n) -> recv_fits K (util n) ->
  let safe {A} (m : M Net A) := exists r n', m n = Ok (r, n') /\ sock_ok (util n') in
  let push (m : M Net Z) data :=
    if decide (i32 (blen data) <= Avaiable (send_buf_ (util n)) < blen data)
    then m n = Fault OutOfBounds /\ 2147483648 <= blen data else safe m in
  push (PushToSendQ now buf) buf /\
  push (PushvToSendQ now (Some iov)) (concat (map iov_data iov)) /\
  safe (Send K) /\ safe (Recv K) /\ safe HasNewPkg /\
  safe (PeekFromRecvQ now false) /\ safe PopFromRecvQ.
Proof.
  intros Hok Hs Hr safe push. subst safe push. split_and!.
  - pose proof (PushToSendQ_any now n buf Hok) as Hp. pose proof (escapes_long (util n) buf).
    unfold escapes in *. case_decide; auto.
  - pose proof (PushvToSendQ_any now n iov Hok) as Hp.
    pose proof (escapes_long (util n) (concat (map iov_data iov))).
    unfold escapes in *. case_decide; auto.
  - destruct (Send_ok K n) as (r & n' & ? & ? & _); eauto.
  - destruct (Recv_ok K n) as (r & n' & d & ? & ? & _); eauto.
  - rewrite HasNewPkg_ok by done. eauto.
  - destruct (PeekFromRecvQ_ok now n) as (n' & ? & ? & _); eauto.
  - destruct (PopFromRecvQ_ok n) as (n' & ? & ? & _); eauto.
Qed.


Lemma socket_ops_safe_witness :
  exists r n', @PopFromRecvQ demo_parser demo3 = Ok (r, n') /\ sock_ok (util n').
Proof.
  assert (Hok : sock_ok (util demo3)).
  { constructor; [| |reflexivity|reflexivity]; (constructor; [by eexists|vm_compute; split; discriminate
      |vm_compute; discriminate|vm_compute; reflexivity]). }
  apply (socket_ops_safe (P := demo_parser)
           {| k_socket := 3; k_connect := None; k_select := 1; k_so_error := 0; k_getfl := 0;
              k_setopt := 0; k_send := IoOk 1; k_recv := IoOk [5];
              k_gethostbyname := fun _ => None; k_inet_aton := fun _ => None |}
           0 demo3 [1] [Some [1]] Hok); vm_compute; repeat split; discriminate.
Defined.
