(* ===== verification/NetUri.v ===== *)
(** * Listening URIs: utils/rap_net_uri.c

    [proto:address:port] strings.  The kernel ([socket]) and the resolver
    ([inet_addr]) are parameters.  A URI is copied into an array of 256 bytes,
    which the functions then cut into strings by overwriting separators. *)
From Stdlib Require Import ZArith Lia String.
From stdpp Require Import base list.
From S2P Require Import Prelude CLib TcpSocket.
Local Open Scope Z_scope.

Definition URI_SEPERATOR : Z := 58.  (* ':' *)
Definition MAX_URI_LEN : Z := 256.
Definition NET_DEF_PORT : Z := 80.
Definition AF_UNIX : Z := 1.
Definition SOCK_STREAM : Z := 1.
Definition SOCK_DGRAM : Z := 2.
Definition INADDR_NONE : Z := 4294967295.

(** [TYPE_TCP], [TYPE_UDP] and [TYPE_UNIX], src/utils/rap_net_uri.c:12-16 *)
Definition TYPE_TCP : Z := 0.
Definition TYPE_UDP : Z := 1.
Definition TYPE_UNIX : Z := 2.

(** [protocol], src/utils/rap_net_uri.c:18-20 *)
Definition protocol : list bytes :=
  List.map bytes_of_string ["tcp"%string; "udp"%string; "unix"%string].

(** The search of [protocol] that two functions repeat: the first entry that
    [strncmp] with the length of the name does not tell from the name. *)
Fixpoint find_protocol (name : bytes) (ps : list bytes) (i : Z) : option Z :=
  match ps with
  | [] => None
  | p :: r => if strncmp0 name p (length name) then Some i
              else find_protocol name r (i + 1)
  end.

(** [strcpy(rap_uri, uri)] into [char rap_uri[MAX_URI_LEN]]. *)
Definition copy_uri (uri : bytes) : outcome bytes :=
  buf ← mem_write (replicate (Z.to_nat MAX_URI_LEN) 0) 0 (uri ++ [0]);
  mret (take (length uri) buf).

(** [rap_uri_get_socket_type], src/utils/rap_net_uri.c:26-64 *)
Definition rap_uri_get_socket_type (uri : option bytes) : outcome Z :=
  match uri with
  | None => mret (-1)
  | Some uri =>
      if strlen uri >=? MAX_URI_LEN then mret (-2)
      else
        rap_uri ← copy_uri uri;
        match strchr rap_uri URI_SEPERATOR with
        | None => mret TYPE_TCP
        | Some uri_ptr =>
            match find_protocol (take uri_ptr rap_uri) protocol 0 with
            | None => mret (-3)
            | Some i => mret i
            end
        end
  end.

(** [rap_uri_open_socket], src/utils/rap_net_uri.c:66-95

    [socket domain type] is the answer of the system call. *)
Definition rap_uri_open_socket (socket : Z -> Z -> Z) (uri : option bytes) : outcome Z :=
  type ← rap_uri_get_socket_type uri;
  if type <? 0 then mret (-1)
  else if type =? TYPE_TCP then mret (socket AF_INET SOCK_STREAM)
  else if type =? TYPE_UDP then mret (socket AF_INET SOCK_DGRAM)
  else if type =? TYPE_UNIX then mret (socket AF_UNIX SOCK_STREAM)
  else mret (-1).

(** [rap_uri_get_socket_addr], src/utils/rap_net_uri.c:98-182

    The result is the return value with the structure [sin] points to. *)
Definition rap_uri_get_socket_addr (inet_addr : bytes -> Z) (uri : option bytes)
    (sin : option sockaddr_in) : outcome (Z * option sockaddr_in) :=
  match uri, sin with
  | None, _ | _, None => mret (-1, sin)
  | Some uri, Some _ =>
      if strlen uri >=? MAX_URI_LEN then mret (-2, sin)
      else
        rap_uri ← copy_uri uri;
        match strchr rap_uri URI_SEPERATOR with
        | None =>
            let addr := inet_addr rap_uri in
            if addr =? INADDR_NONE then mret (-3, sin)
            else mret (0, Some {| sin_family := AF_INET; sin_addr := addr;
                                  sin_port := htons NET_DEF_PORT |})
        | Some uri_ptr =>
            match find_protocol (take uri_ptr rap_uri) protocol 0 with
            | None => mret (-4, sin)
            | Some i =>
                let rest := drop (S uri_ptr) rap_uri in
                let '(host, port) :=
                  match strchr rest URI_SEPERATOR with
                  | Some port_ptr => (take port_ptr rest, atoi (drop (S port_ptr) rest))
                  | None => (rest, NET_DEF_PORT)
                  end in
                let addr := inet_addr host in
                if addr =? INADDR_NONE then mret (-3, sin)
                else
                  let fill family := Some {| sin_family := family; sin_addr := addr;
                                             sin_port := htons port |} in
                  if (i =? TYPE_TCP) || (i =? TYPE_UDP) then mret (0, fill AF_INET)
                  else if i =? TYPE_UNIX then mret (0, fill AF_UNIX)
                  else mret (-5, fill (match sin with Some s => sin_family s | None => 0 end))
            end
        end
  end.

(** ** Lemmas *)

Lemma copy_uri_ok uri : strlen uri < MAX_URI_LEN -> copy_uri uri = Ok uri.
Proof.
  unfold strlen, blen, copy_uri, mem_write. change MAX_URI_LEN with 256. intros H.
  rewrite bool_decide_eq_true_2.
  2: { unfold blen. rewrite length_app, length_replicate. simpl length. lia. }
  simpl. f_equal. unfold splice. rewrite <- app_assoc. simpl. apply take_app_length.
Qed.

(** With the length of a NUL-free name, [strncmp] tests for a prefix. *)
Lemma strncmp0_prefix name p :
  Forall (fun c => c <> 0) name ->
  strncmp0 name p (length name) = is_prefix name p.
Proof.
  intros Hn. unfold strncmp0. rewrite take_app_length.
  revert p. induction Hn as [|c name Hc Hn IH]; intros p; [by case_bool_decide|].
  destruct p as [|d p]; cbn [app length take is_prefix].
  - apply bool_decide_eq_false_2. congruence.
  - rewrite <- IH. destruct (Z.eqb_spec c d) as [->|Hd]; cbn [andb].
    + apply bool_decide_ext. split; congruence.
    + apply bool_decide_eq_false_2. congruence.
Qed.

Lemma find_protocol_prefix name ps i :
  Forall (fun c => c <> 0) name ->
  find_protocol name ps i
  = (fun x => i + Z.of_nat (fst x)) <$> list_find (fun p => is_prefix name p = true) ps.
Proof.
  intros Hn. revert i. induction ps as [|p ps IH]; intros i; [done|].
  cbn [find_protocol list_find]. rewrite strncmp0_prefix by done.
  destruct (decide (is_prefix name p = true)) as [E|E].
  - rewrite E. cbn. f_equal. lia.
  - destruct (is_prefix name p); [done|]. rewrite IH.
    destruct (list_find _ ps) as [[k q]|]; cbn; [|done]. f_equal. lia.
Qed.

(** ** Properties *)

(** The type of a URI [name:rest] of fewer than 256 bytes
    is the index of the first of "tcp", "udp" and "unix" that [name] is a prefix
    of (so "t", "u" and the empty name are accepted), and -3 when there is none. *)
Theorem uri_socket_type name rest :
  Forall (fun c => c <> URI_SEPERATOR) name ->
  cstring (name ++ URI_SEPERATOR :: rest) ->
  strlen (name ++ URI_SEPERATOR :: rest) < MAX_URI_LEN ->
  rap_uri_get_socket_type (Some (name ++ URI_SEPERATOR :: rest))
  = Ok (match list_find (fun p => is_prefix name p = true) protocol with
        | Some (i, _) => Z.of_nat i
        | None => -3
        end).
Proof.
  intros Hn Hc Hl. unfold rap_uri_get_socket_type.
  replace (strlen (name ++ URI_SEPERATOR :: rest) >=? MAX_URI_LEN) with false by lia.
  rewrite copy_uri_ok by done. cbn [mbind outcome_bind]. rewrite strchr_app by done.
  rewrite take_app_length, find_protocol_prefix.
  - by destruct (list_find _ _) as [[i p]|].
  - apply Forall_app in Hc as [Hc _]. eapply Forall_impl; [exact Hc|]. by intros x [_ ?].
Qed.

Lemma uri_socket_type_witness :
  rap_uri_get_socket_type (Some (bytes_of_string "un:/tmp/app.sock")) = Ok TYPE_UNIX.
Proof.
  apply (uri_socket_type (bytes_of_string "un") (bytes_of_string "/tmp/app.sock"));
    vm_compute; repeat constructor; discriminate.
Defined.

(** A URI [proto:host:port] with the full name of a
    protocol gives the address of the host with the port printed behind it in
    network byte order, and refuses the URI with -3, the structure untouched, when
    the resolver refuses the host; in particular the resolver is asked for the
    text between the two separators, so in [proto://host:port] for "//host". *)
Theorem uri_socket_addr inet_addr i proto host port sin :
  protocol !! i = Some proto ->
  Forall (fun c => c <> URI_SEPERATOR) host ->
  0 <= port < 65536 ->
  strlen (proto ++ URI_SEPERATOR :: host ++ URI_SEPERATOR :: dec port) < MAX_URI_LEN ->
  rap_uri_get_socket_addr inet_addr
    (Some (proto ++ URI_SEPERATOR :: host ++ URI_SEPERATOR :: dec port)) (Some sin)
  = Ok (if inet_addr host =? INADDR_NONE then (-3, Some sin)
        else (0, Some {| sin_family := if Z.of_nat i =? TYPE_UNIX then AF_UNIX else AF_INET;
                         sin_addr := inet_addr host; sin_port := htons port |})).
Proof.
  intros Hi Hh Hp Hl. unfold rap_uri_get_socket_addr.
  replace (_ >=? MAX_URI_LEN) with false by lia.
  rewrite copy_uri_ok by done. cbn [mbind outcome_bind].
  assert (Hs : strchr (proto ++ URI_SEPERATOR :: host ++ URI_SEPERATOR :: dec port)
                 URI_SEPERATOR = Some (length proto) /\
               find_protocol proto protocol 0 = Some (Z.of_nat i)).
  { split.
    - apply strchr_app. destruct i as [|[|[|i]]]; [..|done]; injection Hi as <-;
        repeat constructor; discriminate.
    - destruct i as [|[|[|i]]]; [..|done]; injection Hi as <-; reflexivity. }
  destruct Hs as [-> Hf]. rewrite take_app_length, Hf.
  replace (drop (S (length proto)) _) with (host ++ URI_SEPERATOR :: dec port).
  2: { change (proto ++ URI_SEPERATOR :: host ++ URI_SEPERATOR :: dec port)
         with (proto ++ [URI_SEPERATOR] ++ host ++ URI_SEPERATOR :: dec port).
       rewrite app_assoc. symmetry. apply drop_app_length'. rewrite length_app. simpl. lia. }
  rewrite strchr_app by done. rewrite take_app_length.
  replace (drop (S (length host)) _) with (dec port).
  2: { change (host ++ URI_SEPERATOR :: dec port)
         with (host ++ [URI_SEPERATOR] ++ dec port).
       rewrite app_assoc. symmetry. apply drop_app_length'. rewrite length_app. simpl. lia. }
  replace (atoi (dec port)) with port.
  2: { rewrite <- (app_nil_r (dec port)). symmetry. apply atoi_dec; [lia|done]. }
  destruct (inet_addr host =? INADDR_NONE); [done|].
  by destruct i as [|[|[|i]]].
Qed.

Lemma uri_socket_addr_witness :
  let inet_addr h := if bool_decide (h = bytes_of_string "127.0.0.1") then 16777343
                     else INADDR_NONE in
  rap_uri_get_socket_addr inet_addr (Some (bytes_of_string "udp:127.0.0.1:53"))
    (Some {| sin_family := 0; sin_port := 0; sin_addr := 0 |})
  = Ok (0, Some {| sin_family := AF_INET; sin_port := htons 53; sin_addr := 16777343 |}).
Proof.
  intros inet_addr.
  apply (uri_socket_addr inet_addr 1 (bytes_of_string "udp") (bytes_of_string "127.0.0.1") 53
           {| sin_family := 0; sin_port := 0; sin_addr := 0 |});
    [reflexivity|repeat constructor; discriminate|lia|reflexivity].
Defined.
