(* ===== verification/Timer.v ===== *)
(** * Timers: framework/rapidapp_easy_timer.* and framework/rapidapp_timer_mgr.*

    [TimerMgr] keeps pointers to heap-allocated timers in a vector ordered by the
    time of the next activity.  A pointer is an address, the heap a finite map
    from the live addresses; the address [new] returns is an argument. *)
From Stdlib Require Import ZArith Lia.
From stdpp Require Import base list gmap fin_maps sorting.
From S2P Require Import Prelude.
Local Open Scope Z_scope.

(** ** [EasyTimer] *)

(** [EasyTimer], src/framework/rapidapp_easy_timer.h:37-44

    [list_idx_], which nothing reads or writes, is left out. *)
Record EasyTimer : Set := {
  next_active_timestamp_ : Z;   (** [time_t] *)
  time_step_ : Z;               (** [size_t] *)
  timer_id_ : Z
}.

(** [EasyTimer::EasyTimer], src/framework/rapidapp_easy_timer.cpp:6-7 *)
Definition EasyTimer_new : EasyTimer :=
  {| next_active_timestamp_ := 0; time_step_ := 0; timer_id_ := 0 |}.

(** [EasyTimer::Init], src/framework/rapidapp_easy_timer.cpp:12-18 *)
Definition EasyTimer_Init (time timer_id : Z) (t : EasyTimer) : Z * EasyTimer :=
  (0, {| next_active_timestamp_ := next_active_timestamp_ t;
         time_step_ := time; timer_id_ := timer_id |}).

(** [EasyTimer::Start], src/framework/rapidapp_easy_timer.cpp:23-29

    The sum of a [time_t] and a [size_t] is a [size_t], stored as a [time_t]. *)
Definition Start (now : Z) (t : EasyTimer) : EasyTimer :=
  {| next_active_timestamp_ := i64 (u64 now + time_step_ t);
     time_step_ := time_step_ t; timer_id_ := timer_id_ t |}.

(** [EasyTimer::Step], src/framework/rapidapp_easy_timer.h:22-24 *)
Definition Step (t : EasyTimer) : EasyTimer :=
  {| next_active_timestamp_ := i64 (u64 (next_active_timestamp_ t) + time_step_ t);
     time_step_ := time_step_ t; timer_id_ := timer_id_ t |}.

(** ** [TimerMgr] *)

(** [TimerMgr], src/framework/rapidapp_timer_mgr.h:15-38

    With the heap of timers; a null pointer in the vector is [None]. *)
Record TimerMgr : Type := {
  max_timer_num_ : Z;
  timer_list_ : list (option Z);
  timers : gmap Z EasyTimer
}.

Definition DEFAULT_MAX_TIMER_NUM : Z := 1024 * 1024.

(** [TimerMgr::TimerMgr], src/framework/rapidapp_timer_mgr.cpp:20-21 *)
Definition TimerMgr_new : TimerMgr :=
  {| max_timer_num_ := DEFAULT_MAX_TIMER_NUM; timer_list_ := []; timers := ∅ |}.

Definition set_list (l : list (option Z)) (m : TimerMgr) : TimerMgr :=
  {| max_timer_num_ := max_timer_num_ m; timer_list_ := l; timers := timers m |}.
Definition set_timers (h : gmap Z EasyTimer) (m : TimerMgr) : TimerMgr :=
  {| max_timer_num_ := max_timer_num_ m; timer_list_ := timer_list_ m; timers := h |}.

(** Access through a pointer. *)
Definition load_timer (p : option Z) : M TimerMgr EasyTimer := fun m =>
  match p with
  | None => Fault NullDeref
  | Some a => match timers m !! a with
              | Some t => Ok (t, m)
              | None => Fault UseAfterFree
              end
  end.
Definition store_timer (a : Z) (t : EasyTimer) : M TimerMgr unit :=
  modify (fun m => set_timers (<[a := t]> (timers m)) m).

(** [delete p]: deleting a pointer twice is a fault. *)
Definition delete_timer (p : option Z) : M TimerMgr unit :=
  match p with
  | None => mret tt
  | Some a => _ ← load_timer p; modify (fun m => set_timers (delete a (timers m)) m)
  end.

(** [TimerMgr::Init], src/framework/rapidapp_timer_mgr.cpp:26-31 *)
Definition TimerMgr_Init (timer_max : Z) : M TimerMgr Z :=
  _ ← modify (fun m => {| max_timer_num_ := timer_max; timer_list_ := timer_list_ m;
                          timers := timers m |});
  mret 0.

(** The loop that deletes the timers of the vector and nulls its entries. *)
Fixpoint delete_all (l : list (option Z)) : M TimerMgr unit :=
  match l with
  | [] => mret tt
  | p :: r => _ ← delete_timer p; delete_all r
  end.

(** [TimerMgr::CleanUp], src/framework/rapidapp_timer_mgr.cpp:33-46 *)
Definition TimerMgr_CleanUp : M TimerMgr unit :=
  l ← gets timer_list_;
  _ ← delete_all l;
  modify (set_list []).

(** [timer_cmp_func], src/framework/rapidapp_timer_mgr.cpp:7-18 *)
Definition timer_cmp_func (a b : option Z) : M TimerMgr bool :=
  match a, b with
  | None, _ | _, None => mret false
  | Some _, Some _ =>
      ta ← load_timer a;
      tb ← load_timer b;
      mret (next_active_timestamp_ ta <? next_active_timestamp_ tb)
  end.

(** [std::upper_bound] as the library computes it: the range of [len] elements
    from [first] is halved until it is empty. *)
Fixpoint upper_bound_loop (fuel : nat) (l : list (option Z)) (val : option Z)
    (first len : nat) : M TimerMgr nat :=
  match fuel with
  | O => fail Diverges
  | S f =>
      if (len =? 0)%nat then mret first
      else
        let half := (len / 2)%nat in
        let middle := (first + half)%nat in
        match l !! middle with
        | None => fail OutOfBounds
        | Some x =>
            b ← timer_cmp_func val x;
            if (b : bool) then upper_bound_loop f l val first half
            else upper_bound_loop f l val (S middle) (len - half - 1)
        end
  end.
Definition upper_bound (l : list (option Z)) (val : option Z) : M TimerMgr nat :=
  upper_bound_loop (S (length l)) l val 0 (length l).

Definition vector_insert (l : list (option Z)) (i : nat) (x : option Z) : list (option Z) :=
  take i l ++ x :: drop i l.
Definition vector_erase (l : list (option Z)) (i : nat) : list (option Z) :=
  take i l ++ drop (S i) l.

(** The last lines of two methods: the timer is put into the vector. *)
Definition insert_timer (p : option Z) : M TimerMgr unit :=
  l ← gets timer_list_;
  it ← upper_bound l p;
  modify (set_list (vector_insert l it p)).

(** [TimerMgr::GetNextActiveTimer], src/framework/rapidapp_timer_mgr.cpp:48-67 *)
Definition GetNextActiveTimer : M TimerMgr (option Z) :=
  l ← gets timer_list_;
  match l with
  | [] => mret None
  | curr_timer :: rest =>
      _ ← assertb (bool_decide (curr_timer <> None));
      t ← load_timer curr_timer;
      _ ← (match curr_timer with Some a => store_timer a (Step t) | None => mret tt end);
      _ ← modify (set_list rest);
      _ ← insert_timer curr_timer;
      mret curr_timer
  end.

(** [TimerMgr::AddTimer], src/framework/rapidapp_timer_mgr.cpp:69-105

    [addr] is the result of [new(std::nothrow)], [now] that of [time(NULL)]. *)
Definition AddTimer (addr : option Z) (now time_gap timer_id : Z) : M TimerMgr (option Z) :=
  if time_gap =? 0 then mret None
  else
    m ← get;
    if max_timer_num_ m <=? Z.of_nat (length (timer_list_ m)) then mret None
    else
      match addr with
      | None => mret None
      | Some a =>
          let '(ret, t) := EasyTimer_Init time_gap timer_id EasyTimer_new in
          _ ← store_timer a t;
          if negb (ret =? 0) then _ ← delete_timer addr; mret None
          else
            _ ← store_timer a (Start now t);
            _ ← insert_timer addr;
            mret addr
      end.

(** The loop of [RemoveTimer]: the iterator is an index, [end()] the length of
    the vector, and the loop only stops when the two are equal. *)
Fixpoint remove_loop (fuel : nat) (timer : Z) (it : nat) : M TimerMgr unit :=
  match fuel with
  | O => fail Diverges
  | S f =>
      l ← gets timer_list_;
      if (it =? length l)%nat then mret tt
      else
        match l !! it with
        | None => fail OutOfBounds
        | Some x =>
            _ ← (match x with
                 | None => mret tt
                 | Some a =>
                     if a =? timer then
                       t ← load_timer (Some timer);
                       t' ← load_timer x;
                       if timer_id_ t =? timer_id_ t' then
                         _ ← delete_timer (Some timer);
                         modify (set_list (vector_erase l it))
                       else mret tt
                     else mret tt
                 end);
            remove_loop f timer (S it)
        end
  end.

(** [TimerMgr::RemoveTimer], src/framework/rapidapp_timer_mgr.cpp:107-131 *)
Definition RemoveTimer (timer : option Z) : M TimerMgr Z :=
  match timer with
  | None => mret (-1)
  | Some a =>
      l ← gets timer_list_;
      _ ← remove_loop (S (S (length l))) a 0;
      mret 0
  end.

(** ** The invariant *)

Definition stamp (h : gmap Z EasyTimer) (a : Z) : Z :=
  match h !! a with Some t => next_active_timestamp_ t | None => 0 end.

(** The vector holds the addresses [ps]: each live timer once, in the order of
    the next activity. *)
Definition timers_are (m : TimerMgr) (ps : list Z) : Prop :=
  timer_list_ m = Some <$> ps /\ NoDup ps /\
  (forall a, is_Some (timers m !! a) <-> a ∈ ps) /\
  StronglySorted (fun a b => stamp (timers m) a <= stamp (timers m) b) ps.

Definition timer_ok (m : TimerMgr) : Prop := exists ps, timers_are m ps.

(** The operations of the class, with the environment's choices. *)
Inductive timer_step : TimerMgr -> TimerMgr -> Prop :=
  | step_add m addr now gap id r m' :
      (forall a, addr = Some a -> timers m !! a = None) ->
      AddTimer addr now gap id m = Ok (r, m') -> timer_step m m'
  | step_next m r m' : GetNextActiveTimer m = Ok (r, m') -> timer_step m m'
  | step_remove m p r m' : RemoveTimer p m = Ok (r, m') -> timer_step m m'
  | step_init m n r m' : TimerMgr_Init n m = Ok (r, m') -> timer_step m m'
  | step_cleanup m r m' : TimerMgr_CleanUp m = Ok (r, m') -> timer_step m m'.

(** ** Lemmas *)

Lemma load_live m a t : timers m !! a = Some t -> load_timer (Some a) m = Ok (t, m).
Proof. intros H. unfold load_timer. by rewrite H. Qed.

Lemma timer_cmp_live m a b :
  is_Some (timers m !! a) -> is_Some (timers m !! b) ->
  timer_cmp_func (Some a) (Some b) m
  = Ok (stamp (timers m) a <? stamp (timers m) b, m).
Proof.
  intros [ta Ha] [tb Hb]. unfold timer_cmp_func, stamp.
  rewrite (bind_step _ _ _ _ _ (load_live _ _ _ Ha)).
  rewrite (bind_step _ _ _ _ _ (load_live _ _ _ Hb)). by rewrite Ha, Hb.
Qed.

Lemma StronglySorted_lookup {A} (R : A -> A -> Prop) l i j x y :
  StronglySorted R l -> (i < j)%nat -> l !! i = Some x -> l !! j = Some y -> R x y.
Proof.
  intros Hs. revert i j. induction Hs as [|z l Hs IH HF]; intros i j Hij Hi Hj; [done|].
  destruct j as [|j]; [lia|]. destruct i as [|i]; simplify_eq/=.
  - by eapply Forall_lookup_1.
  - eapply IH; [|done..]. lia.
Qed.

Section UpperBound.
Context (m : TimerMgr) (ps : list Z) (v : Z).
Context (Hlive : forall a, a ∈ ps -> is_Some (timers m !! a)).
Context (Hv : is_Some (timers m !! v)).
Context (Hsort : StronglySorted (fun a b => stamp (timers m) a <= stamp (timers m) b) ps).

(** The split of the vector at the place of [v]. *)
Definition splits (i : nat) : Prop :=
  (i <= length ps)%nat /\
  (forall j a, (j < i)%nat -> ps !! j = Some a -> stamp (timers m) a <= stamp (timers m) v) /\
  (forall j a, (i <= j)%nat -> ps !! j = Some a -> stamp (timers m) v < stamp (timers m) a).

Lemma upper_bound_loop_ok fuel first len :
  (len < fuel)%nat -> (first + len <= length ps)%nat ->
  (forall j a, (j < first)%nat -> ps !! j = Some a ->
     stamp (timers m) a <= stamp (timers m) v) ->
  (forall j a, (first + len <= j)%nat -> ps !! j = Some a ->
     stamp (timers m) v < stamp (timers m) a) ->
  exists i, upper_bound_loop fuel (Some <$> ps) (Some v) first len m = Ok (i, m) /\ splits i.
Proof using Hlive Hv Hsort.
  revert first len. induction fuel as [|f IH]; intros first len Hf Hlen Hlo Hhi; [lia|].
  cbn [upper_bound_loop]. destruct (Nat.eqb_spec len 0) as [->|Hne].
  { exists first. split; [done|]. rewrite Nat.add_0_r in *. done. }
  assert (Hhalf : (len / 2 < len)%nat) by (apply Nat.div_lt; lia).
  destruct (lookup_lt_is_Some_2 ps (first + len / 2)) as [x Hx]; [lia|].
  rewrite list_lookup_fmap, Hx. cbn [fmap option_fmap option_map].
  rewrite (bind_step _ _ _ _ _ (timer_cmp_live m v x Hv
             (Hlive x (list_elem_of_lookup_2 _ _ _ Hx)))).
  destruct (Z.ltb_spec (stamp (timers m) v) (stamp (timers m) x)) as [Hlt|Hge].
  - apply IH; [lia|lia|done|]. intros j a Hj Ha.
    destruct (decide (j = first + len / 2)%nat) as [->|Hjx]; [by simplify_eq|].
    eapply Z.lt_le_trans; [exact Hlt|].
    eapply (StronglySorted_lookup _ _ _ j _ _ Hsort); [|exact Hx|done]. lia.
  - apply IH; [lia|lia| |].
    + intros j a Hj Ha.
      destruct (decide (j = first + len / 2)%nat) as [->|Hjx]; [by simplify_eq|].
      etransitivity; [|exact Hge].
      eapply (StronglySorted_lookup _ _ j _ _ _ Hsort); [|done|exact Hx]. lia.
    + intros j a Hj. apply Hhi. lia.
Qed.

Lemma upper_bound_ok :
  exists i, upper_bound (Some <$> ps) (Some v) m = Ok (i, m) /\ splits i.
Proof using Hlive Hv Hsort.
  unfold upper_bound. rewrite length_fmap. apply upper_bound_loop_ok; [lia|lia|lia|].
  intros j a Hj Ha%lookup_lt_Some. lia.
Qed.

(** The split is the only one: the timers that are not later than [v] come first. *)
Lemma splits_filter i :
  splits i ->
  take i ps = filter (fun a => stamp (timers m) a <= stamp (timers m) v) ps /\
  drop i ps = filter (fun a => ~ stamp (timers m) a <= stamp (timers m) v) ps.
Proof using.
  intros (Hi & Hlo & Hhi).
  assert (Ht : Forall (fun a => stamp (timers m) a <= stamp (timers m) v) (take i ps)).
  { apply Forall_lookup. intros j a (Ha & Hj)%lookup_take_Some. eauto. }
  assert (Hd : Forall (fun a => ~ stamp (timers m) a <= stamp (timers m) v) (drop i ps)).
  { apply Forall_lookup. intros j a Ha. rewrite lookup_drop in Ha.
    specialize (Hhi _ _ (Nat.le_add_r i j) Ha). lia. }
  pose proof (take_drop i ps) as E. set (l1 := take i ps) in *. set (l2 := drop i ps) in *.
  rewrite <- E, !filter_app. split.
  - rewrite (filter_all _ l1), (filter_none _ l2) by done. by rewrite app_nil_r.
  - rewrite (filter_none _ l1), (filter_all _ l2); [done|done|].
    eapply Forall_impl; [exact Ht|]. simpl. intros. lia.
Qed.

(** Putting [v] at the split keeps the order. *)
Lemma splits_sorted i :
  splits i ->
  StronglySorted (fun a b => stamp (timers m) a <= stamp (timers m) b)
    (take i ps ++ v :: drop i ps).
Proof using Hsort.
  intros (Hi & Hlo & Hhi). apply StronglySorted_app. rewrite StronglySorted_cons.
  rewrite <- (take_drop i ps), StronglySorted_app in Hsort.
  destruct Hsort as (H12 & H1 & H2). repeat split; [|done| |done].
  - intros a b Ha Hb. apply list_elem_of_lookup in Ha as [j Ha].
    apply lookup_take_Some in Ha as [Ha Hj].
    apply elem_of_cons in Hb as [->|Hb]; [eauto|].
    apply list_elem_of_lookup in Hb as [k Hb]. rewrite lookup_drop in Hb.
    specialize (Hlo _ _ Hj Ha). specialize (Hhi _ _ (Nat.le_add_r i k) Hb). lia.
  - apply Forall_lookup. intros k b Hb. rewrite lookup_drop in Hb.
    specialize (Hhi _ _ (Nat.le_add_r i k) Hb). lia.
Qed.
End UpperBound.

(** The list with [v] put behind the timers that are not later. *)
Definition placed (h : gmap Z EasyTimer) (ps : list Z) (v : Z) : list Z :=
  filter (fun a => stamp h a <= stamp h v) ps ++ v ::
  filter (fun a => ~ stamp h a <= stamp h v) ps.

Lemma placed_perm h ps v : placed h ps v ≡ₚ v :: ps.
Proof.
  unfold placed. rewrite <- Permutation_middle. by rewrite filter_app_complement.
Qed.

Lemma insert_timer_ok m ps v :
  timer_list_ m = Some <$> ps -> NoDup (v :: ps) ->
  (forall a, is_Some (timers m !! a) <-> a ∈ v :: ps) ->
  StronglySorted (fun a b => stamp (timers m) a <= stamp (timers m) b) ps ->
  let m' := set_list (Some <$> placed (timers m) ps v) m in
  insert_timer (Some v) m = Ok (tt, m') /\ timers_are m' (placed (timers m) ps v).
Proof.
  intros Hl Hnd Hh Hs m'. unfold insert_timer. unfold mbind, M_bind, gets. rewrite Hl.
  destruct (upper_bound_ok m ps v) as (i & Hub & Hsp).
  { intros a Ha. apply Hh. by constructor. }
  { apply Hh. by constructor. }
  { exact Hs. }
  rewrite Hub.
  pose proof (splits_filter m ps v i Hsp) as [E1 E2].
  pose proof (splits_sorted m ps v Hs i Hsp) as Hs'.
  assert (E : vector_insert (Some <$> ps) i (Some v) = Some <$> placed (timers m) ps v).
  { unfold vector_insert, placed. by rewrite <- E1, <- E2, fmap_app, fmap_cons,
      fmap_take, fmap_drop. }
  split; [unfold m'; by rewrite <- E|]. split; [done|]. split; [by rewrite placed_perm|]. split.
  - intros a. rewrite placed_perm. apply Hh.
  - cbn. unfold placed. by rewrite <- E1, <- E2.
Qed.

Lemma stamp_insert_ne h a t b : a <> b -> stamp (<[a := t]> h) b = stamp h b.
Proof. intros. unfold stamp. by rewrite lookup_insert_ne. Qed.

(** The order of the others does not change with the entry of one timer. *)
Lemma sorted_insert h a t ps :
  a ∉ ps -> StronglySorted (fun x y => stamp h x <= stamp h y) ps ->
  StronglySorted (fun x y => stamp (<[a := t]> h) x <= stamp (<[a := t]> h) y) ps.
Proof.
  intros Ha. induction 1 as [|x l Hs IH HF]; [constructor|].
  apply not_elem_of_cons in Ha as [Hax Hal]. constructor; [auto|].
  apply Forall_forall. intros y Hy. rewrite !stamp_insert_ne by (congruence || set_solver).
  by eapply Forall_forall in HF.
Qed.

Lemma AddTimer_ok m ps a now gap id :
  timers_are m ps -> gap <> 0 -> Z.of_nat (length ps) < max_timer_num_ m ->
  timers m !! a = None ->
  let h := <[a := Start now {| next_active_timestamp_ := 0; time_step_ := gap;
                               timer_id_ := id |}]> (timers m) in
  let m' := set_list (Some <$> placed h ps a) (set_timers h m) in
  AddTimer (Some a) now gap id m = Ok (Some a, m') /\ timers_are m' (placed h ps a).
Proof.
  intros (Hl & Hnd & Hh & Hs) Hgap Hmax Ha h m'.
  assert (Hna : a ∉ ps) by (rewrite <- Hh, Ha; by intros [? [=]]).
  destruct (insert_timer_ok (set_timers h m) ps a) as (E & E2).
  - done.
  - by constructor.
  - intros b. cbn. unfold h. rewrite lookup_insert_is_Some', elem_of_cons, Hh.
    split; intros [?|?]; auto.
  - cbn. by apply sorted_insert.
  - split; [|done]. unfold AddTimer. destruct (Z.eqb_spec gap 0); [done|].
    unfold mbind, M_bind, get. rewrite Hl, length_fmap.
    destruct (Z.leb_spec (max_timer_num_ m) (Z.of_nat (length ps))); [lia|].
    cbn [EasyTimer_Init negb Z.eqb store_timer modify]. cbn [timers set_timers].
    rewrite insert_insert_eq. unfold h in *. cbn in *. unfold set_timers in *. cbn in *.
    by rewrite E.
Qed.

Lemma GetNextActiveTimer_ok m p ps :
  timers_are m (p :: ps) ->
  exists t, timers m !! p = Some t /\
    let h := <[p := Step t]> (timers m) in
    let m' := set_list (Some <$> placed h ps p) (set_timers h m) in
    GetNextActiveTimer m = Ok (Some p, m') /\ timers_are m' (placed h ps p).
Proof.
  intros (Hl & Hnd & Hh & Hs).
  destruct (proj2 (Hh p) (list_elem_of_here _ _)) as [t Ht]. exists t.
  apply NoDup_cons in Hnd as [Hp Hnd]. apply StronglySorted_cons in Hs as [_ Hs].
  set (h := <[p := Step t]> (timers m)).
  destruct (insert_timer_ok (set_list (Some <$> ps) (set_timers h m)) ps p) as (E & E2).
  - done.
  - by constructor.
  - intros b. cbn. unfold h. rewrite lookup_insert_is_Some', Hh, !elem_of_cons.
    split; [intros [?|[?|?]]|intros [?|?]]; auto.
  - cbn. by apply sorted_insert.
  - split; [done|]. cbn zeta. split; [|done].
    unfold GetNextActiveTimer. unfold mbind at 1, M_bind at 1, gets. rewrite Hl. cbn [fmap list_fmap].
    rewrite bool_decide_eq_true_2 by done.
    unfold mbind, M_bind, assertb, mret, M_ret, load_timer. rewrite Ht.
    unfold store_timer, modify. unfold h in E. cbn in *. by rewrite E.
Qed.

Lemma RemoveTimer_loop_none m timer ps it fuel :
  timer_list_ m = Some <$> ps -> (length ps - it < fuel)%nat -> (it <= length ps)%nat ->
  timer ∉ drop it ps -> remove_loop fuel timer it m = Ok (tt, m).
Proof.
  intros Hl. revert it. induction fuel as [|f IH]; intros it Hf Hit Hd; [lia|].
  cbn [remove_loop]. unfold mbind at 1, M_bind at 1, gets. rewrite Hl, length_fmap.
  destruct (Nat.eqb_spec it (length ps)) as [->|Hne]; [done|].
  destruct (lookup_lt_is_Some_2 ps it) as [x Hx]; [lia|].
  rewrite list_lookup_fmap, Hx. cbn [fmap option_fmap option_map].
  rewrite (drop_S _ _ _ Hx), not_elem_of_cons in Hd. destruct Hd as [Hd1 Hd2].
  destruct (Z.eqb_spec x timer) as [->|_]; [done|]. unfold mbind, M_bind. cbn.
  apply IH; [lia|lia|done].
Qed.

(** The loop up to the timer that is removed, and behind it. *)
Lemma RemoveTimer_loop_some m l1 p l2 it fuel t :
  timer_list_ m = Some <$> l1 ++ p :: l2 -> timers m !! p = Some t ->
  p ∉ l1 -> p ∉ l2 -> (it <= length l1)%nat ->
  (S (length l1 + length l2) - it < fuel)%nat ->
  remove_loop fuel p it m
  = match l2 with
    | [] => Fault OutOfBounds
    | _ => Ok (tt, set_list (Some <$> l1 ++ l2) (set_timers (delete p (timers m)) m))
    end.
Proof.
  intros Hl Ht Hp1 Hp2. revert it. induction fuel as [|f IH]; intros it Hit Hf; [lia|].
  cbn [remove_loop]. unfold mbind at 1, M_bind at 1, gets. rewrite Hl.
  rewrite length_fmap, length_app. cbn [length].
  destruct (Nat.eqb_spec it (length l1 + S (length l2))) as [->|_]; [lia|].
  rewrite list_lookup_fmap. destruct (decide (it = length l1)) as [->|Hne].
  - rewrite list_lookup_middle by done. cbn [fmap option_fmap option_map].
    rewrite Z.eqb_refl.
    assert (Hd : delete_timer (Some p) m = Ok (tt, set_timers (delete p (timers m)) m)).
    { unfold delete_timer. by rewrite (bind_step _ _ _ _ _ (load_live _ _ _ Ht)). }
    unfold mbind, M_bind. rewrite !(load_live _ _ _ Ht), Z.eqb_refl, Hd. cbn [modify].
    assert (E : vector_erase (Some <$> l1 ++ p :: l2) (length l1) = Some <$> l1 ++ l2).
    { unfold vector_erase. rewrite <- fmap_take, <- fmap_drop, take_app_length.
      rewrite drop_app_ge by lia. replace (S (length l1) - length l1)%nat with 1%nat by lia.
      cbn [drop]. by rewrite fmap_app. }
    unfold set_list. cbn [timers timer_list_ max_timer_num_ set_timers]. rewrite E.
    destruct l2 as [|q l2].
    + destruct f as [|f]; [cbn in Hf; lia|]. cbn [remove_loop].
      unfold mbind, M_bind, gets. cbn [timer_list_]. rewrite app_nil_r, length_fmap.
      destruct (Nat.eqb_spec (S (length l1)) (length l1)); [lia|].
      rewrite lookup_ge_None_2 by (rewrite length_fmap; lia). done.
    + erewrite (RemoveTimer_loop_none _ p (l1 ++ q :: l2)); [done|done|..].
      * rewrite length_app. cbn in *. lia.
      * rewrite length_app. cbn. lia.
      * rewrite drop_app_ge by lia.
        replace (S (length l1) - length l1)%nat with 1%nat by lia. cbn. set_solver.
  - destruct (lookup_lt_is_Some_2 l1 it) as [x Hx]; [lia|].
    rewrite lookup_app_l by lia. rewrite Hx. cbn [fmap option_fmap option_map].
    destruct (Z.eqb_spec x p) as [->|_].
    { exfalso. apply Hp1. by eapply list_elem_of_lookup_2. }
    unfold mbind, M_bind. cbn. apply IH; lia.
Qed.

Lemma delete_all_ok ps m :
  NoDup ps -> (forall a, is_Some (timers m !! a) <-> a ∈ ps) ->
  exists m', delete_all (Some <$> ps) m = Ok (tt, m') /\ timers m' = ∅ /\
    max_timer_num_ m' = max_timer_num_ m.
Proof.
  revert m. induction ps as [|p ps IH]; intros m Hnd Hh.
  - exists m. split; [done|]. split; [|done]. apply map_eq. intros a. rewrite lookup_empty.
    apply eq_None_not_Some. rewrite Hh. apply not_elem_of_nil.
  - apply NoDup_cons in Hnd as [Hp Hnd].
    destruct (proj2 (Hh p) (list_elem_of_here _ _)) as [t Ht].
    destruct (IH (set_timers (delete p (timers m)) m)) as (m' & E & E1 & E2).
    + done.
    + intros a. cbn. rewrite lookup_delete_is_Some, Hh, elem_of_cons.
      split; [intros [? [?|?]]|intros ?; split; [congruence|]]; auto; congruence.
    + exists m'. split; [|done]. cbn [fmap list_fmap delete_all]. unfold delete_timer.
      unfold mbind, M_bind. by rewrite (load_live _ _ _ Ht).
Qed.

Lemma sorted_delete h p l :
  p ∉ l -> StronglySorted (fun x y => stamp h x <= stamp h y) l ->
  StronglySorted (fun x y => stamp (delete p h) x <= stamp (delete p h) y) l.
Proof.
  intros Hpl. induction 1 as [|x l Hsl IH HF]; [constructor|].
  apply not_elem_of_cons in Hpl as [Hx Hpl].
  constructor; [auto|]. apply Forall_forall. intros y Hy. eapply Forall_forall in HF; [|done].
  unfold stamp. rewrite !lookup_delete_ne by congruence. exact HF.
Qed.

(** The vector without one of its timers. *)
Lemma timers_are_delete m l1 p l2 :
  timers_are m (l1 ++ p :: l2) ->
  timers_are (set_list (Some <$> l1 ++ l2) (set_timers (delete p (timers m)) m)) (l1 ++ l2).
Proof.
  intros (Hl & Hnd & Hh & Hs). rewrite <- Permutation_middle in Hnd.
  apply NoDup_cons in Hnd as [Hp Hnd].
  split; [done|]. split; [done|]. split.
  - intros a. cbn. rewrite lookup_delete_is_Some, Hh, !elem_of_app, elem_of_cons.
    rewrite elem_of_app in Hp. split; [intros [? [?|[?|?]]]; auto; congruence|].
    intros Ha. split; [intros ->; tauto|tauto].
  - cbn. apply sorted_delete; [done|].
    apply StronglySorted_app in Hs as (Ha & Hb & Hc). apply StronglySorted_cons in Hc as [_ Hc].
    apply StronglySorted_app. split; [|done]. intros x y Hx Hy. apply Ha; [done|by constructor].
Qed.

Lemma RemoveTimer_ok m l1 p l2 :
  timers_are m (l1 ++ p :: l2) ->
  RemoveTimer (Some p) m
  = match l2 with
    | [] => Fault OutOfBounds
    | _ => Ok (0, set_list (Some <$> l1 ++ l2) (set_timers (delete p (timers m)) m))
    end.
Proof.
  intros (Hl & Hnd & Hh & Hs).
  destruct (proj2 (Hh p)) as [t Ht]; [apply elem_of_app; right; by constructor|].
  rewrite <- Permutation_middle in Hnd. apply NoDup_cons in Hnd as [Hp Hnd].
  rewrite elem_of_app in Hp. unfold RemoveTimer.
  rewrite (bind_step (gets timer_list_) _ m _ _ eq_refl). unfold mbind, M_bind.
  rewrite (RemoveTimer_loop_some m l1 p l2 0 _ t Hl Ht); [by destruct l2|tauto|tauto|lia|].
  rewrite Hl, length_fmap, length_app. cbn. lia.
Qed.

Lemma RemoveTimer_absent m ps p :
  timer_list_ m = Some <$> ps -> p ∉ ps -> RemoveTimer (Some p) m = Ok (0, m).
Proof.
  intros Hl Hp. unfold RemoveTimer.
  rewrite (bind_step (gets timer_list_) _ m _ _ eq_refl). unfold mbind, M_bind.
  rewrite (RemoveTimer_loop_none m p ps); [done|done| |lia|done].
  rewrite Hl, length_fmap. lia.
Qed.

Lemma AddTimer_refused m addr now gap id :
  gap = 0 \/ max_timer_num_ m <= Z.of_nat (length (timer_list_ m)) \/ addr = None ->
  AddTimer addr now gap id m = Ok (None, m).
Proof.
  intros H. unfold AddTimer. destruct (Z.eqb_spec gap 0); [done|].
  unfold mbind, M_bind, get. destruct (Z.leb_spec (max_timer_num_ m)
    (Z.of_nat (length (timer_list_ m)))); [done|].
  destruct H as [?|[?| ->]]; [done|lia|done].
Qed.

Lemma AddTimer_keeps m m' ps addr now gap id r :
  timers_are m ps -> (forall a, addr = Some a -> timers m !! a = None) ->
  AddTimer addr now gap id m = Ok (r, m') -> timer_ok m'.
Proof.
  intros Hm Hf H.
  destruct (decide (gap = 0 \/ max_timer_num_ m <= Z.of_nat (length (timer_list_ m))
                    \/ addr = None)) as [Hr|Hr].
  { rewrite AddTimer_refused in H by done. injection H as _ <-. by exists ps. }
  destruct addr as [a|]; [|tauto].
  destruct (AddTimer_ok m ps a now gap id Hm) as (E & E2);
    [tauto| |by apply Hf|].
  { destruct Hm as [Hl _]. rewrite Hl, length_fmap in Hr. lia. }
  rewrite E in H. injection H as _ <-. by eexists.
Qed.

Lemma timer_step_ok m m' : timer_ok m -> timer_step m m' -> timer_ok m'.
Proof.
  intros (ps & Hm) Hst. pose proof Hm as (Hl & Hnd & Hh & Hs).
  destruct Hst as [m addr now gap id r m' Hf H|m r m' H|m p r m' H|m n r m' H|m r m' H].
  - by eapply AddTimer_keeps.
  - destruct ps as [|p ps].
    + revert H. unfold GetNextActiveTimer, mbind, M_bind, gets. rewrite Hl.
      intros [= _ <-]. by exists [].
    + destruct (GetNextActiveTimer_ok m p ps Hm) as (t & _ & E & E2).
      rewrite E in H. injection H as _ <-. by eexists.
  - destruct p as [p|]; [|injection H as _ <-; by exists ps].
    destruct (decide (p ∈ ps)) as [Hp|Hp].
    + apply list_elem_of_split in Hp as (l1 & l2 & ->). rewrite (RemoveTimer_ok _ l1 p l2 Hm) in H.
      destruct l2 as [|q l2]; [done|]. injection H as _ <-. eexists. by apply timers_are_delete.
    + rewrite (RemoveTimer_absent m ps) in H by done. injection H as _ <-. by exists ps.
  - injection H as _ <-. by exists ps.
  - revert H. unfold TimerMgr_CleanUp, mbind, M_bind, gets. rewrite Hl.
    destruct (delete_all_ok ps m Hnd Hh) as (m2 & E & E1 & _). rewrite E.
    intros [= _ <-]. exists []. repeat split; cbn; try constructor.
    + rewrite E1, lookup_empty. by intros [? [=]].
    + by intros ?%not_elem_of_nil.
Qed.

(** The call comes back. *)
Definition returns {A} (o : outcome (A * TimerMgr)) : Prop := exists r m', o = Ok (r, m').

Lemma add_returns m ps addr now gap id :
  timers_are m ps -> (forall a, addr = Some a -> timers m !! a = None) ->
  returns (AddTimer addr now gap id m).
Proof.
  intros Hm Hf.
  destruct (decide (gap = 0 \/ max_timer_num_ m <= Z.of_nat (length (timer_list_ m))
                    \/ addr = None)) as [Hr|Hr].
  { do 2 eexists. by apply AddTimer_refused. }
  destruct addr as [a|]; [|tauto]. do 2 eexists.
  apply (AddTimer_ok m ps a now gap id Hm); [tauto| |by apply Hf].
  destruct Hm as [Hl _]. rewrite Hl, length_fmap in Hr. lia.
Qed.

Lemma next_returns m ps : timers_are m ps -> returns (GetNextActiveTimer m).
Proof.
  intros Hm. destruct ps as [|p ps].
  - destruct Hm as [Hl _]. unfold returns, GetNextActiveTimer, mbind, M_bind, gets. rewrite Hl.
    by do 2 eexists.
  - destruct (GetNextActiveTimer_ok m p ps Hm) as (t & _ & E & _). by do 2 eexists.
Qed.

Lemma cleanup_returns m ps : timers_are m ps -> returns (TimerMgr_CleanUp m).
Proof.
  intros (Hl & Hnd & Hh & _). unfold returns, TimerMgr_CleanUp, mbind, M_bind, gets. rewrite Hl.
  destruct (delete_all_ok ps m Hnd Hh) as (m2 & -> & _). by do 2 eexists.
Qed.

Lemma remove_returns m ps p :
  timers_are m ps ->
  if decide (last ps = p /\ p <> None) then RemoveTimer p m = Fault OutOfBounds
  else returns (RemoveTimer p m).
Proof.
  intros Hm. pose proof Hm as (Hl & Hnd & _). case_decide as Hp.
  - destruct p as [p|]; [|by destruct Hp]. destruct Hp as [Hp _].
    apply last_Some in Hp as [l1 ->]. apply (RemoveTimer_ok m l1 p [] Hm).
  - destruct p as [p|]; [|by do 2 eexists]. destruct (decide (p ∈ ps)) as [Hin|Hin].
    + apply list_elem_of_split in Hin as (l1 & l2 & ->). rewrite (RemoveTimer_ok m l1 p l2 Hm).
      destruct l2 as [|q l2]; [|by do 2 eexists]. exfalso. apply Hp. by rewrite last_snoc.
    + rewrite (RemoveTimer_absent m ps) by done. by do 2 eexists.
Qed.

(** ** Properties *)

(** C29: [timer_order]. After any sequence of calls that have returned, the vector holds each
    live timer exactly once, in the order of the next activity; and the next call returns as
    well, with one exception: [RemoveTimer] of the timer that is last in the vector - the only
    one there is, for example - reads behind the end.  [new] gives addresses that are not in
    use. *)
Theorem timer_order m :
  star timer_step TimerMgr_new m ->
  exists ps, timer_list_ m = Some <$> ps /\ NoDup ps /\
    (forall a, is_Some (timers m !! a) <-> a ∈ ps) /\
    StronglySorted (fun a b => stamp (timers m) a <= stamp (timers m) b) ps /\
    (forall addr now gap id, (forall a, addr = Some a -> timers m !! a = None) ->
       returns (AddTimer addr now gap id m)) /\
    returns (GetNextActiveTimer m) /\ (forall n, returns (TimerMgr_Init n m)) /\
    returns (TimerMgr_CleanUp m) /\
    forall p, if decide (last ps = p /\ p <> None) then RemoveTimer p m = Fault OutOfBounds
              else returns (RemoveTimer p m).
Proof.
  intros H. assert (Hm : timer_ok m).
  { apply (star_invariant timer_step timer_ok timer_step_ok _ _ H).
    exists []. repeat split; [constructor| |by intros ?%not_elem_of_nil|constructor].
    intros [? [=]]. }
  destruct Hm as [ps Hm]. exists ps. pose proof Hm as (Hl & Hnd & Hh & Hs).
  repeat (split; [done|]). split; [intros; by eapply add_returns|].
  split; [by apply (next_returns m ps)|]. split; [intros n; by do 2 eexists|].
  split; [by apply (cleanup_returns m ps)|]. intros p. by apply remove_returns.
Qed.

(** Two timers of 5 and 2 seconds, and the first to come due. *)
Definition two_timers : TimerMgr :=
  {| max_timer_num_ := 2; timer_list_ := [Some 8; Some 7];
     timers := {[ 7 := {| next_active_timestamp_ := 105; time_step_ := 5; timer_id_ := 1 |};
                  8 := {| next_active_timestamp_ := 102; time_step_ := 2; timer_id_ := 2 |} ]} |}.

Lemma timer_order_witness :
  exists ps, timer_list_ two_timers = Some <$> ps /\ NoDup ps /\ last ps = Some 7 /\
    returns (RemoveTimer (Some 8) two_timers) /\
    RemoveTimer (Some 7) two_timers = Fault OutOfBounds.
Proof.
  cut (star timer_step TimerMgr_new two_timers).
  { intros Hst. destruct (timer_order two_timers Hst) as (ps & Hl & Hnd & _ & _ & _ & _ & _ & _ & Hr).
    exists ps. change (timer_list_ two_timers) with (Some <$> [8; 7]) in Hl.
    apply (inj (fmap Some)) in Hl as <-. repeat (split; [done|]).
    exact (conj (Hr (Some 8)) (Hr (Some 7))). }
  eapply star_step; [eapply (step_init _ 2); reflexivity|].
  eapply star_step; [eapply (step_add _ (Some 7) 100 5 1); [|vm_compute; reflexivity]|].
  { intros a _. apply lookup_empty. }
  eapply star_step; [eapply (step_add _ (Some 8) 100 2 2); [|vm_compute; reflexivity]|].
  { intros a [= <-]. vm_compute. reflexivity. }
  match goal with |- star _ ?m two_timers => assert (E : m = two_timers) by (vm_compute; reflexivity) end.
  rewrite E. apply star_refl.
Defined.

(** A timer of a positive period is refused when the vector is
    full; otherwise it is started from the current time and put behind the timers
    that are not later, at the place the binary search finds. *)
Theorem add_timer m ps a now gap id :
  timers_are m ps -> timers m !! a = None -> 0 < gap ->
  AddTimer (Some a) now gap id m
  = if decide (Z.of_nat (length ps) < max_timer_num_ m) then
      let h := <[a := {| next_active_timestamp_ := i64 (u64 now + gap);
                         time_step_ := gap; timer_id_ := id |}]> (timers m) in
      Ok (Some a, {| max_timer_num_ := max_timer_num_ m; timers := h;
                     timer_list_ := Some <$>
                       filter (fun b => stamp h b <= i64 (u64 now + gap)) ps ++ a ::
                       filter (fun b => ~ stamp h b <= i64 (u64 now + gap)) ps |})
    else Ok (None, m).
Proof.
  intros Hm Ha Hg. case_decide as Hmax.
  - destruct (AddTimer_ok m ps a now gap id Hm) as [-> _]; [lia|done|done|].
    unfold placed. cbn [Start time_step_ timer_id_].
    set (h := <[a := _]> _). assert (E : stamp h a = i64 (u64 now + gap))
      by (unfold stamp, h; by rewrite lookup_insert_eq).
    by rewrite E.
  - apply AddTimer_refused. destruct Hm as [Hl _]. rewrite Hl, length_fmap. lia.
Qed.

Lemma two_timers_are : timers_are two_timers [8; 7].
Proof.
  split; [done|]. split; [by apply (bool_decide_unpack _); vm_compute|]. split.
  - intros a. unfold two_timers. cbn [timers].
    rewrite lookup_insert_is_Some', lookup_singleton_is_Some, !elem_of_cons.
    split; [intros [<-|<-]; auto|intros [?|[?|H]]; [auto|auto|]].
    by apply not_elem_of_nil in H.
  - apply (bool_decide_unpack _). by vm_compute.
Qed.

Lemma add_timer_witness :
  exists m, AddTimer (Some 9) 100 3 3 (set_list (timer_list_ two_timers) two_timers) = Ok (None, m).
Proof.
  eexists. rewrite (add_timer _ [8; 7] 9 100 3 3); [reflexivity|exact two_timers_are|reflexivity|lia].
Defined.

(** Removing a timer that is not the last of the vector deletes
    it and nothing else and keeps the order; removing the last one reads the
    element behind the end of the vector, because the loop advances the iterator
    that [erase] left at the end. *)
Theorem remove_timer m l1 p l2 :
  timers_are m (l1 ++ p :: l2) ->
  (l2 = [] -> RemoveTimer (Some p) m = Fault OutOfBounds) /\
  (l2 <> [] -> exists m', RemoveTimer (Some p) m = Ok (0, m') /\
     timers m' = delete p (timers m) /\ timers_are m' (l1 ++ l2)).
Proof.
  intros Hm. rewrite (RemoveTimer_ok m l1 p l2 Hm). destruct l2 as [|q l2]; split; try done.
  intros _. eexists. split; [done|]. split; [done|]. by apply timers_are_delete.
Qed.

Lemma remove_timer_witness : RemoveTimer (Some 7) two_timers = Fault OutOfBounds.
Proof. apply (remove_timer two_timers [8] 7 []); [exact two_timers_are|reflexivity]. Defined.

(** On a vector with a first timer, whatever the time is,
    [GetNextActiveTimer] returns this timer, moves its next activity on by one
    period and files it again behind the timers that are not later: it never
    returns null, and a timer that is not due is returned as well. *)
Theorem next_timer m p ps :
  timers_are m (p :: ps) ->
  exists t m', timers m !! p = Some t /\ GetNextActiveTimer m = Ok (Some p, m') /\
    timers m' = <[p := {| next_active_timestamp_ := i64 (u64 (next_active_timestamp_ t)
                                                          + time_step_ t);
                          time_step_ := time_step_ t; timer_id_ := timer_id_ t |}]> (timers m) /\
    exists ps', timers_are m' ps' /\ ps' ≡ₚ p :: ps.
Proof.
  intros Hm. destruct (GetNextActiveTimer_ok m p ps Hm) as (t & Ht & E & E2).
  exists t. eexists. split; [done|]. split; [done|]. split; [done|].
  eexists. split; [done|]. apply placed_perm.
Qed.

Lemma next_timer_witness :
  exists m', GetNextActiveTimer two_timers = Ok (Some 8, m').
Proof.
  destruct (next_timer two_timers 8 [7] two_timers_are) as (t & m' & _ & E & _).
  exists m'. exact E.
Defined.
