(* ===== verification/Coroutine.v ===== *)
(** * Coroutines: coroutine/mc_coroutine.h and .cpp

    A machine for code that uses the scheduler.  [swapcontext] saves a
    continuation and jumps to another one, so continuations are data: what is left
    of a function call ([pend]) with the stack it runs on ([base]).  Code is a tree
    of calls of the scheduler, each with the code behind the call. *)
From Stdlib Require Import ZArith Lia.
From stdpp Require Import base list gmap fin_maps.
From S2P Require Import Prelude.
Local Open Scope Z_scope.

(** ** Data *)

(** [CoroutineState], src/coroutine/mc_coroutine.h:9-14 *)
Inductive CoroutineState : Set :=
  | COROUTINE_READY | COROUTINE_RUNNING | COROUTINE_SUSPEND | COROUTINE_DONE.

(** Code that runs on the scheduler over a state [W] of the program.  [Act] is any
    other action on this state; [null] tells that a null function pointer is passed
    to [CreateCoroutine]. *)
Inductive code (W : Type) : Type :=
  | Ret
  | Act (A : Type) (m : M W A) (k : A -> code W)
  | Create (null : bool) (func : Z -> code W) (arg : Z) (k : Z -> code W)
  | Destroy (uct_id : Z) (k : code W)
  | Yield (k : Z -> code W)
  | Resume (uct_id : Z) (k : Z -> code W)
  | Alive (uct_id : Z) (k : bool -> code W).
Arguments Ret {W}. Arguments Act {W A}. Arguments Create {W}. Arguments Destroy {W}.
Arguments Yield {W}. Arguments Resume {W}. Arguments Alive {W}.

(** The stack a continuation runs on: the main one, or that inside a context. *)
Inductive base : Set := BMain | BCo (ctx : Z).

(** What is left to run: user code, or the end of a scheduler function behind its
    [swapcontext] and the user code behind the call. *)
Inductive pend (W : Type) : Type :=
  | PCode (c : code W)
  | PAfterYield (k : Z -> code W)
  | PAfterResume (uct_id : Z) (ctx : Z) (k : Z -> code W).
Arguments PCode {W}. Arguments PAfterYield {W}. Arguments PAfterResume {W}.

(** A saved context. *)
Record thread (W : Type) : Type := Thread { on : base; todo : pend W }.
Arguments Thread {W}. Arguments on {W}. Arguments todo {W}.

(** [CoroutineCtx], src/coroutine/mc_coroutine.h:18-26

    [uctx] holds no thread before the first [swapcontext] and after a jump to it:
    a context may not be entered twice.  Nothing uses [yield]. *)
Record COROUTINECTX (W : Type) : Type := {
  uctx : option (thread W);
  idx : Z;
  state : CoroutineState;
  func : Z -> code W;
  arg : Z
}.
Arguments uctx {W}. Arguments idx {W}. Arguments state {W}. Arguments func {W}.
Arguments arg {W}.

(** [CoroutineScheduler], src/coroutine/mc_coroutine.h:74-81

    With the heap of contexts, the static [cid_seed] of [CreateCoroutine], an [int], and
    the state of the program. *)
Record CoroutineScheduler (W : Type) : Type := {
  running_cid_ : Z;
  main_ctx_ : option (thread W);
  coroutine_max_ : Z;
  coroutine_table_ : gmap Z (option Z);
  ctxs : gmap Z (COROUTINECTX W);
  cid_seed : Z;
  world : W
}.
Arguments running_cid_ {W}. Arguments main_ctx_ {W}. Arguments coroutine_max_ {W}.
Arguments coroutine_table_ {W}. Arguments ctxs {W}. Arguments cid_seed {W}.
Arguments world {W}.

(** [CoroutineScheduler::CoroutineScheduler], src/coroutine/mc_coroutine.cpp:15-18 *)
Definition CoroutineScheduler_new {W} (cocurrent_num : Z) (w : W) : CoroutineScheduler W :=
  {| running_cid_ := -1; main_ctx_ := None; coroutine_max_ := cocurrent_num;
     coroutine_table_ := ∅; ctxs := ∅; cid_seed := 0; world := w |}.

Definition set_running {W} (r : Z) (s : CoroutineScheduler W) : CoroutineScheduler W :=
  {| running_cid_ := r; main_ctx_ := main_ctx_ s; coroutine_max_ := coroutine_max_ s;
     coroutine_table_ := coroutine_table_ s; ctxs := ctxs s; cid_seed := cid_seed s;
     world := world s |}.
Definition set_main {W} (t : option (thread W)) (s : CoroutineScheduler W) : CoroutineScheduler W :=
  {| running_cid_ := running_cid_ s; main_ctx_ := t; coroutine_max_ := coroutine_max_ s;
     coroutine_table_ := coroutine_table_ s; ctxs := ctxs s; cid_seed := cid_seed s;
     world := world s |}.
Definition set_table {W} (t : gmap Z (option Z)) (s : CoroutineScheduler W) : CoroutineScheduler W :=
  {| running_cid_ := running_cid_ s; main_ctx_ := main_ctx_ s;
     coroutine_max_ := coroutine_max_ s; coroutine_table_ := t; ctxs := ctxs s;
     cid_seed := cid_seed s; world := world s |}.
Definition set_ctxs {W} (h : gmap Z (COROUTINECTX W)) (s : CoroutineScheduler W) : CoroutineScheduler W :=
  {| running_cid_ := running_cid_ s; main_ctx_ := main_ctx_ s;
     coroutine_max_ := coroutine_max_ s; coroutine_table_ := coroutine_table_ s; ctxs := h;
     cid_seed := cid_seed s; world := world s |}.
Definition set_seed {W} (n : Z) (s : CoroutineScheduler W) : CoroutineScheduler W :=
  {| running_cid_ := running_cid_ s; main_ctx_ := main_ctx_ s;
     coroutine_max_ := coroutine_max_ s; coroutine_table_ := coroutine_table_ s;
     ctxs := ctxs s; cid_seed := n; world := world s |}.
Definition set_world {W} (w : W) (s : CoroutineScheduler W) : CoroutineScheduler W :=
  {| running_cid_ := running_cid_ s; main_ctx_ := main_ctx_ s;
     coroutine_max_ := coroutine_max_ s; coroutine_table_ := coroutine_table_ s;
     ctxs := ctxs s; cid_seed := cid_seed s; world := w |}.

Definition set_state {W} (st : CoroutineState) (c : COROUTINECTX W) : COROUTINECTX W :=
  {| uctx := uctx c; idx := idx c; state := st; func := func c; arg := arg c |}.
Definition set_uctx {W} (t : option (thread W)) (c : COROUTINECTX W) : COROUTINECTX W :=
  {| uctx := t; idx := idx c; state := state c; func := func c; arg := arg c |}.

(** ** The operations that do not switch *)

Section Operations.
Context {W : Type}.

Definition load_ctx (p : Z) : M (CoroutineScheduler W) (COROUTINECTX W) := fun s =>
  match ctxs s !! p with Some c => Ok (c, s) | None => Fault UseAfterFree end.
Definition store_ctx (p : Z) (c : COROUTINECTX W) : M (CoroutineScheduler W) unit :=
  modify (fun s => set_ctxs (<[p := c]> (ctxs s)) s).

(** [CoroutineScheduler::CreateCoroutine], src/coroutine/mc_coroutine.cpp:35-63

    [p] is the address [calloc] returns.  The table's size is compared as a
    [size_t]; the number behind the largest [int] is taken to be the smallest one. *)
Definition CreateCoroutine (p : option Z) (f : option (Z -> code W)) (a : Z)
    : M (CoroutineScheduler W) Z :=
  match f with
  | None => mret (-1)
  | Some f =>
      s ← get;
      if u64 (coroutine_max_ s) <=? Z.of_nat (size (coroutine_table_ s)) then mret (-2)
      else
        match p with
        | None => mret (-3)
        | Some p =>
            let cid := cid_seed s in
            _ ← store_ctx p {| uctx := None; idx := cid; state := COROUTINE_READY;
                               func := f; arg := a |};
            _ ← modify (fun s => set_table (<[cid := Some p]> (coroutine_table_ s)) s);
            _ ← modify (set_seed (i32 (cid + 1)));
            mret cid
        end
  end.

(** [CoroutineScheduler::DestroyCoroutine], src/coroutine/mc_coroutine.cpp:65-80 *)
Definition DestroyCoroutine (uct_id : Z) : M (CoroutineScheduler W) unit :=
  s ← get;
  match coroutine_table_ s !! uct_id with
  | None => mret tt
  | Some second =>
      _ ← (match second with
           | None => mret tt
           | Some p => _ ← load_ctx p; modify (fun s => set_ctxs (delete p (ctxs s)) s)
           end);
      modify (fun s => set_table (delete uct_id (coroutine_table_ s)) s)
  end.

(** [CoroutineScheduler::CoroutineBeenAlive], src/coroutine/mc_coroutine.cpp:182-197 *)
Definition CoroutineBeenAlive (uct_id : Z) : M (CoroutineScheduler W) bool :=
  s ← get;
  match coroutine_table_ s !! uct_id with
  | None | Some None => mret false
  | Some (Some p) =>
      c ← load_ctx p;
      mret (match state c with COROUTINE_DONE => false | _ => true end)
  end.

(** The loop of the destructor. *)
Fixpoint free_all (l : list (Z * option Z)) : M (CoroutineScheduler W) unit :=
  match l with
  | [] => mret tt
  | (_, second) :: r =>
      _ ← (match second with
           | None => mret tt
           | Some p => _ ← load_ctx p; modify (fun s => set_ctxs (delete p (ctxs s)) s)
           end);
      free_all r
  end.

(** [CoroutineScheduler::~CoroutineScheduler], src/coroutine/mc_coroutine.cpp:20-33 *)
Definition CoroutineScheduler_delete : M (CoroutineScheduler W) unit :=
  s ← get;
  _ ← free_all (map_to_list (coroutine_table_ s));
  modify (set_table ∅).

(** ** Switches

    A switch gives the thread that runs next. *)

(** A jump into a context, which leaves nothing to jump to. *)
Definition jump_main : M (CoroutineScheduler W) (thread W) :=
  s ← get;
  match main_ctx_ s with
  | None => fail UseAfterFree
  | Some t => _ ← modify (set_main None); mret t
  end.
Definition jump_ctx (p : Z) : M (CoroutineScheduler W) (thread W) :=
  c ← load_ctx p;
  match uctx c with
  | None => fail UseAfterFree
  | Some t => _ ← store_ctx p (set_uctx None c); mret t
  end.

(** [CoroutineScheduler::YieldCoroutine], src/coroutine/mc_coroutine.cpp:82-106

    [b] is the stack of the caller, [k] the caller's code behind the call. *)
Definition YieldCoroutine (b : base) (k : Z -> code W) : M (CoroutineScheduler W) (thread W) :=
  s ← get;
  if running_cid_ s <? 0 then mret (Thread b (PCode (k 0)))
  else
    match coroutine_table_ s !! running_cid_ s with
    | None | Some None => mret (Thread b (PCode (k (-1))))
    | Some (Some ctx) =>
        _ ← modify (set_running (-1));
        c ← load_ctx ctx;
        _ ← store_ctx ctx (set_uctx (Some (Thread b (PAfterYield k)))
                             (set_state COROUTINE_SUSPEND c));
        jump_main
    end.

(** [CoroutineScheduler::ScheduleFunction], src/coroutine/mc_coroutine.cpp:108-120

    The part before the call of [func]: it gives the thread of the call. *)
Definition ScheduleFunction_enter : M (CoroutineScheduler W) (thread W) :=
  s ← get;
  let curr_cid := running_cid_ s in
  _ ← assertb (0 <=? curr_cid);
  match coroutine_table_ s !! curr_cid with
  | None =>
      (* operator[] makes an entry with a null pointer *)
      _ ← modify (set_table (<[curr_cid := None]> (coroutine_table_ s)));
      fail AssertFailed
  | Some None => fail AssertFailed
  | Some (Some ctx) =>
      c ← load_ctx ctx;
      mret (Thread (BCo ctx) (PCode (func c (arg c))))
  end.

(** [CoroutineScheduler::ScheduleFunction], src/coroutine/mc_coroutine.cpp:122-125

    The part behind the call of [func], and the jump to [uc_link]. *)
Definition ScheduleFunction_leave (ctx : Z) : M (CoroutineScheduler W) (thread W) :=
  c ← load_ctx ctx;
  _ ← store_ctx ctx (set_state COROUTINE_DONE c);
  _ ← modify (set_running (-1));
  jump_main.

(** The end of [ResumeCoroutine], src/coroutine/mc_coroutine.cpp:174-179 *)
Definition after_resume (b : base) (uct_id ctx : Z) (k : Z -> code W)
    : M (CoroutineScheduler W) (thread W) :=
  c ← load_ctx ctx;
  _ ← (match state c with COROUTINE_DONE => DestroyCoroutine uct_id | _ => mret tt end);
  mret (Thread b (PCode (k 0))).

(** [CoroutineScheduler::ResumeCoroutine], src/coroutine/mc_coroutine.cpp:127-180 *)
Definition ResumeCoroutine (b : base) (uct_id : Z) (k : Z -> code W)
    : M (CoroutineScheduler W) (thread W) :=
  s ← get;
  match coroutine_table_ s !! uct_id with
  | None | Some None => mret (Thread b (PCode (k (-1))))
  | Some (Some ctx) =>
      c ← load_ctx ctx;
      match state c with
      | COROUTINE_READY =>
          _ ← store_ctx ctx (set_state COROUTINE_RUNNING c);
          _ ← modify (set_running (idx c));
          _ ← modify (set_main (Some (Thread b (PAfterResume uct_id ctx k))));
          ScheduleFunction_enter
      | COROUTINE_SUSPEND =>
          _ ← modify (set_running (idx c));
          _ ← store_ctx ctx (set_state COROUTINE_RUNNING c);
          _ ← modify (set_main (Some (Thread b (PAfterResume uct_id ctx k))));
          jump_ctx ctx
      | COROUTINE_RUNNING => after_resume b uct_id ctx k
      | COROUTINE_DONE => fail AssertFailed
      end
  end.

(** ** The machine *)

Section Machine.
Context (calloc : gmap Z (COROUTINECTX W) -> option Z).

Definition next (m : M (CoroutineScheduler W) (thread W))
    : M (CoroutineScheduler W) (option (thread W)) :=
  t ← m; mret (Some t).

(** One step of the running thread; [None] is the end of the main code.  A thread
    whose stack has been freed cannot go on. *)
Definition step (t : thread W) : M (CoroutineScheduler W) (option (thread W)) :=
  let b := on t in
  _ ← (match b with BMain => mret tt | BCo p => _ ← load_ctx p; mret tt end);
  match todo t with
  | PCode Ret =>
      match b with
      | BMain => mret None
      | BCo p => next (ScheduleFunction_leave p)
      end
  | PCode (@Act _ A m k) =>
      s ← get;
      '(z, w) ← lift (m (world s));
      _ ← modify (set_world w);
      mret (Some (Thread b (PCode (k z))))
  | PCode (Create null f a k) =>
      s ← get;
      cid ← CreateCoroutine (calloc (ctxs s)) (if null then None else Some f) a;
      mret (Some (Thread b (PCode (k cid))))
  | PCode (Destroy i k) => _ ← DestroyCoroutine i; mret (Some (Thread b (PCode k)))
  | PCode (Yield k) => next (YieldCoroutine b k)
  | PCode (Resume i k) => next (ResumeCoroutine b i k)
  | PCode (Alive i k) => r ← CoroutineBeenAlive i; mret (Some (Thread b (PCode (k r))))
  | PAfterYield k => mret (Some (Thread b (PCode (k 0))))
  | PAfterResume i p k => next (after_resume b i p k)
  end.

(** [n] steps, or fewer when the main code ends. *)
Fixpoint run (n : nat) (t : thread W) : M (CoroutineScheduler W) (option (thread W)) :=
  match n with
  | O => mret (Some t)
  | S n =>
      r ← step t;
      match r with
      | None => mret None
      | Some t' => run n t'
      end
  end.

End Machine.

(** Nothing changes the capacity. *)
Lemma preserves_max_load p : preserves (coroutine_max_ (W := W)) (load_ctx p).
Proof using. intros s a s'. unfold load_ctx. destruct (ctxs s !! p); by intros [= _ <-]. Qed.
#[local] Hint Resolve preserves_max_load : preserves.

Lemma run_max calloc n t s o s' :
  run calloc n t s = Ok (o, s') -> coroutine_max_ s' = coroutine_max_ s.
Proof using.
  assert (Hd : forall i, preserves coroutine_max_ (DestroyCoroutine i))
    by (intros; unfold DestroyCoroutine; repeat (progress preserve || by intros ? ? ? [= _ <-])).
  assert (Ha : forall b i p k, preserves coroutine_max_ (after_resume b i p k)).
  { intros. unfold after_resume. preserve. }
  assert (Hs : forall t, preserves coroutine_max_ (step calloc t)).
  { intros [b td]. unfold step, next, YieldCoroutine, ScheduleFunction_leave, CreateCoroutine,
      CoroutineBeenAlive, ResumeCoroutine, ScheduleFunction_enter, jump_main, jump_ctx, store_ctx, assertb.
    cbn [on todo]. repeat (progress preserve || by intros ? ? ? [= _ <-]). }
  revert t s. induction n as [|n IH]; intros t s; cbn [run]; [by intros [= _ <-]|].
  intros H. apply bind_Ok in H as ([t1|] & s1 & H1 & H).
  - rewrite (IH _ _ H). by apply Hs in H1.
  - injection H as _ <-. by apply Hs in H1.
Qed.
End Operations.

(** ** Programs in which only the main code resumes *)

Section Facts.
Context {W : Type}.
Implicit Types (s : CoroutineScheduler W).

(** Code of a coroutine: it does not resume or destroy, and its actions do not fault. *)
Inductive flat : code W -> Prop :=
  | flat_ret : flat Ret
  | flat_act A (m : M W A) k :
      (forall w, exists z w', m w = Ok (z, w')) -> (forall z, flat (k z)) -> flat (Act m k)
  | flat_create null f a k :
      (forall z, flat (f z)) -> (forall z, flat (k z)) -> flat (Create null f a k)
  | flat_yield k : (forall z, flat (k z)) -> flat (Yield k)
  | flat_alive i k : (forall b, flat (k b)) -> flat (Alive i k).

(** The main code: the coroutines it creates are flat. *)
Inductive main_ok : code W -> Prop :=
  | main_ret : main_ok Ret
  | main_act A (m : M W A) k :
      (forall w, exists z w', m w = Ok (z, w')) -> (forall z, main_ok (k z)) -> main_ok (Act m k)
  | main_create null f a k :
      (forall z, flat (f z)) -> (forall z, main_ok (k z)) -> main_ok (Create null f a k)
  | main_destroy i k : main_ok k -> main_ok (Destroy i k)
  | main_yield k : (forall z, main_ok (k z)) -> main_ok (Yield k)
  | main_resume i k : (forall z, main_ok (k z)) -> main_ok (Resume i k)
  | main_alive i k : (forall b, main_ok (k b)) -> main_ok (Alive i k).

(** A context that does not run: fresh, or suspended in its own code. *)
Definition parked (p : Z) (c : COROUTINECTX W) : Prop :=
  state c = COROUTINE_READY \/
  state c = COROUTINE_SUSPEND /\
  exists k, uctx c = Some (Thread (BCo p) (PAfterYield k)) /\ forall z, flat (k z).

Definition all_parked (s : CoroutineScheduler W) : Prop :=
  forall p c, ctxs s !! p = Some c -> parked p c.
Definition others_parked (p : Z) (s : CoroutineScheduler W) : Prop :=
  forall q c, q <> p -> ctxs s !! q = Some c -> parked q c.

(** What is known of the functions the coroutines were created with. *)
Context {F : (Z -> code W) -> Prop}.

(** The table and the heap of contexts hold the same contexts. *)
Record table_ok (s : CoroutineScheduler W) : Prop := {
  table_ctx i e : coroutine_table_ s !! i = Some e ->
    exists p c, e = Some p /\ ctxs s !! p = Some c /\ idx c = i;
  ctx_table p c : ctxs s !! p = Some c ->
    coroutine_table_ s !! idx c = Some (Some p) /\ 0 <= idx c < cid_seed s /\
    F (func c);
  seed_range : 0 <= cid_seed s < 2147483648
}.

(** There is a number for another coroutine, and one for the next. *)
Definition numbers_left s : Prop := cid_seed s < 2147483647.

(** The states between two steps: either the main code runs and no coroutine, or
    the coroutine [running_cid_] runs and [main_ctx_] is in its [ResumeCoroutine]. *)
Definition cfg_ok (t : thread W) (s : CoroutineScheduler W) : Prop :=
  table_ok s /\
  match on t with
  | BMain =>
      running_cid_ s = -1 /\
      match todo t with
      | PCode c => main_ok c /\ all_parked s
      | PAfterYield _ => False
      | PAfterResume i p k =>
          (forall z, main_ok (k z)) /\ others_parked p s /\
          exists c, ctxs s !! p = Some c /\ idx c = i /\
                    (parked p c \/ state c = COROUTINE_DONE)
      end
  | BCo p =>
      others_parked p s /\
      (exists c k, ctxs s !! p = Some c /\ idx c = running_cid_ s /\
         state c = COROUTINE_RUNNING /\
         main_ctx_ s = Some (Thread BMain (PAfterResume (idx c) p k)) /\
         forall z, main_ok (k z)) /\
      match todo t with
      | PCode c => flat c
      | PAfterYield k => forall z, flat (k z)
      | PAfterResume _ _ _ => False
      end
  end.

(** ** Lemmas *)

Lemma load_ctx_ok p (c : COROUTINECTX W) s : ctxs s !! p = Some c -> load_ctx p s = Ok (c, s).
Proof. intros H. unfold load_ctx. by rewrite H. Qed.

(** Replacing a context by one with the same index and code. *)
Lemma table_ok_store s p c c' :
  table_ok s -> ctxs s !! p = Some c -> idx c' = idx c -> func c' = func c ->
  table_ok (set_ctxs (<[p := c']> (ctxs s)) s).
Proof.
  intros [H1 H2 H3] Hc Hi Hf. split; cbn; [|intros q d|done].
  - intros i e He. destruct (H1 i e He) as (q & d & -> & Hd & Hdi).
    destruct (decide (q = p)) as [->|Hq].
    + exists p, c'. rewrite lookup_insert_eq. by simplify_eq.
    + exists q, d. by rewrite lookup_insert_ne.
  - destruct (decide (q = p)) as [->|Hq].
    + rewrite lookup_insert_eq. intros [= <-]. rewrite Hi, Hf. by apply H2.
    + rewrite lookup_insert_ne by done. apply H2.
Qed.

Lemma table_ok_frame s s' :
  coroutine_table_ s' = coroutine_table_ s -> ctxs s' = ctxs s -> cid_seed s' = cid_seed s ->
  table_ok s -> table_ok s'.
Proof. intros E1 E2 E3 [H1 H2 H3]. split; rewrite ?E1, ?E2, ?E3; auto. Qed.

(** What [CreateCoroutine] adds: at most one parked context. *)
Lemma CreateCoroutine_ok s p f a :
  table_ok s -> numbers_left s -> (forall q, p = Some q -> ctxs s !! q = None) ->
  (forall g, f = Some g -> F g) ->
  exists r s', CreateCoroutine p f a s = Ok (r, s') /\ table_ok s' /\
    running_cid_ s' = running_cid_ s /\ main_ctx_ s' = main_ctx_ s /\ world s' = world s /\
    (forall q c, ctxs s !! q = Some c -> ctxs s' !! q = Some c) /\
    (forall q c, ctxs s' !! q = Some c -> ctxs s !! q = Some c \/ parked q c).
Proof.
  intros Ht Hseed Hp Hf. unfold numbers_left in Hseed. unfold CreateCoroutine.
  destruct f as [f|]; [|exists (-1), s; by auto 10].
  unfold mbind, M_bind, get. destruct (_ <=? _); [exists (-2), s; by auto 10|].
  destruct p as [p|]; [|exists (-3), s; by auto 10].
  pose proof (Hp p eq_refl) as Hnew. destruct Ht as [H1 H2 H3].
  assert (Hfresh : coroutine_table_ s !! cid_seed s = None).
  { destruct (coroutine_table_ s !! cid_seed s) as [e|] eqn:E; [|done].
    destruct (H1 _ _ E) as (q & c & _ & Hc & Hi). apply H2 in Hc as (_ & Hc & _). lia. }
  do 2 eexists. split; [reflexivity|]. cbn. rewrite (i32_id (cid_seed s + 1)) by lia.
  split; [|repeat split].
  - split; cbn; [|intros q c|lia].
    + intros i e. destruct (decide (i = cid_seed s)) as [->|Hi].
      * rewrite lookup_insert_eq. intros [= <-]. exists p. eexists.
        by rewrite lookup_insert_eq.
      * rewrite lookup_insert_ne by done. intros He.
        destruct (H1 i e He) as (q & c & -> & Hc & Hci). exists q, c.
        rewrite lookup_insert_ne by congruence. done.
    + destruct (decide (q = p)) as [->|Hq].
      * rewrite lookup_insert_eq. intros [= <-]. cbn. rewrite lookup_insert_eq.
        split; [done|]. split; [lia|]. eauto.
      * rewrite lookup_insert_ne by done. intros Hc. apply H2 in Hc as (Hc & Hi & Hfl).
        rewrite lookup_insert_ne by lia. split; [done|]. split; [lia|done].
  - intros q c Hc. rewrite lookup_insert_ne by congruence. done.
  - intros q c. destruct (decide (q = p)) as [->|Hq].
    + rewrite lookup_insert_eq. intros [= <-]. right. by left.
    + rewrite lookup_insert_ne by done. auto.
Qed.

(** [DestroyCoroutine] takes one entry and its context away. *)
Lemma DestroyCoroutine_ok s i :
  table_ok s ->
  exists s', DestroyCoroutine i s = Ok (tt, s') /\ table_ok s' /\
    running_cid_ s' = running_cid_ s /\ main_ctx_ s' = main_ctx_ s /\ world s' = world s /\
    coroutine_table_ s' = delete i (coroutine_table_ s) /\
    cid_seed s' = cid_seed s /\
    (forall q c, ctxs s' !! q = Some c <-> ctxs s !! q = Some c /\ idx c <> i).
Proof.
  intros [H1 H2 H3]. unfold DestroyCoroutine, mbind, M_bind, get.
  destruct (coroutine_table_ s !! i) as [e|] eqn:E.
  2: { exists s. rewrite delete_id by done. repeat (split; [done|]).
       intros q c. split; [|by intros [? _]]. intros Hc. split; [done|].
       intros <-. apply H2 in Hc as [Hc _]. congruence. }
  destruct (H1 i e E) as (p & c & -> & Hc & Hi). rewrite (load_ctx_ok p c s Hc). cbn.
  assert (Hq : forall q d, delete p (ctxs s) !! q = Some d <-> ctxs s !! q = Some d /\ idx d <> i).
  { intros q d. rewrite lookup_delete_Some. split; intros [Hd1 Hd2]; split; try done.
    - intros Hdi. apply H2 in Hd2 as [Hd2 _]. rewrite Hdi, E in Hd2. by injection Hd2.
    - intros ->. by simplify_eq. }
  eexists. split; [reflexivity|]. cbn. split; [|by auto 10].
  split; cbn; [|intros q d|done].
  - intros j e' He. apply lookup_delete_Some in He as [Hji He].
    destruct (H1 j e' He) as (q & d & -> & Hd & Hdi). exists q, d.
    split; [done|]. split; [apply Hq; split; congruence|done].
  - rewrite Hq. intros [Hd Hdi]. apply H2 in Hd as (Hd & ?). rewrite lookup_delete_ne by done. auto.
Qed.

Lemma CoroutineBeenAlive_ok s i :
  table_ok s -> exists b, CoroutineBeenAlive i s = Ok (b, s).
Proof.
  intros [H1 _ _]. unfold CoroutineBeenAlive, mbind, M_bind, get.
  destruct (coroutine_table_ s !! i) as [e|] eqn:E; [|by exists false].
  destruct (H1 i e E) as (p & c & -> & Hc & _). rewrite (load_ctx_ok p c s Hc). by eexists.
Qed.

(** The thread that runs after a coroutine yields or ends, and its state. *)
Lemma YieldCoroutine_co s p c t k :
  table_ok s -> ctxs s !! p = Some c -> idx c = running_cid_ s -> main_ctx_ s = Some t ->
  YieldCoroutine (BCo p) k s
  = Ok (t, set_main None
             (set_ctxs (<[p := set_uctx (Some (Thread (BCo p) (PAfterYield k)))
                                 (set_state COROUTINE_SUSPEND c)]> (ctxs s))
                (set_running (-1) s))).
Proof.
  intros Ht Hc Hi Hm. pose proof (ctx_table s Ht p c Hc) as (Htab & Hr & _).
  unfold YieldCoroutine, mbind, M_bind, get. destruct (Z.ltb_spec (running_cid_ s) 0); [lia|].
  rewrite <- Hi, Htab. cbn [modify]. rewrite (load_ctx_ok p c) by done. cbn.
  unfold jump_main, mbind, M_bind, get. cbn. by rewrite Hm.
Qed.

Lemma ScheduleFunction_leave_ok s p c t :
  ctxs s !! p = Some c -> main_ctx_ s = Some t ->
  ScheduleFunction_leave p s
  = Ok (t, set_main None (set_running (-1)
             (set_ctxs (<[p := set_state COROUTINE_DONE c]> (ctxs s)) s))).
Proof.
  intros Hc Hm. unfold ScheduleFunction_leave, mbind, M_bind. rewrite (load_ctx_ok p c) by done.
  cbn. unfold jump_main, mbind, M_bind, get. cbn. by rewrite Hm.
Qed.

(** The thread that runs after [ResumeCoroutine] in the main code. *)
Lemma ResumeCoroutine_ready s p c k :
  table_ok s -> ctxs s !! p = Some c -> state c = COROUTINE_READY ->
  ResumeCoroutine BMain (idx c) k s
  = Ok (Thread (BCo p) (PCode (func c (arg c))),
        set_main (Some (Thread BMain (PAfterResume (idx c) p k)))
          (set_running (idx c)
             (set_ctxs (<[p := set_state COROUTINE_RUNNING c]> (ctxs s)) s))).
Proof.
  intros Ht Hc Hst. pose proof (ctx_table s Ht p c Hc) as (Htab & Hr & _).
  unfold ResumeCoroutine, mbind, M_bind, get. rewrite Htab, (load_ctx_ok p c) by done.
  rewrite Hst. cbn [store_ctx modify]. unfold ScheduleFunction_enter, mbind, M_bind, get. cbn.
  destruct (Z.leb_spec 0 (idx c)); [|lia]. cbn. rewrite Htab. cbn.
  unfold load_ctx. cbn. by rewrite lookup_insert_eq.
Qed.

Lemma ResumeCoroutine_suspended s p c t k :
  table_ok s -> ctxs s !! p = Some c -> state c = COROUTINE_SUSPEND -> uctx c = Some t ->
  ResumeCoroutine BMain (idx c) k s
  = Ok (t,
        set_ctxs (<[p := set_uctx None (set_state COROUTINE_RUNNING c)]> (ctxs s))
          (set_main (Some (Thread BMain (PAfterResume (idx c) p k)))
             (set_running (idx c) s))).
Proof.
  intros Ht Hc Hst Hu. pose proof (ctx_table s Ht p c Hc) as (Htab & Hr & _).
  unfold ResumeCoroutine, mbind, M_bind, get. rewrite Htab, (load_ctx_ok p c) by done.
  rewrite Hst. cbn [store_ctx modify]. unfold jump_ctx, mbind, M_bind, load_ctx. cbn.
  rewrite lookup_insert_eq. cbn. rewrite Hu. cbn. unfold set_ctxs. cbn.
  by rewrite insert_insert_eq.
Qed.

Lemma after_resume_ok s p c k :
  table_ok s -> ctxs s !! p = Some c ->
  exists s', after_resume BMain (idx c) p k s = Ok (Thread BMain (PCode (k 0)), s') /\
    table_ok s' /\ running_cid_ s' = running_cid_ s /\ world s' = world s /\
    cid_seed s' = cid_seed s /\
    match state c with
    | COROUTINE_DONE =>
        coroutine_table_ s' = delete (idx c) (coroutine_table_ s) /\
        forall q d, ctxs s' !! q = Some d <-> ctxs s !! q = Some d /\ q <> p
    | _ => s' = s
    end.
Proof.
  intros Ht Hc. unfold after_resume, mbind, M_bind. rewrite (load_ctx_ok p c) by done.
  destruct (state c); [by exists s..|].
  destruct (DestroyCoroutine_ok s (idx c) Ht) as (s' & E & Ht' & E1 & E2 & E3 & E4 & E6 & E5).
  rewrite E. exists s'. repeat (split; [done|]). intros q d. rewrite E5.
  split; intros [Hd Hq]; (split; [done|]).
  - intros ->. by simplify_eq.
  - intros Hi. apply Hq. pose proof (ctx_table s Ht q d Hd) as (Htab & _).
    pose proof (ctx_table s Ht p c Hc) as (Htab' & _). rewrite Hi in Htab. congruence.
Qed.

Lemma others_insert s p c :
  others_parked p s -> others_parked p (set_ctxs (<[p := c]> (ctxs s)) s).
Proof. intros H q d Hq. cbn. rewrite lookup_insert_ne by done. by apply H. Qed.

(** One step of the main code and of a coroutine keeps the states of [cfg_ok]. *)
Section StepOk.
Context (calloc : gmap Z (COROUTINECTX W) -> option Z).
Context (calloc_fresh : forall h p, calloc h = Some p -> h !! p = None).
Context (F_flat : forall f, F f <-> forall z, flat (f z)).

Definition step_spec (r : outcome (option (thread W) * CoroutineScheduler W)) : Prop :=
  exists o s, r = Ok (o, s) /\
    match o with
    | Some t => cfg_ok t s
    | None => running_cid_ s = -1 /\ table_ok s /\ all_parked s
    end.

Lemma resume_step s i k :
  table_ok s -> running_cid_ s = -1 -> all_parked s -> (forall z, main_ok (k z)) ->
  step_spec (next (ResumeCoroutine BMain i k) s).
Proof using F_flat.
  intros Ht Hr Hp Hk. unfold step_spec, next, mbind, M_bind.
  destruct (coroutine_table_ s !! i) as [e|] eqn:E.
  2: { unfold ResumeCoroutine, mbind, M_bind, get. rewrite E. do 2 eexists.
       split; [reflexivity|]. split; [done|]. cbn. auto. }
  destruct (table_ctx s Ht i e E) as (p & c & -> & Hc & <-).
  pose proof (ctx_table s Ht p c Hc) as (_ & _ & Hfl).
  destruct (Hp p c Hc) as [Hst|(Hst & ky & Hu & Hky)].
  - rewrite (ResumeCoroutine_ready s p c k Ht Hc Hst). do 2 eexists. split; [reflexivity|].
    split; [|split; [|split]]; cbn.
    + eapply (table_ok_frame (set_ctxs (<[p:=set_state COROUTINE_RUNNING c]> (ctxs s)) s));
        [..|by eapply table_ok_store]; done.
    + apply others_insert. intros q d _. apply Hp.
    + eexists _, k. rewrite lookup_insert_eq. split; [done|]. by cbn.
    + by apply F_flat.
  - rewrite (ResumeCoroutine_suspended s p c _ k Ht Hc Hst Hu). do 2 eexists.
    split; [reflexivity|]. split; [|split; [|split]]; cbn.
    + eapply (table_ok_frame (set_ctxs (<[p:=set_uctx None (set_state COROUTINE_RUNNING c)]>
                                          (ctxs s)) s)); [..|by eapply table_ok_store]; done.
    + apply (others_insert s). intros q d _. apply Hp.
    + eexists _, k. rewrite lookup_insert_eq. split; [done|]. by cbn.
    + done.
Qed.

Lemma after_resume_step s i p k :
  cfg_ok (Thread BMain (PAfterResume i p k)) s ->
  step_spec (next (after_resume BMain i p k) s).
Proof using.
  intros (Ht & Hr & Hk & Ho & c & Hc & <- & Hd). cbn in *.
  destruct (after_resume_ok s p c k Ht Hc) as (s' & E & Ht' & Er & _ & _ & Hs').
  unfold step_spec, next, mbind, M_bind. rewrite E. do 2 eexists. split; [reflexivity|].
  split; [done|]. cbn. split; [congruence|]. split; [done|].
  destruct Hd as [Hpk|Hdone].
  - replace s' with s; [|destruct Hpk as [Hst|[Hst _]]; by rewrite Hst in Hs'].
    intros q d Hq. destruct (decide (q = p)) as [->|Hqp]; [by simplify_eq|by eapply Ho].
  - rewrite Hdone in Hs'. destruct Hs' as [_ Hs']. intros q d Hq. apply Hs' in Hq as [Hq Hqp].
    by eapply Ho.
Qed.

Lemma main_step s c :
  cfg_ok (Thread BMain (PCode c)) s -> numbers_left s ->
  step_spec (step calloc (Thread BMain (PCode c)) s).
Proof using calloc_fresh F_flat.
  intros (Ht & Hr & Hm & Hp) Hseed. cbn in *. unfold step. cbn [on todo].
  unfold mbind at 1, M_bind at 1. cbn [mret M_ret].
  destruct Hm as [|A m k Hm Hk|null f a k Hf Hk|i k Hk|k Hk|i k Hk|i k Hk].
  - do 2 eexists. split; [reflexivity|]. done.
  - destruct (Hm (world s)) as (z & w & E). unfold step_spec, mbind, M_bind, get, lift.
    rewrite E. do 2 eexists. split; [reflexivity|]. split; [by apply (table_ok_frame s)|].
    cbn. auto.
  - destruct (CreateCoroutine_ok s (calloc (ctxs s)) (if null then None else Some f) a Ht Hseed)
      as (r & s' & E & Ht' & E1 & _ & _ & _ & E5).
    { apply calloc_fresh. }
    { intros g. destruct null; [done|]. intros [= <-]. by apply F_flat. }
    unfold step_spec, mbind, M_bind, get. rewrite E. do 2 eexists. split; [reflexivity|].
    split; [done|]. cbn. split; [congruence|]. split; [done|].
    intros q d Hq. apply E5 in Hq as [Hq|Hq]; [by apply Hp|done].
  - destruct (DestroyCoroutine_ok s i Ht) as (s' & E & Ht' & E1 & _ & _ & _ & _ & E5).
    unfold step_spec, mbind, M_bind. rewrite E. do 2 eexists. split; [reflexivity|].
    split; [done|]. cbn. split; [congruence|]. split; [done|].
    intros q d Hq. apply E5 in Hq as [Hq _]. by apply Hp.
  - unfold step_spec, next, YieldCoroutine, mbind, M_bind, get. rewrite Hr. cbn.
    do 2 eexists. split; [reflexivity|]. split; [done|]. cbn. auto.
  - by apply resume_step.
  - destruct (CoroutineBeenAlive_ok s i Ht) as [b E].
    unfold step_spec, mbind, M_bind. rewrite E. do 2 eexists. split; [reflexivity|].
    split; [done|]. cbn. auto.
Qed.

Lemma co_step s p td :
  cfg_ok (Thread (BCo p) td) s -> numbers_left s -> step_spec (step calloc (Thread (BCo p) td) s).
Proof using calloc_fresh F_flat.
  intros (Ht & Ho & (c & k0 & Hc & Hi & Hst & Hmain & Hk0) & Htd) Hseed. cbn in *.
  unfold step. cbn [on todo].
  rewrite (bind_step _ _ s tt s) by
    (unfold mbind, M_bind; by rewrite (load_ctx_ok p c s Hc)).
  destruct td as [cd|k|]; [| |done].
  2: { do 2 eexists. split; [reflexivity|]. split; [done|]. cbn. split; [done|].
       split; [|auto]. exists c, k0. auto. }
  destruct Htd as [|A m k Hm Hk|null f a k Hf Hk|k Hk|i k Hk].
  - unfold step_spec, next, mbind, M_bind.
    rewrite (ScheduleFunction_leave_ok s p c _ Hc Hmain). do 2 eexists. split; [reflexivity|].
    split; [|split; [done|]]; cbn.
    + eapply (table_ok_frame (set_ctxs (<[p:=set_state COROUTINE_DONE c]> (ctxs s)) s));
        [..|by eapply table_ok_store]; done.
    + split; [done|]. split; [by apply others_insert|]. eexists. rewrite lookup_insert_eq. by auto.
  - destruct (Hm (world s)) as (z & w & E). unfold step_spec, mbind, M_bind, get, lift.
    rewrite E. do 2 eexists. split; [reflexivity|]. split; [by apply (table_ok_frame s)|].
    cbn. split; [done|]. split; [|done]. exists c, k0. auto.
  - destruct (CreateCoroutine_ok s (calloc (ctxs s)) (if null then None else Some f) a Ht Hseed)
      as (r & s' & E & Ht' & E1 & E2 & _ & E4 & E5).
    { apply calloc_fresh. }
    { intros g. destruct null; [done|]. intros [= <-]. by apply F_flat. }
    unfold step_spec, mbind, M_bind, get. rewrite E. do 2 eexists. split; [reflexivity|].
    split; [done|]. cbn. split.
    { intros q d Hq Hd. apply E5 in Hd as [Hd|Hd]; [by apply Ho|done]. }
    split; [|done]. exists c, k0. rewrite E1, E2. auto 10.
  - unfold step_spec, next, mbind, M_bind.
    rewrite (YieldCoroutine_co s p c _ k Ht Hc Hi Hmain). do 2 eexists. split; [reflexivity|].
    split; [|split; [done|]]; cbn.
    + eapply (table_ok_frame (set_ctxs (<[p:=set_uctx (Some (Thread (BCo p) (PAfterYield k)))
        (set_state COROUTINE_SUSPEND c)]> (ctxs s)) s)); [..|by eapply table_ok_store]; done.
    + split; [done|]. split; [by apply (others_insert s)|]. eexists. rewrite lookup_insert_eq.
      split; [done|]. split; [done|]. left. right. split; [done|]. by exists k.
  - destruct (CoroutineBeenAlive_ok s i Ht) as [b E].
    unfold step_spec, mbind, M_bind. rewrite E. do 2 eexists. split; [reflexivity|].
    split; [done|]. cbn. split; [done|]. split; [|auto]. exists c, k0. auto.
Qed.

Lemma step_ok t s : cfg_ok t s -> numbers_left s -> step_spec (step calloc t s).
Proof using calloc_fresh F_flat.
  intros H Hseed. destruct t as [[|p] td]; [|by apply co_step].
  destruct td as [c|k|i p k]; [by apply main_step|by destruct H as (_ & _ & [])|].
  by apply after_resume_step.
Qed.

(** The run goes on as long as there are numbers. *)
Lemma run_ok n t s : cfg_ok t s ->
  step_spec (run calloc n t s) \/
  exists m t' s', (m < n)%nat /\ run calloc m t s = Ok (Some t', s') /\ ~ numbers_left s'.
Proof using calloc_fresh F_flat.
  revert t s. induction n as [|n IH]; intros t s H.
  - left. do 2 eexists. split; [reflexivity|]. done.
  - destruct (decide (cid_seed s < 2147483647)) as [Hseed|Hseed].
    2: { right. exists 0%nat, t, s. split; [lia|]. by split. }
    destruct (step_ok t s H Hseed) as (o & s' & E & Ho). cbn [run]. unfold mbind, M_bind.
    rewrite E. destruct o as [t'|]; [|left; do 2 eexists; split; [reflexivity|]; done].
    destruct (IH t' s' Ho) as [Hr|(m & t2 & s2 & Hm & Er & Hs)]; [by left|].
    right. exists (S m), t2, s2. split; [lia|]. split; [|done].
    cbn [run]. unfold mbind, M_bind. by rewrite E.
Qed.
End StepOk.

(** ** A coroutine up to its next switch *)

(** The code turns the state [w] into [w'] and then yields ([Some k], with the code
    [k] behind the call) or returns ([None]). *)
Inductive seg : W -> code W -> W -> option (Z -> code W) -> Prop :=
  | seg_ret w : seg w Ret w None
  | seg_yield w k : seg w (Yield k) w (Some k)
  | seg_act A w (m : M W A) k z w1 w2 o : m w = Ok (z, w1) -> seg w1 (k z) w2 o -> seg w (Act m k) w2 o.

Section Segments.
Context (calloc : gmap Z (COROUTINECTX W) -> option Z).

Lemma run_add n m t s t' s' :
  run calloc n t s = Ok (Some t', s') -> run calloc (n + m) t s = run calloc m t' s'.
Proof using.
  revert t s. induction n as [|n IH]; intros t s; cbn [run Nat.add].
  - by intros [= -> ->].
  - unfold mbind, M_bind. destruct (step calloc t s) as [[[t1|] s1]|f]; [|done..].
    apply IH.
Qed.

Lemma run_step t s t' s' m :
  step calloc t s = Ok (Some t', s') -> run calloc (S m) t s = run calloc m t' s'.
Proof using. intros H. cbn [run]. unfold mbind, M_bind. by rewrite H. Qed.

Lemma step_co p c s td :
  ctxs s !! p = Some c ->
  step calloc (Thread (BCo p) td) s
  = (match td with
     | PCode Ret => next (ScheduleFunction_leave p)
     | PCode (@Act _ A m k) =>
         s ← get;
         '(z, w) ← lift (m (world s));
         _ ← modify (set_world w);
         mret (Some (Thread (BCo p) (PCode (k z))))
     | PCode (Create null f a k) =>
         s ← get;
         cid ← CreateCoroutine (calloc (ctxs s)) (if null then None else Some f) a;
         mret (Some (Thread (BCo p) (PCode (k cid))))
     | PCode (Destroy i k) =>
         _ ← DestroyCoroutine i; mret (Some (Thread (BCo p) (PCode k)))
     | PCode (Yield k) => next (YieldCoroutine (BCo p) k)
     | PCode (Resume i k) => next (ResumeCoroutine (BCo p) i k)
     | PCode (Alive i k) =>
         r ← CoroutineBeenAlive i; mret (Some (Thread (BCo p) (PCode (k r))))
     | PAfterYield k => mret (Some (Thread (BCo p) (PCode (k 0))))
     | PAfterResume i q k => next (after_resume (BCo p) i q k)
     end) s.
Proof using.
  intros H. unfold step. cbn [on todo].
  rewrite (bind_step _ _ s tt s) by (unfold mbind, M_bind; by rewrite (load_ctx_ok p c s H)).
  done.
Qed.

(** What the coroutine leaves behind when it gives control back. *)
Definition seg_end (p : Z) (c : COROUTINECTX W) (o : option (Z -> code W)) : COROUTINECTX W :=
  match o with
  | Some k => set_uctx (Some (Thread (BCo p) (PAfterYield k)))
                (set_state COROUTINE_SUSPEND c)
  | None => set_state COROUTINE_DONE c
  end.

Lemma run_seg p c t body w w' o :
  seg w body w' o -> forall s, world s = w ->
  table_ok s -> ctxs s !! p = Some c -> idx c = running_cid_ s -> main_ctx_ s = Some t ->
  exists n s', run calloc n (Thread (BCo p) (PCode body)) s = Ok (Some t, s') /\
    world s' = w' /\ running_cid_ s' = -1 /\ table_ok s' /\
    cid_seed s' = cid_seed s /\ coroutine_table_ s' = coroutine_table_ s /\
    ctxs s' = <[p := seg_end p c o]> (ctxs s).
Proof using.
  induction 1 as [w|w k|A w m k z w1 w2 o Em Hk IH]; intros s Hw Ht Hc Hi Hm.
  - exists 1%nat. eexists. cbn [run]. unfold mbind, M_bind. rewrite (step_co p c) by done.
    unfold next, mbind, M_bind. rewrite (ScheduleFunction_leave_ok s p c t Hc Hm).
    split; [reflexivity|]. cbn. repeat (split; [done|]). split; [|done].
    eapply (table_ok_frame (set_ctxs (<[p:=set_state COROUTINE_DONE c]> (ctxs s)) s));
      [..|by eapply table_ok_store]; done.
  - exists 1%nat. eexists. cbn [run]. unfold mbind, M_bind. rewrite (step_co p c) by done.
    unfold next, mbind, M_bind. rewrite (YieldCoroutine_co s p c t k Ht Hc Hi Hm).
    split; [reflexivity|]. cbn. repeat (split; [done|]). split; [|done].
    eapply (table_ok_frame (set_ctxs (<[p:=set_uctx (Some (Thread (BCo p) (PAfterYield k)))
      (set_state COROUTINE_SUSPEND c)]> (ctxs s)) s)); [..|by eapply table_ok_store]; done.
  - destruct (IH (set_world w1 s)) as (n & s' & E & Ea & Hs'); [done| |done..|].
    { by apply (table_ok_frame s). }
    exists (S n), s'. split; [|done].
    rewrite (run_step _ _ (Thread (BCo p) (PCode (k z))) (set_world w1 s)); [done|].
    rewrite (step_co p c) by done. unfold mbind, M_bind, get, lift. by rewrite Hw, Em.
Qed.

Lemma step_main_resume i k s :
  step calloc (Thread BMain (PCode (Resume i k))) s = next (ResumeCoroutine BMain i k) s.
Proof using. done. Qed.

Lemma step_main_after i p k s :
  step calloc (Thread BMain (PAfterResume i p k)) s = next (after_resume BMain i p k) s.
Proof using. done. Qed.
End Segments.

(** The code a context continues with when it is resumed. *)
Definition continues (p : Z) (c : COROUTINECTX W) (body : code W) : Prop :=
  state c = COROUTINE_READY /\ body = func c (arg c) \/
  state c = COROUTINE_SUSPEND /\
  exists k, uctx c = Some (Thread (BCo p) (PAfterYield k)) /\ body = k 0.

(** Entering a context by [ResumeCoroutine], up to its own code. *)
Lemma run_enter calloc s p c k body :
  table_ok s -> ctxs s !! p = Some c -> continues p c body ->
  exists n c' s', run calloc n (Thread BMain (PCode (Resume (idx c) k))) s
                  = Ok (Some (Thread (BCo p) (PCode body)), s') /\
    table_ok s' /\ running_cid_ s' = idx c /\ idx c' = idx c /\ world s' = world s /\
    main_ctx_ s' = Some (Thread BMain (PAfterResume (idx c) p k)) /\
    cid_seed s' = cid_seed s /\
    coroutine_table_ s' = coroutine_table_ s /\ ctxs s' = <[p := c']> (ctxs s).
Proof.
  intros Ht Hc [[Hst ->]|(Hst & k0 & Hu & ->)].
  - exists 1%nat, (set_state COROUTINE_RUNNING c). eexists. cbn [run].
    unfold mbind at 1, M_bind at 1. rewrite step_main_resume. unfold next, mbind, M_bind.
    rewrite (ResumeCoroutine_ready s p c k Ht Hc Hst). split; [reflexivity|]. cbn.
    split; [|done].
    eapply (table_ok_frame (set_ctxs (<[p:=set_state COROUTINE_RUNNING c]> (ctxs s)) s));
      [..|by eapply table_ok_store]; done.
  - exists 2%nat, (set_uctx None (set_state COROUTINE_RUNNING c)). eexists. cbn [run].
    unfold mbind at 1, M_bind at 1. rewrite step_main_resume. unfold next, mbind at 1, M_bind at 1.
    rewrite (ResumeCoroutine_suspended s p c _ k Ht Hc Hst Hu). cbn [mret M_ret].
    unfold mbind, M_bind. erewrite step_co by (cbn; apply lookup_insert_eq).
    split; [reflexivity|]. cbn. split; [|done].
    eapply (table_ok_frame (set_ctxs (<[p:=set_uctx None (set_state COROUTINE_RUNNING c)]>
      (ctxs s)) s)); [..|by eapply table_ok_store]; done.
Qed.

(** Resuming a coroutine from the main code, up to its return. *)
Lemma resume_runs calloc s p c k body w' o :
  table_ok s -> ctxs s !! p = Some c -> continues p c body -> seg (world s) body w' o ->
  exists n s', run calloc n (Thread BMain (PCode (Resume (idx c) k))) s
               = Ok (Some (Thread BMain (PCode (k 0))), s') /\
    world s' = w' /\ running_cid_ s' = -1 /\ table_ok s' /\ cid_seed s' = cid_seed s /\
    (forall q, q <> p -> ctxs s' !! q = ctxs s !! q) /\
    match o with
    | Some k' =>
        coroutine_table_ s' = coroutine_table_ s /\
        exists c', ctxs s' !! p = Some c' /\ continues p c' (k' 0) /\ idx c' = idx c
    | None =>
        coroutine_table_ s' = delete (idx c) (coroutine_table_ s) /\ ctxs s' !! p = None
    end.
Proof using.
  intros Ht Hc Hcont Hseg.
  destruct (run_enter calloc s p c k body Ht Hc Hcont)
    as (n1 & c1 & s1 & E1 & Ht1 & Hr1 & Hi1 & Ha1 & Hm1 & Hd1 & Htab1 & Hc1).
  destruct (run_seg calloc p c1 (Thread BMain (PAfterResume (idx c) p k)) body _ w' o Hseg s1 Ha1 Ht1)
    as (n2 & s2 & E2 & Ha2 & Hr2 & Ht2 & Hd2 & Htab2 & Hc2);
    [by rewrite Hc1, lookup_insert_eq|congruence|exact Hm1|].
  rewrite Hc1, insert_insert_eq in Hc2.
  assert (Hcp : ctxs s2 !! p = Some (seg_end p c1 o)) by (by rewrite Hc2, lookup_insert_eq).
  destruct (after_resume_ok s2 p _ k Ht2 Hcp) as (s3 & E3 & Ht3 & Hr3 & Ha3 & Hd3 & Hs3).
  assert (Hi2 : idx (seg_end p c1 o) = idx c) by (destruct o; exact Hi1).
  rewrite Hi2 in E3, Hs3.
  exists (n1 + (n2 + 1))%nat, s3.
  split; [|split; [congruence|split; [congruence|split; [exact Ht3|split; [congruence|]]]]].
  { rewrite (run_add _ _ _ _ _ _ _ E1), (run_add _ _ _ _ _ _ _ E2). cbn [run].
    unfold mbind at 1, M_bind at 1. rewrite step_main_after. unfold next, mbind, M_bind.
    by rewrite E3. }
  destruct o as [k'|]; cbn in Hs3.
  - subst s3. split; [intros q Hq; by rewrite Hc2, lookup_insert_ne|].
    split; [congruence|]. eexists. split; [exact Hcp|]. split; [|done].
    right. cbn. eauto.
  - destruct Hs3 as [Htab3 Hs3]. split; [|split; [congruence|]].
    + intros q Hq. apply option_eq. intros d. rewrite Hs3, Hc2, lookup_insert_ne by done.
      split; [by intros [? _]|done].
    + apply eq_None_not_Some. intros [d Hd]. apply Hs3 in Hd as [_ Hne]. by apply Hne.
Qed.
End Facts.
Arguments table_ok {W} F s.

(** ** Runs of the main code *)

Section Runs.
Context {W : Type} {F : (Z -> code W) -> Prop}.
Context (calloc : gmap Z (COROUTINECTX W) -> option Z).
Implicit Types (s : CoroutineScheduler W).

Definition runs (c : code W) s (c' : code W) s' : Prop :=
  exists n, run calloc n (Thread BMain (PCode c)) s = Ok (Some (Thread BMain (PCode c')), s').

(** The main code runs and no coroutine. *)
Definition idle s : Prop := table_ok F s /\ running_cid_ s = -1.

Lemma runs_refl c s : runs c s c s.
Proof using. by exists 0%nat. Qed.

Lemma runs_trans c1 s1 c2 s2 c3 s3 : runs c1 s1 c2 s2 -> runs c2 s2 c3 s3 -> runs c1 s1 c3 s3.
Proof using.
  intros [n En] [m Em]. exists (n + m)%nat. by rewrite (run_add _ _ _ _ _ _ _ En).
Qed.

Lemma runs_max c s c1 s1 : runs c s c1 s1 -> coroutine_max_ s1 = coroutine_max_ s.
Proof using. intros [n E]. by apply run_max in E. Qed.

Lemma runs_step c s c1 s1 :
  step calloc (Thread BMain (PCode c)) s = Ok (Some (Thread BMain (PCode c1)), s1) ->
  runs c s c1 s1.
Proof using. intros E. exists 1%nat. by rewrite (run_step _ _ _ _ _ _ E). Qed.

Lemma runs_act {A} (m : M W A) k s z w :
  m (world s) = Ok (z, w) -> runs (Act m k) s (k z) (set_world w s).
Proof using.
  intros E. apply runs_step. unfold step, mbind, M_bind, get, lift. cbn. by rewrite E.
Qed.

Lemma runs_read {A} (m : M W A) k s z :
  m (world s) = Ok (z, world s) -> runs (Act m k) s (k z) s.
Proof using.
  intros E. replace s with (set_world (world s) s) at 2 by (by destruct s). by apply runs_act.
Qed.

(** The main code runs into a fault. *)
Definition fails (c : code W) s (f : fault) : Prop :=
  exists n, run calloc n (Thread BMain (PCode c)) s = Fault f.

Lemma runs_fails c s c' s' f : runs c s c' s' -> fails c' s' f -> fails c s f.
Proof using.
  intros [n En] [m Em]. exists (n + m)%nat. by rewrite (run_add _ _ _ _ _ _ _ En).
Qed.

(** Code that reaches its end reaches it in one state and does not fail. *)
Lemma run_end n : forall t s s1, run calloc n t s = Ok (Some (Thread BMain (PCode Ret)), s1) ->
  forall m, match run calloc m t s with
            | Ok (None, s2) => s2 = s1
            | Ok (Some t2, s2) => t2 = Thread BMain (PCode Ret) -> s2 = s1
            | Fault _ => False
            end.
Proof using.
  induction n as [|n IH]; intros t s s1 E m.
  - injection E as -> ->. by destruct m.
  - cbn [run] in E. unfold mbind, M_bind in E.
    destruct (step calloc t s) as [[[t'|] s']|f] eqn:Es; [|done|done].
    destruct m as [|m].
    + intros ->. cbn in Es. done.
    + cbn [run]. unfold mbind, M_bind. rewrite Es. by apply IH.
Qed.

(** A sequence that ends in [Some] does not end in [None]. *)
Ltac goes_on H :=
  repeat (apply bind_Ok in H as ([] & ? & _ & H) || apply bind_Ok in H as (? & ? & _ & H)); done.

Lemma step_finished t s s1 :
  step calloc t s = Ok (None, s1) -> t = Thread BMain (PCode Ret) /\ s1 = s.
Proof using.
  destruct t as [[|p] c]; unfold step, next; cbn [on todo].
  - destruct c as [[]| |]; intros H; try (by injection H as <-); exfalso; goes_on H.
  - intros H. apply bind_Ok in H as (? & ? & _ & H). exfalso. destruct c as [[]| |]; goes_on H.
Qed.

Lemma runs_finished n c s s1 :
  run calloc n (Thread BMain (PCode c)) s = Ok (None, s1) -> runs c s Ret s1.
Proof using.
  unfold runs. generalize (Thread BMain (PCode c)) as t. revert s.
  induction n as [|n IH]; intros s t E; [done|].
  cbn [run] in E. unfold mbind, M_bind in E.
  destruct (step calloc t s) as [[[t'|] s']|f] eqn:Es; [| |done].
  - destruct (IH s' t' E) as [m Em]. exists (S m). cbn [run]. unfold mbind, M_bind. by rewrite Es.
  - injection E as ->. apply step_finished in Es as [-> ->]. by exists 0%nat.
Qed.

Lemma runs_ret_det c s s1 s2 : runs c s Ret s1 -> runs c s Ret s2 -> s1 = s2.
Proof using.
  intros [n En] [m Em]. pose proof (run_end n _ _ _ En m) as H. rewrite Em in H. symmetry. auto.
Qed.

Lemma runs_not_fails c s s1 f : runs c s Ret s1 -> ~ fails c s f.
Proof using.
  intros [n En] [m Em]. pose proof (run_end n _ _ _ En m) as H. by rewrite Em in H.
Qed.

Lemma fails_act {A} (m : M W A) k s f : m (world s) = Fault f -> fails (Act m k) s f.
Proof using.
  intros E. exists 1%nat. cbn [run]. unfold step, mbind, M_bind, get, lift. cbn. by rewrite E.
Qed.

Lemma runs_alive i k s b : CoroutineBeenAlive i s = Ok (b, s) -> runs (Alive i k) s (k b) s.
Proof using.
  intros E. apply runs_step. unfold step, mbind, M_bind. cbn. by rewrite E.
Qed.

Lemma idle_world w s : idle s -> idle (set_world w s).
Proof using. intros [Ht Hr]. split; [by apply (table_ok_frame s)|done]. Qed.

(** [CoroutineBeenAlive] for a coroutine that waits, and for a number not in use. *)
Lemma alive_waiting s p (c : COROUTINECTX W) body :
  idle s -> ctxs s !! p = Some c -> continues p c body ->
  CoroutineBeenAlive (idx c) s = Ok (true, s).
Proof using.
  intros [Ht _] Hc Hk. pose proof (ctx_table s Ht p c Hc) as (Htab & _).
  unfold CoroutineBeenAlive, mbind, M_bind, get. rewrite Htab, (load_ctx_ok p c) by done.
  by destruct Hk as [[-> _]|[-> _]].
Qed.
Lemma alive_unknown s i :
  coroutine_table_ s !! i = None -> CoroutineBeenAlive i s = Ok (false, s).
Proof using. intros H. unfold CoroutineBeenAlive, mbind, M_bind, get. by rewrite H. Qed.

(** The state behind a successful [CreateCoroutine]. *)
Definition created (p : Z) (f : Z -> code W) (a : Z) s : CoroutineScheduler W :=
  set_seed (i32 (cid_seed s + 1))
    (set_table (<[cid_seed s := Some p]> (coroutine_table_ s))
       (set_ctxs (<[p := {| uctx := None; idx := cid_seed s; state := COROUTINE_READY;
                            func := f; arg := a |}]> (ctxs s)) s)).

Lemma runs_create f a k s p :
  idle s -> cid_seed s < 2147483647 -> calloc (ctxs s) = Some p -> ctxs s !! p = None -> F f ->
  Z.of_nat (size (coroutine_table_ s)) < u64 (coroutine_max_ s) ->
  runs (Create false f a k) s (k (cid_seed s)) (created p f a s) /\ idle (created p f a s).
Proof using.
  intros [Ht Hr] Hseed Hp Hnew Hf Hmax.
  assert (E : CreateCoroutine (Some p) (Some f) a s = Ok (cid_seed s, created p f a s)).
  { unfold CreateCoroutine, mbind, M_bind, get. destruct (Z.leb_spec (u64 (coroutine_max_ s))
      (Z.of_nat (size (coroutine_table_ s)))); [lia|done]. }
  split; [|split; [|done]].
  - apply runs_step. unfold step. rewrite (bind_step _ _ s tt s) by done. cbn [todo on].
    rewrite (bind_step get _ s s s) by done. rewrite Hp. by rewrite (bind_step _ _ _ _ _ E).
  - destruct (CreateCoroutine_ok s (Some p) (Some f) a Ht Hseed) as (r & s' & E' & Ht' & _).
    + by intros q [= <-].
    + by intros g [= <-].
    + rewrite E in E'. by injection E' as _ <-.
Qed.

(** A coroutine that is resumed by the main code. *)
Lemma runs_resume s p (c : COROUTINECTX W) k body w' o :
  idle s -> ctxs s !! p = Some c -> continues p c body -> seg (world s) body w' o ->
  exists s', runs (Resume (idx c) k) s (k 0) s' /\ idle s' /\ world s' = w' /\
    cid_seed s' = cid_seed s /\ (forall q, q <> p -> ctxs s' !! q = ctxs s !! q) /\
    match o with
    | Some k' =>
        coroutine_table_ s' = coroutine_table_ s /\
        exists c', ctxs s' !! p = Some c' /\ continues p c' (k' 0) /\ idx c' = idx c
    | None =>
        coroutine_table_ s' = delete (idx c) (coroutine_table_ s) /\ ctxs s' !! p = None
    end.
Proof using.
  intros [Ht _] Hc Hk Hseg.
  destruct (resume_runs calloc s p c k body w' o Ht Hc Hk Hseg)
    as (n & s' & E & Hw & Hr & Ht' & Hd & Hq & Ho).
  exists s'. split; [by exists n|]. split; [by split|]. auto.
Qed.
End Runs.
Arguments idle {W} F s.

(** ** Properties *)

(** C15: [coroutine_safe]. A program whose coroutines do not themselves resume or
    destroy does not fault before 2^31 - 1 coroutines have been made, whatever the
    scheduler's capacity and the allocator: after any number of steps either all numbers
    but the last have been used up, or no step has jumped to a context that is freed or has
    nothing saved, and no assertion has failed.  At the end of the main code no coroutine
    runs, the table and the heap hold the same contexts, and each is fresh or suspended in
    its own code. *)
Theorem coroutine_safe {W} calloc max (w : W) c n :
  (forall h p, calloc h = Some p -> h !! p = None) -> main_ok c ->
  (exists m t s, (m < n)%nat /\
     run calloc m (Thread BMain (PCode c)) (CoroutineScheduler_new max w) = Ok (Some t, s) /\
     2147483647 <= cid_seed s) \/
  exists o s, run calloc n (Thread BMain (PCode c)) (CoroutineScheduler_new max w) = Ok (o, s) /\
    match o with
    | Some t => True
    | None => running_cid_ s = -1 /\
        (forall i e, coroutine_table_ s !! i = Some e ->
           exists p c, e = Some p /\ ctxs s !! p = Some c /\ idx c = i /\ parked p c) /\
        (forall p c, ctxs s !! p = Some c -> coroutine_table_ s !! idx c = Some (Some p))
    end.
Proof.
  intros Hcal Hc.
  destruct (run_ok (F := fun f => forall z, flat (f z)) calloc Hcal (fun f => iff_refl _) n
    (Thread BMain (PCode c)) (CoroutineScheduler_new max w))
    as [(o & s & E & Ho)|(m & t & s & Hm & E & Hs)].
  { split; [|split; [done|]]; [split; cbn; [..|lia]; intros ?? H; by rewrite lookup_empty in H|].
    split; [done|]. intros p d H. cbn in H. by rewrite lookup_empty in H. }
  2: { left. exists m, t, s. unfold numbers_left in Hs. split; [done|]. split; [done|lia]. }
  right. exists o, s. split; [done|]. destruct o as [t|]; [done|]. destruct Ho as (Hr & Ht & Hp).
  split; [done|]. split.
  - intros i e He. destruct (table_ctx s Ht i e He) as (p & d & -> & Hd & Hi). eauto 10.
  - intros p d Hd. by apply (ctx_table s Ht).
Qed.

(** The last number makes the seed negative; a coroutine with a negative number is made, and
    the assertion in [ScheduleFunction] fails when it is first resumed. *)
Lemma numbers_run_out {W} (s s1 s2 : CoroutineScheduler W) p q f g a b r1 r2 k :
  cid_seed s = 2147483647 -> CreateCoroutine (Some p) (Some f) a s = Ok (r1, s1) -> 0 <= r1 ->
  CreateCoroutine (Some q) (Some g) b s1 = Ok (r2, s2) -> r2 <> -2 ->
  r2 = -2147483648 /\ ResumeCoroutine BMain r2 k s2 = Fault AssertFailed.
Proof.
  intros Hseed H1 Hr1 H2 Hr2. unfold CreateCoroutine, mbind, M_bind, get in H1, H2.
  destruct (_ <=? _); [injection H1 as <- <-; lia|]. injection H1 as <- <-.
  destruct (_ <=? _); [injection H2 as <- <-; done|]. injection H2 as <- <-. cbn. rewrite Hseed.
  change (i32 (2147483647 + 1)) with (-2147483648). split; [done|].
  set (c := {| uctx := None; idx := _; state := _; func := g; arg := b |}).
  generalize dependent s. intros s _ _ _. set (s2 := set_seed _ _).
  assert (Ht : coroutine_table_ s2 !! (-2147483648) = Some (Some q)) by apply lookup_insert_eq.
  assert (Hq : ctxs s2 !! q = Some c) by apply lookup_insert_eq. clearbody s2.
  unfold ResumeCoroutine, mbind, M_bind, get. by rewrite Ht, (load_ctx_ok q c s2 Hq).
Qed.

(** Programs over a list of numbers, with an action that adds one. *)
Definition say (n : Z) (k : code (list Z)) : code (list Z) :=
  Act (fun l => Ok (0, l ++ [n])) (fun _ => k).

(** An allocator, and a main program with two coroutines. *)
Definition any_calloc {W} (h : gmap Z (COROUTINECTX W)) : option Z := Some (fresh (dom h)).
Definition ping (z : Z) : code (list Z) := say z (Yield (fun _ => say (z + 1) Ret)).
Definition two_coroutines : code (list Z) :=
  Create false ping 10 (fun i => Create false ping 20 (fun j =>
  Resume i (fun _ => Resume j (fun _ => Resume i (fun _ => Resume j (fun _ => Ret)))))).

Lemma ping_flat z : flat (ping z).
Proof. repeat constructor; intros; by do 2 eexists. Qed.

Lemma any_calloc_fresh {W} (h : gmap Z (COROUTINECTX W)) p : any_calloc h = Some p -> h !! p = None.
Proof. intros [= <-]. apply not_elem_of_dom. apply is_fresh. Qed.

Lemma coroutine_safe_witness :
  exists o s, run any_calloc 30 (Thread BMain (PCode two_coroutines))
                (CoroutineScheduler_new 10 []) = Ok (o, s) /\ o = None /\ world s = [10; 20; 11; 21].
Proof.
  destruct (coroutine_safe any_calloc 10 [] two_coroutines 30 any_calloc_fresh)
    as [(m & t & s & Hm & E & Hs)|(o & s & E & _)].
  { repeat (apply main_create || apply main_resume || apply main_ret || apply ping_flat || intros). }
  { assert (Hn : forallb (fun m => match run any_calloc m (Thread BMain (PCode two_coroutines))
        (CoroutineScheduler_new 10 []) with Ok (_, s) => cid_seed s <? 10 | _ => false end) (seq 0 30) = true)
      by (vm_compute; reflexivity).
    rewrite forallb_forall in Hn. specialize (Hn m ltac:(apply in_seq; lia)).
    rewrite E, Z.ltb_lt in Hn. lia. }
  exists o, s. split; [exact E|].
  assert (E2 : exists s', run any_calloc 30 (Thread BMain (PCode two_coroutines))
            (CoroutineScheduler_new 10 []) = Ok (None, s') /\ world s' = [10; 20; 11; 21])
    by (eexists; split; [vm_compute; reflexivity|reflexivity]).
  destruct E2 as (s' & E2 & Ha). rewrite E2 in E. injection E as <- <-. auto.
Defined.

(** Resuming a coroutine from the main code runs it from
    where it stopped to its next yield or its end and gives control back to the
    main code with the result 0.  A coroutine that yields is suspended with the
    code behind the yield, one that ends is taken out of the table and freed, and
    no other context changes. *)
Theorem resume_segment {W} F calloc (s : CoroutineScheduler W) p c k body w' o :
  table_ok F s -> ctxs s !! p = Some c -> continues p c body -> seg (world s) body w' o ->
  exists n s', run calloc n (Thread BMain (PCode (Resume (idx c) k))) s
               = Ok (Some (Thread BMain (PCode (k 0))), s') /\
    world s' = w' /\ running_cid_ s' = -1 /\
    (forall q, q <> p -> ctxs s' !! q = ctxs s !! q) /\
    match o with
    | Some k' =>
        coroutine_table_ s' = coroutine_table_ s /\
        exists c', ctxs s' !! p = Some c' /\ continues p c' (k' 0) /\ idx c' = idx c
    | None =>
        coroutine_table_ s' = delete (idx c) (coroutine_table_ s) /\ ctxs s' !! p = None
    end.
Proof.
  intros Ht Hc Hcont Hseg.
  destruct (resume_runs calloc s p c k body w' o Ht Hc Hcont Hseg)
    as (n & s' & E & Hw & Hr & _ & _ & Hq & Ho).
  exists n, s'. auto 10.
Qed.

(** One coroutine that has yielded after its first action. *)
Definition suspended_ctx : COROUTINECTX (list Z) :=
  {| uctx := Some (Thread (BCo 5) (PAfterYield (fun _ => say 11 Ret)));
     idx := 0; state := COROUTINE_SUSPEND; func := fun _ => Ret; arg := 0 |}.
Definition one_suspended : CoroutineScheduler (list Z) :=
  {| running_cid_ := -1; main_ctx_ := None; coroutine_max_ := 10;
     coroutine_table_ := {[ 0 := Some 5 ]}; ctxs := {[ 5 := suspended_ctx ]};
     cid_seed := 1; world := [10] |}.

Lemma resume_segment_witness :
  exists n s', run any_calloc n (Thread BMain (PCode (Resume 0 (fun _ => Ret)))) one_suspended
               = Ok (Some (Thread BMain (PCode Ret)), s') /\ world s' = [10; 11] /\
    coroutine_table_ s' = ∅.
Proof.
  destruct (resume_segment (fun _ => True) any_calloc one_suspended 5 suspended_ctx
              (fun _ => Ret) (say 11 Ret) [10; 11] None)
    as (n & s' & E & Ha & _ & _ & Htab & _).
  - split; cbn; [intros i e|intros p c|lia].
    + intros [<- <-]%lookup_singleton_Some. by do 2 eexists.
    + intros [<- <-]%lookup_singleton_Some. split; [done|]. split; [cbn; lia|done].
  - done.
  - right. by eauto.
  - eapply seg_act; [reflexivity|]. apply seg_ret.
  - exists n, s'. split; [exact E|]. split; [exact Ha|]. rewrite Htab. reflexivity.
Defined.

(** The coroutine [outer] resumes the coroutine [inner], which yields; [outer]
    goes on with an action, a yield and a second action. *)
Definition inner (_ : Z) : code (list Z) := Yield (fun _ => Ret).
Definition outer (i : Z) : code (list Z) :=
  Resume i (fun _ => say 1 (Yield (fun _ => say 2 Ret))).
Definition nested : code (list Z) :=
  Create false inner 0 (fun i => Create false outer i (fun o =>
  Resume o (fun _ => say 99 Ret))).

(** A coroutine that resumes another one overwrites the saved
    main context: its own later yield does not switch (action 2 follows action 1
    at once), and when it ends there is no context to go back to.  The main code
    behind its resume (action 99) never runs. *)
Theorem nested_resume :
  run any_calloc 9 (Thread BMain (PCode nested)) (CoroutineScheduler_new 10 []) ≫=
    (fun '(o, s) => Ok (world s)) = Ok [1; 2] /\
  run any_calloc 10 (Thread BMain (PCode nested)) (CoroutineScheduler_new 10 [])
  = Fault UseAfterFree.
Proof. split; vm_compute; reflexivity. Qed.
