(* ===== verification/EasyNet.v ===== *)
(** * Connections: framework/rapidapp_easy_net.h and .cpp

    [EasyNet] objects, the bufferevents they hold and the user contexts live in a
    heap shared by the whole framework.  libevent, [new], [calloc] and the kernel
    are the class [NetEnv]; each of its answers may depend on how many it gave
    before ([tick]), so it stands for any sequence of answers. *)
From Stdlib Require Import ZArith Lia.
From stdpp Require Import base list gmap fin_maps.
From S2P Require Import Prelude CLib TcpSocket.
Local Open Scope Z_scope.

(** ** Data *)

Definition MAX_URL_LEN : Z := 128.

(** [NetState], src/framework/rapidapp_easy_net.h:12-18 *)
Inductive NetState : Set :=
  | NET_INIT | NET_CONNECTING | NET_ESTABLISHED | NET_FAILED | NET_BEEN_CLOSED.

#[export] Instance NetState_eq_dec : EqDecision NetState.
Proof. solve_decision. Defined.

(** [SendError], src/framework/rapidapp_easy_net.h:20-25 *)
Definition EASY_NET_OK : Z := 0.
Definition EASY_NET_ERR_NOT_YET_ESTABLISHED : Z := -1.
Definition EASY_NET_ERR_ESTABLISH_FAILED : Z := -2.
Definition EASY_NET_ERR_SEND_ERROR : Z := -3.

(** [EasyNet], src/framework/rapidapp_easy_net.h:92-112 *)
Record EasyNet : Set := {
  hevent_ : option Z;
  net_type_ : Z;
  uri_ : bytes;
  nid_ : Z;
  state_ : NetState;
  last_active_timestamp_ : Z;
  prev_pkg_count_ : Z;
  curr_pkg_count_ : Z;
  prev_traffic_bytes_ : Z;
  curr_traffic_bytes_ : Z;
  rpc_binded_ : option Z;
  user_context_ : option Z
}.

(** A libevent bufferevent: its descriptor and its two buffers. *)
Record Bufferevent : Set := {
  bev_fd : Z;
  input : bytes;
  output : bytes
}.

(** The functions a bufferevent calls: those that are given to [bufferevent_setcb] for a
    front end, [on_frontend_data_cb_func] and [on_frontend_nondata_event_cb_func], or for a
    back end, [on_backend_data_cb_func] and [on_backend_nondata_event_cb_func]. *)
Inductive callbacks : Set := frontend_cb_funcs | backend_cb_funcs.

#[export] Instance callbacks_eq_dec : EqDecision callbacks.
Proof. solve_decision. Defined.

(** Live objects by address, the callbacks of the bufferevents that have some, the static
    [nid_seed] and the calls of the kernel. *)
Record Heap (C : Type) : Type := {
  nets : gmap Z EasyNet;
  bevs : gmap Z Bufferevent;
  uctxs : gmap Z C;
  cbs : gmap Z callbacks;
  nid_seed : Z;
  tick : nat;
  ksys : list syscall
}.
Arguments nets {C}. Arguments bevs {C}. Arguments uctxs {C}. Arguments cbs {C}. Arguments nid_seed {C}.
Arguments tick {C}. Arguments ksys {C}.

(** The answers of libevent and the C library; [C] is the type of a user context
    and [zero] a context of zero bytes. *)
Class NetEnv (C : Type) : Type := {
  env_new : nat -> gmap Z EasyNet -> option Z;
  env_bev : nat -> gmap Z Bufferevent -> option Z;
  env_calloc : nat -> gmap Z C -> option Z;
  env_connect : nat -> gmap Z Bufferevent -> sockaddr_in -> option Z;
  env_write : nat -> Z -> bytes -> bool;
  env_kernel : Kernel;
  zero : C
}.

(** Allocation gives addresses that are not in use, and a connection gets a
    descriptor that no bufferevent holds. *)
Class NetEnvOk {C} (E : NetEnv C) : Prop := {
  env_new_fresh n h p : env_new n h = Some p -> h !! p = None;
  env_bev_fresh n h p : env_bev n h = Some p -> h !! p = None;
  env_calloc_fresh n h p : env_calloc n h = Some p -> h !! p = None;
  env_connect_fresh n h sa fd b x :
    env_connect n h sa = Some fd -> h !! b = Some x -> 0 <= fd /\ bev_fd x <> fd
}.

Definition Heap_new {C} : Heap C :=
  {| nets := ∅; bevs := ∅; uctxs := ∅; cbs := ∅; nid_seed := 1; tick := 0; ksys := [] |}.

Definition set_nets {C} (x : gmap Z EasyNet) (h : Heap C) : Heap C :=
  {| nets := x; bevs := bevs h; uctxs := uctxs h; cbs := cbs h; nid_seed := nid_seed h; tick := tick h;
     ksys := ksys h |}.
Definition set_bevs {C} (x : gmap Z Bufferevent) (h : Heap C) : Heap C :=
  {| nets := nets h; bevs := x; uctxs := uctxs h; cbs := cbs h; nid_seed := nid_seed h; tick := tick h;
     ksys := ksys h |}.
Definition set_uctxs {C} (x : gmap Z C) (h : Heap C) : Heap C :=
  {| nets := nets h; bevs := bevs h; uctxs := x; cbs := cbs h; nid_seed := nid_seed h; tick := tick h;
     ksys := ksys h |}.
Definition set_cbs {C} (x : gmap Z callbacks) (h : Heap C) : Heap C :=
  {| nets := nets h; bevs := bevs h; uctxs := uctxs h; cbs := x; nid_seed := nid_seed h;
     tick := tick h; ksys := ksys h |}.
Definition set_nid_seed {C} (x : Z) (h : Heap C) : Heap C :=
  {| nets := nets h; bevs := bevs h; uctxs := uctxs h; cbs := cbs h; nid_seed := x; tick := tick h;
     ksys := ksys h |}.
Definition set_tick {C} (x : nat) (h : Heap C) : Heap C :=
  {| nets := nets h; bevs := bevs h; uctxs := uctxs h; cbs := cbs h; nid_seed := nid_seed h; tick := x;
     ksys := ksys h |}.
Definition set_ksys {C} (x : list syscall) (h : Heap C) : Heap C :=
  {| nets := nets h; bevs := bevs h; uctxs := uctxs h; cbs := cbs h; nid_seed := nid_seed h; tick := tick h;
     ksys := x |}.

Definition set_hevent (e : option Z) (n : EasyNet) : EasyNet :=
  {| hevent_ := e; net_type_ := net_type_ n; uri_ := uri_ n; nid_ := nid_ n;
     state_ := state_ n; last_active_timestamp_ := last_active_timestamp_ n;
     prev_pkg_count_ := prev_pkg_count_ n; curr_pkg_count_ := curr_pkg_count_ n;
     prev_traffic_bytes_ := prev_traffic_bytes_ n;
     curr_traffic_bytes_ := curr_traffic_bytes_ n;
     rpc_binded_ := rpc_binded_ n; user_context_ := user_context_ n |}.
Definition set_link (e : Z) (type : Z) (s : NetState) (n : EasyNet) : EasyNet :=
  {| hevent_ := Some e; net_type_ := type; uri_ := uri_ n; nid_ := nid_ n;
     state_ := s; last_active_timestamp_ := last_active_timestamp_ n;
     prev_pkg_count_ := prev_pkg_count_ n; curr_pkg_count_ := curr_pkg_count_ n;
     prev_traffic_bytes_ := prev_traffic_bytes_ n;
     curr_traffic_bytes_ := curr_traffic_bytes_ n;
     rpc_binded_ := rpc_binded_ n; user_context_ := user_context_ n |}.
Definition set_uri (u : bytes) (n : EasyNet) : EasyNet :=
  {| hevent_ := hevent_ n; net_type_ := net_type_ n; uri_ := u; nid_ := nid_ n;
     state_ := state_ n; last_active_timestamp_ := last_active_timestamp_ n;
     prev_pkg_count_ := prev_pkg_count_ n; curr_pkg_count_ := curr_pkg_count_ n;
     prev_traffic_bytes_ := prev_traffic_bytes_ n;
     curr_traffic_bytes_ := curr_traffic_bytes_ n;
     rpc_binded_ := rpc_binded_ n; user_context_ := user_context_ n |}.
Definition set_net_state (s : NetState) (n : EasyNet) : EasyNet :=
  {| hevent_ := hevent_ n; net_type_ := net_type_ n; uri_ := uri_ n; nid_ := nid_ n;
     state_ := s; last_active_timestamp_ := last_active_timestamp_ n;
     prev_pkg_count_ := prev_pkg_count_ n; curr_pkg_count_ := curr_pkg_count_ n;
     prev_traffic_bytes_ := prev_traffic_bytes_ n;
     curr_traffic_bytes_ := curr_traffic_bytes_ n;
     rpc_binded_ := rpc_binded_ n; user_context_ := user_context_ n |}.

(** [set_active_time], src/framework/rapidapp_easy_net.h:60-62 *)
Definition set_active_time (now : Z) (n : EasyNet) : EasyNet :=
  {| hevent_ := hevent_ n; net_type_ := net_type_ n; uri_ := uri_ n; nid_ := nid_ n;
     state_ := state_ n; last_active_timestamp_ := now;
     prev_pkg_count_ := prev_pkg_count_ n; curr_pkg_count_ := curr_pkg_count_ n;
     prev_traffic_bytes_ := prev_traffic_bytes_ n;
     curr_traffic_bytes_ := curr_traffic_bytes_ n;
     rpc_binded_ := rpc_binded_ n; user_context_ := user_context_ n |}.

Definition set_pkg_counts (prev curr : Z) (n : EasyNet) : EasyNet :=
  {| hevent_ := hevent_ n; net_type_ := net_type_ n; uri_ := uri_ n; nid_ := nid_ n;
     state_ := state_ n; last_active_timestamp_ := last_active_timestamp_ n;
     prev_pkg_count_ := prev; curr_pkg_count_ := curr;
     prev_traffic_bytes_ := prev_traffic_bytes_ n;
     curr_traffic_bytes_ := curr_traffic_bytes_ n;
     rpc_binded_ := rpc_binded_ n; user_context_ := user_context_ n |}.
Definition set_traffic (prev curr : Z) (n : EasyNet) : EasyNet :=
  {| hevent_ := hevent_ n; net_type_ := net_type_ n; uri_ := uri_ n; nid_ := nid_ n;
     state_ := state_ n; last_active_timestamp_ := last_active_timestamp_ n;
     prev_pkg_count_ := prev_pkg_count_ n; curr_pkg_count_ := curr_pkg_count_ n;
     prev_traffic_bytes_ := prev; curr_traffic_bytes_ := curr;
     rpc_binded_ := rpc_binded_ n; user_context_ := user_context_ n |}.

(** [set_rpc_binded], src/framework/rapidapp_easy_net.h:68-70 *)
Definition set_rpc_binded (rpc : option Z) (n : EasyNet) : EasyNet :=
  {| hevent_ := hevent_ n; net_type_ := net_type_ n; uri_ := uri_ n; nid_ := nid_ n;
     state_ := state_ n; last_active_timestamp_ := last_active_timestamp_ n;
     prev_pkg_count_ := prev_pkg_count_ n; curr_pkg_count_ := curr_pkg_count_ n;
     prev_traffic_bytes_ := prev_traffic_bytes_ n;
     curr_traffic_bytes_ := curr_traffic_bytes_ n;
     rpc_binded_ := rpc; user_context_ := user_context_ n |}.
Definition set_user_context (c : option Z) (n : EasyNet) : EasyNet :=
  {| hevent_ := hevent_ n; net_type_ := net_type_ n; uri_ := uri_ n; nid_ := nid_ n;
     state_ := state_ n; last_active_timestamp_ := last_active_timestamp_ n;
     prev_pkg_count_ := prev_pkg_count_ n; curr_pkg_count_ := curr_pkg_count_ n;
     prev_traffic_bytes_ := prev_traffic_bytes_ n;
     curr_traffic_bytes_ := curr_traffic_bytes_ n;
     rpc_binded_ := rpc_binded_ n; user_context_ := c |}.

(** ** The heap *)

Section Methods.
Context {C : Type} {E : NetEnv C}.

Definition load_net (p : Z) : M (Heap C) EasyNet := fun h =>
  match nets h !! p with Some n => Ok (n, h) | None => Fault UseAfterFree end.
Definition upd_net (p : Z) (f : EasyNet -> EasyNet) : M (Heap C) unit :=
  n ← load_net p; modify (fun h => set_nets (<[p := f n]> (nets h)) h).
Definition delete_net (p : Z) : M (Heap C) unit :=
  _ ← load_net p; modify (fun h => set_nets (delete p (nets h)) h).

Definition load_bev (b : Z) : M (Heap C) Bufferevent := fun h =>
  match bevs h !! b with Some x => Ok (x, h) | None => Fault UseAfterFree end.

(** [bufferevent_getfd] *)
Definition bufferevent_getfd (b : Z) : M (Heap C) Z := x ← load_bev b; mret (bev_fd x).

Definition bufferevent_free (b : Z) : M (Heap C) unit :=
  _ ← load_bev b; modify (fun h => set_bevs (delete b (bevs h)) h).

(** [bufferevent_write]: 0 when the bytes are queued, -1 otherwise. *)
Definition bufferevent_write (b : Z) (data : bytes) : M (Heap C) Z :=
  x ← load_bev b;
  t ← gets tick;
  _ ← modify (set_tick (S t));
  if env_write t b data then
    _ ← modify (fun h => set_bevs (<[b := {| bev_fd := bev_fd x; input := input x;
                                          output := output x ++ data |}]> (bevs h)) h);
    mret 0
  else mret (-1).

(** [bufferevent_setcb]: the functions for data and for events, [this] being their last
    argument. *)
Definition bufferevent_setcb (b : Z) (c : callbacks) : M (Heap C) unit :=
  _ ← load_bev b; modify (fun h => set_cbs (<[b := c]> (cbs h)) h).

(** [bufferevent_socket_new]: a bufferevent without callbacks. *)
Definition bufferevent_socket_new (fd : Z) : M (Heap C) (option Z) :=
  h ← get;
  _ ← modify (set_tick (S (tick h)));
  match env_bev (tick h) (bevs h) with
  | None => mret None
  | Some b =>
      _ ← modify (fun h => set_cbs (delete b (cbs h))
        (set_bevs (<[b := {| bev_fd := fd; input := []; output := [] |}]> (bevs h)) h));
      mret (Some b)
  end.

(** [bufferevent_socket_connect] makes the socket when there is none. *)
Definition bufferevent_socket_connect (b : Z) (sa : sockaddr_in) : M (Heap C) Z :=
  x ← load_bev b;
  h ← get;
  _ ← modify (set_tick (S (tick h)));
  match env_connect (tick h) (bevs h) sa with
  | None => mret (-1)
  | Some fd =>
      _ ← modify (fun h => set_bevs (<[b := {| bev_fd := fd; input := input x;
                                            output := output x |}]> (bevs h)) h);
      mret 0
  end.

Definition ksyscalls {A} (m : M (list syscall) A) : M (Heap C) A := fun h =>
  '(a, t) ← m (ksys h); Ok (a, set_ksys t h).

(** ** Methods of [EasyNet] *)

(** [EasyNet::EasyNet], src/framework/rapidapp_easy_net.cpp:9-17

    [new(std::nothrow) EasyNet()]; the seed is an [int]. *)
Definition EasyNet_new : M (Heap C) (option Z) :=
  h ← get;
  _ ← modify (set_tick (S (tick h)));
  match env_new (tick h) (nets h) with
  | None => mret None
  | Some p =>
      _ ← modify (set_nid_seed (i32 (nid_seed h + 1)));
      _ ← modify (fun h' => set_nets (<[p := {|
             hevent_ := None; net_type_ := 0; uri_ := []; nid_ := nid_seed h;
             state_ := NET_INIT; last_active_timestamp_ := 0; prev_pkg_count_ := 0;
             curr_pkg_count_ := 0; prev_traffic_bytes_ := 0; curr_traffic_bytes_ := 0;
             rpc_binded_ := None; user_context_ := None |}]> (nets h')) h');
      mret (Some p)
  end.

(** [EasyNet::Init], src/framework/rapidapp_easy_net.cpp:22-49

    [ev_base] tells whether the event base is not null. *)
Definition EasyNet_Init (this : Z) (sock_fd type : Z) (ev_base : bool) : M (Heap C) Z :=
  if (sock_fd <? 0) || negb ev_base then mret (-1)
  else
    _ ← ksyscalls (tcpsocket_set_nodelay env_kernel sock_fd);
    bev ← bufferevent_socket_new sock_fd;
    match bev with
    | None => mret (-1)
    | Some b => _ ← upd_net this (set_link b type NET_ESTABLISHED); mret 0
    end.

(** [EasyNet::Connect], src/framework/rapidapp_easy_net.cpp:51-99 *)
Definition EasyNet_Connect (this : Z) (uri : option bytes) (type : Z) (ev_base : bool)
    : M (Heap C) Z :=
  match uri with
  | None => mret (-1)
  | Some uri =>
      if negb ev_base then mret (-1)
      else if MAX_URL_LEN <=? strlen uri then mret (-1)
      else
        sin ← lift (tcpsocket_str2sockin env_kernel (Some uri));
        match sin with
        | None => mret (-1)
        | Some sin =>
            bev ← bufferevent_socket_new (-1);
            match bev with
            | None => mret (-1)
            | Some b =>
                fd ← bufferevent_getfd b;
                _ ← ksyscalls (tcpsocket_set_nodelay env_kernel fd);
                ret ← bufferevent_socket_connect b sin;
                if negb (ret =? 0) then _ ← bufferevent_free b; mret (-1)
                else
                  _ ← upd_net this (set_link b type NET_CONNECTING);
                  _ ← upd_net this (set_uri uri);
                  mret 0
            end
        end
  end.

(** [EasyNet::CleanUp], src/framework/rapidapp_easy_net.cpp:101-108 *)
Definition EasyNet_CleanUp (this : Z) : M (Heap C) unit :=
  n ← load_net this;
  match hevent_ n with
  | None => mret tt
  | Some b => _ ← bufferevent_free b; upd_net this (set_hevent None)
  end.

(** [EasyNet::CreateUserContext], src/framework/rapidapp_easy_net.cpp:110-125 *)
Definition CreateUserContext (this : Z) (uctx_size : Z) : M (Heap C) Z :=
  if uctx_size =? 0 then mret 0
  else
    h ← get;
    _ ← modify (set_tick (S (tick h)));
    let p := env_calloc (tick h) (uctxs h) in
    _ ← (match p with
         | Some c => modify (fun h => set_uctxs (<[c := zero]> (uctxs h)) h)
         | None => mret tt
         end);
    _ ← upd_net this (set_user_context p);
    mret (match p with None => -1 | Some _ => 0 end).

(** [EasyNet::DestroyUserContext], src/framework/rapidapp_easy_net.cpp:127-134 *)
Definition DestroyUserContext (this : Z) : M (Heap C) unit :=
  n ← load_net this;
  match user_context_ n with
  | None => mret tt
  | Some c =>
      h ← get;
      match uctxs h !! c with
      | None => fail UseAfterFree
      | Some _ =>
          _ ← modify (fun h => set_uctxs (delete c (uctxs h)) h);
          upd_net this (set_user_context None)
      end
  end.

(** [EasyNet::Send], src/framework/rapidapp_easy_net.cpp:136-177

    [None] is a null message.  The length is computed as a [size_t] and sent as
    32 bits in network byte order; it counts its own four bytes. *)
Definition EasyNet_Send (this : Z) (msg : option bytes) : M (Heap C) Z :=
  match msg with
  | None | Some [] => mret EASY_NET_OK
  | Some msg =>
      n ← load_net this;
      match hevent_ n with
      | None => fail AssertFailed
      | Some b =>
          if negb (bool_decide (state_ n = NET_ESTABLISHED)) then
            if negb (bool_decide (state_ n = NET_FAILED))
            then mret EASY_NET_ERR_NOT_YET_ESTABLISHED
            else mret EASY_NET_ERR_ESTABLISH_FAILED
          else
            let msglen := htonl (u64 (blen msg + 4)) in
            r ← bufferevent_write b (store32 msglen);
            if negb (r =? 0) then mret EASY_NET_ERR_SEND_ERROR
            else
              r ← bufferevent_write b msg;
              if negb (r =? 0) then mret EASY_NET_ERR_SEND_ERROR
              else mret EASY_NET_OK
      end
  end.

End Methods.

#[global] Arguments load_net : simpl never.
#[global] Arguments upd_net : simpl never.
#[global] Arguments delete_net : simpl never.
#[global] Arguments load_bev : simpl never.

(** ** Well-formed heaps *)

(** Every connection owns its bufferevent and its context; descriptors and
    connection numbers are not shared. *)
Record heap_ok {C} (h : Heap C) : Prop := {
  ho_bev p n b : nets h !! p = Some n -> hevent_ n = Some b -> is_Some (bevs h !! b);
  ho_bev_inj p q n m b : nets h !! p = Some n -> nets h !! q = Some m ->
    hevent_ n = Some b -> hevent_ m = Some b -> p = q;
  ho_ctx p n c : nets h !! p = Some n -> user_context_ n = Some c -> is_Some (uctxs h !! c);
  ho_ctx_inj p q n m c : nets h !! p = Some n -> nets h !! q = Some m ->
    user_context_ n = Some c -> user_context_ m = Some c -> p = q;
  ho_fd_inj b c x y : bevs h !! b = Some x -> bevs h !! c = Some y ->
    bev_fd x = bev_fd y -> 0 <= bev_fd x -> b = c;
  ho_nid p n : nets h !! p = Some n -> 0 < nid_ n < nid_seed h;
  ho_nid_inj p q n m : nets h !! p = Some n -> nets h !! q = Some m -> nid_ n = nid_ m -> p = q
}.

Lemma heap_ok_new {C} : heap_ok (@Heap_new C).
Proof. by split; cbn; intros *; rewrite ?lookup_empty. Qed.

(** A change of a connection that keeps what it owns and its number. *)
Definition same_identity (n n' : EasyNet) : Prop :=
  hevent_ n' = hevent_ n /\ user_context_ n' = user_context_ n /\ nid_ n' = nid_ n.

Section HeapLemmas.
Context {C : Type}.
Implicit Types (h : Heap C) (p q : Z) (n m : EasyNet).

Lemma heap_ok_frame h h' :
  nets h' = nets h -> bevs h' = bevs h -> uctxs h' = uctxs h -> nid_seed h' = nid_seed h ->
  heap_ok h -> heap_ok h'.
Proof.
  intros E1 E2 E3 E4 [H1 H2 H3 H4 H5 H6 H7]. split; intros *; rewrite ?E1, ?E2, ?E3, ?E4; eauto.
Qed.

(** The connection behind an address after one connection has been replaced. *)
Lemma insert_identity h p n n' q m :
  nets h !! p = Some n -> same_identity n n' -> <[p := n']> (nets h) !! q = Some m ->
  exists m0, nets h !! q = Some m0 /\ same_identity m0 m.
Proof.
  intros Hp Hs. destruct (decide (q = p)) as [->|Hq].
  - rewrite lookup_insert_eq. intros [= <-]. eauto.
  - rewrite lookup_insert_ne by done. intros Hm. exists m. by repeat split.
Qed.

Lemma heap_ok_update h p n n' :
  heap_ok h -> nets h !! p = Some n -> same_identity n n' ->
  heap_ok (set_nets (<[p := n']> (nets h)) h).
Proof.
  intros [H1 H2 H3 H4 H5 H6 H7] Hp Hs.
  pose proof (fun q m => insert_identity h p n n' q m Hp Hs) as Hi.
  split; cbn; [| | | |done|intros q m Hq|].
  1: intros q m b Hq Hb.
  2: intros q r m m' b Hq Hr Hb Hb'. 3: intros q m c Hq Hb.
  4: intros q r m m' c Hq Hr Hb Hb'. 6: intros q r m m' Hq Hr Hb.
  all: apply Hi in Hq as (m0 & Hq & Ea & Eb & Ec);
       try (apply Hi in Hr as (m1 & Hr & Ea' & Eb' & Ec')).
  - apply (H1 q m0); [done|congruence].
  - apply (H2 q r m0 m1 b); [done|done|congruence|congruence].
  - apply (H3 q m0); [done|congruence].
  - apply (H4 q r m0 m1 c); [done|done|congruence|congruence].
  - rewrite Ec. eauto.
  - apply (H7 q r m0 m1); [done|done|congruence].
Qed.

(** The heap without a connection and what it owns. *)
Definition freed (p : Z) (n : EasyNet) (h : Heap C) : Heap C :=
  {| nets := delete p (nets h);
     bevs := match hevent_ n with Some b => delete b (bevs h) | None => bevs h end;
     uctxs := match user_context_ n with Some c => delete c (uctxs h) | None => uctxs h end;
     cbs := cbs h; nid_seed := nid_seed h; tick := tick h; ksys := ksys h |}.

Lemma freed_ok h p n : heap_ok h -> nets h !! p = Some n -> heap_ok (freed p n h).
Proof.
  intros [H1 H2 H3 H4 H5 H6 H7] Hp. split; cbn.
  - intros q m b [Hqp Hq]%lookup_delete_Some Hb. destruct (hevent_ n) as [b0|] eqn:En; [|eauto].
    rewrite lookup_delete_is_Some. split; [|eauto]. intros ->. apply Hqp. eauto.
  - intros q r m m' b [_ Hq]%lookup_delete_Some [_ Hr]%lookup_delete_Some. eauto.
  - intros q m b [Hqp Hq]%lookup_delete_Some Hb.
    destruct (user_context_ n) as [b0|] eqn:En; [|eauto].
    rewrite lookup_delete_is_Some. split; [|eauto]. intros ->. apply Hqp. eauto.
  - intros q r m m' b [_ Hq]%lookup_delete_Some [_ Hr]%lookup_delete_Some. eauto.
  - intros b c x y Hx Hy. apply H5.
    + destruct (hevent_ n); [by apply lookup_delete_Some in Hx as [_ Hx]|done].
    + destruct (hevent_ n); [by apply lookup_delete_Some in Hy as [_ Hy]|done].
  - intros q m [_ Hq]%lookup_delete_Some. eauto.
  - intros q r m m' [_ Hq]%lookup_delete_Some [_ Hr]%lookup_delete_Some. eauto.
Qed.

Lemma load_net_ok h p n : nets h !! p = Some n -> load_net p h = Ok (n, h).
Proof. intros H. unfold load_net. by rewrite H. Qed.

Lemma load_bev_ok h b x : bevs h !! b = Some x -> load_bev b h = Ok (x, h).
Proof. intros H. unfold load_bev. by rewrite H. Qed.

Lemma getfd_ok h b x : bevs h !! b = Some x -> bufferevent_getfd b h = Ok (bev_fd x, h).
Proof. intros H. unfold bufferevent_getfd, mbind, M_bind. by rewrite (load_bev_ok h b x). Qed.

Lemma setcb_ok h b x c :
  bevs h !! b = Some x -> bufferevent_setcb b c h = Ok (tt, set_cbs (<[b := c]> (cbs h)) h).
Proof. intros H. unfold bufferevent_setcb, mbind, M_bind. by rewrite (load_bev_ok h b x). Qed.

Lemma upd_net_ok h p n f :
  nets h !! p = Some n -> upd_net p f h = Ok (tt, set_nets (<[p := f n]> (nets h)) h).
Proof. intros H. unfold upd_net, mbind, M_bind. by rewrite (load_net_ok h p n). Qed.

Lemma DestroyUserContext_ok h p n :
  heap_ok h -> nets h !! p = Some n ->
  DestroyUserContext p h
  = Ok (tt, match user_context_ n with
            | None => h
            | Some c => set_nets (<[p := set_user_context None n]> (nets h))
                          (set_uctxs (delete c (uctxs h)) h)
            end).
Proof.
  intros Hh Hp. unfold DestroyUserContext, mbind, M_bind. rewrite (load_net_ok h p n Hp).
  destruct (user_context_ n) as [c|] eqn:Ec; [|done]. unfold get.
  destruct (ho_ctx h Hh p n c Hp Ec) as [x ->]. cbn [modify].
  by rewrite (upd_net_ok _ p n).
Qed.

Lemma EasyNet_CleanUp_ok h p n b :
  nets h !! p = Some n -> hevent_ n = Some b -> is_Some (bevs h !! b) ->
  EasyNet_CleanUp p h
  = Ok (tt, set_nets (<[p := set_hevent None n]> (nets h)) (set_bevs (delete b (bevs h)) h)).
Proof.
  intros Hp Hb [x Hx]. unfold EasyNet_CleanUp, mbind, M_bind. rewrite (load_net_ok h p n Hp), Hb.
  unfold bufferevent_free, mbind, M_bind. rewrite (load_bev_ok h b x Hx). cbn [modify].
  by rewrite (upd_net_ok _ p n).
Qed.

Lemma delete_net_ok h p n :
  nets h !! p = Some n -> delete_net p h = Ok (tt, set_nets (delete p (nets h)) h).
Proof. intros H. unfold delete_net, mbind, M_bind. by rewrite (load_net_ok h p n). Qed.

End HeapLemmas.

#[export] Hint Resolve heap_ok_update freed_ok : rapid.

(** ** Sending *)

(** A message behind its length, which counts its own four bytes, in network
    byte order: what [Send] puts on the wire. *)
Definition frame (msg : bytes) : bytes := store32 (htonl (blen msg + 4)) ++ msg.

Definition add_output {C} (b : Z) (x : Bufferevent) (data : bytes) (h : Heap C) : Heap C :=
  set_bevs (<[b := {| bev_fd := bev_fd x; input := input x; output := output x ++ data |}]>
              (bevs h)) h.

Lemma bufferevent_write_ok {C} {E : NetEnv C} h b x data :
  bevs h !! b = Some x ->
  bufferevent_write b data h
  = if env_write (tick h) b data
    then Ok (0, add_output b x data (set_tick (S (tick h)) h))
    else Ok (-1, set_tick (S (tick h)) h).
Proof.
  intros Hx. unfold bufferevent_write, mbind, M_bind. rewrite (load_bev_ok h b x Hx). cbn.
  by destruct (env_write (tick h) b data).
Qed.

Lemma EasyNet_Send_ok {C} {E : NetEnv C} (h : Heap C) p n b x msg :
  nets h !! p = Some n -> hevent_ n = Some b -> bevs h !! b = Some x ->
  msg <> [] -> blen msg + 4 < 4294967296 ->
  exists h', EasyNet_Send p (Some msg) h
    = Ok (match state_ n with
          | NET_ESTABLISHED =>
              if env_write (tick h) b (store32 (htonl (blen msg + 4))) &&
                 env_write (S (tick h)) b msg then EASY_NET_OK else EASY_NET_ERR_SEND_ERROR
          | NET_FAILED => EASY_NET_ERR_ESTABLISH_FAILED
          | _ => EASY_NET_ERR_NOT_YET_ESTABLISHED
          end, h') /\
    nets h' = nets h /\ uctxs h' = uctxs h /\
    bevs h' = match state_ n with
              | NET_ESTABLISHED =>
                  if env_write (tick h) b (store32 (htonl (blen msg + 4))) then
                    <[b := {| bev_fd := bev_fd x; input := input x;
                              output := output x ++
                                if env_write (S (tick h)) b msg then frame msg
                                else store32 (htonl (blen msg + 4)) |}]> (bevs h)
                  else bevs h
              | _ => bevs h
              end.
Proof.
  intros Hp Hb Hx Hne Hlen. destruct msg as [|c msg]; [done|].
  unfold EasyNet_Send. unfold mbind at 1, M_bind at 1. rewrite (load_net_ok h p n Hp), Hb.
  replace (u64 (blen (c :: msg) + 4)) with (blen (c :: msg) + 4)
    by (unfold blen in *; symmetry; apply u64_id; lia).
  destruct (state_ n); cbn [negb bool_decide decide]; try (by eexists).
  rewrite bool_decide_eq_true_2 by done. cbn [negb].
  unfold mbind at 1, M_bind at 1. rewrite (bufferevent_write_ok h b x _ Hx).
  destruct (env_write (tick h) b _); [|by eexists]. cbn [Z.eqb negb andb].
  unfold mbind at 1, M_bind at 1. erewrite bufferevent_write_ok.
  2: { cbn. apply lookup_insert_eq. }
  cbn [tick add_output set_bevs set_tick].
  destruct (env_write (S (tick h)) b _); eexists; (split; [reflexivity|]);
    (split; [done|]); (split; [done|]); cbn; rewrite ?insert_insert_eq; [|done].
  by rewrite <- app_assoc.
Qed.

(** A write appends to what is queued to be sent, or fails. *)
Lemma bufferevent_write_appends {C} {E : NetEnv C} (h : Heap C) b x data :
  bevs h !! b = Some x ->
  exists r h' out, bufferevent_write b data h = Ok (r, h') /\ nets h' = nets h /\ cbs h' = cbs h /\
    uctxs h' = uctxs h /\ nid_seed h' = nid_seed h /\
    bevs h' = <[b := {| bev_fd := bev_fd x; input := input x; output := out |}]> (bevs h).
Proof.
  intros Hx. rewrite (bufferevent_write_ok h b x data Hx).
  destruct (env_write (tick h) b data); do 2 eexists.
  - exists (output x ++ data). by repeat split.
  - exists (output x). repeat (split; [done|]). cbn. by rewrite insert_id by (by destruct x).
Qed.

(** [Send] returns, whatever the message and the connection; it changes what is queued to
    be sent and nothing else. *)
Lemma EasyNet_Send_appends {C} {E : NetEnv C} (h : Heap C) p n b x msg :
  nets h !! p = Some n -> hevent_ n = Some b -> bevs h !! b = Some x ->
  exists r h' out, EasyNet_Send p msg h = Ok (r, h') /\ nets h' = nets h /\ cbs h' = cbs h /\
    uctxs h' = uctxs h /\ nid_seed h' = nid_seed h /\
    bevs h' = <[b := {| bev_fd := bev_fd x; input := input x; output := out |}]> (bevs h).
Proof.
  intros Hp Hb Hx.
  assert (Hsame : bevs h = <[b := {| bev_fd := bev_fd x; input := input x; output := output x |}]> (bevs h))
    by (symmetry; apply insert_id; by destruct x).
  destruct msg as [[|c msg]|]; [by exists EASY_NET_OK, h, (output x)| |by exists EASY_NET_OK, h, (output x)].
  unfold EasyNet_Send. rewrite (bind_step _ _ _ _ _ (load_net_ok h p n Hp)), Hb.
  destruct (negb (bool_decide (state_ n = NET_ESTABLISHED))).
  { destruct (negb _); eexists; by exists h, (output x). }
  cbv zeta. set (len := store32 _).
  destruct (bufferevent_write_appends h b x len Hx) as (r & h1 & o1 & E1 & E2 & E3 & E4 & E5 & E6).
  rewrite (bind_step _ _ _ _ _ E1). destruct (negb (r =? 0)); [by exists EASY_NET_ERR_SEND_ERROR, h1, o1|].
  assert (Hx1 : bevs h1 !! b = Some {| bev_fd := bev_fd x; input := input x; output := o1 |})
    by (rewrite E6; apply lookup_insert_eq).
  destruct (bufferevent_write_appends h1 b _ (c :: msg) Hx1)
    as (r2 & h2 & o2 & G1 & G2 & G3 & G4 & G5 & G6).
  rewrite (bind_step _ _ _ _ _ G1). cbn [bev_fd input] in G6. rewrite E6, insert_insert_eq in G6.
  destruct (negb (r2 =? 0)); do 2 eexists; exists o2; (split; [reflexivity|]); repeat split; congruence.
Qed.

(** The heap behind a message that is queued as a whole. *)
Definition queued {C} (b : Z) (x : Bufferevent) (msg : bytes) (h : Heap C) : Heap C :=
  add_output b x (frame msg) (set_tick (S (S (tick h))) h).

Definition writes_succeed {C} (E : NetEnv C) : Prop := forall t b data, env_write t b data = true.

Lemma EasyNet_Send_queued {C} {E : NetEnv C} (h : Heap C) p n b x msg :
  writes_succeed E ->
  nets h !! p = Some n -> hevent_ n = Some b -> bevs h !! b = Some x ->
  state_ n = NET_ESTABLISHED -> msg <> [] ->
  EasyNet_Send p (Some msg) h = Ok (EASY_NET_OK, queued b x msg h).
Proof.
  intros Hw Hp Hb Hx Hst Hne. destruct msg as [|c msg]; [done|].
  unfold EasyNet_Send. rewrite (bind_step _ _ _ _ _ (load_net_ok h p n Hp)), Hb, Hst.
  rewrite bool_decide_eq_true_2 by done. cbn [negb].
  erewrite bind_step by (rewrite (bufferevent_write_ok h b x _ Hx), Hw; reflexivity).
  cbn [Z.eqb negb].
  erewrite bind_step.
  2: { erewrite bufferevent_write_ok by (cbn; apply lookup_insert_eq). rewrite Hw. reflexivity. }
  cbn [Z.eqb negb]. unfold mret, M_ret. do 2 f_equal. unfold queued, add_output. cbn.
  rewrite insert_insert_eq, <- app_assoc. unfold frame, htonl.
  replace (u32 (u64 (blen (c :: msg) + 4))) with (u32 (blen (c :: msg) + 4)); [done|].
  unfold blen. int_lia.
Qed.

(** [send_frame]. On an established connection [Send] queues the message
    behind its length.  When the first write fails nothing is queued; when the
    second fails the length is left in the stream without the message.  On a
    connection that is not established nothing is queued, and the return value
    tells a failed connection from the others. *)
Theorem send_frame {C} {E : NetEnv C} (h : Heap C) p n b x msg :
  nets h !! p = Some n -> hevent_ n = Some b -> bevs h !! b = Some x ->
  msg <> [] -> blen msg + 4 < 4294967296 ->
  exists h', EasyNet_Send p (Some msg) h
    = Ok (match state_ n with
          | NET_ESTABLISHED =>
              if env_write (tick h) b (store32 (htonl (blen msg + 4))) &&
                 env_write (S (tick h)) b msg then EASY_NET_OK else EASY_NET_ERR_SEND_ERROR
          | NET_FAILED => EASY_NET_ERR_ESTABLISH_FAILED
          | _ => EASY_NET_ERR_NOT_YET_ESTABLISHED
          end, h') /\
    nets h' = nets h /\ uctxs h' = uctxs h /\
    bevs h' = match state_ n with
              | NET_ESTABLISHED =>
                  if env_write (tick h) b (store32 (htonl (blen msg + 4))) then
                    <[b := {| bev_fd := bev_fd x; input := input x;
                              output := output x ++
                                if env_write (S (tick h)) b msg then frame msg
                                else store32 (htonl (blen msg + 4)) |}]> (bevs h)
                  else bevs h
              | _ => bevs h
              end.
Proof. apply EasyNet_Send_ok. Qed.

(** A descriptor above those of the bufferevents. *)
Definition next_fd (h : gmap Z Bufferevent) : Z :=
  foldr (fun e acc => Z.max (bev_fd (snd e) + 1) acc) 3 (map_to_list h).

Lemma next_fd_above h b x : h !! b = Some x -> bev_fd x < next_fd h.
Proof.
  rewrite <- elem_of_map_to_list. unfold next_fd.
  induction (map_to_list h) as [|e l IH]; [by intros ?%not_elem_of_nil|].
  intros [<-|Hin]%elem_of_cons; cbn; [lia|]. specialize (IH Hin). lia.
Qed.

Lemma next_fd_nonneg h : 0 <= next_fd h.
Proof. unfold next_fd. induction (map_to_list h) as [|e l IH]; cbn; lia. Qed.

(** An environment for the witnesses: allocation from the free addresses, calls
    that succeed except the write number 7, contexts that are a number. *)
Definition easy_env : NetEnv Z := {|
  env_new _ h := Some (fresh (dom h));
  env_bev _ h := Some (fresh (dom h));
  env_calloc _ h := Some (fresh (dom h));
  env_connect _ h _ := Some (next_fd h);
  env_write t _ _ := negb (t =? 7)%nat;
  env_kernel := quiet_kernel;
  zero := 0
|}.

#[export] Instance easy_env_ok : NetEnvOk easy_env.
Proof.
  split; cbn.
  1-3: intros n h p [= <-]; apply not_elem_of_dom; apply is_fresh.
  intros n h sa fd b x [= <-] Hx. pose proof (next_fd_above h b x Hx).
  pose proof (next_fd_nonneg h). lia.
Qed.

Definition one_net : Heap Z := {|
  nets := {[ 3 := {| hevent_ := Some 4; net_type_ := 0; uri_ := []; nid_ := 1;
                     state_ := NET_ESTABLISHED; last_active_timestamp_ := 0;
                     prev_pkg_count_ := 0; curr_pkg_count_ := 0; prev_traffic_bytes_ := 0;
                     curr_traffic_bytes_ := 0; rpc_binded_ := None; user_context_ := None |} ]};
  bevs := {[ 4 := {| bev_fd := 9; input := []; output := [] |} ]};
  uctxs := ∅; cbs := {[ 4 := frontend_cb_funcs ]}; nid_seed := 2; tick := 6; ksys := []
|}.

(** The write of the message (the answer number 7) fails: four bytes are left. *)
Lemma send_frame_witness :
  exists h', EasyNet_Send (E := easy_env) 3 (Some [104; 105]) one_net
             = Ok (EASY_NET_ERR_SEND_ERROR, h') /\
    bevs h' = {[ 4 := {| bev_fd := 9; input := []; output := [0; 0; 0; 6] |} ]}.
Proof.
  destruct (send_frame (E := easy_env) one_net 3 _ 4 _ [104; 105] eq_refl eq_refl eq_refl)
    as (h' & E & _ & _ & Hb); [done|by vm_compute|].
  exists h'. split; [exact E|]. rewrite Hb. vm_compute. reflexivity.
Defined.

(** ** New connections *)

Section NewNet.
Context {C : Type} {E : NetEnv C} {EOk : NetEnvOk E}.
Implicit Types (h : Heap C) (p : Z) (n : EasyNet).

(** The numbers in use: those of before and those the seed has given since. *)
Definition evolves (h h' : Heap C) : Prop :=
  nid_seed h <= nid_seed h' /\
  forall p n', nets h' !! p = Some n' ->
    (exists n, nets h !! p = Some n /\ nid_ n = nid_ n') \/ nid_seed h <= nid_ n'.

Lemma evolves_refl h : evolves h h.
Proof using. split; [done|]. eauto. Qed.

Lemma evolves_trans h1 h2 h3 : evolves h1 h2 -> evolves h2 h3 -> evolves h1 h3.
Proof using.
  intros [Hs1 H1] [Hs2 H2]. split; [lia|]. intros p n Hp.
  destruct (H2 p n Hp) as [(m & Hm & Em)|Hle]; [|right; lia].
  destruct (H1 p m Hm) as [(m' & Hm' & Em')|Hle]; [|right; lia].
  left. exists m'. split; [done|congruence].
Qed.

Lemma evolves_update h p n n' :
  nets h !! p = Some n -> nid_ n' = nid_ n -> evolves h (set_nets (<[p := n']> (nets h)) h).
Proof using.
  intros Hp En. split; [cbn; lia|]. intros q m. cbn. destruct (decide (q = p)) as [->|Hq].
  - rewrite lookup_insert_eq. intros [= <-]. eauto.
  - rewrite lookup_insert_ne by done. eauto.
Qed.

Lemma evolves_freed h p n : evolves h (freed p n h).
Proof using.
  split; [cbn; lia|]. intros q m. cbn. intros [_ Hq]%lookup_delete_Some. eauto.
Qed.

Lemma evolves_frame h h' : nets h' = nets h -> nid_seed h' = nid_seed h -> evolves h h'.
Proof using. intros E1 E2. split; [lia|]. rewrite E1. eauto. Qed.

Definition fresh_net (nid : Z) : EasyNet :=
  {| hevent_ := None; net_type_ := 0; uri_ := []; nid_ := nid; state_ := NET_INIT;
     last_active_timestamp_ := 0; prev_pkg_count_ := 0; curr_pkg_count_ := 0;
     prev_traffic_bytes_ := 0; curr_traffic_bytes_ := 0; rpc_binded_ := None;
     user_context_ := None |}.

Lemma EasyNet_new_ok h :
  heap_ok h -> 1 <= nid_seed h < 2147483647 ->
  (exists h', EasyNet_new h = Ok (None, h') /\ heap_ok h' /\ nets h' = nets h /\
     bevs h' = bevs h /\ uctxs h' = uctxs h /\ nid_seed h' = nid_seed h /\ cbs h' = cbs h) \/
  (exists p h', EasyNet_new h = Ok (Some p, h') /\ heap_ok h' /\ nets h !! p = None /\
     nets h' = <[p := fresh_net (nid_seed h)]> (nets h) /\ bevs h' = bevs h /\
     uctxs h' = uctxs h /\ nid_seed h' = nid_seed h + 1 /\ cbs h' = cbs h).
Proof using EOk.
  intros Hh Hs. unfold EasyNet_new, mbind, M_bind, get. cbn [modify].
  destruct (env_new (tick h) (nets h)) as [p|] eqn:En.
  - right. do 2 eexists. split; [reflexivity|]. pose proof (env_new_fresh _ _ _ En) as Hp.
    cbn. rewrite i32_id by lia. split; [|done]. destruct Hh as [H1 H2 H3 H4 H5 H6 H7].
    assert (Hne : forall q m, <[p:=fresh_net (nid_seed h)]> (nets h) !! q = Some m ->
              q = p /\ m = fresh_net (nid_seed h) \/ q <> p /\ nets h !! q = Some m).
    { intros q m. destruct (decide (q = p)) as [->|Hq].
      - rewrite lookup_insert_eq. intros [= <-]. auto.
      - rewrite lookup_insert_ne by done. auto. }
    split; cbn.
    + intros q m b [[-> ->]|[_ Hq]]%Hne; [done|eauto].
    + intros q r m m' b [[-> ->]|[_ Hq]]%Hne [[-> ->]|[_ Hr]]%Hne; [done..|eauto].
    + intros q m b [[-> ->]|[_ Hq]]%Hne; [done|eauto].
    + intros q r m m' b [[-> ->]|[_ Hq]]%Hne [[-> ->]|[_ Hr]]%Hne; [done..|eauto].
    + done.
    + intros q m [[-> ->]|[_ Hq]]%Hne; [cbn; lia|]. apply H6 in Hq. lia.
    + intros q r m m' [[-> ->]|[_ Hq]]%Hne [[-> ->]|[_ Hr]]%Hne; cbn; [done| | |eauto].
      * apply H6 in Hr. lia.
      * apply H6 in Hq. lia.
  - left. eexists. split; [reflexivity|]. split; [by apply (heap_ok_frame h)|]. done.
Qed.

(** A connection gets a bufferevent of its own. *)
Definition linked (p b : Z) (n : EasyNet) (x : Bufferevent) (h : Heap C) : Heap C :=
  set_nets (<[p := n]> (nets h)) (set_bevs (<[b := x]> (bevs h)) h).

Lemma linked_ok h p b n n' x :
  heap_ok h -> nets h !! p = Some n -> hevent_ n' = Some b ->
  user_context_ n' = user_context_ n -> nid_ n' = nid_ n -> bevs h !! b = None ->
  (forall c y, bevs h !! c = Some y -> bev_fd y <> bev_fd x) ->
  heap_ok (linked p b n' x h).
Proof using.
  intros [H1 H2 H3 H4 H5 H6 H7] Hp Hb Hc Hn Hfb Hfd.
  assert (Hne : forall q m, <[p:=n']> (nets h) !! q = Some m ->
            q = p /\ m = n' \/ q <> p /\ nets h !! q = Some m).
  { intros q m. destruct (decide (q = p)) as [->|Hq].
    - rewrite lookup_insert_eq. intros [= <-]. auto.
    - rewrite lookup_insert_ne by done. auto. }
  split; cbn.
  - intros q m c Hq Hm. rewrite lookup_insert_is_Some'.
    apply Hne in Hq as [[-> ->]|[_ Hq]]; [left; congruence|right; eauto].
  - intros q r m m' c [[-> ->]|[_ Hq]]%Hne [[-> ->]|[_ Hr]]%Hne Ec Ec'; [done| | |eauto].
    + destruct (H1 r m' c Hr Ec') as [y Hy]. congruence.
    + destruct (H1 q m c Hq Ec) as [y Hy]. congruence.
  - intros q m c [[-> ->]|[_ Hq]]%Hne Em; [|eauto]. eapply H3; [done|congruence].
  - intros q r m m' c [[-> ->]|[_ Hq]]%Hne [[-> ->]|[_ Hr]]%Hne Ec Ec'; [done| | |eauto].
    + eapply (H4 p r n m' c); congruence.
    + eapply (H4 q p m n c); congruence.
  - intros c d y z Hy Hz Ef Hpos. destruct (decide (c = b)) as [->|Hcb], (decide (d = b)) as [->|Hdb].
    + done.
    + rewrite lookup_insert_eq in Hy. rewrite lookup_insert_ne in Hz by done.
      injection Hy as <-. apply Hfd in Hz. congruence.
    + rewrite lookup_insert_eq in Hz. rewrite lookup_insert_ne in Hy by done.
      injection Hz as <-. apply Hfd in Hy. congruence.
    + rewrite lookup_insert_ne in Hy, Hz by done. eauto.
  - intros q m [[-> ->]|[_ Hq]]%Hne; [rewrite Hn|]; eauto.
  - intros q r m m' [[-> ->]|[_ Hq]]%Hne [[-> ->]|[_ Hr]]%Hne Em; [done| | |eauto].
    + eapply (H7 p r n m'); congruence.
    + eapply (H7 q p m n); congruence.
Qed.

Lemma nodelay_ok h fd :
  exists r t, ksyscalls (tcpsocket_set_nodelay env_kernel fd) h = Ok (r, set_ksys t h).
Proof using.
  unfold ksyscalls, tcpsocket_set_nodelay. destruct (fd <? 0); do 2 eexists; reflexivity.
Qed.

(** The callbacks of the bufferevents that exist stay. *)
Definition keeps_cbs (h h' : Heap C) : Prop :=
  forall b, is_Some (bevs h !! b) -> cbs h' !! b = cbs h !! b.

Lemma keeps_cbs_eq h h' : cbs h' = cbs h -> keeps_cbs h h'.
Proof using. intros E0 b _. by rewrite E0. Qed.

Lemma keeps_cbs_new h h' b : bevs h !! b = None -> cbs h' = delete b (cbs h) -> keeps_cbs h h'.
Proof using.
  intros Hb E0 c [y Hy]. rewrite E0. apply lookup_delete_ne. congruence.
Qed.

(** What a method that links a connection leaves: success with a bufferevent of
    the descriptor, or a failure that changes no object. *)
Definition link_result (st : NetState) (at_fd : bytes -> Z -> Prop) (h : Heap C) (p : Z) (n : EasyNet)
    (r : outcome (Z * Heap C)) : Prop :=
  exists ret h', r = Ok (ret, h') /\ heap_ok h' /\ nid_seed h' = nid_seed h /\
    uctxs h' = uctxs h /\ keeps_cbs h h' /\
    (ret <> 0 /\ nets h' = nets h /\ bevs h' = bevs h \/
     ret = 0 /\ exists b n' x, nets h' = <[p := n']> (nets h) /\
       bevs h' = <[b := x]> (bevs h) /\ bevs h !! b = None /\ hevent_ n' = Some b /\
       nid_ n' = nid_ n /\ 0 <= bev_fd x /\
       (forall c y, bevs h !! c = Some y -> bev_fd y <> bev_fd x) /\
       input x = [] /\ rpc_binded_ n' = rpc_binded_ n /\ user_context_ n' = user_context_ n /\
       state_ n' = st /\ output x = [] /\ at_fd (uri_ n') (bev_fd x)).

Lemma EasyNet_Init_ok h p n sock type eb :
  heap_ok h -> nets h !! p = Some n ->
  (forall c y, bevs h !! c = Some y -> bev_fd y <> sock) ->
  link_result NET_ESTABLISHED (fun _ fd => sock = fd) h p n (EasyNet_Init p sock type eb h).
Proof using EOk.
  intros Hh Hp Hfd. unfold EasyNet_Init, link_result.
  pose proof (keeps_cbs_eq h h eq_refl).
  destruct (Z.ltb_spec sock 0); [exists (-1), h; by auto 10|].
  destruct eb; [|exists (-1), h; by auto 10]. cbn [orb negb].
  destruct (nodelay_ok h sock) as (r0 & t0 & E0). rewrite (bind_step _ _ _ _ _ E0).
  unfold bufferevent_socket_new, mbind, M_bind, get. cbn [modify tick bevs set_ksys set_tick].
  destruct (env_bev (tick h) (bevs h)) as [b|] eqn:Eb.
  - pose proof (env_bev_fresh _ _ _ Eb) as Hb. cbn.
    erewrite upd_net_ok by (cbn; exact Hp). do 2 eexists. split; [reflexivity|].
    set (x := {| bev_fd := sock; input := []; output := [] |}).
    split; [|split; [done|split; [done|split; [|right; split; [done|]]]]].
    + eapply (heap_ok_frame (linked p b (set_link b type NET_ESTABLISHED n) x h)); [done..|].
      by apply (linked_ok h p b n).
    + by apply (keeps_cbs_new _ _ b).
    + exists b, (set_link b type NET_ESTABLISHED n), x. by repeat split.
  - do 2 eexists. split; [reflexivity|]. split; [by apply (heap_ok_frame h)|].
    split; [done|]. split; [done|]. split; [by apply keeps_cbs_eq|]. by auto.
Qed.

Lemma bufferevent_socket_new_ok h fd :
  exists h', nets h' = nets h /\ uctxs h' = uctxs h /\ nid_seed h' = nid_seed h /\ keeps_cbs h h' /\
    ((bufferevent_socket_new fd h = Ok (None, h') /\ bevs h' = bevs h) \/
     exists b, bufferevent_socket_new fd h = Ok (Some b, h') /\ bevs h !! b = None /\
       bevs h' = <[b := {| bev_fd := fd; input := []; output := [] |}]> (bevs h)).
Proof using EOk.
  unfold bufferevent_socket_new, mbind, M_bind, get. cbn [modify].
  destruct (env_bev (tick h) (bevs h)) as [b|] eqn:Eb.
  - pose proof (env_bev_fresh _ _ _ Eb) as Hb. eexists (set_cbs _ (set_bevs _ (set_tick _ h))).
    split; [reflexivity|]. split; [reflexivity|]. split; [reflexivity|].
    split; [by apply (keeps_cbs_new _ _ b)|]. right. exists b. split; [reflexivity|]. done.
  - exists (set_tick (S (tick h)) h). pose proof (keeps_cbs_eq h (set_tick (S (tick h)) h) eq_refl).
    auto 10.
Qed.

Lemma socket_connect_ok h b x sa :
  bevs h !! b = Some x ->
  exists h', nets h' = nets h /\ uctxs h' = uctxs h /\ nid_seed h' = nid_seed h /\ cbs h' = cbs h /\
    ((bufferevent_socket_connect b sa h = Ok (-1, h') /\ bevs h' = bevs h) \/
     exists fd, bufferevent_socket_connect b sa h = Ok (0, h') /\ 0 <= fd /\
       (forall c y, bevs h !! c = Some y -> bev_fd y <> fd) /\
       bevs h' = <[b := {| bev_fd := fd; input := input x; output := output x |}]> (bevs h)).
Proof using EOk.
  intros Hx.
  assert (E0 : bufferevent_socket_connect b sa h
    = match env_connect (tick h) (bevs h) sa with
      | None => Ok (-1, set_tick (S (tick h)) h)
      | Some fd => Ok (0, set_bevs (<[b := {| bev_fd := fd; input := input x;
                                              output := output x |}]> (bevs h))
                            (set_tick (S (tick h)) h))
      end).
  { unfold bufferevent_socket_connect, mbind, M_bind. rewrite (load_bev_ok h b x Hx).
    unfold get. cbn [modify]. by destruct (env_connect _ _ _). }
  rewrite E0. destruct (env_connect (tick h) (bevs h) sa) as [fd|] eqn:Ec.
  - eexists (set_bevs _ (set_tick _ h)). split; [reflexivity|]. split; [reflexivity|].
    split; [reflexivity|]. split; [reflexivity|]. right. exists fd. split; [reflexivity|].
    split; [by apply (env_connect_fresh _ _ _ _ _ _ Ec Hx)|].
    split; [|done]. intros c y Hy. by apply (env_connect_fresh _ _ _ _ _ _ Ec Hy).
  - exists (set_tick (S (tick h)) h). auto 10.
Qed.

Lemma EasyNet_Connect_ok h p n uri type eb :
  heap_ok h -> nets h !! p = Some n ->
  (forall u, exists r, tcpsocket_str2sockin env_kernel (Some u) = Ok r) ->
  link_result NET_CONNECTING (fun u _ => uri = Some u) h p n (EasyNet_Connect p uri type eb h).
Proof using EOk.
  intros Hh Hp Huri. unfold EasyNet_Connect.
  assert (Hfail : link_result NET_CONNECTING (fun u _ => uri = Some u) h p n (Ok (-1, h)))
    by (pose proof (keeps_cbs_eq h h eq_refl); exists (-1), h; by auto 10).
  destruct uri as [uri|]; [|exact Hfail]. destruct eb; [|exact Hfail]. cbn [negb].
  destruct (MAX_URL_LEN <=? strlen uri); [exact Hfail|].
  destruct (Huri uri) as [sa Esa]. rewrite (bind_step _ _ h sa h) by (unfold lift; by rewrite Esa).
  destruct sa as [sa|]; [|exact Hfail].
  destruct (bufferevent_socket_new_ok h (-1))
    as (h1 & En1 & Eu1 & Es1 & Hk1 & [[E1 Eb1]|(b & E1 & Hb & Eb1)]).
  { rewrite (bind_step _ _ _ _ _ E1). exists (-1), h1. split; [done|].
    split; [by apply (heap_ok_frame h)|]. split; [done|]. split; [done|]. split; [done|]. by left. }
  rewrite (bind_step _ _ _ _ _ E1).
  set (x := {| bev_fd := -1; input := []; output := [] |}) in *.
  assert (Hx1 : bevs h1 !! b = Some x) by (rewrite Eb1; apply lookup_insert_eq).
  rewrite (bind_step _ _ _ _ _ (getfd_ok h1 b x Hx1)).
  destruct (nodelay_ok h1 (bev_fd x)) as (r2 & t2 & E2). rewrite (bind_step _ _ _ _ _ E2).
  destruct (socket_connect_ok (set_ksys t2 h1) b x sa Hx1)
    as (h3 & En3 & Eu3 & Es3 & Ek3 & [[E3 Eb3]|(fd & E3 & Hfd & Hnew & Eb3)]);
    rewrite (bind_step _ _ _ _ _ E3); cbn [Z.eqb negb]; cbn in *.
  - assert (Hx3 : bevs h3 !! b = Some x) by congruence.
    unfold bufferevent_free, mbind, M_bind. rewrite (load_bev_ok h3 b x Hx3). cbn.
    assert (Eb4 : delete b (bevs h3) = bevs h)
      by (rewrite Eb3, Eb1, delete_insert_id; done).
    do 2 eexists. split; [reflexivity|]. cbn.
    split; [|split; [congruence|split; [congruence|split]]].
    + apply (heap_ok_frame h); cbn; congruence.
    + intros c Hc. cbn. rewrite Ek3. by apply Hk1.
    + left. split; [done|]. split; [congruence|done].
  - rewrite En1 in En3. rewrite Eb1, insert_insert_eq in Eb3.
    assert (Hnew' : forall c y, bevs h !! c = Some y -> bev_fd y <> fd).
    { intros c y Hy. apply (Hnew c). rewrite Eb1, lookup_insert_ne; [done|congruence]. }
    set (x3 := {| bev_fd := fd; input := []; output := [] |}) in *.
    rewrite (bind_step _ _ _ _ _ (upd_net_ok h3 p n _ (eq_trans (f_equal (lookup p) En3) Hp))).
    erewrite bind_step by (apply upd_net_ok; cbn; apply lookup_insert_eq).
    set (n3 := set_uri uri (set_link b type NET_CONNECTING n)).
    exists 0. eexists. split; [reflexivity|]. cbn. rewrite insert_insert_eq.
    split; [|split; [congruence|split; [congruence|split; [|right; split; [done|]]]]].
    + apply (heap_ok_frame (linked p b n3 x3 h)); cbn; try congruence.
      by apply (linked_ok h p b n).
    + intros c Hc. cbn. rewrite Ek3. by apply Hk1.
    + exists b, n3, x3. rewrite En3. by repeat split.
Qed.
End NewNet.
