(* ===== verification/NetMgr.v ===== *)
(** * The connection table: framework/rapidapp_net_mgr.h and .cpp

    [NetHandlerMgr] maps descriptors to connections in a hash table, which it also
    walks through with a cursor kept between calls.  The order of the table and
    the rehashes are choices of the hash table ([HashOrder]). *)
From Stdlib Require Import ZArith Lia.
From stdpp Require Import base list gmap fin_maps.
From S2P Require Import Prelude CLib TcpSocket EasyNet.
Local Open Scope Z_scope.

(** ** Data *)

(** An iterator of the table: behind the last element, at the element of a key,
    or invalidated by a rehash. *)
Inductive cursor : Set := AtEnd | At (fd : Z) | Invalid.

#[export] Instance cursor_eq_dec : EqDecision cursor.
Proof. solve_decision. Defined.

(** [HandlerPool], src/framework/rapidapp_net_mgr.h:27-27

    The elements in the order of iteration. *)
Definition HandlerPool : Type := list (Z * option Z).

(** [RapBuffer], src/framework/rapidapp_net_mgr.h:22-25 *)
Record RapBuffer : Set := { buffer : option bytes; size : Z }.

(** [NetHandlerMgr], src/framework/rapidapp_net_mgr.h:57-60 *)
Record NetHandlerMgr : Type := {
  handler_pool_ : HandlerPool;
  recv_buffer_ : RapBuffer;
  it_cursor_ : cursor
}.

(** [IWalkEach], src/framework/rapidapp_net_mgr.h:12-20

    [DoSomething] of a connection: the result and the changed connection. *)
Class IWalkEach : Type := DoSomething : EasyNet -> Z * EasyNet.

(** Where the table puts a new key, and whether the insertion rehashes. *)
Class HashOrder : Type := place : nat -> HandlerPool -> Z * option Z -> HandlerPool * bool.

(** An insertion adds the element; without a rehash the others keep their order. *)
Class HashOrderOk (H : HashOrder) : Prop := {
  place_perm n l x : fst (place n l x) ≡ₚ x :: l;
  place_order n l x :
    snd (place n l x) = false -> exists l1 l2, l = l1 ++ l2 /\ fst (place n l x) = l1 ++ x :: l2
}.

Definition kDefaultUpSize : Z := 1024 * 1024.
Definition kSingleRoundLoopNum : nat := 1024.

(** The heap and the table of one manager. *)
Record NetSt (C : Type) : Type := NetS { hp : Heap C; mgr : NetHandlerMgr }.
Arguments NetS {C}. Arguments hp {C}. Arguments mgr {C}.

Definition set_pool (l : HandlerPool) (m : NetHandlerMgr) : NetHandlerMgr :=
  {| handler_pool_ := l; recv_buffer_ := recv_buffer_ m; it_cursor_ := it_cursor_ m |}.
Definition set_recv (b : RapBuffer) (m : NetHandlerMgr) : NetHandlerMgr :=
  {| handler_pool_ := handler_pool_ m; recv_buffer_ := b; it_cursor_ := it_cursor_ m |}.
Definition set_cursor (c : cursor) (m : NetHandlerMgr) : NetHandlerMgr :=
  {| handler_pool_ := handler_pool_ m; recv_buffer_ := recv_buffer_ m; it_cursor_ := c |}.

(** ** The hash table *)

Fixpoint pool_find (l : HandlerPool) (fd : Z) : option (option Z) :=
  match l with
  | [] => None
  | (k, v) :: r => if k =? fd then Some v else pool_find r fd
  end.

Fixpoint pool_erase (l : HandlerPool) (fd : Z) : HandlerPool :=
  match l with
  | [] => []
  | (k, v) :: r => if k =? fd then r else (k, v) :: pool_erase r fd
  end.

Fixpoint pool_set (l : HandlerPool) (fd : Z) (v : option Z) : HandlerPool :=
  match l with
  | [] => []
  | (k, w) :: r => if k =? fd then (k, v) :: r else (k, w) :: pool_set r fd v
  end.

Definition pool_begin (l : HandlerPool) : cursor :=
  match l with [] => AtEnd | (k, _) :: _ => At k end.

(** The iterator behind the element of [fd]. *)
Fixpoint pool_next (l : HandlerPool) (fd : Z) : cursor :=
  match l with
  | [] => Invalid
  | (k, _) :: r => if k =? fd then pool_begin r else pool_next r fd
  end.

(** ** Methods *)

Section Methods.
Context {C : Type} {E : NetEnv C} {HO : HashOrder}.

Definition on_heap {A} (m : M (Heap C) A) : M (NetSt C) A := fun s =>
  '(a, h) ← m (hp s); Ok (a, NetS h (mgr s)).
Definition upd_mgr (f : NetHandlerMgr -> NetHandlerMgr) : M (NetSt C) unit :=
  modify (fun s => NetS (hp s) (f (mgr s))).

(** [NetHandlerMgr::NetHandlerMgr], src/framework/rapidapp_net_mgr.cpp:12-16

    The cursor is not initialised. *)
Definition NetHandlerMgr_new : NetHandlerMgr :=
  {| handler_pool_ := []; recv_buffer_ := {| buffer := None; size := 0 |};
     it_cursor_ := Invalid |}.

(** [NetHandlerMgr::Init], src/framework/rapidapp_net_mgr.cpp:21-39

    [ok] tells whether [calloc] succeeds. *)
Definition NetHandlerMgr_Init (ok : bool) (recv_buff_size : Z) : M (NetSt C) Z :=
  let recv_buff_size := if recv_buff_size =? 0 then kDefaultUpSize else recv_buff_size in
  if negb ok then
    s ← get;
    _ ← upd_mgr (set_recv {| buffer := None; size := size (recv_buffer_ (mgr s)) |});
    mret (-1)
  else
    _ ← upd_mgr (set_recv {| buffer := Some (replicate (Z.to_nat recv_buff_size) 0);
                             size := recv_buff_size |});
    s ← get;
    _ ← upd_mgr (set_cursor (pool_begin (handler_pool_ (mgr s))));
    mret 0.

(** The loop of [CleanUp]. *)
Fixpoint cleanup_nets (l : HandlerPool) : M (NetSt C) unit :=
  match l with
  | [] => mret tt
  | (_, second) :: r =>
      _ ← (match second with
           | None => mret tt
           | Some net => _ ← on_heap (EasyNet_CleanUp net); on_heap (delete_net net)
           end);
      cleanup_nets r
  end.

(** [NetHandlerMgr::CleanUp], src/framework/rapidapp_net_mgr.cpp:41-64 *)
Definition NetHandlerMgr_CleanUp : M (NetSt C) unit :=
  s ← get;
  _ ← cleanup_nets (handler_pool_ (mgr s));
  _ ← upd_mgr (set_pool []);
  match buffer (recv_buffer_ (mgr s)) with
  | None => mret tt
  | Some _ => upd_mgr (set_recv {| buffer := None; size := 0 |})
  end.

(** [handler_pool_[fd] = net] *)
Definition pool_assign (fd : Z) (net : Z) : M (NetSt C) unit :=
  s ← get;
  let l := handler_pool_ (mgr s) in
  match pool_find l fd with
  | Some _ => upd_mgr (set_pool (pool_set l fd (Some net)))
  | None =>
      let '(l', rehash) := place (tick (hp s)) l (fd, Some net) in
      _ ← on_heap (modify (set_tick (S (tick (hp s)))));
      _ ← upd_mgr (set_pool l');
      if (rehash : bool) then upd_mgr (set_cursor Invalid) else mret tt
  end.

(** [NetHandlerMgr::AddHandlerToMap], src/framework/rapidapp_net_mgr.cpp:124-143 *)
Definition AddHandlerToMap (easy_net_handler : option Z) : M (NetSt C) Z :=
  match easy_net_handler with
  | None => mret (-1)
  | Some p =>
      n ← on_heap (load_net p);
      match hevent_ n with
      | None => mret (-1)
      | Some b =>
          fd ← on_heap (bufferevent_getfd b);
          _ ← pool_assign fd p;
          mret 0
      end
  end.

(** [NetHandlerMgr::AddHandlerByUri], src/framework/rapidapp_net_mgr.cpp:66-93 *)
Definition AddHandlerByUri (uri : option bytes) (type : Z) (event_base : bool)
    : M (NetSt C) (option Z) :=
  if bool_decide (uri = None) || negb event_base then mret None
  else
    easy_net_handler ← on_heap EasyNet_new;
    match easy_net_handler with
    | None => mret None
    | Some p =>
        ret ← on_heap (EasyNet_Connect p uri type event_base);
        if negb (ret =? 0) then _ ← on_heap (delete_net p); mret None
        else
          _ ← AddHandlerToMap (Some p);
          mret (Some p)
    end.

(** [NetHandlerMgr::AddHandlerBySocket], src/framework/rapidapp_net_mgr.cpp:95-122 *)
Definition AddHandlerBySocket (sock_fd type : Z) (event_base : bool)
    : M (NetSt C) (option Z) :=
  if sock_fd <? 0 then mret None
  else
    easy_net_handler ← on_heap EasyNet_new;
    match easy_net_handler with
    | None => mret None
    | Some p =>
        ret ← on_heap (EasyNet_Init p sock_fd type event_base);
        if negb (ret =? 0) then _ ← on_heap (delete_net p); mret None
        else
          _ ← AddHandlerToMap (Some p);
          mret (Some p)
    end.

(** [NetHandlerMgr::ChangeNetStateByEvent], src/framework/rapidapp_net_mgr.cpp:160-184 *)
Definition ChangeNetStateByEvent (event : option Z) (state : NetState) : M (NetSt C) Z :=
  match event with
  | None => mret (-1)
  | Some b =>
      fd ← on_heap (bufferevent_getfd b);
      s ← get;
      _ ← (match pool_find (handler_pool_ (mgr s)) fd with
           | Some (Some p) => on_heap (upd_net p (set_net_state state))
           | Some None | None => mret tt
           end);
      mret 0
  end.

(** What is done to a connection that is taken out of the table. *)
Definition destroy_net (p : Z) : M (NetSt C) unit :=
  _ ← on_heap (DestroyUserContext p);
  _ ← on_heap (EasyNet_CleanUp p);
  on_heap (delete_net p).

(** [it == it_cursor_]: comparing with an invalid iterator is a fault. *)
Definition cursor_at (c : cursor) (fd : Z) : outcome bool :=
  match c with
  | AtEnd => Ok false
  | At k => Ok (k =? fd)
  | Invalid => Fault UseAfterFree
  end.

(** [NetHandlerMgr::RemoveHandlerByEvent], src/framework/rapidapp_net_mgr.cpp:186-220 *)
Definition RemoveHandlerByEvent (event : option Z) : M (NetSt C) Z :=
  match event with
  | None => mret (-1)
  | Some b =>
      fd ← on_heap (bufferevent_getfd b);
      s ← get;
      _ ← (match pool_find (handler_pool_ (mgr s)) fd with
           | Some it_second =>
               _ ← (match it_second with Some p => destroy_net p | None => mret tt end);
               s ← get;
               eq ← lift (cursor_at (it_cursor_ (mgr s)) fd);
               _ ← (if (eq : bool)
                    then upd_mgr (set_cursor (pool_next (handler_pool_ (mgr s)) fd))
                    else mret tt);
               upd_mgr (set_pool (pool_erase (handler_pool_ (mgr s)) fd))
           | None => mret tt
           end);
      mret 0
  end.

(** [NetHandlerMgr::RemoveHandler], src/framework/rapidapp_net_mgr.cpp:145-154 *)
Definition RemoveHandler (easy_net_handler : option Z) : M (NetSt C) Z :=
  match easy_net_handler with
  | None => mret (-1)
  | Some p => n ← on_heap (load_net p); RemoveHandlerByEvent (hevent_ n)
  end.

(** [NetHandlerMgr::GetHandlerByEvent], src/framework/rapidapp_net_mgr.cpp:222-240 *)
Definition GetHandlerByEvent (event : option Z) : M (NetSt C) (option Z) :=
  match event with
  | None => mret None
  | Some b =>
      fd ← on_heap (bufferevent_getfd b);
      s ← get;
      mret (match pool_find (handler_pool_ (mgr s)) fd with
            | Some second => second
            | None => None
            end)
  end.

(** [NetHandlerMgr::GetHandlerByAsyncIds], src/framework/rapidapp_net_mgr.cpp:246-258

    [fd] is a [uint32_t] used as an [int] key, [nid] a [uint64_t] compared with
    the [int] of the connection. *)
Definition GetHandlerByAsyncIds (fd nid : Z) : M (NetSt C) (option Z) :=
  s ← get;
  match pool_find (handler_pool_ (mgr s)) (i32 fd) with
  | Some (Some p) =>
      n ← on_heap (load_net p);
      if nid =? u64 (nid_ n) then mret (Some p) else mret None
  | Some None | None => mret None
  end.

(** The loop of [WalkThrough], with the rounds left. *)
Fixpoint walk_loop (act : IWalkEach) (i : nat) : M (NetSt C) unit :=
  match i with
  | O => mret tt
  | S i' =>
      s ← get;
      match it_cursor_ (mgr s) with
      | Invalid => fail UseAfterFree
      | AtEnd => mret tt
      | At fd =>
          let l := handler_pool_ (mgr s) in
          match pool_find l fd with
          | None => fail UseAfterFree
          | Some net =>
              erase ← (match net with
                       | None => mret false
                       | Some p =>
                           n ← on_heap (load_net p);
                           let '(r, n') := act n in
                           _ ← on_heap (upd_net p (fun _ => n'));
                           mret (negb (r =? 0))
                       end);
              _ ← (if (erase : bool) then
                     _ ← (match net with Some p => destroy_net p | None => mret tt end);
                     _ ← upd_mgr (set_cursor (pool_next l fd));
                     upd_mgr (set_pool (pool_erase l fd))
                   else upd_mgr (set_cursor (pool_next l fd)));
              walk_loop act i'
          end
      end
  end.

(** [NetHandlerMgr::WalkThrough], src/framework/rapidapp_net_mgr.cpp:261-296 *)
Definition WalkThrough (act : option IWalkEach) : M (NetSt C) unit :=
  match act with
  | None => mret tt
  | Some act =>
      _ ← walk_loop act kSingleRoundLoopNum;
      s ← get;
      match it_cursor_ (mgr s) with
      | Invalid => fail UseAfterFree
      | AtEnd => upd_mgr (set_cursor (pool_begin (handler_pool_ (mgr s))))
      | At _ => mret tt
      end
  end.

End Methods.

(** ** The table as a list *)

Definition keys (l : HandlerPool) : list Z := fst <$> l.

Lemma pool_find_elem l fd v :
  NoDup (keys l) -> (pool_find l fd = Some v <-> (fd, v) ∈ l).
Proof.
  induction l as [|[k w] l IH]; cbn; intros Hnd.
  - split; [done|]. by intros ?%not_elem_of_nil.
  - apply NoDup_cons in Hnd as [Hk Hnd]. rewrite elem_of_cons.
    destruct (Z.eqb_spec k fd) as [->|Hne].
    + split; [intros [= ->]; by left|]. intros [[= ->]|Hin]; [done|].
      exfalso. apply Hk. change fd with (fst (fd, v)). by apply list_elem_of_fmap_2.
    + rewrite IH by done. split; [by right|]. intros [[= -> _]|?]; done.
Qed.

Lemma pool_find_None l fd : pool_find l fd = None <-> fd ∉ keys l.
Proof.
  induction l as [|[k w] l IH]; cbn.
  { split; [intros _; apply not_elem_of_nil|done]. }
  rewrite not_elem_of_cons. destruct (Z.eqb_spec k fd) as [->|Hne]; [split; [done|]; tauto|].
  rewrite IH. split; [intros; split; [congruence|done]|tauto].
Qed.

Lemma pool_find_middle l1 fd v l2 :
  fd ∉ keys l1 -> pool_find (l1 ++ (fd, v) :: l2) fd = Some v.
Proof.
  induction l1 as [|[k w] l1 IH]; cbn; [by rewrite Z.eqb_refl|].
  rewrite not_elem_of_cons. intros [Hk Hl]. destruct (Z.eqb_spec k fd); [congruence|auto].
Qed.

Lemma pool_erase_middle l1 fd v l2 :
  fd ∉ keys l1 -> pool_erase (l1 ++ (fd, v) :: l2) fd = l1 ++ l2.
Proof.
  induction l1 as [|[k w] l1 IH]; cbn; [by rewrite Z.eqb_refl|].
  rewrite not_elem_of_cons. intros [Hk Hl]. destruct (Z.eqb_spec k fd); [congruence|].
  by rewrite IH.
Qed.

Lemma pool_next_middle l1 fd v l2 :
  fd ∉ keys l1 -> pool_next (l1 ++ (fd, v) :: l2) fd = pool_begin l2.
Proof.
  induction l1 as [|[k w] l1 IH]; cbn; [by rewrite Z.eqb_refl|].
  rewrite not_elem_of_cons. intros [Hk Hl]. destruct (Z.eqb_spec k fd); [congruence|auto].
Qed.

Lemma pool_set_middle l1 fd v w l2 :
  fd ∉ keys l1 -> pool_set (l1 ++ (fd, v) :: l2) fd w = l1 ++ (fd, w) :: l2.
Proof.
  induction l1 as [|[k u] l1 IH]; cbn; [by rewrite Z.eqb_refl|].
  rewrite not_elem_of_cons. intros [Hk Hl]. destruct (Z.eqb_spec k fd); [congruence|].
  by rewrite IH.
Qed.

Lemma pool_split l fd v :
  NoDup (keys l) -> (fd, v) ∈ l ->
  exists l1 l2, l = l1 ++ (fd, v) :: l2 /\ (fd ∉ keys l1) /\ (fd ∉ keys l2) /\
    NoDup (keys (l1 ++ l2)).
Proof.
  intros Hnd (l1 & l2 & ->)%list_elem_of_split. exists l1, l2. unfold keys in *.
  rewrite fmap_app, fmap_cons, <- Permutation_middle in Hnd. cbn in Hnd.
  apply NoDup_cons in Hnd as [Hfd Hnd]. rewrite elem_of_app in Hfd.
  rewrite fmap_app. tauto.
Qed.

(** ** Well-formed tables *)

(** An element holds a live connection whose bufferevent has the key as its
    descriptor. *)
Definition entry_ok {C} (h : Heap C) (e : Z * option Z) : Prop :=
  exists p n b x, snd e = Some p /\ nets h !! p = Some n /\ hevent_ n = Some b /\
    bevs h !! b = Some x /\ bev_fd x = fst e /\ 0 <= fst e.

Definition cursor_ok (l : HandlerPool) (c : cursor) : Prop :=
  match c with AtEnd | Invalid => True | At fd => fd ∈ keys l end.

Record mgr_ok {C} (s : NetSt C) : Prop := {
  mo_heap : heap_ok (hp s);
  mo_keys : NoDup (keys (handler_pool_ (mgr s)));
  mo_entries : Forall (entry_ok (hp s)) (handler_pool_ (mgr s));
  mo_cursor : cursor_ok (handler_pool_ (mgr s)) (it_cursor_ (mgr s))
}.

Lemma cursor_ok_begin l1 l2 : cursor_ok (l1 ++ l2) (pool_begin l2).
Proof.
  destruct l2 as [|[k w] l2]; cbn; [done|]. unfold keys. rewrite fmap_app, elem_of_app.
  right. cbn. by constructor.
Qed.

(** Connections in the table are told apart by their keys. *)
Lemma entry_inj {C} (h : Heap C) k1 k2 p :
  entry_ok h (k1, Some p) -> entry_ok h (k2, Some p) -> k1 = k2.
Proof.
  intros (p1 & n1 & b1 & x1 & E1 & En1 & Eb1 & Ex1 & Ef1 & _)
         (p2 & n2 & b2 & x2 & E2 & En2 & Eb2 & Ex2 & Ef2 & _). cbn in *. congruence.
Qed.

Lemma entry_ok_update {C} (h : Heap C) p n n' e :
  nets h !! p = Some n -> same_identity n n' -> entry_ok h e ->
  entry_ok (set_nets (<[p := n']> (nets h)) h) e.
Proof.
  intros Hp (Eb & _) (q & m & b & x & E & Hq & Hb & Hx & Hr). exists q. cbn.
  destruct (decide (q = p)) as [->|Hqp].
  - exists n', b, x. rewrite lookup_insert_eq. split; [done|]. split; [done|].
    split; [congruence|done].
  - exists m, b, x. by rewrite lookup_insert_ne.
Qed.

(** Freeing a connection does not touch the elements of the others. *)
Lemma entry_ok_freed {C} (h : Heap C) k p n e :
  heap_ok h -> entry_ok h (k, Some p) -> nets h !! p = Some n -> fst e <> k ->
  entry_ok h e -> entry_ok (freed p n h) e.
Proof.
  intros Hh (p' & n' & b' & x' & Ep & En & Eb & Ex & Ef & _) Hp Hk
         (q & m & b & x & E & Hq & Hb & Hx & Hf & Hpos). cbn in *.
  assert (Hqp : q <> p) by (intros ->; congruence).
  exists q, m, b, x. cbn. rewrite lookup_delete_ne by done. repeat (split; [done|]).
  split; [|done]. destruct (hevent_ n) as [b0|] eqn:E0; [|done].
  rewrite lookup_delete_ne; [done|]. intros ->. congruence.
Qed.

Lemma entry_ok_frame {C} (h h' : Heap C) e :
  nets h' = nets h -> bevs h' = bevs h -> entry_ok h e -> entry_ok h' e.
Proof. intros E1 E2. unfold entry_ok. by rewrite E1, E2. Qed.

Lemma mgr_ok_frame {C} (h h' : Heap C) m :
  nets h' = nets h -> bevs h' = bevs h -> uctxs h' = uctxs h -> nid_seed h' = nid_seed h ->
  mgr_ok (NetS h m) -> mgr_ok (NetS h' m).
Proof.
  intros E1 E2 E3 E4 [Hh Hnd Hen Hcu]. split; cbn in *; [by apply (heap_ok_frame h)|done| |done].
  eapply Forall_impl; [exact Hen|]. intros e. by apply entry_ok_frame.
Qed.

Section MgrLemmas.
Context {C : Type} {E : NetEnv C} {HO : HashOrder}.
Implicit Types (s : NetSt C).

Lemma on_heap_ok {A} (m : M (Heap C) A) s a h :
  m (hp s) = Ok (a, h) -> on_heap m s = Ok (a, NetS h (mgr s)).
Proof. intros H. unfold on_heap. by rewrite H. Qed.

Lemma destroy_net_ok s k p n :
  heap_ok (hp s) -> entry_ok (hp s) (k, Some p) -> nets (hp s) !! p = Some n ->
  destroy_net p s = Ok (tt, NetS (freed p n (hp s)) (mgr s)).
Proof.
  intros Hh (p' & n' & b & x & Ep & En & Eb & Ex & _) Hp. cbn in *.
  injection Ep as <-. rewrite Hp in En. injection En as <-.
  unfold destroy_net, mbind, M_bind.
  rewrite (on_heap_ok _ s _ _ (DestroyUserContext_ok (hp s) p n Hh Hp)).
  set (h1 := match user_context_ n with None => _ | Some _ => _ end).
  assert (exists n1, nets h1 !! p = Some n1 /\ hevent_ n1 = Some b /\
            bevs h1 = bevs (hp s) /\ uctxs h1 = uctxs (freed p n (hp s)) /\
            delete p (nets h1) = delete p (nets (hp s)) /\
            nid_seed h1 = nid_seed (hp s) /\ tick h1 = tick (hp s) /\
            ksys h1 = ksys (hp s) /\ cbs h1 = cbs (hp s))
    as (n1 & H1 & H2 & H3 & H4 & H5 & H6 & H7 & H8 & H9).
  { unfold h1, freed. cbn. destruct (user_context_ n).
    - eexists. cbn. rewrite lookup_insert_eq, delete_insert_eq. done.
    - by exists n. }
  rewrite (on_heap_ok _ (NetS h1 (mgr s)) _ _ (EasyNet_CleanUp_ok h1 p n1 b H1 H2
             (mk_is_Some _ _ (eq_trans (f_equal (fun m => m !! b) H3) Ex)))).
  erewrite on_heap_ok; [|apply (delete_net_ok _ p (set_hevent None n1)); cbn; apply lookup_insert_eq].
  cbn. f_equal. f_equal. unfold freed, set_nets, set_bevs. cbn. rewrite Eb.
  rewrite delete_insert_eq, H3, H4, H5, H6, H7, H8, H9. done.
Qed.

(** ** Walking through *)

(** The heap after some elements have been visited. *)
Fixpoint walked (act : IWalkEach) (l : HandlerPool) (h : Heap C) : Heap C :=
  match l with
  | [] => h
  | (_, v) :: r =>
      walked act r
        (match v with
         | None => h
         | Some p =>
             match nets h !! p with
             | None => h
             | Some n =>
                 let '(r, n') := act n in
                 let h' := set_nets (<[p := n']> (nets h)) h in
                 if r =? 0 then h' else freed p n' h'
             end
         end)
  end.

(** The element stays: [DoSomething] returns 0. *)
Definition keeps (act : IWalkEach) (h : Heap C) (e : Z * option Z) : bool :=
  match snd e with
  | None => true
  | Some p => match nets h !! p with Some n => fst (act n) =? 0 | None => true end
  end.

Definition walked_mgr (act : IWalkEach) (h : Heap C) (m : NetHandlerMgr) (i : nat)
    (l1 l2 : HandlerPool) : NetHandlerMgr :=
  {| handler_pool_ := l1 ++ List.filter (keeps act h) (take i l2) ++ drop i l2;
     recv_buffer_ := recv_buffer_ m; it_cursor_ := pool_begin (drop i l2) |}.

Lemma entry_lookup_ne (h : Heap C) k p e :
  entry_ok h (k, Some p) -> entry_ok h e -> fst e <> k -> snd e <> Some p.
Proof using.
  intros Hk He Hne Hp. destruct e as [k' v]. cbn in *. subst v. by apply Hne, (entry_inj h k' k p).
Qed.

(** Elements with other keys are not changed by a visit. *)
Lemma keeps_other act (h h' : Heap C) k p e :
  entry_ok h (k, Some p) -> entry_ok h e -> fst e <> k ->
  (forall q, q <> p -> nets h' !! q = nets h !! q) ->
  keeps act h' e = keeps act h e.
Proof using.
  intros Hk He Hne Hh. pose proof (entry_lookup_ne h k p e Hk He Hne) as Hp.
  unfold keeps. destruct (snd e) as [q|]; [|done]. rewrite Hh by congruence. done.
Qed.

(** One round: the visited element is kept with its new fields or freed. *)
Lemma walk_round act s l1 fd p n r :
  (forall n, same_identity n (snd (act n))) -> mgr_ok s ->
  handler_pool_ (mgr s) = l1 ++ (fd, Some p) :: r -> it_cursor_ (mgr s) = At fd ->
  nets (hp s) !! p = Some n ->
  let h' := set_nets (<[p := snd (act n)]> (nets (hp s))) (hp s) in
  let s' := if fst (act n) =? 0
            then NetS h' (set_cursor (pool_begin r) (mgr s))
            else NetS (freed p (snd (act n)) h')
                   {| handler_pool_ := l1 ++ r; recv_buffer_ := recv_buffer_ (mgr s);
                      it_cursor_ := pool_begin r |} in
  (forall i, walk_loop act (S i) s = walk_loop act i s') /\ mgr_ok s'.
Proof using.
  intros Hact [Hh Hnd Hen Hcu] Hl Hc Hn h' s'. rewrite Hl in Hnd, Hen.
  assert (Hk : (fd ∉ keys l1) /\ (fd ∉ keys r) /\ NoDup (keys (l1 ++ r))).
  { unfold keys in *. rewrite fmap_app, fmap_cons, <- Permutation_middle in Hnd. cbn in Hnd.
    apply NoDup_cons in Hnd as [Hfd Hnd]. rewrite elem_of_app in Hfd. rewrite fmap_app. tauto. }
  destruct Hk as (Hk1 & Hk2 & Hnd').
  assert (He : entry_ok (hp s) (fd, Some p)).
  { eapply Forall_forall in Hen; [exact Hen|]. apply elem_of_app. right. by constructor. }
  assert (Hn' : nets h' !! p = Some (snd (act n))) by apply lookup_insert_eq.
  assert (Hh' : heap_ok h') by (by apply (heap_ok_update _ p n)).
  assert (Hen' : Forall (entry_ok h') (l1 ++ (fd, Some p) :: r)).
  { eapply Forall_impl; [exact Hen|]. intros e. by apply entry_ok_update with n. }
  assert (He' : entry_ok h' (fd, Some p)) by (by apply entry_ok_update with n).
  split.
  - intros i. cbn [walk_loop]. unfold mbind at 1, M_bind at 1, get. rewrite Hc, Hl.
    rewrite pool_find_middle by done.
    unfold mbind at 1, M_bind at 1. unfold mbind at 1, M_bind at 1.
    rewrite (on_heap_ok _ s _ _ (load_net_ok (hp s) p n Hn)). destruct s as [h m]. cbn [hp mgr] in *.
    subst s'. destruct (act n) as [ret n'] eqn:Ea. cbn [fst snd] in *.
    unfold mbind at 1, M_bind at 1. rewrite (on_heap_ok _ (NetS h m) _ _ (upd_net_ok h p n (fun _ => n') Hn)).
    cbn [mret M_ret]. cbn [mgr]. destruct (ret =? 0); cbn [negb].
    + unfold mbind, M_bind. cbn. by rewrite pool_next_middle.
    + unfold mbind at 1, M_bind at 1. unfold mbind at 1, M_bind at 1.
      fold h'. rewrite (destroy_net_ok (NetS h' m) fd p n' Hh'); [|done|done].
      unfold mbind, M_bind. cbn. rewrite pool_next_middle, pool_erase_middle by done. done.
  - subst s'. destruct (fst (act n) =? 0).
    + split; cbn; rewrite ?Hl; [done|done|done|].
      change (l1 ++ (fd, Some p) :: r) with (l1 ++ [(fd, Some p)] ++ r).
      rewrite app_assoc. apply cursor_ok_begin.
    + split; cbn; [by apply freed_ok|done| |].
      * apply Forall_forall. intros e Hin. apply (entry_ok_freed h' fd); [done| |done| |].
        -- done.
        -- intros <-. apply elem_of_app in Hin as [Hin|Hin].
           ++ apply Hk1. by apply list_elem_of_fmap_2.
           ++ apply Hk2. by apply list_elem_of_fmap_2.
        -- eapply Forall_forall in Hen'; [exact Hen'|]. rewrite elem_of_app in *.
           destruct Hin; [by left|right; by constructor].
      * apply cursor_ok_begin.
Qed.

Lemma walk_loop_ok act i s l1 l2 :
  (forall n, same_identity n (snd (act n))) -> mgr_ok s ->
  handler_pool_ (mgr s) = l1 ++ l2 -> it_cursor_ (mgr s) = pool_begin l2 ->
  let s' := NetS (walked act (take i l2) (hp s)) (walked_mgr act (hp s) (mgr s) i l1 l2) in
  walk_loop act i s = Ok (tt, s') /\ mgr_ok s'.
Proof using.
  intros Hact. revert s l1 l2. induction i as [|i IH]; intros s l1 l2 Hs Hl Hc s'.
  - subst s'. destruct s as [h [pool rb cu]]. cbn in *. subst pool cu. unfold walked_mgr.
    cbn. rewrite drop_0. done.
  - destruct l2 as [|[fd v] r].
    { subst s'. destruct s as [h [pool rb cu]]. cbn in *. subst pool cu. unfold walked_mgr. cbn.
      done. }
    assert (Hin : (fd, v) ∈ handler_pool_ (mgr s)).
    { rewrite Hl. apply elem_of_app. right. by constructor. }
    pose proof (proj1 (Forall_forall _ _) (mo_entries s Hs) _ Hin) as He.
    destruct He as (p & n & b & x & Ev & Hn & He). cbn in Ev. subst v.
    destruct (walk_round act s l1 fd p n r Hact Hs Hl Hc Hn) as [Hw Hs1].
    rewrite Hw. subst s'.
    assert (Hkr : forall h2, (forall q, q <> p -> nets h2 !! q = nets (hp s) !! q) ->
      List.filter (keeps act h2) (take i r) = List.filter (keeps act (hp s)) (take i r)).
    { intros h2 Hh2. apply filter_ext_in. intros e Hin'. apply list_elem_of_In in Hin'.
      apply elem_of_take in Hin' as (j & Hj & _). apply list_elem_of_lookup_2 in Hj.
      assert (Hall : entry_ok (hp s) e).
      { eapply Forall_forall; [apply (mo_entries s Hs)|]. rewrite Hl. apply elem_of_app.
        right. by constructor. }
      eapply (keeps_other act (hp s) h2 fd p); [|done| |done].
      - eapply Forall_forall; [apply (mo_entries s Hs)|done].
      - intros Hk. pose proof (mo_keys s Hs) as Hnd. rewrite Hl in Hnd. unfold keys in Hnd.
        rewrite fmap_app, fmap_cons in Hnd. apply NoDup_app in Hnd as (_ & _ & Hnd).
        apply NoDup_cons in Hnd as [Hnd _]. apply Hnd. cbn. rewrite <- Hk.
        by apply list_elem_of_fmap_2. }
    assert (Hkp : keeps act (hp s) (fd, Some p) = (fst (act n) =? 0))
      by (unfold keeps; cbn; by rewrite Hn).
    cbn [take walked]. rewrite Hn. destruct (act n) as [ret n'] eqn:Ea. cbn [fst snd] in *.
    destruct (ret =? 0) eqn:Er.
    + specialize (IH _ (l1 ++ [(fd, Some p)]) r Hs1).
      cbn [hp mgr set_cursor handler_pool_ it_cursor_] in IH.
      rewrite Hl, <- app_assoc in IH. destruct (IH eq_refl eq_refl) as [E1 E2].
      rewrite E1. cbn [hp mgr] in *. unfold walked_mgr in *. cbn [drop take].
      rewrite <- app_assoc in *. cbn [app List.filter] in *. rewrite Hkp.
      rewrite Hkr in * by (intros q Hq; cbn; by rewrite lookup_insert_ne). done.
    + specialize (IH _ l1 r Hs1 eq_refl eq_refl). destruct IH as [E1 E2].
      rewrite E1. cbn [hp mgr] in *. unfold walked_mgr in *. cbn [drop take].
      cbn [List.filter] in *. rewrite Hkp.
      rewrite Hkr in * by (intros q Hq; cbn; by rewrite lookup_delete_ne, lookup_insert_ne). done.
Qed.
End MgrLemmas.

(** ** Adding and removing *)

Section Adding.
Context {C : Type} {E : NetEnv C} {HO : HashOrder}.
Context {EOk : NetEnvOk E} {HOk : HashOrderOk HO}.
Implicit Types (s : NetSt C).

(** Elements of the table survive objects at addresses that were free. *)
Lemma entry_ok_linked (h h' : Heap C) p b n' x e :
  nets h !! p = None -> bevs h !! b = None ->
  nets h' = <[p := n']> (nets h) -> bevs h' = <[b := x]> (bevs h) ->
  entry_ok h e -> entry_ok h' e.
Proof using.
  intros Hp Hb E1 E2 (q & m & c & y & Eq & Hq & Hc & Hy & Hr).
  exists q, m, c, y. rewrite E1, E2, !lookup_insert_ne by congruence. done.
Qed.

(** A table with one more element: the cursor stays unless the insertion rehashes. *)
Record assigned (s s' : NetSt C) (e : Z * option Z) : Prop := {
  as_nets : nets (hp s') = nets (hp s);
  as_bevs : bevs (hp s') = bevs (hp s);
  as_uctxs : uctxs (hp s') = uctxs (hp s);
  as_cbs : cbs (hp s') = cbs (hp s);
  as_seed : nid_seed (hp s') = nid_seed (hp s);
  as_pool : handler_pool_ (mgr s') ≡ₚ e :: handler_pool_ (mgr s);
  as_recv : recv_buffer_ (mgr s') = recv_buffer_ (mgr s);
  as_cursor : (forall t, snd (place t (handler_pool_ (mgr s)) e) = false) ->
              it_cursor_ (mgr s') = it_cursor_ (mgr s)
}.

Lemma pool_assign_ok s fd p :
  mgr_ok s -> entry_ok (hp s) (fd, Some p) -> fd ∉ keys (handler_pool_ (mgr s)) ->
  exists s', pool_assign fd p s = Ok (tt, s') /\ mgr_ok s' /\
    assigned s s' (fd, Some p).
Proof using HOk.
  intros [Hh Hnd Hen Hcu] He Hfd. unfold pool_assign, mbind, M_bind, get.
  rewrite (proj2 (pool_find_None _ _) Hfd).
  destruct (place (tick (hp s)) (handler_pool_ (mgr s)) (fd, Some p)) as [l' re] eqn:Ep.
  pose proof (place_perm (tick (hp s)) (handler_pool_ (mgr s)) (fd, Some p)) as Hperm.
  rewrite Ep in Hperm. cbn in Hperm.
  set (h' := set_tick (S (tick (hp s))) (hp s)).
  assert (Hs' : forall c, cursor_ok l' c -> mgr_ok (NetS h' (set_cursor c (set_pool l' (mgr s))))).
  { intros c Hc. split; cbn; [by apply (heap_ok_frame (hp s))| | |done].
    - unfold keys. rewrite Hperm. cbn. apply NoDup_cons. done.
    - rewrite Hperm. constructor; [done|]. done. }
  exists (NetS h' (set_cursor (if re then Invalid else it_cursor_ (mgr s))
                     (set_pool l' (mgr s)))).
  split; [|split; [apply Hs'|split; try done]].
  - cbn. destruct re; cbn; [done|]. by destruct (mgr s).
  - destruct re; [done|]. destruct (it_cursor_ (mgr s)) as [|k|]; cbn; [done| |done].
    unfold keys. rewrite Hperm. cbn in *. apply elem_of_cons. by right.
  - intros Hre. specialize (Hre (tick (hp s))). rewrite Ep in Hre. cbn in Hre. by subst re.
Qed.

(** The part the two methods that add a connection share. *)
Lemma AddHandlerToMap_ok s p n b x :
  mgr_ok s -> nets (hp s) !! p = Some n -> hevent_ n = Some b ->
  bevs (hp s) !! b = Some x -> 0 <= bev_fd x ->
  bev_fd x ∉ keys (handler_pool_ (mgr s)) ->
  exists s', AddHandlerToMap (Some p) s = Ok (0, s') /\ mgr_ok s' /\
    assigned s s' (bev_fd x, Some p).
Proof using HOk.
  intros Hs Hp Hb Hx Hpos Hfd. unfold AddHandlerToMap, mbind, M_bind.
  rewrite (on_heap_ok _ s _ _ (load_net_ok (hp s) p n Hp)), Hb. cbn [hp mgr].
  erewrite on_heap_ok by (apply getfd_ok; exact Hx).
  destruct (pool_assign_ok s (bev_fd x) p Hs) as (s' & Ea & Hs'); [|done|].
  - exists p, n, b, x. by repeat split.
  - exists s'. destruct s as [h m]. cbn in *. by rewrite Ea.
Qed.

(** The result of adding a connection: none and nothing changed but the seed, or
    a new one under a descriptor nobody had. *)
Definition add_result (st : NetState) (at_fd : bytes -> Z -> Prop) s (r : outcome (option Z * NetSt C)) : Prop :=
  exists o s', r = Ok (o, s') /\ mgr_ok s' /\ evolves (hp s) (hp s') /\
    keeps_cbs (hp s) (hp s') /\ uctxs (hp s') = uctxs (hp s) /\
    recv_buffer_ (mgr s') = recv_buffer_ (mgr s) /\ nid_seed (hp s') <= nid_seed (hp s) + 1 /\
    match o with
    | None => mgr s' = mgr s /\ nets (hp s') = nets (hp s) /\ bevs (hp s') = bevs (hp s)
    | Some p =>
        nets (hp s) !! p = None /\
        exists n b x, nets (hp s') = <[p := n]> (nets (hp s)) /\ nid_ n = nid_seed (hp s) /\
          bevs (hp s') = <[b := x]> (bevs (hp s)) /\ bevs (hp s) !! b = None /\
          hevent_ n = Some b /\ input x = [] /\ rpc_binded_ n = None /\ user_context_ n = None /\
          0 <= bev_fd x /\ (forall c y, bevs (hp s) !! c = Some y -> bev_fd y <> bev_fd x) /\
          handler_pool_ (mgr s') ≡ₚ (bev_fd x, Some p) :: handler_pool_ (mgr s) /\
          ((forall t, snd (place t (handler_pool_ (mgr s)) (bev_fd x, Some p)) = false) ->
           it_cursor_ (mgr s') = it_cursor_ (mgr s)) /\
          state_ n = st /\ output x = [] /\ at_fd (uri_ n) (bev_fd x)
    end.

Lemma add_tail st at_fd s (m : Z -> M (Heap C) Z) :
  mgr_ok s -> 1 <= nid_seed (hp s) < 2147483647 ->
  (forall h p n, heap_ok h -> nets h !! p = Some n -> bevs h = bevs (hp s) ->
     hevent_ n = None -> link_result st at_fd h p n (m p h)) ->
  add_result st at_fd s
    ((easy_net_handler ← on_heap EasyNet_new;
      match easy_net_handler with
      | None => mret None
      | Some p =>
          ret ← on_heap (m p);
          if negb (ret =? 0) then _ ← on_heap (delete_net p); mret None
          else _ ← AddHandlerToMap (Some p); mret (Some p)
      end) s).
Proof using EOk HOk.
  intros Hs Hseed Hm. destruct s as [h mg]. cbn [hp mgr] in *.
  pose proof (mo_heap _ Hs) as Hh. cbn in Hh.
  destruct (EasyNet_new_ok h Hh Hseed)
    as [(h1 & E1 & Hh1 & En1 & Eb1 & Eu1 & Es1 & Ec1)
       |(p & h1 & E1 & Hh1 & Hp & En1 & Eb1 & Eu1 & Es1 & Ec1)];
    rewrite (bind_step _ _ _ _ _ (on_heap_ok _ (NetS h mg) _ _ E1)).
  - exists None, (NetS h1 mg). split; [done|]. cbn.
    split; [|split; [by apply evolves_frame|split; [by apply keeps_cbs_eq|]]].
    2: { do 2 (split; [done|]). split; [lia|done]. }
    destruct Hs as [_ Hnd Hen Hcu]. split; cbn in *; [done|done| |done].
    eapply Forall_impl; [exact Hen|]. intros e. by apply entry_ok_frame.
  - assert (Hp1 : nets h1 !! p = Some (fresh_net (nid_seed h)))
      by (rewrite En1; apply lookup_insert_eq).
    assert (Hev : evolves h h1).
    { split; [lia|]. intros q m0. rewrite En1. destruct (decide (q = p)) as [->|Hq].
      - rewrite lookup_insert_eq. intros [= <-]. by right.
      - rewrite lookup_insert_ne by done. eauto. }
    destruct (Hm h1 p _ Hh1 Hp1 Eb1 eq_refl)
      as (ret & h2 & E2 & Hh2 & Es2 & Eu2 & Hk2 & [(Hret & En2 & Eb2)
        |(-> & b & n2 & x & En2 & Eb2 & Hb & Hbn & Hid & Hpos & Hfd & Hinp & Hrpc & Huc & Hst & Hout)]);
      rewrite (bind_step _ _ _ _ _ (on_heap_ok _ (NetS h1 mg) _ _ E2)).
    + destruct (Z.eqb_spec ret 0); [done|]. cbn [negb].
      erewrite bind_step.
      2: { apply (on_heap_ok _ (NetS h2 mg)). apply (delete_net_ok h2 p (fresh_net (nid_seed h))).
           congruence. }
      exists None. eexists. split; [reflexivity|]. cbn.
      assert (En3 : delete p (nets h2) = nets h) by (rewrite En2, En1; by apply delete_insert_id).
      assert (Hk : keeps_cbs h h2).
      { intros c Hc. rewrite (Hk2 c) by (by rewrite Eb1). by rewrite Ec1. }
      split; [|split; [|split; [exact Hk|split; [congruence|split; [done|split; [lia|]]]]]].
      3: { split; [done|]. split; [done|congruence]. }
      * destruct Hs as [_ Hnd Hen Hcu]. split; cbn in *; [|done| |done].
        -- apply (heap_ok_frame (freed p (fresh_net (nid_seed h)) h2)); [done..|].
           apply freed_ok; [done|congruence].
        -- eapply Forall_impl; [exact Hen|]. intros e. apply entry_ok_frame; cbn; congruence.
      * split; [cbn; lia|]. intros q m0. cbn. rewrite En3. eauto.
    + cbn [Z.eqb negb]. rewrite En1, insert_insert_eq in En2. rewrite Eb1 in Eb2, Hb, Hfd.
      assert (Hs2 : mgr_ok (NetS h2 mg)).
      { destruct Hs as [_ Hnd Hen Hcu]. split; cbn in *; [done|done| |done].
        eapply Forall_impl; [exact Hen|]. intros e. by apply entry_ok_linked with p b n2 x. }
      assert (Hkey : bev_fd x ∉ keys (handler_pool_ mg)).
      { intros (e & Ee & Hin)%list_elem_of_fmap.
        pose proof (proj1 (Forall_forall _ _) (mo_entries _ Hs) _ Hin)
          as (q & m0 & c & y & _ & _ & _ & Hy & Hfy & _). cbn in *. apply (Hfd c y Hy). congruence. }
      destruct (AddHandlerToMap_ok (NetS h2 mg) p n2 b x Hs2)
        as (s' & E3 & Hs' & [En3 Eb3 Eu3 Ec3 Es3 Hpool Hrecv Hcur]);
        cbn; [rewrite En2; apply lookup_insert_eq|done|rewrite Eb2; apply lookup_insert_eq|done|done|].
      rewrite (bind_step _ _ _ _ _ E3). exists (Some p), s'. split; [done|]. split; [done|].
      cbn [hp mgr] in *. split; [|split; [|split; [congruence|split; [done|split; [lia|split; [done|]]]]]].
      * split; [lia|]. intros q m0. rewrite En3, En2. destruct (decide (q = p)) as [->|Hq].
        -- rewrite lookup_insert_eq. intros [= <-]. right. rewrite Hid. by cbn.
        -- rewrite lookup_insert_ne by done. eauto.
      * intros c Hc. rewrite Ec3, (Hk2 c) by (by rewrite Eb1). by rewrite Ec1.
      * exists n2, b, x. rewrite En3, En2, Hid, Eb3, Hrpc, Huc. by auto 25.
Qed.

Lemma AddHandlerBySocket_ok s fd type eb :
  mgr_ok s -> 1 <= nid_seed (hp s) < 2147483647 ->
  (forall c y, bevs (hp s) !! c = Some y -> bev_fd y <> fd) ->
  add_result NET_ESTABLISHED (fun _ f => fd = f) s (AddHandlerBySocket fd type eb s).
Proof using EOk HOk.
  intros Hs Hseed Hfd. unfold AddHandlerBySocket. destruct (fd <? 0).
  - exists None, s. split; [done|]. split; [done|]. split; [apply evolves_refl|].
    do 3 (split; [done|]). split; [lia|done].
  - apply (add_tail _ _ s (fun p => EasyNet_Init p fd type eb)); [done|done|].
    intros h p n Hh Hp Eb _. apply EasyNet_Init_ok; [done|done|]. by rewrite Eb.
Qed.

Lemma AddHandlerByUri_ok s uri type eb :
  mgr_ok s -> 1 <= nid_seed (hp s) < 2147483647 ->
  add_result NET_CONNECTING (fun u _ => uri = Some u) s (AddHandlerByUri uri type eb s).
Proof using EOk HOk.
  intros Hs Hseed. unfold AddHandlerByUri. destruct (_ || _).
  - exists None, s. split; [done|]. split; [done|]. split; [apply evolves_refl|].
    do 3 (split; [done|]). split; [lia|done].
  - apply (add_tail _ _ s (fun p => EasyNet_Connect p uri type eb)); [done|done|].
    intros h p n Hh Hp Eb _. apply EasyNet_Connect_ok; [done|done|].
    intros u. apply tcpsocket_str2sockin_safe.
Qed.

Lemma mgr_ok_bev s fd p n b :
  mgr_ok s -> (fd, Some p) ∈ handler_pool_ (mgr s) -> nets (hp s) !! p = Some n ->
  hevent_ n = Some b -> exists x, bevs (hp s) !! b = Some x /\ bev_fd x = fd.
Proof using.
  intros Hs Hin Hp Hb.
  pose proof (proj1 (Forall_forall _ _) (mo_entries _ Hs) _ Hin)
    as (q & m0 & c & y & Eq & Hq & Hc & Hy & Hfy & _). cbn in *.
  exists y. split; [congruence|done].
Qed.

(** Taking a connection out: the object and what it owns are freed, the cursor
    moves on when it was there. *)
Lemma remove_found s fd p n b :
  mgr_ok s -> (fd, Some p) ∈ handler_pool_ (mgr s) -> nets (hp s) !! p = Some n ->
  hevent_ n = Some b ->
  match it_cursor_ (mgr s) with
  | Invalid => RemoveHandlerByEvent (Some b) s = Fault UseAfterFree
  | c =>
      let s' := NetS (freed p n (hp s))
        {| handler_pool_ := pool_erase (handler_pool_ (mgr s)) fd;
           recv_buffer_ := recv_buffer_ (mgr s);
           it_cursor_ := if bool_decide (c = At fd)
                         then pool_next (handler_pool_ (mgr s)) fd else c |} in
      RemoveHandlerByEvent (Some b) s = Ok (0, s') /\ mgr_ok s'
  end.
Proof using.
  intros Hs Hin Hp Hb. destruct (mgr_ok_bev s fd p n b Hs Hin Hp Hb) as (x & Hx & Hfd).
  pose proof Hs as [Hh Hnd Hen Hcu].
  pose proof (proj1 (Forall_forall _ _) Hen _ Hin) as He.
  destruct (pool_split _ _ _ Hnd Hin) as (l1 & l2 & El & Hk1 & Hk2 & Hnd').
  assert (Hkeep : forall c, cursor_ok (l1 ++ l2) c ->
    mgr_ok (NetS (freed p n (hp s))
      {| handler_pool_ := l1 ++ l2; recv_buffer_ := recv_buffer_ (mgr s); it_cursor_ := c |})).
  { intros c Hc. split; cbn; [by apply freed_ok|done| |done].
    apply Forall_forall. intros e Hie. apply (entry_ok_freed (hp s) fd); [done|done|done| |].
    - intros <-. apply elem_of_app in Hie as [Hie|Hie]; [apply Hk1|apply Hk2];
        by apply list_elem_of_fmap_2.
    - eapply Forall_forall; [exact Hen|]. rewrite El. rewrite elem_of_app in *.
      destruct Hie; [by left|right; by constructor]. }
  assert (Hstart : RemoveHandlerByEvent (Some b) s
    = (eq ← lift (cursor_at (it_cursor_ (mgr s)) fd);
       _ ← (if (eq : bool)
            then upd_mgr (set_cursor (pool_next (handler_pool_ (mgr s)) fd)) else mret tt);
       _ ← upd_mgr (set_pool (pool_erase (handler_pool_ (mgr s)) fd));
       mret 0) (NetS (freed p n (hp s)) (mgr s))).
  { unfold RemoveHandlerByEvent. unfold mbind at 1, M_bind at 1.
    rewrite (on_heap_ok _ s _ _ (getfd_ok (hp s) b x Hx)), Hfd.
    unfold mbind at 1, M_bind at 1, get. cbn [hp mgr].
    rewrite (proj2 (pool_find_elem _ fd (Some p) Hnd) Hin).
    destruct s as [h m]. cbn [hp mgr] in *.
    unfold mbind at 1, M_bind at 1. unfold mbind at 1, M_bind at 1.
    rewrite (destroy_net_ok (NetS h m) fd p n Hh He Hp). cbn [hp mgr].
    unfold mbind at 1, M_bind at 1. cbn [mgr].
    unfold mbind, M_bind, lift. cbn [hp mgr]. destruct (cursor_at (it_cursor_ m) fd) as [[]|]; done. }
  rewrite El, pool_erase_middle, pool_next_middle in * by done.
  destruct (it_cursor_ (mgr s)) as [|k|] eqn:Ec; rewrite Hstart.
  - split; [|by apply Hkeep]. rewrite bool_decide_eq_false_2 by done.
    unfold lift, mbind, M_bind. cbn. unfold set_pool. cbn. by rewrite Ec.
  - unfold lift, mbind, M_bind. cbn [cursor_at]. destruct (Z.eqb_spec k fd) as [->|Hne].
    + rewrite bool_decide_eq_true_2 by done. split; [done|]. apply Hkeep.
      apply cursor_ok_begin.
    + rewrite bool_decide_eq_false_2 by congruence. split.
      * cbn. unfold set_pool. cbn. by rewrite Ec.
      * apply Hkeep. cbn in *. unfold keys in *. rewrite fmap_app, fmap_cons in Hcu.
        rewrite fmap_app. cbn in Hcu. rewrite elem_of_app, elem_of_cons in *. tauto.
  - done.
Qed.

(** ** Histories *)

(** What happens to a table between its [Init] and its [CleanUp]: the calls of the
    framework and, with [ms_net], [ms_context] and [ms_io], the other uses of the
    connections in the heap. *)
Inductive mgr_step : NetSt C -> NetSt C -> Prop :=
  | ms_add_socket s fd type eb r s' :
      nid_seed (hp s) < 2147483647 ->
      (forall c y, bevs (hp s) !! c = Some y -> bev_fd y <> fd) ->
      AddHandlerBySocket fd type eb s = Ok (r, s') -> mgr_step s s'
  | ms_add_uri s uri type eb r s' :
      nid_seed (hp s) < 2147483647 ->
      AddHandlerByUri uri type eb s = Ok (r, s') -> mgr_step s s'
  | ms_remove s p r s' : RemoveHandler p s = Ok (r, s') -> mgr_step s s'
  | ms_remove_event s b r s' : RemoveHandlerByEvent b s = Ok (r, s') -> mgr_step s s'
  | ms_state s b st r s' : ChangeNetStateByEvent b st s = Ok (r, s') -> mgr_step s s'
  | ms_walk s act r s' :
      (forall n, same_identity n (snd (act n))) ->
      WalkThrough (Some act) s = Ok (r, s') -> mgr_step s s'
  | ms_net s p f n :
      nets (hp s) !! p = Some n -> same_identity n (f n) ->
      mgr_step s (NetS (set_nets (<[p := f n]> (nets (hp s))) (hp s)) (mgr s))
  | ms_context s p n size r h' :
      nets (hp s) !! p = Some n -> user_context_ n = None ->
      CreateUserContext p size (hp s) = Ok (r, h') -> mgr_step s (NetS h' (mgr s))
  | ms_io s b x y :
      bevs (hp s) !! b = Some x -> bev_fd y = bev_fd x ->
      mgr_step s (NetS (set_bevs (<[b := y]> (bevs (hp s))) (hp s)) (mgr s)).

Lemma remove_event_ok s b r s' :
  mgr_ok s -> RemoveHandlerByEvent b s = Ok (r, s') -> mgr_ok s' /\ evolves (hp s) (hp s').
Proof using.
  intros Hs H. destruct b as [b|]; [|injection H as _ <-; split; [done|apply evolves_refl]].
  destruct (bevs (hp s) !! b) as [x|] eqn:Hx.
  2: { revert H. unfold RemoveHandlerByEvent, mbind, M_bind, on_heap, bufferevent_getfd.
       unfold mbind, M_bind, load_bev. by rewrite Hx. }
  destruct (pool_find (handler_pool_ (mgr s)) (bev_fd x)) as [v|] eqn:Ef.
  - apply pool_find_elem in Ef; [|apply Hs].
    pose proof (proj1 (Forall_forall _ _) (mo_entries _ Hs) _ Ef)
      as (p & n & c & y & Ev & Hp & Hc & Hy & Hfy & Hpos). cbn in Ev, Hfy, Hpos. subst v.
    assert (c = b) as -> by (apply (ho_fd_inj (hp s) (mo_heap s Hs) c b y x); [done|done|done|by rewrite Hfy]).
    pose proof (remove_found s _ p n b Hs Ef Hp Hc) as Hr.
    destruct (it_cursor_ (mgr s)) as [|k|]; [| |by rewrite Hr in H]; destruct Hr as [Hr Hok];
      rewrite Hr in H; injection H as _ <-; (split; [exact Hok|apply evolves_freed]).
  - revert H. unfold RemoveHandlerByEvent, mbind, M_bind.
    rewrite (on_heap_ok _ s _ _ (getfd_ok (hp s) b x Hx)). unfold get. cbn. rewrite Ef.
    intros [= _ <-]. cbn. split; [by destruct s|apply evolves_refl].
Qed.

Lemma walked_evolves act l (h : Heap C) :
  (forall n, same_identity n (snd (act n))) -> evolves h (walked act l h).
Proof using.
  intros Hact. revert h. induction l as [|[k v] l IH]; intros h; cbn; [apply evolves_refl|].
  eapply evolves_trans; [|apply IH]. destruct v as [p|]; [|apply evolves_refl].
  destruct (nets h !! p) as [n|] eqn:Hp; [|apply evolves_refl].
  destruct (act n) as [r n'] eqn:Ea.
  assert (Hev : evolves h (set_nets (<[p := n']> (nets h)) h)).
  { apply evolves_update with n; [done|]. pose proof (Hact n) as (_ & _ & Hn). by rewrite Ea in Hn. }
  destruct (r =? 0); [done|]. eapply evolves_trans; [exact Hev|]. apply evolves_freed.
Qed.

(** The pool in two parts, the second of which the cursor is at. *)
Lemma cursor_split l c :
  NoDup (keys l) -> cursor_ok l c -> c <> Invalid ->
  exists l1 l2, l = l1 ++ l2 /\ c = pool_begin l2.
Proof using.
  intros Hnd Hc Hne. destruct c as [|k|]; [|cbn in Hc|done].
  - exists l, []. by rewrite app_nil_r.
  - apply list_elem_of_fmap in Hc as ([k' v] & -> & Hin). cbn.
    apply list_elem_of_split in Hin as (l1 & l2 & ->). by exists l1, ((k', v) :: l2).
Qed.

Lemma walk_step_ok s act r s' :
  (forall n, same_identity n (snd (act n))) -> mgr_ok s ->
  WalkThrough (Some act) s = Ok (r, s') -> mgr_ok s' /\ evolves (hp s) (hp s').
Proof using.
  intros Hact Hs H. destruct (decide (it_cursor_ (mgr s) = Invalid)) as [Ei|Hne].
  { revert H. unfold WalkThrough, kSingleRoundLoopNum, mbind, M_bind. cbn [walk_loop].
    unfold mbind, M_bind, get. by rewrite Ei. }
  destruct (cursor_split _ _ (mo_keys s Hs) (mo_cursor s Hs) Hne) as (l1 & l2 & El & Ec).
  destruct (walk_loop_ok act kSingleRoundLoopNum s l1 l2 Hact Hs El Ec) as [Ew Hok].
  revert H. unfold WalkThrough, mbind, M_bind. rewrite Ew. unfold get. cbn [it_cursor_ mgr walked_mgr].
  destruct (drop kSingleRoundLoopNum l2) as [|[k v] l3] eqn:Ed; cbn [pool_begin].
  - intros [= _ <-]. cbn [hp]. split; [|by apply walked_evolves].
    destruct Hok as [Hh Hnd Hen Hcu]. split; cbn in *; [done|done|done|].
    apply (cursor_ok_begin []).
  - intros [= _ <-]. split; [done|]. cbn [hp]. by apply walked_evolves.
Qed.

Lemma context_step_ok s p n size r (h' : Heap C) :
  mgr_ok s -> nets (hp s) !! p = Some n -> user_context_ n = None ->
  CreateUserContext p size (hp s) = Ok (r, h') ->
  mgr_ok (NetS h' (mgr s)) /\ evolves (hp s) h'.
Proof using EOk.
  intros Hs Hp Hn H. destruct s as [h m]. cbn [hp mgr] in *. unfold CreateUserContext in H.
  destruct (size =? 0); [injection H as _ <-; split; [done|apply evolves_refl]|].
  revert H. unfold mbind, M_bind, get. cbn [modify].
  destruct (env_calloc (tick h) (uctxs h)) as [c|] eqn:Ec; cbn [modify mret M_ret].
  - pose proof (env_calloc_fresh _ _ _ Ec) as Hfresh.
    erewrite upd_net_ok by (cbn; exact Hp). intros [= _ <-]. cbn. split.
    + destruct Hs as [[H1 H2 H3 H4 H5 H6 H7] Hnd Hen Hcu].
      assert (Hne : forall q m0, <[p:=set_user_context (Some c) n]> (nets h) !! q = Some m0 ->
        q = p /\ m0 = set_user_context (Some c) n \/ q <> p /\ nets h !! q = Some m0).
      { intros q m0. destruct (decide (q = p)) as [->|Hq].
        - rewrite lookup_insert_eq. intros [= <-]. auto.
        - rewrite lookup_insert_ne by done. auto. }
      split; cbn in *; [split; cbn|done| |done].
      * intros q m0 b [[-> ->]|[_ Hq]]%Hne; eauto.
      * intros q q' m0 m1 b [[-> ->]|[_ Hq]]%Hne [[-> ->]|[_ Hr]]%Hne; cbn; [done|eauto..].
      * intros q m0 d [[-> ->]|[_ Hq]]%Hne; cbn; rewrite lookup_insert_is_Some'.
        -- intros [= ->]. by left.
        -- intros Hd. right. eauto.
      * intros q q' m0 m1 d [[-> ->]|[_ Hq]]%Hne [[-> ->]|[_ Hr]]%Hne; cbn; [done| | |eauto].
        -- intros [= ->] Hd. destruct (H3 _ _ _ Hr Hd). congruence.
        -- intros Hd [= ->]. destruct (H3 _ _ _ Hq Hd). congruence.
      * done.
      * intros q m0 [[-> ->]|[_ Hq]]%Hne; cbn; eauto.
      * intros q q' m0 m1 [[-> ->]|[_ Hq]]%Hne [[-> ->]|[_ Hr]]%Hne; cbn; [done|eauto..].
      * eapply Forall_impl; [exact Hen|]. intros e (q & m0 & b & x & Eq & Hq & Hb & Hx & Hr).
        destruct (decide (q = p)) as [->|Hqp].
        -- exists p, (set_user_context (Some c) n), b, x. cbn. rewrite lookup_insert_eq.
           by simplify_eq.
        -- exists q, m0, b, x. cbn. by rewrite lookup_insert_ne.
    + apply (evolves_trans _ (set_nets (<[p := set_user_context (Some c) n]> (nets h)) h));
        [by apply evolves_update with n|by apply evolves_frame].
  - erewrite upd_net_ok by (cbn; exact Hp). intros [= _ <-]. cbn.
    assert (Hid : same_identity n (set_user_context None n)) by (by split; [|split; [rewrite Hn|]]).
    split.
    + destruct Hs as [Hh Hnd Hen Hcu]. split; cbn in *; [|done| |done].
      * by apply (heap_ok_frame (set_nets (<[p:=set_user_context None n]> (nets h)) h));
          [..|apply heap_ok_update with n].
      * eapply Forall_impl; [exact Hen|]. intros e He.
        apply (entry_ok_frame (set_nets (<[p:=set_user_context None n]> (nets h)) h)); [done..|].
        by apply entry_ok_update with n.
    + apply (evolves_trans _ (set_nets (<[p := set_user_context None n]> (nets h)) h));
        [by apply evolves_update with n|by apply evolves_frame].
Qed.

Lemma mgr_step_ok s s' :
  mgr_ok s -> 1 <= nid_seed (hp s) -> mgr_step s s' -> mgr_ok s' /\ evolves (hp s) (hp s').
Proof using EOk HOk.
  intros Hs Hseed Hst.
  destruct Hst as [s fd type eb r s' Hb Hfd H|s uri type eb r s' Hb H|s p r s' H|s b r s' H
    |s b st r s' H|s act r s' Hact H|s p f n Hp Hid|s p n size r h' Hp Hn H|s b x y Hx Hy].
  - destruct (AddHandlerBySocket_ok s fd type eb Hs (conj Hseed Hb) Hfd) as (o & s2 & E2 & Hok & Hev & _).
    rewrite E2 in H. by injection H as _ <-.
  - destruct (AddHandlerByUri_ok s uri type eb Hs (conj Hseed Hb)) as (o & s2 & E2 & Hok & Hev & _).
    rewrite E2 in H. by injection H as _ <-.
  - destruct p as [p|]; [|injection H as _ <-; split; [done|apply evolves_refl]].
    unfold RemoveHandler in H. apply bind_Ok in H as (n & s1 & H1 & H).
    unfold on_heap, load_net in H1. destruct (nets (hp s) !! p); [|done].
    cbn in H1. injection H1 as <- <-. destruct s as [h m]. by apply remove_event_ok in H.
  - by apply remove_event_ok in H.
  - destruct b as [b|]; [|injection H as _ <-; split; [done|apply evolves_refl]].
    unfold ChangeNetStateByEvent in H. apply bind_Ok in H as (fd & s1 & H1 & H).
    unfold on_heap, bufferevent_getfd, mbind, M_bind, load_bev in H1.
    destruct (bevs (hp s) !! b) as [x|] eqn:Hx; [|done]. cbn in H1. injection H1 as <- <-.
    destruct s as [h m]. cbn [hp mgr] in *. unfold mbind, M_bind, get in H. cbn [mgr hp] in H.
    destruct (pool_find (handler_pool_ m) (bev_fd x)) as [[p|]|] eqn:Ef;
      [|injection H as _ <-; split; [done|apply evolves_refl]..].
    apply pool_find_elem in Ef; [|apply Hs].
    pose proof (proj1 (Forall_forall _ _) (mo_entries _ Hs) _ Ef)
      as (q & n & c & y & Eq & Hp & _). cbn in Eq, Hp. injection Eq as ->.
    rewrite (on_heap_ok _ (NetS h m) _ _ (upd_net_ok h q n _ Hp)) in H. injection H as _ <-. cbn.
    assert (Hid : same_identity n (set_net_state st n)) by done. split.
    + destruct Hs as [Hh Hnd Hen Hcu]. split; cbn in *; [by apply heap_ok_update with n|done| |done].
      eapply Forall_impl; [exact Hen|]. intros e. by apply entry_ok_update with n.
    + by apply evolves_update with n.
  - by apply (walk_step_ok s act r).
  - cbn. split.
    + destruct Hs as [Hh Hnd Hen Hcu]. split; cbn in *; [by apply heap_ok_update with n|done| |done].
      eapply Forall_impl; [exact Hen|]. intros e. by apply entry_ok_update with n.
    + apply evolves_update with n; [done|]. by destruct Hid as (_ & _ & ?).
  - by apply (context_step_ok s p n size r).
  - cbn. split; [|by apply evolves_frame].
    assert (Hbev : forall c z, <[b := y]> (bevs (hp s)) !! c = Some z ->
      exists z0, bevs (hp s) !! c = Some z0 /\ bev_fd z0 = bev_fd z).
    { intros c z. destruct (decide (c = b)) as [->|Hc].
      - rewrite lookup_insert_eq. intros [= <-]. eauto.
      - rewrite lookup_insert_ne by done. eauto. }
    destruct Hs as [[H1 H2 H3 H4 H5 H6 H7] Hnd Hen Hcu].
    split; cbn in *; [split; cbn; try done|done| |done].
    + intros p n c Hp Hc. apply lookup_insert_is_Some'. right. eauto.
    + intros c d z w Hz Hw Ef Hpos. apply Hbev in Hz as (z0 & Hz & Ez), Hw as (w0 & Hw & Ew).
      apply (H5 c d z0 w0); [done|done|congruence|lia].
    + eapply Forall_impl; [exact Hen|]. intros e (q & m0 & c & z & Eq & Hq & Hc & Hz & Hf & Hr).
      destruct (decide (c = b)) as [->|Hcb].
      * exists q, m0, b, y. cbn. rewrite lookup_insert_eq. simplify_eq. repeat split; congruence.
      * exists q, m0, c, z. cbn. by rewrite lookup_insert_ne.
Qed.

Lemma mgr_steps_ok s s' :
  mgr_ok s -> 1 <= nid_seed (hp s) -> star mgr_step s s' ->
  mgr_ok s' /\ evolves (hp s) (hp s').
Proof using EOk HOk.
  intros Hs Hseed Hst. induction Hst as [s|s s1 s2 H1 _ IH]; [split; [done|apply evolves_refl]|].
  destruct (mgr_step_ok s s1 Hs Hseed H1) as [Hs1 Hev1].
  destruct IH as [Hs2 Hev2]; [done|destruct Hev1; lia|].
  split; [done|]. by eapply evolves_trans.
Qed.
End Adding.

Lemma WalkThrough_ok {C} (act : IWalkEach) (s : NetSt C) l1 l2 :
  (forall n, same_identity n (snd (act n))) -> mgr_ok s ->
  handler_pool_ (mgr s) = l1 ++ l2 -> it_cursor_ (mgr s) = pool_begin l2 ->
  let visited := take 1024 l2 in
  let pool := l1 ++ List.filter (keeps act (hp s)) visited ++ drop 1024 l2 in
  let s' := NetS (walked act visited (hp s))
              {| handler_pool_ := pool; recv_buffer_ := recv_buffer_ (mgr s);
                 it_cursor_ := match drop 1024 l2 with
                               | [] => pool_begin pool
                               | rest => pool_begin rest
                               end |} in
  WalkThrough (Some act) s = Ok (tt, s') /\ mgr_ok s'.
Proof.
  intros Hact Hs El Ec visited pool s'.
  destruct (walk_loop_ok act kSingleRoundLoopNum s l1 l2 Hact Hs El Ec) as [Ew Hok].
  unfold WalkThrough, mbind, M_bind. rewrite Ew. unfold get. cbn [it_cursor_ mgr walked_mgr].
  subst s' pool visited. change kSingleRoundLoopNum with 1024%nat in *.
  unfold walked_mgr in *. destruct (drop 1024 l2) as [|[k v] l3]; cbn [pool_begin]; [|done].
  split; [done|]. destruct Hok as [Hh Hnd Hen Hcu]. split; [done|done|done|].
  apply (cursor_ok_begin []).
Qed.

(** ** Properties *)

(** The ids of a connection in the table find it. *)
Lemma GetHandlerByAsyncIds_found {C} (s : NetSt C) fd p n :
  pool_find (handler_pool_ (mgr s)) (i32 fd) = Some (Some p) -> nets (hp s) !! p = Some n ->
  GetHandlerByAsyncIds fd (u64 (nid_ n)) s = Ok (Some p, s).
Proof.
  intros Hf Hp. unfold GetHandlerByAsyncIds, mbind, M_bind, get. rewrite Hf.
  rewrite (on_heap_ok _ s _ _ (load_net_ok (hp s) p n Hp)), Z.eqb_refl. by destruct s.
Qed.

(** C16: [ids_never_stale]. The descriptor and the number of a connection find it as
    long as it is in the table.  Once it has been removed no later history in which the
    counter of the numbers, an [int], stays within its range - new connections that reuse its
    descriptor or its address included, as long as no more than 2^31 - 2 have been made -
    makes its number find any connection.  It is removed with the cursor of the walk valid,
    that is, with no rehash behind it. *)
Theorem ids_never_stale {C} {E : NetEnv C} {HO : HashOrder} {EOk : NetEnvOk E}
    {HOk : HashOrderOk HO} (s s1 s2 : NetSt C) fd p n b :
  mgr_ok s -> 1 <= nid_seed (hp s) -> nid_seed (hp s) <= 2147483647 ->
  (fd, Some p) ∈ handler_pool_ (mgr s) -> nets (hp s) !! p = Some n -> fd < 2147483648 ->
  hevent_ n = Some b -> it_cursor_ (mgr s) <> Invalid ->
  GetHandlerByAsyncIds (u32 fd) (nid_ n) s = Ok (Some p, s) /\
  (RemoveHandler (Some p) s = Ok (0, s1) -> star mgr_step s1 s2 ->
   nid_seed (hp s2) <= 2147483647 ->
   forall fd', GetHandlerByAsyncIds fd' (nid_ n) s2 = Ok (None, s2)).
Proof.
  intros Hs Hseed Hmax Hin Hp Hfd Hb Hcur.
  pose proof (ho_nid (hp s) (mo_heap s Hs) p n Hp) as Hnid.
  destruct (proj1 (Forall_forall _ _) (mo_entries _ Hs) _ Hin) as (_ & _ & _ & _ & _ & _ & _ & _ & _ & Hpos).
  cbn in Hpos. split.
  - rewrite <- (u64_id (nid_ n)) by lia. apply GetHandlerByAsyncIds_found; [|done].
    replace (i32 (u32 fd)) with fd by (unfold i32; rewrite u32_id by lia; rewrite Z.mod_small; lia).
    by apply (proj2 (pool_find_elem _ fd (Some p) (mo_keys s Hs))).
  - intros Hr Hst Hmax2 fd'. pose proof (remove_found s fd p n b Hs Hin Hp Hb) as Hrf.
    unfold RemoveHandler, mbind, M_bind in Hr.
    rewrite (on_heap_ok _ s _ _ (load_net_ok (hp s) p n Hp)), Hb in Hr.
    replace (NetS (hp s) (mgr s)) with s in Hr by (by destruct s).
    assert (H1 : mgr_ok s1 /\ hp s1 = freed p n (hp s)).
    { destruct (it_cursor_ (mgr s)); [| |done]; destruct Hrf as [Hrf Hok];
        rewrite Hrf in Hr; injection Hr as <-; (split; [exact Hok|done]). }
    destruct H1 as [Hs1 Eh1].
    assert (Hseed1 : nid_seed (hp s1) = nid_seed (hp s)) by (by rewrite Eh1).
    destruct (mgr_steps_ok s1 s2 Hs1) as [Hs2 [_ Hev]]; [lia|done|].
    unfold GetHandlerByAsyncIds, mbind, M_bind, get.
    destruct (pool_find (handler_pool_ (mgr s2)) (i32 fd')) as [v|] eqn:Ef; [|done].
    apply pool_find_elem in Ef; [|apply Hs2].
    destruct (proj1 (Forall_forall _ _) (mo_entries _ Hs2) _ Ef) as (q & m & _ & _ & Eq & Hq & _).
    cbn in Eq. subst v. rewrite (on_heap_ok _ s2 _ _ (load_net_ok (hp s2) q m Hq)).
    pose proof (ho_nid (hp s2) (mo_heap s2 Hs2) q m Hq) as Hnq.
    destruct (Z.eqb_spec (nid_ n) (u64 (nid_ m))) as [Eu|_]; [|by destruct s2].
    exfalso. rewrite u64_id in Eu by lia.
    destruct (Hev q m Hq) as [(m1 & Hm1 & Em1)|Hle]; [|lia].
    rewrite Eh1 in Hm1. cbn in Hm1. apply lookup_delete_Some in Hm1 as [Hne Hm1].
    apply Hne. apply (ho_nid_inj (hp s) (mo_heap s Hs) p q n m1); [done|done|congruence].
Qed.

(** A table that puts new elements in front and never rehashes. *)
Definition front_order : HashOrder := fun _ l x => (x :: l, false).
#[export] Instance front_order_ok : HashOrderOk front_order.
Proof. split; [done|]. intros n l x _. by exists [], l. Qed.

Definition one_handler : NetSt Z :=
  NetS one_net {| handler_pool_ := [(9, Some 3)];
                  recv_buffer_ := {| buffer := Some []; size := 0 |}; it_cursor_ := At 9 |}.

Lemma one_net_ok : heap_ok one_net.
Proof.
  split; unfold one_net; cbn; intros *; rewrite ?lookup_singleton_Some, ?lookup_singleton_is_Some.
  - intros [_ <-] [= <-]. done.
  - by intros [-> _] [-> _].
  - by intros [_ <-].
  - by intros [_ <-] [_ <-].
  - by intros [-> _] [-> _].
  - intros [_ <-]. cbn. lia.
  - by intros [-> _] [-> _].
Qed.

Lemma one_handler_ok : mgr_ok one_handler.
Proof.
  split; cbn; [apply one_net_ok|by apply (bool_decide_unpack _)| |by constructor].
  constructor; [|constructor]. do 4 eexists. split; [reflexivity|]. split; [reflexivity|].
  split; [reflexivity|]. split; [reflexivity|]. cbn. lia.
Qed.

(** After its connection is removed, and after a new one under its descriptor. *)
Definition result_of {A S} (d : S) (r : outcome (A * S)) : S :=
  match r with Ok (_, s) => s | Fault _ => d end.
Definition handler_removed : NetSt Z :=
  result_of one_handler (RemoveHandler (Some 3) one_handler).
Definition handler_reused : NetSt Z :=
  result_of one_handler
    (AddHandlerBySocket (E := easy_env) (HO := front_order) 9 0 true handler_removed).

Lemma ids_never_stale_witness :
  GetHandlerByAsyncIds 9 1 one_handler = Ok (Some 3, one_handler) /\
  RemoveHandler (Some 3) one_handler = Ok (0, handler_removed) /\
  AddHandlerBySocket (E := easy_env) (HO := front_order) 9 0 true handler_removed
    = Ok (Some 0, handler_reused) /\
  GetHandlerByAsyncIds 9 1 handler_reused = Ok (None, handler_reused).
Proof.
  assert (Hin : (9, Some 3) ∈ handler_pool_ (mgr one_handler)) by (cbn; by constructor).
  pose proof (fun s1 s2 =>
    ids_never_stale (E := easy_env) (HO := front_order) one_handler s1 s2 9 3 _ 4
      one_handler_ok ltac:(cbn; lia) ltac:(cbn; lia) Hin eq_refl ltac:(lia) eq_refl
      ltac:(discriminate)) as H.
  assert (Hr : RemoveHandler (Some 3) one_handler = Ok (0, handler_removed))
    by (vm_compute; reflexivity).
  assert (Ha : AddHandlerBySocket (E := easy_env) (HO := front_order) 9 0 true handler_removed
    = Ok (Some 0, handler_reused)) by (vm_compute; reflexivity).
  split; [apply (H one_handler one_handler)|]. split; [exact Hr|]. split; [exact Ha|].
  apply (H handler_removed handler_reused); [exact Hr| |by vm_compute].
  apply star_one. eapply ms_add_socket; [reflexivity| |exact Ha].
  intros c y. vm_compute. discriminate.
Defined.

(** C27: [walk_through]. A walk visits up to 1024 connections from the cursor on, in
    the order of the table: those for which [DoSomething] returns 0 keep their
    place with their fields updated, the others leave the table and are freed with
    what they own.  The cursor ends at the first connection not visited, and at the
    beginning of the table when there is none; the table stays well formed. *)
Theorem walk_through {C} (act : IWalkEach) (s : NetSt C) l1 l2 :
  (forall n, same_identity n (snd (act n))) -> mgr_ok s ->
  handler_pool_ (mgr s) = l1 ++ l2 -> it_cursor_ (mgr s) = pool_begin l2 ->
  let visited := take 1024 l2 in
  let pool := l1 ++ List.filter (keeps act (hp s)) visited ++ drop 1024 l2 in
  let s' := NetS (walked act visited (hp s))
              {| handler_pool_ := pool; recv_buffer_ := recv_buffer_ (mgr s);
                 it_cursor_ := match drop 1024 l2 with
                               | [] => pool_begin pool
                               | rest => pool_begin rest
                               end |} in
  WalkThrough (Some act) s = Ok (tt, s') /\ mgr_ok s'.
Proof. apply WalkThrough_ok. Qed.

(** Connections that have been silent for more than ten seconds at the time 100. *)
Definition idle_walk : IWalkEach := fun n =>
  (if 10 <? 100 - last_active_timestamp_ n then 1 else 0, set_pkg_counts 0 0 n).

Lemma walk_through_witness :
  exists s', WalkThrough (Some idle_walk) one_handler = Ok (tt, s') /\
    handler_pool_ (mgr s') = [] /\ nets (hp s') = ∅ /\ bevs (hp s') = ∅.
Proof.
  eexists. split; [apply (walk_through idle_walk one_handler [] [(9, Some 3)])|].
  - done.
  - exact one_handler_ok.
  - reflexivity.
  - reflexivity.
  - split; [vm_compute; reflexivity|]. split; vm_compute; reflexivity.
Defined.

(** C28: [remove_handler]. Removing a connection that is in the table frees the object,
    its bufferevent and its context and nothing else, takes its element out of the
    table and moves a cursor that was there to the next element. *)
Theorem remove_handler {C} (s : NetSt C) l1 fd p l2 n :
  mgr_ok s -> handler_pool_ (mgr s) = l1 ++ (fd, Some p) :: l2 ->
  nets (hp s) !! p = Some n -> it_cursor_ (mgr s) <> Invalid ->
  exists b, hevent_ n = Some b /\
  RemoveHandler (Some p) s
  = Ok (0, NetS {| nets := delete p (nets (hp s));
                   bevs := delete b (bevs (hp s));
                   uctxs := match user_context_ n with
                            | Some c => delete c (uctxs (hp s))
                            | None => uctxs (hp s)
                            end;
                   cbs := cbs (hp s); nid_seed := nid_seed (hp s); tick := tick (hp s); ksys := ksys (hp s) |}
             {| handler_pool_ := l1 ++ l2; recv_buffer_ := recv_buffer_ (mgr s);
                it_cursor_ := if bool_decide (it_cursor_ (mgr s) = At fd)
                              then pool_begin l2 else it_cursor_ (mgr s) |}).
Proof.
  intros Hs El Hp Hcur.
  assert (Hin : (fd, Some p) ∈ handler_pool_ (mgr s))
    by (rewrite El; apply elem_of_app; right; by constructor).
  destruct (proj1 (Forall_forall _ _) (mo_entries _ Hs) _ Hin) as (q & m & b & x & Eq & Hq & Hb & _).
  cbn in Eq. injection Eq as <-. assert (m = n) as -> by congruence.
  exists b. split; [done|]. pose proof (remove_found s fd p n b Hs Hin Hp Hb) as Hr.
  assert (Hk : fd ∉ keys l1).
  { pose proof (mo_keys s Hs) as Hnd. rewrite El in Hnd. unfold keys in *.
    rewrite fmap_app, fmap_cons, <- Permutation_middle in Hnd. apply NoDup_cons in Hnd as [Hn _].
    rewrite elem_of_app in Hn. tauto. }
  unfold RemoveHandler, mbind, M_bind.
  rewrite (on_heap_ok _ s _ _ (load_net_ok (hp s) p n Hp)), Hb.
  replace (NetS (hp s) (mgr s)) with s by (by destruct s).
  rewrite El, pool_erase_middle, pool_next_middle in Hr by done.
  destruct (it_cursor_ (mgr s)) as [|k|]; [| |done]; destruct Hr as [Hr _];
    etransitivity; [exact Hr| |exact Hr|]; unfold freed; by rewrite Hb.
Qed.

Lemma remove_handler_witness :
  exists s', RemoveHandler (Some 3) one_handler = Ok (0, s') /\
    handler_pool_ (mgr s') = [] /\ it_cursor_ (mgr s') = AtEnd /\ bevs (hp s') = ∅.
Proof.
  destruct (remove_handler one_handler [] 9 3 [] _ one_handler_ok eq_refl eq_refl) as (b & Hb & E);
    [discriminate|]. injection Hb as <-.
  eexists. split; [exact E|]. split; [reflexivity|]. split; vm_compute; reflexivity.
Defined.

(** The cursor is kept when a connection is added.  When the
    insertion rehashes the table, which invalidates its iterators, the next walk
    uses an invalid iterator. *)
Theorem rehash_then_walk {C} {HO : HashOrder} (s : NetSt C) p n b x act :
  nets (hp s) !! p = Some n -> hevent_ n = Some b -> bevs (hp s) !! b = Some x ->
  pool_find (handler_pool_ (mgr s)) (bev_fd x) = None ->
  snd (place (tick (hp s)) (handler_pool_ (mgr s)) (bev_fd x, Some p)) = true ->
  exists s', AddHandlerToMap (Some p) s = Ok (0, s') /\
    WalkThrough (Some act) s' = Fault UseAfterFree.
Proof.
  intros Hp Hb Hx Hf Hre.
  destruct (place (tick (hp s)) (handler_pool_ (mgr s)) (bev_fd x, Some p)) as [l' re] eqn:Ep.
  cbn in Hre. subst re. destruct s as [h m]. cbn [hp mgr] in *. eexists. split.
  - unfold AddHandlerToMap, mbind, M_bind.
    rewrite (on_heap_ok _ (NetS h m) _ _ (load_net_ok h p n Hp)), Hb. cbn [hp mgr].
    rewrite (on_heap_ok _ (NetS h m) _ _ (getfd_ok h b x Hx)). cbn [hp mgr].
    unfold pool_assign, mbind, M_bind, get. cbn [hp mgr]. rewrite Hf, Ep. reflexivity.
  - reflexivity.
Qed.

(** A table that rehashes at every insertion. *)
Definition rehash_order : HashOrder := fun _ l x => (x :: l, true).

Lemma rehash_then_walk_witness :
  exists s', AddHandlerToMap (HO := rehash_order) (Some 3)
               (NetS one_net (set_cursor AtEnd NetHandlerMgr_new)) = Ok (0, s') /\
    WalkThrough (Some idle_walk) s' = Fault UseAfterFree.
Proof.
  eapply (rehash_then_walk (HO := rehash_order) (NetS one_net (set_cursor AtEnd NetHandlerMgr_new)) 3);
    reflexivity.
Defined.
