(* ===== verification/Tables.v ===== *)
(** * Two connection tables over one heap

    The framework keeps its front ends and its back ends in two tables whose connections
    live in the same heap.  [tables] says that the two own the heap between them: every
    connection is in exactly one of them, and every bufferevent and every context belongs
    to a connection.  No new code; the operations of [NetMgr] on one table keep it. *)
From Stdlib Require Import ZArith Lia.
From stdpp Require Import base list gmap fin_maps.
From S2P Require Import Prelude CLib TcpSocket EasyNet NetMgr.
Local Open Scope Z_scope.

Section Tables.
Context {C : Type}.
Context (Q : callbacks -> bytes -> Prop).
Implicit Types (h : Heap C) (lb lf : HandlerPool) (n : EasyNet) (m : NetHandlerMgr).

(** The connection of an element has the callbacks [c]. *)
Definition called h (c : callbacks) (e : Z * option Z) : Prop :=
  forall p n b, snd e = Some p -> nets h !! p = Some n -> hevent_ n = Some b ->
    cbs h !! b = Some c.

(** [lb] are the back ends and [lf] the front ends; what is queued on a bufferevent
    satisfies [Q], which may ask more of some. *)
Record tables h lb lf : Prop := {
  ta_heap : heap_ok h;
  ta_keys : NoDup (keys (lb ++ lf));
  ta_entries : Forall (entry_ok h) (lb ++ lf);
  ta_nets p n : nets h !! p = Some n -> exists fd, (fd, Some p) ∈ lb ++ lf;
  ta_bevs b x : bevs h !! b = Some x -> exists p n, nets h !! p = Some n /\ hevent_ n = Some b;
  ta_uctxs c z : uctxs h !! c = Some z ->
    exists p n, nets h !! p = Some n /\ user_context_ n = Some c;
  ta_bcbs : Forall (called h backend_cb_funcs) lb;
  ta_fcbs : Forall (called h frontend_cb_funcs) lf;
  ta_inputs b x c : bevs h !! b = Some x -> cbs h !! b = Some c -> Q c (input x)
}.

(** The table [m] holds the elements of [l]. *)
Definition holds m l : Prop := handler_pool_ m = l /\ cursor_ok l (it_cursor_ m).

Lemma tables_all h lb lf m :
  tables h lb lf -> mgr_ok (NetS h (set_cursor AtEnd (set_pool (lb ++ lf) m))).
Proof using. intros Ht. split; cbn; [apply Ht..|done]. Qed.

Lemma tables_front h lb lf m : tables h lb lf -> holds m lf -> mgr_ok (NetS h m).
Proof using.
  intros Ht [Hl Hc]. pose proof (ta_keys _ _ _ Ht) as Hk. pose proof (ta_entries _ _ _ Ht) as He.
  unfold keys in Hk. rewrite fmap_app in Hk. apply NoDup_app in Hk as (_ & _ & Hk).
  apply Forall_app in He as [_ He]. split; cbn; [apply Ht|by rewrite Hl..|by rewrite Hl].
Qed.

Lemma tables_back h lb lf m : tables h lb lf -> holds m lb -> mgr_ok (NetS h m).
Proof using.
  intros Ht [Hl Hc]. pose proof (ta_keys _ _ _ Ht) as Hk. pose proof (ta_entries _ _ _ Ht) as He.
  unfold keys in Hk. rewrite fmap_app in Hk. apply NoDup_app in Hk as (Hk & _ & _).
  apply Forall_app in He as [He _]. split; cbn; [apply Ht|by rewrite Hl..|by rewrite Hl].
Qed.

(** ** Changes that keep who owns what *)

Record same_links h h' : Prop := {
  sl_nets p : option_Forall2 same_identity (nets h !! p) (nets h' !! p);
  sl_bevs b : option_Forall2 (fun x x' => bev_fd x' = bev_fd x /\
                  (forall c, cbs h !! b = Some c -> Q c (input x) -> Q c (input x')))
                (bevs h !! b) (bevs h' !! b);
  sl_uctxs c : is_Some (uctxs h' !! c) <-> is_Some (uctxs h !! c);
  sl_cbs : cbs h' = cbs h;
  sl_seed : nid_seed h' = nid_seed h
}.

#[export] Instance same_identity_preorder : PreOrder same_identity.
Proof using.
  split; [by intros n|]. intros n1 n2 n3 (? & ? & ?) (? & ? & ?). split; [|split]; congruence.
Qed.

#[export] Instance same_links_preorder : PreOrder same_links.
Proof using.
  split.
  - intros h. split; try done. intros k. destruct (bevs h !! k); by constructor.
  - intros h1 h2 h3 A B. split.
    + intros k. etransitivity; [apply (sl_nets _ _ A)|apply (sl_nets _ _ B)].
    + intros k. pose proof (sl_bevs _ _ A k) as Ak. pose proof (sl_bevs _ _ B k) as Bk.
      destruct (bevs h2 !! k); inversion Ak; inversion Bk; constructor;
        destruct_and!; (split; [congruence|]); intros c Hc Hq; rewrite <- (sl_cbs _ _ A) in *; auto.
    + intros c. by rewrite (sl_uctxs _ _ B), (sl_uctxs _ _ A).
    + by rewrite (sl_cbs _ _ B), (sl_cbs _ _ A).
    + by rewrite (sl_seed _ _ B), (sl_seed _ _ A).
Qed.

Lemma sl_net h h' p n : same_links h h' -> nets h !! p = Some n ->
  exists n', nets h' !! p = Some n' /\ same_identity n n'.
Proof using. intros Hs Hp. pose proof (sl_nets _ _ Hs p) as H. rewrite Hp in H. inversion H; eauto. Qed.

Lemma sl_net_back h h' p n' : same_links h h' -> nets h' !! p = Some n' ->
  exists n, nets h !! p = Some n /\ same_identity n n'.
Proof using. intros Hs Hp. pose proof (sl_nets _ _ Hs p) as H. rewrite Hp in H. inversion H; eauto. Qed.

Lemma sl_bev h h' b x : same_links h h' -> bevs h !! b = Some x ->
  exists x', bevs h' !! b = Some x' /\ bev_fd x' = bev_fd x /\
    (forall c, cbs h !! b = Some c -> Q c (input x) -> Q c (input x')).
Proof using. intros Hs Hb. pose proof (sl_bevs _ _ Hs b) as H. rewrite Hb in H. inversion H; eauto. Qed.

Lemma sl_bev_back h h' b x' : same_links h h' -> bevs h' !! b = Some x' ->
  exists x, bevs h !! b = Some x /\ bev_fd x' = bev_fd x /\
    (forall c, cbs h !! b = Some c -> Q c (input x) -> Q c (input x')).
Proof using. intros Hs Hb. pose proof (sl_bevs _ _ Hs b) as H. rewrite Hb in H. inversion H; eauto. Qed.

Lemma same_links_entry h h' e : same_links h h' -> entry_ok h e -> entry_ok h' e.
Proof using.
  intros Hs (p & n & b & x & Ep & Hp & Hb & Hx & Hf & Hpos).
  destruct (sl_net _ _ _ _ Hs Hp) as (n' & Hp' & Eb & _ & _).
  destruct (sl_bev _ _ _ _ Hs Hx) as (x' & Hx' & Ef & _).
  exists p, n', b, x'. repeat (split; [congruence|]). done.
Qed.

Lemma same_links_called h h' c e : same_links h h' -> called h c e -> called h' c e.
Proof using.
  intros Hs He p n' b Ep Hp' Hb. destruct (sl_net_back _ _ _ _ Hs Hp') as (n & Hp & Eb & _ & _).
  rewrite (sl_cbs _ _ Hs). apply (He p n); congruence.
Qed.

Lemma same_links_heap_ok h h' : same_links h h' -> heap_ok h -> heap_ok h'.
Proof using.
  intros Hs [H1 H2 H3 H4 H5 H6 H7]. split.
  - intros p n' b Hp Hb. destruct (sl_net_back _ _ _ _ Hs Hp) as (n & Hp0 & Eb & _ & _).
    destruct (H1 p n b Hp0) as [x Hx]; [congruence|].
    destruct (sl_bev _ _ _ _ Hs Hx) as (x' & Hx' & _). by eexists.
  - intros p q n' m' b Hp Hq Hb Hb'. destruct (sl_net_back _ _ _ _ Hs Hp) as (n & Hp0 & Eb & _ & _).
    destruct (sl_net_back _ _ _ _ Hs Hq) as (m & Hq0 & Eb' & _ & _).
    apply (H2 p q n m b); congruence.
  - intros p n' c Hp Hc. destruct (sl_net_back _ _ _ _ Hs Hp) as (n & Hp0 & _ & Ec & _).
    apply (sl_uctxs _ _ Hs). apply (H3 p n c); congruence.
  - intros p q n' m' c Hp Hq Hb Hb'. destruct (sl_net_back _ _ _ _ Hs Hp) as (n & Hp0 & _ & Eb & _).
    destruct (sl_net_back _ _ _ _ Hs Hq) as (m & Hq0 & _ & Eb' & _).
    apply (H4 p q n m c); congruence.
  - intros b c x' y' Hx Hy Ef Hpos.
    destruct (sl_bev_back _ _ _ _ Hs Hx) as (x & Hx0 & Ex & _).
    destruct (sl_bev_back _ _ _ _ Hs Hy) as (y & Hy0 & Ey & _).
    apply (H5 b c x y); [done|done|congruence|lia].
  - intros p n' Hp. destruct (sl_net_back _ _ _ _ Hs Hp) as (n & Hp0 & _ & _ & En).
    rewrite En, (sl_seed _ _ Hs). eauto.
  - intros p q n' m' Hp Hq En. destruct (sl_net_back _ _ _ _ Hs Hp) as (n & Hp0 & _ & _ & E1).
    destruct (sl_net_back _ _ _ _ Hs Hq) as (m & Hq0 & _ & _ & E2).
    apply (H7 p q n m); congruence.
Qed.

Lemma tables_same h h' lb lf : same_links h h' -> tables h lb lf -> tables h' lb lf.
Proof using.
  intros Hs [H1 H2 H3 H4 H5 H6 H7 H8 H9]. split; [by apply (same_links_heap_ok h)|done|..].
  - eapply Forall_impl; [exact H3|]. intros e. by apply same_links_entry.
  - intros p n' Hp. destruct (sl_net_back _ _ _ _ Hs Hp) as (n & Hp0 & _). eauto.
  - intros b x' Hb. destruct (sl_bev_back _ _ _ _ Hs Hb) as (x & Hx & _).
    destruct (H5 b x Hx) as (p & n & Hp & Hn).
    destruct (sl_net _ _ _ _ Hs Hp) as (n' & Hp' & Eb & _). exists p, n'. split; [done|congruence].
  - intros c z' Hc. destruct (proj1 (sl_uctxs _ _ Hs c)) as [z Hz]; [by eexists|].
    destruct (H6 c z Hz) as (p & n & Hp & Hn).
    destruct (sl_net _ _ _ _ Hs Hp) as (n' & Hp' & _ & Ec & _). exists p, n'. split; [done|congruence].
  - eapply Forall_impl; [exact H7|]. intros e. by apply same_links_called.
  - eapply Forall_impl; [exact H8|]. intros e. by apply same_links_called.
  - intros b x' c Hb. rewrite (sl_cbs _ _ Hs).
    destruct (sl_bev_back _ _ _ _ Hs Hb) as (x & Hx & _ & Hi). eauto.
Qed.

(** The changes the framework makes itself. *)
Lemma same_links_frame h h' :
  nets h' = nets h -> bevs h' = bevs h -> uctxs h' = uctxs h -> cbs h' = cbs h ->
  nid_seed h' = nid_seed h -> same_links h h'.
Proof using.
  intros E1 E2 E3 E4 E5. split; [intros k; by rewrite E1| |intros c; by rewrite E3|done|done].
  intros k. rewrite E2. destruct (bevs h !! k); by constructor.
Qed.

Lemma same_links_net h p n n' :
  nets h !! p = Some n -> same_identity n n' -> same_links h (set_nets (<[p := n']> (nets h)) h).
Proof using.
  intros Hp Hn. split; try done; cbn; intros k.
  - destruct (decide (k = p)) as [->|Hk].
    + rewrite lookup_insert_eq, Hp. by constructor.
    + rewrite lookup_insert_ne by done. destruct (nets h !! k); by constructor.
  - destruct (bevs h !! k); by constructor.
Qed.

Lemma same_links_bev h b x x' :
  bevs h !! b = Some x -> bev_fd x' = bev_fd x ->
  (forall c, cbs h !! b = Some c -> Q c (input x) -> Q c (input x')) ->
  same_links h (set_bevs (<[b := x']> (bevs h)) h).
Proof using.
  intros Hb Ef Hi. split; try done; cbn; intros k. destruct (decide (k = b)) as [->|Hk].
  - rewrite lookup_insert_eq, Hb. by constructor.
  - rewrite lookup_insert_ne by done. destruct (bevs h !! k); by constructor.
Qed.

(** ** Taking front ends out *)

Lemma pool_erase_elem l fd e :
  NoDup (keys l) -> (e ∈ pool_erase l fd <-> e ∈ l /\ fst e <> fd).
Proof using.
  intros Hnd. induction l as [|[k v] l IH]; cbn.
  { split; [by intros ?%not_elem_of_nil|by intros [?%not_elem_of_nil _]]. }
  cbn in Hnd. apply NoDup_cons in Hnd as [Hk Hnd]. specialize (IH Hnd).
  destruct (Z.eqb_spec k fd) as [->|Hne]; rewrite ?elem_of_cons.
  - split; [|intros [[->|He] Hf]; done]. intros He. split; [by right|]. intros <-.
    apply Hk. by apply list_elem_of_fmap_2.
  - rewrite IH. split; [intros [->|[He Hf]]; auto|]. intros [[->|He] Hf]; auto.
Qed.

Lemma pool_erase_app l1 l2 fd : fd ∉ keys l1 -> pool_erase (l1 ++ l2) fd = l1 ++ pool_erase l2 fd.
Proof using.
  induction l1 as [|[k v] l1 IH]; cbn; [done|]. rewrite not_elem_of_cons. intros [Hk Hl].
  destruct (Z.eqb_spec k fd); [congruence|]. by rewrite IH.
Qed.

Lemma pool_erase_length l fd : (length (pool_erase l fd) <= length l)%nat.
Proof using. induction l as [|[k v] l IH]; cbn; [done|]. destruct (k =? fd); cbn; lia. Qed.

Lemma pool_begin_valid l : pool_begin l <> Invalid.
Proof using. by destruct l as [|[k v] l]. Qed.

Lemma front_not_back h lb lf fd v : tables h lb lf -> (fd, v) ∈ lf -> fd ∉ keys lb.
Proof using.
  intros Ht Hin Hk. pose proof (ta_keys _ _ _ Ht) as Hnd. unfold keys in *.
  rewrite fmap_app in Hnd. apply NoDup_app in Hnd as (_ & Hd & _). apply (Hd fd Hk).
  change fd with (fst (fd, v)). by apply list_elem_of_fmap_2.
Qed.

Lemma tables_freed h lb lf fd p n b :
  tables h lb lf -> (fd, Some p) ∈ lf -> nets h !! p = Some n -> hevent_ n = Some b ->
  tables (freed p n h) lb (pool_erase lf fd).
Proof using.
  intros Ht Hin Hp Hb. pose proof (front_not_back _ _ _ _ _ Ht Hin) as Hk.
  assert (Hin' : (fd, Some p) ∈ lb ++ lf) by (apply elem_of_app; by right).
  pose proof (remove_found _ fd p n b (tables_all h lb lf NetHandlerMgr_new Ht) Hin' Hp Hb) as Hr.
  cbn in Hr. destruct Hr as [_ [H1 H2 H3 _]]. cbn in H1, H2, H3.
  rewrite pool_erase_app in H2, H3 by done.
  destruct Ht as [Hh Hnd Hen Hn Hbv Hu Hbc Hfc Hi].
  assert (Hsub : forall q n0, nets (freed p n h) !! q = Some n0 -> q <> p /\ nets h !! q = Some n0).
  { intros q n0. cbn. intros [Hq Hm]%lookup_delete_Some. split; [congruence|done]. }
  assert (Hcalled : forall c e, called h c e -> called (freed p n h) c e).
  { intros c e He q n0 d Eq Hq Hd. apply Hsub in Hq as [_ Hq]. by apply (He q n0). }
  split; [done|done|done|..].
  - intros q n0 Hq. apply Hsub in Hq as [Hne Hq]. destruct (Hn q n0 Hq) as [k Hk'].
    exists k. rewrite elem_of_app in *. destruct Hk' as [|Hk']; [by left|right].
    unfold keys in Hnd. rewrite fmap_app in Hnd. apply NoDup_app in Hnd as (_ & _ & Hnd).
    apply pool_erase_elem; [done|]. split; [done|]. cbn. intros ->.
    apply (pool_find_elem lf fd _ Hnd) in Hk', Hin. congruence.
  - intros c x Hc. cbn in Hc. rewrite Hb in Hc. apply lookup_delete_Some in Hc as [Hcb Hc].
    destruct (Hbv c x Hc) as (q & m & Hq & Hm). exists q, m. cbn.
    rewrite lookup_delete_ne; [done|]. intros ->. congruence.
  - intros c z Hc. cbn in Hc. assert (Hc' : uctxs h !! c = Some z /\ user_context_ n <> Some c).
    { destruct (user_context_ n) as [d|]; [|done]. apply lookup_delete_Some in Hc as [? ?].
      split; [done|congruence]. }
    destruct Hc' as [Hc' Hne]. destruct (Hu c z Hc') as (q & m & Hq & Hm). exists q, m. cbn.
    rewrite lookup_delete_ne; [done|]. intros ->. congruence.
  - eapply Forall_impl; [exact Hbc|]. apply Hcalled.
  - apply Forall_forall. intros e He. apply Hcalled. eapply Forall_forall; [exact Hfc|].
    unfold keys in Hnd. rewrite fmap_app in Hnd. apply NoDup_app in Hnd as (_ & _ & Hnd).
    by apply pool_erase_elem in He as [He _].
  - intros c x k Hc. cbn in Hc. rewrite Hb in Hc. apply lookup_delete_Some in Hc as [_ Hc].
    cbn. eauto.
Qed.

(** A table that can be walked through, with room for [room] connections. *)
Record walkable (room : nat) m : Prop := {
  wk_holds : holds m (handler_pool_ m);
  wk_valid : it_cursor_ m <> Invalid;
  wk_room : (length (handler_pool_ m) <= room)%nat
}.

Lemma remove_front room h lb m fd p n b :
  tables h lb (handler_pool_ m) -> walkable room m -> (fd, Some p) ∈ handler_pool_ m ->
  nets h !! p = Some n -> hevent_ n = Some b ->
  exists m', RemoveHandlerByEvent (Some b) (NetS h m) = Ok (0, NetS (freed p n h) m') /\
    tables (freed p n h) lb (handler_pool_ m') /\ walkable room m' /\
    recv_buffer_ m' = recv_buffer_ m /\
    (forall e, e ∈ handler_pool_ m' <-> e ∈ handler_pool_ m /\ fst e <> fd).
Proof using.
  intros Ht [Hh Hv Hl] Hin Hp Hb. pose proof (tables_front _ _ _ _ Ht Hh) as Hm.
  pose proof (remove_found _ fd p n b Hm Hin Hp Hb) as Hr. cbn [mgr hp] in Hr.
  pose proof (pool_erase_length (handler_pool_ m) fd) as Hlen.
  destruct (pool_split _ _ _ (mo_keys _ Hm) Hin) as (l1 & l2 & El & Hk1 & _). cbn [mgr] in El.
  destruct (it_cursor_ m) as [|k|] eqn:Ec; [| |done]; destruct Hr as [Hr Hok];
    (eexists; split; [exact Hr|]; split; [by apply (tables_freed h lb _ fd p n b)|split; [|split; [done|]]]);
    try (intros e; by apply pool_erase_elem, Hm);
    (split; [split; [done|apply (mo_cursor _ Hok)]| |cbn; lia]); cbn.
  - by rewrite bool_decide_eq_false_2.
  - destruct (bool_decide_reflect (At k = At fd)) as [_|]; [|done].
    rewrite El, pool_next_middle by done. apply pool_begin_valid.
Qed.

(** ** Walking through the front ends *)

(** What the framework leaves alone in a connection that stays. *)
Definition same_use (n n' : EasyNet) : Prop :=
  same_identity n n' /\ rpc_binded_ n' = rpc_binded_ n /\ state_ n' = state_ n.

(** The counter of the connections does not go back, and stays an [int]. *)
Definition seed_grows h h' : Prop := nid_seed h <= nid_seed h' <= Z.max (nid_seed h) 2147483647.

(** Connections have gone, and perhaps their bufferevents and contexts; what stays is as it
    was. *)
Record fewer h h' : Prop := {
  fw_nets p n' : nets h' !! p = Some n' -> exists n, nets h !! p = Some n /\ same_use n n';
  fw_bevs b x : bevs h' !! b = Some x -> bevs h !! b = Some x;
  fw_uctxs p n' c z : nets h' !! p = Some n' -> user_context_ n' = Some c ->
    uctxs h !! c = Some z -> uctxs h' !! c = Some z;
  fw_seed : seed_grows h h'
}.

#[export] Instance fewer_preorder : PreOrder fewer.
Proof using.
  split.
  - intros h. split; [|done|done|unfold seed_grows; lia]. intros p n Hp. by exists n.
  - intros h1 h2 h3 [A1 A2 A3 A4] [B1 B2 B3 B4].
    assert (H : forall p n3, nets h3 !! p = Some n3 -> exists n2 n1, nets h2 !! p = Some n2 /\
      same_use n2 n3 /\ nets h1 !! p = Some n1 /\ same_use n1 n2).
    { intros p n3 H3. destruct (B1 p n3 H3) as (n2 & Hn2 & ?).
      destruct (A1 p n2 Hn2) as (n1 & Hn1 & ?). eauto 10. }
    split; [|by eauto| |unfold seed_grows in *; lia].
    + intros p n3 H3. destruct (H p n3 H3) as (n2 & n1 & _ & (I2 & ? & ?) & Hn1 & (I1 & ? & ?)).
      exists n1. split; [done|]. split; [by transitivity n2|split; congruence].
    + intros p n3 c z H3 Hc Hz. destruct (H p n3 H3) as (n2 & n1 & Hn2 & ((_ & E & _) & _) & _).
      apply (B3 p n3); [done|done|]. apply (A3 p n2); [done|congruence|done].
Qed.

Lemma fewer_frame h h' :
  nets h' = nets h -> bevs h' = bevs h -> uctxs h' = uctxs h -> seed_grows h h' -> fewer h h'.
Proof using.
  intros E1 E2 E3 Hs. split; [rewrite E1|by rewrite E2|by rewrite E3|done]. intros p n Hp. by exists n.
Qed.

Lemma fewer_net h p n n' :
  nets h !! p = Some n -> same_use n n' -> fewer h (set_nets (<[p := n']> (nets h)) h).
Proof using.
  intros Hp En. split; [|done|done|unfold seed_grows; cbn; lia].
  intros q n0. cbn. destruct (decide (q = p)) as [->|Hq].
  - rewrite lookup_insert_eq. intros [= <-]. eauto.
  - rewrite lookup_insert_ne by done. intros Hq'. by exists n0.
Qed.

Lemma fewer_freed h p n : heap_ok h -> nets h !! p = Some n -> fewer h (freed p n h).
Proof using.
  intros Hh Hp. split.
  - intros q n0. cbn. intros [_ Hq]%lookup_delete_Some. by exists n0.
  - intros b x. cbn. destruct (hevent_ n) as [c|]; [|done]. by intros [_ Hb]%lookup_delete_Some.
  - intros q n0 c z. cbn. intros [Hne Hq]%lookup_delete_Some Hc Hz.
    destruct (user_context_ n) as [d|] eqn:Ed; [|done]. apply lookup_delete_Some.
    split; [|done]. intros ->. apply Hne. by apply (ho_ctx_inj h Hh p q n n0 c).
  - unfold seed_grows. cbn. lia.
Qed.

(** What a visit may change. *)
Definition visit_ok (act : IWalkEach) : Prop :=
  forall n, same_use n (snd (act n)).

Lemma walked_ok act l : visit_ok act -> forall h lb la lc,
  tables h lb (la ++ l ++ lc) ->
  tables (walked act l h) lb (la ++ List.filter (keeps act h) l ++ lc) /\
  fewer h (walked act l h) /\ nid_seed (walked act l h) = nid_seed h.
Proof using.
  intros Hact. induction l as [|[fd v] l IH]; intros h lb la lc Ht; [done|].
  assert (Hin : (fd, v) ∈ la ++ ((fd, v) :: l) ++ lc).
  { apply elem_of_app. right. by constructor. }
  assert (Hin' : (fd, v) ∈ lb ++ la ++ ((fd, v) :: l) ++ lc) by (apply elem_of_app; by right).
  destruct (proj1 (Forall_forall _ _) (ta_entries _ _ _ Ht) _ Hin')
    as (p & n & b & x & Ev & Hn & Hb & _). cbn in Ev. subst v.
  pose proof (Hact n) as Hbind. pose proof (proj1 Hbind) as Hid.
  set (h' := set_nets (<[p := snd (act n)]> (nets h)) h).
  assert (Ht' : tables h' lb (la ++ ((fd, Some p) :: l) ++ lc))
    by (apply (tables_same h); [by apply same_links_net with n|done]).
  assert (Hb' : fewer h h') by (by apply fewer_net with n).
  assert (Hkr : forall h2, (forall q, q <> p -> nets h2 !! q = nets h !! q) ->
    List.filter (keeps act h2) l = List.filter (keeps act h) l).
  { intros h2 Hh2. apply filter_ext_in. intros e He%list_elem_of_In.
    assert (He' : e ∈ lb ++ la ++ ((fd, Some p) :: l) ++ lc).
    { rewrite !elem_of_app, elem_of_cons. auto. }
    pose proof (ta_entries _ _ _ Ht) as Hen. rewrite Forall_forall in Hen.
    apply (keeps_other act h h2 fd p); [by apply Hen|by apply Hen| |done].
    intros Ek. pose proof (ta_keys _ _ _ Ht) as Hnd. unfold keys in Hnd.
    rewrite !fmap_app, fmap_cons in Hnd. apply NoDup_app in Hnd as (_ & _ & Hnd).
    apply NoDup_app in Hnd as (_ & _ & Hnd). apply NoDup_app in Hnd as (Hnd & _ & _).
    apply NoDup_cons in Hnd as [Hnd _]. apply Hnd. cbn. rewrite <- Ek. by apply list_elem_of_fmap_2. }
  assert (Hkp : keeps act h (fd, Some p) = (fst (act n) =? 0)) by (unfold keeps; cbn; by rewrite Hn).
  cbn [walked List.filter]. rewrite Hn, Hkp.
  destruct (act n) as [ret n'] eqn:Ea. cbn [fst snd] in *.
  assert (Hnp : nets h' !! p = Some n') by apply lookup_insert_eq.
  destruct (ret =? 0).
  - destruct (IH h' lb (la ++ [(fd, Some p)]) lc) as (H1 & H2 & H3).
    { by rewrite <- app_assoc. }
    rewrite <- app_assoc in H1. rewrite <- (Hkr h').
    2: { intros q Hq. cbn. by rewrite lookup_insert_ne. }
    split; [done|]. split; [by transitivity h'|done].
  - destruct Hid as (Eb & _). pose proof (tables_freed h' lb _ fd p n' b Ht' Hin Hnp
      (eq_trans Eb Hb)) as Hf.
    assert (Hla : fd ∉ keys la).
    { pose proof (ta_keys _ _ _ Ht) as Hnd. unfold keys in *. rewrite !fmap_app, fmap_cons in Hnd.
      apply NoDup_app in Hnd as (_ & _ & Hnd). apply NoDup_app in Hnd as (_ & Hnd & _).
      intros Hk. apply (Hnd _ Hk). cbn. by constructor. }
    rewrite pool_erase_app in Hf by done. cbn in Hf. rewrite Z.eqb_refl in Hf.
    destruct (IH _ lb la lc Hf) as (H1 & H2 & H3).
    rewrite (Hkr (freed p n' h')) in H1.
    2: { intros q Hq. cbn. by rewrite lookup_delete_ne, lookup_insert_ne. }
    split; [done|]. split; [|done].
    transitivity h'; [done|]. transitivity (freed p n' h'); [|done].
    apply fewer_freed; [apply Ht'|done].
Qed.

Lemma walk_front room h lb m act :
  tables h lb (handler_pool_ m) -> walkable room m -> visit_ok act ->
  exists h' m', WalkThrough (Some act) (NetS h m) = Ok (tt, NetS h' m') /\
    tables h' lb (handler_pool_ m') /\ walkable room m' /\ recv_buffer_ m' = recv_buffer_ m /\
    fewer h h' /\ nid_seed h' = nid_seed h /\
    (forall e, e ∈ handler_pool_ m' -> e ∈ handler_pool_ m).
Proof using.
  intros Ht [Hh Hv Hl] Hact. pose proof (tables_front _ _ _ _ Ht Hh) as Hm.
  destruct (cursor_split _ _ (mo_keys _ Hm) (mo_cursor _ Hm) Hv) as (l1 & l2 & El & Ec).
  cbn [mgr] in El, Ec.
  destruct (WalkThrough_ok act (NetS h m) l1 l2 (fun n => proj1 (Hact n)) Hm El Ec) as [Hrun Hok].
  cbn [hp mgr] in Hrun, Hok. rewrite El, <- (take_drop 1024 l2) in Ht.
  destruct (walked_ok act (take 1024 l2) Hact h lb l1 _ Ht) as (Ht' & Hbind & Hseed).
  do 2 eexists. split; [exact Hrun|]. cbn [handler_pool_ it_cursor_ recv_buffer_].
  split; [exact Ht'|]. split; [|split; [done|split; [done|split; [done|]]]].
  2: { intros e. rewrite El. rewrite !elem_of_app. intros [He|[He|He]]; [by left|right..].
       - apply list_elem_of_In, filter_In in He as [He _]. apply list_elem_of_In in He.
         rewrite <- (take_drop 1024 l2). apply elem_of_app. by left.
       - rewrite <- (take_drop 1024 l2). apply elem_of_app. by right. }
  split; cbn.
  - split; [done|apply (mo_cursor _ Hok)].
  - destruct (drop 1024 l2) as [|[k v] r]; [apply pool_begin_valid|done].
  - assert (Hf : (length (List.filter (keeps act h) (take 1024 l2)) <= length (take 1024 l2))%nat)
      by apply filter_length_le.
    rewrite El, <- (take_drop 1024 l2) in Hl at 1. rewrite !length_app in *. lia.
Qed.

(** ** New front ends *)

Lemma called_keeps h h' c e :
  heap_ok h -> keeps_cbs h h' ->
  (forall p n, snd e = Some p -> nets h' !! p = Some n -> nets h !! p = Some n) ->
  called h c e -> called h' c e.
Proof using.
  intros Hh Hk Hsub He p n b Ep Hp Hb. apply (Hsub p n Ep) in Hp.
  rewrite Hk by (by apply (ho_bev h Hh p n)). by apply (He p n).
Qed.

Lemma tables_kept h h' lb lf :
  nets h' = nets h -> bevs h' = bevs h -> uctxs h' = uctxs h -> keeps_cbs h h' -> heap_ok h' ->
  tables h lb lf -> tables h' lb lf.
Proof using.
  intros E1 E2 E3 Hk Hh' [H1 H2 H3 H4 H5 H6 H7 H8 H9].
  assert (Hc : forall c e, called h c e -> called h' c e).
  { intros c e. apply called_keeps; [done|done|]. intros p n _. by rewrite E1. }
  split; rewrite ?E1, ?E2, ?E3; try done.
  - eapply Forall_impl; [exact H3|]. intros e. by apply entry_ok_frame.
  - eapply Forall_impl; [exact H7|]. apply Hc.
  - eapply Forall_impl; [exact H8|]. apply Hc.
  - intros b x c Hx. rewrite Hk by (by eexists). by apply H9.
Qed.

(** The heap [h'] is [h] with a new connection at [p] and its bufferevent at [b]. *)
Record extends (st : NetState) h h' (p : Z) n (b : Z) (x : Bufferevent) : Prop := {
  ex_net : nets h !! p = None;
  ex_nets : nets h' = <[p := n]> (nets h);
  ex_bev : bevs h !! b = None;
  ex_bevs : bevs h' = <[b := x]> (bevs h);
  ex_link : hevent_ n = Some b;
  ex_uctxs : uctxs h' = uctxs h;
  ex_cbs : keeps_cbs h h';
  ex_nid : nid_ n = nid_seed h;
  ex_ctx : user_context_ n = None;
  ex_bound : rpc_binded_ n = None;
  ex_input : input x = [];
  ex_state : state_ n = st;
  ex_output : output x = [];
  ex_fd : forall c y, bevs h !! c = Some y -> bev_fd y <> bev_fd x
}.

(** The tables with one more element in that of the callbacks [c]. *)
Definition joined (c : callbacks) (e : Z * option Z) lb lf lb' lf' : Prop :=
  match c with
  | frontend_cb_funcs => lb' = lb /\ lf' ≡ₚ e :: lf
  | backend_cb_funcs => lf' = lf /\ lb' ≡ₚ e :: lb
  end.

Lemma joined_perm c e lb lf lb' lf' : joined c e lb lf lb' lf' -> lb' ++ lf' ≡ₚ e :: lb ++ lf.
Proof using. destruct c; intros [-> Hp]; rewrite Hp; [by rewrite Permutation_middle|done]. Qed.

(** The new connection with its callbacks. *)
Lemma tables_extended st c h h' lb lf lb' lf' p n b x :
  tables h lb lf -> extends st h h' p n b x -> (forall k, Q k []) -> heap_ok h' ->
  entry_ok h' (bev_fd x, Some p) -> joined c (bev_fd x, Some p) lb lf lb' lf' ->
  tables (set_cbs (<[b := c]> (cbs h')) h') lb' lf'.
Proof using.
  intros [H1 H2 H3 H4 H5 H6 H7 H8 H9] He HQ Hh' Hen Hj.
  pose proof He as [Hp En Hb Eb Hlink Eu Hk _ Hctx _ Hinp _ _ Hfd].
  set (h2 := set_cbs _ h').
  assert (Hkeys : forall e, e ∈ lb ++ lf -> fst e <> bev_fd x).
  { intros e Hin. eapply Forall_forall in H3; [|exact Hin].
    destruct H3 as (q & n0 & d & y & _ & _ & _ & Hy & Ey & _). rewrite <- Ey. by apply (Hfd d). }
  assert (Hold : forall q e, entry_ok h e -> snd e = Some q -> q <> p).
  { intros q e (q' & n0 & d & y & Eq' & Hq' & _) Eq. congruence. }
  assert (Hcalled : forall k e, entry_ok h e -> called h k e -> called h2 k e).
  { intros k e Hok Hce q n0 d Eq Hq Hd. assert (q <> p) by (by apply (Hold q e)).
    cbn in Hq. rewrite En, lookup_insert_ne in Hq by done.
    destruct (ho_bev h H1 q n0 d Hq Hd) as [y Hy]. cbn.
    rewrite lookup_insert_ne by congruence. rewrite Hk by (by eexists). by apply (Hce q n0). }
  assert (Hnew : called h2 c (bev_fd x, Some p)).
  { intros q n0 d [= <-] Hq Hd. cbn in Hq |- *. rewrite En, lookup_insert_eq in Hq.
    injection Hq as <-. rewrite Hlink in Hd. injection Hd as <-. apply lookup_insert_eq. }
  pose proof (joined_perm _ _ _ _ _ _ Hj) as Hperm'.
  split.
  - by apply (heap_ok_frame h').
  - unfold keys in *. rewrite Hperm', fmap_cons. apply NoDup_cons. split; [|done].
    intros (e & Ee & Hin)%list_elem_of_fmap. by apply (Hkeys e).
  - rewrite Hperm'. apply Forall_cons. split; [by apply (entry_ok_frame h')|].
    eapply Forall_impl; [exact H3|]. intros e Hok. apply (entry_ok_frame h'); [done|done|].
    by apply (entry_ok_linked h h' p b n x).
  - intros q n0. cbn. rewrite En. destruct (decide (q = p)) as [->|Hq].
    + intros _. exists (bev_fd x). rewrite Hperm'. by constructor.
    + rewrite lookup_insert_ne by done. intros Hq'. destruct (H4 q n0 Hq') as [k Hin].
      exists k. rewrite Hperm'. by constructor.
  - intros d y. cbn. rewrite Eb, En. destruct (decide (d = b)) as [->|Hc].
    + intros _. exists p, n. by rewrite lookup_insert_eq.
    + rewrite lookup_insert_ne by done. intros Hy. destruct (H5 d y Hy) as (q & n0 & Hq & Hd).
      exists q, n0. rewrite lookup_insert_ne by congruence. done.
  - intros d z. cbn. rewrite Eu, En. intros Hz. destruct (H6 d z Hz) as (q & n0 & Hq & Hd).
    exists q, n0. rewrite lookup_insert_ne by congruence. done.
  - apply Forall_app in H3 as [H3 _].
    assert (Hold' : Forall (called h2 backend_cb_funcs) lb).
    { rewrite Forall_forall in *. intros e Hin. by apply Hcalled; [apply H3|apply H7]. }
    destruct c; destruct Hj as [-> Hj]; [done|]. rewrite Hj. by constructor.
  - apply Forall_app in H3 as [_ H3].
    assert (Hold' : Forall (called h2 frontend_cb_funcs) lf).
    { rewrite Forall_forall in *. intros e Hin. by apply Hcalled; [apply H3|apply H8]. }
    destruct c; destruct Hj as [-> Hj]; [|done]. rewrite Hj. by constructor.
  - intros d y k. cbn. rewrite Eb. destruct (decide (d = b)) as [->|Hc].
    + rewrite lookup_insert_eq. intros [= <-] _. by rewrite Hinp.
    + rewrite !lookup_insert_ne by done. intros Hy. rewrite Hk by (by eexists). by apply H9.
Qed.
End Tables.

(** A table with fewer than [room] elements takes another one without a rehash. *)
Class HashRoom (H : HashOrder) (room : nat) : Prop :=
  no_rehash t l x : (length l < room)%nat -> snd (place t l x) = false.

Section Accept.
Context {C : Type} {E : NetEnv C} {HO : HashOrder} {EOk : NetEnvOk E} {HOk : HashOrderOk HO}.
Context (Q : callbacks -> bytes -> Prop) (room : nat) {HR : HashRoom HO room}.
Implicit Types (h : Heap C) (lb lf : HandlerPool) (n : EasyNet) (m : NetHandlerMgr).

Lemma accept_front h lb m sock type eb :
  tables Q h lb (handler_pool_ m) -> walkable room m -> (forall c, Q c []) ->
  1 <= nid_seed h < 2147483647 -> (length (handler_pool_ m) < room)%nat ->
  (forall c y, bevs h !! c = Some y -> bev_fd y <> sock) ->
  exists o h' m', AddHandlerBySocket sock type eb (NetS h m) = Ok (o, NetS h' m') /\
    recv_buffer_ m' = recv_buffer_ m /\ nid_seed h <= nid_seed h' <= nid_seed h + 1 /\
    match o with
    | None => m' = m /\ tables Q h' lb (handler_pool_ m) /\ fewer h h'
    | Some p => exists n b x, extends NET_ESTABLISHED h h' p n b x /\ bev_fd x = sock /\
        walkable room m' /\
        handler_pool_ m' ≡ₚ (bev_fd x, Some p) :: handler_pool_ m /\
        tables Q (set_cbs (<[b := frontend_cb_funcs]> (cbs h')) h') lb (handler_pool_ m')
    end.
Proof using EOk HOk HR.
  intros Ht [Hh Hv Hl] HQ Hseed Hroom Hfd. pose proof (tables_front _ _ _ _ _ Ht Hh) as Hm.
  destruct (AddHandlerBySocket_ok (NetS h m) sock type eb Hm Hseed Hfd)
    as (o & [h' m'] & Hrun & Hm' & Hev & Hk & Eu & Er & Es & Ho). cbn [hp mgr] in *.
  exists o, h', m'. split; [done|]. split; [done|].
  assert (Hgrow : nid_seed h <= nid_seed h' <= nid_seed h + 1) by (split; [apply Hev|done]).
  split; [done|].
  destruct o as [p|].
  - destruct Ho as (Hp & n & b & x & En & Enid & Eb & Hb & Hlink & Hi & Hbd & Hctx & _ & Hx & Hperm & Hcur & Hst & Hout & Hat).
    assert (He : extends NET_ESTABLISHED h h' p n b x) by (by split).
    exists n, b, x. split; [done|]. split; [done|]. split; [|split].
    + split; cbn; [split; [done|apply (mo_cursor _ Hm')]| |].
      * rewrite Hcur; [done|]. intros t. by apply no_rehash.
      * rewrite Hperm. cbn. lia.
    + exact Hperm.
    + apply (tables_extended Q NET_ESTABLISHED frontend_cb_funcs h h' lb (handler_pool_ m) lb _ p n b x);
        try done; [apply Hm'|].
      pose proof (mo_entries _ Hm') as Hall. rewrite Hperm in Hall. by apply Forall_cons in Hall as [? _].
  - destruct Ho as (-> & En & Eb). split; [done|]. split; [|apply fewer_frame; try done; unfold seed_grows; lia].
    apply (tables_kept Q h); try done. apply Hm'.
Qed.

(** A new back end. *)
Lemma connect_back h lf m uri type eb :
  tables Q h (handler_pool_ m) lf -> holds m (handler_pool_ m) -> (forall c, Q c []) ->
  1 <= nid_seed h < 2147483647 ->
  exists o h' m', AddHandlerByUri uri type eb (NetS h m) = Ok (o, NetS h' m') /\
    recv_buffer_ m' = recv_buffer_ m /\ nid_seed h <= nid_seed h' <= nid_seed h + 1 /\
    holds m' (handler_pool_ m') /\
    match o with
    | None => handler_pool_ m' = handler_pool_ m /\ nets h' = nets h /\ tables Q h' (handler_pool_ m) lf
    | Some p => exists n b x, extends NET_CONNECTING h h' p n b x /\ uri = Some (uri_ n) /\
        handler_pool_ m' ≡ₚ (bev_fd x, Some p) :: handler_pool_ m /\
        tables Q (set_cbs (<[b := backend_cb_funcs]> (cbs h')) h') (handler_pool_ m') lf
    end.
Proof using EOk HOk.
  intros Ht Hh HQ Hseed. pose proof (tables_back _ _ _ _ _ Ht Hh) as Hm.
  destruct (AddHandlerByUri_ok (NetS h m) uri type eb Hm Hseed)
    as (o & [h' m'] & Hrun & Hm' & Hev & Hk & Eu & Er & Es & Ho). cbn [hp mgr] in *.
  exists o, h', m'. split; [done|]. split; [done|]. split; [split; [apply Hev|done]|].
  split; [split; [done|apply (mo_cursor _ Hm')]|]. destruct o as [p|].
  - destruct Ho as (Hp & n & b & x & En & Enid & Eb & Hb & Hlink & Hi & Hbd & Hctx & _ & Hx & Hperm & _ & Hst & Hout & Hat).
    assert (He : extends NET_CONNECTING h h' p n b x) by (by split).
    exists n, b, x. split; [done|]. split; [done|]. split; [done|].
    apply (tables_extended Q NET_CONNECTING backend_cb_funcs h h' (handler_pool_ m) lf _ lf p n b x);
      try done; [apply Hm'|].
    pose proof (mo_entries _ Hm') as Hall. rewrite Hperm in Hall. by apply Forall_cons in Hall as [? _].
  - destruct Ho as (-> & En & Eb). do 2 (split; [done|]). apply (tables_kept Q h); try done. apply Hm'.
Qed.

(** The context of a connection that has none. *)
Lemma context_front h lb lf p n uctx_size :
  tables Q h lb lf -> nets h !! p = Some n -> user_context_ n = None ->
  exists r h' c, CreateUserContext p uctx_size h = Ok (r, h') /\ tables Q h' lb lf /\
    nets h' = <[p := set_user_context c n]> (nets h) /\ bevs h' = bevs h /\
    nid_seed h' = nid_seed h /\ cbs h' = cbs h /\
    (forall a z, uctxs h !! a = Some z -> uctxs h' !! a = Some z) /\
    (0 < uctx_size -> r = 0 -> is_Some c).
Proof using EOk.
  intros Ht Hp Hn. set (m := set_cursor AtEnd (set_pool (lb ++ lf) NetHandlerMgr_new)).
  pose proof (tables_all Q h lb lf NetHandlerMgr_new Ht) as Hm. fold m in Hm.
  assert (Hrun : exists r h' c, CreateUserContext p uctx_size h = Ok (r, h') /\
    nets h' = <[p := set_user_context c n]> (nets h) /\ nid_seed h' = nid_seed h /\
    bevs h' = bevs h /\ cbs h' = cbs h /\
    uctxs h' = match c with Some a => <[a := zero]> (uctxs h) | None => uctxs h end /\
    (forall a, c = Some a -> uctxs h !! a = None) /\ (0 < uctx_size -> r = 0 -> is_Some c)).
  { unfold CreateUserContext. destruct (Z.eqb_spec uctx_size 0).
    - exists 0, h, None. rewrite insert_id; [|rewrite <- Hn, Hp; by destruct n].
      repeat (split; [done|]). lia.
    - unfold mbind, M_bind, get. cbn [modify].
      destruct (env_calloc (tick h) (uctxs h)) as [a|] eqn:Ea; cbn [modify mret M_ret];
        erewrite upd_net_ok by (cbn; exact Hp); [eexists 0, _, (Some a)|eexists (-1), _, None];
        repeat (split; [done|]); [|done].
      split; [|by eexists]. intros d [= <-]. by apply (env_calloc_fresh (tick h)). }
  destruct Hrun as (r & h' & c & Hrun & En & Es & Eb & Ec & Eu & Ef & Hc). exists r, h', c.
  split; [done|]. split; [|repeat (split; [done|]); split; [|done]].
  2: { intros a z Hz. rewrite Eu. destruct c as [d|]; [|done]. rewrite lookup_insert_ne; [done|].
       intros ->. rewrite Ef in Hz by done. done. }
  destruct (context_step_ok (NetS h m) p n uctx_size r h' Hm Hp Hn Hrun) as [[Hh Hnd Hen _] _].
  cbn in Hh, Hnd, Hen. destruct Ht as [_ _ _ H4 H5 H6 H7 H8 H9].
  assert (Hnets : forall q n0, nets h !! q = Some n0 -> exists n1, nets h' !! q = Some n1 /\
    hevent_ n1 = hevent_ n0 /\ (user_context_ n0 <> None -> n1 = n0)).
  { intros q n0 Hq. rewrite En. destruct (decide (q = p)) as [->|Hne].
    - rewrite lookup_insert_eq. eexists. split; [done|]. assert (n0 = n) as -> by congruence.
      split; [done|]. by rewrite Hn.
    - rewrite lookup_insert_ne by done. eauto. }
  assert (Hback : forall q n1, nets h' !! q = Some n1 ->
    exists n0, nets h !! q = Some n0 /\ hevent_ n1 = hevent_ n0).
  { intros q n1. rewrite En. destruct (decide (q = p)) as [->|Hne].
    - rewrite lookup_insert_eq. intros [= <-]. by exists n.
    - rewrite lookup_insert_ne by done. eauto. }
  assert (Hcalled : forall k e, called h k e -> called h' k e).
  { intros k e He q n1 b Eq Hq Hb. destruct (Hback q n1 Hq) as (n0 & Hq0 & E0).
    rewrite Ec. apply (He q n0); congruence. }
  split; [done|done|done|..].
  - intros q n1 Hq. destruct (Hback q n1 Hq) as (n0 & Hq0 & _). eauto.
  - intros b x. rewrite Eb. intros Hx. destruct (H5 b x Hx) as (q & n0 & Hq & Hb).
    destruct (Hnets q n0 Hq) as (n1 & Hq1 & E1 & _). exists q, n1. split; [done|congruence].
  - intros a z. rewrite Eu. intros Hz.
    assert (Hz' : c = Some a \/ is_Some (uctxs h !! a)).
    { destruct c as [d|]; [|right; by eexists]. destruct (decide (d = a)) as [->|Hne]; [by left|].
      rewrite lookup_insert_ne in Hz by done. right. by eexists. }
    destruct Hz' as [->|[z' Hz']].
    + exists p, (set_user_context (Some a) n). by rewrite En, lookup_insert_eq.
    + destruct (H6 a z' Hz') as (q & n0 & Hq & Hb). destruct (Hnets q n0 Hq) as (n1 & Hq1 & _ & E1).
      exists q, n1. split; [done|]. rewrite E1; congruence.
  - eapply Forall_impl; [exact H7|]. apply Hcalled.
  - eapply Forall_impl; [exact H8|]. apply Hcalled.
  - intros b x k. rewrite Eb, Ec. apply H9.
Qed.
End Accept.
