(* ===== verification/CtrlCmd.v ===== *)
(** * Control commands: framework/rapidapp_ctrl_cmd_keyword.* and the control
    channel of framework/rapidapp_framework_imp.cpp

    A command arrives as one datagram in a static buffer, is cut into arguments in
    place and dispatched by its first argument.  The buffer is memory with its
    bounds; arguments are offsets into it. *)
From Stdlib Require Import ZArith Lia String.
From stdpp Require Import base list gmap.
From S2P Require Import Prelude CLib.
Local Open Scope Z_scope.

(** ** The hash *)

(** [char] is signed on the hosts of the program. *)
Definition schar (b : Z) : Z := if b <? 128 then b else b - 256.

(** The loop of [BKDRHash]. *)
Fixpoint BKDR_loop (str : bytes) (hash : Z) : Z :=
  match str with
  | [] => hash
  | c :: r => BKDR_loop r (u32 (u32 (hash * 13131313) + schar c))
  end.

(** [BKDRHash], src/framework/rapidapp_ctrl_cmd_keyword.h:20-36 *)
Definition BKDRHash (str : option bytes) : Z :=
  match str with
  | None => -1
  | Some s => Z.land (BKDR_loop s 0) (2 ^ 31 - 1)
  end.

Definition UDP_PORT_MIN : Z := 19090.
Definition UDP_PORT_COUNT : Z := 1024.

(** [AppFrameWork::SetCtrlSockFile], src/framework/rapidapp_framework_imp.cpp:405-406

    The port of the control socket. *)
Definition ctrl_port (ctrl_sock_file_name : bytes) : Z :=
  UDP_PORT_MIN + Z.rem (BKDRHash (Some ctrl_sock_file_name)) UDP_PORT_COUNT.

(** ** The dispatcher *)

(** [ICommandEventListener], src/framework/rapidapp_ctrl_cmd_keyword.h:10-18 *)
Record ICommandEventListener : Type := {
  GetCmdName : bytes;
  OnCommand : list bytes -> list bytes
}.

(** [AppControlDispatcher], src/framework/rapidapp_ctrl_cmd_keyword.h:52-96 *)
Definition CmdDictionary : Type := gmap bytes ICommandEventListener.

(** The dispatcher with the commands it has run, with their arguments. *)
Record Dispatcher : Type := {
  commad_dictionary_ : CmdDictionary;
  commands_run : list (bytes * list bytes)
}.
Definition Dispatcher_new : Dispatcher := {| commad_dictionary_ := ∅; commands_run := [] |}.

(** [AppControlDispatcher::AddSupportedCommand], src/framework/rapidapp_ctrl_cmd_keyword.h:60-67 *)
Definition AddSupportedCommand (listener : option ICommandEventListener)
    : M Dispatcher unit :=
  match listener with
  | None => mret tt
  | Some l =>
      modify (fun d => {| commad_dictionary_ := <[GetCmdName l := l]> (commad_dictionary_ d);
                          commands_run := commands_run d |})
  end.

(** [AppControlDispatcher::GetEventListener], src/framework/rapidapp_ctrl_cmd_keyword.h:86-93 *)
Definition GetEventListener (d : Dispatcher) (cmd : bytes) : option ICommandEventListener :=
  commad_dictionary_ d !! cmd.

(** [AppControlDispatcher::Dispatch], src/framework/rapidapp_ctrl_cmd_keyword.h:69-80

    The lines the command gives back are dropped. *)
Definition Dispatch (argv : list bytes) : M Dispatcher Z :=
  match argv with
  | [] => mret (-1)
  | cmd :: _ =>
      d ← get;
      match GetEventListener d cmd with
      | Some l =>
          let _ := OnCommand l argv in
          _ ← modify (fun d => {| commad_dictionary_ := commad_dictionary_ d;
                                  commands_run := commands_run d ++ [(GetCmdName l, argv)] |});
          mret 0
      | None => mret (-1)
      end
  end.

(** [HelpCommand], src/framework/rapidapp_ctrl_cmd_keyword.cpp:5-22 *)
Definition HelpCommand : ICommandEventListener := {|
  GetCmdName := bytes_of_string "help";
  OnCommand _ := [bytes_of_string "{getrundata: " ++ [34] ++ bytes_of_string "get runtime statistic data"
                  ++ [34] ++ bytes_of_string "}"]
|}.

(** [AppControlDispatcher::AddDefaultSupportedCommand], src/framework/rapidapp_ctrl_cmd_keyword.cpp:24-28 *)
Definition AddDefaultSupportedCommand : M Dispatcher unit :=
  AddSupportedCommand (Some HelpCommand).

(** ** Cutting a command into arguments *)

(** The number of bytes up to the first one that does not satisfy [p]; the scan
    faults at the end of the memory. *)
Fixpoint scan (l : bytes) (p : Z -> bool) : outcome nat :=
  match l with
  | [] => Fault OutOfBounds
  | c :: r => if p c then n ← scan r p; mret (S n) else mret 0%nat
  end.

(** The string at an offset. *)
Definition cstr_at (buf : bytes) (off : nat) : outcome bytes :=
  n ← scan (drop off buf) (fun c => negb (c =? 0));
  mret (take n (drop off buf)).

Definition poke (buf : bytes) (off : nat) (c : Z) : outcome bytes :=
  if (off <? length buf)%nat then Ok (<[off := c]> buf) else Fault OutOfBounds.

(** [strtok_r(s, delim, &save)] of the C library: whether there is a token, the
    save pointer and the memory. *)
Definition strtok_r (buf : bytes) (s : nat) (delim : bytes) : outcome (bool * nat * bytes) :=
  skip ← scan (drop s buf) (fun c => negb (c =? 0) && existsb (Z.eqb c) delim);
  let s := (s + skip)%nat in
  n ← scan (drop s buf) (fun c => negb (c =? 0) && negb (existsb (Z.eqb c) delim));
  if (n =? 0)%nat then mret (false, s, buf)
  else
    let e := (s + n)%nat in
    match buf !! e with
    | None => Fault OutOfBounds
    | Some c =>
        if c =? 0 then mret (true, e, buf)
        else buf' ← poke buf e 0; mret (true, S e, buf')
    end.

Definition MAX_CTRL_MSG_LEN : nat := 2048.
Definition MAX_ARGUMENTS_NUM : nat := 32.

(** [CTRL_CMD_DELIMETER], src/framework/rapidapp_framework_imp.cpp:66-66

    The address of this [char] is used as a string, so the delimiters are a space
    and whatever bytes follow the constant in memory, up to a zero byte. *)
Definition delimiters (behind : bytes) : bytes := 32 :: behind.

(** The loop of [libevent_get_arguments]; [room] is [MAX_ARGUMENTS_NUM - i]. *)
Fixpoint arguments_loop (behind : bytes) (room : nat) (buf : bytes) (start_ptr : nat)
    (argv : list nat) : outcome (list nat * bytes) :=
  '(found, ptr, buf) ← strtok_r buf start_ptr (delimiters behind);
  if (found : bool) then
    match room with
    | O => mret (argv, buf)
    | S room =>
        buf ← poke buf ptr 0;
        arguments_loop behind room buf (S ptr) (argv ++ [start_ptr])
    end
  else mret (argv, buf).

(** [libevent_get_arguments], src/framework/rapidapp_framework_imp.cpp:82-99 *)
Definition libevent_get_arguments (behind buf : bytes) : outcome (list nat * bytes) :=
  arguments_loop behind MAX_ARGUMENTS_NUM buf 0 [].

Fixpoint strings_at (buf : bytes) (offs : list nat) : outcome (list bytes) :=
  match offs with
  | [] => mret []
  | o :: r => s ← cstr_at buf o; rest ← strings_at buf r; mret (s :: rest)
  end.

(** ** The control channel *)

(** The dispatcher, the static buffer of [OnCtrlMsg] and the commands handed to
    the application. *)
Record CtrlSt : Type := {
  dispatcher : Dispatcher;
  ctrl_msg : bytes;
  app_commands : list (list bytes)
}.
Definition CtrlSt_new (d : Dispatcher) : CtrlSt :=
  {| dispatcher := d; ctrl_msg := replicate MAX_CTRL_MSG_LEN 0; app_commands := [] |}.

(** [AppFrameWork::OnCtrlMsg], src/framework/rapidapp_framework_imp.cpp:912-956

    [datagram] is what [bufferevent_read] delivers, at most the size of the
    buffer. *)
Definition OnCtrlMsg (behind datagram : bytes) : M CtrlSt Z := fun st =>
  let data := take MAX_CTRL_MSG_LEN datagram in
  if (length data =? 0)%nat then Ok (-1, st)
  else
    let buf := <[(MAX_CTRL_MSG_LEN - 1)%nat := 0]> (data ++ drop (length data) (ctrl_msg st)) in
    '(offs, buf) ← libevent_get_arguments behind buf;
    argv ← strings_at buf offs;
    '(ret, d) ← Dispatch argv (dispatcher st);
    Ok (0, {| dispatcher := d; ctrl_msg := buf;
              app_commands := if ret =? 0 then app_commands st
                              else app_commands st ++ [argv] |}).

(** ** Lemmas *)

Lemma BKDR_loop_range str hash : 0 <= hash < 2 ^ 32 -> 0 <= BKDR_loop str hash < 2 ^ 32.
Proof.
  revert hash. induction str as [|c r IH]; intros hash H; [done|].
  cbn [BKDR_loop]. apply IH. apply u32_range.
Qed.

Lemma BKDRHash_range str : 0 <= BKDRHash (Some str) < 2 ^ 31.
Proof.
  unfold BKDRHash. change (2 ^ 31 - 1) with (Z.ones 31). rewrite Z.land_ones by lia.
  apply Z.mod_pos_bound. lia.
Qed.

(** Scanning a segment whose end is known. *)
Lemma scan_segment l1 c l2 p :
  Forall (fun x => p x = true) l1 -> p c = false -> scan (l1 ++ c :: l2) p = Ok (length l1).
Proof.
  intros H Hc. induction H as [|x l Hx Hl IH]; cbn [scan app].
  - by rewrite Hc.
  - by rewrite Hx, IH.
Qed.

(** A byte that belongs to a word: neither a delimiter nor the terminator. *)
Definition wordchar (behind : bytes) (c : Z) : Prop :=
  c <> 0 /\ existsb (Z.eqb c) (delimiters behind) = false.

Lemma drop_middle {A} (l1 l2 : list A) n : length l1 = n -> drop n (l1 ++ l2) = l2.
Proof. intros <-. apply drop_app_length. Qed.

(** A word at an offset, ended by the terminator or by a space. *)
Lemma strtok_word behind pre w c post :
  w <> [] -> Forall (wordchar behind) w -> c = 0 \/ c = 32 ->
  strtok_r (pre ++ w ++ c :: post) (length pre) (delimiters behind)
  = Ok (if c =? 0 then (true, (length pre + length w)%nat, pre ++ w ++ c :: post)
        else (true, S (length pre + length w), pre ++ w ++ 0 :: post)).
Proof.
  intros Hne Hw Hc. unfold strtok_r. rewrite drop_app_length.
  destruct w as [|x w]; [done|]. inversion Hw as [|? ? [Hx0 Hx] Hw']; subst.
  rewrite <- app_comm_cons. cbn [scan]. rewrite Hx, andb_false_r. cbn [mbind outcome_bind mret outcome_ret].
  rewrite Nat.add_0_r, drop_app_length, app_comm_cons, (scan_segment (x :: w) c post).
  2: { eapply Forall_impl; [exact Hw|]. intros y [Hy0 Hy]. rewrite Hy.
       destruct (Z.eqb_spec y 0); [done|done]. }
  2: { destruct Hc as [->| ->]; [done|]. cbn. done. }
  cbn [mbind outcome_bind length Nat.eqb].
  assert (El : (pre ++ (x :: w) ++ c :: post) !! (length pre + S (length w))%nat = Some c).
  { rewrite app_assoc. apply list_lookup_middle. rewrite length_app. done. }
  rewrite El. destruct Hc as [->| ->]; cbn [Z.eqb]; [done|].
  unfold poke. rewrite (proj2 (Nat.ltb_lt _ _)) by (rewrite !length_app; cbn; lia).
  cbn [mbind outcome_bind mret outcome_ret]. do 3 f_equal. rewrite !app_assoc.
  replace (length pre + S (length w))%nat with (length (pre ++ x :: w) + 0)%nat
    by (rewrite length_app; cbn; lia).
  by rewrite insert_app_r.
Qed.

(** No token at a terminator. *)
Lemma strtok_end behind pre post :
  strtok_r (pre ++ 0 :: post) (length pre) (delimiters behind)
  = Ok (false, length pre, pre ++ 0 :: post).
Proof.
  unfold strtok_r. rewrite drop_app_length. cbn [scan Z.eqb negb andb mbind outcome_bind mret outcome_ret].
  rewrite Nat.add_0_r, drop_app_length. reflexivity.
Qed.

Lemma cstr_at_ok pre w post :
  Forall (fun c => c <> 0) w -> cstr_at (pre ++ w ++ 0 :: post) (length pre) = Ok w.
Proof.
  intros Hw. unfold cstr_at. rewrite drop_app_length, scan_segment.
  - cbn. by rewrite take_app_length.
  - eapply Forall_impl; [exact Hw|]. intros x Hx. destruct (Z.eqb_spec x 0); done.
  - done.
Qed.

Lemma poke_ok pre c post v : poke (pre ++ c :: post) (length pre) v = Ok (pre ++ v :: post).
Proof.
  unfold poke. rewrite (proj2 (Nat.ltb_lt _ _)) by (rewrite length_app; cbn; lia).
  f_equal. rewrite <- (Nat.add_0_r (length pre)). by rewrite insert_app_r.
Qed.

Lemma wordchars_nonzero behind w : Forall (wordchar behind) w -> Forall (fun c => c <> 0) w.
Proof. intros H. eapply Forall_impl; [exact H|]. by intros x [? _]. Qed.

(** One round of the loop on a word that ends at the terminator. *)
Lemma arguments_last behind pre w z post room argv :
  w <> [] -> Forall (wordchar behind) w ->
  arguments_loop behind (S room) (pre ++ w ++ 0 :: z :: post) (length pre) argv
  = arguments_loop behind room (pre ++ w ++ 0 :: z :: post)
      (length (pre ++ w ++ [0])) (argv ++ [length pre]).
Proof.
  intros Hne Hw. cbn [arguments_loop]. rewrite strtok_word by auto.
  cbn [Z.eqb mbind outcome_bind].
  replace (length pre + length w)%nat with (length (pre ++ w)) by apply length_app.
  rewrite app_assoc, poke_ok. cbn [mbind outcome_bind]. f_equal.
  rewrite !length_app. cbn. lia.
Qed.

Lemma arguments_end behind pre post room argv :
  arguments_loop behind room (pre ++ 0 :: post) (length pre) argv = Ok (argv, pre ++ 0 :: post).
Proof. destruct room; cbn [arguments_loop]; by rewrite strtok_end. Qed.

Lemma one_word_args behind w post :
  w <> [] -> Forall (wordchar behind) w ->
  libevent_get_arguments behind (w ++ 0 :: 0 :: post) = Ok ([0%nat], w ++ 0 :: 0 :: post).
Proof.
  intros Hne Hw. unfold libevent_get_arguments, MAX_ARGUMENTS_NUM.
  pose proof (arguments_last behind [] w 0 post 31 [] Hne Hw) as E. cbn [app length] in E.
  rewrite E. clear E.
  replace (w ++ 0 :: 0 :: post) with ((w ++ [0]) ++ 0 :: post) by (by rewrite <- app_assoc).
  apply arguments_end.
Qed.

(** One round on a word that ends at a space: the byte behind it is lost. *)
Lemma arguments_space behind pre w x post room argv :
  w <> [] -> Forall (wordchar behind) w ->
  arguments_loop behind (S room) (pre ++ w ++ 32 :: x :: post) (length pre) argv
  = arguments_loop behind room ((pre ++ w ++ [0; 0]) ++ post)
      (length (pre ++ w ++ [0; 0])) (argv ++ [length pre]).
Proof.
  intros Hne Hw. cbn [arguments_loop]. rewrite strtok_word by auto.
  cbn [Z.eqb Pos.eqb mbind outcome_bind].
  replace (pre ++ w ++ 0 :: x :: post) with ((pre ++ w ++ [0]) ++ x :: post)
    by (by rewrite <- !app_assoc).
  replace (S (length pre + length w)) with (length (pre ++ w ++ [0]))
    by (rewrite !length_app; cbn; lia).
  rewrite poke_ok. cbn [mbind outcome_bind]. f_equal.
  - by rewrite <- !app_assoc.
  - rewrite !length_app. cbn. lia.
Qed.

Lemma two_word_args behind w1 x w2 post :
  w1 <> [] -> w2 <> [] -> Forall (wordchar behind) w1 -> Forall (wordchar behind) w2 ->
  libevent_get_arguments behind (w1 ++ 32 :: x :: w2 ++ 0 :: 0 :: post)
  = Ok ([0%nat; (length w1 + 2)%nat], w1 ++ 0 :: 0 :: w2 ++ 0 :: 0 :: post).
Proof.
  intros Hn1 Hn2 H1 H2. unfold libevent_get_arguments, MAX_ARGUMENTS_NUM.
  pose proof (arguments_space behind [] w1 x (w2 ++ 0 :: 0 :: post) 31 [] Hn1 H1) as E.
  cbn [app length] in E. rewrite E. clear E. rewrite arguments_last by done.
  replace ((w1 ++ [0; 0]) ++ w2 ++ 0 :: 0 :: post)
    with (((w1 ++ [0; 0]) ++ w2 ++ [0]) ++ 0 :: post) by (by rewrite <- !app_assoc).
  rewrite arguments_end. cbn [app]. rewrite length_app. by rewrite <- !app_assoc.
Qed.

Lemma two_word_strings w1 w2 post :
  Forall (fun c => c <> 0) w1 -> Forall (fun c => c <> 0) w2 ->
  strings_at (w1 ++ 0 :: 0 :: w2 ++ 0 :: 0 :: post) [0%nat; (length w1 + 2)%nat] = Ok [w1; w2].
Proof.
  intros H1 H2. cbn [strings_at].
  pose proof (cstr_at_ok [] w1 (0 :: w2 ++ 0 :: 0 :: post) H1) as E1. cbn [app length] in E1.
  pose proof (cstr_at_ok (w1 ++ [0; 0]) w2 (0 :: post) H2) as E2.
  rewrite <- app_assoc in E2. cbn [app] in E2.
  replace (length (w1 ++ [0; 0])) with (length w1 + 2)%nat in E2 by (rewrite length_app; done).
  by rewrite E1, E2.
Qed.

(** The buffer once a datagram has been read into it. *)
Lemma ctrl_buffer data old :
  (length data < MAX_CTRL_MSG_LEN)%nat -> length old = MAX_CTRL_MSG_LEN ->
  last old = Some 0 ->
  <[(MAX_CTRL_MSG_LEN - 1)%nat := 0]> (data ++ drop (length data) old)
  = data ++ drop (length data) old.
Proof.
  intros Hd Ho Hl. apply list_insert_id. rewrite lookup_app_r by lia. rewrite lookup_drop.
  rewrite last_lookup, Ho in Hl. rewrite <- Hl. f_equal. lia.
Qed.

(** ** Properties *)

(** [ctrl_command]. A command of one word runs the command registered last under
    this name, and is handed to the application when there is none; the bytes of
    the buffer behind the word must be zero. *)
Theorem ctrl_command behind w st post :
  w <> [] -> Forall (wordchar behind) w -> (length w < MAX_CTRL_MSG_LEN - 1)%nat ->
  length (ctrl_msg st) = MAX_CTRL_MSG_LEN -> last (ctrl_msg st) = Some 0 ->
  drop (length w) (ctrl_msg st) = 0 :: 0 :: post ->
  OnCtrlMsg behind w st
  = Ok (0, match commad_dictionary_ (dispatcher st) !! w with
           | Some l =>
               {| dispatcher := {| commad_dictionary_ := commad_dictionary_ (dispatcher st);
                                   commands_run := commands_run (dispatcher st)
                                                     ++ [(GetCmdName l, [w])] |};
                  ctrl_msg := w ++ 0 :: 0 :: post; app_commands := app_commands st |}
           | None =>
               {| dispatcher := dispatcher st; ctrl_msg := w ++ 0 :: 0 :: post;
                  app_commands := app_commands st ++ [[w]] |}
           end).
Proof.
  intros Hne Hw Hlen Hold Hlast Hd. unfold OnCtrlMsg.
  rewrite take_ge by (unfold MAX_CTRL_MSG_LEN in *; lia).
  destruct (Nat.eqb_spec (length w) 0) as [E|_]; [by destruct w|].
  rewrite ctrl_buffer by (done || lia). rewrite Hd, one_word_args by done.
  cbn [mbind outcome_bind strings_at].
  pose proof (cstr_at_ok [] w (0 :: post) (wordchars_nonzero behind w Hw)) as E. cbn [app length] in E.
  rewrite E. cbn [mbind outcome_bind mret outcome_ret Dispatch].
  unfold Dispatch, mbind, M_bind, get, GetEventListener.
  by destruct (commad_dictionary_ (dispatcher st) !! w).
Qed.

Definition with_help : Dispatcher :=
  {| commad_dictionary_ := {[ bytes_of_string "help" := HelpCommand ]}; commands_run := [] |}.

Lemma ctrl_command_witness :
  exists st', OnCtrlMsg [] (bytes_of_string "help") (CtrlSt_new with_help) = Ok (0, st') /\
    commands_run (dispatcher st') = [(bytes_of_string "help", [bytes_of_string "help"])].
Proof.
  eexists. split.
  - apply (ctrl_command [] (bytes_of_string "help") (CtrlSt_new with_help) (replicate 2042 0)).
    + discriminate.
    + repeat constructor; discriminate.
    + vm_compute. lia.
    + apply length_replicate.
    + vm_compute. reflexivity.
    + vm_compute. reflexivity.
  - reflexivity.
Defined.

(** Of a command of two words the second argument
    loses its first byte: [libevent_get_arguments] stores a zero at the save pointer
    of [strtok_r], which is the first byte of the next token, and goes on behind it.
    When a word is terminated by a zero byte, the bytes behind the terminator - of an
    earlier, longer command in the static buffer - are taken for a further argument. *)
Theorem second_argument_truncated behind w1 x w2 post :
  w1 <> [] -> w2 <> [] -> Forall (wordchar behind) w1 -> Forall (wordchar behind) w2 ->
  ('(offs, buf) ← libevent_get_arguments behind (w1 ++ 32 :: x :: w2 ++ 0 :: 0 :: post);
   strings_at buf offs) = Ok [w1; w2] /\
  ('(offs, buf) ← libevent_get_arguments behind (w1 ++ 0 :: w2 ++ 0 :: 0 :: post);
   strings_at buf offs) = Ok [w1; w2].
Proof.
  intros Hn1 Hn2 H1 H2. split.
  - rewrite two_word_args by done. cbn [mbind outcome_bind].
    apply two_word_strings; by eapply wordchars_nonzero.
  - unfold libevent_get_arguments, MAX_ARGUMENTS_NUM. destruct w2 as [|y w2]; [done|].
    pose proof (arguments_last behind [] w1 y (w2 ++ 0 :: 0 :: post) 31 [] Hn1 H1) as E.
    cbn [app length] in E |- *. rewrite E. clear E.
    replace (w1 ++ 0 :: y :: w2 ++ 0 :: 0 :: post)
      with ((w1 ++ [0]) ++ (y :: w2) ++ 0 :: 0 :: post) by (by rewrite <- app_assoc).
    rewrite arguments_last by done.
    replace ((w1 ++ [0]) ++ (y :: w2) ++ 0 :: 0 :: post)
      with (((w1 ++ [0]) ++ (y :: w2) ++ [0]) ++ 0 :: post) by (by rewrite <- !app_assoc).
    rewrite arguments_end. cbn [mbind outcome_bind strings_at].
    pose proof (cstr_at_ok [] w1 ((y :: w2) ++ 0 :: 0 :: post) (wordchars_nonzero _ _ H1)) as E1.
    pose proof (cstr_at_ok (w1 ++ [0]) (y :: w2) (0 :: post) (wordchars_nonzero _ _ H2)) as E2.
    rewrite <- !app_assoc in *. cbn [app length] in *. cbn [strings_at]. by rewrite E1, E2.
Qed.

(** "log debug" is read as "log", "ebug". *)
Lemma second_argument_truncated_witness :
  ('(offs, buf) ← libevent_get_arguments []
     (bytes_of_string "log debug" ++ [0; 0]);
   strings_at buf offs) = Ok [bytes_of_string "log"; bytes_of_string "ebug"].
Proof.
  apply (second_argument_truncated [] (bytes_of_string "log") 100 (bytes_of_string "ebug") []);
    try discriminate; vm_compute; repeat constructor; discriminate.
Defined.

(** Whatever the name of the control file is, the hash is not
    negative and the control port is one of the 1024 ports from 19090 on. *)
Theorem ctrl_port_range name :
  0 <= BKDRHash (Some name) < 2 ^ 31 /\ 19090 <= ctrl_port name < 20114.
Proof.
  pose proof (BKDRHash_range name) as H. split; [done|].
  unfold ctrl_port, UDP_PORT_MIN, UDP_PORT_COUNT. rewrite Z.rem_mod_nonneg by lia.
  pose proof (Z.mod_pos_bound (BKDRHash (Some name)) 1024). lia.
Qed.
