(* ===== verification/RpcMsg.v ===== *)
(** * RPC messages: framework/rapidapp_message_reflection.*, framework/rapidapp_rpc_mgr.*
    and framework/rpc.proto

    A message of the application travels inside an [RpcMessage] that carries its
    type name and the id of the call.  The generated code and the reflection of
    protobuf are the class [Protobuf]. *)
From Stdlib Require Import ZArith Lia String.
From stdpp Require Import base list gmap.
From S2P Require Import Prelude CLib.
Local Open Scope Z_scope.

(** ** Data *)

(** [RpcMsgType], src/framework/rpc.proto:7-11 *)
Definition RPC_TYPE_REQUEST : Z := 1.
Definition RPC_TYPE_RESPONSE : Z := 2.
Definition RPC_TYPE_ERROR : Z := 3.
Definition MAGIC_RPCSTAMP_V1 : Z := 33048.  (* 0x8118 *)
Definition MAX_MESSAGE_NAME : Z := 1024.

(** [RpcMessage], src/framework/rpc.proto:14-21 *)
Record RpcMessage : Type := {
  magic : Z;
  msg_type : Z;
  asyncid : Z;
  msg_name : bytes;
  sequence : option Z;
  msg_bin : bytes
}.

(** A cleared message. *)
Definition RpcMessage_clear : RpcMessage :=
  {| magic := MAGIC_RPCSTAMP_V1; msg_type := 0; asyncid := 0; msg_name := [];
     sequence := None; msg_bin := [] |}.

(** What the program uses of protobuf: messages of the application with their
    type name, their parser and serializer, the prototypes found by name, and the
    parser and serializer generated for [RpcMessage].  A parser returns whether it
    succeeded and what it left in the message. *)
Class Protobuf : Type := {
  Message : Type;
  GetTypeName : Message -> bytes;
  SerializeToString : Message -> bytes;
  ParseFromString : Message -> bytes -> bool * Message;
  Clear : Message -> Message;
  FindPrototype : bytes -> option Message;
  rpc_SerializeToString : RpcMessage -> bytes;
  rpc_ParseFromArray : bytes -> bool * RpcMessage
}.

(** The values the fields can hold. *)
Definition rpc_wf (m : RpcMessage) : Prop :=
  -2147483648 <= magic m < 2147483648 /\ -2147483648 <= msg_type m < 2147483648 /\
  0 <= asyncid m < 18446744073709551616 /\ sequence m = None.

(** Parsing gives back what was serialized, and a message has one type. *)
Class ProtobufOk (P : Protobuf) : Prop := {
  rpc_parse_serialize m : rpc_wf m -> rpc_ParseFromArray (rpc_SerializeToString m) = (true, m);
  rpc_serialize_nonempty m : rpc_SerializeToString m <> [];
  parse_serialize d m :
    GetTypeName d = GetTypeName m -> ParseFromString (Clear d) (SerializeToString m) = (true, m);
  prototype_name n d : FindPrototype n = Some d -> GetTypeName d = n
}.

(** The static [rpc_msg_], and how many objects are on the heap: messages made with [New]
    by the generator, and responses made by [NewResponse] of a service. *)
Record GenSt : Type := { rpc_msg_ : RpcMessage; messages : Z; responses : Z }.
Definition GenSt_new : GenSt :=
  {| rpc_msg_ := RpcMessage_clear; messages := 0; responses := 0 |}.
Definition set_rpc_msg (r : RpcMessage) (g : GenSt) : GenSt :=
  {| rpc_msg_ := r; messages := messages g; responses := responses g |}.
Definition count_messages (n : Z) (g : GenSt) : GenSt :=
  {| rpc_msg_ := rpc_msg_ g; messages := messages g + n; responses := responses g |}.
Definition count_responses (n : Z) (g : GenSt) : GenSt :=
  {| rpc_msg_ := rpc_msg_ g; messages := messages g; responses := responses g + n |}.
(** The objects on the heap: messages and responses. *)
Definition held (g : GenSt) : Z * Z := (messages g, responses g).

Section Generator.
Context {P : Protobuf}.

(** [NewInstance], src/framework/rapidapp_message_reflection.cpp:15-34 *)
Definition NewInstance (mesg_name : bytes) : M GenSt (option Message) :=
  match FindPrototype mesg_name with
  | None => mret None
  | Some prototype => _ ← modify (count_messages 1); mret (Some prototype)
  end.

(** [MessageGenerator::ReleaseMessage], src/framework/rapidapp_message_reflection.cpp:90-97 *)
Definition ReleaseMessage (message : option Message) : M GenSt unit :=
  match message with
  | None => mret tt
  | Some _ => modify (count_messages (-1))
  end.

(** [MessageGenerator::UnpackToRpcMsg], src/framework/rapidapp_message_reflection.cpp:188-212 *)
Definition UnpackToRpcMsg (data : option bytes) : M GenSt Z :=
  match data with
  | None | Some [] => mret (-1)
  | Some data =>
      _ ← modify (set_rpc_msg RpcMessage_clear);
      let '(ok, m) := rpc_ParseFromArray data in
      _ ← modify (set_rpc_msg m);
      mret (if ok then 0 else -1)
  end.

(** [MessageGenerator::SpawnMessage], src/framework/rapidapp_message_reflection.cpp:58-88 *)
Definition SpawnMessage (data : option bytes) : M GenSt (option Message) :=
  r ← UnpackToRpcMsg data;
  if negb (r =? 0) then mret None
  else
    g ← get;
    message ← NewInstance (msg_name (rpc_msg_ g));
    match message with
    | None => mret None
    | Some d =>
        match ParseFromString (Clear d) (msg_bin (rpc_msg_ g)) with
        | (true, m) => mret (Some m)
        | (false, _) => _ ← modify (count_messages (-1)); mret None
        end
    end.

(** [MessageGenerator::SharedMessage], src/framework/rapidapp_message_reflection.cpp:99-128

    The prototype itself is filled in; nobody calls this method. *)
Definition SharedMessage (data : option bytes) : M GenSt (option Message) :=
  r ← UnpackToRpcMsg data;
  if negb (r =? 0) then mret None
  else
    g ← get;
    match FindPrototype (msg_name (rpc_msg_ g)) with
    | None => mret None
    | Some d =>
        match ParseFromString (Clear d) (msg_bin (rpc_msg_ g)) with
        | (true, m) => mret (Some m)
        | (false, _) => mret None
        end
    end.

(** [MessageGenerator::MessageToBinary], src/framework/rapidapp_message_reflection.cpp:130-170

    [out] is the string the pointer holds before and after the call. *)
Definition MessageToBinary (type aid : Z) (message : option Message) (out : option bytes)
    : Z * option bytes :=
  match message with
  | None => (-1, out)
  | Some m =>
      let message_name := GetTypeName m in
      if MAX_MESSAGE_NAME <=? blen message_name then (-1, out)
      else
        match out with
        | None => (-1, None)
        | Some _ =>
            let buf := SerializeToString m in
            (0, Some (rpc_SerializeToString
                        {| magic := MAGIC_RPCSTAMP_V1; msg_type := type; asyncid := aid;
                           msg_name := message_name; sequence := None; msg_bin := buf |}))
        end
  end.

(** [MessageGenerator::RpcErrorToBinary], src/framework/rapidapp_message_reflection.cpp:172-186 *)
Definition RpcErrorToBinary (aid : Z) : Z * bytes :=
  (0, rpc_SerializeToString
        {| magic := MAGIC_RPCSTAMP_V1; msg_type := RPC_TYPE_ERROR; asyncid := aid;
           msg_name := []; sequence := None; msg_bin := [] |}).

(** [MessageGenerator::BinaryToMessage], src/framework/rapidapp_message_reflection.cpp:214-249 *)
Definition BinaryToMessage (data : option bytes) (message : option Message)
    : M GenSt (Z * option Message) :=
  match message with
  | None => mret (-1, None)
  | Some d =>
      r ← UnpackToRpcMsg data;
      if negb (r =? 0) then mret (-1, message)
      else
        g ← get;
        if negb (bool_decide (GetTypeName d = msg_name (rpc_msg_ g))) then mret (-1, message)
        else
          match ParseFromString (Clear d) (msg_bin (rpc_msg_ g)) with
          | (true, m) => mret (0, Some m)
          | (false, m) => mret (-1, Some m)
          end
  end.

Lemma UnpackToRpcMsg_total data g : exists r g', UnpackToRpcMsg data g = Ok (r, g').
Proof using.
  unfold UnpackToRpcMsg. destruct data as [[|c l]|]; [by do 2 eexists| |by do 2 eexists].
  unfold mbind, M_bind. cbn [modify]. destruct (rpc_ParseFromArray (c :: l)). by do 2 eexists.
Qed.

(** Whatever the bytes are, [SpawnMessage] returns. *)
Lemma SpawnMessage_total data g : exists r g', SpawnMessage data g = Ok (r, g').
Proof using.
  unfold SpawnMessage. destruct (UnpackToRpcMsg_total data g) as (r & g1 & E).
  rewrite (bind_step _ _ _ _ _ E). destruct (r =? 0); cbn [negb]; [|by do 2 eexists].
  rewrite (bind_step get _ _ _ _ eq_refl). unfold NewInstance, mbind, M_bind.
  destruct (FindPrototype (msg_name (rpc_msg_ g1))) as [d|]; cbn; [|by do 2 eexists].
  destruct (ParseFromString (Clear d) (msg_bin (rpc_msg_ g1))) as [[] m]; by do 2 eexists.
Qed.

End Generator.

(** ** The services by request name *)

(** [IRpcService], src/framework/rapidapp_defines.h:40-57

    The methods of the service object at an address; [OnRpcCall] is with the other
    callbacks of the application. *)
Class IRpcService {P : Protobuf} : Type := {
  RpcRequestName : Z -> bytes;
  NewResponse : Z -> option Message
}.

(** [RpcServerMgr], src/framework/rapidapp_rpc_mgr.h:17-28 *)
Definition RpcServerMgr : Type := gmap bytes (option Z).

Section Services.
Context {P : Protobuf} {IS : IRpcService}.

(** [RpcServerMgr::AddRpcService], src/framework/rapidapp_rpc_mgr.cpp:24-31 *)
Definition AddRpcService (rpc_svc : option Z) (m : RpcServerMgr) : RpcServerMgr :=
  match rpc_svc with
  | None => m
  | Some svc => <[RpcRequestName svc := Some svc]> m
  end.

(** [RpcServerMgr::GetRpcService], src/framework/rapidapp_rpc_mgr.cpp:33-42 *)
Definition GetRpcService (m : RpcServerMgr) (request_name : bytes) : option Z :=
  match m !! request_name with
  | Some (Some svc) => Some svc
  | _ => None
  end.

(** The only service is found under its name and no other. *)
Lemma GetRpcService_only svc name svc' :
  GetRpcService (AddRpcService (Some svc) ∅) name = Some svc' ->
  name = RpcRequestName svc /\ svc' = svc.
Proof using.
  unfold GetRpcService, AddRpcService. destruct (decide (name = RpcRequestName svc)) as [->|Hn].
  - unfold RpcServerMgr. rewrite lookup_insert_eq. by intros [= <-].
  - unfold RpcServerMgr. by rewrite lookup_insert_ne, lookup_empty by congruence.
Qed.
End Services.


(** ** Lemmas *)

Section Laws.
Context {P : Protobuf} {POk : ProtobufOk P}.

(** The message on the wire of a call or of its answer. *)
Definition wire_of (type aid : Z) (m : Message) : RpcMessage :=
  {| magic := MAGIC_RPCSTAMP_V1; msg_type := type; asyncid := aid;
     msg_name := GetTypeName m; sequence := None; msg_bin := SerializeToString m |}.

Lemma Unpack_ok r g :
  rpc_wf r ->
  UnpackToRpcMsg (Some (rpc_SerializeToString r)) g = Ok (0, set_rpc_msg r g).
Proof using POk.
  intros Hr. unfold UnpackToRpcMsg. pose proof (rpc_serialize_nonempty r) as Hne.
  destruct (rpc_SerializeToString r) as [|b l] eqn:E; [done|]. rewrite <- E.
  unfold mbind, M_bind. cbn [modify]. by rewrite rpc_parse_serialize.
Qed.

Lemma MessageToBinary_ok type aid m out :
  blen (GetTypeName m) < MAX_MESSAGE_NAME ->
  MessageToBinary type aid (Some m) (Some out)
  = (0, Some (rpc_SerializeToString (wire_of type aid m))).
Proof using.
  intros Hn. unfold MessageToBinary.
  destruct (Z.leb_spec MAX_MESSAGE_NAME (blen (GetTypeName m))); [lia|done].
Qed.

Lemma wire_of_wf type aid m :
  -2147483648 <= type < 2147483648 -> 0 <= aid < 18446744073709551616 ->
  rpc_wf (wire_of type aid m).
Proof using. intros. by repeat split; cbn; try lia. Qed.

Lemma SpawnMessage_ok type aid m d g :
  -2147483648 <= type < 2147483648 -> 0 <= aid < 18446744073709551616 ->
  FindPrototype (GetTypeName m) = Some d ->
  SpawnMessage (Some (rpc_SerializeToString (wire_of type aid m))) g
  = Ok (Some m, {| rpc_msg_ := wire_of type aid m; messages := messages g + 1;
                   responses := responses g |}).
Proof using POk.
  intros Ht Ha Hd. unfold SpawnMessage. unfold mbind at 1, M_bind at 1.
  rewrite Unpack_ok by (by apply wire_of_wf). cbn [Z.eqb negb].
  unfold mbind, M_bind, get. cbn [rpc_msg_ set_rpc_msg wire_of msg_name msg_bin].
  unfold NewInstance. rewrite Hd. unfold mbind, M_bind. cbn.
  rewrite parse_serialize by (by apply prototype_name in Hd). done.
Qed.
End Laws.

(** ** Properties *)

(** C35: [rpc_message_roundtrip]. A message packed for a call is unpacked as the same
    message, whether it is made from its type name ([SpawnMessage]) or parsed into a
    message of the expected type ([BinaryToMessage]), and the id and the kind of the
    call can be read afterwards. *)
Theorem rpc_message_roundtrip {P : Protobuf} {POk : ProtobufOk P} type aid m d g out :
  -2147483648 <= type < 2147483648 -> 0 <= aid < 18446744073709551616 ->
  blen (GetTypeName m) < MAX_MESSAGE_NAME -> FindPrototype (GetTypeName m) = Some d ->
  exists data, MessageToBinary type aid (Some m) (Some out) = (0, Some data) /\
    (exists g', SpawnMessage (Some data) g = Ok (Some m, g') /\
       asyncid (rpc_msg_ g') = aid /\ msg_type (rpc_msg_ g') = type /\
       msg_name (rpc_msg_ g') = GetTypeName m /\ messages g' = messages g + 1) /\
    (exists g', BinaryToMessage (Some data) (Some d) g = Ok ((0, Some m), g') /\
       asyncid (rpc_msg_ g') = aid /\ messages g' = messages g).
Proof.
  intros Ht Ha Hn Hd. eexists. split; [by apply MessageToBinary_ok|]. split.
  - eexists. split; [by apply (SpawnMessage_ok type aid m d)|]. done.
  - eexists. unfold BinaryToMessage. unfold mbind at 1, M_bind at 1.
    rewrite Unpack_ok by (by apply wire_of_wf). cbn [Z.eqb negb].
    unfold mbind, M_bind, get. cbn [rpc_msg_ set_rpc_msg wire_of msg_name msg_bin].
    rewrite bool_decide_eq_true_2 by (by apply prototype_name in Hd).
    rewrite parse_serialize by (by apply prototype_name in Hd). by repeat split.
Qed.

(** A protobuf for the witnesses: a message is its type name with its content. *)
Definition plain_parse (l : bytes) : bool * RpcMessage :=
  match l with
  | g :: t :: a :: n :: r =>
      (true, {| magic := g; msg_type := t; asyncid := a;
                msg_name := take (Z.to_nat n) r; sequence := None;
                msg_bin := drop (Z.to_nat n) r |})
  | _ => (false, RpcMessage_clear)
  end.

Definition plain_protobuf : Protobuf := {|
  Message := (bytes * bytes)%type;
  GetTypeName := fst;
  SerializeToString := snd;
  ParseFromString := fun d s => (true, (fst d, s));
  Clear := fun d => (fst d, []);
  FindPrototype := fun n => Some (n, []);
  rpc_SerializeToString := fun m =>
    magic m :: msg_type m :: asyncid m :: blen (msg_name m) :: msg_name m ++ msg_bin m;
  rpc_ParseFromArray := plain_parse
|}.

#[export] Instance plain_protobuf_ok : ProtobufOk plain_protobuf.
Proof.
  split; cbn.
  - intros [g t a n s b] (_ & _ & _ & Hs). cbn in *. subst s. unfold blen.
    rewrite Nat2Z.id, take_app_length, drop_app_length. done.
  - done.
  - intros [d1 d2] [m1 m2]. cbn. by intros ->.
  - intros n [d1 d2]. by intros [= -> _].
Qed.

Lemma rpc_message_roundtrip_witness :
  exists data, MessageToBinary (P := plain_protobuf) 1 7 (Some ([80; 105], [1; 2])) (Some [])
               = (0, Some data) /\
    exists g', SpawnMessage (P := plain_protobuf) (Some data) GenSt_new
               = Ok (Some ([80; 105], [1; 2]), g') /\ asyncid (rpc_msg_ g') = 7.
Proof.
  destruct (rpc_message_roundtrip (P := plain_protobuf) 1 7 ([80; 105], [1; 2]) ([80; 105], [])
              GenSt_new []) as (data & E & (g' & E2 & Ha & _) & _);
    [lia|lia|reflexivity|reflexivity|].
  exists data. split; [exact E|]. exists g'. split; [exact E2|exact Ha].
Defined.
