(* ===== verification/EasyRpc.v ===== *)
(** * Calls: framework/rapidapp_easy_rpc.h and .cpp

    The client and the server side of a call.  A call of the client runs in a
    coroutine that sends the request, yields, and is resumed by the answer;
    [asyncid] ties the answer to the coroutine.  The server keeps the request in a
    closure until the application answers or cancels it. *)
From Stdlib Require Import ZArith Lia.
From stdpp Require Import base list gmap fin_maps.
From S2P Require Import Prelude CLib TcpSocket Coroutine EasyNet RpcMsg.
Local Open Scope Z_scope.

(** ** Data *)

(** [EasyRpc::CoroutinePair], src/framework/rapidapp_easy_rpc.h:85-88 *)
Record CoroutinePair : Set := { crid : Z; cp_asyncid : Z }.

(** [EasyRpc], src/framework/rapidapp_easy_rpc.h:78-95

    [scheduler_] tells whether the pointer is not null: there is one scheduler. *)
Record EasyRpc : Set := {
  scheduler_ : bool;
  net_ : option Z;
  crid_list_ : list CoroutinePair
}.

Section Types.
Context {P : Protobuf}.

(** [EasyRpcClosure], src/framework/rapidapp_easy_rpc.h:36-44 *)
Record EasyRpcClosure : Type := {
  user_data_ : Z;
  async_id_ : Z;
  req_ : option Message;
  rsp_ : option Message;
  clo_net_ : option Z;
  is_done_ : bool
}.

(** [RPC_CONTEXT], src/framework/rapidapp_easy_rpc.cpp:120-126

    The callback is the address of a function. *)
Record RPC_CONTEXT : Type := {
  callback : Z;
  rpc_stub : Z;
  request : option Message;
  response : option Message;
  ctx_arg : Z
}.

(** The memory of a program with calls: connections, the static message of the
    generator, the objects of this file, the static [asyncid_seed] and [buf], and
    the rest of the program. *)
Record World (C U : Type) : Type := {
  heap : Heap C;
  gen : GenSt;
  rpcs : gmap Z EasyRpc;
  rpc_ctxs : gmap Z RPC_CONTEXT;
  closures : gmap Z EasyRpcClosure;
  asyncid_seed : Z;
  buf : bytes;
  rest : U
}.
End Types.

Arguments heap {P C U}. Arguments gen {P C U}. Arguments rpcs {P C U}.
Arguments rpc_ctxs {P C U}. Arguments closures {P C U}. Arguments asyncid_seed {P C U}.
Arguments buf {P C U}. Arguments rest {P C U}. Arguments World {P} C U.

(** What [new(std::nothrow)] answers for the objects of this file. *)
Class RpcEnv (P : Protobuf) : Type := {
  new_rpc : gmap Z EasyRpc -> option Z;
  new_context : gmap Z RPC_CONTEXT -> option Z;
  new_closure : gmap Z EasyRpcClosure -> option Z
}.
Class RpcEnvOk {P} (R : RpcEnv P) : Prop := {
  new_rpc_fresh h p : new_rpc h = Some p -> h !! p = None;
  new_context_fresh h p : new_context h = Some p -> h !! p = None /\ p <> 0;
  new_closure_fresh h p : new_closure h = Some p -> h !! p = None
}.

Section Setters.
Context {P : Protobuf} {C U : Type}.

Definition set_heap (x : Heap C) (w : World C U) : World C U :=
  {| heap := x; gen := gen w; rpcs := rpcs w; rpc_ctxs := rpc_ctxs w; closures := closures w;
     asyncid_seed := asyncid_seed w; buf := buf w; rest := rest w |}.
Definition set_gen (x : GenSt) (w : World C U) : World C U :=
  {| heap := heap w; gen := x; rpcs := rpcs w; rpc_ctxs := rpc_ctxs w; closures := closures w;
     asyncid_seed := asyncid_seed w; buf := buf w; rest := rest w |}.
Definition set_rpcs (x : gmap Z EasyRpc) (w : World C U) : World C U :=
  {| heap := heap w; gen := gen w; rpcs := x; rpc_ctxs := rpc_ctxs w; closures := closures w;
     asyncid_seed := asyncid_seed w; buf := buf w; rest := rest w |}.
Definition set_rpc_ctxs (x : gmap Z RPC_CONTEXT) (w : World C U) : World C U :=
  {| heap := heap w; gen := gen w; rpcs := rpcs w; rpc_ctxs := x; closures := closures w;
     asyncid_seed := asyncid_seed w; buf := buf w; rest := rest w |}.
Definition set_closures (x : gmap Z EasyRpcClosure) (w : World C U) : World C U :=
  {| heap := heap w; gen := gen w; rpcs := rpcs w; rpc_ctxs := rpc_ctxs w; closures := x;
     asyncid_seed := asyncid_seed w; buf := buf w; rest := rest w |}.
Definition set_asyncid_seed (x : Z) (w : World C U) : World C U :=
  {| heap := heap w; gen := gen w; rpcs := rpcs w; rpc_ctxs := rpc_ctxs w;
     closures := closures w; asyncid_seed := x; buf := buf w; rest := rest w |}.
Definition set_buf (x : bytes) (w : World C U) : World C U :=
  {| heap := heap w; gen := gen w; rpcs := rpcs w; rpc_ctxs := rpc_ctxs w;
     closures := closures w; asyncid_seed := asyncid_seed w; buf := x; rest := rest w |}.
Definition set_rest (x : U) (w : World C U) : World C U :=
  {| heap := heap w; gen := gen w; rpcs := rpcs w; rpc_ctxs := rpc_ctxs w;
     closures := closures w; asyncid_seed := asyncid_seed w; buf := buf w; rest := x |}.

(** Calls of the methods of connections and of the generator. *)
Definition on_net {A} (m : M (Heap C) A) : M (World C U) A := fun w =>
  '(a, h) ← m (heap w); Ok (a, set_heap h w).
Definition on_gen {A} (m : M GenSt A) : M (World C U) A := fun w =>
  '(a, g) ← m (gen w); Ok (a, set_gen g w).

Definition load_rpc (p : Z) : M (World C U) EasyRpc := fun w =>
  match rpcs w !! p with Some r => Ok (r, w) | None => Fault UseAfterFree end.
Definition store_rpc (p : Z) (r : EasyRpc) : M (World C U) unit :=
  modify (fun w => set_rpcs (<[p := r]> (rpcs w)) w).
Definition load_context (p : Z) : M (World C U) RPC_CONTEXT := fun w =>
  match rpc_ctxs w !! p with Some r => Ok (r, w) | None => Fault UseAfterFree end.
Definition load_closure (p : Z) : M (World C U) EasyRpcClosure := fun w =>
  match closures w !! p with Some r => Ok (r, w) | None => Fault UseAfterFree end.
Definition store_closure (p : Z) (c : EasyRpcClosure) : M (World C U) unit :=
  modify (fun w => set_closures (<[p := c]> (closures w)) w).
End Setters.

(** ** The server: closures *)

Section Closure.
Context {P : Protobuf} {R : RpcEnv P} {C U : Type} {E : NetEnv C}.

(** [EasyRpcClosure::EasyRpcClosure], src/framework/rapidapp_easy_rpc.cpp:9-10

    [new(std::nothrow)]; [async_id_] is not initialised and not read before [Set]. *)
Definition EasyRpcClosure_new : M (World C U) (option Z) :=
  w ← get;
  match new_closure (closures w) with
  | None => mret None
  | Some p =>
      _ ← store_closure p {| user_data_ := 0; async_id_ := 0; req_ := None; rsp_ := None;
                             clo_net_ := None; is_done_ := false |};
      mret (Some p)
  end.

(** [EasyRpcClosure::Set], src/framework/rapidapp_easy_rpc.cpp:15-31 *)
Definition Closure_Set (this : Z) (net : option Z) (asyncid : Z) (req rsp : option Message)
    : M (World C U) Z :=
  match net, req, rsp with
  | Some _, Some _, Some _ =>
      c ← load_closure this;
      _ ← store_closure this {| user_data_ := user_data_ c; async_id_ := asyncid; req_ := req;
                                rsp_ := rsp; clo_net_ := net; is_done_ := is_done_ c |};
      mret 0
  | _, _, _ => mret (-1)
  end.

(** [EasyRpcClosure::Done], src/framework/rapidapp_easy_rpc.cpp:50-51

    The response was made by a service, and is deleted by the framework. *)
Definition delete_response : M (World C U) unit := on_gen (modify (count_responses (-1))).

(** [EasyRpcClosure::Done], src/framework/rapidapp_easy_rpc.cpp:37-60

    The common part of [Done] and [Cancel]: the answer is sent, the response is deleted and
    the request released, and the closure deletes itself. *)
Definition finish_closure (this : Z) (c : EasyRpcClosure) (answer : Z * option bytes)
    : M (World C U) unit :=
  _ ← (match clo_net_ c, rsp_ c, req_ c with
       | Some net, Some _, Some req =>
           _ ← (match answer with
                | (0, out) => _ ← on_net (EasyNet_Send net out); mret tt
                | _ => mret tt
                end);
           _ ← delete_response;
           on_gen (ReleaseMessage (Some req))
       | _, _, _ => mret tt
       end);
  modify (fun w => set_closures (delete this (closures w)) w).

(** [EasyRpcClosure::Done], src/framework/rapidapp_easy_rpc.cpp:33-61 *)
Definition Closure_Done (this : Z) : M (World C U) unit :=
  c ← load_closure this;
  finish_closure this c (MessageToBinary RPC_TYPE_RESPONSE (async_id_ c) (rsp_ c) (Some [])).

(** [EasyRpcClosure::Cancel], src/framework/rapidapp_easy_rpc.cpp:63-90 *)
Definition Closure_Cancel (this : Z) : M (World C U) unit :=
  c ← load_closure this;
  let '(ret, out) := RpcErrorToBinary (async_id_ c) in
  finish_closure this c (ret, Some out).

(** [EasyRpcClosure::IsDone], src/framework/rapidapp_easy_rpc.cpp:92-95 *)
Definition Closure_IsDone (this : Z) : M (World C U) bool :=
  c ← load_closure this; mret (is_done_ c).

(** [EasyRpcClosure::set_userdata], src/framework/rapidapp_easy_rpc.cpp:97-100 *)
Definition Closure_set_userdata (this data : Z) : M (World C U) unit :=
  c ← load_closure this;
  store_closure this {| user_data_ := data; async_id_ := async_id_ c; req_ := req_ c;
                        rsp_ := rsp_ c; clo_net_ := clo_net_ c; is_done_ := is_done_ c |}.

(** [EasyRpcClosure::userdata], src/framework/rapidapp_easy_rpc.cpp:102-105 *)
Definition Closure_userdata (this : Z) : M (World C U) Z :=
  c ← load_closure this; mret (user_data_ c).

(** [EasyRpcClosure::request], src/framework/rapidapp_easy_rpc.cpp:107-110 *)
Definition Closure_request (this : Z) : M (World C U) (option Message) :=
  c ← load_closure this; mret (req_ c).

(** [EasyRpcClosure::response], src/framework/rapidapp_easy_rpc.cpp:112-115 *)
Definition Closure_response (this : Z) : M (World C U) (option Message) :=
  c ← load_closure this; mret (rsp_ c).

(** The application fills in the response of a closure. *)
Definition fill_response (this : Z) (m : Message) : M (World C U) unit :=
  c ← load_closure this;
  store_closure this {| user_data_ := user_data_ c; async_id_ := async_id_ c; req_ := req_ c;
                        rsp_ := Some m; clo_net_ := clo_net_ c; is_done_ := is_done_ c |}.
End Closure.

(** ** The client *)

Section Client.
Context {P : Protobuf} {R : RpcEnv P} {C U : Type} {E : NetEnv C}.

(** The code of the callback at an address, with the code behind its call. *)
Context (ON_RPC_REPLY_FUNCTION :
  Z -> option Message -> option Message -> Z -> Z ->
  (Z -> code (World C U)) -> code (World C U)).

(** [EasyRpc::EasyRpc], src/framework/rapidapp_easy_rpc.cpp:130-131 *)
Definition EasyRpc_new : M (World C U) (option Z) :=
  w ← get;
  match new_rpc (rpcs w) with
  | None => mret None
  | Some p =>
      _ ← store_rpc p {| scheduler_ := false; net_ := None; crid_list_ := [] |};
      mret (Some p)
  end.

(** [EasyRpc::Init], src/framework/rapidapp_easy_rpc.cpp:144-156 *)
Definition EasyRpc_Init (this : Z) (scheduler : bool) (net : option Z) : M (World C U) Z :=
  match net with
  | None => mret (-1)
  | Some _ =>
      if negb scheduler then mret (-1)
      else
        r ← load_rpc this;
        _ ← store_rpc this {| scheduler_ := scheduler; net_ := net; crid_list_ := crid_list_ r |};
        mret 0
  end.

(** [EasyRpc::IsActive], src/framework/rapidapp_easy_rpc.h:60-62 *)
Definition IsActive (this : Z) : M (World C U) bool :=
  r ← load_rpc this;
  mret (match crid_list_ r with [] => false | _ => true end).

(** A message that names the connection: [net_->uri()]. *)
Definition log_uri (net : option Z) : M (World C U) unit :=
  net ← nonnull net; _ ← on_net (load_net net); mret tt.

(** [EasyRpc::RpcFunction], src/framework/rapidapp_easy_rpc.cpp:205-231

    The part before the coroutine yields; it returns 0, or -1 when the function
    returns at once. *)
Definition RpcFunction_send (arg : Z) : M (World C U) Z :=
  rpc_ctx ← load_context arg;
  the_handler ← load_rpc (rpc_stub rpc_ctx);
  match net_ the_handler with
  | None => mret (-1)
  | Some net =>
      if negb (scheduler_ the_handler) || (callback rpc_ctx =? 0) then mret (-1)
      else
        w ← get;
        let aid := asyncid_seed w in
        _ ← modify (set_asyncid_seed (u64 (aid + 1)));
        let out := snd (MessageToBinary RPC_TYPE_REQUEST aid (request rpc_ctx) (Some (buf w))) in
        _ ← modify (set_buf (default (buf w) out));
        ret ← on_net (EasyNet_Send net (Some (default (buf w) out)));
        _ ← (if negb (ret =? EASY_NET_OK) then log_uri (net_ the_handler) else mret tt);
        mret 0
  end.

(** [EasyRpc::RpcFunction], src/framework/rapidapp_easy_rpc.cpp:236-258

    The part behind the yield up to the callback; it returns the status. *)
Definition RpcFunction_parse (arg : Z) : M (World C U) Z :=
  rpc_ctx ← load_context arg;
  match request rpc_ctx, response rpc_ctx with
  | Some _, Some d =>
      w ← get;
      if msg_type (rpc_msg_ (gen w)) =? RPC_TYPE_ERROR then mret (-1)
      else
        let '(ok, m) := ParseFromString (Clear d) (msg_bin (rpc_msg_ (gen w))) in
        _ ← modify (set_rpc_ctxs (<[arg := {|
               callback := callback rpc_ctx; rpc_stub := rpc_stub rpc_ctx;
               request := request rpc_ctx; response := Some m;
               ctx_arg := ctx_arg rpc_ctx |}]> (rpc_ctxs w)));
        mret (if ok then 0 else -1)
  | _, _ => fail AssertFailed
  end.

(** [delete rpc_ctx] *)
Definition delete_context (arg : Z) : M (World C U) unit :=
  _ ← load_context arg; modify (fun w => set_rpc_ctxs (delete arg (rpc_ctxs w)) w).

(** The code of the coroutine behind its yield. *)
Definition RpcFunction_resumed (arg : Z) : code (World C U) :=
  Act (RpcFunction_parse arg) (fun status =>
  Act (load_context arg) (fun rpc_ctx =>
  ON_RPC_REPLY_FUNCTION (callback rpc_ctx) (request rpc_ctx) (response rpc_ctx)
    (ctx_arg rpc_ctx) status (fun _ =>
  Act (delete_context arg) (fun _ => Ret)))).

(** [EasyRpc::RpcFunction], src/framework/rapidapp_easy_rpc.cpp:203-267 *)
Definition RpcFunction (arg : Z) : code (World C U) :=
  if arg =? 0 then Ret
  else
    Act (RpcFunction_send arg) (fun r =>
    if negb (r =? 0) then Ret
    else Yield (fun _ => RpcFunction_resumed arg)).

(** [new(std::nothrow) RPC_CONTEXT()] and its initialisation. *)
Definition RPC_CONTEXT_new (x : RPC_CONTEXT) : M (World C U) (option Z) :=
  w ← get;
  match new_context (rpc_ctxs w) with
  | None => mret None
  | Some p => _ ← modify (set_rpc_ctxs (<[p := x]> (rpc_ctxs w))); mret (Some p)
  end.

(** [crid_list_.push_back] of the coroutine and the next id. *)
Definition push_pair (this cid : Z) : M (World C U) unit :=
  r ← load_rpc this;
  w ← get;
  store_rpc this {| scheduler_ := scheduler_ r; net_ := net_ r;
                    crid_list_ := crid_list_ r ++
                                  [{| crid := cid; cp_asyncid := asyncid_seed w |}] |}.

(** [EasyRpc::RpcCall], src/framework/rapidapp_easy_rpc.cpp:158-201 *)
Definition RpcCall (this : Z) (req resp : option Message) (cb arg : Z)
    (k : Z -> code (World C U)) : code (World C U) :=
  match req with
  | None => k (-1)
  | Some _ =>
      if cb =? 0 then k (-1)
      else
        Act (load_rpc this) (fun r =>
        if negb (scheduler_ r) then k (-1)
        else
          Act (RPC_CONTEXT_new {| callback := cb; rpc_stub := this; request := req;
                                  response := resp; ctx_arg := arg |}) (fun context =>
          match context with
          | None => Act (log_uri (net_ r)) (fun _ => k (-1))
          | Some context =>
              Create false RpcFunction context (fun cid =>
              if cid <? 0 then Act (log_uri (net_ r)) (fun _ => k (-1))
              else
                Act (push_pair this cid) (fun _ =>
                Resume cid (fun _ => k 0)))
          end))
  end.

Fixpoint remove_first (c : Z) (l : list CoroutinePair) : list CoroutinePair :=
  match l with
  | [] => []
  | cp :: r => if crid cp =? c then r else cp :: remove_first c r
  end.

(** [EasyRpc::RemoveByCoroutineId], src/framework/rapidapp_easy_rpc.cpp:269-280 *)
Definition RemoveByCoroutineId (this c : Z) : M (World C U) unit :=
  r ← load_rpc this;
  store_rpc this {| scheduler_ := scheduler_ r; net_ := net_ r;
                    crid_list_ := remove_first c (crid_list_ r) |}.

Fixpoint find_async (aid : Z) (l : list CoroutinePair) : Z :=
  match l with
  | [] => -1
  | cp :: r => if cp_asyncid cp =? aid then crid cp else find_async aid r
  end.

(** [EasyRpc::GetCoroutineIdxByAsyncId], src/framework/rapidapp_easy_rpc.cpp:282-294 *)
Definition GetCoroutineIdxByAsyncId (this aid : Z) : M (World C U) Z :=
  r ← load_rpc this; mret (find_async aid (crid_list_ r)).

(** [EasyRpc::Resume], src/framework/rapidapp_easy_rpc.cpp:296-324 *)
Definition EasyRpc_Resume (this : Z) (buffer : option bytes) (k : Z -> code (World C U))
    : code (World C U) :=
  Act (r ← load_rpc this; assertb (scheduler_ r)) (fun _ =>
  match buffer with
  | None | Some [] => k (-1)
  | Some data =>
      Act (on_gen (UnpackToRpcMsg (Some data))) (fun r =>
      if negb (r =? 0) then k (-1)
      else
        Act (w ← get; GetCoroutineIdxByAsyncId this (asyncid (rpc_msg_ (gen w)))) (fun c =>
        Alive c (fun alive =>
        let after := Alive c (fun alive =>
          if negb alive then Act (RemoveByCoroutineId this c) (fun _ => k 0) else k 0) in
        if alive then Resume c (fun _ => after) else after)))
  end).

Fixpoint destroy_all (l : list CoroutinePair) (k : code (World C U)) : code (World C U) :=
  match l with
  | [] => k
  | cp :: r => Destroy (crid cp) (destroy_all r k)
  end.

(** [EasyRpc::~EasyRpc], src/framework/rapidapp_easy_rpc.cpp:133-142

    [delete rpc]. *)
Definition EasyRpc_delete (this : Z) (k : code (World C U)) : code (World C U) :=
  Act (load_rpc this) (fun r =>
  destroy_all (crid_list_ r)
    (Act (modify (fun w => set_rpcs (delete this (rpcs w)) w)) (fun _ => k))).
End Client.

(** ** Lemmas *)

(** [Send] on a live connection does not free it; a dead one is a fault. *)
Lemma EasyNet_Send_alive {C} {E : NetEnv C} net msg h r h' :
  msg <> [] -> EasyNet_Send net (Some msg) h = Ok (r, h') ->
  nets h' = nets h /\ is_Some (nets h !! net).
Proof.
  destruct msg as [|c msg]; [done|]. intros _ H. unfold EasyNet_Send in H.
  apply bind_Ok in H as (n & h1 & Hn & H). unfold load_net in Hn.
  destruct (nets h !! net) as [n0|] eqn:En; [|done]. injection Hn as -> <-.
  split; [|by eexists]. destruct (hevent_ n) as [b|]; [|done].
  assert (Hw : forall d z h1 h2, bufferevent_write b d h1 = Ok (z, h2) -> nets h2 = nets h1).
  { intros d z h1 h2. unfold bufferevent_write, load_bev, mbind, M_bind.
    destruct (bevs h1 !! b); [|done]. cbn. destruct (env_write _ _ _); by intros [= _ <-]. }
  destruct (negb _); [destruct (negb _); by injection H as _ <-|].
  apply bind_Ok in H as (z & h1 & H1 & H). apply Hw in H1.
  destruct (negb (z =? 0)); [by injection H as _ <-|].
  apply bind_Ok in H as (z2 & h2 & H2 & H). apply Hw in H2.
  destruct (negb (z2 =? 0)); injection H as _ <-; congruence.
Qed.

Lemma on_net_ok {P : Protobuf} {C U A} (m : M (Heap C) A) (w : World C U) a h :
  m (heap w) = Ok (a, h) -> on_net m w = Ok (a, set_heap h w).
Proof. intros H. unfold on_net. by rewrite H. Qed.
Lemma on_gen_ok {P : Protobuf} {C U A} (m : M GenSt A) (w : World C U) a g :
  m (gen w) = Ok (a, g) -> on_gen m w = Ok (a, set_gen g w).
Proof. intros H. unfold on_gen. by rewrite H. Qed.

Section ClientProofs.
Context {P : Protobuf} {POk : ProtobufOk P} {R : RpcEnv P} {ROk : RpcEnvOk R}.
Context {C U : Type} {E : NetEnv C}.
Context (calloc : gmap Z (COROUTINECTX (World C U)) -> option Z).
Context (calloc_fresh : forall h p, calloc h = Some p -> h !! p = None).

(** A callback that runs an action on the program, without calls of the scheduler. *)
Context (body : Z -> option Message -> option Message -> Z -> Z -> M (World C U) Z).
Definition plain_callback fn req resp a st (k : Z -> code (World C U)) : code (World C U) :=
  Act (body fn req resp a st) k.

Abbreviation any := (fun _ : Z -> code (World C U) => True).
Implicit Types (s : CoroutineScheduler (World C U)) (w : World C U).

(** One call in progress: its pair, and its context with the address of that. *)
Record call : Type := { pair : CoroutinePair; at_ : Z; what : RPC_CONTEXT }.

(** The coroutine of the call waits for the answer. *)
Definition waits s (x : call) : Prop :=
  rpc_ctxs (world s) !! at_ x = Some (what x) /\ at_ x <> 0 /\
  exists p c, ctxs s !! p = Some c /\ idx c = crid (pair x) /\
              continues p c (RpcFunction_resumed plain_callback (at_ x)).

(** The calls in progress on the object [this] over the connection [net]. *)
Record rpc_inv (this net : Z) (l : list call) s : Prop := {
  ri_idle : idle any s;
  ri_this : rpcs (world s) !! this = Some {| scheduler_ := true; net_ := Some net;
                                             crid_list_ := map pair l |};
  ri_waits : Forall (waits s) l;
  ri_at : NoDup (map at_ l);
  ri_crid : NoDup (map (fun x => crid (pair x)) l);
  ri_async : NoDup (map (fun x => cp_asyncid (pair x)) l);
  ri_seed : Forall (fun x => 0 <= cp_asyncid (pair x) < asyncid_seed (world s)) l;
  ri_seed_range : 0 <= asyncid_seed (world s)
}.

(** The part of a call before its coroutine yields. *)
Lemma RpcFunction_seg w ctx x r net m ret h' :
  ctx <> 0 -> rpc_ctxs w !! ctx = Some x -> rpcs w !! rpc_stub x = Some r ->
  net_ r = Some net -> scheduler_ r = true -> callback x <> 0 -> request x = Some m ->
  blen (GetTypeName m) < MAX_MESSAGE_NAME -> 0 <= asyncid_seed w < 18446744073709551615 ->
  EasyNet_Send net (Some (rpc_SerializeToString (wire_of RPC_TYPE_REQUEST (asyncid_seed w) m)))
    (heap w) = Ok (ret, h') ->
  seg w (RpcFunction plain_callback ctx)
    (set_heap h' (set_buf (rpc_SerializeToString (wire_of RPC_TYPE_REQUEST (asyncid_seed w) m))
                    (set_asyncid_seed (asyncid_seed w + 1) w)))
    (Some (fun _ => RpcFunction_resumed plain_callback ctx)).
Proof using POk.
  intros Hc Hx Hr Hnet Hsch Hcb Hreq Hname Hseed Hsend. unfold RpcFunction.
  destruct (Z.eqb_spec ctx 0); [done|].
  apply seg_act with (z := 0)
    (w1 := set_heap h' (set_buf (rpc_SerializeToString (wire_of RPC_TYPE_REQUEST
             (asyncid_seed w) m)) (set_asyncid_seed (asyncid_seed w + 1) w))); [|apply seg_yield].
  unfold RpcFunction_send. rewrite (bind_step _ _ w x w) by (unfold load_context; by rewrite Hx).
  rewrite (bind_step _ _ w r w) by (unfold load_rpc; by rewrite Hr).
  rewrite Hnet, Hsch. destruct (Z.eqb_spec (callback x) 0); [done|]. cbn [negb orb].
  rewrite (bind_step _ _ w w w) by done. rewrite Hreq, MessageToBinary_ok by done.
  cbn [snd default from_option]. rewrite u64_id by lia.
  rewrite (bind_step _ _ w tt (set_asyncid_seed (asyncid_seed w + 1) w)) by done.
  set (out := rpc_SerializeToString _) in *.
  rewrite (bind_step _ _ _ tt (set_buf out (set_asyncid_seed (asyncid_seed w + 1) w))) by done.
  set (w2 := set_heap h' _).
  rewrite (bind_step _ _ _ ret w2) by (by apply on_net_ok).
  destruct (EasyNet_Send_alive net out (heap w) ret h') as [En [nn Hn]];
    [apply rpc_serialize_nonempty|done|].
  destruct (ret =? EASY_NET_OK); [done|]. cbn [negb].
  rewrite (bind_step _ _ w2 tt w2); [done|].
  unfold log_uri, nonnull. rewrite (bind_step _ _ w2 net w2) by done.
  rewrite (bind_step _ _ w2 nn w2); [done|]. unfold on_net, load_net, w2. cbn [heap set_heap].
  by rewrite En, Hn.
Qed.

(** What a state keeps for the calls in progress. *)
Lemma waits_frame s s' x :
  waits s x ->
  (forall p c, ctxs s !! p = Some c -> idx c = crid (pair x) -> ctxs s' !! p = Some c) ->
  rpc_ctxs (world s') !! at_ x = rpc_ctxs (world s) !! at_ x -> waits s' x.
Proof using.
  intros (Hx & Hn & p & c & Hc & Hi & Hk) Hp Ha. split; [congruence|]. split; [done|]. eauto 10.
Qed.

Lemma waits_crid s x : idle any s -> waits s x -> 0 <= crid (pair x) < cid_seed s.
Proof using.
  intros [Ht _] (_ & _ & p & c & Hc & <- & _). by apply (ctx_table s Ht p).
Qed.

(** The pair of a new call, and the call it stands for. *)
Definition new_call this (m : Message) resp cb a s ctx : call :=
  {| pair := {| crid := cid_seed s; cp_asyncid := asyncid_seed (world s) |}; at_ := ctx;
     what := {| callback := cb; rpc_stub := this; request := Some m; response := resp;
                ctx_arg := a |} |}.

Lemma rpc_inv_add this net l s s' x :
  rpc_inv this net l s -> idle any s' -> Forall (waits s') (l ++ [x]) ->
  rpcs (world s') !! this
  = Some {| scheduler_ := true; net_ := Some net; crid_list_ := map pair (l ++ [x]) |} ->
  rpc_ctxs (world s) !! at_ x = None -> crid (pair x) = cid_seed s ->
  cp_asyncid (pair x) = asyncid_seed (world s) ->
  asyncid_seed (world s') = asyncid_seed (world s) + 1 ->
  rpc_inv this net (l ++ [x]) s'.
Proof using.
  intros [Hi Ht Hw Ha Hc Hy Hs Hs0] Hi' Hw' Ht' Hnew Hcr Has Hseed.
  rewrite Forall_forall in Hw, Hs.
  split; [done|done|done| | | | |lia]; rewrite ?map_app.
  1,2,3: apply NoDup_app; split; [done|]; split; [|apply NoDup_singleton];
         intros z (y & -> & Hin)%list_elem_of_fmap; intros Hz; apply list_elem_of_singleton in Hz.
  - destruct (Hw y Hin) as (Hy' & _). congruence.
  - pose proof (waits_crid s y Hi (Hw y Hin)). lia.
  - pose proof (Hs y Hin) as Hlt. cbn in Hlt. lia.
  - apply Forall_app. split.
    + apply Forall_forall. intros y Hin. pose proof (Hs y Hin) as Hlt. cbn in *. lia.
    + apply Forall_singleton. lia.
Qed.

Lemma RpcCall_ok this net l s m resp cb a k ctx p ret h' :
  rpc_inv this net l s -> numbers_left s -> cb <> 0 -> new_context (rpc_ctxs (world s)) = Some ctx ->
  calloc (ctxs s) = Some p -> Z.of_nat (size (coroutine_table_ s)) < u64 (coroutine_max_ s) ->
  blen (GetTypeName m) < MAX_MESSAGE_NAME -> asyncid_seed (world s) < 18446744073709551615 ->
  EasyNet_Send net (Some (rpc_SerializeToString
    (wire_of RPC_TYPE_REQUEST (asyncid_seed (world s)) m))) (heap (world s)) = Ok (ret, h') ->
  exists s', runs calloc (RpcCall plain_callback this (Some m) resp cb a k) s (k 0) s' /\
    rpc_inv this net (l ++ [new_call this m resp cb a s ctx]) s' /\
    heap (world s') = h' /\ gen (world s') = gen (world s) /\
    closures (world s') = closures (world s) /\ rest (world s') = rest (world s) /\
    (forall q, q <> this -> rpcs (world s') !! q = rpcs (world s) !! q) /\
    (forall q, q <> ctx -> rpc_ctxs (world s') !! q = rpc_ctxs (world s) !! q) /\
    (forall q, q <> p -> ctxs s' !! q = ctxs s !! q) /\
    coroutine_table_ s' = <[cid_seed s := Some p]> (coroutine_table_ s) /\
    asyncid_seed (world s') = asyncid_seed (world s) + 1 /\ cid_seed s' = cid_seed s + 1.
Proof using calloc_fresh POk ROk.
  intros Hinv Hcid Hcb Hctx Hp Hmax Hname Hseed Hsend. pose proof Hinv as [Hi Hthis Hw _ _ _ _ Hs0].
  destruct (new_context_fresh _ _ Hctx) as [Hctxn Hctx0]. pose proof (calloc_fresh _ _ Hp) as Hpn.
  set (x := {| callback := cb; rpc_stub := this; request := Some m; response := resp;
               ctx_arg := a |}).
  set (r := {| scheduler_ := true; net_ := Some net; crid_list_ := map pair l |}) in *.
  set (w1 := set_rpc_ctxs (<[ctx := x]> (rpc_ctxs (world s))) (world s)).
  set (s1 := set_world w1 s). set (s2 := created p (RpcFunction plain_callback) ctx s1).
  set (r3 := {| scheduler_ := true; net_ := Some net; crid_list_ := map pair l ++
                  [{| crid := cid_seed s; cp_asyncid := asyncid_seed (world s) |}] |}).
  set (w3 := set_rpcs (<[this := r3]> (rpcs w1)) w1). set (s3 := set_world w3 s2).
  destruct (runs_create calloc (RpcFunction plain_callback) ctx
              (fun cid => if cid <? 0 then Act (log_uri (net_ r)) (fun _ => k (-1))
                          else Act (push_pair this cid) (fun _ => Resume cid (fun _ => k 0)))
              s1 p (F := any)) as [Hrun2 Hi2]; [by apply idle_world|done|done|done|done|done|].
  fold s2 in Hrun2, Hi2.
  assert (Hi3 : idle any s3) by (by apply idle_world).
  set (c3 := {| uctx := None; idx := cid_seed s; state := COROUTINE_READY;
                func := RpcFunction plain_callback; arg := ctx |}).
  destruct (runs_resume calloc (F := any) s3 p c3 (fun _ => k 0) (RpcFunction plain_callback ctx)
    (set_heap h' (set_buf (rpc_SerializeToString (wire_of RPC_TYPE_REQUEST (asyncid_seed w3) m))
                    (set_asyncid_seed (asyncid_seed w3 + 1) w3)))
    (Some (fun _ => RpcFunction_resumed plain_callback ctx)) Hi3)
    as (s' & Hrun & Hi' & Hw' & Hd' & Hq & Htab & c' & Hc' & Hk' & Hidx).
  - apply lookup_insert_eq.
  - by left.
  - apply (RpcFunction_seg w3 ctx x r3 net m ret h'); try done.
    1,2: cbn; by rewrite lookup_insert_eq.
  - exists s'. split; [|split; [apply (rpc_inv_add this net l s); try done|]].
    + unfold RpcCall. destruct (Z.eqb_spec cb 0); [done|].
      eapply runs_trans; [apply (runs_read _ _ _ _ r); unfold load_rpc; by rewrite Hthis|].
      cbn [negb scheduler_ r].
      eapply runs_trans; [apply (runs_act _ _ _ _ (Some ctx) w1)|].
      { unfold RPC_CONTEXT_new, mbind, M_bind, get. by rewrite Hctx. }
      eapply runs_trans; [exact Hrun2|]. cbn [cid_seed set_world s1].
      pose proof (seed_range s (proj1 Hi)).
      destruct (Z.ltb_spec (cid_seed s) 0); [lia|].
      eapply runs_trans; [apply (runs_act _ _ _ _ tt w3)|exact Hrun].
      unfold push_pair. rewrite (bind_step _ _ _ r w1); [done|].
      unfold load_rpc. cbn. by rewrite Hthis.
    + apply Forall_app. split.
      * rewrite Forall_forall in Hw |- *. intros y Hin. specialize (Hw y Hin).
        pose proof (waits_crid s y Hi Hw). pose proof Hw as (Hat & _).
        eapply waits_frame; [exact Hw|intros q d Hd Hdi|].
        -- assert (q <> p) by congruence. rewrite Hq by done. cbn. by rewrite lookup_insert_ne.
        -- rewrite Hw'. cbn. rewrite lookup_insert_ne by congruence. done.
      * apply Forall_singleton. split; [rewrite Hw'; cbn; by rewrite lookup_insert_eq|].
        split; [done|]. by exists p, c'.
    + rewrite Hw'. cbn. rewrite lookup_insert_eq, map_app. done.
    + by rewrite Hw'.
    + rewrite Hw'. cbn. repeat (split; [done|]). split; [|split].
      * intros q Hne. by rewrite lookup_insert_ne.
      * intros q Hne. by rewrite lookup_insert_ne.
      * split; [|split; [by rewrite Htab|split; [done|]]].
        2: { rewrite Hd'. cbn. pose proof (seed_range s (proj1 Hi)). unfold numbers_left in Hcid.
             by rewrite i32_id by lia. }
        intros q Hne. rewrite Hq by done. cbn. by rewrite lookup_insert_ne.
Qed.

(** The answer [r] for a call that keeps the response [d]: status and response. *)
Definition reply (r : RpcMessage) (d : Message) : Z * Message :=
  if msg_type r =? RPC_TYPE_ERROR then (-1, d)
  else let '(ok, m) := ParseFromString (Clear d) (msg_bin r) in (if ok then 0 else -1, m).

Definition with_response (x : RPC_CONTEXT) (d : Message) : RPC_CONTEXT :=
  {| callback := callback x; rpc_stub := rpc_stub x; request := request x; response := Some d;
     ctx_arg := ctx_arg x |}.

(** The part of a call behind the yield. *)
Lemma RpcFunction_resumed_seg w ctx x m d z w2 :
  rpc_ctxs w !! ctx = Some x -> request x = Some m -> response x = Some d ->
  body (callback x) (Some m) (Some (snd (reply (rpc_msg_ (gen w)) d))) (ctx_arg x)
    (fst (reply (rpc_msg_ (gen w)) d))
    (set_rpc_ctxs (<[ctx := with_response x (snd (reply (rpc_msg_ (gen w)) d))]> (rpc_ctxs w)) w)
  = Ok (z, w2) ->
  is_Some (rpc_ctxs w2 !! ctx) ->
  seg w (RpcFunction_resumed plain_callback ctx)
    (set_rpc_ctxs (delete ctx (rpc_ctxs w2)) w2) None.
Proof using.
  intros Hx Hm Hd Hbody [x2 Hx2]. set (rp := reply (rpc_msg_ (gen w)) d) in *.
  set (w1 := set_rpc_ctxs _ w) in Hbody. unfold RpcFunction_resumed.
  apply seg_act with (z := fst rp) (w1 := w1).
  { unfold RpcFunction_parse. rewrite (bind_step _ _ w x w) by (unfold load_context; by rewrite Hx).
    rewrite Hm, Hd. rewrite (bind_step _ _ w w w) by done. subst w1 rp. unfold reply.
    destruct (msg_type _ =? _); cbn [fst snd].
    - unfold mret, M_ret. do 2 f_equal. destruct w; cbn in *. unfold set_rpc_ctxs. cbn. f_equal.
      rewrite insert_id; [done|]. rewrite Hx. destruct x; cbn in *. by subst.
    - destruct (ParseFromString _ _) as [ok m']. cbn [fst snd].
      erewrite bind_step by reflexivity. unfold with_response. by rewrite Hm. }
  apply seg_act with (z := with_response x (snd rp)) (w1 := w1).
  { unfold load_context. subst w1. cbn. by rewrite lookup_insert_eq. }
  cbn [callback request response ctx_arg with_response]. unfold plain_callback.
  apply seg_act with (z := z) (w1 := w2); [by rewrite Hm|].
  apply seg_act with (z := tt) (w1 := set_rpc_ctxs (delete ctx (rpc_ctxs w2)) w2); [|apply seg_ret].
  unfold delete_context. by rewrite (bind_step _ _ w2 x2 w2) by (unfold load_context; by rewrite Hx2).
Qed.

Lemma find_async_middle l1 x l2 :
  NoDup (map (fun x => cp_asyncid (pair x)) (l1 ++ x :: l2)) ->
  find_async (cp_asyncid (pair x)) (map pair (l1 ++ x :: l2)) = crid (pair x).
Proof using.
  induction l1 as [|y l1 IH]; cbn; intros H; [by rewrite Z.eqb_refl|].
  apply NoDup_cons in H as [Hy H]. destruct (Z.eqb_spec (cp_asyncid (pair y))
    (cp_asyncid (pair x))) as [Heq|]; [|by apply IH].
  exfalso. apply Hy. rewrite Heq, map_app. apply elem_of_app. right. cbn. left.
Qed.

Lemma find_async_none aid l :
  aid ∉ map (fun x => cp_asyncid (pair x)) l -> find_async aid (map pair l) = -1.
Proof using.
  induction l as [|y l IH]; cbn; [done|]. intros [Hy Hl]%not_elem_of_cons.
  destruct (Z.eqb_spec (cp_asyncid (pair y)) aid); [congruence|by apply IH].
Qed.

Lemma remove_first_middle l1 x l2 :
  NoDup (map (fun x => crid (pair x)) (l1 ++ x :: l2)) ->
  remove_first (crid (pair x)) (map pair (l1 ++ x :: l2)) = map pair (l1 ++ l2).
Proof using.
  induction l1 as [|y l1 IH]; cbn; intros H; [by rewrite Z.eqb_refl|].
  apply NoDup_cons in H as [Hy H]. destruct (Z.eqb_spec (crid (pair y))
    (crid (pair x))) as [Heq|]; [|f_equal; by apply IH].
  exfalso. apply Hy. rewrite Heq, map_app. apply elem_of_app. right. cbn. left.
Qed.

Lemma remove_first_none c l :
  c ∉ map (fun x => crid (pair x)) l -> remove_first c (map pair l) = map pair l.
Proof using.
  induction l as [|y l IH]; cbn; [done|]. intros [Hy Hl]%not_elem_of_cons.
  destruct (Z.eqb_spec (crid (pair y)) c); [congruence|f_equal; by apply IH].
Qed.

(** [Resume] behind the lookup of the coroutine. *)
Definition forget this c (k : Z -> code (World C U)) : code (World C U) :=
  Alive c (fun alive : bool =>
    if negb alive then Act (RemoveByCoroutineId this c) (fun _ => k 0) else k 0).
Definition wake this c k : code (World C U) :=
  Alive c (fun alive : bool => if alive then Resume c (fun _ => forget this c k) else forget this c k).

Definition received (r : RpcMessage) s : CoroutineScheduler (World C U) :=
  set_world (set_gen (set_rpc_msg r (gen (world s))) (world s)) s.

Lemma Resume_lookup this net l s r k :
  rpc_inv this net l s -> rpc_wf r ->
  runs calloc (EasyRpc_Resume this (Some (rpc_SerializeToString r)) k) s
    (wake this (find_async (asyncid r) (map pair l)) k) (received r s).
Proof using POk.
  intros Hinv Hr. pose proof (ri_this _ _ _ _ Hinv) as Hthis.
  set (rp := {| scheduler_ := true; net_ := Some net; crid_list_ := map pair l |}) in *.
  eapply runs_trans.
  { apply (runs_read _ _ _ _ tt). rewrite (bind_step _ _ _ rp (world s)); [done|].
    unfold load_rpc. by rewrite Hthis. }
  destruct (rpc_SerializeToString r) as [|b data] eqn:Es; [by destruct (rpc_serialize_nonempty r)|].
  rewrite <- Es. eapply runs_trans.
  { apply (runs_act _ _ _ _ 0). apply on_gen_ok. by apply Unpack_ok. }
  cbn [Z.eqb negb]. fold (received r s).
  refine (runs_read calloc _ (fun c => wake this c k) _ (find_async (asyncid r) (map pair l)) _).
  rewrite (bind_step get _ _ _ _ eq_refl). unfold GetCoroutineIdxByAsyncId.
  rewrite (bind_step _ _ _ rp (world (received r s))); [done|].
  unfold load_rpc. cbn. by rewrite Hthis.
Qed.

Lemma wake_unknown this net l s c k :
  rpc_inv this net l s -> coroutine_table_ s !! c = None ->
  c ∉ map (fun x => crid (pair x)) l ->
  runs calloc (wake this c k) s (k 0) s.
Proof using.
  intros Hinv Hc Hn. pose proof (ri_this _ _ _ _ Hinv) as Hthis.
  eapply runs_trans; [by apply runs_alive, alive_unknown|].
  eapply runs_trans; [by apply runs_alive, alive_unknown|]. cbn [negb].
  refine (runs_read calloc _ (fun _ => k 0) _ tt _). unfold RemoveByCoroutineId.
  rewrite (bind_step _ _ _ _ (world s)) by (unfold load_rpc; by rewrite Hthis).
  cbn. rewrite remove_first_none by done. unfold store_rpc, modify. do 2 f_equal.
  destruct (world s). unfold set_rpcs. cbn in *. by rewrite insert_id.
Qed.

(** The callbacks leave the objects of this file alone. *)
Definition quiet : Prop := forall fn req resp a st w,
  exists z w', body fn req resp a st w = Ok (z, w') /\ rpcs w' = rpcs w /\
    rpc_ctxs w' = rpc_ctxs w /\ asyncid_seed w' = asyncid_seed w.

Lemma rpc_inv_received this net l s r : rpc_inv this net l s -> rpc_inv this net l (received r s).
Proof using. intros [? ? ? ? ? ? ? ?]. split; try done. by apply idle_world. Qed.

Lemma rpc_inv_remove this net l1 x l2 s s' :
  rpc_inv this net (l1 ++ x :: l2) s -> idle any s' ->
  rpcs (world s') !! this
  = Some {| scheduler_ := true; net_ := Some net; crid_list_ := map pair (l1 ++ l2) |} ->
  asyncid_seed (world s') = asyncid_seed (world s) ->
  (forall q, q <> at_ x -> rpc_ctxs (world s') !! q = rpc_ctxs (world s) !! q) ->
  (forall q c, ctxs s !! q = Some c -> idx c <> crid (pair x) -> ctxs s' !! q = Some c) ->
  rpc_inv this net (l1 ++ l2) s'.
Proof using.
  intros [Hi Ht Hw Ha Hc Hy Hs Hs0] Hi' Ht' Hseed Hat Hct.
  assert (Hmap : forall (f : call -> Z) l1 l2, NoDup (map f (l1 ++ x :: l2)) ->
            NoDup (map f (l1 ++ l2)) /\ forall y, y ∈ l1 ++ l2 -> f y <> f x).
  { intros f k1 k2. rewrite !map_app. cbn. intros Hnd.
    rewrite <- Permutation_middle in Hnd. apply NoDup_cons in Hnd as [Hx Hnd].
    split; [done|]. intros y Hy' Heq. apply Hx. rewrite <- Heq, <- map_app.
    by apply (list_elem_of_fmap_2 f). }
  assert (Hsub : forall y, y ∈ l1 ++ l2 -> y ∈ l1 ++ x :: l2).
  { intros y. rewrite !elem_of_app, elem_of_cons. tauto. }
  rewrite Forall_forall in Hw, Hs.
  split; [done|done| | apply (Hmap at_ _ _ Ha) | apply (Hmap (fun x => crid (pair x)) _ _ Hc)
    | apply (Hmap (fun x => cp_asyncid (pair x)) _ _ Hy) | |lia].
  - apply Forall_forall. intros y Hin. eapply waits_frame; [by apply Hw, Hsub|intros q c Hq Hi2|].
    + apply Hct; [done|]. rewrite Hi2. by apply (Hmap (fun x => crid (pair x)) _ _ Hc).
    + apply Hat. by apply (Hmap at_ _ _ Ha).
  - apply Forall_forall. intros y Hin. rewrite Hseed. by apply Hs, Hsub.
Qed.

Lemma Resume_ok this net l1 x l2 s r m d k :
  quiet -> rpc_inv this net (l1 ++ x :: l2) s -> rpc_wf r -> asyncid r = cp_asyncid (pair x) ->
  request (what x) = Some m -> response (what x) = Some d ->
  exists s' w1 z w2,
    runs calloc (EasyRpc_Resume this (Some (rpc_SerializeToString r)) k) s (k 0) s' /\
    rpc_inv this net (l1 ++ l2) s' /\
    body (callback (what x)) (Some m) (Some (snd (reply r d))) (ctx_arg (what x))
      (fst (reply r d)) w1 = Ok (z, w2) /\
    heap w1 = heap (world s) /\ rest w1 = rest (world s) /\ closures w1 = closures (world s) /\
    heap (world s') = heap w2 /\ rest (world s') = rest w2 /\ closures (world s') = closures w2 /\
    rpc_ctxs (world s') = delete (at_ x) (rpc_ctxs (world s)) /\
    (forall q, q <> this -> rpcs (world s') !! q = rpcs (world s) !! q) /\
    (forall q c, ctxs s !! q = Some c -> idx c <> crid (pair x) -> ctxs s' !! q = Some c).
Proof using POk.
  intros Hquiet Hinv0 Hr Hid Hm Hd. pose proof (rpc_inv_received _ _ _ _ r Hinv0) as Hinv.
  set (s0 := received r s) in *. pose proof Hinv as [Hi Hthis Hw _ Hcr Has _ _].
  apply Forall_app in Hw as [_ [Hw _]%Forall_cons].
  destruct Hw as (Hctx & _ & p & c & Hc & Hidx & Hk).
  set (rp := reply r d).
  set (w1 := set_rpc_ctxs (<[at_ x := with_response (what x) (snd rp)]> (rpc_ctxs (world s0)))
               (world s0)).
  destruct (Hquiet (callback (what x)) (Some m) (Some (snd rp)) (ctx_arg (what x)) (fst rp) w1)
    as (z & w2 & Hbody & Er & Ec & Es).
  assert (Hseg : seg (world s0) (RpcFunction_resumed plain_callback (at_ x))
                   (set_rpc_ctxs (delete (at_ x) (rpc_ctxs w2)) w2) None).
  { apply (RpcFunction_resumed_seg _ _ (what x) m d z w2); try done.
    rewrite Ec. cbn. rewrite lookup_insert_eq. by eexists. }
  destruct (runs_resume calloc (F := any) s0 p c (fun _ => forget this (crid (pair x)) k)
              _ _ None Hi Hc Hk Hseg) as (s1 & Hrun & Hi1 & Hw1 & Hsd & Hq & Htab & Hgone).
  set (r2 := {| scheduler_ := true; net_ := Some net; crid_list_ := map pair (l1 ++ l2) |}).
  set (w3 := set_rpcs (<[this := r2]> (rpcs (world s1))) (world s1)).
  assert (Hthis1 : rpcs (world s1) !! this = rpcs (world s0) !! this) by (by rewrite Hw1; cbn; rewrite Er).
  assert (Hkeep : forall q d0, ctxs s !! q = Some d0 -> idx d0 <> crid (pair x) ->
            ctxs s1 !! q = Some d0).
  { intros q d0 Hd0 Hne. rewrite Hq; [done|]. intros ->. cbn in Hc. congruence. }
  assert (Hdel : rpc_ctxs w3 = delete (at_ x) (rpc_ctxs (world s))).
  { cbn. rewrite Hw1. cbn. rewrite Ec. cbn. by rewrite delete_insert_eq. }
  exists (set_world w3 s1), w1, z, w2. split; [|split; [|split; [exact Hbody|]]].
  - eapply runs_trans; [by eapply Resume_lookup|]. fold s0.
    rewrite Hid, find_async_middle by done. eapply runs_trans.
    { apply runs_alive. rewrite <- Hidx. by apply (alive_waiting (F := any) s0 p c _ Hi Hc Hk). }
    rewrite <- Hidx at 1. eapply runs_trans; [exact Hrun|]. unfold forget. eapply runs_trans.
    { apply runs_alive, alive_unknown. rewrite Htab, Hidx. apply lookup_delete_eq. }
    cbn [negb]. refine (runs_act calloc _ (fun _ => k 0) _ tt w3 _). unfold RemoveByCoroutineId.
    rewrite (bind_step _ _ _ _ (world s1)) by (unfold load_rpc; by rewrite Hthis1, Hthis).
    cbn. by rewrite remove_first_middle.
  - apply (rpc_inv_remove this net l1 x l2 s0); [done|by apply idle_world| | | |exact Hkeep].
    + cbn. by rewrite lookup_insert_eq.
    + cbn. rewrite Hw1. exact Es.
    + intros q Hne. cbn [world set_world]. rewrite Hdel. by rewrite lookup_delete_ne.
  - cbn [world set_world]. rewrite Hdel. cbn. rewrite Hw1. cbn. rewrite Er.
    repeat (split; [done|]). split; [|exact Hkeep].
    intros q Hne. by rewrite lookup_insert_ne.
Qed.
End ClientProofs.

(** ** Properties *)

(** C11: [rpc_call]. A call made outside every coroutine, with memory for its context, room
    in the table of coroutines and numbers left ([numbers_left]: fewer than 2^31 - 1
    coroutines created so far, since the counter is an int, [Coroutine.numbers_run_out];
    fewer than 2^64 - 1 ids given), and a name of the message that fits, creates a coroutine
    that puts the request on the wire under the next id and waits for its answer; the calls
    already in progress are kept.  Then the call returns 0 whatever [Send] answers, 0 or an
    error: a request that could not be sent leaves a call that waits for an answer nobody
    will give. *)
Theorem rpc_call {P : Protobuf} {POk : ProtobufOk P} {R : RpcEnv P} {ROk : RpcEnvOk R}
    {C U} {E : NetEnv C} calloc body this net l (s : CoroutineScheduler (World C U))
    m resp cb a k ctx p ret h' :
  (forall h q, calloc h = Some q -> h !! q = None) ->
  rpc_inv body this net l s -> numbers_left s -> cb <> 0 ->
  new_context (rpc_ctxs (world s)) = Some ctx ->
  calloc (ctxs s) = Some p -> Z.of_nat (size (coroutine_table_ s)) < u64 (coroutine_max_ s) ->
  blen (GetTypeName m) < MAX_MESSAGE_NAME -> asyncid_seed (world s) < 18446744073709551615 ->
  EasyNet_Send net (Some (rpc_SerializeToString
    (wire_of RPC_TYPE_REQUEST (asyncid_seed (world s)) m))) (heap (world s)) = Ok (ret, h') ->
  exists s', runs calloc (RpcCall (plain_callback body) this (Some m) resp cb a k) s (k 0) s' /\
    rpc_inv body this net (l ++ [new_call this m resp cb a s ctx]) s' /\
    heap (world s') = h' /\ rest (world s') = rest (world s) /\
    (forall q, q <> this -> rpcs (world s') !! q = rpcs (world s) !! q) /\
    (forall q, q <> p -> ctxs s' !! q = ctxs s !! q).
Proof.
  intros Hcal H1 Hnum H2 H3 H4 H5 H6 H7 H8.
  destruct (RpcCall_ok calloc Hcal body this net l s m resp cb a k ctx p ret h'
              H1 Hnum H2 H3 H4 H5 H6 H7 H8) as (s' & Hr & Hi & Hh & _ & _ & Hrest & Hq & _ & Hp & _).
  exists s'. auto 10.
Qed.

(** C10: [rpc_reply]. For callbacks that return and make no call themselves ([quiet]; a
    callback that calls runs into [nested_resume]), the answer to any call in progress that
    has a response to fill, in whatever order answers come, wakes the coroutine of this
    call: its callback runs once, with the request, the parsed response, the argument of
    the call and the status, on the connections as the answer found them.  Then the call is
    over: its coroutine, its context and its pair are gone and the other calls still wait. *)
Theorem rpc_reply {P : Protobuf} {POk : ProtobufOk P} {R : RpcEnv P} {C U} {E : NetEnv C}
    calloc body this net l1 x l2 (s : CoroutineScheduler (World C U)) r m d k :
  quiet body -> rpc_inv body this net (l1 ++ x :: l2) s -> rpc_wf r ->
  asyncid r = cp_asyncid (pair x) -> request (what x) = Some m -> response (what x) = Some d ->
  exists s' w1 z w2,
    runs calloc (EasyRpc_Resume this (Some (rpc_SerializeToString r)) k) s (k 0) s' /\
    rpc_inv body this net (l1 ++ l2) s' /\
    body (callback (what x)) (Some m) (Some (snd (reply r d))) (ctx_arg (what x))
      (fst (reply r d)) w1 = Ok (z, w2) /\
    heap w1 = heap (world s) /\ rest w1 = rest (world s) /\
    heap (world s') = heap w2 /\ rest (world s') = rest w2 /\
    rpc_ctxs (world s') = delete (at_ x) (rpc_ctxs (world s)).
Proof.
  intros Hquiet Hinv Hr Hid Hm Hd.
  destruct (Resume_ok calloc body this net l1 x l2 s r m d k Hquiet Hinv Hr Hid Hm Hd)
    as (s' & w1 & z & w2 & H1 & H2 & H3 & H4 & H5 & _ & H6 & H7 & _ & H8 & _).
  exists s', w1, z, w2. auto 10.
Qed.

(** An answer under an id no call waits for, such as a second
    answer to the same call, wakes nothing and changes nothing but the message that
    was unpacked last. *)
Theorem rpc_stray_reply {P : Protobuf} {POk : ProtobufOk P} {C U} {E : NetEnv C}
    calloc body this net l (s : CoroutineScheduler (World C U)) r k :
  rpc_inv body this net l s -> rpc_wf r ->
  asyncid r ∉ map (fun x => cp_asyncid (pair x)) l ->
  runs calloc (EasyRpc_Resume this (Some (rpc_SerializeToString r)) k) s (k 0) (received r s).
Proof.
  intros Hinv Hr Hid. pose proof (rpc_inv_received body this net l s r Hinv) as Hinv'.
  eapply runs_trans; [by apply (Resume_lookup _ body this net l s r k Hinv Hr)|].
  rewrite find_async_none by done. apply (wake_unknown calloc body this net l); [done| |].
  - destruct (coroutine_table_ (received r s) !! (-1)) as [e|] eqn:Ee; [|done].
    pose proof (proj1 (ri_idle _ _ _ _ _ Hinv')) as Ht.
    destruct (table_ctx _ Ht _ _ Ee) as (p & c & _ & Hc & Hi).
    apply (ctx_table _ Ht) in Hc as (_ & Hc & _). lia.
  - intros (y & Hy & Hin)%list_elem_of_fmap. pose proof (ri_waits _ _ _ _ _ Hinv') as Hw.
    rewrite Forall_forall in Hw.
    pose proof (waits_crid body _ y (ri_idle _ _ _ _ _ Hinv') (Hw y Hin)). lia.
Qed.

(** C18: [closure_answer]. [Done] sends the response under the id of the request, and
    [Cancel] an error under this id; both delete the response, release the request and free the closure.
    The client's callback then gets the response with status 0, or the status -1.
    The closure does not own the connection: when this has been removed, [Done] and
    [Cancel] use freed memory, as does a second [Done]. *)
Theorem closure_answer {P : Protobuf} {POk : ProtobufOk P} {C U} {E : NetEnv C}
    (w : World C U) p c net req rsp d err :
  closures w !! p = Some c -> clo_net_ c = Some net -> req_ c = Some req -> rsp_ c = Some rsp ->
  blen (GetTypeName rsp) < MAX_MESSAGE_NAME -> GetTypeName d = GetTypeName rsp ->
  err = {| magic := MAGIC_RPCSTAMP_V1; msg_type := RPC_TYPE_ERROR; asyncid := async_id_ c;
           msg_name := []; sequence := None; msg_bin := [] |} ->
  let closed h' := set_closures (delete p (closures w))
                     (set_gen (count_messages (-1) (count_responses (-1) (gen w))) (set_heap h' w)) in
  let sent r := EasyNet_Send net (Some (rpc_SerializeToString r)) (heap w) in
  (forall z h', sent (wire_of RPC_TYPE_RESPONSE (async_id_ c) rsp) = Ok (z, h') ->
     Closure_Done p w = Ok (tt, closed h') /\ Closure_Done p (closed h') = Fault UseAfterFree) /\
  (forall z h', sent err = Ok (z, h') -> Closure_Cancel p w = Ok (tt, closed h')) /\
  (nets (heap w) !! net = None ->
     Closure_Done p w = Fault UseAfterFree /\ Closure_Cancel p w = Fault UseAfterFree) /\
  reply (wire_of RPC_TYPE_RESPONSE (async_id_ c) rsp) d = (0, rsp) /\ reply err d = (-1, d).
Proof.
  intros Hc Hnet Hreq Hrsp Hname Hty Herr closed sent.
  assert (Hfin : forall data, data <> [] ->
    finish_closure p c (0, Some data) w
    = match EasyNet_Send net (Some data) (heap w) with
      | Ok (_, h') => Ok (tt, closed h') | Fault f => Fault f end).
  { intros data Hne. unfold finish_closure. rewrite Hnet, Hreq, Hrsp.
    unfold mbind, M_bind, on_net at 1.
    destruct (EasyNet_Send net (Some data) (heap w)) as [[z h']|f]; reflexivity. }
  assert (Hdone : Closure_Done p w = finish_closure p c (0, Some (rpc_SerializeToString
                    (wire_of RPC_TYPE_RESPONSE (async_id_ c) rsp))) w).
  { unfold Closure_Done. rewrite (bind_step _ _ w c w) by (unfold load_closure; by rewrite Hc).
    by rewrite Hrsp, MessageToBinary_ok. }
  assert (Hcan : Closure_Cancel p w = finish_closure p c (0, Some (rpc_SerializeToString err)) w).
  { unfold Closure_Cancel. rewrite (bind_step _ _ w c w) by (unfold load_closure; by rewrite Hc).
    by rewrite Herr. }
  rewrite Hdone, Hcan, !Hfin by apply rpc_serialize_nonempty.
  split; [|split; [|split; [|split]]].
  - intros z h' Hs. unfold sent in Hs. rewrite Hs. split; [done|].
    unfold Closure_Done, mbind, M_bind, load_closure, closed. cbn.
    by rewrite lookup_delete_eq.
  - intros z h' Hs. unfold sent in Hs. by rewrite Hs.
  - intros Hnone.
    assert (Hf : forall data, data <> [] -> EasyNet_Send net (Some data) (heap w) = Fault UseAfterFree).
    { intros [|b data] ?; [done|]. unfold EasyNet_Send, mbind at 1, M_bind at 1, load_net.
      by rewrite Hnone. }
    rewrite !Hf by apply rpc_serialize_nonempty. done.
  - unfold reply. cbn. by rewrite parse_serialize.
  - by rewrite Herr.
Qed.

(** ** Concrete calls *)

Definition easy_rpc_env : RpcEnv plain_protobuf := {|
  new_rpc h := Some (fresh (dom h));
  new_context h := Some (fresh (dom h ∪ {[ 0 ]}));
  new_closure h := Some (fresh (dom h))
|}.

#[export] Instance easy_rpc_env_ok : RpcEnvOk easy_rpc_env.
Proof.
  split; cbn; intros h p [= <-]; [apply not_elem_of_dom; apply is_fresh| |
    apply not_elem_of_dom; apply is_fresh].
  pose proof (is_fresh (dom h ∪ {[ 0 ]} : gset Z)) as Hf.
  apply not_elem_of_union in Hf as [Hf Hz]. split; [by apply not_elem_of_dom|].
  intros Heq. apply Hz. rewrite Heq. by apply elem_of_singleton.
Qed.

(** Callbacks that note the argument of the call and the status. *)
Definition note_body (fn : Z) (req resp : option (Message (Protobuf := plain_protobuf))) (a st : Z)
    : M (World (P := plain_protobuf) Z (list (Z * Z))) Z := fun w =>
  Ok (0, set_rest (rest w ++ [(a, st)]) w).

Lemma note_quiet : quiet note_body.
Proof. intros fn req resp a st w. do 2 eexists. split; [reflexivity|]. done. Qed.

(** One object for calls, over the connection of [one_net]. *)
Definition call_world : World (P := plain_protobuf) Z (list (Z * Z)) :=
  {| heap := set_tick 0 one_net; gen := GenSt_new;
     rpcs := {[ 8 := {| scheduler_ := true; net_ := Some 3; crid_list_ := [] |} ]};
     rpc_ctxs := ∅; closures := ∅; asyncid_seed := 5; buf := []; rest := [] |}.
Definition call_state : CoroutineScheduler (World (P := plain_protobuf) Z (list (Z * Z))) :=
  CoroutineScheduler_new 10 call_world.

Lemma call_state_inv : rpc_inv note_body 8 3 [] call_state.
Proof.
  split; try done; by constructor.
Qed.

Definition ask : Message (Protobuf := plain_protobuf) := ([81], [1]).
Definition told : Message (Protobuf := plain_protobuf) := ([65], [2]).

Lemma rpc_call_witness :
  exists s', runs any_calloc
    (RpcCall (R := easy_rpc_env) (E := easy_env) (plain_callback note_body) 8 (Some ask)
       (Some told) 77 6 (fun _ => Ret)) call_state Ret s' /\
    match bevs (heap (world s')) !! 4 with
    | Some x => output x = frame [33048; 1; 5; 1; 81; 1]
    | None => False
    end.
Proof.
  destruct (rpc_call (R := easy_rpc_env) (E := easy_env) any_calloc note_body 8 3 [] call_state
              ask (Some told) 77 6 (fun _ => Ret) 1 0 0
              (set_tick 2 (add_output 4 {| bev_fd := 9; input := []; output := [] |}
                 (frame [33048; 1; 5; 1; 81; 1]) one_net)))
    as (s' & Hrun & _ & Hh & _).
  - apply any_calloc_fresh.
  - apply call_state_inv.
  - reflexivity.
  - lia.
  - reflexivity.
  - reflexivity.
  - reflexivity.
  - reflexivity.
  - reflexivity.
  - vm_compute. reflexivity.
  - exists s'. split; [exact Hrun|]. rewrite Hh. reflexivity.
Defined.

(** A call with the id 5 that waits in the coroutine 0. *)
Definition waiting_call : call :=
  {| pair := {| crid := 0; cp_asyncid := 5 |}; at_ := 1;
     what := {| callback := 77; rpc_stub := 8; request := Some ask; response := Some told;
                ctx_arg := 6 |} |}.
Definition waiting_state : CoroutineScheduler (World (P := plain_protobuf) Z (list (Z * Z))) :=
  {| running_cid_ := -1; main_ctx_ := None; coroutine_max_ := 10;
     coroutine_table_ := {[ 0 := Some 2 ]};
     ctxs := {[ 2 := {| uctx := Some (Thread (BCo 2)
                          (PAfterYield (fun _ => RpcFunction_resumed (plain_callback note_body) 1)));
                        idx := 0; state := COROUTINE_SUSPEND;
                        func := fun _ => Ret; arg := 1 |} ]};
     cid_seed := 1;
     world := set_rpcs {[ 8 := {| scheduler_ := true; net_ := Some 3;
                                  crid_list_ := [pair waiting_call] |} ]}
                (set_rpc_ctxs {[ 1 := what waiting_call ]} (set_asyncid_seed 6 call_world)) |}.

Lemma waiting_inv : rpc_inv note_body 8 3 [waiting_call] waiting_state.
Proof.
  split; try done; try apply NoDup_singleton;
    try lazymatch goal with |- Forall _ _ => apply Forall_singleton end.
  - split; [|done]. split; cbn; [| |lia].
    + intros i e [<- <-]%lookup_singleton_Some. by do 2 eexists.
    + intros p c [<- <-]%lookup_singleton_Some. by repeat split; cbn.
  - split; [done|]. split; [done|]. exists 2. eexists. split; [apply lookup_singleton_eq|].
    split; [done|].
    right. split; [done|]. eexists. split; [reflexivity|done].
  - cbn. lia.
Qed.

(** The call is answered with an error: the callback gets the status -1. *)
Definition error_answer : RpcMessage :=
  {| magic := MAGIC_RPCSTAMP_V1; msg_type := RPC_TYPE_ERROR; asyncid := 5; msg_name := [];
     sequence := None; msg_bin := [] |}.

Lemma rpc_reply_witness :
  exists s', runs any_calloc
    (EasyRpc_Resume (P := plain_protobuf) 8
       (Some (rpc_SerializeToString (Protobuf := plain_protobuf) error_answer)) (fun _ => Ret))
    waiting_state Ret s' /\ rest (world s') = [(6, -1)] /\ rpc_ctxs (world s') = ∅.
Proof.
  destruct (rpc_reply (R := easy_rpc_env) (E := easy_env) any_calloc note_body 8 3 [] waiting_call
              [] waiting_state error_answer ask told (fun _ => Ret) note_quiet waiting_inv)
    as (s' & w1 & z & w2 & Hrun & _ & Hb & _ & Hr1 & _ & Hr2 & Hc).
  - by repeat split.
  - reflexivity.
  - reflexivity.
  - reflexivity.
  - exists s'. split; [exact Hrun|]. split; [|rewrite Hc; reflexivity].
    rewrite Hr2. unfold note_body in Hb. injection Hb as _ <-. cbn. rewrite Hr1. reflexivity.
Defined.

Lemma rpc_stray_reply_witness :
  exists s', runs any_calloc
    (EasyRpc_Resume (P := plain_protobuf) 8
       (Some (rpc_SerializeToString (Protobuf := plain_protobuf)
                {| magic := 0; msg_type := 2; asyncid := 4; msg_name := []; sequence := None;
                   msg_bin := [] |})) (fun _ => Ret))
    waiting_state Ret s' /\ rpc_ctxs (world s') = rpc_ctxs (world waiting_state).
Proof.
  eexists. split.
  - apply (rpc_stray_reply (E := easy_env) any_calloc note_body 8 3 [waiting_call] waiting_state).
    + apply waiting_inv.
    + by repeat split.
    + cbn. intros H. apply list_elem_of_singleton in H. discriminate H.
  - reflexivity.
Defined.

(** A closure for the request with the id 5 on the connection of [one_net]. *)
Definition closure_world : World (P := plain_protobuf) Z unit :=
  {| heap := set_tick 0 one_net; gen := count_messages 1 (count_responses 1 GenSt_new);
     rpcs := ∅; rpc_ctxs := ∅;
     closures := {[ 2 := {| user_data_ := 0; async_id_ := 5; req_ := Some ask; rsp_ := Some told;
                            clo_net_ := Some 3; is_done_ := false |} ]};
     asyncid_seed := 0; buf := []; rest := () |}.

Lemma closure_answer_witness :
  exists w', Closure_Done (E := easy_env) 2 closure_world = Ok (tt, w') /\
    closures w' = ∅ /\ messages (gen w') = 0 /\ responses (gen w') = 0 /\
    match bevs (heap w') !! 4 with
    | Some x => output x = frame [33048; 2; 5; 1; 65; 2]
    | None => False
    end.
Proof.
  destruct (closure_answer (E := easy_env) closure_world 2 _ 3 ask told ([65], []) _
              eq_refl eq_refl eq_refl eq_refl eq_refl eq_refl eq_refl) as (Hdone & _).
  specialize (Hdone 0 (set_tick 2 (add_output 4 {| bev_fd := 9; input := []; output := [] |}
                 (frame [33048; 2; 5; 1; 65; 2]) one_net))).
  destruct Hdone as [Hd _]; [vm_compute; reflexivity|].
  eexists. split; [exact Hd|]. vm_compute. auto.
Defined.
