(* ===== verification/Framework.v ===== *)
(** * The framework: framework/rapidapp_framework_imp.h and .cpp

    [AppFrameWork] ties the parts together: it owns the two connection tables, the
    timers and the services, calls the application on events, and is the
    [IFrameWork] the application calls.  The application is the class [RapidApp]:
    its callbacks are code, so that they may make calls that wait.  Which of
    the framework's functions libevent calls for a bufferevent is part of the heap. *)
From Stdlib Require Import ZArith Lia.
From stdpp Require Import base list gmap fin_maps strings.
From S2P Require Import Prelude CLib TcpSocket Timer Coroutine EasyNet NetMgr RpcMsg EasyRpc.
Local Open Scope Z_scope.

(** ** Data *)

Definition APP_START : Z := 0.
Definition APP_STOP : Z := 1.
Definition APP_RESTART : Z := 2.
Definition APP_RELOAD : Z := 3.
Definition SVC_MODE_NORMAL : Z := 1.
Definition SVC_MODE_RPC : Z := 2.

(** [AppSetting], src/framework/rapidapp_framework_imp.h:35-46 *)
Record AppSetting : Set := {
  fps : Z;
  max_idle : Z;
  max_pkg_speed : Z;
  max_traffic_speed : Z;
  listen_uri : bytes;
  log_file_name : bytes;
  pid_file_name : bytes;
  ctrl_sock_file_name : bytes;
  mode : Z
}.

(** The members of [AppFrameWork] that only [Init] and [CleanUp] use. *)
Record Handles : Set := {
  internal_timer_ : bool;
  listener_ : bool;
  udp_ctrl_keeper_ : bool;
  cfg_ : bytes;
  has_been_cleanup_ : bool
}.

(** [AppFrameWork], src/framework/rapidapp_framework_imp.h:218-252

    With the state [A] of the application and whether the event loop was told to
    stop.  A pointer that is only compared with NULL is a [bool]. *)
Record AppFrameWork (A : Type) : Type := {
  app_ : bool;
  event_base_ : bool;
  handles : Handles;
  schedule_update_ : bool;
  setting_ : AppSetting;
  running_ : bool;
  reloading_ : bool;
  now_ : Z;
  frontend_handler_mgr_ : NetHandlerMgr;
  backend_handler_mgr_ : NetHandlerMgr;
  timer_mgr_ : TimerMgr;
  rpc_scheduler_ : bool;
  rpc_svc_mgr_ : option RpcServerMgr;
  svc_mode_ : Z;
  loopbreak : bool;
  app : A
}.
Arguments app_ {A}. Arguments event_base_ {A}. Arguments handles {A}. Arguments schedule_update_ {A}.
Arguments setting_ {A}. Arguments running_ {A}. Arguments reloading_ {A}. Arguments now_ {A}.
Arguments frontend_handler_mgr_ {A}. Arguments backend_handler_mgr_ {A}. Arguments timer_mgr_ {A}. Arguments rpc_scheduler_ {A}.
Arguments rpc_svc_mgr_ {A}. Arguments svc_mode_ {A}. Arguments loopbreak {A}. Arguments app {A}.

Definition set_handles {A} (x : Handles) (s : AppFrameWork A) : AppFrameWork A :=
  {| app_ := app_ s; event_base_ := event_base_ s; handles := x;
     schedule_update_ := schedule_update_ s; setting_ := setting_ s; running_ := running_ s;
     reloading_ := reloading_ s; now_ := now_ s;
     frontend_handler_mgr_ := frontend_handler_mgr_ s;
     backend_handler_mgr_ := backend_handler_mgr_ s; timer_mgr_ := timer_mgr_ s;
     rpc_scheduler_ := rpc_scheduler_ s; rpc_svc_mgr_ := rpc_svc_mgr_ s;
     svc_mode_ := svc_mode_ s; loopbreak := loopbreak s; app := app s |}.

Definition set_setting {A} (x : AppSetting) (s : AppFrameWork A) : AppFrameWork A :=
  {| app_ := app_ s; event_base_ := event_base_ s; handles := handles s;
     schedule_update_ := schedule_update_ s; setting_ := x; running_ := running_ s;
     reloading_ := reloading_ s; now_ := now_ s;
     frontend_handler_mgr_ := frontend_handler_mgr_ s;
     backend_handler_mgr_ := backend_handler_mgr_ s; timer_mgr_ := timer_mgr_ s;
     rpc_scheduler_ := rpc_scheduler_ s; rpc_svc_mgr_ := rpc_svc_mgr_ s;
     svc_mode_ := svc_mode_ s; loopbreak := loopbreak s; app := app s |}.

Definition set_rpc_scheduler {A} (x : bool) (s : AppFrameWork A) : AppFrameWork A :=
  {| app_ := app_ s; event_base_ := event_base_ s; handles := handles s;
     schedule_update_ := schedule_update_ s; setting_ := setting_ s; running_ := running_ s;
     reloading_ := reloading_ s; now_ := now_ s;
     frontend_handler_mgr_ := frontend_handler_mgr_ s;
     backend_handler_mgr_ := backend_handler_mgr_ s; timer_mgr_ := timer_mgr_ s;
     rpc_scheduler_ := x; rpc_svc_mgr_ := rpc_svc_mgr_ s; svc_mode_ := svc_mode_ s;
     loopbreak := loopbreak s; app := app s |}.

Definition set_schedule_update {A} (x : bool) (s : AppFrameWork A) : AppFrameWork A :=
  {| app_ := app_ s; event_base_ := event_base_ s; handles := handles s;
     schedule_update_ := x; setting_ := setting_ s; running_ := running_ s;
     reloading_ := reloading_ s; now_ := now_ s;
     frontend_handler_mgr_ := frontend_handler_mgr_ s;
     backend_handler_mgr_ := backend_handler_mgr_ s; timer_mgr_ := timer_mgr_ s;
     rpc_scheduler_ := rpc_scheduler_ s; rpc_svc_mgr_ := rpc_svc_mgr_ s;
     svc_mode_ := svc_mode_ s; loopbreak := loopbreak s; app := app s |}.

Definition set_run {A} (x : bool) (s : AppFrameWork A) : AppFrameWork A :=
  {| app_ := app_ s; event_base_ := event_base_ s; handles := handles s;
     schedule_update_ := schedule_update_ s; setting_ := setting_ s; running_ := x;
     reloading_ := reloading_ s; now_ := now_ s;
     frontend_handler_mgr_ := frontend_handler_mgr_ s;
     backend_handler_mgr_ := backend_handler_mgr_ s; timer_mgr_ := timer_mgr_ s;
     rpc_scheduler_ := rpc_scheduler_ s; rpc_svc_mgr_ := rpc_svc_mgr_ s;
     svc_mode_ := svc_mode_ s; loopbreak := loopbreak s; app := app s |}.

Definition set_reloading {A} (x : bool) (s : AppFrameWork A) : AppFrameWork A :=
  {| app_ := app_ s; event_base_ := event_base_ s; handles := handles s;
     schedule_update_ := schedule_update_ s; setting_ := setting_ s; running_ := running_ s;
     reloading_ := x; now_ := now_ s; frontend_handler_mgr_ := frontend_handler_mgr_ s;
     backend_handler_mgr_ := backend_handler_mgr_ s; timer_mgr_ := timer_mgr_ s;
     rpc_scheduler_ := rpc_scheduler_ s; rpc_svc_mgr_ := rpc_svc_mgr_ s;
     svc_mode_ := svc_mode_ s; loopbreak := loopbreak s; app := app s |}.

Definition set_now {A} (x : Z) (s : AppFrameWork A) : AppFrameWork A :=
  {| app_ := app_ s; event_base_ := event_base_ s; handles := handles s;
     schedule_update_ := schedule_update_ s; setting_ := setting_ s; running_ := running_ s;
     reloading_ := reloading_ s; now_ := x;
     frontend_handler_mgr_ := frontend_handler_mgr_ s;
     backend_handler_mgr_ := backend_handler_mgr_ s; timer_mgr_ := timer_mgr_ s;
     rpc_scheduler_ := rpc_scheduler_ s; rpc_svc_mgr_ := rpc_svc_mgr_ s;
     svc_mode_ := svc_mode_ s; loopbreak := loopbreak s; app := app s |}.

Definition set_frontend {A} (x : NetHandlerMgr) (s : AppFrameWork A) : AppFrameWork A :=
  {| app_ := app_ s; event_base_ := event_base_ s; handles := handles s;
     schedule_update_ := schedule_update_ s; setting_ := setting_ s; running_ := running_ s;
     reloading_ := reloading_ s; now_ := now_ s; frontend_handler_mgr_ := x;
     backend_handler_mgr_ := backend_handler_mgr_ s; timer_mgr_ := timer_mgr_ s;
     rpc_scheduler_ := rpc_scheduler_ s; rpc_svc_mgr_ := rpc_svc_mgr_ s;
     svc_mode_ := svc_mode_ s; loopbreak := loopbreak s; app := app s |}.

Definition set_backend {A} (x : NetHandlerMgr) (s : AppFrameWork A) : AppFrameWork A :=
  {| app_ := app_ s; event_base_ := event_base_ s; handles := handles s;
     schedule_update_ := schedule_update_ s; setting_ := setting_ s; running_ := running_ s;
     reloading_ := reloading_ s; now_ := now_ s;
     frontend_handler_mgr_ := frontend_handler_mgr_ s; backend_handler_mgr_ := x;
     timer_mgr_ := timer_mgr_ s; rpc_scheduler_ := rpc_scheduler_ s;
     rpc_svc_mgr_ := rpc_svc_mgr_ s; svc_mode_ := svc_mode_ s; loopbreak := loopbreak s;
     app := app s |}.

Definition set_timer_mgr {A} (x : TimerMgr) (s : AppFrameWork A) : AppFrameWork A :=
  {| app_ := app_ s; event_base_ := event_base_ s; handles := handles s;
     schedule_update_ := schedule_update_ s; setting_ := setting_ s; running_ := running_ s;
     reloading_ := reloading_ s; now_ := now_ s;
     frontend_handler_mgr_ := frontend_handler_mgr_ s;
     backend_handler_mgr_ := backend_handler_mgr_ s; timer_mgr_ := x;
     rpc_scheduler_ := rpc_scheduler_ s; rpc_svc_mgr_ := rpc_svc_mgr_ s;
     svc_mode_ := svc_mode_ s; loopbreak := loopbreak s; app := app s |}.

Definition set_svc_mgr {A} (x : option RpcServerMgr) (s : AppFrameWork A) : AppFrameWork A :=
  {| app_ := app_ s; event_base_ := event_base_ s; handles := handles s;
     schedule_update_ := schedule_update_ s; setting_ := setting_ s; running_ := running_ s;
     reloading_ := reloading_ s; now_ := now_ s;
     frontend_handler_mgr_ := frontend_handler_mgr_ s;
     backend_handler_mgr_ := backend_handler_mgr_ s; timer_mgr_ := timer_mgr_ s;
     rpc_scheduler_ := rpc_scheduler_ s; rpc_svc_mgr_ := x; svc_mode_ := svc_mode_ s;
     loopbreak := loopbreak s; app := app s |}.

Definition set_loopbreak {A} (x : bool) (s : AppFrameWork A) : AppFrameWork A :=
  {| app_ := app_ s; event_base_ := event_base_ s; handles := handles s;
     schedule_update_ := schedule_update_ s; setting_ := setting_ s; running_ := running_ s;
     reloading_ := reloading_ s; now_ := now_ s;
     frontend_handler_mgr_ := frontend_handler_mgr_ s;
     backend_handler_mgr_ := backend_handler_mgr_ s; timer_mgr_ := timer_mgr_ s;
     rpc_scheduler_ := rpc_scheduler_ s; rpc_svc_mgr_ := rpc_svc_mgr_ s;
     svc_mode_ := svc_mode_ s; loopbreak := x; app := app s |}.

Definition set_app {A} (x : A) (s : AppFrameWork A) : AppFrameWork A :=
  {| app_ := app_ s; event_base_ := event_base_ s; handles := handles s;
     schedule_update_ := schedule_update_ s; setting_ := setting_ s; running_ := running_ s;
     reloading_ := reloading_ s; now_ := now_ s;
     frontend_handler_mgr_ := frontend_handler_mgr_ s;
     backend_handler_mgr_ := backend_handler_mgr_ s; timer_mgr_ := timer_mgr_ s;
     rpc_scheduler_ := rpc_scheduler_ s; rpc_svc_mgr_ := rpc_svc_mgr_ s;
     svc_mode_ := svc_mode_ s; loopbreak := loopbreak s; app := x |}.

(** The state of a whole program. *)
Abbreviation App P C A := (@World P C (AppFrameWork A)).

(** What the framework gets from outside besides [NetEnv]: the clock, the memory for
    timers and for the service table, and the text of an address. *)
Class FrameEnv : Type := {
  clock : nat -> Z;
  new_timer : gmap Z EasyTimer -> option Z;
  new_svc_mgr : bool;
  inet_ntoa : Z -> bytes
}.

(** The text of an address has at most fifteen characters: 255.255.255.255. *)
Class FrameEnvOk (F : FrameEnv) : Prop := { inet_ntoa_length a : blen (inet_ntoa a) <= 15 }.

(** [RapidApp], src/framework/rapidapp_interface.h:12-67

    Each callback takes the code behind its call.  [OnRpcCall] is that of the service
    at the first address. *)
Class RapidApp (W : Type) : Type := {
  OnUpdate : (Z -> code W) -> code W;
  OnReload : (Z -> code W) -> code W;
  app_OnFrontEndConnect : Z -> Z -> (Z -> code W) -> code W;
  app_OnFrontEndClose : Z -> Z -> (Z -> code W) -> code W;
  OnRecvFrontEnd : Z -> Z -> bytes -> (Z -> code W) -> code W;
  OnRecvBackEnd : Z -> Z -> bytes -> (Z -> code W) -> code W;
  OnTimer : Z -> Z -> (Z -> code W) -> code W;
  OnRpcCall : Z -> Z -> code W -> code W;
  GetFrontEndContextSize : Z;
  GetBackEndContextSize : Z;
  GetFrontEndMaxMsgSize : Z;
  GetBackEndMaxMsgSize : Z
}.

(** ** Access to the parts *)

Section Parts.
Context {P : Protobuf} {C A : Type}.

Definition fw {X} (f : AppFrameWork A -> X) : M (App P C A) X := gets (fun w => f (rest w)).
Definition upd_fw (f : AppFrameWork A -> AppFrameWork A) : M (App P C A) unit :=
  modify (fun w => set_rest (f (rest w)) w).

(** Calls of the methods of the two connection tables and of the timers. *)
Definition on_frontend {X} (m : M (NetSt C) X) : M (App P C A) X := fun w =>
  '(x, s) ← m (NetS (heap w) (frontend_handler_mgr_ (rest w)));
  Ok (x, set_rest (set_frontend (mgr s) (rest w)) (set_heap (hp s) w)).
Definition on_backend {X} (m : M (NetSt C) X) : M (App P C A) X := fun w =>
  '(x, s) ← m (NetS (heap w) (backend_handler_mgr_ (rest w)));
  Ok (x, set_rest (set_backend (mgr s) (rest w)) (set_heap (hp s) w)).
Definition on_timers {X} (m : M TimerMgr X) : M (App P C A) X := fun w =>
  '(x, t) ← m (timer_mgr_ (rest w)); Ok (x, set_rest (set_timer_mgr t (rest w)) w).

(** [time(NULL)] *)
Definition time_NULL {F : FrameEnv} : M (App P C A) Z :=
  t ← on_net (gets tick); _ ← on_net (modify (set_tick (S t))); mret (clock t).

(** The type and the name of a connection. *)
Definition net_type (p : Z) : M (App P C A) Z := n ← on_net (load_net p); mret (net_type_ n).
Definition log_net (p : Z) : M (App P C A) unit := _ ← on_net (load_net p); mret tt.
End Parts.

(** ** [IFrameWork]: what the application calls *)

Section Interface.
Context {P : Protobuf} {R : RpcEnv P} {IS : IRpcService} {C A : Type}.
Context {E : NetEnv C} {HO : HashOrder} {F : FrameEnv} {RA : RapidApp (App P C A)}.
Abbreviation Mw := (M (App P C A)).

(** [AppFrameWork::DestroyBackEnd], src/framework/rapidapp_framework_imp.cpp:1343-1354

    The pointer the argument points to; it is NULL afterwards. *)
Definition DestroyBackEnd (net : option Z) : Mw unit :=
  match net with
  | None => mret tt
  | Some _ => _ ← on_backend (RemoveHandler net); mret tt
  end.

(** [AppFrameWork::DestroyFrontEnd], src/framework/rapidapp_framework_imp.cpp:1356-1367 *)
Definition DestroyFrontEnd (net : option Z) : Mw unit :=
  match net with
  | None => mret tt
  | Some _ => _ ← on_frontend (RemoveHandler net); mret tt
  end.

(** [AppFrameWork::CreateBackEnd], src/framework/rapidapp_framework_imp.cpp:1317-1341

    When the context cannot be made, [easy_net_handler] is NULL at its last use. *)
Definition CreateBackEnd (uri : option bytes) (type : Z) : Mw (option Z) :=
  eb ← fw event_base_;
  easy_net_handler ← on_backend (AddHandlerByUri uri type eb);
  match easy_net_handler with
  | None => mret None
  | Some p =>
      n ← on_net (load_net p);
      hevent ← nonnull (hevent_ n);
      _ ← on_net (bufferevent_setcb hevent backend_cb_funcs);
      let uctx_size := GetBackEndContextSize in
      easy_net_handler ←
        (if 0 <? uctx_size then
           ret ← on_net (CreateUserContext p uctx_size);
           if negb (ret =? 0) then _ ← DestroyBackEnd (Some p); mret None else mret (Some p)
         else mret (Some p));
      q ← nonnull easy_net_handler;
      now ← fw now_;
      _ ← on_net (upd_net q (set_active_time now));
      mret (Some q)
  end.

(** [AppFrameWork::SendToFrontEnd], src/framework/rapidapp_framework_imp.cpp:1369-1387 *)
Definition SendToFrontEnd (net : option Z) (buf : option bytes) : Mw Z :=
  match net, buf with
  | None, _ | _, None | _, Some [] => mret (-1)
  | Some p, Some _ =>
      ret ← on_net (EasyNet_Send p buf);
      mret (if negb (ret =? EASY_NET_OK) then -1 else 0)
  end.

Definition NET_NOT_ESTABLISHED : Z := -1.
Definition NET_CONNECT_FAILED : Z := -2.
Definition NET_SEND_EXCEPTION : Z := -3.

(** [AppFrameWork::SendToBackEnd], src/framework/rapidapp_framework_imp.cpp:1389-1420 *)
Definition SendToBackEnd (net : option Z) (buf : option bytes) : Mw Z :=
  match net, buf with
  | None, _ | _, None | _, Some [] => mret (-1)
  | Some p, Some _ =>
      ret ← on_net (EasyNet_Send p buf);
      if EASY_NET_ERR_NOT_YET_ESTABLISHED =? ret then mret NET_NOT_ESTABLISHED
      else if EASY_NET_ERR_ESTABLISH_FAILED =? ret then mret NET_CONNECT_FAILED
      else if EASY_NET_ERR_SEND_ERROR =? ret then mret NET_SEND_EXCEPTION
      else
        now ← fw now_;
        _ ← on_net (upd_net p (set_active_time now));
        mret 0
  end.

(** [AppFrameWork::GetFrontEndByAsyncIds], src/framework/rapidapp_framework_imp.cpp:1422-1431 *)
Definition GetFrontEndByAsyncIds (fd nid : Z) : Mw (option Z) :=
  on_frontend (GetHandlerByAsyncIds fd nid).

(** [AppFrameWork::GetNetIds], src/framework/rapidapp_framework_imp.cpp:1433-1445

    The descriptor as a [uint32_t] and the number as a [uint64_t]. *)
Definition GetNetIds (net : option Z) : Mw (Z * option (Z * Z)) :=
  match net with
  | None => mret (-1, None)
  | Some p =>
      n ← on_net (load_net p);
      b ← nonnull (hevent_ n);
      fd ← on_net (bufferevent_getfd b);
      mret (0, Some (u32 fd, u64 (nid_ n)))
  end.

(** [AppFrameWork::GetUserContext], src/framework/rapidapp_framework_imp.cpp:1447-1455 *)
Definition GetUserContext (net : option Z) : Mw (option Z) :=
  match net with
  | None => mret None
  | Some p => n ← on_net (load_net p); mret (user_context_ n)
  end.

(** [AppFrameWork::CreateTimer], src/framework/rapidapp_framework_imp.cpp:1457-1466 *)
Definition CreateTimer (time timer_id : Z) : Mw (option Z) :=
  addr ← fw (fun s => new_timer (timers (timer_mgr_ s)));
  now ← time_NULL;
  on_timers (AddTimer addr now time timer_id).

(** [AppFrameWork::DestroyTimer], src/framework/rapidapp_framework_imp.cpp:1468-1479 *)
Definition DestroyTimer (timer : option Z) : Mw unit :=
  match timer with
  | None => mret tt
  | Some _ => _ ← on_timers (RemoveTimer timer); mret tt
  end.

(** [AppFrameWork::CreateRpcByEasyNet], src/framework/rapidapp_framework_imp.cpp:1481-1500 *)
Definition CreateRpcByEasyNet (net : option Z) : Mw (option Z) :=
  rpc ← EasyRpc_new;
  match rpc with
  | None => mret None
  | Some r =>
      sch ← fw rpc_scheduler_;
      ret ← EasyRpc_Init r sch net;
      if negb (ret =? 0) then
        _ ← modify (fun w => set_rpcs (delete r (rpcs w)) w); mret None
      else
        p ← nonnull net;
        _ ← on_net (upd_net p (set_rpc_binded (Some r)));
        mret (Some r)
  end.

(** [AppFrameWork::CreateRpc], src/framework/rapidapp_framework_imp.cpp:1502-1518 *)
Definition CreateRpc (url : option bytes) (type : Z) : Mw (option Z) :=
  backend ← CreateBackEnd url type;
  match backend with
  | None => mret None
  | Some _ =>
      rpc ← CreateRpcByEasyNet backend;
      match rpc with
      | None => _ ← DestroyBackEnd backend; mret None
      | Some _ => mret rpc
      end
  end.

(** [AppFrameWork::DestroyRpc], src/framework/rapidapp_framework_imp.cpp:1520-1533 *)
Definition DestroyRpc (rpc : option Z) (k : Z -> code (App P C A)) : code (App P C A) :=
  match rpc with
  | None => k (-1)
  | Some r =>
      Act (x ← load_rpc r; DestroyBackEnd (net_ x)) (fun _ =>
      EasyRpc_delete r (k 0))
  end.

(** [AppFrameWork::RpcCall], src/framework/rapidapp_framework_imp.cpp:1535-1548 *)
Definition AppFrameWork_RpcCall (ON_RPC_REPLY_FUNCTION :
      Z -> option Message -> option Message -> Z -> Z ->
      (Z -> code (App P C A)) -> code (App P C A))
    (rpc : option Z) (req resp : option Message) (cb arg : Z)
    (k : Z -> code (App P C A)) : code (App P C A) :=
  match rpc, req with
  | Some r, Some _ =>
      if cb =? 0 then k (-1) else RpcCall ON_RPC_REPLY_FUNCTION r req resp cb arg k
  | _, _ => k (-1)
  end.

(** [AppFrameWork::RegisterRpcService], src/framework/rapidapp_framework_imp.cpp:1550-1572

    The function has no return statement at its end: [None] is the undefined result
    of a call that succeeds. *)
Definition RegisterRpcService (rpc_svc : option Z) : Mw (option Z) :=
  m ← fw svc_mode_;
  if negb (m =? SVC_MODE_RPC) then mret (Some (-1))
  else
    match rpc_svc with
    | None => mret None
    | Some _ =>
        mgr ← fw rpc_svc_mgr_;
        match mgr, new_svc_mgr with
        | None, false => mret (Some (-1))
        | None, true => _ ← upd_fw (set_svc_mgr (Some (AddRpcService rpc_svc ∅))); mret None
        | Some t, _ => _ ← upd_fw (set_svc_mgr (Some (AddRpcService rpc_svc t))); mret None
        end
    end.

(** [AppFrameWork::ScheduleUpdate], src/framework/rapidapp_framework_imp.cpp:1574-1577 *)
Definition ScheduleUpdate : Mw unit := upd_fw (set_schedule_update true).
(** [AppFrameWork::UnScheduleUpdate], src/framework/rapidapp_framework_imp.cpp:1579-1582 *)
Definition UnScheduleUpdate : Mw unit := upd_fw (set_schedule_update false).

(** [AppFrameWork::get_event_base], src/framework/rapidapp_framework_imp.cpp:1584-1587 *)
Definition get_event_base : Mw bool := fw event_base_.
(** [AppFrameWork::GetCfg], src/framework/rapidapp_framework_imp.cpp:1589-1592 *)
Definition GetCfg : Mw bytes := fw (fun s => cfg_ (handles s)).

End Interface.

(** ** Events *)

(** [AppFrameWork::DoSomething], src/framework/rapidapp_framework_imp.cpp:1596-1646

    The counters are unsigned, and so is the comparison with a limit. *)
Definition AppFrameWork_DoSomething (setting : AppSetting) (now : Z) : IWalkEach := fun net =>
  if (0 <? max_idle setting) && (max_idle setting <? now - last_active_timestamp_ net)
  then (1, net)
  else
    let pkgs := u64 (curr_pkg_count_ net - prev_pkg_count_ net) in
    if (0 <? max_pkg_speed setting) && (u64 (max_pkg_speed setting) <? pkgs) then (1, net)
    else
      let net := if 0 <? max_pkg_speed setting then set_pkg_counts 0 0 net else net in
      let traffic := u64 (curr_traffic_bytes_ net - prev_traffic_bytes_ net) in
      if (0 <? max_traffic_speed setting) && (u64 (max_traffic_speed setting) <? traffic)
      then (1, net)
      else (0, if 0 <? max_traffic_speed setting then set_traffic 0 0 net else net).

Section Events.
Context {P : Protobuf} {R : RpcEnv P} {IS : IRpcService} {C A : Type}.
Context {E : NetEnv C} {HO : HashOrder} {F : FrameEnv} {RA : RapidApp (App P C A)}.
Abbreviation Mw := (M (App P C A)).
Abbreviation prog := (code (App P C A)).

(** The loop of [Tick] over the timers; it only ends when there is no timer. *)
Fixpoint timer_loop (fuel : nat) (k : prog) : prog :=
  match fuel with
  | O => Act (fail Diverges : Mw unit) (fun _ => k)
  | S f =>
      Act (on_timers GetNextActiveTimer) (fun timer =>
      match timer with
      | None => k
      | Some t =>
          Act (on_timers (load_timer timer)) (fun x =>
          OnTimer t (timer_id_ x) (fun _ => timer_loop f k))
      end)
  end.

(** [AppFrameWork::Reload], src/framework/rapidapp_framework_imp.cpp:899-909 *)
Definition Reload (k : Z -> prog) : prog :=
  Act (a ← fw app_; e ← fw event_base_; _ ← assertb a; assertb e) (fun _ =>
  OnReload (fun _ => k 0)).

(** The check of the connections at the end of [Tick]. *)
Definition check_frontends : Mw unit :=
  st ← fw setting_;
  now ← fw now_;
  if (0 <? max_idle st) || (0 <? max_pkg_speed st) || (0 <? max_traffic_speed st)
  then on_frontend (WalkThrough (Some (AppFrameWork_DoSomething st now)))
  else mret tt.

(** [AppFrameWork::Tick], src/framework/rapidapp_framework_imp.cpp:846-897

    [fuel] bounds the rounds of the loop over the timers. *)
Definition Tick (fuel : nat) (k : Z -> prog) : prog :=
  Act (a ← fw app_; e ← fw event_base_; _ ← assertb a; _ ← assertb e;
       now ← time_NULL;
       _ ← upd_fw (set_now now);
       run ← fw running_;
       if negb run then upd_fw (set_loopbreak true) else mret tt) (fun _ =>
  Act (fw reloading_) (fun reloading =>
  let update :=
    Act (fw schedule_update_) (fun up =>
    let timers := timer_loop fuel (Act check_frontends (fun _ => k 0)) in
    if up then OnUpdate (fun _ => timers) else timers) in
  if reloading then Reload (fun _ => Act (upd_fw (set_reloading false)) (fun _ => update))
  else update)).

(** [AppFrameWork::OnFrontEndConnect], src/framework/rapidapp_framework_imp.cpp:958-1004

    [addr] is the address and the port in network byte order. *)
Definition OnFrontEndConnect (sock : Z) (addr : option (Z * Z)) (k : Z -> prog) : prog :=
  Act (a ← fw app_; assertb ((0 <=? sock) && bool_decide (addr <> None) && a)) (fun _ =>
  Act (eb ← fw event_base_; on_frontend (AddHandlerBySocket sock 0 eb)) (fun net =>
  match net with
  | None => k (-1)
  | Some p =>
      let ip := inet_ntoa (fst (default (0, 0) addr)) in
      let port := htons (snd (default (0, 0) addr)) in
      let text := ip ++ [58] ++ dec port in
      Act (on_net (upd_net p (set_uri (take (Z.to_nat (MAX_URL_LEN - 2)) text)))) (fun _ =>
      if MAX_URL_LEN <=? blen text then k (-1)
      else
        let uctx_size := GetFrontEndContextSize in
        Act (n ← on_net (load_net p);
             hevent ← nonnull (hevent_ n);
             on_net (bufferevent_setcb hevent frontend_cb_funcs)) (fun _ =>
        Act (if 0 <? uctx_size then
               ret ← on_net (CreateUserContext p uctx_size);
               if negb (ret =? 0) then _ ← on_frontend (RemoveHandler (Some p)); mret false
               else mret true
             else mret true) (fun ok : bool =>
        if negb ok then k (-1)
        else
          Act (now ← fw now_; _ ← on_net (upd_net p (set_active_time now)); net_type p) (fun type =>
          app_OnFrontEndConnect p type (fun _ => k 0)))))
  end)).

(** Bits of libevent's [events]. *)
Definition BEV_EVENT_EOF : Z := 16.
Definition BEV_EVENT_ERROR : Z := 32.
Definition BEV_EVENT_TIMEOUT : Z := 64.
Definition BEV_EVENT_CONNECTED : Z := 128.
Definition has (events bit : Z) : bool := negb (Z.land events bit =? 0).

(** The close of a front end: the application is told, then it is removed. *)
Definition close_frontend (bev : Z) (k : Z -> prog) : prog :=
  Act (on_frontend (GetHandlerByEvent (Some bev))) (fun net =>
  let remove := Act (on_frontend (RemoveHandlerByEvent (Some bev))) (fun _ => k 0) in
  match net with
  | None => remove
  | Some p => Act (net_type p) (fun type => app_OnFrontEndClose p type (fun _ => remove))
  end).

(** [AppFrameWork::OnFrontEndSocketEvent], src/framework/rapidapp_framework_imp.cpp:1149-1194

    At the end of a connection the log names the peer after the application was
    told. *)
Definition OnFrontEndSocketEvent (bev : Z) (events : Z) (k : Z -> prog) : prog :=
  Act (a ← fw app_; assertb a) (fun _ =>
  if has events BEV_EVENT_ERROR then close_frontend bev k
  else if has events BEV_EVENT_TIMEOUT then Act (on_net (bufferevent_getfd bev)) (fun _ => k 0)
  else if has events BEV_EVENT_EOF then
    Act (on_frontend (GetHandlerByEvent (Some bev))) (fun net =>
    let remove := Act (on_frontend (RemoveHandlerByEvent (Some bev))) (fun _ => k 0) in
    match net with
    | None => remove
    | Some p =>
        Act (net_type p) (fun type =>
        app_OnFrontEndClose p type (fun _ => Act (log_net p) (fun _ => remove)))
    end)
  else k 0).

(** [AppFrameWork::OnBackEndSocketEvent], src/framework/rapidapp_framework_imp.cpp:1269-1315 *)
Definition OnBackEndSocketEvent (bev : Z) (events : Z) : Mw Z :=
  _ ← on_net (bufferevent_getfd bev);
  if has events BEV_EVENT_ERROR then
    _ ← on_backend (ChangeNetStateByEvent (Some bev) NET_FAILED); mret 0
  else if has events BEV_EVENT_CONNECTED then
    _ ← on_backend (ChangeNetStateByEvent (Some bev) NET_ESTABLISHED); mret 0
  else if has events BEV_EVENT_TIMEOUT then mret 0
  else if has events BEV_EVENT_EOF then
    net ← on_backend (GetHandlerByEvent (Some bev));
    _ ← (match net with Some p => log_net p | None => mret tt end);
    _ ← on_backend (ChangeNetStateByEvent (Some bev) NET_BEEN_CLOSED); mret 0
  else mret 0.

End Events.

(** ** Lemmas *)

Lemma DoSomething_identity st now n : same_identity n (snd (AppFrameWork_DoSomething st now n)).
Proof.
  unfold AppFrameWork_DoSomething.
  destruct (_ && _); [done|]. destruct (_ && _); [done|].
  destruct (0 <? max_pkg_speed st), (0 <? max_traffic_speed st); cbn [andb];
    try destruct (_ <? _); done.
Qed.

Section FrameLemmas.
Context {P : Protobuf} {C A : Type}.
Implicit Types (w : App P C A).

Lemma on_frontend_ok {X} (m : M (NetSt C) X) w x s :
  m (NetS (heap w) (frontend_handler_mgr_ (rest w))) = Ok (x, s) ->
  on_frontend m w = Ok (x, set_rest (set_frontend (mgr s) (rest w)) (set_heap (hp s) w)).
Proof using. intros H. unfold on_frontend. by rewrite H. Qed.
Lemma on_backend_ok {X} (m : M (NetSt C) X) w x s :
  m (NetS (heap w) (backend_handler_mgr_ (rest w))) = Ok (x, s) ->
  on_backend m w = Ok (x, set_rest (set_backend (mgr s) (rest w)) (set_heap (hp s) w)).
Proof using. intros H. unfold on_backend. by rewrite H. Qed.
Lemma on_timers_ok {X} (m : M TimerMgr X) w x t :
  m (timer_mgr_ (rest w)) = Ok (x, t) ->
  on_timers m w = Ok (x, set_rest (set_timer_mgr t (rest w)) w).
Proof using. intros H. unfold on_timers. by rewrite H. Qed.
Lemma time_NULL_ok {F : FrameEnv} w :
  time_NULL w = Ok (clock (tick (heap w)), set_heap (set_tick (S (tick (heap w))) (heap w)) w).
Proof using. unfold time_NULL, mbind, M_bind, on_net, gets. cbn. by destruct w as [[]]. Qed.
Lemma fw_ok {X} (f : AppFrameWork A -> X) w : fw f w = Ok (f (rest w), w).
Proof using. done. Qed.
End FrameLemmas.

(** ** Properties *)

(** The limits a connection can exceed in a frame. *)
Definition exceeds (st : AppSetting) (now : Z) (n : EasyNet) : Prop :=
  0 < max_idle st < now - last_active_timestamp_ n \/
  0 < max_pkg_speed st < curr_pkg_count_ n - prev_pkg_count_ n \/
  0 < max_traffic_speed st < curr_traffic_bytes_ n - prev_traffic_bytes_ n.

(** The counters of a limit that is configured start again at 0. *)
Definition new_frame (st : AppSetting) (n : EasyNet) : EasyNet :=
  let n1 := if 0 <? max_pkg_speed st then set_pkg_counts 0 0 n else n in
  if 0 <? max_traffic_speed st then set_traffic 0 0 n1 else n1.

(** The check of a connection asks for its removal exactly when
    it has been idle for longer, or has sent more messages or bytes since the last
    check, than a limit that is configured (a limit that is not positive is none).
    Otherwise its counters start again at 0 and nothing else of it changes. *)
Theorem frontend_limits st now n :
  0 <= prev_pkg_count_ n <= curr_pkg_count_ n -> curr_pkg_count_ n < 18446744073709551616 ->
  0 <= prev_traffic_bytes_ n <= curr_traffic_bytes_ n ->
  curr_traffic_bytes_ n < 18446744073709551616 ->
  max_pkg_speed st < 2147483648 -> max_traffic_speed st < 2147483648 ->
  (exceeds st now n -> fst (AppFrameWork_DoSomething st now n) = 1) /\
  (~ exceeds st now n -> AppFrameWork_DoSomething st now n = (0, new_frame st n)).
Proof.
  intros H1 H2 H3 H4 H5 H6. unfold exceeds, AppFrameWork_DoSomething, new_frame.
  rewrite (u64_id (curr_pkg_count_ n - prev_pkg_count_ n)) by lia.
  destruct (Z.ltb_spec 0 (max_idle st)), (Z.ltb_spec (max_idle st) (now - last_active_timestamp_ n));
    cbn [andb]; try (split; intros; [done|lia]).
  all: destruct (Z.ltb_spec 0 (max_pkg_speed st)) as [Hp|Hp]; cbn [andb];
    [rewrite (u64_id (max_pkg_speed st)) by lia;
     destruct (Z.ltb_spec (max_pkg_speed st) (curr_pkg_count_ n - prev_pkg_count_ n));
     [split; intros; [done|lia]|]|].
  all: cbn [curr_traffic_bytes_ prev_traffic_bytes_ set_pkg_counts];
    rewrite (u64_id (curr_traffic_bytes_ n - prev_traffic_bytes_ n)) by lia;
    destruct (Z.ltb_spec 0 (max_traffic_speed st)) as [Ht|Ht]; cbn [andb];
    [rewrite (u64_id (max_traffic_speed st)) by lia;
     destruct (Z.ltb_spec (max_traffic_speed st) (curr_traffic_bytes_ n - prev_traffic_bytes_ n))|].
  all: split; intros; try done; lia.
Qed.

Definition quiet_setting (max_idle_ : Z) : AppSetting :=
  {| fps := 1000; max_idle := max_idle_; max_pkg_speed := -1; max_traffic_speed := 100;
     listen_uri := []; log_file_name := []; pid_file_name := []; ctrl_sock_file_name := [];
     mode := APP_START |}.

Lemma frontend_limits_witness :
  let n := set_traffic 0 60 (set_active_time 90 (fresh_net 1)) in
  fst (AppFrameWork_DoSomething (quiet_setting 5) 100 n) = 1 /\
  AppFrameWork_DoSomething (quiet_setting 30) 100 n = (0, set_active_time 90 (fresh_net 1)).
Proof.
  split.
  - apply (frontend_limits (quiet_setting 5) 100); cbn; try lia. unfold exceeds. cbn. lia.
  - apply (frontend_limits (quiet_setting 30) 100); cbn; try lia. unfold exceeds. cbn. lia.
Defined.

Section TickProofs.
Context {P : Protobuf} {R : RpcEnv P} {C A : Type}.
Context {E : NetEnv C} {HO : HashOrder} {F : FrameEnv} {RA : RapidApp (App P C A)}.
Context (calloc : gmap Z (COROUTINECTX (App P C A)) -> option Z).
Context (on_timer : Z -> Z -> M (App P C A) Z).
Implicit Types (s : CoroutineScheduler (App P C A)) (w : App P C A).

(** The handler of timers is an action that makes and removes no timer. *)
Definition timer_handler : Prop :=
  (forall t id k, OnTimer t id k = Act (on_timer t id) k) /\
  forall t id w, exists z w', on_timer t id w = Ok (z, w') /\
    timer_mgr_ (rest w') = timer_mgr_ (rest w).

(** The state behind the first lines of [Tick]. *)
Definition tick_begun w : App P C A :=
  let h := set_tick (S (tick (heap w))) (heap w) in
  let f := set_now (clock (tick (heap w))) (rest w) in
  set_rest (if running_ f then f else set_loopbreak true f) (set_heap h w).

Lemma timer_loop_end fuel k s :
  timer_list_ (timer_mgr_ (rest (world s))) = [] ->
  runs calloc (timer_loop (S fuel) k) s k s.
Proof using.
  intros Hl. cbn [timer_loop].
  refine (runs_read calloc _ _ s None _). 
  rewrite (on_timers_ok _ _ None (timer_mgr_ (rest (world s)))).
  - do 2 f_equal. by destruct (world s) as [? ? ? ? ? ? ? []].
  - unfold GetNextActiveTimer, mbind, M_bind, gets. by rewrite Hl.
Qed.

Lemma timer_loop_diverges fuel k s p ps :
  timer_handler -> timers_are (timer_mgr_ (rest (world s))) (p :: ps) ->
  fails calloc (timer_loop fuel k) s Diverges.
Proof using.
  intros [Hon Hq]. revert s p ps. induction fuel as [|f IH]; intros s p ps Hm.
  { by apply fails_act. }
  destruct (GetNextActiveTimer_ok _ p ps Hm) as (t & Ht & E1 & E2). cbn zeta in E1, E2.
  set (m' := set_list _ _) in E1, E2.
  set (w1 := set_rest (set_timer_mgr m' (rest (world s))) (world s)).
  cbn [timer_loop]. eapply runs_fails.
  { apply (runs_act calloc _ _ s (Some p) w1). by apply on_timers_ok. }
  destruct (Hq p (timer_id_ (Step t)) w1) as (z & w2 & E3 & E4).
  eapply runs_fails.
  { apply (runs_read calloc _ _ _ (Step t)). cbn [world set_world].
    rewrite (on_timers_ok _ w1 (Step t) m').
    - do 2 f_equal.
    - apply load_live. cbn. by rewrite lookup_insert_eq. }
  cbv beta. rewrite Hon. eapply runs_fails; [apply (runs_act calloc _ _ _ z w2); exact E3|].
  destruct (placed (<[p:=Step t]> (timers (timer_mgr_ (rest (world s))))) ps p) as [|q qs] eqn:Epl.
  { pose proof (placed_perm (<[p:=Step t]> (timers (timer_mgr_ (rest (world s))))) ps p) as Hperm.
    rewrite Epl in Hperm. by apply Permutation_nil_cons in Hperm. }
  apply (IH _ q qs). cbn [world set_world]. by rewrite E4.
Qed.

Lemma tick_begun_ok w :
  app_ (rest w) = true -> event_base_ (rest w) = true ->
  (a ← fw app_; e ← fw event_base_; _ ← assertb a; _ ← assertb e;
   now ← time_NULL;
   _ ← upd_fw (set_now now);
   run ← fw running_;
   if negb run then upd_fw (set_loopbreak true) else mret tt) w = Ok (tt, tick_begun w).
Proof using.
  intros Ha He. unfold tick_begun. unfold mbind, M_bind, fw, gets, assertb. rewrite Ha, He. cbn.
  rewrite time_NULL_ok. cbn. by destruct (running_ (rest w)).
Qed.

(** [Tick] up to its loop over the timers. *)
Lemma Tick_begin fuel k s :
  app_ (rest (world s)) = true -> event_base_ (rest (world s)) = true ->
  reloading_ (rest (world s)) = false -> schedule_update_ (rest (world s)) = false ->
  runs calloc (Tick fuel k) s (timer_loop fuel (Act check_frontends (fun _ => k 0)))
    (set_world (tick_begun (world s)) s).
Proof using.
  intros Ha He Hr Hu. unfold Tick. set (w := world s) in *.
  eapply runs_trans.
  { apply (runs_act calloc _ _ s tt (tick_begun w)). by apply tick_begun_ok. }
  assert (Hf : reloading_ (rest (tick_begun w)) = false /\
               schedule_update_ (rest (tick_begun w)) = false).
  { unfold tick_begun. cbn. destruct (running_ (rest w)); cbn; done. }
  destruct Hf as [Hr' Hu'].
  eapply runs_trans.
  { apply (runs_read calloc _ _ _ false). cbn [world set_world]. rewrite fw_ok. by rewrite Hr'. }
  cbv beta iota zeta.
  refine (runs_read calloc _ _ _ false _). cbn [world set_world]. rewrite fw_ok. by rewrite Hu'.
Qed.
End TickProofs.

(** [tick_timers]. With a timer in the table, [Tick] never gets past its loop over
    the timers, however many rounds it is given: every round fires the first timer
    and files it again, whether it is due or not.  Without timers [Tick] goes on to
    check the connections and returns. *)
Theorem tick_timers {P : Protobuf} {C A} {F : FrameEnv}
    {RA : RapidApp (App P C A)} calloc on_timer (s : CoroutineScheduler (App P C A)) fuel k :
  timer_handler on_timer ->
  app_ (rest (world s)) = true -> event_base_ (rest (world s)) = true ->
  reloading_ (rest (world s)) = false -> schedule_update_ (rest (world s)) = false ->
  (forall p ps, timers_are (timer_mgr_ (rest (world s))) (p :: ps) ->
     fails calloc (Tick fuel k) s Diverges) /\
  (timer_list_ (timer_mgr_ (rest (world s))) = [] ->
   forall w2, check_frontends (tick_begun (world s)) = Ok (tt, w2) ->
     runs calloc (Tick (S fuel) k) s (k 0) (set_world w2 s)).
Proof.
  intros Hon Ha He Hr Hu.
  assert (Ht : timer_mgr_ (rest (tick_begun (world s))) = timer_mgr_ (rest (world s))).
  { unfold tick_begun. cbn. by destruct (running_ (rest (world s))). }
  split.
  - intros p ps Hp. eapply runs_fails; [by apply Tick_begin|].
    apply (timer_loop_diverges calloc on_timer fuel _ _ p ps); [done|].
    cbn [world set_world]. by rewrite Ht.
  - intros Hl w2 Hc. eapply runs_trans; [by apply Tick_begin|].
    eapply runs_trans; [apply timer_loop_end; cbn [world set_world]; by rewrite Ht|].
    change (set_world w2 s) with (set_world w2 (set_world (tick_begun (world s)) s)).
    apply (runs_act calloc _ (fun _ => k 0) _ tt w2). exact Hc.
Qed.

(** The result tells why nothing, or only a part, was queued: the
    connection is not yet established, it failed, or a write failed.  Only a message
    that is queued as a whole counts as activity of the connection. *)
Theorem send_to_backend {P : Protobuf} {C A} {E : NetEnv C} (w : App P C A) p n b x msg :
  nets (heap w) !! p = Some n -> hevent_ n = Some b -> bevs (heap w) !! b = Some x ->
  msg <> [] -> blen msg + 4 < 4294967296 ->
  exists r w', SendToBackEnd (Some p) (Some msg) w = Ok (r, w') /\ rest w' = rest w /\
    match state_ n with
    | NET_ESTABLISHED =>
        (r = 0 /\ nets (heap w') = <[p := set_active_time (now_ (rest w)) n]> (nets (heap w)) /\
         bevs (heap w') = <[b := {| bev_fd := bev_fd x; input := input x;
                                    output := output x ++ frame msg |}]> (bevs (heap w))) \/
        (r = NET_SEND_EXCEPTION /\ nets (heap w') = nets (heap w))
    | NET_FAILED => r = NET_CONNECT_FAILED /\ nets (heap w') = nets (heap w) /\
                    bevs (heap w') = bevs (heap w)
    | _ => r = NET_NOT_ESTABLISHED /\ nets (heap w') = nets (heap w) /\
           bevs (heap w') = bevs (heap w)
    end.
Proof.
  intros Hp Hb Hx Hne Hlen.
  destruct (EasyNet_Send_ok (heap w) p n b x msg Hp Hb Hx Hne Hlen) as (h' & Es & En & _ & Eb).
  unfold SendToBackEnd. destruct msg as [|c msg]; [done|].
  unfold mbind at 1, M_bind at 1. rewrite (on_net_ok _ w _ _ Es).
  destruct (state_ n); cbn [Z.eqb]; try (do 2 eexists; split; [reflexivity|]; by repeat split).
  destruct (env_write (tick (heap w)) b _); [destruct (env_write (S (tick (heap w))) b _)|];
    cbn [andb]; try (do 2 eexists; split; [reflexivity|]; split; [done|]; by right).
  change (_ =? EASY_NET_OK) with false. cbn beta iota.
  unfold mbind at 1, M_bind at 1. rewrite fw_ok.
  unfold mbind at 1, M_bind at 1.
  rewrite (on_net_ok _ (set_heap h' w) tt
    (set_nets (<[p:=set_active_time (now_ (rest (set_heap h' w))) n]> (nets h')) h')).
  2: { apply upd_net_ok. cbn. by rewrite En. }
  do 2 eexists. split; [reflexivity|]. split; [done|]. left. cbn. rewrite En. done.
Qed.

(** What an event makes of the state of a back end. *)
Definition event_state (events : Z) (st : NetState) : NetState :=
  if has events BEV_EVENT_ERROR then NET_FAILED
  else if has events BEV_EVENT_CONNECTED then NET_ESTABLISHED
  else if has events BEV_EVENT_TIMEOUT then st
  else if has events BEV_EVENT_EOF then NET_BEEN_CLOSED else st.

(** An event changes the state of its own connection and nothing
    else: an error marks it failed, else a connect established, else an end closed;
    a timeout changes nothing.  The next state does not depend on the present one: a
    connect reported after an error makes a failed connection established. *)
Theorem backend_event {P : Protobuf} {C A} (w : App P C A) fd p n b events :
  let s := NetS (heap w) (backend_handler_mgr_ (rest w)) in
  mgr_ok s -> (fd, Some p) ∈ handler_pool_ (mgr s) -> nets (heap w) !! p = Some n ->
  hevent_ n = Some b ->
  OnBackEndSocketEvent b events w
  = Ok (0, set_heap (set_nets (<[p := set_net_state (event_state events (state_ n)) n]>
                                 (nets (heap w))) (heap w)) w).
Proof.
  intros s Hs Hin Hp Hb. destruct (mgr_ok_bev s fd p n b Hs Hin Hp Hb) as (x & Hx & Hfd).
  pose proof (getfd_ok (heap w) b x Hx) as Eg.
  assert (Hsame : set_rest (set_backend (backend_handler_mgr_ (rest w)) (rest w)) w = w)
    by (by destruct w as [? ? ? ? ? ? ? []]).
  assert (Hfind : pool_find (handler_pool_ (backend_handler_mgr_ (rest w))) fd = Some (Some p))
    by (by apply (proj2 (pool_find_elem _ fd (Some p) (mo_keys s Hs)))).
  assert (Hch : forall st, on_backend (ChangeNetStateByEvent (Some b) st) w
    = Ok (0, set_heap (set_nets (<[p := set_net_state st n]> (nets (heap w))) (heap w)) w)).
  { intros st. unfold ChangeNetStateByEvent.
    rewrite (on_backend_ok _ w 0 (NetS (set_nets (<[p := set_net_state st n]> (nets (heap w)))
                                          (heap w)) (backend_handler_mgr_ (rest w)))).
    - do 2 f_equal. cbn. by destruct w as [? ? ? ? ? ? ? []].
    - rewrite (bind_step _ _ _ _ _ (on_heap_ok _ (NetS _ (backend_handler_mgr_ (rest w))) _ _ Eg)).
      rewrite Hfd, (bind_step get _ _ _ _ eq_refl). cbn [mgr hp]. rewrite Hfind.
      unfold mbind, M_bind. erewrite on_heap_ok; [|by apply upd_net_ok]. done. }
  assert (Hid : set_heap (set_nets (<[p := set_net_state (state_ n) n]> (nets (heap w))) (heap w)) w
                = w).
  { replace (set_net_state (state_ n) n) with n by (by destruct n). rewrite insert_id by done.
    by destruct w as [[]]. }
  unfold OnBackEndSocketEvent, event_state. rewrite (bind_step _ _ w (bev_fd x) w).
  2: { rewrite (on_net_ok _ w _ _ Eg). by destruct w. }
  destruct (has events BEV_EVENT_ERROR); [by rewrite (bind_step _ _ _ _ _ (Hch _))|].
  destruct (has events BEV_EVENT_CONNECTED); [by rewrite (bind_step _ _ _ _ _ (Hch _))|].
  destruct (has events BEV_EVENT_TIMEOUT); [by rewrite Hid|].
  destruct (has events BEV_EVENT_EOF); [|by rewrite Hid].
  rewrite (bind_step _ _ w (Some p) w).
  2: { rewrite (on_backend_ok _ w (Some p) s).
       - do 2 f_equal. subst s. cbn. rewrite <- Hsame at 3. by destruct w.
       - unfold GetHandlerByEvent.
         rewrite (bind_step _ _ _ _ _ (on_heap_ok _ (NetS _ (backend_handler_mgr_ (rest w))) _ _ Eg)).
         rewrite Hfd, (bind_step get _ _ _ _ eq_refl). cbn [mgr hp]. by rewrite Hfind. }
  rewrite (bind_step _ _ w tt w); [by rewrite (bind_step _ _ _ _ _ (Hch _))|].
  unfold log_net. rewrite (bind_step _ _ w n w); [done|].
  rewrite (on_net_ok _ w _ _ (load_net_ok _ p n Hp)). by destruct w.
Qed.

(** When the memory for the context of a new back end
    cannot be had, the connection is destroyed and the pointer to it set to NULL, and
    [CreateBackEnd] goes on to use this pointer. *)
Theorem create_backend_no_context {P : Protobuf} {C A} {E : NetEnv C} {EOk : NetEnvOk E}
    {HO : HashOrder} {RA : RapidApp (App P C A)} (w : App P C A) uri type p s1 n fd :
  AddHandlerByUri uri type (event_base_ (rest w))
    (NetS (heap w) (backend_handler_mgr_ (rest w))) = Ok (Some p, s1) ->
  mgr_ok s1 -> nets (hp s1) !! p = Some n -> user_context_ n = None ->
  (fd, Some p) ∈ handler_pool_ (mgr s1) -> it_cursor_ (mgr s1) <> Invalid ->
  0 < GetBackEndContextSize -> env_calloc (tick (hp s1)) (uctxs (hp s1)) = None ->
  CreateBackEnd uri type w = Fault NullDeref.
Proof.
  intros Hadd Hs1 Hp Hn Hin Hcur Hsize Hmem.
  destruct (proj1 (Forall_forall _ _) (mo_entries _ Hs1) _ Hin)
    as (q & m & b & x & Eq & Hq & Hb & Hx & _). cbn in Eq, Hq. injection Eq as <-.
  assert (m = n) as -> by congruence. clear Hq.
  unfold CreateBackEnd. rewrite (bind_step _ _ _ _ _ (fw_ok event_base_ w)).
  rewrite (bind_step _ _ _ _ _ (on_backend_ok _ w _ _ Hadd)). set (w1 := set_rest _ _).
  rewrite (bind_step _ _ _ _ _ (on_net_ok _ w1 _ _ (load_net_ok _ p n Hp))), Hb.
  erewrite (bind_step (nonnull _)) by reflexivity.
  rewrite (bind_step _ _ _ _ _ (on_net_ok _ w1 _ _ (setcb_ok (hp s1) b x backend_cb_funcs Hx))).
  set (h1 := set_cbs _ _). set (w2 := set_heap h1 _).
  destruct (Z.ltb_spec 0 GetBackEndContextSize) as [_|]; [|lia].
  set (h2 := set_nets (<[p := set_user_context None n]> (nets h1)) (set_tick (S (tick h1)) h1)).
  assert (Ec : CreateUserContext p GetBackEndContextSize h1 = Ok (-1, h2)).
  { unfold CreateUserContext. destruct (Z.eqb_spec GetBackEndContextSize 0); [lia|].
    unfold mbind, M_bind, get. cbn [modify tick uctxs h1 set_cbs]. change (heap w1) with (hp s1).
    rewrite Hmem. cbn. by erewrite upd_net_ok by exact Hp. }
  unfold mbind at 1, M_bind at 1.
  rewrite (bind_step _ _ _ _ _ (on_net_ok _ w2 _ _ Ec)). cbn [Z.eqb negb].
  assert (Hs1' : mgr_ok (NetS h1 (mgr s1))) by (apply (mgr_ok_frame (hp s1)); try done; by destruct s1).
  destruct (context_step_ok (NetS h1 (mgr s1)) p n GetBackEndContextSize (-1) h2 Hs1' Hp Hn Ec) as [Hs2 _].
  pose proof (remove_found (NetS h2 (mgr s1)) fd p (set_user_context None n) b Hs2 Hin
    ltac:(apply lookup_insert_eq) Hb) as Hr. cbn [hp mgr] in Hr.
  assert (Ed : exists w3, DestroyBackEnd (Some p) (set_heap h2 w2) = Ok (tt, w3)).
  { unfold DestroyBackEnd. destruct (it_cursor_ (mgr s1)) eqn:Ecu; [| |done];
      destruct Hr as [Hr _]; eexists;
      erewrite bind_step; [reflexivity| |reflexivity|]; apply on_backend_ok;
      unfold RemoveHandler; cbn;
      (erewrite bind_step; [|apply on_heap_ok; apply load_net_ok; apply lookup_insert_eq]);
      cbn [hevent_ set_user_context]; rewrite Hb; exact Hr. }
  destruct Ed as [w3 Ed]. by rewrite (bind_step _ _ _ _ _ Ed).
Qed.

(** ** A concrete framework *)

#[export] Instance easy_frame : FrameEnv :=
  { clock n := Z.of_nat n; new_timer h := Some (fresh (dom h)); new_svc_mgr := true;
    inet_ntoa a := dec a }.

Definition demo_framework (front back : NetHandlerMgr) (t : TimerMgr) : AppFrameWork (list bytes) :=
  {| app_ := true; event_base_ := true;
     handles := {| internal_timer_ := true; listener_ := true; udp_ctrl_keeper_ := true;
                   cfg_ := []; has_been_cleanup_ := false |};
     schedule_update_ := false; setting_ := quiet_setting (-1); running_ := true;
     reloading_ := false; now_ := 50; frontend_handler_mgr_ := front;
     backend_handler_mgr_ := back; timer_mgr_ := t; rpc_scheduler_ := true;
     rpc_svc_mgr_ := None; svc_mode_ := SVC_MODE_NORMAL; loopbreak := false; app := [] |}.

Definition demo_world (h : Heap Z) (front back : NetHandlerMgr) (t : TimerMgr)
    : App plain_protobuf Z (list bytes) :=
  {| heap := h; gen := GenSt_new; rpcs := ∅; rpc_ctxs := ∅; closures := ∅; asyncid_seed := 0;
     buf := []; rest := demo_framework front back t |}.

(** An application that keeps the messages it gets and wants a context of 8 bytes for
    every connection. *)
Definition keep_msg (msg : bytes) : M (App plain_protobuf Z (list bytes)) Z := fun w =>
  Ok (0, set_rest (set_app (app (rest w) ++ [msg]) (rest w)) w).
#[export] Instance demo_app : RapidApp (App plain_protobuf Z (list bytes)) :=
  { OnUpdate k := k 0; OnReload k := k 0; app_OnFrontEndConnect _ _ k := k 0;
    app_OnFrontEndClose _ _ k := k 0;
    OnRecvFrontEnd _ _ msg k := Act (keep_msg msg) k;
    OnRecvBackEnd _ _ msg k := Act (keep_msg msg) k;
    OnTimer _ _ k := Act (mret 0) k; OnRpcCall _ _ k := k;
    GetFrontEndContextSize := 8; GetBackEndContextSize := 8;
    GetFrontEndMaxMsgSize := 8; GetBackEndMaxMsgSize := 8 }.

Definition no_nets : NetHandlerMgr := mgr (NetS (@Heap_new Z) NetHandlerMgr_new).

Lemma tick_timers_witness :
  fails any_calloc (Tick 1000 (fun _ => Ret))
    (CoroutineScheduler_new 10 (demo_world one_net no_nets no_nets two_timers)) Diverges.
Proof.
  assert (Hon : timer_handler (P := plain_protobuf) (C := Z) (fun _ _ => mret 0)).
  { split; [done|]. intros t id w. by exists 0, w. }
  destruct (tick_timers any_calloc _
    (CoroutineScheduler_new 10 (demo_world one_net no_nets no_nets two_timers))
    1000 (fun _ => Ret) Hon eq_refl eq_refl eq_refl eq_refl) as [H _].
  apply (H 8 [7]). exact two_timers_are.
Defined.

Lemma send_to_backend_witness :
  exists w', SendToBackEnd (E := easy_env) (Some 3) (Some [104; 105])
    (demo_world one_net no_nets (mgr one_handler) TimerMgr_new) = Ok (NET_SEND_EXCEPTION, w').
Proof.
  destruct (send_to_backend (E := easy_env)
    (demo_world one_net no_nets (mgr one_handler) TimerMgr_new) 3 _ 4 _ [104; 105]
    eq_refl eq_refl eq_refl) as (r & w' & Es & _ & H); [done|by vm_compute|].
  exists w'. rewrite Es. f_equal. f_equal.
  destruct H as [[Hr _]|[Hr _]]; [|exact Hr].
  exfalso. vm_compute in Es. subst r. discriminate Es.
Defined.

Lemma backend_event_witness :
  OnBackEndSocketEvent 4 BEV_EVENT_EOF
    (demo_world one_net no_nets (mgr one_handler) TimerMgr_new)
  = Ok (0, demo_world (set_nets {[ 3 := set_net_state NET_BEEN_CLOSED
                                       (set_link 4 0 NET_ESTABLISHED (fresh_net 1)) ]} one_net)
             no_nets (mgr one_handler) TimerMgr_new).
Proof.
  rewrite (backend_event
             (demo_world one_net no_nets (mgr one_handler) TimerMgr_new) 9 3
             (set_link 4 0 NET_ESTABLISHED (fresh_net 1)) 4);
    [reflexivity|exact one_handler_ok|by constructor|reflexivity|reflexivity].
Defined.

(** An environment that has no memory for contexts. *)
Definition poor_env : NetEnv Z := {|
  env_new _ h := Some (fresh (dom h)); env_bev _ h := Some (fresh (dom h));
  env_calloc _ _ := None; env_connect _ h _ := Some (next_fd h);
  env_write _ _ _ := true; env_kernel := quiet_kernel; zero := 0
|}.
#[export] Instance poor_env_ok : NetEnvOk poor_env.
Proof.
  pose proof easy_env_ok as [H1 H2 H3 H4]. split; [exact H1|exact H2|done|exact H4].
Qed.

Definition demo_uri : bytes := bytes_of_string "tcp://127.0.0.1:80"%string.
Definition backend_added : NetSt Z :=
  result_of one_handler (AddHandlerByUri (E := poor_env) (HO := front_order) (Some demo_uri) 0 true
                           (NetS Heap_new (set_cursor AtEnd NetHandlerMgr_new))).

Lemma create_backend_no_context_witness :
  CreateBackEnd (E := poor_env) (HO := front_order) (Some demo_uri) 0
    (demo_world Heap_new no_nets (set_cursor AtEnd NetHandlerMgr_new) TimerMgr_new)
  = Fault NullDeref.
Proof.
  assert (Ha : AddHandlerByUri (E := poor_env) (HO := front_order) (Some demo_uri) 0 true
    (NetS Heap_new (set_cursor AtEnd NetHandlerMgr_new)) = Ok (Some 0, backend_added))
    by (vm_compute; reflexivity).
  assert (Hok : mgr_ok backend_added).
  { destruct (AddHandlerByUri_ok (E := poor_env) (HO := front_order)
      (NetS Heap_new (set_cursor AtEnd NetHandlerMgr_new)) (Some demo_uri) 0 true)
      as (o & s' & E & Hs' & _).
    - split; [apply heap_ok_new|constructor|constructor|done].
    - cbn. lia.
    - rewrite Ha in E. injection E as _ <-. exact Hs'. }
  eapply (create_backend_no_context (E := poor_env) (HO := front_order) _ _ _ 0 backend_added _ 3);
    [exact Ha|exact Hok|vm_compute; reflexivity|reflexivity| | |reflexivity|vm_compute; reflexivity].
  - vm_compute. constructor.
  - vm_compute. discriminate.
Defined.
