(* ===== verification/Launch.v ===== *)
(** * Start-up, main loop and shutdown: framework/rapidapp_framework_imp.cpp, rapidapp_core.cpp

    From the command line to the running server and back: [ParseCmdLine] fills in the
    settings, [Init] starts the server or signals the one that runs, [AppLauncher::Run]
    goes through the life of a process.  The files of the machine and the locks on them
    are shared by the processes; the answers of the system are the class [System]. *)
From Stdlib Require Import ZArith Lia.
From stdpp Require Import base list gmap strings.
From S2P Require Import Prelude CLib TcpSocket Timer EasyNet NetMgr CtrlCmd RpcMsg EasyRpc Framework.
Local Open Scope Z_scope.

(** ** The command line *)

(** The flags, src/framework/rapidapp_framework_imp.cpp:18-37

    As the flags library leaves them. *)
Record Flags : Set := {
  FLAGS_uri : bytes;
  FLAGS_log_file : bytes;
  FLAGS_fps : Z;
  FLAGS_max_idle : Z;
  FLAGS_max_pkg_speed : Z;
  FLAGS_max_traffic_speed : Z;
  FLAGS_pid_file : bytes;
  FLAGS_ctrl_file : bytes;
  FLAGS_daemon : bool;
  FLAGS_stop : bool;
  FLAGS_restart : bool;
  FLAGS_reload : bool;
  FLAGS_cfg_file : bytes
}.

Definition MAX_FILE_NAME_LEN : Z := 128.
Definition PID_SUFFIX : bytes := bytes_of_string ".pid"%string.
Definition SOCK_SUFFIX : bytes := bytes_of_string ".sock"%string.
Definition PID_SUFFIX_LEN : Z := blen PID_SUFFIX + 1.
Definition SOCK_SUFFIX_LEN : Z := blen SOCK_SUFFIX + 1.

Definition set_mode (x : Z) (s : AppSetting) : AppSetting :=
  {| fps := fps s; max_idle := max_idle s; max_pkg_speed := max_pkg_speed s;
     max_traffic_speed := max_traffic_speed s; listen_uri := listen_uri s;
     log_file_name := log_file_name s; pid_file_name := pid_file_name s;
     ctrl_sock_file_name := ctrl_sock_file_name s; mode := x |}.
Definition set_listen_uri (x : bytes) (s : AppSetting) : AppSetting :=
  {| fps := fps s; max_idle := max_idle s; max_pkg_speed := max_pkg_speed s;
     max_traffic_speed := max_traffic_speed s; listen_uri := x;
     log_file_name := log_file_name s; pid_file_name := pid_file_name s;
     ctrl_sock_file_name := ctrl_sock_file_name s; mode := mode s |}.
Definition set_log_file (x : bytes) (s : AppSetting) : AppSetting :=
  {| fps := fps s; max_idle := max_idle s; max_pkg_speed := max_pkg_speed s;
     max_traffic_speed := max_traffic_speed s; listen_uri := listen_uri s;
     log_file_name := x; pid_file_name := pid_file_name s;
     ctrl_sock_file_name := ctrl_sock_file_name s; mode := mode s |}.
Definition set_pid_file (x : bytes) (s : AppSetting) : AppSetting :=
  {| fps := fps s; max_idle := max_idle s; max_pkg_speed := max_pkg_speed s;
     max_traffic_speed := max_traffic_speed s; listen_uri := listen_uri s;
     log_file_name := log_file_name s; pid_file_name := x;
     ctrl_sock_file_name := ctrl_sock_file_name s; mode := mode s |}.
Definition set_ctrl_file (x : bytes) (s : AppSetting) : AppSetting :=
  {| fps := fps s; max_idle := max_idle s; max_pkg_speed := max_pkg_speed s;
     max_traffic_speed := max_traffic_speed s; listen_uri := listen_uri s;
     log_file_name := log_file_name s; pid_file_name := pid_file_name s;
     ctrl_sock_file_name := x; mode := mode s |}.
Definition set_limits (f idle pkg traffic : Z) (s : AppSetting) : AppSetting :=
  {| fps := f; max_idle := idle; max_pkg_speed := pkg; max_traffic_speed := traffic;
     listen_uri := listen_uri s; log_file_name := log_file_name s;
     pid_file_name := pid_file_name s; ctrl_sock_file_name := ctrl_sock_file_name s;
     mode := mode s |}.

(** [strcpy] of a flag into an array of [cap] characters, or the error. *)
Definition copy_flag (flag : bytes) (cap : Z) (set : bytes -> AppSetting -> AppSetting)
    (k : M AppSetting Z) : M AppSetting Z :=
  if cap <=? blen flag then mret (-1) else _ ← modify (set flag); k.

(** A flag, or the name of the program with a suffix when the flag is empty. *)
Definition copy_name (flag argv0 suffix : bytes) (set : bytes -> AppSetting -> AppSetting)
    (k : M AppSetting Z) : M AppSetting Z :=
  if negb (blen flag =? 0) then copy_flag flag MAX_FILE_NAME_LEN set k
  else if MAX_FILE_NAME_LEN <=? blen argv0 + (blen suffix + 1) then mret (-1)
  else _ ← modify (set (take (Z.to_nat (MAX_FILE_NAME_LEN - 1)) (argv0 ++ suffix))); k.

(** [AppFrameWork::ParseCmdLine], src/framework/rapidapp_framework_imp.cpp:162-263 *)
Definition ParseCmdLine (f : Flags) (argv0 : bytes) : M AppSetting Z :=
  let mode :=
    if FLAGS_stop f then if FLAGS_restart f || FLAGS_reload f then None else Some APP_STOP
    else if FLAGS_restart f && FLAGS_reload f then None
    else Some (if FLAGS_restart f then APP_RESTART
               else if FLAGS_reload f then APP_RELOAD else APP_START) in
  match mode with
  | None => mret (-1)
  | Some mode =>
      _ ← modify (set_mode mode);
      copy_flag (FLAGS_uri f) MAX_URL_LEN set_listen_uri (
      copy_flag (FLAGS_log_file f) MAX_FILE_NAME_LEN set_log_file (
      copy_name (FLAGS_pid_file f) argv0 PID_SUFFIX set_pid_file (
      copy_name (FLAGS_ctrl_file f) argv0 SOCK_SUFFIX set_ctrl_file (
      if FLAGS_fps f <? 1 then mret (-1)
      else
        _ ← modify (set_limits (FLAGS_fps f) (FLAGS_max_idle f) (FLAGS_max_pkg_speed f)
                      (FLAGS_max_traffic_speed f));
        mret 0))))
  end.

(** ** Processes *)

(** What the processes share: the text of the files, the process that holds the lock on a
    file, and the signals sent. *)
Record Machine : Type := {
  files : gmap bytes bytes;
  locks : gmap bytes Z;
  kills : list (Z * Z)
}.
Definition SIGUSR1 : Z := 10.
Definition SIGUSR2 : Z := 12.

(** The objects of libevent a process has, the descriptors of its control sockets, and the period
    of its frame timer. *)
Record Live : Set := {
  bases : Z; timer_events : Z; listeners : Z; ctrl_bevs : Z; ctrl_fds : Z; tv_usec : option Z
}.

Section Process.
Context {P : Protobuf} {C A : Type}.

(** A process: the memory of the program with the members of [AppFrameWork], and what the
    members point to; [exited] is the status after [exit]. *)
Record Process : Type := {
  world : App P C A;
  ctrl_dispatcher_ : Dispatcher;
  machine : Machine;
  live : Live;
  handlers_set : bool;
  exited : option Z
}.

Definition set_world (x : App P C A) (p : Process) : Process :=
  {| world := x; ctrl_dispatcher_ := ctrl_dispatcher_ p; machine := machine p; live := live p;
     handlers_set := handlers_set p; exited := exited p |}.
Definition set_dispatcher (x : Dispatcher) (p : Process) : Process :=
  {| world := world p; ctrl_dispatcher_ := x; machine := machine p; live := live p;
     handlers_set := handlers_set p; exited := exited p |}.
Definition set_machine (x : Machine) (p : Process) : Process :=
  {| world := world p; ctrl_dispatcher_ := ctrl_dispatcher_ p; machine := x; live := live p;
     handlers_set := handlers_set p; exited := exited p |}.
Definition set_live (x : Live) (p : Process) : Process :=
  {| world := world p; ctrl_dispatcher_ := ctrl_dispatcher_ p; machine := machine p; live := x;
     handlers_set := handlers_set p; exited := exited p |}.
Definition set_handlers (x : bool) (p : Process) : Process :=
  {| world := world p; ctrl_dispatcher_ := ctrl_dispatcher_ p; machine := machine p;
     live := live p; handlers_set := x; exited := exited p |}.
Definition set_exited (x : option Z) (p : Process) : Process :=
  {| world := world p; ctrl_dispatcher_ := ctrl_dispatcher_ p; machine := machine p;
     live := live p; handlers_set := handlers_set p; exited := x |}.

Definition set_files (x : gmap bytes bytes) (m : Machine) : Machine :=
  {| files := x; locks := locks m; kills := kills m |}.
Definition set_locks (x : gmap bytes Z) (m : Machine) : Machine :=
  {| files := files m; locks := x; kills := kills m |}.

Definition bases_by (d : Z) (l : Live) : Live :=
  {| bases := bases l + d; timer_events := timer_events l; listeners := listeners l;
     ctrl_bevs := ctrl_bevs l; ctrl_fds := ctrl_fds l; tv_usec := tv_usec l |}.
Definition events_by (d : Z) (l : Live) : Live :=
  {| bases := bases l; timer_events := timer_events l + d; listeners := listeners l;
     ctrl_bevs := ctrl_bevs l; ctrl_fds := ctrl_fds l; tv_usec := tv_usec l |}.
Definition listeners_by (d : Z) (l : Live) : Live :=
  {| bases := bases l; timer_events := timer_events l; listeners := listeners l + d;
     ctrl_bevs := ctrl_bevs l; ctrl_fds := ctrl_fds l; tv_usec := tv_usec l |}.
Definition bevs_by (d : Z) (l : Live) : Live :=
  {| bases := bases l; timer_events := timer_events l; listeners := listeners l;
     ctrl_bevs := ctrl_bevs l + d; ctrl_fds := ctrl_fds l; tv_usec := tv_usec l |}.
Definition ctrl_fds_by (d : Z) (l : Live) : Live :=
  {| bases := bases l; timer_events := timer_events l; listeners := listeners l;
     ctrl_bevs := ctrl_bevs l; ctrl_fds := ctrl_fds l + d; tv_usec := tv_usec l |}.
Definition set_period (x : Z) (l : Live) : Live :=
  {| bases := bases l; timer_events := timer_events l; listeners := listeners l;
     ctrl_bevs := ctrl_bevs l; ctrl_fds := ctrl_fds l; tv_usec := Some x |}.

Abbreviation Mp := (M Process).

Definition on_world {X} (m : M (App P C A) X) : Mp X := fun p =>
  '(x, w) ← m (world p); Ok (x, set_world w p).
Definition frame (f : AppFrameWork A -> AppFrameWork A) : Mp unit := on_world (upd_fw f).
Definition get_frame {X} (f : AppFrameWork A -> X) : Mp X := on_world (fw f).
Definition get_setting {X} (f : AppSetting -> X) : Mp X := get_frame (fun w => f (setting_ w)).
Definition on_setting {X} (m : M AppSetting X) : Mp X := fun p =>
  '(x, s) ← m (setting_ (rest (world p)));
  Ok (x, set_world (set_rest (set_setting s (rest (world p))) (world p)) p).
Definition on_dispatcher {X} (m : M Dispatcher X) : Mp X := fun p =>
  '(x, d) ← m (ctrl_dispatcher_ p); Ok (x, set_dispatcher d p).
Definition upd_live (f : Live -> Live) : Mp unit := modify (fun p => set_live (f (live p)) p).
Definition upd_handles (f : Handles -> Handles) : Mp unit :=
  frame (fun w => set_handles (f (handles w)) w).
Definition write_file (name text : bytes) : Mp unit :=
  modify (fun p => set_machine (set_files (<[name := text]> (files (machine p))) (machine p)) p).
Definition quit (status : Z) : Mp unit := modify (set_exited (Some status)).
End Process.
Arguments Process : clear implicits.
Arguments Process {P} C A.

(** The answers of the system and of libevent to one process.  A file that can be opened
    need not exist before; the name of a file decides. *)
Class System : Type := {
  sys_pid : Z;
  sys_fork : nat -> Z;
  sys_setsid : Z;
  sys_fopen : bytes -> bool;
  sys_cloexec : bytes -> Z;
  sys_getrlimit : option Z;
  sys_setrlimit : Z -> bool;
  sys_conf : option bytes;
  sys_udp_socket : Z;
  sys_udp_bind : Z -> bool;
  sys_event_base : bool;
  sys_event_new : bool;
  sys_event_add : bool;
  sys_ctrl_bev : bool;
  sys_listen : sockaddr_in -> bool;
  sys_front_buffer : bool;
  sys_back_buffer : bool;
  sys_scheduler : bool
}.

Definition set_timer_handle (x : bool) (h : Handles) : Handles :=
  {| internal_timer_ := x; listener_ := listener_ h; udp_ctrl_keeper_ := udp_ctrl_keeper_ h;
     cfg_ := cfg_ h; has_been_cleanup_ := has_been_cleanup_ h |}.
Definition set_listener_handle (x : bool) (h : Handles) : Handles :=
  {| internal_timer_ := internal_timer_ h; listener_ := x; udp_ctrl_keeper_ := udp_ctrl_keeper_ h;
     cfg_ := cfg_ h; has_been_cleanup_ := has_been_cleanup_ h |}.
Definition set_keeper_handle (x : bool) (h : Handles) : Handles :=
  {| internal_timer_ := internal_timer_ h; listener_ := listener_ h; udp_ctrl_keeper_ := x;
     cfg_ := cfg_ h; has_been_cleanup_ := has_been_cleanup_ h |}.
Definition set_cfg (x : bytes) (h : Handles) : Handles :=
  {| internal_timer_ := internal_timer_ h; listener_ := listener_ h;
     udp_ctrl_keeper_ := udp_ctrl_keeper_ h; cfg_ := x; has_been_cleanup_ := has_been_cleanup_ h |}.
Definition set_cleaned (x : bool) (h : Handles) : Handles :=
  {| internal_timer_ := internal_timer_ h; listener_ := listener_ h;
     udp_ctrl_keeper_ := udp_ctrl_keeper_ h; cfg_ := cfg_ h; has_been_cleanup_ := x |}.

Definition set_event_base {A} (x : bool) (s : AppFrameWork A) : AppFrameWork A :=
  {| app_ := app_ s; event_base_ := x; handles := handles s;
     schedule_update_ := schedule_update_ s; setting_ := setting_ s; running_ := running_ s;
     reloading_ := reloading_ s; now_ := now_ s;
     frontend_handler_mgr_ := frontend_handler_mgr_ s;
     backend_handler_mgr_ := backend_handler_mgr_ s; timer_mgr_ := timer_mgr_ s;
     rpc_scheduler_ := rpc_scheduler_ s; rpc_svc_mgr_ := rpc_svc_mgr_ s;
     svc_mode_ := svc_mode_ s; loopbreak := loopbreak s; app := app s |}.
Definition set_app_pointer {A} (x : bool) (s : AppFrameWork A) : AppFrameWork A :=
  {| app_ := x; event_base_ := event_base_ s; handles := handles s;
     schedule_update_ := schedule_update_ s; setting_ := setting_ s; running_ := running_ s;
     reloading_ := reloading_ s; now_ := now_ s;
     frontend_handler_mgr_ := frontend_handler_mgr_ s;
     backend_handler_mgr_ := backend_handler_mgr_ s; timer_mgr_ := timer_mgr_ s;
     rpc_scheduler_ := rpc_scheduler_ s; rpc_svc_mgr_ := rpc_svc_mgr_ s;
     svc_mode_ := svc_mode_ s; loopbreak := loopbreak s; app := app s |}.
Definition set_svc_mode {A} (x : Z) (s : AppFrameWork A) : AppFrameWork A :=
  {| app_ := app_ s; event_base_ := event_base_ s; handles := handles s;
     schedule_update_ := schedule_update_ s; setting_ := setting_ s; running_ := running_ s;
     reloading_ := reloading_ s; now_ := now_ s;
     frontend_handler_mgr_ := frontend_handler_mgr_ s;
     backend_handler_mgr_ := backend_handler_mgr_ s; timer_mgr_ := timer_mgr_ s;
     rpc_scheduler_ := rpc_scheduler_ s; rpc_svc_mgr_ := rpc_svc_mgr_ s;
     svc_mode_ := x; loopbreak := loopbreak s; app := app s |}.

(** ** [strtol] with base 0 and the first line of a file *)

Definition digit_value (c : Z) : Z :=
  if isdigit c then c - 48
  else if (97 <=? c) && (c <=? 102) then c - 87
  else if (65 <=? c) && (c <=? 70) then c - 55 else 99.
Fixpoint digits_base (base : Z) (s : bytes) (acc : Z) : Z :=
  match s with
  | c :: r => if digit_value c <? base then digits_base base r (base * acc + digit_value c) else acc
  | [] => acc
  end.
(** The prefix of the digits tells the base: a zero octal, [0x] hexadecimal. *)
Definition strtoul0 (s : bytes) : Z :=
  match s with
  | c :: x :: r =>
      if negb (c =? 48) then digits_base 10 s 0
      else if ((x =? 120) || (x =? 88)) && match r with d :: _ => digit_value d <? 16 | [] => false end
      then digits_base 16 r 0 else digits_base 8 (x :: r) 0
  | _ => digits_base 10 s 0
  end.
Definition strtol0 (s : bytes) : Z :=
  let v := match skip_spaces s with
           | [] => 0
           | c :: r => if c =? 45 then - strtoul0 r
                       else if c =? 43 then strtoul0 r else strtoul0 (c :: r)
           end in
  Z.max (-9223372036854775808) (Z.min v 9223372036854775807).

(** [fgets] into an array of [cap] characters; nothing at the end of the file. *)
Fixpoint line_of (n : nat) (s : bytes) : bytes :=
  match n, s with
  | S n, c :: r => if c =? 10 then [c] else c :: line_of n r
  | _, _ => []
  end.
Definition fgets (cap : nat) (s : bytes) : option bytes :=
  match s with [] => None | _ => Some (line_of (cap - 1) s) end.

Definition MAX_PID_FILE_NAME_LEN : nat := 1024.
Definition DEFAULT_MAX_FD_LIMIT : Z := 10240.
Definition SERVICE_MODE_SEPCHAR : Z := 63.
Definition SERVICE_MODE_RPC : bytes := bytes_of_string "rpc"%string.

(** ** Methods *)

Section Methods.
Context {P : Protobuf} {C A : Type} {E : NetEnv C} {F : FrameEnv} {RA : RapidApp (App P C A)}.
Context {S : System} (_DEBUG : bool).
Abbreviation Mp := (M (Process C A)).

(** [AppFrameWork::AppFrameWork], src/framework/rapidapp_framework_imp.cpp:101-109

    The static members keep their values. *)
Definition AppFrameWork_new (run reload : bool) (now : Z) (a : A) : AppFrameWork A :=
  {| app_ := false; event_base_ := false;
     handles := {| internal_timer_ := false; listener_ := false; udp_ctrl_keeper_ := false;
                   cfg_ := []; has_been_cleanup_ := false |};
     schedule_update_ := false;
     setting_ := {| fps := 0; max_idle := 0; max_pkg_speed := 0; max_traffic_speed := 0;
                    listen_uri := []; log_file_name := []; pid_file_name := [];
                    ctrl_sock_file_name := []; mode := 0 |};
     running_ := run; reloading_ := reload; now_ := now;
     frontend_handler_mgr_ := NetHandlerMgr_new; backend_handler_mgr_ := NetHandlerMgr_new;
     timer_mgr_ := TimerMgr_new; rpc_scheduler_ := false; rpc_svc_mgr_ := None;
     svc_mode_ := SVC_MODE_NORMAL; loopbreak := false; app := a |}.

(** [AppFrameWork::InitSignalHandle], src/framework/rapidapp_framework_imp.cpp:119-137 *)
Definition InitSignalHandle : Mp unit := modify (set_handlers true).

(** [AppFrameWork::MakeDaemon], src/framework/rapidapp_framework_imp.cpp:139-160

    Whether the process goes on. *)
Definition MakeDaemon : Mp bool :=
  if negb (sys_fork 0 =? 0) then _ ← quit 0; mret false
  else if -1 =? sys_setsid then _ ← quit (-1); mret false
  else if negb (sys_fork 1 =? 0) then _ ← quit 0; mret false
  else mret true.

(** [AppFrameWork::SetResourceLimit], src/framework/rapidapp_framework_imp.cpp:265-295 *)
Definition SetResourceLimit (fd_limit : Z) : Mp Z :=
  if fd_limit <=? 0 then mret (-1)
  else
    match sys_getrlimit with
    | None => mret (-1)
    | Some cur =>
        if i32 cur <? fd_limit then
          if negb (sys_setrlimit fd_limit) then mret (-1) else mret 0
        else mret 0
    end.

(** [AppFrameWork::SetPidFile], src/framework/rapidapp_framework_imp.cpp:316-354

    The file stays open, and locked, as long as the process lives. *)
Definition SetPidFile : Mp Z :=
  name ← get_setting pid_file_name;
  if negb (sys_fopen name) then mret (-1)
  else
    p ← get;
    _ ← write_file name (default [] (files (machine p) !! name));
    if -1 =? sys_cloexec name then mret (-1)
    else
      match locks (machine p) !! name with
      | Some holder => if holder =? sys_pid then _ ← write_file name (dec sys_pid ++ [10]); mret 0 else mret (-1)
      | None =>
          _ ← modify (fun p => set_machine
                 (set_locks (<[name := sys_pid]> (locks (machine p))) (machine p)) p);
          _ ← write_file name (dec sys_pid ++ [10]);
          mret 0
      end.

(** [AppFrameWork::GetRunningPid], src/framework/rapidapp_framework_imp.cpp:356-399

    A read lock that is granted is given back when the file is closed. *)
Definition GetRunningPid : Mp Z :=
  name ← get_setting pid_file_name;
  p ← get;
  match files (machine p) !! name with
  | None => mret (-1)
  | Some text =>
      if negb (sys_fopen name) then mret (-1)
      else if -1 =? sys_cloexec name then mret (-1)
      else
        match locks (machine p) !! name with
        | Some holder =>
            if holder =? sys_pid then
              _ ← modify (fun p => set_machine
                     (set_locks (delete name (locks (machine p))) (machine p)) p);
              mret 0
            else
              match fgets MAX_PID_FILE_NAME_LEN text with
              | None => mret (-1)
              | Some line => mret (i32 (strtol0 line))
              end
        | None => mret 0
        end
  end.

(** [AppFrameWork::SetCtrlSockFile], src/framework/rapidapp_framework_imp.cpp:401-458

    The bufferevent closes the descriptor of the socket when it is freed
    ([BEV_OPT_CLOSE_ON_FREE]); on the paths before it exists nothing does. *)
Definition SetCtrlSockFile : Mp Z :=
  name ← get_setting ctrl_sock_file_name;
  let port := ctrl_port name in
  if sys_udp_socket <? 0 then mret (-1)
  else
    _ ← upd_live (ctrl_fds_by 1);
    if negb (sys_udp_bind port) then mret (-1)
    else
      _ ← upd_handles (set_keeper_handle sys_ctrl_bev);
      if negb sys_ctrl_bev then mret (-1)
      else
        _ ← upd_live (bevs_by 1);
        if negb (sys_fopen name) then mret (-1)
        else
          _ ← write_file name [];
          if -1 =? sys_cloexec name then mret (-1)
          else
            _ ← write_file name ((if _DEBUG then bytes_of_string "127.0.0.1"%string
                                  else bytes_of_string "0.0.0.0"%string) ++ [32] ++ dec port ++ [10]);
            mret 0.

(** [AppFrameWork::SetFpsTimer], src/framework/rapidapp_framework_imp.cpp:460-481

    The event is stored in a local variable with the name of the member. *)
Definition SetFpsTimer : Mp Z :=
  if negb sys_event_new then mret (-1)
  else
    _ ← upd_live (events_by 1);
    f ← get_setting fps;
    _ ← upd_live (set_period (1000000 / f));
    if negb sys_event_add then mret (-1) else mret 0.

(** [AppFrameWork::InitListenerServiceMode], src/framework/rapidapp_framework_imp.cpp:483-513 *)
Definition InitListenerServiceMode : Mp Z :=
  uri ← get_setting listen_uri;
  sa ← on_world (lift (tcpsocket_str2sockin env_kernel (Some uri)));
  match sa with
  | None => mret (-1)
  | Some sa =>
      _ ← upd_handles (set_listener_handle (sys_listen sa));
      if negb (sys_listen sa) then mret (-1)
      else
        _ ← upd_live (listeners_by 1);
        match strchr uri SERVICE_MODE_SEPCHAR with
        | Some i =>
            if bool_decide (drop (i + 1) uri = SERVICE_MODE_RPC)
            then _ ← frame (set_svc_mode SVC_MODE_RPC); mret 0 else mret 0
        | None => mret 0
        end
  end.

(** [AppFrameWork::GetConfString], src/framework/rapidapp_framework_imp.cpp:645-694

    [sys_conf] is the text of the file when every call succeeds. *)
Definition GetConfString (f : Flags) : Mp Z :=
  if blen (FLAGS_cfg_file f) =? 0 then mret 0
  else
    match sys_conf with
    | None => mret (-1)
    | Some text => _ ← upd_handles (set_cfg text); mret 0
    end.

(** The next call of a sequence that stops at the first failure. *)
Definition then_ (m : Mp Z) (k : Mp (option Z)) : Mp (option Z) :=
  ret ← m; if negb (ret =? 0) then mret (Some (-1)) else k.

(** [AppFrameWork::InitNormalMode], src/framework/rapidapp_framework_imp.cpp:515-643

    [None] when the process has exited.  The logger always starts. *)
Definition InitNormalMode (f : Flags) : Mp (option Z) :=
  goes_on ← (if FLAGS_daemon f then MakeDaemon else mret true);
  if negb (goes_on : bool) then mret None
  else
    then_ (GetConfString f) (
    then_ SetPidFile (
    _ ← InitSignalHandle;
    then_ (if _DEBUG then mret 0 else SetResourceLimit DEFAULT_MAX_FD_LIMIT) (
    if negb sys_event_base then mret (Some (-1))
    else
      _ ← upd_live (bases_by 1);
      _ ← frame (set_event_base true);
      then_ SetFpsTimer (
      _ ← on_dispatcher AddDefaultSupportedCommand;
      then_ SetCtrlSockFile (
      then_ InitListenerServiceMode (
      then_ (on_world (on_frontend (NetHandlerMgr_Init sys_front_buffer
               (u64 (2 * GetFrontEndMaxMsgSize))))) (
      then_ (on_world (on_backend (NetHandlerMgr_Init sys_back_buffer
               (u64 (2 * GetBackEndMaxMsgSize))))) (
      then_ (on_world (on_timers (TimerMgr_Init DEFAULT_MAX_TIMER_NUM))) (
      _ ← frame (set_rpc_scheduler sys_scheduler);
      if negb sys_scheduler then mret (Some (-1))
      else
        now ← on_world time_NULL;
        _ ← frame (set_now now);
        mret (Some 0)))))))))).

(** [kill] *)
Definition send_signal (pid sig : Z) : Mp unit :=
  modify (fun p => set_machine {| files := files (machine p); locks := locks (machine p);
                                  kills := kills (machine p) ++ [(pid, sig)] |} p).

(** [AppFrameWork::Init], src/framework/rapidapp_framework_imp.cpp:696-772 *)
Definition Init (app_null : bool) (argc : Z) (argv0 : bytes) (f : Flags) : Mp (option Z) :=
  if app_null then mret (Some (-1))
  else
    _ ← frame (set_app_pointer true);
    _ ← assertb (0 <? argc);
    ret ← on_setting (ParseCmdLine f argv0);
    if negb (ret =? 0) then mret (Some (-1))
    else
      mode ← get_setting mode;
      if mode =? APP_STOP then
        pid ← GetRunningPid;
        if -1 =? pid then _ ← quit (-1); mret None
        else
          _ ← (if negb (pid =? 0) then send_signal pid SIGUSR1 else mret tt);
          _ ← quit 0; mret None
      else if mode =? APP_RESTART then
        pid ← GetRunningPid;
        if -1 =? pid then _ ← quit (-1); mret None
        else
          _ ← (if negb (pid =? 0) then send_signal pid SIGUSR1 else mret tt);
          InitNormalMode f
      else if mode =? APP_RELOAD then
        pid ← GetRunningPid;
        if -1 =? pid then _ ← quit (-1); mret None
        else
          _ ← (if negb (pid =? 0) then send_signal pid SIGUSR2 else mret tt);
          _ ← quit 0; mret None
      else InitNormalMode f.

(** The release of a handle and of what it stands for. *)
Definition release (held : Handles -> bool) (clear : Handles -> Handles) (drop : Live -> Live)
    : Mp unit :=
  h ← get_frame handles;
  if held h then _ ← upd_live drop; upd_handles clear else mret tt.

(** [AppFrameWork::CleanUp], src/framework/rapidapp_framework_imp.cpp:774-823 *)
Definition CleanUp : Mp Z :=
  _ ← frame (set_svc_mgr None);
  _ ← frame (set_rpc_scheduler false);
  _ ← on_world (on_timers TimerMgr_CleanUp);
  _ ← on_world (on_backend NetHandlerMgr_CleanUp);
  _ ← on_world (on_frontend NetHandlerMgr_CleanUp);
  _ ← release listener_ (set_listener_handle false) (listeners_by (-1));
  _ ← release udp_ctrl_keeper_ (set_keeper_handle false)
    (fun l => ctrl_fds_by (-1) (bevs_by (-1) l));
  _ ← release internal_timer_ (set_timer_handle false) (events_by (-1));
  base ← get_frame event_base_;
  _ ← (if base : bool then _ ← upd_live (bases_by (-1)); frame (set_event_base false) else mret tt);
  _ ← upd_handles (set_cleaned true);
  mret 0.

(** [AppFrameWork::~AppFrameWork], src/framework/rapidapp_framework_imp.cpp:111-117 *)
Definition AppFrameWork_delete : Mp unit :=
  h ← get_frame handles;
  if negb (has_been_cleanup_ h) then _ ← CleanUp; mret tt else mret tt.

(** [AppFrameWork::MainLoop], src/framework/rapidapp_framework_imp.cpp:825-835

    [dispatch] is libevent's loop with the callbacks it makes. *)
Definition MainLoop (dispatch : Mp unit) : Mp unit :=
  base ← get_frame event_base_;
  _ ← (if _DEBUG then assertb base else mret tt);
  _ ← frame (set_run true);
  dispatch.

(** [AppLauncher::Run], src/framework/rapidapp_core.cpp:22-68

    [None] when the process has exited; [OnInit] and [OnFini] are the application's. *)
Definition Run (dispatch : Mp unit) (OnInit OnFini : Mp Z) (app_null argv_null : bool)
    (argc : Z) (argv0 : bytes) (f : Flags) : Mp (option Z) :=
  if app_null then mret (Some (-1))
  else if (argc <=? 0) || argv_null then mret (Some (-1))
  else
    _ ← frame (fun w => AppFrameWork_new (running_ w) (reloading_ w) (now_ w) (app w));
    r ← Init app_null argc argv0 f;
    match r with
    | None => mret None
    | Some ret =>
        if negb (ret =? 0) then mret (Some (-1))
        else
          ret ← OnInit;
          if negb (ret =? 0) then mret (Some (-1))
          else
            _ ← MainLoop dispatch;
            _ ← OnFini;
            _ ← CleanUp;
            mret (Some 0)
    end.

(** [AppLauncher::~AppLauncher], src/framework/rapidapp_core.cpp:13-20

    The life of a launcher: [Run], and the destructor unless the process has exited. *)
Definition launch (dispatch : Mp unit) (OnInit OnFini : Mp Z) (app_null argv_null : bool)
    (argc : Z) (argv0 : bytes) (f : Flags) : Mp (option Z) :=
  r ← Run dispatch OnInit OnFini app_null argv_null argc argv0 f;
  match r with
  | None => mret None
  | Some ret =>
      _ ← (if app_null || (argc <=? 0) || argv_null then mret tt else AppFrameWork_delete);
      mret (Some ret)
  end.
End Methods.

(** ** The settings *)

(** Every string fits into its array with the terminator, and there is a frame rate. *)
Record setting_wf (s : AppSetting) : Prop := {
  wf_uri : blen (listen_uri s) < MAX_URL_LEN;
  wf_log : blen (log_file_name s) < MAX_FILE_NAME_LEN;
  wf_pid : blen (pid_file_name s) < MAX_FILE_NAME_LEN;
  wf_ctrl : blen (ctrl_sock_file_name s) < MAX_FILE_NAME_LEN;
  wf_fps : 1 <= fps s
}.

(** The name a flag stands for, and whether it is taken; a name made from that of the
    program must leave one more character free. *)
Definition name_of (flag argv0 suffix : bytes) : bytes :=
  if bool_decide (flag = []) then argv0 ++ suffix else flag.
Definition name_fits (flag argv0 suffix : bytes) : bool :=
  blen (name_of flag argv0 suffix) + (if bool_decide (flag = []) then 1 else 0) <? MAX_FILE_NAME_LEN.
Definition accepted (f : Flags) (argv0 : bytes) : bool :=
  negb (FLAGS_stop f && (FLAGS_restart f || FLAGS_reload f)) &&
  negb (FLAGS_restart f && FLAGS_reload f) &&
  (blen (FLAGS_uri f) <? MAX_URL_LEN) && (blen (FLAGS_log_file f) <? MAX_FILE_NAME_LEN) &&
  name_fits (FLAGS_pid_file f) argv0 PID_SUFFIX && name_fits (FLAGS_ctrl_file f) argv0 SOCK_SUFFIX &&
  (1 <=? FLAGS_fps f).
Definition mode_of (f : Flags) : Z :=
  if FLAGS_stop f then APP_STOP else if FLAGS_restart f then APP_RESTART
  else if FLAGS_reload f then APP_RELOAD else APP_START.
Definition settings_of (f : Flags) (argv0 : bytes) : AppSetting :=
  {| fps := FLAGS_fps f; max_idle := FLAGS_max_idle f; max_pkg_speed := FLAGS_max_pkg_speed f;
     max_traffic_speed := FLAGS_max_traffic_speed f; listen_uri := FLAGS_uri f;
     log_file_name := FLAGS_log_file f;
     pid_file_name := name_of (FLAGS_pid_file f) argv0 PID_SUFFIX;
     ctrl_sock_file_name := name_of (FLAGS_ctrl_file f) argv0 SOCK_SUFFIX;
     mode := mode_of f |}.

Lemma copy_flag_ok flag cap set k s :
  copy_flag flag cap set k s = if blen flag <? cap then k (set flag s) else Ok (-1, s).
Proof.
  unfold copy_flag. destruct (Z.leb_spec cap (blen flag)), (Z.ltb_spec (blen flag) cap); try lia; done.
Qed.
Lemma copy_name_ok flag argv0 suffix set k s :
  copy_name flag argv0 suffix set k s
  = if name_fits flag argv0 suffix then k (set (name_of flag argv0 suffix) s) else Ok (-1, s).
Proof.
  unfold copy_name, name_fits, name_of. destruct flag as [|c flag].
  - rewrite !bool_decide_eq_true_2 by done. change (negb (blen [] =? 0)) with false. cbn iota.
    assert (Hl : blen (argv0 ++ suffix) = blen argv0 + blen suffix)
      by (unfold blen; rewrite length_app; lia).
    rewrite Hl. unfold MAX_FILE_NAME_LEN.
    destruct (Z.leb_spec 128 (blen argv0 + (blen suffix + 1))).
    + by destruct (Z.ltb_spec (blen argv0 + blen suffix + 1) 128); [lia|].
    + destruct (Z.ltb_spec (blen argv0 + blen suffix + 1) 128); [|lia].
      rewrite take_ge; [done|]. unfold blen in *. lia.
  - rewrite !bool_decide_eq_false_2 by done. rewrite Z.add_0_r.
    destruct (Z.eqb_spec (blen (c :: flag)) 0) as [E0|]; [unfold blen in E0; cbn in E0; lia|].
    apply copy_flag_ok.
Qed.

Lemma ParseCmdLine_ok f argv0 s :
  exists s', ParseCmdLine f argv0 s = Ok (if accepted f argv0 then 0 else -1, s') /\
    (accepted f argv0 = true -> s' = settings_of f argv0).
Proof.
  unfold ParseCmdLine, accepted, settings_of, mode_of.
  destruct (FLAGS_stop f), (FLAGS_restart f), (FLAGS_reload f); cbn [andb orb negb];
    try (by eexists).
  all: rewrite (bind_step (modify _) _ s tt _) by done.
  all: rewrite copy_flag_ok; destruct (_ <? MAX_URL_LEN); cbn [andb]; [|by eexists].
  all: rewrite copy_flag_ok; destruct (_ <? MAX_FILE_NAME_LEN); cbn [andb]; [|by eexists].
  all: rewrite copy_name_ok; destruct (name_fits (FLAGS_pid_file f) _ _); cbn [andb]; [|by eexists].
  all: rewrite copy_name_ok; destruct (name_fits (FLAGS_ctrl_file f) _ _); cbn [andb]; [|by eexists].
  all: destruct (Z.ltb_spec (FLAGS_fps f) 1), (Z.leb_spec 1 (FLAGS_fps f)); try lia; by eexists.
Qed.

Lemma accepted_wf f argv0 : accepted f argv0 = true -> setting_wf (settings_of f argv0).
Proof.
  unfold accepted, name_fits. rewrite !andb_true_iff.
  intros [[[[[[_ _] H1] H2] H3] H4] H5]. unfold MAX_FILE_NAME_LEN in *.
  constructor; unfold MAX_FILE_NAME_LEN;
    cbn [listen_uri log_file_name pid_file_name ctrl_sock_file_name fps settings_of]; try lia;
    [destruct (bool_decide _) in H3; lia|destruct (bool_decide _) in H4; lia].
Qed.

(** ** The process id in the file *)

Lemma digits_base_10 s acc : digits_base 10 s acc = digits s acc.
Proof.
  revert acc. induction s as [|c s IH]; intros acc; [done|]. cbn [digits_base digits].
  unfold digit_value. destruct (isdigit c) eqn:E.
  - unfold isdigit in E. replace (c - 48 <? 10) with true by lia. apply IH.
  - unfold isdigit in E.
    destruct ((97 <=? c) && (c <=? 102)) eqn:E1; [replace (c - 87 <? 10) with false by lia; done|].
    destruct ((65 <=? c) && (c <=? 70)) eqn:E2; [replace (c - 55 <? 10) with false by lia; done|].
    done.
Qed.

(** The first digit of a positive number is not zero. *)
Lemma udec_first f n acc :
  0 < n < 10 ^ Z.of_nat f -> exists c r, udec f n acc = c :: r /\ 49 <= c <= 57.
Proof.
  revert n acc. induction f as [|f IH]; intros n acc Hn; [change (10 ^ Z.of_nat 0) with 1 in Hn; lia|].
  cbn [udec]. destruct (Z.eqb_spec (n / 10) 0) as [E|E].
  - eexists _, _. split; [done|]. Z.div_mod_to_equations; lia.
  - apply IH. rewrite Nat2Z.inj_succ, Z.pow_succ_r in Hn by lia.
    Z.div_mod_to_equations; lia.
Qed.

Lemma strtol0_dec n rest :
  0 < n < 2147483648 -> nondigit_start rest -> strtol0 (dec n ++ rest) = n.
Proof.
  intros Hn Hr. pose proof (strtol10_dec n rest ltac:(lia) Hr) as H.
  assert (Hp : 10 ^ Z.of_nat 20 = 100000000000000000000) by reflexivity.
  destruct (udec_first 20 n [] ltac:(lia)) as (c & r & E & Hc).
  unfold dec in *. replace (n <? 0) with false in * by lia. rewrite E, <- app_comm_cons in *.
  unfold strtol10, strtol0 in *. cbn [skip_spaces] in *.
  replace (isspace c) with false in *
    by (unfold isspace; symmetry; apply orb_false_iff; rewrite andb_false_iff; lia).
  replace (c =? 45) with false in * by lia. replace (c =? 43) with false in * by lia.
  rewrite <- H. do 2 f_equal. unfold strtoul0. replace (c =? 48) with false by lia.
  cbn [negb]. rewrite digits_base_10. by destruct (r ++ rest).
Qed.

(** Decimals have no newline. *)
Lemma udec_digits f n acc : Forall (fun c => c <> 10) acc -> Forall (fun c => c <> 10) (udec f n acc).
Proof.
  revert n acc. induction f as [|f IH]; intros n acc Ha; [done|]. cbn [udec].
  assert (Hc : Forall (fun c => c <> 10) ((48 + n mod 10) :: acc)).
  { constructor; [|done]. Z.div_mod_to_equations; lia. }
  destruct (_ =? 0); [done|by apply IH].
Qed.
Lemma line_of_line l n :
  Forall (fun c => c <> 10) l -> (length l < n)%nat -> line_of n (l ++ [10]) = l ++ [10].
Proof.
  revert n. induction l as [|c l IH]; intros [|n] Hl Hn; cbn in *; try lia; [done|].
  inversion Hl; subst. replace (c =? 10) with false by lia. rewrite IH by (done || lia). done.
Qed.
Lemma length_udec_le f n acc : (length (udec f n acc) <= f + length acc)%nat.
Proof.
  revert n acc. induction f as [|f IH]; intros n acc; cbn [udec]; [lia|].
  destruct (_ =? 0); [cbn; lia|]. specialize (IH (n / 10) ((48 + n mod 10) :: acc)).
  cbn [length] in IH. lia.
Qed.

Lemma pid_line n :
  0 < n < 2147483648 ->
  exists line, fgets MAX_PID_FILE_NAME_LEN (dec n ++ [10]) = Some line /\ i32 (strtol0 line) = n.
Proof.
  intros Hn. exists (dec n ++ [10]). split.
  - unfold fgets. destruct (dec n ++ [10]) as [|c r] eqn:E; [by destruct (dec n)|]. rewrite <- E.
    f_equal. unfold dec. replace (n <? 0) with false by lia.
    apply line_of_line; [by apply udec_digits|].
    pose proof (length_udec_le 20 n []) as H. cbn [length] in H. unfold MAX_PID_FILE_NAME_LEN. lia.
  - rewrite strtol0_dec by done. apply i32_id. lia.
Qed.

(** ** One process after another *)

Section Signals.
Context {P : Protobuf} {C A : Type} {E : NetEnv C} {F : FrameEnv} {RA : RapidApp (App P C A)}.
Implicit Types (p : Process C A).

(** The machine while the server with the number [n] runs. *)
Definition server_runs (name : bytes) (n : Z) (m : Machine) : Prop :=
  files m !! name = Some (dec n ++ [10]) /\ locks m !! name = Some n.

Lemma on_world_step {X} (m : M (App P C A) X) p x w :
  m (world p) = Ok (x, w) -> on_world m p = Ok (x, set_world w p).
Proof using. intros H. unfold on_world. by rewrite H. Qed.

(** The members that [SetPidFile] and [GetRunningPid] read. *)
Lemma get_setting_step {X} (f : AppSetting -> X) p :
  get_setting f p = Ok (f (setting_ (rest (world p))), p).
Proof using. unfold get_setting, get_frame, on_world, fw, gets. cbn. by destruct p. Qed.

Lemma SetPidFile_run {S : System} p p' :
  SetPidFile p = Ok (0, p') ->
  server_runs (pid_file_name (setting_ (rest (world p)))) sys_pid (machine p').
Proof using.
  unfold SetPidFile. rewrite (bind_step _ _ _ _ _ (get_setting_step pid_file_name p)).
  set (name := pid_file_name _). destruct (negb (sys_fopen name)); [by intros [= ]|].
  rewrite (bind_step get _ p p p) by done.
  rewrite (bind_step (write_file _ _) _ p tt _) by done.
  destruct (-1 =? sys_cloexec name); [by intros [= ]|].
  destruct (locks (machine p) !! name) as [holder|] eqn:El.
  - destruct (Z.eqb_spec holder sys_pid) as [->|]; [|by intros [= ]]. intros [= <-].
    split; cbn; [apply lookup_insert_eq|done].
  - intros [= <-]. split; cbn; apply lookup_insert_eq.
Qed.

(** A second process finds the number of the server. *)
Lemma GetRunningPid_server {S : System} p n :
  let name := pid_file_name (setting_ (rest (world p))) in
  server_runs name n (machine p) -> 0 < n < 2147483648 -> n <> sys_pid ->
  sys_fopen name = true -> sys_cloexec name <> -1 ->
  GetRunningPid p = Ok (n, p).
Proof using.
  intros name [Hf Hl] Hn Hne Ho Hc. unfold GetRunningPid.
  rewrite (bind_step _ _ _ _ _ (get_setting_step pid_file_name p)). fold name.
  rewrite (bind_step get _ p p p), Hf, Ho by done. cbn [negb].
  replace (-1 =? sys_cloexec name) with false by lia. rewrite Hl.
  replace (n =? sys_pid) with false by lia.
  destruct (pid_line n Hn) as (line & Eg & Ei). rewrite Eg. by rewrite Ei.
Qed.

(** [Init] up to the choice of the mode. *)
Definition configured (f : Flags) (argv0 : bytes) p : Process C A :=
  let w := set_rest (set_app_pointer true (rest (world p))) (world p) in
  set_world (set_rest (set_setting (settings_of f argv0) (rest w)) w) p.

Definition Init_mode {S : System} (_DEBUG : bool) (f : Flags) (mode : Z) : M (Process C A) (option Z) :=
  if mode =? APP_STOP then
    pid ← GetRunningPid;
    if -1 =? pid then _ ← quit (-1); mret None
    else
      _ ← (if negb (pid =? 0) then send_signal pid SIGUSR1 else mret tt);
      _ ← quit 0; mret None
  else if mode =? APP_RESTART then
    pid ← GetRunningPid;
    if -1 =? pid then _ ← quit (-1); mret None
    else
      _ ← (if negb (pid =? 0) then send_signal pid SIGUSR1 else mret tt);
      InitNormalMode _DEBUG f
  else if mode =? APP_RELOAD then
    pid ← GetRunningPid;
    if -1 =? pid then _ ← quit (-1); mret None
    else
      _ ← (if negb (pid =? 0) then send_signal pid SIGUSR2 else mret tt);
      _ ← quit 0; mret None
  else InitNormalMode _DEBUG f.

Lemma Init_accepted {S : System} _DEBUG argc argv0 f p :
  0 < argc -> accepted f argv0 = true ->
  Init _DEBUG false argc argv0 f p = Init_mode _DEBUG f (mode_of f) (configured f argv0 p).
Proof using.
  intros Ha Hf. unfold Init.
  rewrite (bind_step (frame _) _ p tt
             (set_world (set_rest (set_app_pointer true (rest (world p))) (world p)) p)) by done.
  replace (0 <? argc) with true by lia. set (p1 := set_world _ p).
  rewrite (bind_step (assertb true) _ p1 tt p1) by done.
  destruct (ParseCmdLine_ok f argv0 (setting_ (rest (world p1)))) as (s' & Es & Hs).
  rewrite Hf in Es, Hs. rewrite Hs in Es by done.
  rewrite (bind_step _ _ p1 0 (configured f argv0 p)).
  2: { unfold on_setting. by rewrite Es. }
  cbn [Z.eqb negb]. by rewrite (bind_step _ _ _ _ _ (get_setting_step mode _)).
Qed.
End Signals.

(** ** What a process owns *)

Section Owning.
Context {P : Protobuf} {C A : Type} {E : NetEnv C} {F : FrameEnv} {RA : RapidApp (App P C A)}.
Implicit Types (p : Process C A).

Definition one (b : bool) : Z := if b then 1 else 0.

(** The objects of a process and the members that point to them: [t] frame timers and [s] open
    descriptors, which no member points to, a base, a listener and a control socket. *)
Record owns (t s : Z) (base listen keep : bool) p : Prop := {
  ow_base : event_base_ (rest (world p)) = base;
  ow_listen : listener_ (handles (rest (world p))) = listen;
  ow_keep : udp_ctrl_keeper_ (handles (rest (world p))) = keep;
  ow_timer : internal_timer_ (handles (rest (world p))) = false /\
             has_been_cleanup_ (handles (rest (world p))) = false;
  ow_live : bases (live p) = one base /\ listeners (live p) = one listen /\
            ctrl_bevs (live p) = one keep /\ timer_events (live p) = t /\
            ctrl_fds (live p) = one keep + s
}.

(** From a condition to a condition on the result. *)
Definition triple {X} (pre : Process C A -> Prop) (m : M (Process C A) X)
    (post : X -> Process C A -> Prop) : Prop :=
  forall p x p', pre p -> m p = Ok (x, p') -> post x p'.
(** A call that leaves all of it alone. *)
Definition quiet {X} (m : M (Process C A) X) : Prop :=
  forall t s b l k, triple (owns t s b l k) m (fun _ => owns t s b l k).

Lemma triple_bind {X Y} pre (m : M (Process C A) X) mid (f : X -> M (Process C A) Y) post :
  triple pre m mid -> (forall x, triple (mid x) (f x) post) -> triple pre (m ≫= f) post.
Proof using.
  intros Hm Hf p y p' Hp H. apply bind_Ok in H as (x & p1 & H1 & H2).
  exact (Hf x p1 y p' (Hm p x p1 Hp H1) H2).
Qed.
Lemma triple_ret {X} (pre : Process C A -> Prop) (post : X -> Process C A -> Prop) x :
  (forall p, pre p -> post x p) -> triple pre (mret x) post.
Proof using. intros H p y p' Hp [= <- <-]. auto. Qed.

Lemma quiet_ret {X} (x : X) : quiet (mret x).
Proof using. intros t s b l k p y p' Hp [= <- <-]. done. Qed.
Lemma quiet_bind {X Y} (m : M (Process C A) X) (f : X -> M (Process C A) Y) :
  quiet m -> (forall x, quiet (f x)) -> quiet (m ≫= f).
Proof using. intros Hm Hf t s b l k. eapply triple_bind; [apply Hm|]. intros x. apply Hf. Qed.
Lemma quiet_get : quiet get.
Proof using. intros t s b l k p y p' Hp [= <- <-]. done. Qed.
Lemma quiet_modify f :
  (forall p, live (f p) = live p /\ world (f p) = world p) -> quiet (modify f).
Proof using.
  intros Hf t s b l k p y p' [H1 H2 H3 H4 H5] [= <- <-]. destruct (Hf p) as [E1 E2].
  constructor; rewrite ?E1, ?E2; done.
Qed.
Lemma quiet_frame f :
  (forall w : AppFrameWork A, event_base_ (f w) = event_base_ w /\ handles (f w) = handles w) ->
  quiet (frame f).
Proof using.
  intros Hf t s b l k p y p' [H1 H2 H3 H4 H5] [= <- <-]. destruct (Hf (rest (world p))) as [E1 E2].
  constructor; cbn; rewrite ?E1, ?E2; done.
Qed.
Lemma quiet_on_world {X} (m : M (App P C A) X) :
  (forall w x w', m w = Ok (x, w') ->
     event_base_ (rest w') = event_base_ (rest w) /\ handles (rest w') = handles (rest w)) ->
  quiet (on_world m).
Proof using.
  intros Hm t s b l k p y p' [H1 H2 H3 H4 H5] H. unfold on_world, mbind, outcome_bind in H.
  destruct (m (world p)) as [[x w]|] eqn:Em; [|done]. injection H as <- <-.
  destruct (Hm _ _ _ Em) as [E1 E2]. constructor; cbn; rewrite ?E1, ?E2; done.
Qed.
Lemma quiet_get_setting {X} (f : AppSetting -> X) : quiet (get_setting f).
Proof using.
  intros t s b l k p y p' Hp H. rewrite get_setting_step in H. by injection H as <- <-.
Qed.
Lemma quiet_on_frontend {X} (m : M (NetSt C) X) : quiet (on_world (on_frontend m)).
Proof using.
  apply quiet_on_world. intros w x w' H. unfold on_frontend, mbind, outcome_bind in H.
  destruct (m _) as [[y s]|]; [|done]. by injection H as <- <-.
Qed.
Lemma quiet_on_backend {X} (m : M (NetSt C) X) : quiet (on_world (on_backend m)).
Proof using.
  apply quiet_on_world. intros w x w' H. unfold on_backend, mbind, outcome_bind in H.
  destruct (m _) as [[y s]|]; [|done]. by injection H as <- <-.
Qed.
Lemma quiet_on_timers {X} (m : M TimerMgr X) : quiet (on_world (on_timers m)).
Proof using.
  apply quiet_on_world. intros w x w' H. unfold on_timers, mbind, outcome_bind in H.
  destruct (m _) as [[y s]|]; [|done]. by injection H as <- <-.
Qed.
Lemma quiet_on_dispatcher {X} (m : M Dispatcher X) : quiet (on_dispatcher (P := P) (C := C) (A := A) m).
Proof using.
  intros t s b l k p y p' [H1 H2 H3 H4 H5] H. unfold on_dispatcher, mbind, outcome_bind in H.
  destruct (m _) as [[x d]|]; [|done]. by injection H as <- <-.
Qed.
Lemma quiet_on_setting {X} (m : M AppSetting X) : quiet (on_setting (P := P) (C := C) (A := A) m).
Proof using.
  intros t s b l k p y p' [H1 H2 H3 H4 H5] H. unfold on_setting, mbind, outcome_bind in H.
  destruct (m _) as [[x d]|]; [|done]. by injection H as <- <-.
Qed.
Lemma quiet_fault {X} (m : M (Process C A) X) : (forall p x p', m p <> Ok (x, p')) -> quiet m.
Proof using. intros H t s b l k p y p' _ E1. by apply H in E1. Qed.
Lemma quiet_time : quiet (on_world (time_NULL (P := P) (C := C) (A := A))).
Proof using.
  apply quiet_on_world. intros w x w' H. by injection H as <- <-.
Qed.
Lemma quiet_cfg text : quiet (upd_handles (set_cfg text)).
Proof using. intros t s b l k p y p' [H1 H2 H3 H4 H5] [= <- <-]. by constructor. Qed.
Lemma quiet_sockin (K : Kernel) uri :
  quiet (on_world (lift (tcpsocket_str2sockin K uri))).
Proof using. apply quiet_on_world. intros w x w' [_ ->]%lift_Ok. done. Qed.
End Owning.

Ltac quiet_step :=
  lazymatch goal with
  | |- quiet (mret _) => apply quiet_ret
  | |- quiet get => apply quiet_get
  | |- quiet (modify _) => apply quiet_modify; done
  | |- quiet (get_setting _) => apply quiet_get_setting
  | |- quiet (on_world time_NULL) => apply quiet_time
  | |- quiet (on_world (on_frontend _)) => apply quiet_on_frontend
  | |- quiet (on_world (on_backend _)) => apply quiet_on_backend
  | |- quiet (on_world (on_timers _)) => apply quiet_on_timers
  | |- quiet (on_dispatcher _) => apply quiet_on_dispatcher
  | |- quiet (on_setting _) => apply quiet_on_setting
  | |- quiet (upd_handles (set_cfg _)) => apply quiet_cfg
  | |- quiet (frame _) => apply quiet_frame; done
  | |- quiet (_ ≫= _) => apply quiet_bind; [|intros ?]
  | |- quiet (if ?b then _ else _) => destruct b
  | |- quiet (match ?o with _ => _ end) => destruct o
  | |- quiet (assertb _) => unfold assertb
  | |- quiet (fail _) => apply quiet_fault; by intros
  end.
Ltac quiets := repeat (cbn zeta; quiet_step).

Section Resources.
Context {P : Protobuf} {C A : Type} {E : NetEnv C} {F : FrameEnv} {RA : RapidApp (App P C A)}.
Context {S : System} (_DEBUG : bool).
Implicit Types (p : Process C A).

Lemma quiet_SetPidFile : quiet (SetPidFile (P := P) (C := C) (A := A)).
Proof using. unfold SetPidFile, write_file. quiets. Qed.
Lemma quiet_GetRunningPid : quiet (GetRunningPid (P := P) (C := C) (A := A)).
Proof using. unfold GetRunningPid. quiets. Qed.
Lemma quiet_GetConfString f : quiet (GetConfString (P := P) (C := C) (A := A) f).
Proof using. unfold GetConfString. quiets. Qed.
Lemma quiet_MakeDaemon : quiet (MakeDaemon (P := P) (C := C) (A := A)).
Proof using. unfold MakeDaemon, quit. quiets. Qed.
Lemma quiet_SetResourceLimit n : quiet (SetResourceLimit (P := P) (C := C) (A := A) n).
Proof using. unfold SetResourceLimit. quiets. Qed.
Lemma quiet_send_signal pid sig : quiet (send_signal (P := P) (C := C) (A := A) pid sig).
Proof using. unfold send_signal. quiets. Qed.

(** The system has given a control socket that cannot be used. *)
Definition unusable : Prop :=
  0 <= sys_udp_socket /\ ((exists port, sys_udp_bind port = false) \/ sys_ctrl_bev = false).

(** What is owned after a call of the start: after a success this; otherwise something, with a
    stray descriptor more only when the control socket was no use. *)
Definition started (t s : Z) (b l k : bool) (ret : Z) p : Prop :=
  if ret =? 0 then owns t s b l k p
  else exists t' s' b' l' k', owns t' s' b' l' k' p /\ (s' = s \/ s' = s + 1 /\ unusable).
Definition stopped_or (t s : Z) (b l k : bool) (r : option Z) p : Prop :=
  match r with Some ret => started t s b l k ret p | None => True end.

Lemma started_ok t s b l k p : owns t s b l k p -> started t s b l k 0 p.
Proof using. done. Qed.
Lemma started_any t s b l k t' b' l' k' ret p : ret <> 0 -> owns t' s b' l' k' p -> started t s b l k ret p.
Proof using. intros Hr H. unfold started. destruct (Z.eqb_spec ret 0); [done|]. eauto 10. Qed.

Lemma quiet_started t s b l k (m : M (Process C A) Z) :
  quiet m -> triple (owns t s b l k) m (started t s b l k).
Proof using.
  intros Hm p r p' Hp H. pose proof (Hm t s b l k p r p' Hp H) as H1.
  unfold started. destruct (r =? 0); [exact H1|]. exists t, s, b, l, k. auto.
Qed.

Lemma SetFpsTimer_owns t s b l k :
  triple (owns t s b l k) (SetFpsTimer (P := P) (C := C) (A := A)) (started (t + 1) s b l k).
Proof using.
  unfold SetFpsTimer. destruct sys_event_new; cbn [negb].
  2: { apply triple_ret. intros p H. by eapply started_any. }
  eapply triple_bind with (mid := fun _ => owns (t + 1) s b l k).
  { intros p y p' [H1 H2 H3 H4 (H5 & H6 & H7 & H8 & H9)] [= <- <-]. constructor; try done.
    cbn. by rewrite H8. }
  intros _. eapply triple_bind; [apply quiet_get_setting|]. intros f.
  eapply triple_bind with (mid := fun _ => owns (t + 1) s b l k).
  { intros p y p' [H1 H2 H3 H4 H5] [= <- <-]. by constructor. }
  intros _. destruct sys_event_add; cbn [negb]; apply triple_ret; intros p H; [done|].
  by eapply started_any.
Qed.

Lemma SetCtrlSockFile_owns t s b l :
  triple (owns t s b l false) (SetCtrlSockFile (P := P) (C := C) (A := A) _DEBUG) (started t s b l true).
Proof using.
  unfold SetCtrlSockFile. eapply triple_bind; [apply quiet_get_setting|]. intros name. cbn zeta.
  destruct (Z.ltb_spec sys_udp_socket 0) as [Hneg|Hpos];
    [apply triple_ret; intros p Hp; by eapply started_any|].
  assert (Hstray : unusable -> triple (owns t (s + 1) b l false) (mret (-1)) (started t s b l true)).
  { intros Hu. apply triple_ret. intros p Hp. exists t, (s + 1), b, l, false. auto. }
  eapply triple_bind with (mid := fun _ => owns t (s + 1) b l false).
  { intros p y p' [H1 H2 H3 H4 (H5 & H6 & H7 & H8 & H9)] [= <- <-]. constructor; try done.
    repeat split; try done. cbn. rewrite H9. cbn. lia. }
  intros _. destruct (sys_udp_bind (ctrl_port name)) eqn:Eb; cbn [negb].
  2: { apply Hstray. split; [done|]. left. by exists (ctrl_port name). }
  destruct sys_ctrl_bev eqn:Ec; cbn [negb].
  2: { eapply triple_bind with (mid := fun _ => owns t (s + 1) b l false).
       - intros p y p' [H1 H2 H3 H4 H5] [= <- <-]. by constructor.
       - intros _. apply Hstray. split; [done|]. by right. }
  eapply triple_bind with (mid := fun _ p => exists p0, owns t (s + 1) b l false p0 /\
    upd_handles (set_keeper_handle true) p0 = Ok (tt, p)).
  { intros p [] p' Hp H. by exists p. }
  intros _. eapply triple_bind with (mid := fun _ => owns t s b l true).
  { intros p y p' (p0 & [H1 H2 H3 H4 (H5 & H6 & H7 & H8 & H9)] & [= <-]) [= <- <-].
    constructor; try done.
    repeat split; try done; cbn; rewrite ?H7, ?H9; cbn; lia. }
  intros _. apply quiet_started. unfold write_file. quiets.
Qed.

Lemma InitListener_owns t s b k :
  triple (owns t s b false k) (InitListenerServiceMode (P := P) (C := C) (A := A)) (started t s b true k).
Proof using.
  unfold InitListenerServiceMode. eapply triple_bind; [apply quiet_get_setting|]. intros uri.
  eapply triple_bind; [apply quiet_sockin|]. intros [sa|].
  2: { apply triple_ret. intros p H. by eapply started_any. }
  destruct (sys_listen sa); cbn [negb].
  2: { eapply triple_bind with (mid := fun _ => owns t s b false k).
       - intros p y p' [H1 H2 H3 H4 H5] [= <- <-]. by constructor.
       - intros _. apply triple_ret. intros p H. by eapply started_any. }
  eapply triple_bind with (mid := fun _ p => exists p0, owns t s b false k p0 /\
    upd_handles (set_listener_handle true) p0 = Ok (tt, p)).
  { intros p [] p' Hp H. by exists p. }
  intros _. eapply triple_bind with (mid := fun _ => owns t s b true k).
  { intros p y p' (p0 & [H1 H2 H3 H4 (H5 & H6 & H7 & H8 & H9)] & [= <-]) [= <- <-].
    constructor; try done. cbn. by rewrite H6. }
  intros _. apply quiet_started. quiets.
Qed.

(** The sequence goes on only after a success. *)
Lemma then_owns t s b l k t' b' l' k' pre (m : M (Process C A) Z) (K : M (Process C A) (option Z)) :
  triple pre m (started t s b l k) -> triple (owns t s b l k) K (stopped_or t' s b' l' k') ->
  triple pre (then_ m K) (stopped_or t' s b' l' k').
Proof using.
  intros Hm HK p r p' Hp H. unfold then_ in H. apply bind_Ok in H as (ret & p1 & H1 & H2).
  pose proof (Hm p ret p1 Hp H1) as H3. unfold started in H3.
  destruct (ret =? 0); cbn [negb] in H2; [exact (HK p1 r p' H3 H2)|].
  injection H2 as <- <-. exact H3.
Qed.
Lemma quiet_then t s b l k t' b' l' k' (m : M (Process C A) Z) (K : M (Process C A) (option Z)) :
  quiet m -> triple (owns t s b l k) K (stopped_or t' s b' l' k') ->
  triple (owns t s b l k) (then_ m K) (stopped_or t' s b' l' k').
Proof using. intros Hm HK. eapply then_owns; [by apply quiet_started|done]. Qed.
Lemma quiet_next {X Y} t s b l k (m : M (Process C A) X) (f : X -> M (Process C A) Y) post :
  quiet m -> (forall x, triple (owns t s b l k) (f x) post) -> triple (owns t s b l k) (m ≫= f) post.
Proof using. intros Hm Hf. eapply triple_bind; [apply Hm|done]. Qed.

Lemma InitNormalMode_owns t s f :
  triple (owns t s false false false) (InitNormalMode _DEBUG f) (stopped_or (t + 1) s true true true).
Proof using.
  assert (Hfail : forall t s b l k, triple (owns t s b l k) (mret (Some (-1)))
    (stopped_or (t + 1) s true true true)).
  { intros t0 s0 b l k. apply triple_ret. intros p H. exists t0, s0, b, l, k. auto. }
  unfold InitNormalMode. apply quiet_next.
  { destruct (FLAGS_daemon f); [apply quiet_MakeDaemon|quiets]. }
  intros goes_on. destruct (negb goes_on); [by apply triple_ret|].
  apply quiet_then; [apply quiet_GetConfString|]. apply quiet_then; [apply quiet_SetPidFile|].
  apply quiet_next; [unfold InitSignalHandle; quiets|]. intros _.
  apply quiet_then; [destruct _DEBUG; [quiets|apply quiet_SetResourceLimit]|].
  destruct (negb sys_event_base).
  { apply triple_ret. intros p H. exists t, s, false, false, false. auto. }
  eapply triple_bind with (mid := fun _ p => exists p0, owns t s false false false p0 /\
    upd_live (bases_by 1) p0 = Ok (tt, p)).
  { intros p [] p' Hp H. by exists p. }
  intros _. eapply triple_bind with (mid := fun _ => owns t s true false false).
  { intros p y p' (p0 & [H1 H2 H3 H4 (H5 & H6 & H7 & H8 & H9)] & [= <-]) [= <- <-].
    constructor; try done. cbn. by rewrite H5. }
  intros _. eapply then_owns; [apply SetFpsTimer_owns|].
  apply quiet_next; [quiets|]. intros _.
  eapply then_owns; [apply SetCtrlSockFile_owns|].
  eapply then_owns; [apply InitListener_owns|].
  do 3 (apply quiet_then; [quiets|]).
  apply quiet_next; [quiets|]. intros _.
  destruct (negb sys_scheduler).
  { apply triple_ret. intros p H. exists (t + 1), s, true, true, true. auto. }
  apply quiet_next; [quiets|]. intros now. apply quiet_next; [quiets|]. intros _.
  by apply triple_ret.
Qed.

Lemma Init_owns t s app_null argc argv0 f :
  triple (owns t s false false false) (Init _DEBUG app_null argc argv0 f)
    (stopped_or (t + 1) s true true true).
Proof using.
  assert (Hfail : triple (owns t s false false false) (mret (Some (-1)))
    (stopped_or (t + 1) s true true true)).
  { apply triple_ret. intros p H. exists t, s, false, false, false. auto. }
  assert (Hexit : forall pid sig, triple (owns t s false false false)
    (if -1 =? pid then _ ← quit (-1); mret None
     else _ ← (if negb (pid =? 0) then send_signal pid sig else mret tt); _ ← quit 0; mret None)
    (stopped_or (t + 1) s true true true)).
  { intros pid sig. destruct (-1 =? pid).
    - apply quiet_next; [unfold quit; quiets|]. intros _. by apply triple_ret.
    - apply quiet_next; [destruct (negb _); [apply quiet_send_signal|quiets]|]. intros _.
      apply quiet_next; [unfold quit; quiets|]. intros _. by apply triple_ret. }
  unfold Init. destruct app_null; [done|].
  apply quiet_next; [quiets|]. intros _. apply quiet_next; [quiets|]. intros _.
  apply quiet_next; [quiets|]. intros ret. destruct (negb _); [done|].
  apply quiet_next; [quiets|]. intros md.
  destruct (md =? APP_STOP); [apply quiet_next; [apply quiet_GetRunningPid|]; intros pid; apply Hexit|].
  destruct (md =? APP_RESTART).
  { apply quiet_next; [apply quiet_GetRunningPid|]. intros pid. destruct (-1 =? pid).
    - apply quiet_next; [unfold quit; quiets|]. intros _. by apply triple_ret.
    - apply quiet_next; [destruct (negb _); [apply quiet_send_signal|quiets]|]. intros _.
      apply InitNormalMode_owns. }
  destruct (md =? APP_RELOAD); [apply quiet_next; [apply quiet_GetRunningPid|]; intros pid; apply Hexit|].
  apply InitNormalMode_owns.
Qed.

(** Everything but the frame timers and the stray descriptors is given back. *)
Definition released (t s : Z) p : Prop :=
  bases (live p) = 0 /\ listeners (live p) = 0 /\ ctrl_bevs (live p) = 0 /\
  timer_events (live p) = t /\ ctrl_fds (live p) = s.

Lemma CleanUp_owns t s b l k :
  triple (owns t s b l k) CleanUp
    (fun _ p => released t s p /\ has_been_cleanup_ (handles (rest (world p))) = true).
Proof using.
  unfold CleanUp.
  do 5 (apply quiet_next; [quiets|]; intros _).
  eapply triple_bind with (mid := fun _ => owns t s b false k).
  { intros p y p' [H1 H2 H3 H4 (H5 & H6 & H7 & H8 & H9)] H. unfold release in H.
    apply bind_Ok in H as (h & p1 & [= <- <-] & H). rewrite H2 in H. destruct l; [|by injection H as <- <-].
    injection H as <- <-. constructor; try done. cbn. by rewrite H6. }
  intros _. eapply triple_bind with (mid := fun _ => owns t s b false false).
  { intros p y p' [H1 H2 H3 H4 (H5 & H6 & H7 & H8 & H9)] H. unfold release in H.
    apply bind_Ok in H as (h & p1 & [= <- <-] & H). rewrite H3 in H. destruct k; [|by injection H as <- <-].
    injection H as <- <-. constructor; try done.
    repeat split; try done; cbn; rewrite ?H7, ?H9; cbn; lia. }
  intros _. eapply triple_bind with (mid := fun _ => owns t s b false false).
  { intros p y p' Ho H. unfold release in H.
    apply bind_Ok in H as (h & p1 & [= <- <-] & H). rewrite (proj1 (ow_timer _ _ _ _ _ _ Ho)) in H.
    injection H as <- <-. destruct Ho. by constructor. }
  intros _ p y p' [H1 H2 H3 H4 (H5 & H6 & H7 & H8 & H9)] H.
  apply bind_Ok in H as (base & p1 & [= <- <-] & H). rewrite H1 in H.
  destruct b; injection H as <- <-; (split; [|done]); repeat split; try done; cbn; by rewrite ?H5.
Qed.

Lemma delete_owns t s b l k (q : Process C A) u q' :
  owns t s b l k q -> AppFrameWork_delete q = Ok (u, q') -> released t s q'.
Proof using.
  intros Hq Hq'. unfold AppFrameWork_delete in Hq'.
  apply bind_Ok in Hq' as (h & q1 & [= <- <-] & Hq'). rewrite (proj2 (ow_timer _ _ _ _ _ _ Hq)) in Hq'.
  cbn [negb] in Hq'. apply bind_Ok in Hq' as (z & q2 & Hc & [= _ <-]).
  refine (proj1 (CleanUp_owns t s b l k _ _ _ _ Hc)). destruct Hq. by constructor.
Qed.

Lemma quiet_MainLoop (dispatch : M (Process C A) unit) :
  quiet dispatch -> quiet (MainLoop _DEBUG dispatch).
Proof using.
  intros Qd. unfold MainLoop. apply quiet_bind; [apply quiet_on_world; by intros w x w' [= _ <-]|].
  intros base. quiets. done.
Qed.

(** A control socket that was opened and is no use stays open. *)
Lemma SetCtrlSockFile_strays p :
  let port := ctrl_port (ctrl_sock_file_name (setting_ (rest (world p)))) in
  0 <= sys_udp_socket -> sys_udp_bind port && sys_ctrl_bev = false ->
  exists p', SetCtrlSockFile _DEBUG p = Ok (-1, p') /\ live p' = ctrl_fds_by 1 (live p) /\
    udp_ctrl_keeper_ (handles (rest (world p')))
    = (if sys_udp_bind port then false else udp_ctrl_keeper_ (handles (rest (world p)))).
Proof using.
  intros port Hs Hb. unfold SetCtrlSockFile.
  rewrite (bind_step _ _ _ _ _ (get_setting_step ctrl_sock_file_name p)). cbv zeta. fold port.
  destruct (Z.ltb_spec sys_udp_socket 0); [lia|].
  rewrite (bind_step (upd_live _) _ p tt _) by done.
  destruct (sys_udp_bind port); cbn [andb negb] in *; [rewrite Hb|]; by eexists.
Qed.
End Resources.

(** ** Properties *)

(** C33: [cmdline_settings]. The command line is accepted exactly when at most one of the modes
    is asked for, every name fits into its array and there is a frame rate; then the
    settings are those of the flags, with the names of the pid and control files made
    from the program's when they are not given, and every string is terminated within
    its array. *)
Theorem cmdline_settings f argv0 s :
  exists r s', ParseCmdLine f argv0 s = Ok (r, s') /\
    (r = 0 \/ r = -1) /\ (r = 0 <-> accepted f argv0 = true) /\
    (r = 0 -> s' = settings_of f argv0 /\ setting_wf s').
Proof.
  destruct (ParseCmdLine_ok f argv0 s) as (s' & E & H). eexists _, s'. split; [exact E|].
  destruct (accepted f argv0) eqn:Ea; (split; [auto|]); (split; [done|]); intros Hr; [|done].
  rewrite (H eq_refl). split; [done|by apply accepted_wf].
Qed.

(** C32: [stop_reaches_server]. A server that has written its number can be stopped: a second
    process with [--stop] and the same pid file reads exactly that number back, sends it
    the stop signal and exits with 0, leaving the files and the locks alone. *)
Theorem stop_reaches_server {P : Protobuf} {C A} {E : NetEnv C} {F : FrameEnv}
    {RA : RapidApp (App P C A)} (Server Stopper : System) _DEBUG argc argv0 f
    (p1 p1' p2 : Process C A) :
  SetPidFile (S := Server) p1 = Ok (0, p1') ->
  let n := sys_pid (System := Server) in
  let name := pid_file_name (setting_ (rest (world p1))) in
  0 < n < 2147483648 -> n <> sys_pid (System := Stopper) ->
  0 < argc -> accepted f argv0 = true -> FLAGS_stop f = true ->
  name_of (FLAGS_pid_file f) argv0 PID_SUFFIX = name -> machine p2 = machine p1' ->
  sys_fopen (System := Stopper) name = true -> sys_cloexec (System := Stopper) name <> -1 ->
  exists p2', Init (S := Stopper) _DEBUG false argc argv0 f p2 = Ok (None, p2') /\
    exited p2' = Some 0 /\
    machine p2' = {| files := files (machine p1'); locks := locks (machine p1');
                     kills := kills (machine p1') ++ [(n, SIGUSR1)] |}.
Proof.
  intros H1 n name Hn Hne Hargc Hacc Hstop Hname Hm Ho Hc.
  pose proof (SetPidFile_run p1 p1' H1) as Hrun.
  rewrite Init_accepted by done. unfold mode_of, Init_mode. rewrite Hstop.
  change (APP_STOP =? APP_STOP) with true. cbn iota.
  assert (Hname' : pid_file_name (setting_ (rest (world (configured f argv0 p2)))) = name) by done.
  rewrite (bind_step _ _ _ n (configured f argv0 p2)).
  2: { apply GetRunningPid_server; rewrite ?Hname'; try done. cbn [configured machine set_world].
       by rewrite Hm. }
  replace (-1 =? n) with false by lia. replace (n =? 0) with false by lia. cbn [negb].
  eexists. split; [done|]. split; [done|]. cbn. by rewrite Hm.
Qed.

(** [--restart] does not wait for the server it stops: as long as the
    old process holds the lock, the new one has sent the stop signal, fails to write its
    own pid file and gives up, so no server is left. *)
Theorem restart_stops_only {P : Protobuf} {C A} {E : NetEnv C} {F : FrameEnv}
    {RA : RapidApp (App P C A)} {S : System} _DEBUG argc argv0 f (p : Process C A) n :
  let name := name_of (FLAGS_pid_file f) argv0 PID_SUFFIX in
  server_runs name n (machine p) -> 0 < n < 2147483648 -> n <> sys_pid ->
  0 < argc -> accepted f argv0 = true -> FLAGS_stop f = false -> FLAGS_restart f = true ->
  FLAGS_daemon f = false -> FLAGS_cfg_file f = [] ->
  sys_fopen name = true -> sys_cloexec name <> -1 ->
  exists p', Init _DEBUG false argc argv0 f p = Ok (Some (-1), p') /\
    kills (machine p') = kills (machine p) ++ [(n, SIGUSR1)] /\
    locks (machine p') = locks (machine p) /\ live p' = live p /\ exited p' = exited p.
Proof.
  intros name Hrun Hn Hne Hargc Hacc Hstop Hre Hd Hcfg Ho Hc.
  rewrite Init_accepted by done. unfold mode_of, Init_mode. rewrite Hstop, Hre.
  change (APP_RESTART =? APP_STOP) with false. change (APP_RESTART =? APP_RESTART) with true. cbn iota.
  set (q := configured f argv0 p).
  assert (Hname : pid_file_name (setting_ (rest (world q))) = name) by done.
  rewrite (bind_step _ _ q n q) by (apply GetRunningPid_server; rewrite ?Hname; done).
  replace (-1 =? n) with false by lia. replace (n =? 0) with false by lia. cbn [negb].
  rewrite (bind_step (send_signal _ _) _ q tt
    (set_machine {| files := files (machine q); locks := locks (machine q);
                    kills := kills (machine q) ++ [(n, SIGUSR1)] |} q)) by done.
  set (q1 := set_machine _ q).
  unfold InitNormalMode. rewrite Hd. rewrite (bind_step (mret true) _ q1 true q1) by done.
  cbn [negb]. unfold then_ at 1. rewrite (bind_step _ _ q1 0 q1).
  2: { unfold GetConfString. by rewrite Hcfg. }
  cbn [Z.eqb negb]. unfold then_ at 1.
  set (q2 := set_machine (set_files (<[name := default [] (files (machine q1) !! name)]>
                (files (machine q1))) (machine q1)) q1).
  rewrite (bind_step _ _ q1 (-1) q2).
  2: { unfold SetPidFile. rewrite (bind_step _ _ _ _ _ (get_setting_step pid_file_name q1)).
       change (pid_file_name (setting_ (rest (world q1)))) with name. rewrite Ho. cbn [negb].
       rewrite (bind_step get _ q1 q1 q1) by done.
       rewrite (bind_step (write_file _ _) _ q1 tt q2) by done.
       replace (-1 =? sys_cloexec name) with false by lia.
       change (locks (machine q1) !! name) with (locks (machine p) !! name).
       rewrite (proj2 Hrun). by replace (n =? sys_pid) with false by lia. }
  cbn [Z.eqb negb]. eexists. split; [done|]. by repeat split.
Qed.

(** C31: [resources_released]. Whatever the system answers, a launcher that comes back has given
    back the event base, the listener and the bufferevent of the control socket, on every path
    of errors and after a successful run; after a successful run one frame timer is left, since
    its event was never stored in the member that [CleanUp] frees.  The descriptor of the
    control socket is closed as well, with an exception the last clause makes exact: when the
    socket could be opened but not bound, or no bufferevent was made for it,
    [SetCtrlSockFile] fails and leaves it open with no member to close it by, and the launcher
    that fails so comes back with that one descriptor.  The callbacks of the application leave
    the handles of the framework alone; the file streams are not counted. *)
Theorem resources_released {P : Protobuf} {C A} {E : NetEnv C} {F : FrameEnv}
    {RA : RapidApp (App P C A)} {S : System} _DEBUG (dispatch : M (Process C A) unit) OnInit OnFini
    app_null argv_null argc argv0 f (p p' : Process C A) r t s :
  quiet dispatch -> quiet OnInit -> quiet OnFini -> released t s p ->
  launch _DEBUG dispatch OnInit OnFini app_null argv_null argc argv0 f p = Ok (Some r, p') ->
  (r = 0 /\ released (t + 1) s p' \/
   r = -1 /\ exists t' s', released t' s' p' /\ (s' = s \/ s' = s + 1 /\ unusable)) /\
  forall q : Process C A,
    let port := ctrl_port (ctrl_sock_file_name (setting_ (rest (world q)))) in
    0 <= sys_udp_socket -> sys_udp_bind port && sys_ctrl_bev = false ->
    exists q', SetCtrlSockFile _DEBUG q = Ok (-1, q') /\
      live q' = ctrl_fds_by 1 (live q) /\
      udp_ctrl_keeper_ (handles (rest (world q')))
      = (if sys_udp_bind port then false else udp_ctrl_keeper_ (handles (rest (world q)))).
Proof.
  intros Qd Qi Qf Hrel H. split; [|by intros; apply SetCtrlSockFile_strays].
  unfold launch in H. apply bind_Ok in H as (ro & p1 & HR & H). unfold Run in HR.
  assert (Hnone : r = -1 -> p' = p -> r = 0 /\ released (t + 1) s p' \/
    r = -1 /\ exists t' s', released t' s' p' /\ (s' = s \/ s' = s + 1 /\ unusable)).
  { intros -> ->. right. split; [done|]. exists t, s. auto. }
  destruct app_null; [injection HR as <- <-; by injection H as <- <-; apply Hnone|].
  cbn [orb] in H. destruct ((argc <=? 0) || argv_null);
    [injection HR as <- <-; by injection H as <- <-; apply Hnone|].
  apply bind_Ok in HR as (u & p0 & Hnew & HR). injection Hnew as _ <-.
  match type of HR with _ ?q = _ => assert (Ho : owns t s false false false q) end.
  { destruct Hrel as (R1 & R2 & R3 & R4 & R5). by constructor. }
  apply bind_Ok in HR as (ri & p2 & HI & HR).
  pose proof (Init_owns _DEBUG t s false argc argv0 f _ _ _ Ho HI) as HO.
  assert (Hfail : forall q : Process C A, (exists t' s' b l k, owns t' s' b l k q /\
      (s' = s \/ s' = s + 1 /\ unusable)) -> (_ ← AppFrameWork_delete; mret (Some (-1))) q = Ok (Some r, p') ->
    r = -1 /\ exists t' s', released t' s' p' /\ (s' = s \/ s' = s + 1 /\ unusable)).
  { intros q (t0 & s0 & b & l & k & Hq & Hs) Hq'. apply bind_Ok in Hq' as (u1 & q1 & H1 & [= <- <-]).
    split; [done|]. exists t0, s0. split; [by apply (delete_owns t0 s0 b l k q _ _ Hq H1)|done]. }
  destruct ri as [ret|]; [|by injection HR as <- <-]. cbn [stopped_or] in HO. unfold started in HO.
  destruct (ret =? 0); cbn [negb] in HR; [|injection HR as <- <-; right; by apply (Hfail p2)].
  apply bind_Ok in HR as (ret2 & p3 & H3 & HR). pose proof (Qi _ _ _ _ _ _ _ _ HO H3) as HO3. cbn in HO3.
  destruct (ret2 =? 0); cbn [negb] in HR.
  2: { injection HR as <- <-. right. apply (Hfail p3); [|done]. exists (t + 1), s, true, true, true. auto. }
  apply bind_Ok in HR as (u4 & p4 & H4 & HR).
  pose proof (quiet_MainLoop _DEBUG dispatch Qd _ _ _ _ _ _ _ _ HO3 H4) as HO4. cbn in HO4.
  apply bind_Ok in HR as (u5 & p5 & H5 & HR). pose proof (Qf _ _ _ _ _ _ _ _ HO4 H5) as HO5. cbn in HO5.
  apply bind_Ok in HR as (u6 & p6 & H6 & [= <- <-]).
  destruct (CleanUp_owns _ _ _ _ _ _ _ _ HO5 H6) as [Hr Hcl].
  apply bind_Ok in H as (u7 & p7 & H7 & [= <- <-]). unfold AppFrameWork_delete in H7.
  apply bind_Ok in H7 as (h & q1 & [= <- <-] & H7). rewrite Hcl in H7. injection H7 as _ <-.
  by left.
Qed.

(** ** A concrete machine *)

Definition quiet_system (pid : Z) : System := {|
  sys_pid := pid; sys_fork _ := 0; sys_setsid := pid; sys_fopen _ := true; sys_cloexec _ := 0;
  sys_getrlimit := Some 65536; sys_setrlimit _ := true; sys_conf := Some [];
  sys_udp_socket := 5; sys_udp_bind _ := true; sys_event_base := true; sys_event_new := true;
  sys_event_add := true; sys_ctrl_bev := true; sys_listen _ := true; sys_front_buffer := true;
  sys_back_buffer := true; sys_scheduler := true |}.
Definition no_live : Live :=
  {| bases := 0; timer_events := 0; listeners := 0; ctrl_bevs := 0; ctrl_fds := 0; tv_usec := None |}.
Definition fresh_process (s : AppSetting) (m : Machine) : Process Z (list bytes) :=
  let w := demo_world (@Heap_new Z) NetHandlerMgr_new NetHandlerMgr_new TimerMgr_new in
  {| world := set_rest (set_setting s (AppFrameWork_new false false 0 [])) w;
     ctrl_dispatcher_ := Dispatcher_new; machine := m; live := no_live; handlers_set := false;
     exited := None |}.
Definition app_name : bytes := bytes_of_string "svr"%string.
Definition app_flags (stop restart : bool) : Flags := {|
  FLAGS_uri := bytes_of_string "tcp://127.0.0.1:8888?rpc"%string; FLAGS_log_file := [];
  FLAGS_fps := 1000; FLAGS_max_idle := -1; FLAGS_max_pkg_speed := -1;
  FLAGS_max_traffic_speed := -1; FLAGS_pid_file := []; FLAGS_ctrl_file := [];
  FLAGS_daemon := false; FLAGS_stop := stop; FLAGS_restart := restart; FLAGS_reload := false;
  FLAGS_cfg_file := [] |}.
Definition empty_machine : Machine := {| files := ∅; locks := ∅; kills := [] |}.
Definition pid_name : bytes := app_name ++ PID_SUFFIX.
Definition server_machine : Machine :=
  {| files := {[ pid_name := dec 4711 ++ [10] ]}; locks := {[ pid_name := 4711 ]}; kills := [] |}.

Lemma stop_reaches_server_witness :
  exists p2', Init (E := easy_env) (S := quiet_system 815) true false 2 app_name (app_flags true false)
      (fresh_process (settings_of (app_flags true false) app_name) server_machine) = Ok (None, p2') /\
    exited p2' = Some 0 /\ kills (machine p2') = [(4711, SIGUSR1)].
Proof.
  set (s := settings_of (app_flags false false) app_name).
  destruct (stop_reaches_server (E := easy_env) (quiet_system 4711) (quiet_system 815) true 2 app_name
    (app_flags true false) (fresh_process s empty_machine) (fresh_process s server_machine)
    (fresh_process (settings_of (app_flags true false) app_name) server_machine))
    as (p2' & E & Hx & Hm); try done.
  exists p2'. split; [exact E|]. split; [exact Hx|]. by rewrite Hm.
Defined.

Lemma restart_stops_only_witness :
  exists p', Init (E := easy_env) (S := quiet_system 815) true false 2 app_name (app_flags false true)
      (fresh_process (settings_of (app_flags false true) app_name) server_machine) = Ok (Some (-1), p') /\
    kills (machine p') = [(4711, SIGUSR1)] /\ locks (machine p') = {[ pid_name := 4711 ]} /\
    live p' = no_live /\ exited p' = None.
Proof.
  apply (restart_stops_only (E := easy_env) (S := quiet_system 815) true 2 app_name
    (app_flags false true)
    (fresh_process (settings_of (app_flags false true) app_name) server_machine) 4711); done.
Defined.

Definition demo_launch : outcome (option Z * Process Z (list bytes)) :=
  launch (E := easy_env) (S := quiet_system 815) true (mret tt) (mret 0) (mret 0) false false 2
    app_name (app_flags false false) (fresh_process (quiet_setting (-1)) empty_machine).
Definition demo_end : Process Z (list bytes) :=
  match demo_launch with Ok (_, p) => p | Fault _ => fresh_process (quiet_setting (-1)) empty_machine end.
Lemma demo_launch_ok :
  launch (E := easy_env) (S := quiet_system 815) true (mret tt) (mret 0) (mret 0) false false 2
    app_name (app_flags false false) (fresh_process (quiet_setting (-1)) empty_machine)
  = Ok (Some 0, demo_end).
Proof. vm_compute. reflexivity. Qed.

(** The same launch on a system where another process has the port of the control socket. *)
Definition taken_port : System := {|
  sys_pid := 815; sys_fork _ := 0; sys_setsid := 815; sys_fopen _ := true; sys_cloexec _ := 0;
  sys_getrlimit := Some 65536; sys_setrlimit _ := true; sys_conf := Some [];
  sys_udp_socket := 5; sys_udp_bind _ := false; sys_event_base := true; sys_event_new := true;
  sys_event_add := true; sys_ctrl_bev := true; sys_listen _ := true; sys_front_buffer := true;
  sys_back_buffer := true; sys_scheduler := true |}.
Lemma stray_launch :
  match launch (E := easy_env) (S := taken_port) true (mret tt) (mret 0) (mret 0) false false 2
    app_name (app_flags false false) (fresh_process (quiet_setting (-1)) empty_machine) with
  | Ok (r, p) => r = Some (-1) /\ released 1 1 p
  | Fault _ => False
  end.
Proof. vm_compute. by repeat split. Qed.

Lemma resources_released_witness : released 1 0 demo_end.
Proof.
  pose proof (resources_released (E := easy_env) (S := quiet_system 815) true (mret tt) (mret 0)
    (mret 0) false false 2 app_name (app_flags false false)
    (fresh_process (quiet_setting (-1)) empty_machine) demo_end 0 0 0 (quiet_ret tt) (quiet_ret 0)
    (quiet_ret 0)) as H.
  destruct H as [[[_ H]|[H _]] _]; [by repeat split|exact demo_launch_ok|exact H|discriminate H].
Defined.
