(* ===== verification/MsgLoop.v ===== *)
(** * Messages out of the byte streams: OnFrontEndMsg, OnFrontEndRpcMsg and OnBackEndMsg
    of framework/rapidapp_framework_imp.cpp

    When bytes arrive on a connection the framework copies what is queued to the
    buffer of the table, cuts it into messages at the lengths in front of them, and
    hands each message to the application, to the service of its name or to the call
    it answers. *)
From Stdlib Require Import ZArith Lia.
From stdpp Require Import base list gmap fin_maps.
From S2P Require Import Prelude CLib TcpSocket Timer Coroutine EasyNet NetMgr RpcMsg EasyRpc.
From S2P Require Import Framework.
Local Open Scope Z_scope.

(** ** Cutting *)

(** [AppFrameWork::GetMsgLength], src/framework/rapidapp_framework_imp.h:174-183

    The [int] that the 32 bits in network byte order become. *)
Definition GetMsgLength (buff : bytes) (off size : Z) : outcome Z :=
  if size <? 4 then mret 0
  else d ← mem_read buff off 4; mret (i32 (ntohl (load32 d))).

Section Messages.
Context {P : Protobuf} {R : RpcEnv P} {IS : IRpcService} {C A : Type}.
Context {E : NetEnv C} {HO : HashOrder} {F : FrameEnv} {RA : RapidApp (App P C A)}.
Abbreviation Mw := (M (App P C A)).
Abbreviation prog := (code (App P C A)).

(** [evbuffer_copyout]: the bytes at the front of what is queued, at most the size of
    the buffer, are copied to the front of the buffer. *)
Definition evbuffer_copyout (b : Z) (rb : RapBuffer) : Mw (Z * RapBuffer) :=
  x ← on_net (load_bev b);
  let data := take (Z.to_nat (size rb)) (input x) in
  match buffer rb, data with
  | _, [] => mret (0, rb)
  | None, _ :: _ => fail NullDeref
  | Some buf, _ =>
      buf' ← lift (mem_write buf 0 data);
      mret (blen data, {| buffer := Some buf'; size := size rb |})
  end.

(** [evbuffer_drain] *)
Definition evbuffer_drain (b : Z) (n : Z) : Mw unit :=
  x ← on_net (load_bev b);
  on_net (modify (fun h => set_bevs (<[b := {| bev_fd := bev_fd x;
                                               input := drop (Z.to_nat n) (input x);
                                               output := output x |}]> (bevs h)) h)).

(** The buffer of a table. *)
Definition recv_bytes (rb : RapBuffer) : Mw bytes := nonnull (buffer rb).

(** The loops of [OnFrontEndMsg] and [OnBackEndMsg], which differ in what they do with
    a message: [body] gets the message and the code behind it.  [mgr_of] is the table
    whose buffer is read. *)
Fixpoint frame_loop (fuel : nat) (mgr_of : AppFrameWork A -> NetHandlerMgr)
    (msg_size elapsed_msglen : Z) (body : bytes -> prog -> prog) (k : Z -> prog) : prog :=
  match fuel with
  | O => Act (fail Diverges : Mw unit) (fun _ => k elapsed_msglen)
  | S f =>
      if msg_size <=? elapsed_msglen then k elapsed_msglen
      else
        Act (m ← fw mgr_of; buf ← recv_bytes (recv_buffer_ m);
             n ← lift (GetMsgLength buf elapsed_msglen (msg_size - elapsed_msglen));
             mret (u64 n)) (fun msglen =>
        if (msglen =? 0) || (msg_size - elapsed_msglen <? msglen) then k elapsed_msglen
        else
          Act (m ← fw mgr_of; buf ← recv_bytes (recv_buffer_ m);
               lift (mem_read buf (elapsed_msglen + 4) (u64 (msglen - 4)))) (fun data =>
          body data (frame_loop f mgr_of msg_size (elapsed_msglen + msglen) body k)))
  end.

(** ** Requests *)

(** [AppFrameWork::OnFrontEndRpcMsg], src/framework/rapidapp_framework_imp.cpp:1034-1040

    [rpc_svc_obj->NewResponse()]; the service decides whether there is one. *)
Definition new_response (svc : Z) : Mw (option Message) :=
  match NewResponse svc with
  | None => mret None
  | Some resp => _ ← on_gen (modify (count_responses 1)); mret (Some resp)
  end.

(** [AppFrameWork::OnFrontEndRpcMsg], src/framework/rapidapp_framework_imp.cpp:1006-1064 *)
Definition OnFrontEndRpcMsg (easy_net : option Z) (data : bytes) (k : Z -> prog) : prog :=
  Act (on_gen (SpawnMessage (Some data))) (fun req =>
  match req with
  | None => k (-1)
  | Some m =>
      Act (fw rpc_svc_mgr_) (fun svc_mgr =>
      match svc_mgr with
      | None => k (-1)
      | Some t =>
          let release := Act (on_gen (ReleaseMessage req)) (fun _ => k 0) in
          match GetRpcService t (GetTypeName m) with
          | None => release
          | Some svc =>
              Act (new_response svc) (fun resp =>
              match resp with
              | None => release
              | Some _ =>
                  let drop := Act delete_response (fun _ => release) in
                  Act EasyRpcClosure_new (fun closure =>
                  match closure with
                  | None => drop
                  | Some c =>
                      Act (w ← get; Closure_Set c easy_net (asyncid (rpc_msg_ (gen w))) req
                                      resp) (fun r =>
                      if negb (r =? 0) then
                        Act (modify (fun w => set_closures (delete c (closures w)) w) : Mw unit)
                          (fun _ => drop)
                      else OnRpcCall svc c (k 1))
                  end)
              end)
          end
      end)
  end).

(** ** Arrivals *)

(** The copy of the queued bytes and the lookup of the connection, which both handlers
    begin with. *)
Definition copy_frontend (bev : Z) : Mw Z :=
  m ← fw frontend_handler_mgr_;
  '(n, rb) ← evbuffer_copyout bev (recv_buffer_ m);
  _ ← on_frontend (upd_mgr (set_recv rb));
  mret n.
Definition copy_backend (bev : Z) : Mw Z :=
  m ← fw backend_handler_mgr_;
  '(n, rb) ← evbuffer_copyout bev (recv_buffer_ m);
  _ ← on_backend (upd_mgr (set_recv rb));
  mret n.

(** [++(easy_net->curr_pkg_count_)] *)
Definition count_pkg (p : Z) : Mw unit :=
  on_net (upd_net p (fun n => set_pkg_counts (prev_pkg_count_ n) (u64 (curr_pkg_count_ n + 1)) n)).

(** The last lines of [OnFrontEndMsg]. *)
Definition consumed (bev p : Z) (elapsed_msglen : Z) : Mw unit :=
  _ ← evbuffer_drain bev elapsed_msglen;
  now ← fw now_;
  on_net (upd_net p (fun n => set_active_time now
    (set_traffic (prev_traffic_bytes_ n) (u64 (curr_traffic_bytes_ n + elapsed_msglen)) n))).

(** [AppFrameWork::OnFrontEndMsg], src/framework/rapidapp_framework_imp.cpp:1066-1147

    The loop has at most one round for each byte of the buffer. *)
Definition OnFrontEndMsg (bev : Z) (k : Z -> prog) : prog :=
  Act (a ← fw app_; assertb a) (fun _ =>
  Act (copy_frontend bev) (fun msg_size =>
  Act (on_frontend (GetHandlerByEvent (Some bev))) (fun easy_net =>
  match easy_net with
  | None => k (-1)
  | Some p =>
      Act (fw svc_mode_) (fun svc_mode =>
      let body data next :=
        if svc_mode =? SVC_MODE_RPC then
          OnFrontEndRpcMsg easy_net data (fun ret =>
          if ret <? 0 then
            Act (log_net p) (fun _ =>
            Act (on_frontend (RemoveHandler easy_net)) (fun _ => k (-1)))
          else Act (count_pkg p) (fun _ => next))
        else
          Act (net_type p) (fun type =>
          OnRecvFrontEnd p type data (fun _ => Act (count_pkg p) (fun _ => next))) in
      frame_loop (S (Z.to_nat msg_size)) frontend_handler_mgr_ msg_size 0 body (fun elapsed =>
      Act (consumed bev p elapsed) (fun _ => k 0)))
  end))).

(** [AppFrameWork::OnBackEndMsg], src/framework/rapidapp_framework_imp.cpp:1196-1267 *)
Definition OnBackEndMsg (bev : Z) (k : Z -> prog) : prog :=
  Act (a ← fw app_; assertb a) (fun _ =>
  Act (copy_backend bev) (fun msg_size =>
  Act (on_backend (GetHandlerByEvent (Some bev))) (fun easy_net =>
  match easy_net with
  | None => k (-1)
  | Some p =>
      let body data next :=
        Act (n ← on_net (load_net p);
             match rpc_binded_ n with
             | None => mret None
             | Some r => active ← IsActive r; mret (if (active : bool) then Some r else None)
             end) (fun rpc =>
        match rpc with
        | Some r => EasyRpc_Resume r (Some data) (fun _ => next)
        | None =>
            Act (net_type p) (fun type =>
            OnRecvBackEnd p type data (fun _ => next))
        end) in
      frame_loop (S (Z.to_nat msg_size)) backend_handler_mgr_ msg_size 0 body (fun elapsed =>
      Act (evbuffer_drain bev elapsed) (fun _ => k 0))
  end))).

End Messages.

(** ** The stream format *)

Definition frames (ms : list bytes) : bytes := List.concat (map frame ms).

(** A message whose length with its four bytes is an [int]. *)
Definition frame_ok (m : bytes) : Prop := blen m + 4 < 2147483648.

(** What is left in the buffer when the loop waits for more: less than a length, or less
    than the length says.  A length of 0 or of 2^31 and more is waited for as well. *)
Definition announced (l : bytes) : Z := u64 (i32 (ntohl (load32 l))).
Definition incomplete (l : bytes) : Prop :=
  blen l < 4 \/ announced l = 0 \/ blen l < announced l.

Lemma blen_app (l1 l2 : bytes) : blen (l1 ++ l2) = blen l1 + blen l2.
Proof. unfold blen. rewrite length_app. lia. Qed.
Lemma blen_nonneg (l : bytes) : 0 <= blen l.
Proof. unfold blen. lia. Qed.
Lemma blen_frame m : blen (frame m) = blen m + 4.
Proof. unfold frame. rewrite blen_app. change (blen (store32 _)) with 4. lia. Qed.
Lemma frames_cons m ms : frames (m :: ms) = frame m ++ frames ms.
Proof. done. Qed.
Lemma frames_app ms1 ms2 : frames (ms1 ++ ms2) = frames ms1 ++ frames ms2.
Proof. unfold frames. by rewrite map_app, concat_app. Qed.

Lemma announced_frame m l : frame_ok m -> announced (frame m ++ l) = blen m + 4.
Proof.
  unfold frame_ok. intros H. unfold announced, frame. rewrite <- app_assoc, ntohl_htonl.
  - pose proof (blen_nonneg m). rewrite i32_id by lia. apply u64_id. lia.
  - pose proof (blen_nonneg m). lia.
Qed.

(** The first [n] bytes decide about a length of four bytes. *)
Lemma announced_prefix l1 l2 : 4 <= blen l1 -> announced (l1 ++ l2) = announced l1.
Proof. intros H. unfold announced. rewrite load32_app; [done|]. unfold blen in H. lia. Qed.

Lemma GetMsgLength_at (pre l tail : bytes) :
  4 <= blen l ->
  GetMsgLength (pre ++ l ++ tail) (blen pre) (blen l) = Ok (i32 (ntohl (load32 l))).
Proof.
  intros H. unfold GetMsgLength. destruct (Z.ltb_spec (blen l) 4); [lia|].
  unfold mem_read. rewrite bool_decide_eq_true_2.
  2: { rewrite !blen_app. pose proof (blen_nonneg pre). pose proof (blen_nonneg tail). lia. }
  assert (Hs : slice (pre ++ l ++ tail) (blen pre) 4 = take 4 l).
  { unfold slice, blen in *. rewrite Nat2Z.id, drop_app_length. by rewrite take_app_le by lia. }
  rewrite Hs. cbn [mbind outcome_bind mret outcome_ret]. do 3 f_equal.
  rewrite <- (load32_app (take 4 l) (drop 4 l)); [by rewrite take_drop|].
  rewrite length_take. unfold blen in H. lia.
Qed.

Lemma mem_read_at (pre l tail : bytes) :
  mem_read (pre ++ l ++ tail) (blen pre) (blen l) = Ok l.
Proof.
  unfold mem_read. rewrite bool_decide_eq_true_2.
  2: { rewrite !blen_app. pose proof (blen_nonneg pre). pose proof (blen_nonneg l).
       pose proof (blen_nonneg tail). lia. }
  f_equal. unfold slice, blen. rewrite !Nat2Z.id, drop_app_length. by rewrite take_app_length.
Qed.

(** Where any part of a stream of messages ends: behind whole messages and before a
    part of the next one. *)
Lemma stream_prefix ms l r :
  Forall frame_ok ms -> l ++ r = frames ms ->
  exists ms1 ms2 part, ms = ms1 ++ ms2 /\ l = frames ms1 ++ part /\ part ++ r = frames ms2 /\
    incomplete part /\ (ms2 = [] -> part = []) /\
    (forall B, 0 < B -> Forall (fun m => blen (frame m) <= B) ms -> blen part < B).
Proof.
  intros Hok. revert l. induction Hok as [|m ms Hm Hok IH]; intros l E.
  - exists [], [], []. cbn in *. apply app_eq_nil in E as [-> ->]. repeat split; try done.
    + left. by vm_compute.
  - rewrite frames_cons in E. destruct (decide (blen (frame m) <= blen l)) as [Hle|Hlt].
    + assert (Hl : exists l', l = frame m ++ l').
      { exists (drop (length (frame m)) l). rewrite <- (take_drop (length (frame m)) l) at 1. f_equal.
        assert (take (length (frame m)) (l ++ r) = frame m) as Ht.
        { rewrite E. by rewrite take_app_length. }
        rewrite take_app_le in Ht by (unfold blen in Hle; lia). done. }
      destruct Hl as [l' ->]. rewrite <- app_assoc in E. apply app_inv_head in E.
      destruct (IH l' E) as (ms1 & ms2 & part & -> & -> & Hr & Hi & Hn & Hb).
      exists (m :: ms1), ms2, part. rewrite frames_cons, <- app_assoc.
      repeat (split; [done|]). intros B HB [_ HF]%Forall_cons. by apply Hb.
    + exists [], (m :: ms), l. repeat split; try done.
      * assert (Ha : 4 <= blen l -> announced l = blen m + 4).
        { intros H4. rewrite <- (announced_prefix l r H4), E. by apply announced_frame. }
        rewrite blen_frame in Hlt. unfold incomplete. destruct (Z.lt_ge_cases (blen l) 4); [by left|].
        right. right. rewrite Ha; lia.
      * intros B HB [Hf _]%Forall_cons. lia.
Qed.

Section LoopProofs.
Context {P : Protobuf} {C A : Type}.
Context (calloc : gmap Z (COROUTINECTX (App P C A)) -> option Z).
Context (mgr_of : AppFrameWork A -> NetHandlerMgr).
Context (body : bytes -> code (App P C A) -> code (App P C A)).
Implicit Types (s : CoroutineScheduler (App P C A)).

Abbreviation buffer_of s := (recv_buffer_ (mgr_of (rest (world s)))).

(** The messages are handled one after the other, and the buffer is not touched. *)
Inductive handled : list bytes -> CoroutineScheduler (App P C A) ->
    CoroutineScheduler (App P C A) -> Prop :=
  | handled_nil s : handled [] s s
  | handled_cons m ms s s1 s2 :
      (forall next, runs calloc (body m next) s next s1) -> buffer_of s1 = buffer_of s ->
      handled ms s1 s2 -> handled (m :: ms) s s2.

(** Reading the length, and then the bytes, at the place the loop has reached. *)
Lemma read_length s pre l tail k :
  buffer (buffer_of s) = Some (pre ++ l ++ tail) ->
  runs calloc
    (Act (m ← fw mgr_of; buf ← recv_bytes (recv_buffer_ m);
          n ← lift (GetMsgLength buf (blen pre) (blen l)); mret (u64 n)) k) s
    (k (if blen l <? 4 then 0 else announced l)) s.
Proof using.
  intros Hb. apply runs_read.
  rewrite (bind_step _ _ _ _ _ (fw_ok mgr_of _)). unfold recv_bytes. rewrite Hb.
  rewrite (bind_step (nonnull _) _ _ (pre ++ l ++ tail) (world s)) by done.
  destruct (Z.ltb_spec (blen l) 4) as [Hlt|Hge].
  - unfold GetMsgLength. destruct (Z.ltb_spec (blen l) 4); [done|lia].
  - rewrite GetMsgLength_at by done. done.
Qed.

Lemma read_message s pre m tail k :
  buffer (buffer_of s) = Some (pre ++ frame m ++ tail) -> frame_ok m ->
  runs calloc
    (Act (m0 ← fw mgr_of; buf ← recv_bytes (recv_buffer_ m0);
          lift (mem_read buf (blen pre + 4) (u64 (blen m + 4 - 4)))) k) s (k m) s.
Proof using.
  intros Hb Hm. apply runs_read. unfold frame_ok in Hm. pose proof (blen_nonneg m).
  rewrite (bind_step _ _ _ _ _ (fw_ok mgr_of _)). unfold recv_bytes. rewrite Hb.
  rewrite (bind_step (nonnull _) _ _ (pre ++ frame m ++ tail) (world s)) by done.
  rewrite u64_id by lia. unfold frame.
  replace (blen m + 4 - 4) with (blen m) by lia.
  replace (blen pre + 4) with (blen (pre ++ store32 (htonl (blen m + 4))))
    by (rewrite blen_app; done).
  replace (pre ++ (store32 (htonl (blen m + 4)) ++ m) ++ tail)
    with ((pre ++ store32 (htonl (blen m + 4))) ++ m ++ tail) by (by rewrite <- !app_assoc).
  by rewrite mem_read_at.
Qed.

(** A round of the loop on a whole message, and the end of the loop. *)
Lemma frame_loop_round fuel s pre m l tail k :
  buffer (buffer_of s) = Some (pre ++ (frame m ++ l) ++ tail) -> frame_ok m ->
  runs calloc (frame_loop (S fuel) mgr_of (blen pre + blen (frame m ++ l)) (blen pre) body k) s
    (body m (frame_loop fuel mgr_of (blen pre + blen (frame m ++ l)) (blen pre + blen (frame m))
               body k)) s.
Proof using.
  intros Hb Hm. cbn [frame_loop]. pose proof (blen_nonneg m) as Hm0. pose proof (blen_nonneg l).
  assert (Hl : blen (frame m ++ l) = blen m + 4 + blen l) by (by rewrite blen_app, blen_frame).
  destruct (Z.leb_spec (blen pre + blen (frame m ++ l)) (blen pre)); [lia|].
  replace (blen pre + blen (frame m ++ l) - blen pre) with (blen (frame m ++ l)) by lia.
  eapply runs_trans; [by apply (read_length s pre (frame m ++ l) tail)|]. cbv beta.
  destruct (Z.ltb_spec (blen (frame m ++ l)) 4); [lia|]. rewrite announced_frame by done.
  destruct (Z.eqb_spec (blen m + 4) 0); [lia|].
  destruct (Z.ltb_spec (blen (frame m ++ l)) (blen m + 4)); [lia|]. cbn [orb].
  rewrite <- app_assoc in Hb. rewrite blen_frame.
  eapply runs_trans; [by apply (read_message s pre m (l ++ tail))|]. apply runs_refl.
Qed.

Lemma frame_loop_stop fuel s pre part tail k :
  buffer (buffer_of s) = Some (pre ++ part ++ tail) -> incomplete part ->
  runs calloc (frame_loop (S fuel) mgr_of (blen pre + blen part) (blen pre) body k) s
    (k (blen pre)) s.
Proof using.
  intros Hb Hi. cbn [frame_loop].
  destruct (Z.leb_spec (blen pre + blen part) (blen pre)); [apply runs_refl|].
  replace (blen pre + blen part - blen pre) with (blen part) by lia.
  eapply runs_trans; [by apply (read_length s pre part tail)|]. cbv beta.
  destruct Hi as [Hi|Hi]; [destruct (Z.ltb_spec (blen part) 4); [apply runs_refl|lia]|].
  destruct (Z.ltb_spec (blen part) 4); [apply runs_refl|].
  destruct Hi as [Hi|Hi]; [rewrite Hi; apply runs_refl|].
  destruct (Z.ltb_spec (blen part) (announced part)); [|lia]. rewrite orb_true_r. apply runs_refl.
Qed.

(** The whole loop, for messages that keep an invariant [I] of what is left to do, or leave
    the loop for [out] with [X]. *)
Lemma frame_loop_ends (I : list bytes -> CoroutineScheduler (App P C A) -> Prop)
    (X : CoroutineScheduler (App P C A) -> Prop) out part tail k :
  (forall m ms s next, I (m :: ms) s ->
     (exists s1, runs calloc (body m next) s next s1 /\ I ms s1 /\ buffer_of s1 = buffer_of s) \/
     (exists s1, runs calloc (body m next) s out s1 /\ X s1)) ->
  incomplete part ->
  forall ms fuel s pre, buffer (buffer_of s) = Some (pre ++ (frames ms ++ part) ++ tail) ->
  Forall frame_ok ms -> (length ms < fuel)%nat -> I ms s ->
  let loop := frame_loop fuel mgr_of (blen pre + blen (frames ms ++ part)) (blen pre) body k in
  (exists s', runs calloc loop s (k (blen pre + blen (frames ms))) s' /\
     I [] s' /\ buffer_of s' = buffer_of s) \/
  (exists s', runs calloc loop s out s' /\ X s').
Proof using.
  intros Hround Hi ms. induction ms as [|m ms IH]; intros fuel s pre Hb Hok Hf HI;
    (destruct fuel as [|fuel]; [cbn in Hf; lia|]); cbv zeta.
  - left. exists s. split; [|done]. cbn [frames map List.concat app] in *.
    replace (blen pre + blen []) with (blen pre) by (unfold blen; cbn; lia).
    by apply (frame_loop_stop fuel s pre part tail).
  - apply Forall_cons in Hok as [Hm1 Hok].
    replace (frames (m :: ms) ++ part) with (frame m ++ frames ms ++ part) in *
      by (by rewrite frames_cons, app_assoc).
    rewrite frames_cons.
    pose proof (frame_loop_round fuel s pre m (frames ms ++ part) tail k Hb Hm1) as Hr0.
    destruct (Hround m ms s (frame_loop fuel mgr_of (blen pre + blen (frame m ++ frames ms ++ part))
                (blen pre + blen (frame m)) body k) HI)
      as [(s1 & Hrun & HI1 & Hb1)|(s1 & Hrun & HX)].
    2: { right. exists s1. split; [|done]. by eapply runs_trans; [exact Hr0|]. }
    assert (Hb1' : buffer (buffer_of s1) = Some ((pre ++ frame m) ++ (frames ms ++ part) ++ tail))
      by (rewrite Hb1, Hb; by rewrite <- !app_assoc).
    assert (Hf' : (length ms < fuel)%nat) by (cbn in Hf; lia).
    specialize (IH fuel s1 (pre ++ frame m) Hb1' Hok Hf' HI1). cbv zeta in IH.
    rewrite !blen_app in *.
    replace (blen pre + blen (frame m) + (blen (frames ms) + blen part))
      with (blen pre + (blen (frame m) + (blen (frames ms) + blen part))) in IH by lia.
    replace (blen pre + blen (frame m) + blen (frames ms))
      with (blen pre + (blen (frame m) + blen (frames ms))) in IH by lia.
    destruct IH as [(s2 & Hrun2 & HI2 & Hb2)|(s2 & Hrun2 & HX)]; [left|right]; exists s2.
    + split; [|split; [done|congruence]].
      eapply runs_trans; [exact Hr0|]. by eapply runs_trans; [exact Hrun|].
    + split; [|done]. eapply runs_trans; [exact Hr0|]. by eapply runs_trans; [exact Hrun|].
Qed.

Lemma frame_loop_keeps (I : list bytes -> CoroutineScheduler (App P C A) -> Prop) part tail k :
  (forall m ms s next, I (m :: ms) s ->
     exists s1, runs calloc (body m next) s next s1 /\ I ms s1 /\ buffer_of s1 = buffer_of s) ->
  incomplete part ->
  forall ms fuel s pre, buffer (buffer_of s) = Some (pre ++ (frames ms ++ part) ++ tail) ->
  Forall frame_ok ms -> (length ms < fuel)%nat -> I ms s ->
  exists s', runs calloc (frame_loop fuel mgr_of (blen pre + blen (frames ms ++ part)) (blen pre)
                            body k) s (k (blen pre + blen (frames ms))) s' /\
    I [] s' /\ buffer_of s' = buffer_of s.
Proof using.
  intros Hround Hi ms fuel s pre Hb Hok Hf HI.
  destruct (frame_loop_ends I (fun _ => False) Ret part tail k (fun m ms s next H =>
    or_introl (Hround m ms s next H)) Hi ms fuel s pre Hb Hok Hf HI) as [H|(? & _ & [])]. exact H.
Qed.

Lemma frame_loop_runs ms fuel s s' pre part tail k :
  buffer (buffer_of s) = Some (pre ++ (frames ms ++ part) ++ tail) -> Forall frame_ok ms ->
  incomplete part -> (length ms < fuel)%nat -> handled ms s s' ->
  runs calloc (frame_loop fuel mgr_of (blen pre + blen (frames ms ++ part)) (blen pre) body k) s
    (k (blen pre + blen (frames ms))) s'.
Proof using.
  intros Hb Hok Hi Hf Hh.
  destruct (frame_loop_keeps (fun ms s => handled ms s s') part tail k) with ms fuel s pre
    as (s2 & Hrun & Hd & _); try done.
  - intros m ms' s0 next Hd. inversion Hd; subst. eauto.
  - inversion Hd; by subst.
Qed.

(** There are no more messages than bytes. *)
Lemma frames_length ms : (length ms <= length (frames ms))%nat.
Proof using.
  induction ms as [|m ms IH]; [cbn; lia|]. rewrite frames_cons, length_app. cbn [length].
  unfold frame. rewrite length_app, store32_length. lia.
Qed.

(** A message that is at most three bytes long with its length cannot be cut out. *)
Lemma frame_loop_short fuel s pre l tail k :
  buffer (buffer_of s) = Some (pre ++ l ++ tail) -> 4 <= blen l -> 0 < announced l < 4 ->
  blen pre + blen l + blen tail < 18446744073709551612 ->
  fails calloc (frame_loop (S fuel) mgr_of (blen pre + blen l) (blen pre) body k) s OutOfBounds.
Proof using.
  intros Hb Hl Ha Hbound. cbn [frame_loop].
  destruct (Z.leb_spec (blen pre + blen l) (blen pre)); [lia|].
  replace (blen pre + blen l - blen pre) with (blen l) by lia.
  eapply runs_fails; [by apply (read_length s pre l tail)|]. cbv beta.
  destruct (Z.ltb_spec (blen l) 4); [lia|]. destruct (Z.eqb_spec (announced l) 0); [lia|].
  destruct (Z.ltb_spec (blen l) (announced l)); [lia|]. cbn [orb]. apply fails_act.
  rewrite (bind_step _ _ _ _ _ (fw_ok mgr_of _)). unfold recv_bytes. rewrite Hb.
  rewrite (bind_step (nonnull _) _ _ (pre ++ l ++ tail) (world s)) by done.
  unfold lift, mem_read. rewrite bool_decide_eq_false_2; [done|].
  rewrite !blen_app. pose proof (blen_nonneg pre).
  replace (u64 (announced l - 4)) with (announced l - 4 + 18446744073709551616); [lia|].
  int_lia.
Qed.
End LoopProofs.

(** ** What is queued on a connection *)

Section Queue.
Context {P : Protobuf} {C A : Type} {E : NetEnv C}.
Context (b : Z).
Implicit Types (w : App P C A).

(** libevent adds the bytes of the kernel to the input. *)
Definition arrive (chunk : bytes) w : App P C A :=
  match bevs (heap w) !! b with
  | Some x => set_heap (set_bevs (<[b := {| bev_fd := bev_fd x; input := input x ++ chunk;
                                            output := output x |}]> (bevs (heap w))) (heap w)) w
  | None => w
  end.

(** What is queued to be sent. *)
Definition sent {U} (w : World C U) : bytes :=
  match bevs (heap w) !! b with Some x => output x | None => [] end.

(** The state behind [evbuffer_drain]. *)
Definition drained (k : Z) w : App P C A :=
  match bevs (heap w) !! b with
  | Some x => set_heap (set_bevs (<[b := {| bev_fd := bev_fd x;
                                            input := drop (Z.to_nat k) (input x);
                                            output := output x |}]> (bevs (heap w))) (heap w)) w
  | None => w
  end.

Lemma drain_ok k w x :
  bevs (heap w) !! b = Some x ->
  evbuffer_drain b k w = Ok (tt, drained k w) /\
  bevs (heap (drained k w)) !! b
  = Some {| bev_fd := bev_fd x; input := drop (Z.to_nat k) (input x); output := output x |}.
Proof using.
  intros Hx. unfold drained. rewrite Hx. split; [|apply lookup_insert_eq].
  unfold evbuffer_drain. rewrite (bind_step _ _ w x w); [by apply on_net_ok|].
  rewrite (on_net_ok _ _ _ _ (load_bev_ok _ b x Hx)). by destruct w.
Qed.

(** The copy of what the buffer has room for. *)
Lemma copyout_ok rb w x buf :
  bevs (heap w) !! b = Some x -> buffer rb = Some buf -> blen buf = size rb ->
  exists rb' tail,
    evbuffer_copyout b rb w = Ok ((blen (take (Z.to_nat (size rb)) (input x)), rb'), w) /\
    buffer rb' = Some (take (Z.to_nat (size rb)) (input x) ++ tail) /\ size rb' = size rb /\
    blen (take (Z.to_nat (size rb)) (input x) ++ tail) = size rb.
Proof using.
  intros Hx Hb Hbl. set (dat := take (Z.to_nat (size rb)) (input x)).
  assert (Hlen : (length dat <= length buf)%nat)
    by (unfold dat, blen in *; rewrite length_take; lia).
  set (rb' := {| buffer := Some (dat ++ drop (length dat) buf); size := size rb |}).
  exists (match dat with [] => rb | _ => rb' end), (drop (length dat) buf).
  split; [|split; [|split]].
  - unfold evbuffer_copyout. rewrite (bind_step _ _ w x w).
    2: { rewrite (on_net_ok _ _ _ _ (load_bev_ok _ b x Hx)). by destruct w. }
    rewrite Hb. fold dat. subst rb'. clearbody dat.
    destruct dat as [|c dat]; [done|].
    rewrite (bind_step _ _ w ((c :: dat) ++ drop (length (c :: dat)) buf) w); [done|].
    unfold lift, mem_write. rewrite bool_decide_eq_true_2; [done|]. unfold blen in *. lia.
  - subst rb'. clearbody dat. by destruct dat.
  - subst rb'. clearbody dat. by destruct dat.
  - unfold blen in *. rewrite length_app, length_drop. lia.
Qed.
Lemma sent_arrive c w : sent (arrive c w) = sent w.
Proof using.
  unfold sent, arrive. destruct (bevs (heap w) !! b) as [x|] eqn:Hx; cbn; rewrite ?lookup_insert_eq, ?Hx; done.
Qed.
Lemma sent_drained k w : sent (drained k w) = sent w.
Proof using.
  unfold sent, drained. destruct (bevs (heap w) !! b) as [x|] eqn:Hx; cbn; rewrite ?lookup_insert_eq, ?Hx; done.
Qed.
End Queue.

(** The connection a table has for the descriptor of a bufferevent. *)
Lemma handler_of_event {C} (t : NetSt C) b x fd o :
  bevs (hp t) !! b = Some x -> bev_fd x = fd -> pool_find (handler_pool_ (mgr t)) fd = Some o ->
  GetHandlerByEvent (Some b) t = Ok (o, t).
Proof.
  intros Hx Hfd Hp. unfold GetHandlerByEvent. destruct t as [h m]. cbn [hp mgr] in *.
  rewrite (bind_step _ _ _ _ _ (on_heap_ok _ (NetS _ m) _ _ (getfd_ok _ b x Hx))).
  rewrite Hfd, (bind_step get _ _ _ _ eq_refl). cbn [mgr hp]. by rewrite Hp.
Qed.

(** ** Arrivals one after the other *)

Section Stream.
Context {P : Protobuf} {C A : Type}.
Context (calloc : gmap Z (COROUTINECTX (App P C A)) -> option Z).
Context (b : Z) (handler : code (App P C A)).
Implicit Types (s : CoroutineScheduler (App P C A)).

(** For each chunk of the stream libevent calls the handler. *)
Inductive served : list bytes -> CoroutineScheduler (App P C A) ->
    CoroutineScheduler (App P C A) -> Prop :=
  | served_nil s : served [] s s
  | served_cons c cs s s1 s2 :
      runs calloc handler (set_world (arrive b c (world s)) s) Ret s1 ->
      served cs s1 s2 -> served (c :: cs) s s2.

(** [J q ms s]: in the state [s] the part [q] of the stream is queued, and the messages
    [ms], of which it is the beginning, have not been handled. *)
Context (J : bytes -> list bytes -> CoroutineScheduler (App P C A) -> Prop) (room : Z).
Context (arrival : forall q c ms1 ms2 part s,
  J q (ms1 ++ ms2) s -> q ++ c = frames ms1 ++ part -> incomplete part -> Forall frame_ok ms1 ->
  blen (q ++ c) <= room ->
  exists s', runs calloc handler (set_world (arrive b c (world s)) s) Ret s' /\ J part ms2 s').

Lemma served_stream (B D : Z) chunks : forall q ms r s,
  J q ms s -> Forall frame_ok ms -> Forall (fun m => blen (frame m) <= B) ms ->
  Forall (fun c => blen c <= D) chunks -> 0 < B -> blen q < B -> B + D <= room ->
  q ++ List.concat chunks ++ r = frames ms -> incomplete q ->
  exists s' ms1 ms2 part, served chunks s s' /\ ms = ms1 ++ ms2 /\
    q ++ List.concat chunks = frames ms1 ++ part /\ incomplete part /\
    (r = [] -> ms2 = [] /\ part = []) /\ J part ms2 s'.
Proof using arrival.
  induction chunks as [|c cs IH]; intros q ms r s HJ Hok HB HD HB0 Hq Hroom Es Hi.
  - cbn in Es. exists s, [], ms, q.
    split; [constructor|]. split; [done|]. split; [by rewrite app_nil_r|]. split; [done|].
    split; [|done].
    intros ->. rewrite app_nil_r in Es. destruct ms as [|m ms]; [done|]. exfalso.
    apply Forall_cons in Hok as [Hm Hok]. rewrite frames_cons in Es.
    assert (Hl : blen q = blen m + 4 + blen (frames ms)) by (by rewrite Es, blen_app, blen_frame).
    pose proof (blen_nonneg m). pose proof (blen_nonneg (frames ms)).
    destruct Hi as [Hi|Hi]; [lia|].
    rewrite Hl, Es, announced_frame in Hi by done. lia.
  - apply Forall_cons in HD as [Hcd HD]. cbn [List.concat] in Es. rewrite !app_assoc in Es.
    rewrite <- (app_assoc (q ++ c)) in Es.
    destruct (stream_prefix ms (q ++ c) _ Hok Es)
      as (ms1 & ms2 & part1 & Ems & E1 & E2 & Hi1 & _ & Hb1).
    specialize (Hb1 B HB0 HB).
    subst ms. apply Forall_app in Hok as [Hok1 Hok2]. apply Forall_app in HB as [_ HB2].
    destruct (arrival q c ms1 ms2 part1 s) as (s1 & Hrun & HJ1); try done.
    { rewrite blen_app. lia. }
    destruct (IH part1 ms2 r s1) as (s2 & ms3 & ms4 & part2 & Hs & Ems2 & E3 & Hi2 & Hend & HJ2);
      try done.
    exists s2, (ms1 ++ ms3), ms4, part2. split; [by eapply served_cons|].
    subst ms2. split; [by rewrite app_assoc|]. split; [|done].
    cbn [List.concat]. rewrite app_assoc, E1, <- app_assoc, E3, frames_app. by rewrite app_assoc.
Qed.
End Stream.

(** ** Front ends *)

Section FrontEnd.
Context {P : Protobuf} {R : RpcEnv P} {IS : IRpcService} {C A : Type}.
Context {E : NetEnv C} {RA : RapidApp (App P C A)}.
Context (calloc : gmap Z (COROUTINECTX (App P C A)) -> option Z).
Context (p b fd : Z) (log : A -> list bytes) (recv : Z -> bytes -> M (App P C A) Z).
Implicit Types (s : CoroutineScheduler (App P C A)) (w : App P C A) (n : EasyNet).

(** The connection [p] with its bufferevent [b] is in the table of front ends, and
    [inp] is queued on it; [rpc] tells whether the messages are requests for services. *)
Record front_ok (rpc : bool) (inp : bytes) n w : Prop := {
  fo_app : app_ (rest w) = true;
  fo_mode : (svc_mode_ (rest w) =? SVC_MODE_RPC) = rpc;
  fo_net : nets (heap w) !! p = Some n;
  fo_hevent : hevent_ n = Some b;
  fo_bev : exists x, bevs (heap w) !! b = Some x /\ bev_fd x = fd /\ input x = inp;
  fo_pool : pool_find (handler_pool_ (frontend_handler_mgr_ (rest w))) fd = Some (Some p);
  fo_buf : exists buf, buffer (recv_buffer_ (frontend_handler_mgr_ (rest w))) = Some buf /\
                       blen buf = size (recv_buffer_ (frontend_handler_mgr_ (rest w)))
}.

(** The counters of the connection. *)
Definition same_counters n n' : Prop :=
  curr_pkg_count_ n' = curr_pkg_count_ n /\ curr_traffic_bytes_ n' = curr_traffic_bytes_ n.

(** The application takes the messages of [p] with an action that logs them, may do
    anything else to its state, to other connections and to what [p] has to send, and
    leaves [p], its input and the buffer of the table in place. *)
Definition receiver : Prop :=
  (forall ty m k, OnRecvFrontEnd p ty m k = Act (recv ty m) k) /\
  forall ty m inp n w, front_ok false inp n w -> exists z w' n', recv ty m w = Ok (z, w') /\
    front_ok false inp n' w' /\ same_counters n n' /\
    recv_buffer_ (frontend_handler_mgr_ (rest w')) = recv_buffer_ (frontend_handler_mgr_ (rest w)) /\
    log (app (rest w')) = log (app (rest w)) ++ [m].

Definition front_body (data : bytes) (next : code (App P C A)) : code (App P C A) :=
  Act (net_type p) (fun type =>
  OnRecvFrontEnd p type data (fun _ => Act (count_pkg p) (fun _ => next))).

Lemma on_net_upd w n f :
  nets (heap w) !! p = Some n ->
  on_net (upd_net p f) w = Ok (tt, set_heap (set_nets (<[p := f n]> (nets (heap w))) (heap w)) w).
Proof using. intros H. by apply on_net_ok, upd_net_ok. Qed.

(** What is done with a request. *)
Definition request_body (k : Z -> code (App P C A)) (data : bytes) (next : code (App P C A))
    : code (App P C A) :=
  OnFrontEndRpcMsg (Some p) data (fun ret =>
  if ret <? 0 then
    Act (log_net p) (fun _ => Act (on_frontend (RemoveHandler (Some p))) (fun _ => k (-1)))
  else Act (count_pkg p) (fun _ => next)).

Lemma front_ok_upd rpc inp n w f :
  front_ok rpc inp n w -> hevent_ (f n) = hevent_ n ->
  front_ok rpc inp (f n) (set_heap (set_nets (<[p := f n]> (nets (heap w))) (heap w)) w).
Proof using.
  intros [H1 H2 H3 H4 H5 H6 H7] Hf. split; try done; [cbn; by rewrite lookup_insert_eq|congruence].
Qed.

(** One message. *)
Lemma front_message inp n s m :
  receiver -> front_ok false inp n (world s) ->
  exists w' n', (forall next, runs calloc (front_body m next) s next (set_world w' s)) /\
    front_ok false inp n' w' /\
    curr_pkg_count_ n' = u64 (curr_pkg_count_ n + 1) /\
    curr_traffic_bytes_ n' = curr_traffic_bytes_ n /\
    recv_buffer_ (frontend_handler_mgr_ (rest w'))
    = recv_buffer_ (frontend_handler_mgr_ (rest (world s))) /\
    log (app (rest w')) = log (app (rest (world s))) ++ [m].
Proof using.
  intros [Happ Hrecv] Hf.
  destruct (Hrecv (net_type_ n) m inp n (world s) Hf) as (z & w1 & n1 & E1 & Hf1 & [Hc1 Hc2] & Hb & Hl).
  set (f := fun n => set_pkg_counts (prev_pkg_count_ n) (u64 (curr_pkg_count_ n + 1)) n).
  exists (set_heap (set_nets (<[p := f n1]> (nets (heap w1))) (heap w1)) w1), (f n1).
  split; [|split; [by apply front_ok_upd|cbn; rewrite Hc1; by rewrite <- Hc2]].
  intros next. unfold front_body. eapply runs_trans.
  { apply (runs_read calloc _ _ s (net_type_ n)). unfold net_type.
    rewrite (bind_step _ _ (world s) n (world s)); [done|].
    rewrite (on_net_ok _ _ _ _ (load_net_ok _ p n (fo_net _ _ _ _ Hf))). by destruct (world s). }
  cbv beta. rewrite Happ. eapply runs_trans; [by apply (runs_act calloc _ _ s z w1)|]. cbv beta.
  set (w2 := set_heap _ w1). change (set_world w2 s) with (set_world w2 (set_world w1 s)).
  apply (runs_act calloc (count_pkg p) (fun _ => next) (set_world w1 s) tt w2).
  apply (on_net_upd w1 n1 f). apply Hf1.
Qed.

(** The messages of one arrival. *)
Lemma front_handled ms : forall inp n s,
  receiver -> front_ok false inp n (world s) -> 0 <= curr_pkg_count_ n < 18446744073709551616 ->
  exists w' n', handled calloc frontend_handler_mgr_ front_body ms s (set_world w' s) /\
    front_ok false inp n' w' /\
    curr_pkg_count_ n' = u64 (curr_pkg_count_ n + Z.of_nat (length ms)) /\
    curr_traffic_bytes_ n' = curr_traffic_bytes_ n /\
    recv_buffer_ (frontend_handler_mgr_ (rest w'))
    = recv_buffer_ (frontend_handler_mgr_ (rest (world s))) /\
    log (app (rest w')) = log (app (rest (world s))) ++ ms.
Proof using.
  induction ms as [|m ms IH]; intros inp n s Hr Hf Hc.
  - exists (world s), n. rewrite app_nil_r, Z.add_0_r, u64_id by lia. split; [|done].
    replace (set_world (world s) s) with s by (by destruct s). constructor.
  - destruct (front_message inp n s m Hr Hf) as (w1 & n1 & E1 & Hf1 & Hc1 & Ht1 & Hb1 & Hl1).
    destruct (IH inp n1 (set_world w1 s) Hr Hf1) as (w2 & n2 & Hh & Hf2 & Hc2 & Ht2 & Hb2 & Hl2).
    { rewrite Hc1. apply u64_range. }
    exists w2, n2. split; [|split; [done|]].
    + eapply handled_cons; [exact E1|exact Hb1|exact Hh].
    + cbn [world set_world] in *. rewrite Hc2, Hc1, Ht2, Hb2, Hl2, Hl1, <- app_assoc.
      split; [|done]. cbn [length]. int_lia.
Qed.

(** The part of what is queued that the buffer has room for. *)
Definition seen inp w : bytes :=
  take (Z.to_nat (size (recv_buffer_ (frontend_handler_mgr_ (rest w))))) inp.

(** The state with another content of the buffer of the front ends. *)
Definition buffered rb w : App P C A :=
  set_rest (set_frontend (set_recv rb (frontend_handler_mgr_ (rest w))) (rest w)) w.

Lemma copy_front rpc inp n w :
  front_ok rpc inp n w ->
  exists w1 tail, copy_frontend b w = Ok (blen (seen inp w), w1) /\
    (exists rb, w1 = buffered rb w) /\ front_ok rpc inp n w1 /\
    buffer (recv_buffer_ (frontend_handler_mgr_ (rest w1))) = Some (seen inp w ++ tail) /\
    size (recv_buffer_ (frontend_handler_mgr_ (rest w1)))
    = size (recv_buffer_ (frontend_handler_mgr_ (rest w))) /\
    app (rest w1) = app (rest w).
Proof using.
  intros Hf. pose proof Hf as [H1 H2 H3 H4 (x & Hx & Hxf & Hxi) H6 (buf & Hb & Hbl)].
  destruct (copyout_ok b (recv_buffer_ (frontend_handler_mgr_ (rest w))) w x buf Hx Hb Hbl)
    as (rb & tail & Hcopy & Hb2 & Hs2 & Hl2). rewrite Hxi in Hcopy, Hb2, Hl2. fold (seen inp w) in *.
  exists (buffered rb w), tail.
  split; [|split; [by exists rb|split; [|done]]].
  - unfold copy_frontend. rewrite (bind_step _ _ _ _ _ (fw_ok _ _)).
    rewrite (bind_step _ _ _ _ _ Hcopy).
    rewrite (bind_step _ _ w tt (buffered rb w)); [done|].
    erewrite on_frontend_ok; [|reflexivity]. by destruct w.
  - split; try done; [by exists x|]. cbn. exists (seen inp w ++ tail). by rewrite Hs2.
Qed.

(** What is queued on [p], and its counters, when the bytes have been used. *)
Lemma consumed_front rpc inp n w k :
  front_ok rpc inp n w ->
  exists w' n', consumed b p k w = Ok (tt, w') /\ front_ok rpc (drop (Z.to_nat k) inp) n' w' /\
    curr_pkg_count_ n' = curr_pkg_count_ n /\
    curr_traffic_bytes_ n' = u64 (curr_traffic_bytes_ n + k) /\
    last_active_timestamp_ n' = now_ (rest w') /\
    recv_buffer_ (frontend_handler_mgr_ (rest w')) = recv_buffer_ (frontend_handler_mgr_ (rest w)) /\
    app (rest w') = app (rest w) /\ n' = (set_active_time (now_ (rest w))
      (set_traffic (prev_traffic_bytes_ n) (u64 (curr_traffic_bytes_ n + k)) n)) /\
    w' = set_heap (set_nets (<[p := n']> (nets (heap w))) (heap (drained b k w))) w.
Proof using.
  intros Hf. pose proof Hf as [H1 H2 H3 H4 (x & Hx & Hxf & Hxi) H6 H7].
  destruct (drain_ok b k w x Hx) as [Hd Hb1]. set (w1 := drained b k w) in *.
  set (f := fun n => set_active_time (now_ (rest w))
    (set_traffic (prev_traffic_bytes_ n) (u64 (curr_traffic_bytes_ n + k)) n)).
  assert (Hf1 : front_ok rpc (drop (Z.to_nat k) inp) n w1).
  { subst w1. unfold drained in *. rewrite Hx in *. split; try done. eexists. split; [exact Hb1|].
    cbn. by rewrite <- Hxi. }
  assert (Hw : set_heap (set_nets (<[p := f n]> (nets (heap w1))) (heap w1)) w1
    = set_heap (set_nets (<[p := f n]> (nets (heap w))) (heap w1)) w).
  { subst w1. unfold drained. by rewrite Hx. }
  exists (set_heap (set_nets (<[p := f n]> (nets (heap w1))) (heap w1)) w1), (f n).
  split; [|split; [by apply front_ok_upd|by rewrite Hw]].
  unfold consumed. rewrite (bind_step _ _ _ _ _ Hd), (bind_step _ _ _ _ _ (fw_ok _ _)).
  replace (now_ (rest w1)) with (now_ (rest w)) by (subst w1; unfold drained; by rewrite Hx).
  apply (on_net_upd w1 n f). apply Hf1.
Qed.

(** The prologue of [OnFrontEndMsg]. *)
Lemma OnFrontEndMsg_begin rpc inp n s k :
  front_ok rpc inp n (world s) ->
  exists w1 tail, (exists rb, w1 = buffered rb (world s)) /\ front_ok rpc inp n w1 /\
    buffer (recv_buffer_ (frontend_handler_mgr_ (rest w1))) = Some (seen inp (world s) ++ tail) /\
    size (recv_buffer_ (frontend_handler_mgr_ (rest w1)))
    = size (recv_buffer_ (frontend_handler_mgr_ (rest (world s)))) /\
    app (rest w1) = app (rest (world s)) /\
    runs calloc (OnFrontEndMsg b k) s
      (frame_loop (S (length (seen inp (world s)))) frontend_handler_mgr_
         (blen (seen inp (world s))) 0 (if rpc then request_body k else front_body)
         (fun elapsed => Act (consumed b p elapsed) (fun _ => k 0))) (set_world w1 s).
Proof using.
  intros Hf. destruct (copy_front rpc inp n (world s) Hf)
    as (w1 & tail & Ec & Hrb & Hf1 & Hb1 & Hs1 & Ha1).
  exists w1, tail. repeat (split; [done|]). unfold OnFrontEndMsg.
  eapply runs_trans.
  { apply (runs_read calloc _ _ s tt). rewrite (bind_step _ _ _ _ _ (fw_ok _ _)).
    by rewrite (fo_app _ _ _ _ Hf). }
  eapply runs_trans; [apply (runs_act calloc _ _ s _ w1 Ec)|]. cbv beta.
  pose proof Hf1 as [H1 H2 H3 H4 (x & Hx & Hxf & Hxi) H6 H7].
  eapply runs_trans.
  { apply (runs_read calloc _ _ (set_world w1 s) (Some p)). cbn [world set_world].
    rewrite (on_frontend_ok _ w1 (Some p) (NetS (heap w1) (frontend_handler_mgr_ (rest w1)))).
    - do 2 f_equal. by destruct w1 as [? ? ? ? ? ? ? []].
    - by apply (handler_of_event _ b x fd (Some p)). }
  cbv beta iota. eapply runs_trans.
  { apply (runs_read calloc _ _ (set_world w1 s) (svc_mode_ (rest w1))). apply fw_ok. }
  cbv beta zeta. rewrite H2.
  unfold blen at 1. rewrite Nat2Z.id. destruct rpc; apply runs_refl.
Qed.

Lemma seen_all inp w :
  blen inp <= size (recv_buffer_ (frontend_handler_mgr_ (rest w))) -> seen inp w = inp.
Proof using. intros H. unfold seen. apply take_ge. unfold blen in H. lia. Qed.

(** One arrival. *)
Lemma frontend_arrival ms part n s k :
  receiver -> front_ok false (frames ms ++ part) n (world s) -> Forall frame_ok ms ->
  incomplete part -> 0 <= curr_pkg_count_ n < 18446744073709551616 ->
  blen (frames ms ++ part) <= size (recv_buffer_ (frontend_handler_mgr_ (rest (world s)))) ->
  exists w' n', runs calloc (OnFrontEndMsg b k) s (k 0) (set_world w' s) /\
    front_ok false part n' w' /\
    curr_pkg_count_ n' = u64 (curr_pkg_count_ n + Z.of_nat (length ms)) /\
    curr_traffic_bytes_ n' = u64 (curr_traffic_bytes_ n + blen (frames ms)) /\
    last_active_timestamp_ n' = now_ (rest w') /\
    size (recv_buffer_ (frontend_handler_mgr_ (rest w')))
    = size (recv_buffer_ (frontend_handler_mgr_ (rest (world s)))) /\
    log (app (rest w')) = log (app (rest (world s))) ++ ms.
Proof using.
  intros Hr Hf Hok Hi Hc Hsize.
  destruct (OnFrontEndMsg_begin false _ n s k Hf) as (w1 & tail & _ & Hf1 & Hb1 & Hs1 & Ha1 & Hrun1).
  rewrite seen_all in Hb1, Hrun1 by done.
  destruct (front_handled ms _ n (set_world w1 s) Hr Hf1 Hc)
    as (w2 & n2 & Hh & Hf2 & Hc2 & Ht2 & Hb2 & Hl2). cbn [world set_world] in *.
  destruct (consumed_front false _ n2 w2 (blen (frames ms)) Hf2)
    as (w3 & n3 & E3 & Hf3 & Hc3 & Ht3 & Hact & Hb3 & Ha3 & _).
  exists w3, n3. split; [|split; [|split; [congruence|split; [congruence|split; [|split]]]]].
  - eapply runs_trans; [exact Hrun1|]. eapply runs_trans.
    { apply (frame_loop_runs calloc frontend_handler_mgr_ front_body ms _ (set_world w1 s) _ []
               part tail); [exact Hb1|done|done| |exact Hh].
      rewrite length_app. pose proof (frames_length ms). lia. }
    rewrite Z.add_0_l. cbv beta.
    change (set_world w3 s) with (set_world w3 (set_world w2 (set_world w1 s))).
    apply (runs_act calloc _ (fun _ => k 0) (set_world w2 (set_world w1 s)) tt w3). exact E3.
  - unfold blen in Hf3. rewrite Nat2Z.id, drop_app_length in Hf3. exact Hf3.
  - exact Hact.
  - rewrite Hb3, Hb2. exact Hs1.
  - rewrite Ha3, Hl2. by rewrite Ha1.
Qed.

Lemma arrive_ok rpc inp n w chunk :
  front_ok rpc inp n w ->
  front_ok rpc (inp ++ chunk) n (arrive b chunk w) /\ rest (arrive b chunk w) = rest w.
Proof using.
  intros [H1 H2 H3 H4 (x & Hx & Hxf & Hxi) H6 H7]. unfold arrive. rewrite Hx.
  split; [|done]. split; try done. eexists. split; [apply lookup_insert_eq|]. by rewrite <- Hxi.
Qed.

(** Between the arrivals of a stream: [q] is queued, [ms] is to come. *)
Definition receiving s0 n0 (all : list bytes) (room : Z) (q : bytes) (ms : list bytes) s : Prop :=
  exists w n old, s = set_world w s0 /\ front_ok false q n w /\ all = old ++ ms /\
    size (recv_buffer_ (frontend_handler_mgr_ (rest w))) = room /\
    curr_pkg_count_ n = u64 (curr_pkg_count_ n0 + Z.of_nat (length old)) /\
    log (app (rest w)) = log (app (rest (world s0))) ++ old.

Lemma frontend_receiving s0 n0 all room q c ms1 ms2 part s :
  receiver -> receiving s0 n0 all room q (ms1 ++ ms2) s -> q ++ c = frames ms1 ++ part ->
  incomplete part -> Forall frame_ok ms1 -> blen (q ++ c) <= room ->
  exists s', runs calloc (OnFrontEndMsg b (fun _ => Ret)) (set_world (arrive b c (world s)) s) Ret s' /\
    receiving s0 n0 all room part ms2 s'.
Proof using.
  intros Hr (w & n & old & -> & Hf & Eall & Hsize & Hc & Hlog) Eq Hi Hok Hroom. cbn [world set_world].
  destruct (arrive_ok false q n w c Hf) as [Hf1 Er1]. rewrite Eq in *.
  destruct (frontend_arrival ms1 part n (set_world (arrive b c w) s0) (fun _ => Ret))
    as (w1 & n1 & Hrun & Hf2 & Hc2 & _ & _ & Hs2 & Hl2); cbn [world set_world] in *; try done.
  { rewrite Hc. apply u64_range. }
  { by rewrite Er1, Hsize. }
  exists (set_world w1 s0). split; [exact Hrun|]. exists w1, n1, (old ++ ms1).
  split; [done|]. split; [done|]. rewrite <- app_assoc. split; [done|].
  rewrite Hs2, Er1. split; [done|]. rewrite Hl2, Er1, Hlog, <- app_assoc. split; [|done].
  rewrite Hc2, Hc, length_app. int_lia.
Qed.
(** What the framework itself leaves alone when bytes arrive, are copied and drained. *)
Record untouched w w' : Prop := {
  ut_sent : sent b w' = sent b w;
  ut_state : forall n n', nets (heap w) !! p = Some n -> nets (heap w') !! p = Some n' ->
               state_ n' = state_ n;
  ut_closures : closures w' = closures w;
  ut_gen : gen w' = gen w;
  ut_services : rpc_svc_mgr_ (rest w') = rpc_svc_mgr_ (rest w);
  ut_app : app (rest w') = app (rest w);
  ut_room : size (recv_buffer_ (frontend_handler_mgr_ (rest w')))
            = size (recv_buffer_ (frontend_handler_mgr_ (rest w)))
}.

Lemma untouched_arrive c w : untouched w (arrive b c w).
Proof using.
  pose proof (sent_arrive b c w). unfold arrive in *.
  destruct (bevs (heap w) !! b); split; try done; cbn; congruence.
Qed.
Lemma untouched_trans w1 w2 w3 n2 :
  nets (heap w2) !! p = Some n2 -> untouched w1 w2 -> untouched w2 w3 -> untouched w1 w3.
Proof using.
  intros Hn [] []. split; try congruence. intros n n' Hn1 Hn3.
  rewrite <- (ut_state0 n n2) by done. eauto.
Qed.

(** One arrival, for any invariant [J] of what is queued and what is to come. *)
Lemma front_arrival rpc (J : bytes -> list bytes -> CoroutineScheduler (App P C A) -> Prop) room :
  (forall q ms s, J q ms s -> exists n, front_ok rpc q n (world s) /\
     size (recv_buffer_ (frontend_handler_mgr_ (rest (world s)))) = room) ->
  (forall q q' n' ms s w, J q ms s -> untouched (world s) w -> front_ok rpc q' n' w ->
     J q' ms (set_world w s)) ->
  (forall q m ms s next, J q (m :: ms) s -> exists s1,
     runs calloc ((if rpc then request_body (fun _ => Ret) else front_body) m next) s next s1 /\
     J q ms s1 /\ recv_buffer_ (frontend_handler_mgr_ (rest (world s1)))
                  = recv_buffer_ (frontend_handler_mgr_ (rest (world s)))) ->
  forall q c ms1 ms2 part s, J q (ms1 ++ ms2) s -> q ++ c = frames ms1 ++ part ->
  incomplete part -> Forall frame_ok ms1 -> blen (q ++ c) <= room ->
  exists s', runs calloc (OnFrontEndMsg b (fun _ => Ret)) (set_world (arrive b c (world s)) s) Ret s' /\
    J part ms2 s'.
Proof using.
  intros Hfront Hmove Hround q c ms1 ms2 part s HJ Eq Hi Hok Hroom.
  destruct (Hfront _ _ _ HJ) as (n & Hf & Hsize).
  destruct (arrive_ok rpc q n (world s) c Hf) as [Hf0 Er0].
  pose proof (untouched_arrive c (world s)) as Hu0.
  set (w0 := arrive b c (world s)) in *. rewrite Eq in Hf0, Hroom.
  destruct (OnFrontEndMsg_begin rpc (frames ms1 ++ part) n (set_world w0 s) (fun _ => Ret))
    as (w1 & tail & [rb Hw1] & Hf1 & Hb1 & Hs1 & _ & Hrun); [exact Hf0|].
  cbn [world set_world] in *. rewrite seen_all in Hb1, Hrun by (by rewrite Er0, Hsize).
  assert (Hu1 : untouched w0 w1).
  { rewrite Hw1 in Hs1 |- *. split; try done; cbn; try exact Hs1; intros; congruence. }
  pose proof (Hmove _ _ _ _ _ _ HJ (untouched_trans _ _ _ _ (fo_net _ _ _ _ Hf0) Hu0 Hu1) Hf1) as HJ1.
  destruct (frame_loop_keeps calloc frontend_handler_mgr_
    (if rpc then request_body (fun _ => Ret) else front_body)
    (fun ms s => J (frames ms1 ++ part) (ms ++ ms2) s) part tail
    (fun elapsed => Act (consumed b p elapsed) (fun _ => Ret))) with ms1
    (S (length (frames ms1 ++ part))) (set_world w1 s) (@nil Z)
    as (s2 & Hrun2 & HJ2 & _); try done.
  { intros m ms s2 next H2. cbn [app] in H2. by apply Hround. }
  { rewrite length_app. pose proof (frames_length ms1). lia. }
  change (blen []) with 0 in Hrun2. rewrite !Z.add_0_l in Hrun2. cbn [app] in HJ2.
  destruct (Hfront _ _ _ HJ2) as (n2 & Hf2 & _).
  destruct (consumed_front rpc _ n2 (world s2) (blen (frames ms1)) Hf2)
    as (w3 & n3 & E3 & Hf3 & _ & _ & _ & _ & _ & Hn3 & Hw3).
  exists (set_world w3 s2). split.
  - eapply runs_trans; [exact Hrun|]. eapply runs_trans; [exact Hrun2|].
    by apply (runs_act calloc _ (fun _ => Ret) s2 tt).
  - unfold blen in Hf3 at 1. rewrite Nat2Z.id, drop_app_length in Hf3.
    refine (Hmove _ _ n3 _ _ _ HJ2 _ Hf3). pose proof (fo_net _ _ _ _ Hf2) as Hp2.
    pose proof (sent_drained b (blen (frames ms1)) (world s2)) as Hsd. rewrite Hw3.
    split; try done. intros n0 n' Hp0 Hp'. cbn in Hp'. rewrite lookup_insert_eq in Hp'.
    injection Hp' as <-. rewrite Hn3. cbn. congruence.
Qed.
End FrontEnd.

(** ** Back ends *)

Section BackEnd.
Context {P : Protobuf} {R : RpcEnv P} {IS : IRpcService} {C A : Type}.
Context {E : NetEnv C} {RA : RapidApp (App P C A)}.
Context (calloc : gmap Z (COROUTINECTX (App P C A)) -> option Z).
Context (p b fd : Z).
Implicit Types (s : CoroutineScheduler (App P C A)) (w : App P C A) (n : EasyNet).

(** The connection [p] with its bufferevent [b] is in the table of back ends, and [inp] is
    queued on it. *)
Record back_linked (inp : bytes) w : Prop := {
  bl_app : app_ (rest w) = true;
  bl_net : exists n, nets (heap w) !! p = Some n /\ hevent_ n = Some b;
  bl_bev : exists x, bevs (heap w) !! b = Some x /\ bev_fd x = fd /\ input x = inp;
  bl_pool : pool_find (handler_pool_ (backend_handler_mgr_ (rest w))) fd = Some (Some p);
  bl_buf : exists buf, buffer (recv_buffer_ (backend_handler_mgr_ (rest w))) = Some buf /\
                       blen buf = size (recv_buffer_ (backend_handler_mgr_ (rest w)))
}.

(** What [OnBackEndMsg] does with a message. *)
Definition back_body (data : bytes) (next : code (App P C A)) : code (App P C A) :=
  Act (n ← on_net (load_net p);
       match rpc_binded_ n with
       | None => mret None
       | Some r => active ← IsActive r; mret (if (active : bool) then Some r else None)
       end) (fun rpc =>
  match rpc with
  | Some r => EasyRpc_Resume r (Some data) (fun _ => next)
  | None => Act (net_type p) (fun type => OnRecvBackEnd p type data (fun _ => next))
  end).

(** The state with another content of the buffer of the back ends. *)
Definition back_buffered rb w : App P C A :=
  set_rest (set_backend (set_recv rb (backend_handler_mgr_ (rest w))) (rest w)) w.

(** The prologue of [OnBackEndMsg]. *)
Lemma OnBackEndMsg_begin inp s k :
  back_linked inp (world s) ->
  let room := size (recv_buffer_ (backend_handler_mgr_ (rest (world s)))) in
  let l := take (Z.to_nat room) inp in
  exists rb tail, let w1 := back_buffered rb (world s) in
    back_linked inp w1 /\ buffer rb = Some (l ++ tail) /\ size rb = room /\
    runs calloc (OnBackEndMsg b k) s
      (frame_loop (S (length l)) backend_handler_mgr_ (blen l) 0 back_body
         (fun elapsed => Act (evbuffer_drain b elapsed) (fun _ => k 0))) (set_world w1 s).
Proof using.
  intros Hb room l. pose proof Hb as [H1 _ (x & Hx & Hxf & Hxi) H4 (buf & Hbuf & Hbl)].
  destruct (copyout_ok b (recv_buffer_ (backend_handler_mgr_ (rest (world s)))) (world s) x buf Hx Hbuf Hbl)
    as (rb & tail & Hcopy & Hb2 & Hs2 & Hl2). rewrite Hxi in Hcopy, Hb2, Hl2.
  fold room in Hcopy, Hb2, Hs2, Hl2. fold l in Hcopy, Hb2, Hl2.
  exists rb, tail. set (w1 := back_buffered rb (world s)).
  assert (Hb1 : back_linked inp w1).
  { destruct Hb as [G1 G2 G3 G4 G5]. split; try done. cbn. exists (l ++ tail). by rewrite Hs2. }
  split; [exact Hb1|]. split; [exact Hb2|]. split; [exact Hs2|]. unfold OnBackEndMsg.
  eapply runs_trans.
  { apply (runs_read calloc _ _ s tt). rewrite (bind_step _ _ _ _ _ (fw_ok _ _)). by rewrite H1. }
  eapply runs_trans; [apply (runs_act calloc _ _ s (blen l) w1)|].
  { unfold copy_backend. rewrite (bind_step _ _ _ _ _ (fw_ok _ _)), (bind_step _ _ _ _ _ Hcopy).
    rewrite (bind_step _ _ (world s) tt w1); [done|].
    erewrite on_backend_ok; [|reflexivity]. by destruct (world s). }
  cbv beta. eapply runs_trans.
  { apply (runs_read calloc _ _ (set_world w1 s) (Some p)). cbn [world set_world].
    rewrite (on_backend_ok _ w1 (Some p) (NetS (heap w1) (backend_handler_mgr_ (rest w1)))).
    - by do 2 f_equal.
    - by apply (handler_of_event _ b x fd (Some p)). }
  cbv beta iota zeta. unfold blen at 1. rewrite Nat2Z.id. apply runs_refl.
Qed.
End BackEnd.

(** ** Properties *)

(** C1: [frontend_stream]. The messages of a front end come through, however the stream of
    their frames is cut into arrivals and wherever it stops: after the arrivals of any
    part of the stream the application has got exactly the messages that are complete
    in it, each once and in their order, and the beginning of the next one waits in the
    input; at the end of the stream every message has been delivered.  An arrival with
    what was left of the last one has to fit into the buffer. *)
Theorem frontend_stream {P : Protobuf} {R : RpcEnv P} {IS : IRpcService} {C A}
    {RA : RapidApp (App P C A)} calloc p b fd log recv
    (B D : Z) chunks ms r n (s : CoroutineScheduler (App P C A)) :
  receiver p b fd log recv -> front_ok p b fd false [] n (world s) ->
  0 <= curr_pkg_count_ n < 18446744073709551616 -> Forall frame_ok ms ->
  0 < B -> Forall (fun m => blen (frame m) <= B) ms -> Forall (fun c => blen c <= D) chunks ->
  B + D <= size (recv_buffer_ (frontend_handler_mgr_ (rest (world s)))) ->
  List.concat chunks ++ r = frames ms ->
  exists w' n' ms1 ms2 part,
    served calloc b (OnFrontEndMsg b (fun _ => Ret)) chunks s (set_world w' s) /\
    ms = ms1 ++ ms2 /\ List.concat chunks = frames ms1 ++ part /\ incomplete part /\
    log (app (rest w')) = log (app (rest (world s))) ++ ms1 /\ front_ok p b fd false part n' w' /\
    curr_pkg_count_ n' = u64 (curr_pkg_count_ n + Z.of_nat (length ms1)) /\
    (r = [] -> ms2 = [] /\ part = []).
Proof.
  intros Hr Hf Hc Hok HB HmB HcD Hsize E.
  set (room := size (recv_buffer_ (frontend_handler_mgr_ (rest (world s))))) in *.
  destruct (served_stream calloc b (OnFrontEndMsg b (fun _ => Ret))
              (receiving p b fd log s n ms room) room
              (fun q c ms1 ms2 part s' => frontend_receiving calloc p b fd log recv s n ms room
                                            q c ms1 ms2 part s' Hr) B D chunks [] ms r s)
    as (s' & ms1 & ms2 & part & H1 & H2 & H3 & H4 & H5 & w' & n' & old & -> & Hf' & Eall & _ & Hc' & Hl');
    try done.
  - exists (world s), n, []. rewrite app_nil_r, Z.add_0_r, u64_id by lia. by destruct s.
  - by left.
  - rewrite H2 in Eall. apply app_inv_tail in Eall as <-. exists w', n', ms1, ms2, part. auto 10.
Qed.

(** A frame whose length says 1, 2 or 3 makes the framework pass on a
    message of nearly 2^64 bytes: whoever reads it leaves the buffer.  Four bytes from a
    peer are enough. *)
Theorem short_frame {P : Protobuf} {R : RpcEnv P} {IS : IRpcService} {C A}
    {RA : RapidApp (App P C A)} calloc p b fd inp n (s : CoroutineScheduler (App P C A)) k :
  front_ok p b fd false inp n (world s) -> 4 <= blen inp -> 0 < announced inp < 4 ->
  4 <= size (recv_buffer_ (frontend_handler_mgr_ (rest (world s)))) < 18446744073709551612 ->
  fails calloc (OnFrontEndMsg b k) s OutOfBounds.
Proof.
  intros Hf Hlen Ha Hsize.
  destruct (OnFrontEndMsg_begin calloc p b fd false inp n s k Hf)
    as (w1 & tail & _ & Hf1 & Hb1 & Hs1 & _ & Hrun).
  eapply runs_fails; [exact Hrun|].
  set (l := seen inp (world s)) in *.
  assert (Hl : 4 <= blen l).
  { unfold l, seen, blen in *. rewrite length_take. lia. }
  pose proof (frame_loop_short calloc frontend_handler_mgr_ (front_body p) (length l)
                (set_world w1 s) [] l tail) as H.
  change (blen []) with 0 in H. rewrite !Z.add_0_l in H. apply H; [exact Hb1|done| |].
  - rewrite <- (announced_prefix l (drop (Z.to_nat (size (recv_buffer_
      (frontend_handler_mgr_ (rest (world s)))))) inp)) by done.
    unfold l, seen. by rewrite take_drop.
  - destruct (fo_buf _ _ _ _ _ _ _ Hf1) as (buf & Hbuf & Hbl). rewrite Hb1 in Hbuf.
    injection Hbuf as <-. rewrite blen_app in Hbl. lia.
Qed.

(** A frame that announces more than the buffer holds is never
    delivered and never refused: each arrival leaves the application, the counters and
    all of the input as they are, and the input goes on growing. *)
Theorem oversized_frame {P : Protobuf} {R : RpcEnv P} {IS : IRpcService} {C A}
    {RA : RapidApp (App P C A)} calloc p b fd inp n (s : CoroutineScheduler (App P C A)) k :
  front_ok p b fd false inp n (world s) -> 4 <= blen inp ->
  4 <= size (recv_buffer_ (frontend_handler_mgr_ (rest (world s)))) < announced inp ->
  0 <= curr_traffic_bytes_ n < 18446744073709551616 ->
  exists w' n', runs calloc (OnFrontEndMsg b k) s (k 0) (set_world w' s) /\
    front_ok p b fd false inp n' w' /\ app (rest w') = app (rest (world s)) /\
    curr_pkg_count_ n' = curr_pkg_count_ n /\ curr_traffic_bytes_ n' = curr_traffic_bytes_ n.
Proof.
  intros Hf Hlen Ha Ht.
  destruct (OnFrontEndMsg_begin calloc p b fd false inp n s k Hf)
    as (w1 & tail & _ & Hf1 & Hb1 & Hs1 & Ha1 & Hrun).
  set (l := seen inp (world s)) in *.
  assert (Hl : 4 <= blen l /\ blen l <= size (recv_buffer_ (frontend_handler_mgr_ (rest (world s))))).
  { unfold l, seen, blen in *. rewrite length_take. lia. }
  destruct (consumed_front p b fd false inp n w1 0 Hf1)
    as (w2 & n2 & E2 & Hf2 & Hc2 & Ht2 & _ & _ & Ha2 & _).
  exists w2, n2. split; [|split; [exact Hf2|split; [congruence|split; [congruence|]]]].
  - eapply runs_trans; [exact Hrun|]. eapply runs_trans.
    { pose proof (frame_loop_stop calloc frontend_handler_mgr_ (front_body p) (length l)
                    (set_world w1 s) [] l tail
                    (fun elapsed => Act (consumed b p elapsed) (fun _ => k 0))) as H.
      change (blen []) with 0 in H. rewrite !Z.add_0_l in H. apply H; [exact Hb1|].
      right. right. rewrite <- (announced_prefix l (drop (Z.to_nat (size (recv_buffer_
        (frontend_handler_mgr_ (rest (world s)))))) inp)) by lia.
      unfold l, seen in *. rewrite take_drop. lia. }
    change (set_world w2 s) with (set_world w2 (set_world w1 s)).
    apply (runs_act calloc _ (fun _ => k 0) (set_world w1 s) tt w2). exact E2.
  - rewrite Ht2, Z.add_0_r. by apply u64_id.
Qed.

(** C40: [destroyed_in_handler]. An application that removes a front end while it handles a
    message of it, as the connector does when a handshake fails, makes the framework
    count the message in the freed connection. *)
Theorem destroyed_in_handler {P : Protobuf} {R : RpcEnv P} {IS : IRpcService} {C A}
    {RA : RapidApp (App P C A)} calloc p b fd m inp n (s : CoroutineScheduler (App P C A)) k
    (act : bytes -> M (App P C A) Z) :
  (forall ty d k, OnRecvFrontEnd p ty d k = Act (act d) k) ->
  (forall rb, exists z w', act m (buffered rb (world s)) = Ok (z, w') /\
                           nets (heap w') !! p = None) ->
  front_ok p b fd false (frame m ++ inp) n (world s) -> frame_ok m ->
  blen (frame m) <= size (recv_buffer_ (frontend_handler_mgr_ (rest (world s)))) ->
  fails calloc (OnFrontEndMsg b k) s UseAfterFree.
Proof.
  intros Happ Hact Hf Hm Hsize.
  destruct (OnFrontEndMsg_begin calloc p b fd false _ n s k Hf)
    as (w1 & tail & [rb ->] & Hf1 & Hb1 & _ & _ & Hrun).
  set (w1 := buffered rb (world s)) in *.
  eapply runs_fails; [exact Hrun|].
  assert (Hl : exists l, seen (frame m ++ inp) (world s) = frame m ++ l).
  { unfold seen. rewrite take_app. eexists. f_equal. apply take_ge.
    unfold blen in Hsize. lia. }
  destruct Hl as [l Hl]. rewrite Hl in *.
  pose proof (frame_loop_round calloc frontend_handler_mgr_ (front_body p) (length (frame m ++ l))
                (set_world w1 s) [] m l tail
                (fun elapsed => Act (consumed b p elapsed) (fun _ => k 0)) Hb1 Hm) as H.
  change (blen []) with 0 in H. rewrite !Z.add_0_l in H.
  eapply runs_fails; [exact H|]. unfold front_body. eapply runs_fails.
  { apply (runs_read calloc _ _ (set_world w1 s) (net_type_ n)). cbn [world set_world]. unfold net_type.
    rewrite (bind_step _ _ w1 n w1); [done|].
    rewrite (on_net_ok _ _ _ _ (load_net_ok _ p n (fo_net _ _ _ _ _ _ _ Hf1))). by destruct w1. }
  cbv beta. rewrite Happ. destruct (Hact rb) as (z & w2 & Ea & Hnone).
  eapply runs_fails; [by apply (runs_act calloc _ _ (set_world w1 s) z w2)|]. cbv beta.
  apply fails_act. cbn [world set_world]. unfold count_pkg, on_net, upd_net, mbind, M_bind, load_net.
  by rewrite Hnone.
Qed.

(** ** A concrete front end *)

(** A service at the address 6 that answers the requests named "Q". *)
#[export] Instance demo_services : @IRpcService plain_protobuf :=
  { RpcRequestName _ := [81]; NewResponse _ := Some ([65], []) }.
#[local] Existing Instance easy_rpc_env.
#[local] Existing Instance demo_app.

(** The connection of [one_net] in the table of front ends, with a buffer of 64 bytes. *)
Definition front_table : NetHandlerMgr :=
  {| handler_pool_ := [(9, Some 3)];
     recv_buffer_ := {| buffer := Some (replicate 64 0); size := 64 |}; it_cursor_ := At 9 |}.
Definition queued (inp : bytes) : Heap Z :=
  set_bevs {[ 4 := {| bev_fd := 9; input := inp; output := [] |} ]} (set_tick 0 one_net).
Definition front_state (inp : bytes) : CoroutineScheduler (App plain_protobuf Z (list bytes)) :=
  CoroutineScheduler_new 10 (demo_world (queued inp) front_table no_nets TimerMgr_new).
Definition front_net : EasyNet := set_link 4 0 NET_ESTABLISHED (fresh_net 1).

Lemma front_state_ok inp : front_ok 3 4 9 false inp front_net (world (front_state inp)).
Proof.
  split; try done.
  - eexists. split; [reflexivity|done].
  - eexists. split; [reflexivity|done].
Qed.

Lemma demo_receiver : receiver 3 4 9 id (fun _ => keep_msg).
Proof.
  split; [done|]. intros ty m inp n w Hf. exists 0. eexists. exists n. split; [reflexivity|].
  split; [|done]. by destruct Hf.
Qed.

(** Two messages in three arrivals. *)
Lemma frontend_stream_witness :
  exists w', served any_calloc 4 (OnFrontEndMsg 4 (fun _ => Ret))
    [[0; 0; 0; 6; 7]; [8; 0; 0; 0]; [5; 9]] (front_state []) (set_world w' (front_state [])) /\
    app (rest w') = [[7; 8]; [9]].
Proof.
  destruct (frontend_stream any_calloc 3 4 9 id (fun _ => keep_msg) 8 8
    [[0; 0; 0; 6; 7]; [8; 0; 0; 0]; [5; 9]] [[7; 8]; [9]] [] front_net (front_state [])
    demo_receiver (front_state_ok []))
    as (w' & n' & ms1 & ms2 & part & Hs & Ems & _ & _ & Hl & _ & _ & Hend).
  - cbn. lia.
  - repeat constructor.
  - lia.
  - repeat constructor; by vm_compute.
  - repeat constructor; by vm_compute.
  - cbn. lia.
  - vm_compute. reflexivity.
  - exists w'. split; [exact Hs|]. destruct (Hend eq_refl) as [-> _].
    rewrite app_nil_r in Ems. subst ms1. exact Hl.
Defined.

Lemma short_frame_witness :
  fails any_calloc (OnFrontEndMsg 4 (fun _ => Ret)) (front_state [0; 0; 0; 2])
    OutOfBounds.
Proof.
  apply (short_frame any_calloc 3 4 9 [0; 0; 0; 2] front_net).
  - apply front_state_ok.
  - by vm_compute.
  - by vm_compute.
  - cbn. lia.
Defined.

Lemma oversized_frame_witness :
  exists w', runs any_calloc (OnFrontEndMsg 4 (fun _ => Ret))
    (front_state (store32 (htonl 65) ++ replicate 61 1)) Ret
    (set_world w' (front_state (store32 (htonl 65) ++ replicate 61 1))) /\ app (rest w') = [].
Proof.
  destruct (oversized_frame any_calloc 3 4 9 (store32 (htonl 65) ++ replicate 61 1)
    front_net (front_state (store32 (htonl 65) ++ replicate 61 1)) (fun _ => Ret)
    (front_state_ok _)) as (w' & n' & Hrun & _ & Ha & _).
  - by vm_compute.
  - by vm_compute.
  - cbn. lia.
  - exists w'. split; [exact Hrun|exact Ha].
Defined.

(** An application that removes every front end that sends a message. *)
Definition removing_app : RapidApp (App plain_protobuf Z (list bytes)) :=
  {| OnUpdate := fun k => k 0; OnReload := fun k => k 0;
     app_OnFrontEndConnect := fun _ _ k => k 0; app_OnFrontEndClose := fun _ _ k => k 0;
     OnRecvFrontEnd := fun p _ _ k => Act (_ ← DestroyFrontEnd (Some p); mret (-1)) k;
     OnRecvBackEnd := fun _ _ _ k => k 0; OnTimer := fun _ _ k => k 0;
     OnRpcCall := fun _ _ k => k; GetFrontEndContextSize := 0; GetBackEndContextSize := 0;
     GetFrontEndMaxMsgSize := 32; GetBackEndMaxMsgSize := 32 |}.

Lemma destroyed_in_handler_witness :
  fails any_calloc (OnFrontEndMsg (RA := removing_app) 4 (fun _ => Ret)) (front_state (frame [7]))
    UseAfterFree.
Proof.
  apply (destroyed_in_handler (RA := removing_app) any_calloc 3 4 9 [7] [] front_net
           (front_state (frame [7])) (fun _ => Ret) (fun _ => _ ← DestroyFrontEnd (Some 3); mret (-1))).
  - done.
  - intros rb. do 2 eexists. split; reflexivity.
  - apply front_state_ok.
  - by vm_compute.
  - by vm_compute.
Defined.
