(* ===== verification/CallPath.v ===== *)
(** * Calls from end to end

    A call goes through the framework of two processes: [RpcCall] queues the request, the
    other side cuts it out of the stream, finds the service and queues what the closure
    answers, and the answer is cut out of the stream here and wakes the coroutine of its
    call.  The definitions are those of [EasyRpc], [Framework] and [MsgLoop]; this file
    puts their theorems together. *)
From Stdlib Require Import ZArith Lia.
From stdpp Require Import base list gmap fin_maps.
From S2P Require Import Prelude CLib TcpSocket Timer Coroutine EasyNet NetMgr RpcMsg EasyRpc.
From S2P Require Import Framework MsgLoop.
Local Open Scope Z_scope.

(** The numbers that requests get from [aid] on. *)
Fixpoint numbered {A} (aid : Z) (ms : list A) : list (Z * A) :=
  match ms with
  | [] => []
  | m :: ms => (aid, m) :: numbered (aid + 1) ms
  end.

Lemma numbered_forall {A} (Q : A -> Prop) ms : forall aid,
  Forall Q ms -> 0 <= aid -> aid + Z.of_nat (length ms) <= 18446744073709551616 ->
  Forall (fun r => 0 <= fst r < 18446744073709551616 /\ Q (snd r)) (numbered aid ms).
Proof.
  induction ms as [|m ms IH]; intros aid H Ha Hl; [constructor|].
  apply Forall_cons in H as [Hm H]. cbn [length] in Hl. constructor; [cbn; split; [lia|done]|].
  apply IH; [done|lia|lia].
Qed.

(** A request and its answer on the wire, for the id and the message. *)
Definition request_bytes {P : Protobuf} (q : Z * Message) : bytes :=
  rpc_SerializeToString (wire_of RPC_TYPE_REQUEST (fst q) (snd q)).
Definition answer_bytes {P : Protobuf} (f : Message -> Message) (q : Z * Message) : bytes :=
  rpc_SerializeToString (wire_of RPC_TYPE_RESPONSE (fst q) (f (snd q))).

(** ** The caller *)

Section Caller.
Context {P : Protobuf} {POk : ProtobufOk P} {R : RpcEnv P} {IS : IRpcService} {C A : Type}.
Context {E : NetEnv C} {RA : RapidApp (App P C A)}.
Context (calloc : gmap Z (COROUTINECTX (App P C A)) -> option Z).
Context (p b fd this : Z).
Context (body : Z -> option Message -> option Message -> Z -> Z -> M (App P C A) Z).
Implicit Types (s : CoroutineScheduler (App P C A)) (w : App P C A).

(** What a callback is called with: the request, the response, the argument, the status. *)
Definition entry : Type := (Message * Message * Z * Z)%type.
Context (log : A -> list entry).

(** The connection [p] with its bufferevent [b] is in the table of back ends and bound to
    the object [this] for calls; [inp] is queued on it. *)
Record back_ok (inp : bytes) w : Prop := {
  bo_app : app_ (rest w) = true;
  bo_net : exists n, nets (heap w) !! p = Some n /\ hevent_ n = Some b /\
             state_ n = NET_ESTABLISHED /\ rpc_binded_ n = Some this;
  bo_bev : exists x, bevs (heap w) !! b = Some x /\ bev_fd x = fd /\ input x = inp;
  bo_pool : pool_find (handler_pool_ (backend_handler_mgr_ (rest w))) fd = Some (Some p);
  bo_buf : exists buf, buffer (recv_buffer_ (backend_handler_mgr_ (rest w))) = Some buf /\
                       blen buf = size (recv_buffer_ (backend_handler_mgr_ (rest w)))
}.

Lemma back_ok_frame inp w w' :
  heap w' = heap w -> rest w' = rest w -> back_ok inp w -> back_ok inp w'.
Proof using. intros Hh Hr []. split; by rewrite ?Hh, ?Hr. Qed.

(** The callbacks note what they are called with; they may do more, but leave the calls,
    the connection and the buffer alone. *)
Definition noting : Prop :=
  quiet body /\
  forall fn m d a st inp w, back_ok inp w ->
    exists z w', body fn (Some m) (Some d) a st w = Ok (z, w') /\ back_ok inp w' /\
      recv_buffer_ (backend_handler_mgr_ (rest w')) = recv_buffer_ (backend_handler_mgr_ (rest w)) /\
      log (app (rest w')) = log (app (rest w)) ++ [(m, d, a, st)].

(** [r] is an answer to the call [x], whose callback then gets [e]. *)
Definition answered_by (x : call) (r : RpcMessage) (e : entry) : Prop :=
  rpc_wf r /\ asyncid r = cp_asyncid (pair x) /\
  exists m d, request (what x) = Some m /\ response (what x) = Some d /\
    e = (m, snd (reply r d), ctx_arg (what x), fst (reply r d)).

Lemma rpc_inv_world net l s w :
  rpc_inv body this net l s -> rpcs w = rpcs (world s) -> rpc_ctxs w = rpc_ctxs (world s) ->
  asyncid_seed w = asyncid_seed (world s) -> rpc_inv body this net l (set_world w s).
Proof using.
  intros [H1 H2 H3 H4 H5 H6 H7 H8] Er Ec Es. split; cbn [world set_world]; rewrite ?Er, ?Es; try done.
  - by apply idle_world.
  - rewrite Forall_forall in H3 |- *. intros x Hx. eapply waits_frame; [by apply H3|done|].
    cbn. by rewrite Ec.
Qed.

(** An answer to one of the calls. *)
Lemma back_message x r e l1 l2 inp s next :
  noting -> rpc_inv body this p (l1 ++ x :: l2) s -> back_ok inp (world s) -> answered_by x r e ->
  exists s', runs calloc (back_body p (rpc_SerializeToString r) next) s next s' /\
    rpc_inv body this p (l1 ++ l2) s' /\ back_ok inp (world s') /\
    recv_buffer_ (backend_handler_mgr_ (rest (world s')))
    = recv_buffer_ (backend_handler_mgr_ (rest (world s))) /\
    log (app (rest (world s'))) = log (app (rest (world s))) ++ [e].
Proof using POk.
  intros [Hq Hnote] Hinv Hb (Hwf & Hid & m & d & Hm & Hd & ->).
  destruct (bo_net _ _ Hb) as (n & Hn & Hev & Hst & Hbind).
  destruct (Resume_ok calloc body this p l1 x l2 s r m d (fun _ => next) Hq Hinv Hwf Hid Hm Hd)
    as (s' & w1 & z & w2 & Hrun & Hinv' & Hbody & Hh1 & Hr1 & _ & Hh2 & Hr2 & _).
  destruct (Hnote (callback (what x)) m (snd (reply r d)) (ctx_arg (what x)) (fst (reply r d)) inp w1)
    as (z' & w2' & Hbody' & Hb2 & Hbuf & Hlog).
  { by apply (back_ok_frame inp (world s)). }
  rewrite Hbody in Hbody'. injection Hbody' as <- <-.
  exists s'. rewrite Hr1 in Hbuf, Hlog. rewrite Hr2.
  split; [|split; [done|split; [by apply (back_ok_frame inp w2)|done]]].
  unfold back_body. eapply runs_trans; [|exact Hrun].
  refine (runs_read calloc _ _ s (Some this) _).
  rewrite (bind_step _ _ (world s) n (world s)).
  2: { rewrite (on_net_ok _ _ _ _ (load_net_ok _ p n Hn)). by destruct (world s). }
  rewrite Hbind. rewrite (bind_step _ _ (world s) true (world s)); [done|]. unfold IsActive.
  rewrite (bind_step _ _ (world s) _ (world s))
    by (unfold load_rpc; by rewrite (ri_this _ _ _ _ _ Hinv)).
  cbn [crid_list_]. by destruct l1.
Qed.
Lemma back_ok_arrive inp w c :
  back_ok inp w -> back_ok (inp ++ c) (arrive b c w) /\ rest (arrive b c w) = rest w /\
    rpcs (arrive b c w) = rpcs w /\ rpc_ctxs (arrive b c w) = rpc_ctxs w /\
    asyncid_seed (arrive b c w) = asyncid_seed w.
Proof using.
  intros [H1 H2 (x & Hx & Hxf & Hxi) H4 H5]. unfold arrive. rewrite Hx. split; [|done].
  split; try done. eexists. split; [apply lookup_insert_eq|]. by rewrite <- Hxi.
Qed.

Lemma back_ok_drained inp w k :
  back_ok inp w -> evbuffer_drain b k w = Ok (tt, drained b k w) /\
    back_ok (drop (Z.to_nat k) inp) (drained b k w) /\ rest (drained b k w) = rest w /\
    rpcs (drained b k w) = rpcs w /\ rpc_ctxs (drained b k w) = rpc_ctxs w /\
    asyncid_seed (drained b k w) = asyncid_seed w.
Proof using.
  intros [H1 H2 (x & Hx & Hxf & Hxi) H4 H5]. destruct (drain_ok b k w x Hx) as [Hd Hb].
  split; [exact Hd|]. unfold drained in *. rewrite Hx in *. split; [|done].
  split; try done. eexists. split; [exact Hb|]. by rewrite <- Hxi.
Qed.

Lemma back_ok_linked inp w : back_ok inp w -> back_linked p b fd inp w.
Proof using. intros [H1 (n & Hn & Hev & _) H3 H4 H5]. split; eauto. Qed.

(** Between the arrivals of the answers [ans], of which [ms] are to come: their calls
    wait, with the calls [l0] that are not answered. *)
Definition awaiting (total : list entry) (l0 : list call) (room : Z) (q : bytes) (ms : list bytes) s
    : Prop :=
  exists ans es l, ms = map (fun xr : call * RpcMessage => rpc_SerializeToString (snd xr)) ans /\
    Forall2 (fun xr e => answered_by (fst xr) (snd xr) e) ans es /\
    rpc_inv body this p l s /\ l ≡ₚ map fst ans ++ l0 /\ back_ok q (world s) /\
    size (recv_buffer_ (backend_handler_mgr_ (rest (world s)))) = room /\
    log (app (rest (world s))) ++ es = total.

Lemma awaiting_round total l0 room q m ms s next :
  noting -> awaiting total l0 room q (m :: ms) s ->
  exists s1, runs calloc (back_body p m next) s next s1 /\ awaiting total l0 room q ms s1 /\
    recv_buffer_ (backend_handler_mgr_ (rest (world s1)))
    = recv_buffer_ (backend_handler_mgr_ (rest (world s))).
Proof using POk.
  intros Hnote (ans & es & l & Hms & Hans & Hinv & Hl & Hb & Hroom & Htotal).
  destruct ans as [|[x r] ans]; [done|]. injection Hms as -> ->.
  apply Forall2_cons_inv_l in Hans as (e & es' & He & Hans & ->). cbn [fst snd map app] in *.
  destruct (list_elem_of_split l x) as (l1 & l2 & ->); [rewrite Hl; left|].
  rewrite <- Permutation_middle in Hl. apply (Permutation_cons_inv (a := x)) in Hl.
  destruct (back_message x r e l1 l2 q s next Hnote Hinv Hb He)
    as (s1 & Hrun & Hinv1 & Hb1 & Hbuf & Hlog).
  exists s1. split; [exact Hrun|]. split; [|exact Hbuf]. exists ans, es', (l1 ++ l2).
  repeat (split; [done|]). split; [by rewrite Hbuf|]. rewrite Hlog, <- app_assoc. exact Htotal.
Qed.

Lemma awaiting_world total l0 room q q' ms s w :
  awaiting total l0 room q ms s -> back_ok q' w -> rpcs w = rpcs (world s) ->
  rpc_ctxs w = rpc_ctxs (world s) -> asyncid_seed w = asyncid_seed (world s) ->
  size (recv_buffer_ (backend_handler_mgr_ (rest w)))
  = size (recv_buffer_ (backend_handler_mgr_ (rest (world s)))) ->
  app (rest w) = app (rest (world s)) -> awaiting total l0 room q' ms (set_world w s).
Proof using.
  intros (ans & es & l & Hms & Hans & Hinv & Hl & Hb & Hroom & Htotal) Hb' Hr Hc Hs Hsize Happ.
  exists ans, es, l. repeat (split; [done|]). split; [by apply rpc_inv_world|]. cbn [world set_world].
  rewrite Hsize, Happ. done.
Qed.

(** One arrival. *)
Lemma awaiting_arrival total l0 room q c ms1 ms2 part s :
  noting -> awaiting total l0 room q (ms1 ++ ms2) s -> q ++ c = frames ms1 ++ part ->
  incomplete part -> Forall frame_ok ms1 -> blen (q ++ c) <= room ->
  exists s', runs calloc (OnBackEndMsg b (fun _ => Ret)) (set_world (arrive b c (world s)) s) Ret s' /\
    awaiting total l0 room part ms2 s'.
Proof using POk.
  intros Hnote HJ Eq Hi Hok Hroom. pose proof HJ as (_ & _ & _ & _ & _ & _ & _ & Hb & Hsize & _).
  destruct (back_ok_arrive q (world s) c Hb) as (Hb1 & Er & Er1 & Ec1 & Es1).
  set (w0 := arrive b c (world s)) in *. rewrite Eq in Hb1, Hroom.
  assert (HJ0 : awaiting total l0 room (frames ms1 ++ part) (ms1 ++ ms2) (set_world w0 s)).
  { apply (awaiting_world total l0 room q); try done; by rewrite Er. }
  destruct (OnBackEndMsg_begin calloc p b fd (frames ms1 ++ part) (set_world w0 s) (fun _ => Ret))
    as (rb & tail & Hl2 & Hrb & Hrs & Hrun); cbn [world set_world] in *.
  { by apply back_ok_linked. }
  rewrite take_ge in Hrb, Hrun by (rewrite Er, Hsize; unfold blen in Hroom; lia).
  set (w1 := back_buffered rb w0) in *.
  assert (Hb2 : back_ok (frames ms1 ++ part) w1).
  { pose proof Hl2 as [_ _ _ _ G5]. destruct Hb1 as [G1 G2 G3 G4 _]. by split. }
  assert (HJ1 : awaiting total l0 room (frames ms1 ++ part) (ms1 ++ ms2) (set_world w1 s)).
  { apply (awaiting_world total l0 room q); try done; cbn; [by rewrite Hrs, Er|by rewrite Er]. }
  destruct (frame_loop_keeps calloc backend_handler_mgr_ (back_body p)
    (fun ms s => awaiting total l0 room (frames ms1 ++ part) (ms ++ ms2) s) part tail
    (fun elapsed => Act (evbuffer_drain b elapsed) (fun _ => Ret))) with ms1
    (S (length (frames ms1 ++ part))) (set_world w1 s) (@nil Z)
    as (s2 & Hrun2 & HJ2 & _); try done.
  { intros m ms s2 next H2. cbn [app] in H2.
    destruct (awaiting_round total l0 room _ m (ms ++ ms2) s2 next Hnote H2) as (s3 & Ha & Hb3 & Hc3).
    eauto. }
  { rewrite length_app. pose proof (frames_length ms1). lia. }
  change (blen []) with 0 in Hrun2. rewrite !Z.add_0_l in Hrun2. cbn [app] in HJ2.
  pose proof HJ2 as (_ & _ & _ & _ & _ & _ & _ & Hb3 & _).
  destruct (back_ok_drained _ (world s2) (blen (frames ms1)) Hb3) as (Hd & Hb4 & Er4 & Er5 & Ec5 & Es5).
  exists (set_world (drained b (blen (frames ms1)) (world s2)) s2). split.
  - eapply runs_trans; [exact Hrun|]. eapply runs_trans; [exact Hrun2|].
    by apply (runs_act calloc _ (fun _ => Ret) s2 tt).
  - unfold blen in Hb4 at 1. rewrite Nat2Z.id, drop_app_length in Hb4.
    apply (awaiting_world total l0 room (frames ms1 ++ part)); try done; by rewrite Er4.
Qed.
(** All answers of a stream. *)
Lemma answers_ok B D chunks ans es l0 l s :
  noting -> rpc_inv body this p l s -> l ≡ₚ map fst ans ++ l0 -> back_ok [] (world s) ->
  Forall2 (fun xr e => answered_by (fst xr) (snd xr) e) ans es ->
  let ms := map (fun xr : call * RpcMessage => rpc_SerializeToString (snd xr)) ans in
  Forall frame_ok ms -> 0 < B -> Forall (fun m => blen (frame m) <= B) ms ->
  Forall (fun c => blen c <= D) chunks ->
  B + D <= size (recv_buffer_ (backend_handler_mgr_ (rest (world s)))) ->
  List.concat chunks = frames ms ->
  exists s' l', served calloc b (OnBackEndMsg b (fun _ => Ret)) chunks s s' /\
    rpc_inv body this p l' s' /\ l' ≡ₚ l0 /\ back_ok [] (world s') /\
    log (app (rest (world s'))) = log (app (rest (world s))) ++ es.
Proof using POk.
  intros Hnote Hinv Hl Hb Hans ms Hok HB HmB HcD Hsize Eq.
  set (room := size (recv_buffer_ (backend_handler_mgr_ (rest (world s))))) in *.
  destruct (served_stream calloc b (OnBackEndMsg b (fun _ => Ret))
    (awaiting (log (app (rest (world s))) ++ es) l0 room) room
    (fun q c ms1 ms2 part s' => awaiting_arrival _ l0 room q c ms1 ms2 part s' Hnote)
    B D chunks [] ms [] s) as (s' & ms1 & ms2 & part & H1 & H2 & _ & _ & H5 & HJ); try done.
  - exists ans, es, l. repeat (split; [done|]). done.
  - by rewrite app_nil_r.
  - by left.
  - destruct (H5 eq_refl) as [-> ->]. destruct HJ as (ans' & es' & l' & Ha & Hans' & Hi & Hl' & Hb' & _ & Ht).
    destruct ans'; [|done]. apply Forall2_nil_inv_l in Hans' as ->. rewrite app_nil_r in Ht.
    exists s', l'. auto 10.
Qed.

(** ** Making calls *)

(** A call to make: the request, the message for the response, the callback and its
    argument. *)
Definition ask_for : Type := (Message * Message * Z * Z)%type.

(** An application that makes one call after the other. *)
Fixpoint call_all (qs : list ask_for) (k : code (App P C A)) : code (App P C A) :=
  match qs with
  | [] => k
  | (m, d, cb, a) :: qs =>
      AppFrameWork_RpcCall (plain_callback body) (Some this) (Some m) (Some d) cb a
        (fun _ => call_all qs k)
  end.

(** The calls [xs] are those of [qs], under the ids from [aid] on. *)
Fixpoint made (aid : Z) (qs : list ask_for) (xs : list call) : Prop :=
  match qs, xs with
  | [], [] => True
  | (m, d, cb, a) :: qs, x :: xs =>
      cp_asyncid (pair x) = aid /\ request (what x) = Some m /\ response (what x) = Some d /\
      ctx_arg (what x) = a /\ made (aid + 1) qs xs
  | _, _ => False
  end.

Definition asked (q : ask_for) : Message := fst (fst (fst q)).
Definition can_ask (q : ask_for) : Prop :=
  let '(m, _, cb, _) := q in cb <> 0 /\ blen (GetTypeName m) < MAX_MESSAGE_NAME.

Lemma back_ok_queued inp w x msg :
  back_ok inp w -> bevs (heap w) !! b = Some x ->
  forall w', heap w' = EasyNet.queued b x msg (heap w) -> rest w' = rest w ->
  back_ok inp w' /\ sent b w' = sent b w ++ frame msg.
Proof using.
  intros [H1 H2 (x' & Hx' & Hxf & Hxi) H4 H5] Hx w' Hh Hr. rewrite Hx in Hx'. injection Hx' as <-.
  split; [|unfold sent; by rewrite Hh, Hx; cbn; rewrite lookup_insert_eq].
  split; rewrite ?Hr, ?Hh; try done. cbn. rewrite lookup_insert_eq. by eexists.
Qed.

Lemma calls_queued {ROk : RpcEnvOk R} inp k qs : forall l s,
  writes_succeed E -> (forall h, exists q, calloc h = Some q /\ h !! q = None) ->
  (forall h, is_Some (new_context h)) -> Forall can_ask qs ->
  rpc_inv body this p l s -> back_ok inp (world s) ->
  Z.of_nat (base.size (coroutine_table_ s)) + Z.of_nat (length qs) <= u64 (coroutine_max_ s) ->
  asyncid_seed (world s) + Z.of_nat (length qs) < 18446744073709551616 ->
  cid_seed s + Z.of_nat (length qs) <= 2147483647 ->
  exists s' xs, runs calloc (call_all qs k) s k s' /\ rpc_inv body this p (l ++ xs) s' /\
    made (asyncid_seed (world s)) qs xs /\ back_ok inp (world s') /\ rest (world s') = rest (world s) /\
    sent b (world s') = sent b (world s) ++ frames (map request_bytes
      (numbered (asyncid_seed (world s)) (map asked qs))).
Proof using POk.
  induction qs as [|[[[m d] cb] a] qs IH]; intros l s Hw Hcal Hctx Hqs Hinv Hb Hmax Hseed Hnum.
  - exists s, []. rewrite !app_nil_r. repeat (split; [done|]). split; [apply runs_refl|done].
  - apply Forall_cons in Hqs as [[Hcb Hname] Hqs].
    destruct (Hctx (rpc_ctxs (world s))) as [ctx Ec]. destruct (Hcal (ctxs s)) as (q & Eq & Hq).
    destruct (bo_net _ _ Hb) as (n & Hn & Hev & Hst & _).
    destruct (bo_bev _ _ Hb) as (x & Hx & _).
    set (aid := asyncid_seed (world s)) in *.
    set (msg := rpc_SerializeToString (wire_of RPC_TYPE_REQUEST aid m)).
    cbn [length] in Hmax, Hseed, Hnum.
    destruct (RpcCall_ok calloc) with body this p l s m (Some d) cb a (fun _ : Z => call_all qs k) ctx q
      EASY_NET_OK (EasyNet.queued b x msg (heap (world s)))
      as (s1 & Hrun & Hinv1 & Hh1 & _ & _ & Hr1 & _ & _ & _ & Htab & Hseed1 & Hnum1); try done.
    { intros h q0 E0. destruct (Hcal h) as (q1 & E1 & Hn1). congruence. }
    { unfold numbers_left. lia. }
    { lia. }
    { lia. }
    { by apply (EasyNet_Send_queued _ p n), rpc_serialize_nonempty. }
    destruct (back_ok_queued inp (world s) x msg Hb Hx (world s1) Hh1 Hr1) as [Hb1 Hsent].
    destruct (IH (l ++ [new_call this m (Some d) cb a s ctx]) s1) as (s2 & xs & Hrun2 & Hinv2 & Hmade & Hb2 & Hr2 & Hs2);
      try done.
    { rewrite Htab, (runs_max _ _ _ _ _ Hrun), map_size_insert.
      destruct (coroutine_table_ s !! cid_seed s); unfold id; lia. }
    { lia. }
    { lia. }
    exists s2, (new_call this m (Some d) cb a s ctx :: xs).
    rewrite <- app_assoc in Hinv2. rewrite Hseed1 in Hmade, Hs2. fold aid in Hmade, Hs2.
    split; [|split; [done|split; [by repeat split|split; [done|split; [congruence|]]]]].
    + cbn [call_all]. unfold AppFrameWork_RpcCall. destruct (Z.eqb_spec cb 0); [done|].
      eapply runs_trans; [exact Hrun|exact Hrun2].
    + rewrite Hs2, Hsent, <- app_assoc. f_equal.
Qed.
(** The answers of a service that computes [f], and what the callbacks get. *)
Definition outcome_for (f : Message -> Message) (q : ask_for) : entry :=
  let '(m, _, _, a) := q in (m, f m, a, 0).
Definition fits (f : Message -> Message) (q : ask_for) : Prop :=
  let '(m, d, _, _) := q in GetTypeName d = GetTypeName (f m).

Lemma made_answers f qs : forall aid xs,
  made aid qs xs -> Forall (fits f) qs -> 0 <= aid ->
  aid + Z.of_nat (length qs) <= 18446744073709551616 ->
  exists ans, map fst ans = xs /\
    map (fun xr : call * RpcMessage => rpc_SerializeToString (snd xr)) ans
    = map (answer_bytes f) (numbered aid (map asked qs)) /\
    Forall2 (fun xr e => answered_by (fst xr) (snd xr) e) ans (map (outcome_for f) qs).
Proof using POk.
  induction qs as [|[[[m d] cb] a] qs IH]; intros aid [|x xs] Hmade Hfit Ha Hl; try done.
  - by exists [].
  - destruct Hmade as (Hid & Hm & Hd & Harg & Hmade). apply Forall_cons in Hfit as [Hf Hfit].
    cbn [length] in Hl. destruct (IH (aid + 1) xs) as (ans & E1 & E2 & E3); [done|done|lia|lia|].
    exists ((x, wire_of RPC_TYPE_RESPONSE aid (f m)) :: ans). cbn [map fst snd]. rewrite E1, E2.
    split; [done|]. split; [done|]. constructor; [|done]. cbn [fst snd].
    split; [apply wire_of_wf; unfold RPC_TYPE_RESPONSE; lia|]. split; [done|].
    exists m, d. split; [done|]. split; [done|]. unfold reply. cbn [msg_type wire_of msg_bin].
    rewrite parse_serialize by exact Hf. cbn. by rewrite Harg.
Qed.

(** A caller that is ready to make [count] calls. *)
Record caller_ready (count : Z) s : Prop := {
  cr_noting : noting;
  cr_writes : writes_succeed E;
  cr_calloc : forall h, exists q, calloc h = Some q /\ h !! q = None;
  cr_context : forall h, is_Some (new_context h);
  cr_calls : rpc_inv body this p [] s;
  cr_conn : back_ok [] (world s);
  cr_room : Z.of_nat (base.size (coroutine_table_ s)) + count <= u64 (coroutine_max_ s);
  cr_ids : asyncid_seed (world s) + count < 18446744073709551616;
  cr_numbers : cid_seed s + count <= 2147483647
}.
End Caller.

(** ** The service *)

Section Service.
Context {P : Protobuf} {POk : ProtobufOk P} {R : RpcEnv P} {ROk : RpcEnvOk R} {IS : IRpcService}.
Context {C A : Type} {E : NetEnv C} {RA : RapidApp (App P C A)}.
Context (calloc : gmap Z (COROUTINECTX (App P C A)) -> option Z).
Context (p b fd : Z) (f : Message -> Message) (serve : Z -> Z -> M (App P C A) unit).
Implicit Types (s : CoroutineScheduler (App P C A)) (w : App P C A) (n : EasyNet).

(** Services that compute [f]: to a request of its type and a response it has made itself
    a service answers at once, with the value of [f]. *)
Definition answering : Prop :=
  (forall svc c k, OnRpcCall svc c k = Act (serve svc c) (fun _ => k)) /\
  forall svc c clo m d w, closures w !! c = Some clo -> req_ clo = Some m -> rsp_ clo = Some d ->
    GetTypeName m = RpcRequestName svc -> NewResponse svc = Some d ->
    serve svc c w = (_ ← fill_response c (f m); Closure_Done c) w.

(** A request that can be answered by the services in the table [t]. *)
Definition answerable (t : RpcServerMgr) (m : Message) : Prop :=
  (exists svc, GetRpcService t (GetTypeName m) = Some svc /\ RpcRequestName svc = GetTypeName m /\
     is_Some (NewResponse svc)) /\
  is_Some (FindPrototype (GetTypeName m)) /\ blen (GetTypeName (f m)) < MAX_MESSAGE_NAME.

(** The state of an established connection behind [Send]. *)
Definition sent_more (msg : bytes) w w' : Prop :=
  exists x, bevs (heap w) !! b = Some x /\ heap w' = EasyNet.queued b x msg (heap w).

Lemma Closure_Done_ok w c clo n req rsp :
  writes_succeed E -> closures w !! c = Some clo -> clo_net_ clo = Some p -> req_ clo = Some req ->
  rsp_ clo = Some rsp -> blen (GetTypeName rsp) < MAX_MESSAGE_NAME ->
  nets (heap w) !! p = Some n -> hevent_ n = Some b -> state_ n = NET_ESTABLISHED ->
  is_Some (bevs (heap w) !! b) ->
  exists w', Closure_Done c w = Ok (tt, w') /\
    sent_more (rpc_SerializeToString (wire_of RPC_TYPE_RESPONSE (async_id_ clo) rsp)) w w' /\
    closures w' = delete c (closures w) /\
    held (gen w') = (messages (gen w) - 1, responses (gen w) - 1) /\ rest w' = rest w.
Proof using POk.
  intros Hw Hc Hnet Hreq Hrsp Hname Hn Hev Hst [x Hx].
  set (msg := rpc_SerializeToString _).
  assert (Hmsg : msg <> []) by apply rpc_serialize_nonempty.
  eexists. split; [|split; [exists x; split; [exact Hx|]|]].
  - unfold Closure_Done. rewrite (bind_step _ _ w clo w) by (unfold load_closure; by rewrite Hc).
    unfold finish_closure. rewrite Hnet, Hreq, Hrsp, MessageToBinary_ok by done. fold msg.
    erewrite bind_step; [reflexivity|]. erewrite bind_step.
    2: { erewrite bind_step; [reflexivity|].
         exact (on_net_ok _ w _ _ (EasyNet_Send_queued (heap w) p n b x msg Hw Hn Hev Hx Hst Hmsg)). }
    reflexivity.
  - done.
  - done.
Qed.

(** One request: the answer is queued, and nothing is kept. *)
Lemma OnFrontEndRpcMsg_ok t aid m n s k :
  answering -> writes_succeed E -> (forall h, is_Some (new_closure h)) -> answerable t m ->
  rpc_svc_mgr_ (rest (world s)) = Some t -> 0 <= aid < 18446744073709551616 ->
  nets (heap (world s)) !! p = Some n -> hevent_ n = Some b -> state_ n = NET_ESTABLISHED ->
  is_Some (bevs (heap (world s)) !! b) ->
  exists w', runs calloc (OnFrontEndRpcMsg (Some p)
      (rpc_SerializeToString (wire_of RPC_TYPE_REQUEST aid m)) k) s (k 1) (set_world w' s) /\
    sent_more (rpc_SerializeToString (wire_of RPC_TYPE_RESPONSE aid (f m))) (world s) w' /\
    closures w' = closures (world s) /\ held (gen w') = held (gen (world s)) /\
    rest w' = rest (world s).
Proof using POk ROk.
  intros [Hcall Hans] Hw Hnew [(svc & Hsvc & Hnm & [resp Hresp]) [[proto Hproto] Hname]] Ht Haid Hn Hev Hst Hx.
  set (w := world s) in *.
  set (w0 := set_gen {| rpc_msg_ := wire_of RPC_TYPE_REQUEST aid m;
                        messages := messages (gen w) + 1; responses := responses (gen w) |} w).
  set (w1 := set_gen {| rpc_msg_ := wire_of RPC_TYPE_REQUEST aid m;
                        messages := messages (gen w) + 1; responses := responses (gen w) + 1 |} w).
  destruct (Hnew (closures w1)) as [c Hc]. pose proof (new_closure_fresh _ _ Hc) as Hfresh.
  set (clo := {| user_data_ := 0; async_id_ := aid; req_ := Some m; rsp_ := Some (f m);
                 clo_net_ := Some p; is_done_ := false |}).
  set (at_closure x := set_closures (<[c := x]> (closures w1)) w1).
  destruct (Closure_Done_ok (at_closure clo) c clo n m (f m)) as (w' & Hd & Hs' & Hc' & Hm' & Hr');
    try done.
  { cbn. apply lookup_insert_eq. }
  exists w'. split; [|split; [exact Hs'|split; [|split; [|exact Hr']]]].
  - unfold OnFrontEndRpcMsg. eapply runs_trans.
    { apply (runs_act calloc _ _ s (Some m) w0). apply on_gen_ok.
      by apply (SpawnMessage_ok _ _ _ proto). }
    eapply runs_trans.
    { apply (runs_read calloc _ _ (set_world w0 s) (Some t)). rewrite (fw_ok rpc_svc_mgr_).
      by change (rest (world (set_world w0 s))) with (rest w); rewrite Ht. }
    cbv beta iota zeta. rewrite Hsvc. eapply runs_trans.
    { apply (runs_act calloc (new_response svc) _ (set_world w0 s) (Some resp) w1).
      unfold new_response. by rewrite Hresp. }
    cbv beta iota zeta.
    set (clo0 := {| user_data_ := 0; async_id_ := 0; req_ := None; rsp_ := None;
                    clo_net_ := None; is_done_ := false |}).
    eapply runs_trans; [apply (runs_act calloc _ _ (set_world w1 s) (Some c) (at_closure clo0))|].
    { unfold EasyRpcClosure_new. rewrite (bind_step get _ _ _ _ eq_refl). cbn [world set_world].
      by rewrite Hc. }
    set (clo1 := {| user_data_ := 0; async_id_ := aid; req_ := Some m; rsp_ := Some resp;
                    clo_net_ := Some p; is_done_ := false |}).
    eapply runs_trans; [apply (runs_act calloc _ _ _ 0 (at_closure clo1))|].
    { rewrite (bind_step get _ _ _ _ eq_refl). unfold Closure_Set.
      rewrite (bind_step _ _ _ clo0 (at_closure clo0)).
      2: { unfold load_closure. cbn. by rewrite lookup_insert_eq. }
      unfold store_closure, at_closure, modify, mbind, M_bind. cbn. by rewrite insert_insert_eq. }
    cbn [Z.eqb negb]. rewrite Hcall.
    refine (runs_act calloc (serve svc c) (fun _ => k 1) _ tt w' _). cbn [world set_world].
    assert (Hload : forall x, load_closure c (at_closure x) = Ok (x, at_closure x)).
    { intros x. unfold load_closure. cbn. by rewrite lookup_insert_eq. }
    rewrite (Hans svc c clo1 m resp); try done; [|cbn; apply lookup_insert_eq].
    rewrite (bind_step _ _ _ tt (at_closure clo)); [exact Hd|].
    unfold fill_response. rewrite (bind_step _ _ _ _ _ (Hload clo1)).
    unfold store_closure, at_closure, modify. cbn. by rewrite insert_insert_eq.
  - rewrite Hc'. cbn. by apply delete_insert_id.
  - rewrite Hm'. unfold held. cbn. f_equal; lia.
Qed.
(** Between the arrivals of a stream of requests, of which [ms] are to come: all answers
    together make [total], and no closure and no message is kept. *)
Definition serving (t : RpcServerMgr) (total : bytes) cls (g : Z * Z) (room : Z) (q : bytes) (ms : list bytes) s
    : Prop :=
  exists n reqs, ms = map request_bytes reqs /\
    Forall (fun r => 0 <= fst r < 18446744073709551616 /\ answerable t (snd r)) reqs /\
    front_ok p b fd true q n (world s) /\ state_ n = NET_ESTABLISHED /\
    rpc_svc_mgr_ (rest (world s)) = Some t /\
    size (recv_buffer_ (frontend_handler_mgr_ (rest (world s)))) = room /\
    sent b (world s) ++ frames (map (answer_bytes f) reqs) = total /\
    closures (world s) = cls /\ held (gen (world s)) = g.

Lemma front_ok_sent rpc q n w w' msg :
  front_ok p b fd rpc q n w -> sent_more msg w w' -> rest w' = rest w ->
  front_ok p b fd rpc q n w' /\ sent b w' = sent b w ++ frame msg.
Proof using.
  intros [H1 H2 H3 H4 (x' & Hx' & Hxf & Hxi) H6 H7] (x & Hx & Hh) Hr.
  rewrite Hx in Hx'. injection Hx' as <-.
  split; [|unfold sent; by rewrite Hh, Hx; cbn; rewrite lookup_insert_eq].
  split; rewrite ?Hr, ?Hh; try done. cbn. rewrite lookup_insert_eq. by eexists.
Qed.

Lemma serving_round t total cls g room q m ms k s next :
  answering -> writes_succeed E -> (forall h, is_Some (new_closure h)) ->
  serving t total cls g room q (m :: ms) s ->
  exists s1, runs calloc (request_body p k m next) s next s1 /\
    serving t total cls g room q ms s1 /\
    recv_buffer_ (frontend_handler_mgr_ (rest (world s1)))
    = recv_buffer_ (frontend_handler_mgr_ (rest (world s))).
Proof using POk ROk.
  intros Hans Hw Hnew (n & reqs & Hms & Hreqs & Hf & Hst & Ht & Hroom & Htotal & Hcls & Hg).
  destruct reqs as [|[aid x] reqs]; [done|]. injection Hms as -> ->.
  apply Forall_cons in Hreqs as [[Haid Hx] Hreqs]. cbn [fst snd] in Haid, Hx.
  pose proof Hf as [_ _ Hn Hev (xb & Hxb & _) _ _].
  set (count := fun n => set_pkg_counts (prev_pkg_count_ n) (u64 (curr_pkg_count_ n + 1)) n).
  destruct (OnFrontEndRpcMsg_ok t aid x n s (fun ret => if ret <? 0
      then Act (log_net p) (fun _ => Act (on_frontend (RemoveHandler (Some p))) (fun _ => k (-1)))
      else Act (count_pkg p) (fun _ => next)))
    as (w1 & Hrun & Hs1 & Hc1 & Hg1 & Hr1); try done.
  destruct (front_ok_sent true q n (world s) w1 _ Hf Hs1 Hr1) as [Hf1 Hsent].
  pose proof (front_ok_upd p b fd true q n w1 count Hf1 eq_refl) as Hf2.
  set (w2 := set_heap _ w1) in Hf2.
  exists (set_world w2 s). split; [|split; [|by cbn; rewrite Hr1]].
  - unfold request_body, request_bytes. cbn [fst snd]. eapply runs_trans; [exact Hrun|].
    change (1 <? 0) with false. cbv iota.
    change (set_world w2 s) with (set_world w2 (set_world w1 s)).
    apply (runs_act calloc (count_pkg p) (fun _ => next) (set_world w1 s) tt w2).
    apply (on_net_upd p w1 n count), (fo_net _ _ _ _ _ _ _ Hf1).
  - exists (count n), reqs. cbn [world set_world]. change (rest w2) with (rest w1).
    change (gen w2) with (gen w1). change (closures w2) with (closures w1).
    rewrite Hr1, Hc1, Hg1. repeat (split; [done|]). split; [|done].
    change (sent b w2) with (sent b w1). rewrite Hsent, <- app_assoc. exact Htotal.
Qed.

(** One arrival. *)
Lemma serving_arrival t total cls g room q c ms1 ms2 part s :
  answering -> writes_succeed E -> (forall h, is_Some (new_closure h)) ->
  serving t total cls g room q (ms1 ++ ms2) s -> q ++ c = frames ms1 ++ part ->
  incomplete part -> Forall frame_ok ms1 -> blen (q ++ c) <= room ->
  exists s', runs calloc (OnFrontEndMsg b (fun _ => Ret)) (set_world (arrive b c (world s)) s) Ret s' /\
    serving t total cls g room part ms2 s'.
Proof using POk ROk.
  intros Hans Hw Hnew.
  apply (front_arrival calloc p b fd true (serving t total cls g room) room).
  - intros q' ms s' (n & _ & _ & _ & Hf & _ & _ & Hsize & _). eauto.
  - intros q' q2 n' ms s' w (n & reqs & Hms & Hreqs & Hf & Hst & Ht & Hroom & Htotal & Hcls & Hg) Hu Hf'.
    exists n', reqs. cbn [world set_world].
    rewrite (ut_services _ _ _ _ Hu), (ut_room _ _ _ _ Hu), (ut_sent _ _ _ _ Hu),
      (ut_closures _ _ _ _ Hu), (ut_gen _ _ _ _ Hu).
    repeat (split; [done|]). split; [|done].
    by rewrite (ut_state _ _ _ _ Hu n n' (fo_net _ _ _ _ _ _ _ Hf) (fo_net _ _ _ _ _ _ _ Hf')).
  - intros q' m ms s' next HJ. by apply (serving_round t total cls g room q' m ms).
Qed.

(** All requests of a stream. *)
Lemma requests_ok t n B D chunks reqs s :
  answering -> writes_succeed E -> (forall h, is_Some (new_closure h)) ->
  front_ok p b fd true [] n (world s) -> state_ n = NET_ESTABLISHED ->
  rpc_svc_mgr_ (rest (world s)) = Some t ->
  Forall (fun r => 0 <= fst r < 18446744073709551616 /\ answerable t (snd r)) reqs ->
  let ms := map request_bytes reqs in
  Forall frame_ok ms -> 0 < B -> Forall (fun m => blen (frame m) <= B) ms ->
  Forall (fun c => blen c <= D) chunks ->
  B + D <= size (recv_buffer_ (frontend_handler_mgr_ (rest (world s)))) ->
  List.concat chunks = frames ms ->
  exists s' n', served calloc b (OnFrontEndMsg b (fun _ => Ret)) chunks s s' /\
    sent b (world s') = sent b (world s) ++ frames (map (answer_bytes f) reqs) /\
    front_ok p b fd true [] n' (world s') /\ state_ n' = NET_ESTABLISHED /\
    closures (world s') = closures (world s) /\ held (gen (world s')) = held (gen (world s)).
Proof using POk ROk.
  intros Hans Hw Hnew Hf Hst Ht Hreqs ms Hok HB HmB HcD Hsize Eq.
  set (room := size (recv_buffer_ (frontend_handler_mgr_ (rest (world s))))) in *.
  set (total := sent b (world s) ++ frames (map (answer_bytes f) reqs)).
  destruct (served_stream calloc b (OnFrontEndMsg b (fun _ => Ret))
    (serving t total (closures (world s)) (held (gen (world s))) room) room
    (fun q c ms1 ms2 part s' => serving_arrival t total _ _ room q c ms1 ms2 part s' Hans Hw Hnew)
    B D chunks [] ms [] s) as (s' & ms1 & ms2 & part & H1 & _ & _ & _ & H5 & HJ); try done.
  - exists n, reqs. repeat (split; [done|]). done.
  - by rewrite app_nil_r.
  - by left.
  - destruct (H5 eq_refl) as [-> ->].
    destruct HJ as (n' & reqs' & Hr' & _ & Hf' & Hst' & _ & _ & Htot & Hc' & Hg').
    destruct reqs'; [|done]. cbn in Htot. rewrite app_nil_r in Htot. exists s', n'. auto 10.
Qed.
(** A service with the table [t] that is ready for requests. *)
Record service_ready t s : Prop := {
  sr_answering : answering;
  sr_writes : writes_succeed E;
  sr_closure : forall h, is_Some (new_closure h);
  sr_conn : exists n, front_ok p b fd true [] n (world s) /\ state_ n = NET_ESTABLISHED;
  sr_table : rpc_svc_mgr_ (rest (world s)) = Some t
}.
End Service.

(** ** Both sides together *)

(** The calls that are made come back: the requests go to the service, the answers to the
    calls. *)
Section Together.
Context {P : Protobuf} {POk : ProtobufOk P}.
Context {Cc Ac : Type} {RAc : RapidApp (App P Cc Ac)}.
Context (calloc : gmap Z (COROUTINECTX (App P Cc Ac)) -> option Z) (p b fd this : Z).
Context (body : Z -> option Message -> option Message -> Z -> Z -> M (App P Cc Ac) Z).
Context (log : Ac -> list entry).
Context {Rs : RpcEnv P} {RsOk : RpcEnvOk Rs} {ISs : IRpcService} {Cs As : Type} {Es : NetEnv Cs}.
Context {RAs : RapidApp (App P Cs As)}.
Context (calloc' : gmap Z (COROUTINECTX (App P Cs As)) -> option Z) (p' b' fd' : Z).
Context (f : Message -> Message) (serve : Z -> Z -> M (App P Cs As) unit) (t : RpcServerMgr).
Context (B D : Z).

(** A call whose request and answer are not too long for the buffers. *)
Definition small (q : ask_for) : Prop :=
  answerable (IS := ISs) f t (asked q) /\
  forall aid, blen (frame (request_bytes (aid, asked q))) <= B /\
              blen (frame (answer_bytes f (aid, asked q))) <= B.

Lemma calls_return qs aid xs (s1 : CoroutineScheduler (App P Cc Ac))
    (s' : CoroutineScheduler (App P Cs As)) chunks :
  noting p b fd this body log -> rpc_inv body this p xs s1 -> made aid qs xs ->
  back_ok p b fd this [] (world s1) -> service_ready p' b' fd' f serve t s' ->
  0 <= aid -> aid + Z.of_nat (length qs) <= 18446744073709551616 ->
  Forall (fits f) qs -> Forall small qs -> 0 < B < 2147483648 ->
  B + D <= size (recv_buffer_ (backend_handler_mgr_ (rest (world s1)))) ->
  B + D <= size (recv_buffer_ (frontend_handler_mgr_ (rest (world s')))) ->
  Forall (fun c => blen c <= D) chunks ->
  List.concat chunks = frames (map request_bytes (numbered aid (map asked qs))) ->
  exists s1', served calloc' b' (OnFrontEndMsg b' (fun _ => Ret)) chunks s' s1' /\
    closures (world s1') = closures (world s') /\
    held (gen (world s1')) = held (gen (world s')) /\
    forall chunks', Forall (fun c => blen c <= D) chunks' ->
      sent b' (world s1') = sent b' (world s') ++ List.concat chunks' ->
    exists s2, served calloc b (OnBackEndMsg b (fun _ => Ret)) chunks' s1 s2 /\
      rpc_inv body this p [] s2 /\
      log (app (rest (world s2))) = log (app (rest (world s1))) ++ map (outcome_for f) qs.
Proof using POk RsOk.
  intros Hnote Hinv1 Hmade Hb1 [Hans Hw' Hnew (n & Hf & Hst) Ht] Haid Hl Hfit Hsmall HB Hr Hr' Hc Ec.
  destruct (made_answers f qs aid xs Hmade Hfit) as (ans & Exs & Eans & Hans2); [done|done|].
  set (Q m := answerable f t m /\ forall i, blen (frame (request_bytes (i, m))) <= B /\
                                           blen (frame (answer_bytes f (i, m))) <= B).
  assert (Hall : Forall (fun r => 0 <= fst r < 18446744073709551616 /\ Q (snd r))
                   (numbered aid (map asked qs))).
  { apply (numbered_forall Q); [by apply Forall_fmap|done|by rewrite length_map]. }
  assert (Hlen : forall g : Z * Message -> bytes, (forall i m, Q m -> blen (frame (g (i, m))) <= B) ->
    Forall frame_ok (map g (numbered aid (map asked qs))) /\
    Forall (fun m => blen (frame m) <= B) (map g (numbered aid (map asked qs)))).
  { intros g Hg. split; apply Forall_fmap; (eapply Forall_impl; [exact Hall|]); intros [i m] [_ Hm];
      specialize (Hg i m Hm); cbn; [|done]. rewrite blen_frame in Hg. unfold frame_ok. lia. }
  destruct (Hlen request_bytes) as [Hok1 Hok2]; [intros i m [_ Hm]; apply (Hm i)|].
  destruct (Hlen (answer_bytes f)) as [Hok3 Hok4]; [intros i m [_ Hm]; apply (Hm i)|].
  destruct (requests_ok calloc' p' b' fd' f serve t n B D chunks (numbered aid (map asked qs)) s')
    as (s1' & n' & Hserved & Hsent' & _ & _ & Hcl & Hms); try done.
  { eapply Forall_impl; [exact Hall|]. by intros r (? & ? & _). }
  { lia. }
  exists s1'. repeat (split; [done|]). intros chunks' Hc' Echunks'.
  rewrite Hsent' in Echunks'. apply app_inv_head in Echunks'. rewrite <- Eans in *.
  destruct (answers_ok calloc p b fd this body log B D chunks' ans (map (outcome_for f) qs) [] xs s1)
    as (s2 & l' & Hserved' & Hinv2 & Hl' & _ & Hlog); try done.
  { by rewrite Exs, app_nil_r. }
  { lia. }
  apply Permutation_nil_r in Hl' as ->. by exists s2.
Qed.
End Together.

(** ** Properties *)

(** C8: [answers_dispatched]. The answers that arrive on an established back end reach the
    calls they belong to, in whatever order they come and however their stream is cut,
    provided that the buffer holds one arrival with what was left of a message before it
    ([D] + [B] bytes at most): the callback of each call runs once, in the order of the
    answers, with the request, the parsed response, the argument of the call and the
    status.  Nothing stays queued, and the calls that are not answered still wait.  The
    callbacks note what they are called with ([noting]): they return, make no further call
    ([Coroutine.nested_resume] shows what happens otherwise) and leave the connection
    alone. *)
Theorem answers_dispatched {P : Protobuf} {POk : ProtobufOk P} {C A} {RA : RapidApp (App P C A)} calloc p b fd this body log
    B D chunks ans es l0 l (s : CoroutineScheduler (App P C A)) :
  noting p b fd this body log -> rpc_inv body this p l s -> l ≡ₚ map fst ans ++ l0 ->
  back_ok p b fd this [] (world s) ->
  Forall2 (fun xr e => answered_by (fst xr) (snd xr) e) ans es ->
  let ms := map (fun xr : call * RpcMessage => rpc_SerializeToString (snd xr)) ans in
  Forall frame_ok ms -> 0 < B -> Forall (fun m => blen (frame m) <= B) ms ->
  Forall (fun c => blen c <= D) chunks ->
  B + D <= size (recv_buffer_ (backend_handler_mgr_ (rest (world s)))) ->
  List.concat chunks = frames ms ->
  exists s' l', served calloc b (OnBackEndMsg b (fun _ => Ret)) chunks s s' /\
    rpc_inv body this p l' s' /\ l' ≡ₚ l0 /\ back_ok p b fd this [] (world s') /\
    log (app (rest (world s'))) = log (app (rest (world s))) ++ es.
Proof. apply answers_ok. Qed.

(** C9: [requests_served]. A service that computes [f] and answers at once, on an
    established connection whose writes succeed, answers every request of a stream, in
    order, under the id of the request, however the stream is cut, provided that the
    buffer holds one arrival with what was left of a request before it ([D] + [B] bytes at
    most).  Afterwards there are as many closures, messages and responses on the heap as
    before, and the connection is as before.  The requests are of types that a service of
    the table has, with names that fit, and the allocation of closures succeeds. *)
Theorem requests_served {P : Protobuf} {POk : ProtobufOk P} {R : RpcEnv P} {ROk : RpcEnvOk R}
    {IS : IRpcService} {C A} {E : NetEnv C} {RA : RapidApp (App P C A)} calloc p b fd f serve
    t B D chunks reqs (s : CoroutineScheduler (App P C A)) :
  service_ready p b fd f serve t s ->
  Forall (fun r => 0 <= fst r < 18446744073709551616 /\ answerable f t (snd r)) reqs ->
  let ms := map request_bytes reqs in
  Forall frame_ok ms -> 0 < B -> Forall (fun m => blen (frame m) <= B) ms ->
  Forall (fun c => blen c <= D) chunks ->
  B + D <= size (recv_buffer_ (frontend_handler_mgr_ (rest (world s)))) ->
  List.concat chunks = frames ms ->
  exists s' n', served calloc b (OnFrontEndMsg b (fun _ => Ret)) chunks s s' /\
    sent b (world s') = sent b (world s) ++ frames (map (answer_bytes f) reqs) /\
    front_ok p b fd true [] n' (world s') /\ state_ n' = NET_ESTABLISHED /\
    closures (world s') = closures (world s) /\ held (gen (world s')) = held (gen (world s)).
Proof.
  intros [H1 H2 H3 (n & H4 & H5) H6] ? ms ? ? ? ? ? ?.
  by apply (requests_ok calloc p b fd f serve t n B D).
Qed.

(** C7: [remote_calls]. Two processes of the framework: one makes calls, the other has a
    service that computes [f] and answers at once.  When what each sends reaches the other,
    in pieces that its buffer holds together with what was left of a message ([D] + [B]
    bytes at most), every call ends: its callback runs once, in the order of the calls,
    with the value of [f] at its request, its argument and the status 0; then no call
    waits, and the service has as many closures, messages and responses on the heap as
    before.  Conditions: the connections are established and writes succeed; there are
    memory, room, numbers and ids for the coroutines of the calls ([caller_ready]: the
    counter of coroutines is an int); names and messages fit the buffers; the callbacks
    return, make no further call and leave the connection alone ([noting]). *)
Theorem remote_calls {P : Protobuf} {POk : ProtobufOk P}
    {Rc : RpcEnv P} {RcOk : RpcEnvOk Rc} {Cc Ac} {Ec : NetEnv Cc}
    {RAc : RapidApp (App P Cc Ac)} calloc p b fd this body log
    {Rs : RpcEnv P} {RsOk : RpcEnvOk Rs} {ISs : IRpcService} {Cs As} {Es : NetEnv Cs}
    {RAs : RapidApp (App P Cs As)} calloc' p' b' fd' f serve t
    (qs : list ask_for) B D
    (s : CoroutineScheduler (App P Cc Ac)) (s' : CoroutineScheduler (App P Cs As)) :
  caller_ready (R := Rc) (E := Ec) calloc p b fd this body log (Z.of_nat (length qs)) s ->
  service_ready (R := Rs) (IS := ISs) p' b' fd' f serve t s' ->
  Forall can_ask qs -> Forall (fits f) qs ->
  Forall (small (ISs := ISs) f t B) qs ->
  0 < B < 2147483648 ->
  B + D <= size (recv_buffer_ (backend_handler_mgr_ (rest (world s)))) ->
  B + D <= size (recv_buffer_ (frontend_handler_mgr_ (rest (world s')))) ->
  exists s1, runs calloc (call_all (R := Rc) (E := Ec) this body qs Ret) s Ret s1 /\
    forall chunks, Forall (fun c => blen c <= D) chunks ->
      sent b (world s1) = sent b (world s) ++ List.concat chunks ->
    exists s1', served calloc' b' (OnFrontEndMsg (R := Rs) (IS := ISs) b' (fun _ => Ret)) chunks s' s1' /\
      closures (world s1') = closures (world s') /\
      held (gen (world s1')) = held (gen (world s')) /\
      forall chunks', Forall (fun c => blen c <= D) chunks' ->
        sent b' (world s1') = sent b' (world s') ++ List.concat chunks' ->
      exists s2, served calloc b (OnBackEndMsg b (fun _ => Ret)) chunks' s1 s2 /\
        rpc_inv body this p [] s2 /\
        log (app (rest (world s2))) = log (app (rest (world s))) ++ map (outcome_for f) qs.
Proof.
  intros [Hnote Hw Hcal Hctx Hinv Hb Hmax Hids Hnum] Hsrv Hask Hfit Hsmall HB Hr Hr'.
  pose proof (ri_seed_range _ _ _ _ _ Hinv) as Hseed.
  destruct (calls_queued (R := Rc) calloc p b fd this body [] Ret qs [] s) as
    (s1 & xs & Hrun & Hinv1 & Hmade & Hb1 & Hrest & Hsent); try done.
  exists s1. split; [exact Hrun|]. intros chunks Hc Echunks.
  rewrite Hsent in Echunks. apply app_inv_head in Echunks. rewrite <- Hrest.
  apply (calls_return calloc p b fd this body log calloc' p' b' fd' f serve t B D qs
           (asyncid_seed (world s)) xs); try done; [lia|by rewrite Hrest].
Qed.

(** ** Two concrete processes *)

(** The environment of [easy_env], in which all writes succeed. *)
Definition calm_env : NetEnv Z := {|
  env_new := @env_new Z easy_env; env_bev := @env_bev Z easy_env;
  env_calloc := @env_calloc Z easy_env; env_connect := @env_connect Z easy_env;
  env_write _ _ _ := true; env_kernel := @env_kernel Z easy_env; zero := 0
|}.

(** An answer doubles the content of its request. *)
Definition doubled (m : Message (Protobuf := plain_protobuf)) : Message (Protobuf := plain_protobuf) :=
  ([65], snd m ++ snd m).

Definition double_now {A} (svc c : Z) : M (App plain_protobuf Z A) unit :=
  m ← Closure_request c; m ← nonnull m; _ ← fill_response c (doubled m);
  Closure_Done (E := calm_env) c.
Definition doubling_app {A} : RapidApp (App plain_protobuf Z A) :=
  {| OnUpdate := fun k => k 0; OnReload := fun k => k 0;
     app_OnFrontEndConnect := fun _ _ k => k 0; app_OnFrontEndClose := fun _ _ k => k 0;
     OnRecvFrontEnd := fun _ _ _ k => k 0; OnRecvBackEnd := fun _ _ _ k => k 0;
     OnTimer := fun _ _ k => k 0;
     OnRpcCall := fun svc c k => Act (double_now svc c) (fun _ => k);
     GetFrontEndContextSize := 0; GetBackEndContextSize := 0;
     GetFrontEndMaxMsgSize := 32; GetBackEndMaxMsgSize := 32 |}.

Definition note_entry (fn : Z) (req resp : option (Message (Protobuf := plain_protobuf))) (a st : Z)
    : M (App plain_protobuf Z (list (entry (P := plain_protobuf)))) Z := fun w =>
  match req, resp with
  | Some m, Some d => Ok (0, set_rest (set_app (app (rest w) ++ [(m, d, a, st)]) (rest w)) w)
  | _, _ => Ok (0, w)
  end.

Lemma note_entry_noting : noting (P := plain_protobuf) 3 4 9 8 note_entry id.
Proof.
  split.
  - intros fn req resp a st w. unfold note_entry. destruct req, resp; do 2 eexists; by split.
  - intros fn m d a st inp w [H1 H2 H3 H4 H5]. do 2 eexists. split; [reflexivity|].
    split; [by split|done].
Qed.

(** A process with the connection of [one_net] in the tables, and room for 64 bytes. *)
Definition path_world {A} (mode : Z) (services : option RpcServerMgr) (bound : option Z) (a : A)
    : App plain_protobuf Z A :=
  {| heap := set_nets {[ 3 := set_rpc_binded bound front_net ]} (MsgLoop.queued []);
     gen := GenSt_new;
     rpcs := {[ 8 := {| scheduler_ := true; net_ := Some 3; crid_list_ := [] |} ]};
     rpc_ctxs := ∅; closures := ∅; asyncid_seed := 5; buf := [];
     rest := {| app_ := true; event_base_ := true;
                handles := {| internal_timer_ := true; listener_ := true;
                              udp_ctrl_keeper_ := true; cfg_ := []; has_been_cleanup_ := false |};
                schedule_update_ := false; setting_ := quiet_setting (-1); running_ := true;
                reloading_ := false; now_ := 50; frontend_handler_mgr_ := front_table;
                backend_handler_mgr_ := front_table; timer_mgr_ := TimerMgr_new;
                rpc_scheduler_ := true; rpc_svc_mgr_ := services; svc_mode_ := mode;
                loopbreak := false; app := a |} |}.

Definition calling_state : CoroutineScheduler (App plain_protobuf Z (list (entry (P := plain_protobuf)))) :=
  CoroutineScheduler_new 10 (path_world SVC_MODE_NORMAL None (Some 8) []).
Definition service_state : CoroutineScheduler (App plain_protobuf Z unit) :=
  CoroutineScheduler_new 10
    (path_world SVC_MODE_RPC (Some (AddRpcService (IS := demo_services) (Some 6) ∅)) None tt).

Lemma calling_state_ready count :
  0 <= count <= 10 ->
  caller_ready (P := plain_protobuf) (R := easy_rpc_env) (E := calm_env) any_calloc 3 4 9 8
    note_entry id count calling_state.
Proof.
  intros Hc. split.
  - apply note_entry_noting.
  - done.
  - intros h. eexists. split; [reflexivity|]. by apply any_calloc_fresh.
  - intros h. by eexists.
  - split; try done; by constructor.
  - split; try done; [by eexists|by eexists|]. by eexists.
  - change (Z.of_nat (base.size (coroutine_table_ calling_state))) with 0.
    change (u64 (coroutine_max_ calling_state)) with 10. lia.
  - cbn. lia.
  - cbn. lia.
Qed.

Lemma service_state_ready :
  service_ready (P := plain_protobuf) (R := easy_rpc_env) (IS := demo_services) (E := calm_env)
    (RA := doubling_app) 3 4 9 doubled double_now (AddRpcService (IS := demo_services) (Some 6) ∅) service_state.
Proof.
  split.
  - split; [done|]. intros svc c clo m d w Hc Hm _ _ _. unfold double_now.
    rewrite (bind_step _ _ w (Some m) w); [done|]. unfold Closure_request.
    rewrite (bind_step _ _ w clo w) by (unfold load_closure; by rewrite Hc). by rewrite Hm.
  - done.
  - intros h. by eexists.
  - exists (set_rpc_binded None front_net). split; [|done]. split; try done; by eexists.
  - done.
Qed.

Lemma demo_answerable l :
  answerable (IS := demo_services) doubled (AddRpcService (IS := demo_services) (Some 6) ∅) ([81], l).
Proof.
  split; [exists 6; split; [by vm_compute|split; [done|by eexists]]|]. split; [by eexists|by vm_compute].
Qed.

(** A stream that arrives byte by byte. *)
Definition bytewise (l : bytes) : list bytes := map (fun x => [x]) l.

Lemma bytewise_concat l : List.concat (bytewise l) = l.
Proof. induction l as [|x l IH]; [done|]. cbn. f_equal. exact IH. Qed.
Lemma bytewise_short l : Forall (fun c => blen c <= 1) (bytewise l).
Proof. apply Forall_fmap, Forall_true. by intros x. Qed.

(** Two calls, delivered byte by byte in both directions. *)
Definition two_calls : list (ask_for (P := plain_protobuf)) :=
  [([81], [1; 2], ([65], []), 77, 6); ([81], [3], ([65], []), 77, 7)].

Lemma remote_calls_witness :
  exists s1 s1' s2,
    runs any_calloc (call_all (R := easy_rpc_env) (E := calm_env) 8 note_entry two_calls Ret)
      calling_state Ret s1 /\
    served any_calloc 4 (OnFrontEndMsg (R := easy_rpc_env) (IS := demo_services) (RA := doubling_app)
      4 (fun _ => Ret)) (bytewise (sent 4 (world s1))) service_state s1' /\
    served any_calloc 4 (OnBackEndMsg (RA := doubling_app) 4 (fun _ => Ret))
      (bytewise (sent 4 (world s1'))) s1 s2 /\
    app (rest (world s2)) = [([81], [1; 2], ([65], [1; 2; 1; 2]), 6, 0); ([81], [3], ([65], [3; 3]), 7, 0)].
Proof.
  destruct (remote_calls (P := plain_protobuf) (Rc := easy_rpc_env) (Ec := calm_env)
    (Rs := easy_rpc_env) (ISs := demo_services) (Es := calm_env) (RAc := doubling_app)
    (RAs := doubling_app) any_calloc 3 4 9 8 note_entry id any_calloc 3 4 9 doubled double_now
    (AddRpcService (IS := demo_services) (Some 6) ∅) two_calls 20 1 calling_state service_state)
    as (s1 & Hrun & H1).
  - apply calling_state_ready. cbn. lia.
  - apply service_state_ready.
  - repeat constructor; by vm_compute.
  - repeat constructor.
  - repeat constructor; try apply demo_answerable; intros; cbn; unfold blen; cbn; lia.
  - lia.
  - by vm_compute.
  - by vm_compute.
  - destruct (H1 (bytewise (sent 4 (world s1))) (bytewise_short _)) as (s1' & Hs1 & _ & _ & H2).
    { by rewrite bytewise_concat. }
    destruct (H2 (bytewise (sent 4 (world s1'))) (bytewise_short _)) as (s2 & Hs2 & _ & Hl).
    { by rewrite bytewise_concat. }
    exists s1, s1', s2. auto.
Defined.

Lemma requests_served_witness :
  exists s', served any_calloc 4 (OnFrontEndMsg (R := easy_rpc_env) (IS := demo_services)
      (RA := doubling_app) 4 (fun _ => Ret))
    (bytewise (frames [[33048; 1; 5; 1; 81; 1; 2]; [33048; 1; 6; 1; 81; 3]])) service_state s' /\
    sent 4 (world s') = frames [[33048; 2; 5; 1; 65; 1; 2; 1; 2]; [33048; 2; 6; 1; 65; 3; 3]] /\
    closures (world s') = ∅.
Proof.
  destruct (requests_served (P := plain_protobuf) (R := easy_rpc_env) (IS := demo_services)
    (E := calm_env) (RA := doubling_app) any_calloc 3 4 9 doubled double_now
    (AddRpcService (IS := demo_services) (Some 6) ∅) 20 1
    (bytewise (frames [[33048; 1; 5; 1; 81; 1; 2]; [33048; 1; 6; 1; 81; 3]]))
    [(5, ([81], [1; 2])); (6, ([81], [3]))] service_state)
    as (s' & n' & Hs & Hsent & _ & _ & Hc & _).
  - apply service_state_ready.
  - repeat constructor; try apply demo_answerable; cbn; lia.
  - repeat constructor; by vm_compute.
  - lia.
  - repeat constructor; by vm_compute.
  - apply bytewise_short.
  - by vm_compute.
  - by rewrite bytewise_concat.
  - exists s'. split; [exact Hs|]. split; [exact Hsent|exact Hc].
Defined.

(** Two calls in progress are answered in the other order, the second with an error. *)
Lemma answers_dispatched_witness :
  exists s1 s2, runs any_calloc
      (call_all (R := easy_rpc_env) (E := calm_env) 8 note_entry two_calls Ret) calling_state Ret s1 /\
    served any_calloc 4 (OnBackEndMsg (RA := doubling_app) 4 (fun _ => Ret))
      (bytewise (frames [[33048; 3; 6; 0]; [33048; 2; 5; 1; 65; 9]])) s1 s2 /\
    app (rest (world s2)) = [([81], [3], ([65], []), 7, -1); ([81], [1; 2], ([65], [9]), 6, 0)].
Proof.
  destruct (calling_state_ready 2) as [Hnote Hw Hcal Hctx Hinv Hb _ _]; [lia|].
  destruct (calls_queued (R := easy_rpc_env) (E := calm_env) any_calloc 3 4 9 8 note_entry []
    Ret two_calls [] calling_state) as (s1 & xs & Hrun & Hinv1 & Hmade & Hb1 & Hrest & _); try done.
  { repeat constructor; by vm_compute. }
  destruct xs as [|x1 [|x2 [|x3 xs]]]; try (cbn in Hmade; tauto).
  cbn in Hmade. destruct Hmade as (Hi1 & Hm1 & Hd1 & Ha1 & Hi2 & Hm2 & Hd2 & Ha2 & _).
  set (r1 := {| magic := 33048; msg_type := 2; asyncid := 5; msg_name := [65]; sequence := None;
                msg_bin := [9] |}).
  set (r2 := {| magic := 33048; msg_type := 3; asyncid := 6; msg_name := []; sequence := None;
                msg_bin := [] |}).
  destruct (answers_dispatched (P := plain_protobuf) (RA := doubling_app) any_calloc 3 4 9 8 note_entry id
    20 1 (bytewise (frames [[33048; 3; 6; 0]; [33048; 2; 5; 1; 65; 9]]))
    [(x2, r2); (x1, r1)] [(([81], [3]), ([65], []), 7, -1); (([81], [1; 2]), ([65], [9]), 6, 0)]
    [] [x1; x2] s1) as (s2 & l' & Hs2 & _ & _ & _ & Hlog); try done.
  - apply Permutation_swap.
  - constructor; [|constructor; [|constructor]]; cbn [fst snd].
    + split; [by repeat split; cbn|]. split; [by rewrite Hi2|]. do 2 eexists. by rewrite Ha2.
    + split; [by repeat split; cbn|]. split; [by rewrite Hi1|]. do 2 eexists. by rewrite Ha1.
  - repeat constructor; by vm_compute.
  - repeat constructor; by vm_compute.
  - apply bytewise_short.
  - rewrite Hrest. by vm_compute.
  - exists s1, s2. split; [exact Hrun|]. split; [exact Hs2|]. unfold id in Hlog.
    rewrite Hlog, Hrest. reflexivity.
Defined.
