(* ===== verification/Sample.v ===== *)
(** * The programs built on the framework: sample/server_demo, sample/client_demo, tools/echosvr

    The demo server has one service, the demo client makes one call of it, and both the
    client and the echo server send back what their clients send.  The generated classes
    of sample.proto are the class [SampleProto]. *)
From Stdlib Require Import ZArith Lia.
From stdpp Require Import base list gmap fin_maps strings.
From S2P Require Import Prelude CLib TcpSocket Timer Coroutine EasyNet NetMgr RpcMsg EasyRpc.
From S2P Require Import Framework MsgLoop CallPath.
Local Open Scope Z_scope.

(** The messages with their field; [as_Ping] and [as_Pong] are the casts with the field of
    the result, and [new_Pong] is what [new(std::nothrow)] gives. *)
Class SampleProto (P : Protobuf) : Type := {
  Ping : Z -> Message;
  Pong : Z -> Message;
  as_Ping : Message -> option Z;
  as_Pong : Message -> option Z;
  new_Pong : option Message
}.

(** The cast succeeds on the messages of the type, and the types have names. *)
Class SampleProtoOk {P : Protobuf} (SP : SampleProto P) : Prop := {
  as_Ping_Ping v : 0 <= v < 4294967296 -> as_Ping (Ping v) = Some v;
  as_Ping_name m : GetTypeName m = GetTypeName (Ping 0) -> is_Some (as_Ping m);
  as_Pong_new d : new_Pong = Some d -> is_Some (as_Pong d);
  Ping_name v : GetTypeName (Ping v) = GetTypeName (Ping 0);
  Pong_name v : GetTypeName (Pong v) = GetTypeName (Pong 0);
  names_short : blen (GetTypeName (Ping 0)) < MAX_MESSAGE_NAME /\
                blen (GetTypeName (Pong 0)) < MAX_MESSAGE_NAME;
  Ping_known : is_Some (FindPrototype (GetTypeName (Ping 0)))
}.

(** ** The demo server *)

Section Server.
Context {P : Protobuf} {SP : SampleProto P} {R : RpcEnv P} {C : Type} {E : NetEnv C} {F : FrameEnv}.

(** [PingPongService::RpcRequestName], src/sample/server_demo/server_demo_app.cpp:13-17 *)
Definition PingPong_RpcRequestName : bytes := GetTypeName (Ping 0).

(** [PingPongService::NewResponse], src/sample/server_demo/server_demo_app.cpp:19-23 *)
Definition PingPong_NewResponse : option Message := new_Pong.

#[local] Instance ping_pong_service : IRpcService := {|
  RpcRequestName _ := PingPong_RpcRequestName; NewResponse _ := PingPong_NewResponse |}.

(** [PingPongService::OnRpcCall], src/sample/server_demo/server_demo_app.cpp:25-39

    The request and the response are those of the closure; a failed cast gives a null
    pointer. *)
Definition PingPong_OnRpcCall {U} (svc closure : Z) : M (World C U) unit :=
  req ← Closure_request closure;
  resp ← Closure_response closure;
  _ ← assertb (bool_decide (is_Some req) && bool_decide (is_Some resp));
  req ← nonnull req;
  resp ← nonnull resp;
  _ ← nonnull (as_Pong resp);
  ping ← nonnull (as_Ping req);
  _ ← fill_response closure (Pong (u32 (ping + 1)));
  Closure_Done closure.

(** [ServerDemoApp], src/sample/server_demo/server_demo_app.h:50-51 *)
Record ServerDemoApp : Set := { sd_frame_stub_ : bool }.

(** [ServerDemoApp::OnInit], src/sample/server_demo/server_demo_app.cpp:47-63

    [pp_svc] is the address of the static service; the result of [RegisterRpcService] is
    not used. *)
Definition ServerDemo_OnInit (pp_svc : Z) (app_framework : bool) : M (App P C ServerDemoApp) Z :=
  if negb app_framework then mret (-1)
  else
    _ ← upd_fw (set_app {| sd_frame_stub_ := true |});
    _ ← RegisterRpcService (Some pp_svc);
    mret 0.

(** [callbacks of ServerDemoApp], src/sample/server_demo/server_demo_app.cpp:81-118

    [OnRecvFrontEnd] and the other events are those of [RapidApp]. *)
Definition server_demo_app : RapidApp (App P C ServerDemoApp) := {|
  OnUpdate := fun k => k 0; OnReload := fun k => k 0;
  app_OnFrontEndConnect := fun _ _ k => k 0; app_OnFrontEndClose := fun _ _ k => k 0;
  OnRecvFrontEnd := fun _ _ _ k => k (-1); OnRecvBackEnd := fun _ _ _ k => k 0;
  OnTimer := fun _ _ k => k 0;
  OnRpcCall := fun svc c k => Act (PingPong_OnRpcCall svc c) (fun _ => k);
  GetFrontEndContextSize := 0; GetBackEndContextSize := 0;
  GetFrontEndMaxMsgSize := 0; GetBackEndMaxMsgSize := 0 |}.

(** The function that the service computes. *)
Definition pong_of (m : Message) : Message :=
  match as_Ping m with Some v => Pong (u32 (v + 1)) | None => m end.

Lemma ping_pong_answering {SPOk : SampleProtoOk SP} :
  answering (RA := server_demo_app) pong_of PingPong_OnRpcCall.
Proof using.
  split; [done|]. intros svc c clo m d w Hc Hm Hd Hname Hnew. cbn in Hname, Hnew.
  destruct (as_Ping_name m Hname) as [v Hv]. destruct (as_Pong_new d Hnew) as [v' Hv'].
  assert (Hload : load_closure c w = Ok (clo, w)) by (unfold load_closure; by rewrite Hc).
  unfold PingPong_OnRpcCall, pong_of.
  rewrite (bind_step _ _ w (Some m) w).
  2: { unfold Closure_request. rewrite (bind_step _ _ _ _ _ Hload). by rewrite Hm. }
  rewrite (bind_step _ _ w (Some d) w).
  2: { unfold Closure_response. rewrite (bind_step _ _ _ _ _ Hload). by rewrite Hd. }
  rewrite !bool_decide_eq_true_2 by by eexists.
  do 3 (rewrite (bind_step _ _ w _ w eq_refl)).
  by rewrite Hv', Hv.
Qed.
End Server.

(** ** The demo client *)

Section Client.
Context {P : Protobuf} {SP : SampleProto P} {R : RpcEnv P} {IS : IRpcService} {C : Type}.
Context {E : NetEnv C} {HO : HashOrder} {F : FrameEnv}.

(** [ClientDemoApp], src/sample/client_demo/client_demo_app.h:38-42

    [logged] is what the callback writes to the log: all it does. *)
Record ClientDemoApp : Type := {
  cd_frame_stub_ : bool;
  rpc_ : option Z;
  logged : list (entry (P := P))
}.
Abbreviation W := (App P C ClientDemoApp).

Definition upd_client (f : ClientDemoApp -> ClientDemoApp) : M W unit :=
  upd_fw (fun w => set_app (f (app w)) w).
Definition set_rpc_member (x : option Z) (c : ClientDemoApp) : ClientDemoApp :=
  {| cd_frame_stub_ := cd_frame_stub_ c; rpc_ := x; logged := logged c |}.

(** [PingPongCallBack], src/sample/client_demo/client_demo_app.cpp:7-28

    The results of the casts are not used. *)
Definition PingPongCallBack (fn : Z) (req res : option Message) (arg status : Z) : M W Z :=
  match req, res with
  | Some m, Some d =>
      _ ← upd_client (fun c => {| cd_frame_stub_ := cd_frame_stub_ c; rpc_ := rpc_ c;
                                  logged := logged c ++ [(m, d, arg, status)] |});
      mret 0
  | _, _ => mret (-1)
  end.

(** The address of the callback, which is not null. *)
Definition callback_address : Z := 1.

(** [ClientDemoApp::OnInit], src/sample/client_demo/client_demo_app.cpp:36-60 *)
Definition ClientDemo_OnInit (RA : RapidApp W) (app_framework : bool) : M W Z :=
  if negb app_framework then mret (-1)
  else
    _ ← upd_client (fun c => {| cd_frame_stub_ := true; rpc_ := rpc_ c; logged := logged c |});
    _ ← ScheduleUpdate;
    rpc ← CreateRpc (Some (bytes_of_string "tcp://127.0.0.1:7891"%string)) 0;
    _ ← upd_client (set_rpc_member rpc);
    match rpc with None => mret (-1) | Some _ => mret 0 end.

(** [ClientDemoApp::OnFini], src/sample/client_demo/client_demo_app.cpp:62-73 *)
Definition ClientDemo_OnFini (k : Z -> code W) : code W :=
  Act (fw (fun w => rpc_ (app w))) (fun rpc =>
  match rpc with
  | Some _ => DestroyRpc rpc (fun _ => Act (upd_client (set_rpc_member None)) (fun _ => k 0))
  | None => k 0
  end).

(** [ClientDemoApp::OnUpdate], src/sample/client_demo/client_demo_app.cpp:84-99 *)
Definition ClientDemo_OnUpdate (_DEBUG : bool) (k : Z -> code W) : code W :=
  let rest := Act UnScheduleUpdate (fun _ => k 0) in
  if _DEBUG then
    Act (fw (fun w => rpc_ (app w))) (fun rpc =>
    AppFrameWork_RpcCall (plain_callback PingPongCallBack) rpc (Some (Ping 150)) (Some (Pong 0))
      callback_address 0 (fun _ => rest))
  else rest.

(** [ClientDemoApp::OnRecvFrontEnd], src/sample/client_demo/client_demo_app.cpp:112-127 *)
Definition ClientDemo_OnRecvFrontEnd (net : option Z) (msg : bytes) : M W Z :=
  stub ← fw (fun w => cd_frame_stub_ (app w));
  if negb stub then mret (-1)
  else _ ← SendToFrontEnd net (Some msg); mret 0.

(** [callbacks of ClientDemoApp], src/sample/client_demo/client_demo_app.cpp:129-152 *)
Definition client_demo_app (_DEBUG : bool) : RapidApp W := {|
  OnUpdate := ClientDemo_OnUpdate _DEBUG; OnReload := fun k => k 0;
  app_OnFrontEndConnect := fun _ _ k => k 0; app_OnFrontEndClose := fun _ _ k => k 0;
  OnRecvFrontEnd := fun p _ msg k => Act (ClientDemo_OnRecvFrontEnd (Some p) msg) k;
  OnRecvBackEnd := fun _ _ _ k => k 0; OnTimer := fun _ _ k => k 0; OnRpcCall := fun _ _ k => k;
  GetFrontEndContextSize := 0; GetBackEndContextSize := 0;
  GetFrontEndMaxMsgSize := 0; GetBackEndMaxMsgSize := 0 |}.

Lemma PingPongCallBack_noting p b fd this : noting p b fd this PingPongCallBack logged.
Proof using.
  split.
  - intros fn req resp a st w. unfold PingPongCallBack.
    destruct req, resp; do 2 eexists; (split; [reflexivity|done]).
  - intros fn m d a st inp w [H1 H2 H3 H4 H5]. do 2 eexists. split; [reflexivity|].
    split; [by split|done].
Qed.
End Client.

(** ** The echo server *)

Section Echo.
Context {P : Protobuf} {C : Type} {E : NetEnv C}.

(** [MyApp], src/tools/echosvr/rapidapp_imp.h:38-39 *)
Record MyApp : Set := { my_frame_stub_ : bool }.

(** [MyApp::OnInit], src/tools/echosvr/rapidapp_imp.cpp:11-23 *)
Definition MyApp_OnInit (app_framework : bool) : M (App P C MyApp) Z :=
  if negb app_framework then mret (-1)
  else _ ← upd_fw (set_app {| my_frame_stub_ := true |}); mret 0.

(** [MyApp::OnFini], src/tools/echosvr/rapidapp_imp.cpp:25-30

    It only shuts the protobuf library down. *)
Definition MyApp_OnFini : M (App P C MyApp) Z := mret 0.

(** [MyApp::OnRecvFrontEnd], src/tools/echosvr/rapidapp_imp.cpp:55-65 *)
Definition MyApp_OnRecvFrontEnd (net : option Z) (msg : bytes) : M (App P C MyApp) Z :=
  stub ← fw (fun w => my_frame_stub_ (app w));
  if negb stub then mret (-1)
  else _ ← SendToFrontEnd net (Some msg); mret 0.

(** [callbacks of MyApp], src/tools/echosvr/rapidapp_imp.cpp:67-90 *)
Definition echo_app : RapidApp (App P C MyApp) := {|
  OnUpdate := fun k => k 0; OnReload := fun k => k 0;
  app_OnFrontEndConnect := fun _ _ k => k 0; app_OnFrontEndClose := fun _ _ k => k 0;
  OnRecvFrontEnd := fun p _ msg k => Act (MyApp_OnRecvFrontEnd (Some p) msg) k;
  OnRecvBackEnd := fun _ _ _ k => k 0; OnTimer := fun _ _ k => k 0; OnRpcCall := fun _ _ k => k;
  GetFrontEndContextSize := 0; GetBackEndContextSize := 0;
  GetFrontEndMaxMsgSize := 0; GetBackEndMaxMsgSize := 0 |}.

Context {R : RpcEnv P} {IS : IRpcService}.
Context (calloc : gmap Z (COROUTINECTX (App P C MyApp)) -> option Z) (p b fd : Z).
Implicit Types (s : CoroutineScheduler (App P C MyApp)) (w : App P C MyApp) (n : EasyNet).

(** The messages that are sent back: all but the empty ones. *)
Definition echoed (ms : list bytes) : list bytes := filter (fun m => m <> []) ms.

(** Between the arrivals: what has been sent and what is to come make [total]. *)
Definition echoing (total : bytes) (room : Z) (q : bytes) (ms : list bytes) s : Prop :=
  exists n, front_ok p b fd false q n (world s) /\ state_ n = NET_ESTABLISHED /\
    my_frame_stub_ (app (rest (world s))) = true /\
    size (recv_buffer_ (frontend_handler_mgr_ (rest (world s)))) = room /\
    sent b (world s) ++ frames (echoed ms) = total.

Lemma MyApp_OnRecvFrontEnd_ok q n w m :
  writes_succeed E -> front_ok p b fd false q n w -> state_ n = NET_ESTABLISHED ->
  my_frame_stub_ (app (rest w)) = true ->
  exists w', MyApp_OnRecvFrontEnd (Some p) m w = Ok (0, w') /\
    front_ok p b fd false q n w' /\ rest w' = rest w /\
    sent b w' = sent b w ++ frames (echoed [m]).
Proof using.
  intros Hw Hf Hst Hstub. pose proof Hf as [_ _ Hn Hev (x & Hx & _) _ _].
  assert (Hread : fw (fun a => my_frame_stub_ (app a)) w = Ok (true, w)) by (by rewrite fw_ok, Hstub).
  unfold MyApp_OnRecvFrontEnd. rewrite (bind_step _ _ _ _ _ Hread). cbn [negb].
  destruct m as [|c m].
  - exists w. repeat (split; [done|]). unfold echoed. rewrite filter_cons_False by (by intros H).
    cbn. by rewrite app_nil_r.
  - set (w' := set_heap (EasyNet.queued b x (c :: m) (heap w)) w).
    assert (Hsent : sent_more b (c :: m) w w') by (by exists x).
    destruct (front_ok_sent p b fd false q n w w' _ Hf Hsent eq_refl) as [Hf' Hs'].
    exists w'. split; [|split; [done|split; [done|]]].
    + erewrite bind_step; [reflexivity|]. unfold SendToFrontEnd. erewrite bind_step; [reflexivity|].
      by apply on_net_ok, (EasyNet_Send_queued (heap w) p n b x).
    + rewrite Hs'. unfold echoed. rewrite filter_cons_True by done. cbn. by rewrite app_nil_r.
Qed.
Lemma echoing_round total room q m ms s next :
  writes_succeed E -> echoing total room q (m :: ms) s ->
  exists s1, runs calloc (front_body (RA := echo_app) p m next) s next s1 /\
    echoing total room q ms s1 /\
    recv_buffer_ (frontend_handler_mgr_ (rest (world s1)))
    = recv_buffer_ (frontend_handler_mgr_ (rest (world s))).
Proof using.
  intros Hw (n & Hf & Hst & Hstub & Hroom & Htotal).
  set (count := fun n => set_pkg_counts (prev_pkg_count_ n) (u64 (curr_pkg_count_ n + 1)) n).
  destruct (MyApp_OnRecvFrontEnd_ok q n (world s) m Hw Hf Hst Hstub) as (w1 & Hrun & Hf1 & Hr1 & Hs1).
  pose proof (front_ok_upd p b fd false q n w1 count Hf1 eq_refl) as Hf2.
  set (w2 := set_heap _ w1) in Hf2.
  exists (set_world w2 s). split; [|split; [|by cbn; rewrite Hr1]].
  - unfold front_body. eapply runs_trans.
    { apply (runs_read calloc _ _ s (net_type_ n)). unfold net_type.
      rewrite (bind_step _ _ (world s) n (world s)); [done|].
      rewrite (on_net_ok _ _ _ _ (load_net_ok _ p n (fo_net _ _ _ _ _ _ _ Hf))). by destruct (world s). }
    cbv beta. eapply runs_trans; [exact (runs_act calloc (MyApp_OnRecvFrontEnd (Some p) m) _ s 0 w1 Hrun)|].
    change (set_world w2 s) with (set_world w2 (set_world w1 s)).
    apply (runs_act calloc (count_pkg p) (fun _ => next) (set_world w1 s) tt w2).
    apply (on_net_upd p w1 n count), (fo_net _ _ _ _ _ _ _ Hf1).
  - exists (count n). cbn [world set_world]. change (rest w2) with (rest w1).
    change (sent b w2) with (sent b w1). rewrite Hr1, Hs1.
    repeat (split; [done|]). rewrite <- Htotal, <- app_assoc, <- frames_app. do 2 f_equal.
    unfold echoed. by rewrite <- filter_app.
Qed.

Lemma echoing_arrival total room q c ms1 ms2 part s :
  writes_succeed E -> echoing total room q (ms1 ++ ms2) s -> q ++ c = frames ms1 ++ part ->
  incomplete part -> Forall frame_ok ms1 -> blen (q ++ c) <= room ->
  exists s', runs calloc (OnFrontEndMsg (RA := echo_app) b (fun _ => Ret))
      (set_world (arrive b c (world s)) s) Ret s' /\ echoing total room part ms2 s'.
Proof using.
  intros Hw. apply (front_arrival (RA := echo_app) calloc p b fd false (echoing total room) room).
  - intros q' ms s' (n & Hf & _ & _ & Hsize & _). eauto.
  - intros q' q2 n' ms s' w (n & Hf & Hst & Hstub & Hroom & Htotal) Hu Hf'.
    exists n'. cbn [world set_world].
    rewrite (ut_app _ _ _ _ Hu), (ut_room _ _ _ _ Hu), (ut_sent _ _ _ _ Hu).
    by rewrite (ut_state _ _ _ _ Hu n n' (fo_net _ _ _ _ _ _ _ Hf) (fo_net _ _ _ _ _ _ _ Hf')).
  - intros q' m ms s' next HJ. by apply (echoing_round total room q' m ms).
Qed.
End Echo.

(** ** Properties *)

(** [echo_stream]. What a client of the echo server gets back is the stream it has
    sent, however that is cut and wherever it stops: the frames of all messages that have
    arrived whole, in their order, without the empty ones. *)
Theorem echo_stream {P : Protobuf} {C} {E : NetEnv C} {R : RpcEnv P} {IS : IRpcService}
    calloc p b fd (B D : Z) chunks ms r n (s : CoroutineScheduler (App P C MyApp)) :
  writes_succeed E -> front_ok p b fd false [] n (world s) -> state_ n = NET_ESTABLISHED ->
  my_frame_stub_ (app (rest (world s))) = true -> Forall frame_ok ms ->
  0 < B -> Forall (fun m => blen (frame m) <= B) ms -> Forall (fun c => blen c <= D) chunks ->
  B + D <= size (recv_buffer_ (frontend_handler_mgr_ (rest (world s)))) ->
  List.concat chunks ++ r = frames ms ->
  exists s' ms1 ms2 part,
    served calloc b (OnFrontEndMsg (RA := echo_app) b (fun _ => Ret)) chunks s s' /\
    ms = ms1 ++ ms2 /\ List.concat chunks = frames ms1 ++ part /\ incomplete part /\
    sent b (world s') = sent b (world s) ++ frames (echoed ms1) /\
    (r = [] -> ms2 = [] /\ part = []).
Proof.
  intros Hw Hf Hst Hstub Hok HB HmB HcD Hsize Eq.
  set (room := size (recv_buffer_ (frontend_handler_mgr_ (rest (world s))))) in *.
  set (total := sent b (world s) ++ frames (echoed ms)).
  destruct (served_stream calloc b (OnFrontEndMsg (RA := echo_app) b (fun _ => Ret))
    (echoing p b fd total room) room
    (fun q c ms1 ms2 part s' => echoing_arrival calloc p b fd total room q c ms1 ms2 part s' Hw)
    B D chunks [] ms r s) as (s' & ms1 & ms2 & part & H1 & H2 & H3 & H4 & H5 & n' & _ & _ & _ & _ & Ht);
    try done.
  - by exists n.
  - by left.
  - exists s', ms1, ms2, part. repeat (split; [done|]). split; [|done].
    subst total ms. unfold echoed in Ht. rewrite filter_app, frames_app, app_assoc in Ht.
    by apply app_inv_tail in Ht.
Qed.

(** The demo client and the demo server: with the debug switch the client's [OnUpdate]
    makes a call, and when what each side sends reaches the other, in whatever pieces, the
    callback gets 151 for 150 and no call waits. *)
Theorem ping_pong {P : Protobuf} {POk : ProtobufOk P} {SP : SampleProto P} {SPOk : SampleProtoOk SP}
    {Rc : RpcEnv P} {RcOk : RpcEnvOk Rc} {Cc} {Ec : NetEnv Cc} calloc p b fd this
    {Rs : RpcEnv P} {RsOk : RpcEnvOk Rs} {Cs} {Es : NetEnv Cs} calloc' p' b' fd' pp_svc n' B D
    (s : CoroutineScheduler (App P Cc ClientDemoApp)) (s' : CoroutineScheduler (App P Cs ServerDemoApp)) :
  caller_ready (R := Rc) (E := Ec) calloc p b fd this PingPongCallBack logged 1 s ->
  rpc_ (app (rest (world s))) = Some this ->
  writes_succeed Es -> (forall h, is_Some (new_closure h)) ->
  front_ok p' b' fd' true [] n' (world s') -> state_ n' = NET_ESTABLISHED ->
  rpc_svc_mgr_ (rest (world s')) = Some (AddRpcService (IS := ping_pong_service) (Some pp_svc) ∅) ->
  is_Some new_Pong ->
  (forall aid, blen (frame (request_bytes (aid, Ping 150))) <= B /\
               blen (frame (answer_bytes pong_of (aid, Ping 150))) <= B) ->
  0 < B < 2147483648 ->
  B + D <= size (recv_buffer_ (backend_handler_mgr_ (rest (world s)))) ->
  B + D <= size (recv_buffer_ (frontend_handler_mgr_ (rest (world s')))) ->
  exists s1, runs calloc (ClientDemo_OnUpdate (R := Rc) (E := Ec) true (fun _ => Ret)) s Ret s1 /\
    forall chunks, Forall (fun c => blen c <= D) chunks ->
      sent b (world s1) = sent b (world s) ++ List.concat chunks ->
    exists s1', served calloc' b' (OnFrontEndMsg (R := Rs) (IS := ping_pong_service)
        (RA := server_demo_app) b' (fun _ => Ret)) chunks s' s1' /\
      forall chunks', Forall (fun c => blen c <= D) chunks' ->
        sent b' (world s1') = sent b' (world s') ++ List.concat chunks' ->
      exists s2, served calloc b (OnBackEndMsg (RA := client_demo_app (R := Rc) (E := Ec) true) b
          (fun _ => Ret)) chunks' s1 s2 /\
        rpc_inv PingPongCallBack this p [] s2 /\
        logged (app (rest (world s2))) = logged (app (rest (world s))) ++ [(Ping 150, Pong 151, 0, 0)].
Proof.
  intros [Hnote Hw Hcal Hctx Hinv Hb Hmax Hids] Hrpc Hw' Hnew Hf Hst Ht Hpong Hlen HB Hr Hr'.
  pose proof (ri_seed_range _ _ _ _ _ Hinv) as Hseed.
  set (qs := [(Ping 150, Pong 0, callback_address, 0)] : list (ask_for (P := P))).
  assert (Hpong150 : pong_of (Ping 150) = Pong 151) by (unfold pong_of; by rewrite as_Ping_Ping).
  destruct names_short as [Hn1 Hn2].
  destruct (calls_queued (R := Rc) calloc p b fd this PingPongCallBack []
    (Act (UnScheduleUpdate (A := ClientDemoApp)) (fun _ => Ret)) qs [] s) as
    (s1 & xs & Hrun & Hinv1 & Hmade & Hb1 & Hrest & Hsent); try done.
  { apply Forall_singleton. split; [done|]. by rewrite Ping_name. }
  set (w2 := set_rest (set_schedule_update false (rest (world s1))) (world s1)).
  exists (set_world w2 s1). split.
  { unfold ClientDemo_OnUpdate. eapply runs_trans.
    { apply (runs_read calloc _ _ s (Some this)). by rewrite (fw_ok (fun w => rpc_ (app w))), Hrpc. }
    cbv beta. eapply runs_trans; [exact Hrun|].
    by apply (runs_act calloc UnScheduleUpdate (fun _ => Ret) s1 tt w2). }
  intros chunks Hc Ec1. cbn [world set_world] in *. change (sent b w2) with (sent b (world s1)) in Ec1.
  rewrite Hsent in Ec1. apply app_inv_head in Ec1.
  destruct (calls_return (RAc := client_demo_app (R := Rc) (E := Ec) true) calloc p b fd this
    PingPongCallBack logged (ISs := ping_pong_service) (RAs := server_demo_app) calloc' p' b' fd'
    pong_of PingPong_OnRpcCall (AddRpcService (IS := ping_pong_service) (Some pp_svc) ∅) B D qs
    (asyncid_seed (world s)) xs (set_world w2 s1) s' chunks)
    as (s1' & Hserved & _ & _ & Hback); try done.
  - by apply rpc_inv_world.
  - destruct Hb1 as [G1 G2 G3 G4 G5]. by split.
  - split; try done; [apply ping_pong_answering|by exists n'].
  - cbn [length qs]. lia.
  - apply Forall_singleton. cbn. by rewrite Hpong150, (Pong_name 151).
  - apply Forall_singleton. split; [|exact Hlen]. cbn [asked fst].
    split; [exists pp_svc|split; [by rewrite Ping_name; apply Ping_known|by rewrite Hpong150, Pong_name]].
    split; [|split; [by rewrite Ping_name|exact Hpong]].
    unfold GetRpcService, AddRpcService, RpcServerMgr. rewrite Ping_name.
    change (RpcRequestName pp_svc) with (GetTypeName (Ping 0)). by rewrite lookup_insert_eq.
  - cbn. by rewrite Hrest.
  - exists s1'. split; [exact Hserved|]. intros chunks' Hc' Ec'.
    destruct (Hback chunks' Hc' Ec') as (s2 & Hs2 & Hinv2 & Hlog). exists s2.
    split; [exact Hs2|]. split; [exact Hinv2|].
    rewrite Hlog. cbn. by rewrite Hrest, Hpong150.
Qed.

(** ** Concrete runs *)

(** The messages "Pi" and "Po" of [plain_protobuf]. *)
Definition plain_cast (name : bytes) (m : bytes * bytes) : option Z :=
  if bool_decide (fst m = name) then Some (default 0 (head (snd m))) else None.
#[local] Instance plain_sample : SampleProto plain_protobuf := {
  Ping v := ([80; 105], [v]); Pong v := ([80; 111], [v]);
  as_Ping := plain_cast [80; 105]; as_Pong := plain_cast [80; 111];
  new_Pong := Some ([80; 111], [0]) }.

#[export] Instance plain_sample_ok : SampleProtoOk plain_sample.
Proof.
  split; try done.
  - intros [n l] H. cbn in H. subst n. by eexists.
  - intros d [= <-]. by eexists.
Qed.

Definition echo_state : CoroutineScheduler (App plain_protobuf Z MyApp) :=
  CoroutineScheduler_new 10 (path_world SVC_MODE_NORMAL None None {| my_frame_stub_ := true |}).

(** Two messages and an empty one between them, byte by byte. *)
Lemma echo_stream_witness :
  exists s', served any_calloc 4 (OnFrontEndMsg (R := easy_rpc_env) (IS := demo_services)
      (RA := echo_app (E := calm_env)) 4 (fun _ => Ret))
    (bytewise (frames [[7; 8]; []; [9]])) echo_state s' /\
    sent 4 (world s') = frames [[7; 8]; [9]].
Proof.
  destruct (echo_stream (P := plain_protobuf) (E := calm_env) (R := easy_rpc_env) (IS := demo_services)
    any_calloc 3 4 9 20 1 (bytewise (frames [[7; 8]; []; [9]])) [[7; 8]; []; [9]]
    [] (set_rpc_binded None front_net) echo_state)
    as (s' & ms1 & ms2 & part & Hs & Hms & Hst & Hi & Hsent & Hend).
  - done.
  - split; try done; by eexists.
  - done.
  - done.
  - repeat constructor; by vm_compute.
  - lia.
  - repeat constructor; by vm_compute.
  - apply bytewise_short.
  - by vm_compute.
  - by rewrite bytewise_concat, app_nil_r.
  - exists s'. split; [exact Hs|]. destruct (Hend eq_refl) as [-> _].
    rewrite app_nil_r in Hms. subst ms1. rewrite Hsent. reflexivity.
Defined.

Definition client_state : CoroutineScheduler (App plain_protobuf Z (ClientDemoApp (P := plain_protobuf))) :=
  CoroutineScheduler_new 10 (path_world SVC_MODE_NORMAL None (Some 8)
    {| cd_frame_stub_ := true; rpc_ := Some 8; logged := [] |}).
Definition server_state : CoroutineScheduler (App plain_protobuf Z ServerDemoApp) :=
  CoroutineScheduler_new 10 (path_world SVC_MODE_RPC
    (Some (AddRpcService (IS := ping_pong_service (P := plain_protobuf)) (Some 6) ∅)) None {| sd_frame_stub_ := true |}).

Lemma ping_pong_witness :
  exists s1 s1' s2,
    runs any_calloc (ClientDemo_OnUpdate (R := easy_rpc_env) (E := calm_env) true (fun _ => Ret))
      client_state Ret s1 /\
    served any_calloc 4 (OnFrontEndMsg (R := easy_rpc_env) (IS := ping_pong_service (P := plain_protobuf))
      (RA := server_demo_app (E := calm_env)) 4 (fun _ => Ret))
      (bytewise (sent 4 (world s1))) server_state s1' /\
    served any_calloc 4 (OnBackEndMsg (RA := client_demo_app (R := easy_rpc_env) (E := calm_env) true)
      4 (fun _ => Ret)) (bytewise (sent 4 (world s1'))) s1 s2 /\
    logged (app (rest (world s2))) = [(Ping 150, Pong 151, 0, 0)].
Proof.
  destruct (ping_pong (P := plain_protobuf) (Rc := easy_rpc_env) (Ec := calm_env) any_calloc 3 4 9 8
    (Rs := easy_rpc_env) (Es := calm_env) any_calloc 3 4 9 6 (set_rpc_binded None front_net) 20 1
    client_state server_state) as (s1 & Hrun & H1).
  - split.
    + apply PingPongCallBack_noting.
    + done.
    + intros h. eexists. split; [reflexivity|]. by apply any_calloc_fresh.
    + intros h. by eexists.
    + split; try done; by constructor.
    + split; try done; [by eexists|by eexists|]. by eexists.
    + by vm_compute.
    + by vm_compute.
    + by vm_compute.
  - done.
  - done.
  - intros h. by eexists.
  - split; try done; by eexists.
  - done.
  - done.
  - by eexists.
  - intros aid. by cbn.
  - lia.
  - by vm_compute.
  - by vm_compute.
  - destruct (H1 (bytewise (sent 4 (world s1))) (bytewise_short _)) as (s1' & Hs1 & H2).
    { by rewrite bytewise_concat. }
    destruct (H2 (bytewise (sent 4 (world s1'))) (bytewise_short _)) as (s2 & Hs2 & _ & Hl).
    { by rewrite bytewise_concat. }
    exists s1, s1', s2. auto.
Defined.
