(* ===== verification/Reactor.v ===== *)
(** * The event loop: the callbacks of framework/rapidapp_framework_imp.h

    libevent calls the framework when a client connects, when bytes or an event come in on
    a bufferevent and when the frame timer fires; which of the framework's functions it
    calls is what was set with [bufferevent_setcb].  [deliver] is one call, a history is a
    sequence of them.  The theorems are about all histories of a process whose application
    keeps to the contract [tame]. *)
From Stdlib Require Import ZArith Lia.
From stdpp Require Import base functions list gmap fin_maps strings.
From S2P Require Import Prelude CLib TcpSocket Timer Coroutine EasyNet NetMgr Tables RpcMsg EasyRpc.
From S2P Require Import Framework MsgLoop CallPath Sample.
Local Open Scope Z_scope.

(** ** The callbacks *)

Section Callbacks.
Context {P : Protobuf} {R : RpcEnv P} {IS : IRpcService} {C A : Type}.
Context {E : NetEnv C} {HO : HashOrder} {F : FrameEnv} {RA : RapidApp (App P C A)}.
Abbreviation Mw := (M (App P C A)).
Abbreviation prog := (code (App P C A)).

(** [internal_timer_cb_func], src/framework/rapidapp_framework_imp.h:99-105

    [arg] and [ptr] tell whether the pointer to the framework is not null. *)
Definition internal_timer_cb_func (fuel : nat) (arg : bool) (k : prog) : prog :=
  if negb arg then k else Tick fuel (fun _ => k).

(** [socket_listen_cb_function], src/framework/rapidapp_framework_imp.h:107-122 *)
Definition socket_listen_cb_function (listener : bool) (sock : Z) (addr : option (Z * Z))
    (ptr : bool) (k : prog) : prog :=
  if negb ptr then k
  else if negb listener || (sock <? 0) || bool_decide (addr = None) then k
  else OnFrontEndConnect sock addr (fun _ => k).

(** [on_frontend_data_cb_func], src/framework/rapidapp_framework_imp.h:124-130 *)
Definition on_frontend_data_cb_func (bev : option Z) (arg : bool) (k : prog) : prog :=
  match bev, arg with
  | Some b, true => OnFrontEndMsg b (fun _ => k)
  | _, _ => k
  end.

(** [on_frontend_nondata_event_cb_func], src/framework/rapidapp_framework_imp.h:132-138 *)
Definition on_frontend_nondata_event_cb_func (bev : option Z) (events : Z) (arg : bool) (k : prog)
    : prog :=
  match bev, arg with
  | Some b, true => OnFrontEndSocketEvent b events (fun _ => k)
  | _, _ => k
  end.

(** [on_backend_data_cb_func], src/framework/rapidapp_framework_imp.h:140-146 *)
Definition on_backend_data_cb_func (bev : option Z) (arg : bool) (k : prog) : prog :=
  match bev, arg with
  | Some b, true => OnBackEndMsg b (fun _ => k)
  | _, _ => k
  end.

(** [on_backend_nondata_event_cb_func], src/framework/rapidapp_framework_imp.h:148-154 *)
Definition on_backend_nondata_event_cb_func (bev : option Z) (events : Z) (arg : bool) (k : prog)
    : prog :=
  match bev, arg with
  | Some b, true => Act (OnBackEndSocketEvent b events) (fun _ => k)
  | _, _ => k
  end.

(** [signal_stop_handler], src/framework/rapidapp_framework_imp.h:166-168 *)
Definition signal_stop_handler : Mw unit := upd_fw (set_run false).
(** [signal_reload_handler], src/framework/rapidapp_framework_imp.h:170-172 *)
Definition signal_reload_handler : Mw unit := upd_fw (set_reloading true).

(** ** libevent *)

(** What comes in: from libevent a client that was accepted, bytes that arrived, an event
    of a connection, the end of a frame; from the kernel the signals.  A signal handler
    writes one static member that only [Tick] reads, so it may as well come between two
    callbacks. *)
Inductive event : Type :=
  | Accepted (sock : Z) (addr : Z * Z)
  | Arrived (bev : Z) (data : bytes)
  | Happened (bev : Z) (events : Z)
  | Frame
  | StopSignal
  | ReloadSignal.

Definition callbacks_of (b : Z) : Mw (option callbacks) := on_net (gets (fun h => cbs h !! b)).

(** One call of libevent; bytes are in the input of the bufferevent before the call.
    [fuel] bounds the rounds of the loop of [Tick] over the timers. *)
Definition deliver (fuel : nat) (e : event) : prog :=
  match e with
  | Accepted sock addr => socket_listen_cb_function true sock (Some addr) true Ret
  | Arrived b data =>
      Act (modify (arrive b data)) (fun _ =>
      Act (callbacks_of b) (fun c =>
      match c with
      | Some frontend_cb_funcs => on_frontend_data_cb_func (Some b) true Ret
      | Some backend_cb_funcs => on_backend_data_cb_func (Some b) true Ret
      | None => Ret
      end))
  | Happened b events =>
      Act (callbacks_of b) (fun c =>
      match c with
      | Some frontend_cb_funcs => on_frontend_nondata_event_cb_func (Some b) events true Ret
      | Some backend_cb_funcs => on_backend_nondata_event_cb_func (Some b) events true Ret
      | None => Ret
      end)
  | Frame => internal_timer_cb_func fuel true Ret
  | StopSignal => Act signal_stop_handler (fun _ => Ret)
  | ReloadSignal => Act signal_reload_handler (fun _ => Ret)
  end.
End Callbacks.

(** What is taken for granted about the servers behind the back ends: the messages they send,
    and whether they stay connected. *)
Class Peers : Type := { heard : bytes -> Prop; steady : Prop }.

(** Nothing. *)
Definition anyone : Peers := {| heard _ := True; steady := False |}.

(** What may be queued under the callbacks [c]: any bytes in which no length of 1, 2 or 3
    comes up where the loop looks for one ([MsgLoop.short_frame] is what it does then).
    They are whole messages and a rest that the loop does not touch: a part of a message,
    or what is behind a length of 0 or of 2^31 and more. *)
Definition stream_part {PE : Peers} (c : callbacks) (l : bytes) : Prop :=
  exists ms part, l = frames ms ++ part /\ Forall frame_ok ms /\ incomplete part /\
    (c = backend_cb_funcs -> Forall heard ms).

(** ** What the framework has told the application of *)

(** In order: a front end that is new, a message of a front end, a message of a back end. *)
Inductive happening : Type :=
  | Opened (p : Z)
  | FromFront (p : Z) (m : bytes)
  | FromBack (p : Z) (m : bytes).
Definition ledger : Type := list happening.
Definition opened (p : Z) (g : ledger) : ledger := g ++ [Opened p].
Definition handed (p : Z) (m : bytes) (g : ledger) : ledger := g ++ [FromFront p m].
Definition handed_back (p : Z) (m : bytes) (g : ledger) : ledger := g ++ [FromBack p m].

(** The part of the record since the connection [p] was new, and the messages of [p] in it. *)
Definition since (p : Z) (g : ledger) : ledger :=
  fold_left (fun l h => match h with
                        | Opened q => if decide (q = p) then [] else l ++ [h]
                        | _ => l ++ [h]
                        end) g [].
Definition said (p : Z) (h : happening) : option bytes :=
  match h with
  | Opened _ => None
  | FromFront q m | FromBack q m => if decide (q = p) then Some m else None
  end.
Definition taken (p : Z) (g : ledger) : list bytes := omap (said p) (since p g).

Lemma since_snoc p g h :
  since p (g ++ [h]) = match h with
                       | Opened q => if decide (q = p) then [] else since p g ++ [h]
                       | _ => since p g ++ [h]
                       end.
Proof. unfold since. by rewrite fold_left_app. Qed.

Lemma opened_eq p g : taken p (opened p g) = [].
Proof. unfold taken, opened. rewrite since_snoc. by rewrite decide_True. Qed.
Lemma opened_ne p q g : p <> q -> taken q (opened p g) = taken q g.
Proof.
  intros Hp. unfold taken, opened. rewrite since_snoc, decide_False by done.
  rewrite omap_app. cbn. by rewrite app_nil_r.
Qed.
Lemma handed_eq p m g : taken p (handed p m g) = taken p g ++ [m].
Proof. unfold taken, handed. rewrite since_snoc, omap_app. cbn. by rewrite decide_True. Qed.
Lemma handed_ne p q m g : p <> q -> taken q (handed p m g) = taken q g.
Proof.
  intros Hp. unfold taken, handed. rewrite since_snoc, omap_app. cbn.
  by rewrite decide_False, app_nil_r.
Qed.
Lemma handed_back_eq p m g : taken p (handed_back p m g) = taken p g ++ [m].
Proof. unfold taken, handed_back. rewrite since_snoc, omap_app. cbn. by rewrite decide_True. Qed.
Lemma handed_back_ne p q m g : p <> q -> taken q (handed_back p m g) = taken q g.
Proof.
  intros Hp. unfold taken, handed_back. rewrite since_snoc, omap_app. cbn.
  by rewrite decide_False, app_nil_r.
Qed.

Section Loop.
Context {P : Protobuf} {R : RpcEnv P} {IS : IRpcService} {C A : Type}.
Context {E : NetEnv C} {HO : HashOrder} {F : FrameEnv} {RA : RapidApp (App P C A)}.
Context {EOk : NetEnvOk E} {HOk : HashOrderOk HO} {FOk : FrameEnvOk F} {PE : Peers}.
Context (calloc : gmap Z (COROUTINECTX (App P C A)) -> option Z) (room fuel : nat).
Abbreviation prog := (code (App P C A)).
Implicit Types (s : CoroutineScheduler (App P C A)) (w : App P C A) (n : EasyNet).

Definition front w : NetHandlerMgr := frontend_handler_mgr_ (rest w).
Definition back w : NetHandlerMgr := backend_handler_mgr_ (rest w).

(** What the kernel and libevent report: descriptors that are new, and bufferevents that
    exist.  Three things can happen that are left out, and what the code then does is shown
    elsewhere: a length of 1, 2 or 3 ([stream_part], [MsgLoop.short_frame]); more clients
    than the table holds without a rehash ([room], [NetMgr.rehash_then_walk]); more than
    2^31 - 2 connections, after which the counter of connections overflows.  The servers
    behind the back ends are as [Peers] says. *)
Definition possible w (e : event) : Prop :=
  match e with
  | Accepted sock _ =>
      (forall c y, bevs (heap w) !! c = Some y -> bev_fd y <> sock) /\ sock < 2147483648 /\
      nid_seed (heap w) < 2147483647 /\ (length (handler_pool_ (front w)) < room)%nat
  | Arrived b data =>
      exists x c, bevs (heap w) !! b = Some x /\ cbs (heap w) !! b = Some c /\
        stream_part c (input x ++ data)
  | Happened b events =>
      is_Some (bevs (heap w) !! b) /\
      (steady -> cbs (heap w) !! b = Some backend_cb_funcs ->
       has events BEV_EVENT_ERROR = false /\ has events BEV_EVENT_EOF = false)
  | Frame | StopSignal | ReloadSignal => True
  end.

(** What has arrived on each bufferevent since it was made. *)
Definition traffic : Type := Z -> bytes.
Definition arrivals w (e : event) (a : traffic) : traffic := fun b =>
  if bool_decide (is_Some (bevs (heap w) !! b)) then
    match e with
    | Arrived c data => if bool_decide (c = b) then a b ++ data else a b
    | _ => a b
    end
  else [].

(** A history: events that are possible when they come, with what has arrived. *)
Inductive history : list event -> CoroutineScheduler (App P C A) -> traffic ->
    CoroutineScheduler (App P C A) -> traffic -> Prop :=
  | history_nil s a : history [] s a s a
  | history_cons e es s a s1 s2 a2 :
      possible (world s) e -> runs calloc (deliver fuel e) s Ret s1 ->
      history es s1 (arrivals (world s) e a) s2 a2 -> history (e :: es) s a s2 a2.

(** [event_base_dispatch]: it returns behind the first callback that has told it to break. *)
Inductive dispatches : list event -> CoroutineScheduler (App P C A) -> traffic ->
    CoroutineScheduler (App P C A) -> traffic -> Prop :=
  | dispatches_last e s a s1 :
      possible (world s) e -> runs calloc (deliver fuel e) s Ret s1 ->
      loopbreak (rest (world s1)) = true -> dispatches [e] s a s1 (arrivals (world s) e a)
  | dispatches_next e es s a s1 s2 a2 :
      possible (world s) e -> runs calloc (deliver fuel e) s Ret s1 ->
      loopbreak (rest (world s1)) = false -> dispatches es s1 (arrivals (world s) e a) s2 a2 ->
      dispatches (e :: es) s a s2 a2.

Lemma dispatches_history es s a s' a' :
  dispatches es s a s' a' -> history es s a s' a' /\ loopbreak (rest (world s')) = true.
Proof using.
  induction 1 as [e s a s1 He Hr Hb|e es s a s1 s2 a2 He Hr _ _ [IH Hb]];
    (split; [eapply history_cons|]; eauto using history_nil).
Qed.

Lemma history_app es1 es2 s a s' a' :
  history (es1 ++ es2) s a s' a' <->
  exists s1 a1, history es1 s a s1 a1 /\ history es2 s1 a1 s' a'.
Proof using.
  split.
  - revert s a. induction es1 as [|e es1 IH]; intros s a H.
    + exists s, a. split; [constructor|done].
    + inversion H as [|? ? ? ? s0 ? ? He Hr Hh]; subst. destruct (IH _ _ Hh) as (s2 & a2 & H1 & H2).
      exists s2, a2. split; [by eapply history_cons|done].
  - intros (s1 & a1 & H1 & H2). induction H1; [done|]. eapply history_cons; eauto.
Qed.

(** ** The state of the framework between two events *)

Definition buffer_ok (rb : RapBuffer) : Prop :=
  exists buf, buffer rb = Some buf /\ blen buf = size rb.

Record wired w : Prop := {
  wi_app : app_ (rest w) = true;
  wi_base : event_base_ (rest w) = true;
  wi_tables : tables stream_part (heap w) (handler_pool_ (back w)) (handler_pool_ (front w));
  wi_front : walkable room (front w);
  wi_back : holds (back w) (handler_pool_ (back w));
  wi_seed : 1 <= nid_seed (heap w);
  wi_fbuf : buffer_ok (recv_buffer_ (front w));
  wi_bbuf : buffer_ok (recv_buffer_ (back w));
  wi_timers : timer_list_ (timer_mgr_ (rest w)) = []
}.

(** A connection is in one of the tables. *)
Definition is_front (p : Z) w : Prop := exists fd, (fd, Some p) ∈ handler_pool_ (front w).
Definition is_back (p : Z) w : Prop := exists fd, (fd, Some p) ∈ handler_pool_ (back w).

(** ** The contract with the application *)

(** A process that was told to end, and a loop that was, stay so, and what [CleanUp] is to
    release stays held. *)
Record ending w w' : Prop := {
  en_running : running_ (rest w) = false -> running_ (rest w') = false;
  en_loopbreak : loopbreak (rest w) = true -> loopbreak (rest w') = true;
  en_handles : handles (rest w') = handles (rest w)
}.

#[local] Instance ending_preorder : PreOrder ending.
Proof using. split; [done|]. intros w1 w2 w3 [] []. split; [auto|auto|congruence]. Qed.

(** What a callback may do: change its own state and that of calls, send on connections,
    count and mark them; not make or remove connections or timers. *)
Record courteous w w' : Prop := {
  co_links : same_links stream_part (heap w) (heap w');
  co_inputs b x x' : bevs (heap w) !! b = Some x -> bevs (heap w') !! b = Some x' ->
                     input x' = input x;
  co_front : front w' = front w;
  co_back : back w' = back w;
  co_app : app_ (rest w') = app_ (rest w);
  co_base : event_base_ (rest w') = event_base_ (rest w);
  co_mode : svc_mode_ (rest w') = svc_mode_ (rest w);
  co_timers : timer_mgr_ (rest w') = timer_mgr_ (rest w);
  co_ending : ending w w'
}.

(** A front end without messages yet. *)
Definition fresh_front (p : Z) w : Prop :=
  exists n b x, nets (heap w) !! p = Some n /\ hevent_ n = Some b /\ bevs (heap w) !! b = Some x /\
    rpc_binded_ n = None /\ state_ n = NET_ESTABLISHED /\ input x = [] /\ output x = [] /\
    bev_fd x < 2147483648.

(** What the framework leaves alone between two callbacks: the state of the application and
    that of calls, the table of the back ends, and of each connection that stays its state,
    its context, what is queued to be sent and which call it is bound to.  [o] is a front end
    that is new. *)
Record moves (o : option Z) w w' : Prop := {
  mv_app : app (rest w') = app (rest w);
  mv_services : rpc_svc_mgr_ (rest w') = rpc_svc_mgr_ (rest w);
  mv_rpcs : rpcs w' = rpcs w;
  mv_ctxs : rpc_ctxs w' = rpc_ctxs w;
  mv_aid : asyncid_seed w' = asyncid_seed w;
  mv_mode : svc_mode_ (rest w') = svc_mode_ (rest w);
  mv_fronts p : o <> Some p -> is_front p w' -> is_front p w;
  mv_nets p n' : o <> Some p -> nets (heap w') !! p = Some n' ->
    exists n, nets (heap w) !! p = Some n /\ hevent_ n' = hevent_ n /\ nid_ n' = nid_ n /\
      rpc_binded_ n' = rpc_binded_ n /\ (is_front p w' -> state_ n' = state_ n) /\
      (steady -> state_ n = NET_ESTABLISHED -> state_ n' = NET_ESTABLISHED) /\
      (forall c z, user_context_ n = Some c -> uctxs (heap w) !! c = Some z ->
         user_context_ n' = Some c /\ uctxs (heap w') !! c = Some z);
  mv_outputs p n' b x' : o <> Some p -> nets (heap w') !! p = Some n' -> hevent_ n' = Some b ->
    bevs (heap w') !! b = Some x' ->
    exists x, bevs (heap w) !! b = Some x /\ output x' = output x /\ bev_fd x' = bev_fd x;
  mv_backs : handler_pool_ (back w') = handler_pool_ (back w);
  mv_seed : seed_grows (heap w) (heap w');
  mv_new p : o = Some p -> nets (heap w) !! p = None /\ fresh_front p w';
  mv_nid p n : o = Some p -> nets (heap w') !! p = Some n ->
    nid_seed (heap w) <= nid_ n < nid_seed (heap w');
  mv_ending : ending w w'
}.

(** The invariant of the application; the option is a front end it has not been told of yet,
    or has been told the end of. *)
Context (J : option Z -> ledger -> CoroutineScheduler (App P C A) -> Prop).

Definition fine o g s : Prop := wired (world s) /\ J o g s.

(** The front end [p] has just joined the others, as all was well. *)
Definition joined p g s : Prop :=
  exists g0 s0, fine None g0 s0 /\ g = opened p g0 /\ moves (Some p) (world s0) (world s).

(** A call of a callback returns, and keeps the invariant [J] of the application. *)
Definition call_ok o g (c : (Z -> prog) -> prog) s : Prop :=
  exists z s', (forall k, runs calloc (c k) s (k z) s') /\ courteous (world s) (world s') /\ J o g s'.

(** A front end has the context it was to get. *)
Definition with_context (p : Z) w : Prop :=
  0 < GetFrontEndContextSize -> exists n c z, nets (heap w) !! p = Some n /\
    user_context_ n = Some c /\ uctxs (heap w) !! c = Some z.

Record tame : Prop := {
  tm_moves o g s w : fine o g s -> wired w -> moves None (world s) w -> J o g (set_world w s);
  tm_new g s p w : fine None g s -> wired w -> moves (Some p) (world s) w ->
    J (Some p) (opened p g) (set_world w s);
  tm_gone g s p : J (Some p) g s -> ~ is_front p (world s) -> J None g s;
  tm_update g s : fine None g s -> call_ok None g OnUpdate s;
  tm_reload g s : fine None g s -> call_ok None g OnReload s;
  tm_connect g s p ty : fine (Some p) g s -> is_front p (world s) -> joined p g s ->
    with_context p (world s) ->
    call_ok None g (app_OnFrontEndConnect p ty) s;
  tm_close g s p ty : fine None g s -> is_front p (world s) ->
    call_ok (Some p) g (app_OnFrontEndClose p ty) s;
  tm_front g s p ty m : fine None g s -> is_front p (world s) ->
    call_ok None (handed p m g) (OnRecvFrontEnd p ty m) s;
  tm_back g s p ty m : fine None g s -> is_back p (world s) -> heard m ->
    call_ok None (handed_back p m g) (OnRecvBackEnd p ty m) s;
  tm_answer g s p n r m : fine None g s -> is_back p (world s) ->
    nets (heap (world s)) !! p = Some n -> rpc_binded_ n = Some r ->
    exists x, rpcs (world s) !! r = Some x /\
      (crid_list_ x <> [] -> call_ok None (handed_back p m g) (EasyRpc_Resume r (Some m)) s);
  tm_service g s p svc c clo t m d : fine None g s -> is_front p (world s) ->
    rpc_svc_mgr_ (rest (world s)) = Some t -> GetRpcService t (GetTypeName m) = Some svc ->
    NewResponse svc = Some d -> closures (world s) !! c = Some clo -> clo_net_ clo = Some p ->
    req_ clo = Some m -> rsp_ clo = Some d ->
    call_ok None g (fun k => OnRpcCall svc c (k 0)) s
}.

(** ** What has been handed over is what has arrived *)

(** The connections whose messages are in the record: the back ends, and in the mode of
    messages the front ends. *)
Definition noted (p : Z) w : Prop :=
  is_back p w \/ is_front p w /\ (svc_mode_ (rest w) =? SVC_MODE_RPC) = false.

(** What has arrived from such a connection, except [o], is what has been handed to the
    application and what is queued. *)
Definition traced (o : option Z) (a : traffic) (g : ledger) w : Prop :=
  forall p n b x, o <> Some p -> noted p w -> nets (heap w) !! p = Some n ->
    hevent_ n = Some b -> bevs (heap w) !! b = Some x -> a b = frames (taken p g) ++ input x.

Definition good_but o a g s : Prop := fine o g s /\ traced None a g (world s).
Definition good : traffic -> ledger -> CoroutineScheduler (App P C A) -> Prop := good_but None.

(** The connections stay as they are. *)
Definition still w w' : Prop :=
  forall p n' b x', noted p w' -> nets (heap w') !! p = Some n' -> hevent_ n' = Some b ->
    bevs (heap w') !! b = Some x' ->
    noted p w /\ exists n x, nets (heap w) !! p = Some n /\ hevent_ n = Some b /\
      bevs (heap w) !! b = Some x /\ input x' = input x.

Lemma traced_still o a g w w' : still w w' -> traced o a g w -> traced o a g w'.
Proof using.
  intros Hs Ht p n' b x' Ho Hp Hn Hb Hx.
  destruct (Hs p n' b x' Hp Hn Hb Hx) as (Hp0 & n & x & Hn0 & Hb0 & Hx0 & ->).
  by apply (Ht p n b x).
Qed.

Lemma noted_moves o w w' p : moves o w w' -> o <> Some p -> noted p w' -> noted p w.
Proof using.
  intros Hm Ho [Hp|[Hp Hmode]].
  - left. unfold is_back in *. by rewrite (mv_backs _ _ _ Hm) in Hp.
  - right. rewrite (mv_mode _ _ _ Hm) in Hmode. split; [by apply (mv_fronts _ _ _ Hm)|done].
Qed.

Lemma still_courteous w w' : courteous w w' -> still w w'.
Proof using.
  intros Hc p n' b x' Hp Hn Hb Hx.
  destruct (sl_net_back stream_part _ _ _ _ (co_links _ _ Hc) Hn) as (n & Hn0 & Eb & _).
  destruct (sl_bev_back stream_part _ _ _ _ (co_links _ _ Hc) Hx) as (x & Hx0 & _).
  split; [by unfold noted, is_front, is_back in *;
            rewrite <- (co_front _ _ Hc), <- (co_back _ _ Hc), <- (co_mode _ _ Hc)|].
  exists n, x. repeat (split; [first [done|congruence]|]). by apply (co_inputs _ _ Hc b).
Qed.

Lemma still_moves w w' :
  moves None w w' ->
  (forall b x x', bevs (heap w) !! b = Some x -> bevs (heap w') !! b = Some x' -> input x' = input x) ->
  still w w'.
Proof using.
  intros Hm Hi p n' b x' Hp Hn Hb Hx.
  destruct (mv_nets _ _ _ Hm p n' ltac:(done) Hn) as (n & Hn0 & Eb & _).
  destruct (mv_outputs _ _ _ Hm p n' b x' ltac:(done) Hn Hb Hx) as (x & Hx0 & _).
  split; [by eapply noted_moves|]. exists n, x.
  repeat (split; [first [done|congruence]|]). by apply (Hi b).
Qed.

(** ** Handlers that return *)

Definition ends a (c : prog) s : Prop := exists g s', runs calloc c s Ret s' /\ good a g s'.

Lemma ends_ret a g s : good a g s -> ends a Ret s.
Proof using. intros H. exists g, s. split; [apply runs_refl|done]. Qed.

Lemma ends_runs a c s c' s' : runs calloc c s c' s' -> ends a c' s' -> ends a c s.
Proof using. intros Hr (g & s2 & Hr2 & H). exists g, s2. split; [by eapply runs_trans|done]. Qed.

Lemma ends_act {X} a (m : M (App P C A) X) k s z w :
  m (world s) = Ok (z, w) -> ends a (k z) (set_world w s) -> ends a (Act m k) s.
Proof using. intros E0. apply ends_runs. by apply runs_act. Qed.

Lemma ends_read {X} a (m : M (App P C A) X) k s z :
  m (world s) = Ok (z, world s) -> ends a (k z) s -> ends a (Act m k) s.
Proof using. intros E0. apply ends_runs. by apply runs_read. Qed.

Lemma wired_courteous w w' : wired w -> courteous w w' -> wired w'.
Proof using.
  intros [H1 H2 H3 H4 H5 H6 H7 H8 H9] [K1 K2 K3 K4 K5 K6 K7 K8 _].
  split; rewrite ?K3, ?K4, ?K5, ?K6, ?K8; try done.
  - by apply (tables_same stream_part (heap w)).
  - by rewrite (sl_seed _ _ _ K1).
Qed.

Lemma ends_call o o' a g c k s :
  good_but o a g s -> call_ok o' g c s ->
  (forall z s', good_but o' a g s' -> courteous (world s) (world s') -> ends a (k z) s') ->
  ends a (c k) s.
Proof using.
  intros [[Hw _] Ht] (z & s' & Hrun & Hc & HJ) H. eapply ends_runs; [apply Hrun|].
  apply H; [|done]. split; [split; [by apply (wired_courteous (world s))|done]|].
  eapply traced_still; [by apply still_courteous|done].
Qed.

(** ** Steps of the framework between the callbacks *)

Lemma courteous_heap w h :
  same_links stream_part (heap w) h ->
  (forall b x x', bevs (heap w) !! b = Some x -> bevs h !! b = Some x' -> input x' = input x) ->
  courteous w (set_heap h w).
Proof using. intros Hs Hi. by split. Qed.

Lemma courteous_net w p n n' :
  nets (heap w) !! p = Some n -> same_identity n n' ->
  courteous w (set_heap (set_nets (<[p := n']> (nets (heap w))) (heap w)) w).
Proof using.
  intros Hp Hn. apply courteous_heap; [by apply same_links_net with n|]. cbn. congruence.
Qed.

#[local] Instance courteous_preorder : PreOrder courteous.
Proof using.
  split.
  - intros w. split; try done. congruence.
  - intros w1 w2 w3 A1 A2. destruct A1, A2. split; try congruence; [by etransitivity| |].
    2: { by transitivity w2. }
    intros b x x3 Hx Hx3.
    destruct (sl_bev stream_part _ _ _ _ co_links0 Hx) as (x2 & Hx2 & _).
    rewrite (co_inputs1 b x2 x3) by done. by apply (co_inputs0 b).
Qed.

(** The framework changes the heap, and perhaps a table, in a way that only takes out. *)
Lemma moves_fewer w w' :
  app (rest w') = app (rest w) -> rpc_svc_mgr_ (rest w') = rpc_svc_mgr_ (rest w) ->
  rpcs w' = rpcs w -> rpc_ctxs w' = rpc_ctxs w -> asyncid_seed w' = asyncid_seed w ->
  svc_mode_ (rest w') = svc_mode_ (rest w) -> (forall p, is_front p w' -> is_front p w) ->
  handler_pool_ (back w') = handler_pool_ (back w) ->
  fewer (heap w) (heap w') -> ending w w' -> moves None w w'.
Proof using.
  intros E1 E2 E3 E4 E5 E6 Hf Eb [Hn Hb Hu Hs] He. split; try done; [by auto| |].
  - intros p n' _ Hp. destruct (Hn p n' Hp) as (n & Hp0 & (? & Ec & ?) & ? & Es). exists n.
    do 4 (split; [done|]). split; [done|]. split; [by rewrite Es|]. intros c z Hc Hz.
    split; [congruence|]. apply (Hu p n'); [done|congruence|done].
  - intros p n' b x' _ _ _ Hx. exists x'. auto.
Qed.

Lemma inputs_fewer w w' : fewer (heap w) (heap w') -> forall b x x',
  bevs (heap w) !! b = Some x -> bevs (heap w') !! b = Some x' -> input x' = input x.
Proof using. intros [_ Hb _ _] b x x' Hx Hx'. apply Hb in Hx'. congruence. Qed.

Lemma moves_net w p n n' :
  nets (heap w) !! p = Some n -> same_use n n' ->
  moves None w (set_heap (set_nets (<[p := n']> (nets (heap w))) (heap w)) w).
Proof using. intros Hp Hn. by apply moves_fewer; try done; apply fewer_net with n. Qed.

Definition with_front (h : Heap C) (m : NetHandlerMgr) w : App P C A :=
  set_rest (set_frontend m (rest w)) (set_heap h w).

Lemma wired_with_front h m w :
  wired w -> tables stream_part h (handler_pool_ (back w)) (handler_pool_ m) -> walkable room m ->
  recv_buffer_ m = recv_buffer_ (front w) -> 1 <= nid_seed h -> wired (with_front h m w).
Proof using. intros [H1 H2 H3 H4 H5 H6 H7 H8 H9] Ht Hm Hb Hs. split; try done. cbn. by rewrite Hb. Qed.

Lemma moves_with_front h m w :
  (forall e, e ∈ handler_pool_ m -> e ∈ handler_pool_ (front w)) -> fewer (heap w) h ->
  moves None w (with_front h m w).
Proof using. intros Hm Hf. apply moves_fewer; try done. intros p [fd Hin]. exists fd. by apply Hm. Qed.

(** What a front end that has joined does not lose. *)
Lemma moves_after p w w1 w2 :
  moves (Some p) w w1 -> moves None w1 w2 -> fresh_front p w2 -> moves (Some p) w w2.
Proof using.
  intros M1 M2 Hnew.
  assert (Hback : forall q n2, nets (heap w2) !! q = Some n2 -> exists n1, nets (heap w1) !! q = Some n1 /\
    hevent_ n2 = hevent_ n1 /\ nid_ n2 = nid_ n1).
  { intros q n2 H2. destruct (mv_nets _ _ _ M2 q n2 ltac:(done) H2) as (n1 & H1 & ? & ? & _). by exists n1. }
  split; [by rewrite (mv_app _ _ _ M2), (mv_app _ _ _ M1)|by rewrite (mv_services _ _ _ M2), (mv_services _ _ _ M1)
    |by rewrite (mv_rpcs _ _ _ M2), (mv_rpcs _ _ _ M1)|by rewrite (mv_ctxs _ _ _ M2), (mv_ctxs _ _ _ M1)
    |by rewrite (mv_aid _ _ _ M2), (mv_aid _ _ _ M1)|by rewrite (mv_mode _ _ _ M2), (mv_mode _ _ _ M1)|..].
  - intros q Hq Hf. apply (mv_fronts _ _ _ M1 q Hq). by apply (mv_fronts _ _ _ M2).
  - intros q n2 Hq H2. destruct (mv_nets _ _ _ M2 q n2 ltac:(done) H2) as (n1 & H1 & B1 & B2 & B3 & B4 & B5 & B6).
    destruct (mv_nets _ _ _ M1 q n1 Hq H1) as (n & H0 & A1 & A2 & A3 & A4 & A5 & A6).
    exists n. split; [done|]. do 3 (split; [congruence|]). split.
    { intros Hf. rewrite (B4 Hf). apply A4. by apply (mv_fronts _ _ _ M2). }
    split; [auto|]. intros c z Hc Hz. destruct (A6 c z Hc Hz) as [Hc1 Hz1]. by apply B6.
  - intros q n2 b x2 Hq H2 Hb Hx2. destruct (Hback q n2 H2) as (n1 & H1 & Eb & _).
    destruct (mv_outputs _ _ _ M2 q n2 b x2 ltac:(done) H2 Hb Hx2) as (x1 & Hx1 & -> & ->).
    by apply (mv_outputs _ _ _ M1 q n1 b x1 Hq H1); [congruence|].
  - by rewrite (mv_backs _ _ _ M2), (mv_backs _ _ _ M1).
  - pose proof (mv_seed _ _ _ M1). pose proof (mv_seed _ _ _ M2). unfold seed_grows in *. lia.
  - intros q Hq. split; [by apply (mv_new _ _ _ M1)|congruence].
  - intros q n2 Hq H2. destruct (Hback q n2 H2) as (n1 & H1 & _ & ->).
    pose proof (mv_nid _ _ _ M1 q n1 Hq H1). pose proof (mv_seed _ _ _ M2). unfold seed_grows in *. lia.
  - transitivity w1; [apply M1|apply M2].
Qed.

Lemma joined_new p g s : joined p g s -> taken p g = [] /\ fresh_front p (world s).
Proof using.
  intros (g0 & s0 & _ & -> & Hm). split; [apply opened_eq|]. by apply (mv_new _ _ _ Hm p).
Qed.

Lemma joined_after p g s w :
  joined p g s -> moves None (world s) w -> fresh_front p w -> joined p g (set_world w s).
Proof using.
  intros (g0 & s0 & Hg & Eg & Hm) Hm' Hnew. exists g0, s0. split; [done|]. split; [done|].
  by apply (moves_after p _ (world s)).
Qed.

Context {HR : HashRoom HO room} (Htame : tame).

Lemma fine_moves o g s w :
  fine o g s -> wired w -> moves None (world s) w -> fine o g (set_world w s).
Proof using Htame. intros Hg Hw Hm. split; [done|by apply (tm_moves Htame o g s)]. Qed.

Lemma good_moves o a g s w :
  good_but o a g s -> wired w -> moves None (world s) w ->
  (forall b x x', bevs (heap (world s)) !! b = Some x -> bevs (heap w) !! b = Some x' ->
     input x' = input x) -> good_but o a g (set_world w s).
Proof using Htame.
  intros [Hg Ht] Hw Hm Hi. split; [by apply fine_moves|].
  eapply traced_still; [by apply still_moves|done].
Qed.

Lemma good_fewer o a g s h m :
  good_but o a g s -> tables stream_part h (handler_pool_ (back (world s))) (handler_pool_ m) ->
  walkable room m -> recv_buffer_ m = recv_buffer_ (front (world s)) -> 1 <= nid_seed h ->
  (forall e, e ∈ handler_pool_ m -> e ∈ handler_pool_ (front (world s))) ->
  fewer (heap (world s)) h -> good_but o a g (set_world (with_front h m (world s)) s).
Proof using Htame.
  intros Hg Ht Hm Hr Hs Hin Hf. apply good_moves; [done| |by apply moves_with_front|].
  - apply wired_with_front; try done. apply Hg.
  - by apply (inputs_fewer (world s) (with_front h m (world s))).
Qed.

Lemma good_courteous o a g s w :
  good_but o a g s -> courteous (world s) w -> moves None (world s) w ->
  good_but o a g (set_world w s).
Proof using Htame.
  intros Hg Hc Hm. apply good_moves; [done| |done|apply Hc].
  apply (wired_courteous (world s)); [apply Hg|done].
Qed.

Lemma fine_courteous o g s w :
  fine o g s -> courteous (world s) w -> moves None (world s) w -> fine o g (set_world w s).
Proof using Htame.
  intros Hg Hc Hm. apply fine_moves; [done| |done].
  apply (wired_courteous (world s)); [apply Hg|done].
Qed.

(** The connection of a bufferevent, and the callbacks it has. *)
Lemma owner w b x :
  wired w -> bevs (heap w) !! b = Some x ->
  exists p n, nets (heap w) !! p = Some n /\ hevent_ n = Some b /\
    ((bev_fd x, Some p) ∈ handler_pool_ (front w) /\ cbs (heap w) !! b = Some frontend_cb_funcs \/
     (bev_fd x, Some p) ∈ handler_pool_ (back w) /\ cbs (heap w) !! b = Some backend_cb_funcs).
Proof using.
  intros Hw Hx. pose proof (wi_tables _ Hw) as Ht.
  destruct (ta_bevs _ _ _ _ Ht b x Hx) as (p & n & Hp & Hn). exists p, n. split; [done|].
  split; [done|]. destruct (ta_nets _ _ _ _ Ht p n Hp) as [k Hin].
  destruct (proj1 (Forall_forall _ _) (ta_entries _ _ _ _ Ht) _ Hin)
    as (q & n0 & c & y & Eq & Hq & Hc & Hy & Hf & _). cbn in Eq, Hf. injection Eq as <-.
  assert (n0 = n) as -> by congruence. assert (c = b) as -> by congruence.
  assert (y = x) as -> by congruence. subst k.
  pose proof (ta_fcbs _ _ _ _ Ht) as Hfc. pose proof (ta_bcbs _ _ _ _ Ht) as Hbc.
  rewrite Forall_forall in Hfc, Hbc.
  apply elem_of_app in Hin as [Hin|Hin]; [right|left]; (split; [done|]).
  - by apply (Hbc _ Hin p n).
  - by apply (Hfc _ Hin p n).
Qed.

(** A connection of a table has its bufferevent. *)
Lemma linked w p fd :
  wired w -> (fd, Some p) ∈ handler_pool_ (back w) \/ (fd, Some p) ∈ handler_pool_ (front w) ->
  exists n b x, nets (heap w) !! p = Some n /\ hevent_ n = Some b /\ bevs (heap w) !! b = Some x /\
    bev_fd x = fd /\ 0 <= fd.
Proof using.
  intros Hw Hin. apply elem_of_app in Hin.
  destruct (proj1 (Forall_forall _ _) (ta_entries _ _ _ _ (wi_tables _ Hw)) _ Hin)
    as (q & n & b & x & [= <-] & Hn & Hb & Hx & Hf & H0). by exists n, b, x.
Qed.

Lemma front_found w fd p :
  wired w -> (fd, Some p) ∈ handler_pool_ (front w) ->
  pool_find (handler_pool_ (front w)) fd = Some (Some p).
Proof using.
  intros Hw Hin. apply pool_find_elem; [|done].
  apply (mo_keys (NetS (heap w) (front w))). by eapply tables_front; apply Hw.
Qed.

Lemma back_found w fd p :
  wired w -> (fd, Some p) ∈ handler_pool_ (back w) ->
  pool_find (handler_pool_ (back w)) fd = Some (Some p).
Proof using.
  intros Hw Hin. apply pool_find_elem; [|done].
  apply (mo_keys (NetS (heap w) (back w))). by eapply tables_back; apply Hw.
Qed.

(** A connection is in one table only. *)
Lemma back_not_front p w : wired w -> is_back p w -> ~ is_front p w.
Proof using.
  intros Hw [fd Hb] [fd' Hf]. pose proof (wi_tables _ Hw) as Ht.
  apply (front_not_back stream_part _ _ _ fd' (Some p) Ht Hf).
  assert (fd' = fd) as ->; [|change fd with (fst (fd, Some p)); by apply list_elem_of_fmap_2].
  pose proof (ta_entries _ _ _ _ Ht) as He. apply Forall_app in He as [Heb Hef].
  rewrite Forall_forall in Heb, Hef.
  destruct (Heb _ Hb) as (q & n & b & x & E1 & Hn & Hbn & Hx & Hfd & _).
  destruct (Hef _ Hf) as (q' & n' & b' & x' & E2 & Hn' & Hbn' & Hx' & Hfd' & _). cbn in *. congruence.
Qed.

Lemma noted_front p w :
  wired w -> is_front p w -> noted p w -> (svc_mode_ (rest w) =? SVC_MODE_RPC) = false.
Proof using. intros Hw Hf [Hb|[_ Hm]]; [by destruct (back_not_front p w)|done]. Qed.

(** ** The end of a front end *)

(** The front end [p] with its bufferevent [b] and the descriptor [fd]. *)
Definition front_at (p b fd : Z) w : Prop :=
  (fd, Some p) ∈ handler_pool_ (front w) /\
  exists n, nets (heap w) !! p = Some n /\ hevent_ n = Some b.

Lemma front_at_courteous p b fd w w' : courteous w w' -> front_at p b fd w -> front_at p b fd w'.
Proof using.
  intros Hc [Hin (n & Hn & Hb)]. split; [by rewrite (co_front _ _ Hc)|].
  destruct (sl_net stream_part _ _ _ _ (co_links _ _ Hc) Hn) as (n' & Hn' & Eb & _).
  exists n'. split; [done|congruence].
Qed.

Lemma with_front_same w : with_front (heap w) (front w) w = w.
Proof using. by destruct w as [? ? ? ? ? ? ? []]. Qed.

Lemma find_front p b fd s :
  wired (world s) -> front_at p b fd (world s) ->
  on_frontend (GetHandlerByEvent (Some b)) (world s) = Ok (Some p, world s).
Proof using.
  intros Hw [Hin (n & Hn & Hb)].
  pose proof (tables_front _ _ _ _ _ (wi_tables _ Hw) (wk_holds _ _ (wi_front _ Hw))) as Hm.
  destruct (mgr_ok_bev _ fd p n b Hm Hin Hn Hb) as (x & Hx & Hf). cbn [hp] in Hx.
  rewrite (on_frontend_ok _ _ (Some p) (NetS (heap (world s)) (front (world s)))).
  - cbn [hp mgr]. do 2 f_equal. apply with_front_same.
  - apply (handler_of_event _ b x fd); [done|done|]. by apply front_found.
Qed.

(** Taking out a front end by its bufferevent, or by its address.  It does not matter what
    has been handed over from it, and what the application has been told of it. *)
Lemma remove_event_good oj o a p b fd g s :
  fine oj g s -> traced o a g (world s) -> (oj = None \/ oj = Some p) -> (o = None \/ o = Some p) ->
  front_at p b fd (world s) ->
  exists w', on_frontend (RemoveHandlerByEvent (Some b)) (world s) = Ok (0, w') /\
    on_frontend (RemoveHandler (Some p)) (world s) = Ok (0, w') /\ good a g (set_world w' s).
Proof using Htame.
  intros [Hw HJ] Htr Hoj Ho [Hin (n & Hn & Hb)].
  destruct (remove_front stream_part room _ _ _ fd p n b (wi_tables _ Hw) (wi_front _ Hw) Hin Hn Hb)
    as (m' & Hrun & Ht & Hm & Hr & Hsub).
  assert (Hrun2 : RemoveHandler (Some p) (NetS (heap (world s)) (front (world s)))
    = Ok (0, NetS (freed p n (heap (world s))) m')).
  { unfold RemoveHandler.
    rewrite (bind_step _ _ _ _ _ (on_heap_ok _ (NetS (heap (world s)) _) _ _ (load_net_ok _ p n Hn))).
    by rewrite Hb. }
  set (w' := with_front (freed p n (heap (world s))) m' (world s)). exists w'.
  split; [by erewrite on_frontend_ok by exact Hrun|].
  split; [by erewrite on_frontend_ok by exact Hrun2|].
  assert (Hfewer : fewer (heap (world s)) (heap w'))
    by (apply fewer_freed; [apply (ta_heap _ _ _ _ (wi_tables _ Hw))|done]).
  assert (Hmoves : moves None (world s) w')
    by (apply moves_with_front; [intros e He; by apply Hsub|done]).
  assert (Hw' : wired w') by (apply wired_with_front; try done; apply (wi_seed _ Hw)).
  assert (Hgone : ~ is_front p w').
  { intros [fd' Hin']. destruct (linked w' p fd' Hw') as (n' & ? & ? & Hn' & _); [by right|].
    cbn in Hn'. by rewrite lookup_delete_eq in Hn'. }
  pose proof (tm_moves Htame oj g s w' (conj Hw HJ) Hw' Hmoves) as HJ'. split; [split; [done|]|].
  - destruct Hoj as [->| ->]; [done|]. by apply (tm_gone Htame g _ p).
  - assert (Hstill : still (world s) w') by (by apply still_moves; [|apply inputs_fewer]).
    intros q n' c x' _ Hq Hn' Hc Hx.
    assert (q <> p).
    { intros ->. cbn in Hn'. by rewrite lookup_delete_eq in Hn'. }
    apply (traced_still o a g _ _ Hstill Htr q n' c x'); try done. destruct Ho; congruence.
Qed.

Lemma ends_remove oj a p b fd g k s :
  good_but oj a g s -> (oj = None \/ oj = Some p) -> front_at p b fd (world s) ->
  (forall z s', good a g s' -> ends a (k z) s') ->
  ends a (Act (on_frontend (RemoveHandlerByEvent (Some b))) k) s.
Proof using Htame.
  intros [Hg Ht] Hoj Hf Hk.
  destruct (remove_event_good oj None a p b fd g s Hg Ht Hoj (or_introl eq_refl) Hf)
    as (w' & E1 & _ & Hg').
  eapply ends_act; [exact E1|]. by apply Hk.
Qed.

Lemma net_type_front p b fd s :
  front_at p b fd (world s) -> exists ty, net_type p (world s) = Ok (ty, world s).
Proof using.
  intros [_ (n & Hn & _)]. exists (net_type_ n). unfold net_type.
  rewrite (bind_step _ _ _ n (world s)); [done|].
  rewrite (on_net_ok _ _ _ _ (load_net_ok _ p n Hn)). by destruct (world s).
Qed.

Lemma log_net_front p b fd s :
  front_at p b fd (world s) -> log_net p (world s) = Ok (tt, world s).
Proof using.
  intros [_ (n & Hn & _)]. unfold log_net. rewrite (bind_step _ _ _ n (world s)); [done|].
  rewrite (on_net_ok _ _ _ _ (load_net_ok _ p n Hn)). by destruct (world s).
Qed.

Lemma OnFrontEndSocketEvent_ends a g p b fd events s :
  good a g s -> front_at p b fd (world s) ->
  ends a (OnFrontEndSocketEvent b events (fun _ => Ret)) s.
Proof using Htame.
  intros Hg Hf. pose proof Hg as [[Hw _] _].
  assert (Hclose : forall k : prog -> prog,
    (forall s', front_at p b fd (world s') -> forall c, ends a c s' -> ends a (k c) s') ->
    ends a (Act (net_type p) (fun type => app_OnFrontEndClose p type (fun _ =>
      k (Act (on_frontend (RemoveHandlerByEvent (Some b))) (fun _ => Ret))))) s).
  { intros k Hk. destruct (net_type_front p b fd s Hf) as [ty Ety].
    eapply ends_read; [exact Ety|].
    apply (ends_call None (Some p) a g); [done|apply (tm_close Htame); [apply Hg|exists fd; apply Hf]|].
    intros z s' Hg' Hc. pose proof (front_at_courteous p b fd _ _ Hc Hf) as Hf'.
    apply Hk; [done|]. apply (ends_remove (Some p) a p b fd g); [done|by right|done|].
    intros _. apply ends_ret. }
  unfold OnFrontEndSocketEvent. eapply ends_read.
  { rewrite (bind_step _ _ _ _ _ (fw_ok _ _)). by rewrite (wi_app _ Hw). }
  destruct (has events BEV_EVENT_ERROR); [|destruct (has events BEV_EVENT_TIMEOUT);
    [|destruct (has events BEV_EVENT_EOF); [|by eapply ends_ret]]].
  - unfold close_frontend. eapply ends_read; [by eapply find_front|]. cbv beta iota zeta.
    apply (Hclose (fun c => c)). auto.
  - pose proof (tables_front _ _ _ _ _ (wi_tables _ Hw) (wk_holds _ _ (wi_front _ Hw))) as Hm.
    destruct Hf as [Hin (n & Hn & Hb)].
    destruct (mgr_ok_bev _ fd p n b Hm Hin Hn Hb) as (x & Hx & _). cbn [hp] in Hx.
    eapply ends_read; [|by eapply ends_ret].
    rewrite (on_net_ok _ _ _ _ (getfd_ok _ b x Hx)). by destruct (world s).
  - eapply ends_read; [by eapply find_front|]. cbv beta iota zeta.
    apply (Hclose (fun c => Act (log_net p) (fun _ => c))). intros s' Hf' c Hc.
    eapply ends_read; [by apply (log_net_front p b fd)|done].
Qed.

(** ** A new front end *)

Lemma stream_part_nil c : stream_part c [].
Proof using. exists [], []. repeat split; try done. by left. Qed.

(** A front end gets a context. *)
Lemma moves_context w h p n c :
  nets (heap w) !! p = Some n -> user_context_ n = None ->
  nets h = <[p := set_user_context c n]> (nets (heap w)) -> bevs h = bevs (heap w) ->
  nid_seed h = nid_seed (heap w) ->
  (forall a z, uctxs (heap w) !! a = Some z -> uctxs h !! a = Some z) -> moves None w (set_heap h w).
Proof using.
  intros Hn Hc En Eb Hs Hu. split; try done.
  - intros q n' _. cbn. rewrite En. destruct (decide (q = p)) as [->|Hq].
    + rewrite lookup_insert_eq. intros [= <-]. exists n. do 6 (split; [done|]). congruence.
    + rewrite lookup_insert_ne by done. intros Hq'. exists n'. do 6 (split; [done|]). auto.
  - intros q n' b x' _ _ _. cbn. rewrite Eb. intros Hx. by exists x'.
  - unfold seed_grows. cbn. lia.
Qed.

(** The context of a new front end; without memory for it the front end is removed. *)
Lemma context_good a g p b fd n s :
  good_but (Some p) a g s -> (fd, Some p) ∈ handler_pool_ (front (world s)) ->
  nets (heap (world s)) !! p = Some n -> hevent_ n = Some b -> user_context_ n = None ->
  joined p g s ->
  exists ok w', (if 0 <? GetFrontEndContextSize then
       ret ← on_net (CreateUserContext p GetFrontEndContextSize);
       if negb (ret =? 0) then _ ← on_frontend (RemoveHandler (Some p)); mret false else mret true
     else mret true) (world s) = Ok (ok, w') /\
    if (ok : bool) then good_but (Some p) a g (set_world w' s) /\ front_at p b fd w' /\
      joined p g (set_world w' s) /\ with_context p w'
    else good a g (set_world w' s).
Proof using Htame EOk.
  intros Hg Hin Hn Hb Hctx Hj. pose proof Hg as [[Hw _] _].
  destruct (joined_new p g s Hj) as [_ Hnew].
  assert (Hf : front_at p b fd (world s)) by (split; eauto).
  destruct (Z.ltb_spec 0 GetFrontEndContextSize) as [Hsize|Hsize].
  2: { exists true, (world s). split; [done|]. split; [by destruct s|]. split; [done|].
       split; [by destruct s|]. intros ?. lia. }
  destruct (context_front stream_part (heap (world s)) _ _ p n GetFrontEndContextSize
    (wi_tables _ Hw) Hn Hctx) as (r & h & c & Hrun & Ht & En & Eb & Es & _ & Hu & Hc).
  set (w1 := with_front h (front (world s)) (world s)).
  assert (E1 : set_heap h (world s) = w1) by (unfold w1; by destruct (world s) as [? ? ? ? ? ? ? []]).
  assert (Hw1 : wired w1) by (apply wired_with_front; try done; [apply Hw|rewrite Es; apply Hw]).
  assert (Hn1 : nets (heap w1) !! p = Some (set_user_context c n))
    by (cbn; rewrite En; apply lookup_insert_eq).
  assert (Hmv : moves None (world s) w1) by (rewrite <- E1; by apply (moves_context _ h p n c)).
  assert (Hg1 : good_but (Some p) a g (set_world w1 s))
    by (apply good_moves; [done|done|done|intros k x x'; cbn; rewrite Eb; congruence]).
  assert (Hf1 : front_at p b fd w1) by (split; [done|by exists (set_user_context c n)]).
  rewrite (bind_step _ _ _ _ _ (on_net_ok _ _ _ _ Hrun)), E1.
  destruct (Z.eqb_spec r 0) as [Hr|Hr]; cbn [negb].
  - exists true, w1. split; [done|]. split; [done|]. split; [done|]. split.
    { apply joined_after; [done..|]. destruct Hnew as (n0 & b0 & x & Hn0 & Hb0 & Hx & Hr0 & Hs0 & Hx0).
      assert (n0 = n) as -> by congruence. exists (set_user_context c n), b0, x.
      split; [done|]. split; [done|]. split; [by cbn; rewrite Eb|done]. }
    intros _.
    destruct (Hc Hsize Hr) as [d ->].
    destruct (ho_ctx _ (ta_heap _ _ _ _ (wi_tables _ Hw1)) p _ d Hn1 eq_refl) as [z Hz].
    exists (set_user_context (Some d) n), d, z. by split_and!.
  - destruct (remove_event_good (Some p) None a p b fd g (set_world w1 s) (proj1 Hg1) (proj2 Hg1)
      (or_intror eq_refl) (or_introl eq_refl) Hf1) as (w2 & _ & E2 & Hg2).
    exists false, w2. split; [|done]. by erewrite bind_step by exact E2.
Qed.

Lemma connect_named p n b x h m w :
  wired w -> extends NET_ESTABLISHED (heap w) h p n b x -> bev_fd x < 2147483648 ->
  handler_pool_ m ≡ₚ (bev_fd x, Some p) :: handler_pool_ (front w) ->
  walkable room m -> recv_buffer_ m = recv_buffer_ (front w) ->
  nid_seed (heap w) <= nid_seed h <= nid_seed (heap w) + 1 -> nid_seed (heap w) < 2147483647 ->
  tables stream_part (set_cbs (<[b := frontend_cb_funcs]> (cbs h)) h) (handler_pool_ (back w))
    (handler_pool_ m) ->
  forall u, let w' := with_front (set_cbs (<[b := frontend_cb_funcs]> (cbs h))
                        (set_nets (<[p := set_uri u n]> (nets h)) h)) m w in
  wired w' /\ moves (Some p) w w'.
Proof using.
  intros Hw He Hfd Hin Hm Hr Hs Hmax Ht u w'. set (hc := set_cbs _ h) in Ht.
  pose proof (ex_nets _ _ _ _ _ _ _ He) as En. pose proof (ex_bevs _ _ _ _ _ _ _ He) as Eb.
  assert (Hp : nets hc !! p = Some n) by (cbn; rewrite En; apply lookup_insert_eq).
  assert (Hold : forall q n', Some p <> Some q -> nets (heap w') !! q = Some n' ->
    nets (heap w) !! q = Some n').
  { intros q n' Hq. cbn. rewrite lookup_insert_ne, En, lookup_insert_ne by congruence. done. }
  split.
  - apply wired_with_front; try done; [|cbn; pose proof (wi_seed _ Hw); lia].
    apply (tables_same stream_part hc); [|done]. by apply (same_links_net stream_part hc p n).
  - split; try done.
    + intros q Hq [fd Hq']. exists fd. cbn in Hq'. rewrite Hin, elem_of_cons in Hq'.
      destruct Hq' as [[= _ ->]|Hq']; done.
    + intros q n' Hq Hn'. exists n'. split; [by apply Hold|]. do 5 (split; [done|]).
      intros c z Hc Hz. split; [done|]. cbn. by rewrite (ex_uctxs _ _ _ _ _ _ _ He).
    + intros q n' c x' Hq Hn' Hc Hx'. apply Hold in Hn'; [|done]. cbn in Hx'. rewrite Eb in Hx'.
      destruct (ho_bev _ (ta_heap _ _ _ _ (wi_tables _ Hw)) q n' c Hn' Hc) as [y Hy].
      rewrite lookup_insert_ne in Hx' by (pose proof (ex_bev _ _ _ _ _ _ _ He); congruence).
      by exists x'.
    + unfold seed_grows. cbn. lia.
    + intros q [= <-]. split; [apply He|]. exists (set_uri u n), b, x. cbn.
      rewrite lookup_insert_eq, Eb, lookup_insert_eq. destruct He. by repeat split.
    + intros q n' [= <-]. cbn. rewrite lookup_insert_eq. intros [= <-]. cbn.
      rewrite (ex_nid _ _ _ _ _ _ _ He). split; [lia|].
      rewrite <- (ex_nid _ _ _ _ _ _ _ He). by apply (ho_nid _ (ta_heap _ _ _ _ Ht) p n).
Qed.

(** Nothing has arrived on bufferevents that do not exist. *)
Definition nothing_else (a : traffic) w : Prop := forall b, bevs (heap w) !! b = None -> a b = [].

Lemma joined_good a g s p w :
  good a g s -> nothing_else a (world s) -> wired w -> moves (Some p) (world s) w ->
  (forall b x, bevs (heap (world s)) !! b = Some x -> bevs (heap w) !! b = Some x) ->
  (forall n b, nets (heap w) !! p = Some n -> hevent_ n = Some b ->
     bevs (heap (world s)) !! b = None) ->
  good_but (Some p) a (opened p g) (set_world w s).
Proof using Htame.
  intros [Hg Ht] Ha Hw Hm Hb0 Hnew. split; [split; [done|by apply (tm_new Htame)]|].
  intros q n c x _ Hq Hn Hc Hx. cbn [world set_world] in *.
  destruct (decide (q = p)) as [->|Hqp].
  - rewrite opened_eq, Ha by (by apply (Hnew n)).
    destruct (mv_new _ _ _ Hm p eq_refl) as (_ & n1 & b1 & x1 & Hn1 & Hc1 & Hx1 & _ & _ & Hi & _).
    assert (x1 = x) as -> by congruence. by rewrite Hi.
  - rewrite opened_ne by done.
    destruct (mv_nets _ _ _ Hm q n ltac:(congruence) Hn) as (n0 & Hn0 & Ec & _).
    destruct (mv_outputs _ _ _ Hm q n c x ltac:(congruence) Hn Hc Hx) as (x0 & Hx0 & _).
    assert (x0 = x) as -> by (apply Hb0 in Hx0; congruence).
    apply (Ht q n0 c x); [done|apply (noted_moves _ _ _ q Hm); [congruence|done]|done|congruence|done].
Qed.

(** The address of a peer fits into the URI of its connection. *)
Lemma address_fits (addr : Z * Z) :
  (MAX_URL_LEN <=? blen (inet_ntoa (fst addr) ++ [58] ++ dec (htons (snd addr)))) = false.
Proof using FOk.
  apply Z.leb_gt. rewrite !blen_app. pose proof (inet_ntoa_length (fst addr)).
  pose proof (dec_length (htons (snd addr))) as Hd.
  assert (0 <= htons (snd addr) < 100000) by (unfold htons; int_lia).
  unfold MAX_URL_LEN. change (blen [58]) with 1. lia.
Qed.

(** The end of [OnFrontEndConnect]: the application is told. *)
Lemma greeted_ends a g p b fd s :
  good_but (Some p) a g s -> front_at p b fd (world s) -> joined p g s -> with_context p (world s) ->
  ends a (Act (now ← fw now_; _ ← on_net (upd_net p (set_active_time now)); net_type p) (fun type =>
    app_OnFrontEndConnect p type (fun _ => Ret))) s.
Proof using Htame.
  intros Hg Hf Hj Hctx. destruct (joined_new p g s Hj) as [_ Hnew]. pose proof Hf as [Hin (n & Hn & Hb)]. set (w := world s) in *.
  set (w1 := set_heap (set_nets (<[p := set_active_time (now_ (rest w)) n]> (nets (heap w))) (heap w)) w).
  assert (Hc : courteous w w1) by (by apply courteous_net with n).
  assert (Hmv : moves None w w1) by (by apply moves_net with n).
  assert (Hg1 : good_but (Some p) a g (set_world w1 s)) by (by apply good_courteous).
  assert (Hctx1 : with_context p w1).
  { intros H0. destruct (Hctx H0) as (n0 & c & z & Hn0 & Hc0 & Hz). assert (n0 = n) as -> by congruence.
    exists (set_active_time (now_ (rest w)) n), c, z. cbn. by rewrite lookup_insert_eq. }
  pose proof (front_at_courteous p b fd _ _ Hc Hf) as Hf1.
  assert (Hnew1 : fresh_front p w1).
  { destruct Hnew as (n0 & b0 & x & Hn0 & Hx0). assert (n0 = n) as -> by congruence.
    exists (set_active_time (now_ (rest w)) n), b0, x. cbn. by rewrite lookup_insert_eq. }
  destruct (net_type_front p b fd (set_world w1 s) Hf1) as [ty Ety].
  eapply (ends_act _ _ _ _ ty w1).
  { fold w. rewrite (bind_step _ _ _ _ _ (fw_ok now_ w)).
    by rewrite (bind_step _ _ _ _ _ (on_net_upd p w n _ Hn)). }
  apply (ends_call (Some p) None a g); [done|apply (tm_connect Htame); [apply Hg1|exists fd; apply Hf1| |done]|].
  { by apply joined_after. }
  intros z s' Hg' _. by eapply ends_ret.
Qed.

Lemma OnFrontEndConnect_ends a g sock addr s :
  good a g s -> nothing_else a (world s) -> 0 <= sock -> possible (world s) (Accepted sock addr) ->
  ends a (OnFrontEndConnect sock (Some addr) (fun _ => Ret)) s.
Proof using Htame EOk HOk FOk HR.
  intros Hg Ha Hsock (Hfd & Hint & Hseed & Hroom). pose proof Hg as [[Hw _] _].
  unfold OnFrontEndConnect. eapply ends_read.
  { rewrite (bind_step _ _ _ _ _ (fw_ok _ _)). rewrite (wi_app _ Hw).
    destruct (Z.leb_spec 0 sock); [|lia]. done. }
  destruct (accept_front stream_part room (heap (world s)) _ _ sock 0 true (wi_tables _ Hw)
    (wi_front _ Hw) stream_part_nil (conj (wi_seed _ Hw) Hseed) Hroom Hfd)
    as (o & h & m & Hrun & Hr & Hs & Ho).
  eapply ends_act.
  { rewrite (bind_step _ _ _ _ _ (fw_ok event_base_ _)). rewrite (wi_base _ Hw).
    by erewrite on_frontend_ok by exact Hrun. }
  cbn [hp mgr]. fold (with_front h m (world s)). destruct o as [p|].
  2: { destruct Ho as (-> & Ht & Hb). eapply ends_ret, good_fewer; try done; [apply Hw|].
       pose proof (wi_seed _ Hw). lia. }
  destruct Ho as (n & b & x & He & Ex & Hm & Hin & Ht). cbv beta iota zeta.
  assert (Hx : bev_fd x < 2147483648) by (by rewrite Ex).
  change (default (0, 0) (Some addr)) with addr.
  set (text := inet_ntoa (fst addr) ++ [58] ++ dec (htons (snd addr))).
  set (u := take (Z.to_nat (MAX_URL_LEN - 2)) text).
  assert (Hp : nets h !! p = Some n) by (rewrite (ex_nets _ _ _ _ _ _ _ He); apply lookup_insert_eq).
  eapply ends_act; [by apply (on_net_upd p _ n)|]. cbv beta.
  assert (Htext : (MAX_URL_LEN <=? blen text) = false) by apply address_fits.
  rewrite Htext. set (h1 := set_nets (<[p := set_uri u n]> (nets h)) h).
  destruct (connect_named p n b x h m (world s) Hw He Hx Hin Hm Hr Hs Hseed Ht u) as [Hw3 Hm3].
  set (w3 := with_front _ m (world s)) in Hw3, Hm3.
  eapply (ends_act _ _ _ _ tt w3).
  { cbn [world set_world].
    rewrite (bind_step _ _ _ (set_uri u n) (set_heap h1 (with_front h m (world s)))).
    2: { apply (on_net_ok _ (set_heap h1 (with_front h m (world s)))).
         apply load_net_ok. apply lookup_insert_eq. }
    cbn [hevent_ set_uri]. rewrite (ex_link _ _ _ _ _ _ _ He).
    erewrite (bind_step (nonnull _)) by reflexivity. unfold on_net.
    erewrite setcb_ok; [done|]. cbn. rewrite (ex_bevs _ _ _ _ _ _ _ He). apply lookup_insert_eq. }
  assert (Hn3 : nets (heap w3) !! p = Some (set_uri u n)) by (cbn; apply lookup_insert_eq).
  assert (Hg3 : good_but (Some p) a (opened p g) (set_world w3 s)).
  { apply joined_good; try done.
    - intros c y. cbn. rewrite (ex_bevs _ _ _ _ _ _ _ He). pose proof (ex_bev _ _ _ _ _ _ _ He).
      destruct (decide (c = b)) as [->|Hc]; [congruence|by rewrite lookup_insert_ne].
    - intros n' c. rewrite Hn3. intros [= <-]. cbn. rewrite (ex_link _ _ _ _ _ _ _ He).
      intros [= <-]. apply He. }
  set (g3 := opened p g) in *.
  change (set_world w3 (set_world _ _)) with (set_world w3 s).
  assert (Hin3 : (bev_fd x, Some p) ∈ handler_pool_ (front (world (set_world w3 s))))
    by (cbn; rewrite Hin; by constructor).
  destruct (context_good a g3 p b _ (set_uri u n) (set_world w3 s) Hg3 Hin3 Hn3)
    as (ok & w4 & E4 & Hg4); [apply He|apply He|by exists g, s; split; [apply Hg|]|].
  eapply ends_act; [exact E4|]. cbv beta. destruct ok; cbn [negb]; [|by eapply ends_ret].
  destruct Hg4 as (Hg4 & Hf4 & Hj & Hctx). by eapply greeted_ends.
Qed.

(** ** Requests *)

(** The framework changes the messages, the closures and its buffers only. *)
Lemma aside_ok w w' :
  heap w' = heap w -> rest w' = rest w -> rpcs w' = rpcs w -> rpc_ctxs w' = rpc_ctxs w ->
  asyncid_seed w' = asyncid_seed w -> courteous w w' /\ moves None w w'.
Proof using.
  intros E1 E2 E3 E4 E5. split.
  - split; unfold front, back; rewrite ?E2; try done; [rewrite E1..|]; [done|congruence|].
    by split; rewrite ?E2.
  - apply moves_fewer; unfold is_front, front, back; rewrite ?E2, ?E1; try done. by split; rewrite ?E2.
Qed.

Lemma fine_aside o g s w :
  fine o g s -> heap w = heap (world s) -> rest w = rest (world s) -> rpcs w = rpcs (world s) ->
  rpc_ctxs w = rpc_ctxs (world s) -> asyncid_seed w = asyncid_seed (world s) ->
  fine o g (set_world w s) /\ courteous (world s) w.
Proof using Htame.
  intros Hg E1 E2 E3 E4 E5. destruct (aside_ok _ _ E1 E2 E3 E4 E5) as [Hc Hm].
  split; [by apply fine_courteous|done].
Qed.

Lemma call_ret o g z s : J o g s -> call_ok o g (fun k => k z) s.
Proof using. intros HJ. exists z, s. split; [intros k; apply runs_refl|done]. Qed.

Lemma call_step o g c c' s s1 :
  (forall k, runs calloc (c k) s (c' k) s1) -> courteous (world s) (world s1) -> call_ok o g c' s1 ->
  call_ok o g c s.
Proof using.
  intros Hr Hc (z & s' & Hr' & Hc' & HJ). exists z, s'. split; [|split; [by etransitivity|done]].
  intros k. eapply runs_trans; [apply Hr|apply Hr'].
Qed.

Lemma call_act {X} o g (m : M (App P C A) X) (k : X -> (Z -> prog) -> prog) s z w :
  m (world s) = Ok (z, w) -> courteous (world s) w -> call_ok o g (k z) (set_world w s) ->
  call_ok o g (fun f => Act m (fun x => k x f)) s.
Proof using.
  intros E0 Hc. apply call_step; [|done]. intros f. by apply (runs_act calloc m (fun x => k x f)).
Qed.

Lemma release_ok g req s :
  fine None g s -> call_ok None g (fun k => Act (on_gen (ReleaseMessage req)) (fun _ => k 0)) s.
Proof using Htame.
  intros Hg. assert (E0 : exists m, ReleaseMessage req (gen (world s)) = Ok (tt, m))
    by (destruct req; by eexists). destruct E0 as [m E0].
  destruct (fine_aside None g s (set_gen m (world s)) Hg) as [Hg' Hc]; try done.
  eapply (call_act _ _ _ (fun _ k => k 0)); [by apply on_gen_ok|done|]. by apply call_ret, Hg'.
Qed.

Lemma drop_ok g req s :
  fine None g s -> call_ok None g (fun k => Act delete_response (fun _ =>
    Act (on_gen (ReleaseMessage req)) (fun _ => k 0))) s.
Proof using Htame.
  intros Hg.
  destruct (fine_aside None g s (set_gen (count_responses (-1) (gen (world s))) (world s)) Hg)
    as [Hg' Hc]; try done.
  eapply (call_act _ _ _ (fun _ k => Act _ (fun _ => k 0))); [by apply on_gen_ok|done|].
  by apply release_ok.
Qed.

Lemma request_ok l p data s :
  fine None l s -> is_front p (world s) -> call_ok None l (OnFrontEndRpcMsg (Some p) data) s.
Proof using Htame.
  intros Hg Hp. destruct (SpawnMessage_total (Some data) (gen (world s))) as (req & g & Es).
  destruct (fine_aside None l s (set_gen g (world s)) Hg) as [Hg1 Hc1]; try done.
  set (w1 := set_gen g (world s)) in *.
  unfold OnFrontEndRpcMsg. eapply call_act; [by apply on_gen_ok|done|]. cbv beta.
  destruct req as [m|]; [|by apply call_ret, Hg1].
  eapply (call_act None l (fw rpc_svc_mgr_) _ (set_world w1 s) _ w1); [done|done|].
  destruct (rpc_svc_mgr_ (rest (world (set_world w1 s)))) as [t|] eqn:Et; [|by apply call_ret, Hg1].
  pose proof (release_ok l (Some m) _ Hg1) as Hrel. cbv zeta.
  destruct (GetRpcService t (GetTypeName m)) as [svc|] eqn:Esvc; [|done].
  destruct (NewResponse svc) as [d|] eqn:Ed.
  2: { eapply (call_act None l (new_response svc) _ (set_world w1 s) None w1); [|done|exact Hrel].
       unfold new_response. by rewrite Ed. }
  set (w2 := set_gen (count_responses 1 g) (world s)) in *.
  destruct (fine_aside None l (set_world w1 s) w2 Hg1) as [Hg2 Hc2]; try done.
  pose proof (drop_ok l (Some m) _ Hg2) as Hdrop.
  eapply (call_act None l (new_response svc) _ (set_world w1 s) (Some d) w2); [|done|].
  { unfold new_response. by rewrite Ed. }
  cbv beta iota.
  destruct (new_closure (closures w2)) as [c|] eqn:Ec.
  2: { eapply (call_act None l EasyRpcClosure_new _ (set_world w2 s) None w2); [|done|exact Hdrop].
       unfold EasyRpcClosure_new. rewrite (bind_step get _ _ _ _ eq_refl). cbn [world set_world].
       by rewrite Ec. }
  set (clo0 := {| user_data_ := 0; async_id_ := 0; req_ := None; rsp_ := None;
                  clo_net_ := None; is_done_ := false |}).
  set (clo1 := {| user_data_ := 0; async_id_ := asyncid (rpc_msg_ g); req_ := Some m;
                  rsp_ := Some d; clo_net_ := Some p; is_done_ := false |}).
  set (at_closure x := set_closures (<[c := x]> (closures w2)) w2).
  destruct (fine_aside None l (set_world w2 s) (at_closure clo1) Hg2) as [Hg3 Hc3]; try done.
  eapply (call_act None l EasyRpcClosure_new _ (set_world w2 s) (Some c) (at_closure clo0)).
  { unfold EasyRpcClosure_new. rewrite (bind_step get _ _ _ _ eq_refl). cbn [world set_world].
    by rewrite Ec. }
  { by apply (aside_ok w2 (at_closure clo0)). }
  cbv beta iota. eapply (call_act None l _ _ _ 0 (at_closure clo1)).
  { rewrite (bind_step get _ _ _ _ eq_refl). unfold Closure_Set.
    rewrite (bind_step _ _ _ clo0 (at_closure clo0)).
    2: { unfold load_closure. cbn. by rewrite lookup_insert_eq. }
    unfold store_closure, at_closure, modify, mbind, M_bind. cbn. by rewrite insert_insert_eq. }
  { by apply (aside_ok (at_closure clo0) (at_closure clo1)). }
  cbn [Z.eqb negb].
  destruct (tm_service Htame l (set_world (at_closure clo1) s) p svc c clo1 t m d)
    as (z & s' & Hrun & H); try done; [cbn; apply lookup_insert_eq|].
  exists 1, s'. split; [|exact H]. intros f. exact (Hrun (fun _ => f 1)).
Qed.

(** ** Messages of a front end *)

Lemma front_at_ok p b fd w x :
  wired w -> front_at p b fd w -> bevs (heap w) !! b = Some x ->
  exists n, front_ok p b fd (svc_mode_ (rest w) =? SVC_MODE_RPC) (input x) n w.
Proof using.
  intros Hw [Hin (n & Hn & Hb)] Hx. exists n.
  pose proof (tables_front _ _ _ _ _ (wi_tables _ Hw) (wk_holds _ _ (wi_front _ Hw))) as Hm.
  destruct (mgr_ok_bev _ fd p n b Hm Hin Hn Hb) as (y & Hy & Hf). cbn [hp] in Hy.
  assert (y = x) as -> by congruence.
  split; try done; [apply Hw|by exists x|by apply front_found|apply Hw].
Qed.

Lemma front_ok_courteous p b fd rpc inp n w w' :
  front_ok p b fd rpc inp n w -> courteous w w' -> exists n', front_ok p b fd rpc inp n' w'.
Proof using.
  intros [H1 H2 H3 H4 (x & Hx & Hxf & Hxi) H6 H7] Hc.
  destruct (sl_net stream_part _ _ _ _ (co_links _ _ Hc) H3) as (n' & Hn' & Eb & _).
  destruct (sl_bev stream_part _ _ _ _ (co_links _ _ Hc) Hx) as (x' & Hx' & Ef & _).
  exists n'. pose proof (co_front _ _ Hc) as Efr. unfold front in Efr.
  split; rewrite ?Efr, ?(co_app _ _ Hc), ?(co_mode _ _ Hc); try done; [congruence|].
  exists x'. split; [done|]. split; [congruence|]. rewrite <- Hxi. by apply (co_inputs _ _ Hc b).
Qed.

Lemma front_ok_at p b fd rpc inp n w : wired w -> front_ok p b fd rpc inp n w -> front_at p b fd w.
Proof using.
  intros Hw [_ _ H3 H4 _ H6 _]. split; [|eauto]. apply pool_find_elem; [|done].
  apply (mo_keys (NetS (heap w) (front w))). by eapply tables_front; apply Hw.
Qed.

(** What holds while the messages of an arrival are handled. *)
Definition handling (p b fd : Z) rpc inp a g s : Prop :=
  fine None g s /\ traced (Some p) a g (world s) /\ exists n, front_ok p b fd rpc inp n (world s).

Lemma traced_ledger p a g g' w :
  (forall q, q <> p -> taken q g' = taken q g) -> traced (Some p) a g w -> traced (Some p) a g' w.
Proof using.
  intros Hg Ht q n b x Hq Hin Hn Hb Hx. rewrite Hg by congruence. by apply (Ht q n b x).
Qed.

Lemma handling_call p b fd rpc inp a g g' c s :
  handling p b fd rpc inp a g s -> (forall q, q <> p -> taken q g' = taken q g) -> call_ok None g' c s ->
  exists z s', (forall k, runs calloc (c k) s (k z) s') /\ handling p b fd rpc inp a g' s' /\
    front (world s') = front (world s).
Proof using.
  intros ([Hw _] & Ht & n & Hf) Hg (z & s' & Hrun & Hc & HJ). exists z, s'. split; [done|].
  split; [|apply Hc]. split; [split; [by eapply wired_courteous|done]|].
  split; [|by eapply front_ok_courteous]. apply (traced_ledger p a g); [done|].
  eapply traced_still; [by apply still_courteous|done].
Qed.

Lemma handling_count p b fd rpc inp a g s next :
  handling p b fd rpc inp a g s ->
  exists s', runs calloc (Act (count_pkg p) (fun _ => next)) s next s' /\
    handling p b fd rpc inp a g s' /\ front (world s') = front (world s).
Proof using Htame.
  intros (Hg & Ht & n & Hf). pose proof (fo_net _ _ _ _ _ _ _ Hf) as Hn.
  set (count n := set_pkg_counts (prev_pkg_count_ n) (u64 (curr_pkg_count_ n + 1)) n).
  set (w1 := set_heap (set_nets (<[p := count n]> (nets (heap (world s)))) (heap (world s))) (world s)).
  assert (Hc : courteous (world s) w1) by (by apply courteous_net with n).
  exists (set_world w1 s).
  split; [by apply (runs_act calloc (count_pkg p) (fun _ => next) s tt), (on_net_upd p _ n count)|].
  split; [|done]. split; [by apply fine_courteous; [|done|apply moves_net with n]|].
  split; [eapply traced_still; [by apply still_courteous|done]|by eapply front_ok_courteous].
Qed.

Lemma handling_at p b fd rpc inp a g s : handling p b fd rpc inp a g s -> front_at p b fd (world s).
Proof using. intros ([Hw _] & _ & n & Hf). by apply (front_ok_at p b fd rpc inp n). Qed.

(** One message: it is handed over, or the front end is closed. *)
Lemma message_ok p b fd rpc inp m next a g s :
  handling p b fd rpc inp a g s ->
  let body := if rpc then request_body p (fun _ => Ret) else front_body p in
  (exists s1 g1, runs calloc (body m next) s next s1 /\ handling p b fd rpc inp a g1 s1 /\
     (rpc = false -> taken p g1 = taken p g ++ [m]) /\ front (world s1) = front (world s)) \/
  (exists s1, runs calloc (body m next) s Ret s1 /\ good a g s1).
Proof using Htame.
  intros H body. pose proof (handling_at _ _ _ _ _ _ _ _ H) as Hf.
  assert (Hp : is_front p (world s)) by (exists fd; apply Hf). subst body. destruct rpc.
  - destruct (handling_call _ _ _ _ _ _ _ g _ _ H (fun _ _ => eq_refl)
      (request_ok g p m s (proj1 H) Hp)) as (ret & s1 & Hrun & H1 & E1). unfold request_body.
    specialize (Hrun (fun ret => if ret <? 0
      then Act (log_net p) (fun _ => Act (on_frontend (RemoveHandler (Some p))) (fun _ => Ret))
      else Act (count_pkg p) (fun _ => next))). cbv beta in Hrun. destruct (ret <? 0).
    + right. pose proof (handling_at _ _ _ _ _ _ _ _ H1) as Hf1. destruct H1 as (Hg1 & Ht1 & _).
      destruct (remove_event_good None (Some p) a p b fd g s1 Hg1 Ht1 (or_introl eq_refl)
        (or_intror eq_refl) Hf1)
        as (w2 & _ & E2 & Hg2).
      exists (set_world w2 s1). split; [|done]. eapply runs_trans; [exact Hrun|].
      eapply runs_trans; [by apply (runs_read calloc _ _ s1 tt), (log_net_front p b fd)|].
      by apply (runs_act calloc _ (fun _ => Ret) s1 0).
    + left. destruct (handling_count _ _ _ _ _ _ _ s1 next H1) as (s2 & Hrun2 & H2 & E2).
      exists s2, g. split; [by eapply runs_trans|]. split; [done|split; [done|congruence]].
  - left. destruct (net_type_front p b fd s Hf) as [ty Ety].
    destruct (handling_call _ _ _ _ _ _ _ (handed p m g) _ _ H
      (fun q Hq => handed_ne p q m g ltac:(congruence)) (tm_front Htame g s p ty m (proj1 H) Hp))
      as (z & s1 & Hrun & H1 & E1).
    destruct (handling_count _ _ _ _ _ _ _ s1 next H1) as (s2 & Hrun2 & H2 & E2).
    exists s2, (handed p m g).
    split; [|split; [done|split; [by rewrite handed_eq|congruence]]]. unfold front_body.
    eapply runs_trans; [by apply (runs_read calloc _ _ s ty)|].
    eapply runs_trans; [apply Hrun|exact Hrun2].
Qed.

(** A part of what the loop does not touch is not touched either. *)
Lemma incomplete_take part k : incomplete part -> incomplete (take k part).
Proof using.
  intros Hi. destruct (Z.lt_ge_cases (blen (take k part)) 4) as [|H4]; [by left|].
  assert (Ha : announced part = announced (take k part))
    by (rewrite <- (take_drop k part) at 1; by apply announced_prefix).
  assert (blen (take k part) <= blen part) by (unfold blen; rewrite length_take; lia).
  unfold incomplete in *. rewrite <- Ha. lia.
Qed.

Lemma frames_cut ms part k :
  Forall frame_ok ms -> incomplete part ->
  exists ms1 ms2 part', ms = ms1 ++ ms2 /\ take k (frames ms ++ part) = frames ms1 ++ part' /\
    incomplete part'.
Proof using.
  intros Hok Hi. destruct (decide (k <= length (frames ms))%nat) as [Hk|Hk].
  - rewrite take_app_le by done.
    destruct (stream_prefix ms (take k (frames ms)) (drop k (frames ms)) Hok (take_drop _ _))
      as (ms1 & ms2 & part' & -> & E1 & _ & Hi' & _). by exists ms1, ms2, part'.
  - exists ms, [], (take (k - length (frames ms)) part). rewrite app_nil_r. split; [done|].
    split; [apply take_app_ge; lia|by apply incomplete_take].
Qed.

(** What is queued begins with whole messages; what is behind them is a stream again. *)
Lemma stream_cut c l k :
  stream_part c l ->
  exists ms part, take k l = frames ms ++ part /\ incomplete part /\ Forall frame_ok ms /\
    (c = backend_cb_funcs -> Forall heard ms) /\
    stream_part c (drop (Z.to_nat (blen (frames ms))) l) /\
    l = frames ms ++ drop (Z.to_nat (blen (frames ms))) l.
Proof using.
  intros (ms0 & part0 & -> & Hok & Hi0 & Hh).
  destruct (frames_cut ms0 part0 k Hok Hi0) as (ms1 & ms2 & part & -> & E1 & Hi).
  assert (Ed : drop (Z.to_nat (blen (frames ms1))) (frames (ms1 ++ ms2) ++ part0)
               = frames ms2 ++ part0).
  { unfold blen. by rewrite Nat2Z.id, frames_app, <- app_assoc, drop_app_length. }
  apply Forall_app in Hok as [Hok1 Hok2]. exists ms1, part. rewrite Ed.
  split; [done|split; [done|split; [done|split; [|split]]]].
  - intros Hc. by apply Hh, Forall_app in Hc as [? _].
  - exists ms2, part0. do 3 (split; [done|]). intros Hc. by apply Hh, Forall_app in Hc as [_ ?].
  - by rewrite frames_app, <- app_assoc.
Qed.

(** Each kind of connection has callbacks of its own. *)
Lemma front_cbs p b fd w :
  wired w -> front_at p b fd w -> cbs (heap w) !! b = Some frontend_cb_funcs.
Proof using.
  intros Hw [Hin (n & Hn & Hb)]. pose proof (ta_fcbs _ _ _ _ (wi_tables _ Hw)) as Hc.
  rewrite Forall_forall in Hc. by apply (Hc _ Hin p n).
Qed.

Lemma buffered_fine p b fd rpc inp n rb a g s :
  fine None g s -> traced (Some p) a g (world s) ->
  front_ok p b fd rpc inp n (buffered rb (world s)) ->
  handling p b fd rpc inp a g (set_world (buffered rb (world s)) s).
Proof using Htame.
  intros Hg Ht Hf. pose proof Hg as [[H1 H2 H3 [W1 W2 W3] H5 H6 _ H8 H9] _].
  assert (Hm : moves None (world s) (buffered rb (world s))) by (by apply moves_fewer).
  split; [apply fine_moves; [done| |done]|split; [|by exists n]].
  - split; try done. apply (fo_buf _ _ _ _ _ _ _ Hf).
  - eapply traced_still; [apply still_moves; [done|intros ???; cbn; congruence]|done].
Qed.

(** Input is taken or comes in. *)
Lemma moves_bev b x x' w :
  bevs (heap w) !! b = Some x -> output x' = output x -> bev_fd x' = bev_fd x ->
  moves None w (set_heap (set_bevs (<[b := x']> (bevs (heap w))) (heap w)) w).
Proof using.
  intros Hx Eo Ef. split; try done.
  { intros p n' _ Hn. exists n'. do 6 (split; [done|]). auto. }
  - intros p n' c y _ _ _. cbn. destruct (decide (c = b)) as [->|Hc].
    + rewrite lookup_insert_eq. intros [= <-]. by exists x.
    + rewrite lookup_insert_ne by done. intros Hy. by exists y.
  - unfold seed_grows. cbn. lia.
Qed.

(** The content of one bufferevent changes. *)
Lemma traced_bev p b n x x' a a' g w :
  wired w -> nets (heap w) !! p = Some n -> hevent_ n = Some b -> bevs (heap w) !! b = Some x ->
  traced (Some p) a g w -> (forall c, c <> b -> is_Some (bevs (heap w) !! c) -> a' c = a c) ->
  (noted p w -> a' b = frames (taken p g) ++ input x') ->
  traced None a' g (set_heap (set_bevs (<[b := x']> (bevs (heap w))) (heap w)) w).
Proof using.
  intros Hw Hn Hb Hx Ht Ha Hp q n' c y _ Hq Hn' Hc Hy. cbn in *.
  destruct (decide (q = p)) as [->|Hqp].
  - assert (n' = n) as -> by congruence. assert (c = b) as -> by congruence.
    rewrite lookup_insert_eq in Hy. injection Hy as <-. by apply Hp.
  - assert (Hcb : c <> b).
    { intros ->. apply Hqp. by apply (ho_bev_inj _ (ta_heap _ _ _ _ (wi_tables _ Hw)) q p n' n b). }
    rewrite lookup_insert_ne in Hy by congruence. rewrite Ha by (done || by eexists).
    apply (Ht q n' c y); [congruence|done..].
Qed.

(** Bytes are taken off what is queued. *)
Lemma drained_good p b n x k a g s :
  fine None g s -> traced (Some p) a g (world s) -> nets (heap (world s)) !! p = Some n ->
  hevent_ n = Some b -> bevs (heap (world s)) !! b = Some x ->
  (forall c, cbs (heap (world s)) !! b = Some c -> stream_part c (drop (Z.to_nat k) (input x))) ->
  (noted p (world s) -> a b = frames (taken p g) ++ drop (Z.to_nat k) (input x)) ->
  good a g (set_world (drained b k (world s)) s).
Proof using Htame.
  intros Hg Ht Hn Hb Hx Hs Ha. pose proof Hg as [[H1 H2 H3 H4 H5 H6 H7 H8 H9] _].
  unfold drained. rewrite Hx.
  set (x' := {| bev_fd := bev_fd x; input := _; output := _ |}).
  assert (Hsame : same_links stream_part (heap (world s))
    (set_bevs (<[b := x']> (bevs (heap (world s)))) (heap (world s))))
    by (apply (same_links_bev stream_part _ b x x'); auto).
  split; [apply fine_moves; [done| |by apply (moves_bev b x)]|].
  - split; try done; by apply (tables_same stream_part (heap (world s))).
  - apply (traced_bev p b n x x' a a); (done || apply Hg).
Qed.

(** The bytes that have been used are taken off what is queued. *)
Lemma consumed_ends p b fd rpc inp k a g s :
  handling p b fd rpc inp a g s -> stream_part frontend_cb_funcs (drop (Z.to_nat k) inp) ->
  (rpc = false -> a b = frames (taken p g) ++ drop (Z.to_nat k) inp) ->
  ends a (Act (consumed b p k) (fun _ => Ret)) s.
Proof using Htame.
  intros Hh Hs Ha. pose proof (front_cbs p b fd _ (proj1 (proj1 Hh)) (handling_at _ _ _ _ _ _ _ _ Hh)) as Ec.
  pose proof (handling_at _ _ _ _ _ _ _ _ Hh) as [Hfd _]. destruct Hh as (Hg & Ht & n & Hf).
  assert (Hp : is_front p (world s)) by (by exists fd).
  destruct (consumed_front p b fd rpc inp n (world s) k Hf)
    as (w' & n' & E0 & _ & _ & _ & _ & _ & _ & En & Ew).
  eapply ends_act; [exact E0|]. apply (ends_ret a g).
  destruct Hf as [_ Hmode Hn Hb (x & Hx & Hxf & Hxi) _ _]. rewrite <- Hxi in Hs, Ha.
  assert (Hg1 : good a g (set_world (drained b k (world s)) s)).
  { apply (drained_good p b n x); try done; [intros c; rewrite Ec; by intros [= <-]|].
    intros Hno. apply Ha. rewrite <- Hmode. by apply (noted_front p (world s)); [apply Hg|..]. }
  set (w1 := drained b k (world s)) in *.
  assert (Hn1 : nets (heap w1) !! p = Some n) by (unfold w1, drained; by rewrite Hx).
  assert (E1 : w' = set_heap (set_nets (<[p := n']> (nets (heap w1))) (heap w1)) w1)
    by (rewrite Ew; unfold w1, drained; by rewrite Hx).
  rewrite E1, En. apply (good_courteous None a g (set_world w1 s)); [done|by apply courteous_net with n|].
  by apply moves_net with n.
Qed.

Lemma OnFrontEndMsg_ends p b fd x a g s :
  fine None g s -> traced (Some p) a g (world s) -> front_at p b fd (world s) ->
  bevs (heap (world s)) !! b = Some x -> stream_part frontend_cb_funcs (input x) ->
  ((svc_mode_ (rest (world s)) =? SVC_MODE_RPC) = false -> a b = frames (taken p g) ++ input x) ->
  ends a (OnFrontEndMsg b (fun _ => Ret)) s.
Proof using Htame.
  intros Hg Ht Hat Hx Hst Ha. destruct (front_at_ok p b fd (world s) x (proj1 Hg) Hat Hx) as [n Hf].
  set (rpc := svc_mode_ (rest (world s)) =? SVC_MODE_RPC) in *. set (inp := input x) in *.
  destruct (OnFrontEndMsg_begin calloc p b fd rpc inp n s (fun _ => Ret) Hf)
    as (w1 & tail & (rb & ->) & Hf1 & Hb1 & _ & _ & Hrun1).
  set (w1 := buffered rb (world s)) in *. eapply ends_runs; [exact Hrun1|].
  destruct (stream_cut _ inp (Z.to_nat (size (recv_buffer_ (front (world s))))) Hst)
    as (ms & part & Ecut & Hi & Hok & _ & Hst' & Einp).
  unfold seen in *. fold (front (world s)) in *. rewrite Ecut in *.
  pose proof (buffered_fine p b fd rpc inp n rb a g s Hg Ht Hf1) as Hh1.
  set (I := fun ms' s0 => exists dn g0, ms = dn ++ ms' /\
    handling p b fd rpc inp a g0 s0 /\ (rpc = false -> taken p g0 = taken p g ++ dn)).
  destruct (frame_loop_ends calloc frontend_handler_mgr_
    (if rpc then request_body p (fun _ => Ret) else front_body p) I (fun s0 => exists g0, good a g0 s0)
    Ret part tail (fun elapsed => Act (consumed b p elapsed) (fun _ => Ret))) with ms
    (S (length (frames ms ++ part))) (set_world w1 s) (@nil Z)
    as [(s2 & Hrun2 & (dn & g2 & Ems & H2 & Hg2) & _)|(s2 & Hrun2 & g2 & H2)]; try done.
  - intros m ms' s0 next (dn & g0 & Ems & H & Hg0).
    destruct (message_ok p b fd rpc inp m next a g0 s0 H) as [(s1 & g1 & Hr & H1 & Hg1 & Ef)|(s1 & Hr & H1)].
    + left. exists s1. unfold front in Ef. rewrite Ef. split; [done|split; [|done]].
      exists (dn ++ [m]), g1. rewrite <- app_assoc. split; [done|split; [done|]].
      intros Hmode. by rewrite Hg1, Hg0, app_assoc.
    + right. by exists s1; split; [|exists g0].
  - rewrite length_app. pose proof (frames_length ms). lia.
  - exists [], g. split; [done|split; [done|]]. by rewrite app_nil_r.
  - change (blen []) with 0 in Hrun2. rewrite !Z.add_0_l in Hrun2.
    eapply ends_runs; [exact Hrun2|]. apply (consumed_ends p b fd rpc inp _ a g2); [done|done|].
    intros Hmode. rewrite app_nil_r in Ems. subst dn.
    rewrite (Hg2 Hmode), (Ha Hmode), frames_app, <- app_assoc. by rewrite Einp at 1.
  - change (blen []) with 0 in Hrun2. rewrite !Z.add_0_l in Hrun2.
    eapply ends_runs; [exact Hrun2|]. by apply (ends_ret a g2).
Qed.

(** ** Back ends *)

(** The back end [p] with its bufferevent [b] and the descriptor [fd]. *)
Definition back_at (p b fd : Z) w : Prop :=
  (fd, Some p) ∈ handler_pool_ (back w) /\
  exists n, nets (heap w) !! p = Some n /\ hevent_ n = Some b.

Lemma back_cbs p b fd w :
  wired w -> back_at p b fd w -> cbs (heap w) !! b = Some backend_cb_funcs.
Proof using.
  intros Hw [Hin (n & Hn & Hb)]. pose proof (ta_bcbs _ _ _ _ (wi_tables _ Hw)) as Hc.
  rewrite Forall_forall in Hc. by apply (Hc _ Hin p n).
Qed.

Definition handling_back (p b fd : Z) inp a g s : Prop :=
  fine None g s /\ traced (Some p) a g (world s) /\ back_linked p b fd inp (world s).

Lemma back_linked_courteous p b fd inp w w' :
  back_linked p b fd inp w -> courteous w w' -> back_linked p b fd inp w'.
Proof using.
  intros [H1 (n & Hn & Hb) (x & Hx & Hxf & Hxi) H4 H5] Hc.
  destruct (sl_net stream_part _ _ _ _ (co_links _ _ Hc) Hn) as (n' & Hn' & Eb & _).
  destruct (sl_bev stream_part _ _ _ _ (co_links _ _ Hc) Hx) as (x' & Hx' & Ef & _).
  pose proof (co_back _ _ Hc) as Ebk. unfold back in Ebk.
  split; rewrite ?Ebk, ?(co_app _ _ Hc); try done.
  - exists n'. split; [done|congruence].
  - exists x'. split; [done|]. split; [congruence|]. rewrite <- Hxi. by apply (co_inputs _ _ Hc b).
Qed.

Lemma back_linked_at p b fd inp a g s : handling_back p b fd inp a g s -> is_back p (world s).
Proof using.
  intros ([Hw _] & _ & [_ _ _ Hp _]). exists fd. apply pool_find_elem; [|done].
  apply (mo_keys (NetS (heap (world s)) (back (world s)))). by eapply tables_back; apply Hw.
Qed.

Lemma handling_back_call p b fd inp a g g' c s :
  handling_back p b fd inp a g s -> (forall q, q <> p -> taken q g' = taken q g) ->
  call_ok None g' c s ->
  exists z s', (forall k, runs calloc (c k) s (k z) s') /\ handling_back p b fd inp a g' s' /\
    back (world s') = back (world s).
Proof using.
  intros ([Hw _] & Ht & Hb) Hg (z & s' & Hrun & Hc & HJ). exists z, s'. split; [done|].
  split; [|apply Hc]. split; [split; [by eapply wired_courteous|done]|].
  split; [|by eapply back_linked_courteous]. apply (traced_ledger p a g); [done|].
  eapply traced_still; [by apply still_courteous|done].
Qed.

Lemma back_message_ok p b fd inp m next a g s :
  handling_back p b fd inp a g s -> heard m ->
  exists s1, runs calloc (back_body p m next) s next s1 /\
    handling_back p b fd inp a (handed_back p m g) s1 /\ back (world s1) = back (world s).
Proof using Htame.
  intros H Hm. pose proof (back_linked_at _ _ _ _ _ _ _ H) as Hp.
  assert (Hg : forall q, q <> p -> taken q (handed_back p m g) = taken q g)
    by (intros q Hq; by apply handed_back_ne).
  destruct (bl_net _ _ _ _ _ (proj2 (proj2 H))) as (n & Hn & Hb). unfold back_body.
  assert (Hload : on_net (load_net p) (world s) = Ok (n, world s))
    by (rewrite (on_net_ok _ _ _ _ (load_net_ok _ p n Hn)); by destruct (world s)).
  assert (Hplain : exists s1, runs calloc (Act (net_type p) (fun type =>
      OnRecvBackEnd p type m (fun _ => next))) s next s1 /\
    handling_back p b fd inp a (handed_back p m g) s1 /\ back (world s1) = back (world s)).
  { destruct (handling_back_call _ _ _ _ _ _ _ _ _ H Hg
      (tm_back Htame g s p (net_type_ n) m (proj1 H) Hp Hm))
      as (z & s1 & Hrun & H1 & E1).
    exists s1. split; [|done]. eapply runs_trans; [|apply (Hrun (fun _ => next))].
    apply (runs_read calloc (net_type p) (fun type => OnRecvBackEnd p type m (fun _ => next)) s
             (net_type_ n)).
    unfold net_type. by rewrite (bind_step _ _ _ _ _ Hload). }
  destruct (rpc_binded_ n) as [r|] eqn:Er.
  - destruct (tm_answer Htame g s p n r m (proj1 H) Hp Hn Er) as (x & Hx & Hcall).
    destruct (crid_list_ x) as [|c l] eqn:El.
    + destruct Hplain as (s1 & Hrun & H1). exists s1. split; [|done].
      eapply runs_trans; [|exact Hrun]. refine (runs_read calloc _ _ s None _).
      rewrite (bind_step _ _ _ _ _ Hload), Er. unfold IsActive.
      rewrite (bind_step _ _ _ false (world s)); [done|].
      rewrite (bind_step _ _ _ x (world s)) by (unfold load_rpc; by rewrite Hx). by rewrite El.
    + destruct (handling_back_call _ _ _ _ _ _ _ _ _ H Hg (Hcall ltac:(done))) as (z & s1 & Hrun & H1 & E1).
      exists s1. split; [|done]. eapply runs_trans; [|apply (Hrun (fun _ => next))].
      refine (runs_read calloc _ _ s (Some r) _).
      rewrite (bind_step _ _ _ _ _ Hload), Er. unfold IsActive.
      rewrite (bind_step _ _ _ true (world s)); [done|].
      rewrite (bind_step _ _ _ x (world s)) by (unfold load_rpc; by rewrite Hx). by rewrite El.
  - destruct Hplain as (s1 & Hrun & H1). exists s1. split; [|done].
    eapply runs_trans; [|exact Hrun]. refine (runs_read calloc _ _ s None _).
    by rewrite (bind_step _ _ _ _ _ Hload), Er.
Qed.

Lemma handling_back_at p b fd inp a g s :
  handling_back p b fd inp a g s -> back_at p b fd (world s).
Proof using.
  intros H. destruct (bl_net _ _ _ _ _ (proj2 (proj2 H))) as (n & Hn & Hb).
  split; [|by exists n]. destruct H as ([Hw _] & _ & [_ _ _ Hp _]). apply pool_find_elem; [|done].
  apply (mo_keys (NetS (heap (world s)) (back (world s)))). by eapply tables_back; apply Hw.
Qed.

Lemma back_buffered_good p b fd inp rb a g s :
  good a g s -> back_linked p b fd inp (back_buffered rb (world s)) ->
  handling_back p b fd inp a g (set_world (back_buffered rb (world s)) s).
Proof using Htame.
  intros Hg Hb. pose proof Hg as [[[H1 H2 H3 H4 H5 H6 H7 _ H9] _] _].
  destruct (good_moves None a g s (back_buffered rb (world s)) Hg) as [Hf Ht];
    [|by apply moves_fewer|intros ???; cbn; congruence|].
  { split; try done. apply (bl_buf _ _ _ _ _ Hb). }
  split; [done|]. split; [|done]. intros q n c y _. by apply Ht.
Qed.

Lemma OnBackEndMsg_ends p b fd x a g s :
  good a g s -> back_at p b fd (world s) -> bevs (heap (world s)) !! b = Some x ->
  stream_part backend_cb_funcs (input x) -> ends a (OnBackEndMsg b (fun _ => Ret)) s.
Proof using Htame.
  intros Hg [Hin (n & Hn & Hb)] Hx Hst.
  assert (Ha : a b = frames (taken p g) ++ input x).
  { apply (proj2 Hg p n b x); try done. left. by exists fd. } pose proof Hg as [[Hw _] _]. set (inp := input x) in *.
  pose proof (tables_back _ _ _ _ _ (wi_tables _ Hw) (wi_back _ Hw)) as Hm.
  destruct (mgr_ok_bev _ fd p n b Hm Hin Hn Hb) as (y & Hy & Hf). cbn [hp] in Hy.
  assert (y = x) as -> by congruence.
  destruct (OnBackEndMsg_begin calloc p b fd inp s (fun _ => Ret))
    as (rb & tail & Hl1 & Hb1 & _ & Hrun1).
  { split; [apply Hw|by exists n|by exists x|by apply back_found|apply Hw]. }
  eapply ends_runs; [exact Hrun1|].
  destruct (stream_cut _ inp (Z.to_nat (size (recv_buffer_ (back (world s))))) Hst)
    as (ms & part & Ecut & Hi & Hok & Hheard & Hst' & Einp).
  fold (back (world s)) in *. rewrite Ecut in *.
  pose proof (back_buffered_good p b fd inp rb a g s Hg Hl1) as Hh1.
  destruct (frame_loop_keeps calloc backend_handler_mgr_ (back_body p)
    (fun ms' s0 => exists dn g0, ms = dn ++ ms' /\ handling_back p b fd inp a g0 s0 /\
       taken p g0 = taken p g ++ dn) part tail
    (fun elapsed => Act (evbuffer_drain b elapsed) (fun _ => Ret))) with ms
    (S (length (frames ms ++ part))) (set_world (back_buffered rb (world s)) s) (@nil Z)
    as (s2 & Hrun2 & (dn & g2 & Ems & H2 & Hg2) & _); try done.
  - intros m ms' s0 next (dn & g0 & Ems & H & Hg0).
    assert (Hhm : heard m).
    { pose proof (Hheard eq_refl) as Hms. rewrite Ems in Hms.
      by apply Forall_app in Hms as [_ [? _]%Forall_cons]. }
    destruct (back_message_ok p b fd inp m next a g0 s0 H Hhm) as (s1 & Hr & H1 & Ef).
    exists s1. split; [done|]. split; [|unfold back in Ef; by rewrite Ef].
    exists (dn ++ [m]), (handed_back p m g0). rewrite <- app_assoc. split; [done|split; [done|]].
    by rewrite handed_back_eq, Hg0, app_assoc.
  - rewrite length_app. pose proof (frames_length ms). lia.
  - exists [], g. split; [done|split; [done|]]. by rewrite app_nil_r.
  - change (blen []) with 0 in Hrun2. rewrite !Z.add_0_l in Hrun2.
    eapply ends_runs; [exact Hrun2|]. pose proof (back_linked_at _ _ _ _ _ _ _ H2) as Hp2.
    pose proof (back_cbs p b fd _ (proj1 (proj1 H2)) (handling_back_at _ _ _ _ _ _ _ H2)) as Ec.
    destruct H2 as (Hf2 & Ht2 & Hl2).
    destruct (bl_bev _ _ _ _ _ Hl2) as (x2 & Hx2 & _ & Hi2). rewrite <- Hi2 in Hst'.
    destruct (bl_net _ _ _ _ _ Hl2) as (n2 & Hn2 & Hb2).
    destruct (drain_ok b (blen (frames ms)) (world s2) x2 Hx2) as [Hd _].
    eapply ends_act; [exact Hd|]. apply (ends_ret a g2).
    apply (drained_good p b n2 x2); try done; [intros c; rewrite Ec; by intros [= <-]|].
    intros _. rewrite Hi2, Ha, Hg2. rewrite app_nil_r in Ems. subst dn.
    rewrite frames_app, <- app_assoc. by rewrite <- Einp.
Qed.

Lemma OnBackEndSocketEvent_ends p b fd events a g s :
  good a g s -> back_at p b fd (world s) ->
  (steady -> has events BEV_EVENT_ERROR = false /\ has events BEV_EVENT_EOF = false) ->
  ends a (Act (OnBackEndSocketEvent b events) (fun _ => Ret)) s.
Proof using Htame.
  intros Hg [Hin (n & Hn & Hb)] Hev. pose proof Hg as [[Hw _] _].
  eapply ends_act.
  { apply (backend_event _ fd p n); [|done..]. by eapply tables_back; apply Hw. }
  apply (ends_ret a g), good_courteous; [done|by apply courteous_net with n|].
  assert (Hnf : ~ is_front p (world s)) by (apply back_not_front; [done|by exists fd]).
  split; try done.
  - intros q n' _. cbn. destruct (decide (q = p)) as [->|Hq].
    + rewrite lookup_insert_eq. intros [= <-]. exists n. do 5 (split; [done|]). split; [|done].
      intros [E1 E2]%Hev Hs. cbn. unfold event_state. rewrite E1, E2. by repeat case_match.
    + rewrite lookup_insert_ne by done. intros Hq'. exists n'. do 6 (split; [done|]). auto.
  - intros q n' c y _ _ _ Hy. by exists y.
  - unfold seed_grows. cbn. lia.
Qed.

(** ** A frame *)

(** The framework changes its clock and flags only. *)
Lemma flags_good a g s w :
  good a g s -> same_links stream_part (heap (world s)) (heap w) ->
  nets (heap w) = nets (heap (world s)) -> bevs (heap w) = bevs (heap (world s)) ->
  uctxs (heap w) = uctxs (heap (world s)) -> front w = front (world s) -> back w = back (world s) -> app_ (rest w) = true ->
  event_base_ (rest w) = true -> svc_mode_ (rest w) = svc_mode_ (rest (world s)) ->
  timer_mgr_ (rest w) = timer_mgr_ (rest (world s)) -> app (rest w) = app (rest (world s)) ->
  rpc_svc_mgr_ (rest w) = rpc_svc_mgr_ (rest (world s)) -> rpcs w = rpcs (world s) ->
  rpc_ctxs w = rpc_ctxs (world s) -> asyncid_seed w = asyncid_seed (world s) ->
  ending (world s) w -> good a g (set_world w s).
Proof using Htame.
  intros Hg Hs En Eb Eu Ef Ebk Ha He Em Et. intros. pose proof Hg as [[Hw _] _].
  apply good_courteous; [done| |].
  - split; try done; [by rewrite Eb; congruence| |]; symmetry; [by rewrite Ha; apply Hw|].
    by rewrite He; apply Hw.
  - apply moves_fewer; try done; [by unfold is_front; rewrite Ef|by rewrite Ebk|].
    apply fewer_frame; try done. unfold seed_grows. rewrite (sl_seed _ _ _ Hs). lia.
Qed.

Lemma tick_begun_good a g s : good a g s -> good a g (set_world (tick_begun (world s)) s).
Proof using Htame.
  intros Hg. pose proof Hg as [[Hw _] _].
  apply flags_good; unfold tick_begun, front, back; cbn;
    destruct (running_ (rest (world s))); try done;
    first [by apply same_links_frame|apply Hw].
Qed.

Lemma DoSomething_visit st now : visit_ok (AppFrameWork_DoSomething st now).
Proof using.
  intros n. split; [apply DoSomething_identity|]. unfold AppFrameWork_DoSomething.
  by repeat (case_match; try done).
Qed.

Lemma check_frontends_ends a g s : good a g s -> ends a (Act check_frontends (fun _ => Ret)) s.
Proof using Htame.
  intros Hg. pose proof Hg as [[Hw _] _].
  unfold check_frontends. set (st := setting_ (rest (world s))).
  destruct ((0 <? max_idle st) || (0 <? max_pkg_speed st) || (0 <? max_traffic_speed st)) eqn:Eon.
  - destruct (walk_front stream_part room (heap (world s)) _ _
      (AppFrameWork_DoSomething st (now_ (rest (world s)))) (wi_tables _ Hw) (wi_front _ Hw)
      (DoSomething_visit _ _)) as (h & m & Hrun & Ht & Hm & Hr & Hb & Hs & Hsub).
    eapply (ends_act _ _ _ _ tt (with_front h m (world s))).
    + rewrite (bind_step _ _ _ _ _ (fw_ok setting_ _)). fold st.
      rewrite (bind_step _ _ _ _ _ (fw_ok now_ _)), Eon. by erewrite on_frontend_ok by exact Hrun.
    + apply (ends_ret a g), good_fewer; try done. rewrite Hs. apply Hw.
  - eapply (ends_read _ _ _ _ tt); [|by eapply ends_ret].
    rewrite (bind_step _ _ _ _ _ (fw_ok setting_ _)). fold st.
    by rewrite (bind_step _ _ _ _ _ (fw_ok now_ _)), Eon.
Qed.

(** [Tick] when its first lines have left a good state. *)
Lemma Tick_ends a g s :
  (0 < fuel)%nat -> wired (world s) -> good a g (set_world (tick_begun (world s)) s) ->
  ends a (Tick fuel (fun _ => Ret)) s.
Proof using Htame.
  intros Hfuel Hw Hg1. destruct fuel as [|f]; [lia|]. unfold Tick.
  eapply ends_act; [apply tick_begun_ok; apply Hw|].
  assert (Hupdate : forall s0, good a g s0 -> ends a (Act (fw schedule_update_) (fun up =>
    let timers := timer_loop (S f) (Act check_frontends (fun _ => Ret)) in
    if up then OnUpdate (fun _ => timers) else timers)) s0).
  { assert (Htimers : forall s0, good a g s0 ->
      ends a (timer_loop (S f) (Act check_frontends (fun _ => Ret))) s0).
    { intros s0 Hg0. eapply ends_runs; [apply timer_loop_end, Hg0|]. by eapply check_frontends_ends. }
    intros s0 Hg0. eapply ends_read; [apply fw_ok|]. cbv zeta.
    destruct (schedule_update_ _); [|by apply Htimers].
    apply (ends_call None None a g); [done|apply (tm_update Htame), Hg0|]. intros _ s2 Hg2 _. by apply Htimers. }
  eapply ends_read; [apply fw_ok|]. cbv zeta.
  destruct (reloading_ _); [|by apply Hupdate]. unfold Reload.
  eapply (ends_read _ _ _ _ tt).
  { rewrite (bind_step _ _ _ _ _ (fw_ok app_ _)), (bind_step _ _ _ _ _ (fw_ok event_base_ _)).
    rewrite (wi_app _ (proj1 (proj1 Hg1))), (wi_base _ (proj1 (proj1 Hg1))). done. }
  apply (ends_call None None a g); [done|apply (tm_reload Htame), Hg1|]. intros _ s1 Hg2 _.
  eapply ends_act; [done|]. apply Hupdate. apply flags_good; try done; apply Hg2.
Qed.

(** ** Any event *)

Lemma callbacks_of_ok b c s :
  cbs (heap (world s)) !! b = c -> callbacks_of b (world s) = Ok (c, world s).
Proof using.
  intros <-. unfold callbacks_of. erewrite on_net_ok by reflexivity. by destruct (world s).
Qed.

Lemma arrivals_nothing w e a : nothing_else (arrivals w e a) w.
Proof using. intros b Hb. unfold arrivals. by rewrite Hb. Qed.

Lemma arrivals_other w e a c :
  is_Some (bevs (heap w) !! c) -> (forall data, e <> Arrived c data) -> arrivals w e a c = a c.
Proof using.
  intros Hc He. unfold arrivals. rewrite bool_decide_eq_true_2 by done.
  destruct e as [| b data| | | |]; try done. rewrite bool_decide_eq_false_2; [done|].
  intros ->. by apply (He data).
Qed.

Lemma good_arrivals e a g s :
  good a g s -> (forall c data, e <> Arrived c data) -> good (arrivals (world s) e a) g s.
Proof using.
  intros [Hg Ht] He. split; [done|]. intros p n b x Hp Hin Hn Hb Hx.
  rewrite arrivals_other; [by apply (Ht p n b x)|by eexists|by intros data].
Qed.

(** The bytes are in the input before the callback is called. *)
Lemma arrive_good b data x c a g s :
  good a g s -> bevs (heap (world s)) !! b = Some x -> cbs (heap (world s)) !! b = Some c ->
  stream_part c (input x ++ data) ->
  exists w x', modify (arrive b data) (world s) = Ok (tt, w) /\
    bevs (heap w) !! b = Some x' /\ cbs (heap w) !! b = Some c /\ stream_part c (input x') /\
    good (arrivals (world s) (Arrived b data) a) g (set_world w s).
Proof using Htame.
  intros [[Hw HJ] Ht] Hx Ec Hs.
  set (x' := {| bev_fd := bev_fd x; input := input x ++ data; output := output x |}).
  set (w := set_heap (set_bevs (<[b := x']> (bevs (heap (world s)))) (heap (world s))) (world s)).
  exists w, x'. split; [by unfold modify, arrive; rewrite Hx|].
  split; [by apply lookup_insert_eq|]. split; [done|]. split; [done|].
  assert (Hsame : same_links stream_part (heap (world s)) (heap w)).
  { apply (same_links_bev stream_part _ b x x'); try done. intros k Hk _. by simplify_eq. }
  destruct (owner (world s) b x Hw Hx) as (p & n & Hp & Hb & _).
  split; [apply fine_moves; [by split| |by apply (moves_bev b x)]|].
  - destruct Hw as [H1 H2 H3 H4 H5 H6 H7 H8 H9]. split; try done.
    by apply (tables_same stream_part (heap (world s))).
  - apply (traced_bev p b n x x' a); try done.
    + intros q m d y _. by apply Ht.
    + intros k Hk Hy. apply arrivals_other; [done|]. intros data0 [=]. congruence.
    + intros Hin. unfold arrivals. rewrite bool_decide_eq_true_2 by (by eexists).
      rewrite bool_decide_eq_true_2 by done. cbn [input x'].
      by rewrite (Ht p n b x ltac:(done) Hin Hp Hb Hx), app_assoc.
Qed.

Lemma deliver_ends e a g s :
  (0 < fuel)%nat -> good a g s -> possible (world s) e ->
  ends (arrivals (world s) e a) (deliver fuel e) s.
Proof using Htame EOk HOk FOk HR.
  intros Hfuel Hg He. pose proof Hg as [[Hw _] _].
  destruct e as [sock addr|b data|b events| | |]; cbn [deliver].
  - pose proof (good_arrivals (Accepted sock addr) a g s Hg ltac:(done)) as Hg'.
    unfold socket_listen_cb_function. cbn [negb orb].
    rewrite bool_decide_eq_false_2, orb_false_r by done.
    destruct (Z.ltb_spec sock 0); [by eapply ends_ret|].
    apply (OnFrontEndConnect_ends _ g); [done|apply arrivals_nothing|done|done].
  - destruct He as (x & c & Hx & Hcb & Hs).
    destruct (arrive_good b data x c a g s Hg Hx Hcb Hs) as (w & x' & Erun & Hx' & Hcb' & Hs' & Hg1).
    eapply ends_act; [exact Erun|]. set (s1 := set_world w s) in *. set (a1 := arrivals _ _ _) in *.
    pose proof Hg1 as [Hf1 Ht1].
    destruct (owner w b x' (proj1 Hf1) Hx') as (p & n & Hp & Hb & [[Hin Ec]|[Hin Ec]]);
      (eapply ends_read; [by apply callbacks_of_ok, Ec|]); cbv beta iota;
      (assert (Hs1 := Hs'); rewrite Ec in Hcb'; injection Hcb' as <-).
    + apply (OnFrontEndMsg_ends p b (bev_fd x') x' _ g); try done.
      * intros q m c y _. by apply Ht1.
      * by split; [|exists n].
      * intros Hmode. apply (Ht1 p n b x'); try done. right. split; [by exists (bev_fd x')|done].
    + apply (OnBackEndMsg_ends p b (bev_fd x') x' _ g); try done. by split; [|exists n].
  - pose proof (good_arrivals (Happened b events) a g s Hg ltac:(done)) as Hg'.
    destruct He as [[x Hx] Hev]. destruct (owner (world s) b x Hw Hx) as (p & n & Hp & Hb & [[Hin Ec]|[Hin Ec]]);
      (eapply ends_read; [by apply callbacks_of_ok, Ec|]); cbv beta iota.
    + apply (OnFrontEndSocketEvent_ends _ g p b (bev_fd x)); [done|]. split; eauto.
    + apply (OnBackEndSocketEvent_ends p b (bev_fd x) events _ g); [done| |auto]. split; eauto.
  - pose proof (good_arrivals Frame a g s Hg ltac:(done)) as Hg'.
    unfold internal_timer_cb_func. by apply (Tick_ends _ g); [|done|apply tick_begun_good].
  - eapply ends_act; [done|]. apply (ends_ret _ g).
    by apply flags_good; try done; [by apply good_arrivals|apply Hw..].
  - eapply ends_act; [done|]. apply (ends_ret _ g).
    by apply flags_good; try done; [by apply good_arrivals|apply Hw..].
Qed.

(** All the states of a history are good. *)
Lemma history_good es s a s' a' :
  (0 < fuel)%nat -> (exists g, good a g s) -> history es s a s' a' -> exists g', good a' g' s'.
Proof using Htame EOk HOk FOk HR.
  intros Hfuel Hg Hh. induction Hh as [s a|e es s a s1 s2 a2 He Hrun _ IH]; [done|]. apply IH.
  destruct Hg as [g Hg]. destruct (deliver_ends e a g s Hfuel Hg He) as (g1 & s1' & Hrun' & Hg1).
  exists g1. by rewrite (runs_ret_det _ _ _ _ _ Hrun Hrun').
Qed.
End Loop.

(** ** The end of the loop *)

Section Ending.
Context {P : Protobuf} {R : RpcEnv P} {IS : IRpcService} {C A : Type}.
Context {E : NetEnv C} {HO : HashOrder} {F : FrameEnv} {RA : RapidApp (App P C A)}.
Context {EOk : NetEnvOk E} {HOk : HashOrderOk HO} {FOk : FrameEnvOk F} {PE : Peers}.
Context (calloc : gmap Z (COROUTINECTX (App P C A)) -> option Z) (room fuel : nat).
Context {HR : HashRoom HO room}.
Context (J : option Z -> ledger -> CoroutineScheduler (App P C A) -> Prop) (Htame : tame calloc room J).
Context (Hfuel : (0 < fuel)%nat).
Implicit Types (s : CoroutineScheduler (App P C A)) (w : App P C A).

(** What [ending] and a longer record keep can be added to the invariant of an application. *)
Definition also (K : ledger -> App P C A -> Prop) (o : option Z) (g : ledger) s : Prop :=
  J o g s /\ K g (world s).

Lemma tame_also K :
  (forall g g' w w', g `prefix_of` g' -> ending w w' -> K g w -> K g' w') ->
  tame calloc room (also K).
Proof using Htame.
  intros HK.
  assert (Hfine : forall o g s, fine room (also K) o g s -> fine room J o g s).
  { intros o g s [Hw [HJ _]]. by split. }
  assert (Hcall : forall o o' g g' c s, fine room (also K) o g s -> g `prefix_of` g' ->
    call_ok calloc J o' g' c s -> call_ok calloc (also K) o' g' c s).
  { intros o o' g g' c s [_ [_ Hk]] Hg (z & s' & Hr & Hc & HJ). exists z, s'. split; [done|].
    split; [done|]. split; [done|]. apply (HK g g' (world s)); [done|apply Hc|done]. }
  split.
  - intros o g s w [Hw [HJ Hk]] Hw' Hm. split; [by apply (tm_moves _ _ _ Htame)|].
    apply (HK g g (world s)); [done|apply Hm|done].
  - intros g s p w [Hw [HJ Hk]] Hw' Hm. split; [by apply (tm_new _ _ _ Htame)|].
    apply (HK g _ (world s)); [by apply prefix_app_r|apply Hm|done].
  - intros g s p [HJ Hk] Hp. split; [by apply (tm_gone _ _ _ Htame g s p)|done].
  - intros g s Hf. eapply Hcall; [done..|]. apply (tm_update _ _ _ Htame); auto.
  - intros g s Hf. eapply Hcall; [done..|]. apply (tm_reload _ _ _ Htame); auto.
  - intros g s p ty Hf Hp (g0 & s0 & Hg0 & Hj) Hc. eapply Hcall; [done..|].
    apply (tm_connect _ _ _ Htame); auto. exists g0, s0. auto.
  - intros g s p ty Hf Hp. eapply Hcall; [done..|]. apply (tm_close _ _ _ Htame); auto.
  - intros g s p ty m Hf Hp. eapply Hcall; [done|by apply prefix_app_r|].
    apply (tm_front _ _ _ Htame); auto.
  - intros g s p ty m Hf Hp Hm. eapply Hcall; [done|by apply prefix_app_r|].
    apply (tm_back _ _ _ Htame); auto.
  - intros g s p n r m Hf Hp Hn Hr.
    destruct (tm_answer _ _ _ Htame g s p n r m (Hfine None g s Hf) Hp Hn Hr) as (x & Hx & Hok).
    exists x. split; [done|]. intros Hl. eapply Hcall; [done|by apply prefix_app_r|auto].
  - intros g s p svc c clo t m d Hf Hp H1 H2 H3 H4 H5 H6 H7. eapply Hcall; [done..|].
    eapply (tm_service _ _ _ Htame); eauto.
Qed.

Lemma good_also K a g s :
  good room J a g s -> K g (world s) -> good room (also K) a g s.
Proof using. intros [[Hw HJ] Ht] Hk. by split; [split|]. Qed.

(** Each event adds to the record. *)
Lemma deliver_records e a g s :
  good room J a g s -> possible room (world s) e ->
  exists d s', runs calloc (deliver fuel e) s Ret s' /\
    good room J (arrivals (world s) e a) (g ++ d) s'.
Proof using Htame Hfuel EOk HOk FOk HR.
  intros Hg He. set (K := fun g' (_ : App P C A) => g `prefix_of` g').
  destruct (deliver_ends calloc room fuel (also K)) with e a g s
    as (g' & s' & Hrun & [[Hw [HJ [d ->]]] Ht]); try done.
  - apply tame_also. intros g1 g2 w w' Hp _ Hk. unfold K in *. by transitivity g1.
  - apply good_also; [done|]. unfold K. reflexivity.
  - exists d, s'. split; [done|]. by split.
Qed.

(** The record of a history: what each of its events has added, in order. *)
Lemma history_records es s a s' a' :
  history calloc room fuel es s a s' a' -> forall g, good room J a g s ->
  exists ds, length ds = length es /\
    forall es1 es2 s1 a1, es = es1 ++ es2 -> history calloc room fuel es1 s a s1 a1 ->
      good room J a1 (g ++ List.concat (take (length es1) ds)) s1.
Proof using Htame Hfuel EOk HOk FOk HR.
  induction 1 as [s a|e es s a s1 s2 a2 He Hrun _ IH]; intros g Hg.
  - exists []. split; [done|]. intros [|e es1] es2 s1 a1 E0 H; [|done]. inversion H; subst.
    by rewrite app_nil_r.
  - destruct (deliver_records e a g s Hg He) as (d & s1' & Hrun' & Hg1).
    rewrite <- (runs_ret_det _ _ _ _ _ Hrun Hrun') in Hg1.
    destruct (IH (g ++ d) Hg1) as (ds & Hl & Hds). exists (d :: ds). split; [cbn; lia|].
    intros [|e' es1] es2 s3 a3 E0 H; [inversion H; subst; by rewrite app_nil_r|].
    injection E0 as <- E0. inversion H as [|? ? ? ? s4 ? ? _ Hr H4]; subst.
    rewrite (runs_ret_det _ _ _ _ _ Hr Hrun) in H4. cbn [length take List.concat].
    rewrite app_assoc. by apply (Hds es1 es2).
Qed.

Definition told_to_end w : Prop := running_ (rest w) = false.
Definition told_to_break w : Prop := loopbreak (rest w) = true.

(** Nothing takes the stop signal back. *)
Lemma history_told es s a s' a' :
  (exists g, good room J a g s) -> told_to_end (world s) -> history calloc room fuel es s a s' a' ->
  (exists g', good room J a' g' s') /\ told_to_end (world s').
Proof using Htame Hfuel EOk HOk FOk HR.
  intros [g Hg] Hend Hh.
  destruct (history_good calloc room fuel (also (fun _ => told_to_end))
    (tame_also (fun _ => told_to_end) (fun _ _ w w' _ H => en_running w w' H))
    es s a s' a' Hfuel) as [g' [[Hw [HJ Hk]] Ht]]; [|done|].
  { exists g. by apply good_also. }
  split; [|done]. by exists g'.
Qed.

(** The next frame breaks the loop. *)
Lemma frame_breaks a g s s' :
  good room J a g s -> told_to_end (world s) -> runs calloc (deliver fuel Frame) s Ret s' ->
  told_to_break (world s').
Proof using Htame Hfuel.
  intros Hg Hend Hrun.
  assert (Hb : told_to_break (tick_begun (world s))).
  { unfold told_to_break, tick_begun. cbn. by rewrite Hend. }
  destruct (Tick_ends calloc room fuel (also (fun _ => told_to_break))
    (tame_also (fun _ => told_to_break) (fun _ _ w w' _ H => en_loopbreak w w' H))
    a g s Hfuel) as (g' & s2 & Hrun2 & [[_ [_ Hk]] _]).
  - apply Hg.
  - apply good_also; [|done]. by apply (tick_begun_good calloc room J Htame).
  - by rewrite (runs_ret_det _ _ _ _ _ Hrun Hrun2).
Qed.
End Ending.

(** Nothing is connected: the framework is ready for the loop. *)
Lemma wired_start {P : Protobuf} {C A} {PE : Peers} room (w : App P C A) :
  app_ (rest w) = true -> event_base_ (rest w) = true ->
  nets (heap w) = ∅ -> bevs (heap w) = ∅ -> uctxs (heap w) = ∅ -> 1 <= nid_seed (heap w) ->
  handler_pool_ (front w) = [] -> it_cursor_ (front w) = AtEnd ->
  handler_pool_ (back w) = [] -> it_cursor_ (back w) = AtEnd ->
  buffer_ok (recv_buffer_ (front w)) -> buffer_ok (recv_buffer_ (back w)) ->
  timer_list_ (timer_mgr_ (rest w)) = [] -> wired room w.
Proof.
  intros H1 H2 En Eb Eu Hs Hf Hfc Hb Hbc Hfb Hbb Ht.
  split; try done; rewrite ?Hf, ?Hb.
  - split; try done; rewrite ?En, ?Eb, ?Eu; try done.
    + by split; intros *; rewrite ?En, ?Eb, ?lookup_empty.
    + constructor.
  - split; rewrite ?Hfc, ?Hf; [by split; rewrite ?Hf, ?Hfc|done|cbn; lia].
  - by split; rewrite ?Hb, ?Hbc.
Qed.
