(* ===== verification/Servers.v ===== *)
(** * Servers in the event loop

    What holds over all histories of a process: of any application that keeps to the contract
    of [Reactor], of the echo server with any number of clients, and of the demo server with
    its service. *)
From Stdlib Require Import ZArith Lia.
From stdpp Require Import base list gmap fin_maps strings.
From S2P Require Import Prelude CLib TcpSocket Timer Coroutine EasyNet NetMgr Tables RpcMsg EasyRpc.
From S2P Require Import Framework MsgLoop CallPath Sample Reactor.
Local Open Scope Z_scope.

#[local] Existing Instance courteous_preorder.

(** ** What an application may do with its connections *)

Section Sending.
Context {P : Protobuf} {C A : Type} {E : NetEnv C} {PE : Peers}.
Implicit Types (w : App P C A).

(** A connection of one of the tables has a bufferevent. *)
Lemma linked_of room w p :
  wired room w -> is_front p w \/ is_back p w ->
  exists n b x, nets (heap w) !! p = Some n /\ hevent_ n = Some b /\ bevs (heap w) !! b = Some x.
Proof using.
  intros Hw Hp.
  assert (Hin : exists fd, (fd, Some p) ∈ handler_pool_ (back w) \/ (fd, Some p) ∈ handler_pool_ (front w)).
  { destruct Hp as [[fd Hp]|[fd Hp]]; exists fd; auto. }
  destruct Hin as [fd Hin]. destruct (linked room w p fd Hw Hin) as (n & b & x & ? & ? & ? & _). eauto 7.
Qed.

(** The heap when a bufferevent has other output, and nothing else has changed. *)
Lemma courteous_output w h b x out :
  bevs (heap w) !! b = Some x -> nets h = nets (heap w) -> cbs h = cbs (heap w) ->
  uctxs h = uctxs (heap w) -> nid_seed h = nid_seed (heap w) ->
  bevs h = <[b := {| bev_fd := bev_fd x; input := input x; output := out |}]> (bevs (heap w)) ->
  courteous w (set_heap h w).
Proof using.
  intros Hx E2 E3 E4 E5 E6. set (x' := {| bev_fd := bev_fd x; input := _; output := out |}) in *.
  apply courteous_heap.
  - transitivity (set_bevs (<[b := x']> (bevs (heap w))) (heap w)).
    + apply (same_links_bev stream_part _ b x x'); auto.
    + by apply same_links_frame.
  - intros k y y'. rewrite E6. destruct (decide (k = b)) as [->|Hk].
    + rewrite lookup_insert_eq. intros H1 [= <-]. cbn. congruence.
    + rewrite lookup_insert_ne by done. congruence.
Qed.

(** It may send, whatever becomes of that. *)
Lemma Send_courteous room w p msg :
  wired room w -> is_front p w \/ is_back p w ->
  exists r h, on_net (EasyNet_Send p msg) w = Ok (r, set_heap h w) /\ courteous w (set_heap h w) /\
    nets h = nets (heap w).
Proof using.
  intros Hw Hp. destruct (linked_of room w p Hw Hp) as (n & b & x & Hn & Hb & Hx).
  destruct (EasyNet_Send_appends (heap w) p n b x msg Hn Hb Hx)
    as (r & h & out & E1 & E2 & E3 & E4 & E5 & E6).
  exists r, h. split; [by apply on_net_ok|]. split; [by apply (courteous_output w h b x out)|done].
Qed.

Lemma SendToFrontEnd_courteous room w p msg :
  wired room w -> is_front p w \/ is_back p w ->
  exists r h, SendToFrontEnd (Some p) msg w = Ok (r, set_heap h w) /\ courteous w (set_heap h w) /\
    nets h = nets (heap w).
Proof using.
  intros Hw Hp.
  assert (Hnone : exists r h, (mret (-1) : M (App P C A) Z) w = Ok (r, set_heap h w) /\
    courteous w (set_heap h w) /\ nets h = nets (heap w)).
  { exists (-1), (heap w). assert (set_heap (heap w) w = w) as -> by (by destruct w). done. }
  destruct msg as [[|c msg]|]; [exact Hnone| |exact Hnone].
  destruct (Send_courteous room w p (Some (c :: msg)) Hw Hp) as (r & h & E1 & Hc & Hn).
  eexists _, h. split; [|done]. unfold SendToFrontEnd. by rewrite (bind_step _ _ _ _ _ E1).
Qed.

(** It may finish a call of one of its clients. *)
Lemma finish_closure_courteous room w this c answer p :
  wired room w -> is_front p w -> clo_net_ c = Some p ->
  exists w', finish_closure this c answer w = Ok (tt, w') /\ courteous w w' /\
    nets (heap w') = nets (heap w) /\ rest w' = rest w.
Proof using.
  intros Hw Hp Hc. unfold finish_closure. rewrite Hc.
  assert (Hend : forall w1, courteous w w1 -> nets (heap w1) = nets (heap w) -> rest w1 = rest w ->
    exists w', modify (fun w => set_closures (delete this (closures w)) w) w1 = Ok (tt, w') /\
      courteous w w' /\ nets (heap w') = nets (heap w) /\ rest w' = rest w).
  { intros w1 H1 H2 H3. eexists. split; [done|]. split; [|done].
    etransitivity; [exact H1|]. by apply aside_ok. }
  destruct (rsp_ c) as [rsp|]; [destruct (req_ c) as [req|]|]; [|by apply Hend..].
  assert (Hsend : exists h, (match answer with
      | (0, out) => _ ← on_net (EasyNet_Send p out); mret tt
      | _ => mret tt
      end) w = Ok (tt, set_heap h w) /\ courteous w (set_heap h w) /\ nets h = nets (heap w)).
  { assert (set_heap (heap w) w = w) as Ew by (by destruct w).
    destruct answer as [[|z|z] out]; [|exists (heap w); by rewrite Ew..].
    destruct (Send_courteous room w p out Hw (or_introl Hp)) as (r & h & E1 & Hc1 & Hn).
    exists h. split; [|done]. by rewrite (bind_step _ _ _ _ _ E1). }
  destruct Hsend as (h & E1 & Hc1 & Hn). set (w1 := set_heap h w) in *.
  set (w2 := set_gen (count_messages (-1) (count_responses (-1) (gen w1))) w1).
  destruct (Hend w2) as (w' & E2 & H2); [|done|done|].
  - etransitivity; [exact Hc1|]. by apply aside_ok.
  - exists w'. split; [|done]. rewrite (bind_step _ _ w tt w2); [done|].
    by rewrite (bind_step _ _ _ _ _ E1).
Qed.
End Sending.

(** ** The echo server *)

Section EchoServer.
Context {P : Protobuf} {R : RpcEnv P} {IS : IRpcService} {C : Type}.
Context {E : NetEnv C} {HO : HashOrder} {F : FrameEnv} {PE : Peers}.
Context (calloc : gmap Z (COROUTINECTX (App P C MyApp)) -> option Z) (room : nat).
Implicit Types (s : CoroutineScheduler (App P C MyApp)) (w : App P C MyApp) (g : ledger).

(** What is queued for a client is what it has sent, without the empty messages. *)
Definition echoes g w : Prop :=
  forall p n b x, is_front p w -> nets (heap w) !! p = Some n -> hevent_ n = Some b ->
    bevs (heap w) !! b = Some x -> state_ n = NET_ESTABLISHED /\ output x = frames (echoed (taken p g)).

(** The echo server has its pointer to the framework, gets messages and makes no calls. *)
Definition echo_ready (_ : option Z) g s : Prop :=
  my_frame_stub_ (app (rest (world s))) = true /\
  (svc_mode_ (rest (world s)) =? SVC_MODE_RPC) = false /\
  (forall p n, nets (heap (world s)) !! p = Some n -> rpc_binded_ n = None) /\
  (writes_succeed E -> echoes g (world s)).

Lemma echoed_snoc l m : frames (echoed (l ++ [m])) = frames (echoed l) ++ frames (echoed [m]).
Proof using. unfold echoed. by rewrite filter_app, frames_app. Qed.

Lemma echo_moves o g s w :
  fine room echo_ready o g s -> wired room w -> moves None (world s) w ->
  echo_ready o g (set_world w s).
Proof using.
  intros [_ (H1 & Hmode & H2 & H3)] _ Hm. split; [by rewrite <- H1, <- (mv_app _ _ _ Hm)|].
  split; [by rewrite <- Hmode, <- (mv_mode _ _ _ Hm)|]. split.
  - intros p n Hp. destruct (mv_nets _ _ _ Hm p n ltac:(done) Hp) as (n0 & Hn0 & _ & _ & -> & _).
    by apply (H2 p).
  - intros Hw p n b x Hp Hn Hb Hx.
    destruct (mv_nets _ _ _ Hm p n ltac:(done) Hn) as (n0 & Hn0 & Eb & _ & _ & Es & _).
    destruct (mv_outputs _ _ _ Hm p n b x ltac:(done) Hn Hb Hx) as (x0 & Hx0 & Eo & _).
    destruct (H3 Hw p n0 b x0) as [Hst Hout]; [by apply (mv_fronts _ _ _ Hm)|done|congruence|done|].
    by rewrite Es, Eo.
Qed.

Lemma echo_new g s p w :
  fine room echo_ready None g s -> wired room w -> moves (Some p) (world s) w ->
  echo_ready (Some p) (opened p g) (set_world w s).
Proof using.
  intros [_ (H1 & Hmode & H2 & H3)] _ Hm. split; [by rewrite <- H1, <- (mv_app _ _ _ Hm)|].
  split; [by rewrite <- Hmode, <- (mv_mode _ _ _ Hm)|].
  destruct (mv_new _ _ _ Hm p eq_refl) as (_ & n1 & b1 & x1 & Hn1 & Hb1 & Hx1 & Hr & Hs & _ & Ho & _). split.
  - intros q n Hq. destruct (decide (q = p)) as [->|Hne]; [cbn in Hq; congruence|].
    destruct (mv_nets _ _ _ Hm q n ltac:(congruence) Hq) as (n0 & Hn0 & _ & _ & -> & _). by apply (H2 q).
  - intros Hw q n b x Hq Hn Hb Hx. destruct (decide (q = p)) as [->|Hne].
    + rewrite opened_eq. cbn in *. assert (n1 = n) as -> by congruence.
      assert (x1 = x) as -> by congruence. by rewrite Ho.
    + destruct (mv_nets _ _ _ Hm q n ltac:(congruence) Hn) as (n0 & Hn0 & Eb & _ & _ & Es & _).
      destruct (mv_outputs _ _ _ Hm q n b x ltac:(congruence) Hn Hb Hx) as (x0 & Hx0 & Eo & _).
      destruct (H3 Hw q n0 b x0) as [Hst Hout];
        [apply (mv_fronts _ _ _ Hm); [congruence|done]|done|congruence|done|].
      rewrite Es, Eo by done. by rewrite opened_ne by done.
Qed.

(** A message is sent back to its client, and nothing happens to the others. *)
Lemma echo_sent g w p m :
  wired room w -> is_front p w -> writes_succeed E -> echoes g w ->
  exists r h, SendToFrontEnd (Some p) (Some m) w = Ok (r, set_heap h w) /\
    echoes (handed p m g) (set_heap h w).
Proof using.
  intros Hw Hp Hok He. destruct (linked_of room w p Hw (or_introl Hp)) as (n & b & x & Hn & Hb & Hx).
  destruct (He p n b x Hp Hn Hb Hx) as [Hst Hout].
  assert (Hh : exists h r, SendToFrontEnd (Some p) (Some m) w = Ok (r, set_heap h w) /\
    nets h = nets (heap w) /\ bevs h = <[b := {| bev_fd := bev_fd x; input := input x;
      output := output x ++ frames (echoed [m]) |}]> (bevs (heap w))).
  { destruct m as [|c m].
    - exists (heap w), (-1). split; [by destruct w|]. split; [done|]. symmetry. apply insert_id.
      unfold echoed. rewrite filter_cons_False by (by intros H). cbn. rewrite app_nil_r.
      by destruct x.
    - eexists (EasyNet.queued b x (c :: m) (heap w)), _. split.
      { unfold SendToFrontEnd.
        by erewrite bind_step by (by apply on_net_ok, (EasyNet_Send_queued (heap w) p n b x)). }
      split; [done|]. unfold echoed. rewrite filter_cons_True by done. cbn. by rewrite app_nil_r. }
  destruct Hh as (h & r & E1 & En & Eb). exists r, h. split; [done|].
  intros q n' c y Hq Hn' Hc Hy. cbn in Hn', Hy. rewrite En in Hn'. rewrite Eb in Hy.
  destruct (decide (q = p)) as [->|Hqp].
  - assert (n' = n) as -> by congruence. assert (c = b) as -> by congruence.
    rewrite lookup_insert_eq in Hy. injection Hy as <-. cbn [output]. split; [done|].
    by rewrite handed_eq, echoed_snoc, Hout.
  - assert (Hcb : c <> b).
    { intros ->. apply Hqp. by apply (ho_bev_inj _ (ta_heap _ _ _ _ (wi_tables _ _ Hw)) q p n' n b). }
    rewrite lookup_insert_ne in Hy by congruence. rewrite handed_ne by congruence.
    by apply (He q n' c y).
Qed.

Lemma echo_tame : tame (RA := echo_app) calloc room echo_ready.
Proof using.
  split.
  - exact echo_moves.
  - exact echo_new.
  - done.
  - intros g s [_ HJ]. by apply call_ret.
  - intros g s [_ HJ]. by apply call_ret.
  - intros g s p ty [_ HJ] _ _ _. by apply call_ret.
  - intros g s p ty [_ HJ] _. by apply call_ret.
  - intros g s p ty m [Hw (H1 & Hmode & H2 & H3)] Hp.
    destruct (SendToFrontEnd_courteous room (world s) p (Some m) Hw (or_introl Hp))
      as (r & h & Hrun & Hc & Hn).
    apply (call_act calloc _ _ _ _ (fun z k => k z) s 0 (set_heap h (world s))); [|done|].
    + unfold MyApp_OnRecvFrontEnd. rewrite (bind_step _ _ _ _ _ (fw_ok _ _)), H1. cbn [negb].
      by rewrite (bind_step _ _ _ _ _ Hrun).
    + apply call_ret. split; [done|]. split; [done|]. split; [intros q n; cbn; rewrite Hn; apply H2|].
      intros Hok. destruct (echo_sent g (world s) p m Hw Hp Hok (H3 Hok)) as (r' & h' & Hrun' & He).
      rewrite Hrun in Hrun'. injection Hrun' as _ Eh. cbn [world set_world]. by rewrite Eh.
  - intros g s p ty m [Hw (H1 & Hmode & H2 & H3)] Hp _. apply call_ret.
    do 3 (split; [done|]). intros Hok q n b x Hq. rewrite handed_back_ne; [by apply H3|].
    intros ->. by apply (back_not_front room q (world s)).
  - intros g s p n r m [_ (_ & _ & H2 & _)] _ Hp Hr. by rewrite (H2 p n Hp) in Hr.
  - intros g s p svc c clo t m d [_ HJ] _ _ _ _ _ _ _ _. exact (call_ret calloc _ None g 0 s HJ).
Qed.

(** What a client of the echo server has got. *)
Definition client_echoed (a : traffic) w : Prop :=
  forall p n b x, is_front p w -> nets (heap w) !! p = Some n -> hevent_ n = Some b ->
    bevs (heap w) !! b = Some x ->
    exists ms, a b = frames ms ++ input x /\ output x = frames (echoed ms).

Lemma echo_good a g s :
  writes_succeed E -> good room echo_ready a g s -> client_echoed a (world s).
Proof using.
  intros Hok [[_ (_ & Hmode & _ & He)] Ht] p n b x Hp Hn Hb Hx.
  exists (taken p g). split; [|by apply (He Hok p n b x)]. apply (Ht p n b x); [done|by right|done..].
Qed.

(** Before the first client. *)
Lemma echo_begins s a :
  wired room (world s) -> (svc_mode_ (rest (world s)) =? SVC_MODE_RPC) = false ->
  my_frame_stub_ (app (rest (world s))) = true -> handler_pool_ (front (world s)) = [] ->
  (forall p n, nets (heap (world s)) !! p = Some n -> rpc_binded_ n = None) ->
  (forall b x, bevs (heap (world s)) !! b = Some x -> a b = input x) ->
  good room echo_ready a [] s.
Proof using.
  intros Hw Hmode Hstub Hnone Hunbound Ha.
  assert (Hno : forall q, ~ is_front q (world s)).
  { intros q [fd Hin]. rewrite Hnone in Hin. by apply not_elem_of_nil in Hin. }
  split; [split; [done|split; [done|split; [done|split; [done|]]]]|].
  - intros _ q m c y Hq. by destruct (Hno q).
  - intros q m c y _ _ _ _ Hy. by apply Ha.
Qed.
End EchoServer.

(** ** The demo server *)

Section DemoServer.
Context {P : Protobuf} {SP : SampleProto P} {SPOk : SampleProtoOk SP} {R : RpcEnv P} {C : Type}.
Context {E : NetEnv C} {HO : HashOrder} {F : FrameEnv} {PE : Peers}.
Context (calloc : gmap Z (COROUTINECTX (App P C ServerDemoApp)) -> option Z) (room : nat).
Context (pp_svc : Z).
Implicit Types (s : CoroutineScheduler (App P C ServerDemoApp)) (w : App P C ServerDemoApp).
#[local] Existing Instance ping_pong_service.

(** Its service is the only one, and it makes no calls of its own. *)
Definition demo_ready (o : option Z) (g : ledger) s : Prop :=
  rpc_svc_mgr_ (rest (world s)) = Some (AddRpcService (Some pp_svc) ∅) /\
  forall p n, nets (heap (world s)) !! p = Some n -> rpc_binded_ n = None.

(** The service answers, or at least returns, whatever becomes of the answer. *)
Lemma PingPong_courteous w c clo m d p :
  wired room w -> is_front p w -> closures w !! c = Some clo -> clo_net_ clo = Some p ->
  req_ clo = Some m -> rsp_ clo = Some d -> is_Some (as_Ping m) -> is_Some (as_Pong d) ->
  exists w', PingPong_OnRpcCall pp_svc c w = Ok (tt, w') /\ courteous w w' /\
    nets (heap w') = nets (heap w) /\ rest w' = rest w.
Proof using.
  intros Hw Hp Hc Hnet Hm Hd [v Hv] [v' Hv'].
  assert (Hload : load_closure c w = Ok (clo, w)) by (unfold load_closure; by rewrite Hc).
  set (clo1 := {| user_data_ := user_data_ clo; async_id_ := async_id_ clo; req_ := req_ clo;
                  rsp_ := Some (Pong (u32 (v + 1))); clo_net_ := clo_net_ clo;
                  is_done_ := is_done_ clo |}).
  set (w1 := set_closures (<[c := clo1]> (closures w)) w).
  assert (Hc1 : courteous w w1) by (by apply (aside_ok w w1)).
  destruct (finish_closure_courteous room w1 c clo1
    (MessageToBinary RPC_TYPE_RESPONSE (async_id_ clo1) (rsp_ clo1) (Some [])) p
    (wired_courteous room w w1 Hw Hc1) Hp Hnet) as (w' & E1 & Hc2 & Hn & Hr).
  exists w'. split; [|split; [by etransitivity|done]]. unfold PingPong_OnRpcCall.
  rewrite (bind_step _ _ w (Some m) w).
  2: { unfold Closure_request. rewrite (bind_step _ _ _ _ _ Hload). by rewrite Hm. }
  rewrite (bind_step _ _ w (Some d) w).
  2: { unfold Closure_response. rewrite (bind_step _ _ _ _ _ Hload). by rewrite Hd. }
  rewrite !bool_decide_eq_true_2 by by eexists.
  do 3 (rewrite (bind_step _ _ w _ w eq_refl)). rewrite Hv', Hv.
  do 2 (rewrite (bind_step _ _ w _ w eq_refl)).
  rewrite (bind_step _ _ w tt w1).
  2: { unfold fill_response. by rewrite (bind_step _ _ _ _ _ Hload). }
  unfold Closure_Done. rewrite (bind_step _ _ w1 clo1 w1); [exact E1|].
  unfold load_closure, w1. cbn. by rewrite lookup_insert_eq.
Qed.

Lemma demo_tame : tame (RA := server_demo_app) calloc room demo_ready.
Proof using SPOk.
  split.
  - intros o g s w [_ [H1 H2]] _ Hm. split; [by rewrite <- H1, <- (mv_services _ _ _ Hm)|].
    intros p n Hp. destruct (mv_nets _ _ _ Hm p n ltac:(done) Hp) as (n0 & Hn0 & _ & _ & -> & _).
    by apply (H2 p).
  - intros g s p w [_ [H1 H2]] _ Hm. split; [by rewrite <- H1, <- (mv_services _ _ _ Hm)|].
    intros q n Hq. destruct (decide (q = p)) as [->|Hne].
    + destruct (mv_new _ _ _ Hm p eq_refl) as (_ & n1 & b & x & Hn & _ & _ & Hb & _).
      cbn in Hq. congruence.
    + destruct (mv_nets _ _ _ Hm q n ltac:(congruence) Hq) as (n0 & Hn0 & _ & _ & -> & _). by apply (H2 q).
  - done.
  - intros g s [_ HJ]. by apply call_ret.
  - intros g s [_ HJ]. by apply call_ret.
  - intros g s p ty [_ HJ] _ _ _. by apply call_ret.
  - intros g s p ty [_ HJ] _. by apply call_ret.
  - intros g s p ty m [_ HJ] _. by apply call_ret.
  - intros g s p ty m [_ HJ] _ _. by apply call_ret.
  - intros g s p n r m [_ [_ H2]] _ Hp Hr. by rewrite (H2 p n Hp) in Hr.
  - intros g s p svc c clo t m d [Hw [H1 H2]] Hp Ht Hsvc Hnew Hc Hnet Hm Hd.
    assert (t = AddRpcService (Some pp_svc) ∅) as -> by congruence.
    destruct (GetRpcService_only pp_svc _ _ Hsvc) as [Hname ->].
    destruct (PingPong_courteous (world s) c clo m d p Hw Hp Hc Hnet Hm Hd
      (as_Ping_name m Hname) (as_Pong_new d Hnew)) as (w' & Hrun & Hcou & Hn & Hr).
    apply (call_act calloc demo_ready None g _ (fun _ k => k 0) s tt w'); [exact Hrun|done|].
    apply call_ret. split; [cbn; by rewrite Hr|]. intros q n'. cbn. rewrite Hn. apply H2.
Qed.
End DemoServer.

(** ** Properties *)

(** C2: [reactor_safe]. In whatever order clients, bytes, ends and frames come, and however
    the bytes are cut: with an application that keeps to its contract the tables and the heap
    stay consistent, no callback of libevent ever uses a connection that is gone or reads
    outside a buffer, and each returns.  The application has been handed, connection by
    connection, exactly the messages that have arrived and are not queued any more, once and
    in order; those of front ends only in the mode of messages, in which they are handed
    over.  The bytes are any bytes, with one exception: a length of 1, 2 or 3 must not come
    up where the loop looks for a length ([short_frame] is the crash that follows).  Also left
    out by [possible] are clients that make the table of connections rehash (there is [room];
    [rehash_then_walk] is the crash otherwise) and more than 2^31 - 2 connections, and the
    process has no timers of its own ([Timer] is about these). *)
Theorem reactor_safe {P : Protobuf} {R : RpcEnv P} {IS : IRpcService} {C A}
    {E : NetEnv C} {EOk : NetEnvOk E} {HO : HashOrder} {HOk : HashOrderOk HO}
    {F : FrameEnv} {FOk : FrameEnvOk F} {RA : RapidApp (App P C A)} {PE : Peers} calloc room {HR : HashRoom HO room}
    fuel J g es (s s' : CoroutineScheduler (App P C A)) a a' :
  tame calloc room J -> (0 < fuel)%nat -> wired room (world s) -> J None g s ->
  traced None a g (world s) ->
  history calloc room fuel es s a s' a' ->
  (exists g', wired room (world s') /\ J None g' s' /\ traced None a' g' (world s')) /\
  forall e, possible room (world s') e ->
    (exists s2, runs calloc (deliver fuel e) s' Ret s2) /\
    forall f, ~ fails calloc (deliver fuel e) s' f.
Proof.
  intros Ht Hfuel Hw HJ Htr Hh.
  destruct (history_good calloc room fuel J Ht es s a s' a' Hfuel) as [g' Hg']; [|done|].
  { exists g. by split. }
  split; [exists g'; split; [apply Hg'|split; apply Hg']|]. intros e He.
  destruct (deliver_ends calloc room fuel J Ht e a' g' s' Hfuel Hg' He) as (g2 & s2 & Hrun & _).
  split; [by exists s2|]. intros f. by apply (runs_not_fails _ _ _ s2).
Qed.

(** C4: [echo_clients]. Clients of the echo server, coming, sending and going in any order,
    when writes succeed: what is queued for each of them is, at every moment, the frames of
    those of its own messages that have been taken from its stream, in their order and
    without the empty ones; and these with what is still queued are what it has sent.  What
    [possible] leaves out are a length of 1, 2 or 3 in a stream ([short_frame]), more clients
    at a time than the table has [room] for without a rehash ([rehash_then_walk]), and more
    than 2^31 - 2 connections. *)
Theorem echo_clients {P : Protobuf} {R : RpcEnv P} {IS : IRpcService} {C}
    {E : NetEnv C} {EOk : NetEnvOk E} {HO : HashOrder} {HOk : HashOrderOk HO}
    {F : FrameEnv} {FOk : FrameEnvOk F} {PE : Peers} calloc room {HR : HashRoom HO room}
    fuel es (s s' : CoroutineScheduler (App P C MyApp)) a a' :
  writes_succeed E -> (0 < fuel)%nat -> wired room (world s) ->
  (svc_mode_ (rest (world s)) =? SVC_MODE_RPC) = false ->
  my_frame_stub_ (app (rest (world s))) = true -> handler_pool_ (front (world s)) = [] ->
  (forall p n, nets (heap (world s)) !! p = Some n -> rpc_binded_ n = None) ->
  (forall b x, bevs (heap (world s)) !! b = Some x -> a b = input x) ->
  history (RA := echo_app) calloc room fuel es s a s' a' ->
  forall p n b x, is_front p (world s') -> nets (heap (world s')) !! p = Some n ->
    hevent_ n = Some b -> bevs (heap (world s')) !! b = Some x ->
    exists ms, a' b = frames ms ++ input x /\ output x = frames (echoed ms).
Proof.
  intros Hok Hfuel Hw Hmode Hstub Hnone Hunbound Ha Hh.
  destruct (history_good calloc room fuel echo_ready (echo_tame calloc room) es s a s' a' Hfuel)
    as [g' Hg]; [|done|by apply (echo_good room a' g' s')].
  exists []. by apply echo_begins.
Qed.

(** ** Concrete processes *)

#[local] Existing Instance anyone.

(** The dotted notation of an address. *)
Definition dotted (a : Z) : bytes :=
  dec (a mod 256) ++ [46] ++ dec (a / 256 mod 256) ++ [46] ++ dec (a / 65536 mod 256) ++ [46] ++
  dec (a / 16777216 mod 256).
Definition dotted_frame : FrameEnv :=
  {| clock n := Z.of_nat n; new_timer h := Some (fresh (dom h)); new_svc_mgr := true;
     inet_ntoa := dotted |}.
#[local] Instance dotted_frame_ok : FrameEnvOk dotted_frame.
Proof.
  split. intros a. assert (H : forall x, blen (dec (x mod 256)) <= 3).
  { intros x. apply (dec_digits 2); [|lia]. change (10 ^ Z.of_nat 3) with 1000.
    pose proof (Z.mod_pos_bound x 256). lia. }
  cbn [inet_ntoa dotted_frame]. unfold dotted. rewrite !blen_app. change (blen [46]) with 1.
  pose proof (H a). pose proof (H (a / 256)). pose proof (H (a / 65536)).
  pose proof (H (a / 16777216)). lia.
Qed.
#[local] Instance front_room room : HashRoom front_order room.
Proof. by intros t l x _. Qed.
#[local] Existing Instances easy_rpc_env calm_env front_order dotted_frame.
#[local] Instance calm_env_ok : NetEnvOk calm_env.
Proof. pose proof easy_env_ok as [H1 H2 H3 H4]. by split. Qed.

(** A process before its first client, with buffers of 64 bytes. *)
Definition empty_table : NetHandlerMgr :=
  {| handler_pool_ := []; recv_buffer_ := {| buffer := Some (replicate 64 0); size := 64 |};
     it_cursor_ := AtEnd |}.
Definition ready_world {A} (mode : Z) (services : option RpcServerMgr) (a : A)
    : App plain_protobuf Z A :=
  {| heap := Heap_new; gen := GenSt_new; rpcs := ∅; rpc_ctxs := ∅; closures := ∅;
     asyncid_seed := 0; buf := [];
     rest := {| app_ := true; event_base_ := true;
                handles := {| internal_timer_ := true; listener_ := true; udp_ctrl_keeper_ := true;
                              cfg_ := []; has_been_cleanup_ := false |};
                schedule_update_ := false; setting_ := quiet_setting 60; running_ := true;
                reloading_ := false; now_ := 50; frontend_handler_mgr_ := empty_table;
                backend_handler_mgr_ := empty_table; timer_mgr_ := TimerMgr_new;
                rpc_scheduler_ := true; rpc_svc_mgr_ := services; svc_mode_ := mode;
                loopbreak := false; app := a |} |}.
Definition ready {A} (mode : Z) (services : option RpcServerMgr) (a : A)
    : CoroutineScheduler (App plain_protobuf Z A) :=
  CoroutineScheduler_new 10 (ready_world mode services a).

Section Replay.
Context {A : Type} {IS : IRpcService (P := plain_protobuf)} {RA : RapidApp (App plain_protobuf Z A)}.
Implicit Types (s : CoroutineScheduler (App plain_protobuf Z A)).

(** What one call of libevent makes of the state, and what has arrived then. *)
Definition after (sa : CoroutineScheduler (App plain_protobuf Z A) * traffic) (e : event) :
    CoroutineScheduler (App plain_protobuf Z A) * traffic :=
  (match run any_calloc 200 (Thread BMain (PCode (deliver 1 e))) (fst sa) with
   | Ok (_, s') => s'
   | Fault _ => fst sa
   end, arrivals (world (fst sa)) e (snd sa)).

Lemma after_event e es s a s' a' :
  possible 8 (world s) e ->
  run any_calloc 200 (Thread BMain (PCode (deliver 1 e))) s = Ok (None, fst (after (s, a) e)) ->
  history any_calloc 8 1 es (fst (after (s, a) e)) (snd (after (s, a) e)) s' a' ->
  history any_calloc 8 1 (e :: es) s a s' a'.
Proof using. intros He Hr. apply history_cons; [done|]. by apply (runs_finished _ 200). Qed.

Lemma wired_ready mode services a : wired 8 (world (ready (A := A) mode services a)).
Proof using. by apply wired_start; try done; eexists. Qed.

Lemma traced_ready mode services x a g : traced None a g (world (ready (A := A) mode services x)).
Proof using. by intros p n b y _ [[fd Hin]|[[fd Hin] _]]; apply not_elem_of_nil in Hin. Qed.
End Replay.

(** A part of a stream. *)
Lemma stream_of c l ms :
  bool_decide (l `prefix_of` frames ms) = true -> Forall frame_ok ms -> stream_part c l.
Proof.
  intros [r Hr]%bool_decide_eq_true Hok. symmetry in Hr.
  destruct (stream_prefix ms l r Hok Hr) as (ms1 & ms2 & part & -> & -> & _ & Hi & _).
  apply Forall_app in Hok as [Hok _]. exists ms1, part. repeat split; try done.
  intros _. by apply Forall_true.
Qed.

(** A descriptor that no bufferevent has. *)
Lemma new_client {A} (w : App plain_protobuf Z A) sock addr :
  bool_decide (map_Forall (fun _ y => bev_fd y <> sock) (bevs (heap w))) && (sock <? 2147483648) &&
  (nid_seed (heap w) <? 2147483647) && (length (handler_pool_ (front w)) <? 8)%nat = true ->
  possible 8 w (Accepted sock addr).
Proof.
  intros [[[H1%bool_decide_eq_true H0%Z.ltb_lt]%andb_true_iff H2%Z.ltb_lt]%andb_true_iff
    H3%Nat.ltb_lt]%andb_true_iff.
  split; [by apply H1|done].
Qed.

Ltac comes := apply after_event; [by apply new_client; vm_compute|by vm_compute|].
Ltac arrives ms :=
  apply after_event; [eexists _, _; split; [by vm_compute|split;
    [by vm_compute|by apply (stream_of _ _ ms); [vm_compute|repeat constructor]]]|by vm_compute|].
Ltac happens :=
  apply after_event; [first [done|split; [eexists; by vm_compute|done]]|by vm_compute|].

(** Two clients: the first is not done with its message when the second comes. *)
Definition two_clients : list event :=
  [Accepted 9 (16777343, 47138); Arrived 0 [0; 0; 0]; Accepted 10 (16777343, 47139);
   Arrived 1 (frame [1] ++ frame [] ++ [0]); Arrived 0 ([7; 65; 66; 67] ++ [0; 0]); Frame].
Definition echo_start : CoroutineScheduler (App plain_protobuf Z MyApp) :=
  ready SVC_MODE_NORMAL None {| my_frame_stub_ := true |}.
Definition echo_end : CoroutineScheduler (App plain_protobuf Z MyApp) * traffic :=
  fold_left (after (IS := demo_services) (RA := echo_app)) two_clients (echo_start, fun _ => []).

Lemma echo_history :
  history (IS := demo_services) (RA := echo_app) any_calloc 8 1 two_clients echo_start (fun _ => [])
    (fst echo_end) (snd echo_end).
Proof.
  unfold echo_end, two_clients. cbn [fold_left].
  comes. arrives [[65; 66; 67]]. comes. arrives [[1]; []; []].
  arrives [[65; 66; 67]; []]. happens. apply history_nil.
Qed.

(** The first message has been sent back to the first client, and [[1]] to the second one. *)
Lemma echo_clients_witness :
  let s := fst echo_end in let a := snd echo_end in
  sent 0 (world s) = frame [65; 66; 67] /\ sent 1 (world s) = frame [1] /\
  exists x ms, bevs (heap (world s)) !! 1 = Some x /\ a 1 = frames ms ++ input x /\
    output x = frames (echoed ms).
Proof.
  split; [by vm_compute|]. split; [by vm_compute|].
  assert (Hn : exists p n b x, is_front p (world (fst echo_end)) /\
    nets (heap (world (fst echo_end))) !! p = Some n /\ hevent_ n = Some b /\
    bevs (heap (world (fst echo_end))) !! b = Some x /\ b = 1).
  { exists 1. do 3 eexists. split; [exists 10; vm_compute; by constructor|]. by vm_compute. }
  destruct Hn as (p & n & b & x & Hp & Hn & Hb & Hx & ->).
  assert (Hub : forall p n, nets (heap (world echo_start)) !! p = Some n -> rpc_binded_ n = None)
    by (by intros q m [=]).
  assert (Hnew : forall b x, bevs (heap (world echo_start)) !! b = Some x -> ([] : bytes) = input x)
    by (by intros b0 y [=]).
  destruct (echo_clients (IS := demo_services) (E := calm_env) any_calloc 8 1 two_clients echo_start _ _ _
    (fun _ _ _ => eq_refl) (le_n 1) (wired_ready _ _ _) eq_refl eq_refl eq_refl Hub Hnew echo_history
    p n 1 x Hp Hn Hb Hx) as (ms & H1 & H2).
  exact (ex_intro _ x (ex_intro _ ms (conj Hx (conj H1 H2)))).
Defined.

(** A client of the demo server asks for 42, sends what is not a request, and is gone. *)
#[local] Existing Instances plain_protobuf plain_sample.
#[local] Instance demo_service : IRpcService := ping_pong_service (P := plain_protobuf).
#[local] Instance demo_server : RapidApp (App plain_protobuf Z ServerDemoApp) := server_demo_app.
Definition ask_42 : bytes := request_bytes (P := plain_protobuf) (7, Ping 41).
Definition demo_events : list event :=
  [Accepted 9 (16777343, 47138); Arrived 0 (frame ask_42); Arrived 0 (frame [1; 2]); Frame].
Definition demo_start : CoroutineScheduler (App plain_protobuf Z ServerDemoApp) :=
  ready SVC_MODE_RPC (Some (AddRpcService (IS := demo_service) (Some 6) ∅)) {| sd_frame_stub_ := true |}.
Definition demo_upto (k : nat) : CoroutineScheduler (App plain_protobuf Z ServerDemoApp) * traffic :=
  fold_left (after (IS := demo_service) (RA := demo_server)) (take k demo_events)
    (demo_start, fun _ => []).

Lemma demo_history :
  history (IS := demo_service) (RA := demo_server) any_calloc 8 1 demo_events demo_start (fun _ => [])
    (fst (demo_upto 4)) (snd (demo_upto 4)).
Proof.
  unfold demo_upto, demo_events. cbn [fold_left take].
  comes. arrives [ask_42]. arrives [[1; 2]]. happens. apply history_nil.
Qed.

(** The answer is 42; the client that does not keep to the protocol is gone, and the next
    one may come. *)
Lemma reactor_safe_witness :
  sent 0 (world (fst (demo_upto 2))) = frame (answer_bytes pong_of (7, Ping 41)) /\
  nets (heap (world (fst (demo_upto 4)))) = ∅ /\
  wired 8 (world (fst (demo_upto 4))) /\
  exists s, runs any_calloc (deliver (IS := demo_service) (RA := demo_server) 1
    (Accepted 9 (16777343, 5))) (fst (demo_upto 4)) Ret s.
Proof.
  split; [by vm_compute|]. split; [by vm_compute|].
  assert (HJ : demo_ready 6 None [] demo_start) by (split; [done|by intros q m [=]]).
  destruct (reactor_safe (IS := demo_service) (RA := demo_server) any_calloc 8 1 (demo_ready 6)
    [] demo_events demo_start _ _ _ (demo_tame any_calloc 8 6) (le_n 1)
    (wired_ready _ _ _) HJ (traced_ready _ _ _ _ _) demo_history) as [(g & Hw & _) H].
  split; [exact Hw|]. destruct (H (Accepted 9 (16777343, 5))) as [Hrun _]; [|exact Hrun].
  by apply new_client; vm_compute.
Defined.
