(* ===== verification/Lifecycle.v ===== *)
(** * The life of a process, from the command line to the exit

    The start-up of [Launch] brings a process into a state from which the event loop of
    [Reactor] may run, a stop signal ends the loop, and the shutdown gives everything back
    that the connections held. *)
From Stdlib Require Import ZArith Lia.
From stdpp Require Import base functions list gmap fin_maps strings.
From S2P Require Import Prelude CLib TcpSocket Timer Coroutine EasyNet NetMgr Tables CtrlCmd RpcMsg.
From S2P Require Import EasyRpc Framework MsgLoop CallPath Sample Reactor Servers.
From S2P Require Launch.
Import Launch (Process, Machine, Live, Flags, System).
Local Open Scope Z_scope.

(** ** Shutdown *)

Section Tables.
Context {C : Type} {E : NetEnv C}.
Implicit Types (h : Heap C) (l : HandlerPool).

(** Everything on the heap but the contexts belongs to the connections of [l]. *)
Record owned h l : Prop := {
  ow_heap : heap_ok h;
  ow_keys : NoDup (keys l);
  ow_entries : Forall (entry_ok h) l;
  ow_nets p n : nets h !! p = Some n -> exists fd, (fd, Some p) ∈ l;
  ow_bevs b x : bevs h !! b = Some x -> exists p n, nets h !! p = Some n /\ hevent_ n = Some b
}.

Lemma owned_tables Q h lb lf : tables Q h lb lf -> owned h (lb ++ lf).
Proof using. intros [? ? ? ? ? _ _ _ _]. by split. Qed.

Lemma owned_nothing h : owned h [] -> nets h = ∅ /\ bevs h = ∅.
Proof using.
  intros [_ _ _ Hn Hb].
  assert (En : nets h = ∅).
  { apply map_empty. intros p. destruct (nets h !! p) as [n|] eqn:Hp; [|done].
    destruct (Hn p n Hp) as [fd Hin]. by apply not_elem_of_nil in Hin. }
  split; [done|]. apply map_empty. intros b. destruct (bevs h !! b) as [x|] eqn:Hx; [|done].
  destruct (Hb b x Hx) as (p & n & Hp & _). by rewrite En, lookup_empty in Hp.
Qed.

(** The heap when a connection has been closed and deleted; its context stays. *)
Definition closed (p b : Z) h : Heap C :=
  set_nets (delete p (nets h)) (set_bevs (delete b (bevs h)) h).

Lemma closed_ok h p n b :
  heap_ok h -> nets h !! p = Some n -> hevent_ n = Some b -> heap_ok (closed p b h).
Proof using.
  intros Hh Hp Hb. pose proof (freed_ok h p n Hh Hp) as [H1 H2 H3 H4 H5 H6 H7].
  cbn in H1, H5. rewrite Hb in H1, H5. split; try done.
  cbn. intros q m c [_ Hq]%lookup_delete_Some. by apply (ho_ctx h Hh q m).
Qed.

Lemma owned_closed h fd p n b l :
  owned h ((fd, Some p) :: l) -> nets h !! p = Some n -> hevent_ n = Some b ->
  owned (closed p b h) l.
Proof using.
  intros [Hh Hk He Hn Hbv] Hp Hb. apply Forall_cons in He as [He1 He].
  apply NoDup_cons in Hk as [Hk1 Hk].
  split; [by eapply closed_ok|done| | |].
  - apply Forall_forall. intros e Hin. rewrite Forall_forall in He. specialize (He e Hin).
    apply (entry_ok_frame (freed p n h)); [done|cbn; by rewrite Hb|].
    apply (entry_ok_freed h fd); try done. intros Ek. apply Hk1. cbn [fst]. rewrite <- Ek.
    by apply (list_elem_of_fmap_2 fst).
  - cbn. intros q m [Hqp Hq]%lookup_delete_Some. destruct (Hn q m Hq) as [k Hin].
    apply elem_of_cons in Hin as [[= -> ->]|Hin]; [done|by exists k].
  - cbn. intros c x [Hcb Hc]%lookup_delete_Some. destruct (Hbv c x Hc) as (q & m & Hq & Hm).
    exists q, m. split; [|done]. rewrite lookup_delete_ne; [done|]. intros ->. congruence.
Qed.

(** The loop of [CleanUp] neither deletes a connection twice nor forgets one. *)
Lemma cleanup_nets_ok m l1 : forall h l2, owned h (l1 ++ l2) ->
  exists h', cleanup_nets l1 (NetS h m) = Ok (tt, NetS h' m) /\ owned h' l2 /\ uctxs h' = uctxs h.
Proof using.
  induction l1 as [|[fd v] l1 IH]; intros h l2 Ho; [by exists h|].
  pose proof (proj1 (Forall_cons _ _ _ ) (ow_entries _ _ Ho)) as [(p & n & b & x & Ev & Hp & Hb & Hx & _) _].
  cbn in Ev. subst v. pose proof (owned_closed h fd p n b (l1 ++ l2) Ho Hp Hb) as Ho1.
  destruct (IH (closed p b h) l2 Ho1) as (h' & Hrun & Ho' & Eu).
  exists h'. split; [|done]. cbn [cleanup_nets].
  rewrite (bind_step _ _ _ tt (NetS (closed p b h) m)); [done|].
  rewrite (bind_step _ _ _ _ _ (on_heap_ok _ (NetS h m) _ _
    (EasyNet_CleanUp_ok h p n b Hp Hb (mk_is_Some _ _ Hx)))).
  erewrite on_heap_ok by (eapply delete_net_ok, lookup_insert_eq). cbn [hp mgr].
  unfold closed. do 3 f_equal. unfold set_nets. cbn. by rewrite delete_insert_eq.
Qed.

Lemma NetHandlerMgr_CleanUp_ok h m l2 :
  owned h (handler_pool_ m ++ l2) ->
  exists h' m', NetHandlerMgr_CleanUp (NetS h m) = Ok (tt, NetS h' m') /\ owned h' l2 /\
    uctxs h' = uctxs h.
Proof using.
  intros Ho. destruct (cleanup_nets_ok m (handler_pool_ m) h l2 Ho) as (h' & Hrun & Ho' & Eu).
  unfold NetHandlerMgr_CleanUp. rewrite (bind_step get _ _ _ _ eq_refl). cbn [mgr].
  rewrite (bind_step _ _ _ _ _ Hrun).
  rewrite (bind_step (upd_mgr _) _ _ tt (NetS h' (set_pool [] m))) by done.
  destruct (buffer (recv_buffer_ m)); by do 2 eexists.
Qed.
End Tables.

Section Shutdown.
Context {P : Protobuf} {C A : Type} {E : NetEnv C} {PE : Peers}.
Implicit Types (p : Process C A) (w : App P C A).

Lemma frame_step (f : AppFrameWork A -> AppFrameWork A) p :
  Launch.frame f p
  = Ok (tt, Launch.set_world (set_rest (f (rest (Launch.world p))) (Launch.world p)) p).
Proof using. done. Qed.

Lemma release_step held clear drop p :
  exists p', Launch.release held clear drop p = Ok (tt, p') /\
    heap (Launch.world p') = heap (Launch.world p).
Proof using.
  unfold Launch.release. rewrite (bind_step (Launch.get_frame handles) _ p
    (handles (rest (Launch.world p))) p) by (by destruct p as [[]]).
  destruct (held _); by eexists.
Qed.

Lemma get_base_step p :
  Launch.get_frame event_base_ p = Ok (event_base_ (rest (Launch.world p)), p).
Proof using. by destruct p as [[]]. Qed.

(** [CleanUp] deletes every connection and bufferevent once; contexts it does not know. *)
Lemma CleanUp_frees room p :
  wired room (Launch.world p) ->
  exists p', Launch.CleanUp p = Ok (0, p') /\
    nets (heap (Launch.world p')) = ∅ /\ bevs (heap (Launch.world p')) = ∅ /\
    uctxs (heap (Launch.world p')) = uctxs (heap (Launch.world p)).
Proof using.
  intros Hw. unfold Launch.CleanUp. do 2 rewrite (bind_step _ _ _ _ _ (frame_step _ _)).
  set (p2 := Launch.set_world _ _).
  assert (Hw2 : wired room (Launch.world p2)) by (destruct Hw; by split).
  assert (Eu2 : uctxs (heap (Launch.world p2)) = uctxs (heap (Launch.world p))) by done.
  rewrite <- Eu2. clearbody p2. clear Hw Eu2 p. rename p2 into p, Hw2 into Hw.
  set (w3 := set_rest (set_timer_mgr (set_list [] (timer_mgr_ (rest (Launch.world p))))
    (rest (Launch.world p))) (Launch.world p)).
  rewrite (bind_step _ _ p tt (Launch.set_world w3 p)).
  2: { apply Launch.on_world_step. unfold on_timers, TimerMgr_CleanUp, mbind, M_bind, gets.
       by rewrite (wi_timers _ _ Hw). }
  destruct (NetHandlerMgr_CleanUp_ok (heap w3) (back w3) (handler_pool_ (front w3)))
    as (h4 & m4 & Hrun4 & Ho4 & Eu4); [by eapply owned_tables, Hw|].
  set (w4 := set_rest (set_backend m4 (rest w3)) (set_heap h4 w3)).
  rewrite (bind_step _ _ _ tt (Launch.set_world w4 (Launch.set_world w3 p))).
  2: { apply Launch.on_world_step. cbn [Launch.world Launch.set_world].
       by erewrite on_backend_ok by exact Hrun4. }
  destruct (NetHandlerMgr_CleanUp_ok (heap w4) (front w4) [])
    as (h5 & m5 & Hrun5 & Ho5 & Eu5); [by rewrite app_nil_r|].
  set (w5 := set_rest (set_frontend m5 (rest w4)) (set_heap h5 w4)).
  rewrite (bind_step _ _ _ tt (Launch.set_world w5 (Launch.set_world w4 p))).
  2: { apply (Launch.on_world_step _ (Launch.set_world w4 p)). cbn [Launch.world Launch.set_world].
       by erewrite on_frontend_ok by exact Hrun5. }
  destruct (release_step listener_ (Launch.set_listener_handle false) (Launch.listeners_by (-1))
    (Launch.set_world w5 p)) as (p6 & E6 & Hh6). rewrite (bind_step _ _ _ _ _ E6).
  destruct (release_step udp_ctrl_keeper_ (Launch.set_keeper_handle false)
    (fun l => Launch.ctrl_fds_by (-1) (Launch.bevs_by (-1) l)) p6)
    as (p7 & E7 & Hh7). rewrite (bind_step _ _ _ _ _ E7).
  destruct (release_step internal_timer_ (Launch.set_timer_handle false) (Launch.events_by (-1)) p7)
    as (p8 & E8 & Hh8). rewrite (bind_step _ _ _ _ _ E8).
  rewrite (bind_step _ _ _ _ _ (get_base_step p8)).
  assert (Eh : heap (Launch.world p8) = h5) by (by rewrite Hh8, Hh7, Hh6).
  destruct (owned_nothing h5 Ho5) as [En Eb]. rewrite <- Eh in En, Eb, Eu5.
  destruct (event_base_ _); (eexists; split; [done|]; split; [exact En|]; split; [exact Eb|]);
    exact (eq_trans Eu5 Eu4).
Qed.
End Shutdown.

(** ** Start-up *)

Section Startup.
Context {P : Protobuf} {C A : Type} {E : NetEnv C} {F : FrameEnv} {RA : RapidApp (App P C A)}.
Context {Sys : System} (_DEBUG : bool).
Implicit Types (p q : Process C A) (w : App P C A) (m : M (Process C A) Z).

(** A call that succeeds exactly when [g], and then leaves a process with [Q]. *)
Definition tries m p (g : bool) (Q : Process C A -> Prop) : Prop :=
  exists p', m p = Ok (if g then 0 else -1, p') /\ (g = true -> Q p').

(** A start that comes to its end exactly when [g], and then leaves this memory. *)
Definition comes_to (k : M (Process C A) (option Z)) p (g : bool) w : Prop :=
  exists r p', k p = Ok (r, p') /\ (r = Some 0 <-> g = true) /\ (r = Some 0 -> Launch.world p' = w).

Lemma tries_at m p g g' Q : tries m p g Q -> g = g' -> tries m p g' Q.
Proof using. by intros ? ->. Qed.

Lemma then_comes m k p g h Q w :
  tries m p g Q -> (forall q, Q q -> comes_to k q h w) -> comes_to (Launch.then_ m k) p (g && h) w.
Proof using.
  intros (q & Hm & Hq) Hk. unfold comes_to, Launch.then_. rewrite (bind_step _ _ _ _ _ Hm).
  destruct g; cbn [andb]; [by apply Hk, Hq|]. by exists (Some (-1)), q.
Qed.

Lemma step_comes {X} (m : M (Process C A) X) (k : X -> M (Process C A) (option Z)) p x q g w :
  m p = Ok (x, q) -> comes_to (k x) q g w -> comes_to (m ≫= k) p g w.
Proof using. intros Hm Hk. unfold comes_to. by rewrite (bind_step _ _ _ _ _ Hm). Qed.

Lemma guard_comes (b : bool) k p g w :
  (b = true -> comes_to k p g w) ->
  comes_to (if negb b then mret (Some (-1)) else k) p (b && g) w.
Proof using. destruct b; cbn; [auto|]. intros _. by exists (Some (-1)), p. Qed.

Definition upd_rest (f : AppFrameWork A -> AppFrameWork A) w : App P C A := set_rest (f (rest w)) w.
Definition with_handles (f : Handles -> Handles) w : App P C A :=
  upd_rest (fun r => set_handles (f (handles r)) r) w.
Definition setting w : AppSetting := setting_ (rest w).

(** What the system must answer, step by step. *)
Definition grants_daemon (f : Flags) : bool :=
  negb (Launch.FLAGS_daemon f) ||
  (Launch.sys_fork 0 =? 0) && negb (-1 =? Launch.sys_setsid) && (Launch.sys_fork 1 =? 0).
Definition grants_conf (f : Flags) : bool :=
  (blen (Launch.FLAGS_cfg_file f) =? 0) || bool_decide (is_Some Launch.sys_conf).
Definition grants_file (name : bytes) : bool :=
  Launch.sys_fopen name && negb (-1 =? Launch.sys_cloexec name).
Definition grants_pid (st : AppSetting) (m : Machine) : bool :=
  grants_file (pid_file_name st) &&
  match Launch.locks m !! pid_file_name st with Some holder => holder =? Launch.sys_pid | None => true end.
Definition grants_limit (n : Z) : bool :=
  _DEBUG || (0 <? n) &&
  match Launch.sys_getrlimit with
  | Some cur => (n <=? i32 cur) || Launch.sys_setrlimit n
  | None => false
  end.
Definition grants_timer : bool := Launch.sys_event_new && Launch.sys_event_add.
Definition grants_ctrl (st : AppSetting) : bool :=
  (0 <=? Launch.sys_udp_socket) && Launch.sys_udp_bind (ctrl_port (ctrl_sock_file_name st)) &&
  Launch.sys_ctrl_bev && grants_file (ctrl_sock_file_name st).
Definition grants_listener (st : AppSetting) : bool :=
  match tcpsocket_str2sockin env_kernel (Some (listen_uri st)) with
  | Ok (Some sa) => Launch.sys_listen sa
  | _ => false
  end.

(** The service mode that the URI of the listener asks for. *)
Definition asks_rpc (uri : bytes) : bool :=
  match strchr uri Launch.SERVICE_MODE_SEPCHAR with
  | Some i => bool_decide (drop (i + 1) uri = Launch.SERVICE_MODE_RPC)
  | None => false
  end.

Lemma daemon_step f p :
  exists p', (if Launch.FLAGS_daemon f then Launch.MakeDaemon else mret true) p
    = Ok (grants_daemon f, p') /\ (grants_daemon f = true -> p' = p).
Proof using.
  unfold grants_daemon, Launch.MakeDaemon. destruct (Launch.FLAGS_daemon f); [|by exists p].
  destruct (Launch.sys_fork 0 =? 0); [|by eexists]. destruct (-1 =? Launch.sys_setsid); [by eexists|].
  destruct (Launch.sys_fork 1 =? 0); by eexists.
Qed.

Definition configured_world (f : Flags) w : App P C A :=
  if blen (Launch.FLAGS_cfg_file f) =? 0 then w
  else with_handles (Launch.set_cfg (default [] Launch.sys_conf)) w.

Lemma conf_tries f p :
  tries (Launch.GetConfString f) p (grants_conf f) (fun q =>
    Launch.world q = configured_world f (Launch.world p) /\ Launch.machine q = Launch.machine p).
Proof using.
  unfold tries, Launch.GetConfString, grants_conf, configured_world.
  destruct (blen _ =? 0); [by exists p|]. destruct Launch.sys_conf as [text|]; [|by exists p].
  by eexists.
Qed.

Lemma pid_tries p :
  tries Launch.SetPidFile p (grants_pid (setting (Launch.world p)) (Launch.machine p)) (fun q =>
    Launch.world q = Launch.world p).
Proof using.
  unfold tries, Launch.SetPidFile, grants_pid, grants_file, setting.
  rewrite (bind_step _ _ _ _ _ (Launch.get_setting_step pid_file_name p)). set (name := pid_file_name _).
  destruct (Launch.sys_fopen name); cbn [andb negb]; [|by exists p].
  rewrite (bind_step get _ p p p) by done. rewrite (bind_step (Launch.write_file _ _) _ p tt _) by done.
  destruct (-1 =? Launch.sys_cloexec name); cbn [andb negb]; [by eexists|].
  destruct (Launch.locks (Launch.machine p) !! name) as [h|]; [|by eexists].
  destruct (h =? Launch.sys_pid); by eexists.
Qed.

Lemma limit_tries n p :
  tries (if _DEBUG then mret 0 else Launch.SetResourceLimit n) p (grants_limit n) (fun q => q = p).
Proof using.
  unfold tries, grants_limit, Launch.SetResourceLimit. destruct _DEBUG; [by exists p|].
  destruct (Z.leb_spec n 0), (Z.ltb_spec 0 n); try lia; [by exists p|].
  destruct Launch.sys_getrlimit as [cur|]; [|by exists p].
  destruct (Z.ltb_spec (i32 cur) n), (Z.leb_spec n (i32 cur)); try lia; [|by exists p].
  destruct (Launch.sys_setrlimit n); by exists p.
Qed.

Lemma timer_tries p :
  tries Launch.SetFpsTimer p grants_timer (fun q => Launch.world q = Launch.world p).
Proof using.
  unfold tries, Launch.SetFpsTimer, grants_timer. destruct Launch.sys_event_new; cbn [negb andb]; [|by exists p].
  rewrite (bind_step (Launch.upd_live _) _ p tt _) by done.
  rewrite (bind_step _ _ _ _ _ (Launch.get_setting_step fps _)).
  rewrite (bind_step (Launch.upd_live _) _ _ tt _) by done.
  destruct Launch.sys_event_add; by eexists.
Qed.

Lemma ctrl_tries p :
  tries (Launch.SetCtrlSockFile _DEBUG) p (grants_ctrl (setting (Launch.world p))) (fun q =>
    Launch.world q = with_handles (Launch.set_keeper_handle true) (Launch.world p)).
Proof using.
  unfold tries, Launch.SetCtrlSockFile, grants_ctrl, grants_file, setting.
  rewrite (bind_step _ _ _ _ _ (Launch.get_setting_step ctrl_sock_file_name p)). cbv zeta.
  set (name := ctrl_sock_file_name _).
  destruct (Z.ltb_spec Launch.sys_udp_socket 0), (Z.leb_spec 0 Launch.sys_udp_socket); try lia;
    [by exists p|]. cbn [andb]. rewrite (bind_step (Launch.upd_live _) _ p tt _) by done.
  destruct (Launch.sys_udp_bind _); cbn [andb negb]; [|by eexists].
  destruct Launch.sys_ctrl_bev; cbn [andb negb]; [|by eexists].
  destruct (Launch.sys_fopen name); cbn [andb negb]; [|by eexists].
  destruct (-1 =? Launch.sys_cloexec name); by eexists.
Qed.

Definition listening w : App P C A :=
  let w1 := with_handles (Launch.set_listener_handle true) w in
  if asks_rpc (listen_uri (setting w)) then upd_rest (Launch.set_svc_mode SVC_MODE_RPC) w1 else w1.

Lemma listener_tries p :
  tries Launch.InitListenerServiceMode p (grants_listener (setting (Launch.world p))) (fun q =>
    Launch.world q = listening (Launch.world p)).
Proof using.
  unfold tries, Launch.InitListenerServiceMode, grants_listener, listening, asks_rpc, setting.
  rewrite (bind_step _ _ _ _ _ (Launch.get_setting_step listen_uri p)).
  set (uri := listen_uri _). destruct (tcpsocket_str2sockin_safe env_kernel uri) as [sa Esa].
  rewrite Esa. rewrite (bind_step _ _ p sa p).
  2: { unfold Launch.on_world, lift. by destruct p. }
  destruct sa as [sa|]; [|by exists p].
  destruct (Launch.sys_listen sa); [|by eexists]. cbn [negb].
  rewrite (bind_step (Launch.upd_handles _) _ p tt _) by done.
  rewrite (bind_step (Launch.upd_live _) _ _ tt _) by done.
  destruct (strchr uri _) as [i|]; [|by eexists].
  destruct (bool_decide _); by eexists.
Qed.

(** The table of a manager that has been initialised. *)
Definition initialised (max_msg : Z) (m : NetHandlerMgr) : NetHandlerMgr :=
  let n := u64 (2 * max_msg) in
  let n := if n =? 0 then kDefaultUpSize else n in
  set_cursor (pool_begin (handler_pool_ m))
    (set_recv {| buffer := Some (replicate (Z.to_nat n) 0); size := n |} m).

Lemma Init_mgr_tries ok max_msg (s : NetSt C) :
  exists s', NetHandlerMgr_Init ok (u64 (2 * max_msg)) s = Ok (if ok then 0 else -1, s') /\
    (ok = true -> s' = NetS (hp s) (initialised max_msg (mgr s))).
Proof using. destruct ok; by eexists. Qed.

Lemma front_tries p :
  tries (Launch.on_world (on_frontend (NetHandlerMgr_Init Launch.sys_front_buffer
      (u64 (2 * GetFrontEndMaxMsgSize))))) p Launch.sys_front_buffer (fun q =>
    Launch.world q = upd_rest (fun r => set_frontend
      (initialised GetFrontEndMaxMsgSize (frontend_handler_mgr_ r)) r) (Launch.world p)).
Proof using.
  set (w := Launch.world p).
  destruct (Init_mgr_tries Launch.sys_front_buffer GetFrontEndMaxMsgSize (NetS (heap w) (front w)))
    as (s' & Hrun & Hs).
  unfold tries. eexists. split.
  - apply Launch.on_world_step. fold w. by erewrite on_frontend_ok by exact Hrun.
  - intros Hok. rewrite (Hs Hok). by destruct w.
Qed.

Lemma back_tries p :
  tries (Launch.on_world (on_backend (NetHandlerMgr_Init Launch.sys_back_buffer
      (u64 (2 * GetBackEndMaxMsgSize))))) p Launch.sys_back_buffer (fun q =>
    Launch.world q = upd_rest (fun r => set_backend
      (initialised GetBackEndMaxMsgSize (backend_handler_mgr_ r)) r) (Launch.world p)).
Proof using.
  set (w := Launch.world p).
  destruct (Init_mgr_tries Launch.sys_back_buffer GetBackEndMaxMsgSize (NetS (heap w) (back w)))
    as (s' & Hrun & Hs).
  unfold tries. eexists. split.
  - apply Launch.on_world_step. fold w. by erewrite on_backend_ok by exact Hrun.
  - intros Hok. rewrite (Hs Hok). by destruct w.
Qed.

Lemma timers_tries n p :
  tries (Launch.on_world (on_timers (TimerMgr_Init n))) p true (fun q =>
    Launch.world q = upd_rest (fun r => set_timer_mgr
      {| max_timer_num_ := n; timer_list_ := timer_list_ (timer_mgr_ r);
         timers := timers (timer_mgr_ r) |} r) (Launch.world p)).
Proof using. by eexists. Qed.

(** Everything the system must answer for the start to succeed. *)
Definition grants_mode (f : Flags) (st : AppSetting) (m : Machine) : bool :=
  grants_daemon f && (grants_conf f && (grants_pid st m && (grants_limit Launch.DEFAULT_MAX_FD_LIMIT &&
  (Launch.sys_event_base && (grants_timer && (grants_ctrl st && (grants_listener st &&
  (Launch.sys_front_buffer && (Launch.sys_back_buffer && (Launch.sys_scheduler && true)))))))))).

(** The memory after a start that succeeded. *)
Definition started (f : Flags) w : App P C A :=
  let w1 := listening (with_handles (Launch.set_keeper_handle true)
              (upd_rest (Launch.set_event_base true) (configured_world f w))) in
  let w2 := upd_rest (fun r =>
    set_rpc_scheduler true (set_timer_mgr
      {| max_timer_num_ := DEFAULT_MAX_TIMER_NUM; timer_list_ := timer_list_ (timer_mgr_ r);
         timers := timers (timer_mgr_ r) |}
      (set_backend (initialised GetBackEndMaxMsgSize (backend_handler_mgr_ r))
        (set_frontend (initialised GetFrontEndMaxMsgSize (frontend_handler_mgr_ r)) r)))) w1 in
  upd_rest (set_now (clock (tick (heap w)))) (set_heap (set_tick (S (tick (heap w))) (heap w)) w2).

Lemma InitNormalMode_comes f p :
  comes_to (Launch.InitNormalMode _DEBUG f) p
    (grants_mode f (setting (Launch.world p)) (Launch.machine p)) (started f (Launch.world p)).
Proof using.
  set (w := Launch.world p). set (st := setting w).
  unfold Launch.InitNormalMode, grants_mode. destruct (daemon_step f p) as (p0 & Ed & Hd).
  eapply step_comes; [exact Ed|].
  destruct (grants_daemon f); cbn [negb andb]; [rewrite Hd by done|by exists None, p0].
  eapply then_comes; [apply conf_tries|]. intros q1 [E1 Em]. fold w in E1.
  assert (Est : setting (Launch.world q1) = st)
    by (rewrite E1; unfold configured_world; by destruct (_ =? 0)).
  eapply then_comes; [eapply tries_at; [apply pid_tries|by rewrite Est, Em]|]. intros q2 E2. rewrite E1 in E2.
  eapply step_comes; [done|]. eapply then_comes; [apply limit_tries|]. intros q3 ->.
  apply guard_comes. intros Hbase.
  eapply step_comes; [done|]. eapply step_comes; [done|].
  match goal with |- comes_to _ ?q _ _ => assert (E3 : Launch.world q
    = upd_rest (Launch.set_event_base true) (configured_world f w)) end.
  { cbn. by rewrite E2. }
  eapply then_comes; [apply timer_tries|]. intros q4 E4. rewrite E3 in E4. clear E3.
  eapply step_comes; [done|].
  match goal with |- comes_to _ ?q _ _ => assert (E5 : Launch.world q = Launch.world q4) by done end.
  rewrite E4 in E5. clear E4.
  set (w5 := upd_rest _ _) in E5.
  assert (Est5 : setting w5 = st) by (unfold w5, configured_world; by destruct (_ =? 0)).
  eapply then_comes.
  { eapply tries_at; [apply ctrl_tries|by rewrite E5, Est5]. }
  intros q6 E6. rewrite E5 in E6. set (w6 := with_handles _ _) in E6.
  eapply then_comes.
  { assert (Est6 : setting w6 = st) by exact Est5.
    eapply tries_at; [apply listener_tries|by rewrite E6, Est6]. }
  intros q7 E7. rewrite E6 in E7. set (w7 := listening w6) in E7.
  eapply then_comes; [apply front_tries|]. intros q8 E8. rewrite E7 in E8.
  eapply then_comes; [apply back_tries|]. intros q9 E9. rewrite E8 in E9.
  refine (then_comes _ _ _ true _ _ _ (timers_tries _ _) _). intros q10 E10. rewrite E9 in E10.
  eapply step_comes; [done|]. apply guard_comes. intros Hsch.
  eapply step_comes; [apply Launch.on_world_step, time_NULL_ok|].
  eapply step_comes; [done|].
  eexists _, _. split; [done|]. split; [done|]. intros _.
  cbn [Launch.world Launch.set_world]. rewrite Hsch, E10.
  assert (Hh : heap w7 = heap w).
  { unfold w7, listening, w6, w5, configured_world.
    by destruct (asks_rpc _), (_ =? 0). }
  unfold started. fold w5. fold w6. fold w7.
  unfold upd_rest; cbn. by rewrite Hh.
Qed.

(** A start from the command line, in the mode that starts a server. *)
Definition grants (f : Flags) (argv0 : bytes) p : bool :=
  Launch.accepted f argv0 && grants_mode f (Launch.settings_of f argv0) (Launch.machine p).

Lemma Init_comes argc argv0 f p :
  0 < argc -> Launch.mode_of f = APP_START ->
  comes_to (Launch.Init _DEBUG false argc argv0 f) p (grants f argv0 p)
    (started f (Launch.world (Launch.configured f argv0 p))).
Proof using.
  intros Ha Hm. unfold grants. destruct (Launch.accepted f argv0) eqn:Hacc; cbn [andb].
  - unfold comes_to. rewrite Launch.Init_accepted by done. rewrite Hm.
    exact (InitNormalMode_comes f (Launch.configured f argv0 p)).
  - destruct (Launch.ParseCmdLine_ok f argv0 (setting (Launch.world p))) as (st & Es & _).
    rewrite Hacc in Es. unfold comes_to, Launch.Init.
    rewrite (bind_step _ _ _ _ _ (frame_step _ _)).
    replace (0 <? argc) with true by lia. set (p1 := Launch.set_world _ p).
    rewrite (bind_step (assertb true) _ p1 tt p1) by done.
    rewrite (bind_step _ _ p1 (-1) (Launch.set_world (set_rest (set_setting st
      (rest (Launch.world p1))) (Launch.world p1)) p1)).
    + by eexists _, _.
    + unfold Launch.on_setting. change (setting_ _) with (setting (Launch.world p)). by rewrite Es.
Qed.
End Startup.

(** ** From the command line to the loop and back *)

(** The memory of a process that has made nothing yet, and a launcher's framework in it. *)
Record blank {P : Protobuf} {C A} (w : App P C A) : Prop := {
  blank_nets : nets (heap w) = ∅;
  blank_bevs : bevs (heap w) = ∅;
  blank_uctxs : uctxs (heap w) = ∅;
  blank_seed : 1 <= nid_seed (heap w)
}.

Definition renewed {P : Protobuf} {C A} (w : App P C A) : App P C A :=
  upd_rest (fun r => Launch.AppFrameWork_new (running_ r) (reloading_ r) (now_ r) (app r)) w.

(** What [OnInit] of an application may do to the framework: set its own state and register
    its services. *)
Record inits {A} (f : AppFrameWork A -> AppFrameWork A) : Prop := {
  in_app r : app_ (f r) = app_ r;
  in_base r : event_base_ (f r) = event_base_ r;
  in_handles r : handles (f r) = handles r;
  in_front r : frontend_handler_mgr_ (f r) = frontend_handler_mgr_ r;
  in_back r : backend_handler_mgr_ (f r) = backend_handler_mgr_ r;
  in_timers r : timer_mgr_ (f r) = timer_mgr_ r;
  in_mode r : svc_mode_ (f r) = svc_mode_ r
}.

Section Life.
Context {P : Protobuf} {C A : Type} {E : NetEnv C} {F : FrameEnv} {RA : RapidApp (App P C A)}.
Context {PE : Peers}.
Context {Sys : System} (_DEBUG : bool).
Context (f : Flags) (argv0 : bytes) (argc : Z).
Implicit Types (p q : Process C A) (w : App P C A).

(** The memory when the loop is entered. *)
Definition loop_world (init : AppFrameWork A -> AppFrameWork A) p : App P C A :=
  let p0 := Launch.set_world (renewed (Launch.world p)) p in
  upd_rest (fun r => set_run true (init r)) (started f (Launch.world (Launch.configured f argv0 p0))).

Lemma initialised_ok n m : buffer_ok (recv_buffer_ (initialised n m)).
Proof using.
  unfold initialised. set (size := if _ =? 0 then _ else _). cbn.
  exists (replicate (Z.to_nat size) 0). split; [done|]. cbn. unfold blen. rewrite length_replicate.
  assert (0 <= size); [|lia]. subst size. destruct (_ =? 0); [unfold kDefaultUpSize; lia|].
  unfold u64. apply Z.mod_pos_bound. lia.
Qed.

Lemma loop_world_ok room init p :
  blank (Launch.world p) -> inits init ->
  let w := loop_world init p in
  wired room w /\ running_ (rest w) = true /\ nets (heap w) = ∅ /\
  handler_pool_ (front w) = [] /\ listener_ (handles (rest w)) = true /\
  svc_mode_ (rest w) = (if asks_rpc (Launch.FLAGS_uri f) then SVC_MODE_RPC else SVC_MODE_NORMAL).
Proof using.
  intros [B1 B2 B3 B4] [I1 I2 I3 I4 I5 I6 I7] w.
  assert (Hh : nets (heap w) = ∅ /\ bevs (heap w) = ∅ /\ uctxs (heap w) = ∅ /\ 1 <= nid_seed (heap w)).
  { unfold w, loop_world, started, listening, configured_world.
    by destruct (asks_rpc _), (_ =? 0). }
  destruct Hh as (H1 & H2 & H3 & H4).
  assert (Hr : app_ (rest w) = true /\ event_base_ (rest w) = true /\
    timer_list_ (timer_mgr_ (rest w)) = [] /\ listener_ (handles (rest w)) = true /\
    front w = initialised GetFrontEndMaxMsgSize NetHandlerMgr_new /\
    back w = initialised GetBackEndMaxMsgSize NetHandlerMgr_new /\
    svc_mode_ (rest w) = (if asks_rpc (Launch.FLAGS_uri f) then SVC_MODE_RPC else SVC_MODE_NORMAL)).
  { unfold front, back, w, loop_world. cbn [rest upd_rest set_rest set_run app_ event_base_ handles
      frontend_handler_mgr_ backend_handler_mgr_ timer_mgr_ svc_mode_].
    rewrite I1, I2, I3, I4, I5, I6, I7. unfold started, listening.
    set (uri := listen_uri _). assert (uri = Launch.FLAGS_uri f) as -> by
      (unfold uri, configured_world; by destruct (_ =? 0)).
    unfold configured_world. by destruct (asks_rpc _), (_ =? 0). }
  destruct Hr as (R1 & R2 & R3 & R4 & R5 & R6 & R7).
  split; [|by rewrite R5].
  apply wired_start; rewrite ?R5, ?R6; try done; apply initialised_ok.
Qed.

Context (Hargc : 0 < argc) (Hmode : Launch.mode_of f = APP_START).

(** The launcher reaches the loop, with a base, a listener and a control socket. *)
Lemma Run_loop (OnInit : M (Process C A) Z) init p t :
  grants _DEBUG f argv0 p = true -> inits init ->
  (forall q, OnInit q = Ok (0, Launch.set_world (upd_rest init (Launch.world q)) q)) ->
  Launch.released t 0 p ->
  exists q, Launch.world q = loop_world init p /\ Launch.owns (t + 1) 0 true true true q /\
    forall dispatch OnFini,
      Launch.Run _DEBUG dispatch OnInit OnFini false false argc argv0 f p
      = (_ ← dispatch; _ ← OnFini; _ ← Launch.CleanUp; mret (Some 0)) q.
Proof using Hargc Hmode.
  intros Hg [_ I2 I3 _ _ _ _] Hinit (R1 & R2 & R3 & R4 & R5).
  set (p0 := Launch.set_world (renewed (Launch.world p)) p).
  assert (Ho : Launch.owns t 0 false false false p0) by (by constructor).
  destruct (Init_comes _DEBUG argc argv0 f p0 Hargc Hmode) as (r & p1 & Er & Hr & Hw).
  change (grants _ _ _ p0) with (grants _DEBUG f argv0 p) in Hr. apply Hr in Hg. subst r.
  specialize (Hw eq_refl).
  pose proof (Launch.Init_owns _DEBUG t 0 false argc argv0 f p0 _ p1 Ho Er) as Ho1.
  destruct Ho1 as [O1 O2 O3 O4 O5].
  set (p2 := Launch.set_world (upd_rest init (Launch.world p1)) p1).
  set (q := Launch.set_world (upd_rest (set_run true) (Launch.world p2)) p2).
  exists q. split; [|split].
  - cbn. by rewrite Hw.
  - constructor; cbn; rewrite ?I2, ?I3; done.
  - intros dispatch OnFini. unfold Launch.Run. replace (argc <=? 0) with false by lia. cbn [orb].
    rewrite (bind_step _ _ _ _ _ (frame_step _ _)). rewrite (bind_step _ _ _ _ _ Er).
    cbn [Z.eqb negb]. rewrite (bind_step _ _ _ _ _ (Hinit p1)). cbn [Z.eqb negb]. fold p2.
    assert (Hm : Launch.MainLoop _DEBUG dispatch p2 = dispatch q).
    { unfold Launch.MainLoop. rewrite (bind_step _ _ _ _ _ (get_base_step p2)).
      assert (event_base_ (rest (Launch.world p2)) = true) as -> by (cbn; by rewrite I2).
      rewrite (bind_step _ _ p2 tt p2) by (by destruct _DEBUG).
      by rewrite (bind_step _ _ _ _ _ (frame_step _ _)). }
    unfold mbind, M_bind. by rewrite Hm.
Qed.

(** After the loop everything is given back, but the contexts of the connections. *)
Lemma launch_life room (OnInit : M (Process C A) Z) init p t :
  grants _DEBUG f argv0 p = true -> inits init ->
  (forall q, OnInit q = Ok (0, Launch.set_world (upd_rest init (Launch.world q)) q)) ->
  Launch.released t 0 p ->
  exists q, Launch.world q = loop_world init p /\
    forall dispatch OnFini w', dispatch q = Ok (tt, Launch.set_world w' q) ->
      (forall q', OnFini q' = Ok (0, q')) ->
      wired room w' -> handles (rest w') = handles (rest (loop_world init p)) ->
      exists p', Launch.launch _DEBUG dispatch OnInit OnFini false false argc argv0 f p
        = Ok (Some 0, p') /\ Launch.released (t + 1) 0 p' /\
        nets (heap (Launch.world p')) = ∅ /\ bevs (heap (Launch.world p')) = ∅ /\
        uctxs (heap (Launch.world p')) = uctxs (heap w').
Proof using Hargc Hmode.
  intros Hg Hi Hinit Hrel. destruct (Run_loop OnInit init p t Hg Hi Hinit Hrel) as (q & Hq & Ho & Hrun).
  exists q. split; [done|]. intros dispatch OnFini w' Hd Hf Hw Hh.
  destruct (CleanUp_frees room (Launch.set_world w' q) Hw) as (p' & Hc & H1 & H2 & H3).
  exists p'.
  assert (Ho' : Launch.owns (t + 1) 0 true true true (Launch.set_world w' q)).
  { destruct Ho as [O1 O2 O3 O4 O5]. rewrite Hq in O2, O3, O4.
    constructor; cbn; rewrite ?Hh; try done. apply Hw. }
  destruct (Launch.CleanUp_owns (t + 1) 0 true true true _ _ _ Ho' Hc) as [Hr Hcl].
  split; [|split; [done|auto]]. unfold Launch.launch.
  rewrite (bind_step _ _ _ (Some 0) p').
  2: { rewrite Hrun, (bind_step _ _ _ _ _ Hd), (bind_step _ _ _ _ _ (Hf _)).
       by rewrite (bind_step _ _ _ _ _ Hc). }
  replace (argc <=? 0) with false by lia. cbn [orb].
  rewrite (bind_step _ _ p' tt p'); [done|]. unfold Launch.AppFrameWork_delete.
  rewrite (bind_step (Launch.get_frame handles) _ p' (handles (rest (Launch.world p'))) p')
    by (by destruct p' as [[]]).
  by rewrite Hcl.
Qed.
End Life.

(** ** Properties *)

(** [early_stop_lost].  A stop signal that comes before the main loop is taken back by it. *)
Theorem early_stop_lost {P : Protobuf} {C A} _DEBUG (dispatch : M (Process C A) unit) p :
  event_base_ (rest (Launch.world p)) = true ->
  (_ ← Launch.on_world signal_stop_handler; Launch.MainLoop _DEBUG dispatch) p
  = Launch.MainLoop _DEBUG dispatch p.
Proof.
  intros Hb. rewrite (bind_step _ _ p tt (Launch.set_world (upd_rest (set_run false)
    (Launch.world p)) p)) by done.
  unfold Launch.MainLoop.
  do 2 rewrite (bind_step _ _ _ _ _ (get_base_step _)). cbn [Launch.world Launch.set_world].
  change (event_base_ (rest (upd_rest _ _))) with (event_base_ (rest (Launch.world p))). rewrite Hb.
  do 2 (rewrite (bind_step (if _DEBUG then _ else _) _ _ tt _) by (by destruct _DEBUG)).
  by do 2 rewrite (bind_step _ _ _ _ _ (frame_step _ _)).
Qed.

(** C30: [server_start]. From the command line, in the mode that starts a server: whatever the
    system answers, the start comes to an end; it succeeds exactly when the arguments are
    accepted and every one of the answers [grants] names is good, whatever the others are; and
    then the framework is ready for its loop, with the settings of the command line, buffers
    for the messages, the mode the URI asks for and the state of the application as it was. *)
Theorem server_start {P : Protobuf} {C A} {E : NetEnv C} {F : FrameEnv} {RA : RapidApp (App P C A)}
    {PE : Peers} {Sys : System} _DEBUG f argv0 argc room (p : Process C A) :
  0 < argc -> Launch.mode_of f = APP_START -> blank (Launch.world p) ->
  let p0 := Launch.set_world (renewed (Launch.world p)) p in
  exists r p1, Launch.Init _DEBUG false argc argv0 f p0 = Ok (r, p1) /\
    (r = Some 0 <-> grants _DEBUG f argv0 p = true) /\
    (r = Some 0 -> let w := Launch.world p1 in
       wired room w /\ setting_ (rest w) = Launch.settings_of f argv0 /\
       svc_mode_ (rest w) = (if asks_rpc (Launch.FLAGS_uri f) then SVC_MODE_RPC else SVC_MODE_NORMAL) /\
       app (rest w) = app (rest (Launch.world p)) /\ rpc_svc_mgr_ (rest w) = None /\
       rpc_scheduler_ (rest w) = true).
Proof.
  intros Ha Hm Hbl p0. destruct (Init_comes _DEBUG argc argv0 f p0 Ha Hm) as (r & p1 & Er & Hr & Hw).
  exists r, p1. split; [exact Er|]. split; [exact Hr|]. intros ->. specialize (Hw eq_refl). cbv zeta.
  destruct (loop_world_ok f argv0 room id p Hbl ltac:(by split)) as (Hwired & _ & _ & _ & _ & Hmode).
  assert (Hout : forall w : App P C A, wired room (upd_rest (set_run true) w) -> wired room w)
    by (by intros w []; split).
  rewrite Hw. split; [exact (Hout _ Hwired)|].
  split; [|split; [exact Hmode|]].
  all: unfold started, listening, configured_world; by destruct (_ =? 0), (asks_rpc _).
Qed.

(** C6: [stop_ends_loop]. A stop signal ends the loop of a server whose application keeps to its
    contract: whatever [possible] events have come before the signal and come behind it, the
    next frame returns and breaks the loop, and [event_base_dispatch] makes no call after it.
    The events are any but those that crash the loop before the frame comes: a length of 1, 2
    or 3 in a stream ([short_frame]) and a rehash of the table of connections ([room],
    [rehash_then_walk]); and there are at most 2^31 - 2 connections. *)
Theorem stop_ends_loop {P : Protobuf} {R : RpcEnv P} {IS : IRpcService} {C A}
    {E : NetEnv C} {EOk : NetEnvOk E} {HO : HashOrder} {HOk : HashOrderOk HO}
    {F : FrameEnv} {FOk : FrameEnvOk F} {RA : RapidApp (App P C A)} {PE : Peers}
    calloc room {HR : HashRoom HO room} fuel J g es1 es2 (s s' : CoroutineScheduler (App P C A)) a a' :
  tame calloc room J -> (0 < fuel)%nat -> wired room (world s) -> J None g s ->
  traced None a g (world s) -> history calloc room fuel (es1 ++ StopSignal :: es2) s a s' a' ->
  (exists s2, runs calloc (deliver fuel Frame) s' Ret s2 /\ loopbreak (rest (world s2)) = true) /\
  forall es3 s2 a2, dispatches calloc room fuel (Frame :: es3) s' a' s2 a2 -> es3 = [].
Proof.
  intros Ht Hfuel Hw HJ Htr Hh. apply history_app in Hh as (s1 & a1 & H1 & H2).
  inversion H2 as [|? ? ? ? s0 ? ? _ Hsig H3]; subst.
  destruct (history_good calloc room fuel J Ht (es1 ++ [StopSignal]) s a s0
    (arrivals (world s1) StopSignal a1) Hfuel) as [g0 Hg0].
  { exists g. by split. }
  { apply history_app. exists s1, a1. split; [done|]. by eapply history_cons, history_nil. }
  assert (Htold : told_to_end (world s0)).
  { rewrite (runs_ret_det calloc _ _ _ _ Hsig (runs_act calloc _ _ _ _ _ eq_refl)). done. }
  destruct (history_told calloc room fuel J Ht Hfuel es2 s0 _ s' a' (ex_intro _ g0 Hg0) Htold H3)
    as [[g' Hg'] Hend].
  destruct (deliver_ends calloc room fuel J Ht Frame a' g' s' Hfuel Hg' I) as (g2 & s2 & Hrun & _).
  pose proof (frame_breaks calloc room fuel J Ht Hfuel a' g' s' s2 Hg' Hend Hrun) as Hb.
  split; [by exists s2|]. intros es3 s3 a3 Hd.
  inversion Hd as [|? ? ? ? s4 ? ? _ Hrun4 Hb4 _]; subst; [done|].
  rewrite (runs_ret_det calloc _ _ _ _ Hrun4 Hrun) in Hb4. unfold told_to_break in Hb. congruence.
Qed.

(** C5: [echo_process]. The echo server from its command line to its exit: when the system
    grants what the start needs and writes succeed, the launcher reaches the loop ready for
    clients; and whatever [possible] events come until the loop is told to end, each client
    has been sent back, in order, exactly what has been taken of what it has sent, without the
    empty messages, and the launcher returns 0 with every connection and bufferevent, the
    event base, the listener and the control socket given back, and nothing freed twice.  The
    events are any but a length of 1, 2 or 3 in a stream ([short_frame]), a rehash of the table
    of connections ([room], [rehash_then_walk]) and more than 2^31 - 2 connections. *)
Theorem echo_process {P : Protobuf} {R : RpcEnv P} {IS : IRpcService} {C}
    {E : NetEnv C} {EOk : NetEnvOk E} {HO : HashOrder} {HOk : HashOrderOk HO}
    {F : FrameEnv} {FOk : FrameEnvOk F} {PE : Peers} {Sys : System} calloc room
    {HR : HashRoom HO room} fuel
    _DEBUG f argv0 argc (p : Process C MyApp) t :
  0 < argc -> Launch.mode_of f = APP_START -> grants _DEBUG f argv0 p = true ->
  asks_rpc (Launch.FLAGS_uri f) = false -> blank (Launch.world p) -> Launch.released t 0 p ->
  writes_succeed E -> (0 < fuel)%nat ->
  exists q,
    Launch.world q
      = loop_world (RA := echo_app) f argv0 (set_app {| my_frame_stub_ := true |}) p /\
    wired room (Launch.world q) /\
    forall es s s' a' dispatch,
      world s = Launch.world q ->
      dispatches (RA := echo_app) calloc room fuel es s (fun _ => []) s' a' ->
      dispatch q = Ok (tt, Launch.set_world (world s') q) ->
      client_echoed a' (world s') /\
      exists p', Launch.launch (RA := echo_app) _DEBUG dispatch
          (Launch.on_world (MyApp_OnInit true)) (Launch.on_world MyApp_OnFini) false false argc argv0 f p
        = Ok (Some 0, p') /\ Launch.released (t + 1) 0 p' /\
        nets (heap (Launch.world p')) = ∅ /\ bevs (heap (Launch.world p')) = ∅.
Proof.
  intros Ha Hm Hg Hmode Hbl Hrel Hok Hfuel. set (init := set_app {| my_frame_stub_ := true |}).
  assert (Hi : inits init) by (by split).
  destruct (launch_life (RA := echo_app) _DEBUG f argv0 argc Ha Hm room
    (Launch.on_world (MyApp_OnInit true)) init p t Hg Hi) as (q & Hq & Hlife); [done|done|].
  destruct (loop_world_ok (RA := echo_app) f argv0 room init p Hbl Hi)
    as (Hw & _ & Hn & Hf & _ & Hsvc). rewrite <- Hq in *. rewrite Hmode in Hsvc.
  exists q. split; [done|]. split; [done|]. intros es s s' a' dispatch Hs Hd Hrun.
  rewrite <- Hs in Hw, Hn, Hf, Hsvc. apply dispatches_history in Hd as [Hh _].
  assert (Hgood : good room echo_ready (fun _ => []) [] s).
  { apply echo_begins; [done|by rewrite Hsvc|by rewrite Hs, Hq|done|..].
    - intros p0 n. by rewrite Hn, lookup_empty.
    - intros b x Hx. destruct (owner room (world s) b x Hw Hx) as (q0 & n & Hq0 & _).
      by rewrite Hn, lookup_empty in Hq0. }
  set (h0 := handles (rest (world s))).
  destruct (history_good calloc room fuel (also echo_ready (fun _ w => handles (rest w) = h0))
    (tame_also (RA := echo_app) calloc room echo_ready (echo_tame calloc room) _
      (fun _ _ w w' _ H H0 => eq_trans (en_handles _ _ H) H0)) es s (fun _ => []) s' a' Hfuel)
    as [g' [[Hw' [HJ Hh0]] Ht]]; [|done|].
  { exists []. by apply (good_also room echo_ready). }
  split; [by apply (echo_good room a' g')|].
  destruct (Hlife dispatch (Launch.on_world MyApp_OnFini) (world s') Hrun) as (p' & H1 & H2 & H3 & H4 & _);
    [by intros [[]]|done|by rewrite <- Hs|]. by exists p'.
Qed.

(** ** Concrete processes *)

#[local] Existing Instances easy_rpc_env calm_env front_order dotted_frame.
#[local] Existing Instances front_room dotted_frame_ok calm_env_ok anyone.

Section Replay.
Context {A : Type} {IS : IRpcService (P := plain_protobuf)} {RA : RapidApp (App plain_protobuf Z A)}.
Implicit Types (s : CoroutineScheduler (App plain_protobuf Z A)).

(** A call of libevent that returns. *)
Definition returns s (e : event) : bool :=
  match run any_calloc 200 (Thread BMain (PCode (deliver 1 e))) s with
  | Ok (None, _) => true
  | _ => false
  end.

Lemma returns_runs s a e :
  returns s e = true -> runs any_calloc (deliver 1 e) s Ret (fst (after (s, a) e)).
Proof using.
  unfold returns, after. cbn [fst]. destruct (run _ _ _ s) as [[[t|] s']|] eqn:Er; [done| |done].
  intros _. by apply (runs_finished _ 200).
Qed.

(** An event without bytes that may come now, and the call that returns. *)
Definition comes_now s (e : event) : bool :=
  match e with
  | Accepted sock _ =>
      bool_decide (map_Forall (fun _ y => bev_fd y <> sock) (bevs (heap (world s)))) &&
      (sock <? 2147483648) && (nid_seed (heap (world s)) <? 2147483647) &&
      (length (handler_pool_ (front (world s))) <? 8)%nat
  | Arrived _ _ => false
  | Happened b _ => bool_decide (is_Some (bevs (heap (world s)) !! b))
  | Frame | StopSignal | ReloadSignal => true
  end && returns s e.

Lemma comes_now_ok s a e :
  comes_now s e = true ->
  possible 8 (world s) e /\ runs any_calloc (deliver 1 e) s Ret (fst (after (s, a) e)).
Proof using.
  unfold comes_now. intros [He Hr]%andb_true_iff. split; [|by apply returns_runs].
  destruct e as [sock addr|b data|b events| | |]; try done.
  - by apply (new_client (world s) sock addr).
  - split; [by apply bool_decide_eq_true in He|done].
Qed.

Lemma dispatch_next e es s a s' a' :
  comes_now s e && negb (loopbreak (rest (world (fst (after (s, a) e))))) = true ->
  dispatches any_calloc 8 1 es (fst (after (s, a) e)) (snd (after (s, a) e)) s' a' ->
  dispatches any_calloc 8 1 (e :: es) s a s' a'.
Proof using.
  intros [He Hb]%andb_true_iff. destruct (comes_now_ok s a e He) as [Hp Hr].
  apply dispatches_next; [done|done|]. by apply negb_true_iff.
Qed.

Lemma dispatch_last e s a :
  comes_now s e && loopbreak (rest (world (fst (after (s, a) e)))) = true ->
  dispatches any_calloc 8 1 [e] s a (fst (after (s, a) e)) (snd (after (s, a) e)).
Proof using.
  intros [He Hb]%andb_true_iff. destruct (comes_now_ok s a e He) as [Hp Hr].
  by apply dispatches_last.
Qed.
End Replay.

(** The echo server started on an empty machine. *)
Definition echo_flags : Flags := {|
  Launch.FLAGS_uri := bytes_of_string "tcp://127.0.0.1:8888"%string; Launch.FLAGS_log_file := [];
  Launch.FLAGS_fps := 1000; Launch.FLAGS_max_idle := -1; Launch.FLAGS_max_pkg_speed := -1;
  Launch.FLAGS_max_traffic_speed := -1; Launch.FLAGS_pid_file := []; Launch.FLAGS_ctrl_file := [];
  Launch.FLAGS_daemon := false; Launch.FLAGS_stop := false; Launch.FLAGS_restart := false;
  Launch.FLAGS_reload := false; Launch.FLAGS_cfg_file := [] |}.
Definition echo_fresh : Process Z MyApp :=
  {| Launch.world := ready_world SVC_MODE_NORMAL None {| my_frame_stub_ := false |};
     Launch.ctrl_dispatcher_ := Dispatcher_new; Launch.machine := Launch.empty_machine;
     Launch.live := Launch.no_live; Launch.handlers_set := false; Launch.exited := None |}.
#[local] Instance calm_system : System := Launch.quiet_system 815.

Lemma echo_fresh_blank : blank (Launch.world echo_fresh).
Proof. by split. Qed.

(** A machine that says yes starts the server; without a listener it does not start. *)
Definition deaf_system : System := {|
  Launch.sys_pid := 815; Launch.sys_fork _ := 0; Launch.sys_setsid := 815;
  Launch.sys_fopen _ := true; Launch.sys_cloexec _ := 0; Launch.sys_getrlimit := Some 65536;
  Launch.sys_setrlimit _ := true; Launch.sys_conf := Some []; Launch.sys_udp_socket := 5;
  Launch.sys_udp_bind _ := true; Launch.sys_event_base := true; Launch.sys_event_new := true;
  Launch.sys_event_add := true; Launch.sys_ctrl_bev := true; Launch.sys_listen _ := false;
  Launch.sys_front_buffer := true; Launch.sys_back_buffer := true; Launch.sys_scheduler := true |}.

Definition echo_start_process : Process Z MyApp :=
  Launch.set_world (renewed (Launch.world echo_fresh)) echo_fresh.

Lemma server_start_witness :
  (exists p1, Launch.Init (RA := echo_app) true false 1 Launch.app_name echo_flags echo_start_process
     = Ok (Some 0, p1) /\ wired 8 (Launch.world p1)) /\
  exists r p1, Launch.Init (RA := echo_app) (S := deaf_system) true false 1 Launch.app_name echo_flags
     echo_start_process = Ok (r, p1) /\ r <> Some 0.
Proof.
  split.
  - destruct (server_start (RA := echo_app) true echo_flags Launch.app_name 1 8 echo_fresh)
      as (r & p1 & Er & Hr & Hw); [lia|reflexivity|exact echo_fresh_blank|].
    assert (r = Some 0) as -> by (apply Hr; vm_compute; reflexivity).
    exists p1. split; [exact Er|]. apply (Hw eq_refl).
  - destruct (server_start (RA := echo_app) (Sys := deaf_system) true echo_flags Launch.app_name 1 8
      echo_fresh) as (r & p1 & Er & Hr & _); [lia|reflexivity|exact echo_fresh_blank|].
    exists r, p1. split; [exact Er|]. intros H%Hr. vm_compute in H. discriminate H.
Defined.

(** Two clients of which one goes, and the end. *)
Definition short_day : list event :=
  [Accepted 9 (16777343, 47138); Frame; Accepted 10 (16777343, 47139); Happened 0 BEV_EVENT_EOF;
   StopSignal; Happened 1 BEV_EVENT_TIMEOUT; Frame].
Definition echo_entered : CoroutineScheduler (App plain_protobuf Z MyApp) :=
  CoroutineScheduler_new 10 (loop_world (RA := echo_app) echo_flags Launch.app_name
    (set_app {| my_frame_stub_ := true |}) echo_fresh).
Definition evening : CoroutineScheduler (App plain_protobuf Z MyApp) * traffic :=
  fold_left (fun sa => after (IS := demo_services) (RA := echo_app) (fst sa, snd sa)) short_day
    (echo_entered, fun _ => []).

Lemma short_day_dispatched :
  dispatches (IS := demo_services) (RA := echo_app) any_calloc 8 1 short_day echo_entered (fun _ => [])
    (fst evening) (snd evening).
Proof.
  unfold evening, short_day. cbn [fold_left fst snd].
  do 6 (apply dispatch_next; [vm_compute; reflexivity|]).
  apply dispatch_last. vm_compute; reflexivity.
Qed.

(** The launcher returns 0 and has left nothing on the heap. *)
Lemma echo_process_witness :
  exists p', Launch.launch (RA := echo_app) true
      (fun q => Ok (tt, Launch.set_world (world (fst evening)) q))
      (Launch.on_world (MyApp_OnInit true)) (Launch.on_world MyApp_OnFini) false false 1 Launch.app_name
      echo_flags echo_fresh = Ok (Some 0, p') /\
    Launch.released 1 0 p' /\ nets (heap (Launch.world p')) = ∅ /\ bevs (heap (Launch.world p')) = ∅.
Proof.
  destruct (echo_process (IS := demo_services) (E := calm_env) any_calloc 8 1 true echo_flags
    Launch.app_name 1 echo_fresh 0) as (q & Eq & _ & H);
    [lia|reflexivity|vm_compute; reflexivity|vm_compute; reflexivity|exact echo_fresh_blank|
     repeat split|exact (fun _ _ _ => eq_refl)|exact (le_n 1)|].
  destruct (H short_day echo_entered (fst evening) (snd evening)
    (fun q => Ok (tt, Launch.set_world (world (fst evening)) q)) (eq_sym Eq) short_day_dispatched
    eq_refl) as [_ Hend]. exact Hend.
Defined.

(** The signal comes when two clients are served, and another one comes behind it. *)
Definition told_events : list event := two_clients ++ StopSignal :: [Accepted 11 (16777343, 47140)].
Definition echo_told : CoroutineScheduler (App plain_protobuf Z MyApp) * traffic :=
  fold_left (after (IS := demo_services) (RA := echo_app)) told_events (echo_start, fun _ => []).

Lemma told_history :
  history (IS := demo_services) (RA := echo_app) any_calloc 8 1 told_events echo_start (fun _ => [])
    (fst echo_told) (snd echo_told).
Proof.
  unfold echo_told, told_events, two_clients. cbn [fold_left app].
  comes. arrives [[65; 66; 67]]. comes. arrives [[1]; []; []].
  arrives [[65; 66; 67]; []]. do 2 happens. comes. apply history_nil.
Qed.

Lemma stop_ends_loop_witness :
  loopbreak (rest (world (fst echo_told))) = false /\
  exists s, runs any_calloc (deliver (IS := demo_services) (RA := echo_app) 1 Frame) (fst echo_told) Ret s /\
    loopbreak (rest (world s)) = true.
Proof.
  split; [vm_compute; reflexivity|].
  assert (HJ : echo_ready (E := calm_env) None [] echo_start).
  { split; [done|]. split; [done|]. split; [by intros q m [=]|].
    intros _ q m c y [fd Hin]. by apply not_elem_of_nil in Hin. }
  exact (proj1 (stop_ends_loop (IS := demo_services) (RA := echo_app) (E := calm_env) any_calloc 8 1
    echo_ready [] two_clients [Accepted 11 (16777343, 47140)] echo_start (fst echo_told)
    (fun _ => []) (snd echo_told) (echo_tame any_calloc 8) (le_n 1) (wired_ready _ _ _) HJ
    (traced_ready _ _ _ _ _) told_history)).
Defined.
