(* ===== verification/Connector.v ===== *)
(** * The connector server: server/connector/connector_session.*, connector_app.*,
    client.proto and server.proto

    The application that sits between clients and back ends.  A session lives in the
    user context of the connection of its client; it is driven through a handshake
    and then passes data on in both directions. *)
From Stdlib Require Import ZArith Lia.
From stdpp Require Import base list gmap fin_maps strings.
From S2P Require Import Prelude CLib TcpSocket Timer Coroutine EasyNet NetMgr Tables RpcMsg EasyRpc.
From S2P Require Import Framework.
Local Open Scope Z_scope.

(** ** Messages *)

(** The messages between client and connector and between connector and back end. *)
Module CS.

(** [connector_client], src/server/connector/client.proto:5-17 *)
Definition MAGIC_CS_V1 : Z := 13124.  (* 0x3344 *)
Definition SYN : Z := 1.
Definition SYNACK : Z := 2.
Definition AUTHENTICATION : Z := 3.
Definition PASSPORT : Z := 4.
Definition START_APP : Z := 5.
Definition DATA_TRANSPARENT : Z := 16.
Definition ERROR : Z := 100.

(** [CSHead], src/server/connector/client.proto:19-24 *)
Record CSHead : Set := { magic : Z; sequence : Z; bodyid : Z }.

(** [CSBody], src/server/connector/client.proto:26-68

    With the fields of the messages it is made of: [appid] and [openid], [secretkey],
    [token], [passport], [code], and [code] and [desc]. *)
Record CSBody : Set := {
  syn : option (bytes * bytes);
  ack : option bytes;
  auth : option bytes;
  passport : option (option Z);
  start : option (option Z);
  data : option bytes;
  error : option (Z * bytes)
}.

(** [CSMsg], src/server/connector/client.proto:70-73 *)
Record CSMsg : Set := { head : CSHead; body : CSBody }.
End CS.

Module SS.

(** [connector_server], src/server/connector/server.proto:3-13 *)
Definition SYN : Z := 1.
Definition ACK : Z := 2.
Definition RSM : Z := 3.
Definition FIN : Z := 4.
Definition DATA : Z := 5.
Definition MAGIC_SS_V1 : Z := 13379.  (* 0x3443 *)

(** [SSHead], src/server/connector/server.proto:15-26 *)
Record SSHead : Set := {
  magic : Z; sequence : Z; bodyid : Z; fd : Z; nid : Z; sid : Z
}.

(** [SSBody], src/server/connector/server.proto:28-56

    Each part holds one optional field. *)
Record SSBody : Set := {
  data : option (option bytes);
  syn : option (option Z);
  ack : option (option Z);
  rsm : option (option Z);
  fin : option (option Z)
}.

(** [SSMsg], src/server/connector/server.proto:58-61 *)
Record SSMsg : Set := { head : SSHead; body : SSBody }.
End SS.

(** The generated serializers and parsers.  A parser leaves a message even when it
    fails. *)
Class ConnectorProto : Type := {
  cs_SerializeToString : CS.CSMsg -> bytes;
  cs_ParseFromArray : bytes -> bool * CS.CSMsg;
  ss_SerializeToString : SS.SSMsg -> bytes;
  ss_ParseFromArray : bytes -> bool * SS.SSMsg
}.

(** What a message serializes to is not empty. *)
Class ConnectorProtoOk (K : ConnectorProto) : Prop := {
  cs_nonempty m : cs_SerializeToString m <> [];
  ss_nonempty m : ss_SerializeToString m <> []
}.

(** The ids in what a parser leaves have the widths of their fields, server.proto. *)
Class ConnectorProtoWidth (K : ConnectorProto) : Prop := {
  ss_fd_width msg : 0 <= SS.fd (SS.head (snd (ss_ParseFromArray msg))) < 4294967296;
  ss_nid_width msg : 0 <= SS.nid (SS.head (snd (ss_ParseFromArray msg))) < 18446744073709551616
}.

(** The configuration file: the answers of stdio, its text, and the URIs of the back ends in
    what the parser of protobuf makes of a text. *)
Class ConfigFile : Type := {
  conf_fopen : bool;
  conf_fseek : bool;
  conf_calloc : bool;
  conf_ferror : bool;
  conf_text : bytes;
  conf_backends : bytes -> list bytes
}.

(** The bytes of [body().data()], of none when there are no data. *)
Definition cs_data (m : CS.CSMsg) : bytes := default [] (CS.data (CS.body m)).
Definition ss_data (m : SS.SSMsg) : bytes := default [] (mjoin (SS.data (SS.body m))).

(** The bodies the connector makes. *)
Definition cs_body (ack : option bytes) (passport start : option (option Z))
    (data : option bytes) : CS.CSBody :=
  {| CS.syn := None; CS.ack := ack; CS.auth := None; CS.passport := passport;
     CS.start := start; CS.data := data; CS.error := None |}.
Definition ss_body (data : option (option bytes)) (syn fin : option (option Z)) : SS.SSBody :=
  {| SS.data := data; SS.syn := syn; SS.ack := None; SS.rsm := None; SS.fin := fin |}.

(** ** State *)

(** [SessionState], src/server/connector/connector_session.h:11-17 *)
Inductive SessionState : Set :=
  | STATE_INIT | STATE_AUTH | STATE_SYNING | STATE_SYNACK | STATE_OK.
#[export] Instance SessionState_eq_dec : EqDecision SessionState.
Proof. solve_decision. Defined.

(** [ConnectorSession], src/server/connector/connector_session.h:95-102 *)
Record ConnectorSession : Set := {
  state_ : SessionState;
  net_stub_ : option Z;
  channel_id_ : Z;
  sid_ : Z;
  frame_stub_ : bool;
  last_seq_ : Z
}.

Definition set_state_ (x : SessionState) (s : ConnectorSession) : ConnectorSession :=
  {| state_ := x; net_stub_ := net_stub_ s; channel_id_ := channel_id_ s; sid_ := sid_ s;
     frame_stub_ := frame_stub_ s; last_seq_ := last_seq_ s |}.
Definition set_net_stub (x : option Z) (s : ConnectorSession) : ConnectorSession :=
  {| state_ := state_ s; net_stub_ := x; channel_id_ := channel_id_ s; sid_ := sid_ s;
     frame_stub_ := frame_stub_ s; last_seq_ := last_seq_ s |}.
(** [set_sid], src/server/connector/connector_session.h:65-67 *)
Definition set_sid (x : Z) (s : ConnectorSession) : ConnectorSession :=
  {| state_ := state_ s; net_stub_ := net_stub_ s; channel_id_ := channel_id_ s; sid_ := x;
     frame_stub_ := frame_stub_ s; last_seq_ := last_seq_ s |}.
Definition set_last_seq (x : Z) (s : ConnectorSession) : ConnectorSession :=
  {| state_ := state_ s; net_stub_ := net_stub_ s; channel_id_ := channel_id_ s;
     sid_ := sid_ s; frame_stub_ := frame_stub_ s; last_seq_ := x |}.

(** [ConnectorSession::ConnectorSession], src/server/connector/connector_session.cpp:22-24 *)
Definition ConnectorSession_new : ConnectorSession :=
  {| state_ := STATE_INIT; net_stub_ := None; channel_id_ := -1; sid_ := 4294967295;
     frame_stub_ := false; last_seq_ := 0 |}.

Definition kMaxBackEndNum : nat := 32.

(** [BackEndSet], src/server/connector/connector_session.h:28-36 *)
Record BackEndSet : Set := {
  backend_pos_ : Z;
  backend_used_ : Z;
  backends_ : list (option Z)
}.
Definition BackEndSet_new : BackEndSet :=
  {| backend_pos_ := 0; backend_used_ := 0; backends_ := replicate kMaxBackEndNum None |}.

(** [ConnectorApp], src/server/connector/connector_app.h:51-53

    With the static set of back ends. *)
Record ConnectorApp : Set := { app_frame_stub_ : bool; backend_set : BackEndSet }.

Section Sessions.
Context {P : Protobuf} {K : ConnectorProto} {E : NetEnv ConnectorSession}.
Abbreviation W := (App P ConnectorSession ConnectorApp).

Definition load_session (this : Z) : M W ConnectorSession := fun w =>
  match uctxs (heap w) !! this with Some s => Ok (s, w) | None => Fault UseAfterFree end.
Definition upd_session (this : Z) (f : ConnectorSession -> ConnectorSession) : M W unit :=
  s ← load_session this;
  on_net (modify (fun h => set_uctxs (<[this := f s]> (uctxs h)) h)).

Definition get_backends : M W BackEndSet := fw (fun f => backend_set (app f)).
Definition put_backends (b : BackEndSet) : M W unit :=
  upd_fw (fun f => set_app {| app_frame_stub_ := app_frame_stub_ (app f); backend_set := b |} f).

(** ** Back ends *)

(** [BackEndSet::AddBackEnd], src/server/connector/connector_session.cpp:11-20

    [None] is the undefined result of the missing return statement. *)
Definition AddBackEnd (net : option Z) : M W (option Z) :=
  b ← get_backends;
  if Z.of_nat kMaxBackEndNum <=? backend_used_ b then mret (Some (-1))
  else
    _ ← put_backends {| backend_pos_ := backend_pos_ b;
                        backend_used_ := u32 (backend_used_ b + 1);
                        backends_ := <[Z.to_nat (backend_used_ b) := net]> (backends_ b) |};
    mret None.

(** [ConnectorSession::SendDataToBackEnd], src/server/connector/connector_session.cpp:265-270

    The choice of a back end in turn, the same as at the beginning of
    [HandShake_StartSession]. *)
Definition next_backend : M W (option Z) :=
  b ← get_backends;
  let pos := if backend_used_ b <=? backend_pos_ b then 0 else backend_pos_ b in
  match backends_ b !! Z.to_nat pos with
  | None => fail OutOfBounds
  | Some back_net =>
      _ ← put_backends {| backend_pos_ := u32 (pos + 1); backend_used_ := backend_used_ b;
                          backends_ := backends_ b |};
      mret back_net
  end.

(** [GetNetIds] with the two results, which stay 0 when it fails. *)
Definition net_ids (net : option Z) : M W (Z * Z) :=
  '(_, ids) ← GetNetIds net; mret (default (0, 0) ids).

Definition cs_msg (sequence bodyid : Z) (b : CS.CSBody) : CS.CSMsg :=
  {| CS.head := {| CS.magic := CS.MAGIC_CS_V1; CS.sequence := sequence; CS.bodyid := bodyid |};
     CS.body := b |}.
Definition ss_msg (sequence bodyid : Z) (ids : Z * Z) (sid : Z) (b : SS.SSBody) : SS.SSMsg :=
  {| SS.head := {| SS.magic := SS.MAGIC_SS_V1; SS.sequence := sequence; SS.bodyid := bodyid;
                   SS.fd := fst ids; SS.nid := snd ids; SS.sid := sid |};
     SS.body := b |}.

(** The messages of the session; the sequence goes through a [uint64_t]. *)
Definition msg_synack : CS.CSMsg :=
  cs_msg 1 CS.SYNACK (cs_body (Some (bytes_of_string "test secret key"%string)) None None None).
Definition msg_passport : CS.CSMsg :=
  cs_msg 1 CS.PASSPORT (cs_body None (Some (Some 102030)) None None).
Definition msg_start : CS.CSMsg :=
  cs_msg 1 CS.START_APP (cs_body None None (Some (Some 0)) None).
Definition msg_down (sequence : Z) (data : bytes) : CS.CSMsg :=
  cs_msg (i64 (u64 sequence)) CS.DATA_TRANSPARENT (cs_body None None None (Some data)).
Definition msg_syn (ids : Z * Z) (sid : Z) : SS.SSMsg :=
  ss_msg 1 SS.SYN ids sid (ss_body None (Some (Some 0)) None).
Definition msg_fin (ids : Z * Z) (sid : Z) : SS.SSMsg :=
  ss_msg 1 SS.FIN ids sid (ss_body None None (Some (Some 0))).
Definition msg_up (sequence : Z) (ids : Z * Z) (sid : Z) (data : bytes) : SS.SSMsg :=
  ss_msg (i64 (u64 sequence)) SS.DATA ids sid (ss_body (Some (Some data)) None None).

(** [ConnectorSession::SendDataToBackEnd], src/server/connector/connector_session.cpp:263-282 *)
Definition SendDataToBackEnd (this : Z) (data : bytes) : M W Z :=
  back_net ← next_backend;
  s ← load_session this;
  _ ← assertb (frame_stub_ s);
  ret ← SendToBackEnd back_net (Some data);
  if negb (ret =? 0) then
    p ← nonnull back_net; _ ← log_net p; mret (-1)
  else mret 0.

(** ** Methods of the session; [this] is the address of the context *)

(** [ConnectorSession::Init], src/server/connector/connector_session.cpp:31-42 *)
Definition Session_Init (this : Z) (net : option Z) (app_framework : bool) : M W Z :=
  if bool_decide (net = None) || negb app_framework then mret (-1)
  else
    _ ← upd_session this (fun s => {| state_ := STATE_INIT; net_stub_ := net;
           channel_id_ := channel_id_ s; sid_ := sid_ s; frame_stub_ := true;
           last_seq_ := last_seq_ s |});
    mret 0.

(** [ConnectorSession::CleanUp], src/server/connector/connector_session.cpp:44-47 *)
Definition Session_CleanUp (this : Z) : M W unit := upd_session this (set_state_ STATE_INIT).

(** [DestroyFrontEnd(&net_stub_)]: the pointer that is set to NULL is in the session. *)
Definition destroy_stub (this : Z) : M W unit :=
  s ← load_session this;
  match net_stub_ s with
  | None => mret tt
  | Some _ => _ ← DestroyFrontEnd (net_stub_ s); upd_session this (set_net_stub None)
  end.

(** [ConnectorSession::SerializeAndSendToFrontEnd], src/server/connector/connector_session.cpp:157-174 *)
Definition SerializeAndSendToFrontEnd (this : Z) (msg : CS.CSMsg) : M W Z :=
  s ← load_session this;
  _ ← assertb (bool_decide (net_stub_ s <> None));
  _ ← assertb (frame_stub_ s);
  ret ← SendToFrontEnd (net_stub_ s) (Some (cs_SerializeToString msg));
  if negb (ret =? 0) then _ ← destroy_stub this; mret (-1) else mret 0.

(** [ConnectorSession::StartToBackEnd], src/server/connector/connector_session.cpp:176-219 *)
Definition StartToBackEnd (this : Z) (back_net : option Z) : M W Z :=
  s ← load_session this;
  if negb (frame_stub_ s) then mret (-1)
  else
    match back_net with
    | None => mret (-1)
    | Some _ =>
        ids ← net_ids (net_stub_ s);
        ret ← SendToBackEnd back_net
                (Some (ss_SerializeToString (msg_syn ids (sid_ s))));
        if negb (ret =? 0) then p ← nonnull (net_stub_ s); _ ← log_net p; mret (-1)
        else mret 0
    end.

(** [ConnectorSession::StopToBackEnd], src/server/connector/connector_session.cpp:222-261 *)
Definition StopToBackEnd (this : Z) (back_net : option Z) : M W Z :=
  s ← load_session this;
  if negb (frame_stub_ s) then mret (-1)
  else
    match back_net with
    | None => mret (-1)
    | Some b =>
        ids ← net_ids (net_stub_ s);
        ret ← SendToBackEnd back_net
                (Some (ss_SerializeToString (msg_fin ids (sid_ s))));
        if negb (ret =? 0) then _ ← log_net b; mret (-1) else mret 0
    end.

(** [ConnectorSession::HandleKeyMaking], src/server/connector/connector_session.cpp:287-304 *)
Definition HandleKeyMaking (this : Z) : M W Z :=
  ret ← SerializeAndSendToFrontEnd this
          msg_synack;
  if negb (ret =? 0) then mret (-1)
  else _ ← upd_session this (set_state_ STATE_AUTH); mret 0.

(** [ConnectorSession::HandleAuthRequest], src/server/connector/connector_session.cpp:306-323 *)
Definition HandleAuthRequest (this : Z) : M W Z :=
  ret ← SerializeAndSendToFrontEnd this msg_passport;
  if negb (ret =? 0) then mret (-1)
  else _ ← upd_session this (set_state_ STATE_SYNING); mret 0.

(** [ConnectorSession::HandShake_StartSession], src/server/connector/connector_session.cpp:325-343 *)
Definition HandShake_StartSession (this : Z) : M W Z :=
  back_net ← next_backend;
  ret ← StartToBackEnd this back_net;
  if negb (ret =? 0) then mret (-1)
  else _ ← upd_session this (set_state_ STATE_SYNACK); mret 0.

(** [ConnectorSession::HandShake_OnStartAcked], src/server/connector/connector_session.cpp:345-362 *)
Definition HandShake_OnStartAcked (this : Z) : M W Z :=
  ret ← SerializeAndSendToFrontEnd this msg_start;
  if negb (ret =? 0) then mret (-1)
  else _ ← upd_session this (set_state_ STATE_OK); mret 0.

(** [ConnectorSession::HandShake_OnStopNotify], src/server/connector/connector_session.cpp:379-386 *)
Definition HandShake_OnStopNotify (this : Z) : M W Z :=
  s ← load_session this;
  _ ← assertb (frame_stub_ s && bool_decide (net_stub_ s <> None));
  p ← nonnull (net_stub_ s);
  _ ← log_net p;
  _ ← destroy_stub this;
  mret 0.

(** [ConnectorSession::DriveStateMachine], src/server/connector/connector_session.cpp:49-81 *)
Definition DriveStateMachine (this : Z) : M W Z :=
  s ← load_session this;
  match state_ s with
  | STATE_INIT => HandleKeyMaking this
  | STATE_AUTH => HandleAuthRequest this
  | STATE_SYNING => HandShake_StartSession this
  | STATE_SYNACK => HandShake_OnStartAcked this
  | STATE_OK => HandShake_OnStopNotify this
  end.

(** [ConnectorSession::ForwardUpSideMessage], src/server/connector/connector_session.cpp:84-104 *)
Definition ForwardUpSideMessage (this : Z) (sequence : Z) (data : bytes) : M W Z :=
  s ← load_session this;
  _ ← assertb (frame_stub_ s);
  ids ← net_ids (net_stub_ s);
  SendDataToBackEnd this
    (ss_SerializeToString (msg_up sequence ids (sid_ s) data)).

(** [ConnectorSession::ForwardDownSideMessage], src/server/connector/connector_session.cpp:107-136 *)
Definition ForwardDownSideMessage (this : Z) (sequence : Z) (msg : bytes) : M W Z :=
  match msg with
  | [] => mret (-1)
  | _ =>
      s ← load_session this;
      ret ← SendToFrontEnd (net_stub_ s)
              (Some (cs_SerializeToString
                       (msg_down sequence msg)));
      mret (if negb (ret =? 0) then -1 else 0)
  end.

(** [ConnectorSession::CheckUpSideMessage], src/server/connector/connector_session.cpp:138-155 *)
Definition CheckUpSideMessage (this : Z) (up_msg : CS.CSMsg) : M W Z :=
  if negb (CS.magic (CS.head up_msg) =? CS.MAGIC_CS_V1) then mret (-1)
  else
    s ← load_session this;
    if negb (last_seq_ s =? 0) &&
       negb (u64 (CS.sequence (CS.head up_msg)) =? u64 (last_seq_ s + 1)) then mret (-1)
    else
      _ ← upd_session this (set_last_seq (u64 (CS.sequence (CS.head up_msg))));
      mret 0.

(** [ConnectorSession::StopBackEndSession], src/server/connector/connector_session.cpp:364-377

    [last_backend] is always NULL. *)
Definition StopBackEndSession (this : Z) : M W Z :=
  let last_backend := None in
  match last_backend with
  | Some _ => StopToBackEnd this last_backend
  | None => mret 0
  end.

(** [ConnectorSession::SetChannelID], src/server/connector/connector_session.cpp:388-391 *)
Definition SetChannelID (this channel_id : Z) : M W unit :=
  upd_session this (fun s => {| state_ := state_ s; net_stub_ := net_stub_ s;
    channel_id_ := channel_id; sid_ := sid_ s; frame_stub_ := frame_stub_ s;
    last_seq_ := last_seq_ s |}).

(** ** Callbacks *)

(** [ConnectorApp::SetUpAndCheckConfig], src/server/connector/connector_app.cpp:34-85

    The result, and the URIs that are in [config_] then; what the parser says about the text
    is not looked at. *)
Definition SetUpAndCheckConfig {CF : ConfigFile} : Z * list bytes :=
  if negb conf_fopen then (-1, [])
  else if negb conf_fseek then (-1, [])
  else if negb conf_calloc then (-1, [])
  else if conf_ferror then (-1, [])
  else
    let backends := conf_backends conf_text in
    if (length backends <=? 0)%nat then (-1, backends) else (0, backends).

(** [ConnectorApp::OnInit], src/server/connector/connector_app.cpp:110-121

    The loop over the back ends; what [AddBackEnd] returns is not used. *)
Fixpoint create_backends {HO : HashOrder} (RA : RapidApp W) (uris : list bytes) : M W Z :=
  match uris with
  | [] => mret 0
  | uri :: r =>
      net ← CreateBackEnd (Some uri) 0;
      match net with
      | None => mret (-1)
      | Some _ => _ ← AddBackEnd net; create_backends RA r
      end
  end.

(** [ConnectorApp::OnInit], src/server/connector/connector_app.cpp:87-124 *)
Definition OnInit {HO : HashOrder} {CF : ConfigFile} (RA : RapidApp W) (app_framework : bool)
    : M W Z :=
  if negb app_framework then mret (-1)
  else
    _ ← upd_fw (fun f => set_app {| app_frame_stub_ := true; backend_set := backend_set (app f) |} f);
    let '(ret, uris) := SetUpAndCheckConfig in
    if negb (ret =? 0) then mret (-1) else create_backends RA uris.

(** [ConnectorApp::OnFrontEndConnect], src/server/connector/connector_app.cpp:157-190 *)
Definition Connector_OnFrontEndConnect (net : option Z) : M W Z :=
  stub ← fw (fun f => app_frame_stub_ (app f));
  match stub, net with
  | true, Some p =>
      _ ← log_net p;
      uctx ← GetUserContext net;
      match uctx with
      | None => mret (-1)
      | Some c =>
          _ ← upd_session c (fun _ => ConnectorSession_new);
          ret ← Session_Init c net stub;
          mret (if negb (ret =? 0) then -1 else 0)
      end
  | _, _ => mret (-1)
  end.

(** [ConnectorApp::OnFrontEndClose], src/server/connector/connector_app.cpp:193-217 *)
Definition Connector_OnFrontEndClose (net : option Z) : M W Z :=
  stub ← fw (fun f => app_frame_stub_ (app f));
  match stub, net with
  | true, Some p =>
      _ ← log_net p;
      uctx ← GetUserContext net;
      match uctx with
      | None => mret (-1)
      | Some c => _ ← StopBackEndSession c; _ ← Session_CleanUp c; mret 0
      end
  | _, _ => mret (-1)
  end.

(** [ConnectorApp::OnRecvFrontEnd], src/server/connector/connector_app.cpp:219-284

    [None] is the undefined result of a handshake message that is handled: this path
    has no return statement. *)
Definition Connector_OnRecvFrontEnd (net : option Z) (msg : bytes) : M W (option Z) :=
  stub ← fw (fun f => app_frame_stub_ (app f));
  if negb stub then mret (Some (-1))
  else
    uctx ← GetUserContext net;
    match uctx with
    | None => mret (Some (-1))
    | Some session =>
        let up_msg := snd (cs_ParseFromArray msg) in
        r ← CheckUpSideMessage session up_msg;
        if negb (r =? 0) then mret (Some (-1))
        else
          s ← load_session session;
          if negb (bool_decide (state_ s = STATE_OK)) then
            r ← DriveStateMachine session;
            if r <? 0 then _ ← DestroyFrontEnd net; mret (Some (-1))
            else
              s ← load_session session;
              if bool_decide (state_ s = STATE_SYNING) then
                r ← DriveStateMachine session;
                if r <? 0 then _ ← DestroyFrontEnd net; mret (Some (-1)) else mret None
              else mret None
          else if negb (CS.bodyid (CS.head up_msg) =? CS.DATA_TRANSPARENT) then mret (Some (-1))
          else
            r ← ForwardUpSideMessage session (CS.sequence (CS.head up_msg)) (cs_data up_msg);
            mret (Some r)
    end.

(** [ConnectorApp::OnRecvBackEnd], src/server/connector/connector_app.cpp:314-360

    The part behind the lookup of the session.  [_DEBUG] tells whether the macro is
    defined, as it is in a build without options. *)
Definition OnRecvBackEnd_session (_DEBUG : bool) (front_net : option Z) (session : Z)
    (down_msg : SS.SSMsg) : M W Z :=
  s ← load_session session;
  if negb (SS.bodyid (SS.head down_msg) =? SS.DATA) then
    if negb (SS.bodyid (SS.head down_msg) =? SS.FIN) && bool_decide (state_ s = STATE_OK)
    then mret 0
    else
      r ← DriveStateMachine session;
      if r <? 0 then _ ← DestroyFrontEnd front_net; mret (-1)
      else _ ← upd_session session (set_sid (SS.sid (SS.head down_msg))); mret 0
  else if negb _DEBUG && negb (bool_decide (state_ s = STATE_OK)) then
    _ ← DestroyFrontEnd front_net; mret (-1)
  else if negb _DEBUG && negb (sid_ s =? SS.sid (SS.head down_msg)) then
    _ ← DestroyFrontEnd front_net; mret (-1)
  else ForwardDownSideMessage session (SS.sequence (SS.head down_msg)) (ss_data down_msg).

(** [ConnectorApp::OnRecvBackEnd], src/server/connector/connector_app.cpp:286-361 *)
Definition Connector_OnRecvBackEnd (_DEBUG : bool) (net : option Z) (msg : bytes) : M W Z :=
  stub ← fw (fun f => app_frame_stub_ (app f));
  _ ← assertb stub;
  let down_msg := snd (ss_ParseFromArray msg) in
  front_net ← GetFrontEndByAsyncIds (SS.fd (SS.head down_msg)) (SS.nid (SS.head down_msg));
  match front_net with
  | None => mret (-1)
  | Some _ =>
      uctx ← GetUserContext front_net;
      match uctx with
      | None => mret (-1)
      | Some session => OnRecvBackEnd_session _DEBUG front_net session down_msg
      end
  end.

End Sessions.

(** [RapidApp] of the connector, src/server/connector/connector_app.cpp:142-155

    The other callbacks do nothing; the sizes are those the program gives. *)
Definition connector_callbacks {P : Protobuf} {K : ConnectorProto} {E : NetEnv ConnectorSession}
    (_DEBUG : bool) (sizeof_ConnectorSession : Z)
    : RapidApp (App P ConnectorSession ConnectorApp) :=
  {| OnUpdate := fun k => k 0;
     OnReload := fun k => k 0;
     app_OnFrontEndConnect := fun p _ k => Act (Connector_OnFrontEndConnect (Some p)) k;
     app_OnFrontEndClose := fun p _ k => Act (Connector_OnFrontEndClose (Some p)) k;
     OnRecvFrontEnd := fun p _ msg k =>
       Act (Connector_OnRecvFrontEnd (Some p) msg) (fun r => k (default 0 r));
     OnRecvBackEnd := fun p _ msg k => Act (Connector_OnRecvBackEnd _DEBUG (Some p) msg) k;
     OnTimer := fun _ _ k => k 0;
     OnRpcCall := fun _ _ k => k;
     GetFrontEndContextSize := sizeof_ConnectorSession;
     GetBackEndContextSize := 0;
     GetFrontEndMaxMsgSize := 0;
     GetBackEndMaxMsgSize := 0 |}.

(** ** What the session promises

    The reaction of a session to a message, as a function: the value returned, the next
    state of the session, and what it sends. *)

Inductive out : Set :=
  | ToClient (m : CS.CSMsg)
  | ToBackEnd (m : SS.SSMsg).

(** A client message is in order when it follows the last one that was accepted; after
    0 every sequence number is in order. *)
Definition in_order (s : ConnectorSession) (m : CS.CSMsg) : bool :=
  (CS.magic (CS.head m) =? CS.MAGIC_CS_V1) &&
  ((last_seq_ s =? 0) || (u64 (CS.sequence (CS.head m)) =? u64 (last_seq_ s + 1))).

Definition note_seq (m : CS.CSMsg) : ConnectorSession -> ConnectorSession :=
  set_last_seq (u64 (CS.sequence (CS.head m))).

(** The step of the handshake in a state, for any message. *)
Definition handshake (ids : Z * Z) (s : ConnectorSession) : ConnectorSession * list out :=
  match state_ s with
  | STATE_INIT => (set_state_ STATE_AUTH s, [ToClient msg_synack])
  | STATE_AUTH => (set_state_ STATE_SYNING s, [ToClient msg_passport])
  | STATE_SYNING => (set_state_ STATE_SYNACK s, [ToBackEnd (msg_syn ids (sid_ s))])
  | STATE_SYNACK => (set_state_ STATE_OK s, [ToClient msg_start])
  | STATE_OK => (s, [])
  end.

(** A message of the client. *)
Definition up_step (ids : Z * Z) (s : ConnectorSession) (m : CS.CSMsg)
    : option Z * ConnectorSession * list out :=
  if negb (in_order s m) then (Some (-1), s, [])
  else
    let s := note_seq m s in
    match state_ s with
    | STATE_OK =>
        if CS.bodyid (CS.head m) =? CS.DATA_TRANSPARENT
        then (Some 0, s, [ToBackEnd (msg_up (CS.sequence (CS.head m)) ids (sid_ s) (cs_data m))])
        else (Some (-1), s, [])
    | _ =>
        let '(s1, o1) := handshake ids s in
        match state_ s1 with
        | STATE_SYNING => let '(s2, o2) := handshake ids s1 in (None, s2, o1 ++ o2)
        | _ => (None, s1, o1)
        end
    end.

(** A message of a back end: the reaction, or that the connection of the client is
    closed, or that the back end ends the session. *)
Inductive reaction : Set :=
  | Reacts (r : Z) (s : ConnectorSession) (o : list out)
  | Closes
  | Stops.

Definition down_step (_DEBUG : bool) (ids : Z * Z) (s : ConnectorSession) (m : SS.SSMsg)
    : reaction :=
  if negb (SS.bodyid (SS.head m) =? SS.DATA) then
    match state_ s with
    | STATE_OK => if SS.bodyid (SS.head m) =? SS.FIN then Stops else Reacts 0 s []
    | _ => let '(s1, o) := handshake ids s in Reacts 0 (set_sid (SS.sid (SS.head m)) s1) o
    end
  else if negb _DEBUG && (negb (bool_decide (state_ s = STATE_OK)) ||
                          negb (sid_ s =? SS.sid (SS.head m))) then Closes
  else
    match ss_data m with
    | [] => Reacts (-1) s []
    | d => Reacts 0 s [ToClient (msg_down (SS.sequence (SS.head m)) d)]
    end.

(** ** Delivery *)

Section Proofs.
Context {P : Protobuf} {K : ConnectorProto} {KOk : ConnectorProtoOk K}.
Context {E : NetEnv ConnectorSession}.
Context (HW : writes_succeed E).
Implicit Types (w : App P ConnectorSession ConnectorApp) (s : ConnectorSession).

(** A message queued on a connection. *)
Definition queue (p : Z) (msg : bytes) w : App P ConnectorSession ConnectorApp :=
  match nets (heap w) !! p with
  | None => w
  | Some n =>
      match hevent_ n with
      | None => w
      | Some b =>
          match bevs (heap w) !! b with
          | None => w
          | Some x => set_heap (queued b x msg (heap w)) w
          end
      end
  end.

Definition touch (p : Z) w : App P ConnectorSession ConnectorApp :=
  match nets (heap w) !! p with
  | None => w
  | Some n => set_heap (set_nets (<[p := set_active_time (now_ (rest w)) n]> (nets (heap w)))
                          (heap w)) w
  end.

Definition set_backends (b : BackEndSet) w : App P ConnectorSession ConnectorApp :=
  set_rest (set_app {| app_frame_stub_ := app_frame_stub_ (app (rest w)); backend_set := b |}
              (rest w)) w.
Definition put_session (c : Z) s w : App P ConnectorSession ConnectorApp :=
  set_heap (set_uctxs (<[c := s]> (uctxs (heap w))) (heap w)) w.

(** The back end whose turn it is, and the set afterwards. *)
Definition turn (b : BackEndSet) : Z :=
  if backend_used_ b <=? backend_pos_ b then 0 else backend_pos_ b.
Definition turned (b : BackEndSet) : BackEndSet :=
  {| backend_pos_ := u32 (turn b + 1); backend_used_ := backend_used_ b;
     backends_ := backends_ b |}.

Definition to_back (msg : bytes) w : App P ConnectorSession ConnectorApp :=
  let b := backend_set (app (rest w)) in
  match backends_ b !! Z.to_nat (turn b) with
  | Some (Some q) => touch q (queue q msg (set_backends (turned b) w))
  | _ => w
  end.

Definition deliver (p : Z) (o : out) w : App P ConnectorSession ConnectorApp :=
  match o with
  | ToClient m => queue p (cs_SerializeToString m) w
  | ToBackEnd m => to_back (ss_SerializeToString m) w
  end.
Definition deliver_all (p : Z) (os : list out) w : App P ConnectorSession ConnectorApp :=
  foldl (fun w o => deliver p o w) w os.

(** ** Working connections *)

(** An established connection. *)
Definition live w (q : Z) : Prop :=
  exists n b x, nets (heap w) !! q = Some n /\ hevent_ n = Some b /\ bevs (heap w) !! b = Some x /\
    EasyNet.state_ n = NET_ESTABLISHED.

(** The connection of a client in the table of front ends, with its context and the ids
    a back end knows it by. *)
Definition front w (p c : Z) (ids : Z * Z) : Prop :=
  exists n b x, nets (heap w) !! p = Some n /\ hevent_ n = Some b /\ bevs (heap w) !! b = Some x /\
    EasyNet.state_ n = NET_ESTABLISHED /\ user_context_ n = Some c /\
    ids = (u32 (bev_fd x), u64 (nid_ n)) /\
    pool_find (handler_pool_ (frontend_handler_mgr_ (rest w))) (i32 (fst ids)) = Some (Some p).

(** All back ends are established. *)
Definition backs w : Prop :=
  let b := backend_set (app (rest w)) in
  0 < backend_used_ b < 4294967296 /\ 0 <= backend_pos_ b /\
  forall i, 0 <= i < backend_used_ b ->
    exists q, backends_ b !! Z.to_nat i = Some (Some q) /\ live w q.

(** A client connection with its session. *)
Record session_at w (p c : Z) (ids : Z * Z) s : Prop := {
  sa_stub : app_frame_stub_ (app (rest w)) = true;
  sa_front : front w p c ids;
  sa_backs : backs w;
  sa_session : uctxs (heap w) !! c = Some s;
  sa_net : net_stub_ s = Some p;
  sa_frame : frame_stub_ s = true
}.
(** What later steps may rely on is kept by every step. *)
Record retains w w' : Prop := {
  ev_nets p n : nets (heap w) !! p = Some n ->
    exists n', nets (heap w') !! p = Some n' /\ same_identity n n' /\
      EasyNet.state_ n' = EasyNet.state_ n;
  ev_bevs b x : bevs (heap w) !! b = Some x ->
    exists x', bevs (heap w') !! b = Some x' /\ bev_fd x' = bev_fd x;
  ev_front : frontend_handler_mgr_ (rest w') = frontend_handler_mgr_ (rest w);
  ev_stub : app_frame_stub_ (app (rest w')) = app_frame_stub_ (app (rest w));
  ev_used : backend_used_ (backend_set (app (rest w'))) = backend_used_ (backend_set (app (rest w)));
  ev_backs : backends_ (backend_set (app (rest w'))) = backends_ (backend_set (app (rest w)));
  ev_pos : 0 <= backend_pos_ (backend_set (app (rest w))) ->
           0 <= backend_pos_ (backend_set (app (rest w')))
}.

Lemma retains_refl w : retains w w.
Proof using.
  split; try done; [intros p n H; by exists n|intros b x H; by exists x].
Qed.

Lemma retains_trans w1 w2 w3 : retains w1 w2 -> retains w2 w3 -> retains w1 w3.
Proof using.
  intros [A1 A2 A3 A4 A5 A6 A7] [B1 B2 B3 B4 B5 B6 B7]. split; try congruence; eauto.
  - intros p n (n2 & H2 & (I1 & I2 & I3) & S2)%A1. apply B1 in H2 as (n3 & H3 & (J1 & J2 & J3) & S3).
    exists n3. repeat split; congruence.
  - intros b x (x2 & H2 & S2)%A2. apply B2 in H2 as (x3 & H3 & S3). exists x3. split; congruence.
Qed.

Lemma queue_retains p msg w : retains w (queue p msg w).
Proof using.
  unfold queue. destruct (nets (heap w) !! p) as [n|]; [|apply retains_refl].
  destruct (hevent_ n) as [b|]; [|apply retains_refl].
  destruct (bevs (heap w) !! b) as [x|] eqn:Ex; [|apply retains_refl].
  split; cbn; try done; [intros q m Hq; by exists m|]. intros c y Hy. destruct (decide (c = b)) as [->|Hc].
  - rewrite lookup_insert_eq. rewrite Ex in Hy. injection Hy as <-. by eexists.
  - rewrite lookup_insert_ne by done. eauto.
Qed.

Lemma touch_retains p w : retains w (touch p w).
Proof using.
  unfold touch. destruct (nets (heap w) !! p) as [n|] eqn:En; [|apply retains_refl].
  split; cbn; try done; [|intros b x Hb; by exists x].
  intros q m Hq. destruct (decide (q = p)) as [->|Hc].
  - rewrite lookup_insert_eq. rewrite En in Hq. injection Hq as <-. by eexists.
  - rewrite lookup_insert_ne by done. exists m. done.
Qed.

Lemma turned_retains w : retains w (set_backends (turned (backend_set (app (rest w)))) w).
Proof using.
  split; cbn; try done; [intros q m Hq; by exists m|intros b x Hb; by exists x|].
  intros _. apply u32_range.
Qed.

Lemma put_session_retains c s w : retains w (put_session c s w).
Proof using.
  split; cbn; try done; [intros q m Hq; by exists m|intros b x Hb; by exists x].
Qed.

Lemma deliver_retains p o w : retains w (deliver p o w).
Proof using.
  destruct o as [m|m]; cbn; [apply queue_retains|]. unfold to_back.
  destruct (backends_ _ !! _) as [[q|]|]; try apply retains_refl.
  eapply retains_trans; [apply turned_retains|].
  eapply retains_trans; [apply queue_retains|apply touch_retains].
Qed.

Lemma live_retains w w' q : retains w w' -> live w q -> live w' q.
Proof using.
  intros He (n & b & x & Hq & Hb & Hx & Hs). apply (ev_nets _ _ He) in Hq as (n' & Hq & (I1 & _) & Hs').
  apply (ev_bevs _ _ He) in Hx as (x' & Hx & _). exists n', b, x'.
  repeat split; congruence.
Qed.

Lemma front_retains w w' p c ids : retains w w' -> front w p c ids -> front w' p c ids.
Proof using.
  intros He (n & b & x & Hq & Hb & Hx & Hs & Hc & Hi & Hf).
  apply (ev_nets _ _ He) in Hq as (n' & Hq & (I1 & I2 & I3) & Hs').
  apply (ev_bevs _ _ He) in Hx as (x' & Hx & Hfd). exists n', b, x'.
  rewrite (ev_front _ _ He). repeat split; congruence.
Qed.

Lemma backs_retains w w' : retains w w' -> backs w -> backs w'.
Proof using.
  intros He (H1 & H2 & H3). unfold backs. rewrite (ev_used _ _ He), (ev_backs _ _ He).
  split; [done|]. split; [by apply (ev_pos _ _ He)|].
  intros i (q & Hq & Hl)%H3. exists q. split; [done|]. by apply (live_retains w).
Qed.

Lemma session_retains w w' p c ids s :
  retains w w' -> session_at w p c ids s -> uctxs (heap w') !! c = Some s ->
  session_at w' p c ids s.
Proof using.
  intros He [A1 A2 A3 A4 A5 A6] Hc. split; try done.
  - by rewrite (ev_stub _ _ He).
  - by apply (front_retains w).
  - by apply (backs_retains w).
Qed.

Lemma uctxs_deliver p o w : uctxs (heap (deliver p o w)) = uctxs (heap w).
Proof using.
  assert (Hq : forall q msg w0, uctxs (heap (queue q msg w0)) = uctxs (heap w0)).
  { intros q msg w0. unfold queue. destruct (nets _ !! _) as [n|]; [|done].
    destruct (hevent_ n) as [b|]; [|done]. by destruct (bevs _ !! b). }
  destruct o; cbn; [apply Hq|]. unfold to_back. destruct (backends_ _ !! _) as [[q|]|]; [|done..].
  unfold touch. destruct (nets _ !! _); [cbn|]; by rewrite Hq.
Qed.

Lemma deliver_session w p c ids s o :
  session_at w p c ids s -> session_at (deliver p o w) p c ids s.
Proof using.
  intros H. apply (session_retains w); [apply deliver_retains|done|].
  rewrite uctxs_deliver. by apply (sa_session _ _ _ _ _ H).
Qed.

Lemma put_session_at w p c ids s s' :
  session_at w p c ids s -> net_stub_ s' = net_stub_ s -> frame_stub_ s' = frame_stub_ s ->
  session_at (put_session c s' w) p c ids s'.
Proof using.
  intros [A1 A2 A3 A4 A5 A6] H1 H2. pose proof (put_session_retains c s' w) as He.
  split; [done|by apply (front_retains w)|by apply (backs_retains w)| |congruence|congruence].
  cbn. apply lookup_insert_eq.
Qed.

Lemma put_put c s1 s2 w : put_session c s2 (put_session c s1 w) = put_session c s2 w.
Proof using. unfold put_session. cbn. by rewrite insert_insert_eq. Qed.

Lemma queue_put p msg c s w : queue p msg (put_session c s w) = put_session c s (queue p msg w).
Proof using.
  unfold queue. cbn. destruct (nets (heap w) !! p) as [n|]; [|done].
  destruct (hevent_ n) as [b|]; [|done]. by destruct (bevs (heap w) !! b).
Qed.

Lemma touch_put p c s w : touch p (put_session c s w) = put_session c s (touch p w).
Proof using. unfold touch. cbn. by destruct (nets (heap w) !! p). Qed.

Lemma deliver_put p o c s w : deliver p o (put_session c s w) = put_session c s (deliver p o w).
Proof using.
  destruct o as [m|m]; cbn; [apply queue_put|]. unfold to_back. cbn.
  destruct (backends_ _ !! _) as [[q|]|]; [|done..].
  change (set_backends ?b (put_session c s w)) with (put_session c s (set_backends b w)).
  by rewrite queue_put, touch_put.
Qed.

(** ** The calls *)

Lemma load_session_ok w c s : uctxs (heap w) !! c = Some s -> load_session c w = Ok (s, w).
Proof using. intros H. unfold load_session. by rewrite H. Qed.

Lemma upd_session_ok w c s f :
  uctxs (heap w) !! c = Some s -> upd_session c f w = Ok (tt, put_session c (f s) w).
Proof using. intros H. unfold upd_session. by rewrite (bind_step _ _ _ _ _ (load_session_ok w c s H)). Qed.

Lemma log_net_ok w p n : nets (heap w) !! p = Some n -> log_net p w = Ok (tt, w).
Proof using.
  intros H. unfold log_net. rewrite (bind_step _ _ w n w); [done|].
  rewrite (on_net_ok _ w _ _ (load_net_ok _ p n H)). by destruct w.
Qed.

Lemma GetUserContext_ok w p n :
  nets (heap w) !! p = Some n -> GetUserContext (Some p) w = Ok (user_context_ n, w).
Proof using.
  intros H. unfold GetUserContext. rewrite (bind_step _ _ w n w); [done|].
  rewrite (on_net_ok _ w _ _ (load_net_ok _ p n H)). by destruct w.
Qed.

Lemma Send_live w p msg :
  live w p -> msg <> [] ->
  on_net (EasyNet_Send p (Some msg)) w = Ok (EASY_NET_OK, queue p msg w).
Proof using HW.
  intros (n & b & x & Hp & Hb & Hx & Hs) Hne. unfold queue. rewrite Hp, Hb, Hx.
  apply on_net_ok. by apply (EasyNet_Send_queued _ p n b x).
Qed.

Lemma SendToFrontEnd_ok w p msg :
  live w p -> msg <> [] -> SendToFrontEnd (Some p) (Some msg) w = Ok (0, queue p msg w).
Proof using HW.
  intros Hl Hne. unfold SendToFrontEnd. destruct msg as [|c msg]; [done|].
  by rewrite (bind_step _ _ _ _ _ (Send_live w p _ Hl Hne)).
Qed.

Lemma SendToBackEnd_ok w q msg :
  live w q -> msg <> [] -> SendToBackEnd (Some q) (Some msg) w = Ok (0, touch q (queue q msg w)).
Proof using HW.
  intros Hl Hne. unfold SendToBackEnd. destruct msg as [|c msg]; [done|].
  rewrite (bind_step _ _ _ _ _ (Send_live w q _ Hl Hne)).
  change (EASY_NET_ERR_NOT_YET_ESTABLISHED =? EASY_NET_OK) with false.
  change (EASY_NET_ERR_ESTABLISH_FAILED =? EASY_NET_OK) with false.
  change (EASY_NET_ERR_SEND_ERROR =? EASY_NET_OK) with false. cbn iota.
  rewrite (bind_step _ _ _ _ _ (fw_ok now_ _)). set (w1 := queue _ _ _).
  destruct (live_retains _ _ q (queue_retains q (c :: msg) w) Hl) as (n & b & x & Hq & _).
  fold w1 in Hq. erewrite bind_step; [reflexivity|]. unfold touch. rewrite Hq.
  apply on_net_ok. by apply upd_net_ok.
Qed.

Lemma front_live w p c ids : front w p c ids -> live w p.
Proof using. intros (n & b & x & H). exists n, b, x. tauto. Qed.

Lemma net_ids_ok w p c ids : front w p c ids -> net_ids (Some p) w = Ok (ids, w).
Proof using.
  intros (n & b & x & Hp & Hb & Hx & _ & _ & -> & _). unfold net_ids, GetNetIds.
  set (ids := (u32 (bev_fd x), u64 (nid_ n))).
  rewrite (bind_step _ _ w (0, Some ids) w); [done|]. rewrite (bind_step _ _ w n w).
  2: { rewrite (on_net_ok _ w _ _ (load_net_ok _ p n Hp)). by destruct w. }
  rewrite Hb, (bind_step (nonnull _) _ w b w) by done.
  rewrite (bind_step _ _ w (bev_fd x) w); [done|].
  rewrite (on_net_ok _ w _ _ (getfd_ok _ b x Hx)). by destruct w.
Qed.

Lemma turn_range w :
  backs w -> 0 <= turn (backend_set (app (rest w))) < backend_used_ (backend_set (app (rest w))).
Proof using.
  intros (H1 & H2 & _). unfold turn. destruct (Z.leb_spec (backend_used_ (backend_set (app (rest w))))
    (backend_pos_ (backend_set (app (rest w))))); lia.
Qed.

Lemma next_backend_ok w :
  backs w -> exists q,
    backends_ (backend_set (app (rest w))) !! Z.to_nat (turn (backend_set (app (rest w))))
      = Some (Some q) /\ live w q /\
    next_backend w = Ok (Some q, set_backends (turned (backend_set (app (rest w)))) w).
Proof using.
  intros Hb. destruct (proj2 (proj2 Hb) _ (turn_range w Hb)) as (q & Hq & Hl). exists q.
  split; [done|]. split; [done|]. unfold next_backend, get_backends.
  rewrite (bind_step _ _ _ _ _ (fw_ok _ w)). fold (turn (backend_set (app (rest w)))).
  by rewrite Hq.
Qed.

Lemma SerializeAndSend_ok w p c ids s m :
  session_at w p c ids s ->
  SerializeAndSendToFrontEnd c m w = Ok (0, deliver p (ToClient m) w).
Proof using HW KOk.
  intros [A1 A2 A3 A4 A5 A6]. unfold SerializeAndSendToFrontEnd.
  rewrite (bind_step _ _ _ _ _ (load_session_ok w c s A4)), A5, A6.
  rewrite bool_decide_eq_true_2 by done. rewrite !(bind_step (assertb true) _ w tt w) by done.
  erewrite bind_step; [|apply SendToFrontEnd_ok; [by eapply front_live|apply cs_nonempty]].
  done.
Qed.

(** The choice of a back end and the message to it. *)
Lemma to_back_ok w q m :
  backends_ (backend_set (app (rest w))) !! Z.to_nat (turn (backend_set (app (rest w))))
    = Some (Some q) -> live w q ->
  SendToBackEnd (Some q) (Some (ss_SerializeToString m))
    (set_backends (turned (backend_set (app (rest w)))) w) = Ok (0, to_back (ss_SerializeToString m) w).
Proof using HW KOk.
  intros Hq Hl. unfold to_back. rewrite Hq. apply SendToBackEnd_ok; [|apply ss_nonempty].
  apply (live_retains w); [apply turned_retains|done].
Qed.

Lemma HandShake_StartSession_ok w p c ids s :
  session_at w p c ids s ->
  HandShake_StartSession c w
  = Ok (0, put_session c (set_state_ STATE_SYNACK s)
             (deliver p (ToBackEnd (msg_syn ids (sid_ s))) w)).
Proof using HW KOk.
  intros Hsa. pose proof Hsa as [A1 A2 A3 A4 A5 A6].
  destruct (next_backend_ok w A3) as (q & Hq & Hl & En). unfold HandShake_StartSession.
  rewrite (bind_step _ _ _ _ _ En). set (w1 := set_backends _ w).
  assert (He : retains w w1) by apply turned_retains.
  rewrite (bind_step _ _ w1 0 (to_back (ss_SerializeToString (msg_syn ids (sid_ s))) w)).
  - cbn [Z.eqb negb].
    assert (Hu : uctxs (heap (deliver p (ToBackEnd (msg_syn ids (sid_ s))) w)) !! c = Some s)
      by (by rewrite uctxs_deliver).
    by rewrite (bind_step _ _ _ _ _ (upd_session_ok _ c s _ Hu)).
  - unfold StartToBackEnd. rewrite (bind_step _ _ _ _ _ (load_session_ok w1 c s A4)), A6, A5.
    cbn [negb]. rewrite (bind_step _ _ _ _ _ (net_ids_ok w1 p c ids (front_retains w w1 _ _ _ He A2))).
    by rewrite (bind_step _ _ _ _ _ (to_back_ok w q _ Hq Hl)).
Qed.

Lemma ForwardUp_ok w p c ids s seq d :
  session_at w p c ids s ->
  ForwardUpSideMessage c seq d w = Ok (0, deliver p (ToBackEnd (msg_up seq ids (sid_ s) d)) w).
Proof using HW KOk.
  intros [A1 A2 A3 A4 A5 A6]. unfold ForwardUpSideMessage.
  rewrite (bind_step _ _ _ _ _ (load_session_ok w c s A4)), A6, A5.
  rewrite (bind_step (assertb true) _ w tt w) by done.
  rewrite (bind_step _ _ _ _ _ (net_ids_ok w p c ids A2)).
  destruct (next_backend_ok w A3) as (q & Hq & Hl & En). unfold SendDataToBackEnd.
  rewrite (bind_step _ _ _ _ _ En). set (w1 := set_backends _ w).
  rewrite (bind_step _ _ _ _ _ (load_session_ok w1 c s A4)), A6.
  rewrite (bind_step (assertb true) _ w1 tt w1) by done.
  by rewrite (bind_step _ _ _ _ _ (to_back_ok w q _ Hq Hl)).
Qed.

(** A step of the handshake. *)
Lemma DriveStateMachine_ok w p c ids s s' o :
  session_at w p c ids s -> state_ s <> STATE_OK -> handshake ids s = (s', o) ->
  DriveStateMachine c w = Ok (0, put_session c s' (deliver_all p o w)).
Proof using HW KOk.
  intros Hsa Hst Hh. pose proof (sa_session _ _ _ _ _ Hsa) as Hc.
  unfold DriveStateMachine. rewrite (bind_step _ _ _ _ _ (load_session_ok w c s Hc)).
  unfold handshake in Hh. destruct (state_ s) eqn:Es; [..|done]; injection Hh as <- <-.
  3: by apply HandShake_StartSession_ok.
  all: unfold HandleKeyMaking, HandleAuthRequest, HandShake_OnStartAcked;
    rewrite (bind_step _ _ _ _ _ (SerializeAndSend_ok w p c ids s _ Hsa)); cbn [Z.eqb negb];
    by rewrite (bind_step _ _ _ _ _
      (upd_session_ok _ c s _ (sa_session _ _ _ _ _ (deliver_session w p c ids s _ Hsa)))).
Qed.

Lemma CheckUpSideMessage_ok w c s m :
  uctxs (heap w) !! c = Some s ->
  CheckUpSideMessage c m w
  = if in_order s m then Ok (0, put_session c (note_seq m s) w) else Ok (-1, w).
Proof using.
  intros Hc. unfold CheckUpSideMessage, in_order, note_seq.
  destruct (CS.magic (CS.head m) =? CS.MAGIC_CS_V1); cbn [negb andb]; [|done].
  rewrite (bind_step _ _ _ _ _ (load_session_ok w c s Hc)).
  destruct (last_seq_ s =? 0), (u64 (CS.sequence (CS.head m)) =? u64 (last_seq_ s + 1));
    cbn [negb andb orb]; try done; by rewrite (bind_step _ _ _ _ _ (upd_session_ok w c s _ Hc)).
Qed.

(** ** The callbacks *)

Lemma put_same c s w : uctxs (heap w) !! c = Some s -> put_session c s w = w.
Proof using.
  intros H. unfold put_session. rewrite insert_id by done. by destruct w as [[]].
Qed.

Lemma deliver_all_put p os c s w :
  deliver_all p os (put_session c s w) = put_session c s (deliver_all p os w).
Proof using.
  revert w. unfold deliver_all. induction os as [|o os IH]; intros w; [done|]. cbn [foldl].
  by rewrite deliver_put, IH.
Qed.

Lemma deliver_all_app p o1 o2 w :
  deliver_all p (o1 ++ o2) w = deliver_all p o2 (deliver_all p o1 w).
Proof using. apply foldl_app. Qed.

Lemma deliver_all_session w p c ids s os :
  session_at w p c ids s -> session_at (deliver_all p os w) p c ids s.
Proof using.
  revert w. induction os as [|o os IH]; intros w H; [done|]. by apply IH, deliver_session.
Qed.

(** A reaction changes neither the connection nor the framework of a session. *)
Lemma handshake_stubs ids s :
  net_stub_ (fst (handshake ids s)) = net_stub_ s /\
  frame_stub_ (fst (handshake ids s)) = frame_stub_ s.
Proof using. unfold handshake. by destruct (state_ s). Qed.

Lemma up_step_stubs ids s m r s' os :
  up_step ids s m = (r, s', os) -> net_stub_ s' = net_stub_ s /\ frame_stub_ s' = frame_stub_ s.
Proof using.
  unfold up_step, handshake. destruct (in_order s m); cbn; [|by intros [= _ <- _]].
  destruct (state_ s); cbn; try (by intros [= _ <- _]).
  destruct (_ =? _); by intros [= _ <- _].
Qed.

Lemma reacted w p c ids s s' os :
  session_at w p c ids s -> net_stub_ s' = net_stub_ s -> frame_stub_ s' = frame_stub_ s ->
  session_at (put_session c s' (deliver_all p os w)) p c ids s'.
Proof using. intros H. apply put_session_at. by apply deliver_all_session. Qed.

(** The part of [OnRecvFrontEnd] behind the check of the message, in the handshake. *)
Lemma handshake_run w p c ids s :
  session_at w p c ids s -> state_ s <> STATE_OK ->
  (r ← DriveStateMachine c;
   if r <? 0 then _ ← DestroyFrontEnd (Some p); mret (Some (-1))
   else
     s ← load_session c;
     if bool_decide (state_ s = STATE_SYNING) then
       r ← DriveStateMachine c;
       if r <? 0 then _ ← DestroyFrontEnd (Some p); mret (Some (-1)) else mret None
     else mret None) w
  = let '(s1, o1) := handshake ids s in
    match state_ s1 with
    | STATE_SYNING =>
        let '(s2, o2) := handshake ids s1 in
        Ok (None, put_session c s2 (deliver_all p (o1 ++ o2) w))
    | _ => Ok (None, put_session c s1 (deliver_all p o1 w))
    end.
Proof using HW KOk.
  intros Hsa Hst. destruct (handshake_stubs ids s) as [N1 N2].
  destruct (handshake ids s) as [s1 o1] eqn:E1. cbn [fst] in N1, N2.
  rewrite (bind_step _ _ _ _ _ (DriveStateMachine_ok w p c ids s s1 o1 Hsa Hst E1)).
  cbn [Z.ltb Z.compare]. pose proof (reacted w p c ids s s1 o1 Hsa N1 N2) as Hsa1.
  rewrite (bind_step _ _ _ _ _ (load_session_ok _ c s1 (sa_session _ _ _ _ _ Hsa1))).
  destruct (state_ s1) eqn:Es1; cbn [bool_decide decide]; try done.
  rewrite bool_decide_eq_true_2 by done. destruct (handshake ids s1) as [s2 o2] eqn:E2.
  rewrite (bind_step _ _ _ _ _ (DriveStateMachine_ok _ p c ids s1 s2 o2 Hsa1
             ltac:(by rewrite Es1) E2)).
  cbn [Z.ltb Z.compare]. by rewrite deliver_all_put, put_put, deliver_all_app.
Qed.

Lemma OnRecvFrontEnd_ok w p c ids s msg r s' os :
  session_at w p c ids s -> up_step ids s (snd (cs_ParseFromArray msg)) = (r, s', os) ->
  Connector_OnRecvFrontEnd (Some p) msg w = Ok (r, put_session c s' (deliver_all p os w)).
Proof using HW KOk.
  intros Hsa Hup. pose proof Hsa as [A1 A2 A3 A4 A5 A6].
  pose proof A2 as (n & b & x & Hp & _ & _ & _ & Hc & _).
  unfold Connector_OnRecvFrontEnd.
  rewrite (bind_step _ _ _ _ _ (fw_ok (fun f => app_frame_stub_ (app f)) w)), A1. cbn [negb].
  rewrite (bind_step _ _ _ _ _ (GetUserContext_ok w p n Hp)), Hc.
  set (m := snd _) in *. unfold up_step in Hup. unfold mbind at 1, M_bind at 1.
  rewrite (CheckUpSideMessage_ok w c s m A4).
  destruct (in_order s m); cbn [negb Z.eqb] in *.
  2: { injection Hup as <- <- <-. cbn [deliver_all foldl]. by rewrite put_same. }
  assert (Hs1 : session_at (put_session c (note_seq m s) w) p c ids (note_seq m s))
    by (by apply put_session_at with s).
  set (s1 := note_seq m s) in *. set (w1 := put_session c s1 w) in *.
  rewrite (bind_step _ _ _ _ _ (load_session_ok w1 c s1 (sa_session _ _ _ _ _ Hs1))).
  destruct (decide (state_ s1 = STATE_OK)) as [Hok|Hok].
  - rewrite Hok in Hup |- *. rewrite bool_decide_eq_true_2 by done. cbn [negb].
    destruct (CS.bodyid (CS.head m) =? CS.DATA_TRANSPARENT); cbn [negb]; injection Hup as <- <- <-.
    + rewrite (bind_step _ _ _ _ _ (ForwardUp_ok w1 p c ids s1 _ _ Hs1)).
      subst w1. by rewrite deliver_put.
    + done.
  - rewrite bool_decide_eq_false_2 by done. cbn [negb].
    rewrite (handshake_run w1 p c ids s1 Hs1 Hok). subst w1.
    destruct (state_ s1) eqn:Es1; [..|done]; destruct (handshake ids s1) as [s2 o1];
      (destruct (state_ s2); [..|destruct (handshake ids s2) as [s3 o2]| |]);
      injection Hup as <- <- <-; by rewrite deliver_all_put, put_put.
Qed.

Lemma GetFrontEndByAsyncIds_ok w p c ids :
  front w p c ids -> GetFrontEndByAsyncIds (fst ids) (snd ids) w = Ok (Some p, w).
Proof using.
  intros (n & b & x & Hp & _ & _ & _ & _ & -> & Hf). cbn [fst snd] in *.
  unfold GetFrontEndByAsyncIds. rewrite (on_frontend_ok _ w _ _ (GetHandlerByAsyncIds_found
    (NetS (heap w) (frontend_handler_mgr_ (rest w))) _ p n Hf Hp)).
  do 2 f_equal. by destruct w as [? ? ? ? ? ? ? []].
Qed.

Lemma ForwardDown_ok w p c ids s seq d :
  session_at w p c ids s -> d <> [] ->
  ForwardDownSideMessage c seq d w = Ok (0, deliver p (ToClient (msg_down seq d)) w).
Proof using HW KOk.
  intros [A1 A2 A3 A4 A5 A6] Hd. unfold ForwardDownSideMessage. destruct d as [|d0 d]; [done|].
  rewrite (bind_step _ _ _ _ _ (load_session_ok w c s A4)), A5.
  by rewrite (bind_step _ _ _ _ _ (SendToFrontEnd_ok w p _ (front_live w p c ids A2) (cs_nonempty _))).
Qed.

(** [OnRecvBackEnd] up to the session of the client the message is for. *)
Lemma OnRecvBackEnd_found w p c ids s _DEBUG net msg :
  session_at w p c ids s ->
  SS.fd (SS.head (snd (ss_ParseFromArray msg))) = fst ids ->
  SS.nid (SS.head (snd (ss_ParseFromArray msg))) = snd ids ->
  Connector_OnRecvBackEnd _DEBUG net msg w
  = OnRecvBackEnd_session _DEBUG (Some p) c (snd (ss_ParseFromArray msg)) w.
Proof using.
  intros [A1 A2 A3 A4 A5 A6] Hfd Hnid.
  pose proof A2 as (n & b & x & Hp & _ & _ & _ & Hc & _). unfold Connector_OnRecvBackEnd.
  rewrite (bind_step _ _ _ _ _ (fw_ok (fun f => app_frame_stub_ (app f)) w)), A1.
  rewrite (bind_step (assertb true) _ w tt w) by done.
  rewrite Hfd, Hnid, (bind_step _ _ _ _ _ (GetFrontEndByAsyncIds_ok w p c ids A2)).
  by rewrite (bind_step _ _ _ _ _ (GetUserContext_ok w p n Hp)), Hc.
Qed.

Lemma OnRecvBackEnd_data w p c ids s _DEBUG m :
  session_at w p c ids s -> SS.bodyid (SS.head m) = SS.DATA ->
  OnRecvBackEnd_session _DEBUG (Some p) c m w
  = match down_step _DEBUG ids s m with
    | Reacts r s' os => Ok (r, put_session c s' (deliver_all p os w))
    | _ => (_ ← DestroyFrontEnd (Some p); mret (-1)) w
    end.
Proof using HW KOk.
  intros Hsa Hd. pose proof Hsa as [A1 A2 A3 A4 A5 A6].
  unfold OnRecvBackEnd_session, down_step. rewrite Hd, Z.eqb_refl. cbn [negb].
  rewrite (bind_step _ _ _ _ _ (load_session_ok w c s A4)).
  destruct (negb _DEBUG), (bool_decide (state_ s = STATE_OK)); cbn [negb andb orb]; try done;
    destruct (sid_ s =? SS.sid (SS.head m)); cbn [negb]; try done;
    destruct (ss_data m) as [|d0 d] eqn:Ed; try (cbn [deliver_all foldl]; by rewrite put_same);
    rewrite (ForwardDown_ok w p c ids s _ _ Hsa) by done;
    cbn [deliver_all foldl]; by rewrite <- (put_same c s w A4) at 1; rewrite deliver_put.
Qed.

Lemma OnRecvBackEnd_handshake w p c ids s _DEBUG m s1 o1 :
  session_at w p c ids s -> SS.bodyid (SS.head m) <> SS.DATA -> state_ s <> STATE_OK ->
  handshake ids s = (s1, o1) ->
  OnRecvBackEnd_session _DEBUG (Some p) c m w
  = Ok (0, put_session c (set_sid (SS.sid (SS.head m)) s1) (deliver_all p o1 w)).
Proof using HW KOk.
  intros Hsa Hd Hok E1. pose proof (sa_session _ _ _ _ _ Hsa) as A4.
  destruct (handshake_stubs ids s) as [N1 N2]. rewrite E1 in N1, N2. cbn [fst] in N1, N2.
  unfold OnRecvBackEnd_session. rewrite (bind_step _ _ _ _ _ (load_session_ok w c s A4)).
  destruct (Z.eqb_spec (SS.bodyid (SS.head m)) SS.DATA); [done|]. cbn [negb].
  rewrite bool_decide_eq_false_2, andb_false_r by done.
  rewrite (bind_step _ _ _ _ _ (DriveStateMachine_ok w p c ids s s1 o1 Hsa Hok E1)).
  cbn [Z.ltb Z.compare].
  pose proof (sa_session _ _ _ _ _ (reacted w p c ids s s1 o1 Hsa N1 N2)) as Hc1.
  by rewrite (bind_step _ _ _ _ _ (upd_session_ok _ c s1 _ Hc1)), put_put.
Qed.

(** In [STATE_OK] a message that is not data is ignored unless it is [FIN]. *)
Lemma OnRecvBackEnd_stop w c s _DEBUG front_net m :
  uctxs (heap w) !! c = Some s -> SS.bodyid (SS.head m) <> SS.DATA -> state_ s = STATE_OK ->
  OnRecvBackEnd_session _DEBUG front_net c m w
  = if SS.bodyid (SS.head m) =? SS.FIN then
      (r ← HandShake_OnStopNotify c;
       if r <? 0 then _ ← DestroyFrontEnd front_net; mret (-1)
       else _ ← upd_session c (set_sid (SS.sid (SS.head m))); mret 0) w
    else Ok (0, w).
Proof using.
  intros A4 Hd Hok. unfold OnRecvBackEnd_session.
  rewrite (bind_step _ _ _ _ _ (load_session_ok w c s A4)).
  destruct (Z.eqb_spec (SS.bodyid (SS.head m)) SS.DATA); [done|]. cbn [negb].
  rewrite bool_decide_eq_true_2 by done.
  destruct (SS.bodyid (SS.head m) =? SS.FIN); cbn [negb andb]; [|done].
  unfold DriveStateMachine. unfold mbind at 1 3, M_bind at 1 3.
  by rewrite (bind_step _ _ _ _ _ (load_session_ok w c s A4)), Hok.
Qed.

Lemma OnRecvBackEnd_ok w p c ids s _DEBUG net msg r s' os :
  session_at w p c ids s ->
  SS.fd (SS.head (snd (ss_ParseFromArray msg))) = fst ids ->
  SS.nid (SS.head (snd (ss_ParseFromArray msg))) = snd ids ->
  down_step _DEBUG ids s (snd (ss_ParseFromArray msg)) = Reacts r s' os ->
  Connector_OnRecvBackEnd _DEBUG net msg w = Ok (r, put_session c s' (deliver_all p os w)).
Proof using HW KOk.
  intros Hsa Hfd Hnid Hd. rewrite (OnRecvBackEnd_found w p c ids s) by done.
  set (m := snd _) in *. pose proof (sa_session _ _ _ _ _ Hsa) as A4.
  destruct (decide (SS.bodyid (SS.head m) = SS.DATA)) as [Hm|Hm].
  { by rewrite (OnRecvBackEnd_data w p c ids s), Hd. }
  unfold down_step in Hd. destruct (Z.eqb_spec (SS.bodyid (SS.head m)) SS.DATA); [done|].
  cbn [negb] in Hd. destruct (decide (state_ s = STATE_OK)) as [Hok|Hok].
  - rewrite Hok in Hd. rewrite (OnRecvBackEnd_stop w c s) by done.
    destruct (SS.bodyid (SS.head m) =? SS.FIN); [done|]. injection Hd as <- <- <-.
    cbn [deliver_all foldl]. by rewrite put_same.
  - destruct (handshake ids s) as [s1 o1] eqn:E1.
    rewrite (OnRecvBackEnd_handshake w p c ids s _ m s1 o1) by done.
    destruct (state_ s); [..|done]; by injection Hd as <- <- <-.
Qed.

(** ** Sequences of messages *)

(** A message of the client of a connection, or of a back end. *)
Inductive event : Set :=
  | FromClient (msg : bytes)
  | FromBackEnd (net : option Z) (msg : bytes).

Definition handle (_DEBUG : bool) (p : Z) (e : event)
    : M (App P ConnectorSession ConnectorApp) unit :=
  match e with
  | FromClient msg => _ ← Connector_OnRecvFrontEnd (Some p) msg; mret tt
  | FromBackEnd net msg => _ ← Connector_OnRecvBackEnd _DEBUG net msg; mret tt
  end.
Fixpoint handle_all (_DEBUG : bool) (p : Z) (es : list event)
    : M (App P ConnectorSession ConnectorApp) unit :=
  match es with
  | [] => mret tt
  | e :: es => _ ← handle _DEBUG p e; handle_all _DEBUG p es
  end.

(** The promised reaction; none when the session ends, or when the message of the back
    end is for somebody else. *)
Definition spec_step (_DEBUG : bool) (ids : Z * Z) s (e : event)
    : option (ConnectorSession * list out) :=
  match e with
  | FromClient msg => let '(_, s', os) := up_step ids s (snd (cs_ParseFromArray msg)) in Some (s', os)
  | FromBackEnd net msg =>
      let m := snd (ss_ParseFromArray msg) in
      if bool_decide ((SS.fd (SS.head m), SS.nid (SS.head m)) = ids) then
        match down_step _DEBUG ids s m with Reacts _ s' os => Some (s', os) | _ => None end
      else None
  end.
Fixpoint spec_run (_DEBUG : bool) (ids : Z * Z) s (es : list event)
    : option (ConnectorSession * list out) :=
  match es with
  | [] => Some (s, [])
  | e :: es =>
      '(s1, o1) ← spec_step _DEBUG ids s e;
      '(s2, o2) ← spec_run _DEBUG ids s1 es;
      Some (s2, o1 ++ o2)
  end.

Lemma down_step_stubs _DEBUG ids s m r s' os :
  down_step _DEBUG ids s m = Reacts r s' os ->
  net_stub_ s' = net_stub_ s /\ frame_stub_ s' = frame_stub_ s.
Proof using.
  unfold down_step, handshake.
  destruct (SS.bodyid (SS.head m) =? SS.DATA), (state_ s), (SS.bodyid (SS.head m) =? SS.FIN),
    (negb _DEBUG && _), (ss_data m); cbn; intros [= _ <- _]; done.
Qed.

Lemma handle_step _DEBUG w p c ids s e s' os :
  session_at w p c ids s -> spec_step _DEBUG ids s e = Some (s', os) ->
  handle _DEBUG p e w = Ok (tt, put_session c s' (deliver_all p os w)) /\
  session_at (put_session c s' (deliver_all p os w)) p c ids s'.
Proof using HW KOk.
  intros Hsa Hs. destruct e as [msg|net msg]; cbn [spec_step handle] in *.
  - destruct (up_step ids s _) as [[r s1] o1] eqn:Eu. injection Hs as -> ->.
    destruct (up_step_stubs _ _ _ _ _ _ Eu) as [N1 N2]. split; [|by apply reacted with s].
    by rewrite (bind_step _ _ _ _ _ (OnRecvFrontEnd_ok w p c ids s msg _ _ _ Hsa Eu)).
  - case_bool_decide as Hids; [|done]. destruct (down_step _ _ _ _) as [r s1 o1| |] eqn:Ed; try done.
    injection Hs as -> ->. destruct (down_step_stubs _ _ _ _ _ _ _ Ed) as [N1 N2].
    split; [|by apply reacted with s].
    unfold mbind, M_bind.
    by rewrite (OnRecvBackEnd_ok w p c ids s _DEBUG net msg _ _ _ Hsa
                  ltac:(by rewrite <- Hids) ltac:(by rewrite <- Hids) Ed).
Qed.

Lemma handle_all_ok _DEBUG w p c ids s es s' os :
  session_at w p c ids s -> spec_run _DEBUG ids s es = Some (s', os) ->
  handle_all _DEBUG p es w = Ok (tt, put_session c s' (deliver_all p os w)) /\
  session_at (put_session c s' (deliver_all p os w)) p c ids s'.
Proof using HW KOk.
  revert w s os. induction es as [|e es IH]; intros w s os Hsa Hs; cbn [spec_run handle_all] in *.
  - injection Hs as <- <-. cbn [deliver_all foldl].
    by rewrite put_same by (by apply (sa_session _ _ _ _ _ Hsa)).
  - apply bind_Some in Hs as ([s1 o1] & H1 & Hs). apply bind_Some in Hs as ([s2 o2] & H2 & Hs).
    injection Hs as -> <-. destruct (handle_step _DEBUG w p c ids s e s1 o1 Hsa H1) as [E1 Hsa1].
    rewrite (bind_step _ _ _ _ _ E1). destruct (IH _ s1 o2 Hsa1 H2) as [E2 Hsa2].
    rewrite deliver_all_put, put_put in E2, Hsa2. by rewrite deliver_all_app.
Qed.

(** ** Ends *)

(** Removing the connection of a client frees its session. *)
Lemma DestroyFrontEnd_frees w fd p n b :
  mgr_ok (NetS (heap w) (frontend_handler_mgr_ (rest w))) ->
  (fd, Some p) ∈ handler_pool_ (frontend_handler_mgr_ (rest w)) ->
  nets (heap w) !! p = Some n -> hevent_ n = Some b ->
  DestroyFrontEnd (Some p) w = Fault UseAfterFree \/
  exists w', DestroyFrontEnd (Some p) w = Ok (tt, w') /\ heap w' = freed p n (heap w).
Proof using.
  intros Hok Hin Hp Hb. pose proof (remove_found _ fd p n b Hok Hin Hp Hb) as Hr.
  assert (Hs : forall r, RemoveHandlerByEvent (Some b)
      (NetS (heap w) (frontend_handler_mgr_ (rest w))) = r ->
    RemoveHandler (Some p) (NetS (heap w) (frontend_handler_mgr_ (rest w))) = r).
  { intros r <-. unfold RemoveHandler.
    erewrite bind_step; [|apply on_heap_ok; apply load_net_ok; exact Hp]. by rewrite Hb. }
  unfold DestroyFrontEnd. cbn [hp mgr] in Hr.
  destruct (it_cursor_ (frontend_handler_mgr_ (rest w))).
  3: { left. unfold mbind, M_bind, on_frontend. by rewrite (Hs _ Hr). }
  all: destruct Hr as [Hr _]; right; eexists;
    (split; [by rewrite (bind_step _ _ _ _ _ (on_frontend_ok _ w _ _ (Hs _ Hr)))|done]).
Qed.

(** [DestroyFrontEnd(&net_stub_)] sets the pointer to NULL in the session it has freed. *)
Lemma destroy_stub_faults w fd p c n b s :
  mgr_ok (NetS (heap w) (frontend_handler_mgr_ (rest w))) ->
  (fd, Some p) ∈ handler_pool_ (frontend_handler_mgr_ (rest w)) ->
  nets (heap w) !! p = Some n -> hevent_ n = Some b -> user_context_ n = Some c ->
  uctxs (heap w) !! c = Some s -> net_stub_ s = Some p ->
  destroy_stub c w = Fault UseAfterFree.
Proof using.
  intros Hok Hin Hp Hb Hc Hs Hn. unfold destroy_stub.
  rewrite (bind_step _ _ _ _ _ (load_session_ok w c s Hs)), Hn.
  destruct (DestroyFrontEnd_frees w fd p n b Hok Hin Hp Hb) as [E1|(w' & E1 & Eh)].
  - unfold mbind, M_bind. by rewrite E1.
  - rewrite (bind_step _ _ _ _ _ E1). unfold upd_session, mbind, M_bind, load_session.
    rewrite Eh. cbn. by rewrite Hc, lookup_delete_eq.
Qed.

(** ** The end of a session *)

(** What a reaction does to the heap keeps its links. *)
Abbreviation links := (same_links (fun _ _ => True)).

Lemma queue_links q msg w : links (heap w) (heap (queue q msg w)).
Proof using.
  unfold queue. destruct (nets (heap w) !! q) as [n|]; [|done].
  destruct (hevent_ n) as [b|]; [|done]. destruct (bevs (heap w) !! b) as [x|] eqn:Ex; [|done].
  etransitivity; [by apply (same_links_bev _ _ b x
    {| bev_fd := bev_fd x; input := input x; output := output x ++ frame msg |})|].
  by apply same_links_frame.
Qed.

Lemma deliver_links p o w : links (heap w) (heap (deliver p o w)).
Proof using.
  destruct o as [m|m]; cbn [deliver]; [apply queue_links|]. unfold to_back.
  destruct (backends_ _ !! _) as [[q|]|]; [|done..].
  etransitivity; [apply (queue_links q (ss_SerializeToString m)
    (set_backends (turned (backend_set (app (rest w)))) w))|]. unfold touch.
  destruct (nets _ !! _) as [n|] eqn:Hn; [|done]. by apply (same_links_net _ _ q n).
Qed.

Lemma deliver_all_links p os w : links (heap w) (heap (deliver_all p os w)).
Proof using.
  revert w. induction os as [|o os IH]; intros w; [done|].
  etransitivity; [apply deliver_links|apply IH].
Qed.

Lemma put_session_links c s w : is_Some (uctxs (heap w) !! c) -> links (heap w) (heap (put_session c s w)).
Proof using.
  intros Hc. split; try done; cbn.
  - intros b. destruct (bevs (heap w) !! b); by constructor.
  - intros d. destruct (decide (d = c)) as [->|Hd]; [|by rewrite lookup_insert_ne].
    rewrite lookup_insert_eq. split; [done|by eexists].
Qed.

(** The table of the front ends of [w], with [p] under the descriptor [fd]; its cursor has
    not been left invalid by a rehash. *)
Record in_table (fd p : Z) w : Prop := {
  it_ok : mgr_ok (NetS (heap w) (frontend_handler_mgr_ (rest w)));
  it_in : (fd, Some p) ∈ handler_pool_ (frontend_handler_mgr_ (rest w));
  it_cursor : it_cursor_ (frontend_handler_mgr_ (rest w)) <> Invalid
}.

Lemma in_table_links fd p w w' :
  in_table fd p w -> links (heap w) (heap w') ->
  frontend_handler_mgr_ (rest w') = frontend_handler_mgr_ (rest w) -> in_table fd p w'.
Proof using.
  intros [[H1 H2 H3 H4] Hin Hc] Hl Ef. split; rewrite Ef; try done. split; try done.
  - by apply (same_links_heap_ok (fun _ _ => True) (heap w)).
  - eapply Forall_impl; [exact H3|]. intros e. by apply (same_links_entry (fun _ _ => True) (heap w)).
Qed.

Lemma in_table_reacted fd w p c ids s s' os :
  session_at w p c ids s -> in_table fd p w -> in_table fd p (put_session c s' (deliver_all p os w)).
Proof using.
  intros Hsa Ht. apply (in_table_links fd p w); [done| |].
  - etransitivity; [apply deliver_all_links|]. apply put_session_links. exists s.
    apply (sa_session _ _ _ _ _ (deliver_all_session w p c ids s os Hsa)).
  - cbn. clear Ht. revert w Hsa. induction os as [|o os IH]; intros w Hsa; [done|].
    cbn [deliver_all foldl]. unfold deliver_all in IH. rewrite IH by (by apply deliver_session).
    apply (ev_front _ _ (deliver_retains p o w)).
Qed.

(** A connection that has been closed: it, its bufferevent and its session are gone, and
    nothing has been written. *)
Record closed (fd p c : Z) w w' : Prop := {
  cl_net : nets (heap w') !! p = None;
  cl_session : uctxs (heap w') !! c = None;
  cl_table : pool_find (handler_pool_ (frontend_handler_mgr_ (rest w'))) fd = None;
  cl_bevs b x : bevs (heap w') !! b = Some x -> bevs (heap w) !! b = Some x
}.

Lemma DestroyFrontEnd_closes fd w p c ids s :
  session_at w p c ids s -> in_table fd p w ->
  exists w', DestroyFrontEnd (Some p) w = Ok (tt, w') /\ closed fd p c w w'.
Proof using.
  intros Hsa [Hok Hin Hcu]. pose proof (sa_front _ _ _ _ _ Hsa) as (n & b & x & Hp & Hb & Hx & _ & Hc & _).
  pose proof (remove_found _ fd p n b Hok Hin Hp Hb) as Hr. cbn [mgr hp] in Hr.
  assert (Hrun : exists m', RemoveHandler (Some p) (NetS (heap w) (frontend_handler_mgr_ (rest w)))
    = Ok (0, NetS (freed p n (heap w)) m') /\
    handler_pool_ m' = pool_erase (handler_pool_ (frontend_handler_mgr_ (rest w))) fd).
  { unfold RemoveHandler.
    erewrite bind_step; [|apply on_heap_ok; apply load_net_ok; exact Hp]. rewrite Hb.
    destruct (it_cursor_ (frontend_handler_mgr_ (rest w))); [..|done]; destruct Hr as [Hr _];
      (eexists; split; [exact Hr|done]). }
  destruct Hrun as (m' & Hrun & Hm). unfold DestroyFrontEnd.
  eexists. split; [by rewrite (bind_step _ _ _ _ _ (on_frontend_ok _ w _ _ Hrun))|].
  split; cbn.
  - unfold freed. cbn. apply lookup_delete_eq.
  - unfold freed. cbn. rewrite Hc. cbn. apply lookup_delete_eq.
  - rewrite Hm. apply pool_find_None. intros ([k v] & E1 & He)%list_elem_of_fmap.
    apply pool_erase_elem in He as [_ He]; [|apply (mo_keys _ Hok)]. by apply He.
  - unfold freed. cbn. rewrite Hb. cbn. intros d y [_ Hy]%lookup_delete_Some. done.
Qed.

(** The promised reaction to a message of the client, or of a back end under its ids; the
    session may end with it. *)
Definition under (ids : Z * Z) (e : event) : Prop :=
  match e with
  | FromClient _ => True
  | FromBackEnd _ msg => let h := SS.head (snd (ss_ParseFromArray msg)) in (SS.fd h, SS.nid h) = ids
  end.
Definition reaction_to (_DEBUG : bool) (ids : Z * Z) s (e : event) : reaction :=
  match e with
  | FromClient msg =>
      let '(r, s', os) := up_step ids s (snd (cs_ParseFromArray msg)) in Reacts (default 0 r) s' os
  | FromBackEnd _ msg => down_step _DEBUG ids s (snd (ss_ParseFromArray msg))
  end.

Lemma spec_step_reaction _DEBUG ids s e :
  under ids e -> spec_step _DEBUG ids s e
  = match reaction_to _DEBUG ids s e with Reacts _ s' os => Some (s', os) | _ => None end.
Proof using.
  destruct e as [msg|net msg]; cbn [under spec_step reaction_to]; intros Hu.
  - by destruct (up_step ids s _) as [[r s'] os].
  - by rewrite bool_decide_eq_true_2.
Qed.

Lemma handle_closes _DEBUG fd w p c ids s e :
  session_at w p c ids s -> in_table fd p w -> under ids e -> reaction_to _DEBUG ids s e = Closes ->
  exists w', handle _DEBUG p e w = Ok (tt, w') /\ closed fd p c w w'.
Proof using HW KOk.
  intros Hsa Ht Hu Hr. destruct e as [msg|net msg]; cbn [under reaction_to handle] in *.
  { by destruct (up_step ids s _) as [[r s'] os]. }
  set (m := snd (ss_ParseFromArray msg)) in *.
  assert (Hd : SS.bodyid (SS.head m) = SS.DATA).
  { unfold down_step in Hr. destruct (Z.eqb_spec (SS.bodyid (SS.head m)) SS.DATA); [done|].
    cbn [negb] in Hr. destruct (handshake ids s), (state_ s), (SS.bodyid (SS.head m) =? SS.FIN); done. }
  destruct (DestroyFrontEnd_closes fd w p c ids s Hsa Ht) as (w' & E1 & Hc). exists w'. split; [|done].
  rewrite (bind_step _ _ w (-1) w'); [done|].
  rewrite (OnRecvBackEnd_found w p c ids s) by (done || by rewrite <- Hu). fold m.
  rewrite (OnRecvBackEnd_data w p c ids s), Hr by done. by rewrite (bind_step _ _ _ _ _ E1).
Qed.

Lemma stop_faults _DEBUG fd w p c ids s net msg :
  session_at w p c ids s ->
  mgr_ok (NetS (heap w) (frontend_handler_mgr_ (rest w))) ->
  (fd, Some p) ∈ handler_pool_ (frontend_handler_mgr_ (rest w)) ->
  let m := snd (ss_ParseFromArray msg) in
  state_ s = STATE_OK -> SS.bodyid (SS.head m) = SS.FIN -> (SS.fd (SS.head m), SS.nid (SS.head m)) = ids ->
  Connector_OnRecvBackEnd _DEBUG net msg w = Fault UseAfterFree.
Proof using.
  intros Hsa Hok Hin m Hst Hm Hids. pose proof Hsa as [A1 A2 A3 A4 A5 A6].
  pose proof A2 as (n & b & x & Hp & Hb & Hx & _ & Hc & _).
  rewrite (OnRecvBackEnd_found w p c ids s) by (done || by rewrite <- Hids). fold m.
  rewrite (OnRecvBackEnd_stop w c s) by (done || by rewrite Hm). rewrite Hm, Z.eqb_refl.
  unfold HandShake_OnStopNotify. unfold mbind at 1, M_bind at 1.
  rewrite (bind_step _ _ _ _ _ (load_session_ok w c s A4)), A5, A6.
  rewrite bool_decide_eq_true_2 by done. cbn [andb].
  rewrite (bind_step (assertb true) _ w tt w), (bind_step (nonnull _) _ w p w) by done.
  rewrite (bind_step _ _ _ _ _ (log_net_ok w p n Hp)). unfold mbind, M_bind.
  by rewrite (destroy_stub_faults w fd p c n b s).
Qed.

Lemma handle_stops _DEBUG fd w p c ids s e :
  session_at w p c ids s -> in_table fd p w -> under ids e -> reaction_to _DEBUG ids s e = Stops ->
  handle _DEBUG p e w = Fault UseAfterFree.
Proof using.
  intros Hsa [Hok Hin _] Hu Hr. destruct e as [msg|net msg]; cbn [under reaction_to handle] in *.
  { by destruct (up_step ids s _) as [[r s'] os]. }
  unfold mbind, M_bind. rewrite (stop_faults _DEBUG fd w p c ids s net msg); try done;
    unfold down_step in Hr; set (m := snd (ss_ParseFromArray msg)) in *;
    (destruct (SS.bodyid (SS.head m) =? SS.DATA); cbn [negb] in Hr; [by repeat case_match|]);
    (destruct (state_ s); [by destruct (handshake ids s)..|]); [done|].
  by destruct (Z.eqb_spec (SS.bodyid (SS.head m)) SS.FIN).
Qed.

(** What the callback does with a message, when [r] is promised. *)
Definition reacts (_DEBUG : bool) (fd p c : Z) (e : event) w (r : reaction) : Prop :=
  match r with
  | Reacts _ s' os => handle _DEBUG p e w = Ok (tt, put_session c s' (deliver_all p os w))
  | Closes => exists w', handle _DEBUG p e w = Ok (tt, w') /\ closed fd p c w w'
  | Stops => handle _DEBUG p e w = Fault UseAfterFree
  end.

Lemma handle_reacts _DEBUG fd w p c ids s e :
  session_at w p c ids s -> in_table fd p w -> under ids e ->
  reacts _DEBUG fd p c e w (reaction_to _DEBUG ids s e).
Proof using HW KOk.
  intros Hsa Ht Hu. pose proof (spec_step_reaction _DEBUG ids s e Hu) as Hs.
  destruct (reaction_to _DEBUG ids s e) as [r s' os| |] eqn:Er; cbn [reacts].
  - by apply (handle_step _DEBUG w p c ids s e s' os).
  - by apply (handle_closes _DEBUG fd w p c ids s e).
  - by apply (handle_stops _DEBUG fd w p c ids s e).
Qed.

(** A sequence of messages runs to its end, or to the message that ends the session. *)
Lemma run_splits _DEBUG ids es : forall s, Forall (under ids) es ->
  exists es1 es2 s1 os, es = es1 ++ es2 /\ spec_run _DEBUG ids s es1 = Some (s1, os) /\
    match es2 with
    | [] => True
    | e :: _ => reaction_to _DEBUG ids s1 e = Closes \/ reaction_to _DEBUG ids s1 e = Stops
    end.
Proof using.
  induction es as [|e es IH]; intros s Hu; [by exists [], [], s, []|].
  apply Forall_cons in Hu as [Hue Hu]. pose proof (spec_step_reaction _DEBUG ids s e Hue) as Hs.
  destruct (reaction_to _DEBUG ids s e) as [r s1 o1| |] eqn:Er.
  - destruct (IH s1 Hu) as (es1 & es2 & s2 & os & -> & Hr & Hend).
    exists (e :: es1), es2, s2, (o1 ++ os). split; [done|]. split; [|done].
    cbn [spec_run]. rewrite Hs. cbn [mbind option_bind]. by rewrite Hr.
  - exists [], (e :: es), s, []. split; [done|]. split; [done|]. by left.
  - exists [], (e :: es), s, []. split; [done|]. split; [done|]. by right.
Qed.

(** ** Data come after the start *)

Definition is_data (o : out) : Prop :=
  match o with
  | ToClient m => CS.bodyid (CS.head m) = CS.DATA_TRANSPARENT
  | ToBackEnd m => SS.bodyid (SS.head m) = SS.DATA
  end.

Lemma handshake_no_data ids s s1 o1 :
  state_ s <> STATE_OK -> handshake ids s = (s1, o1) ->
  Forall (fun o => ~ is_data o) o1 /\ (state_ s1 = STATE_OK -> ToClient msg_start ∈ o1).
Proof using.
  intros Hs. unfold handshake. destruct (state_ s); [..|done]; intros [= <- <-];
    (split; [repeat constructor; cbn; discriminate|]); cbn; try done. intros _. by constructor.
Qed.

Lemma spec_step_start ids s e s1 o1 :
  spec_step false ids s e = Some (s1, o1) ->
  state_ s <> STATE_OK ->
  Forall (fun o => ~ is_data o) o1 /\ (state_ s1 = STATE_OK -> ToClient msg_start ∈ o1).
Proof using.
  intros He Hs. destruct e as [msg|net msg]; cbn [spec_step] in He.
  - destruct (up_step ids s _) as [[r s2] o2] eqn:Eu. injection He as -> ->.
    unfold up_step in Eu. destruct (in_order s _); cbn [negb] in Eu;
      [|injection Eu as _ <- <-; by split].
    set (s0 := note_seq _ s) in Eu. assert (Hs0 : state_ s0 <> STATE_OK) by done.
    destruct (handshake ids s0) as [s2 o2] eqn:E1.
    destruct (handshake_no_data ids s0 s2 o2 Hs0 E1) as [F1 F2].
    destruct (state_ s0); [..|done];
      (destruct (state_ s2) eqn:E2; [..|destruct (handshake ids s2) as [s3 o3] eqn:E3| |]);
      injection Eu as _ <- <-; try (by rewrite ?E2);
      (destruct (handshake_no_data ids s2 s3 o3 ltac:(by rewrite E2) E3) as [G1 G2];
       split; [by apply Forall_app|intros H; apply elem_of_app; right; by apply G2]).
  - case_bool_decide; [|done]. destruct (down_step _ _ _ _) as [r s2 o2| |] eqn:Ed; try done.
    injection He as -> ->. unfold down_step in Ed.
    destruct (_ =? SS.DATA); cbn [negb] in Ed.
    + rewrite bool_decide_eq_false_2 in Ed by done. by cbn in Ed.
    + destruct (handshake ids s) as [s2 o2] eqn:E1.
      destruct (handshake_no_data ids s s2 o2 Hs E1) as [F1 F2].
      destruct (state_ s); [..|done]; injection Ed as _ <- <-; done.
Qed.

Lemma spec_run_start ids s es s' os :
  spec_run false ids s es = Some (s', os) -> state_ s <> STATE_OK ->
  forall os1 o os2, os = os1 ++ o :: os2 -> is_data o -> ToClient msg_start ∈ os1.
Proof using.
  revert s os. induction es as [|e es IH]; intros s os Hr Hs os1 o os2 Hos Ho.
  { cbn in Hr. injection Hr as _ <-. by apply app_cons_not_nil in Hos. }
  cbn [spec_run] in Hr. apply bind_Some in Hr as ([s1 o1] & H1 & Hr).
  apply bind_Some in Hr as ([s2 o2] & H2 & Hr). injection Hr as -> <-.
  destruct (spec_step_start ids s e s1 o1 H1 Hs) as [F1 F2].
  destruct (app_eq_inv _ _ _ _ Hos) as [(r & E1 & E2)|(r & E1 & E2)].
  - destruct r as [|o' r]; cbn in E2.
    + rewrite app_nil_r in E1. subst o1. destruct (decide (state_ s1 = STATE_OK)) as [Hk|Hk].
      * by apply F2.
      * exfalso. pose proof (IH s1 o2 H2 Hk [] o os2 ltac:(by rewrite <- E2) Ho) as Hin.
        by apply not_elem_of_nil in Hin.
    + injection E2 as -> ->. subst o1. exfalso.
      apply Forall_app in F1 as [_ F1]. by apply Forall_cons in F1 as [F1 _].
  - subst os1. apply elem_of_app. destruct (decide (state_ s1 = STATE_OK)) as [Hk|Hk].
    + left. by apply F2.
    + right. by apply (IH s1 o2 H2 Hk r o os2).
Qed.

(** ** Turns *)

(** The back ends of the next [n] messages. *)
Fixpoint picks (n : nat) : M (App P ConnectorSession ConnectorApp) (list (option Z)) :=
  match n with
  | O => mret []
  | S n => q ← next_backend; qs ← picks n; mret (q :: qs)
  end.

Lemma turn_turned b :
  0 < backend_used_ b <= Z.of_nat kMaxBackEndNum -> 0 <= backend_pos_ b ->
  0 <= turn b < backend_used_ b /\ turn (turned b) = (turn b + 1) mod backend_used_ b.
Proof using.
  intros Hu Hp. unfold kMaxBackEndNum in Hu.
  assert (Ht : 0 <= turn b < backend_used_ b)
    by (unfold turn; destruct (Z.leb_spec (backend_used_ b) (backend_pos_ b)); lia).
  split; [done|]. unfold turn at 1. cbn. rewrite u32_id by lia.
  destruct (Z.leb_spec (backend_used_ b) (turn b + 1)).
  - replace (turn b + 1) with (backend_used_ b) by lia. by rewrite Z.mod_same by lia.
  - by rewrite Z.mod_small by lia.
Qed.

Lemma picks_ok n w :
  let b := backend_set (app (rest w)) in
  0 < backend_used_ b <= Z.of_nat kMaxBackEndNum -> 0 <= backend_pos_ b ->
  length (backends_ b) = kMaxBackEndNum ->
  exists qs w', picks n w = Ok (qs, w') /\ length qs = n /\
    forall i, (i < n)%nat ->
      qs !! i = backends_ b !! Z.to_nat ((turn b + Z.of_nat i) mod backend_used_ b).
Proof using.
  revert w. induction n as [|n IH]; intros w; cbn zeta; intros Hu Hp Hl.
  { exists [], w. repeat split. lia. }
  set (b := backend_set (app (rest w))) in *. destruct (turn_turned b Hu Hp) as [Ht Et].
  destruct (lookup_lt_is_Some_2 (backends_ b) (Z.to_nat (turn b))) as [q Hq].
  { rewrite Hl. lia. }
  assert (En : next_backend w = Ok (q, set_backends (turned b) w)).
  { unfold next_backend, get_backends. rewrite (bind_step _ _ _ _ _ (fw_ok _ w)).
    fold b. fold (turn b). by rewrite Hq. }
  destruct (IH (set_backends (turned b) w)) as (qs & w' & E1 & E2 & E3); cbn; try done.
  { apply u32_range. }
  exists (q :: qs), w'. cbn [picks]. rewrite (bind_step _ _ _ _ _ En), (bind_step _ _ _ _ _ E1).
  split; [done|]. split; [by rewrite <- E2|]. intros i Hi. destruct i as [|i]; cbn [lookup list_lookup].
  - rewrite Z.add_0_r, Z.mod_small by lia. by rewrite Hq.
  - change (qs !! i = backends_ b !! Z.to_nat ((turn b + Z.of_nat (S i)) mod backend_used_ b)).
    rewrite E3 by lia. cbn [set_backends rest set_rest app set_app backend_set].
    change (backends_ (turned b)) with (backends_ b).
    change (backend_used_ (turned b)) with (backend_used_ b). rewrite Et.
    do 2 f_equal. rewrite Zplus_mod_idemp_l. f_equal. lia.
Qed.
(** A message of the handshake whose first write fails. *)
Lemma Send_fails w fd p n b c ids s m :
  session_at w p c ids s ->
  mgr_ok (NetS (heap w) (frontend_handler_mgr_ (rest w))) ->
  (fd, Some p) ∈ handler_pool_ (frontend_handler_mgr_ (rest w)) ->
  nets (heap w) !! p = Some n -> hevent_ n = Some b ->
  (forall data, env_write (tick (heap w)) b data = false) ->
  SerializeAndSendToFrontEnd c m w = Fault UseAfterFree.
Proof using KOk.
  intros [A1 A2 A3 A4 A5 A6] Hok Hin Hp Hb Hw.
  pose proof A2 as (n0 & b0 & x & Hp0 & Hb0 & Hx & Hst0 & Hc & _).
  rewrite Hp in Hp0. injection Hp0 as <-. rewrite Hb in Hb0. injection Hb0 as <-.
  unfold SerializeAndSendToFrontEnd.
  rewrite (bind_step _ _ _ _ _ (load_session_ok w c s A4)), A5, A6.
  rewrite bool_decide_eq_true_2 by done. rewrite !(bind_step (assertb true) _ w tt w) by done.
  set (w1 := set_heap (set_tick (S (tick (heap w))) (heap w)) w).
  assert (Es : SendToFrontEnd (Some p) (Some (cs_SerializeToString m)) w = Ok (-1, w1)).
  { unfold SendToFrontEnd. pose proof (cs_nonempty m) as Hne.
    destruct (cs_SerializeToString m) as [|d0 d]; [done|].
    erewrite bind_step; [|apply on_net_ok; unfold EasyNet_Send;
      rewrite (bind_step _ _ _ _ _ (load_net_ok _ p n Hp)), Hb, Hst0;
      rewrite bool_decide_eq_true_2 by done; cbn [negb];
      (erewrite bind_step; [|by rewrite (bufferevent_write_ok _ b x _ Hx), Hw]); reflexivity].
    done. }
  rewrite (bind_step _ _ _ _ _ Es). cbn [Z.eqb negb]. unfold mbind, M_bind.
  rewrite (destroy_stub_faults w1 fd p c n b s); try done.
  destruct Hok as [[H1 H2 H3 H4 H5 H6 H7] Hk He Hcu]. by split; [split|..].
Qed.

Lemma front_write_fails w fd p n b c ids s msg :
  session_at w p c ids s ->
  mgr_ok (NetS (heap w) (frontend_handler_mgr_ (rest w))) ->
  (fd, Some p) ∈ handler_pool_ (frontend_handler_mgr_ (rest w)) ->
  nets (heap w) !! p = Some n -> hevent_ n = Some b ->
  state_ s <> STATE_OK -> state_ s <> STATE_SYNING ->
  in_order s (snd (cs_ParseFromArray msg)) = true ->
  (forall data, env_write (tick (heap w)) b data = false) ->
  Connector_OnRecvFrontEnd (Some p) msg w = Fault UseAfterFree.
Proof using KOk.
  intros Hsa Hok Hin Hp Hb Hst1 Hst2 Ho Hw. pose proof Hsa as [A1 A2 A3 A4 A5 A6].
  assert (Hc : user_context_ n = Some c).
  { destruct A2 as (n0 & b0 & x & Hp0 & _ & _ & _ & Hc & _). congruence. }
  unfold Connector_OnRecvFrontEnd.
  rewrite (bind_step _ _ _ _ _ (fw_ok (fun f => app_frame_stub_ (app f)) w)), A1. cbn [negb].
  rewrite (bind_step _ _ _ _ _ (GetUserContext_ok w p n Hp)), Hc.
  set (m := snd _) in *. unfold mbind at 1, M_bind at 1.
  rewrite (CheckUpSideMessage_ok w c s m A4), Ho. cbn [Z.eqb negb].
  assert (Hs1 : session_at (put_session c (note_seq m s) w) p c ids (note_seq m s))
    by (by apply put_session_at with s).
  set (s1 := note_seq m s) in *. set (w1 := put_session c s1 w) in *.
  rewrite (bind_step _ _ _ _ _ (load_session_ok w1 c s1 (sa_session _ _ _ _ _ Hs1))).
  rewrite bool_decide_eq_false_2 by done. cbn [negb].
  assert (Hok1 : mgr_ok (NetS (heap w1) (frontend_handler_mgr_ (rest w1)))).
  { destruct Hok as [[H1 H2 H3 H4 H5 H6 H7] Hk He Hcu]. split; [split|..]; try done.
    intros q m0 c0 Hq Hc0. cbn. destruct (decide (c0 = c)) as [->|Hne];
      [rewrite lookup_insert_eq; by eexists|].
    rewrite lookup_insert_ne by done. by apply (H3 q m0). }
  assert (Ed : DriveStateMachine c w1 = Fault UseAfterFree).
  { unfold DriveStateMachine.
    rewrite (bind_step _ _ _ _ _ (load_session_ok w1 c s1 (sa_session _ _ _ _ _ Hs1))).
    change (state_ s1) with (state_ s). destruct (state_ s); try done;
      unfold HandleKeyMaking, HandleAuthRequest, HandShake_OnStartAcked, mbind, M_bind;
      by rewrite (Send_fails w1 fd p n b c ids s1). }
  unfold mbind, M_bind. by rewrite Ed.
Qed.
End Proofs.

(** ** Properties *)

(** C14: [session_refinement]. As long as writes succeed and the back ends are connected, the
    callbacks do to a session exactly what [up_step] and [down_step] say.  After any sequence
    of messages that has not ended the session, of its client and of back ends under its ids,
    the session is in the promised state, the promised messages are queued, to the client and
    to the back ends in turn, and nothing else has changed; and any further message has the
    promised effect: it is answered in the same way, or it closes the connection of the
    client, with the connection and the session freed and nothing written (data that come too
    early or for another session id, without [_DEBUG]), or it ends in a use of the freed
    session (FIN in the last state).  The connection is in the table of front ends, whose
    cursor is valid. *)
Theorem session_refinement {P : Protobuf} {K : ConnectorProto} {KOk : ConnectorProtoOk K}
    {E : NetEnv ConnectorSession} _DEBUG
    (w : App P ConnectorSession ConnectorApp) fd p c ids s es s1 os :
  writes_succeed E -> session_at w p c ids s -> in_table fd p w ->
  spec_run _DEBUG ids s es = Some (s1, os) ->
  let w1 := put_session c s1 (deliver_all p os w) in
  handle_all _DEBUG p es w = Ok (tt, w1) /\ session_at w1 p c ids s1 /\
  forall e, under ids e -> reacts _DEBUG fd p c e w1 (reaction_to _DEBUG ids s1 e).
Proof.
  intros HW Hsa Ht Hr w1. destruct (handle_all_ok HW _DEBUG w p c ids s es s1 os Hsa Hr) as [H1 H2].
  split; [done|]. split; [done|]. intros e Hu. apply (handle_reacts HW _ _ _ _ _ ids s1); [done| |done].
  by apply (in_table_reacted fd w p c ids s).
Qed.

(** C19: [data_after_start]. Without [_DEBUG], whatever the client sends and whatever back ends
    send under its ids, in whatever order, while writes succeed: no data go up or down before
    the client was told to start.  The messages are handled one after the other up to the
    end, or up to the first one that ends the session; what is queued by then has no data
    before the start, and the message that ends the session queues nothing: it closes the
    connection, or it is the FIN that ends in a use of the freed session. *)
Theorem data_after_start {P : Protobuf} {K : ConnectorProto} {KOk : ConnectorProtoOk K}
    {E : NetEnv ConnectorSession}
    (w : App P ConnectorSession ConnectorApp) fd p c ids s es :
  writes_succeed E -> session_at w p c ids s -> in_table fd p w -> state_ s <> STATE_OK ->
  Forall (under ids) es ->
  exists es1 es2 s1 os, es = es1 ++ es2 /\
    let w1 := put_session c s1 (deliver_all p os w) in
    handle_all false p es1 w = Ok (tt, w1) /\
    (forall os1 o os2, os = os1 ++ o :: os2 -> is_data o -> ToClient msg_start ∈ os1) /\
    match es2 with
    | [] => True
    | e :: _ => (exists w2, handle false p e w1 = Ok (tt, w2) /\ closed fd p c w1 w2) \/
                handle false p e w1 = Fault UseAfterFree
    end.
Proof.
  intros HW Hsa Ht Hs Hu. destruct (run_splits false ids es s Hu) as (es1 & es2 & s1 & os & -> & Hr & Hend).
  exists es1, es2, s1, os. split; [done|]. intros w1.
  destruct (handle_all_ok HW false w p c ids s es1 s1 os Hsa Hr) as [H1 H2]. split; [done|].
  split; [by apply (spec_run_start ids s es1 s1)|]. destruct es2 as [|e es2]; [done|].
  apply Forall_app in Hu as [_ [Hue _]%Forall_cons].
  pose proof (handle_reacts HW false fd w1 p c ids s1 e H2 (in_table_reacted fd w p c ids s _ _ Hsa Ht) Hue)
    as He.
  destruct Hend as [E1|E1]; rewrite E1 in He; [by left|by right].
Qed.

(** C37: [client_only_handshake]. Three messages with the right magic and consecutive
    sequence numbers bring a new session to [STATE_OK], whatever their kinds and
    bodies: the client need not authenticate, and the back end need not acknowledge. *)
Theorem client_only_handshake {P : Protobuf} {K : ConnectorProto} {KOk : ConnectorProtoOk K}
    {E : NetEnv ConnectorSession} _DEBUG
    (w : App P ConnectorSession ConnectorApp) p c ids s msg1 msg2 msg3 q b1 b2 b3 :
  writes_succeed E -> session_at w p c ids s -> state_ s = STATE_INIT -> last_seq_ s = 0 ->
  0 < q -> q + 2 < 9223372036854775808 ->
  snd (cs_ParseFromArray msg1) = {| CS.head := {| CS.magic := CS.MAGIC_CS_V1;
    CS.sequence := q; CS.bodyid := fst b1 |}; CS.body := snd b1 |} ->
  snd (cs_ParseFromArray msg2) = {| CS.head := {| CS.magic := CS.MAGIC_CS_V1;
    CS.sequence := q + 1; CS.bodyid := fst b2 |}; CS.body := snd b2 |} ->
  snd (cs_ParseFromArray msg3) = {| CS.head := {| CS.magic := CS.MAGIC_CS_V1;
    CS.sequence := q + 2; CS.bodyid := fst b3 |}; CS.body := snd b3 |} ->
  handle_all _DEBUG p [FromClient msg1; FromClient msg2; FromClient msg3] w
  = Ok (tt, put_session c (set_state_ STATE_OK (set_last_seq (q + 2) s))
              (deliver_all p [ToClient msg_synack; ToClient msg_passport;
                              ToBackEnd (msg_syn ids (sid_ s)); ToClient msg_start] w)).
Proof.
  intros HW Hsa Hst Hseq Hq1 Hq2 H1 H2 H3. eapply handle_all_ok; [done|exact Hsa|].
  cbn [spec_run spec_step]. rewrite H1, H2, H3. unfold up_step, in_order, note_seq.
  cbn [CS.head CS.magic CS.sequence]. rewrite Hseq. cbn [Z.eqb andb orb negb].
  rewrite !u64_id by lia. destruct s as [st ns ch sd fr ls]. cbn in Hst, Hseq. subst st ls.
  assert (E1 : (q =? 0) = false) by lia. assert (E2 : (q + 1 =? 0) = false) by lia.
  cbn. rewrite E1, (u64_id (q + 1)), Z.eqb_refl by lia.
  cbn. rewrite E2, (u64_id (q + 1 + 1)) by lia. replace (q + 2 =? q + 1 + 1) with true by lia.
  reflexivity.
Qed.

(** C38: [freed_session_written]. A [FIN] from a back end for a session in [STATE_OK], or a
    write that fails in the handshake, destroys the connection of the client, and with
    it the session; the pointer to the connection, which is then set to NULL, is in
    this session. *)
Theorem freed_session_written {P : Protobuf} {K : ConnectorProto} {KOk : ConnectorProtoOk K}
    {E : NetEnv ConnectorSession}
    (w : App P ConnectorSession ConnectorApp) fd p n b c ids s :
  session_at w p c ids s ->
  mgr_ok (NetS (heap w) (frontend_handler_mgr_ (rest w))) ->
  (fd, Some p) ∈ handler_pool_ (frontend_handler_mgr_ (rest w)) ->
  nets (heap w) !! p = Some n -> hevent_ n = Some b ->
  (forall _DEBUG net msg, let m := snd (ss_ParseFromArray msg) in
     state_ s = STATE_OK -> SS.bodyid (SS.head m) = SS.FIN ->
     (SS.fd (SS.head m), SS.nid (SS.head m)) = ids ->
     Connector_OnRecvBackEnd _DEBUG net msg w = Fault UseAfterFree) /\
  (forall msg, state_ s <> STATE_OK -> state_ s <> STATE_SYNING ->
     in_order s (snd (cs_ParseFromArray msg)) = true ->
     (forall data, env_write (tick (heap w)) b data = false) ->
     Connector_OnRecvFrontEnd (Some p) msg w = Fault UseAfterFree).
Proof.
  intros Hsa Hok Hin Hp Hb. pose proof Hsa as [A1 A2 A3 A4 A5 A6].
  split.
  - intros dbg net msg m Hst Hm Hids. by apply (stop_faults dbg fd w p c ids s).
  - intros msg Hst1 Hst2 Ho Hw. by apply (front_write_fails w fd p n b c ids s).
Qed.

(** The back ends take messages in turn: message [i] goes to the back end
    [i] places behind the one whose turn it is, around the set, and the array is never
    read outside. *)
Theorem round_robin {P : Protobuf} (w : App P ConnectorSession ConnectorApp) n :
  let b := backend_set (app (rest w)) in
  0 < backend_used_ b <= Z.of_nat kMaxBackEndNum -> 0 <= backend_pos_ b ->
  length (backends_ b) = kMaxBackEndNum ->
  exists qs w', picks n w = Ok (qs, w') /\ length qs = n /\
    forall i, (i < n)%nat ->
      qs !! i = backends_ b !! Z.to_nat ((turn b + Z.of_nat i) mod backend_used_ b).
Proof. apply picks_ok. Qed.

(** ** A concrete connector *)

(** Messages of two bytes: the body id and the sequence number, or the ids. *)
#[export] Instance two_bytes : ConnectorProto :=
  { cs_SerializeToString m := [CS.bodyid (CS.head m); CS.sequence (CS.head m)];
    cs_ParseFromArray l :=
      (true, cs_msg (default 0 (l !! 1%nat)) (default 0 (l !! 0%nat)) (cs_body None None None (Some l)));
    ss_SerializeToString m := [SS.bodyid (SS.head m); SS.sequence (SS.head m)];
    ss_ParseFromArray l :=
      (true, ss_msg (default 0 (l !! 1%nat)) (default 0 (l !! 0%nat)) (9, 1) 77
               (ss_body (Some (Some l)) None None)) }.
#[export] Instance two_bytes_ok : ConnectorProtoOk two_bytes.
Proof. by split. Qed.

Definition session_env (writes : bool) : NetEnv ConnectorSession := {|
  env_new _ h := Some (fresh (dom h)); env_bev _ h := Some (fresh (dom h));
  env_calloc _ h := Some (fresh (dom h)); env_connect _ h _ := Some (next_fd h);
  env_write _ _ _ := writes; env_kernel := quiet_kernel; zero := ConnectorSession_new
|}.
Lemma session_env_writes : writes_succeed (session_env true).
Proof. done. Qed.

(** A client at 3 with its session at 8 and a back end at 5. *)
Definition client_net : EasyNet := set_user_context (Some 8) (set_link 4 0 NET_ESTABLISHED (fresh_net 1)).
Definition session_in (st : SessionState) : ConnectorSession :=
  {| state_ := st; net_stub_ := Some 3; channel_id_ := -1; sid_ := 77; frame_stub_ := true;
     last_seq_ := 0 |}.
Definition client_heap (st : SessionState) : Heap ConnectorSession := {|
  nets := <[3 := client_net]> {[ 5 := set_link 6 0 NET_ESTABLISHED (fresh_net 2) ]};
  bevs := <[4 := {| bev_fd := 9; input := []; output := [] |}]>
            {[ 6 := {| bev_fd := 10; input := []; output := [] |} ]};
  uctxs := {[ 8 := session_in st ]}; cbs := {[ 4 := frontend_cb_funcs; 6 := backend_cb_funcs ]};
  nid_seed := 3; tick := 6; ksys := []
|}.
Definition one_backend : ConnectorApp :=
  {| app_frame_stub_ := true;
     backend_set := {| backend_pos_ := 0; backend_used_ := 1;
                       backends_ := Some 5 :: replicate 31 None |} |}.
Definition connector_world (st : SessionState) : App plain_protobuf ConnectorSession ConnectorApp :=
  let f := demo_framework (mgr one_handler) no_nets TimerMgr_new in
  {| heap := client_heap st; gen := GenSt_new; rpcs := ∅; rpc_ctxs := ∅; closures := ∅;
     asyncid_seed := 0; buf := [];
     rest := {| app_ := true; event_base_ := true; handles := handles f; schedule_update_ := false;
                setting_ := setting_ f; running_ := true; reloading_ := false; now_ := 50;
                frontend_handler_mgr_ := mgr one_handler; backend_handler_mgr_ := no_nets;
                timer_mgr_ := TimerMgr_new; rpc_scheduler_ := true; rpc_svc_mgr_ := None;
                svc_mode_ := SVC_MODE_NORMAL; loopbreak := false; app := one_backend |} |}.

Lemma connector_session st : session_at (connector_world st) 3 8 (9, 1) (session_in st).
Proof.
  split; try done.
  - exists client_net, 4, {| bev_fd := 9; input := []; output := [] |}. by repeat split.
  - split; [done|]. split; [done|]. intros i Hi. cbn in Hi. replace i with 0 by lia.
    exists 5. split; [done|]. exists (set_link 6 0 NET_ESTABLISHED (fresh_net 2)), 6,
      {| bev_fd := 10; input := []; output := [] |}. by repeat split.
Qed.

Lemma connector_table st :
  mgr_ok (NetS (heap (connector_world st)) (frontend_handler_mgr_ (rest (connector_world st)))).
Proof.
  split; cbn.
  - split; cbn.
    + intros q m b [[<- <-]|[_ [<- <-]%lookup_singleton_Some]]%lookup_insert_Some [= <-];
        by eexists.
    + intros q r m m' b [[<- <-]|[_ [<- <-]%lookup_singleton_Some]]%lookup_insert_Some
        [[<- <-]|[_ [<- <-]%lookup_singleton_Some]]%lookup_insert_Some [= <-]; by intros [= ].
    + intros q m b [[<- <-]|[_ [<- <-]%lookup_singleton_Some]]%lookup_insert_Some [= <-].
      by eexists.
    + intros q r m m' b [[<- <-]|[_ [<- <-]%lookup_singleton_Some]]%lookup_insert_Some
        [[<- <-]|[_ [<- <-]%lookup_singleton_Some]]%lookup_insert_Some [= <-]; by intros [= ].
    + intros b c x y [[<- <-]|[_ [<- <-]%lookup_singleton_Some]]%lookup_insert_Some
        [[<- <-]|[_ [<- <-]%lookup_singleton_Some]]%lookup_insert_Some; done.
    + intros q m [[<- <-]|[_ [<- <-]%lookup_singleton_Some]]%lookup_insert_Some; cbn; lia.
    + intros q r m m' [[<- <-]|[_ [<- <-]%lookup_singleton_Some]]%lookup_insert_Some
        [[<- <-]|[_ [<- <-]%lookup_singleton_Some]]%lookup_insert_Some; done.
  - repeat constructor. by apply not_elem_of_nil.
  - constructor; [|constructor].
    exists 3, client_net, 4, {| bev_fd := 9; input := []; output := [] |}. by repeat split.
  - by constructor.
Qed.

Lemma connector_in_table st : in_table 9 3 (connector_world st).
Proof. split; [apply connector_table|by constructor|done]. Qed.

(** A whole session, and the FIN that ends it. *)
Lemma session_refinement_witness :
  let w1 := put_session 8 (set_last_seq 3 (session_in STATE_OK))
         (deliver_all 3 [ToClient msg_synack; ToClient msg_passport; ToBackEnd (msg_syn (9, 1) 77);
                         ToClient msg_start; ToBackEnd (msg_up 3 (9, 1) 77 [16; 3]);
                         ToClient (msg_down 1 [5; 1])] (connector_world STATE_INIT)) in
  handle_all (E := session_env true) false 3
    [FromClient [1; 1]; FromClient [3; 2]; FromBackEnd None [2; 1]; FromClient [16; 3];
     FromBackEnd None [5; 1]] (connector_world STATE_INIT) = Ok (tt, w1) /\
  handle (E := session_env true) false 3 (FromBackEnd None [4; 2]) w1 = Fault UseAfterFree.
Proof.
  destruct (session_refinement (E := session_env true) false
    (connector_world STATE_INIT) 9 3 8 (9, 1) (session_in STATE_INIT)
    [FromClient [1; 1]; FromClient [3; 2]; FromBackEnd None [2; 1]; FromClient [16; 3];
     FromBackEnd None [5; 1]] (set_last_seq 3 (session_in STATE_OK))
    [ToClient msg_synack; ToClient msg_passport; ToBackEnd (msg_syn (9, 1) 77);
     ToClient msg_start; ToBackEnd (msg_up 3 (9, 1) 77 [16; 3]); ToClient (msg_down 1 [5; 1])]
    session_env_writes (connector_session _) (connector_in_table _)) as (H1 & _ & H2);
    [reflexivity|].
  exact (conj H1 (H2 (FromBackEnd None [4; 2]) eq_refl)).
Defined.

(** Data of a back end that come before the start close the connection. *)
Lemma data_after_start_witness :
  exists es1 es2 w1, [FromClient [1; 1]; FromBackEnd None [5; 1]; FromClient [3; 2]] = es1 ++ es2 /\
    handle_all (E := session_env true) false 3 es1 (connector_world STATE_INIT) = Ok (tt, w1).
Proof.
  destruct (data_after_start (E := session_env true)
    (connector_world STATE_INIT) 9 3 8 (9, 1) (session_in STATE_INIT)
    [FromClient [1; 1]; FromBackEnd None [5; 1]; FromClient [3; 2]]
    session_env_writes (connector_session _) (connector_in_table _))
    as (es1 & es2 & s1 & os & E1 & H1 & _); [discriminate|by repeat constructor|].
  exact (ex_intro _ es1 (ex_intro _ es2 (ex_intro _ _ (conj E1 H1)))).
Defined.

(** Three messages of a kind that the handshake does not know. *)
Lemma client_only_handshake_witness :
  handle_all (E := session_env true) true 3
    [FromClient [99; 5]; FromClient [99; 6]; FromClient [99; 7]] (connector_world STATE_INIT)
  = Ok (tt, put_session 8 (set_state_ STATE_OK (set_last_seq 7 (session_in STATE_INIT)))
         (deliver_all 3 [ToClient msg_synack; ToClient msg_passport;
                         ToBackEnd (msg_syn (9, 1) 77); ToClient msg_start]
            (connector_world STATE_INIT))).
Proof.
  apply (client_only_handshake (E := session_env true) true
    (connector_world STATE_INIT) 3 8 (9, 1) (session_in STATE_INIT) _ _ _ 5
    (99, cs_body None None None (Some [99; 5])) (99, cs_body None None None (Some [99; 6]))
    (99, cs_body None None None (Some [99; 7])));
    [exact session_env_writes|apply connector_session|done|done|lia|lia|done..].
Defined.

Lemma freed_session_written_witness :
  Connector_OnRecvBackEnd (E := session_env true) false None [4; 1]
    (connector_world STATE_OK) = Fault UseAfterFree /\
  Connector_OnRecvFrontEnd (E := session_env false) (Some 3) [1; 1]
    (connector_world STATE_INIT) = Fault UseAfterFree.
Proof.
  split.
  - apply (freed_session_written (E := session_env true)
      (connector_world STATE_OK) 9 3 client_net 4 8 (9, 1) (session_in STATE_OK));
      [apply connector_session|apply connector_table|by constructor|done..].
  - apply (freed_session_written (E := session_env false)
      (connector_world STATE_INIT) 9 3 client_net 4 8 (9, 1) (session_in STATE_INIT));
      [apply connector_session|apply connector_table|by constructor|done..].
Defined.

Lemma round_robin_witness :
  exists w', picks 2 (connector_world STATE_OK) = Ok ([Some 5; Some 5], w').
Proof.
  destruct (round_robin (connector_world STATE_OK) 2) as (qs & w' & E1 & E2 & E3);
    [split; done|done|reflexivity|].
  exists w'. rewrite E1. do 2 f_equal.
  destruct qs as [|q0 [|q1 [|]]]; try done.
  pose proof (E3 0%nat ltac:(lia)) as F0. pose proof (E3 1%nat ltac:(lia)) as F1.
  vm_compute in F0, F1. by injection F0 as ->; injection F1 as ->.
Defined.
