(* ===== verification/ConnectorStart.v ===== *)
(** * The start of the connector: its back ends

    [OnInit] of the connector in a framework that [Lifecycle] has brought up: the connections
    to the configured back ends join the tables of [Reactor]. *)
From Stdlib Require Import ZArith Lia.
From stdpp Require Import base functions list gmap fin_maps strings.
From S2P Require Import Prelude CLib TcpSocket Timer Coroutine EasyNet NetMgr Tables RpcMsg EasyRpc.
From S2P Require Import Framework Connector MsgLoop CallPath Reactor Servers.
Local Open Scope Z_scope.

(** ** A new back end of any application *)

Section BackEnds.
Context {P : Protobuf} {C A : Type} {E : NetEnv C} {HO : HashOrder}.
Context {EOk : NetEnvOk E} {HOk : HashOrderOk HO} {RA : RapidApp (App P C A)} {PE : Peers}.
Implicit Types (w : App P C A) (n : EasyNet).

Definition with_back (h : Heap C) (m : NetHandlerMgr) w : App P C A :=
  set_rest (set_backend m (rest w)) (set_heap h w).

Lemma wired_with_back room h m w :
  wired room w -> tables stream_part h (handler_pool_ m) (handler_pool_ (front w)) ->
  holds m (handler_pool_ m) -> recv_buffer_ m = recv_buffer_ (back w) -> 1 <= nid_seed h ->
  wired room (with_back h m w).
Proof using. intros [H1 H2 H3 H4 H5 H6 H7 H8 H9] Ht Hm Hb Hs. split; try done. cbn. by rewrite Hb. Qed.

(** The connection [p] is on its way to the peer that [uri] names. *)
Definition bound_for w (p : Z) (uri : bytes) : Prop :=
  exists n, nets (heap w) !! p = Some n /\ EasyNet.state_ n = NET_CONNECTING /\ uri_ n = uri.

(** What [CreateBackEnd] makes of the framework. *)
Record connected (uri : bytes) w w' (o : option Z) : Prop := {
  cn_seed : nid_seed (heap w) <= nid_seed (heap w') <= nid_seed (heap w) + 1;
  cn_app : app (rest w') = app (rest w);
  cn_backs q : is_back q w' <-> is_back q w \/ o = Some q;
  cn_kept q u : bound_for w q u -> bound_for w' q u;
  cn_new p : o = Some p -> ~ is_back p w /\ bound_for w' p uri
}.

Lemma CreateBackEnd_wired room w uri type :
  (0 <? GetBackEndContextSize) = false -> wired room w -> nid_seed (heap w) < 2147483647 ->
  exists o w', CreateBackEnd (Some uri) type w = Ok (o, w') /\ wired room w' /\ connected uri w w' o.
Proof using EOk HOk.
  intros Hsize Hw Hseed. pose proof (wi_seed _ _ Hw) as Hpos.
  destruct (connect_back stream_part (heap w) (handler_pool_ (front w)) (back w) (Some uri) type
    (event_base_ (rest w)) (wi_tables _ _ Hw) (wi_back _ _ Hw) stream_part_nil (conj Hpos Hseed))
    as (o & h & m & Hrun & Hr & Hs & Hh & Ho).
  assert (Hadd : on_backend (AddHandlerByUri (Some uri) type (event_base_ (rest w))) w
    = Ok (o, with_back h m w)) by (by erewrite on_backend_ok by exact Hrun).
  unfold CreateBackEnd. rewrite (bind_step _ _ _ _ _ (fw_ok event_base_ w)).
  rewrite (bind_step _ _ _ _ _ Hadd). destruct o as [p|].
  2: { destruct Ho as (El & En & Ht). exists None, (with_back h m w). split; [done|]. rewrite <- El in Ht.
       split; [apply wired_with_back; try done; lia|]. split; try done.
       - intros q. unfold is_back, back. cbn. rewrite El. split; [by left|]. by intros [?|?].
       - intros q u. unfold bound_for. cbn. by rewrite En. }
  destruct Ho as (n & b & x & He & Huri & Hperm & Ht). set (w1 := with_back h m w).
  assert (Hn : nets h !! p = Some n) by (rewrite (ex_nets _ _ _ _ _ _ _ He); apply lookup_insert_eq).
  assert (Hx : bevs h !! b = Some x) by (rewrite (ex_bevs _ _ _ _ _ _ _ He); apply lookup_insert_eq).
  rewrite (bind_step _ _ w1 n w1) by (by rewrite (on_net_ok _ _ _ _ (load_net_ok (heap w1) p n Hn))).
  rewrite (ex_link _ _ _ _ _ _ _ He). rewrite (bind_step (nonnull _) _ w1 b w1) by done.
  set (hc := set_cbs (<[b := backend_cb_funcs]> (cbs h)) h).
  rewrite (bind_step _ _ w1 tt (with_back hc m w)).
  2: { erewrite on_net_ok by (by apply (setcb_ok (heap w1) b x)). done. }
  rewrite Hsize. rewrite (bind_step (mret _) _ _ (Some p) (with_back hc m w)) by done.
  rewrite (bind_step (nonnull _) _ _ p (with_back hc m w)) by done.
  rewrite (bind_step _ _ _ _ _ (fw_ok now_ _)).
  set (n' := set_active_time (now_ (rest (with_back hc m w))) n).
  set (h' := set_nets (<[p := n']> (nets hc)) hc).
  rewrite (bind_step _ _ _ tt (with_back h' m w)) by exact (on_net_upd p (with_back hc m w) n _ Hn).
  exists (Some p), (with_back h' m w). split; [done|]. split.
  - apply wired_with_back; try done; [|cbn; lia].
    apply (tables_same stream_part hc); [|done]. by apply (same_links_net stream_part hc p n).
  - split; try done.
    + intros q. unfold is_back, back, with_back. cbn. split.
      * intros [fd Hin]. rewrite Hperm in Hin. apply elem_of_cons in Hin as [[= _ ->]|Hin]; [by right|].
        left. by exists fd.
      * intros [[fd Hin]|[= ->]]; [exists fd; rewrite Hperm; by right|].
        exists (bev_fd x). rewrite Hperm. by left.
    + intros q u (m0 & Hm0 & Hst). exists m0. split; [|done]. cbn.
      pose proof (ex_net _ _ _ _ _ _ _ He) as Hno. rewrite (ex_nets _ _ _ _ _ _ _ He).
      by rewrite !lookup_insert_ne by congruence.
    + intros q [= <-]. split.
      * intros [fd Hin]. pose proof (ta_entries _ _ _ _ (wi_tables _ _ Hw)) as Hall.
        apply Forall_app in Hall as [Hall _]. rewrite Forall_forall in Hall.
        destruct (Hall _ Hin) as (r & n0 & _ & _ & [= <-] & Hr0 & _).
        by rewrite (ex_net _ _ _ _ _ _ _ He) in Hr0.
      * exists n'. split; [apply lookup_insert_eq|]. split; [apply (ex_state _ _ _ _ _ _ _ He)|].
        by injection Huri.
Qed.
End BackEnds.

(** ** The back ends of the connector *)

(** The set holds the connections [ps] in their order, as many as it has room for. *)
Definition filled (ps : list Z) (b : BackEndSet) : Prop :=
  backend_pos_ b = 0 /\ backend_used_ b = Z.of_nat (length ps `min` kMaxBackEndNum) /\
  backends_ b = take kMaxBackEndNum ((Some <$> ps) ++ replicate kMaxBackEndNum None).

Lemma filled_new : filled [] BackEndSet_new.
Proof. done. Qed.

Section Start.
Context {P : Protobuf} {K : ConnectorProto} {E : NetEnv ConnectorSession} {HO : HashOrder}.
Context {EOk : NetEnvOk E} {HOk : HashOrderOk HO} {PE : Peers}.
Context (_DEBUG : bool) (sizeof_ConnectorSession : Z) (room : nat).
Abbreviation W := (App P ConnectorSession ConnectorApp).
Implicit Types (w : W).
#[local] Instance the_connector : RapidApp W := connector_callbacks _DEBUG sizeof_ConnectorSession.

Definition the_set w : BackEndSet := backend_set (app (rest w)).
Definition with_app (a : ConnectorApp) w : W := set_rest (set_app a (rest w)) w.

Lemma wired_with_app a w : wired room w -> wired room (with_app a w).
Proof using. by intros []; split. Qed.

Lemma take_pad (l : list (option Z)) m :
  (length l <= m)%nat -> take m (l ++ replicate m None) = l ++ replicate (m - length l) None.
Proof using. intros H. by rewrite take_app, take_ge, take_replicate, Nat.min_l by lia. Qed.

(** One more is written behind the others, or left out. *)
Lemma filled_add ps p b :
  filled ps b -> backend_used_ b < Z.of_nat kMaxBackEndNum ->
  filled (ps ++ [p]) {| backend_pos_ := backend_pos_ b; backend_used_ := u32 (backend_used_ b + 1);
    backends_ := <[Z.to_nat (backend_used_ b) := Some p]> (backends_ b) |}.
Proof using.
  intros (Hp & Hu & Hb) Hlt. assert (Hl : (length ps < kMaxBackEndNum)%nat) by lia.
  rewrite Hu, Nat.min_l by lia. unfold filled. cbn [backend_pos_ backend_used_ backends_].
  split; [done|]. rewrite length_app, Nat.min_l by (cbn; lia). split.
  - unfold kMaxBackEndNum in Hl. rewrite u32_id by lia. cbn. lia.
  - rewrite Hb, Nat2Z.id, fmap_app. cbn [fmap list_fmap].
    assert (Hlen : length (Some <$> ps) = length ps) by apply length_fmap.
    rewrite !take_pad by (rewrite ?length_app, Hlen; cbn; lia). rewrite length_app, Hlen. cbn [length].
    replace (kMaxBackEndNum - length ps)%nat with (S (kMaxBackEndNum - (length ps + 1))) by lia.
    rewrite <- (Nat.add_0_r (length ps)) at 1. rewrite <- Hlen at 1.
    by rewrite insert_app_r, <- app_assoc.
Qed.

Lemma filled_full ps p b :
  filled ps b -> Z.of_nat kMaxBackEndNum <= backend_used_ b -> filled (ps ++ [p]) b.
Proof using.
  intros (Hp & Hu & Hb) Hge. assert (Hl : (kMaxBackEndNum <= length ps)%nat) by lia.
  split; [done|]. rewrite length_app, Hu, !Nat.min_r by lia. split; [done|].
  rewrite Hb, fmap_app, <- app_assoc, !take_app_le by (rewrite length_fmap; lia). done.
Qed.

Lemma AddBackEnd_ok ps p w :
  filled ps (the_set w) ->
  exists r a, AddBackEnd (Some p) w = Ok (r, with_app a w) /\
    filled (ps ++ [p]) (backend_set a) /\ app_frame_stub_ a = app_frame_stub_ (app (rest w)).
Proof using.
  intros Hf. unfold AddBackEnd, get_backends. rewrite (bind_step _ _ _ _ _ (fw_ok _ w)). fold (the_set w).
  destruct (Z.leb_spec (Z.of_nat kMaxBackEndNum) (backend_used_ (the_set w))) as [Hle|Hlt].
  - eexists _, (app (rest w)). split; [by destruct w as [? ? ? ? ? ? ? []]|].
    split; [by apply filled_full|done].
  - eexists _, {| app_frame_stub_ := app_frame_stub_ (app (rest w)); backend_set := _ |}.
    split; [done|]. split; [by apply filled_add|done].
Qed.

(** The loop of [OnInit]: it stops at the first connection that cannot be made. *)
Lemma create_backends_ok uris : forall ps w,
  wired room w -> nid_seed (heap w) + Z.of_nat (length uris) <= 2147483647 ->
  filled ps (the_set w) -> NoDup ps -> Forall (fun p => is_back p w) ps ->
  exists r w' qs, create_backends the_connector uris w = Ok (r, w') /\ wired room w' /\
    filled (ps ++ qs) (the_set w') /\ NoDup (ps ++ qs) /\
    app_frame_stub_ (app (rest w')) = app_frame_stub_ (app (rest w)) /\
    (forall q, is_back q w' <-> is_back q w \/ q ∈ qs) /\
    (forall q u, bound_for w q u -> bound_for w' q u) /\
    Forall2 (bound_for w') qs (take (length qs) uris) /\
    (r = 0 /\ length qs = length uris \/ r = -1 /\ (length qs < length uris)%nat).
Proof using EOk HOk.
  induction uris as [|uri uris IH]; intros ps w Hw Hseed Hf Hnd Hps.
  { exists 0, w, []. rewrite app_nil_r. repeat (split; [done|]). split; [|by repeat split; auto].
    intros q. split; [by left|]. by intros [?|?%not_elem_of_nil]. }
  cbn [length] in Hseed.
  destruct (CreateBackEnd_wired room w uri 0) as (o & w1 & Hrun & Hw1 & [Hs1 Ha1 Hb1 Hk1 Hn1]);
    [done|done|lia|].
  cbn [create_backends]. rewrite (bind_step _ _ _ _ _ Hrun). destruct o as [p|].
  2: { exists (-1), w1, []. rewrite app_nil_r. unfold the_set. rewrite Ha1.
       repeat (split; [done|]).
       split; [|split; [exact Hk1|split; [constructor|right; split; [done|cbn; lia]]]].
       intros q. rewrite Hb1. split; [by intros [?|?]; [left|]|].
       by intros [?|?%not_elem_of_nil]; [left|]. }
  destruct (AddBackEnd_ok ps p w1) as (ra & a & Hadd & Hfa & Hst); [unfold the_set; by rewrite Ha1|].
  rewrite (bind_step _ _ _ _ _ Hadd). destruct (Hn1 p eq_refl) as [Hnew Hto].
  destruct (IH (ps ++ [p]) (with_app a w1)) as (r & w' & qs & Hr & Hw' & Hf' & Hnd' & Hst' & Hb' & Hk' & Hto' & Hres).
  - by apply wired_with_app.
  - cbn. lia.
  - done.
  - apply NoDup_app. split; [done|]. split; [|apply NoDup_singleton].
    intros q Hq ->%list_elem_of_singleton. rewrite Forall_forall in Hps. by apply Hnew, Hps.
  - apply Forall_app. split; [|constructor; [by apply Hb1; right|constructor]].
    eapply Forall_impl; [exact Hps|]. intros q Hq. apply Hb1. by left.
  - rewrite <- app_assoc in *. exists r, w', (p :: qs). split; [done|]. split; [done|].
    split; [done|]. split; [done|]. split; [by rewrite Hst'; cbn; rewrite Hst, Ha1|]. split.
    + intros q. rewrite Hb', elem_of_cons. change (is_back q (with_app a w1)) with (is_back q w1).
      rewrite Hb1. split; [intros [[?|[= ->]]|?]; auto|intros [?|[->|?]]; auto].
    + split; [intros q u Hq; by apply Hk', Hk1|]. split; [by constructor; [apply Hk'|]|].
      cbn [length]. destruct Hres as [[? ?]|[? ?]]; [left|right]; split; (done || lia).
Qed.
End Start.

(** ** Properties *)

(** C20: [connector_start]. However the reading of the configuration and the connections end,
    [OnInit] of the connector returns and leaves the framework ready for its loop: every back
    end that was made is in the table of the back ends under callbacks of its own, and the set
    the sessions choose from holds exactly those, in the order of the configuration, up to the
    32 it has room for: the i-th of them is a new connection on its way to the i-th URI of the
    configuration.  It succeeds exactly when the configuration could be read and names a back
    end, and each of the back ends could be connected to; after a failure the connections are
    those to the URIs before the one that failed.  The framework is one whose tables are in
    order, with an empty set and with numbers left for the new connections. *)
Theorem connector_start {P : Protobuf} {K : ConnectorProto} {E : NetEnv ConnectorSession}
    {EOk : NetEnvOk E} {HO : HashOrder} {HOk : HashOrderOk HO} {CF : ConfigFile} {PE : Peers}
    _DEBUG size room
    (w : App P ConnectorSession ConnectorApp) :
  wired room w -> nid_seed (heap w) + Z.of_nat (length (snd SetUpAndCheckConfig)) <= 2147483647 ->
  the_set w = BackEndSet_new ->
  exists r w' ps, OnInit (connector_callbacks _DEBUG size) true w = Ok (r, w') /\ wired room w' /\
    filled ps (the_set w') /\ NoDup ps /\ app_frame_stub_ (app (rest w')) = true /\
    (forall q, is_back q w' <-> is_back q w \/ q ∈ ps) /\
    Forall2 (bound_for w') ps (take (length ps) (snd SetUpAndCheckConfig)) /\ (r = 0 \/ r = -1) /\
    (r = 0 <-> fst SetUpAndCheckConfig = 0 /\ length ps = length (snd SetUpAndCheckConfig)) /\
    (r = 0 -> ps <> []).
Proof.
  intros Hw Hseed Hset. unfold OnInit. cbn [negb].
  set (a0 := {| app_frame_stub_ := true; backend_set := the_set w |}).
  rewrite (bind_step (upd_fw _) _ w tt (with_app a0 w)) by done.
  assert (Hconf : fst SetUpAndCheckConfig = 0 -> snd SetUpAndCheckConfig <> []).
  { unfold SetUpAndCheckConfig. repeat (case_match; try done). by destruct (conf_backends conf_text). }
  destruct SetUpAndCheckConfig as [ret uris]. cbn [fst snd] in *.
  destruct (Z.eqb_spec ret 0) as [->|Hret]; cbn [negb].
  2: { exists (-1), (with_app a0 w), []. split; [done|]. split; [by apply wired_with_app|].
       split; [unfold the_set; cbn; by rewrite Hset|]. split; [constructor|]. split; [done|].
       split; [|split; [constructor|split; [by right|split; [by split; [|intros [? _]]|done]]]].
       intros q. change (is_back q (with_app a0 w)) with (is_back q w).
       split; [by left|]. by intros [?|?%not_elem_of_nil]. }
  destruct (create_backends_ok _DEBUG size room uris [] (with_app a0 w))
    as (r & w' & qs & Hr & Hw' & Hf & Hnd & Hst & Hb & _ & Hto & Hres); try done.
  { by apply wired_with_app. }
  { unfold the_set. cbn. rewrite Hset. apply filled_new. }
  { constructor. }
  exists r, w', qs. split; [exact Hr|]. split; [done|]. split; [done|]. split; [done|].
  split; [done|]. split; [exact Hb|]. split; [exact Hto|]. split; [destruct Hres as [[-> _]|[-> _]]; auto|].
  split; [destruct Hres as [[-> ?]|[-> ?]]; split; [done|done|done|intros [_ ?]; lia]|].
  intros ->. destruct Hres as [[_ Hl]|[? _]]; [|done]. intros ->. cbn in Hl.
  by apply Hconf; [|destruct uris].
Qed.

(** Two back ends on a machine where connections can be made, and one URI that is none. *)
Definition two_uris (second : string) : ConfigFile := {|
  conf_fopen := true; conf_fseek := true; conf_calloc := true; conf_ferror := false;
  conf_text := []; conf_backends _ := [bytes_of_string "tcp://127.0.0.1:9001"%string;
                                       bytes_of_string second] |}.
Definition new_connector : App plain_protobuf ConnectorSession ConnectorApp :=
  let w := connector_world STATE_INIT in
  set_rest (set_app {| app_frame_stub_ := false; backend_set := BackEndSet_new |}
    (set_backend empty_table (set_frontend empty_table (rest w)))) (set_heap Heap_new w).

#[local] Existing Instance anyone.

Lemma new_connector_wired : wired 8 new_connector.
Proof. by apply wired_start; try done; eexists. Qed.
#[local] Instance session_env_ok : NetEnvOk (session_env true).
Proof.
  split; cbn.
  1-3: intros n h p [= <-]; apply not_elem_of_dom; apply is_fresh.
  intros n h sa fd b x [= <-] Hx. pose proof (next_fd_above h b x Hx).
  pose proof (next_fd_nonneg h). lia.
Qed.
#[local] Existing Instance front_order.

Definition outcome_of (CF : ConfigFile) : outcome (Z * App plain_protobuf ConnectorSession ConnectorApp) :=
  OnInit (E := session_env true) (connector_callbacks (E := session_env true) true 48) true new_connector.

(** The result, and how many back ends there are then. *)
Definition started_with (o : outcome (Z * App plain_protobuf ConnectorSession ConnectorApp)) : Z * Z :=
  match o with Ok (r, w) => (r, backend_used_ (the_set w)) | Fault _ => (-2, 0) end.
Lemma both_reached : started_with (outcome_of (two_uris "tcp://127.0.0.1:9002"%string)) = (0, 2).
Proof. vm_compute. reflexivity. Qed.
Lemma one_reached : started_with (outcome_of (two_uris "nowhere"%string)) = (-1, 1).
Proof. vm_compute. reflexivity. Qed.

(** Both back ends are in the set and in the table; with the second URI broken the start
    fails, and the first connection stays. *)
Lemma connector_start_witness :
  (exists w' p q, outcome_of (two_uris "tcp://127.0.0.1:9002"%string) = Ok (0, w') /\ wired 8 w' /\
     filled [p; q] (the_set w') /\ is_back p w' /\ is_back q w' /\ p <> q /\
     bound_for w' p (bytes_of_string "tcp://127.0.0.1:9001"%string) /\
     bound_for w' q (bytes_of_string "tcp://127.0.0.1:9002"%string)) /\
  exists w' p, outcome_of (two_uris "nowhere"%string) = Ok (-1, w') /\ filled [p] (the_set w') /\
    is_back p w' /\ bound_for w' p (bytes_of_string "tcp://127.0.0.1:9001"%string).
Proof.
  split.
  - destruct (connector_start (E := session_env true) (CF := two_uris "tcp://127.0.0.1:9002"%string) true 48 8
      new_connector new_connector_wired) as (r & w' & ps & Hr & Hw & Hf & Hnd & _ & Hb & Hto & _ & H0 & _);
      [cbn; lia|done|].
    pose proof (eq_trans (eq_sym (f_equal started_with Hr)) both_reached) as Hres.
    injection Hres as -> _.
    destruct H0 as [H0 _]. destruct (H0 eq_refl) as [_ Hl]. cbn in Hl.
    destruct ps as [|p [|q [|]]]; try discriminate Hl. exists w', p, q.
    split; [exact Hr|]. split; [exact Hw|]. split; [exact Hf|].
    split; [apply Hb; right; apply elem_of_cons; by left|].
    split; [apply Hb; right; apply elem_of_cons; right; by apply list_elem_of_singleton|].
    split; [intros ->; apply NoDup_cons in Hnd as [Hnd _]; apply Hnd; apply elem_of_cons; by left|].
    exact (conj (Forall2_lookup_lr _ _ _ 0%nat _ _ Hto eq_refl eq_refl)
                (Forall2_lookup_lr _ _ _ 1%nat _ _ Hto eq_refl eq_refl)).
  - destruct (connector_start (E := session_env true) (CF := two_uris "nowhere"%string) true 48 8
      new_connector new_connector_wired) as (r & w' & ps & Hr & Hw & Hf & Hnd & _ & Hb & Hto & _ & _);
      [cbn; lia|done|].
    pose proof (eq_trans (eq_sym (f_equal started_with Hr)) one_reached) as Hres.
    injection Hres as -> Hu. destruct Hf as (Hf1 & Hf2 & Hf3).
    assert (Hl : length ps = 1%nat) by (clear - Hf2 Hu; unfold kMaxBackEndNum in Hf2; lia).
    destruct ps as [|p [|q ps]]; try discriminate Hl. exists w', p.
    split; [exact Hr|]. split; [exact (conj Hf1 (conj Hf2 Hf3))|].
    split; [apply Hb; right; by apply list_elem_of_singleton|].
    exact (Forall2_lookup_lr _ _ _ 0%nat _ _ Hto eq_refl eq_refl).
Defined.
