(* ===== verification/ConnectorLoop.v ===== *)
(** * The connector in the event loop

    The callbacks of [Connector] keep to the contract of [Reactor], so what a session promises
    holds for all the clients of a running connector, over all histories. *)
From Stdlib Require Import ZArith Lia.
From stdpp Require Import base functions list gmap fin_maps strings.
From S2P Require Import Prelude CLib TcpSocket Timer Coroutine EasyNet NetMgr Tables RpcMsg EasyRpc.
From S2P Require Import Framework Connector MsgLoop CallPath Sample Reactor Servers ConnectorStart.
Local Open Scope Z_scope.

#[local] Existing Instance courteous_preorder.

(** The servers behind the connector: they stay connected and never end a session ([FIN]
    makes the connector use the session it has freed). *)
Definition servers {K : ConnectorProto} : Peers :=
  {| heard msg := SS.bodyid (SS.head (snd (ss_ParseFromArray msg))) <> SS.FIN; steady := True |}.

(** ** One session in its messages *)

(** What [Session_Init] makes of a new session. *)
Definition session_of (p : Z) : ConnectorSession :=
  {| state_ := STATE_INIT; net_stub_ := Some p; channel_id_ := -1; sid_ := 4294967295;
     frame_stub_ := true; last_seq_ := 0 |}.

(** What the session of the front end [p], known by [ids], has heard of what has happened
    since [p] was new: the messages of [p] itself, and those of any back end that carry
    [ids], in the order in which they came. *)
Definition heard_by {K : ConnectorProto} (p : Z) (ids : Z * Z) (h : happening) : option Connector.event :=
  match h with
  | Opened _ => None
  | FromFront q m => if decide (q = p) then Some (FromClient m) else None
  | FromBack q m =>
      let h := SS.head (snd (ss_ParseFromArray m)) in
      if decide ((SS.fd h, SS.nid h) = ids) then Some (FromBackEnd (Some q) m) else None
  end.
Definition events_of {K : ConnectorProto} (p : Z) (ids : Z * Z) (g : ledger) : list Connector.event :=
  omap (heard_by p ids) (since p g).

Lemma events_snoc {K : ConnectorProto} p ids g h :
  (forall q, h <> Opened q) -> events_of p ids (g ++ [h]) = events_of p ids g ++ omap (heard_by p ids) [h].
Proof.
  intros Hh. unfold events_of. rewrite since_snoc. destruct h as [q| |]; [by destruct (Hh q)|..];
    by rewrite omap_app.
Qed.
Lemma events_opened {K : ConnectorProto} p ids g : events_of p ids (opened p g) = [].
Proof. unfold events_of, opened. rewrite since_snoc. by rewrite decide_True. Qed.
Lemma events_opened_ne {K : ConnectorProto} p q ids g :
  p <> q -> events_of q ids (opened p g) = events_of q ids g.
Proof.
  intros Hp. unfold events_of, opened. rewrite since_snoc, decide_False by done.
  rewrite omap_app. cbn. by rewrite app_nil_r.
Qed.
Lemma events_handed {K : ConnectorProto} p ids m g :
  events_of p ids (handed p m g) = events_of p ids g ++ [FromClient m].
Proof. unfold handed. rewrite events_snoc by done. cbn. by rewrite decide_True. Qed.
Lemma events_handed_ne {K : ConnectorProto} p q ids m g :
  p <> q -> events_of q ids (handed p m g) = events_of q ids g.
Proof. intros Hp. unfold handed. rewrite events_snoc by done. cbn. by rewrite decide_False, app_nil_r. Qed.

(** The ids in a message of a back end. *)
Definition down_ids {K : ConnectorProto} (m : bytes) : Z * Z :=
  let h := SS.head (snd (ss_ParseFromArray m)) in (SS.fd h, SS.nid h).
Lemma events_back {K : ConnectorProto} p q ids m g :
  down_ids m = ids ->
  events_of p ids (handed_back q m g) = events_of p ids g ++ [FromBackEnd (Some q) m].
Proof. intros <-. unfold handed_back. rewrite events_snoc by done. cbn. by rewrite decide_True. Qed.
Lemma events_back_ne {K : ConnectorProto} p q ids m g :
  down_ids m <> ids -> events_of p ids (handed_back q m g) = events_of p ids g.
Proof. intros Hm. unfold handed_back. rewrite events_snoc by done. cbn. by rewrite decide_False, app_nil_r. Qed.

(** What is sent to the client among [os], and what to back ends. *)
Definition to_front {K : ConnectorProto} (os : list out) : list bytes :=
  omap (fun o => match o with ToClient m => Some (cs_SerializeToString m) | ToBackEnd _ => None end) os.
Definition to_backs (os : list out) : list SS.SSMsg :=
  omap (fun o => match o with ToClient _ => None | ToBackEnd m => Some m end) os.

(** What has been sent to the back ends, and to which of them. *)
Definition backlog : Type := list (Z * SS.SSMsg).
Definition for_back {K : ConnectorProto} (q : Z) (l : backlog) : list bytes :=
  omap (fun e => if decide (fst e = q) then Some (ss_SerializeToString (snd e)) else None) l.
Definition ids_in (m : SS.SSMsg) : Z * Z := (SS.fd (SS.head m), SS.nid (SS.head m)).
Definition from_ids (ids : Z * Z) (l : backlog) : list SS.SSMsg :=
  omap (fun e => if decide (ids_in (snd e) = ids) then Some (snd e) else None) l.

Lemma from_ids_all ids l : Forall (fun m => ids_in m = ids) (l.*2) -> from_ids ids l = l.*2.
Proof.
  unfold from_ids. induction l as [|[q m] l IH]; intros H; [done|]. cbn in H |- *.
  apply Forall_cons in H as [Hm Hl]. rewrite decide_True by done. f_equal. by apply IH.
Qed.

Lemma from_ids_none ids l : Forall (fun m => ids_in m <> ids) (l.*2) -> from_ids ids l = [].
Proof.
  unfold from_ids. induction l as [|[q m] l IH]; intros H; [done|]. cbn in H |- *.
  apply Forall_cons in H as [Hm Hl]. rewrite decide_False by done. by apply IH.
Qed.

Section Sessions.
Context {P : Protobuf} {K : ConnectorProto} {E : NetEnv ConnectorSession}.
Abbreviation W := (App P ConnectorSession ConnectorApp).
Implicit Types (w : W) (s : ConnectorSession) (n : EasyNet) (g : ledger).

Lemma spec_run_snoc _DEBUG ids s es e s1 o1 s2 o2 :
  spec_run _DEBUG ids s es = Some (s1, o1) -> spec_step _DEBUG ids s1 e = Some (s2, o2) ->
  spec_run _DEBUG ids s (es ++ [e]) = Some (s2, o1 ++ o2).
Proof using.
  revert s o1. induction es as [|e0 es IH]; intros s o1 H1 H2; cbn [Datatypes.app spec_run] in *.
  - injection H1 as <- <-. rewrite H2. cbn [mbind option_bind]. by rewrite app_nil_r.
  - apply bind_Some in H1 as ([s3 o3] & E3 & H1). apply bind_Some in H1 as ([s4 o4] & E4 & H1).
    injection H1 as -> <-. rewrite E3. cbn [mbind option_bind].
    by rewrite (IH s3 o4 E4 H2), <- app_assoc.
Qed.

Lemma spec_run_stubs _DEBUG ids es : forall s s' os,
  spec_run _DEBUG ids s es = Some (s', os) -> net_stub_ s' = net_stub_ s /\ frame_stub_ s' = frame_stub_ s.
Proof using.
  induction es as [|e es IH]; intros s s' os H; cbn [spec_run] in H; [by injection H as <- _|].
  apply bind_Some in H as ([s1 o1] & H1 & H). apply bind_Some in H as ([s2 o2] & H2 & H).
  injection H as <- _. destruct (IH s1 s2 o2 H2) as [-> ->].
  destruct e as [msg|net msg]; cbn [spec_step] in H1.
  - destruct (up_step ids s _) as [[r s0] o0] eqn:Eu. injection H1 as <- _.
    by eapply up_step_stubs.
  - case_bool_decide; [|done]. destruct (down_step _DEBUG ids s _) as [r s0 o0| |] eqn:Ed; try done.
    injection H1 as <- _. by eapply down_step_stubs.
Qed.

(** Messages to back ends carry the ids of the client. *)
Lemma handshake_ids ids s s' os :
  handshake ids s = (s', os) -> Forall (fun m => ids_in m = ids) (to_backs os).
Proof using. unfold handshake. destruct (state_ s); intros [= <- <-]; repeat constructor; by destruct ids. Qed.

Lemma spec_step_ids _DEBUG ids s e s' os :
  spec_step _DEBUG ids s e = Some (s', os) -> Forall (fun m => ids_in m = ids) (to_backs os).
Proof using.
  assert (Happ : forall o1 o2, to_backs (o1 ++ o2) = to_backs o1 ++ to_backs o2)
    by (intros; apply omap_app).
  destruct e as [msg|net msg]; cbn [spec_step]; intros H.
  - destruct (up_step ids s _) as [[r s0] o0] eqn:Eu. injection H as _ <-. unfold up_step in Eu.
    destruct (in_order s _); cbn [negb] in Eu; [|by injection Eu as _ _ <-].
    set (s1 := note_seq _ s) in Eu. destruct (handshake ids s1) as [s2 o2] eqn:E2.
    pose proof (handshake_ids ids s1 s2 o2 E2) as F2.
    destruct (handshake ids s2) as [s3 o3] eqn:E3. pose proof (handshake_ids ids s2 s3 o3 E3) as F3.
    destruct (state_ s1); [destruct (state_ s2)..|destruct (_ =? CS.DATA_TRANSPARENT)];
      injection Eu as _ _ <-; rewrite ?Happ; try (by apply Forall_app); try done.
    repeat constructor. by destruct ids.
  - case_bool_decide; [|done]. destruct (down_step _ _ _ _) as [r s0 o0| |] eqn:Ed; try done.
    injection H as _ <-. unfold down_step in Ed. destruct (handshake ids s) as [s2 o2] eqn:E2.
    pose proof (handshake_ids ids s s2 o2 E2) as F2.
    repeat (case_match; try done); injection Ed as _ _ <-; by repeat constructor.
Qed.

(** The ids a back end knows a front end by. *)
Definition ids_of (x : Bufferevent) n : Z * Z := (u32 (bev_fd x), u64 (nid_ n)).

(** The session of the front end [p] is where the messages of [p] and those of the back ends
    for it have brought it, and what is queued for [p], and what has been sent for it to back
    ends, is what the session has answered. *)
Definition client_ok g (l : backlog) (p : Z) w : Prop :=
  exists n b x c s os, nets (heap w) !! p = Some n /\ hevent_ n = Some b /\
    bevs (heap w) !! b = Some x /\ EasyNet.state_ n = NET_ESTABLISHED /\ bev_fd x < 2147483648 /\
    user_context_ n = Some c /\ uctxs (heap w) !! c = Some s /\
    spec_run true (ids_of x n) (session_of p) (events_of p (ids_of x n) g) = Some (s, os) /\
    output x = frames (to_front os) /\ to_backs os = from_ids (ids_of x n) l.

(** The back ends the sessions choose from are in the table and connected. *)
Definition backs_ok w : Prop :=
  let b := backend_set (app (rest w)) in
  0 < backend_used_ b <= Z.of_nat kMaxBackEndNum /\ 0 <= backend_pos_ b /\
  forall i, 0 <= i < backend_used_ b ->
    exists q, backends_ b !! Z.to_nat i = Some (Some q) /\ is_back q w /\
      forall n, nets (heap w) !! q = Some n -> EasyNet.state_ n = NET_ESTABLISHED.

(** The back end that gets the message with the number [k], from the set [b] on. *)
Definition in_turn (b : BackEndSet) (k : nat) : option (option Z) :=
  backends_ b !! Z.to_nat ((turn b + Z.of_nat k) mod backend_used_ b).

(** Since the set of the back ends was [b0] they have been sent [l], in turn. *)
Record logged (b0 : BackEndSet) (l : backlog) w : Prop := {
  lg_used : backend_used_ (backend_set (app (rest w))) = backend_used_ b0;
  lg_backs : backends_ (backend_set (app (rest w))) = backends_ b0;
  lg_turn : turn (backend_set (app (rest w))) = (turn b0 + Z.of_nat (length l)) mod backend_used_ b0;
  lg_turns k q m : l !! k = Some (q, m) -> in_turn b0 k = Some (Some q);
  lg_nids m : m ∈ l.*2 -> exists i, 0 < i < nid_seed (heap w) /\ SS.nid (SS.head m) = u64 i;
  lg_seed : nid_seed (heap w) <= 2147483647;
  lg_outputs q n b x : is_back q w -> nets (heap w) !! q = Some n -> hevent_ n = Some b ->
    bevs (heap w) !! b = Some x -> output x = frames (for_back q l)
}.

(** Between two callbacks; [o] is a front end whose session has not begun, or has ended. *)
Definition connecting (b0 : BackEndSet) (o : option Z) g (s : CoroutineScheduler W) : Prop :=
  let w := world s in
  app_frame_stub_ (app (rest w)) = true /\ (svc_mode_ (rest w) =? SVC_MODE_RPC) = false /\
  (forall p n, nets (heap w) !! p = Some n -> rpc_binded_ n = None) /\ backs_ok w /\
  exists l, logged b0 l w /\ forall p, o <> Some p -> is_front p w -> client_ok g l p w.

(** ** What a reaction does to the heap *)

(** The messages [ms] are queued on the front end [p], and [l] on the back ends in turn. *)
Record serves (p : Z) (ms : list bytes) (l : backlog) w w' : Prop := {
  se_retains : retains w w';
  se_courteous : courteous (PE := servers) w w';
  se_uctxs : uctxs (heap w') = uctxs (heap w);
  se_nets q n' : nets (heap w') !! q = Some n' -> exists n, nets (heap w) !! q = Some n /\
    rpc_binded_ n' = rpc_binded_ n;
  se_outputs q n b x : is_front q w -> nets (heap w) !! q = Some n -> hevent_ n = Some b ->
    bevs (heap w) !! b = Some x -> exists x', bevs (heap w') !! b = Some x' /\
      output x' = output x ++ (if decide (q = p) then frames ms else []);
  se_backs q n b x : is_back q w -> nets (heap w) !! q = Some n -> hevent_ n = Some b ->
    bevs (heap w) !! b = Some x -> exists x', bevs (heap w') !! b = Some x' /\
      output x' = output x ++ frames (for_back q l);
  se_turn : backs_ok w -> turn (backend_set (app (rest w')))
    = (turn (backend_set (app (rest w))) + Z.of_nat (length l)) mod backend_used_ (backend_set (app (rest w)));
  se_turns k q m : backs_ok w -> l !! k = Some (q, m) ->
    in_turn (backend_set (app (rest w))) k = Some (Some q)
}.
End Sessions.

Section Loop.
Context {P : Protobuf} {R : RpcEnv P} {IS : IRpcService} {K : ConnectorProto}.
Context {KOk : ConnectorProtoOk K} {KW : ConnectorProtoWidth K}.
Context {E : NetEnv ConnectorSession} {HO : HashOrder} {F : FrameEnv}.
Context (HW : writes_succeed E) (room : nat).
Abbreviation W := (App P ConnectorSession ConnectorApp).
Implicit Types (w : W) (n : EasyNet) (g : ledger) (st : CoroutineScheduler W).
#[local] Existing Instance servers.

Lemma turn_bounds w : backs_ok w ->
  0 <= turn (backend_set (app (rest w))) < backend_used_ (backend_set (app (rest w))).
Proof using. intros (H1 & H2 & _). by apply turn_turned. Qed.

(** Steps that leave the set of the back ends and what is queued for them alone. *)
Lemma serves_quiet p ms w w' :
  retains w w' -> courteous w w' -> uctxs (heap w') = uctxs (heap w) ->
  backend_set (app (rest w')) = backend_set (app (rest w)) ->
  (forall q n', nets (heap w') !! q = Some n' -> exists n, nets (heap w) !! q = Some n /\
    rpc_binded_ n' = rpc_binded_ n) ->
  (forall q n b x, is_front q w \/ is_back q w -> nets (heap w) !! q = Some n -> hevent_ n = Some b ->
     bevs (heap w) !! b = Some x -> exists x', bevs (heap w') !! b = Some x' /\
       output x' = output x ++ (if decide (q = p) then frames ms else [])) ->
  ~ is_back p w -> serves p ms [] w w'.
Proof using.
  intros H1 H2 H3 Es H4 H5 Hp. split; try done.
  - intros q n b x Hq. apply H5. by left.
  - intros q n b x Hq Hn Hb Hx. destruct (H5 q n b x (or_intror Hq) Hn Hb Hx) as (x' & Hx' & Eo).
    exists x'. split; [done|]. by rewrite decide_False in Eo by (by intros ->).
  - intros Hb. rewrite Es, Z.add_0_r, Z.mod_small; [done|by apply turn_bounds].
Qed.

Lemma serves_refl p w : serves p [] [] w w.
Proof using.
  split; try done; [apply retains_refl|intros q n Hq; by exists n|..].
  - intros q n b x _ _ _ Hx. exists x. split; [done|]. case_decide; by rewrite app_nil_r.
  - intros q n b x _ _ _ Hx. exists x. split; [done|]. by rewrite app_nil_r.
  - intros Hb. rewrite Z.add_0_r, Z.mod_small; [done|by apply turn_bounds].
Qed.

Lemma backs_retained w w' : retains w w' -> courteous w w' -> backs_ok w -> backs_ok w'.
Proof using.
  intros Hr Hc (H1 & H2 & H3). unfold backs_ok.
  rewrite (ev_used _ _ Hr), (ev_backs _ _ Hr). split; [done|].
  split; [by apply (ev_pos _ _ Hr)|]. intros i Hi. destruct (H3 i Hi) as (q & Hq & Hb & Hs).
  exists q. split; [done|]. split; [by unfold is_back in *; rewrite (co_back _ _ Hc)|].
  intros n' Hn'. destruct (sl_net_back stream_part _ _ _ _ (co_links _ _ Hc) Hn') as (n & Hn & _).
  destruct (ev_nets _ _ Hr q n Hn) as (n2 & Hn2 & _ & Es).
  assert (n2 = n') as -> by congruence. rewrite Es. auto.
Qed.

Lemma backs_serves p ms l w w' : serves p ms l w w' -> backs_ok w -> backs_ok w'.
Proof using. intros Hs. apply backs_retained; apply Hs. Qed.

Lemma serves_trans p ms1 ms2 l1 l2 w1 w2 w3 :
  serves p ms1 l1 w1 w2 -> serves p ms2 l2 w2 w3 -> serves p (ms1 ++ ms2) (l1 ++ l2) w1 w3.
Proof using.
  intros Hs1 Hs2. pose proof (backs_serves _ _ _ _ _ Hs1) as Hb2.
  destruct Hs1 as [A1 A2 A3 A4 A5 A6 A7 A8]. destruct Hs2 as [B1 B2 B3 B4 B5 B6 B7 B8].
  split; [by eapply retains_trans|by transitivity w2|congruence|..].
  - intros q n3 H3. destruct (B4 q n3 H3) as (n2 & H2 & E2). destruct (A4 q n2 H2) as (n1 & H1 & E1).
    exists n1. split; [done|congruence].
  - intros q n b x Hq Hn Hb Hx. destruct (A5 q n b x Hq Hn Hb Hx) as (x2 & Hx2 & E2).
    destruct (ev_nets _ _ A1 q n Hn) as (n2 & Hn2 & (Eb & _) & _).
    destruct (B5 q n2 b x2) as (x3 & Hx3 & E3); [|done|congruence|done|].
    { unfold is_front in *. by rewrite (co_front _ _ A2). }
    exists x3. split; [done|]. rewrite E3, E2, <- app_assoc. case_decide; [by rewrite frames_app|done].
  - intros q n b x Hq Hn Hb Hx. destruct (A6 q n b x Hq Hn Hb Hx) as (x2 & Hx2 & E2).
    destruct (ev_nets _ _ A1 q n Hn) as (n2 & Hn2 & (Eb & _) & _).
    destruct (B6 q n2 b x2) as (x3 & Hx3 & E3); [|done|congruence|done|].
    { unfold is_back in *. by rewrite (co_back _ _ A2). }
    exists x3. split; [done|]. unfold for_back in *.
    by rewrite E3, E2, <- app_assoc, omap_app, frames_app.
  - intros Hb. rewrite (B7 (Hb2 Hb)), (A7 Hb), (ev_used _ _ A1), length_app.
    rewrite Z.add_mod_idemp_l by (destruct Hb as [? _]; lia). f_equal. lia.
  - intros k q m Hb [Hk|[Hge Hk]]%lookup_app_Some; [by apply (A8 k q m)|].
    pose proof (B8 _ q m (Hb2 Hb) Hk) as H. unfold in_turn in *.
    rewrite (A7 Hb), (ev_used _ _ A1), (ev_backs _ _ A1) in H.
    rewrite Z.add_mod_idemp_l in H by (destruct Hb as [? _]; lia). rewrite <- H. do 2 f_equal. f_equal. lia.
Qed.

(** A message is queued on a connection of one of the tables. *)
Lemma queue_same q msg w :
  courteous w (queue q msg w) /\ nets (heap (queue q msg w)) = nets (heap w) /\
  uctxs (heap (queue q msg w)) = uctxs (heap w) /\ rest (queue q msg w) = rest w.
Proof using.
  unfold queue. destruct (nets (heap w) !! q) as [n|]; [|done].
  destruct (hevent_ n) as [b|]; [|done]. destruct (bevs (heap w) !! b) as [x|] eqn:Hx; [|done].
  split; [|done]. by apply (courteous_output w _ b x (output x ++ frame msg)).
Qed.

Lemma queue_output q msg w p n b x :
  wired room w -> is_front q w \/ is_back q w -> nets (heap w) !! p = Some n ->
  hevent_ n = Some b -> bevs (heap w) !! b = Some x ->
  exists x', bevs (heap (queue q msg w)) !! b = Some x' /\
    output x' = output x ++ (if decide (p = q) then frame msg else []).
Proof using.
  intros Hw Hq Hn Hb Hx. destruct (linked_of room w q Hw Hq) as (m & c & y & Hm & Hc & Hy).
  unfold queue. rewrite Hm, Hc, Hy. cbn. destruct (decide (p = q)) as [->|Hne].
  - assert (m = n) as -> by congruence. assert (c = b) as -> by congruence.
    rewrite lookup_insert_eq. eexists. split; [done|]. assert (y = x) as -> by congruence. done.
  - assert (c <> b).
    { intros ->. apply Hne. by apply (ho_bev_inj _ (ta_heap _ _ _ _ (wi_tables _ _ Hw)) p q n m b). }
    rewrite lookup_insert_ne by done. exists x. by rewrite app_nil_r.
Qed.

Lemma queue_front p msg w : wired room w -> is_front p w -> serves p [msg] [] w (queue p msg w).
Proof using.
  intros Hw Hp. destruct (queue_same p msg w) as (Hc & En & Eu & Er).
  apply serves_quiet; [apply queue_retains|done|done|by rewrite Er|..].
  - intros q n. rewrite En. intros Hq. by exists n.
  - intros q n b x Hq Hn Hb Hx.
    destruct (queue_output p msg w q n b x Hw (or_introl Hp) Hn Hb Hx) as (x' & Hx' & Eo).
    exists x'. split; [done|]. rewrite Eo. cbn. by rewrite app_nil_r.
  - intros Hb. by apply (back_not_front room p w).
Qed.

Lemma touch_serves p q w : ~ is_back p w -> serves p [] [] w (touch q w).
Proof using.
  intros Hp. unfold touch. destruct (nets (heap w) !! q) as [n|] eqn:Hn; [|apply serves_refl].
  pose proof (touch_retains q w) as Hr. unfold touch in Hr. rewrite Hn in Hr.
  apply serves_quiet; [done|by apply courteous_net with n|done|done|..|done].
  - intros r n'. cbn. destruct (decide (r = q)) as [->|Hne].
    + rewrite lookup_insert_eq. intros [= <-]. by exists n.
    + rewrite lookup_insert_ne by done. intros Hr'. by exists n'.
  - intros r m b x _ _ _ Hx. exists x. split; [done|]. case_decide; by rewrite app_nil_r.
Qed.

(** The choice of a back end, and the message on it. *)
Lemma chosen_serves p q m w :
  wired room w -> is_back q w ->
  backends_ (backend_set (app (rest w))) !! Z.to_nat (turn (backend_set (app (rest w))))
    = Some (Some q) ->
  serves p [] [(q, m)] w
    (queue q (ss_SerializeToString m) (set_backends (turned (backend_set (app (rest w)))) w)).
Proof using.
  intros Hw Hq Hturn. set (w1 := set_backends _ w).
  assert (Hc1 : courteous w w1) by (split; try done; cbn; congruence).
  assert (Hw1 : wired room w1) by (by apply (wired_courteous room w)).
  assert (Hq1 : is_back q w1) by exact Hq.
  destruct (queue_same q (ss_SerializeToString m) w1) as (Hc & En & Eu & Er).
  split; [|by transitivity w1|by rewrite Eu|..].
  - eapply retains_trans; [apply turned_retains|apply queue_retains].
  - intros r n. rewrite En. intros Hr. by exists n.
  - intros r n b x Hr Hn Hb Hx.
    destruct (queue_output q (ss_SerializeToString m) w1 r n b x Hw1 (or_intror Hq1) Hn Hb Hx)
      as (x' & Hx' & Eo).
    exists x'. split; [done|]. rewrite Eo. case_decide; [|by case_decide]. subst r.
    exfalso. by apply (back_not_front room q w).
  - intros r n b x Hr Hn Hb Hx.
    destruct (queue_output q (ss_SerializeToString m) w1 r n b x Hw1 (or_intror Hq1) Hn Hb Hx)
      as (x' & Hx' & Eo).
    exists x'. split; [done|]. rewrite Eo. cbn [for_back omap list_omap fst snd].
    destruct (decide (r = q)) as [->|Hne].
    + rewrite decide_True by done. cbn. by rewrite app_nil_r.
    + by rewrite decide_False by congruence.
  - intros (H1 & H2 & _). rewrite Er. by apply turn_turned.
  - intros k r m' Hb [-> [= <- <-]]%list_lookup_singleton_Some. unfold in_turn.
    rewrite Z.add_0_r, Z.mod_small; [done|by apply turn_bounds].
Qed.

(** ** The back ends *)

Lemma backs_live w : wired room w -> backs_ok w -> backs w.
Proof using.
  intros Hw (H1 & H2 & H3). unfold kMaxBackEndNum in H1. split; [lia|]. split; [done|]. intros i Hi.
  destruct (H3 i Hi) as (q & Hq & Hb & Hs). exists q. split; [done|].
  destruct (linked_of room w q Hw (or_intror Hb)) as (n & b & x & Hn & Hbn & Hx).
  exists n, b, x. auto.
Qed.

Lemma to_back_serves p m w :
  wired room w -> backs_ok w -> ~ is_back p w ->
  exists q, serves p [] [(q, m)] w (to_back (ss_SerializeToString m) w).
Proof using.
  intros Hw Hb Hp. pose proof (turn_bounds w Hb) as Ht.
  destruct (proj2 (proj2 Hb) _ Ht) as (q & Hq & Hback & _). exists q.
  unfold to_back. rewrite Hq. eapply (serves_trans p [] [] [(q, m)] []); [by apply chosen_serves|].
  apply touch_serves. intros Hp'. apply Hp. unfold is_back in *.
  by rewrite (co_back _ _ (se_courteous _ _ _ _ _ (chosen_serves p q m w Hw Hback Hq))) in Hp'.
Qed.

Lemma deliver_serves p o w :
  wired room w -> is_front p w -> backs_ok w -> exists l, l.*2 = to_backs [o] /\
    serves p (to_front [o]) l w (Connector.deliver p o w).
Proof using.
  intros Hw Hp Hb. destruct o as [m|m]; [exists []; split; [done|by apply queue_front]|].
  destruct (to_back_serves p m w Hw Hb) as [q Hq]; [|by exists [(q, m)]].
  intros Hback. by apply (back_not_front room p w).
Qed.

Lemma deliver_all_serves p os w :
  wired room w -> is_front p w -> backs_ok w -> exists l, l.*2 = to_backs os /\
    serves p (to_front os) l w (deliver_all p os w).
Proof using.
  revert w. induction os as [|o os IH]; intros w Hw Hp Hb.
  { exists []. split; [done|apply serves_refl]. }
  destruct (deliver_serves p o w Hw Hp Hb) as (l1 & E1 & H1).
  destruct (IH (Connector.deliver p o w)) as (l2 & E2 & H2).
  - by apply (wired_courteous room w); [|apply (se_courteous _ _ _ _ _ H1)].
  - unfold is_front in *. by rewrite (co_front _ _ (se_courteous _ _ _ _ _ H1)).
  - by apply (backs_serves p (to_front [o]) l1 w).
  - exists (l1 ++ l2). split; [rewrite fmap_app, E1, E2; by destruct o|].
    assert (Ecut : to_front (o :: os) = to_front [o] ++ to_front os) by (by destruct o).
    rewrite Ecut. by apply (serves_trans p _ _ _ _ w (Connector.deliver p o w)).
Qed.

(** ** The sessions *)

Lemma put_session_courteous c s w : is_Some (uctxs (heap w) !! c) -> courteous w (put_session c s w).
Proof using.
  intros Hc. apply courteous_heap; [|cbn; congruence]. split; try done; cbn.
  - intros b. destruct (bevs (heap w) !! b); by constructor.
  - intros d. destruct (decide (d = c)) as [->|Hd]; [|by rewrite lookup_insert_ne].
    rewrite lookup_insert_eq. split; [done|by eexists].
Qed.

(** The connection of a client has a session. *)
Lemma client_session g l p w :
  wired room w -> is_front p w -> app_frame_stub_ (app (rest w)) = true -> backs_ok w ->
  client_ok g l p w -> exists n b x c s os, session_at w p c (ids_of x n) s /\
    nets (heap w) !! p = Some n /\ hevent_ n = Some b /\ bevs (heap w) !! b = Some x /\
    user_context_ n = Some c /\ bev_fd x < 2147483648 /\
    spec_run true (ids_of x n) (session_of p) (events_of p (ids_of x n) g) = Some (s, os) /\
    output x = frames (to_front os) /\
    to_backs os = from_ids (ids_of x n) l.
Proof using.
  intros Hw [fd Hfd] Hstub Hb (n & b & x & c & s & os & Hn & Hbn & Hx & Hst & Hint & Hc & Hs & Hrun & Ho).
  exists n, b, x, c, s, os. split; [|done]. destruct (spec_run_stubs _ _ _ _ _ _ Hrun) as [E1 E2].
  split; try done; [|by apply backs_live].
  destruct (linked room w p fd Hw (or_intror Hfd)) as (n0 & b0 & x0 & Hn0 & Hb0 & Hx0 & Ef & H0).
  assert (n0 = n) as -> by congruence. assert (b0 = b) as -> by congruence.
  assert (x0 = x) as -> by congruence. exists n, b, x. repeat (split; [done|]).
  unfold ids_of. cbn [fst]. rewrite (u32_id (bev_fd x)), i32_id by lia. subst fd.
  by apply (front_found room w).
Qed.

(** Other clients are left alone. *)
Lemma client_kept p ms l w w' q g g' l0 :
  serves p ms l w w' -> is_front q w -> q <> p ->
  (forall n b x, nets (heap w) !! q = Some n -> hevent_ n = Some b -> bevs (heap w) !! b = Some x ->
     Forall (fun m => ids_in m <> ids_of x n) (l.*2) /\
     events_of q (ids_of x n) g' = events_of q (ids_of x n) g) ->
  client_ok g l0 q w -> client_ok g' (l0 ++ l) q w'.
Proof using.
  intros [Hr _ Hu _ Ho _ _ _] Hq Hne Hids (n & b & x & c & s & os & Hn & Hb & Hx & Hst & Hint &
    Hc & Hs & Hrun & Hout & Hback).
  destruct (Hids n b x Hn Hb Hx) as [Hother Eg].
  destruct (ev_nets _ _ Hr q n Hn) as (n' & Hn' & (Eb & Ec & En) & Es).
  destruct (Ho q n b x Hq Hn Hb Hx) as (x' & Hx' & Eo). rewrite decide_False, app_nil_r in Eo by done.
  destruct (ev_bevs _ _ Hr b x Hx) as (x2 & Hx2 & Ef). assert (x2 = x') as -> by congruence.
  exists n', b, x', c, s, os. unfold ids_of. rewrite Es, Ef, En, Hu, Eo. fold (ids_of x n).
  rewrite Eg. split_and!; try congruence. rewrite Hback. unfold from_ids at 2. rewrite omap_app.
  fold (from_ids (ids_of x n) l) (from_ids (ids_of x n) l0).
  by rewrite (from_ids_none _ l Hother), app_nil_r.
Qed.

Lemma client_put q g l c s w :
  (forall n, nets (heap w) !! q = Some n -> user_context_ n <> Some c) ->
  client_ok g l q w -> client_ok g l q (put_session c s w).
Proof using.
  intros Hne (n & b & x & d & s0 & os & Hn & Hb & Hx & Hst & Hint & Hd & Hs & H).
  exists n, b, x, d, s0, os. do 6 (split; [done|]). split; [|done]. cbn.
  rewrite lookup_insert_ne; [done|]. intros ->. by apply (Hne n).
Qed.

(** Two connections have different ids. *)
Lemma ids_differ p q n m x y w :
  wired room w -> nid_seed (heap w) <= 2147483647 -> nets (heap w) !! p = Some n ->
  nets (heap w) !! q = Some m -> ids_of x n = ids_of y m -> p = q.
Proof using.
  intros Hw Hseed Hn Hm [= _ E0]. pose proof (ta_heap _ _ _ _ (wi_tables _ _ Hw)) as Hh.
  pose proof (ho_nid _ Hh p n Hn). pose proof (ho_nid _ Hh q m Hm).
  rewrite !u64_id in E0 by lia. by apply (ho_nid_inj _ Hh p q n m).
Qed.

(** The log grows by what is queued on the back ends. *)
Lemma logged_serves b0 p ms l l0 w w' :
  wired room w -> backs_ok w -> serves p ms l w w' ->
  (forall m, m ∈ l.*2 -> exists i, 0 < i < nid_seed (heap w) /\ SS.nid (SS.head m) = u64 i) ->
  logged b0 l0 w -> logged b0 (l0 ++ l) w'.
Proof using.
  intros Hw Hb Hs Hids [L1 L2 L3 L4 L5 L6 L7]. pose proof Hs as [Hr Hc _ _ _ Ho Ht Hk].
  pose proof (sl_seed _ _ _ (co_links _ _ Hc)) as Eseed.
  assert (Hu : 0 < backend_used_ b0) by (rewrite <- L1; apply Hb).
  split.
  - by rewrite (ev_used _ _ Hr).
  - by rewrite (ev_backs _ _ Hr).
  - rewrite (Ht Hb), L1, L3, length_app, Z.add_mod_idemp_l by lia. f_equal. lia.
  - intros k q m [Hk0|[Hge Hk0]]%lookup_app_Some; [by apply (L4 k q m)|].
    pose proof (Hk _ q m Hb Hk0) as H. unfold in_turn in *. rewrite L1, L2, L3 in H.
    rewrite Z.add_mod_idemp_l in H by lia. rewrite <- H. do 2 f_equal. f_equal. lia.
  - intros m. rewrite fmap_app, elem_of_app, Eseed. intros [Hm|Hm]; [by apply L5|by apply Hids].
  - by rewrite Eseed.
  - intros q n' b x' Hq Hn' Hb' Hx'.
    destruct (sl_net_back stream_part _ _ _ _ (co_links _ _ Hc) Hn') as (n & Hn & Eb & _).
    destruct (sl_bev_back stream_part _ _ _ _ (co_links _ _ Hc) Hx') as (x & Hx & _).
    assert (Hq0 : is_back q w) by (unfold is_back in *; by rewrite (co_back _ _ Hc) in Hq).
    destruct (Ho q n b x Hq0 Hn) as (x2 & Hx2 & Eo); [congruence|done|].
    assert (x2 = x') as -> by congruence. unfold for_back in *.
    by rewrite Eo, (L7 q n b x Hq0 Hn ltac:(congruence) Hx), omap_app, frames_app.
Qed.

(** Two front ends have different contexts. *)
Lemma contexts_differ p q n m c w :
  wired room w -> nets (heap w) !! p = Some n -> user_context_ n = Some c ->
  nets (heap w) !! q = Some m -> user_context_ m = Some c -> p = q.
Proof using.
  intros Hw Hn Hc Hm Hc'.
  by apply (ho_ctx_inj _ (ta_heap _ _ _ _ (wi_tables _ _ Hw)) p q n m c).
Qed.

(** A reaction of a session to a message of its client or of a back end. *)
Lemma reaction_ok b0 g st p :
  fine room (connecting b0) None g st -> is_front p (world st) ->
  exists n b x c s, session_at (world st) p c (ids_of x n) s /\
    nets (heap (world st)) !! p = Some n /\ hevent_ n = Some b /\ bevs (heap (world st)) !! b = Some x /\
    forall e s' os' g', spec_step true (ids_of x n) s e = Some (s', os') ->
      events_of p (ids_of x n) g' = events_of p (ids_of x n) g ++ [e] ->
      (forall q ids, q <> p -> ids <> ids_of x n -> events_of q ids g' = events_of q ids g) ->
      let w' := put_session c s' (deliver_all p os' (world st)) in
      courteous (world st) w' /\ connecting b0 None g' (set_world w' st).
Proof using.
  intros [Hw (Hstub & Hmode & Hrpc & Hb & l & Hlog & Hclients)] Hp.
  destruct (client_session g l p (world st) Hw Hp Hstub Hb (Hclients p ltac:(done) Hp))
    as (n & b & x & c & s & os & Hsa & Hn & Hbn & Hx & Hc & Hint & Hrun & Hout & Hback).
  exists n, b, x, c, s. do 4 (split; [done|]). intros e s' os' g' Hstep Hgp Hgq w'.
  destruct (deliver_all_serves p os' (world st) Hw Hp Hb) as (l' & El & Hserve).
  pose proof (spec_step_ids _ _ _ _ _ _ Hstep) as Hids. rewrite <- El in Hids.
  set (w1 := deliver_all p os' (world st)) in *. pose proof Hserve as [Hr Hcou Hu Hnets Ho _ _ _].
  pose proof (wired_courteous room _ _ Hw Hcou) as Hw1.
  assert (Hs1 : uctxs (heap w1) !! c = Some s) by (rewrite Hu; apply (sa_session _ _ _ _ _ Hsa)).
  split; [transitivity w1; [done|apply put_session_courteous; by eexists]|].
  split; [cbn; by rewrite (ev_stub _ _ Hr)|]. split; [cbn; by rewrite (co_mode _ _ Hcou)|].
  split.
  { intros q n' Hq. destruct (Hnets q n' Hq) as (n0 & Hn0 & ->). by apply (Hrpc q). }
  split; [exact (backs_serves p _ _ _ w1 Hserve Hb)|]. exists (l ++ l'). split.
  { destruct (logged_serves b0 p _ l' l _ w1 Hw Hb Hserve) as [L1 L2 L3 L4 L5 L6 L7]; [|done|by split].
    intros m Hm. rewrite Forall_forall in Hids. pose proof (Hids m Hm) as Em. injection Em as _ Em.
    exists (nid_ n). split; [|done]. by apply (ho_nid _ (ta_heap _ _ _ _ (wi_tables _ _ Hw)) p). }
  intros q _ Hq.
  assert (Hq0 : is_front q (world st)).
  { unfold is_front in *. change (front (world (set_world w' st))) with (front w1) in Hq.
    by rewrite (co_front _ _ Hcou) in Hq. }
  destruct (ev_nets _ _ Hr p n Hn) as (n1 & Hn1 & (E1 & E2 & E3) & E4).
  cbn [world set_world]. destruct (decide (q = p)) as [->|Hne].
  - destruct (Ho p n b x Hp Hn Hbn Hx) as (x1 & Hx1 & Eo). rewrite decide_True in Eo by done.
    destruct (ev_bevs _ _ Hr b x Hx) as (x2 & Hx2 & Ef). assert (x2 = x1) as -> by congruence.
    pose proof (sa_front _ _ _ _ _ Hsa) as (n0 & b1 & x0 & Hn0 & Hb0 & Hx0 & Hst & _).
    assert (n0 = n) as -> by congruence.
    exists n1, b, x1, c, s', (os ++ os'). unfold ids_of. rewrite Ef, E3. fold (ids_of x n).
    split; [done|]. split; [congruence|]. split; [done|]. split; [congruence|]. split; [done|].
    split; [congruence|]. split; [by apply lookup_insert_eq|].
    split; [rewrite Hgp; by apply (spec_run_snoc _ _ _ _ _ s)|].
    split; [unfold to_front in *; by rewrite Eo, Hout, omap_app, frames_app|].
    pose proof (from_ids_all _ l' Hids) as Ef'.
    unfold to_backs, from_ids in *. by rewrite !omap_app, Hback, <- El, Ef'.
  - apply client_put.
    + intros m Hm Hcm. apply Hne. symmetry.
      by apply (contexts_differ p q n1 m c w1 Hw1 Hn1); [congruence|..].
    + apply (client_kept p (to_front os') l' (world st) w1 q g); try done; [|by apply Hclients].
      intros m d y Hm Hd Hy.
      assert (Hother : ids_of y m <> ids_of x n).
      { intros Eids. apply Hne. symmetry.
        by apply (ids_differ p q n m x y (world st) Hw (lg_seed _ _ _ Hlog) Hn Hm). }
      split; [|by apply Hgq]. eapply Forall_impl; [exact Hids|]. intros m' Em Em'. congruence.
Qed.

(** ** The contract *)

(** A back end is not the front end that is new. *)
Lemma moves_back o' w w' q :
  wired room w -> moves o' w w' -> is_back q w' -> is_back q w /\ o' <> Some q.
Proof using.
  intros Hw Hm Hq. unfold is_back in *. rewrite (mv_backs _ _ _ Hm) in Hq. split; [done|]. intros ->.
  destruct (mv_new _ _ _ Hm q eq_refl) as [Hnone _].
  destruct (linked_of room w q Hw (or_intror Hq)) as (n & _ & _ & Hn & _). congruence.
Qed.

Lemma logged_moves b0 l o' w w' : wired room w -> moves o' w w' -> logged b0 l w -> logged b0 l w'.
Proof using.
  intros Hw Hm [L1 L2 L3 L4 L5 L6 L7]. pose proof (mv_seed _ _ _ Hm) as Hs. unfold seed_grows in Hs.
  split; try (by rewrite (mv_app _ _ _ Hm)); [done| |lia|].
  - intros m Hin. destruct (L5 m Hin) as (i & Hi & E0). exists i. split; [lia|done].
  - intros q n' b x' Hq Hn' Hb Hx'. destruct (moves_back o' w w' q Hw Hm Hq) as [Hq0 Ho].
    destruct (mv_nets _ _ _ Hm q n' Ho Hn') as (n & Hn & Eb & _).
    destruct (mv_outputs _ _ _ Hm q n' b x' Ho Hn' Hb Hx') as (x & Hx & -> & _).
    apply (L7 q n b x Hq0 Hn); [congruence|done].
Qed.

Lemma backs_moves o' w w' : wired room w -> moves o' w w' -> backs_ok w -> backs_ok w'.
Proof using.
  intros Hw Hm (B1 & B2 & B3). unfold backs_ok. rewrite (mv_app _ _ _ Hm). split; [done|]. split; [done|].
  intros i Hi. destruct (B3 i Hi) as (q & Hq & Hb & Hs). exists q. split; [done|].
  assert (Hb' : is_back q w') by (unfold is_back in *; by rewrite (mv_backs _ _ _ Hm)).
  split; [done|]. intros n Hn. destruct (moves_back o' w w' q Hw Hm Hb') as [_ Ho].
  destruct (mv_nets _ _ _ Hm q n Ho Hn) as (n0 & Hn0 & _ & _ & _ & _ & Es & _). apply Es; [done|]. by apply Hs.
Qed.

Lemma client_moves g l o' p w w' :
  wired room w' -> moves o' w w' -> o' <> Some p -> is_front p w' -> client_ok g l p w -> client_ok g l p w'.
Proof using.
  intros Hw Hm Ho Hp (n & b & x & c & s & os & Hn & Hb & Hx & Hst & Hint & Hc & Hs & He2 & He3 & He4).
  destruct (linked_of room w' p Hw (or_introl Hp)) as (n' & b' & x' & Hn' & Hb' & Hx').
  destruct (mv_nets _ _ _ Hm p n' Ho Hn') as (n0 & Hn0 & Eb & En & _ & Es & _ & Ec).
  assert (n0 = n) as -> by congruence. assert (b' = b) as -> by congruence.
  destruct (mv_outputs _ _ _ Hm p n' b x' Ho Hn' Hb' Hx') as (x0 & Hx0 & Eo & Ef).
  assert (x0 = x) as -> by congruence. destruct (Ec c s Hc Hs) as [Hc' Hs'].
  exists n', b, x', c, s, os. unfold ids_of in *. rewrite En, Ef, Eo, Es by done. by split_and!.
Qed.

(** The framework leaves the sessions alone; a front end [o'] is new, and nobody knows its
    number. *)
Lemma connecting_moves b0 o o' g st w :
  fine room (connecting b0) o g st -> wired room w -> moves o' (world st) w ->
  app_frame_stub_ (app (rest w)) = true /\ (svc_mode_ (rest w) =? SVC_MODE_RPC) = false /\
  (forall p n, nets (heap w) !! p = Some n -> rpc_binded_ n = None) /\ backs_ok w /\
  exists l, logged b0 l w /\
    (forall p, o <> Some p -> o' <> Some p -> is_front p w -> client_ok g l p w) /\
    forall p n x, o' = Some p -> nets (heap w) !! p = Some n -> from_ids (ids_of x n) l = [].
Proof using.
  intros [Hw0 (Hstub & Hmode & Hrpc & Hb & l & Hlog & Hcl)] Hw Hm.
  split; [by rewrite (mv_app _ _ _ Hm)|]. split; [by rewrite (mv_mode _ _ _ Hm)|].
  split; [|split; [by apply (backs_moves o' (world st))|]].
  - intros p n Hn. destruct (decide (o' = Some p)) as [->|Ho].
    + destruct (mv_new _ _ _ Hm p eq_refl) as (_ & n1 & b & x & Hn1 & _ & _ & Hr & _). congruence.
    + destruct (mv_nets _ _ _ Hm p n Ho Hn) as (n0 & Hn0 & _ & _ & -> & _). by apply (Hrpc p).
  - exists l. split; [by apply (logged_moves b0 l o' (world st))|]. split.
    + intros p Ho Ho' Hp. apply (client_moves _ l o' p (world st)); try done.
      apply Hcl; [done|]. by apply (mv_fronts _ _ _ Hm p).
    + intros p n x Ho Hn. apply from_ids_none, Forall_forall. intros m Hin [= _ E0].
      destruct (lg_nids _ _ _ Hlog m Hin) as (i & Hi & Ei). pose proof (mv_nid _ _ _ Hm p n Ho Hn) as Hnid.
      pose proof (lg_seed _ _ _ (logged_moves b0 l o' _ w Hw0 Hm Hlog)).
      rewrite Ei, !u64_id in E0 by lia. lia.
Qed.

(** The end of a callback that gives the session of [p] another state. *)
Lemma session_put b0 o g g' st p n c z s l :
  fine room (connecting b0) o g st -> nets (heap (world st)) !! p = Some n ->
  user_context_ n = Some c -> uctxs (heap (world st)) !! c = Some z -> logged b0 l (world st) ->
  forall o', (forall q, q <> p -> o' <> Some q -> is_front q (world st) -> client_ok g' l q (world st)) ->
  let w := put_session c s (world st) in
  (o' <> Some p -> is_front p (world st) -> client_ok g' l p w) ->
  courteous (world st) w /\ connecting b0 o' g' (set_world w st).
Proof using.
  intros [Hw (Hstub & Hmode & Hrpc & Hb & _)] Hn Hc Hz Hlog o' Hcl w Hp.
  split; [apply put_session_courteous; by eexists|].
  do 4 (split; [done|]). exists l. split; [by destruct Hlog; split|]. intros q Ho Hq.
  cbn [world set_world]. destruct (decide (q = p)) as [->|Hne]; [by apply Hp|].
  apply client_put; [|by apply Hcl]. intros m Hm Hcm. apply Hne. symmetry.
  by apply (contexts_differ p q n m c (world st)).
Qed.

(** A client that is new is none of the others. *)
Lemma client_opened p q g l w : q <> p -> client_ok g l q w -> client_ok (opened p g) l q w.
Proof using.
  intros Hq (n & b & x & c & s & os & H). exists n, b, x, c, s, os.
  by rewrite events_opened_ne by congruence.
Qed.

Lemma session_begins b0 g st p :
  fine room (connecting b0) (Some p) g st -> is_front p (world st) -> joined room (connecting b0) p g st ->
  (exists n c z, nets (heap (world st)) !! p = Some n /\ user_context_ n = Some c /\
     uctxs (heap (world st)) !! c = Some z) ->
  exists z w, Connector_OnFrontEndConnect (Some p) (world st) = Ok (z, w) /\
    courteous (world st) w /\ connecting b0 None g (set_world w st).
Proof using.
  intros Hf Hp (g0 & s0 & Hg0 & -> & Hm) (n & c & z & Hn & Hc & Hz). pose proof Hf as [Hw (Hstub & _)].
  destruct (mv_new _ _ _ Hm p eq_refl) as (_ & n0 & b & x & Hn0 & Hbn & Hx & _ & Hst & _ & Hout & Hint).
  assert (n0 = n) as -> by congruence. set (w := put_session c (session_of p) (world st)).
  assert (Hrun : Connector_OnFrontEndConnect (Some p) (world st) = Ok (0, w)).
  { unfold Connector_OnFrontEndConnect. rewrite (bind_step _ _ _ _ _ (fw_ok _ _)), Hstub.
    rewrite (bind_step _ _ _ _ _ (log_net_ok _ p n Hn)).
    rewrite (bind_step _ _ _ _ _ (GetUserContext_ok _ p n Hn)), Hc.
    rewrite (bind_step _ _ _ _ _ (upd_session_ok _ c z _ Hz)).
    set (w1 := put_session c ConnectorSession_new (world st)).
    assert (Hz1 : uctxs (heap w1) !! c = Some ConnectorSession_new) by apply lookup_insert_eq.
    rewrite (bind_step _ _ w1 0 w); [done|]. unfold Session_Init. cbn [orb negb bool_decide].
    rewrite bool_decide_eq_false_2 by done. cbn [orb].
    rewrite (bind_step _ _ _ _ _ (upd_session_ok w1 c _ _ Hz1)). unfold w1. by rewrite put_put. }
  exists 0, w. split; [done|].
  destruct (connecting_moves b0 None (Some p) g0 s0 (world st) Hg0 Hw Hm)
    as (_ & _ & _ & _ & l & Hlog & Hcl & Hids).
  apply (session_put b0 (Some p) (opened p g0) (opened p g0) st p n c z _ l); try done.
  - intros q Hq _ Hin. apply client_opened; [done|]. apply Hcl; congruence.
  - intros _ _. exists n, b, x, c, (session_of p), []. rewrite events_opened, Hout.
    repeat (split; [done|]). split; [by apply lookup_insert_eq|].
    do 2 (split; [done|]). by rewrite (Hids p n x eq_refl Hn).
Qed.

Lemma session_ends b0 g st p :
  fine room (connecting b0) None g st -> is_front p (world st) ->
  exists z w, Connector_OnFrontEndClose (Some p) (world st) = Ok (z, w) /\
    courteous (world st) w /\ connecting b0 (Some p) g (set_world w st).
Proof using.
  intros Hf Hp. pose proof Hf as [Hw (Hstub & _ & _ & _ & l & Hlog & Hcl)].
  destruct (Hcl p ltac:(done) Hp) as (n & b & x & c & s & os & Hn & Hbn & Hx & _ & _ & Hc & Hs & _).
  set (w := put_session c (set_state_ STATE_INIT s) (world st)). exists 0, w. split.
  - unfold Connector_OnFrontEndClose. rewrite (bind_step _ _ _ _ _ (fw_ok _ _)), Hstub.
    rewrite (bind_step _ _ _ _ _ (log_net_ok _ p n Hn)).
    rewrite (bind_step _ _ _ _ _ (GetUserContext_ok _ p n Hn)), Hc.
    rewrite (bind_step _ _ (world st) 0 (world st)) by done. unfold Session_CleanUp.
    by rewrite (bind_step _ _ _ _ _ (upd_session_ok _ c s _ Hs)).
  - apply (session_put b0 None g g st p n c s _ l); try done. intros q _ _ Hq. by apply Hcl.
Qed.

(** A session answers whatever the servers send. *)
Lemma down_step_heard ids s msg : heard msg ->
  exists r s' os, down_step true ids s (snd (ss_ParseFromArray msg)) = Reacts r s' os.
Proof using.
  cbn [heard servers]. set (m := snd (ss_ParseFromArray msg)). intros Hm. unfold down_step. cbn [negb andb].
  destruct (Z.eqb_spec (SS.bodyid (SS.head m)) SS.FIN); [done|].
  destruct (SS.bodyid (SS.head m) =? SS.DATA); cbn [negb]; [destruct (ss_data m); eauto|].
  destruct (handshake ids s). destruct (state_ s); eauto.
Qed.

(** The front end that has the ids of a message is found by them. *)
Lemma found_by_ids g l q n b x m w :
  wired room w -> is_front q w -> client_ok g l q w -> nets (heap w) !! q = Some n ->
  hevent_ n = Some b -> bevs (heap w) !! b = Some x -> down_ids m = ids_of x n ->
  pool_find (handler_pool_ (front w)) (i32 (fst (down_ids m))) = Some (Some q) /\
  snd (down_ids m) = u64 (nid_ n).
Proof using.
  intros Hw [fd Hfd] (n0 & b1 & x0 & c & s & os & Hn0 & Hb0 & Hx0 & _ & Hint & _) Hn Hb Hx ->.
  assert (n0 = n) as -> by congruence. assert (b1 = b) as -> by congruence.
  assert (x0 = x) as -> by congruence. split; [|done].
  destruct (linked room w q fd Hw (or_intror Hfd)) as (n1 & b1 & x1 & Hn1 & Hb1 & Hx1 & Ef & H0).
  assert (n1 = n) as -> by congruence. assert (b1 = b) as -> by congruence.
  assert (x1 = x) as -> by congruence. unfold ids_of. cbn [fst].
  rewrite (u32_id (bev_fd x)), i32_id by lia. subst fd. by apply (front_found room w).
Qed.

(** The front end a message of a back end is for, if there is one; otherwise nobody has the
    ids of the message. *)
Lemma back_target b0 g st net msg :
  fine room (connecting b0) None g st ->
  Connector_OnRecvBackEnd true net msg (world st) = Ok (-1, world st) /\
  (forall p n b x, is_front p (world st) -> nets (heap (world st)) !! p = Some n ->
     hevent_ n = Some b -> bevs (heap (world st)) !! b = Some x -> down_ids msg <> ids_of x n) \/
  exists p, is_front p (world st) /\ forall n b x,
    nets (heap (world st)) !! p = Some n -> hevent_ n = Some b -> bevs (heap (world st)) !! b = Some x ->
    down_ids msg = ids_of x n.
Proof using KW.
  intros [Hw (Hstub & _ & _ & _ & l & _ & Hcl)]. unfold down_ids at 2.
  set (m := snd (ss_ParseFromArray msg)). unfold Connector_OnRecvBackEnd. fold m.
  pose proof (ss_fd_width msg) as Hfd. pose proof (ss_nid_width msg) as Hnid. fold m in Hfd, Hnid.
  rewrite (bind_step _ _ _ _ _ (fw_ok _ _)), Hstub. rewrite (bind_step (assertb true) _ _ tt _) by done.
  assert (Hnone : forall k, GetHandlerByAsyncIds (SS.fd (SS.head m)) (SS.nid (SS.head m))
      (NetS (heap (world st)) (front (world st))) = Ok (None, NetS (heap (world st)) (front (world st))) ->
    (k None (world st) = Ok (-1, world st)) ->
    (front_net ← GetFrontEndByAsyncIds (SS.fd (SS.head m)) (SS.nid (SS.head m)); k front_net) (world st)
      = Ok (-1, world st)).
  { intros k E0 Ek. unfold GetFrontEndByAsyncIds. rewrite (bind_step _ _ _ None (world st)); [done|].
    rewrite (on_frontend_ok _ _ _ _ E0). by destruct (world st) as [? ? ? ? ? ? ? []]. }
  destruct (pool_find (handler_pool_ (front (world st))) (i32 (SS.fd (SS.head m)))) as [v|] eqn:Ef.
  2: { left. split.
       - apply Hnone; [|done]. unfold GetHandlerByAsyncIds.
         rewrite (bind_step get _ _ _ _ eq_refl). cbn [mgr]. by rewrite Ef.
       - intros p n b x Hp Hn Hb Hx Eids.
         destruct (found_by_ids g l p n b x msg _ Hw Hp (Hcl p ltac:(done) Hp) Hn Hb Hx Eids) as [Ep _].
         change (fst (down_ids msg)) with (SS.fd (SS.head m)) in Ep. congruence. }
  assert (Hin := Ef). apply pool_find_elem in Hin.
  2: { apply (mo_keys (NetS (heap (world st)) (front (world st)))). by eapply tables_front; apply Hw. }
  destruct v as [p|].
  2: { left. split.
       - apply Hnone; [|done]. unfold GetHandlerByAsyncIds.
         rewrite (bind_step get _ _ _ _ eq_refl). cbn [mgr]. by rewrite Ef.
       - intros p n b x Hp Hn Hb Hx Eids.
         destruct (found_by_ids g l p n b x msg _ Hw Hp (Hcl p ltac:(done) Hp) Hn Hb Hx Eids) as [Ep _].
         change (fst (down_ids msg)) with (SS.fd (SS.head m)) in Ep. congruence. }
  destruct (linked room _ p _ Hw (or_intror Hin)) as (n & b & x & Hn & Hb & Hx & Ex & Hpos).
  destruct (Z.eqb_spec (SS.nid (SS.head m)) (u64 (nid_ n))) as [En|En].
  - right. exists p. split; [by eexists|]. intros n' b' x' Hn' Hb' Hx'.
    assert (n' = n) as -> by congruence. assert (b' = b) as -> by congruence.
    assert (x' = x) as -> by congruence. unfold ids_of. rewrite Ex, En. f_equal. int_lia.
  - left. split.
    + apply Hnone; [|done]. unfold GetHandlerByAsyncIds.
      rewrite (bind_step get _ _ _ _ eq_refl). cbn [mgr]. rewrite Ef.
      rewrite (bind_step _ _ _ n _ (on_heap_ok _ (NetS (heap (world st)) _) _ _ (load_net_ok _ p n Hn))).
      by destruct (Z.eqb_spec (SS.nid (SS.head m)) (u64 (nid_ n))).
    + intros q n' b' x' Hq Hn' Hb' Hx' Eids.
      destruct (found_by_ids g l q n' b' x' msg _ Hw Hq (Hcl q ltac:(done) Hq) Hn' Hb' Hx' Eids) as [Ep E2].
      change (fst (down_ids msg)) with (SS.fd (SS.head m)) in Ep.
      change (snd (down_ids msg)) with (SS.nid (SS.head m)) in E2. congruence.
Qed.

Lemma front_call b0 calloc size g st p ty m :
  fine room (connecting b0) None g st -> is_front p (world st) ->
  call_ok calloc (connecting b0) None (handed p m g)
    (OnRecvFrontEnd (RapidApp := connector_callbacks true size) p ty m) st.
Proof using HW KOk.
  intros Hf Hp. destruct (reaction_ok b0 g st p Hf Hp) as (n & b & x & c & s & Hsa & _ & _ & _ & Hreact).
  destruct (up_step (ids_of x n) s (snd (cs_ParseFromArray m))) as [[r s'] os] eqn:Eu.
  destruct (Hreact (FromClient m) s' os (handed p m g)) as [Hc HJ].
  { cbn [spec_step]. by rewrite Eu. }
  { by apply events_handed. }
  { intros q ids Hq _. by apply events_handed_ne. }
  apply (call_act calloc (connecting b0) _ _ _ (fun r k => k (default 0 r)) st r _
    (OnRecvFrontEnd_ok HW _ p c _ s m r s' os Hsa Eu) Hc). by apply call_ret.
Qed.

Lemma back_call b0 calloc size g st p ty msg :
  fine room (connecting b0) None g st -> heard msg ->
  call_ok calloc (connecting b0) None (handed_back p msg g)
    (OnRecvBackEnd (RapidApp := connector_callbacks true size) p ty msg) st.
Proof using HW KOk KW.
  intros Hf Hheard. destruct (back_target b0 g st (Some p) msg Hf) as [[Hnone Hother]|(q & Hq & Hids)].
  - apply (call_act calloc (connecting b0) _ _ _ (fun z k => k z) st (-1) (world st) Hnone); [done|].
    apply call_ret. replace (set_world (world st) st) with st by (by destruct st).
    destruct Hf as [_ (H1 & H2 & H3 & H4 & l & H5 & H6)]. do 4 (split; [done|]). exists l.
    split; [done|]. intros q Ho Hq. destruct (H6 q Ho Hq) as (n & b & x & c & s & os & Hn & Hb & Hx & H).
    exists n, b, x, c, s, os. rewrite events_back_ne by (by apply (Hother q n b x)). done.
  - destruct (reaction_ok b0 g st q Hf Hq) as (n & b & x & c & s & Hsa & Hn & Hb & Hx & Hreact).
    specialize (Hids n b x Hn Hb Hx). set (m := snd (ss_ParseFromArray msg)) in *.
    destruct (down_step_heard (ids_of x n) s msg Hheard) as (r & s' & os & Ed). fold m in Ed.
    destruct (Hreact (FromBackEnd (Some p) msg) s' os (handed_back p msg g)) as [Hc HJ].
    { cbn [spec_step]. fold m. by rewrite bool_decide_eq_true_2, Ed. }
    { by apply events_back. }
    { intros r' ids _ Hne. apply events_back_ne. congruence. }
    apply (call_act calloc (connecting b0) _ _ _ (fun z k => k z) st r _ (OnRecvBackEnd_ok HW _ q c _ s
      true (Some p) msg r s' os Hsa (f_equal fst Hids) (f_equal snd Hids) Ed) Hc). by apply call_ret.
Qed.

Lemma connector_tame b0 calloc size :
  0 < size -> tame (RA := connector_callbacks true size) calloc room (connecting b0).
Proof using HW KOk KW.
  intros Hsize. split.
  - intros o g st w Hf Hw Hm.
    destruct (connecting_moves b0 o None g st w Hf Hw Hm) as (H1 & H2 & H3 & H4 & l & H5 & H6 & _).
    do 4 (split; [done|]). exists l. split; [done|]. intros p Hp. by apply H6.
  - intros g st p w Hf Hw Hm.
    destruct (connecting_moves b0 None (Some p) g st w Hf Hw Hm) as (H1 & H2 & H3 & H4 & l & H5 & H6 & _).
    do 4 (split; [done|]). exists l. split; [done|]. intros q Hq Hin.
    apply client_opened; [congruence|]. by apply H6.
  - intros g st p (H1 & H2 & H3 & H4 & l & H5 & H6) Hp. do 4 (split; [done|]). exists l. split; [done|].
    intros q _ Hq. apply H6; [intros [= ->]; by apply Hp|done].
  - intros g st [_ HJ]. by apply call_ret.
  - intros g st [_ HJ]. by apply call_ret.
  - intros g st p ty Hf Hp Hj Hctx.
    destruct (session_begins b0 g st p Hf Hp Hj (Hctx Hsize)) as (z & w & Hrun & Hc & HJ).
    apply (call_act calloc (connecting b0) _ g _ (fun z k => k z) st z w Hrun Hc). by apply call_ret.
  - intros g st p ty Hf Hp. destruct (session_ends b0 g st p Hf Hp) as (z & w & Hrun & Hc & HJ).
    apply (call_act calloc (connecting b0) _ g _ (fun z k => k z) st z w Hrun Hc). by apply call_ret.
  - intros g st p ty m. apply front_call.
  - intros g st p ty m Hf _. by apply back_call.
  - intros g st p n r m [_ (_ & _ & H3 & _)] _ Hn Hr. by rewrite (H3 p n Hn) in Hr.
  - intros g st p svc c clo t m d [_ HJ] _ _ _ _ _ _ _ _. exact (call_ret calloc _ None g 0 st HJ).
Qed.
End Loop.

(** ** Properties *)

(** Before the first client. *)
Lemma connecting_begins {P : Protobuf} {K : ConnectorProto} {E : NetEnv ConnectorSession} room a
    (s : CoroutineScheduler (App P ConnectorSession ConnectorApp)) :
  wired (PE := servers) room (world s) -> app_frame_stub_ (app (rest (world s))) = true ->
  (svc_mode_ (rest (world s)) =? SVC_MODE_RPC) = false -> handler_pool_ (front (world s)) = [] ->
  (forall p n, nets (heap (world s)) !! p = Some n -> rpc_binded_ n = None) ->
  backs_ok (world s) -> nid_seed (heap (world s)) <= 2147483647 ->
  (forall b x, bevs (heap (world s)) !! b = Some x -> output x = [] /\ a b = input x) ->
  good (PE := servers) room (connecting (backend_set (app (rest (world s))))) a [] s.
Proof.
  intros Hw Hstub Hmode Hnone Hrpc Hb Hseed Hnew.
  assert (Hno : forall q, ~ is_front q (world s)).
  { intros q [fd Hin]. rewrite Hnone in Hin. by apply not_elem_of_nil in Hin. }
  split; [|intros q m c y _ _ _ _ Hy; by apply (Hnew c)].
  split; [done|]. do 4 (split; [done|]). exists []. split; [|intros q _ Hq; by destruct (Hno q)].
  split; try done.
  - rewrite Z.add_0_r, Z.mod_small; [done|]. destruct Hb as (H1 & H2 & _). by apply turn_turned.
  - intros m Hm. by apply not_elem_of_nil in Hm.
  - intros q n b x _ _ _ Hx. by apply (Hnew b).
Qed.

(** The record [g] of what the application has been told accounts for the state [w], when
    [a] has arrived and [b0] was the set of the back ends. *)
Record accounts {P : Protobuf} {K : ConnectorProto} (b0 : BackEndSet) (a : traffic) (g : ledger)
    (w : App P ConnectorSession ConnectorApp) : Prop := {
  (** Of each connection the messages that have arrived are in the record, in order and each
      once; the rest is queued. *)
  ac_messages q n b x : is_front q w \/ is_back q w -> nets (heap w) !! q = Some n ->
    hevent_ n = Some b -> bevs (heap w) !! b = Some x -> a b = frames (taken q g) ++ input x;
  (** There is one log of what has been sent to the back ends ... *)
  ac_log : exists l : backlog,
    (** ... each message to the one whose turn it was, ... *)
    (forall k q m, l !! k = Some (q, m) -> in_turn b0 k = Some (Some q)) /\
    (** ... and what is queued for a back end is what the log has for it, in order. *)
    (forall q n b x, is_back q w -> nets (heap w) !! q = Some n ->
      hevent_ n = Some b -> bevs (heap w) !! b = Some x -> output x = frames (for_back q l)) /\
    (** The session of a client is where the messages that the record has for it have brought
        the abstract session, and the answers of that session are what is queued for the
        client and what the log has under its ids. *)
    forall p, is_front p w -> exists n b x c sess os,
      nets (heap w) !! p = Some n /\ hevent_ n = Some b /\ bevs (heap w) !! b = Some x /\
      user_context_ n = Some c /\ uctxs (heap w) !! c = Some sess /\
      spec_run true (ids_of x n) (session_of p) (events_of p (ids_of x n) g) = Some (sess, os) /\
      output x = frames (to_front os) /\ to_backs os = from_ids (ids_of x n) l
}.

Lemma accounts_good {P : Protobuf} {K : ConnectorProto} {E : NetEnv ConnectorSession} room b0 a g
    (s : CoroutineScheduler (App P ConnectorSession ConnectorApp)) :
  good (PE := servers) room (connecting b0) a g s -> accounts b0 a g (world s).
Proof.
  intros [[_ (_ & Hm & _ & _ & l & Hlog & Hcl)] Htr]. split.
  - intros q n b x Hq. apply Htr; [done|]. destruct Hq; [by right|by left].
  - exists l. split; [apply (lg_turns _ _ _ Hlog)|]. split; [apply (lg_outputs _ _ _ Hlog)|].
    intros p Hp. destruct (Hcl p ltac:(done) Hp) as (n & b & x & c & sess & os & Hn & Hb & Hx & _ & _ & H).
    by exists n, b, x, c, sess, os.
Qed.


(** ** A concrete connector with two back ends *)

(** As [two_bytes], with the ids in the messages of the back ends. *)
Definition with_ids : ConnectorProto :=
  {| cs_SerializeToString m := [CS.bodyid (CS.head m); CS.sequence (CS.head m)];
     cs_ParseFromArray l :=
       (true, cs_msg (default 0 (l !! 1%nat)) (default 0 (l !! 0%nat)) (cs_body None None None (Some l)));
     ss_SerializeToString m := [SS.bodyid (SS.head m); SS.sequence (SS.head m); SS.fd (SS.head m); SS.nid (SS.head m)];
     ss_ParseFromArray l :=
       (true, ss_msg (default 0 (l !! 1%nat)) (default 0 (l !! 0%nat))
                (u32 (default 0 (l !! 2%nat)), u64 (default 0 (l !! 3%nat))) 77
                (ss_body (Some (Some l)) None None)) |}.
#[local] Instance with_ids_ok : ConnectorProtoOk with_ids.
Proof. by split. Qed.
#[local] Instance with_ids_width : ConnectorProtoWidth with_ids.
Proof. split; intros msg; cbn; int_lia. Qed.

#[local] Existing Instances with_ids front_order easy_rpc_env dotted_frame dotted_frame_ok session_env_ok.
#[local] Existing Instance servers.
#[local] Instance any_room room : HashRoom front_order room.
Proof. by intros t l x _. Qed.
#[local] Instance with_sessions : NetEnv ConnectorSession := session_env true.
#[local] Instance the_app : RapidApp (App plain_protobuf ConnectorSession ConnectorApp) :=
  connector_callbacks true 48.
Abbreviation St := (CoroutineScheduler (App plain_protobuf ConnectorSession ConnectorApp)).

(** [OnInit] makes the two connections, and both are established then. *)
Definition both : ConfigFile := two_uris "tcp://127.0.0.1:9002"%string.
Definition initialised : App plain_protobuf ConnectorSession ConnectorApp :=
  match OnInit (CF := both) the_app true new_connector with Ok (_, w) => w | Fault _ => new_connector end.
Definition established (p : Z) (w : App plain_protobuf ConnectorSession ConnectorApp) :=
  match nets (heap w) !! p with
  | Some n => set_heap (set_nets (<[p := set_net_state NET_ESTABLISHED n]> (nets (heap w))) (heap w)) w
  | None => w
  end.

(** What one call of libevent makes of the state, and what has arrived then. *)
Definition next (s : St) (a : traffic) (e : event) : St * traffic :=
  (match run any_calloc 200 (Thread BMain (PCode (deliver 1 e))) s with
   | Ok (_, s') => s'
   | Fault _ => s
   end, arrivals (world s) e a).
Definition all_next (es : list event) (s : St) (a : traffic) : St * traffic :=
  fold_left (fun sa e => next (fst sa) (snd sa) e) es (s, a).
Definition connector_up : St :=
  fst (all_next [Happened 0 BEV_EVENT_CONNECTED; Happened 1 BEV_EVENT_CONNECTED]
    (CoroutineScheduler_new 10 initialised) (fun _ => [])).
Lemma connector_up_world : world connector_up = established 1 (established 0 initialised).
Proof. vm_compute. reflexivity. Qed.

Lemma established_courteous p w : courteous w (established p w).
Proof.
  unfold established. destruct (nets (heap w) !! p) as [n|] eqn:Hn; [|done].
  by apply (courteous_net w p n).
Qed.

Lemma initialised_wired : wired 8 initialised.
Proof.
  destruct (create_backends_ok true 48 8 (snd (SetUpAndCheckConfig (CF := both))) [] 
    (with_app {| app_frame_stub_ := true; backend_set := BackEndSet_new |} new_connector))
    as (r & w & qs & Hr & Hw & _); [by apply wired_start; try done; eexists|by vm_compute|done|constructor|constructor|].
  assert (E : OnInit (CF := both) the_app true new_connector = Ok (r, w)) by exact Hr.
  unfold initialised. by rewrite E.
Qed.

Lemma connector_up_wired : wired 8 (world connector_up).
Proof.
  rewrite connector_up_world. pose proof initialised_wired as Hw.
  do 2 (eapply wired_courteous; [|apply established_courteous]). exact Hw.
Qed.

Definition two_backs : BackEndSet :=
  {| backend_pos_ := 0; backend_used_ := 2; backends_ := Some 0 :: Some 1 :: replicate 30 None |}.
Lemma connector_up_set : backend_set (app (rest (world connector_up))) = two_backs.
Proof. vm_compute. reflexivity. Qed.

(** The connection [p] is a back end with the descriptor [fd]. *)
Lemma connector_up_back p fd :
  bool_decide ((fd, Some p) ∈ handler_pool_ (back (world connector_up))) = true ->
  EasyNet.state_ <$> nets (heap (world connector_up)) !! p = Some NET_ESTABLISHED ->
  is_back p (world connector_up) /\
  forall n, nets (heap (world connector_up)) !! p = Some n -> EasyNet.state_ n = NET_ESTABLISHED.
Proof.
  intros Hp%bool_decide_eq_true Hs. split; [by exists fd|]. intros n Hn. rewrite Hn in Hs. by injection Hs.
Qed.

Lemma connector_up_backs : backs_ok (world connector_up).
Proof.
  unfold backs_ok. rewrite connector_up_set. split; [done|]. split; [done|]. intros i Hi.
  assert (Hi' : i = 0 \/ i = 1) by (cbn in Hi; lia). destruct Hi' as [-> | ->].
  - exists 0. split; [done|]. by apply (connector_up_back 0 3); vm_compute.
  - exists 1. split; [done|]. by apply (connector_up_back 1 4); vm_compute.
Qed.

Lemma connector_up_quiet :
  (forall p n, nets (heap (world connector_up)) !! p = Some n -> rpc_binded_ n = None) /\
  (forall b x, bevs (heap (world connector_up)) !! b = Some x -> output x = [] /\ [] = input x).
Proof.
  assert (H : bool_decide (map_Forall (fun _ n => rpc_binded_ n = None) (nets (heap (world connector_up)))
      /\ map_Forall (fun _ x => output x = [] /\ [] = input x) (bevs (heap (world connector_up)))) = true)
    by (vm_compute; reflexivity).
  by apply bool_decide_eq_true in H.
Qed.

Lemma connector_up_ready :
  app_frame_stub_ (app (rest (world connector_up))) = true /\
  (svc_mode_ (rest (world connector_up)) =? SVC_MODE_RPC) = false /\
  handler_pool_ (front (world connector_up)) = [] /\ nid_seed (heap (world connector_up)) <= 2147483647.
Proof. do 3 (split; [by vm_compute|]). apply Z.leb_le. by vm_compute. Qed.

(** Two clients: the first is done with its handshake when the servers answer it, the other
    comes while it is at it. *)
Definition connector_events : list event :=
  [Accepted 19 (16777343, 47138); Arrived 2 (frame [1; 1]); Accepted 20 (16777343, 47139);
   Arrived 3 (frame [1; 1] ++ [0; 0]); Arrived 2 (frame [3; 2]); Arrived 3 [0; 6; 3; 2];
   Arrived 0 (frame [2; 1; 19; 3]); Arrived 2 (frame [16; 3]); Arrived 1 (frame [5; 1; 19; 3]); Frame].
Definition connector_end : St * traffic := all_next connector_events connector_up (fun _ => []).

Lemma next_event e es s a s' a' :
  possible 8 (world s) e ->
  run any_calloc 200 (Thread BMain (PCode (deliver 1 e))) s = Ok (None, fst (next s a e)) ->
  history any_calloc 8 1 es (fst (next s a e)) (snd (next s a e)) s' a' ->
  history any_calloc 8 1 (e :: es) s a s' a'.
Proof. intros He Hr. apply history_cons; [done|]. by apply (runs_finished _ 200). Qed.

(** A descriptor that no bufferevent has. *)
Lemma new_descriptor (w : App plain_protobuf ConnectorSession ConnectorApp) sock addr :
  bool_decide (map_Forall (fun _ y => bev_fd y <> sock) (bevs (heap w))) && (sock <? 2147483648) &&
  (nid_seed (heap w) <? 2147483647) && (length (handler_pool_ (front w)) <? 8)%nat = true ->
  possible 8 w (Accepted sock addr).
Proof.
  intros [[[H1%bool_decide_eq_true H0%Z.ltb_lt]%andb_true_iff H2%Z.ltb_lt]%andb_true_iff
    H3%Nat.ltb_lt]%andb_true_iff.
  split; [by apply H1|done].
Qed.

(** A part of a stream without [FIN]. *)
Lemma stream_without_fin c l ms :
  bool_decide (l `prefix_of` frames ms) = true -> Forall frame_ok ms ->
  forallb (fun m => negb (SS.bodyid (SS.head (snd (ss_ParseFromArray m))) =? SS.FIN)) ms = true ->
  stream_part c l.
Proof.
  intros [r Hr]%bool_decide_eq_true Hok Hfin. symmetry in Hr.
  destruct (stream_prefix ms l r Hok Hr) as (ms1 & ms2 & part & -> & -> & _ & Hi & _).
  apply Forall_app in Hok as [Hok _]. exists ms1, part. repeat split; try done.
  intros _. apply Forall_forall. intros m Hm. rewrite forallb_forall in Hfin.
  specialize (Hfin m). rewrite in_app_iff in Hfin. apply list_elem_of_In in Hm.
  specialize (Hfin (or_introl Hm)).
  by apply negb_true_iff, Z.eqb_neq in Hfin.
Qed.

Ltac joins := apply next_event; [by apply new_descriptor; vm_compute|by vm_compute|].
Ltac sends ms :=
  apply next_event; [eexists _, _; split; [by vm_compute|split;
    [by vm_compute|by apply (stream_without_fin _ _ ms); [vm_compute|repeat constructor|]]]|by vm_compute|].

Lemma connector_history :
  history any_calloc 8 1 connector_events connector_up (fun _ => []) (fst connector_end) (snd connector_end).
Proof.
  unfold connector_end, all_next, connector_events. cbn [fold_left fst snd].
  joins. sends [[1; 1]]. joins. sends [[1; 1]; [3; 2]]. sends [[3; 2]]. sends [[3; 2]].
  sends [[2; 1; 19; 3]]. sends [[16; 3]]. sends [[5; 1; 19; 3]].
  apply next_event; [done|by vm_compute|]. apply history_nil.
Qed.

