(* ===== verification/ClientApi.v ===== *)
(** * The connector's client library: server/connector/client_api/connector_client_api_imp.*

    The client's end of the protocol of the connector: [Update] is called again and
    again and drives the handshake over a [TcpSocketUtil]; behind the handshake messages
    are pushed, peeked and popped.  [connector_client_api.cpp] passes every call on to
    the object modelled here. *)
From Stdlib Require Import ZArith Lia.
From stdpp Require Import base list gmap strings.
From S2P Require Import Prelude CLib RpcMsg EasyRpc TcpSocket RingBuffer SockUtil EasyNet NetMgr Framework.
From S2P Require Import MsgLoop Connector.
Local Open Scope Z_scope.

(** ** The package parser *)

Definition kMsgLenFieldSize : Z := 4.
Definition kMaxPkgSize : Z := 1024 * 1024.

(** [ConnectorPkgParser::GetPkgLen], src/server/connector/client_api/connector_client_api_imp.cpp:20-30 *)
Definition ConnectorPkgParser_GetPkgLen (buf : bytes) : Z :=
  if blen buf <=? kMsgLenFieldSize then 0 else i32 (ntohl (load32 buf)).
#[export] Instance g_pkgparser_imp : ITcpPkgParser := ConnectorPkgParser_GetPkgLen.

(** ** State *)

(** [SESSION_STATE], src/server/connector/client_api/connector_client_api_imp.cpp:34-42 *)
Inductive ClientState : Set :=
  | SESSION_STATE_INITED | SESSION_STATE_TCP_SYNING | SESSION_STATE_KEY_SYNING
  | SESSION_STATE_AUTHING | SESSION_STATE_READY | SESSION_STATE_DONE | SESSION_STATE_FINI.

#[export] Instance ClientState_eq_dec : EqDecision ClientState.
Proof. solve_decision. Defined.

Definition CONNECTOR_ERR_NO_MORE_PKG : Z := -1.

(** What [OnGetSettings] fills in. *)
Record Settings : Set := {
  appid_ : bytes;
  openid_ : bytes;
  token_ : bytes;
  encrypt_mode_ : Z;
  auth_type_ : Z;
  server_uri_ : bytes
}.

(** [ConnectorClientProtocolImp], src/server/connector/client_api/connector_client_api_imp.h:81-106

    With the static [handshake_done] of [Update] and the state [U] of the listener.  The
    logger is left out. *)
Record Client (U : Type) : Type := {
  protocol_event_listener_ : bool;
  settings : Settings;
  encrypt_skey_ : bytes;
  passport_ : Z;
  tcp_sock_ : Net;
  session_state_ : ClientState;
  seqno_ : Z;
  up_msg_ : CS.CSMsg;
  down_msg_ : CS.CSMsg;
  handshake_done : bool;
  user : U
}.
Arguments protocol_event_listener_ {U}. Arguments settings {U}. Arguments encrypt_skey_ {U}.
Arguments passport_ {U}. Arguments tcp_sock_ {U}. Arguments session_state_ {U}.
Arguments seqno_ {U}. Arguments up_msg_ {U}. Arguments down_msg_ {U}.
Arguments handshake_done {U}. Arguments user {U}.

Section Setters.
Context {U : Type}.

Definition set_listener (x : bool) (s : Settings) (c : Client U) : Client U :=
  {| protocol_event_listener_ := x; settings := s; encrypt_skey_ := encrypt_skey_ c;
     passport_ := passport_ c; tcp_sock_ := tcp_sock_ c; session_state_ := session_state_ c;
     seqno_ := seqno_ c; up_msg_ := up_msg_ c; down_msg_ := down_msg_ c;
     handshake_done := handshake_done c; user := user c |}.
Definition set_skey (x : bytes) (c : Client U) : Client U :=
  {| protocol_event_listener_ := protocol_event_listener_ c; settings := settings c;
     encrypt_skey_ := x; passport_ := passport_ c; tcp_sock_ := tcp_sock_ c;
     session_state_ := session_state_ c; seqno_ := seqno_ c; up_msg_ := up_msg_ c;
     down_msg_ := down_msg_ c; handshake_done := handshake_done c; user := user c |}.
Definition set_passport (x : Z) (c : Client U) : Client U :=
  {| protocol_event_listener_ := protocol_event_listener_ c; settings := settings c;
     encrypt_skey_ := encrypt_skey_ c; passport_ := x; tcp_sock_ := tcp_sock_ c;
     session_state_ := session_state_ c; seqno_ := seqno_ c; up_msg_ := up_msg_ c;
     down_msg_ := down_msg_ c; handshake_done := handshake_done c; user := user c |}.
Definition set_sock (x : Net) (c : Client U) : Client U :=
  {| protocol_event_listener_ := protocol_event_listener_ c; settings := settings c;
     encrypt_skey_ := encrypt_skey_ c; passport_ := passport_ c; tcp_sock_ := x;
     session_state_ := session_state_ c; seqno_ := seqno_ c; up_msg_ := up_msg_ c;
     down_msg_ := down_msg_ c; handshake_done := handshake_done c; user := user c |}.
Definition set_session_state (x : ClientState) (c : Client U) : Client U :=
  {| protocol_event_listener_ := protocol_event_listener_ c; settings := settings c;
     encrypt_skey_ := encrypt_skey_ c; passport_ := passport_ c; tcp_sock_ := tcp_sock_ c;
     session_state_ := x; seqno_ := seqno_ c; up_msg_ := up_msg_ c;
     down_msg_ := down_msg_ c; handshake_done := handshake_done c; user := user c |}.
Definition set_up_msg (q : Z) (x : CS.CSMsg) (c : Client U) : Client U :=
  {| protocol_event_listener_ := protocol_event_listener_ c; settings := settings c;
     encrypt_skey_ := encrypt_skey_ c; passport_ := passport_ c; tcp_sock_ := tcp_sock_ c;
     session_state_ := session_state_ c; seqno_ := q; up_msg_ := x;
     down_msg_ := down_msg_ c; handshake_done := handshake_done c; user := user c |}.
Definition set_down_msg (x : CS.CSMsg) (c : Client U) : Client U :=
  {| protocol_event_listener_ := protocol_event_listener_ c; settings := settings c;
     encrypt_skey_ := encrypt_skey_ c; passport_ := passport_ c; tcp_sock_ := tcp_sock_ c;
     session_state_ := session_state_ c; seqno_ := seqno_ c; up_msg_ := up_msg_ c;
     down_msg_ := x; handshake_done := handshake_done c; user := user c |}.
Definition set_handshake_done (x : bool) (c : Client U) : Client U :=
  {| protocol_event_listener_ := protocol_event_listener_ c; settings := settings c;
     encrypt_skey_ := encrypt_skey_ c; passport_ := passport_ c; tcp_sock_ := tcp_sock_ c;
     session_state_ := session_state_ c; seqno_ := seqno_ c; up_msg_ := up_msg_ c;
     down_msg_ := down_msg_ c; handshake_done := x; user := user c |}.
Definition set_user (x : U) (c : Client U) : Client U :=
  {| protocol_event_listener_ := protocol_event_listener_ c; settings := settings c;
     encrypt_skey_ := encrypt_skey_ c; passport_ := passport_ c; tcp_sock_ := tcp_sock_ c;
     session_state_ := session_state_ c; seqno_ := seqno_ c; up_msg_ := up_msg_ c;
     down_msg_ := down_msg_ c; handshake_done := handshake_done c; user := x |}.

(** A message without fields; the magic number has a default. *)
Definition no_body : CS.CSBody := cs_body None None None None.
Definition no_msg : CS.CSMsg :=
  {| CS.head := {| CS.magic := CS.MAGIC_CS_V1; CS.sequence := 0; CS.bodyid := 0 |};
     CS.body := no_body |}.

(** [ConnectorClientProtocolImp::ConnectorClientProtocolImp], src/server/connector/client_api/connector_client_api_imp.cpp:56-63 *)
Definition Client_new (sock : Net) (done : bool) (u : U) : Client U :=
  {| protocol_event_listener_ := false;
     settings := {| appid_ := []; openid_ := []; token_ := []; encrypt_mode_ := 0;
                    auth_type_ := 0; server_uri_ := [] |};
     encrypt_skey_ := []; passport_ := 0; tcp_sock_ := sock;
     session_state_ := SESSION_STATE_INITED; seqno_ := 1; up_msg_ := no_msg;
     down_msg_ := no_msg; handshake_done := done; user := u |}.

(** Calls of the methods of the socket. *)
Definition on_sock {A} (m : M Net A) : M (Client U) A := fun c =>
  '(a, n) ← m (tcp_sock_ c); Ok (a, set_sock n c).
End Setters.

(** [IProtocolEventListener], src/server/connector/client_api/connector_client_api.h:27-45

    The callbacks may use the client. *)
Class IProtocolEventListener (U : Type) : Type := {
  OnGetSettings : Settings -> Settings;
  OnHandShakeSucceed : M (Client U) Z;
  OnHandShakeFailed : M (Client U) Z;
  OnServerClose : M (Client U) Z;
  OnIncoming : M (Client U) Z
}.

Lemma preserves_on_sock {U X A} (f : Client U -> X) (m : M Net A) :
  (forall n c, f (set_sock n c) = f c) -> preserves f (on_sock m).
Proof.
  intros Hf c x c' H. unfold on_sock, mbind, outcome_bind in H.
  destruct (m _) as [ [a n]|]; [|done]. by injection H as _ <-.
Qed.
#[export] Hint Extern 1 (preserves _ (on_sock _)) => apply preserves_on_sock; done : preserves.

(** ** Methods *)

Section Methods.
Context {KP : ConnectorProto} {U : Type} {L : IProtocolEventListener U}.
Context (K : Kernel) (g_timeout now : Z).
Abbreviation Mc := (M (Client U)).

(** [ConnectorClientProtocolImp::Connect], src/server/connector/client_api/connector_client_api_imp.cpp:68-81 *)
Definition Client_Connect (server_uri : bytes) : Mc Z :=
  l ← gets protocol_event_listener_;
  _ ← assertb l;
  ret ← on_sock (ConnectNonBlock K g_timeout server_uri);
  if negb (ret =? NORMAL) then mret (-1)
  else _ ← modify (set_session_state SESSION_STATE_TCP_SYNING); mret 0.

(** [ConnectorClientProtocolImp::CheckConnect], src/server/connector/client_api/connector_client_api_imp.cpp:83-86 *)
Definition CheckConnect : Mc Z := on_sock (CheckNonBlock K).

(** [ConnectorClientProtocolImp::Close], src/server/connector/client_api/connector_client_api_imp.cpp:88-92 *)
Definition Client_Close : Mc unit :=
  _ ← on_sock Close; modify (set_session_state SESSION_STATE_FINI).

(** [ConnectorClientProtocolImp::Start], src/server/connector/client_api/connector_client_api_imp.cpp:94-121

    [ok1] and [ok2] tell whether the buffers can be allocated; the result of [Init] is
    not looked at. *)
Definition Start (listener ok1 ok2 : bool) : Mc Z :=
  if negb listener then mret (-1)
  else
    _ ← modify (fun c => set_listener true (OnGetSettings (settings c)) c);
    _ ← on_sock (Init false ok1 ok2 (kMaxPkgSize * 2));
    c ← get;
    ret ← Client_Connect (server_uri_ (settings c));
    mret (if negb (ret =? 0) then -1 else 0).

(** [ConnectorClientProtocolImp::Terminate], src/server/connector/client_api/connector_client_api_imp.cpp:124-130 *)
Definition Terminate : Mc Z := _ ← Client_Close; mret 0.

(** [ConnectorClientProtocolImp::Resume], src/server/connector/client_api/connector_client_api_imp.cpp:133-153 *)
Definition Resume : Mc Z :=
  l ← gets protocol_event_listener_;
  if negb l then mret (-1)
  else
    _ ← on_sock Close;
    _ ← on_sock (upd Reset);
    c ← get;
    ret ← Client_Connect (server_uri_ (settings c));
    mret (if negb (ret =? 0) then -1 else 0).

(** [ConnectorClientProtocolImp::SerializeAndSendToPeer], src/server/connector/client_api/connector_client_api_imp.cpp:155-181 *)
Definition SerializeAndSendToPeer : Mc Z :=
  c ← get;
  let bin_to_send := cs_SerializeToString (up_msg_ c) in
  let msglen := htonl (u64 (blen bin_to_send + 4)) in
  ret ← on_sock (PushvToSendQ now (Some [Some (store32 msglen); Some bin_to_send]));
  if negb (ret =? NORMAL) then mret ret
  else
    ret ← on_sock (Send K);
    if negb (ret =? NORMAL) && negb (ret =? SEND_UNCOMPLETED) then mret ret else mret NORMAL.

(** [down_msg_.ParseFromArray(buf + kMsgLenFieldSize, buflen - kMsgLenFieldSize)]: the
    array must not have a negative size. *)
Definition parse_down (pkg : option bytes) : Mc unit :=
  buf ← nonnull pkg;
  data ← lift (mem_read buf kMsgLenFieldSize (blen buf - kMsgLenFieldSize));
  modify (set_down_msg (snd (cs_ParseFromArray data))).

(** [ConnectorClientProtocolImp::TryToRecvFromPeerAndParse], src/server/connector/client_api/connector_client_api_imp.cpp:183-235 *)
Definition TryToRecvFromPeerAndParse : Mc Z :=
  ret ← on_sock (Recv K);
  if negb (ret =? NORMAL) then mret ret
  else
    has ← on_sock HasNewPkg;
    if negb has then mret CONNECTOR_ERR_NO_MORE_PKG
    else
      '(ret, pkg) ← on_sock (PeekFromRecvQ now false);
      if negb (ret =? NORMAL) && (ASSERT_FAILED =? ret) then mret ret
      else
        _ ← parse_down pkg;
        ret ← on_sock PopFromRecvQ;
        if ASSERT_FAILED =? ret then mret ret
        else
          c ← get;
          mret (if CS.ERROR =? CS.bodyid (CS.head (down_msg_ c)) then -1 else 0).

(** The message to send gets the next sequence number. *)
Definition next_up (bodyid : Z) (b : CS.CSBody) : Mc unit :=
  modify (fun c => set_up_msg (u64 (seqno_ c + 1)) (cs_msg (i64 (seqno_ c)) bodyid b) c).

(** [ConnectorClientProtocolImp::HandShake_SYN], src/server/connector/client_api/connector_client_api_imp.cpp:238-258 *)
Definition HandShake_SYN : Mc Z :=
  c ← get;
  _ ← next_up CS.SYN {| CS.syn := Some (appid_ (settings c), openid_ (settings c));
                        CS.ack := None; CS.auth := None; CS.passport := None;
                        CS.start := None; CS.data := None; CS.error := None |};
  ret ← SerializeAndSendToPeer;
  if negb (ret =? NORMAL) then mret ret
  else _ ← modify (set_session_state SESSION_STATE_KEY_SYNING); mret 0.

(** [ConnectorClientProtocolImp::HandShake_TRY_ACK], src/server/connector/client_api/connector_client_api_imp.cpp:261-285 *)
Definition HandShake_TRY_ACK : Mc Z :=
  ret ← TryToRecvFromPeerAndParse;
  if negb (ret =? 0) then mret ret
  else
    c ← get;
    if negb (CS.bodyid (CS.head (down_msg_ c)) =? CS.SYNACK) then mret (-1)
    else _ ← modify (set_skey (default [] (CS.ack (CS.body (down_msg_ c))))); mret 0.

(** [ConnectorClientProtocolImp::HandShake_AUTH], src/server/connector/client_api/connector_client_api_imp.cpp:288-307 *)
Definition HandShake_AUTH : Mc Z :=
  c ← get;
  _ ← next_up CS.AUTHENTICATION
        {| CS.syn := None; CS.ack := None; CS.auth := Some (token_ (settings c));
           CS.passport := None; CS.start := None; CS.data := None; CS.error := None |};
  ret ← SerializeAndSendToPeer;
  if negb (ret =? NORMAL) then mret ret
  else _ ← modify (set_session_state SESSION_STATE_AUTHING); mret 0.

(** [ConnectorClientProtocolImp::HandShake_TRY_READY], src/server/connector/client_api/connector_client_api_imp.cpp:310-337 *)
Definition HandShake_TRY_READY : Mc Z :=
  ret ← TryToRecvFromPeerAndParse;
  if negb (ret =? 0) then
    mret (if negb (ret =? CONNECTOR_ERR_NO_MORE_PKG) then ret else 0)
  else
    c ← get;
    if negb (CS.bodyid (CS.head (down_msg_ c)) =? CS.PASSPORT) then mret (-1)
    else
      _ ← modify (set_passport (default 0 (mjoin (CS.passport (CS.body (down_msg_ c))))));
      _ ← modify (set_session_state SESSION_STATE_READY);
      mret 0.

(** [ConnectorClientProtocolImp::HandShake_TRY_DONE], src/server/connector/client_api/connector_client_api_imp.cpp:340-366 *)
Definition HandShake_TRY_DONE : Mc Z :=
  ret ← TryToRecvFromPeerAndParse;
  if negb (ret =? 0) then
    mret (if negb (ret =? CONNECTOR_ERR_NO_MORE_PKG) then ret else 0)
  else
    c ← get;
    if negb (CS.bodyid (CS.head (down_msg_ c)) =? CS.START_APP) then mret (-1)
    else _ ← modify (set_session_state SESSION_STATE_DONE); mret 0.

(** A step of [Update] in a state: the value of [ret] and of [busy], or nothing in the
    states it does not know. *)
Definition update_step : Mc (option (Z * Z)) :=
  c ← get;
  match session_state_ c with
  | SESSION_STATE_INITED =>
      ret ← Client_Connect (server_uri_ (settings c)); mret (Some (ret, 0))
  | SESSION_STATE_TCP_SYNING =>
      ret ← CheckConnect;
      c ← get;
      if (NORMAL =? ret) &&
         bool_decide (socket_state_ (util (tcp_sock_ c)) = SockUtil.NET_CONNECTED)
      then ret ← HandShake_SYN; mret (Some (ret, 1))
      else mret (Some (ret, 0))
  | SESSION_STATE_KEY_SYNING =>
      ret ← HandShake_TRY_ACK;
      if 0 =? ret then ret ← HandShake_AUTH; mret (Some (ret, 1))
      else mret (Some (if CONNECTOR_ERR_NO_MORE_PKG =? ret then 0 else ret, 0))
  | SESSION_STATE_AUTHING => ret ← HandShake_TRY_READY; mret (Some (ret, 0))
  | SESSION_STATE_READY => ret ← HandShake_TRY_DONE; mret (Some (ret, 0))
  | SESSION_STATE_DONE =>
      if negb (handshake_done c) then
        _ ← OnHandShakeSucceed;
        _ ← modify (set_handshake_done true);
        mret (Some (0, 1))
      else
        ret ← on_sock (Recv K);
        if NORMAL =? ret then
          has ← on_sock HasNewPkg;
          if (has : bool) then _ ← OnIncoming; mret (Some (ret, 1)) else mret (Some (ret, 0))
        else mret (Some (ret, 0))
  | SESSION_STATE_FINI => mret None
  end.

(** [ConnectorClientProtocolImp::Update], src/server/connector/client_api/connector_client_api_imp.cpp:369-482 *)
Definition Update : Mc Z :=
  l ← gets protocol_event_listener_;
  if negb l then mret (-1)
  else
    r ← update_step;
    match r with
    | None => mret (-1)
    | Some (ret, busy) =>
        c ← get;
        if negb (ret =? NORMAL) then
          match session_state_ c with
          | SESSION_STATE_DONE =>
              if PEER_CLOSED =? ret then _ ← OnServerClose; mret (-1) else mret busy
          | _ => _ ← OnHandShakeFailed; mret (-1)
          end
        else mret busy
    end.

(** [ConnectorClientProtocolImp::PushMessage], src/server/connector/client_api/connector_client_api_imp.cpp:485-508

    [None] is a null pointer. *)
Definition PushMessage (data : option bytes) : Mc Z :=
  match data with
  | None | Some [] => mret (-1)
  | Some d =>
      _ ← next_up CS.DATA_TRANSPARENT (cs_body None None None (Some d));
      ret ← SerializeAndSendToPeer;
      mret (if negb (ret =? 0) then -1 else 0)
  end.

(** [ConnectorClientProtocolImp::PeekMessage], src/server/connector/client_api/connector_client_api_imp.cpp:511-555

    [out_null] tells whether a pointer for a result is null; the result is the data of
    [down_msg_]. *)
Definition PeekMessage (out_null : bool) : Mc (Z * option bytes) :=
  if out_null then mret (-1, None)
  else
    has ← on_sock HasNewPkg;
    if negb has then mret (CONNECTOR_ERR_NO_MORE_PKG, None)
    else
      '(ret, pkg) ← on_sock (PeekFromRecvQ now false);
      if negb (ret =? NORMAL) && (ASSERT_FAILED =? ret) then mret (-1, None)
      else
        _ ← parse_down pkg;
        c ← get;
        if negb (CS.bodyid (CS.head (down_msg_ c)) =? CS.DATA_TRANSPARENT) then mret (-1, None)
        else mret (0, Some (cs_data (down_msg_ c))).

(** [ConnectorClientProtocolImp::PopMessage], src/server/connector/client_api/connector_client_api_imp.cpp:557-575 *)
Definition PopMessage : Mc Z :=
  ret ← on_sock PopFromRecvQ;
  if ASSERT_FAILED =? ret then mret (-1)
  else
    c ← get;
    mret (if negb (CS.bodyid (CS.head (down_msg_ c)) =? CS.DATA_TRANSPARENT) then -1 else 0).

(** [ConnectorClientProtocolThreadImp::PopMessageFromRecvQ], src/server/connector/client_api/connector_client_api_imp.cpp:682-720

    The calls on the object of the thread, by its owner: [size] is the size of the
    buffer, which must hold the whole message.  With what is copied into the buffer;
    [None] leaves the buffer and its length as they were. *)
Definition PopMessageFromRecvQ (buf_null : bool) (size : Z) : Mc (Z * option bytes) :=
  if buf_null || (size =? 0) then mret (-1, None)
  else
    '(ret, data) ← PeekMessage false;
    if negb (ret =? 0) then mret (-1, None)
    else
      match data with
      | Some d =>
          if size <? blen d then mret (-1, None)
          else ret ← PopMessage; mret (ret, Some d)
      | None => ret ← PopMessage; mret (ret, Some [])
      end.

(** The socket and the messages do not change the state of the session or of the listener. *)
Section Aside.
Context {X : Type} (f : Client U -> X).
Context (Hsock : forall n c, f (set_sock n c) = f c) (Hdown : forall m c, f (set_down_msg m c) = f c).
Context (Hup : forall q m c, f (set_up_msg q m c) = f c) (Hkey : forall k c, f (set_skey k c) = f c).

Lemma preserves_CheckConnect : preserves f CheckConnect.
Proof using Hsock. by apply preserves_on_sock. Qed.
Lemma preserves_parse_down pkg : preserves f (parse_down pkg).
Proof using Hdown. unfold parse_down. preserve. Qed.
Lemma preserves_next_up id b : preserves f (next_up id b).
Proof using Hup. by apply preserves_modify. Qed.
Lemma preserves_Serialize : preserves f SerializeAndSendToPeer.
Proof using Hsock. unfold SerializeAndSendToPeer. preserve. Qed.
Lemma preserves_TryToRecv : preserves f TryToRecvFromPeerAndParse.
Proof using Hsock Hdown. unfold TryToRecvFromPeerAndParse. pose proof preserves_parse_down. preserve. Qed.
Lemma preserves_TRY_ACK : preserves f HandShake_TRY_ACK.
Proof using Hsock Hdown Hkey. unfold HandShake_TRY_ACK. pose proof preserves_TryToRecv. preserve. Qed.
End Aside.

End Methods.
#[export] Hint Resolve preserves_CheckConnect preserves_parse_down preserves_next_up
  preserves_Serialize preserves_TryToRecv preserves_TRY_ACK : preserves.

(** ** The client with a thread of its own *)

(** [IWorkerThreadListener], src/server/connector/client_api/connector_client_api.h:142-149

    The callback writes the listener only. *)
Class IWorkerThreadListener (U : Type) : Type := { listener_OnWorkerThreadExit : U -> U }.

(** [ConnectorClientProtocolThreadImp], src/server/connector/client_api/connector_client_api_imp.h:155-160

    With the number of calls of [OnWorkerThreadExit]. *)
Record ThreadImp (U : Type) : Type := {
  ccproto_ : option (Client U);
  wt_listener_ : bool;
  protocol_evtlistener_ : bool;
  exit_ : bool;
  worker_exits : nat
}.
Arguments ccproto_ {U}. Arguments wt_listener_ {U}. Arguments protocol_evtlistener_ {U}.
Arguments exit_ {U}. Arguments worker_exits {U}.

Section Thread.
Context {KP : ConnectorProto} {U : Type} {L : IProtocolEventListener U} {WL : IWorkerThreadListener U}.
Abbreviation Mt := (M (ThreadImp U)).

(** [ConnectorClientProtocolThreadImp::ConnectorClientProtocolThreadImp], src/server/connector/client_api/connector_client_api_imp.cpp:580-584 *)
Definition ThreadImp_new : ThreadImp U :=
  {| ccproto_ := None; wt_listener_ := false; protocol_evtlistener_ := false; exit_ := false;
     worker_exits := 0 |}.

(** A call of a method of the client; the pointer must not be null. *)
Definition on_client {X} (m : M (Client U) X) : Mt X := fun t =>
  match ccproto_ t with
  | None => Fault AssertFailed
  | Some c =>
      '(x, c) ← m c;
      Ok (x, {| ccproto_ := Some c; wt_listener_ := wt_listener_ t;
                protocol_evtlistener_ := protocol_evtlistener_ t; exit_ := exit_ t;
                worker_exits := worker_exits t |})
  end.

(** [ConnectorClientProtocolThreadImp::StartThread], src/server/connector/client_api/connector_client_api_imp.cpp:610-633

    [c] is the client made by [Create]; the thread runs [MainLoop]. *)
Definition StartThread (protocol_evlistener thread_listener : bool) (c : Client U) : Mt Z :=
  if negb protocol_evlistener || negb thread_listener then mret (-1)
  else
    _ ← modify (fun t => {| ccproto_ := Some c; wt_listener_ := true;
                            protocol_evtlistener_ := true; exit_ := exit_ t;
                            worker_exits := worker_exits t |});
    mret 0.

(** [ConnectorClientProtocolThreadImp::TerminateThread], src/server/connector/client_api/connector_client_api_imp.cpp:635-639 *)
Definition TerminateThread : Mt Z :=
  _ ← modify (fun t => {| ccproto_ := ccproto_ t; wt_listener_ := wt_listener_ t;
                          protocol_evtlistener_ := protocol_evtlistener_ t; exit_ := true;
                          worker_exits := worker_exits t |});
  mret 0.

Definition OnWorkerThreadExit : Mt unit :=
  modify (fun t => {| ccproto_ := (fun c => set_user (listener_OnWorkerThreadExit (user c)) c) <$> ccproto_ t; wt_listener_ := wt_listener_ t;
                      protocol_evtlistener_ := protocol_evtlistener_ t; exit_ := exit_ t;
                      worker_exits := S (worker_exits t) |}).

(** A round of the loop: whether it is the last one. *)
Definition update_round (K : Kernel) (g_timeout now : Z) : Mt bool :=
  e ← gets exit_;
  if (e : bool) then mret true
  else ret ← on_client (Update K g_timeout now); mret (ret <? 0).

(** A turn of the loop: whether the owner calls [TerminateThread] before it, the kernel
    and the clock. *)
Definition loop_turn : Type := bool * Kernel * Z.
Fixpoint update_loop (g_timeout : Z) (turns : list loop_turn) : Mt bool :=
  match turns with
  | [] => mret false
  | (stop, K, now) :: turns =>
      _ ← (if stop : bool then TerminateThread else mret 0);
      last ← update_round K g_timeout now;
      if (last : bool) then mret true else update_loop g_timeout turns
  end.

(** [ConnectorClientProtocolThreadImp::MainLoop], src/server/connector/client_api/connector_client_api_imp.cpp:641-673

    [None] when the loop is still running after the turns. *)
Definition MainLoop (K0 : Kernel) (ok1 ok2 : bool) (g_timeout : Z) (turns : list loop_turn)
    : Mt (option Z) :=
  t ← get;
  _ ← assertb (bool_decide (is_Some (ccproto_ t)) && wt_listener_ t && protocol_evtlistener_ t);
  _ ← assertb (negb (exit_ t));
  ret ← on_client (Start K0 g_timeout true ok1 ok2);
  if negb (ret =? 0) then _ ← OnWorkerThreadExit; mret (Some (-1))
  else
    ended ← update_loop g_timeout turns;
    if (ended : bool) then _ ← OnWorkerThreadExit; mret (Some 0) else mret None.

(** [ConnectorClientProtocolThreadImp::PushMessageToSendQ], src/server/connector/client_api/connector_client_api_imp.cpp:675-680 *)
Definition PushMessageToSendQ (K : Kernel) (now : Z) (data : option bytes) : Mt Z :=
  on_client (PushMessage K now data).
End Thread.

(** However the kernel answers, a turn with a call of [TerminateThread] ends the loop. *)
Lemma update_loop_ends {KP : ConnectorProto} {U} {L : IProtocolEventListener U} g_timeout
    (turns : list loop_turn) K now (t : ThreadImp U) r t' rest :
  update_loop g_timeout (turns ++ (true, K, now) :: rest) t = Ok (r, t') -> r = true.
Proof.
  revert t. induction turns as [|[ [stop K1] now1] turns IH]; intros t H; cbn [app update_loop] in H.
  - inv_run H. by injection H as <- _.
  - apply bind_Ok in H as (u & t1 & _ & H). apply bind_Ok in H as (e & t2 & _ & H).
    destruct e; [by injection H as <- _|]. by apply (IH t2).
Qed.

(** ** The socket between calls *)

(** Nothing is waiting in either direction: what was sent is [out], and there is room for
    [room] bytes to come and for a message of [cap] bytes to go. *)
Record idle (n : Net) (out : bytes) (room cap : Z) : Prop := {
  id_ok : sock_ok (util n);
  id_send : contents (send_buf_ (util n)) = [];
  id_out : wire_out n = out;
  id_unread : unread n = [];
  id_room : room <= Avaiable (recv_buf_ (util n));
  id_cap : cap <= buff_size (send_buf_ (util n))
}.
Definition connected (n : Net) : Prop := socket_state_ (util n) = SockUtil.NET_CONNECTED.

(** A message the length field can announce. *)
Definition sendable (m : bytes) : Prop := m <> [] /\ blen m + 4 < 2147483648.

Lemma blen_frame_eq m : blen (frame m) = blen m + 4.
Proof. unfold frame, blen. rewrite length_app. cbn [length store32]. lia. Qed.

Lemma GetPkgLen_frame m : sendable m -> GetPkgLen (frame m) = blen m + 4.
Proof.
  intros [Hne Hl]. change (GetPkgLen (frame m)) with (ConnectorPkgParser_GetPkgLen (frame m)).
  unfold ConnectorPkgParser_GetPkgLen, kMsgLenFieldSize. rewrite blen_frame_eq.
  assert (0 < blen m) by (destruct m; [done|unfold blen; cbn; lia]).
  destruct (Z.leb_spec (blen m + 4) 4); [lia|]. unfold frame.
  rewrite ntohl_htonl by lia. apply i32_id. lia.
Qed.

#[export] Instance g_pkgparser_stable : PkgParserStable g_pkgparser_imp.
Proof.
  split.
  - intros l. change (GetPkgLen l) with (ConnectorPkgParser_GetPkgLen l).
    unfold ConnectorPkgParser_GetPkgLen. destruct (_ <=? _); [lia|apply i32_range].
  - intros l more. change (GetPkgLen (l ++ more)) with (ConnectorPkgParser_GetPkgLen (l ++ more)).
    change (GetPkgLen l) with (ConnectorPkgParser_GetPkgLen l).
    unfold ConnectorPkgParser_GetPkgLen, kMsgLenFieldSize, blen. rewrite length_app.
    destruct (Z.leb_spec (Z.of_nat (length l)) 4); [lia|].
    destruct (Z.leb_spec (Z.of_nat (length l + length more)) 4); [lia|].
    intros _. by rewrite load32_app by lia.
Qed.

Lemma frame_body m : sendable m ->
  mem_read (frame m) kMsgLenFieldSize (blen (frame m) - kMsgLenFieldSize) = Ok m.
Proof.
  intros _. rewrite blen_frame_eq. unfold kMsgLenFieldSize, mem_read.
  rewrite bool_decide_eq_true_2 by (rewrite blen_frame_eq; unfold blen; lia).
  f_equal. unfold slice, frame. change (Z.to_nat 4) with 4%nat.
  change (drop 4 (store32 (htonl (blen m + 4)) ++ m)) with m.
  apply take_ge. unfold blen. lia.
Qed.

(** The kernel delivers a message: it is received and taken out. *)
Lemma recv_frame K now n out room cap m :
  idle n out room cap -> connected n -> sendable m -> blen (frame m) <= room ->
  k_recv K = IoOk (frame m) ->
  exists n1 n2 n3,
    Recv K n = Ok (NORMAL, n1) /\ HasNewPkg n1 = Ok (true, n1) /\
    PeekFromRecvQ now false n1 = Ok ((NORMAL, Some (frame m)), n2) /\
    PopFromRecvQ n2 = Ok (NORMAL, n3) /\
    idle n3 out (room - blen (frame m)) cap /\ connected n3 /\
    unread n1 = frame m /\ unread n2 = frame m.
Proof.
  intros [H1 H2 H3 H4 H5 H6] Hc Hm Hr Hk. pose proof (blen_frame_eq m) as Hl.
  destruct (Recv_data K n (frame m)) as (n1 & E1 & Ho1 & Hu1 & Hs1 & Hw1 & Hst1 & Ha1); try done.
  { lia. }
  rewrite H4 in Hu1. rewrite app_nil_l in Hu1.
  assert (Hf : front_pkg (util n1) = Some (frame m)).
  { unfold front_pkg. cbn zeta. unfold unread in Hu1. rewrite Hu1, GetPkgLen_frame, <- Hl by done.
    rewrite Z.leb_refl, andb_true_r. destruct (Z.ltb_spec 0 (blen (frame m))).
    - by rewrite take_ge by (unfold blen; lia).
    - unfold blen in *. lia. }
  assert (Hok1 : sock_ok (util (on_util
            (fun u => set_times (last_request_timestamp_ u) now u) n1)))
    by (destruct Ho1; by constructor).
  destruct (PopFromRecvQ_ok _ Hok1) as (n3 & E3 & Ho3 & Hp3 & Hss3 & Hwi3 & Hwo3 & Hst3).
  pose proof (Pop_run _ (frame m) Hok1 Hf) as E3'. rewrite E3 in E3'. injection E3' as ->.
  eexists n1, _, _. split; [exact E1|]. split.
  { rewrite HasNewPkg_ok, Hf by done. by rewrite bool_decide_eq_true_2 by eauto. }
  split; [by apply Peek_run|]. split; [exact E3|]. split; [|split; [exact Hst1|by split]].
  constructor.
  - exact Ho3.
  - transitivity (contents (send_buf_ (util n1))); [done|by rewrite Hs1].
  - transitivity (wire_out n1); [done|by rewrite Hw1].
  - change (default [] (front_pkg (util n1)) ++ unread (on_util
      (set_recv_buf (rb_drop (blen (frame m)) (recv_buf_ (util n1)))) n1) = unread n1) in Hp3.
    rewrite Hf, Hu1 in Hp3. cbn [default from_option id] in Hp3.
    apply (app_inv_head (frame m)). rewrite app_nil_r. exact Hp3.
  - transitivity (Avaiable (recv_buf_ (util n1))); [lia|reflexivity].
  - transitivity (buff_size (send_buf_ (util n1))); [by rewrite Hs1|reflexivity].
Qed.

(** A message is queued and the kernel takes it as a whole. *)
Lemma send_frame_sock K now n out room cap m :
  idle n out room cap -> connected n -> sendable m -> blen (frame m) <= cap ->
  k_send K = IoOk (blen (frame m)) ->
  exists n1 n2,
    PushvToSendQ now (Some [Some (store32 (htonl (u64 (blen m + 4)))); Some m]) n = Ok (NORMAL, n1) /\
    Send K n1 = Ok (NORMAL, n2) /\ idle n2 (out ++ frame m) room cap /\ connected n2.
Proof.
  intros [H1 H2 H3 H4 H5 H6] Hc [Hne Hl] Hcap Hk. pose proof (blen_frame_eq m) as Hbl.
  rewrite u64_id by (unfold blen in *; lia).
  assert (Ed : concat (map iov_data [Some (store32 (htonl (blen m + 4))); Some m]) = frame m)
    by (cbn [map concat iov_data]; by rewrite app_nil_r).
  destruct (Push_Send_all K now n [Some (store32 (htonl (blen m + 4))); Some m])
    as (n1 & n2 & E1 & E2 & G1 & G2 & G3 & G4 & G5 & G6); rewrite ?Ed; try done.
  { unfold blen in *; lia. }
  rewrite Ed in G5. exists n1, n2. split; [done|]. split; [done|]. split; [|done].
  constructor; try done.
  - by rewrite G5, H3.
  - unfold unread. by rewrite G4.
  - by rewrite G4.
  - by rewrite G6.
Qed.

(** ** The client and the wire *)

(** The values the fields of a message can hold. *)
Definition bytes_opt (o : option bytes) : Prop := from_option is_bytes True o.
Definition int32 (z : Z) : Prop := -2147483648 <= z < 2147483648.
Definition int64 (z : Z) : Prop := -9223372036854775808 <= z < 9223372036854775808.
Definition body_wf (b : CS.CSBody) : Prop :=
  from_option (fun '(a, o) => is_bytes a /\ is_bytes o) True (CS.syn b) /\
  bytes_opt (CS.ack b) /\ bytes_opt (CS.auth b) /\ bytes_opt (CS.data b) /\
  from_option int64 True (mjoin (CS.passport b)) /\ from_option int32 True (mjoin (CS.start b)) /\
  from_option (fun '(r, desc) => int32 r /\ is_bytes desc) True (CS.error b).
Definition cs_wf (m : CS.CSMsg) : Prop :=
  int32 (CS.magic (CS.head m)) /\ int64 (CS.sequence (CS.head m)) /\
  int32 (CS.bodyid (CS.head m)) /\ body_wf (CS.body m).

Lemma cs_msg_wf q id b : int64 q -> int32 id -> body_wf b -> cs_wf (cs_msg q id b).
Proof. intros Hq Hid Hb. split; [|done]. cbn. unfold int32, CS.MAGIC_CS_V1. lia. Qed.
Lemma body_wf_intro ack auth data passport start syn err :
  from_option (fun '(a, o) => is_bytes a /\ is_bytes o) True syn ->
  bytes_opt ack -> bytes_opt auth -> bytes_opt data ->
  from_option int64 True (mjoin passport) -> from_option int32 True (mjoin start) ->
  from_option (fun '(r, desc) => int32 r /\ is_bytes desc) True err ->
  body_wf {| CS.syn := syn; CS.ack := ack; CS.auth := auth; CS.passport := passport;
             CS.start := start; CS.data := data; CS.error := err |}.
Proof. done. Qed.

(** The same for the messages of the back ends. *)
Definition uint32 (z : Z) : Prop := 0 <= z < 4294967296.
Definition uint64 (z : Z) : Prop := 0 <= z < 18446744073709551616.
Definition ss_wf (m : SS.SSMsg) : Prop :=
  let h := SS.head m in let b := SS.body m in
  int32 (SS.magic h) /\ int64 (SS.sequence h) /\ int32 (SS.bodyid h) /\
  uint32 (SS.fd h) /\ uint64 (SS.nid h) /\ uint32 (SS.sid h) /\
  bytes_opt (mjoin (SS.data b)) /\
  from_option int32 True (mjoin (SS.syn b)) /\ from_option int32 True (mjoin (SS.ack b)) /\
  from_option int32 True (mjoin (SS.rsm b)) /\ from_option int32 True (mjoin (SS.fin b)).

(** The size up to which a message is parsed when no other limit is set. *)
Definition kDefaultTotalBytesLimit : Z := 67108864.
Definition small {KP : ConnectorProto} (m : CS.CSMsg) : Prop :=
  blen (cs_SerializeToString m) <= kDefaultTotalBytesLimit.
Definition ss_small {KP : ConnectorProto} (m : SS.SSMsg) : Prop :=
  blen (ss_SerializeToString m) <= kDefaultTotalBytesLimit.

(** A message is parsed from what it was serialized to. *)
Class ConnectorProtoRound (KP : ConnectorProto) : Prop := {
  cs_round m : cs_wf m -> small m -> cs_ParseFromArray (cs_SerializeToString m) = (true, m);
  ss_round m : ss_wf m -> ss_small m -> ss_ParseFromArray (ss_SerializeToString m) = (true, m)
}.

Section Steps.
Context {KP : ConnectorProto} {KOk : ConnectorProtoOk KP} {KR : ConnectorProtoRound KP}.
Context {U : Type} {L : IProtocolEventListener U}.
Context (K : Kernel) (g_timeout now : Z).
Implicit Types (c : Client U) (m : CS.CSMsg).

Lemma on_sock_ok {A} (f : M Net A) c a n :
  f (tcp_sock_ c) = Ok (a, n) -> on_sock f c = Ok (a, set_sock n c).
Proof using. intros H. unfold on_sock. by rewrite H. Qed.

(** The socket of a client at rest. *)
Definition at_rest c (out : bytes) (room cap : Z) : Prop :=
  idle (tcp_sock_ c) out room cap /\ connected (tcp_sock_ c).

(** A message that fits into the socket. *)
Definition fits (size : Z) (m : CS.CSMsg) : Prop :=
  small m /\ blen (frame (cs_SerializeToString m)) <= size.

Lemma fits_sendable size m : fits size m -> sendable (cs_SerializeToString m).
Proof using KOk.
  intros [H _]. split; [apply cs_nonempty|]. unfold small, kDefaultTotalBytesLimit in H. lia.
Qed.

Lemma parse_down_ok m c :
  sendable (cs_SerializeToString m) -> cs_wf m -> small m ->
  parse_down (Some (frame (cs_SerializeToString m))) c = Ok (tt, set_down_msg m c).
Proof using KR.
  intros Hs Hwf Hsm. unfold parse_down.
  rewrite (bind_step (nonnull _) _ _ (frame (cs_SerializeToString m)) c) by done.
  rewrite (bind_step _ _ _ (cs_SerializeToString m) c).
  2: { unfold lift. by rewrite frame_body. }
  unfold modify. by rewrite cs_round.
Qed.

(** The kernel delivers a message of the server. *)
Lemma TryToRecv_ok c out room cap m :
  at_rest c out room cap -> cs_wf m -> fits room m ->
  k_recv K = IoOk (frame (cs_SerializeToString m)) ->
  exists n, TryToRecvFromPeerAndParse K now c
    = Ok (if CS.ERROR =? CS.bodyid (CS.head m) then -1 else 0, set_sock n (set_down_msg m c)) /\
    at_rest (set_sock n (set_down_msg m c)) out
      (room - blen (frame (cs_SerializeToString m))) cap.
Proof using KOk KR.
  intros [Hi Hc] Hwf Hf Hk. pose proof (fits_sendable room m Hf) as Hs. destruct Hf as [Hsm Hr].
  destruct (recv_frame K now _ out room cap _ Hi Hc Hs Hr Hk)
    as (n1 & n2 & n3 & E1 & E2 & E3 & E4 & Hi3 & Hc3 & _).
  exists n3. split; [|by split]. unfold TryToRecvFromPeerAndParse.
  rewrite (bind_step _ _ _ _ _ (on_sock_ok _ c _ _ E1)). cbn [Z.eqb negb NORMAL].
  rewrite (bind_step _ _ _ _ _ (on_sock_ok _ (set_sock n1 c) _ _ E2)). cbn [negb].
  rewrite (bind_step _ _ _ _ _ (on_sock_ok _ (set_sock n1 (set_sock n1 c)) _ _ E3)).
  cbn [Z.eqb negb andb NORMAL].
  rewrite (bind_step _ _ _ _ _ (parse_down_ok m (set_sock n2 c) Hs Hwf Hsm)).
  rewrite (bind_step _ _ _ NORMAL (set_sock n3 (set_down_msg m c))).
  2: { apply (on_sock_ok _ (set_down_msg m (set_sock n2 c))). exact E4. }
  done.
Qed.

(** The message of the client, sent. *)
Lemma SerializeAndSend_rest c out room cap :
  at_rest c out room cap -> fits cap (up_msg_ c) ->
  k_send K = IoOk (blen (frame (cs_SerializeToString (up_msg_ c)))) ->
  exists n, SerializeAndSendToPeer K now c = Ok (NORMAL, set_sock n c) /\
    at_rest (set_sock n c) (out ++ frame (cs_SerializeToString (up_msg_ c))) room cap.
Proof using KOk.
  intros [Hi Hc] Hf Hk. pose proof (fits_sendable cap _ Hf) as Hs. destruct Hf as [_ Hcap].
  destruct (send_frame_sock K now _ out room cap _ Hi Hc Hs Hcap Hk)
    as (n1 & n2 & E1 & E2 & Hi2 & Hc2).
  exists n2. split; [|by split]. unfold SerializeAndSendToPeer.
  rewrite (bind_step get _ c c c) by done. cbn zeta.
  rewrite (bind_step _ _ _ _ _ (on_sock_ok _ c _ _ E1)). cbn [Z.eqb negb NORMAL].
  by rewrite (bind_step _ _ _ _ _ (on_sock_ok _ (set_sock n1 c) _ _ E2)).
Qed.

(** The messages of the client. *)
Definition syn_msg c : CS.CSMsg :=
  cs_msg (i64 (seqno_ c)) CS.SYN
    {| CS.syn := Some (appid_ (settings c), openid_ (settings c)); CS.ack := None;
       CS.auth := None; CS.passport := None; CS.start := None; CS.data := None;
       CS.error := None |}.
Definition auth_msg c : CS.CSMsg :=
  cs_msg (i64 (seqno_ c)) CS.AUTHENTICATION
    {| CS.syn := None; CS.ack := None; CS.auth := Some (token_ (settings c));
       CS.passport := None; CS.start := None; CS.data := None; CS.error := None |}.
Definition data_msg c (d : bytes) : CS.CSMsg :=
  cs_msg (i64 (seqno_ c)) CS.DATA_TRANSPARENT (cs_body None None None (Some d)).

(** Sending a message takes a sequence number. *)
Lemma send_up c out room cap id b :
  let m := cs_msg (i64 (seqno_ c)) id b in
  at_rest c out room cap -> fits cap m ->
  k_send K = IoOk (blen (frame (cs_SerializeToString m))) ->
  exists n, (_ ← next_up id b; SerializeAndSendToPeer K now) c
    = Ok (NORMAL, set_sock n (set_up_msg (u64 (seqno_ c + 1)) m c)) /\
    at_rest (set_sock n (set_up_msg (u64 (seqno_ c + 1)) m c))
      (out ++ frame (cs_SerializeToString m)) room cap.
Proof using KOk.
  intros m Hr Hf Hk.
  apply (SerializeAndSend_rest (set_up_msg (u64 (seqno_ c + 1)) m c) out room cap); done.
Qed.

(** *** The steps of the handshake *)

Lemma Update_returns c r busy c' :
  protocol_event_listener_ c = true ->
  update_step K g_timeout now c = Ok (Some (r, busy), c') -> r = NORMAL ->
  Update K g_timeout now c = Ok (busy, c').
Proof using.
  intros Hl E ->. unfold Update. rewrite (bind_step (gets _) _ c (protocol_event_listener_ c) c) by done.
  rewrite Hl. cbn [negb]. rewrite (bind_step _ _ _ _ _ E).
  by rewrite (bind_step get _ c' c' c') by done.
Qed.

(** Connected, the client opens the handshake. *)
Lemma Update_syn c out room cap :
  protocol_event_listener_ c = true -> session_state_ c = SESSION_STATE_TCP_SYNING ->
  idle (tcp_sock_ c) out room cap -> 0 <= fd_ (util (tcp_sock_ c)) ->
  0 < k_select K -> k_so_error K = 0 -> fits cap (syn_msg c) ->
  k_send K = IoOk (blen (frame (cs_SerializeToString (syn_msg c)))) ->
  exists n, let c' := set_session_state SESSION_STATE_KEY_SYNING
                        (set_sock n (set_up_msg (u64 (seqno_ c + 1)) (syn_msg c) c)) in
    Update K g_timeout now c = Ok (1, c') /\
    at_rest c' (out ++ frame (cs_SerializeToString (syn_msg c))) room cap.
Proof using KOk.
  intros Hl Hst Hi Hfd Hsel Herr Hf Hk.
  assert (Hcc : exists t, tcpsocket_check_connect K (fd_ (util (tcp_sock_ c))) 0 (sys (tcp_sock_ c))
                = Ok (0, t)).
  { unfold tcpsocket_check_connect. cbn [Z.ltb Z.compare]. destruct (_ <? _); [|by eexists].
    destruct (MS_TO_TV 0) as [sec usec]. unfold mbind, M_bind, call.
    destruct (Z.ltb_spec (k_select K) 0); [lia|]. destruct (Z.eqb_spec (k_select K) 0); [lia|].
    rewrite Herr. by eexists. }
  destruct Hcc as [t Et].
  set (n1 := on_util (set_socket_state SockUtil.NET_CONNECTED)
               {| util := util (tcp_sock_ c); sys := t; wire_out := wire_out (tcp_sock_ c);
                  wire_in := wire_in (tcp_sock_ c) |}).
  assert (Ec : CheckNonBlock K (tcp_sock_ c) = Ok (NORMAL, n1)).
  { unfold CheckNonBlock. rewrite (bind_step (gets util) _ _ (util (tcp_sock_ c)) (tcp_sock_ c)) by done.
    destruct (Z.ltb_spec (fd_ (util (tcp_sock_ c))) 0); [lia|].
    erewrite bind_step by (unfold syscalls; rewrite Et; reflexivity). done. }
  assert (Hr1 : at_rest (set_sock n1 c) out room cap).
  { split; [|done]. destruct Hi as [[Hs1 Hs2 Hs3 Hs4] H2 H3 H4 H5 H6]. by constructor. }
  destruct (send_up (set_sock n1 c) out room cap CS.SYN (CS.body (syn_msg c)) Hr1 Hf Hk)
    as (n & Es & Hn).
  exists n. split; [|exact Hn].
  apply (Update_returns c NORMAL); [done| |done]. unfold update_step.
  rewrite (bind_step get _ c c c), Hst by done.
  rewrite (bind_step _ _ _ _ _ (on_sock_ok _ c _ _ Ec)).
  rewrite (bind_step get _ _ (set_sock n1 c) (set_sock n1 c)) by done.
  rewrite bool_decide_eq_true_2 by done. cbn [Z.eqb NORMAL andb].
  erewrite bind_step; [done|]. unfold HandShake_SYN.
  rewrite (bind_step get _ _ (set_sock n1 c) (set_sock n1 c)) by done.
  apply bind_Ok in Es as (u & c1 & Eu & Es).
  rewrite (bind_step _ _ _ _ _ Eu). by rewrite (bind_step _ _ _ _ _ Es).
Qed.

(** The key arrives, and the client authenticates. *)
Lemma Update_auth c out room cap m :
  protocol_event_listener_ c = true -> session_state_ c = SESSION_STATE_KEY_SYNING ->
  at_rest c out room cap -> cs_wf m -> fits room m ->
  CS.bodyid (CS.head m) = CS.SYNACK ->
  k_recv K = IoOk (frame (cs_SerializeToString m)) -> fits cap (auth_msg c) ->
  k_send K = IoOk (blen (frame (cs_SerializeToString (auth_msg c)))) ->
  exists n, let c' := set_session_state SESSION_STATE_AUTHING (set_sock n
                        (set_up_msg (u64 (seqno_ c + 1)) (auth_msg c)
                          (set_skey (default [] (CS.ack (CS.body m))) (set_down_msg m c)))) in
    Update K g_timeout now c = Ok (1, c') /\
    at_rest c' (out ++ frame (cs_SerializeToString (auth_msg c)))
      (room - blen (frame (cs_SerializeToString m))) cap.
Proof using KOk KR.
  intros Hl Hst Hr Hwf Hf Hid Hk Hf2 Hk2.
  destruct (TryToRecv_ok c out room cap m Hr Hwf Hf Hk) as (n1 & E1 & Hr1).
  rewrite Hid in E1. change (CS.ERROR =? CS.SYNACK) with false in E1. cbn iota in E1.
  set (c1 := set_sock n1 (set_down_msg m c)) in *.
  set (c2 := set_skey (default [] (CS.ack (CS.body m))) c1).
  destruct (send_up c2 out _ cap CS.AUTHENTICATION (CS.body (auth_msg c)) Hr1 Hf2 Hk2)
    as (n & Es & Hn).
  exists n. split; [|exact Hn].
  apply (Update_returns c NORMAL); [done| |done]. unfold update_step.
  rewrite (bind_step get _ c c c), Hst by done.
  rewrite (bind_step _ _ _ 0 c2).
  2: { unfold HandShake_TRY_ACK. rewrite (bind_step _ _ _ _ _ E1). cbn [Z.eqb negb].
       rewrite (bind_step get _ _ c1 c1) by done. change (down_msg_ c1) with m. by rewrite Hid. }
  cbn [Z.eqb]. erewrite bind_step; [done|]. unfold HandShake_AUTH.
  rewrite (bind_step get _ _ c2 c2) by done.
  apply bind_Ok in Es as (u & c3 & Eu & Es).
  rewrite (bind_step _ _ _ _ _ Eu). by rewrite (bind_step _ _ _ _ _ Es).
Qed.

(** The result of the authentication arrives. *)
Lemma Update_ready c out room cap m :
  protocol_event_listener_ c = true -> session_state_ c = SESSION_STATE_AUTHING ->
  at_rest c out room cap -> cs_wf m -> fits room m ->
  CS.bodyid (CS.head m) = CS.PASSPORT ->
  k_recv K = IoOk (frame (cs_SerializeToString m)) ->
  exists n, let c' := set_session_state SESSION_STATE_READY
                        (set_passport (default 0 (mjoin (CS.passport (CS.body m))))
                          (set_sock n (set_down_msg m c))) in
    Update K g_timeout now c = Ok (0, c') /\
    at_rest c' out (room - blen (frame (cs_SerializeToString m))) cap.
Proof using KOk KR.
  intros Hl Hst Hr Hwf Hf Hid Hk.
  destruct (TryToRecv_ok c out room cap m Hr Hwf Hf Hk) as (n1 & E1 & Hr1).
  rewrite Hid in E1. change (CS.ERROR =? CS.PASSPORT) with false in E1. cbn iota in E1.
  exists n1. split; [|exact Hr1]. set (c1 := set_sock n1 (set_down_msg m c)) in *.
  apply (Update_returns c NORMAL); [done| |done]. unfold update_step.
  rewrite (bind_step get _ c c c), Hst by done. erewrite bind_step; [done|].
  unfold HandShake_TRY_READY. rewrite (bind_step _ _ _ _ _ E1). cbn [Z.eqb negb].
  rewrite (bind_step get _ _ c1 c1) by done. change (down_msg_ c1) with m. by rewrite Hid.
Qed.

(** The server lets the client start. *)
Lemma Update_done c out room cap m :
  protocol_event_listener_ c = true -> session_state_ c = SESSION_STATE_READY ->
  at_rest c out room cap -> cs_wf m -> fits room m ->
  CS.bodyid (CS.head m) = CS.START_APP ->
  k_recv K = IoOk (frame (cs_SerializeToString m)) ->
  exists n, let c' := set_session_state SESSION_STATE_DONE (set_sock n (set_down_msg m c)) in
    Update K g_timeout now c = Ok (0, c') /\
    at_rest c' out (room - blen (frame (cs_SerializeToString m))) cap.
Proof using KOk KR.
  intros Hl Hst Hr Hwf Hf Hid Hk.
  destruct (TryToRecv_ok c out room cap m Hr Hwf Hf Hk) as (n1 & E1 & Hr1).
  rewrite Hid in E1. change (CS.ERROR =? CS.START_APP) with false in E1. cbn iota in E1.
  exists n1. split; [|exact Hr1]. set (c1 := set_sock n1 (set_down_msg m c)) in *.
  apply (Update_returns c NORMAL); [done| |done]. unfold update_step.
  rewrite (bind_step get _ c c c), Hst by done. erewrite bind_step; [done|].
  unfold HandShake_TRY_DONE. rewrite (bind_step _ _ _ _ _ E1). cbn [Z.eqb negb].
  rewrite (bind_step get _ _ c1 c1) by done. change (down_msg_ c1) with m. by rewrite Hid.
Qed.

(** The states in which a message of the server is waited for. *)
Definition waiting (st : ClientState) : Prop :=
  st = SESSION_STATE_KEY_SYNING \/ st = SESSION_STATE_AUTHING \/ st = SESSION_STATE_READY.

(** A message that is taken for no message. *)
Definition ignored (st : ClientState) m : Prop :=
  (waiting st /\ CS.bodyid (CS.head m) = CS.ERROR) \/
  (st = SESSION_STATE_KEY_SYNING /\ CS.bodyid (CS.head m) <> CS.SYNACK).

Lemma Update_ignored c out room cap m :
  protocol_event_listener_ c = true -> ignored (session_state_ c) m ->
  at_rest c out room cap -> cs_wf m -> fits room m ->
  k_recv K = IoOk (frame (cs_SerializeToString m)) ->
  exists n, let c' := set_sock n (set_down_msg m c) in
    Update K g_timeout now c = Ok (0, c') /\
    at_rest c' out (room - blen (frame (cs_SerializeToString m))) cap.
Proof using KOk KR.
  intros Hl Hst Hr Hwf Hf Hk.
  destruct (TryToRecv_ok c out room cap m Hr Hwf Hf Hk) as (n1 & E1 & Hr1).
  exists n1. split; [|exact Hr1].
  apply (Update_returns c NORMAL); [done| |done]. unfold update_step.
  rewrite (bind_step get _ c c c) by done.
  set (c1 := set_sock n1 (set_down_msg m c)) in *.
  assert (H : HandShake_TRY_ACK K now c = Ok (-1, c1) /\ session_state_ c = SESSION_STATE_KEY_SYNING \/
    CS.bodyid (CS.head m) = CS.ERROR /\
    (session_state_ c = SESSION_STATE_AUTHING \/ session_state_ c = SESSION_STATE_READY)).
  { unfold HandShake_TRY_ACK. rewrite (bind_step _ _ _ _ _ E1).
    destruct Hst as [[ [Est|Est] Hid]|[Est Hid] ]; [|by right|].
    - rewrite Hid, Z.eqb_refl. by left.
    - destruct (CS.ERROR =? _); [by left|]. cbn [Z.eqb negb].
      rewrite (bind_step get _ _ c1 c1) by done. change (down_msg_ c1) with m.
      destruct (Z.eqb_spec (CS.bodyid (CS.head m)) CS.SYNACK); [done|]. by left. }
  destruct H as [ [E2 ->]|[Hid [-> | ->] ] ].
  - by rewrite (bind_step _ _ _ _ _ E2).
  - rewrite Hid, Z.eqb_refl in E1. rewrite (bind_step _ _ _ 0 c1); [done|].
    unfold HandShake_TRY_READY. by rewrite (bind_step _ _ _ _ _ E1).
  - rewrite Hid, Z.eqb_refl in E1. rewrite (bind_step _ _ _ 0 c1); [done|].
    unfold HandShake_TRY_DONE. by rewrite (bind_step _ _ _ _ _ E1).
Qed.

(** *** Data *)

Lemma PushMessage_ok c out room cap d :
  at_rest c out room cap -> d <> [] -> fits cap (data_msg c d) ->
  k_send K = IoOk (blen (frame (cs_SerializeToString (data_msg c d)))) ->
  exists n, let c' := set_sock n (set_up_msg (u64 (seqno_ c + 1)) (data_msg c d) c) in
    PushMessage K now (Some d) c = Ok (0, c') /\
    at_rest c' (out ++ frame (cs_SerializeToString (data_msg c d))) room cap.
Proof using KOk.
  intros Hr Hd Hf Hk. destruct (send_up c out room cap _ _ Hr Hf Hk) as (n & Es & Hn).
  exists n. split; [|exact Hn]. unfold PushMessage. destruct d as [|d0 d]; [done|].
  apply bind_Ok in Es as (u & c1 & Eu & Es).
  rewrite (bind_step _ _ _ _ _ Eu). by rewrite (bind_step _ _ _ _ _ Es).
Qed.

(** Without room in the send buffer nothing is sent, but the number is gone. *)
Lemma PushMessage_full c d :
  sock_ok (util (tcp_sock_ c)) -> d <> [] ->
  blen (cs_SerializeToString (data_msg c d)) + 4 < 2147483648 ->
  Avaiable (send_buf_ (util (tcp_sock_ c))) < blen (frame (cs_SerializeToString (data_msg c d))) ->
  PushMessage K now (Some d) c
  = Ok (-1, set_up_msg (u64 (seqno_ c + 1)) (data_msg c d) c).
Proof using.
  intros Hok Hd Hl Hfull. unfold PushMessage. destruct d as [|d0 d]; [done|].
  set (c1 := set_up_msg (u64 (seqno_ c + 1)) (data_msg c (d0 :: d)) c).
  rewrite (bind_step _ _ _ tt c1) by done. rewrite (bind_step _ _ _ SEND_BUFF_FULL c1); [done|].
  unfold SerializeAndSendToPeer. rewrite (bind_step get _ c1 c1 c1) by done. cbn zeta.
  set (bin := cs_SerializeToString (up_msg_ c1)).
  pose proof (blen_frame_eq bin) as Hbl.
  assert (Hb0 : 0 <= blen bin) by (unfold blen; lia).
  assert (Hbin : bin = cs_SerializeToString (data_msg c (d0 :: d))) by done.
  rewrite <- Hbin in Hl, Hfull. rewrite u64_id by lia.
  rewrite (bind_step _ _ _ SEND_BUFF_FULL c1); [done|].
  replace c1 with (set_sock (tcp_sock_ c1) c1) at 2 by (by destruct c1).
  apply on_sock_ok. apply Push_full; try done;
    cbn [map concat iov_data]; rewrite app_nil_r; fold (frame bin); [lia|done].
Qed.
End Steps.

Section Pushing.
Context {KP : ConnectorProto} {KOk : ConnectorProtoOk KP} {U : Type} (now : Z).
Implicit Types (c : Client U) (m : CS.CSMsg).

(** Messages pushed one after another, each with the kernel of its call; the results. *)
Fixpoint push_all (l : list (Kernel * bytes)) : M (Client U) (list Z) :=
  match l with
  | [] => mret []
  | (K, d) :: l => r ← PushMessage K now (Some d); rs ← push_all l; mret (r :: rs)
  end.

(** The messages with their numbers. *)
Fixpoint numbered (q : Z) (ds : list bytes) : list CS.CSMsg :=
  match ds with
  | [] => []
  | d :: ds => cs_msg (i64 q) CS.DATA_TRANSPARENT (cs_body None None None (Some d))
                 :: numbered (q + 1) ds
  end.

Definition wire m : bytes := frame (cs_SerializeToString m).

(** The kernel takes each message as a whole. *)
Definition taken (l : list (Kernel * bytes)) (q : Z) : Prop :=
  Forall2 (fun '(K, d) m => d <> [] /\ k_send K = IoOk (blen (wire m))) l (numbered q (map snd l)).

Lemma push_all_ok l c out room cap q :
  at_rest c out room cap -> seqno_ c = q -> 0 <= q -> q + Z.of_nat (length l) < 9223372036854775808 ->
  Forall (fits cap) (numbered q (map snd l)) -> taken l q ->
  exists c', push_all l c = Ok (map (fun _ => 0) l, c') /\
    at_rest c' (out ++ concat (map wire (numbered q (map snd l)))) room cap /\
    seqno_ c' = q + Z.of_nat (length l) /\ session_state_ c' = session_state_ c.
Proof using KOk.
  revert c out q. induction l as [|[K' d] l IH]; intros c out q Hr Hq H0 Hl Hf Ht; cbn [map concat numbered snd] in *.
  - exists c. rewrite app_nil_r. cbn [length]. split; [done|]. split; [done|]. split; [lia|done].
  - inversion Hf as [|? ? Hf1 Hf2]; subst. inversion Ht as [|? ? ? ? Hdk Ht2]; subst. destruct Hdk as [Hd Hk].
    cbn [length] in Hl.
    destruct (PushMessage_ok K' now c out room cap d Hr Hd Hf1 Hk) as (n & E & Hr').
    cbn zeta in E, Hr'. set (c1 := set_sock n _) in *.
    destruct (IH c1 _ (seqno_ c + 1) Hr') as (c' & E' & Hr2 & Hs2 & Hst2); try done.
    + cbn. apply u64_id. lia.
    + lia.
    + lia.
    + exists c'. cbn [push_all map]. rewrite (bind_step _ _ _ _ _ E), (bind_step _ _ _ _ _ E'). split; [done|].
      rewrite <- app_assoc in Hr2. split; [exact Hr2|]. cbn [length]. split; [lia|]. by rewrite Hst2.
Qed.
End Pushing.

(** ** The ladder of states *)

Section Ladder.
Context {KP : ConnectorProto} {U : Type} {L : IProtocolEventListener U}.
Context (K : Kernel) (g_timeout now : Z).
Implicit Types (c : Client U).

(** A call that leaves the state alone. *)
Abbreviation keeps := (preserves (session_state_ (U := U))).

(** A call that moves to [st], and only when it succeeds. *)
Definition moves (m : M (Client U) Z) (st : ClientState) : Prop :=
  forall c r c', m c = Ok (r, c') ->
    session_state_ c' = session_state_ c \/ (r = 0 /\ session_state_ c' = st).

Lemma moves_keeps m st : keeps m -> moves m st.
Proof using. intros Hm c r c' H. left. exact (Hm _ _ _ H). Qed.
Lemma moves_bind {A} (m : M (Client U) A) f st : keeps m -> (forall a, moves (f a) st) -> moves (m ≫= f) st.
Proof using.
  intros Hm Hf c b c' H. apply bind_Ok in H as (a & c1 & H1 & H2).
  rewrite <- (Hm _ _ _ H1). exact (Hf _ _ _ _ H2).
Qed.
Lemma moves_to st : moves (_ ← modify (set_session_state st); mret 0) st.
Proof using. intros c r c' [= <- <-]. by right. Qed.

Ltac keep :=
  repeat (cbn zeta; lazymatch goal with
  | |- moves (mret _) _ => apply moves_keeps
  | |- moves (modify (set_session_state _) ≫= _) _ => apply moves_to
  | |- moves (_ ≫= _) _ => apply moves_bind; [|intros ?]
  | |- moves (if ?b then _ else _) _ => destruct b
  | |- preserves _ _ => progress preserve
  end).

Lemma Connect_moves uri : moves (Client_Connect K g_timeout uri) SESSION_STATE_TCP_SYNING.
Proof using. unfold Client_Connect. keep; try (intros c x c' H; discriminate H). Qed.
Lemma SYN_moves : moves (HandShake_SYN K now) SESSION_STATE_KEY_SYNING.
Proof using. unfold HandShake_SYN. keep. Qed.
Lemma AUTH_moves : moves (HandShake_AUTH K now) SESSION_STATE_AUTHING.
Proof using. unfold HandShake_AUTH. keep. Qed.
Lemma READY_moves : moves (HandShake_TRY_READY K now) SESSION_STATE_READY.
Proof using. unfold HandShake_TRY_READY. keep. Qed.
Lemma DONE_moves : moves (HandShake_TRY_DONE K now) SESSION_STATE_DONE.
Proof using. unfold HandShake_TRY_DONE. keep. Qed.

(** The state after a state of the handshake. *)
Definition next_state (st : ClientState) : ClientState :=
  match st with
  | SESSION_STATE_INITED => SESSION_STATE_TCP_SYNING
  | SESSION_STATE_TCP_SYNING => SESSION_STATE_KEY_SYNING
  | SESSION_STATE_KEY_SYNING => SESSION_STATE_AUTHING
  | SESSION_STATE_AUTHING => SESSION_STATE_READY
  | SESSION_STATE_READY => SESSION_STATE_DONE
  | SESSION_STATE_DONE | SESSION_STATE_FINI => st
  end.

(** A listener that does not close or resume the client. *)
Record listener_keeps : Prop := {
  keeps_succeed : keeps OnHandShakeSucceed;
  keeps_failed : keeps OnHandShakeFailed;
  keeps_close : keeps OnServerClose;
  keeps_incoming : keeps OnIncoming
}.

(** What a step can do. *)
Definition one_rung c (r : option (Z * Z)) c' : Prop :=
  (session_state_ c' = session_state_ c /\ forall ret b, r = Some (ret, b) -> 0 <= b <= 1) \/
  (session_state_ c' = next_state (session_state_ c) /\ exists b, r = Some (0, b) /\ 0 <= b <= 1).

Lemma moves_rung m st b c r c' :
  moves m st -> next_state (session_state_ c) = st -> 0 <= b <= 1 ->
  (ret ← m; mret (Some (ret, b))) c = Ok (r, c') -> one_rung c r c'.
Proof using.
  intros Hm Hst Hb H. apply bind_Ok in H as (ret & c1 & H1 & [= <- <-]).
  destruct (Hm _ _ _ H1) as [E|[-> E] ].
  - left. split; [done|]. by intros ? ? [= _ <-].
  - right. rewrite E, Hst. eauto.
Qed.

Lemma keeps_rung m c r c' :
  keeps m -> (forall c a c', m c = Ok (a, c') -> forall ret b, a = Some (ret, b) -> 0 <= b <= 1) ->
  m c = Ok (r, c') -> one_rung c r c'.
Proof using. intros Hk Hb H. left. split; [exact (Hk _ _ _ H)|exact (Hb _ _ _ H)]. Qed.

Lemma update_step_rung c r c' :
  listener_keeps -> update_step K g_timeout now c = Ok (r, c') -> one_rung c r c'.
Proof using.
  intros [K1 K2 K3 K4] H. unfold update_step in H. rewrite (bind_step get _ c c c) in H by done.
  destruct (session_state_ c) eqn:Est.
  - eapply moves_rung; [apply Connect_moves|by rewrite Est| |exact H]. lia.
  - apply bind_Ok in H as (ret & c1 & H1 & H).
    pose proof (preserves_on_sock session_state_ _ (fun _ _ => eq_refl) _ _ _ H1) as Ek. rewrite (bind_step get _ c1 c1 c1) in H by done.
    unfold one_rung. rewrite <- Ek. destruct (_ && _).
    + eapply moves_rung; [apply SYN_moves|by rewrite Ek, Est| |exact H]. lia.
    + injection H as <- <-. left. split; [done|]. intros ? ? [= _ <-]. lia.
  - apply bind_Ok in H as (ret & c1 & H1 & H).
    assert (Ek : session_state_ c1 = session_state_ c) by (revert H1; by apply (ltac:(keep) : keeps (HandShake_TRY_ACK K now))).
    unfold one_rung. rewrite <- Ek. destruct (0 =? ret).
    + eapply moves_rung; [apply AUTH_moves|by rewrite Ek, Est| |exact H]. lia.
    + injection H as <- <-. left. split; [done|]. intros ? ? [= _ <-]. lia.
  - eapply moves_rung; [apply READY_moves|by rewrite Est| |exact H]. lia.
  - eapply moves_rung; [apply DONE_moves|by rewrite Est| |exact H]. lia.
  - left. destruct (negb (handshake_done c)).
    + inv_run H. split; [by apply (K1 _ _ _ Hrun)|]. intros ? ? [= _ <-]. lia.
    + apply bind_Ok in H as (ret & c1 & H1 & H). pose proof (preserves_on_sock session_state_ _ (fun _ _ => eq_refl) _ _ _ H1) as Ek.
      rewrite <- Ek. destruct (NORMAL =? ret).
      * apply bind_Ok in H as (has & c2 & H2 & H). pose proof (preserves_on_sock session_state_ _ (fun _ _ => eq_refl) _ _ _ H2) as Ek2.
        rewrite <- Ek2. destruct has; [inv_run H|injection H as <- <-].
        -- split; [by apply (K4 _ _ _ Hrun)|]. intros ? ? [= _ <-]. lia.
        -- split; [done|]. intros ? ? [= _ <-]. lia.
      * injection H as <- <-. split; [done|]. intros ? ? [= _ <-]. lia.
  - injection H as <- <-. left. split; [done|]. by intros.
Qed.
End Ladder.

(** [client_states]. However the kernel answers, a call of [Update] keeps the state of the
    client or takes it to the next one of the handshake; a step forward is never
    reported as a failure, the result is -1, 0 or 1, and nothing leads out of the last
    states. *)
Theorem client_states {KP : ConnectorProto} {U} {L : IProtocolEventListener U}
    K g_timeout now (c : Client U) r c' :
  listener_keeps (U := U) -> Update K g_timeout now c = Ok (r, c') ->
  -1 <= r <= 1 /\
  (session_state_ c' = session_state_ c \/
   session_state_ c' = next_state (session_state_ c) /\ 0 <= r).
Proof.
  intros HL H. unfold Update in H. apply bind_Ok in H as (l & c0 & [= <- <-] & H).
  destruct (negb _).
  { injection H as <- <-. split; [lia|by left]. }
  apply bind_Ok in H as (s & c1 & H1 & H).
  destruct (update_step_rung _ _ _ _ _ _ HL H1) as [ [E Hb]|[E (b & -> & Hb)] ].
  - rewrite <- E. destruct s as [ [ret b] |].
    + specialize (Hb _ _ eq_refl). rewrite (bind_step get _ c1 c1 c1) in H by done.
      assert (Hf : forall m : M (Client U) Z, preserves session_state_ m -> (_ ← m; mret (-1)) c1 = Ok (r, c') ->
                r = -1 /\ session_state_ c' = session_state_ c1).
      { intros m Hm Hr. inv_run Hr. split; [done|by apply (Hm _ _ _ Hrun)]. }
      destruct (negb _); [|injection H as <- <-; split; [lia|by left] ].
      destruct (session_state_ c1) eqn:Es1 in H;
        try (apply Hf in H as [-> ->]; [split; [lia|by left]|apply HL]).
      destruct (_ =? _); [|injection H as <- <-; split; [lia|by left] ].
      apply Hf in H as [-> ->]; [split; [lia|by left]|apply HL].
    + injection H as <- <-. split; [lia|by left].
  - rewrite (bind_step get _ c1 c1 c1) in H by done. cbn [Z.eqb negb NORMAL] in H.
    injection H as <- <-. split; [lia|]. right. split; [done|lia].
Qed.

(** ** Properties *)

(** A message of [cs_msg] with the fields of its body. *)
Ltac wf_msg :=
  apply cs_msg_wf; [unfold int64; rewrite ?i64_id by lia; lia|by vm_compute|];
  apply body_wf_intro; unfold bytes_opt, int64, int32; cbn; try done.

Lemma msg_synack_wf : cs_wf msg_synack.
Proof. wf_msg. by repeat constructor. Qed.
Lemma msg_passport_wf : cs_wf msg_passport.
Proof. wf_msg. Qed.
Lemma msg_start_wf : cs_wf msg_start.
Proof. wf_msg. Qed.

(** The settings are bytes. *)
Definition settings_wf (t : Settings) : Prop :=
  is_bytes (appid_ t) /\ is_bytes (openid_ t) /\ is_bytes (token_ t).

Lemma syn_msg_wf {U} (c : Client U) :
  settings_wf (settings c) -> 0 <= seqno_ c < 9223372036854775808 -> cs_wf (syn_msg c).
Proof. intros (H1 & H2 & H3) Hq. wf_msg. Qed.
Lemma auth_msg_wf {U} (c : Client U) :
  settings_wf (settings c) -> 0 <= seqno_ c < 9223372036854775808 -> cs_wf (auth_msg c).
Proof. intros (H1 & H2 & H3) Hq. wf_msg. Qed.
Lemma numbered_wf q d :
  is_bytes d -> 0 <= q < 9223372036854775808 ->
  cs_wf (cs_msg (i64 q) CS.DATA_TRANSPARENT (cs_body None None None (Some d))).
Proof. intros H1 Hq. wf_msg. Qed.

Section Agreement.
Context {KP : ConnectorProto} {KOk : ConnectorProtoOk KP} {KR : ConnectorProtoRound KP}.
Context {U : Type} {L : IProtocolEventListener U}.
Implicit Types (c : Client U) (s : ConnectorSession).

(** The number of a message follows the last one the session has accepted. *)
Lemma in_order_next s q id b :
  0 < q < 9223372036854775808 -> last_seq_ s = 0 \/ last_seq_ s = q - 1 ->
  in_order s (cs_msg (i64 q) id b) = true /\
  note_seq (cs_msg (i64 q) id b) s = set_last_seq q s.
Proof using.
  intros Hq Hs. unfold in_order, note_seq, cs_msg. cbn [CS.head CS.magic CS.sequence].
  rewrite Z.eqb_refl, i64_id, (u64_id q) by lia. split; [|done]. cbn [andb].
  destruct Hs as [->| ->]; [done|]. rewrite u64_id by lia.
  replace (q =? q - 1 + 1) with true by lia. by rewrite orb_true_r.
Qed.

(** The connector's side of the handshake, for the messages of a client and an
    acknowledgement. *)
Lemma syn_step _DEBUG ids s c :
  settings_wf (settings c) -> 0 < seqno_ c < 9223372036854775808 -> small (syn_msg c) ->
  state_ s = STATE_INIT -> last_seq_ s = 0 ->
  spec_step _DEBUG ids s (FromClient (cs_SerializeToString (syn_msg c)))
  = Some (set_state_ STATE_AUTH (set_last_seq (seqno_ c) s), [ToClient msg_synack]).
Proof using KR.
  intros W1 Hq M1 Hst Hseq. cbn [spec_step].
  rewrite cs_round by (done || (apply syn_msg_wf; [done|lia])). cbn [snd].
  destruct (in_order_next s (seqno_ c) CS.SYN (CS.body (syn_msg c))) as [O1 N1]; [lia|by left|].
  unfold up_step. change (syn_msg c) with (cs_msg (i64 (seqno_ c)) CS.SYN (CS.body (syn_msg c))).
  rewrite O1, N1. cbn [negb state_ set_last_seq]. rewrite Hst. unfold handshake. cbn.
  by rewrite Hst.
Qed.
Lemma auth_step _DEBUG ids s c :
  settings_wf (settings c) -> 0 < seqno_ c < 9223372036854775808 -> small (auth_msg c) ->
  state_ s = STATE_AUTH -> last_seq_ s = seqno_ c - 1 ->
  spec_step _DEBUG ids s (FromClient (cs_SerializeToString (auth_msg c)))
  = Some (set_state_ STATE_SYNACK (set_last_seq (seqno_ c) s),
          [ToClient msg_passport; ToBackEnd (msg_syn ids (sid_ s))]).
Proof using KR.
  intros W1 Hq M1 Hst Hseq. cbn [spec_step].
  rewrite cs_round by (done || (apply auth_msg_wf; [done|lia])). cbn [snd].
  destruct (in_order_next s (seqno_ c) CS.AUTHENTICATION (CS.body (auth_msg c)))
    as [O1 N1]; [lia|by right|].
  unfold up_step. change (auth_msg c)
    with (cs_msg (i64 (seqno_ c)) CS.AUTHENTICATION (CS.body (auth_msg c))).
  rewrite O1, N1. cbn [negb state_ set_last_seq]. rewrite Hst. unfold handshake. cbn.
  rewrite Hst. done.
Qed.
Lemma ack_step _DEBUG ids s net ack :
  state_ s = STATE_SYNACK ->
  (SS.fd (SS.head (snd (ss_ParseFromArray ack))), SS.nid (SS.head (snd (ss_ParseFromArray ack))))
    = ids ->
  SS.bodyid (SS.head (snd (ss_ParseFromArray ack))) = SS.ACK ->
  spec_step _DEBUG ids s (FromBackEnd net ack)
  = Some (set_sid (SS.sid (SS.head (snd (ss_ParseFromArray ack)))) (set_state_ STATE_OK s),
          [ToClient msg_start]).
Proof using.
  intros Hst Hids Hack. cbn [spec_step]. rewrite bool_decide_eq_true_2 by done.
  unfold down_step. rewrite Hack. unfold handshake. by rewrite Hst.
Qed.

(** What a session in the last state does with numbered messages. *)
Definition from_client (ms : list CS.CSMsg) : list event :=
  map (fun m => FromClient (cs_SerializeToString m)) ms.
Definition forwarded ids s (ms : list CS.CSMsg) : list out :=
  map (fun m => ToBackEnd (msg_up (CS.sequence (CS.head m)) ids (sid_ s) (cs_data m))) ms.

Lemma numbered_forwarded _DEBUG ids s q ds :
  state_ s = STATE_OK -> last_seq_ s = q - 1 -> 0 < q ->
  q + Z.of_nat (length ds) < 9223372036854775808 -> Forall is_bytes ds ->
  Forall small (numbered q ds) ->
  spec_run _DEBUG ids s (from_client (numbered q ds))
  = Some (set_last_seq (q - 1 + Z.of_nat (length ds)) s, forwarded ids s (numbered q ds)).
Proof using KR.
  revert s q. induction ds as [|d ds IH]; intros s q Hst Hs Hq Hl Hb Hm.
  - cbn. rewrite Z.add_0_r, <- Hs. by destruct s.
  - cbn [length] in *. inversion Hb; subst. inversion Hm; subst.
    cbn [numbered from_client map spec_run spec_step].
    rewrite cs_round by (done || (apply numbered_wf; [done|lia])). cbn [snd].
    destruct (in_order_next s q CS.DATA_TRANSPARENT (cs_body None None None (Some d)))
      as [O N]; [lia|by right|].
    unfold up_step at 1. rewrite O, N. cbn [negb state_ set_last_seq]. rewrite Hst.
    cbn [Z.eqb CS.bodyid CS.head cs_msg CS.DATA_TRANSPARENT Pos.eqb mbind option_bind].
    fold (from_client (numbered (q + 1) ds)).
    rewrite (IH (set_last_seq q s) (q + 1)) by (try done; cbn; lia).
    cbn [mbind option_bind forwarded map numbered]. do 2 f_equal.
    unfold set_last_seq at 1 2. cbn [state_ net_stub_ channel_id_ sid_ frame_stub_].
    unfold set_last_seq. f_equal. lia.
Qed.

(** A session that has missed a number takes none of the later ones. *)
Lemma numbered_refused _DEBUG ids s q ds :
  0 < last_seq_ s -> last_seq_ s + 1 < q ->
  q + Z.of_nat (length ds) < 9223372036854775808 -> Forall is_bytes ds ->
  Forall small (numbered q ds) ->
  spec_run _DEBUG ids s (from_client (numbered q ds)) = Some (s, []).
Proof using KR.
  revert q. induction ds as [|d ds IH]; intros q H0 Hs Hl Hb Hm; [done|].
  cbn [length] in *. inversion Hb; subst. inversion Hm; subst.
  cbn [numbered from_client map spec_run spec_step].
  rewrite cs_round by (done || (apply numbered_wf; [done|lia])). cbn [snd].
  assert (O : in_order s (cs_msg (i64 q) CS.DATA_TRANSPARENT (cs_body None None None (Some d))) = false).
  { unfold in_order, cs_msg. cbn [CS.head CS.magic CS.sequence]. rewrite i64_id, !u64_id by lia.
    apply andb_false_intro2, orb_false_intro; lia. }
  unfold up_step at 1. rewrite O. cbn [negb mbind option_bind].
  fold (from_client (numbered (q + 1) ds)). rewrite (IH (q + 1)) by (done || lia). done.
Qed.
End Agreement.

(** C13: [handshake_agreement]. The client and the connector bring each other to the end of the
    handshake: when the connection is made, the kernel takes what the client sends and
    delivers what the connector answers, four calls of [Update] take the client from
    the connected socket to its last state, with the key and the passport of the
    connector; and the callbacks of the connector, called with the two messages the client
    sends and with the back end's acknowledgement, take a new session to [STATE_OK] and
    queue exactly the answers the client has read, and the start of the session for a back
    end.  On the side of the connector writes succeed and the back ends are connected
    ([session_at]). *)
Theorem handshake_agreement {KP : ConnectorProto} {KOk : ConnectorProtoOk KP}
    {KR : ConnectorProtoRound KP} {U} {L : IProtocolEventListener U}
    {P : Protobuf} {E : NetEnv ConnectorSession} (w : App P ConnectorSession ConnectorApp) p cx net
    (c : Client U) (s : ConnectorSession) _DEBUG ids ack K1 K2 K3 K4 g_timeout now out room cap :
  writes_succeed E -> session_at w p cx ids s ->
  protocol_event_listener_ c = true -> session_state_ c = SESSION_STATE_TCP_SYNING ->
  settings_wf (settings c) -> 0 < seqno_ c -> seqno_ c + 1 < 9223372036854775808 ->
  idle (tcp_sock_ c) out room cap -> 0 <= fd_ (util (tcp_sock_ c)) ->
  0 < k_select K1 -> k_so_error K1 = 0 ->
  let m1 := syn_msg c in
  let m2 := cs_msg (i64 (seqno_ c + 1)) CS.AUTHENTICATION
              {| CS.syn := None; CS.ack := None; CS.auth := Some (token_ (settings c));
                 CS.passport := None; CS.start := None; CS.data := None; CS.error := None |} in
  let wire m := frame (cs_SerializeToString m) in
  fits cap m1 -> fits cap m2 -> fits room msg_synack ->
  fits (room - blen (wire msg_synack)) msg_passport ->
  fits (room - blen (wire msg_synack) - blen (wire msg_passport)) msg_start ->
  k_send K1 = IoOk (blen (wire m1)) -> k_send K2 = IoOk (blen (wire m2)) ->
  k_recv K2 = IoOk (wire msg_synack) -> k_recv K3 = IoOk (wire msg_passport) ->
  k_recv K4 = IoOk (wire msg_start) ->
  state_ s = STATE_INIT -> last_seq_ s = 0 ->
  (SS.fd (SS.head (snd (ss_ParseFromArray ack))), SS.nid (SS.head (snd (ss_ParseFromArray ack))))
    = ids ->
  SS.bodyid (SS.head (snd (ss_ParseFromArray ack))) = SS.ACK ->
  (exists c1 c2 c3 c4,
     Update K1 g_timeout now c = Ok (1, c1) /\ Update K2 g_timeout now c1 = Ok (1, c2) /\
     Update K3 g_timeout now c2 = Ok (0, c3) /\ Update K4 g_timeout now c3 = Ok (0, c4) /\
     session_state_ c4 = SESSION_STATE_DONE /\ seqno_ c4 = u64 (seqno_ c + 1 + 1) /\
     encrypt_skey_ c4 = bytes_of_string "test secret key"%string /\ passport_ c4 = 102030 /\
     wire_out (tcp_sock_ c4) = out ++ wire m1 ++ wire m2) /\
  exists s', handle_all _DEBUG p
      [FromClient (cs_SerializeToString m1); FromClient (cs_SerializeToString m2);
       FromBackEnd net ack] w
    = Ok (tt, put_session cx s' (deliver_all p [ToClient msg_synack; ToClient msg_passport;
                                   ToBackEnd (msg_syn ids (sid_ s)); ToClient msg_start] w)) /\
    state_ s' = STATE_OK /\ last_seq_ s' = seqno_ c + 1.
Proof.
  intros HW Hsa Hl Hst Hw Hq1 Hq2 Hi Hfd Hsel Herr m1 m2 wire F1 F2 F3 F4 F5 S1 S2 R2 R3 R4 Hs1 Hs2 Hids Hack.
  assert (Hu : u64 (seqno_ c + 1) = seqno_ c + 1) by (apply u64_id; lia).
  split.
  - destruct (Update_syn K1 g_timeout now c out room cap) as (n1 & E1 & Hr1); try done.
    set (c1 := set_session_state _ _) in *. cbn zeta in E1, Hr1.
    assert (Em : auth_msg c1 = m2) by (unfold auth_msg; cbn; by rewrite Hu).
    destruct (Update_auth K2 g_timeout now c1 _ _ _ msg_synack Hl eq_refl Hr1 msg_synack_wf F3
                eq_refl R2) as (n2 & E2 & Hr2); [by rewrite Em|by rewrite Em|].
    set (c2 := set_session_state SESSION_STATE_AUTHING _) in *. cbn zeta in E2, Hr2.
    destruct (Update_ready K3 g_timeout now c2 _ _ _ msg_passport Hl eq_refl Hr2 msg_passport_wf F4
                eq_refl R3) as (n3 & E3 & Hr3).
    set (c3 := set_session_state SESSION_STATE_READY _) in *. cbn zeta in E3, Hr3.
    destruct (Update_done K4 g_timeout now c3 _ _ _ msg_start Hl eq_refl Hr3 msg_start_wf F5
                eq_refl R4) as (n4 & E4 & Hr4).
    exists c1, c2, c3. eexists. split; [exact E1|]. split; [exact E2|]. split; [exact E3|].
    split; [exact E4|]. split; [done|]. split; [cbn; by rewrite Hu|]. split; [done|].
    split; [done|]. cbn zeta in Hr4. destruct Hr4 as [[_ _ Ho _ _ _] _]. rewrite Ho, Em.
    by rewrite app_assoc.
  - eexists. split; [apply (handle_all_ok HW _DEBUG w p cx ids s _ _ _ Hsa)|].
    + cbn [spec_run]. unfold m1. rewrite syn_step by (done || lia || apply F1).
      cbn [mbind option_bind]. change m2 with (auth_msg (set_up_msg (seqno_ c + 1) no_msg c)).
      rewrite auth_step by (done || (cbn; lia) || apply F2). cbn [mbind option_bind].
      rewrite ack_step by done. reflexivity.
    + by split.
Qed.

(** C21: [data_in_order]. Data reach the back end in the order they were pushed: when the
    kernel takes each message, [PushMessage] succeeds every time, exactly the frames of
    the numbered messages go to the wire, and a session that has seen the client's last
    number passes every one of them on, in order and with nothing in between. *)
Theorem data_in_order {KP : ConnectorProto} {KOk : ConnectorProtoOk KP}
    {KR : ConnectorProtoRound KP} {U} now (c : Client U) (s : ConnectorSession) _DEBUG ids
    (l : list (Kernel * bytes)) out room cap :
  let ms := numbered (seqno_ c) (map snd l) in
  at_rest c out room cap -> 0 < seqno_ c ->
  seqno_ c + Z.of_nat (length l) < 9223372036854775808 ->
  Forall (fits cap) ms -> taken l (seqno_ c) -> Forall is_bytes (map snd l) ->
  state_ s = STATE_OK -> last_seq_ s = seqno_ c - 1 ->
  (exists c', push_all now l c = Ok (map (fun _ => 0) l, c') /\
     wire_out (tcp_sock_ c') = out ++ concat (map wire ms) /\
     seqno_ c' = seqno_ c + Z.of_nat (length l)) /\
  exists s', spec_run _DEBUG ids s (from_client ms) = Some (s', forwarded ids s ms) /\
    state_ s' = STATE_OK /\ last_seq_ s' = seqno_ c + Z.of_nat (length l) - 1.
Proof.
  intros ms Hr Hq Hl Hf Ht Hb Hst Hs. split.
  - destruct (push_all_ok now l c out room cap _ Hr eq_refl) as (c' & E & [Hi _] & Hs' & _);
      try done; [lia|].
    exists c'. split; [done|]. split; [apply Hi|done].
  - eexists. split; [apply numbered_forwarded; rewrite ?length_map; try done; by apply (Forall_impl _ _ _ Hf); intros m []|].
    rewrite length_map. split; [done|]. cbn. lia.
Qed.

(** Taking a data message out of the queue: a buffer that is too small leaves it there. *)
Lemma Pop_framed {KP : ConnectorProto} {KOk : ConnectorProtoOk KP} {KR : ConnectorProtoRound KP} {U}
    now (c : Client U) q d n1 n2 n3 size :
  let m := cs_msg q CS.DATA_TRANSPARENT (cs_body None None None (Some d)) in
  cs_wf m -> small m -> HasNewPkg n1 = Ok (true, n1) ->
  PeekFromRecvQ now false n1 = Ok ((NORMAL, Some (frame (cs_SerializeToString m))), n2) ->
  PopFromRecvQ n2 = Ok (NORMAL, n3) -> 0 < size ->
  PopMessageFromRecvQ now false size (set_sock n1 c)
  = if size <? blen d then Ok ((-1, None), set_down_msg m (set_sock n2 c))
    else Ok ((0, Some d), set_sock n3 (set_down_msg m c)).
Proof.
  intros m Hwf Hsm E2 E3 E4 Hsize.
  assert (Hs : sendable (cs_SerializeToString m)).
  { split; [apply cs_nonempty|]. unfold small, kDefaultTotalBytesLimit in Hsm. lia. }
  assert (Ep : PeekMessage now false (set_sock n1 c)
               = Ok ((0, Some d), set_down_msg m (set_sock n2 c))).
  { unfold PeekMessage. rewrite (bind_step _ _ _ _ _ (on_sock_ok _ (set_sock n1 c) _ _ E2)).
    cbn [negb].
    rewrite (bind_step _ _ _ _ _ (on_sock_ok _ (set_sock n1 (set_sock n1 c)) _ _ E3)).
    cbn [Z.eqb negb andb NORMAL].
    rewrite (bind_step _ _ _ _ _ (parse_down_ok m (set_sock n2 c) Hs Hwf Hsm)).
    by rewrite (bind_step get _ _ (set_down_msg m (set_sock n2 c)) (set_down_msg m (set_sock n2 c))) by done. }
  unfold PopMessageFromRecvQ. destruct (Z.eqb_spec size 0); [lia|]. cbn [orb].
  rewrite (bind_step _ _ _ _ _ Ep). cbn [Z.eqb negb].
  destruct (Z.ltb_spec size (blen d)); [done|]. unfold PopMessage.
  rewrite (bind_step _ _ _ 0 (set_sock n3 (set_down_msg m c))); [done|].
  by rewrite (bind_step _ _ _ _ _ (on_sock_ok _ (set_down_msg m (set_sock n2 c)) _ _ E4)).
Qed.

(** [receive_data]. Data from the connector reach the listener: in the last state, when
    the kernel delivers a data message, [Update] calls [OnIncoming] with the message
    in the queue; a buffer that is large enough gets exactly the data and the message
    leaves the queue, a smaller one is refused and the message stays. *)
Theorem receive_data {KP : ConnectorProto} {KOk : ConnectorProtoOk KP}
    {KR : ConnectorProtoRound KP} {U} {L : IProtocolEventListener U}
    K g_timeout now (c : Client U) q d out room cap :
  let m := cs_msg q CS.DATA_TRANSPARENT (cs_body None None None (Some d)) in
  protocol_event_listener_ c = true -> session_state_ c = SESSION_STATE_DONE ->
  handshake_done c = true -> at_rest c out room cap -> cs_wf m -> fits room m ->
  k_recv K = IoOk (wire m) ->
  exists c1, session_state_ c1 = SESSION_STATE_DONE /\ unread (tcp_sock_ c1) = wire m /\
    Update K g_timeout now c = (_ ← OnIncoming; mret 1) c1 /\
    forall size, 0 < size ->
      exists c2, (blen d <= size ->
          PopMessageFromRecvQ now false size c1 = Ok ((0, Some d), c2) /\ unread (tcp_sock_ c2) = []) /\
        (size < blen d ->
          PopMessageFromRecvQ now false size c1 = Ok ((-1, None), c2) /\
          unread (tcp_sock_ c2) = wire m).
Proof.
  intros m Hl Hst Hd [Hi Hc] Hwf Hf Hk. pose proof (fits_sendable room m Hf) as Hs.
  destruct Hf as [Hsm Hr].
  destruct (recv_frame K now _ out room cap _ Hi Hc Hs Hr Hk)
    as (n1 & n2 & n3 & E1 & E2 & E3 & E4 & Hi3 & Hc3 & Hu1 & Hu2).
  exists (set_sock n1 c). split; [done|]. split; [exact Hu1|]. split.
  - unfold Update. rewrite (bind_step (gets _) _ c (protocol_event_listener_ c) c), Hl by done.
    cbn [negb]. assert (Eu : update_step K g_timeout now c
      = (_ ← OnIncoming; mret (Some (0, 1))) (set_sock n1 c)).
    { unfold update_step. rewrite (bind_step get _ c c c), Hst, Hd by done. cbn [negb].
      rewrite (bind_step _ _ _ _ _ (on_sock_ok _ c _ _ E1)). cbn [Z.eqb NORMAL].
      by rewrite (bind_step _ _ _ _ _ (on_sock_ok _ (set_sock n1 c) _ _ E2)). }
    unfold mbind at 1, M_bind at 1. rewrite Eu. unfold mbind, M_bind.
    by destruct (OnIncoming (set_sock n1 c)) as [ [] |].
  - intros size Hsize.
    exists (if size <? blen d then set_down_msg m (set_sock n2 c) else set_sock n3 (set_down_msg m c)).
    rewrite (Pop_framed now c q d n1 n2 n3 size) by done.
    destruct (Z.ltb_spec size (blen d)); split; intros Hsz; try lia; (split; [done|]);
      [exact Hu2|apply Hi3].
Qed.

(** [lost_number]. A message the client has no room for uses up a sequence number: the
    call fails and sends nothing, and when there is room again every later message is
    accepted and goes to the wire, but the connector, still waiting for the missing
    number, takes none of them; the session is stuck. *)
Theorem lost_number {KP : ConnectorProto} {KOk : ConnectorProtoOk KP}
    {KR : ConnectorProtoRound KP} {U} K now (c : Client U) d n (s : ConnectorSession) _DEBUG ids
    (l : list (Kernel * bytes)) out room cap :
  let ms := numbered (seqno_ c + 1) (map snd l) in
  sock_ok (util (tcp_sock_ c)) -> d <> [] -> 1 < seqno_ c ->
  blen (cs_SerializeToString (data_msg c d)) + 4 < 2147483648 ->
  Avaiable (send_buf_ (util (tcp_sock_ c))) < blen (wire (data_msg c d)) ->
  idle n out room cap -> connected n ->
  seqno_ c + 1 + Z.of_nat (length l) < 9223372036854775808 ->
  Forall (fits cap) ms -> taken l (seqno_ c + 1) -> Forall is_bytes (map snd l) ->
  state_ s = STATE_OK -> last_seq_ s = seqno_ c - 1 ->
  exists c1 c2, PushMessage K now (Some d) c = Ok (-1, c1) /\ tcp_sock_ c1 = tcp_sock_ c /\
    push_all now l (set_sock n c1) = Ok (map (fun _ => 0) l, c2) /\
    wire_out (tcp_sock_ c2) = out ++ concat (map wire ms) /\
    spec_run _DEBUG ids s (from_client ms) = Some (s, []).
Proof.
  intros ms Hok Hd Hq Hl1 Hav Hi Hc Hl Hf Ht Hb Hst Hs.
  pose proof (PushMessage_full K now c d Hok Hd Hl1 Hav) as E1.
  set (c1 := set_up_msg _ _ _) in E1. exists c1.
  destruct (push_all_ok now l (set_sock n c1) out room cap (seqno_ c + 1)) as (c2 & E2 & [Hi2 _] & _);
    try done; [by cbn; rewrite u64_id by lia|lia|].
  exists c2. split; [done|]. split; [done|]. split; [done|]. split; [apply Hi2|].
  apply numbered_refused; rewrite ?length_map; try done; try lia.
  by apply (Forall_impl _ _ _ Hf); intros m [].
Qed.

(** A refusal of the connector is taken for silence: in any waiting
    state an ERROR message, and in the first any message but the key, is consumed,
    [Update] returns 0, the state stays and the listener is not called, so the client
    waits for ever. *)
Theorem message_ignored {KP : ConnectorProto} {KOk : ConnectorProtoOk KP}
    {KR : ConnectorProtoRound KP} {U} {L : IProtocolEventListener U}
    K g_timeout now (c : Client U) m out room cap :
  protocol_event_listener_ c = true -> ignored (session_state_ c) m ->
  at_rest c out room cap -> cs_wf m -> fits room m -> k_recv K = IoOk (wire m) ->
  exists c', Update K g_timeout now c = Ok (0, c') /\ down_msg_ c' = m /\
    session_state_ c' = session_state_ c /\ user c' = user c /\
    unread (tcp_sock_ c') = [] /\ wire_out (tcp_sock_ c') = out.
Proof.
  intros Hl Hst Hr Hwf Hf Hk.
  destruct (Update_ignored K g_timeout now c out room cap m Hl Hst Hr Hwf Hf Hk)
    as (n & E & [Hi _]). cbn zeta in E, Hi.
  eexists. split; [exact E|]. repeat (split; [done|]). split; apply Hi.
Qed.

(** A package whose length field says 1, 2 or 3 is complete for the
    socket, and the client asks for the message in its -3 to -1 bytes behind the field:
    in every waiting state five bytes from the peer are enough. *)
Theorem short_package {KP : ConnectorProto} {U} {L : IProtocolEventListener U}
    K g_timeout now (c : Client U) d out room cap :
  protocol_event_listener_ c = true -> waiting (session_state_ c) ->
  at_rest c out room cap -> 4 < blen d -> blen d <= room ->
  0 < i32 (ntohl (load32 d)) < 4 -> k_recv K = IoOk d ->
  Update K g_timeout now c = Fault OutOfBounds.
Proof.
  intros Hl Hst [ [H1 H2 H3 H4 H5 H6] Hc] Hd Hroom Hlen Hk.
  assert (E : TryToRecvFromPeerAndParse K now c = Fault OutOfBounds).
  { destruct (Recv_data K (tcp_sock_ c) d) as (n1 & E1 & Ho1 & Hu1 & _); try done.
    { by intros ->. }
    { lia. }
    rewrite H4, app_nil_l in Hu1.
    assert (Hg : GetPkgLen d = i32 (ntohl (load32 d))).
    { change (GetPkgLen d) with (ConnectorPkgParser_GetPkgLen d).
      unfold ConnectorPkgParser_GetPkgLen, kMsgLenFieldSize. by destruct (Z.leb_spec (blen d) 4); [lia|]. }
    assert (Hf : exists pkg, front_pkg (util n1) = Some pkg /\ blen pkg < 4).
    { unfold front_pkg, unread in *. cbn zeta. rewrite Hu1, Hg.
      destruct (Z.ltb_spec 0 (i32 (ntohl (load32 d)))); [|lia].
      destruct (Z.leb_spec (i32 (ntohl (load32 d))) (blen d)); [|lia].
      eexists. split; [done|]. unfold blen. rewrite length_take. lia. }
    destruct Hf as (pkg & Hf & Hp). unfold TryToRecvFromPeerAndParse.
    rewrite (bind_step _ _ _ _ _ (on_sock_ok _ c _ _ E1)). cbn [Z.eqb negb NORMAL].
    rewrite (bind_step _ _ _ true (set_sock n1 (set_sock n1 c))).
    2: { apply (on_sock_ok _ (set_sock n1 c)). cbn [tcp_sock_ set_sock].
         rewrite HasNewPkg_ok, Hf by done. by rewrite bool_decide_eq_true_2 by eauto. }
    cbn [negb]. erewrite bind_step.
    2: { apply (on_sock_ok _ (set_sock n1 (set_sock n1 c))), Peek_run; [exact Ho1|exact Hf]. }
    cbn [Z.eqb negb andb NORMAL]. apply bind_Fault. left. unfold parse_down.
    apply bind_Fault. right. eexists _, _. split; [done|]. apply bind_Fault. left.
    unfold lift, mem_read, kMsgLenFieldSize. by rewrite bool_decide_eq_false_2 by lia. }
  unfold Update. rewrite (bind_step (gets _) _ c (protocol_event_listener_ c) c) by done.
  rewrite Hl. cbn [negb]. apply bind_Fault. left. unfold update_step.
  rewrite (bind_step get _ c c c) by done.
  destruct Hst as [-> |[-> | ->] ]; apply bind_Fault; left;
    [unfold HandShake_TRY_ACK|unfold HandShake_TRY_READY|unfold HandShake_TRY_DONE];
    apply bind_Fault; by left.
Qed.

(** ** A concrete protocol

    A wire format in which every message can be read back: numbers as signed binary
    numerals, byte strings behind their length, fields one after the other. *)
Module Wire.
Class Codec (A : Type) : Type := { wput : A -> bytes; wget : bytes -> option (A * bytes) }.
Class CodecOk (A : Type) `{Codec A} : Prop :=
  wget_wput (x : A) (r : bytes) : wget (wput x ++ r) = Some (x, r).

Fixpoint pos_put (p : positive) : bytes :=
  match p with xH => [2] | xO p => 0 :: pos_put p | xI p => 1 :: pos_put p end.
Fixpoint pos_get (l : bytes) : option (positive * bytes) :=
  match l with
  | [] => None
  | b :: l =>
      if b =? 2 then Some (xH, l)
      else '(p, r) ← pos_get l; Some (if b =? 0 then xO p else xI p, r)
  end.
#[export] Instance pos_codec : Codec positive := {| wput := pos_put; wget := pos_get |}.
#[export] Instance pos_ok : CodecOk positive.
Proof. intros p r. cbn. induction p as [p IH|p IH|]; cbn; by rewrite ?IH. Qed.

#[export] Instance Z_codec : Codec Z := {|
  wput z := match z with Z0 => [0] | Zpos p => 1 :: wput p | Zneg p => 2 :: wput p end;
  wget l := match l with
            | [] => None
            | b :: l => if b =? 0 then Some (0, l) else '(p, r) ← wget l;
                        Some (if b =? 1 then Zpos p else Zneg p, r)
            end |}.
#[export] Instance Z_ok : CodecOk Z.
Proof.
  intros [|p|p] r; [done|..]; cbn; pose proof (wget_wput p r) as E; cbn in E; by rewrite E.
Qed.

#[export] Instance bytes_codec : Codec bytes := {|
  wput l := wput (blen l) ++ l;
  wget l := '(n, r) ← wget l; Some (take (Z.to_nat n) r, drop (Z.to_nat n) r) |}.
#[export] Instance bytes_ok : CodecOk bytes.
Proof.
  intros l r. unfold wget, wput, bytes_codec. rewrite <- app_assoc, wget_wput.
  cbn [mbind option_bind]. unfold blen. rewrite Nat2Z.id.
  by rewrite take_app_length, drop_app_length.
Qed.

#[export] Instance option_codec {A} `{Codec A} : Codec (option A) := {|
  wput o := match o with None => [0] | Some x => 1 :: wput x end;
  wget l := match l with
            | [] => None
            | b :: l => if b =? 0 then Some (None, l) else '(x, r) ← wget l; Some (Some x, r)
            end |}.
#[export] Instance option_ok {A} `{CodecOk A} : CodecOk (option A).
Proof. intros [x|] r; [|done]. cbn. pose proof (wget_wput x r) as E. cbn in E. by rewrite E. Qed.

#[export] Instance prod_codec {A B} `{Codec A, Codec B} : Codec (A * B) := {|
  wput x := wput x.1 ++ wput x.2;
  wget l := '(a, r) ← wget l; '(b, r) ← wget r; Some ((a, b), r) |}.
#[export] Instance prod_ok {A B} `{CodecOk A, CodecOk B} : CodecOk (A * B).
Proof.
  intros [a b] r. unfold wget, wput, prod_codec. cbn [fst snd].
  by rewrite <- app_assoc, wget_wput; cbn [mbind option_bind]; rewrite wget_wput.
Qed.

(** The fields of a message. *)
Definition fields : Type :=
  Z * Z * Z * (option (bytes * bytes) * option bytes * option bytes * option (option Z) *
               option (option Z) * option bytes * option (Z * bytes)).
Definition to_fields (m : CS.CSMsg) : fields :=
  let h := CS.head m in let b := CS.body m in
  (CS.magic h, CS.sequence h, CS.bodyid h,
   (CS.syn b, CS.ack b, CS.auth b, CS.passport b, CS.start b, CS.data b, CS.error b)).
Definition of_fields (f : fields) : CS.CSMsg :=
  let '(mg, q, id, (syn, ack, auth, pass, start, data, err)) := f in
  {| CS.head := {| CS.magic := mg; CS.sequence := q; CS.bodyid := id |};
     CS.body := {| CS.syn := syn; CS.ack := ack; CS.auth := auth; CS.passport := pass;
                   CS.start := start; CS.data := data; CS.error := err |} |}.

Definition ss_fields : Type :=
  Z * Z * Z * Z * Z * Z *
  (option (option bytes) * option (option Z) * option (option Z) * option (option Z) *
   option (option Z)).
Definition ss_to_fields (m : SS.SSMsg) : ss_fields :=
  let h := SS.head m in let b := SS.body m in
  (SS.magic h, SS.sequence h, SS.bodyid h, SS.fd h, SS.nid h, SS.sid h,
   (SS.data b, SS.syn b, SS.ack b, SS.rsm b, SS.fin b)).
Definition ss_of_fields (f : ss_fields) : SS.SSMsg :=
  let '(mg, q, id, fd, nid, sid, (data, syn, ack, rsm, fin)) := f in
  {| SS.head := {| SS.magic := mg; SS.sequence := q; SS.bodyid := id; SS.fd := fd;
                   SS.nid := nid; SS.sid := sid |};
     SS.body := {| SS.data := data; SS.syn := syn; SS.ack := ack; SS.rsm := rsm;
                   SS.fin := fin |} |}.

Definition no_ss_msg : SS.SSMsg := ss_msg 0 0 (0, 0) 0 (ss_body None None None).
#[export] Instance wire_proto : ConnectorProto := {|
  cs_SerializeToString m := wput (to_fields m);
  cs_ParseFromArray l :=
    match wget l with Some (f, _) => (true, of_fields f) | None => (false, no_msg) end;
  ss_SerializeToString m := wput (ss_to_fields m);
  ss_ParseFromArray l :=
    match wget l with Some (f, _) => (true, ss_of_fields f) | None => (false, no_ss_msg) end |}.
#[export] Instance wire_round : ConnectorProtoRound wire_proto.
Proof.
  split; intros m _ _.
  - unfold cs_ParseFromArray, cs_SerializeToString, wire_proto.
    rewrite <- (app_nil_r (wput (to_fields m))), wget_wput. by destruct m as [ [] [] ].
  - unfold ss_ParseFromArray, ss_SerializeToString, wire_proto.
    rewrite <- (app_nil_r (wput (ss_to_fields m))), wget_wput. by destruct m as [ [] [] ].
Qed.

(** Nothing can be read from nothing. *)
Lemma wput_nonempty {A} `{CodecOk A} (x : A) : wget (A := A) [] = None -> wput x <> [].
Proof.
  intros Hn E. pose proof (wget_wput x []) as Hx. rewrite app_nil_r, E, Hn in Hx. discriminate Hx.
Qed.
#[export] Instance wire_ok : ConnectorProtoOk wire_proto.
Proof. split; intros m; by apply wput_nonempty. Qed.

(** A client that has been told nothing yet, on an empty socket with buffers of
    [size] bytes. *)
Definition empty_buf (size : nat) : RingBuffer :=
  {| buff_size := Z.of_nat size; buff := Live (replicate size 0); rb_begin := 0; rb_end := 0 |}.
Definition empty_net (st : SockUtil.NET_STATE) (size : nat) : Net :=
  {| util := {| socket_state_ := st; url_ := []; fd_ := 3;
                last_request_timestamp_ := 0; last_response_timestamp_ := 0;
                tcp_pkg_parser_imp_ := true; send_buf_ := empty_buf size;
                recv_buf_ := empty_buf size |};
     sys := []; wire_out := []; wire_in := [] |}.
Definition some_settings : Settings :=
  {| appid_ := [97]; openid_ := [98]; token_ := [99]; encrypt_mode_ := 0; auth_type_ := 0;
     server_uri_ := bytes_of_string "tcp://127.0.0.1:8888"%string |}.
Definition client_in (st : ClientState) (q : Z) (n : Net) : Client nat :=
  {| protocol_event_listener_ := true; settings := some_settings; encrypt_skey_ := [];
     passport_ := 0; tcp_sock_ := n; session_state_ := st; seqno_ := q; up_msg_ := no_msg;
     down_msg_ := no_msg; handshake_done := false; user := 0%nat |}.

(** A listener that counts its calls. *)
Definition count : M (Client nat) Z := _ ← modify (fun c => set_user (S (user c)) c); mret 0.
#[export] Instance counting : IProtocolEventListener nat := {|
  OnGetSettings := id; OnHandShakeSucceed := count; OnHandShakeFailed := count;
  OnServerClose := count; OnIncoming := count |}.
Lemma counting_keeps : listener_keeps (U := nat).
Proof. split; intros c r c' [= _ <-]; done. Qed.

(** A kernel that takes [out] bytes and delivers [inp]. *)
Definition wire_kernel (out : Z) (inp : bytes) : Kernel :=
  {| k_socket := 3; k_connect := None; k_select := 1; k_so_error := 0; k_getfl := 0;
     k_setopt := 0; k_send := IoOk out; k_recv := IoOk inp;
     k_gethostbyname := fun _ => None; k_inet_aton := fun _ => None |}.

Lemma empty_buf_ok size : Z.of_nat size < 2147483648 -> rb_ok (empty_buf size).
Proof.
  intros H. constructor; cbn; try lia. eexists. split; [done|]. unfold blen.
  by rewrite length_replicate.
Qed.
Lemma empty_net_idle st size :
  Z.of_nat size < 2147483648 -> idle (empty_net st size) [] (Z.of_nat size) (Z.of_nat size).
Proof.
  intros H. pose proof (empty_buf_ok size H) as Hb.
  assert (Hc : contents (empty_buf size) = []) by reflexivity.
  constructor; try done. cbn.
  rewrite Avaiable_ok by done. cbn. lia.
Qed.
End Wire.
Import Wire.

(** A whole handshake over empty buffers of 1024 bytes. *)
Definition w_init : Client nat := Wire.client_in SESSION_STATE_TCP_SYNING 1 (Wire.empty_net SockUtil.NET_CONNECTING 1024).
Definition w_session (st : SessionState) (q : Z) : ConnectorSession :=
  {| state_ := st; net_stub_ := Some 3; channel_id_ := -1; sid_ := 77; frame_stub_ := true;
     last_seq_ := q |}.

Definition w_ack : bytes :=
  ss_SerializeToString (ss_msg 0 SS.ACK (9, 1) 77 (ss_body None None None)).

Lemma handshake_agreement_witness :
  exists s', handle_all (E := session_env true) true 3
      [FromClient (cs_SerializeToString (syn_msg w_init));
       FromClient (cs_SerializeToString (auth_msg (set_up_msg 2 no_msg w_init)));
       FromBackEnd None w_ack] (connector_world STATE_INIT)
    = Ok (tt, put_session 8 s' (deliver_all 3 [ToClient msg_synack; ToClient msg_passport;
        ToBackEnd (msg_syn (9, 1) 77); ToClient msg_start] (connector_world STATE_INIT))) /\
    state_ s' = STATE_OK /\ last_seq_ s' = 2.
Proof.
  pose (k m inp := Wire.wire_kernel (blen (wire m)) (wire inp)).
  eapply proj2, (handshake_agreement (E := session_env true) (connector_world STATE_INIT) 3 8 None
    w_init (session_in STATE_INIT) true (9, 1) w_ack
    (k (syn_msg w_init) no_msg) (k (auth_msg (set_up_msg 2 no_msg w_init)) msg_synack)
    (k no_msg msg_passport) (k no_msg msg_start) 0 0 [] 1024 1024); try done.
  - apply connector_session.
  - split; [|split]; by repeat constructor.
  - by apply Wire.empty_net_idle.
Defined.

Lemma client_states_witness :
  match Update (Wire.wire_kernel 0 []) 0 0 w_init with
  | Ok (r, c) => -1 <= r <= 1 /\
      (session_state_ c = SESSION_STATE_TCP_SYNING \/
       session_state_ c = SESSION_STATE_KEY_SYNING /\ 0 <= r)
  | Fault _ => True
  end.
Proof.
  destruct (Update _ 0 0 w_init) as [ [r c]|] eqn:E; [|done].
  exact (client_states _ _ _ w_init r c Wire.counting_keeps E).
Defined.

(** A client behind the handshake, next number 3. *)
Definition w_done (size : nat) : Client nat :=
  Wire.client_in SESSION_STATE_DONE 3 (Wire.empty_net SockUtil.NET_CONNECTED size).
Definition w_data : list bytes := [ [1; 2]; [3] ].
Definition w_pushes (q : Z) : list (Kernel * bytes) :=
  zip (map (fun m => Wire.wire_kernel (blen (wire m)) []) (numbered q w_data)) w_data.

Lemma data_in_order_witness :
  exists s', spec_run true (9, 1) (w_session STATE_OK 2) (from_client (numbered 3 w_data))
      = Some (s', [ToBackEnd (msg_up 3 (9, 1) 77 [1; 2]); ToBackEnd (msg_up 4 (9, 1) 77 [3])]) /\
    state_ s' = STATE_OK /\ last_seq_ s' = 4.
Proof.
  eapply proj2, (data_in_order 0 (w_done 512) (w_session STATE_OK 2) true (9, 1) (w_pushes 3) [] 512 512);
    try done.
  - split; [by apply Wire.empty_net_idle|done].
  - repeat constructor; by vm_compute.
  - repeat constructor; done.
  - by repeat constructor.
Defined.

Definition w_talking : Client nat := set_handshake_done true (w_done 512).
Definition w_echo : CS.CSMsg := msg_down 0 [1; 2].

Lemma receive_data_witness :
  exists c1, session_state_ c1 = SESSION_STATE_DONE /\ unread (tcp_sock_ c1) = wire w_echo /\
    Update (Wire.wire_kernel 0 (wire w_echo)) 0 0 w_talking = (_ ← OnIncoming; mret 1) c1 /\
    forall size, 0 < size ->
      exists c2, (2 <= size ->
          PopMessageFromRecvQ 0 false size c1 = Ok ((0, Some [1; 2]), c2) /\ unread (tcp_sock_ c2) = []) /\
        (size < 2 ->
          PopMessageFromRecvQ 0 false size c1 = Ok ((-1, None), c2) /\
          unread (tcp_sock_ c2) = wire w_echo).
Proof.
  apply (receive_data (Wire.wire_kernel 0 (wire w_echo)) 0 0 w_talking 0 [1; 2] [] 512 512); try done.
  - split; [by apply Wire.empty_net_idle|done].
  - wf_msg. by repeat constructor.
Defined.

Lemma lost_number_witness :
  exists c1 c2, PushMessage (Wire.wire_kernel 0 []) 0 (Some [9]) (w_done 16) = Ok (-1, c1) /\
    tcp_sock_ c1 = tcp_sock_ (w_done 16) /\
    push_all 0 (w_pushes 4) (set_sock (Wire.empty_net SockUtil.NET_CONNECTED 512) c1) = Ok ([0; 0], c2) /\
    wire_out (tcp_sock_ c2) = [] ++ concat (map wire (numbered 4 w_data)) /\
    spec_run true (9, 1) (w_session STATE_OK 2) (from_client (numbered 4 w_data))
    = Some (w_session STATE_OK 2, []).
Proof.
  apply (lost_number (Wire.wire_kernel 0 []) 0 (w_done 16) [9]
           (Wire.empty_net SockUtil.NET_CONNECTED 512) (w_session STATE_OK 2) true (9, 1)
           (w_pushes 4) [] 512 512); try done.
  - by apply (Wire.empty_net_idle SockUtil.NET_CONNECTED 16).
  - by apply Wire.empty_net_idle.
  - repeat constructor; by vm_compute.
  - repeat constructor; done.
  - by repeat constructor.
Defined.

(** The connector refuses the client. *)
Definition w_error : CS.CSMsg :=
  cs_msg 0 CS.ERROR {| CS.syn := None; CS.ack := None; CS.auth := None; CS.passport := None;
                       CS.start := None; CS.data := None; CS.error := Some (7, [110; 111]) |}.
Definition w_auth : Client nat :=
  Wire.client_in SESSION_STATE_AUTHING 3 (Wire.empty_net SockUtil.NET_CONNECTED 512).

Lemma message_ignored_witness :
  exists c', Update (Wire.wire_kernel 0 (wire w_error)) 0 0 w_auth = Ok (0, c') /\
    down_msg_ c' = w_error /\ session_state_ c' = SESSION_STATE_AUTHING /\ user c' = 0%nat /\
    unread (tcp_sock_ c') = [] /\ wire_out (tcp_sock_ c') = [].
Proof.
  apply (message_ignored _ 0 0 w_auth w_error [] 512 512); try done.
  - left. split; [by right; left|done].
  - split; [by apply Wire.empty_net_idle|done].
  - wf_msg. split; [done|by repeat constructor].
Defined.

Lemma short_package_witness :
  Update (Wire.wire_kernel 0 [0; 0; 0; 2; 7]) 0 0 w_auth = Fault OutOfBounds.
Proof.
  apply (short_package _ 0 0 w_auth [0; 0; 0; 2; 7] [] 512 512); try done.
  - by right; left.
  - split; [by apply Wire.empty_net_idle|done].
Defined.
