(* ===== verification/ClientProgram.v ===== *)
(** * The outer layers of the client library, and two programs on it

    [connector_client_api.cpp] hides the objects of [ClientApi] behind others that only hold
    a pointer; client_main.cpp is a program with two threads that says hello to a connector,
    and cocos_lua/cocos_connector.cpp makes the library a class of cocos2d.  The threads of a
    program take turns: each turn is a whole call, although no lock makes it one. *)
From Stdlib Require Import ZArith Lia.
From stdpp Require Import base list gmap fin_maps strings.
From S2P Require Import Prelude CLib RpcMsg EasyRpc TcpSocket RingBuffer SockUtil EasyNet NetMgr Framework.
From S2P Require Import MsgLoop Connector ClientApi.
Local Open Scope Z_scope.

(** ** The objects that hold a pointer *)

Section Facade.
Context {KP : ConnectorProto} {U : Type} {L : IProtocolEventListener U}.

(** [ConnectorClientProtocol], src/server/connector/client_api/connector_client_api.h:132-140

    All the objects of a process with those they point to, by their addresses, and the static
    variable of [Update], which is one for all. *)
Record Api : Type := {
  protos : gmap Z (option Z);
  imps : gmap Z (Client U);
  told : bool
}.
Implicit Types (a : Api) (c : Client U).
Abbreviation Ma := (M Api).

(** [ConnectorClientProtocol::ConnectorClientProtocol], src/server/connector/client_api/connector_client_api.cpp:14-15

    [sock] and [u] are what the memory of the socket and the listener hold. *)
Definition ConnectorClientProtocol_new (sock : Net) (u : U) : Ma Z := fun a =>
  let imp_ := fresh (dom (imps a)) in
  let this := fresh (dom (protos a)) in
  Ok (this, {| protos := <[this := Some imp_]> (protos a);
               imps := <[imp_ := Client_new sock (told a) u]> (imps a); told := told a |}).

(** [ConnectorClientProtocol::~ConnectorClientProtocol], src/server/connector/client_api/connector_client_api.cpp:17-18

    With the release of the object itself. *)
Definition ConnectorClientProtocol_delete (this : Z) : Ma unit := fun a =>
  match protos a !! this with
  | None => Fault UseAfterFree
  | Some _ => Ok (tt, {| protos := delete this (protos a); imps := imps a; told := told a |})
  end.

(** [ConnectorClientProtocol::Create], src/server/connector/client_api/connector_client_api.h:74-76 *)
Definition ConnectorClientProtocol_Create (sock : Net) (u : U) : Ma Z :=
  ConnectorClientProtocol_new sock u.

(** [ConnectorClientProtocol::Destroy], src/server/connector/client_api/connector_client_api.h:78-83

    The pointer to the pointer may be null; the result is what it points to afterwards. *)
Definition ConnectorClientProtocol_Destroy (ccp : option (option Z)) : Ma (option (option Z)) :=
  match ccp with
  | Some (Some this) => _ ← ConnectorClientProtocol_delete this; mret (Some None)
  | _ => mret ccp
  end.

(** A call of a method of the object behind [this]; the object uses the static variable. *)
Definition on_imp {X} (this : Z) (m : M (Client U) X) : Ma X := fun a =>
  match protos a !! this with
  | None => Fault UseAfterFree
  | Some None => Fault AssertFailed
  | Some (Some imp_) =>
      match imps a !! imp_ with
      | None => Fault UseAfterFree
      | Some c =>
          '(x, c) ← m (set_handshake_done (told a) c);
          Ok (x, {| protos := protos a; imps := <[imp_ := c]> (imps a);
                    told := handshake_done c |})
      end
  end.

(** [ConnectorClientProtocol::Start], src/server/connector/client_api/connector_client_api.cpp:20-25 *)
Definition Protocol_Start (this : Z) K g_timeout (listener ok1 ok2 : bool) : Ma Z :=
  on_imp this (Start K g_timeout listener ok1 ok2).
(** [ConnectorClientProtocol::Terminate], src/server/connector/client_api/connector_client_api.cpp:28-32 *)
Definition Protocol_Terminate (this : Z) : Ma Z := on_imp this Terminate.
(** [ConnectorClientProtocol::Resume], src/server/connector/client_api/connector_client_api.cpp:35-39 *)
Definition Protocol_Resume (this : Z) K g_timeout : Ma Z := on_imp this (Resume K g_timeout).
(** [ConnectorClientProtocol::Update], src/server/connector/client_api/connector_client_api.cpp:42-46 *)
Definition Protocol_Update (this : Z) K g_timeout now : Ma Z := on_imp this (Update K g_timeout now).
(** [ConnectorClientProtocol::PushMessage], src/server/connector/client_api/connector_client_api.cpp:49-53 *)
Definition Protocol_PushMessage (this : Z) K now (data : option bytes) : Ma Z :=
  on_imp this (PushMessage K now data).
(** [ConnectorClientProtocol::PeekMessage], src/server/connector/client_api/connector_client_api.cpp:56-60 *)
Definition Protocol_PeekMessage (this : Z) now (out_null : bool) : Ma (Z * option bytes) :=
  on_imp this (PeekMessage now out_null).
(** [ConnectorClientProtocol::PopMessage], src/server/connector/client_api/connector_client_api.cpp:62-66 *)
Definition Protocol_PopMessage (this : Z) : Ma Z := on_imp this PopMessage.

(** A call with what the kernel answers, on an object and on the one it points to. *)
Inductive call : Type :=
  | CallStart (K : Kernel) (g_timeout : Z) (listener ok1 ok2 : bool)
  | CallTerminate
  | CallResume (K : Kernel) (g_timeout : Z)
  | CallUpdate (K : Kernel) (g_timeout now : Z)
  | CallPushMessage (K : Kernel) (now : Z) (data : option bytes)
  | CallPeekMessage (now : Z) (out_null : bool)
  | CallPopMessage.

Definition answer : Type := Z * option bytes.
Definition plain {S} (m : M S Z) : M S answer := r ← m; mret (r, None).

Definition outer (this : Z) (k : call) : Ma answer :=
  match k with
  | CallStart K g l ok1 ok2 => plain (Protocol_Start this K g l ok1 ok2)
  | CallTerminate => plain (Protocol_Terminate this)
  | CallResume K g => plain (Protocol_Resume this K g)
  | CallUpdate K g now => plain (Protocol_Update this K g now)
  | CallPushMessage K now data => plain (Protocol_PushMessage this K now data)
  | CallPeekMessage now null => Protocol_PeekMessage this now null
  | CallPopMessage => plain (Protocol_PopMessage this)
  end.
Definition inner (k : call) : M (Client U) answer :=
  match k with
  | CallStart K g l ok1 ok2 => plain (Start K g l ok1 ok2)
  | CallTerminate => plain Terminate
  | CallResume K g => plain (Resume K g)
  | CallUpdate K g now => plain (Update K g now)
  | CallPushMessage K now data => plain (PushMessage K now data)
  | CallPeekMessage now null => PeekMessage now null
  | CallPopMessage => plain PopMessage
  end.

Fixpoint each {S X Y} (f : X -> M S Y) (l : list X) : M S (list Y) :=
  match l with
  | [] => mret []
  | x :: l => y ← f x; ys ← each f l; mret (y :: ys)
  end.

(** ** Sessions *)

(** The object [this] points to [c]. *)
Definition holds (this i : Z) c a : Prop :=
  protos a !! this = Some (Some i) /\ imps a !! i = Some c /\ handshake_done c = told a.

(** The objects with another client behind [i]. *)
Definition with_imp (i : Z) c a : Api :=
  {| protos := protos a; imps := <[i := c]> (imps a); told := handshake_done c |}.

Lemma set_done_same c b : handshake_done c = b -> set_handshake_done b c = c.
Proof using. intros <-. by destruct c. Qed.

Lemma on_imp_ok {X} this i c a (m : M (Client U) X) :
  holds this i c a ->
  on_imp this m a = match m c with
                    | Ok (x, c') => Ok (x, with_imp i c' a)
                    | Fault f => Fault f
                    end.
Proof using.
  intros (Hp & Hi & Hd). unfold on_imp. rewrite Hp, Hi, set_done_same by done.
  by destruct (m c) as [[x c']|].
Qed.

Lemma holds_after this i c c' a : holds this i c a -> holds this i c' (with_imp i c' a).
Proof using. intros (Hp & _ & _). repeat split; [done|apply lookup_insert_eq]. Qed.

Lemma outer_ok this i c a k :
  holds this i c a ->
  outer this k a = match inner k c with
                   | Ok (x, c') => Ok (x, with_imp i c' a)
                   | Fault f => Fault f
                   end.
Proof using.
  intros H. assert (Hplain : forall m : M (Client U) Z, plain (on_imp this m) a
    = match plain m c with Ok (x, c') => Ok (x, with_imp i c' a) | Fault f => Fault f end).
  { intros m. unfold plain, mbind, M_bind. rewrite (on_imp_ok this i c a m H).
    by destruct (m c) as [[x c']|]. }
  destruct k; try apply Hplain. by apply on_imp_ok.
Qed.

Lemma outer_each this i l c a :
  holds this i c a ->
  each (outer this) l a = match each inner l c with
                          | Ok (xs, c') => Ok (xs, match l with [] => a | _ => with_imp i c' a end)
                          | Fault f => Fault f
                          end.
Proof using.
  revert c a. induction l as [|k l IH]; intros c a H; [done|]. cbn [each].
  unfold mbind, M_bind. rewrite (outer_ok this i c a k H).
  destruct (inner k c) as [[x c1]|f]; [|done]. rewrite (IH c1) by (by eapply holds_after).
  destruct (each inner l c1) as [[xs c2]|f] eqn:E; [|done]. destruct l as [|k' l].
  - by injection E as <- <-.
  - do 2 f_equal. unfold with_imp. cbn. by rewrite insert_insert_eq.
Qed.

(** No two objects point to the same client. *)
Definition apart a : Prop :=
  (forall p q i, protos a !! p = Some (Some i) -> protos a !! q = Some (Some i) -> p = q) /\
  (forall p i, protos a !! p = Some (Some i) -> is_Some (imps a !! i)).

Lemma new_apart sock u a this a' :
  apart a -> ConnectorClientProtocol_new sock u a = Ok (this, a') ->
  apart a' /\ exists i, imps a !! i = None /\ protos a !! this = None /\
    a' = {| protos := <[this := Some i]> (protos a);
            imps := <[i := Client_new sock (told a) u]> (imps a); told := told a |}.
Proof using.
  intros [H1 H2] [= <- <-]. set (i := fresh (dom (imps a))). set (p0 := fresh (dom (protos a))).
  assert (Hi : imps a !! i = None) by (apply not_elem_of_dom, is_fresh).
  assert (Hp : protos a !! p0 = None) by (apply not_elem_of_dom, is_fresh).
  split; [|by exists i]. split; cbn.
  - intros p q j [[<- [= <-]]|[Hne Hpj]]%lookup_insert_Some [[<- Ej]|[Hne' Hqj]]%lookup_insert_Some;
      try done; [|injection Ej as <-|eauto];
      match goal with
      | H : protos a !! _ = Some (Some i) |- _ => destruct (H2 _ _ H) as [? ?]; congruence
      end.
  - intros p j [[_ [= <-]]|[_ Hpj]]%lookup_insert_Some.
    + rewrite lookup_insert_eq. by eexists.
    + destruct (decide (j = i)) as [->|Hj]; [rewrite lookup_insert_eq; by eexists|].
      rewrite lookup_insert_ne by done. by apply (H2 p).
Qed.
End Facade.

Section ThreadFacade.
Context {KP : ConnectorProto} {U : Type} {L : IProtocolEventListener U}.

(** [ConnectorClientProtocolThread], src/server/connector/client_api/connector_client_api.h:202-210

    The one object of [Default], with what it points to. *)
Record ConnectorClientProtocolThread : Type := { imp_ : option (ThreadImp U) }.
Abbreviation Mf := (M ConnectorClientProtocolThread).

(** [ConnectorClientProtocolThread::ConnectorClientProtocolThread], src/server/connector/client_api/connector_client_api.cpp:71-72 *)
Definition ConnectorClientProtocolThread_new : ConnectorClientProtocolThread :=
  {| imp_ := Some ThreadImp_new |}.

Definition on_thread {X} (m : M (ThreadImp U) X) : Mf X := fun f =>
  match imp_ f with
  | None => Fault AssertFailed
  | Some t => '(x, t) ← m t; Ok (x, {| imp_ := Some t |})
  end.

(** [ConnectorClientProtocolThread::StartThread], src/server/connector/client_api/connector_client_api.cpp:77-83 *)
Definition Thread_StartThread (protocol_evlistener thread_listener : bool) (c : Client U) : Mf Z :=
  on_thread (StartThread protocol_evlistener thread_listener c).
(** [ConnectorClientProtocolThread::TerminateThread], src/server/connector/client_api/connector_client_api.cpp:85-89 *)
Definition Thread_TerminateThread : Mf Z := on_thread TerminateThread.
(** [ConnectorClientProtocolThread::PushMessageToSendQ], src/server/connector/client_api/connector_client_api.cpp:91-96 *)
Definition Thread_PushMessageToSendQ K now (data : option bytes) : Mf Z :=
  on_thread (PushMessageToSendQ K now data).
(** [ConnectorClientProtocolThread::PopMessageFromRecvQ], src/server/connector/client_api/connector_client_api.cpp:98-103 *)
Definition Thread_PopMessageFromRecvQ now (buf_null : bool) (size : Z) : Mf (Z * option bytes) :=
  on_thread (on_client (PopMessageFromRecvQ now buf_null size)).

Lemma on_thread_ok {X} (m : M (ThreadImp U) X) f t x t' :
  imp_ f = Some t -> m t = Ok (x, t') -> on_thread m f = Ok (x, {| imp_ := Some t' |}).
Proof using. intros Hf Hm. unfold on_thread. by rewrite Hf, Hm. Qed.

Lemma on_client_ok {X} (m : M (Client U) X) t c x c' :
  ccproto_ t = Some c -> m c = Ok (x, c') ->
  on_client m t = Ok (x, {| ccproto_ := Some c'; wt_listener_ := wt_listener_ t;
    protocol_evtlistener_ := protocol_evtlistener_ t; exit_ := exit_ t;
    worker_exits := worker_exits t |}).
Proof using. intros Ht Hm. unfold on_client. by rewrite Ht, Hm. Qed.
End ThreadFacade.
Arguments ConnectorClientProtocolThread : clear implicits.

(** The text that ends before the first zero byte. *)
Definition c_text (l : bytes) : bytes := take (default (length l) (strchr l 0)) l.

(** A buffer after [memcpy] of [d] to its beginning. *)
Definition memcpy0 (d buf : bytes) : bytes := d ++ drop (length d) buf.

(** ** client_main.cpp *)

Module Main.

(** [ConnectorProtocolListener], src/server/connector/client_api/client_main.cpp:8-37

    With the static buffer of [OnIncoming] and what was printed as received. *)
Record ConnectorProtocolListener : Set := {
  exit_ : bool;
  state_ok_ : bool;
  data : bytes;
  printed : list bytes
}.

(** [ConnectorProtocolListener::ConnectorProtocolListener], src/server/connector/client_api/client_main.cpp:69-70 *)
Definition ConnectorProtocolListener_new : ConnectorProtocolListener :=
  {| exit_ := false; state_ok_ := false; data := replicate (Z.to_nat 10240) 0; printed := [] |}.

Definition set_exit (x : ConnectorProtocolListener) : ConnectorProtocolListener :=
  {| exit_ := true; state_ok_ := state_ok_ x; data := data x; printed := printed x |}.
Definition set_ok (x : ConnectorProtocolListener) : ConnectorProtocolListener :=
  {| exit_ := exit_ x; state_ok_ := true; data := data x; printed := printed x |}.
Definition received (d : bytes) (x : ConnectorProtocolListener) : ConnectorProtocolListener :=
  {| exit_ := exit_ x; state_ok_ := state_ok_ x; data := d; printed := printed x ++ [c_text d] |}.

Abbreviation MC := (M (Client ConnectorProtocolListener)).
Definition upd_listener (f : ConnectorProtocolListener -> ConnectorProtocolListener) : MC Z :=
  _ ← modify (fun c => set_user (f (user c)) c); mret 0.

(** [Glogger::Log], src/server/connector/client_api/client_main.cpp:44-64

    The lines that are written, with their severity: the case of [LOG_ERROR] has no [break]. *)
Inductive severity : Set := SevFatal | SevError | SevInfo.
Definition Log (level : Z) (log : bytes) : list (severity * bytes) :=
  if level =? 0 then [(SevFatal, log)]
  else if level =? 1 then [(SevError, log); (SevInfo, log)]
  else if (2 <=? level) && (level <=? 4) then [(SevInfo, log)] else [].

(** [ConnectorProtocolListener::OnGetSettings], src/server/connector/client_api/client_main.cpp:107-119 *)
Definition OnGetSettings (_ : Settings) : Settings :=
  {| appid_ := bytes_of_string "TEST123456"%string; openid_ := bytes_of_string "GUEST0987654321"%string;
     token_ := bytes_of_string "TOKEN3388"%string; encrypt_mode_ := 0; auth_type_ := 0;
     server_uri_ := bytes_of_string "tcp://127.0.0.1:8888"%string |}.

(** [ConnectorProtocolListener::OnHandShakeSucceed], src/server/connector/client_api/client_main.cpp:121-125 *)
Definition OnHandShakeSucceed : MC Z := upd_listener set_ok.
(** [ConnectorProtocolListener::OnHandShakeFailed], src/server/connector/client_api/client_main.cpp:127-133 *)
Definition OnHandShakeFailed : MC Z := upd_listener set_exit.
(** [ConnectorProtocolListener::OnServerClose], src/server/connector/client_api/client_main.cpp:135-141 *)
Definition OnServerClose : MC Z := upd_listener set_exit.

Section Callbacks.
Context {KP : ConnectorProto} (now : Z).

(** [ConnectorProtocolListener::OnIncoming], src/server/connector/client_api/client_main.cpp:148-157

    The result of the call is not looked at; without a message the length stays that of the
    buffer. *)
Definition OnIncoming : MC Z :=
  '(_, d) ← PopMessageFromRecvQ now false 10239;
  c ← get;
  let buf := match d with Some d => memcpy0 d (data (user c)) | None => data (user c) end in
  let len := match d with Some d => length d | None => Z.to_nat 10239 end in
  upd_listener (received (<[len := 0]> buf)).

(** The protocol listener of the program. *)
#[export] Instance main_listener : IProtocolEventListener ConnectorProtocolListener :=
  {| ClientApi.OnGetSettings := OnGetSettings;
     ClientApi.OnHandShakeSucceed := OnHandShakeSucceed;
     ClientApi.OnHandShakeFailed := OnHandShakeFailed;
     ClientApi.OnServerClose := OnServerClose;
     ClientApi.OnIncoming := OnIncoming |}.
End Callbacks.

(** [ConnectorProtocolListener::OnWorkerThreadExit], src/server/connector/client_api/client_main.cpp:159-163 *)
#[export] Instance main_worker_listener : IWorkerThreadListener ConnectorProtocolListener :=
  {| listener_OnWorkerThreadExit := set_exit |}.

(** ** The two threads *)

Inductive worker : Set := Starting | Updating | Gone.

(** The process: the object of [Default], where its second thread is, and whether [main] has
    returned, which ends both. *)
Record process : Type := {
  api : ConnectorClientProtocolThread ConnectorProtocolListener;
  thread : worker;
  over : bool
}.
Definition set_api x (p : process) : process := {| api := x; thread := thread p; over := over p |}.
Definition set_thread x (p : process) : process := {| api := api p; thread := x; over := over p |}.
Definition set_over (p : process) : process := {| api := api p; thread := thread p; over := true |}.

Definition on_api {X} (m : M (ConnectorClientProtocolThread ConnectorProtocolListener) X)
    : M process X := fun p => '(x, f) ← m (api p); Ok (x, set_api f p).

(** The object of the listener, which the client uses. *)
Definition listener : M process ConnectorProtocolListener :=
  p ← get; t ← nonnull (imp_ (api p)); c ← nonnull (ccproto_ t); mret (user c).

Section Threads.
Context {KP : ConnectorProto} (g_timeout : Z).

Definition hello : bytes := bytes_of_string "hello"%string ++ [0].

(** [ConnectorProtocolListener::Start], src/server/connector/client_api/client_main.cpp:75-81

    [sock] is what the memory of the socket holds when the client is made. *)
Definition Start (sock : Net) : M process Z :=
  _ ← on_api (Thread_StartThread true true (Client_new sock false ConnectorProtocolListener_new));
  mret 0.

(** [ConnectorProtocolListener::Fini], src/server/connector/client_api/client_main.cpp:102-105 *)
Definition Fini : M process unit := _ ← on_api Thread_TerminateThread; mret tt.

(** [ConnectorProtocolListener::MainLoop], src/server/connector/client_api/client_main.cpp:83-100

    One round; behind the last one [main] calls [Fini] and returns. *)
Definition main_turn (K : Kernel) (now : Z) : M process unit :=
  l ← listener;
  if exit_ l then _ ← Fini; modify set_over
  else if state_ok_ l then
    _ ← on_api (Thread_PushMessageToSendQ K now (Some hello)); mret tt
  else mret tt.

(** [ConnectorClientProtocolThreadImp::MainLoop], src/server/connector/client_api/connector_client_api_imp.cpp:641-673

    A round of the other thread: its beginning, or an [Update]. *)
Definition worker_turn (K : Kernel) (now : Z) (ok1 ok2 : bool) : M process unit :=
  p ← get;
  let leave := _ ← on_api (on_thread OnWorkerThreadExit); modify (set_thread Gone) in
  match thread p with
  | Starting =>
      t ← nonnull (imp_ (api p));
      _ ← assertb (bool_decide (is_Some (ccproto_ t)) && wt_listener_ t && protocol_evtlistener_ t);
      _ ← assertb (negb (ClientApi.exit_ t));
      ret ← on_api (on_thread (on_client
              (ClientApi.Start (L := main_listener now) K g_timeout true ok1 ok2)));
      if negb (ret =? 0) then leave else modify (set_thread Updating)
  | Updating =>
      last ← on_api (on_thread (update_round (L := main_listener now) K g_timeout now));
      if (last : bool) then leave else mret tt
  | Gone => mret tt
  end.

(** Whose turn it is, with the kernel and the clock. *)
Inductive turn : Type :=
  | MainTurn (K : Kernel) (now : Z)
  | WorkerTurn (K : Kernel) (now : Z) (ok1 ok2 : bool).

Definition take_turn (x : turn) : M process unit :=
  p ← get;
  if over p then mret tt
  else
    match x with
    | MainTurn K now => main_turn K now
    | WorkerTurn K now ok1 ok2 => worker_turn K now ok1 ok2
    end.

(** [main], src/server/connector/client_api/client_main.cpp:165-181

    Up to any moment: the threads have taken [turns]. *)
Definition main (sock : Net) (turns : list turn) : M process unit :=
  ret ← Start sock;
  if negb (ret =? 0) then modify set_over
  else _ ← each take_turn turns; mret tt.

Definition process_new : process :=
  {| api := ConnectorClientProtocolThread_new; thread := Starting; over := false |}.
End Threads.
End Main.

(** ** cocos_lua/cocos_connector.cpp *)

Module Cocos.

(** [ConnectorApiImp], src/server/connector/client_api/cocos_lua/cocos_connector.cpp:50-54

    With the static buffer of [ConnectorApi::Recv]. *)
Record ConnectorApiImp : Set := {
  exit_ : bool;
  state_ok_ : bool;
  has_pkg_ : bool;
  data : bytes
}.

(** [ConnectorApiImp::ConnectorApiImp], src/server/connector/client_api/cocos_lua/cocos_connector.cpp:71-76 *)
Definition ConnectorApiImp_new : ConnectorApiImp :=
  {| exit_ := false; state_ok_ := false; has_pkg_ := false;
     data := replicate (Z.to_nat 1024000) 0 |}.

Definition set_exit (x : ConnectorApiImp) : ConnectorApiImp :=
  {| exit_ := true; state_ok_ := state_ok_ x; has_pkg_ := has_pkg_ x; data := data x |}.
Definition set_ok (x : ConnectorApiImp) : ConnectorApiImp :=
  {| exit_ := exit_ x; state_ok_ := true; has_pkg_ := has_pkg_ x; data := data x |}.
Definition set_pkg (x : ConnectorApiImp) : ConnectorApiImp :=
  {| exit_ := exit_ x; state_ok_ := state_ok_ x; has_pkg_ := true; data := data x |}.
Definition set_data (d : bytes) (x : ConnectorApiImp) : ConnectorApiImp :=
  {| exit_ := exit_ x; state_ok_ := state_ok_ x; has_pkg_ := has_pkg_ x; data := d |}.

Definition upd_imp (f : ConnectorApiImp -> ConnectorApiImp) : M (Client ConnectorApiImp) Z :=
  _ ← modify (fun c => set_user (f (user c)) c); mret 0.

(** [ConnectorApiImp::OnGetSettings], src/server/connector/client_api/cocos_lua/cocos_connector.cpp:94-106 *)
Definition OnGetSettings (_ : Settings) : Settings :=
  {| appid_ := bytes_of_string "TEST123456"%string; openid_ := bytes_of_string "GUEST0987654321"%string;
     token_ := bytes_of_string "TOKEN3388"%string; encrypt_mode_ := 0; auth_type_ := 0;
     server_uri_ := bytes_of_string "tcp://172.16.11.135:8888"%string |}.

(** The callbacks of [ConnectorApiImp], src/server/connector/client_api/cocos_lua/cocos_connector.cpp:109-141 *)
#[export] Instance cocos_listener : IProtocolEventListener ConnectorApiImp :=
  {| ClientApi.OnGetSettings := OnGetSettings;
     ClientApi.OnHandShakeSucceed := upd_imp set_ok;
     ClientApi.OnHandShakeFailed := upd_imp set_exit;
     ClientApi.OnServerClose := upd_imp set_exit;
     ClientApi.OnIncoming := upd_imp set_pkg |}.

(** [ConnectorApiImp::OnWorkerThreadExit], src/server/connector/client_api/cocos_lua/cocos_connector.cpp:143-147 *)
#[export] Instance cocos_worker_listener : IWorkerThreadListener ConnectorApiImp :=
  {| listener_OnWorkerThreadExit := set_exit |}.

Section Api.
Context {KP : ConnectorProto}.
Abbreviation Mf := (M (ConnectorClientProtocolThread ConnectorApiImp)).

(** [ConnectorApiImp::Start], src/server/connector/client_api/cocos_lua/cocos_connector.cpp:78-84 *)
Definition Imp_Start (sock : Net) : Mf Z :=
  _ ← Thread_StartThread true true (Client_new sock false ConnectorApiImp_new); mret 0.
(** [ConnectorApi::Start], src/server/connector/client_api/cocos_lua/cocos_connector.cpp:150-154 *)
Definition Start (sock : Net) : Mf Z := _ ← Imp_Start sock; mret 0.
(** [ConnectorApi::Stop], src/server/connector/client_api/cocos_lua/cocos_connector.cpp:161-164 *)
Definition Stop : Mf unit := _ ← Thread_TerminateThread; mret tt.
(** [ConnectorApi::Send], src/server/connector/client_api/cocos_lua/cocos_connector.cpp:166-171 *)
Definition Send K now (bin : bytes) : Mf Z :=
  _ ← Thread_PushMessageToSendQ K now (Some bin); mret 0.

Definition api_imp : Mf ConnectorApiImp :=
  f ← get; t ← nonnull (imp_ f); c ← nonnull (ccproto_ t); mret (user c).

(** [ConnectorApi::Recv], src/server/connector/client_api/cocos_lua/cocos_connector.cpp:173-187

    With what [bin] holds afterwards.  The result of the call is not looked at; without a
    message [len] stays the size of the buffer. *)
Definition Recv (now : Z) (bin : bytes) : Mf (Z * bytes) :=
  i ← api_imp;
  if negb (has_pkg_ i) then mret (0, bin)
  else
    '(_, d) ← Thread_PopMessageFromRecvQ now false 1024000;
    i ← api_imp;
    let buf := match d with Some d => memcpy0 d (data i) | None => data i end in
    let len := match d with Some d => blen d | None => 1024000 end in
    _ ← on_thread (on_client (upd_imp (set_data buf)));
    mret (i32 len, take (Z.to_nat len) buf).
End Api.
End Cocos.

(** ** The program with two threads *)

Section Running.
Context {KP : ConnectorProto} (g_timeout : Z).
Import Main.
Implicit Types (c : Client ConnectorProtocolListener) (p : process).
#[local] Existing Instance main_listener.

Abbreviation flag := (fun c : Client ConnectorProtocolListener => state_ok_ (user c)).

Lemma preserves_upd_listener {X} (f : Client ConnectorProtocolListener -> X) g :
  (forall c, f (set_user (g (user c)) c) = f c) -> preserves f (upd_listener g).
Proof using. intros Hf. unfold upd_listener. apply preserves_bind; [by apply preserves_modify|intros _; apply preserves_ret]. Qed.

Lemma preserves_Peek {X} (f : Client ConnectorProtocolListener -> X) now null :
  (forall n c, f (set_sock n c) = f c) -> (forall m c, f (set_down_msg m c) = f c) ->
  preserves f (PeekMessage now null).
Proof using.
  intros H1 H2. unfold PeekMessage. pose proof (fun pkg => preserves_parse_down f H2 pkg).
  pose proof (fun A m => preserves_on_sock (A := A) f m H1). preserve.
Qed.

Lemma preserves_Pop {X} (f : Client ConnectorProtocolListener -> X) now null size :
  (forall n c, f (set_sock n c) = f c) -> (forall m c, f (set_down_msg m c) = f c) ->
  preserves f (PopMessageFromRecvQ now null size).
Proof using.
  intros H1 H2. unfold PopMessageFromRecvQ, PopMessage.
  pose proof (preserves_Peek f now false H1 H2).
  pose proof (fun A m => preserves_on_sock (A := A) f m H1). preserve.
Qed.

Lemma preserves_Push {X} (f : Client ConnectorProtocolListener -> X) K now data :
  (forall n c, f (set_sock n c) = f c) -> (forall q m c, f (set_up_msg q m c) = f c) ->
  preserves f (PushMessage K now data).
Proof using.
  intros H1 H2. unfold PushMessage. pose proof (preserves_Serialize K now f H1).
  pose proof (fun id b => preserves_next_up f H2 id b). preserve.
Qed.

(** The program neither closes nor resumes its session. *)
Lemma main_keeps now : listener_keeps (L := main_listener now).
Proof using.
  split; try by apply preserves_upd_listener.
  change (preserves session_state_ (OnIncoming now)). unfold OnIncoming.
  pose proof (preserves_Pop session_state_ now false 10239
    (fun _ _ => eq_refl) (fun _ _ => eq_refl)).
  preserve; by apply preserves_upd_listener.
Qed.

(** The flag is set at the end of the handshake and not before. *)
Lemma update_step_flag K now c r c' :
  update_step (L := main_listener now) K g_timeout now c = Ok (r, c') ->
  session_state_ c <> SESSION_STATE_DONE -> flag c' = flag c.
Proof using.
  intros H Hst. unfold update_step in H. rewrite (bind_step get _ c c c) in H by done.
  assert (Ha := preserves_TRY_ACK K now flag (fun _ _ => eq_refl) (fun _ _ => eq_refl) (fun _ _ => eq_refl)).
  assert (Ht := preserves_TryToRecv K now flag (fun _ _ => eq_refl) (fun _ _ => eq_refl)).
  assert (Hs := preserves_Serialize K now flag (fun _ _ => eq_refl)).
  assert (Hn := preserves_next_up flag (fun _ _ _ => eq_refl)).
  assert (Hc := preserves_CheckConnect K flag (fun _ _ => eq_refl)).
  revert c r c' H Hst. intros c r c' H Hst.
  destruct (session_state_ c); try done;
    (match type of H with ?m _ = _ => assert (Hm : preserves flag m); [|exact (Hm _ _ _ H)] end);
    unfold Client_Connect, HandShake_SYN, HandShake_AUTH, HandShake_TRY_READY, HandShake_TRY_DONE;
    preserve.
Qed.

Lemma Update_flag K now c r c' :
  Update (L := main_listener now) K g_timeout now c = Ok (r, c') ->
  (flag c = true -> session_state_ c = SESSION_STATE_DONE) ->
  flag c' = true -> session_state_ c' = SESSION_STATE_DONE.
Proof using.
  intros H Hc Hf.
  destruct (client_states K g_timeout now c r c' (main_keeps now) H) as [_ Hst].
  destruct (decide (session_state_ c = SESSION_STATE_DONE)) as [Ed|Ed].
  { rewrite Ed in Hst. cbn in Hst. destruct Hst as [?|[? _]]; done. }
  exfalso. apply Ed, Hc. rewrite <- Hf. unfold Update in H.
  apply bind_Ok in H as (l & c0 & [= <- <-] & H). destruct (negb _); [by injection H as _ <-|].
  apply bind_Ok in H as (s & c1 & H1 & H). rewrite <- (update_step_flag _ _ _ _ _ H1 Ed).
  assert (Hx : preserves flag (upd_listener set_exit)) by (by apply preserves_upd_listener).
  match type of H with ?m _ = _ => assert (Hm : preserves flag m); [|by rewrite (Hm _ _ _ H)] end.
  cbn. preserve.
Qed.

(** What holds whenever a thread takes its turn. *)
Definition running p : Prop :=
  exists t c, imp_ (api p) = Some t /\ ccproto_ t = Some c /\
    (flag c = true -> session_state_ c = SESSION_STATE_DONE) /\
    (thread p = Starting -> flag c = false) /\
    (thread p = Gone -> Main.exit_ (user c) = true) /\
    (over p = true -> ClientApi.exit_ t = true).

Lemma on_api_inv {X} (m : M (ThreadImp ConnectorProtocolListener) X) p t x p' :
  imp_ (api p) = Some t -> on_api (on_thread m) p = Ok (x, p') ->
  exists t', m t = Ok (x, t') /\ p' = set_api {| imp_ := Some t' |} p.
Proof using.
  intros Ht H. unfold on_api, on_thread, mbind, outcome_bind in H. rewrite Ht in H.
  destruct (m t) as [[y t']|]; [|done]. injection H as <- <-. eauto.
Qed.

Lemma on_api_client_inv {X} (m : M (Client ConnectorProtocolListener) X) p t c x p' :
  imp_ (api p) = Some t -> ccproto_ t = Some c -> on_api (on_thread (on_client m)) p = Ok (x, p') ->
  exists c' t', m c = Ok (x, c') /\ p' = set_api {| imp_ := Some t' |} p /\
    ccproto_ t' = Some c' /\ ClientApi.exit_ t' = ClientApi.exit_ t.
Proof using.
  intros Ht Hc H. destruct (on_api_inv _ p t x p' Ht H) as (t' & H' & ->).
  unfold on_client, mbind, outcome_bind in H'. rewrite Hc in H'.
  destruct (m c) as [[y c']|]; [|done]. injection H' as <- <-. eauto 10.
Qed.

Lemma listener_ok p t c : imp_ (api p) = Some t -> ccproto_ t = Some c -> listener p = Ok (user c, p).
Proof using.
  intros Ht Hc. unfold listener. rewrite (bind_step get _ p p p) by done. rewrite Ht.
  rewrite (bind_step _ _ p t p) by done. by rewrite Hc.
Qed.

(** The last thing the other thread does. *)
Lemma leave_running p t c u p' :
  imp_ (api p) = Some t -> ccproto_ t = Some c ->
  (flag c = true -> session_state_ c = SESSION_STATE_DONE) -> over p = false ->
  (_ ← on_api (on_thread OnWorkerThreadExit); modify (set_thread Gone)) p = Ok (u, p') -> running p'.
Proof using.
  intros Ht Hc Hf Ho H. apply bind_Ok in H as (x & p1 & H1 & [= _ <-]).
  destruct (on_api_inv _ p t x p1 Ht H1) as (t' & [= _ <-] & ->).
  eexists _, (set_user (set_exit (user c)) c). split; [done|]. cbn. rewrite Hc, Ho. by repeat split.
Qed.

Lemma main_turn_running K now p u p' :
  running p -> over p = false -> main_turn K now p = Ok (u, p') -> running p'.
Proof using.
  intros Hr Ho H. pose proof Hr as (t & c & Ht & Hc & Hf & Hs & Hg & Hov). unfold main_turn in H.
  rewrite (bind_step _ _ _ _ _ (listener_ok p t c Ht Hc)) in H.
  destruct (Main.exit_ (user c)) eqn:Ee.
  - apply bind_Ok in H as ([] & p1 & H1 & [= _ <-]). apply bind_Ok in H1 as (r & p2 & H1 & [= <-]).
    destruct (on_api_inv TerminateThread p t r p2 Ht H1) as (t' & [= _ <-] & ->).
    eexists _, c. cbn. rewrite Ee. by split_and!.
  - destruct (state_ok_ (user c)) eqn:Eok; [|by injection H as _ <-].
    apply bind_Ok in H as (r & p1 & H1 & [= _ <-]).
    destruct (on_api_client_inv _ p t c r p1 Ht Hc H1) as (c' & t' & Hm & -> & Hc' & He).
    pose proof (preserves_Push user K now (Some hello) (fun _ _ => eq_refl) (fun _ _ _ => eq_refl)
      _ _ _ Hm) as Eu.
    pose proof (preserves_Push session_state_ K now (Some hello) (fun _ _ => eq_refl)
      (fun _ _ _ => eq_refl) _ _ _ Hm) as Es.
    exists t', c'. cbn. rewrite Eu, Es, He, Eok, Ee. by split_and!.
Qed.

Lemma Start_flag K now ok1 ok2 :
  preserves flag (ClientApi.Start (L := main_listener now) K g_timeout true ok1 ok2).
Proof using.
  unfold ClientApi.Start, Client_Connect. cbn [negb]. preserve.
Qed.

Lemma worker_turn_running K now ok1 ok2 p u p' :
  running p -> over p = false -> worker_turn g_timeout K now ok1 ok2 p = Ok (u, p') -> running p'.
Proof using.
  intros Hr Ho H. pose proof Hr as (t & c & Ht & Hc & Hf & Hs & Hg & Hov). unfold worker_turn in H.
  rewrite (bind_step get _ p p p) in H by done. cbv zeta in H. destruct (thread p) eqn:Et.
  - rewrite Ht in H. rewrite (bind_step _ _ p t p) in H by done.
    apply bind_Ok in H as (? & p1 & H1 & H). assert (p1 = p) as -> by exact (preserves_assertb id _ _ _ _ H1).
    apply bind_Ok in H as (? & p1 & H2 & H).
    assert (p1 = p) as -> by exact (preserves_assertb id _ _ _ _ H2).
    apply bind_Ok in H as (ret & p1 & H3 & H).
    destruct (on_api_client_inv _ p t c ret p1 Ht Hc H3) as (c' & t' & Hm & -> & Hc' & He).
    assert (Hf' : flag c' = false) by (rewrite <- (Hs eq_refl); exact (Start_flag K now ok1 ok2 _ _ _ Hm)).
    destruct (negb (ret =? 0)).
    + apply (leave_running (set_api {| imp_ := Some t' |} p) t' c' u); [reflexivity|exact Hc'| |exact Ho|exact H].
      cbn in *. congruence.
    + injection H as _ <-. exists t', c'. cbn. rewrite Ho. split; [done|]. split; [done|].
      split; [intros Hf1; exfalso; cbn in Hf'; congruence|by split_and!].
  - apply bind_Ok in H as (last & p1 & H1 & H).
    destruct (on_api_inv _ p t last p1 Ht H1) as (t' & Hm & ->). unfold update_round in Hm.
    apply bind_Ok in Hm as (e & t1 & [= <- <-] & Hm).
    assert (Hnext : exists c', ccproto_ t' = Some c' /\ (flag c' = true -> session_state_ c' = SESSION_STATE_DONE) /\
        ClientApi.exit_ t' = ClientApi.exit_ t).
    { destruct (ClientApi.exit_ t) eqn:Ee; [injection Hm as _ <-; eauto|].
      apply bind_Ok in Hm as (ret & t1 & Hm & [= _ <-]). unfold on_client, mbind, outcome_bind in Hm.
      rewrite Hc in Hm. destruct (Update K g_timeout now c) as [[y c']|] eqn:Eu; [|done].
      injection Hm as _ <-. exists c'. split; [done|]. split; [|done].
      exact (Update_flag K now c y c' Eu Hf). }
    destruct Hnext as (c' & Hc' & Hf' & He'). destruct last.
    + by apply (leave_running (set_api {| imp_ := Some t' |} p) t' c' u); [reflexivity|exact Hc'| |exact Ho|exact H].
    + injection H as _ <-. exists t', c'. cbn. rewrite Et, Ho. by split_and!.
  - by injection H as _ <-.
Qed.

Lemma take_turn_running x p u p' : running p -> take_turn g_timeout x p = Ok (u, p') -> running p'.
Proof using.
  intros Hr H. unfold take_turn in H. rewrite (bind_step get _ p p p) in H by done.
  destruct (over p) eqn:Eo; [by injection H as _ <-|].
  destruct x; [by eapply main_turn_running|by eapply worker_turn_running].
Qed.

Lemma main_running sock turns p :
  main g_timeout sock turns process_new = Ok (tt, p) -> running p.
Proof using.
  intros H. unfold main in H. apply bind_Ok in H as (ret & p0 & [= <- <-] & H). cbn [negb Z.eqb] in H.
  apply bind_Ok in H as (us & p1 & H & [= <-]). revert us H.
  assert (H0 : running (set_api {| imp_ := Some {| ccproto_ := Some (Client_new sock false
    ConnectorProtocolListener_new); wt_listener_ := true; protocol_evtlistener_ := true;
    ClientApi.exit_ := false; worker_exits := 0 |} |} process_new)).
  { eexists _, _. split; [done|]. by repeat split. }
  revert H0. generalize (set_api {| imp_ := Some {| ccproto_ := Some (Client_new sock false
    ConnectorProtocolListener_new); wt_listener_ := true; protocol_evtlistener_ := true;
    ClientApi.exit_ := false; worker_exits := 0 |} |} process_new) as q.
  induction turns as [|x turns IH]; intros q Hq us H; [by injection H as _ <-|].
  apply bind_Ok in H as (u & q1 & H1 & H). apply bind_Ok in H as (us' & q2 & H2 & [= _ <-]).
  eapply (IH q1); [by eapply take_turn_running|exact H2].
Qed.

(** Turns of [main] behind the handshake are calls of [PushMessage]. *)
Lemma hello_turns now Ks p t c rs c' :
  imp_ (api p) = Some t -> ccproto_ t = Some c -> over p = false ->
  Main.exit_ (user c) = false -> state_ok_ (user c) = true ->
  push_all now (map (fun K => (K, hello)) Ks) c = Ok (rs, c') ->
  exists p' t', each (take_turn g_timeout) (map (fun K => MainTurn K now) Ks) p
      = Ok (map (fun _ => tt) Ks, p') /\ imp_ (api p') = Some t' /\ ccproto_ t' = Some c'.
Proof using.
  revert p t c rs. induction Ks as [|K Ks IH]; intros p t c rs Ht Hc Ho He Hok H; cbn [map push_all] in H.
  - injection H as _ <-. by exists p, t.
  - apply bind_Ok in H as (r & c1 & H1 & H). apply bind_Ok in H as (rs' & c2 & H2 & [= _ <-]).
    pose proof (preserves_Push user K now (Some hello) (fun _ _ => eq_refl) (fun _ _ _ => eq_refl)
      _ _ _ H1) as Eu.
    pose proof (on_client_ok _ t c r c1 Hc H1) as Et. set (t1 := {| ccproto_ := Some c1; ClientApi.exit_ := _ |}) in Et.
    destruct (IH (set_api {| imp_ := Some t1 |} p) t1 c1 rs') as (p' & t' & Hrun & Hp'); try done;
      [by rewrite Eu..|].
    exists p', t'. split; [|done]. cbn [map each].
    rewrite (bind_step _ _ p tt (set_api {| imp_ := Some t1 |} p)).
    + by rewrite (bind_step _ _ _ _ _ Hrun).
    + unfold take_turn. rewrite (bind_step get _ p p p), Ho by done. unfold main_turn.
      rewrite (bind_step _ _ _ _ _ (listener_ok p t c Ht Hc)), He, Hok.
      rewrite (bind_step _ _ p r (set_api {| imp_ := Some t1 |} p)); [done|].
      assert (Ep : Thread_PushMessageToSendQ K now (Some hello) (api p) = Ok (r, {| imp_ := Some t1 |}))
        by exact (on_thread_ok _ (api p) t r t1 Ht Et).
      unfold on_api. by rewrite Ep.
Qed.
End Running.

(** ** The class for cocos2d *)

Section Receiving.
Context {KP : ConnectorProto}.
Import Cocos.
Implicit Types (f : ConnectorClientProtocolThread ConnectorApiImp).

(** The object of [Default] with its client. *)
Definition playing f (t : ThreadImp ConnectorApiImp) (c : Client ConnectorApiImp) : Prop :=
  imp_ f = Some t /\ ccproto_ t = Some c.

Lemma api_imp_ok f t c : playing f t c -> api_imp f = Ok (user c, f).
Proof using.
  intros [Hf Ht]. unfold api_imp. rewrite (bind_step get _ f f f), Hf by done.
  by rewrite (bind_step _ _ f t f), Ht by done.
Qed.

(** What [Recv] makes of what is copied into the buffer. *)
Lemma Recv_got now bin f t c r d c' :
  playing f t c -> has_pkg_ (user c) = true ->
  PopMessageFromRecvQ now false 1024000 c = Ok ((r, d), c') -> user c' = user c ->
  let buf := match d with Some d => memcpy0 d (data (user c)) | None => data (user c) end in
  let len := match d with Some d => blen d | None => 1024000 end in
  exists f' t', Recv now bin f = Ok ((i32 len, take (Z.to_nat len) buf), f') /\
    playing f' t' (set_user (set_data buf (user c)) c').
Proof using.
  intros Hp Hk Hpop Hu buf len. pose proof Hp as [Hf Ht].
  pose proof (on_client_ok _ t c _ c' Ht Hpop) as E1. set (t1 := {| ccproto_ := Some c' |}) in E1.
  set (c2 := set_user (set_data buf (user c)) c').
  assert (E2 : on_client (upd_imp (set_data buf)) t1 = Ok (0, {| ccproto_ := Some c2;
    wt_listener_ := wt_listener_ t1; protocol_evtlistener_ := protocol_evtlistener_ t1;
    ClientApi.exit_ := ClientApi.exit_ t1; worker_exits := worker_exits t1 |})).
  { apply (on_client_ok _ t1 c' 0 c2); [done|]. unfold c2. rewrite <- Hu. done. }
  set (t2 := {| ccproto_ := Some c2 |}) in E2. exists {| imp_ := Some t2 |}, t2. split; [|done].
  unfold Recv. rewrite (bind_step _ _ _ _ _ (api_imp_ok f t c Hp)), Hk. cbn [negb].
  rewrite (bind_step _ _ _ _ _ (on_thread_ok _ f t _ t1 Hf E1)). cbv beta iota.
  rewrite (bind_step _ _ _ _ _ (api_imp_ok {| imp_ := Some t1 |} t1 c' (conj eq_refl eq_refl))), Hu.
  fold buf len. by rewrite (bind_step _ _ _ _ _ (on_thread_ok _ {| imp_ := Some t1 |} t1 _ _ eq_refl E2)).
Qed.

(** Without a whole message in the queue nothing is copied. *)
Lemma Pop_nothing {U} now size (c : Client U) :
  0 < size -> sock_ok (util (tcp_sock_ c)) -> front_pkg (util (tcp_sock_ c)) = None ->
  PopMessageFromRecvQ now false size c = Ok ((-1, None), c).
Proof using.
  intros Hsize Hok Hn. unfold PopMessageFromRecvQ, PeekMessage.
  destruct (Z.eqb_spec size 0); [lia|]. cbn [orb].
  assert (E : on_sock HasNewPkg c = Ok (false, set_sock (tcp_sock_ c) c)).
  { apply on_sock_ok. rewrite HasNewPkg_ok, Hn by done. by rewrite bool_decide_eq_false_2 by by intros []. }
  assert (Es : set_sock (tcp_sock_ c) c = c) by (by destruct c). rewrite Es in E.
  rewrite (bind_step _ _ c (CONNECTOR_ERR_NO_MORE_PKG, None) c); [done|].
  by rewrite (bind_step _ _ _ _ _ E).
Qed.
End Receiving.

(** ** Properties *)

(** C24: [facade_sessions]. An object of the library is what the application would get
    without the object in between: from [Create] on, any sequence of calls has the answers
    and the effect it has on the hidden object.  [Destroy] takes the outer object only: the
    session behind it stays in memory as it was, with its buffers and its open socket, and
    nothing points to it any more. *)
Theorem facade_sessions {KP : ConnectorProto} {U} {L : IProtocolEventListener U}
    (a : Api (U := U)) sock u l xs c :
  apart a -> each inner l (Client_new sock (told a) u) = Ok (xs, c) ->
  exists this i a1 a2 a3,
    ConnectorClientProtocol_Create sock u a = Ok (this, a1) /\ apart a1 /\
    imps a !! i = None /\ each (outer this) l a1 = Ok (xs, a2) /\
    ConnectorClientProtocol_Destroy (Some (Some this)) a2 = Ok (Some None, a3) /\
    protos a3 = protos a /\ imps a3 = <[i := c]> (imps a) /\
    (forall p, protos a3 !! p <> Some (Some i)) /\
    forall k, outer this k a3 = Fault UseAfterFree.
Proof.
  intros Ha Hl. unfold ConnectorClientProtocol_Create.
  destruct (ConnectorClientProtocol_new sock u a) as [[this a1]|] eqn:E1; [|done].
  destruct (new_apart sock u a this a1 Ha E1) as (Ha1 & i & Hi & Hp & ->).
  set (a1 := {| protos := _ |}) in *. set (c0 := Client_new sock (told a) u) in *.
  assert (Hh : holds this i c0 a1) by (repeat split; apply lookup_insert_eq).
  pose proof (outer_each this i l c0 a1 Hh) as E2. rewrite Hl in E2.
  set (a2 := match l with [] => a1 | _ => with_imp i c a1 end) in E2.
  assert (H2 : protos a2 = protos a1 /\ imps a2 = <[i := c]> (imps a)).
  { unfold a2. destruct l; cbn [each] in Hl; [by injection Hl as _ <-|]. split; [done|].
    cbn. by rewrite insert_insert_eq. }
  destruct H2 as [Hp2 Hi2]. eexists this, i, a1, a2, _. split; [done|]. split; [done|].
  split; [done|]. split; [done|]. split.
  { unfold ConnectorClientProtocol_Destroy, ConnectorClientProtocol_delete, mbind, M_bind.
    rewrite Hp2. cbn [protos a1]. rewrite lookup_insert_eq. done. }
  cbn [protos imps]. rewrite Hi2.
  assert (Hdel : delete this (<[this := Some i]> (protos a)) = protos a)
    by (rewrite delete_insert_eq; by apply delete_id).
  rewrite Hdel. split; [done|]. split; [done|]. split.
  - intros p Hpi. destruct (proj2 Ha p i Hpi). congruence.
  - assert (Hgone : forall X (m : M (Client U) X), on_imp this m
      {| protos := protos a; imps := <[i := c]> (imps a); told := told a2 |} = Fault UseAfterFree)
      by (intros X m; unfold on_imp; cbn; by rewrite Hp).
    intros []; cbn; unfold plain; try (apply bind_Fault; left); apply Hgone.
Qed.

(** The second session of a process is not told that its handshake has succeeded: the flag
    for that is one for all sessions. *)
Theorem second_session_untold {KP : ConnectorProto} {U} {L : IProtocolEventListener U}
    (a : Api (U := U)) this i c K g_timeout now n :
  protos a !! this = Some (Some i) -> imps a !! i = Some c -> told a = true ->
  protocol_event_listener_ c = true -> session_state_ c = SESSION_STATE_DONE ->
  Recv K (tcp_sock_ c) = Ok (NORMAL, n) -> HasNewPkg n = Ok (false, n) ->
  exists c', Protocol_Update this K g_timeout now a = Ok (0, with_imp i c' a) /\ user c' = user c.
Proof.
  intros Hp Hi Ht Hl Hst Hr Hn. set (c1 := set_handshake_done true c).
  exists (set_sock n (set_sock n c1)). split; [|done].
  unfold Protocol_Update, on_imp. rewrite Hp, Hi, Ht. fold c1.
  assert (E : Update K g_timeout now c1 = Ok (0, set_sock n (set_sock n c1))); [|by rewrite E].
  unfold Update. rewrite (bind_step (gets _) _ c1 true c1) by (unfold gets; cbn; by rewrite Hl).
  cbn [negb]. rewrite (bind_step _ _ c1 (Some (0, 0)) (set_sock n (set_sock n c1))); [done|].
  unfold update_step. rewrite (bind_step get _ c1 c1 c1) by done. cbn [session_state_ c1 set_handshake_done].
  rewrite Hst. cbn [handshake_done c1 set_handshake_done negb]. fold c1.
  rewrite (bind_step _ _ _ _ _ (on_sock_ok _ c1 _ _ Hr)). cbn [Z.eqb NORMAL].
  by rewrite (bind_step _ _ _ _ _ (on_sock_ok _ (set_sock n c1) _ _ Hn)).
Qed.

(** C23: [client_threads]. However the turns of the two threads of the test program are
    ordered and whatever the kernel answers, in every history whose turns return: hello is only sent in a session whose handshake
    is done, since before that a turn of [main] in the loop changes nothing, and a turn sends
    hello when and only when the other thread has said that the handshake is done; and when
    the other thread is gone, after a failed start, a failed handshake or
    a connector that closes, the next turn of [main] is its last: it stops the thread's
    object and the process is over. *)
Theorem client_threads {KP : ConnectorProto} g_timeout sock turns p :
  Main.main g_timeout sock turns Main.process_new = Ok (tt, p) ->
  exists t c, imp_ (Main.api p) = Some t /\ ccproto_ t = Some c /\
    (Main.state_ok_ (user c) = true -> session_state_ c = SESSION_STATE_DONE) /\
    (Main.over p = false -> Main.exit_ (user c) = false -> forall K now,
       Main.take_turn g_timeout (Main.MainTurn K now) p
       = if Main.state_ok_ (user c)
         then (_ ← Main.on_api (Thread_PushMessageToSendQ K now (Some Main.hello)); mret tt) p
         else Ok (tt, p)) /\
    (Main.thread p = Main.Gone -> Main.over p = false -> forall K now,
       exists p' t', Main.take_turn g_timeout (Main.MainTurn K now) p = Ok (tt, p') /\
         Main.over p' = true /\ imp_ (Main.api p') = Some t' /\ ClientApi.exit_ t' = true) /\
    (Main.over p = true -> forall x, Main.take_turn g_timeout x p = Ok (tt, p)).
Proof.
  intros H. destruct (main_running g_timeout sock turns p H) as (t & c & Ht & Hc & Hf & _ & Hg & _).
  exists t, c. split; [done|]. split; [done|]. split; [done|]. split; [|split].
  - intros Hov Hex K now. unfold Main.take_turn. rewrite (bind_step get _ p p p), Hov by done.
    unfold Main.main_turn. rewrite (bind_step _ _ _ _ _ (listener_ok p t c Ht Hc)), Hex.
    by destruct (Main.state_ok_ (user c)).
  - intros Hgone Hov K now. specialize (Hg Hgone).
    set (t' := {| ccproto_ := ccproto_ t; wt_listener_ := wt_listener_ t;
      protocol_evtlistener_ := protocol_evtlistener_ t; ClientApi.exit_ := true;
      worker_exits := worker_exits t |}).
    exists (Main.set_over (Main.set_api {| imp_ := Some t' |} p)), t'. split; [|done].
    unfold Main.take_turn. rewrite (bind_step get _ p p p), Hov by done. unfold Main.main_turn.
    rewrite (bind_step _ _ _ _ _ (listener_ok p t c Ht Hc)), Hg.
    rewrite (bind_step _ _ p tt (Main.set_api {| imp_ := Some t' |} p)); [done|].
    unfold Main.Fini. rewrite (bind_step _ _ p 0 (Main.set_api {| imp_ := Some t' |} p)); [done|].
    unfold Main.on_api, Thread_TerminateThread.
    by rewrite (on_thread_ok TerminateThread (Main.api p) t 0 t' Ht eq_refl).
  - intros Hov x. unfold Main.take_turn. by rewrite (bind_step get _ p p p), Hov.
Qed.

(** C22: [hellos_arrive]. Behind the handshake every turn of [main] sends one hello: when the
    kernel takes what is sent, any number of turns puts as many messages with consecutive
    numbers on the wire, and the callback of the connector, called with each of them, passes
    it on to a back end, in order, in a session that has seen the last number (writes succeed
    and the back ends are connected there). *)
Theorem hellos_arrive {KP : ConnectorProto} {KOk : ConnectorProtoOk KP} {KR : ConnectorProtoRound KP}
    {P : Protobuf} {E : NetEnv ConnectorSession} (w : App P ConnectorSession ConnectorApp) q cx
    g_timeout now (Ks : list Kernel) (p : Main.process) t c out room cap _DEBUG ids
    (s : ConnectorSession) :
  let ms := numbered (seqno_ c) (map (fun _ => Main.hello) Ks) in
  imp_ (Main.api p) = Some t -> ccproto_ t = Some c -> Main.over p = false ->
  Main.exit_ (user c) = false -> Main.state_ok_ (user c) = true ->
  at_rest c out room cap -> 0 < seqno_ c -> seqno_ c + Z.of_nat (length Ks) < 9223372036854775808 ->
  Forall (fits cap) ms -> Forall2 (fun K m => k_send K = IoOk (blen (wire m))) Ks ms ->
  writes_succeed E -> session_at w q cx ids s -> state_ s = STATE_OK -> last_seq_ s = seqno_ c - 1 ->
  (exists p' t' c', each (Main.take_turn g_timeout) (map (fun K => Main.MainTurn K now) Ks) p
       = Ok (map (fun _ => tt) Ks, p') /\ imp_ (Main.api p') = Some t' /\ ccproto_ t' = Some c' /\
     wire_out (tcp_sock_ c') = out ++ concat (map wire ms)) /\
  exists s', handle_all _DEBUG q (from_client ms) w
      = Ok (tt, put_session cx s' (deliver_all q (forwarded ids s ms) w)) /\
    state_ s' = STATE_OK /\ last_seq_ s' = seqno_ c + Z.of_nat (length Ks) - 1.
Proof.
  intros ms Ht Hc Ho He Hok Hr Hq Hl Hf Hk HW Hsa Hst Hs.
  set (l := map (fun K => (K, Main.hello)) Ks).
  assert (El : map snd l = map (fun _ => Main.hello) Ks) by (unfold l; by rewrite map_map).
  assert (Hlen : length l = length Ks) by (unfold l; apply length_map).
  assert (Htaken : taken l (seqno_ c)).
  { unfold taken. rewrite El. fold ms. unfold l. clear -Hk. revert Hk. generalize ms as ns.
    induction Ks as [|K Ks IH]; intros ns Hk; inversion Hk; subst; constructor; [by split|by apply IH]. }
  split.
  - destruct (push_all_ok now l c out room cap (seqno_ c) Hr eq_refl) as (c' & E1 & [Hi _] & _);
      try (rewrite ?El, ?Hlen; done || lia).
    destruct (hello_turns g_timeout now Ks p t c _ c' Ht Hc Ho He Hok E1) as (p' & t' & Hrun & Hp').
    exists p', t', c'. split; [done|]. split; [apply Hp'|]. split; [apply Hp'|].
    destruct Hi as [_ _ Hw _ _ _]. rewrite Hw, El. done.
  - exists (set_last_seq (seqno_ c - 1 + Z.of_nat (length Ks)) s).
    rewrite <- (length_map (fun _ => Main.hello)).
    split; [apply (handle_all_ok HW _DEBUG w q cx ids s _ _ _ Hsa), numbered_forwarded;
            rewrite ?length_map; try done|].
    + apply Forall_map, Forall_true. intros K. unfold is_bytes. by repeat constructor.
    + by apply (Forall_impl _ _ _ Hf); intros m [].
    + split; [done|]. cbn. rewrite length_map. lia.
Qed.

(** C39: [recv_stale]. [ConnectorApi::Recv] gives the data of the message at the front of the
    queue; before the first message has come it gives nothing; but later, whenever there is
    no message, it reports 1024000 bytes: the whole buffer with what earlier calls have left
    in it. *)
Theorem recv_stale {KP : ConnectorProto} {KOk : ConnectorProtoOk KP} {KR : ConnectorProtoRound KP}
    now bin f t (c : Client Cocos.ConnectorApiImp) :
  playing f t c -> sock_ok (util (tcp_sock_ c)) ->
  length (Cocos.data (user c)) = Z.to_nat 1024000 ->
  (Cocos.has_pkg_ (user c) = false -> Cocos.Recv now bin f = Ok ((0, bin), f)) /\
  (Cocos.has_pkg_ (user c) = true -> front_pkg (util (tcp_sock_ c)) = None ->
     exists f' t', Cocos.Recv now bin f = Ok ((1024000, Cocos.data (user c)), f') /\
       playing f' t' c) /\
  (forall q d n2 n3, let m := cs_msg q CS.DATA_TRANSPARENT (cs_body None None None (Some d)) in
     Cocos.has_pkg_ (user c) = true -> cs_wf m -> small m -> blen d <= 1024000 ->
     HasNewPkg (tcp_sock_ c) = Ok (true, tcp_sock_ c) ->
     PeekFromRecvQ now false (tcp_sock_ c) = Ok ((NORMAL, Some (wire m)), n2) ->
     PopFromRecvQ n2 = Ok (NORMAL, n3) ->
     exists f' t' c', Cocos.Recv now bin f = Ok ((blen d, d), f') /\ playing f' t' c' /\
       tcp_sock_ c' = n3 /\ Cocos.data (user c') = memcpy0 d (Cocos.data (user c))).
Proof.
  intros Hp Hok Hlen. split; [|split].
  - intros Hk. unfold Cocos.Recv. by rewrite (bind_step _ _ _ _ _ (api_imp_ok f t c Hp)), Hk.
  - intros Hk Hn.
    assert (Hpop := Pop_nothing now 1024000 c eq_refl Hok Hn).
    destruct (Recv_got now bin f t c (-1) None c Hp Hk Hpop eq_refl) as (f' & t' & E & Hp').
    cbv beta iota zeta in E, Hp'. rewrite take_ge in E by (rewrite Hlen; done).
    assert (Ec : set_user (Cocos.set_data (Cocos.data (user c)) (user c)) c = c)
      by (by destruct c as [? ? ? ? ? ? ? ? ? ? []]).
    exists f', t'. rewrite Ec in Hp'. by split.
  - intros q d n2 n3 m Hk Hwf Hsm Hd E2 E3 E4.
    pose proof (Pop_framed now c q d (tcp_sock_ c) n2 n3 1024000 Hwf Hsm E2 E3 E4 eq_refl) as Hpop.
    destruct (Z.ltb_spec 1024000 (blen d)); [lia|].
    assert (Es : set_sock (tcp_sock_ c) c = c) by (by destruct c). rewrite Es in Hpop.
    destruct (Recv_got now bin f t c 0 (Some d) _ Hp Hk Hpop eq_refl) as (f' & t' & E & Hp').
    eexists f', t', _. split; [|by split; [exact Hp'|]]. rewrite E.
    rewrite i32_id by (unfold blen in *; lia). unfold memcpy0, blen.
    by rewrite Nat2Z.id, take_app_length.
Qed.

(** ** Concrete programs *)
Import Wire.

(** A session that is made, refuses some calls, is closed and destroyed. *)
Definition no_sessions : Api (U := nat) := {| protos := ∅; imps := ∅; told := false |}.
Definition some_calls : list call :=
  [CallStart (Wire.wire_kernel 0 []) 0 false true true; CallUpdate (Wire.wire_kernel 0 []) 0 0;
   CallPushMessage (Wire.wire_kernel 0 []) 0 None; CallPeekMessage 0 true; CallTerminate].
Definition fresh_sock : Net := Wire.empty_net SockUtil.NET_INITED 16.

Lemma facade_sessions_witness :
  match each inner some_calls (Client_new fresh_sock false 0%nat) with
  | Ok (xs, c) =>
      map fst xs = [-1; -1; -1; -1; 0] /\
      exists this i a1 a2 a3,
        ConnectorClientProtocol_Create fresh_sock 0%nat no_sessions = Ok (this, a1) /\
        each (outer this) some_calls a1 = Ok (xs, a2) /\
        ConnectorClientProtocol_Destroy (Some (Some this)) a2 = Ok (Some None, a3) /\
        imps a3 !! i = Some c /\ forall p, protos a3 !! p <> Some (Some i)
  | Fault _ => False
  end.
Proof.
  destruct (each inner some_calls (Client_new fresh_sock false 0%nat)) as [[xs c]|f] eqn:E.
  2: { vm_compute in E. discriminate E. }
  split; [vm_compute in E; injection E as <- _; reflexivity|].
  destruct (facade_sessions no_sessions fresh_sock 0%nat some_calls xs c) as
    (this & i & a1 & a2 & a3 & H1 & _ & _ & H2 & H3 & _ & H4 & H5 & _); [by split|exact E|].
  exists this, i, a1, a2, a3. split; [exact H1|]. split; [exact H2|]. split; [exact H3|].
  split; [rewrite H4; apply lookup_insert_eq|exact H5].
Defined.

(** The test program where no connector listens: the other thread gives up at once, and
    [main] ends in its next turn. *)
Definition refused : Kernel :=
  {| k_socket := -1; k_connect := None; k_select := 1; k_so_error := 0; k_getfl := 0;
     k_setopt := 0; k_send := IoErr EWOULDBLOCK; k_recv := IoErr EWOULDBLOCK;
     k_gethostbyname := fun _ => None; k_inet_aton := fun _ => None |}.
Definition refused_turns : list Main.turn :=
  [Main.MainTurn refused 0; Main.WorkerTurn refused 0 false false; Main.WorkerTurn refused 0 false false].

Lemma client_threads_witness :
  match Main.main 0 fresh_sock refused_turns Main.process_new with
  | Ok (_, p) => Main.thread p = Main.Gone /\
      exists p', Main.take_turn 0 (Main.MainTurn refused 1) p = Ok (tt, p') /\ Main.over p' = true
  | Fault _ => False
  end.
Proof.
  destruct (Main.main 0 fresh_sock refused_turns Main.process_new) as [[[] p]|f] eqn:E.
  2: { vm_compute in E. discriminate E. }
  assert (Hg : Main.thread p = Main.Gone /\ Main.over p = false).
  { assert (H : match Main.main 0 fresh_sock refused_turns Main.process_new with
                | Ok (_, p) => Main.thread p = Main.Gone /\ Main.over p = false | Fault _ => False end)
      by (vm_compute; by split). by rewrite E in H. }
  split; [apply Hg|].
  destruct (client_threads 0 fresh_sock refused_turns p E) as (t & c & _ & _ & _ & _ & H & _).
  destruct (H (proj1 Hg) (proj2 Hg) refused 1) as (p' & t' & H1 & H2 & _). by exists p'.
Defined.

(** Two turns of [main] behind the handshake. *)
Definition saying : Client Main.ConnectorProtocolListener :=
  {| protocol_event_listener_ := true; settings := Wire.some_settings; encrypt_skey_ := [];
     passport_ := 0; tcp_sock_ := Wire.empty_net SockUtil.NET_CONNECTED 512;
     session_state_ := SESSION_STATE_DONE; seqno_ := 3; up_msg_ := no_msg; down_msg_ := no_msg;
     handshake_done := true; user := Main.set_ok Main.ConnectorProtocolListener_new |}.
Definition saying_thread : ThreadImp Main.ConnectorProtocolListener :=
  {| ccproto_ := Some saying; wt_listener_ := true; protocol_evtlistener_ := true;
     exit_ := false; worker_exits := 0 |}.
Definition saying_process : Main.process :=
  {| Main.api := {| imp_ := Some saying_thread |}; Main.thread := Main.Updating; Main.over := false |}.
Definition hellos : list CS.CSMsg := numbered 3 [Main.hello; Main.hello].
Definition hello_kernels : list Kernel :=
  map (fun m => Wire.wire_kernel (blen (wire m)) []) hellos.

(** The connector of [connector_world], with the session that has seen the number 2. *)
Definition in_session : App plain_protobuf ConnectorSession ConnectorApp :=
  put_session 8 (set_last_seq 2 (session_in STATE_OK)) (connector_world STATE_OK).
Lemma in_session_at : session_at in_session 3 8 (9, 1) (set_last_seq 2 (session_in STATE_OK)).
Proof. by apply put_session_at with (session_in STATE_OK); [apply connector_session|..]. Qed.

Lemma hellos_arrive_witness :
  exists p' t' c', each (Main.take_turn 0) (map (fun K => Main.MainTurn K 0) hello_kernels) saying_process
      = Ok ([tt; tt], p') /\ imp_ (Main.api p') = Some t' /\ ccproto_ t' = Some c' /\
    wire_out (tcp_sock_ c') = concat (map wire hellos) /\
    exists s', handle_all (E := session_env true) true 3 (from_client hellos) in_session
      = Ok (tt, put_session 8 s' (deliver_all 3 [ToBackEnd (msg_up 3 (9, 1) 77 Main.hello);
                                    ToBackEnd (msg_up 4 (9, 1) 77 Main.hello)] in_session)).
Proof.
  destruct (hellos_arrive (E := session_env true) in_session 3 8 0 0 hello_kernels saying_process
    saying_thread saying [] 512 512 true (9, 1) (set_last_seq 2 (session_in STATE_OK)))
    as [(p' & t' & c' & H1 & H2 & H3 & H4) (s' & H5 & _)];
    [exact eq_refl..| |exact eq_refl|vm_compute; reflexivity| | |exact session_env_writes
    |exact in_session_at|exact eq_refl|exact eq_refl|].
  - split; [by apply Wire.empty_net_idle|exact eq_refl].
  - change (Forall (fits 512) hellos). repeat constructor; by vm_compute.
  - change (Forall2 (fun K m => k_send K = IoOk (blen (wire m))) hello_kernels hellos).
    repeat constructor.
  - exists p', t', c'. split; [exact H1|]. split; [exact H2|]. split; [exact H3|]. split; [exact H4|].
    by exists s'.
Defined.

(** The game asks for a message when there is none. *)
Definition playing_client (pkg : bool) : Client Cocos.ConnectorApiImp :=
  {| protocol_event_listener_ := true; settings := Wire.some_settings; encrypt_skey_ := [];
     passport_ := 0; tcp_sock_ := Wire.empty_net SockUtil.NET_CONNECTED 64;
     session_state_ := SESSION_STATE_DONE; seqno_ := 3; up_msg_ := no_msg; down_msg_ := no_msg;
     handshake_done := true;
     user := {| Cocos.exit_ := false; Cocos.state_ok_ := true; Cocos.has_pkg_ := pkg;
                Cocos.data := replicate (Z.to_nat 1024000) 7 |} |}.
Definition playing_thread (pkg : bool) : ThreadImp Cocos.ConnectorApiImp :=
  {| ccproto_ := Some (playing_client pkg); wt_listener_ := true; protocol_evtlistener_ := true;
     exit_ := false; worker_exits := 0 |}.

Lemma recv_stale_witness :
  Cocos.Recv 0 [5] {| imp_ := Some (playing_thread false) |}
    = Ok ((0, [5]), {| imp_ := Some (playing_thread false) |}) /\
  exists f', Cocos.Recv 0 [5] {| imp_ := Some (playing_thread true) |}
    = Ok ((1024000, replicate (Z.to_nat 1024000) 7), f').
Proof.
  assert (Hok : sock_ok (util (Wire.empty_net SockUtil.NET_CONNECTED 64)))
    by apply (id_ok _ _ _ _ (Wire.empty_net_idle SockUtil.NET_CONNECTED 64 eq_refl)).
  split.
  - apply (recv_stale 0 [5] {| imp_ := Some (playing_thread false) |} (playing_thread false)
      (playing_client false)); [by split|exact Hok|apply length_replicate|reflexivity].
  - destruct (proj1 (proj2 (recv_stale 0 [5] {| imp_ := Some (playing_thread true) |}
      (playing_thread true) (playing_client true) (conj eq_refl eq_refl) Hok
      (length_replicate _ _))) eq_refl eq_refl) as (f' & t' & H & _).
    exists f'. exact H.
Defined.
