(* ===== verification/ServerApi.v ===== *)
(** * The library of the servers behind the connector: server/connector/server_api/*

    [ConnectorServerApi] turns the messages of the connector into calls of a listener and
    builds the messages for the connector.  [ServerDemoApp] is the server of the
    repository: it acknowledges every session and sends all data back.  The last part
    closes the circle with the connector's sessions. *)
From Stdlib Require Import ZArith Lia.
From stdpp Require Import base list gmap.
From S2P Require Import Prelude CLib TcpSocket SockUtil Timer EasyNet NetMgr RpcMsg EasyRpc.
From S2P Require Import Framework MsgLoop Connector ClientApi.
Local Open Scope Z_scope.

(** [IConnListener::SendToConn], src/server/connector/server_api/connector_server_api.h:21-21

    The world of the listener is [W]; a network pointer is an address or null. *)
Class IConnSender (W : Type) : Type := SendToConn : option Z -> bytes -> M W Z.

(** [IConnListener], src/server/connector/server_api/connector_server_api.h:9-22 *)
Class IConnListener (W : Type) : Type := {
  OnConnStart : option Z -> Z -> Z -> M W Z;
  OnConnStop : option Z -> Z -> Z -> Z -> M W Z;
  OnConnResume : option Z -> Z -> Z -> Z -> M W Z;
  OnData : option Z -> Z -> Z -> Z -> bytes -> M W Z
}.

(** [ConnectorServerApi], src/server/connector/server_api/connector_server_api.h:24-42

    The static messages of the methods are parsed or filled in as a whole on every call;
    they carry nothing from one call to the next. *)
Record ConnectorServerApi : Set := { conn_listener_ : bool }.

(** [ConnectorServerApi::ConnectorServerApi], src/server/connector/server_api/connector_server_api.cpp:7-8 *)
Definition ConnectorServerApi_new : ConnectorServerApi := {| conn_listener_ := false |}.

(** [ConnectorServerApi::Init], src/server/connector/server_api/connector_server_api.cpp:13-22 *)
Definition ServerApi_Init (conn_listener : bool) (this : ConnectorServerApi)
    : Z * ConnectorServerApi :=
  if negb conn_listener then (-1, this) else (0, {| conn_listener_ := true |}).

(** The body of an acknowledgement. *)
Definition ack_body : SS.SSBody :=
  {| SS.data := None; SS.syn := None; SS.ack := Some (Some 0); SS.rsm := None; SS.fin := None |}.

Section Api.
Context {KP : ConnectorProto} {W : Type}.

Section Sending.
Context {S : IConnSender W}.

(** A message for a session, serialized and sent; the ids are those the caller gives. *)
Definition send_ss (this : ConnectorServerApi) (net : option Z) (bodyid : Z) (ids : Z * Z)
    (sid : Z) (b : SS.SSBody) : M W Z :=
  _ ← assertb (bool_decide (net <> None));
  _ ← assertb (conn_listener_ this);
  SendToConn net (ss_SerializeToString (ss_msg 0 bodyid ids sid b)).

(** [ConnectorServerApi::StopConn], src/server/connector/server_api/connector_server_api.cpp:72-91 *)
Definition StopConn this (net : option Z) (fd nid sid : Z) : M W Z :=
  send_ss this net SS.FIN (fd, nid) sid (ss_body None None (Some (Some 0))).

(** [ConnectorServerApi::HandshakeToConn], src/server/connector/server_api/connector_server_api.cpp:93-111 *)
Definition HandshakeToConn this (net : option Z) (fd nid sid : Z) : M W Z :=
  send_ss this net SS.ACK (fd, nid) sid ack_body.

(** [ConnectorServerApi::SendDataToConn], src/server/connector/server_api/connector_server_api.cpp:113-129 *)
Definition SendDataToConn this (net : option Z) (fd nid sid : Z) (data : bytes) : M W Z :=
  send_ss this net SS.DATA (fd, nid) sid (ss_body (Some (Some data)) None None).
End Sending.

(** [ConnectorServerApi::Dispatch], src/server/connector/server_api/connector_server_api.cpp:24-67 *)
Definition Dispatch {L : IConnListener W} (this : ConnectorServerApi) (from_net : option Z)
    (data : option bytes) : M W Z :=
  match data with
  | None | Some [] => mret (-1)
  | Some data =>
      let '(parsed, m) := ss_ParseFromArray data in
      if negb parsed then mret (-1)
      else
        _ ← assertb (conn_listener_ this);
        let h := SS.head m in
        _ ← (if SS.bodyid h =? SS.SYN then OnConnStart from_net (SS.fd h) (SS.nid h)
             else if SS.bodyid h =? SS.FIN then
               OnConnStop from_net (SS.fd h) (SS.nid h) (SS.sid h)
             else if SS.bodyid h =? SS.RSM then
               OnConnResume from_net (SS.fd h) (SS.nid h) (SS.sid h)
             else if SS.bodyid h =? SS.DATA then
               OnData from_net (SS.fd h) (SS.nid h) (SS.sid h) (ss_data m)
             else mret 0);
        mret 0
  end.
End Api.

(** ** The server of the repository *)

(** [ServerDemoApp], src/server/connector/server_api/connector_server_demo.h:48-51 *)
Record ServerDemoApp : Set := { demo_frame_stub_ : bool; sconn_api_ : ConnectorServerApi }.

Section Demo.
Context {P : Protobuf} {KP : ConnectorProto} {C : Type} {E : NetEnv C}.
Abbreviation W := (App P C ServerDemoApp).

(** [ServerDemoApp::SendToConn], src/server/connector/server_api/connector_server_demo.cpp:135-139 *)
#[export] Instance Demo_SendToConn : IConnSender W := fun net data =>
  stub ← fw (fun f => demo_frame_stub_ (app f));
  _ ← assertb stub;
  SendToFrontEnd net (Some data).

(** [ServerDemoApp::OnConnStart], src/server/connector/server_api/connector_server_demo.cpp:109-115 *)
Definition Demo_OnConnStart (net : option Z) (fd nid : Z) : M W Z :=
  _ ← assertb (bool_decide (net <> None));
  api ← fw (fun f => sconn_api_ (app f));
  HandshakeToConn api net fd nid (u32 (-1)).

(** [ServerDemoApp::OnConnStop], src/server/connector/server_api/connector_server_demo.cpp:117-125 *)
Definition Demo_OnConnStop (_ : option Z) (_ _ _ : Z) : M W Z := mret 0.

(** [ServerDemoApp::OnData], src/server/connector/server_api/connector_server_demo.cpp:127-132 *)
Definition Demo_OnData (net : option Z) (fd nid sid : Z) (data : bytes) : M W Z :=
  _ ← assertb (bool_decide (net <> None));
  api ← fw (fun f => sconn_api_ (app f));
  SendDataToConn api net fd nid sid data.

#[export] Instance demo_listener : IConnListener W := {|
  OnConnStart := Demo_OnConnStart; OnConnStop := Demo_OnConnStop;
  OnConnResume := Demo_OnConnStop; OnData := Demo_OnData |}.

(** [ServerDemoApp::OnInit], src/server/connector/server_api/connector_server_demo.cpp:10-26 *)
Definition Demo_OnInit (app_framework : bool) : M W Z :=
  if negb app_framework then mret (-1)
  else
    _ ← upd_fw (fun f => set_app {| demo_frame_stub_ := true;
                                    sconn_api_ := snd (ServerApi_Init true (sconn_api_ (app f))) |} f);
    mret 0.

(** [ServerDemoApp::OnRecvFrontEnd], src/server/connector/server_api/connector_server_demo.cpp:60-78 *)
Definition Demo_OnRecvFrontEnd (net : option Z) (msg : option bytes) : M W Z :=
  stub ← fw (fun f => demo_frame_stub_ (app f));
  if negb stub then mret (-1)
  else
    api ← fw (fun f => sconn_api_ (app f));
    ret ← Dispatch api net msg;
    mret (if negb (ret =? 0) then -1 else 0).
End Demo.

(** ** What the server answers *)

Section Answers.
Context {KP : ConnectorProto}.

Definition answer (m : SS.SSMsg) : list SS.SSMsg :=
  let h := SS.head m in
  let ids := (SS.fd h, SS.nid h) in
  if SS.bodyid h =? SS.SYN then [ss_msg 0 SS.ACK ids 4294967295 ack_body]
  else if SS.bodyid h =? SS.DATA then
    [ss_msg 0 SS.DATA ids (SS.sid h) (ss_body (Some (Some (ss_data m))) None None)]
  else [].

(** From the bytes received to the bytes sent. *)
Definition reply (msg : bytes) : list bytes :=
  match msg with
  | [] => []
  | _ => let '(parsed, m) := ss_ParseFromArray msg in
         if parsed then map ss_SerializeToString (answer m) else []
  end.

Section Run.
Context {KOk : ConnectorProtoOk KP} {P : Protobuf} {C : Type} {E : NetEnv C}.
Context (HW : writes_succeed E).
Implicit Types (w : App P C ServerDemoApp).

(** The messages queued behind each other on a connection. *)
Definition queue_on (b : Z) (l : list bytes) w : App P C ServerDemoApp :=
  foldl (fun w msg => match bevs (heap w) !! b with
                      | Some x => set_heap (EasyNet.queued b x msg (heap w)) w
                      | None => w
                      end) w l.

(** A server that has been initialised, with an established connection. *)
Record demo_ready w (p b : Z) : Prop := {
  dr_stub : demo_frame_stub_ (app (rest w)) = true;
  dr_api : conn_listener_ (sconn_api_ (app (rest w))) = true;
  dr_net : exists n x, nets (heap w) !! p = Some n /\ hevent_ n = Some b /\
             bevs (heap w) !! b = Some x /\ EasyNet.state_ n = NET_ESTABLISHED
}.

Lemma demo_send w p b msg :
  demo_ready w p b -> msg <> [] ->
  SendToConn (Some p) msg w = Ok (0, queue_on b [msg] w).
Proof using HW.
  intros [H1 H2 (n & x & Hn & Hb & Hx & Hs)] Hne.
  unfold SendToConn, Demo_SendToConn, queue_on. cbn [foldl]. rewrite Hx.
  rewrite (bind_step (fw _) _ w true w) by (unfold fw, gets; by rewrite H1).
  rewrite (bind_step (assertb true) _ w tt w) by done. unfold SendToFrontEnd.
  destruct msg as [|m0 msg]; [done|].
  pose proof (EasyNet_Send_queued _ p n b x (m0 :: msg) HW Hn Hb Hx Hs Hne) as E1.
  by rewrite (bind_step _ _ _ _ _ (on_net_ok _ w _ _ E1)).
Qed.

Lemma demo_send_ss w p b id ids sid body :
  demo_ready w p b ->
  send_ss (sconn_api_ (app (rest w))) (Some p) id ids sid body w
  = Ok (0, queue_on b [ss_SerializeToString (ss_msg 0 id ids sid body)] w).
Proof using HW KOk.
  intros H. unfold send_ss. rewrite bool_decide_eq_true_2 by done.
  rewrite (bind_step (assertb true) _ w tt w) by done. rewrite (dr_api _ _ _ H).
  rewrite (bind_step (assertb true) _ w tt w) by done. apply (demo_send w p b _ H), ss_nonempty.
Qed.

(** A handler of the server: the pointer is there, and the message is sent. *)
Lemma demo_handler w p b id ids sid body :
  demo_ready w p b ->
  (_ ← assertb (bool_decide (Some p <> None));
   api ← fw (fun f => sconn_api_ (app f));
   send_ss api (Some p) id ids sid body) w
  = Ok (0, queue_on b [ss_SerializeToString (ss_msg 0 id ids sid body)] w).
Proof using HW KOk.
  intros H. rewrite bool_decide_eq_true_2 by done.
  rewrite (bind_step (assertb true) _ w tt w) by done.
  rewrite (bind_step (fw _) _ w (sconn_api_ (app (rest w))) w) by done.
  by apply demo_send_ss.
Qed.

Lemma Dispatch_ok w p b msg m :
  demo_ready w p b -> msg <> [] -> ss_ParseFromArray msg = (true, m) ->
  Dispatch (sconn_api_ (app (rest w))) (Some p) (Some msg) w
  = Ok (0, queue_on b (map ss_SerializeToString (answer m)) w).
Proof using HW KOk.
  intros H Hne Hm. unfold Dispatch. destruct msg as [|m0 msg]; [done|]. rewrite Hm. cbn [negb].
  rewrite (dr_api _ _ _ H), (bind_step (assertb true) _ w tt w) by done. cbn zeta. unfold answer.
  destruct (Z.eqb_spec (SS.bodyid (SS.head m)) SS.SYN) as [E1|N1].
  { erewrite bind_step; [|exact (demo_handler w p b _ _ _ _ H)]. done. }
  destruct (Z.eqb_spec (SS.bodyid (SS.head m)) SS.FIN) as [E2|N2].
  { rewrite (bind_step _ _ w 0 w) by done. by rewrite E2. }
  destruct (Z.eqb_spec (SS.bodyid (SS.head m)) SS.RSM) as [E3|N3].
  { rewrite (bind_step _ _ w 0 w) by done. by rewrite E3. }
  destruct (Z.eqb_spec (SS.bodyid (SS.head m)) SS.DATA) as [E4|N4]; [|done].
  erewrite bind_step; [|exact (demo_handler w p b _ _ _ _ H)]. done.
Qed.
End Run.
End Answers.

(** The server of the repository answers every message of the connector
    on the connection it came from: a start with an acknowledgement that gives no
    session id, data with the same data for the same session, a stop or a resumption
    with nothing; what cannot be parsed is refused and changes nothing. *)
Theorem demo_answers {KP : ConnectorProto} {KOk : ConnectorProtoOk KP} {P : Protobuf} {C}
    {E : NetEnv C} (w : App P C ServerDemoApp) p b msg :
  writes_succeed E -> demo_ready w p b ->
  Demo_OnRecvFrontEnd (Some p) (Some msg) w
  = if bool_decide (msg <> []) && fst (ss_ParseFromArray msg)
    then Ok (0, queue_on b (reply msg) w) else Ok (-1, w).
Proof.
  intros HW H. unfold Demo_OnRecvFrontEnd.
  rewrite (bind_step (fw _) _ w true w) by (unfold fw, gets; by rewrite (dr_stub _ _ _ H)).
  cbn [negb].
  rewrite (bind_step (fw _) _ w (sconn_api_ (app (rest w))) w) by done.
  destruct msg as [|m0 msg]; [done|]. rewrite bool_decide_eq_true_2 by done.
  destruct (ss_ParseFromArray (m0 :: msg)) as [ [] m] eqn:Em; cbn [fst andb].
  - assert (Hne : m0 :: msg <> []) by done.
    rewrite (bind_step _ _ _ _ _ (Dispatch_ok HW w p b _ m H Hne Em)).
    cbn [Z.eqb negb reply]. by rewrite Em.
  - rewrite (bind_step _ _ w (-1) w); [done|]. unfold Dispatch. by rewrite Em.
Qed.

(** ** A session with the server *)

Definition ids_wf (ids : Z * Z) : Prop := uint32 (fst ids) /\ uint64 (snd ids).

(** A message of [ss_msg] with the fields of its body. *)
Lemma ss_msg_wf q id ids sid data syn ack rsm fin :
  int64 q -> int32 id -> ids_wf ids -> uint32 sid ->
  bytes_opt (mjoin data) -> from_option int32 True (mjoin syn) ->
  from_option int32 True (mjoin ack) -> from_option int32 True (mjoin rsm) ->
  from_option int32 True (mjoin fin) ->
  ss_wf (ss_msg q id ids sid {| SS.data := data; SS.syn := syn; SS.ack := ack; SS.rsm := rsm;
                                SS.fin := fin |}).
Proof.
  intros H1 H2 [H3 H4] H5 H6 H7 H8 H9 H10. repeat (split; [first [done|by vm_compute]|]). done.
Qed.

Ltac wf_ss :=
  apply ss_msg_wf; unfold int64, int32, uint32, bytes_opt, i64, u64; cbn;
  try done; try lia; try (by vm_compute).

Section Echo.
Context {KP : ConnectorProto} {KOk : ConnectorProtoOk KP} {KR : ConnectorProtoRound KP}.
Implicit Types (s : ConnectorSession) (m : CS.CSMsg).

(** What is sent to the server and to the client in the output of a session. *)
Definition to_server (os : list out) : list bytes :=
  omap (fun o => match o with ToBackEnd m => Some (ss_SerializeToString m) | ToClient _ => None end) os.
Definition to_client (os : list out) : list CS.CSMsg :=
  omap (fun o => match o with ToClient m => Some m | ToBackEnd _ => None end) os.

(** What the server, which is the back end [q], makes of it. *)
Context (q : Z).
Definition from_server (os : list out) : list event :=
  map (FromBackEnd (Some q)) (to_server os ≫= reply).

(** The messages of a client, each followed by the answers of the server. *)
Fixpoint converse (_DEBUG : bool) (ids : Z * Z) s (ms : list CS.CSMsg)
    : option (ConnectorSession * list out) :=
  match ms with
  | [] => Some (s, [])
  | m :: ms =>
      '(s1, o1) ← spec_step _DEBUG ids s (FromClient (cs_SerializeToString m));
      '(s2, o2) ← spec_run _DEBUG ids s1 (from_server o1);
      match to_server o2 with
      | [] => '(s3, o3) ← converse _DEBUG ids s2 ms; Some (s3, o1 ++ o2 ++ o3)
      | _ => None
      end
  end.

(** A message of a session to the server, small enough both ways. *)
Definition up_data (q : Z) (ids : Z * Z) (d : bytes) : SS.SSMsg := msg_up q ids 4294967295 d.
Definition down_data (ids : Z * Z) (d : bytes) : SS.SSMsg :=
  ss_msg 0 SS.DATA ids 4294967295 (ss_body (Some (Some d)) None None).
Definition ack_msg (ids : Z * Z) : SS.SSMsg := ss_msg 0 SS.ACK ids 4294967295 ack_body.

Lemma reply_of (m a : SS.SSMsg) :
  ss_wf m -> ss_small m -> answer m = [a] ->
  reply (ss_SerializeToString m) = [ss_SerializeToString a].
Proof using KOk KR.
  intros Hw Hs Ha. unfold reply. pose proof (ss_nonempty m) as Hne.
  destruct (ss_SerializeToString m) eqn:Em; [done|]. rewrite <- Em, ss_round by done. by rewrite Ha.
Qed.

(** The server's data reach the client in the last state. *)
Lemma down_data_step _DEBUG ids s d :
  ids_wf ids -> is_bytes d -> d <> [] -> ss_small (down_data ids d) ->
  state_ s = STATE_OK -> sid_ s = 4294967295 ->
  spec_run _DEBUG ids s [FromBackEnd (Some q) (ss_SerializeToString (down_data ids d))]
  = Some (s, [ToClient (msg_down 0 d)]).
Proof using KR.
  intros Hi Hb Hd Hs Hst Hsid. cbn [spec_run spec_step].
  rewrite ss_round by (done || (unfold down_data; wf_ss)). cbn [snd].
  rewrite bool_decide_eq_true_2 by (by destruct ids).
  unfold down_step. change (SS.bodyid (SS.head (down_data ids d)) =? SS.DATA) with true.
  rewrite Hst, Hsid. change (SS.sid (SS.head (down_data ids d))) with 4294967295.
  rewrite bool_decide_eq_true_2, Z.eqb_refl by done. rewrite andb_false_r.
  change (ss_data (down_data ids d)) with d. by destruct d.
Qed.

(** One message there and back. *)
Lemma echo_one _DEBUG ids s k d :
  ids_wf ids -> is_bytes d -> d <> [] ->
  small (cs_msg (i64 k) CS.DATA_TRANSPARENT (cs_body None None None (Some d))) ->
  ss_small (up_data k ids d) -> ss_small (down_data ids d) ->
  0 < k < 9223372036854775808 -> last_seq_ s = k - 1 ->
  state_ s = STATE_OK -> sid_ s = 4294967295 ->
  let m := cs_msg (i64 k) CS.DATA_TRANSPARENT (cs_body None None None (Some d)) in
  spec_step _DEBUG ids s (FromClient (cs_SerializeToString m))
    = Some (set_last_seq k s, [ToBackEnd (up_data k ids d)]) /\
  spec_run _DEBUG ids (set_last_seq k s) (from_server [ToBackEnd (up_data k ids d)])
    = Some (set_last_seq k s, [ToClient (msg_down 0 d)]).
Proof using KOk KR.
  intros Hi Hb Hd Hs1 Hs2 Hs3 Hq Hseq Hst Hsid m. split.
  - cbn [spec_step]. unfold m. rewrite cs_round by (done || (apply numbered_wf; [done|lia])).
    cbn [snd]. destruct (in_order_next s k CS.DATA_TRANSPARENT (cs_body None None None (Some d)))
      as [O N]; [lia|by right|].
    unfold up_step. rewrite O, N. cbn [negb state_ set_last_seq]. rewrite Hst.
    change (CS.bodyid _ =? CS.DATA_TRANSPARENT) with true. cbn iota. unfold up_data. rewrite <- Hsid.
    cbn [CS.sequence CS.head cs_msg sid_ set_last_seq]. rewrite (i64_id k) by lia. done.
  - unfold from_server. cbn [to_server omap list_omap mbind list_bind app].
    rewrite (reply_of (up_data k ids d) (down_data ids d)).
    + cbn [app map]. by apply down_data_step.
    + unfold up_data, msg_up. rewrite u64_id, i64_id by lia. wf_ss.
    + done.
    + unfold answer, up_data, down_data, msg_up, ss_msg, ss_data. cbn. by destruct ids.
Qed.

(** The data of a client, one after the other. *)
Record echoable (ids : Z * Z) (k : Z) (d : bytes) : Prop := {
  ec_bytes : is_bytes d;
  ec_some : d <> [];
  ec_in : small (cs_msg (i64 k) CS.DATA_TRANSPARENT (cs_body None None None (Some d)));
  ec_up : ss_small (up_data k ids d);
  ec_down : ss_small (down_data ids d)
}.
Fixpoint all_echoable (ids : Z * Z) (k : Z) (ds : list bytes) : Prop :=
  match ds with [] => True | d :: ds => echoable ids k d /\ all_echoable ids (k + 1) ds end.

Lemma to_client_app os1 os2 : to_client (os1 ++ os2) = to_client os1 ++ to_client os2.
Proof using. apply omap_app. Qed.

Lemma echo_all _DEBUG ids s k ds :
  ids_wf ids -> 0 < k -> k + Z.of_nat (length ds) < 9223372036854775808 ->
  all_echoable ids k ds -> last_seq_ s = k - 1 -> state_ s = STATE_OK -> sid_ s = 4294967295 ->
  exists os, converse _DEBUG ids s (numbered k ds)
      = Some (set_last_seq (k - 1 + Z.of_nat (length ds)) s, os) /\
    to_client os = map (msg_down 0) ds.
Proof using KOk KR.
  intros Hi. revert s k. induction ds as [|d ds IH]; intros s k Hq Hl He Hseq Hst Hsid.
  - exists []. split; [|done]. cbn. rewrite Z.add_0_r, <- Hseq. by destruct s.
  - destruct He as [ [E1 E2 E3 E4 E5] He]. cbn [length] in *.
    destruct (echo_one _DEBUG ids s k d Hi E1 E2 E3 E4 E5) as [S1 S2]; try done; [lia|].
    destruct (IH (set_last_seq k s) (k + 1)) as (os & R & Ho); try done; try (cbn; lia).
    exists ([ToBackEnd (up_data k ids d)] ++ [ToClient (msg_down 0 d)] ++ os).
    split; [|rewrite !to_client_app; cbn; by rewrite Ho].
    cbn [numbered converse]. rewrite S1. cbn [mbind option_bind]. rewrite S2.
    cbn [mbind option_bind to_server omap list_omap]. rewrite R. cbn [mbind option_bind]. do 2 f_equal.
    unfold set_last_seq. cbn. f_equal. lia.
Qed.
End Echo.

(** ** The programs together *)

Section Programs.
Context {KP : ConnectorProto} {KOk : ConnectorProtoOk KP} {P : Protobuf} {E : NetEnv ConnectorSession}.
Context {P' : Protobuf} {C' : Type} {E' : NetEnv C'}.
Context (_DEBUG : bool).

(** At the connector the client has the connection [p] with the bufferevent [b], and the
    server [q] with [bq]; at the server the connector has [pv] with [bv]. *)
Context (p b q bq pv bv : Z).
Abbreviation Wc := (App P ConnectorSession ConnectorApp).
Abbreviation Ws := (App P' C' ServerDemoApp).
Implicit Types (w : Wc) (v : Ws).

(** The server is called with one message after the other. *)
Fixpoint serve_all (l : list bytes) : M Ws unit :=
  match l with
  | [] => mret tt
  | m :: l => _ ← Demo_OnRecvFrontEnd (Some pv) (Some m); serve_all l
  end.

(** The client sends [ms], one message after the other.  After each the connector is called
    with it; what the connector has queued for the server reaches the server, what the server
    has queued for the connector reaches the connector, and nothing more is queued for the
    server then. *)
Inductive conversation : list bytes -> Wc -> Ws -> Wc -> Ws -> Prop :=
  | conversation_over w v : conversation [] w v w v
  | conversation_goes_on m ms ups downs w v w1 v1 w2 w' v' :
      handle _DEBUG p (FromClient m) w = Ok (tt, w1) -> sent bq w1 = sent bq w ++ frames ups ->
      serve_all ups v = Ok (tt, v1) -> sent bv v1 = sent bv v ++ frames downs ->
      handle_all _DEBUG p (map (FromBackEnd (Some q)) downs) w1 = Ok (tt, w2) -> sent bq w2 = sent bq w1 ->
      conversation ms w2 v1 w' v' -> conversation (m :: ms) w v w' v'.

(** The connections of the connector: the server is the only back end. *)
Record linked_up w : Prop := {
  lu_client : exists n, nets (heap w) !! p = Some n /\ hevent_ n = Some b /\ is_Some (bevs (heap w) !! b);
  lu_server : exists n, nets (heap w) !! q = Some n /\ hevent_ n = Some bq /\ is_Some (bevs (heap w) !! bq);
  lu_used : backend_used_ (backend_set (app (rest w))) = 1;
  lu_pos : 0 <= backend_pos_ (backend_set (app (rest w)));
  lu_first : backends_ (backend_set (app (rest w))) !! 0%nat = Some (Some q)
}.

Lemma linked_up_retains w w' : retains w w' -> linked_up w -> linked_up w'.
Proof using.
  intros He [(n & Hn & Hb & [x Hx]) (m & Hm & Hc & [y Hy]) H1 H2 H3].
  split; rewrite ?(ev_used _ _ He), ?(ev_backs _ _ He); try done; [| |by apply (ev_pos _ _ He)].
  - apply (ev_nets _ _ He) in Hn as (n' & Hn & (E1 & _) & _).
    apply (ev_bevs _ _ He) in Hx as (x' & Hx & _). exists n'. split; [done|]. split; [congruence|by eexists].
  - apply (ev_nets _ _ He) in Hm as (n' & Hm & (E1 & _) & _).
    apply (ev_bevs _ _ He) in Hy as (x' & Hy & _). exists n'. split; [done|]. split; [congruence|by eexists].
Qed.

(** What a message adds to what is queued. *)
Lemma sent_queue d r c n msg w :
  nets (heap w) !! r = Some n -> hevent_ n = Some c -> is_Some (bevs (heap w) !! c) ->
  sent d (queue r msg w) = sent d w ++ (if decide (d = c) then frame msg else []).
Proof using.
  intros Hn Hc [x Hx]. unfold queue. rewrite Hn, Hc, Hx. unfold sent. cbn.
  destruct (decide (d = c)) as [->|Hd]; [by rewrite lookup_insert_eq, Hx|].
  by rewrite lookup_insert_ne, app_nil_r by done.
Qed.

Lemma sent_touch d r w : sent d (touch r w) = sent d w.
Proof using. unfold touch. by destruct (nets (heap w) !! r). Qed.

Lemma sent_deliver o w :
  b <> bq -> linked_up w ->
  sent b (deliver p o w) = sent b w ++ frames (map cs_SerializeToString (to_client [o])) /\
  sent bq (deliver p o w) = sent bq w ++ frames (to_server [o]).
Proof using.
  intros Hne [(n & Hn & Hb & Hx) (m & Hm & Hc & Hy) H1 H2 H3].
  destruct o as [msg|msg]; cbn [deliver to_client to_server omap list_omap map frames List.concat].
  - rewrite !(sent_queue _ p b n) by done. rewrite decide_True, decide_False by congruence.
    unfold frames. cbn. by rewrite !app_nil_r.
  - unfold to_back.
    assert (Ht : turn (backend_set (app (rest w))) = 0).
    { unfold turn. rewrite H1. destruct (Z.leb_spec 1 (backend_pos_ (backend_set (app (rest w))))); lia. }
    rewrite Ht. change (Z.to_nat 0) with 0%nat. rewrite H3, !sent_touch, !(sent_queue _ q bq m) by done.
    rewrite decide_False, decide_True by congruence. unfold frames. cbn. by rewrite !app_nil_r.
Qed.

Lemma sent_deliver_all os w :
  b <> bq -> linked_up w ->
  sent b (deliver_all p os w) = sent b w ++ frames (map cs_SerializeToString (to_client os)) /\
  sent bq (deliver_all p os w) = sent bq w ++ frames (to_server os) /\ linked_up (deliver_all p os w).
Proof using.
  intros Hne. revert w. induction os as [|o os IH]; intros w Hw.
  { cbn. by rewrite !app_nil_r. }
  destruct (sent_deliver o w Hne Hw) as [E1 E2].
  destruct (IH (deliver p o w)) as (E3 & E4 & H); [by apply (linked_up_retains w), Hw; apply deliver_retains|].
  unfold deliver_all in *. cbn [foldl]. rewrite E3, E4, E1, E2, <- !app_assoc, <- !frames_app, <- map_app.
  assert (Hc : to_client (o :: os) = to_client [o] ++ to_client os) by (by destruct o).
  assert (Hs : to_server (o :: os) = to_server [o] ++ to_server os) by (by destruct o).
  by rewrite Hc, Hs.
Qed.

(** A reaction of the session leaves its messages on the connections. *)
Lemma sent_reacted cx s os w :
  b <> bq -> linked_up w -> let w' := put_session cx s (deliver_all p os w) in
  sent b w' = sent b w ++ frames (map cs_SerializeToString (to_client os)) /\
  sent bq w' = sent bq w ++ frames (to_server os) /\ linked_up w'.
Proof using.
  intros Hne Hw w'. destruct (sent_deliver_all os w Hne Hw) as (E1 & E2 & H). split; [exact E1|].
  split; [exact E2|]. by destruct H.
Qed.

Lemma queue_on_ready l v :
  demo_ready v pv bv ->
  demo_ready (queue_on bv l v) pv bv /\ sent bv (queue_on bv l v) = sent bv v ++ frames l.
Proof using.
  revert v. induction l as [|m l IH]; intros v Hv; [by rewrite app_nil_r|].
  destruct Hv as [H1 H2 (n & x & Hn & Hb & Hx & Hs)]. unfold queue_on in *. cbn [foldl]. rewrite Hx.
  set (v1 := set_heap (EasyNet.queued bv x m (heap v)) v).
  destruct (IH v1) as [H3 H4].
  { split; [done|done|]. eexists n, _. split; [done|]. split; [done|]. split; [|done]. apply lookup_insert_eq. }
  split; [done|].
  assert (E1 : sent bv v1 = sent bv v ++ frame m)
    by (unfold sent, v1; cbn; by rewrite lookup_insert_eq, Hx).
  etransitivity; [exact H4|]. by rewrite E1, frames_cons, app_assoc.
Qed.

(** The server answers one message after the other. *)
Lemma serve_all_ok l v :
  writes_succeed E' -> demo_ready v pv bv -> serve_all l v = Ok (tt, queue_on bv (l ≫= reply) v).
Proof using KOk.
  intros HW. revert v. induction l as [|m l IH]; intros v Hv; [done|]. cbn [serve_all].
  pose proof (demo_answers v pv bv m HW Hv) as E1.
  destruct (queue_on_ready (reply m) v Hv) as [Hv1 _].
  assert (E2 : exists r, Demo_OnRecvFrontEnd (Some pv) (Some m) v = Ok (r, queue_on bv (reply m) v)).
  { rewrite E1. destruct m as [|m0 m]; [by eexists|]. rewrite bool_decide_eq_true_2 by done. cbn [reply].
    destruct (ss_ParseFromArray (m0 :: m)) as [[] y]; cbn [fst andb]; by eexists. }
  destruct E2 as [r E2]. rewrite (bind_step _ _ _ _ _ E2), (IH _ Hv1).
  do 2 f_equal. unfold queue_on. cbn [mbind list_bind]. by rewrite foldl_app.
Qed.

(** The abstract conversation is one of the programs. *)
Lemma converse_real ids cx ms : forall s s' os w v,
  b <> bq -> writes_succeed E -> writes_succeed E' -> converse q _DEBUG ids s ms = Some (s', os) ->
  session_at w p cx ids s -> linked_up w -> demo_ready v pv bv ->
  exists w' v', conversation (map cs_SerializeToString ms) w v w' v' /\ session_at w' p cx ids s' /\
    sent b w' = sent b w ++ frames (map cs_SerializeToString (to_client os)).
Proof using KOk.
  induction ms as [|m ms IH]; intros s s' os w v Hne HW HW' Hr Hsa Hw Hv; cbn [converse] in Hr.
  { injection Hr as <- <-. exists w, v. rewrite app_nil_r. split; [constructor|done]. }
  apply bind_Some in Hr as ([s1 o1] & H1 & Hr). apply bind_Some in Hr as ([s2 o2] & H2 & Hr).
  destruct (to_server o2) eqn:Eup; [|done]. apply bind_Some in Hr as ([s3 o3] & H3 & Hr).
  injection Hr as <- <-.
  destruct (handle_step HW _DEBUG w p cx ids s _ s1 o1 Hsa H1) as [E1 Hsa1].
  destruct (sent_reacted cx s1 o1 w Hne Hw) as (B1 & Q1 & Hw1). set (w1 := put_session cx s1 _) in *.
  destruct (handle_all_ok HW _DEBUG w1 p cx ids s1 _ s2 o2 Hsa1 H2) as [E2 Hsa2].
  destruct (sent_reacted cx s2 o2 w1 Hne Hw1) as (B2 & Q2 & Hw2). set (w2 := put_session cx s2 _) in *.
  destruct (queue_on_ready (to_server o1 ≫= reply) v Hv) as [Hv1 Ev].
  destruct (IH s2 s3 o3 w2 _ Hne HW HW' H3 Hsa2 Hw2 Hv1) as (w' & v' & Hc & Hsa' & B3).
  exists w', v'. split; [|split; [done|]].
  - cbn [map]. eapply conversation_goes_on; [exact E1|exact Q1|by apply serve_all_ok|exact Ev|exact E2| |exact Hc].
    by rewrite Q2, Eup, app_nil_r.
  - by rewrite B3, B2, B1, !to_client_app, !map_app, !frames_app, !app_assoc.
Qed.
End Programs.

(** C12: [echo_session]. The programs together: the callbacks of the connector, called with the
    messages of a client that authenticates and sends data, and those of the server of the
    repository, its only back end, called with what the connector queues for it, whose
    answers are what the connector is called with next.  On the connection of the client are
    queued the key, the passport, the start of the application and then exactly the client's
    own data, in order; the session ends in its last state, at the client's last number.
    Writes succeed on both sides; the messages are of the sizes that the codec brings back
    ([small]), and the messages of the client those that [ClientApi] builds, each sent after
    the answers to the one before. *)
Theorem echo_session {KP : ConnectorProto} {KOk : ConnectorProtoOk KP}
    {KR : ConnectorProtoRound KP} {P : Protobuf} {E : NetEnv ConnectorSession} {P' : Protobuf} {C'}
    {E' : NetEnv C'} {U} (c : Client U) (s : ConnectorSession) _DEBUG p b q bq pv bv ids cx
    (w : App P ConnectorSession ConnectorApp) (v : App P' C' ServerDemoApp) ds :
  writes_succeed E -> writes_succeed E' ->
  session_at w p cx ids s -> linked_up p b q bq w -> b <> bq -> demo_ready v pv bv ->
  settings_wf (settings c) -> 0 < seqno_ c ->
  seqno_ c + 2 + Z.of_nat (length ds) < 9223372036854775808 ->
  ids_wf ids -> uint32 (sid_ s) -> state_ s = STATE_INIT -> last_seq_ s = 0 ->
  let c2 := set_up_msg (seqno_ c + 1) no_msg c in
  small (syn_msg c) -> small (auth_msg c2) ->
  ss_small (msg_syn ids (sid_ s)) -> ss_small (ack_msg ids) ->
  all_echoable ids (seqno_ c + 2) ds ->
  exists w' v' s',
    conversation _DEBUG p q bq pv bv
      (map cs_SerializeToString (syn_msg c :: auth_msg c2 :: numbered (seqno_ c + 2) ds)) w v w' v' /\
    sent b w' = sent b w ++ frames (map cs_SerializeToString
      ([msg_synack; msg_passport; msg_start] ++ map (msg_down 0) ds)) /\
    session_at w' p cx ids s' /\
    state_ s' = STATE_OK /\ last_seq_ s' = seqno_ c + 1 + Z.of_nat (length ds) /\
    sid_ s' = 4294967295.
Proof.
  intros HW HW' Hsa Hlu Hne Hv Hwf Hq Hl Hi Hsid Hst Hseq c2 M1 M2 M3 M4 He.
  assert (Hack : ss_wf (ack_msg ids)) by (by unfold ack_msg, ack_body; wf_ss).
  set (s2 := set_sid 4294967295 (set_state_ STATE_OK (set_last_seq (seqno_ c + 1) s))).
  destruct (echo_all q _DEBUG ids s2 (seqno_ c + 2) ds) as (os & R & Ho); try done;
    [lia|cbn; lia|].
  assert (Hr : from_server q [ToClient msg_passport; ToBackEnd (msg_syn ids (sid_ s))]
               = [FromBackEnd (Some q) (ss_SerializeToString (ack_msg ids))]).
  { unfold from_server. cbn [to_server omap list_omap mbind list_bind].
    rewrite (reply_of (msg_syn ids (sid_ s)) (ack_msg ids)); [done| |done|].
    - unfold msg_syn. by wf_ss.
    - unfold answer, ack_msg, msg_syn, ss_msg. cbn. by destruct ids. }
  assert (Hcon : exists s' os', converse q _DEBUG ids s
      (syn_msg c :: auth_msg c2 :: numbered (seqno_ c + 2) ds) = Some (s', os') /\
    to_client os' = [msg_synack; msg_passport; msg_start] ++ map (msg_down 0) ds /\
    state_ s' = STATE_OK /\ last_seq_ s' = seqno_ c + 1 + Z.of_nat (length ds) /\ sid_ s' = 4294967295).
  { cbn [converse]. rewrite syn_step by (done || lia). cbn [mbind option_bind].
    change (from_server q [ToClient msg_synack]) with (@nil event).
    cbn [spec_run mbind option_bind to_server omap list_omap].
    rewrite auth_step by (done || (cbn; lia)). cbn [mbind option_bind].
    change (sid_ (set_state_ STATE_AUTH (set_last_seq (seqno_ c) s))) with (sid_ s). rewrite Hr.
    cbn [spec_run]. rewrite ack_step; rewrite ?ss_round by done; try done; [|by destruct ids].
    cbn [mbind option_bind snd to_server omap list_omap].
    match goal with |- context [converse _ _ _ ?x (numbered _ _)] => change x with s2 end.
    cbn [app to_server omap list_omap]. rewrite R. cbn [mbind option_bind]. eexists _, _. split; [done|].
    rewrite !to_client_app, Ho. split; [done|]. split; [done|]. split; [cbn; lia|done]. }
  destruct Hcon as (s' & os' & Hcon & Hto & H1 & H2 & H3).
  destruct (converse_real _DEBUG p b q bq pv bv ids cx _ s s' os' w v Hne HW HW' Hcon Hsa Hlu Hv)
    as (w' & v' & Hc & Hsa' & Eb).
  exists w', v', s'. rewrite Eb, Hto. auto 10.
Qed.

(** ** A concrete conversation *)

Import Wire.

(** A server with the connector's connection at 5. *)
Definition server_world : App plain_protobuf Z ServerDemoApp :=
  let f := demo_framework no_nets no_nets TimerMgr_new in
  {| heap := {| nets := {[ 5 := set_link 6 0 NET_ESTABLISHED (fresh_net 2) ]};
                bevs := {[ 6 := {| bev_fd := 10; input := []; output := [] |} ]};
                uctxs := ∅; cbs := {[ 6 := frontend_cb_funcs ]}; nid_seed := 3;
                tick := 6; ksys := [] |};
     gen := GenSt_new; rpcs := ∅; rpc_ctxs := ∅; closures := ∅; asyncid_seed := 0; buf := [];
     rest := {| app_ := true; event_base_ := true; handles := handles f; schedule_update_ := false;
                setting_ := setting_ f; running_ := true; reloading_ := false; now_ := 50;
                frontend_handler_mgr_ := no_nets; backend_handler_mgr_ := no_nets;
                timer_mgr_ := TimerMgr_new; rpc_scheduler_ := true; rpc_svc_mgr_ := None;
                svc_mode_ := SVC_MODE_NORMAL; loopbreak := false;
                app := {| demo_frame_stub_ := true; sconn_api_ := {| conn_listener_ := true |} |} |} |}.
Definition server_env : NetEnv Z := {|
  env_new _ h := Some (fresh (dom h)); env_bev _ h := Some (fresh (dom h));
  env_calloc _ h := Some (fresh (dom h)); env_connect _ h _ := Some (next_fd h);
  env_write _ _ _ := true; env_kernel := quiet_kernel; zero := 0
|}.

Lemma server_ready : demo_ready server_world 5 6.
Proof. split; [done|done|]. by eexists _, _. Qed.

Lemma connector_linked st : linked_up 3 4 5 6 (connector_world st).
Proof. split; try done; eexists; (split; [reflexivity|]); (split; [reflexivity|]); by eexists. Qed.

Lemma echo_session_witness :
  exists w' v' s',
    conversation (E := session_env true) (E' := server_env) false 3 5 6 5 6
      (map cs_SerializeToString (syn_msg w_init :: auth_msg (set_up_msg 2 no_msg w_init) :: numbered 3 w_data))
      (connector_world STATE_INIT) server_world w' v' /\
    sent 4 w' = frames (map cs_SerializeToString
      [msg_synack; msg_passport; msg_start; msg_down 0 [1; 2]; msg_down 0 [3] ]) /\
    session_at w' 3 8 (9, 1) s' /\ state_ s' = STATE_OK /\ last_seq_ s' = 4 /\ sid_ s' = 4294967295.
Proof.
  apply (echo_session (E := session_env true) (E' := server_env) w_init (session_in STATE_INIT) false
    3 4 5 6 5 6 (9, 1) 8 (connector_world STATE_INIT) server_world w_data); try done.
  - apply connector_session.
  - apply connector_linked.
  - apply server_ready.
  - split; [|split]; by repeat constructor.
  - split; [split|split; [split|done] ]; try done; by repeat constructor.
Defined.

Lemma demo_answers_witness :
  let syn := ss_SerializeToString (msg_syn (9, 1) 77) in
  @Demo_OnRecvFrontEnd _ _ _ server_env (Some 5) (Some syn) server_world
  = Ok (0, queue_on 6 [ss_SerializeToString (ack_msg (9, 1))] server_world).
Proof.
  intros syn.
  rewrite (demo_answers (E := server_env) server_world 5 6 syn); [|done|].
  - rewrite bool_decide_eq_true_2 by done. by vm_compute.
  - apply server_ready.
Defined.
