(* ===== verification/Json.v ===== *)
(** * JSON texts: utils/rapidjson_util.*

    [JsonWriter] appends to a string of its user; [JsonReader] walks through a document
    of the rapidjson library.  The parser of the library is a parameter; its values are
    the trees [json].  The writer takes C strings: what a program gives it is read up to the
    first zero.  The keys of the reader are names without one. *)
From Stdlib Require Import ZArith Lia.
From stdpp Require Import base list strings.
From S2P Require Import Prelude CLib.
Local Open Scope Z_scope.

(** A value of a document; [JNumber] stands for the numbers that are not an [int]. *)
#[local] Unset Elimination Schemes.
Inductive json : Set :=
  | JNull
  | JBool (b : bool)
  | JInt (n : Z)
  | JNumber (text : bytes)
  | JString (s : bytes)
  | JArray (l : list json)
  | JObject (ms : list (bytes * json)).
#[local] Set Elimination Schemes.

(** Induction with the hypothesis for every element and every member. *)
Section Induction.
Context (P : json -> Prop) (Hn : P JNull) (Hb : forall b, P (JBool b)) (Hi : forall n, P (JInt n)).
Context (Hr : forall t, P (JNumber t)) (Hs : forall s, P (JString s)).
Context (Ha : forall l, Forall P l -> P (JArray l)).
Context (Ho : forall ms, Forall (fun m => P (snd m)) ms -> P (JObject ms)).

Fixpoint json_nested (v : json) : P v :=
  match v with
  | JNull => Hn
  | JBool b => Hb b
  | JInt n => Hi n
  | JNumber t => Hr t
  | JString s => Hs s
  | JArray l =>
      Ha l ((fix all l : Forall P l :=
               match l with
               | [] => Forall_nil_2 _
               | x :: l => Forall_cons_2 _ _ _ (json_nested x) (all l)
               end) l)
  | JObject ms =>
      Ho ms ((fix all ms : Forall (fun m => P (snd m)) ms :=
                match ms with
                | [] => Forall_nil_2 _
                | m :: ms => Forall_cons_2 _ _ _ (json_nested (snd m)) (all ms)
                end) ms)
  end.
End Induction.

(** ** The writer *)

Definition JSON_CLASS_BRACE_begin : Z := 123.
Definition JSON_CLASS_BRACE_end : Z := 125.
Definition JSON_ARRAY_BRACKET_begin : Z := 91.
Definition JSON_ARRAY_BRACKET_end : Z := 93.
Definition JSON_TAG_NAME_QUOTE : Z := 34.
Definition JSON_SEPARATOR_COLON : Z := 58.
Definition JSON_SEPARATOR_COMMA : Z := 44.
Definition JSON_ESCAPE : Z := 92.

(** [JsonWriter], src/utils/rapidjson_util.h:54-78

    The string behind the pointer, or a null pointer. *)
Record JsonWriter : Set := { ptext_ : option bytes; first_element_ : bool }.

(** [JsonWriter::JsonWriter], src/utils/rapidjson_util.cpp:154-155 *)
Definition JsonWriter_new (ptext : option bytes) : JsonWriter :=
  {| ptext_ := ptext; first_element_ := true |}.

(** [JsonWriterSingleton::GetInstance], src/utils/rapidjson_util.h:96-100

    The constructor without arguments sets nothing; an object of static storage is zero. *)
Definition JsonWriterSingleton_instance : JsonWriter :=
  {| ptext_ := None; first_element_ := false |}.

Abbreviation Mj := (M JsonWriter).

Definition append (s : bytes) : Mj unit :=
  modify (fun w => {| ptext_ := option_map (fun t => t ++ s) (ptext_ w);
                      first_element_ := first_element_ w |}).
Definition push_back (c : Z) : Mj unit := append [c].
Definition set_first (b : bool) : Mj unit :=
  modify (fun w => {| ptext_ := ptext_ w; first_element_ := b |}).

(** The characters in front of the first null character: what a [const char*] stands for. *)
Fixpoint c_str (s : bytes) : bytes :=
  match s with [] => [] | c :: s => if c =? 0 then [] else c :: c_str s end.

(** [JsonWriter::EscapeString], src/utils/rapidjson_util.cpp:169-177

    The loop. *)
Fixpoint escape_loop (name : bytes) : bytes :=
  match name with
  | [] => []
  | c :: name =>
      (if JSON_TAG_NAME_QUOTE =? c then [JSON_ESCAPE] else []) ++ c :: escape_loop name
  end.

(** [JsonWriter::EscapeString], src/utils/rapidjson_util.cpp:163-181

    [strlen] bounds the loop. *)
Definition EscapeString (name : bytes) : bytes := escape_loop (c_str name).

(** The comma between two elements. *)
Definition separator : Mj unit :=
  first ← gets first_element_;
  if negb first then push_back JSON_SEPARATOR_COMMA else mret tt.

(** A name and the colon, or nothing for a null pointer. *)
Definition tag (escape : bytes -> bytes) (name : option bytes) : Mj unit :=
  match name with
  | Some n =>
      _ ← push_back JSON_TAG_NAME_QUOTE;
      _ ← append (escape n);
      _ ← push_back JSON_TAG_NAME_QUOTE;
      push_back JSON_SEPARATOR_COLON
  | None => mret tt
  end.

(** [JsonWriter::StructBegin], src/utils/rapidjson_util.cpp:183-212 *)
Definition StructBegin (name : option bytes) : Mj Z :=
  t ← gets ptext_;
  match t with
  | None => mret (-1)
  | Some _ =>
      _ ← separator;
      _ ← tag c_str name;
      _ ← push_back JSON_CLASS_BRACE_begin;
      _ ← set_first true;
      mret 0
  end.

(** [JsonWriter::StructEnd], src/utils/rapidjson_util.cpp:214-225 *)
Definition StructEnd : Mj Z :=
  t ← gets ptext_;
  match t with None => mret (-1) | Some _ => _ ← push_back JSON_CLASS_BRACE_end; mret 0 end.

(** [JsonWriter::ArrayBegin], src/utils/rapidjson_util.cpp:227-256 *)
Definition ArrayBegin (name : option bytes) : Mj Z :=
  t ← gets ptext_;
  match t with
  | None => mret (-1)
  | Some _ =>
      _ ← separator;
      _ ← tag c_str name;
      _ ← push_back JSON_ARRAY_BRACKET_begin;
      _ ← set_first true;
      mret 0
  end.

(** [JsonWriter::ArrayEnd], src/utils/rapidjson_util.cpp:258-269 *)
Definition ArrayEnd : Mj Z :=
  t ← gets ptext_;
  match t with None => mret (-1) | Some _ => _ ← push_back JSON_ARRAY_BRACKET_end; mret 0 end.

(** [JsonWriter::PushBack], src/utils/rapidjson_util.cpp:271-301 *)
Definition PushBack (key value : option bytes) : Mj Z :=
  t ← gets ptext_;
  match t, value with
  | Some _, Some v =>
      _ ← separator;
      _ ← tag EscapeString key;
      _ ← push_back JSON_TAG_NAME_QUOTE;
      _ ← append (EscapeString v);
      _ ← push_back JSON_TAG_NAME_QUOTE;
      _ ← set_first false;
      mret 0
  | _, _ => mret (-1)
  end.

(** [snprintf] with the format for an [int] and a size. *)
Definition snprintf_d (size : nat) (value : Z) : bytes := take (size - 1) (dec value).

(** [JsonWriter::PushBack], src/utils/rapidjson_util.cpp:303-331 *)
Definition PushBackInt (key : option bytes) (value : Z) : Mj Z :=
  t ← gets ptext_;
  match t with
  | None => mret (-1)
  | Some _ =>
      _ ← separator;
      _ ← tag EscapeString key;
      _ ← append (snprintf_d (16 - 1) value);
      _ ← set_first false;
      mret 0
  end.

(** A value written by a program: members and elements one after the other.  Only the
    values the writer has calls for. *)
Fixpoint write_json (name : option bytes) (v : json) : Mj unit :=
  match v with
  | JInt n => _ ← PushBackInt name n; mret tt
  | JString s => _ ← PushBack name (Some s); mret tt
  | JArray l =>
      _ ← ArrayBegin name;
      _ ← (fix elements l : Mj unit :=
             match l with [] => mret tt | x :: l => _ ← write_json None x; elements l end) l;
      _ ← ArrayEnd; mret tt
  | JObject ms =>
      _ ← StructBegin name;
      _ ← (fix members (ms : list (bytes * json)) : Mj unit :=
             match ms with
             | [] => mret tt
             | (k, x) :: ms => _ ← write_json (Some k) x; members ms
             end) ms;
      _ ← StructEnd; mret tt
  | JNull | JBool _ | JNumber _ => mret tt
  end.

(** ** The reader *)

(** Where a pointer into the document points to: the document itself or a value inside.
    The memory of the values is never given back before the reader is destroyed. *)
Inductive place : Set := Docu | Inside (v : json).

(** [JsonReader], src/utils/rapidjson_util.h:24-52 *)
Record JsonReader : Set := {
  docu_ : json;
  curr_value_ : option place;
  prev_value_ : option place
}.

(** [JsonReader::JsonReader], src/utils/rapidjson_util.cpp:18-19 *)
Definition JsonReader_new : JsonReader :=
  {| docu_ := JNull; curr_value_ := None; prev_value_ := None |}.

(** The parser of the library, without the value after an error. *)
Class JsonParser : Type := json_parse : bytes -> option json.

Abbreviation Mr := (M JsonReader).

(** [*curr_value_] *)
Definition curr : Mr json :=
  r ← get;
  p ← nonnull (curr_value_ r);
  mret (match p with Docu => docu_ r | Inside v => v end).

(** [FindMember] of the library: the value has to be an object, the first member counts. *)
Fixpoint find_member (key : bytes) (ms : list (bytes * json)) : option json :=
  match ms with
  | [] => None
  | (k, v) :: ms => if bool_decide (k = key) then Some v else find_member key ms
  end.
Definition member (key : bytes) (v : json) : outcome (option json) :=
  match v with JObject ms => Ok (find_member key ms) | _ => Fault AssertFailed end.

(** [JsonReader::Parse], src/utils/rapidjson_util.cpp:24-36 *)
Definition Parse {JP : JsonParser} (text : option bytes) : Mr Z :=
  t ← nonnull text;
  match json_parse t with
  | None =>
      _ ← modify (fun r => {| docu_ := JNull; curr_value_ := curr_value_ r;
                              prev_value_ := prev_value_ r |});
      mret (-1)
  | Some v => _ ← put {| docu_ := v; curr_value_ := Some Docu; prev_value_ := None |}; mret 0
  end.

(** [JsonReader::GetValueString], src/utils/rapidjson_util.cpp:38-54

    The results of the getters are what is written behind the pointer, if anything. *)
Definition GetValueString (key : option bytes) : Mr (Z * option bytes) :=
  match key with
  | None => mret (-1, None)
  | Some key =>
      v ← curr;
      m ← lift (member key v);
      match m with
      | Some (JString s) => mret (0, Some (c_str s))
      | _ => mret (-1, None)
      end
  end.

(** [JsonReader::GetValueInt], src/utils/rapidjson_util.cpp:56-72 *)
Definition GetValueInt (key : option bytes) (value_null : bool) : Mr (Z * option Z) :=
  match key with
  | None => mret (-1, None)
  | Some key =>
      if value_null then mret (-1, None)
      else
        v ← curr;
        m ← lift (member key v);
        match m with
        | Some (JInt n) => mret (0, Some n)
        | _ => mret (-1, None)
        end
  end.

(** [JsonReader::GetValueIntAt], src/utils/rapidjson_util.cpp:74-88

    The library checks the position and the type with assertions. *)
Definition GetValueIntAt (key : option bytes) (value_null : bool) (pos : Z) : Mr (Z * option Z) :=
  match key with
  | None => mret (-1, None)
  | Some key =>
      if value_null || (0 =? pos) then mret (-1, None)
      else
        v ← curr;
        m ← lift (member key v);
        match m with
        | Some (JArray l) =>
            match l !! Z.to_nat (u32 pos) with
            | Some (JInt n) => mret (0, Some n)
            | _ => fail AssertFailed
            end
        | _ => mret (-1, None)
        end
  end.

(** [JsonReader::GetCount], src/utils/rapidjson_util.cpp:90-110 *)
Definition GetCount (key : option bytes) (count_null : bool) : Mr (Z * option Z) :=
  match key with
  | None => mret (-1, None)
  | Some key =>
      if count_null then mret (-1, None)
      else
        v ← curr;
        m ← lift (member key v);
        match m with
        | Some (JArray l) => mret (0, Some (i32 (Z.of_nat (length l))))
        | Some _ => mret (0, Some 1)
        | None => mret (0, None)
        end
  end.

Definition enter (v : json) : Mr unit :=
  modify (fun r => {| docu_ := docu_ r; curr_value_ := Some (Inside v);
                      prev_value_ := curr_value_ r |}).

(** [JsonReader::Enter], src/utils/rapidjson_util.cpp:112-127 *)
Definition Enter (key : option bytes) : Mr Z :=
  match key with
  | None => mret (-1)
  | Some key =>
      v ← curr;
      m ← lift (member key v);
      match m with
      | Some (JObject ms) => _ ← enter (JObject ms); mret 0
      | _ => mret (-1)
      end
  end.

(** [JsonReader::EnterAt], src/utils/rapidjson_util.cpp:129-145 *)
Definition EnterAt (key : option bytes) (pos : Z) : Mr Z :=
  match key with
  | None => mret (-1)
  | Some key =>
      v ← curr;
      m ← lift (member key v);
      match m with
      | Some (JArray l) =>
          if pos <? Z.of_nat (length l) then
            match l !! Z.to_nat (u32 pos) with
            | Some (JObject ms) => _ ← enter (JObject ms); mret 0
            | _ => mret (-1)
            end
          else mret (-1)
      | _ => mret (-1)
      end
  end.

(** [JsonReader::EnterRoot], src/utils/rapidjson_util.cpp:147-151 *)
Definition EnterRoot : Mr unit :=
  modify (fun r => {| docu_ := docu_ r; curr_value_ := Some Docu;
                      prev_value_ := curr_value_ r |}).

(** ** The text of the writer *)

Definition W (t : bytes) (first : bool) : JsonWriter := {| ptext_ := Some t; first_element_ := first |}.
Definition sep (first : bool) : bytes := if first then [] else [JSON_SEPARATOR_COMMA].
Definition wtag (escape : bytes -> bytes) (name : option bytes) : bytes :=
  match name with
  | Some n => JSON_TAG_NAME_QUOTE :: escape n ++ [JSON_TAG_NAME_QUOTE; JSON_SEPARATOR_COLON]
  | None => []
  end.
Definition quoted (s : bytes) : bytes := JSON_TAG_NAME_QUOTE :: s ++ [JSON_TAG_NAME_QUOTE].

Ltac writer_run :=
  intros; repeat match goal with
  | first : bool |- _ => destruct first
  | name : option bytes |- _ => destruct name
  end;
  unfold StructBegin, ArrayBegin, PushBack, PushBackInt, StructEnd, ArrayEnd, separator, tag,
    push_back, append, set_first, gets, modify, mbind, M_bind, mret, M_ret, W, sep, wtag, quoted;
  cbn [negb ptext_ first_element_ option_map];
  rewrite <- ?app_assoc; cbn; rewrite <- ?app_assoc; try done.

Lemma StructBegin_ok name t first :
  StructBegin name (W t first) = Ok (0, W (t ++ sep first ++ wtag c_str name ++ [JSON_CLASS_BRACE_begin]) true).
Proof. writer_run. Qed.
Lemma ArrayBegin_ok name t first :
  ArrayBegin name (W t first) = Ok (0, W (t ++ sep first ++ wtag c_str name ++ [JSON_ARRAY_BRACKET_begin]) true).
Proof. writer_run. Qed.
Lemma PushBack_ok key v t first :
  PushBack key (Some v) (W t first)
  = Ok (0, W (t ++ sep first ++ wtag EscapeString key ++ quoted (EscapeString v)) false).
Proof. writer_run. Qed.
Lemma PushBackInt_ok key n t first :
  PushBackInt key n (W t first)
  = Ok (0, W (t ++ sep first ++ wtag EscapeString key ++ snprintf_d (16 - 1) n) false).
Proof. writer_run. Qed.

Lemma StructEnd_ok t first : StructEnd (W t first) = Ok (0, W (t ++ [JSON_CLASS_BRACE_end]) first).
Proof. done. Qed.
Lemma ArrayEnd_ok t first : ArrayEnd (W t first) = Ok (0, W (t ++ [JSON_ARRAY_BRACKET_end]) first).
Proof. done. Qed.

Definition container (v : json) : bool :=
  match v with JArray _ | JObject _ => true | _ => false end.

(** The values the writer has calls for; an [int] is one of the machine. *)
Fixpoint writable (v : json) : bool :=
  match v with
  | JInt n => (-2147483648 <=? n) && (n <? 2147483648)
  | JString _ => true
  | JArray l => forallb writable l
  | JObject ms => forallb (fun m => writable (snd m)) ms
  | JNull | JBool _ | JNumber _ => false
  end.

(** The flag after a value: a container leaves it as its last element does. *)
Fixpoint flag_after (v : json) : bool :=
  match v with
  | JArray l =>
      (fix go f l := match l with [] => f | x :: l => go (flag_after x) l end) true l
  | JObject ms =>
      (fix go f (ms : list (bytes * json)) :=
         match ms with [] => f | (_, x) :: ms => go (flag_after x) ms end) true ms
  | _ => false
  end.

(** The text the writer appends for a value behind its name. *)
Definition key_tag (v : json) : option bytes -> bytes :=
  wtag (if container v then c_str else EscapeString).
Fixpoint written (v : json) : bytes :=
  match v with
  | JInt n => snprintf_d (16 - 1) n
  | JString s => quoted (EscapeString s)
  | JArray l =>
      JSON_ARRAY_BRACKET_begin ::
      (fix go f l := match l with
                     | [] => []
                     | x :: l => sep f ++ written x ++ go (flag_after x) l
                     end) true l ++ [JSON_ARRAY_BRACKET_end]
  | JObject ms =>
      JSON_CLASS_BRACE_begin ::
      (fix go f (ms : list (bytes * json)) :=
         match ms with
         | [] => []
         | (k, x) :: ms => sep f ++ key_tag x (Some k) ++ written x ++ go (flag_after x) ms
         end) true ms ++ [JSON_CLASS_BRACE_end]
  | JNull | JBool _ | JNumber _ => []
  end.

Lemma write_json_ok v :
  writable v = true -> forall name t f,
  write_json name v (W t f) = Ok (tt, W (t ++ sep f ++ key_tag v name ++ written v) (flag_after v)).
Proof.
  induction v as [|b|n|x|s|l IH|ms IH] using json_nested; intros Hw name t f; try done.
  - cbn [write_json]. by rewrite (bind_step _ _ _ _ _ (PushBackInt_ok name n t f)).
  - cbn [write_json]. by rewrite (bind_step _ _ _ _ _ (PushBack_ok name s t f)).
  - cbn [write_json]. rewrite (bind_step _ _ _ _ _ (ArrayBegin_ok name t f)). cbn in Hw.
    match goal with |- (_ ← ?g l; _) _ = _ =>
      assert (H : forall f t, g l (W t f) = Ok (tt, W (t ++
          (fix go f l := match l with
                     | [] => []
                     | x :: l => sep f ++ written x ++ go (flag_after x) l
                     end) f l)
          ((fix go f l := match l with [] => f | x :: l => go (flag_after x) l end) f l))) end.
    { clear t f name. induction l as [|x l IHl]; intros f t; [by rewrite app_nil_r|].
      apply andb_true_iff in Hw as [Hx Hl]. inversion IH; subst.
      rewrite (bind_step _ _ _ _ _ (H1 Hx None t f)). rewrite (IHl H2 Hl).
      unfold key_tag, wtag. by rewrite <- !app_assoc. }
    rewrite (bind_step _ _ _ _ _ (H true _)). rewrite (bind_step _ _ _ _ _ (ArrayEnd_ok _ _)).
    unfold key_tag. cbn [container written flag_after]. unfold mret, M_ret. do 3 f_equal.
    rewrite <- !app_assoc. done.
  - cbn [write_json]. rewrite (bind_step _ _ _ _ _ (StructBegin_ok name t f)). cbn in Hw.
    match goal with |- (_ ← ?g ms; _) _ = _ =>
      assert (H : forall f t, g ms (W t f) = Ok (tt, W (t ++
          (fix go f (ms : list (bytes * json)) :=
             match ms with
             | [] => []
             | (k, x) :: ms => sep f ++ key_tag x (Some k) ++ written x ++ go (flag_after x) ms
             end) f ms)
          ((fix go f (ms : list (bytes * json)) :=
              match ms with [] => f | (_, x) :: ms => go (flag_after x) ms end) f ms))) end.
    { clear t f name. induction ms as [|[k x] ms IHl]; intros f t; [by rewrite app_nil_r|].
      apply andb_true_iff in Hw as [Hx Hl]. inversion IH; subst.
      rewrite (bind_step _ _ _ _ _ (H1 Hx (Some k) t f)). rewrite (IHl H2 Hl).
      by rewrite <- !app_assoc. }
    rewrite (bind_step _ _ _ _ _ (H true _)). rewrite (bind_step _ _ _ _ _ (StructEnd_ok _ _)).
    unfold key_tag. cbn [container written flag_after]. unfold mret, M_ret. do 3 f_equal.
    rewrite <- !app_assoc. done.
Qed.

(** ** The text that is meant *)

(** The characters of a string as the standard wants them. *)
Definition hex (d : Z) : Z := if d <? 10 then 48 + d else 87 + d.
Definition esc_char (c : Z) : bytes :=
  if c =? JSON_TAG_NAME_QUOTE then [JSON_ESCAPE; JSON_TAG_NAME_QUOTE]
  else if c =? JSON_ESCAPE then [JSON_ESCAPE; JSON_ESCAPE]
  else if c <? 32 then [JSON_ESCAPE; 117; 48; 48; hex (c / 16); hex (c mod 16)]
  else [c].
Definition escaped (s : bytes) : bytes := concat (map esc_char s).

Definition join (l : list bytes) : bytes :=
  match l with
  | [] => []
  | x :: l => x ++ concat (map (cons JSON_SEPARATOR_COMMA) l)
  end.

Fixpoint print_json (v : json) : bytes :=
  match v with
  | JNull => bytes_of_string "null"
  | JBool b => bytes_of_string (if b then "true" else "false")
  | JInt n => dec n
  | JNumber t => t
  | JString s => quoted (escaped s)
  | JArray l => JSON_ARRAY_BRACKET_begin :: join (map print_json l) ++ [JSON_ARRAY_BRACKET_end]
  | JObject ms =>
      JSON_CLASS_BRACE_begin ::
      join (map (fun m => wtag escaped (Some (fst m)) ++ print_json (snd m)) ms) ++ [JSON_CLASS_BRACE_end]
  end.

(** ** What is missing

    The characters by which the writer's text is too short: one for each backslash and
    five for each control character that is not escaped; in the names of containers one
    for each quote, too; all that stands for a zero and for what follows it in a string or a
    name; and a comma behind each container that ends empty. *)
Definition missing_char (raw : bool) (c : Z) : nat :=
  if c =? JSON_TAG_NAME_QUOTE then (if raw then 1 else 0)
  else if c =? JSON_ESCAPE then 1
  else if c <? 32 then 5 else 0.
Fixpoint missing_text (raw : bool) (s : bytes) : nat :=
  match s with
  | [] => 0
  | c :: s' =>
      if c =? 0 then length (escaped s) else (missing_char raw c + missing_text raw s')%nat
  end.
Definition missing_comma (i : nat) (f : bool) : nat := if f then (match i with O => 0 | _ => 1 end) else 0.
Fixpoint missing (v : json) : nat :=
  match v with
  | JString s => missing_text false s
  | JArray l =>
      (fix go i f l := match l with
                       | [] => 0
                       | x :: l => missing_comma i f + missing x + go 1%nat (flag_after x) l
                       end)%nat 0%nat true l
  | JObject ms =>
      (fix go i f (ms : list (bytes * json)) :=
         match ms with
         | [] => 0
         | (k, x) :: ms =>
             missing_comma i f + missing_text (container x) k + missing x + go 1%nat (flag_after x) ms
         end)%nat 0%nat true ms
  | _ => 0%nat
  end.

(** A text that is short by [n] characters, and right when nothing is missing. *)
Definition short (n : nat) (s t : bytes) : Prop := (length s + n)%nat = length t /\ (n = 0%nat -> s = t).

Lemma short_refl s : short 0 s s.
Proof. by split; [lia|]. Qed.
Lemma short_app n1 n2 s1 s2 t1 t2 :
  short n1 s1 t1 -> short n2 s2 t2 -> short (n1 + n2) (s1 ++ s2) (t1 ++ t2).
Proof.
  intros [L1 E1] [L2 E2]. split; [rewrite !length_app; lia|].
  intros H. by rewrite E1, E2 by lia.
Qed.
Lemma short_cons n c s t : short n s t -> short n (c :: s) (c :: t).
Proof. intros [L E]. split; [cbn; lia|]. intros H. by rewrite E. Qed.
Lemma short_iff n s t : short n s t -> s = t <-> n = 0%nat.
Proof. intros [L E]. split; [|done]. intros ->. lia. Qed.

Lemma short_text (raw : bool) s :
  short (missing_text raw s) ((if raw then c_str else EscapeString) s) (escaped s).
Proof.
  assert (H : (if raw then c_str else EscapeString) s
            = concat (map (fun c => (if negb raw && (JSON_TAG_NAME_QUOTE =? c) then [JSON_ESCAPE] else []) ++ [c]) (c_str s))).
  { destruct raw; cbn [negb andb]; unfold EscapeString.
    - induction (c_str s) as [|c l IH]; [done|]. cbn [map concat app]. by f_equal.
    - induction (c_str s) as [|c l IH]; cbn [escape_loop map concat]; [done|]. rewrite IH.
      by rewrite <- app_assoc. }
  rewrite H. clear H. induction s as [|c s IH]; [apply short_refl|].
  cbn [missing_text c_str]. destruct (Z.eqb_spec c 0) as [->|Hc].
  { split; [done|]. by intros ?%length_zero_iff_nil. }
  unfold escaped in *. cbn [map concat]. apply short_app; [|exact IH].
  unfold missing_char, esc_char.
  destruct (Z.eqb_spec c JSON_TAG_NAME_QUOTE) as [->|N].
  { destruct raw; [split; [done|discriminate]|apply short_refl]. }
  replace (JSON_TAG_NAME_QUOTE =? c) with false by lia. rewrite andb_false_r.
  destruct (c =? JSON_ESCAPE); [split; [done|discriminate]|]. destruct (c <? 32); [split; [done|discriminate]|apply short_refl].
Qed.

Lemma short_key v k :
  short (missing_text (container v) k) (key_tag v (Some k)) (wtag escaped (Some k)).
Proof.
  unfold key_tag, wtag. apply short_cons. rewrite <- (Nat.add_0_r (missing_text _ _)).
  apply short_app; [|apply short_refl]. apply (short_text (container v) k).
Qed.
Lemma short_quoted s : short (missing_text false s) (quoted (EscapeString s)) (quoted (escaped s)).
Proof.
  unfold quoted. apply short_cons. rewrite <- (Nat.add_0_r (missing_text _ _)).
  apply short_app; [|apply short_refl]. apply (short_text false s).
Qed.
Lemma short_bracket n a b s t : short n s t -> short n (a :: s ++ [b]) (a :: t ++ [b]).
Proof.
  intros H. apply short_cons. rewrite <- (Nat.add_0_r n). apply short_app; [done|apply short_refl].
Qed.

(** What is in front of the element number [i]. *)
Definition between (i : nat) : bytes := match i with O => [] | _ => [JSON_SEPARATOR_COMMA] end.
Lemma short_sep i f : (i = 0%nat -> f = true) -> short (missing_comma i f) (sep f) (between i).
Proof. destruct i, f; intros H; try apply short_refl; [by specialize (H eq_refl)|by split]. Qed.

(** Elements behind each other, from the number [i] on. *)
Definition joined (i : nat) (l : list bytes) : bytes :=
  match l with
  | [] => []
  | x :: l => between i ++ x ++ concat (map (cons JSON_SEPARATOR_COMMA) l)
  end.
Lemma joined_join l : joined 0 l = join l.
Proof. by destruct l. Qed.
Lemma joined_cons i x l : joined i (x :: l) = between i ++ x ++ joined 1 l.
Proof. by destruct l. Qed.

(** A decimal has no more digits than its bound. *)
Lemma length_dec n : -2147483648 <= n < 2147483648 -> (length (dec n) <= 11)%nat.
Proof.
  intros Hn. unfold dec. assert (Hp : 10 ^ Z.of_nat 10 = 10000000000) by reflexivity.
  destruct (Z.ltb_spec n 0); cbn [length].
  - pose proof (length_udec 9 20 (- n) []) as H1. cbn [length] in H1. lia.
  - pose proof (length_udec 9 20 n []) as H1. cbn [length] in H1. lia.
Qed.
Lemma snprintf_dec n : -2147483648 <= n < 2147483648 -> snprintf_d (16 - 1) n = dec n.
Proof. intros Hn. unfold snprintf_d. apply take_ge. pose proof (length_dec n Hn). lia. Qed.

Lemma written_short v : writable v = true -> short (missing v) (written v) (print_json v).
Proof.
  induction v as [|b|n|x|s|l IH|ms IH] using json_nested; intros Hw; try done.
  - cbn in Hw. change (written (JInt n)) with (snprintf_d (16 - 1) n).
    rewrite snprintf_dec by lia. apply short_refl.
  - apply short_quoted.
  - cbn [written print_json missing]. apply short_bracket. rewrite <- joined_join. cbn in Hw.
    match goal with |- short (?g 0%nat true l) (?h true l) _ =>
      assert (H : forall i f, (i = 0%nat -> f = true) ->
        short (g i f l) (h f l) (joined i (map print_json l))) end; [|by apply H].
    induction l as [|x l IHl]; intros i f Hf; [apply short_refl|].
    apply andb_true_iff in Hw as [Hx Hl]. inversion IH; subst. cbn [map].
    rewrite joined_cons, <- Nat.add_assoc.
    apply short_app; [by apply short_sep|]. apply short_app; [auto|]. by apply IHl.
  - cbn [written print_json missing]. apply short_bracket. rewrite <- joined_join. cbn in Hw.
    match goal with |- short (?g 0%nat true ms) (?h true ms) (joined _ (map ?p _)) =>
      assert (H : forall i f, (i = 0%nat -> f = true) ->
        short (g i f ms) (h f ms) (joined i (map p ms))) end; [|by apply H].
    induction ms as [|[k x] ms IHl]; intros i f Hf; [apply short_refl|].
    apply andb_true_iff in Hw as [Hx Hl]. inversion IH; subst. cbn [map fst snd].
    rewrite joined_cons, <- !Nat.add_assoc, <- (app_assoc (wtag _ _)).
    apply short_app; [by apply short_sep|]. apply short_app; [apply short_key|].
    apply short_app; [auto|]. by apply IHl.
Qed.

(** ** Reading *)

Section Reading.
Context {JP : JsonParser}.

(** The object reached by entering members one after the other. *)
Fixpoint at_path (ms : list (bytes * json)) (keys : list bytes) : option (list (bytes * json)) :=
  match keys with
  | [] => Some ms
  | k :: keys =>
      match find_member k ms with Some (JObject ms') => at_path ms' keys | _ => None end
  end.
Fixpoint enter_all (keys : list bytes) : Mr (list Z) :=
  match keys with
  | [] => mret []
  | k :: keys => r ← Enter (Some k); rs ← enter_all keys; mret (r :: rs)
  end.

(** A reader that points to an object. *)
Definition points_to (r : JsonReader) (ms : list (bytes * json)) : Prop :=
  curr r = Ok (JObject ms, r).

Lemma Enter_ok r ms k ms' :
  points_to r ms -> find_member k ms = Some (JObject ms') ->
  exists r', Enter (Some k) r = Ok (0, r') /\ points_to r' ms' /\ docu_ r' = docu_ r.
Proof using.
  intros Hr Hk. unfold Enter. rewrite (bind_step _ _ _ _ _ Hr).
  rewrite (bind_step _ _ r (Some (JObject ms')) r) by (unfold lift; cbn; by rewrite Hk).
  eexists. split; [done|]. by split.
Qed.

Lemma enter_all_ok keys : forall r ms ms',
  points_to r ms -> at_path ms keys = Some ms' ->
  exists r', enter_all keys r = Ok (map (fun _ => 0) keys, r') /\ points_to r' ms'.
Proof using.
  induction keys as [|k keys IH]; intros r ms ms' Hr Hp.
  - injection Hp as <-. by exists r.
  - cbn [at_path] in Hp. destruct (find_member k ms) as [[]|] eqn:Hk; try done.
    destruct (Enter_ok r ms k ms0 Hr Hk) as (r1 & E1 & H1 & _).
    destruct (IH r1 _ _ H1 Hp) as (r' & E2 & H2). exists r'. split; [|done].
    cbn [enter_all]. rewrite (bind_step _ _ _ _ _ E1). by rewrite (bind_step _ _ _ _ _ E2).
Qed.

(** What is inside of a value without missing characters misses none. *)
Lemma missing_member ms : missing (JObject ms) = 0%nat ->
  forall k x, find_member k ms = Some x -> missing x = 0%nat.
Proof using.
  cbn [missing]. match goal with |- ?g 0%nat true ms = _ -> _ =>
    assert (H : forall i f, g i f ms = 0%nat ->
      forall k x, find_member k ms = Some x -> missing x = 0%nat) end; [|exact (H 0%nat true)].
  induction ms as [|[k0 x0] ms IH]; intros i f H k x Hf; [done|].
  cbn [find_member] in Hf. cbn in H.
  case_bool_decide; [injection Hf as <-; lia|]. eapply (IH 1%nat (flag_after x0)); [lia|done].
Qed.
Lemma missing_path keys : forall ms ms',
  missing (JObject ms) = 0%nat -> at_path ms keys = Some ms' -> missing (JObject ms') = 0%nat.
Proof using.
  induction keys as [|k keys IH]; intros ms ms' H Hp; [by injection Hp as <-|].
  cbn [at_path] in Hp. destruct (find_member k ms) as [[]|] eqn:Hk; try done.
  eapply IH; [|done]. by apply (missing_member ms H k).
Qed.

Lemma c_str_whole s : missing_text false s = 0%nat -> c_str s = s.
Proof using.
  induction s as [|c s IH]; [done|]. cbn [missing_text c_str].
  destruct (Z.eqb_spec c 0) as [->|]; [by intros ?%length_zero_iff_nil|].
  intros H. apply Nat.eq_add_0 in H as [_ H]. f_equal. by apply IH.
Qed.
End Reading.

(** ** Properties *)

(** C25: [json_writer_exact]. What a program writes for a value is the JSON text of the value
    exactly when no character is missing, and it is short by exactly the characters the
    writer leaves out: backslashes and control characters are not escaped, the quotes in
    the names of structures and arrays neither, a string or a name is cut at its first zero,
    and behind an empty structure or array, or one that ends with one, there is no comma. *)
Theorem json_writer_exact v :
  writable v = true ->
  exists w, write_json None v (JsonWriter_new (Some [])) = Ok (tt, w) /\
    exists text, ptext_ w = Some text /\
      (length text + missing v = length (print_json v))%nat /\
      (text = print_json v <-> missing v = 0%nat).
Proof.
  intros Hw. rewrite (write_json_ok v Hw None [] true : _ (JsonWriter_new (Some [])) = _).
  pose proof (written_short v Hw) as Hs. eexists. split; [done|]. exists (written v).
  assert (E : [] ++ sep true ++ key_tag v None ++ written v = written v) by (by unfold key_tag, wtag).
  split; [cbn [ptext_ W]; by rewrite E|]. split; [apply Hs|by apply short_iff].
Qed.

(** [int_text]. The buffer of 16 characters holds every [int]: the text that is appended
    is the whole decimal, at most 11 characters, and reads back as the number. *)
Theorem int_text key n t first :
  -2147483648 <= n < 2147483648 ->
  PushBackInt key n (W t first)
  = Ok (0, W (t ++ sep first ++ wtag EscapeString key ++ dec n) false) /\
  (length (dec n) <= 11)%nat /\ atoi (dec n) = n.
Proof.
  intros Hn. rewrite PushBackInt_ok, snprintf_dec by done. split; [done|].
  split; [by apply length_dec|]. pose proof (atoi_dec n [] Hn I) as H. by rewrite app_nil_r in H.
Qed.

(** C34: [json_roundtrip]. What was written can be read: when nothing is missing in the text
    of an object and the library parses the text of a value to the value, the reader gets
    from the writer's text exactly the strings and numbers that were written, on every
    path of members. *)
Theorem json_roundtrip {JP : JsonParser} ms keys ms' :
  let v := JObject ms in
  writable v = true -> missing v = 0%nat -> json_parse (print_json v) = Some v ->
  at_path ms keys = Some ms' ->
  exists w text r r',
    write_json None v (JsonWriter_new (Some [])) = Ok (tt, w) /\ ptext_ w = Some text /\
    Parse (Some text) JsonReader_new = Ok (0, r) /\
    enter_all keys r = Ok (map (fun _ => 0) keys, r') /\
    (forall k s, find_member k ms' = Some (JString s) ->
       GetValueString (Some k) r' = Ok ((0, Some s), r')) /\
    (forall k n, find_member k ms' = Some (JInt n) ->
       GetValueInt (Some k) false r' = Ok ((0, Some n), r')).
Proof.
  intros v Hw Hm Hp Hpath. pose proof (written_short v Hw) as [_ Hs].
  set (r := {| docu_ := v; curr_value_ := Some Docu; prev_value_ := None |}).
  destruct (enter_all_ok keys r ms ms') as (r' & Er & Hr'); [done|done|].
  eexists _, (print_json v), r, r'. split; [exact (write_json_ok v Hw None [] true)|].
  split; [by cbn [ptext_ W]; rewrite Hs|].
  split; [unfold Parse; rewrite (bind_step (nonnull _) _ _ (print_json v) JsonReader_new) by done;
          by rewrite Hp|].
  split; [done|]. pose proof (missing_path keys ms ms' Hm Hpath) as Hm'. split.
  - intros k s Hk. unfold GetValueString. rewrite (bind_step _ _ _ _ _ Hr').
    rewrite (bind_step _ _ r' (Some (JString s)) r') by (unfold lift; cbn; by rewrite Hk).
    rewrite c_str_whole; [done|]. exact (missing_member ms' Hm' k _ Hk).
  - intros k n Hk. unfold GetValueInt. rewrite (bind_step _ _ _ _ _ Hr').
    by rewrite (bind_step _ _ r' (Some (JInt n)) r') by (unfold lift; cbn; by rewrite Hk).
Qed.

(** A number in an array can be read at every position but the first:
    position 0 is refused like a null pointer, a position behind the end fails an
    assertion of the library, and the number of elements of a member that is not there
    is reported as found without being set. *)
Theorem reader_positions r ms k l pos :
  points_to r ms -> find_member k ms = Some (JArray l) -> 0 <= pos < 4294967296 ->
  (pos = 0 -> GetValueIntAt (Some k) false pos r = Ok ((-1, None), r)) /\
  (forall n, 0 < pos -> l !! Z.to_nat pos = Some (JInt n) ->
     GetValueIntAt (Some k) false pos r = Ok ((0, Some n), r)) /\
  (0 < pos -> Z.of_nat (length l) <= pos ->
     GetValueIntAt (Some k) false pos r = Fault AssertFailed) /\
  (forall k', find_member k' ms = None -> GetCount (Some k') false r = Ok ((0, None), r)).
Proof.
  intros Hr Hk Hpos.
  assert (E : 0 < pos -> GetValueIntAt (Some k) false pos r
    = match l !! Z.to_nat pos with Some (JInt n) => Ok ((0, Some n), r) | _ => Fault AssertFailed end).
  { intros H. unfold GetValueIntAt. destruct (Z.eqb_spec 0 pos); [lia|]. cbn [orb].
    rewrite (bind_step _ _ _ _ _ Hr).
    rewrite (bind_step _ _ r (Some (JArray l)) r) by (unfold lift; cbn; by rewrite Hk).
    rewrite u32_id by lia. by destruct (l !! Z.to_nat pos) as [[]|]. }
  split_and!.
  - by intros ->.
  - intros n H Hl. by rewrite E, Hl.
  - intros H Hl. by rewrite E, lookup_ge_None_2 by lia.
  - intros k' Hk'. unfold GetCount. rewrite (bind_step _ _ _ _ _ Hr).
    by rewrite (bind_step _ _ r None r) by (unfold lift; cbn; by rewrite Hk').
Qed.

(** The writer of the singleton has no text and refuses everything. *)
Lemma singleton_writer_refuses name value n :
  let w := JsonWriterSingleton_instance in
  StructBegin name w = Ok (-1, w) /\ StructEnd w = Ok (-1, w) /\
  ArrayBegin name w = Ok (-1, w) /\ ArrayEnd w = Ok (-1, w) /\
  PushBack name value w = Ok (-1, w) /\ PushBackInt name n w = Ok (-1, w).
Proof. done. Qed.

(** ** A concrete document *)

(** An object with a structure of a string and a number, and an array. *)
Definition demo_members : list (bytes * json) :=
  [ ([97], JObject [ ([115], JString [120; 34; 121]); ([110], JInt (-7)) ]);
    ([108], JArray [JInt 1; JInt 2]) ].
Definition demo_parse : JsonParser := fun text =>
  if bool_decide (text = print_json (JObject demo_members)) then Some (JObject demo_members) else None.

Lemma json_writer_exact_witness :
  exists w, write_json None (JArray [JArray []; JInt 1]) (JsonWriter_new (Some [])) = Ok (tt, w) /\
    exists text, ptext_ w = Some text /\ (length text + 1 = 6)%nat /\
      (text = bytes_of_string "[[],1]"%string <-> 1 = 0)%nat.
Proof. exact (json_writer_exact (JArray [JArray []; JInt 1]) eq_refl). Defined.

(** A string with a zero inside: what follows it is lost. *)
Lemma zero_cuts :
  write_json None (JString [97; 0; 98]) (JsonWriter_new (Some []))
  = Ok (tt, W [34; 97; 34] false) /\
  missing (JString [97; 0; 98]) = 7%nat.
Proof. by split. Qed.

Lemma int_text_witness :
  PushBackInt None (-2147483648) (W [] true)
  = Ok (0, W (bytes_of_string "-2147483648"%string) false) /\
  (length (dec (-2147483648)) <= 11)%nat /\ atoi (dec (-2147483648)) = -2147483648.
Proof. apply (int_text None (-2147483648) [] true). lia. Defined.

Lemma json_roundtrip_witness :
  exists w text r r',
    write_json None (JObject demo_members) (JsonWriter_new (Some [])) = Ok (tt, w) /\
    ptext_ w = Some text /\ @Parse demo_parse (Some text) JsonReader_new = Ok (0, r) /\
    enter_all [ [97] ] r = Ok ([0], r') /\
    GetValueString (Some [115]) r' = Ok ((0, Some [120; 34; 121]), r') /\
    GetValueInt (Some [110]) false r' = Ok ((0, Some (-7)), r').
Proof.
  destruct (json_roundtrip (JP := demo_parse) demo_members [ [97] ]
    [ ([115], JString [120; 34; 121]); ([110], JInt (-7)) ])
    as (w & text & r & r' & H1 & H2 & H3 & H4 & H5 & H6); try done.
  exists w, text, r, r'. repeat (split; [done|]). split; [by apply H5|by apply H6].
Defined.

Lemma reader_positions_witness :
  let r := {| docu_ := JObject demo_members; curr_value_ := Some Docu; prev_value_ := None |} in
  GetValueIntAt (Some [108]) false 0 r = Ok ((-1, None), r) /\
  GetValueIntAt (Some [108]) false 1 r = Ok ((0, Some 2), r) /\
  GetValueIntAt (Some [108]) false 2 r = Fault AssertFailed /\
  GetCount (Some [122]) false r = Ok ((0, None), r).
Proof.
  intros r. assert (Hr : points_to r demo_members) by done.
  pose proof (reader_positions r demo_members [108] [JInt 1; JInt 2]) as H.
  split; [by apply (H 0)|]. split; [by apply (H 1)|]. split; [by apply (H 2)|]. by apply (H 0).
Defined.
